(* ===== verification/_CoqProject ===== *)
-Q . S2P
Prelude.v
ErrorCodes.v
CheckpointContracts.v
Fsm.v
SessionTypes.v
Budget.v
Text.v
Ordering.v
Doubles.v
Checkpoint.v
DurableStore.v
CheckpointStore.v
CheckpointManager.v
SessionStore.v
SessionManager.v
ResumeFlow.v
Scheduling.v
RecoveryContracts.v
SafeMode.v
Recovery.v
RecoveryFlow.v
EventBus.v
FlatJson.v
ToolContracts.v
ToolValidation.v
ToolRegistry.v
ToolRouting.v
CapabilityCache.v
WorkflowBatches.v
Workflow.v
ToolPipeline.v
Compensation.v
AgentContracts.v
AccessTypes.v
Admission.v
ReplayCache.v
Digest.v
TaskRegistry.v
Identity.v
PolicyRules.v
PolicyManager.v
PolicyLoader.v
AccessPolicy.v
RequestChecks.v
RuntimeBridge.v
SubmitPipeline.v
DaemonPayloads.v
DaemonCommands.v
DaemonPipeline.v
GatewayLifecycle.v
FrameJson.v
FrameCodec.v
DaemonConnection.v
CliClient.v
MultiAgentContracts.v
MultiAgent.v
WorkingMemory.v
MemoryContracts.v
MemoryConflict.v
MemoryRows.v
MemoryStore.v
Writeback.v
ContextBudget.v
SecretTypes.v
SecretLeases.v
SecretBackends.v
SecretRotation.v
SecretManager.v
SecretImport.v
LlmConfig.v
ModelRouter.v
AdapterRegistry.v
LlmContracts.v
StreamSessions.v
LlmExecutor.v
LlmStream.v
LlmNormalize.v
LlmManager.v
