(* ===== verification/Prelude.v ===== *)
(** * The DASALL agent

    A model of the parts of DASALL that decide: the runtime, which takes one request
    through its turn (runtime/ under src/); the tool layer, which admits, routes, runs and
    undoes the calls of tools (tools/); the access layer with the daemon and its command
    line client, which decide who may ask for what, and whether a request runs
    (access/, apps/daemon/, apps/cli/); the security policy they ask (infra/src/policy/);
    the coordination of several agents (multi_agent/); the memory, which keeps what a
    turn leaves (memory/); the store of secrets (infra/src/secret/); and the choice of
    models with the state of their adapters and streams (llm/); with the contract objects of
    contracts/include/ that they check and store. Source paths below are relative to src/.

    ** The program

    An agent turn is a walk of a state machine. runtime/src/AgentOrchestrator.cpp
    asks the machine for one transition after another, each with the guard facts
    that justify it; a budget controller counts what the turn spends; where the
    turn stops for a user or a tool, a checkpoint is built from the transition's
    outcome, saved, and bound to the session, so that a later process can load
    both and resume; a tool round goes through the scheduler and a cancellation
    token; a failed tool round is handed to the recovery manager, and what it
    refuses to repeat to the safe mode controller, which names the terminal state.
    An event bus carries what happened to observers. The components call each
    other through values: only the two managers' durable stores share state
    outside the process, the disk.

    A request comes to the daemon as a frame of JSON from the command line client, or to
    the gateway as a packet. Its peer is made a subject and authenticated, the policy
    gate asks the security policy, the validator and the normalizer make a request of
    the packet, and access/src/AdmissionController.cpp gives it a ticket or
    recognises it as one that is in flight or done; ResultReplayCache.cpp keeps the
    results for repetitions, and AsyncTaskRegistry.cpp the receipts of requests
    that go on after their caller was answered, with a signed token that proves
    whose they are. These calls run on many threads that share the controller, the
    registry and the state of the daemon. Within a turn, a tool call goes through
    tools/src/ToolManager.cpp: the tool's descriptor is looked up in the registry,
    the request is validated into a call, the policy gate admits it for a domain,
    the route selector picks a lane by the lanes' health and what the cache knows
    of the servers, and the call runs with a permit of that lane: in the workflow
    engine, which lays a plan out in batches and runs tools in turn, or in an
    executor. A call that left effects comes with hints, and a compensation request
    made from a hint goes through a pipeline of its own. What workers did for a task is
    gathered by multi_agent/src/MultiAgentCoordinator.cpp, which may ask the recovery
    manager for another round. Before a turn the memory divides the tokens of its
    context; behind it, memory/src/writeback/WritebackCoordinator.cpp writes the turn,
    its summary, facts and experiences to an SQLite store, where the conflict resolver
    decides about facts that contradict each other, and to the board of working memory.
    The keys of providers are secrets: infra/src/secret/SecretManagerFacade.cpp gives out
    handles, and the bytes behind a handle under a lease; a rotation gives a secret another
    version, and a bootstrap writer brings secrets into the files of the backend.
    A model call asks llm/src/route/ModelRouter.cpp for the routes that may serve it, best
    first; the adapters behind them are in AdapterRegistry.cpp, which counts their failures
    and tells the router what is blocked; a streamed answer is a session of
    llm/src/stream/StreamSessionRegistry.cpp.

    ** The files

    Generic:
    - [Prelude] (this file): machine integers, the [result] monad and its notation,
      the early-return notation [let?], tactics and hints, and lemmas on
      lists and strings.
    - [ErrorCodes]: runtime/include/RuntimeErrorCode.h, contracts/include/error/ResultCode.h.
    - [Text]: the hex, decimal and key=value helpers both durable stores define, and the
      case and the parts of texts.
    - [Ordering]: the comparison functions of the code, and std::sort as the class
      [StdSort], whose order of equal elements is left open.
    - [Doubles]: IEEE doubles as the [spec_float]s of the Standard Library, and their text.
    - [DurableStore]: the write-to-temporary-then-rename protocol of both managers
      and the class [DurableStore] that a record format implements: its writer
      and reader with the laws between them.

    State machine and budget:
    - [Fsm]: runtime/src/fsm/AgentFsm.cpp and TransitionGuardTable.cpp.
      [transition] is AgentFsm::transition, its state the current state alone;
      [transition_rules] is the table. The specifications are inductive relations stated
      apart from the table: [design_edge], the rows of section 6.7.4 of the design;
      [amended_edge], the rows as RT-TODO-031 amends them; [edge], the edges the
      controller takes.
    - [Budget]: runtime/src/budget/BudgetController.cpp ([initialize], [restore], [consume],
      [can_continue], [can_replan], [can_call_tool]).

    Persistence:
    - [CheckpointContracts], [Checkpoint]: the budget and the checkpoint contracts with
      their guards, the mapping of states, [evaluate_checkpoint_consistency] and [make_resume_plan].
    - [CheckpointStore], [CheckpointManager]: the record format and the operations of
      runtime/src/checkpoint/CheckpointManager.cpp.
    - [SessionTypes], [SessionStore], [SessionManager]: the same for
      runtime/src/session/SessionManager.cpp.
    - [ResumeFlow]: both managers together across a restart.

    Execution and recovery:
    - [Scheduling]: runtime/src/scheduling/Scheduler.cpp and
      runtime/include/CancellationToken.h, tokens as handles into a store of shared states.
    - [RecoveryContracts]: the recovery request, outcome, reflection decision,
      observation and error contracts and their layered guards.
    - [SafeMode]: runtime/src/safety/SafeModeController.cpp.
    - [Recovery]: runtime/src/recovery/RecoveryManager.cpp.
    - [RecoveryFlow]: the recovery round of AgentOrchestrator.cpp, which uses the
      state machine, both managers, the recovery manager and the safe mode
      controller.
    - [EventBus]: runtime/src/telemetry/RuntimeEventBus.cpp.

    Access:
    - [AgentContracts]: contracts/include/agent/AgentRequest.h, AgentResult.h and guards.
    - [AccessTypes]: access/include/AccessTypes.h and AccessErrors.h, with
      access/src/ProtocolErrorMapper.cpp.
    - [Admission], [ReplayCache]: access/src/AdmissionController.cpp and
      ResultReplayCache.cpp.
    - [Digest], [TaskRegistry]: access/src/AsyncTaskRegistry.cpp, the digests and
      encodings of its tokens ([sha256_digest], [hmac_sha256_base64url],
      [base64url_encode]) and its receipts ([register_async_accept], [query_receipt],
      [validate_ownership], [mark_completed], [rotate_ownership_keys]).
    - [Identity]: access/src/SubjectResolver.cpp and AuthenticatorChain.cpp.
    - [RequestChecks]: access/src/RequestValidator.cpp and RequestNormalizer.cpp.
    - [RuntimeBridge]: access/src/RuntimeBridge.cpp and ResultPublisher.cpp.
    - [SubmitPipeline]: the pipeline of access/src/AccessGatewayFactory.cpp, a submission
      as steps around the call of the runtime ([submit_call], [gateway_call]).
    - [GatewayLifecycle]: access/src/AccessGateway.cpp, its calls as steps.

    Security policy:
    - [PolicyRules]: infra/include/policy/PolicyTypes.h, and the validator, the conflict
      resolver and the projector of infra/src/policy/.
    - [PolicyManager], [PolicyLoader]: SecurityPolicyManager.cpp with its store of
      snapshots, and PolicyLoader.cpp.
    - [AccessPolicy]: access/src/AccessPolicyGate.cpp, which asks it.

    Daemon and client:
    - [DaemonPayloads], [DaemonCommands], [DaemonPipeline]: the commands of the daemon
      (access/src/daemon/, apps/cli/src/CliRequestBuilder.h) and its pipeline.
    - [FrameJson], [FrameCodec]: access/src/daemon/DaemonFrameCodec.cpp, the reader of JSON
      and both frames.
    - [DaemonConnection]: a connection, the lifecycle (apps/daemon/src/) and the queue.
    - [CliClient]: apps/cli/src/, the client and the exchange from end to end, over the
      channel of platform/src/linux/UnixIpcProvider.cpp with its limit on what is sent.

    Several agents:
    - [MultiAgentContracts], [MultiAgent]: the contracts and
      multi_agent/src/MultiAgentCoordinator.cpp and MultiAgentRuntimeFold.cpp.

    Memory:
    - [WorkingMemory]: memory/src/working/WorkingMemoryBoard.cpp.
    - [MemoryContracts]: contracts/include/memory/.
    - [MemoryConflict]: memory/src/conflict/MemoryConflictResolver.cpp.
    - [MemoryRows], [MemoryStore]: memory/src/store/sqlite/: the columns of a row, the
      writes and the transaction. SQLite is the class [Sqlite], what it documents of
      transactions the class [SqliteLaws].
    - [Writeback]: memory/src/writeback/WritebackCoordinator.cpp.
    - [ContextBudget]: memory/src/context/BudgetAllocator.cpp.

    Secrets (infra/include/secret/, infra/src/secret/):
    - [SecretTypes]: the data, the errors and the buffer that wipes itself.
    - [SecretLeases]: the registry of leases.
    - [SecretBackends]: ISecretBackend.h as the class [SecretBackend] with the laws
      [SecretBackendLaws], and its instances MockSecretBackend.cpp and FileSecretBackend.cpp.
    - [SecretRotation], [SecretManager]: SecretRotationCoordinator.cpp and
      SecretManagerFacade.cpp, over any backend.
    - [SecretImport]: SecretBootstrapWriter.cpp, which writes what the backend reads.

    Models (llm/):
    - [LlmConfig]: llm/src/LLMSubsystemConfig.cpp and the snapshot of the catalog in
      provider/ProviderCatalogRepository.cpp.
    - [ModelRouter]: llm/src/route/ModelRouter.cpp.
    - [AdapterRegistry]: llm/src/route/AdapterRegistry.cpp. The specification is the history
      of every route ([history_step]).
    - [LlmContracts]: contracts/include/llm/, the request of contracts/include/prompt/, the
      data of the prompt pipeline, and its interface as the class [PromptPipelineInterface].
    - [StreamSessions]: llm/src/stream/StreamSessionRegistry.cpp.
    - [LlmExecutor], [LlmStream]: the LLMCallExecutor of llm/src/LLMManager.cpp as a machine
      of calls that share a registry and a count, and the observer of a streamed attempt.
    - [LlmNormalize]: llm/src/execution/ResponseNormalizer.cpp and UsageAggregator.cpp.
    - [LlmManager]: the LLMManager itself, over any instance of the interface.

    Tools:
    - [ToolContracts]: contracts/include/tool/ and the four guards.
    - [ToolValidation]: tools/src/validation/ToolValidator.cpp.
    - [ToolRegistry]: tools/src/registry/ToolRegistry.cpp and
      MCPBindingRegistry.cpp; a Section is the index by owner that both keep. The
      specification is a catalog of owned tools and bindings ([catalog_step]).
    - [ToolRouting]: tools/src/policy/ToolPolicyGate.cpp,
      execution/ExecutorLanePool.cpp and route/ToolRouteSelector.cpp.
    - [CapabilityCache]: tools/src/mcp/CapabilityCache.cpp.
    - [FlatJson], [WorkflowBatches], [Workflow]: tools/src/execution/WorkflowEngine.cpp
      (its JSON helpers, build_batches, and the run) and CompensationLedger.cpp.
    - [ToolPipeline]: the invocation pipeline of tools/src/ToolManager.cpp,
      [plan_call] up to the route and [run_invoke_pipeline] as a whole.
    - [Compensation]: its compensation pipeline, with the target references of
      tools/src/bridge/ToolServiceBridge.cpp.

    ** How the code is read

    An object is a record of its members, a method a function of it: what the
    method changes it returns, next to its result. A method that holds the
    object's lock throughout is one function; where the lock is released between
    steps (the event bus) the steps are separate and the theorems are about any
    interleaving of them. An [int64_t], [uint32_t] or [size_t] is a [Z], with
    [u32], [u64], [s64] at the casts and the arithmetic that can wrap; signed
    overflow and the dereference of an empty optional, which the language leaves
    undefined, give [None]. Strings are sequences of bytes. The clock is an
    argument. An unordered_map with string keys is a [gmap].

    The disk is a map from paths to contents. What the operating system does to a
    write is an argument, [IoOutcome]: whether the directory is made, the file
    opened and renamed, and how many bytes are stored; nothing is assumed of it
    except where a theorem asks for a sound write ([io_sound]). The code never
    looks at the stream's state, so a short write is a value of this type too.

    Most loops of the source run over lists or over a counter read from a record, and
    the models recurse on the list or on that counter as a [nat] (the attempts of a
    writeback are three, the turns of the loop that trims a board the number of its
    slots). Seven use fuel:
    [to_string] 20 digits, enough for 64 bits ([stoull_to_string]); the padding of
    SHA-256 64 zeros and its blocks the length of the message ([sha256_total]);
    [parse_members] the length of the text ([parse_members_fuel]); the reader of frames one
    more than the length of the text ([reader_fuel_enough]); the batches of
    a plan the number of its steps ([build_batches_complete]); and a call of a model five
    steps for an attempt and one more ([execute_returns]).

    A plan loader, an executor and a projector are functions on an abstract [World]
    that the clock also reads. The order in which an unordered container is visited
    is an argument wherever the result could depend on it. What a string holds after
    it was moved is an argument too.

    ** What is shown

    - The state machine accepts exactly the requests that the design as amended lists, but
      for those that leave SafeMode, gives the checkpoint strategy of the design's row, and
      names the first failing test otherwise; in any run a tool call is authorised
      and a completed turn audited; every state but SafeMode can return to Idle,
      and no request leaves SafeMode, although the table has a rule for it.
    - The budget snapshot is valid in every run of in-range operations, decisions
      follow the counters, exhaustion is permanent, a snapshot restores the
      controller; outside the range a counter wraps.
    - A checkpoint built from an accepted transition is consistent; the consistency
      check agrees with the contract's guard on named states; a saved checkpoint or
      turn is loaded by a new process; a process that dies between two system calls of a
      save leaves the old record or what was stored of the new one (all of it, unless a full
      disk cut it short), and the calls are the steps of [publish_ops]; a loss of power
      is not covered, as nothing is flushed; a save does not change other records; and a paused turn
      resumes in the state it stopped in. Failures are stated too: what a failed or
      short write leaves in memory and on disk, and a corrupt session record.
    - The scheduler's queues stay within their limits, ordered and of one class, no
      ticket is served twice and a worker takes the oldest ticket of the most
      urgent class; a worker budget that passes twice leases one worker twice.
    - A cancelled token stays cancelled for every holder.
    - The recovery manager admits exactly the replayable requests, answers every
      request, and applies what it admitted; the guard never dereferences an
      empty field. A recovery round from Reflecting ends in one of three ways,
      the safe terminal through transitions that the state machine accepts.
    - A controller in an emergency mode returns to Normal only with clearance; a
      budget trigger can take it from SafeMode to Degraded.
    - No event of the bus is lost except counted non-audit ones, and none is
      reordered.

    - Admission: a request inside its window is admitted once and then answered by
      its conflict or its receipt; after the window it can be admitted beside
      itself. The tickets in flight are bounded and distinct.
    - The replay cache implements a list in the order of last use. Tokens come back
      from their text; a token is accepted exactly for its owner, in its lifetime,
      under the current or the previous key (and NULs behind it, in multiples of
      256, go unnoticed); a receipt is found until it expires.
    - The guards of tool objects dereference no empty field and are what they say;
      validation builds well-formed calls only. The registry implements its catalog,
      and a plugin changes its own tools only; bindings outlive their tools. The
      gate, the lanes and the choice of a route are characterised exactly, and the
      capability cache is a function of its history.
    - Every workflow plan gets an answer; its batches are the earliest order that
      respects the dependencies; a run follows them up to the first failure, and its
      hints undo the last step first.
    - A tool or a compensation runs only for a request that was validated, admitted
      and given a permit, and gives the permit back. The domain that was admitted is
      not always the one that runs, and the safe mode has no effect. A hint leads
      back to its tool when the name has no slash.

    - The access pipelines ask the runtime about a packet exactly when it is
      authenticated, allowed, valid and admitted, and it is asked the request built of that
      packet; a repetition is not carried out again, and no ticket is lost, however the calls interleave. Which subject a packet is
      accepted as, and what the gate admits, is characterised exactly.
    - The decision of the security policy is that of the best rule; its store is a log of
      valid snapshots under any interleaving; a patch is applied exactly when it resolves.
    - A command of the client reaches the gateway as it was meant and its answer comes
      back, through both encodings, within the limits of the channel; a refused command ends
      with the exit code of the access error that its reason names, and with 5 where it names
      none, although the design has 4 for every denial; what an untrusted caller gets; what becomes of the
      requests under way at a shutdown; and that one unreadable frame ends the service.
    - A failed round of workers is repeated exactly when the recovery manager may; the
      hints lead back to the calls that are to be undone.
    - A slot of working memory reads like a map but for what a full session drops. The
      resolver decides as its comparisons demand. The parts of a context share no more than
      the budget, and are trimmed in order, to the budget exactly. What the store writes
      it reads back, for records without NULs and empty optional lists, with two exceptions.
      A writeback that reports an error has written nothing if every transaction it began did
      begin, and may have stored part of the turn otherwise; one that reports none has stored
      the turn, whatever fails behind it.
    - A lease is refused once its secret was revoked, whatever is called in between. A
      rotation leaves a lawful backend at the version it reports or as it was, unless the
      rollback fails as well; in place it never succeeds on either backend. What is imported
      comes back from the manager byte for byte when it is written as hexadecimal. Trees of
      files are without symbolic links, and clock and lifetimes are added without overflow.
    - The router answers with every route it is offered, once and best first, whatever the
      order of its map and its sort; the registry of adapters is what the history of its
      routes says, and a route that failures blocked stays so. The sessions of streams stay
      within their limits and take only the states that follow. The guards of requests and
      responses dereference no empty field and are what they say.
    - However calls of models interleave, no more hold a slot than may, and each asks again
      only within its budget. An attempt that streams captures how its stream ended and leaves
      no session behind, if the adapter names one. The manager tries the routes of the router
      in order, up to the first that answers, and every earlier one was asked and did not
      answer; it asks with nothing but what the prompt pipeline
      has let through; and it answers every request, if the adapters that name a usage count
      its tokens.

    ** What is not modelled

    Logging, telemetry, tracing, metrics and audit hooks, which read the state and do
    not change it, and the parts that only wire others together (the factories, the
    composition roots, configuration adapters). The rest of AgentOrchestrator.cpp (the
    unary and live paths, continuation from a checkpoint), which is a long sequence of calls
    through ports to cognition, llm and knowledge, with AgentFacade.cpp and the health
    probe. Of the tools the executor lanes, the MCP transport, the projection of results,
    the plugin bridges and the skills; of access the adapter of the terminal interface; of
    the client the parser of arguments and the formatter of output; of the memory the
    facade, the collection and assembly of a context, the queries' scores, maintenance,
    compression, embeddings and the vector index; of the secrets the bridge to the audit
    and the probe; of llm the parts of the prompt pipeline, the provider adapters, the
    transport and the loading of the catalog. The layers cognition, knowledge,
    services, profiles, platform and the rest of infra, whose work is in large part the text of
    prompts and models, the network, files and the operating system; of them only what the
    modelled parts read is here. The gateway's and the terminal's processes. *)

From stdpp Require Export base tactics list option gmap sets strings relations.
From Stdlib Require Export ZArith Lia Ascii.

#[export] Set Default Goal Selector "!".

Open Scope string_scope.
Open Scope list_scope.
Open Scope Z_scope.

(** ** Machine integers

    A w-bit unsigned integer is a [Z] kept in range by the code's own
    wrap-around; a signed one is a [Z] in two's complement. *)

Definition u32 (z : Z) : Z := z mod 2 ^ 32.
Definition u64 (z : Z) : Z := z mod 2 ^ 64.
Definition s64 (z : Z) : Z := (z + 2 ^ 63) mod 2 ^ 64 - 2 ^ 63.

Definition s32 (z : Z) : Z := (z + 2 ^ 31) mod 2 ^ 32 - 2 ^ 31.

Definition in_u32 (z : Z) : Prop := 0 <= z < 2 ^ 32.
Definition in_u64 (z : Z) : Prop := 0 <= z < 2 ^ 64.
Definition in_s64 (z : Z) : Prop := - 2 ^ 63 <= z < 2 ^ 63.
Definition in_s32 (z : Z) : Prop := - 2 ^ 31 <= z < 2 ^ 31.

Definition s64_fits (z : Z) : bool := (- 2 ^ 63 <=? z) && (z <? 2 ^ 63).

Lemma u32_id z : in_u32 z -> u32 z = z.
Proof. intros ?. by apply Z.mod_small. Qed.

Lemma u64_id z : in_u64 z -> u64 z = z.
Proof. intros ?. by apply Z.mod_small. Qed.

Lemma s64_id z : in_s64 z -> s64 z = z.
Proof. unfold in_s64, s64. intros ?. rewrite Z.mod_small; lia. Qed.

(** An [int] stored as an unsigned 64-bit value and cast back. *)
Lemma s32_u32_u64 z : in_s32 z -> s32 (u32 (u64 z)) = z.
Proof.
  unfold in_s32, s32, u32, u64. intros H.
  rewrite Z.mod_mod_divide by (by exists (2 ^ 32)).
  rewrite Z.add_mod_idemp_l by lia. rewrite Z.mod_small; lia.
Qed.

Lemma u32_in z : in_u32 (u32 z).
Proof. unfold in_u32, u32. apply Z.mod_pos_bound. lia. Qed.

Lemma u64_in z : in_u64 (u64 z).
Proof. unfold in_u64, u64. apply Z.mod_pos_bound. lia. Qed.

Lemma s64_fits_spec z : s64_fits z = true <-> in_s64 z.
Proof. unfold s64_fits, in_s64. rewrite andb_true_iff, Z.leb_le, Z.ltb_lt. lia. Qed.

(** ** Results

    [result E A] is the value of a routine that either succeeds or reports an
    error; the code returns a [bool] and writes the error through a reference
    parameter. *)

Inductive result (E A : Type) : Type :=
| Ok (a : A)
| Err (e : E).
Arguments Ok {E A} a.
Arguments Err {E A} e.

Definition result_bind {E A B} (m : result E A) (f : A -> result E B) : result E B :=
  match m with
  | Ok a => f a
  | Err e => Err e
  end.

Declare Scope code_scope.
Delimit Scope code_scope with code.

(** [let* x := e in k] runs [e] and goes on with [k] when it succeeds. *)
Notation "'let*' x ':=' e 'in' k" := (result_bind e (fun x => k))
  (at level 10, x name, e at level 100, k at level 200) : code_scope.

(** [let? x := o else r in k] dereferences an optional the code tested just
    before: [r] is the early return of that test. *)
Notation "'let?' x ':=' o 'else' r 'in' k" :=
  (match o with Some x => k | None => r end)
  (at level 10, x name, o at level 100, r at level 100, k at level 200) : code_scope.

Open Scope code_scope.

Lemma result_bind_ok {E A B} (m : result E A) (f : A -> result E B) b :
  result_bind m f = Ok b <-> exists a, m = Ok a /\ f a = Ok b.
Proof. destruct m; simpl; split; naive_solver. Qed.

Lemma result_bind_assoc {E A B C} (m : result E A) (f : A -> result E B) (g : B -> result E C) :
  result_bind (result_bind m f) g = result_bind m (fun a => result_bind (f a) g).
Proof. by destruct m. Qed.

(** ** Undefined behaviour

    An operation whose C++ text reaches undefined behaviour (an empty optional
    dereferenced, [pop_front] of an empty container, a signed overflow) returns
    [None]; totality theorems then say the code never gets there. *)

(** ** Optional strings *)

Definition is_empty (s : string) : bool := bool_decide (s = "").

(** [value.has_value() && !value->empty()] *)
Definition has_non_empty_value (value : option string) : bool :=
  match value with
  | Some s => negb (is_empty s)
  | None => false
  end.

(** [value.has_value() && value->empty()] *)
Definition present_but_empty (value : option string) : bool :=
  match value with
  | Some s => is_empty s
  | None => false
  end.

Lemma is_empty_true s : is_empty s = true <-> s = "".
Proof. apply bool_decide_eq_true. Qed.

Lemma is_empty_false s : is_empty s = false <-> s <> "".
Proof. apply bool_decide_eq_false. Qed.

Lemma has_non_empty_value_true o :
  has_non_empty_value o = true <-> exists s, o = Some s /\ s <> "".
Proof.
  destruct o as [s|]; simpl; [|naive_solver].
  rewrite negb_true_iff, is_empty_false. naive_solver.
Qed.

Lemma present_but_empty_false o :
  present_but_empty o = false <-> o <> Some "".
Proof.
  destruct o as [s|]; simpl; [|naive_solver].
  rewrite is_empty_false. naive_solver.
Qed.

(** ** Automation *)

Create HintDb code.
Create Rewrite HintDb code.

#[export] Hint Rewrite andb_true_iff orb_true_iff andb_false_iff orb_false_iff
  negb_true_iff negb_false_iff Z.eqb_eq Z.eqb_neq Z.ltb_lt Z.ltb_ge Z.leb_le
  Z.leb_gt bool_decide_eq_true bool_decide_eq_false is_empty_true
  is_empty_false : code.

#[export] Hint Resolve u32_in u64_in : code.

(** Turn boolean tests of the context and the goal into propositions. *)
Ltac reflect_tests := autorewrite with code in *.

(** Case analysis on every test the goal still branches on. *)
Ltac split_tests :=
  repeat (case_match; simplify_eq/=; try done).

(** Case analysis on every test hypothesis [H] branches on. *)
Ltac split_in H :=
  repeat (match type of H with
          | context [match ?x with _ => _ end] =>
              let E := fresh "E" in destruct x eqn:E; simplify_eq/=; try done
          end).

(** ** Lists *)

Lemma Forall_app_last {A} (P : A -> Prop) l x :
  Forall P l -> P x -> Forall P (l ++ [x]).
Proof. intros. apply Forall_app. auto. Qed.

#[export] Hint Resolve Forall_app_last : code.

Lemma sublist_fmap {A B} (f : A -> B) (l1 l2 : list A) :
  sublist l1 l2 -> sublist (f <$> l1) (f <$> l2).
Proof. induction 1; simpl; by constructor. Qed.

Lemma filter_all {A} (P : A -> Prop) `{forall x, Decision (P x)} (l : list A) :
  Forall P l -> filter P l = l.
Proof.
  induction 1 as [|x l Hx _ IH]; [done|]. by rewrite filter_cons, decide_True, IH by done.
Qed.

Lemma filter_ext_in {A} (P Q : A -> Prop) `{forall x, Decision (P x), forall x, Decision (Q x)}
    (l : list A) :
  (forall x, x ∈ l -> P x <-> Q x) -> filter P l = filter Q l.
Proof.
  induction l as [|x l IH]; intros HPQ; [done|].
  rewrite !filter_cons, IH by (intros y Hy; apply HPQ; by right).
  assert (P x <-> Q x) by (apply HPQ; by left).
  destruct (decide (P x)), (decide (Q x)); tauto || done.
Qed.
