(* ===== verification/ErrorCodes.v ===== *)
(** * Error codes

    runtime/include/RuntimeErrorCode.h: the error codes every runtime component
    reports, and their classification into failure domains by numeric segment;
    contracts/include/error/ResultCode.h: the segments of the cross-module
    result codes. *)

From S2P Require Import Prelude.

(** ** RuntimeErrorCode *)

Module RuntimeErrorDomain.
Inductive RuntimeErrorDomain :=
| Unknown
| ConfigurationAndInitialization
| FsmAndStateTransition
| BudgetAndProtection
| SessionAndCheckpoint
| RecoveryAndSafety
| DownstreamTimeoutAndCommunication.
#[global] Instance RuntimeErrorDomain_eq_dec : EqDecision RuntimeErrorDomain.
Proof. solve_decision. Defined.
End RuntimeErrorDomain.
Abbreviation RuntimeErrorDomain := RuntimeErrorDomain.RuntimeErrorDomain.

Inductive RuntimeErrorCode :=
| RT_E_000_UNSPECIFIED
| RT_E_100_CONFIG_MISSING
| RT_E_101_PROFILE_INVALID
| RT_E_102_DEPENDENCY_UNAVAILABLE
| RT_E_200_ILLEGAL_TRANSITION
| RT_E_201_GUARD_VIOLATED
| RT_E_202_STATE_INCONSISTENT
| RT_E_300_BUDGET_EXHAUSTED
| RT_E_301_TURN_OVERRUN
| RT_E_302_TOOL_CALL_OVERRUN
| RT_E_303_LATENCY_OVERRUN
| RT_E_304_REPLAN_OVERRUN
| RT_E_400_SESSION_NOT_FOUND
| RT_E_401_SESSION_INCONSISTENT
| RT_E_410_CHECKPOINT_CORRUPT
| RT_E_411_CHECKPOINT_SAVE_FAILED
| RT_E_412_RESUME_REJECTED
| RT_E_500_RECOVERY_REJECTED
| RT_E_501_RECOVERY_ESCALATED
| RT_E_510_SAFE_MODE_ENTERED
| RT_E_511_DEGRADE_ENTERED
| RT_E_600_LLM_TIMEOUT
| RT_E_601_TOOL_TIMEOUT
| RT_E_602_MEMORY_TIMEOUT
| RT_E_603_KNOWLEDGE_TIMEOUT.

#[export] Instance RuntimeErrorCode_eq_dec : EqDecision RuntimeErrorCode.
Proof. solve_decision. Defined.

(** [static_cast<int>(code)] *)
Definition runtime_error_code_value (code : RuntimeErrorCode) : Z :=
  match code with
  | RT_E_000_UNSPECIFIED => 0
  | RT_E_100_CONFIG_MISSING => 100
  | RT_E_101_PROFILE_INVALID => 101
  | RT_E_102_DEPENDENCY_UNAVAILABLE => 102
  | RT_E_200_ILLEGAL_TRANSITION => 200
  | RT_E_201_GUARD_VIOLATED => 201
  | RT_E_202_STATE_INCONSISTENT => 202
  | RT_E_300_BUDGET_EXHAUSTED => 300
  | RT_E_301_TURN_OVERRUN => 301
  | RT_E_302_TOOL_CALL_OVERRUN => 302
  | RT_E_303_LATENCY_OVERRUN => 303
  | RT_E_304_REPLAN_OVERRUN => 304
  | RT_E_400_SESSION_NOT_FOUND => 400
  | RT_E_401_SESSION_INCONSISTENT => 401
  | RT_E_410_CHECKPOINT_CORRUPT => 410
  | RT_E_411_CHECKPOINT_SAVE_FAILED => 411
  | RT_E_412_RESUME_REJECTED => 412
  | RT_E_500_RECOVERY_REJECTED => 500
  | RT_E_501_RECOVERY_ESCALATED => 501
  | RT_E_510_SAFE_MODE_ENTERED => 510
  | RT_E_511_DEGRADE_ENTERED => 511
  | RT_E_600_LLM_TIMEOUT => 600
  | RT_E_601_TOOL_TIMEOUT => 601
  | RT_E_602_MEMORY_TIMEOUT => 602
  | RT_E_603_KNOWLEDGE_TIMEOUT => 603
  end.

Definition runtime_error_domain_name (domain : RuntimeErrorDomain) : string :=
  match domain with
  | RuntimeErrorDomain.ConfigurationAndInitialization =>
      "configuration_and_initialization"
  | RuntimeErrorDomain.FsmAndStateTransition => "fsm_and_state_transition"
  | RuntimeErrorDomain.BudgetAndProtection => "budget_and_protection"
  | RuntimeErrorDomain.SessionAndCheckpoint => "session_and_checkpoint"
  | RuntimeErrorDomain.RecoveryAndSafety => "recovery_and_safety"
  | RuntimeErrorDomain.DownstreamTimeoutAndCommunication =>
      "downstream_timeout_and_communication"
  | RuntimeErrorDomain.Unknown => "unknown"
  end.

Definition classify_runtime_error_code_value (raw_code : Z) : RuntimeErrorDomain :=
  if (100 <=? raw_code) && (raw_code <=? 199)
  then RuntimeErrorDomain.ConfigurationAndInitialization else
  if (200 <=? raw_code) && (raw_code <=? 299)
  then RuntimeErrorDomain.FsmAndStateTransition else
  if (300 <=? raw_code) && (raw_code <=? 399)
  then RuntimeErrorDomain.BudgetAndProtection else
  if (400 <=? raw_code) && (raw_code <=? 499)
  then RuntimeErrorDomain.SessionAndCheckpoint else
  if (500 <=? raw_code) && (raw_code <=? 599)
  then RuntimeErrorDomain.RecoveryAndSafety else
  if (600 <=? raw_code) && (raw_code <=? 699)
  then RuntimeErrorDomain.DownstreamTimeoutAndCommunication else
  RuntimeErrorDomain.Unknown.

Definition classify_runtime_error_code (code : RuntimeErrorCode) : RuntimeErrorDomain :=
  classify_runtime_error_code_value (runtime_error_code_value code).

Definition is_known_runtime_error_code (raw_code : Z) : bool :=
  negb (bool_decide (classify_runtime_error_code_value raw_code = RuntimeErrorDomain.Unknown)).

(** ** ResultCode *)

Module ResultCodeCategory.
Inductive ResultCodeCategory :=
| Validation | Policy | Tool | Provider | Runtime | Unknown.
#[global] Instance ResultCodeCategory_eq_dec : EqDecision ResultCodeCategory.
Proof. solve_decision. Defined.
End ResultCodeCategory.
Abbreviation ResultCodeCategory := ResultCodeCategory.ResultCodeCategory.

Definition result_code_category_name (category : ResultCodeCategory) : string :=
  match category with
  | ResultCodeCategory.Validation => "validation"
  | ResultCodeCategory.Policy => "policy"
  | ResultCodeCategory.Tool => "tool"
  | ResultCodeCategory.Provider => "provider"
  | ResultCodeCategory.Runtime => "runtime"
  | ResultCodeCategory.Unknown => "unknown"
  end.

Definition classify_result_code_segment (raw_code : Z) : ResultCodeCategory :=
  if (1000 <=? raw_code) && (raw_code <=? 1999)
  then ResultCodeCategory.Validation else
  if (2000 <=? raw_code) && (raw_code <=? 2999)
  then ResultCodeCategory.Policy else
  if (3000 <=? raw_code) && (raw_code <=? 3999)
  then ResultCodeCategory.Tool else
  if (4000 <=? raw_code) && (raw_code <=? 4999)
  then ResultCodeCategory.Provider else
  if (5000 <=? raw_code) && (raw_code <=? 5999)
  then ResultCodeCategory.Runtime else
  ResultCodeCategory.Unknown.

Module ResultCode.
Inductive ResultCode :=
| ValidationFieldMissing | PolicyDenied | ToolExecutionFailed | ProviderTimeout
| RuntimeRetryExhausted.
#[global] Instance ResultCode_eq_dec : EqDecision ResultCode.
Proof. solve_decision. Defined.
End ResultCode.
Abbreviation ResultCode := ResultCode.ResultCode.

Definition result_code_value (code : ResultCode) : Z :=
  match code with
  | ResultCode.ValidationFieldMissing => 1001
  | ResultCode.PolicyDenied => 2001
  | ResultCode.ToolExecutionFailed => 3001
  | ResultCode.ProviderTimeout => 4001
  | ResultCode.RuntimeRetryExhausted => 5001
  end.

Definition classify_result_code (code : ResultCode) : ResultCodeCategory :=
  classify_result_code_segment (result_code_value code).

Record ResultCodeClassification := {
  rcc_ok : bool;
  rcc_category : ResultCodeCategory;
  rcc_reason : string;
}.

Definition classify_result_code_value (raw_code : Z) : ResultCodeClassification :=
  let category := classify_result_code_segment raw_code in
  if bool_decide (category = ResultCodeCategory.Unknown)
  then {| rcc_ok := false; rcc_category := ResultCodeCategory.Unknown;
          rcc_reason := "result code is outside WP02 known category ranges" |} else
  {| rcc_ok := true; rcc_category := category;
     rcc_reason := "result code is within WP02 frozen category ranges" |}.

(** ** Properties *)

Lemma classify_result_code_segment_unknown raw :
  classify_result_code_segment raw = ResultCodeCategory.Unknown <->
  raw < 1000 \/ 6000 <= raw.
Proof.
  unfold classify_result_code_segment.
  repeat match goal with |- context [(?a <=? ?b)] => destruct (Z.leb_spec a b); simpl end;
    split; intros; try discriminate; try lia; done.
Qed.

Lemma classify_result_code_segment_validation raw :
  classify_result_code_segment raw = ResultCodeCategory.Validation <-> 1000 <= raw <= 1999.
Proof.
  unfold classify_result_code_segment.
  repeat match goal with |- context [(?a <=? ?b)] => destruct (Z.leb_spec a b); simpl end;
    split; intros; try discriminate; try lia; done.
Qed.

(** Every declared code but UNSPECIFIED is known, and its domain is the
    hundreds digit of its value. *)
Lemma classify_runtime_error_code_hundreds code :
  runtime_error_code_value code / 100 =
  match classify_runtime_error_code code with
  | RuntimeErrorDomain.Unknown => 0
  | RuntimeErrorDomain.ConfigurationAndInitialization => 1
  | RuntimeErrorDomain.FsmAndStateTransition => 2
  | RuntimeErrorDomain.BudgetAndProtection => 3
  | RuntimeErrorDomain.SessionAndCheckpoint => 4
  | RuntimeErrorDomain.RecoveryAndSafety => 5
  | RuntimeErrorDomain.DownstreamTimeoutAndCommunication => 6
  end.
Proof. by destruct code. Qed.

Lemma is_known_runtime_error_code_declared code :
  is_known_runtime_error_code (runtime_error_code_value code) =
  negb (bool_decide (code = RT_E_000_UNSPECIFIED)).
Proof. by destruct code. Qed.
