(* ===== verification/CheckpointContracts.v ===== *)
(** * Budget and checkpoint contracts

    contracts/include/checkpoint/{RuntimeBudget,BudgetSnapshot,Checkpoint}.h and their
    guards: the five-dimensional budget a request runs under, the snapshot the runtime
    persists, the recovery object it persists, and the validators that let them in. *)

From S2P Require Import Prelude.

(** Every contract guard returns the same two fields: a verdict and a reason
    ([BudgetSnapshotGuardResult], [CheckpointGuardResult], ...). *)
Record GuardResult := {
  gr_ok : bool;
  gr_reason : string;
}.

Definition guard_fail (reason : string) : GuardResult :=
  {| gr_ok := false; gr_reason := reason |}.

Definition guard_pass (reason : string) : GuardResult :=
  {| gr_ok := true; gr_reason := reason |}.

(** ** Data *)

Module BudgetType.
Inductive BudgetType := Token | Turn | ToolCall | Latency | Replan.
#[global] Instance BudgetType_eq_dec : EqDecision BudgetType.
Proof. solve_decision. Defined.
End BudgetType.
Abbreviation BudgetType := BudgetType.BudgetType.

Record RuntimeBudget := {
  rb_max_tokens : option Z;
  rb_max_turns : option Z;
  rb_max_tool_calls : option Z;
  rb_max_latency_ms : option Z;
  rb_max_replan_count : option Z;
}.

Definition empty_runtime_budget : RuntimeBudget :=
  {| rb_max_tokens := None; rb_max_turns := None; rb_max_tool_calls := None;
     rb_max_latency_ms := None; rb_max_replan_count := None |}.

Record BudgetSnapshotEntry := {
  bse_budget_type : BudgetType;
  bse_current : Z;
  bse_max : Z;
  bse_remaining : Z;
  bse_reject_reason : option string;
}.

Record BudgetSnapshot := {
  bs_snapshot_at_ms : option Z;
  bs_entries : list BudgetSnapshotEntry;
  bs_overall_reject_reason : option string;
}.

Definition empty_budget_snapshot : BudgetSnapshot :=
  {| bs_snapshot_at_ms := None; bs_entries := []; bs_overall_reject_reason := None |}.

#[global] Instance BudgetSnapshotEntry_eq_dec : EqDecision BudgetSnapshotEntry.
Proof. solve_decision. Defined.
#[global] Instance BudgetSnapshot_eq_dec : EqDecision BudgetSnapshot.
Proof. solve_decision. Defined.

(** ** Guards *)

Definition validate_runtime_budget (budget : RuntimeBudget) : GuardResult :=
  let? max_tokens := rb_max_tokens budget else guard_fail "max_tokens is required" in
  if max_tokens =? 0 then guard_fail "max_tokens must be greater than zero" else
  let? max_turns := rb_max_turns budget else guard_fail "max_turns is required" in
  if max_turns =? 0 then guard_fail "max_turns must be greater than zero" else
  let? max_tool_calls := rb_max_tool_calls budget
    else guard_fail "max_tool_calls is required" in
  if max_tool_calls =? 0 then guard_fail "max_tool_calls must be greater than zero" else
  let? max_latency_ms := rb_max_latency_ms budget
    else guard_fail "max_latency_ms is required" in
  if max_latency_ms =? 0 then guard_fail "max_latency_ms must be greater than zero" else
  let? max_replan_count := rb_max_replan_count budget
    else guard_fail "max_replan_count is required" in
  if max_replan_count =? 0 then guard_fail "max_replan_count must be greater than zero" else
  guard_pass "runtime budget is valid".

(** The out parameter is written exactly when the function returns true. *)
Definition try_compute_remaining (max current : Z) : option Z :=
  if current <=? max then
    let diff := max - current in
    if 2 ^ 63 - 1 <? diff then None else Some diff
  else
    let over := current - max in
    if 2 ^ 63 - 1 <? over then None else Some (- over).

Definition budget_type_index (budget_type : BudgetType) : nat :=
  match budget_type with
  | BudgetType.Token => 0
  | BudgetType.Turn => 1
  | BudgetType.ToolCall => 2
  | BudgetType.Latency => 3
  | BudgetType.Replan => 4
  end.

(** The loop over the entries; [seen] is the array [seen_budget_types]. *)
Fixpoint validate_budget_entries
    (seen : list bool) (entries : list BudgetSnapshotEntry) : GuardResult :=
  match entries with
  | [] => guard_pass "budget snapshot is valid"
  | entry :: rest =>
      let type_index := budget_type_index (bse_budget_type entry) in
      if default false (seen !! type_index)
      then guard_fail "budget_type must be unique in snapshot" else
      let seen := <[type_index := true]> seen in
      let? computed_remaining := try_compute_remaining (bse_max entry) (bse_current entry)
        else guard_fail "remaining computation overflow" in
      if negb (bse_remaining entry =? computed_remaining)
      then guard_fail "remaining must equal max-current" else
      let is_over_budget := bse_remaining entry <? 0 in
      let has_reject_reason := has_non_empty_value (bse_reject_reason entry) in
      if is_over_budget && negb has_reject_reason
      then guard_fail "reject_reason is required when over budget" else
      if negb is_over_budget && has_reject_reason
      then guard_fail "reject_reason must be empty when not over budget" else
      validate_budget_entries seen rest
  end.

Definition validate_budget_snapshot (snapshot : BudgetSnapshot) : GuardResult :=
  let? _at := bs_snapshot_at_ms snapshot
    else guard_fail "snapshot_at_ms is required" in
  match bs_entries snapshot with
  | [] => guard_fail "at least one budget entry is required"
  | entries => validate_budget_entries [false; false; false; false; false] entries
  end.

(** ** What the guards admit *)

(** An entry the snapshot guard admits, apart from uniqueness of its type. *)
Definition entry_ok (entry : BudgetSnapshotEntry) : Prop :=
  bse_remaining entry = bse_max entry - bse_current entry /\
  - (2 ^ 63 - 1) <= bse_remaining entry <= 2 ^ 63 - 1 /\
  (has_non_empty_value (bse_reject_reason entry) = true <-> bse_max entry < bse_current entry).

Lemma try_compute_remaining_spec max current r :
  try_compute_remaining max current = Some r <->
  r = max - current /\ - (2 ^ 63 - 1) <= r <= 2 ^ 63 - 1.
Proof.
  unfold try_compute_remaining.
  destruct (Z.leb_spec current max); case_match; reflect_tests;
    split; intros H'; simplify_eq; try lia; destruct H' as [-> ?]; first [lia | f_equal; lia].
Qed.

Lemma budget_type_index_inj t1 t2 :
  budget_type_index t1 = budget_type_index t2 -> t1 = t2.
Proof. by destruct t1, t2. Qed.

Lemma budget_type_index_lt t : (budget_type_index t < 5)%nat.
Proof. destruct t; simpl; lia. Qed.

(** The head of the loop: the guard goes on past an entry exactly when the
    entry is well formed and its type was not seen. *)
Lemma validate_budget_entries_cons seen entry rest :
  gr_ok (validate_budget_entries seen (entry :: rest)) = true <->
  default false (seen !! budget_type_index (bse_budget_type entry)) = false /\
  entry_ok entry /\
  gr_ok (validate_budget_entries
           (<[budget_type_index (bse_budget_type entry) := true]> seen) rest) = true.
Proof.
  simpl. destruct (default false _); [split; [done|naive_solver]|].
  destruct (try_compute_remaining _ _) as [r|] eqn:Hr; [apply try_compute_remaining_spec in Hr|].
  2: { split; [done|]. intros (_ & (Hrem & Hfit & _) & _).
       assert (try_compute_remaining (bse_max entry) (bse_current entry)
               = Some (bse_remaining entry)) as E by (apply try_compute_remaining_spec; lia).
       congruence. }
  unfold entry_ok.
  destruct (Z.eqb_spec (bse_remaining entry) r); simpl; [|split; [done|lia]].
  destruct (Z.ltb_spec (bse_remaining entry) 0), (has_non_empty_value _) eqn:Hrej; simpl;
    split; intuition (try done; try lia).
Qed.

(** The budget types of a list of entries are distinct and fresh for [seen]. *)
Lemma validate_budget_entries_spec seen entries :
  length seen = 5%nat ->
  gr_ok (validate_budget_entries seen entries) = true <->
  Forall entry_ok entries /\
  NoDup (bse_budget_type <$> entries) /\
  Forall (fun e => (default false (seen !! budget_type_index (bse_budget_type e))) = false) entries.
Proof.
  revert seen. induction entries as [|entry rest IH]; intros seen Hlen.
  { simpl. split; [|done]. intros _. repeat split; constructor. }
  rewrite validate_budget_entries_cons, IH by by rewrite length_insert.
  rewrite fmap_cons, NoDup_cons, !Forall_cons.
  set (k := budget_type_index (bse_budget_type entry)).
  assert (k < length seen)%nat as Hk by (rewrite Hlen; apply budget_type_index_lt).
  assert (Forall (fun e => default false
            (<[k:=true]> seen !! budget_type_index (bse_budget_type e)) = false) rest <->
          (bse_budget_type entry ∉ (bse_budget_type <$> rest)) /\
          Forall (fun e => default false
            (seen !! budget_type_index (bse_budget_type e)) = false) rest) as ->.
  2: tauto.
  rewrite !Forall_forall, list_elem_of_fmap. split.
  - intros H. split.
    + intros (e & Heq & He). specialize (H e He). unfold k in H. rewrite Heq in H.
      by rewrite list_lookup_insert_eq in H by (rewrite <- Heq; done).
    + intros e He. specialize (H e He). destruct (decide (k = budget_type_index (bse_budget_type e))) as [E|].
      * by rewrite <- E, list_lookup_insert_eq in H.
      * by rewrite list_lookup_insert_ne in H.
  - intros [Hne H] e He. rewrite list_lookup_insert_ne; [by apply H|].
    intros E. apply Hne. exists e. split; [by apply budget_type_index_inj|done].
Qed.

Lemma validate_budget_snapshot_spec snapshot :
  gr_ok (validate_budget_snapshot snapshot) = true <->
  is_Some (bs_snapshot_at_ms snapshot) /\ bs_entries snapshot <> [] /\
  Forall entry_ok (bs_entries snapshot) /\ NoDup (bse_budget_type <$> bs_entries snapshot).
Proof.
  unfold validate_budget_snapshot.
  destruct (bs_snapshot_at_ms snapshot); [|split; [done|intros [[? ?] _]; done]].
  destruct (bs_entries snapshot) as [|e es]; [split; [done|naive_solver]|].
  rewrite validate_budget_entries_spec by done.
  split; [naive_solver eauto|]. intros (_ & _ & HF & HN). split; [done|split; [done|]].
  apply Forall_forall. intros e' _. by destruct (bse_budget_type e').
Qed.

(** ** Data *)

(** [enum class CheckpointState : int]. An object of this type can hold any
    [int]: [Other] is a value no enumerator names, which a durable record can
    carry through [static_cast<CheckpointState>(raw_state)]. *)
Module CheckpointState.
Inductive CheckpointState :=
| Unspecified | Running | Paused | WaitingConfirm | WaitingTool | Failed | Succeeded
| Other (raw : Z).
#[global] Instance CheckpointState_eq_dec : EqDecision CheckpointState.
Proof. solve_decision. Defined.
End CheckpointState.
Abbreviation CheckpointState := CheckpointState.CheckpointState.

(** [static_cast<int>(state)] *)
Definition checkpoint_state_value (state : CheckpointState) : Z :=
  match state with
  | CheckpointState.Unspecified => 0
  | CheckpointState.Running => 1
  | CheckpointState.Paused => 2
  | CheckpointState.WaitingConfirm => 3
  | CheckpointState.WaitingTool => 4
  | CheckpointState.Failed => 5
  | CheckpointState.Succeeded => 6
  | CheckpointState.Other raw => raw
  end.

(** [static_cast<CheckpointState>(raw)] *)
Definition checkpoint_state_of_value (raw : Z) : CheckpointState :=
  if raw =? 0 then CheckpointState.Unspecified else
  if raw =? 1 then CheckpointState.Running else
  if raw =? 2 then CheckpointState.Paused else
  if raw =? 3 then CheckpointState.WaitingConfirm else
  if raw =? 4 then CheckpointState.WaitingTool else
  if raw =? 5 then CheckpointState.Failed else
  if raw =? 6 then CheckpointState.Succeeded else
  CheckpointState.Other raw.

Record Checkpoint := {
  cp_checkpoint_id : option string;
  cp_state : option CheckpointState;
  cp_step_id : option string;
  cp_working_memory_snapshot : option string;
  cp_pending_action : option string;
  cp_request_id : option string;
  cp_goal_id : option string;
  cp_belief_state_ref : option string;
  cp_retry_count : option Z;
  cp_created_at : option Z;
  cp_tags : option (list string);
}.

#[global] Instance Checkpoint_eq_dec : EqDecision Checkpoint.
Proof. solve_decision. Defined.

(** ** Guards *)

Definition validate_checkpoint_required_fields (cp : Checkpoint) : GuardResult :=
  if negb (has_non_empty_value (cp_checkpoint_id cp))
  then guard_fail "checkpoint_id is required and must be non-empty" else
  if match cp_state cp with
     | None => true
     | Some s => bool_decide (s = CheckpointState.Unspecified)
     end
  then guard_fail "state is required and must not be Unspecified" else
  if negb (has_non_empty_value (cp_step_id cp))
  then guard_fail "step_id is required and must be non-empty" else
  if negb (has_non_empty_value (cp_working_memory_snapshot cp))
  then guard_fail "working_memory_snapshot is required and must be non-empty" else
  if bool_decide (cp_pending_action cp = None)
  then guard_fail "pending_action is required (use empty string for none)" else
  guard_pass "all required fields present".

Definition validate_checkpoint_boundary (cp : Checkpoint) : GuardResult :=
  let required_result := validate_checkpoint_required_fields cp in
  if negb (gr_ok required_result) then required_result else
  let raw_state := from_option checkpoint_state_value 0 (cp_state cp) in
  if (raw_state <? checkpoint_state_value CheckpointState.Unspecified)
     || (checkpoint_state_value CheckpointState.Succeeded <? raw_state)
  then guard_fail "state value is outside the known CheckpointState range" else
  if present_but_empty (cp_request_id cp)
  then guard_fail "request_id must be non-empty when present" else
  if present_but_empty (cp_goal_id cp)
  then guard_fail "goal_id must be non-empty when present" else
  if present_but_empty (cp_belief_state_ref cp)
  then guard_fail "belief_state_ref must be non-empty when present" else
  if match cp_created_at cp with Some t => t <=? 0 | None => false end
  then guard_fail "created_at must be a positive timestamp when present" else
  guard_pass "checkpoint boundary validation passed".

Definition validate_checkpoint_field_rules (cp : Checkpoint) : GuardResult :=
  let boundary_result := validate_checkpoint_boundary cp in
  if negb (gr_ok boundary_result) then boundary_result else
  if bool_decide (cp_tags cp = Some [])
  then guard_fail "tags must contain at least one item when present" else
  if match cp_tags cp with Some tags => existsb is_empty tags | None => false end
  then guard_fail "tags must not contain empty strings" else
  if match cp_state cp with
     | Some s =>
         let is_waiting_state :=
           bool_decide (s = CheckpointState.Paused)
           || bool_decide (s = CheckpointState.WaitingConfirm)
           || bool_decide (s = CheckpointState.WaitingTool) in
         is_waiting_state && present_but_empty (cp_pending_action cp)
     | None => false
     end
  then guard_fail
         ("pending_action must be non-empty for waiting states " +:+
          "(Paused/WaitingConfirm/WaitingTool)") else
  guard_pass "checkpoint field rules validation passed".

(** ** Facts *)

(** A value the enumeration names. *)
Definition known_checkpoint_state (s : CheckpointState) : Prop :=
  match s with CheckpointState.Other _ => False | _ => True end.

Lemma checkpoint_state_of_value_value s :
  known_checkpoint_state s -> checkpoint_state_of_value (checkpoint_state_value s) = s.
Proof. by destruct s. Qed.

Lemma checkpoint_state_value_of_value raw :
  checkpoint_state_value (checkpoint_state_of_value raw) = raw.
Proof.
  unfold checkpoint_state_of_value.
  repeat match goal with |- context [?a =? ?b] => destruct (Z.eqb_spec a b); [by subst|] end.
  done.
Qed.
