(* ===== verification/Fsm.v ===== *)
(** * The agent state machine

    runtime/include/fsm/StateTransitionTypes.h,
    runtime/src/fsm/TransitionGuardTable.cpp and runtime/src/fsm/AgentFsm.cpp:
    the states of the main loop, the table of legal transitions with their
    guards and checkpoint strategies, and the controller that applies it. *)

From S2P Require Import Prelude CheckpointContracts.

(** ** StateTransitionTypes.h *)

(** [enum class RuntimeState : std::uint8_t]; [Other] is a byte no enumerator
    names, which a durable session record can carry. *)
Module RuntimeState.
Inductive RuntimeState :=
| Idle | Receiving | Planning | Reasoning | WaitingClarify | WaitingConfirm
| ToolCalling | WaitingExternal | Reflecting | FailedSafe | Responding
| Auditing | Persisting | Completed | Failed | Degraded | SafeMode
| Other (raw : Z).
#[global] Instance RuntimeState_eq_dec : EqDecision RuntimeState.
Proof. solve_decision. Defined.
End RuntimeState.
Abbreviation RuntimeState := RuntimeState.RuntimeState.

Definition runtime_state_catalog : list RuntimeState :=
  [RuntimeState.Idle; RuntimeState.Receiving; RuntimeState.Planning;
   RuntimeState.Reasoning; RuntimeState.WaitingClarify; RuntimeState.WaitingConfirm;
   RuntimeState.ToolCalling; RuntimeState.WaitingExternal; RuntimeState.Reflecting;
   RuntimeState.FailedSafe; RuntimeState.Responding; RuntimeState.Auditing;
   RuntimeState.Persisting; RuntimeState.Completed; RuntimeState.Failed;
   RuntimeState.Degraded; RuntimeState.SafeMode].

Definition runtime_state_name (state : RuntimeState) : string :=
  match state with
  | RuntimeState.Idle => "Idle"
  | RuntimeState.Receiving => "Receiving"
  | RuntimeState.Planning => "Planning"
  | RuntimeState.Reasoning => "Reasoning"
  | RuntimeState.WaitingClarify => "WaitingClarify"
  | RuntimeState.WaitingConfirm => "WaitingConfirm"
  | RuntimeState.ToolCalling => "ToolCalling"
  | RuntimeState.WaitingExternal => "WaitingExternal"
  | RuntimeState.Reflecting => "Reflecting"
  | RuntimeState.FailedSafe => "FailedSafe"
  | RuntimeState.Responding => "Responding"
  | RuntimeState.Auditing => "Auditing"
  | RuntimeState.Persisting => "Persisting"
  | RuntimeState.Completed => "Completed"
  | RuntimeState.Failed => "Failed"
  | RuntimeState.Degraded => "Degraded"
  | RuntimeState.SafeMode => "SafeMode"
  | RuntimeState.Other _ => "Unknown"
  end.

(** [static_cast<int>(state)] *)
Definition runtime_state_value (state : RuntimeState) : Z :=
  match state with
  | RuntimeState.Idle => 0
  | RuntimeState.Receiving => 1
  | RuntimeState.Planning => 2
  | RuntimeState.Reasoning => 3
  | RuntimeState.WaitingClarify => 4
  | RuntimeState.WaitingConfirm => 5
  | RuntimeState.ToolCalling => 6
  | RuntimeState.WaitingExternal => 7
  | RuntimeState.Reflecting => 8
  | RuntimeState.FailedSafe => 9
  | RuntimeState.Responding => 10
  | RuntimeState.Auditing => 11
  | RuntimeState.Persisting => 12
  | RuntimeState.Completed => 13
  | RuntimeState.Failed => 14
  | RuntimeState.Degraded => 15
  | RuntimeState.SafeMode => 16
  | RuntimeState.Other raw => raw
  end.

(** [static_cast<RuntimeState>(raw)]: the underlying type is a byte. *)
Definition runtime_state_of_value (raw : Z) : RuntimeState :=
  let byte := raw mod 2 ^ 8 in
  default (RuntimeState.Other byte) (runtime_state_catalog !! Z.to_nat byte).

Module TransitionGuardFact.
Inductive TransitionGuardFact :=
| AgentRequestAvailable | FacadeInitialized | RequestValidated | SessionLoaded
| BudgetInitialized | ContextAssembled | ClarificationNeeded
| ProfileAllowsClarify | HighRiskConfirmationRequired
| UserConfirmationGranted | ToolCallPlanned | BudgetAllowsToolCall
| ToolDispatchSubmitted | ExternalResultAvailable | ReflectionContinue
| RecoveryRetryAllowed | RecoveryReplanAllowed | RecoveryAbortSafe
| RecoveryDegrade | DirectResponseReady | ResponseMaterialized
| AuditCommitted | PersistenceConfirmed | ResultReturned | RecoveryRejected
| DegradeAllowed | SafeModeTriggerSatisfied.
#[global] Instance TransitionGuardFact_eq_dec : EqDecision TransitionGuardFact.
Proof. solve_decision. Defined.
End TransitionGuardFact.
Abbreviation TransitionGuardFact := TransitionGuardFact.TransitionGuardFact.

Module TransitionViolationType.
Inductive TransitionViolationType :=
| IllegalTransition | SourceStateMismatch | MissingGuardFact | GuardRejected
| TerminalStateExit.
#[global] Instance TransitionViolationType_eq_dec : EqDecision TransitionViolationType.
Proof. solve_decision. Defined.
End TransitionViolationType.
Abbreviation TransitionViolationType := TransitionViolationType.TransitionViolationType.

Module CheckpointMutationKind.
Inductive CheckpointMutationKind :=
| None | Write | Update | Retain | ClearActiveReference.
#[global] Instance CheckpointMutationKind_eq_dec : EqDecision CheckpointMutationKind.
Proof. solve_decision. Defined.
End CheckpointMutationKind.
Abbreviation CheckpointMutationKind := CheckpointMutationKind.CheckpointMutationKind.

Record StateTransitionCheckpointHint := {
  ch_mutation : CheckpointMutationKind;
  ch_checkpoint_state : option CheckpointState;
  ch_pending_action_required : bool;
}.

Definition writes_checkpoint (hint : StateTransitionCheckpointHint) : bool :=
  bool_decide (ch_mutation hint = CheckpointMutationKind.Write)
  || bool_decide (ch_mutation hint = CheckpointMutationKind.Update).

Definition default_checkpoint_hint : StateTransitionCheckpointHint :=
  {| ch_mutation := CheckpointMutationKind.None; ch_checkpoint_state := None;
     ch_pending_action_required := false |}.

Record StateTransitionRequest := {
  tr_from_state : RuntimeState;
  tr_requested_to : RuntimeState;
  tr_transition_reason : string;
  tr_guard_facts : list TransitionGuardFact;
}.

Definition has_guard (request : StateTransitionRequest) (fact : TransitionGuardFact) : bool :=
  existsb (fun candidate => bool_decide (candidate = fact)) (tr_guard_facts request).

Record TransitionRejectionReason := {
  rr_from_state : RuntimeState;
  rr_requested_to : RuntimeState;
  rr_violation_type : TransitionViolationType;
  rr_violated_guard : option TransitionGuardFact;
  rr_detail : string;
}.

Record StateTransitionOutcome := {
  to_accepted : bool;
  to_previous_state : RuntimeState;
  to_resolved_state : RuntimeState;
  to_transition_reason : string;
  to_checkpoint_hint : StateTransitionCheckpointHint;
  to_rejection_reason : option TransitionRejectionReason;
}.

Definition has_rejection (outcome : StateTransitionOutcome) : bool :=
  bool_decide (is_Some (to_rejection_reason outcome)).

Definition make_transition_outcome (request : StateTransitionRequest)
    (resolved_state : RuntimeState) (checkpoint_hint : StateTransitionCheckpointHint)
    : StateTransitionOutcome :=
  {| to_accepted := true;
     to_previous_state := tr_from_state request;
     to_resolved_state := resolved_state;
     to_transition_reason := tr_transition_reason request;
     to_checkpoint_hint := checkpoint_hint;
     to_rejection_reason := None |}.

(** ** TransitionGuardTable *)

Record TransitionGuardRule := {
  gr_all_of : list TransitionGuardFact;
  gr_any_of : list TransitionGuardFact;
}.

Record TransitionRule := {
  rule_from_state : RuntimeState;
  rule_to_state : RuntimeState;
  rule_guard : TransitionGuardRule;
  rule_checkpoint_strategy : StateTransitionCheckpointHint;
}.

Definition require_all (guard_facts : list TransitionGuardFact) : TransitionGuardRule :=
  {| gr_all_of := guard_facts; gr_any_of := [] |}.

Definition require_any (guard_facts : list TransitionGuardFact) : TransitionGuardRule :=
  {| gr_all_of := []; gr_any_of := guard_facts |}.

Definition no_guards : TransitionGuardRule :=
  {| gr_all_of := []; gr_any_of := [] |}.

Definition checkpoint_hint (mutation : CheckpointMutationKind)
    (checkpoint_state : option CheckpointState) (pending_action_required : bool)
    : StateTransitionCheckpointHint :=
  {| ch_mutation := mutation; ch_checkpoint_state := checkpoint_state;
     ch_pending_action_required := pending_action_required |}.

(** Hints by mutation kind, with the default arguments of [checkpoint_hint]. *)
Definition hint_none : StateTransitionCheckpointHint :=
  checkpoint_hint CheckpointMutationKind.None None false.
Definition hint_write (s : CheckpointState) : StateTransitionCheckpointHint :=
  checkpoint_hint CheckpointMutationKind.Write (Some s) false.
Definition hint_write_pending (s : CheckpointState) : StateTransitionCheckpointHint :=
  checkpoint_hint CheckpointMutationKind.Write (Some s) true.
Definition hint_update (s : CheckpointState) : StateTransitionCheckpointHint :=
  checkpoint_hint CheckpointMutationKind.Update (Some s) false.
Definition hint_retain (s : CheckpointState) : StateTransitionCheckpointHint :=
  checkpoint_hint CheckpointMutationKind.Retain (Some s) false.
Definition hint_clear : StateTransitionCheckpointHint :=
  checkpoint_hint CheckpointMutationKind.ClearActiveReference None false.

Definition rule (from_state to_state : RuntimeState) (guard : TransitionGuardRule)
    (strategy : StateTransitionCheckpointHint) : TransitionRule :=
  {| rule_from_state := from_state; rule_to_state := to_state; rule_guard := guard;
     rule_checkpoint_strategy := strategy |}.

Definition transition_rules : list TransitionRule := [
  rule RuntimeState.Idle RuntimeState.Receiving
    (require_all [TransitionGuardFact.AgentRequestAvailable;
                  TransitionGuardFact.FacadeInitialized])
    hint_none;
  rule RuntimeState.Receiving RuntimeState.Planning
    (require_all [TransitionGuardFact.RequestValidated;
                  TransitionGuardFact.SessionLoaded;
                  TransitionGuardFact.BudgetInitialized])
    (hint_write CheckpointState.Running);
  rule RuntimeState.Planning RuntimeState.Reasoning
    (require_all [TransitionGuardFact.ContextAssembled])
    (hint_write CheckpointState.Running);
  rule RuntimeState.Reasoning RuntimeState.WaitingClarify
    (require_all [TransitionGuardFact.ClarificationNeeded;
                  TransitionGuardFact.ProfileAllowsClarify])
    (hint_write_pending CheckpointState.Paused);
  rule RuntimeState.WaitingClarify RuntimeState.Receiving
    (require_all [TransitionGuardFact.AgentRequestAvailable])
    (hint_update CheckpointState.Running);
  rule RuntimeState.Reasoning RuntimeState.WaitingConfirm
    (require_all [TransitionGuardFact.HighRiskConfirmationRequired])
    (hint_write_pending CheckpointState.WaitingConfirm);
  rule RuntimeState.WaitingConfirm RuntimeState.ToolCalling
    (require_all [TransitionGuardFact.UserConfirmationGranted])
    (hint_update CheckpointState.Running);
  rule RuntimeState.Reasoning RuntimeState.ToolCalling
    (require_all [TransitionGuardFact.ToolCallPlanned;
                  TransitionGuardFact.BudgetAllowsToolCall])
    (hint_write CheckpointState.Running);
  rule RuntimeState.ToolCalling RuntimeState.WaitingExternal
    (require_all [TransitionGuardFact.ToolDispatchSubmitted])
    (hint_write_pending CheckpointState.WaitingTool);
  rule RuntimeState.WaitingExternal RuntimeState.Reflecting
    (require_all [TransitionGuardFact.ExternalResultAvailable])
    (hint_update CheckpointState.Running);
  rule RuntimeState.Reflecting RuntimeState.Reasoning
    (require_any [TransitionGuardFact.ReflectionContinue;
                  TransitionGuardFact.RecoveryRetryAllowed;
                  TransitionGuardFact.RecoveryReplanAllowed])
    (hint_write CheckpointState.Running);
  rule RuntimeState.Reflecting RuntimeState.FailedSafe
    (require_all [TransitionGuardFact.RecoveryAbortSafe])
    (hint_write CheckpointState.Failed);
  rule RuntimeState.Reflecting RuntimeState.Degraded
    (require_all [TransitionGuardFact.RecoveryDegrade])
    (hint_write CheckpointState.Failed);
  rule RuntimeState.Reasoning RuntimeState.Responding
    (require_all [TransitionGuardFact.DirectResponseReady])
    (hint_write CheckpointState.Running);
  rule RuntimeState.FailedSafe RuntimeState.Responding no_guards
    (hint_retain CheckpointState.Failed);
  rule RuntimeState.Degraded RuntimeState.Responding no_guards
    (hint_retain CheckpointState.Failed);
  rule RuntimeState.SafeMode RuntimeState.Responding no_guards
    (hint_retain CheckpointState.Failed);
  rule RuntimeState.Responding RuntimeState.Auditing
    (require_all [TransitionGuardFact.ResponseMaterialized]) hint_none;
  rule RuntimeState.Auditing RuntimeState.Persisting
    (require_all [TransitionGuardFact.AuditCommitted]) hint_none;
  rule RuntimeState.Persisting RuntimeState.Completed
    (require_all [TransitionGuardFact.PersistenceConfirmed])
    (hint_write CheckpointState.Succeeded);
  rule RuntimeState.Completed RuntimeState.Idle
    (require_all [TransitionGuardFact.ResultReturned]) hint_clear;
  rule RuntimeState.Reasoning RuntimeState.Failed
    (require_all [TransitionGuardFact.RecoveryRejected])
    (hint_write CheckpointState.Failed);
  rule RuntimeState.WaitingExternal RuntimeState.Failed
    (require_all [TransitionGuardFact.RecoveryRejected])
    (hint_write CheckpointState.Failed);
  rule RuntimeState.Failed RuntimeState.Degraded
    (require_all [TransitionGuardFact.DegradeAllowed])
    (hint_retain CheckpointState.Failed);
  rule RuntimeState.Degraded RuntimeState.SafeMode
    (require_all [TransitionGuardFact.SafeModeTriggerSatisfied])
    (hint_retain CheckpointState.Failed)
].

(** The loop returns the first rule of the edge. *)
Definition find_rule (from_state to_state : RuntimeState) : option TransitionRule :=
  List.find (fun r => bool_decide (rule_from_state r = from_state)
                      && bool_decide (rule_to_state r = to_state))
    transition_rules.

Definition first_unsatisfied_guard (guard : TransitionGuardRule)
    (request : StateTransitionRequest) : option TransitionGuardFact :=
  match List.find (fun fact => negb (has_guard request fact)) (gr_all_of guard) with
  | Some fact => Some fact
  | None =>
      match gr_any_of guard with
      | [] => None
      | front :: _ =>
          if existsb (has_guard request) (gr_any_of guard) then None else Some front
      end
  end.

Definition satisfied_by (guard : TransitionGuardRule) (request : StateTransitionRequest) : bool :=
  bool_decide (first_unsatisfied_guard guard request = None).

Definition is_legal (from_state to_state : RuntimeState) : bool :=
  match find_rule from_state to_state with Some _ => true | None => false end.

Definition get_guard (from_state to_state : RuntimeState) : option TransitionGuardRule :=
  rule_guard <$> find_rule from_state to_state.

Definition get_checkpoint_strategy (from_state to_state : RuntimeState)
    : option StateTransitionCheckpointHint :=
  rule_checkpoint_strategy <$> find_rule from_state to_state.

(** ** AgentFsm *)

Definition guard_fact_name (guard_fact : TransitionGuardFact) : string :=
  match guard_fact with
  | TransitionGuardFact.AgentRequestAvailable => "AgentRequestAvailable"
  | TransitionGuardFact.FacadeInitialized => "FacadeInitialized"
  | TransitionGuardFact.RequestValidated => "RequestValidated"
  | TransitionGuardFact.SessionLoaded => "SessionLoaded"
  | TransitionGuardFact.BudgetInitialized => "BudgetInitialized"
  | TransitionGuardFact.ContextAssembled => "ContextAssembled"
  | TransitionGuardFact.ClarificationNeeded => "ClarificationNeeded"
  | TransitionGuardFact.ProfileAllowsClarify => "ProfileAllowsClarify"
  | TransitionGuardFact.HighRiskConfirmationRequired => "HighRiskConfirmationRequired"
  | TransitionGuardFact.UserConfirmationGranted => "UserConfirmationGranted"
  | TransitionGuardFact.ToolCallPlanned => "ToolCallPlanned"
  | TransitionGuardFact.BudgetAllowsToolCall => "BudgetAllowsToolCall"
  | TransitionGuardFact.ToolDispatchSubmitted => "ToolDispatchSubmitted"
  | TransitionGuardFact.ExternalResultAvailable => "ExternalResultAvailable"
  | TransitionGuardFact.ReflectionContinue => "ReflectionContinue"
  | TransitionGuardFact.RecoveryRetryAllowed => "RecoveryRetryAllowed"
  | TransitionGuardFact.RecoveryReplanAllowed => "RecoveryReplanAllowed"
  | TransitionGuardFact.RecoveryAbortSafe => "RecoveryAbortSafe"
  | TransitionGuardFact.RecoveryDegrade => "RecoveryDegrade"
  | TransitionGuardFact.DirectResponseReady => "DirectResponseReady"
  | TransitionGuardFact.ResponseMaterialized => "ResponseMaterialized"
  | TransitionGuardFact.AuditCommitted => "AuditCommitted"
  | TransitionGuardFact.PersistenceConfirmed => "PersistenceConfirmed"
  | TransitionGuardFact.ResultReturned => "ResultReturned"
  | TransitionGuardFact.RecoveryRejected => "RecoveryRejected"
  | TransitionGuardFact.DegradeAllowed => "DegradeAllowed"
  | TransitionGuardFact.SafeModeTriggerSatisfied => "SafeModeTriggerSatisfied"
  end.

Definition make_rejected_outcome (request : StateTransitionRequest)
    (current_state : RuntimeState) (violation_type : TransitionViolationType)
    (detail : string) (violated_guard : option TransitionGuardFact)
    : StateTransitionOutcome :=
  {| to_accepted := false;
     to_previous_state := current_state;
     to_resolved_state := current_state;
     to_transition_reason := tr_transition_reason request;
     to_checkpoint_hint := default_checkpoint_hint;
     to_rejection_reason := Some
       {| rr_from_state := current_state;
          rr_requested_to := tr_requested_to request;
          rr_violation_type := violation_type;
          rr_violated_guard := violated_guard;
          rr_detail := detail |} |}.

Record EvaluationResult := {
  er_accepted : bool;
  er_checkpoint_hint : option StateTransitionCheckpointHint;
  er_violation_type : TransitionViolationType;
  er_violated_guard : option TransitionGuardFact;
  er_detail : string;
}.

Definition evaluation_rejected (violation_type : TransitionViolationType)
    (violated_guard : option TransitionGuardFact) (detail : string) : EvaluationResult :=
  {| er_accepted := false; er_checkpoint_hint := None;
     er_violation_type := violation_type; er_violated_guard := violated_guard;
     er_detail := detail |}.

(** The state of an [AgentFsm] is its [current_state_]. *)
Definition is_terminal (state : RuntimeState) : bool :=
  bool_decide (state = RuntimeState.SafeMode).

Definition edge_text (request : StateTransitionRequest) : string :=
  runtime_state_name (tr_from_state request) +:+ " -> " +:+
  runtime_state_name (tr_requested_to request).

Definition evaluate_request_locked (current_state_ : RuntimeState)
    (request : StateTransitionRequest) : EvaluationResult :=
  if negb (bool_decide (tr_from_state request = current_state_)) then
    evaluation_rejected TransitionViolationType.SourceStateMismatch None
      ("request.from_state=" +:+ runtime_state_name (tr_from_state request) +:+
       " does not match current_state=" +:+ runtime_state_name current_state_)
  else
  if is_terminal current_state_
     && negb (bool_decide (tr_requested_to request = current_state_)) then
    evaluation_rejected TransitionViolationType.TerminalStateExit None
      ("cannot leave terminal state " +:+ runtime_state_name current_state_)
  else
  if negb (is_legal (tr_from_state request) (tr_requested_to request)) then
    evaluation_rejected TransitionViolationType.IllegalTransition None
      ("transition " +:+ edge_text request +:+ " is not legal in section 6.7.4")
  else
  let? guard_rule := get_guard (tr_from_state request) (tr_requested_to request)
  else
    evaluation_rejected TransitionViolationType.IllegalTransition None
      ("transition rule lookup failed for legal edge " +:+ edge_text request)
  in
  match first_unsatisfied_guard guard_rule request with
  | Some violated_guard =>
      evaluation_rejected TransitionViolationType.MissingGuardFact (Some violated_guard)
        ("missing required guard fact " +:+ guard_fact_name violated_guard +:+
         " for transition " +:+ edge_text request)
  | None =>
      let? hint := get_checkpoint_strategy (tr_from_state request) (tr_requested_to request)
      else
        evaluation_rejected TransitionViolationType.IllegalTransition None
          ("checkpoint strategy lookup failed for legal edge " +:+ edge_text request)
      in
      {| er_accepted := true; er_checkpoint_hint := Some hint;
         er_violation_type := TransitionViolationType.IllegalTransition;
         er_violated_guard := None; er_detail := "" |}
  end.

Definition can_enter (current_state_ : RuntimeState) (request : StateTransitionRequest) : bool :=
  er_accepted (evaluate_request_locked current_state_ request).

(** [transition] returns the new [current_state_] and the outcome; an accepted
    evaluation always carries a hint ([evaluate_accepted_hint] below), so the
    [default] of the dereferenced hint is never read. *)
Definition transition (current_state_ : RuntimeState) (request : StateTransitionRequest)
    : RuntimeState * StateTransitionOutcome :=
  let evaluation := evaluate_request_locked current_state_ request in
  if negb (er_accepted evaluation) then
    (current_state_,
     make_rejected_outcome request current_state_ (er_violation_type evaluation)
       (er_detail evaluation) (er_violated_guard evaluation))
  else
    let current_state_ := tr_requested_to request in
    (current_state_,
     make_transition_outcome request current_state_
       (default default_checkpoint_hint (er_checkpoint_hint evaluation))).

(** ** Abstract specification

    [design_edge] is section 6.7.4 of the runtime design, row by row: from, to, what must
    hold, and what becomes of the checkpoint. A condition is read as the facts of
    StateTransitionTypes.h that stand for it; the row from [FailedSafe] has a condition but
    no fact for it. [bridge_edge] is what RT-TODO-031 adds (docs/worklog, change 2), and
    [not_superseded] what it takes back: a recovery that degrades no longer ends in
    [FailedSafe], one that aborts still does. [amended_edge] is the design with these changes. *)

Definition facts := TransitionGuardFact -> Prop.

Inductive design_edge
    : RuntimeState -> RuntimeState -> facts -> StateTransitionCheckpointHint -> Prop :=
| design_receive (F : facts) :
    F TransitionGuardFact.AgentRequestAvailable -> F TransitionGuardFact.FacadeInitialized ->
    design_edge RuntimeState.Idle RuntimeState.Receiving F hint_none
| design_plan (F : facts) :
    F TransitionGuardFact.RequestValidated -> F TransitionGuardFact.SessionLoaded ->
    F TransitionGuardFact.BudgetInitialized ->
    design_edge RuntimeState.Receiving RuntimeState.Planning F
      (hint_write CheckpointState.Running)
| design_reason (F : facts) :
    F TransitionGuardFact.ContextAssembled ->
    design_edge RuntimeState.Planning RuntimeState.Reasoning F
      (hint_write CheckpointState.Running)
| design_clarify (F : facts) :
    F TransitionGuardFact.ClarificationNeeded -> F TransitionGuardFact.ProfileAllowsClarify ->
    design_edge RuntimeState.Reasoning RuntimeState.WaitingClarify F
      (hint_write_pending CheckpointState.Paused)
| design_clarified (F : facts) :
    F TransitionGuardFact.AgentRequestAvailable ->
    design_edge RuntimeState.WaitingClarify RuntimeState.Receiving F
      (hint_update CheckpointState.Running)
| design_confirm (F : facts) :
    F TransitionGuardFact.HighRiskConfirmationRequired ->
    design_edge RuntimeState.Reasoning RuntimeState.WaitingConfirm F
      (hint_write_pending CheckpointState.WaitingConfirm)
| design_confirmed (F : facts) :
    F TransitionGuardFact.UserConfirmationGranted ->
    design_edge RuntimeState.WaitingConfirm RuntimeState.ToolCalling F
      (hint_update CheckpointState.Running)
| design_call_tool (F : facts) :
    F TransitionGuardFact.ToolCallPlanned -> F TransitionGuardFact.BudgetAllowsToolCall ->
    design_edge RuntimeState.Reasoning RuntimeState.ToolCalling F
      (hint_write CheckpointState.Running)
| design_dispatched (F : facts) :
    F TransitionGuardFact.ToolDispatchSubmitted ->
    design_edge RuntimeState.ToolCalling RuntimeState.WaitingExternal F
      (hint_write_pending CheckpointState.WaitingTool)
| design_result (F : facts) :
    F TransitionGuardFact.ExternalResultAvailable ->
    design_edge RuntimeState.WaitingExternal RuntimeState.Reflecting F
      (hint_update CheckpointState.Running)
| design_continue (F : facts) :
    F TransitionGuardFact.ReflectionContinue \/ F TransitionGuardFact.RecoveryRetryAllowed \/
    F TransitionGuardFact.RecoveryReplanAllowed ->
    design_edge RuntimeState.Reflecting RuntimeState.Reasoning F
      (hint_write CheckpointState.Running)
| design_fail_safe (F : facts) :
    F TransitionGuardFact.RecoveryAbortSafe \/ F TransitionGuardFact.RecoveryDegrade ->
    design_edge RuntimeState.Reflecting RuntimeState.FailedSafe F
      (hint_write CheckpointState.Failed)
| design_respond (F : facts) :
    F TransitionGuardFact.DirectResponseReady ->
    design_edge RuntimeState.Reasoning RuntimeState.Responding F
      (hint_write CheckpointState.Running)
| design_failed_safe_respond (F : facts) :
    design_edge RuntimeState.FailedSafe RuntimeState.Responding F
      (hint_retain CheckpointState.Failed)
| design_audit (F : facts) :
    F TransitionGuardFact.ResponseMaterialized ->
    design_edge RuntimeState.Responding RuntimeState.Auditing F hint_none
| design_persist (F : facts) :
    F TransitionGuardFact.AuditCommitted ->
    design_edge RuntimeState.Auditing RuntimeState.Persisting F hint_none
| design_complete (F : facts) :
    F TransitionGuardFact.PersistenceConfirmed ->
    design_edge RuntimeState.Persisting RuntimeState.Completed F
      (hint_write CheckpointState.Succeeded)
| design_return (F : facts) :
    F TransitionGuardFact.ResultReturned ->
    design_edge RuntimeState.Completed RuntimeState.Idle F hint_clear
| design_fail_reasoning (F : facts) :
    F TransitionGuardFact.RecoveryRejected ->
    design_edge RuntimeState.Reasoning RuntimeState.Failed F
      (hint_write CheckpointState.Failed)
| design_fail_external (F : facts) :
    F TransitionGuardFact.RecoveryRejected ->
    design_edge RuntimeState.WaitingExternal RuntimeState.Failed F
      (hint_write CheckpointState.Failed)
| design_degrade (F : facts) :
    F TransitionGuardFact.DegradeAllowed ->
    design_edge RuntimeState.Failed RuntimeState.Degraded F
      (hint_retain CheckpointState.Failed)
| design_safe_mode (F : facts) :
    F TransitionGuardFact.SafeModeTriggerSatisfied ->
    design_edge RuntimeState.Degraded RuntimeState.SafeMode F
      (hint_retain CheckpointState.Failed).

Inductive bridge_edge
    : RuntimeState -> RuntimeState -> facts -> StateTransitionCheckpointHint -> Prop :=
| bridge_degrade (F : facts) :
    F TransitionGuardFact.RecoveryDegrade ->
    bridge_edge RuntimeState.Reflecting RuntimeState.Degraded F
      (hint_write CheckpointState.Failed)
| bridge_degraded_respond (F : facts) :
    bridge_edge RuntimeState.Degraded RuntimeState.Responding F
      (hint_retain CheckpointState.Failed)
| bridge_safe_mode_respond (F : facts) :
    bridge_edge RuntimeState.SafeMode RuntimeState.Responding F
      (hint_retain CheckpointState.Failed).

Definition not_superseded (s t : RuntimeState) (F : facts) : Prop :=
  s = RuntimeState.Reflecting -> t = RuntimeState.FailedSafe ->
  F TransitionGuardFact.RecoveryAbortSafe.

Definition amended_edge (s t : RuntimeState) (F : facts)
    (hint : StateTransitionCheckpointHint) : Prop :=
  (design_edge s t F hint /\ not_superseded s t F) \/ bridge_edge s t F hint.

(** The edges the controller takes: those of [amended_edge] but for the one out of
    [SafeMode] ([edge_amended] below). *)
Inductive edge : RuntimeState -> RuntimeState -> facts -> Prop :=
| edge_accept_request (F : facts) :
    F TransitionGuardFact.AgentRequestAvailable -> F TransitionGuardFact.FacadeInitialized ->
    edge RuntimeState.Idle RuntimeState.Receiving F
| edge_start_planning (F : facts) :
    F TransitionGuardFact.RequestValidated -> F TransitionGuardFact.SessionLoaded ->
    F TransitionGuardFact.BudgetInitialized ->
    edge RuntimeState.Receiving RuntimeState.Planning F
| edge_reason (F : facts) :
    F TransitionGuardFact.ContextAssembled ->
    edge RuntimeState.Planning RuntimeState.Reasoning F
| edge_clarify (F : facts) :
    F TransitionGuardFact.ClarificationNeeded -> F TransitionGuardFact.ProfileAllowsClarify ->
    edge RuntimeState.Reasoning RuntimeState.WaitingClarify F
| edge_clarified (F : facts) :
    F TransitionGuardFact.AgentRequestAvailable ->
    edge RuntimeState.WaitingClarify RuntimeState.Receiving F
| edge_confirm (F : facts) :
    F TransitionGuardFact.HighRiskConfirmationRequired ->
    edge RuntimeState.Reasoning RuntimeState.WaitingConfirm F
| edge_confirmed (F : facts) :
    F TransitionGuardFact.UserConfirmationGranted ->
    edge RuntimeState.WaitingConfirm RuntimeState.ToolCalling F
| edge_call_tool (F : facts) :
    F TransitionGuardFact.ToolCallPlanned -> F TransitionGuardFact.BudgetAllowsToolCall ->
    edge RuntimeState.Reasoning RuntimeState.ToolCalling F
| edge_dispatched (F : facts) :
    F TransitionGuardFact.ToolDispatchSubmitted ->
    edge RuntimeState.ToolCalling RuntimeState.WaitingExternal F
| edge_result (F : facts) :
    F TransitionGuardFact.ExternalResultAvailable ->
    edge RuntimeState.WaitingExternal RuntimeState.Reflecting F
| edge_continue (F : facts) :
    F TransitionGuardFact.ReflectionContinue \/ F TransitionGuardFact.RecoveryRetryAllowed \/
    F TransitionGuardFact.RecoveryReplanAllowed ->
    edge RuntimeState.Reflecting RuntimeState.Reasoning F
| edge_abort_safe (F : facts) :
    F TransitionGuardFact.RecoveryAbortSafe ->
    edge RuntimeState.Reflecting RuntimeState.FailedSafe F
| edge_recovery_degrade (F : facts) :
    F TransitionGuardFact.RecoveryDegrade ->
    edge RuntimeState.Reflecting RuntimeState.Degraded F
| edge_respond (F : facts) :
    F TransitionGuardFact.DirectResponseReady ->
    edge RuntimeState.Reasoning RuntimeState.Responding F
| edge_failed_safe_respond (F : facts) :
    edge RuntimeState.FailedSafe RuntimeState.Responding F
| edge_degraded_respond (F : facts) :
    edge RuntimeState.Degraded RuntimeState.Responding F
| edge_audit (F : facts) :
    F TransitionGuardFact.ResponseMaterialized ->
    edge RuntimeState.Responding RuntimeState.Auditing F
| edge_persist (F : facts) :
    F TransitionGuardFact.AuditCommitted ->
    edge RuntimeState.Auditing RuntimeState.Persisting F
| edge_complete (F : facts) :
    F TransitionGuardFact.PersistenceConfirmed ->
    edge RuntimeState.Persisting RuntimeState.Completed F
| edge_return (F : facts) :
    F TransitionGuardFact.ResultReturned ->
    edge RuntimeState.Completed RuntimeState.Idle F
| edge_fail_reasoning (F : facts) :
    F TransitionGuardFact.RecoveryRejected ->
    edge RuntimeState.Reasoning RuntimeState.Failed F
| edge_fail_external (F : facts) :
    F TransitionGuardFact.RecoveryRejected ->
    edge RuntimeState.WaitingExternal RuntimeState.Failed F
| edge_degrade (F : facts) :
    F TransitionGuardFact.DegradeAllowed ->
    edge RuntimeState.Failed RuntimeState.Degraded F
| edge_safe_mode (F : facts) :
    F TransitionGuardFact.SafeModeTriggerSatisfied ->
    edge RuntimeState.Degraded RuntimeState.SafeMode F.

(** The facts a request carries. *)
Definition request_facts (request : StateTransitionRequest) : facts :=
  fun fact => fact ∈ tr_guard_facts request.

(** A run of the controller: requests applied in order, rejected ones included. *)
Inductive fsm_step : RuntimeState -> RuntimeState -> Prop :=
| fsm_step_intro s request :
    fsm_step s (fst (transition s request)).

(** The history of resolved states of a run that starts in [Idle]. *)
Inductive run : list RuntimeState -> RuntimeState -> Prop :=
| run_init : run [RuntimeState.Idle] RuntimeState.Idle
| run_step h s request :
    run h s -> run (fst (transition s request) :: h) (fst (transition s request)).

(** ** The table *)

Lemma has_guard_elem request fact :
  has_guard request fact = true <-> request_facts request fact.
Proof.
  unfold has_guard, request_facts. rewrite existsb_exists. setoid_rewrite bool_decide_eq_true.
  setoid_rewrite <- list_elem_of_In. naive_solver.
Qed.

Lemma find_rule_some from_state to_state r :
  find_rule from_state to_state = Some r ->
  r ∈ transition_rules /\ rule_from_state r = from_state /\ rule_to_state r = to_state.
Proof.
  intros [Hin Hb]%find_some. apply list_elem_of_In in Hin. by reflect_tests.
Qed.

(** A guard is satisfied when every fact of [all_of] is present and, if
    [any_of] lists facts, one of them is. *)
Definition guard_holds (guard : TransitionGuardRule) (F : facts) : Prop :=
  (forall fact, fact ∈ gr_all_of guard -> F fact) /\
  (gr_any_of guard = [] \/ exists fact, fact ∈ gr_any_of guard /\ F fact).

Lemma first_unsatisfied_guard_none guard request :
  first_unsatisfied_guard guard request = None <-> guard_holds guard (request_facts request).
Proof.
  unfold first_unsatisfied_guard, guard_holds. split.
  - intros H. split.
    + intros fact Hin. destruct (List.find _ _) eqn:Hf; [done|].
      apply list_elem_of_In in Hin. pose proof (find_none _ _ Hf _ Hin) as Hn.
      simpl in Hn. rewrite negb_false_iff in Hn. by apply has_guard_elem.
    + destruct (List.find _ _); [done|]. destruct (gr_any_of guard) as [|front any] eqn:E; [by left|].
      destruct (existsb _ _) eqn:Hex; [|done]. right.
      apply existsb_exists in Hex as (fact & Hin & Hf). exists fact.
      by rewrite list_elem_of_In, <- has_guard_elem.
  - intros [Hall Hany]. destruct (List.find _ _) as [fact|] eqn:Hf.
    + apply find_some in Hf as [Hin Hb]. apply list_elem_of_In in Hin.
      apply Hall, has_guard_elem in Hin. by rewrite Hin in Hb.
    + destruct (gr_any_of guard) as [|front any] eqn:E; [done|].
      destruct Hany as [|(fact & Hin & Hf')]; [done|].
      replace (existsb _ _) with true; [done|]. symmetry. apply existsb_exists.
      exists fact. by rewrite <- list_elem_of_In, has_guard_elem.
Qed.

(** The fact named by a rejection is one the guard asks for and the request
    does not carry. *)
Lemma first_unsatisfied_guard_some guard request fact :
  first_unsatisfied_guard guard request = Some fact ->
  (fact ∈ gr_all_of guard \/ fact ∈ gr_any_of guard) /\ ~ request_facts request fact.
Proof.
  unfold first_unsatisfied_guard. rewrite <- has_guard_elem, not_true_iff_false.
  destruct (List.find _ _) as [f|] eqn:Hf.
  - intros [= <-]. apply find_some in Hf as [Hin Hb]. rewrite list_elem_of_In.
    by apply negb_true_iff in Hb; auto.
  - destruct (gr_any_of guard) as [|front any]; [done|].
    destruct (existsb _ _) eqn:Hex; [done|]. intros [= <-]. split; [right; constructor|].
    simpl in Hex. by apply orb_false_iff in Hex as [? _].
Qed.

(** Case analysis on the rows of the table. *)
Ltac rule_cases Hin :=
  unfold transition_rules in Hin;
  repeat (apply elem_of_cons in Hin as [-> | Hin]); [.. | by apply elem_of_nil in Hin].

Lemma rule_edge r F :
  r ∈ transition_rules -> rule_from_state r <> RuntimeState.SafeMode ->
  guard_holds (rule_guard r) F -> edge (rule_from_state r) (rule_to_state r) F.
Proof.
  intros Hin Hsafe [Hall Hany].
  rule_cases Hin; simpl in *; try done;
    try (constructor; apply Hall; set_solver).
  all: destruct Hany as [|(fact & Hin & Hf)]; [done|].
  all: constructor; set_unfold; naive_solver.
Qed.

Lemma edge_rule from_state to_state F :
  edge from_state to_state F ->
  exists r, find_rule from_state to_state = Some r /\ guard_holds (rule_guard r) F /\
            from_state <> RuntimeState.SafeMode.
Proof.
  intros He. destruct He; eexists; (split; [reflexivity|split; [split|done]]); simpl;
    try (by left); try set_solver.
Qed.

Lemma edge_amended s t F :
  edge s t F <-> s <> RuntimeState.SafeMode /\ exists hint, amended_edge s t F hint.
Proof.
  split.
  - intros He. split; [by destruct He|]. unfold amended_edge, not_superseded.
    destruct He; eexists;
      first [by right; constructor
            |left; split; [constructor; by auto|by intros ? ?]].
  - intros (Hsafe & hint & [[He Hno]|He]); destruct He; try done; try by constructor.
    constructor. by apply Hno.
Qed.

(** The strategy of a rule is the one of its row. *)
Lemma rule_amended r F :
  r ∈ transition_rules -> edge (rule_from_state r) (rule_to_state r) F ->
  amended_edge (rule_from_state r) (rule_to_state r) F (rule_checkpoint_strategy r).
Proof.
  intros Hin He. unfold amended_edge, not_superseded.
  rule_cases Hin; simpl in *; inversion He; subst;
    first [by right; constructor
          |left; split; [constructor; by auto|by intros ? ?]].
Qed.

Lemma get_guard_legal from_state to_state :
  is_legal from_state to_state = true ->
  exists r, find_rule from_state to_state = Some r /\
            get_guard from_state to_state = Some (rule_guard r) /\
            get_checkpoint_strategy from_state to_state = Some (rule_checkpoint_strategy r).
Proof.
  unfold is_legal, get_guard, get_checkpoint_strategy.
  destruct (find_rule _ _) as [r|]; [|done]. by exists r.
Qed.

(** ** The controller implements the specification *)

Lemma evaluate_accepted_iff s request :
  er_accepted (evaluate_request_locked s request) = true <->
  tr_from_state request = s /\ edge s (tr_requested_to request) (request_facts request).
Proof.
  unfold evaluate_request_locked.
  destruct (bool_decide_reflect (tr_from_state request = s)) as [<-|Hne]; simpl; [|naive_solver].
  destruct (is_terminal _) eqn:Hterm; unfold is_terminal in Hterm; reflect_tests.
  - rewrite Hterm. destruct (bool_decide_reflect (tr_requested_to request = RuntimeState.SafeMode))
      as [E|]; simpl; [rewrite E|]; (split; [done|]); intros [_ He]; inversion He.
  - simpl. destruct (is_legal _ _) eqn:Hleg; simpl.
    + apply get_guard_legal in Hleg as (r & Hr & -> & ->).
      apply find_rule_some in Hr as Hr'. destruct Hr' as (Hin & Hfrom & Hto).
      destruct (first_unsatisfied_guard _ _) eqn:Hg; simpl.
      * split; [done|]. intros [_ He]. apply edge_rule in He as (r' & Hr' & Hh & _).
        simplify_eq. apply first_unsatisfied_guard_none in Hh. congruence.
      * split; [|done]. intros _. split; [done|]. rewrite <- Hfrom, <- Hto.
        apply rule_edge; [done|congruence|by apply first_unsatisfied_guard_none].
    + split; [done|]. intros [_ (r & Hr & _)%edge_rule]. unfold is_legal in Hleg. by rewrite Hr in Hleg.
Qed.

(** An accepted evaluation carries the checkpoint strategy of its rule. *)
Lemma evaluate_accepted_hint s request :
  er_accepted (evaluate_request_locked s request) = true ->
  exists r, r ∈ transition_rules /\ rule_from_state r = s /\
    rule_to_state r = tr_requested_to request /\
    er_checkpoint_hint (evaluate_request_locked s request)
              = Some (rule_checkpoint_strategy r).
Proof.
  intros Hacc. apply evaluate_accepted_iff in Hacc as Hspec. destruct Hspec as [<- He].
  revert Hacc. unfold evaluate_request_locked.
  rewrite bool_decide_eq_true_2 by done. simpl.
  destruct (is_terminal _ && _); [done|].
  destruct (is_legal _ _) eqn:Hleg; [|done].
  apply get_guard_legal in Hleg as (r & Hr & -> & ->).
  apply find_rule_some in Hr as (? & ? & ?).
  destruct (first_unsatisfied_guard _ _); [done|]. by exists r.
Qed.

Lemma transition_state s request :
  fst (transition s request) =
  if er_accepted (evaluate_request_locked s request) then tr_requested_to request else s.
Proof. unfold transition. by destruct (er_accepted _). Qed.

Lemma transition_accepted s request :
  to_accepted (snd (transition s request)) = er_accepted (evaluate_request_locked s request).
Proof. unfold transition. by destruct (er_accepted _). Qed.

(** The state changes only along an edge of the specification. *)
Lemma transition_moves s request :
  fst (transition s request) = s \/
  edge s (fst (transition s request)) (request_facts request).
Proof.
  rewrite transition_state. destruct (er_accepted _) eqn:H; [|by left].
  right. by apply evaluate_accepted_iff in H as [_ ?].
Qed.

(** A rejected request names its cause: the first failing test of source
    state, terminal state, table and guard, and for a missing guard fact the
    edge is legal and the reported fact is one the request does not carry. *)
Theorem transition_rejection_cause s request reason :
  to_rejection_reason (snd (transition s request)) = Some reason ->
  rr_from_state reason = s /\ rr_requested_to reason = tr_requested_to request /\
    match rr_violation_type reason with
  | TransitionViolationType.SourceStateMismatch => tr_from_state request <> s
  | TransitionViolationType.TerminalStateExit =>
      s = RuntimeState.SafeMode /\ tr_requested_to request <> RuntimeState.SafeMode
  | TransitionViolationType.IllegalTransition =>
      tr_from_state request = s /\ is_legal s (tr_requested_to request) = false
  | TransitionViolationType.MissingGuardFact =>
      tr_from_state request = s /\ is_legal s (tr_requested_to request) = true /\
    exists fact, rr_violated_guard reason = Some fact /\ ~ request_facts request fact
  | TransitionViolationType.GuardRejected => False
  end.
Proof.
  unfold transition, evaluate_request_locked.
  destruct (bool_decide_reflect (tr_from_state request = s)) as [<-|Hne]; simpl;
    [|by intros [= <-]].
  destruct (is_terminal _) eqn:Hterm; unfold is_terminal in Hterm; reflect_tests; simpl.
  1: rewrite Hterm; case_bool_decide as Hto; simpl; [|by intros [= <-]];
     rewrite Hto; simpl; by intros [= <-].
  destruct (is_legal _ _) eqn:Hleg; simpl; [|by intros [= <-]].
  apply get_guard_legal in Hleg as Hr. destruct Hr as (r & Hr & -> & ->).
  destruct (first_unsatisfied_guard _ _) as [fact|] eqn:Hg; simpl; [|done].
  intros [= <-]. simpl. apply first_unsatisfied_guard_some in Hg as [_ Hf]. eauto 10.
Qed.

Lemma transition_hint s request :
  to_accepted (snd (transition s request)) = true ->
  exists r, r ∈ transition_rules /\ rule_from_state r = s /\
            rule_to_state r = to_resolved_state (snd (transition s request)) /\
            to_checkpoint_hint (snd (transition s request)) = rule_checkpoint_strategy r.
Proof.
  rewrite transition_accepted. intros Hacc.
  destruct (evaluate_accepted_hint _ _ Hacc) as (r & Hin & Hfrom & Hto & Hhint).
  exists r. unfold transition. rewrite Hacc, Hhint. simpl. eauto.
Qed.

(** C1. [AgentFsm.transition] follows section 6.7.4 of the runtime design as RT-TODO-031
    amends it (three edges more, and no [FailedSafe] for a recovery that degrades), with one
    exception: it never leaves [SafeMode], though the amendment has an edge from there to
    [Responding]. A request is accepted exactly when its source is the current state, that
    state is not [SafeMode], and its facts make an edge legal; then the controller moves to
    the requested state, reports it and gives the checkpoint strategy of the row, and
    otherwise it keeps its state and reports a rejection. *)
Theorem transition_refines_spec s request :
  let s' := fst (transition s request) in
  let outcome := snd (transition s request) in
  (to_accepted outcome = true <->
     tr_from_state request = s /\ s <> RuntimeState.SafeMode /\
     exists hint, amended_edge s (tr_requested_to request) (request_facts request) hint) /\
    (to_accepted outcome = true ->
       amended_edge s (tr_requested_to request) (request_facts request)
         (to_checkpoint_hint outcome)) /\
    s' = (if to_accepted outcome then tr_requested_to request else s) /\
    to_resolved_state outcome = s' /\
    to_previous_state outcome = s /\
    has_rejection outcome = negb (to_accepted outcome).
Proof.
  cbv zeta. rewrite <- edge_amended, transition_state. split; [|split].
  - by rewrite transition_accepted, evaluate_accepted_iff.
  - intros Hacc. apply transition_hint in Hacc as Hh. destruct Hh as (r & Hin & Hfrom & Hto & ->).
    rewrite transition_accepted in Hacc. apply evaluate_accepted_iff in Hacc as Hspec.
    destruct Hspec as [_ He]. unfold transition in Hto. rewrite Hacc in Hto. simpl in Hto.
    rewrite <- Hfrom, <- Hto in *. by apply rule_amended.
  - rewrite transition_accepted. unfold transition.
    destruct (er_accepted (evaluate_request_locked s request)) eqn:H; simpl; [|done].
    by apply evaluate_accepted_iff in H as [-> _].
Qed.

(** ** Runs *)

Lemma fsm_step_moves s s' :
  fsm_step s s' -> s' = s \/ exists F, edge s s' F.
Proof. intros [s0 request]. destruct (transition_moves s0 request) as [->|He]; [by left|right; eexists; exact He]. Qed.

Lemma run_current h s : run h s -> exists h', h = s :: h'.
Proof. intros []; eauto. Qed.

(** The states visited since the controller last was in [Idle]. *)
Fixpoint since_idle (h : list RuntimeState) : list RuntimeState :=
  match h with
  | [] => []
  | s :: h => if decide (s = RuntimeState.Idle) then [] else s :: since_idle h
  end.

(** What the history of the current request must contain, by state. *)
Definition required_history (s : RuntimeState) : list RuntimeState :=
  match s with
  | RuntimeState.Auditing => [RuntimeState.Responding]
  | RuntimeState.Persisting => [RuntimeState.Responding; RuntimeState.Auditing]
  | RuntimeState.Completed =>
      [RuntimeState.Responding; RuntimeState.Auditing; RuntimeState.Persisting]
  | _ => []
  end.

Lemma run_required_history h s :
  run h s -> Forall (fun q => q ∈ since_idle h) (required_history s).
Proof.
  induction 1 as [|h s request Hrun IH]; [by constructor|].
  destruct (run_current _ _ Hrun) as [h' ->].
  destruct (transition_moves s request) as [->|He].
  - destruct s; simpl in *; rewrite ?Forall_cons, ?Forall_nil in *; set_solver.
  - inversion He; subst; simpl in *; rewrite ?Forall_cons, ?Forall_nil in *; set_solver.
Qed.

(** No request completes unaudited: in every run from [Idle], whatever
    requests are made, when the controller is in [Completed] it has been through
    [Responding], [Auditing] and [Persisting] since it last was in [Idle]. *)
Theorem completed_only_after_audit h :
  run h RuntimeState.Completed ->
  RuntimeState.Responding ∈ since_idle h /\ RuntimeState.Auditing ∈ since_idle h /\
  RuntimeState.Persisting ∈ since_idle h.
Proof.
  intros H%run_required_history. simpl in H. rewrite !Forall_cons in H. naive_solver.
Qed.

(** A tool call is always authorised: the controller enters [ToolCalling]
    only from [WaitingConfirm] with the user's confirmation, or from [Reasoning]
    with a planned call the budget allows. *)
Theorem tool_call_authorised s request :
  s <> RuntimeState.ToolCalling ->
  fst (transition s request) = RuntimeState.ToolCalling ->
  (s = RuntimeState.WaitingConfirm /\
   request_facts request TransitionGuardFact.UserConfirmationGranted) \/
  (s = RuntimeState.Reasoning /\
   request_facts request TransitionGuardFact.ToolCallPlanned /\
   request_facts request TransitionGuardFact.BudgetAllowsToolCall).
Proof.
  intros Hs Hto. destruct (transition_moves s request) as [E|He]; [congruence|].
  rewrite Hto in He. inversion He; subst; auto.
Qed.

(** [SafeMode] is absorbing: no sequence of requests leaves it, although the
    guard table lists an unconditional rule from [SafeMode] to [Responding]. *)
Theorem safe_mode_absorbing s :
  rtc fsm_step RuntimeState.SafeMode s ->
  s = RuntimeState.SafeMode /\ is_legal RuntimeState.SafeMode RuntimeState.Responding = true.
Proof.
  intros H. split; [|reflexivity].
  remember RuntimeState.SafeMode as safe eqn:E.
  induction H as [|x y z Hstep _ IH]; [done|]. subst x.
  apply fsm_step_moves in Hstep as [->|[F He]]; [by apply IH|inversion He].
Qed.

(** The states a run can be in are the enumerators. *)
Lemma run_catalog h s : run h s -> s ∈ runtime_state_catalog.
Proof.
  induction 1 as [|h s request Hrun IH]; [unfold runtime_state_catalog; set_solver|].
  destruct (transition_moves s request) as [->|He]; [done|].
  inversion He; subst; apply list_elem_of_In; simpl; auto 20.
Qed.

(** Requests applied in order. *)
Definition transitions (s : RuntimeState) (requests : list StateTransitionRequest) : RuntimeState :=
  fold_left (fun s request => fst (transition s request)) requests s.

(** A request for an edge of the table, with the facts its guard lists. *)
Definition edge_request (from_state to_state : RuntimeState) : StateTransitionRequest :=
  {| tr_from_state := from_state; tr_requested_to := to_state; tr_transition_reason := "";
     tr_guard_facts :=
       match get_guard from_state to_state with
       | Some guard => gr_all_of guard ++ gr_any_of guard
       | None => []
       end |}.

(** The next state on the way back to [Idle]. *)
Definition homeward (s : RuntimeState) : RuntimeState :=
  match s with
  | RuntimeState.Receiving => RuntimeState.Planning
  | RuntimeState.Planning => RuntimeState.Reasoning
  | RuntimeState.Reasoning => RuntimeState.Responding
  | RuntimeState.WaitingClarify => RuntimeState.Receiving
  | RuntimeState.WaitingConfirm => RuntimeState.ToolCalling
  | RuntimeState.ToolCalling => RuntimeState.WaitingExternal
  | RuntimeState.WaitingExternal => RuntimeState.Reflecting
  | RuntimeState.Reflecting => RuntimeState.Reasoning
  | RuntimeState.FailedSafe => RuntimeState.Responding
  | RuntimeState.Responding => RuntimeState.Auditing
  | RuntimeState.Auditing => RuntimeState.Persisting
  | RuntimeState.Persisting => RuntimeState.Completed
  | RuntimeState.Completed => RuntimeState.Idle
  | RuntimeState.Failed => RuntimeState.Degraded
  | RuntimeState.Degraded => RuntimeState.Responding
  | s => s
  end.

Fixpoint way_home (steps : nat) (s : RuntimeState) : list StateTransitionRequest :=
  match steps with
  | O => []
  | S steps =>
      if decide (s = RuntimeState.Idle) then []
      else edge_request s (homeward s) :: way_home steps (homeward s)
  end.

Lemma way_home_length steps s : (length (way_home steps s) <= steps)%nat.
Proof.
  revert s. induction steps as [|steps IH]; intros s; simpl; [lia|].
  case_decide; simpl; [lia|]. specialize (IH (homeward s)). lia.
Qed.

(** No run gets stuck before [SafeMode]: from every other state a run can
    be in, at most nine accepted transitions lead back to [Idle]. *)
Theorem run_can_return_to_idle h s :
  run h s -> s <> RuntimeState.SafeMode ->
  exists requests, (length requests <= 9)%nat /\ transitions s requests = RuntimeState.Idle.
Proof.
  intros Hcat%run_catalog Hsafe. exists (way_home 9 s). split; [apply way_home_length|].
  unfold runtime_state_catalog in Hcat.
  repeat (apply elem_of_cons in Hcat as [-> | Hcat]; [done || (vm_compute; reflexivity)|]).
  by apply elem_of_nil in Hcat.
Qed.

(** ** Witnesses *)

Lemma completed_only_after_audit_witness :
  RuntimeState.Responding ∈ since_idle
    [RuntimeState.Completed; RuntimeState.Persisting; RuntimeState.Auditing;
     RuntimeState.Responding; RuntimeState.Reasoning; RuntimeState.Planning;
     RuntimeState.Receiving; RuntimeState.Idle].
Proof.
  refine (proj1 (completed_only_after_audit _ _)).
  pose (go := fun h s t (H : run h s) => run_step h s (edge_request s t) H).
  exact (go _ _ RuntimeState.Completed (go _ _ RuntimeState.Persisting
          (go _ _ RuntimeState.Auditing (go _ _ RuntimeState.Responding
            (go _ _ RuntimeState.Reasoning (go _ _ RuntimeState.Planning
              (go _ _ RuntimeState.Receiving run_init))))))).
Defined.

Lemma transition_rejection_cause_witness :
  exists fact, TransitionGuardFact.BudgetAllowsToolCall = fact /\
    fact ∉ [TransitionGuardFact.ToolCallPlanned].
Proof.
  pose (request := {| tr_from_state := RuntimeState.Reasoning;
                      tr_requested_to := RuntimeState.ToolCalling;
                      tr_transition_reason := "tool";
                      tr_guard_facts := [TransitionGuardFact.ToolCallPlanned] |}).
  destruct (transition_rejection_cause RuntimeState.Reasoning request _ eq_refl)
    as (_ & _ & _ & _ & fact & Hfact & Hno).
  exists fact. split; [by injection Hfact|exact Hno].
Defined.

Lemma tool_call_authorised_witness :
  request_facts (edge_request RuntimeState.Reasoning RuntimeState.ToolCalling)
    TransitionGuardFact.BudgetAllowsToolCall.
Proof.
  destruct (tool_call_authorised RuntimeState.Reasoning
              (edge_request RuntimeState.Reasoning RuntimeState.ToolCalling))
    as [[? _]|(_ & _ & ?)]; [done|reflexivity|done|done].
Defined.

Lemma safe_mode_absorbing_witness :
  fst (transition RuntimeState.SafeMode
         (edge_request RuntimeState.SafeMode RuntimeState.Responding)) = RuntimeState.SafeMode.
Proof.
  exact (proj1 (safe_mode_absorbing _ (rtc_once _ _
    (fsm_step_intro _ (edge_request RuntimeState.SafeMode RuntimeState.Responding))))).
Defined.

Lemma run_can_return_to_idle_witness :
  exists requests, transitions RuntimeState.Receiving requests = RuntimeState.Idle.
Proof.
  destruct (run_can_return_to_idle [RuntimeState.Receiving; RuntimeState.Idle] RuntimeState.Receiving)
    as (requests & _ & H).
  - exact (run_step _ _ (edge_request RuntimeState.Idle RuntimeState.Receiving) run_init).
  - done.
  - exists requests. exact H.
Defined.
