(* ===== verification/SessionTypes.v ===== *)
(** * Session types

    runtime/include/session/SessionTypes.h: the session snapshot, the seed a
    resumed turn starts from, and the requests and results of the session
    manager. *)

From S2P Require Import Prelude ErrorCodes Fsm.

(** [enum class PendingInteractionKind : std::uint8_t]; [Other] is a byte no
    enumerator names. *)
Module PendingInteractionKind.
Inductive PendingInteractionKind := None | Clarify | Confirm | WaitExternal | Other (raw : Z).
#[global] Instance PendingInteractionKind_eq_dec : EqDecision PendingInteractionKind.
Proof. solve_decision. Defined.
End PendingInteractionKind.
Abbreviation PendingInteractionKind := PendingInteractionKind.PendingInteractionKind.

(** [static_cast<int>(kind)] and [static_cast<PendingInteractionKind>(raw)]. *)
Definition pending_interaction_kind_value (kind : PendingInteractionKind) : Z :=
  match kind with
  | PendingInteractionKind.None => 0
  | PendingInteractionKind.Clarify => 1
  | PendingInteractionKind.Confirm => 2
  | PendingInteractionKind.WaitExternal => 3
  | PendingInteractionKind.Other raw => raw
  end.

Definition pending_interaction_kind_of_value (raw : Z) : PendingInteractionKind :=
  let byte := raw mod 2 ^ 8 in
  if byte =? 0 then PendingInteractionKind.None else
  if byte =? 1 then PendingInteractionKind.Clarify else
  if byte =? 2 then PendingInteractionKind.Confirm else
  if byte =? 3 then PendingInteractionKind.WaitExternal else
  PendingInteractionKind.Other byte.

Record PendingInteractionState := {
  pi_interaction_kind : PendingInteractionKind;
  pi_prompt_token : string;
  pi_deadline_ms : option Z;
  pi_blocking_reason : string;
  pi_resume_channel : string;
  pi_input_schema_hint : string;
}.

#[global] Instance PendingInteractionState_eq_dec : EqDecision PendingInteractionState.
Proof. solve_decision. Defined.

Definition active (interaction : PendingInteractionState) : bool :=
  negb (bool_decide (pi_interaction_kind interaction = PendingInteractionKind.None)).

Record SessionSnapshot := {
  ss_session_id : string;
  ss_request_id : string;
  ss_turn_index : Z;
  ss_active_checkpoint_ref : option string;
  ss_fsm_state : RuntimeState;
  ss_budget_snapshot_ref : option string;
  ss_pending_interaction : option PendingInteractionState;
  ss_last_result_summary : option string;
}.

#[global] Instance SessionSnapshot_eq_dec : EqDecision SessionSnapshot.
Proof. solve_decision. Defined.

Definition has_active_checkpoint (snapshot : SessionSnapshot) : bool :=
  has_non_empty_value (ss_active_checkpoint_ref snapshot).

Record ResumeSeed := {
  rs_session_id : string;
  rs_request_id : string;
  rs_checkpoint_ref : string;
  rs_resume_token : string;
  rs_fsm_state : RuntimeState;
  rs_pending_interaction : option PendingInteractionState;
  rs_policy_snapshot_ref : option string;
  rs_resume_reason : string;
}.

Definition seed_has_minimum_requirements (seed : ResumeSeed) : bool :=
  negb (is_empty (rs_session_id seed)) && negb (is_empty (rs_request_id seed))
  && negb (is_empty (rs_checkpoint_ref seed)) && negb (is_empty (rs_resume_token seed))
  && negb (is_empty (rs_resume_reason seed)).

Record SessionLoadRequest := {
  slr_session_id : string;
  slr_request_id : string;
  slr_checkpoint_ref : option string;
  slr_allow_session_create : bool;
}.

Definition load_has_minimum_requirements (request : SessionLoadRequest) : bool :=
  negb (is_empty (slr_session_id request)) && negb (is_empty (slr_request_id request)).

Record SessionLoadResult := {
  slres_accepted : bool;
  slres_created_new_session : bool;
  slres_snapshot : option SessionSnapshot;
  slres_error_code : option RuntimeErrorCode;
  slres_detail : string;
}.

Record PrepareTurnRequest := {
  ptr_session_snapshot : SessionSnapshot;
  ptr_resume_turn : bool;
  ptr_expected_checkpoint_ref : option string;
}.

Record PrepareTurnResult := {
  ptres_accepted : bool;
  ptres_effective_session : option SessionSnapshot;
  ptres_error_code : option RuntimeErrorCode;
  ptres_detail : string;
}.

Record SessionPersistRequest := {
  spr_session_snapshot : SessionSnapshot;
  spr_terminal_state : RuntimeState;
  spr_checkpoint_ref : option string;
  spr_audit_summary : option string;
  spr_next_resume_seed_ref : option string;
}.

Definition persist_has_minimum_requirements (request : SessionPersistRequest) : bool :=
  negb (is_empty (ss_session_id (spr_session_snapshot request)))
  && negb (is_empty (ss_request_id (spr_session_snapshot request))).

Record SessionPersistResult := {
  spres_persisted : bool;
  spres_active_checkpoint_ref : option string;
  spres_error_code : option RuntimeErrorCode;
  spres_detail : string;
}.

Record BindCheckpointRefRequest := {
  bcr_session_id : string;
  bcr_request_id : string;
  bcr_checkpoint_ref : string;
  bcr_fsm_state : RuntimeState;
  bcr_pending_interaction : option PendingInteractionState;
}.

Definition bind_has_minimum_requirements (request : BindCheckpointRefRequest) : bool :=
  negb (is_empty (bcr_session_id request)) && negb (is_empty (bcr_request_id request))
  && negb (is_empty (bcr_checkpoint_ref request)).

Record BuildResumeSeedRequest := {
  brs_session_snapshot : SessionSnapshot;
  brs_checkpoint_ref : string;
  brs_resume_token : string;
  brs_resume_reason : string;
  brs_policy_snapshot_ref : option string;
}.

Definition build_seed_has_minimum_requirements (request : BuildResumeSeedRequest) : bool :=
  negb (is_empty (ss_session_id (brs_session_snapshot request)))
  && negb (is_empty (ss_request_id (brs_session_snapshot request)))
  && negb (is_empty (brs_checkpoint_ref request)) && negb (is_empty (brs_resume_token request))
  && negb (is_empty (brs_resume_reason request)).

Record ResumeSeedResult := {
  rsres_resume_seed : option ResumeSeed;
  rsres_error_code : option RuntimeErrorCode;
  rsres_detail : string;
}.

Definition make_session_load_result (snapshot : SessionSnapshot) (created_new_session : bool)
    (detail : string) : SessionLoadResult :=
  {| slres_accepted := true; slres_created_new_session := created_new_session;
     slres_snapshot := Some snapshot; slres_error_code := None; slres_detail := detail |}.

Definition make_prepare_turn_result (effective_session : SessionSnapshot) (detail : string)
    : PrepareTurnResult :=
  {| ptres_accepted := true; ptres_effective_session := Some effective_session;
     ptres_error_code := None; ptres_detail := detail |}.

Definition make_session_persist_result (active_checkpoint_ref : option string) (detail : string)
    : SessionPersistResult :=
  {| spres_persisted := true; spres_active_checkpoint_ref := active_checkpoint_ref;
     spres_error_code := None; spres_detail := detail |}.

Definition make_resume_seed_result (resume_seed : ResumeSeed) (detail : string)
    : ResumeSeedResult :=
  {| rsres_resume_seed := Some resume_seed; rsres_error_code := None; rsres_detail := detail |}.

(** A byte, where the kind is not one the enumeration names. *)
Definition kind_ok (kind : PendingInteractionKind) : Prop :=
  match kind with PendingInteractionKind.Other raw => 3 < raw < 2 ^ 8 | _ => True end.

Lemma pending_interaction_kind_roundtrip kind :
  kind_ok kind ->
  0 <= pending_interaction_kind_value kind < 2 ^ 8 /\
  pending_interaction_kind_of_value (pending_interaction_kind_value kind) = kind.
Proof.
  destruct kind as [| | | |raw]; simpl; intros H; split; try done; try lia.
  unfold pending_interaction_kind_of_value. rewrite Z.mod_small by lia.
  repeat match goal with |- context [?a =? ?b] => destruct (Z.eqb_spec a b); [lia|] end. done.
Qed.
