(* ===== verification/Budget.v ===== *)
(** * Budget controller

    runtime/include/budget/BudgetDecision.h and
    runtime/src/budget/BudgetController.cpp: the five-dimensional budget of a
    request, its consumption, and the decisions the main loop takes on it. *)

From S2P Require Import Prelude ErrorCodes CheckpointContracts.

(** ** BudgetDecision.h *)

Record BudgetInitializeRequest := {
  bir_runtime_budget : RuntimeBudget;
  bir_started_at_ms : Z;
}.

Record BudgetConsumeRequest := {
  bcr_budget_type : BudgetType;
  bcr_amount : Z;
  bcr_observed_at_ms : Z;
  bcr_detail : string;
}.

Module BudgetViolationClass.
Inductive BudgetViolationClass :=
| None | ConfigurationInvalid | SnapshotUnavailable | TokenExhausted | TurnExhausted
| ToolCallExhausted | LatencyExhausted | ReplanExhausted.
#[global] Instance BudgetViolationClass_eq_dec : EqDecision BudgetViolationClass.
Proof. solve_decision. Defined.
End BudgetViolationClass.
Abbreviation BudgetViolationClass := BudgetViolationClass.BudgetViolationClass.

Definition budget_violation_name (violation : BudgetViolationClass) : string :=
  match violation with
  | BudgetViolationClass.None => "None"
  | BudgetViolationClass.ConfigurationInvalid => "ConfigurationInvalid"
  | BudgetViolationClass.SnapshotUnavailable => "SnapshotUnavailable"
  | BudgetViolationClass.TokenExhausted => "TokenExhausted"
  | BudgetViolationClass.TurnExhausted => "TurnExhausted"
  | BudgetViolationClass.ToolCallExhausted => "ToolCallExhausted"
  | BudgetViolationClass.LatencyExhausted => "LatencyExhausted"
  | BudgetViolationClass.ReplanExhausted => "ReplanExhausted"
  end.

Definition violated_budget_type (violation : BudgetViolationClass) : option BudgetType :=
  match violation with
  | BudgetViolationClass.TokenExhausted => Some BudgetType.Token
  | BudgetViolationClass.TurnExhausted => Some BudgetType.Turn
  | BudgetViolationClass.ToolCallExhausted => Some BudgetType.ToolCall
  | BudgetViolationClass.LatencyExhausted => Some BudgetType.Latency
  | BudgetViolationClass.ReplanExhausted => Some BudgetType.Replan
  | BudgetViolationClass.None
  | BudgetViolationClass.ConfigurationInvalid
  | BudgetViolationClass.SnapshotUnavailable => None
  end.

Definition budget_violation_error_code (violation : BudgetViolationClass)
    : option RuntimeErrorCode :=
  match violation with
  | BudgetViolationClass.ConfigurationInvalid => Some RT_E_100_CONFIG_MISSING
  | BudgetViolationClass.SnapshotUnavailable => Some RT_E_202_STATE_INCONSISTENT
  | BudgetViolationClass.TokenExhausted => Some RT_E_300_BUDGET_EXHAUSTED
  | BudgetViolationClass.TurnExhausted => Some RT_E_301_TURN_OVERRUN
  | BudgetViolationClass.ToolCallExhausted => Some RT_E_302_TOOL_CALL_OVERRUN
  | BudgetViolationClass.LatencyExhausted => Some RT_E_303_LATENCY_OVERRUN
  | BudgetViolationClass.ReplanExhausted => Some RT_E_304_REPLAN_OVERRUN
  | BudgetViolationClass.None => None
  end.

Record BudgetDecision := {
  bd_allowed : bool;
  bd_budget_type : option BudgetType;
  bd_violation : BudgetViolationClass;
  bd_error_code : option RuntimeErrorCode;
  bd_detail : string;
}.

Definition make_budget_allowed_decision (budget_type : option BudgetType) (detail : string)
    : BudgetDecision :=
  {| bd_allowed := true; bd_budget_type := budget_type;
     bd_violation := BudgetViolationClass.None; bd_error_code := None; bd_detail := detail |}.

Definition make_budget_rejected_decision (violation : BudgetViolationClass) (detail : string)
    (budget_type : option BudgetType) : BudgetDecision :=
  {| bd_allowed := false;
     bd_budget_type :=
       match budget_type with Some t => Some t | None => violated_budget_type violation end;
     bd_violation := violation;
     bd_error_code := budget_violation_error_code violation;
     bd_detail := detail |}.

(** ** BudgetController *)

Record BudgetController := {
  bc_initialized : bool;
  bc_started_at_ms : Z;
  bc_runtime_budget : RuntimeBudget;
  bc_snapshot : BudgetSnapshot;
}.

(** The state of a fresh controller, which a failed initialisation restores. *)
Definition empty_budget_controller : BudgetController :=
  {| bc_initialized := false; bc_started_at_ms := 0;
     bc_runtime_budget := empty_runtime_budget; bc_snapshot := empty_budget_snapshot |}.

Definition exhausted_violation_for (budget_type : BudgetType) : BudgetViolationClass :=
  match budget_type with
  | BudgetType.Token => BudgetViolationClass.TokenExhausted
  | BudgetType.Turn => BudgetViolationClass.TurnExhausted
  | BudgetType.ToolCall => BudgetViolationClass.ToolCallExhausted
  | BudgetType.Latency => BudgetViolationClass.LatencyExhausted
  | BudgetType.Replan => BudgetViolationClass.ReplanExhausted
  end.

Definition initial_entry (budget_type : BudgetType) (max : Z) : BudgetSnapshotEntry :=
  {| bse_budget_type := budget_type; bse_current := 0; bse_max := max;
     bse_remaining := s64 max; bse_reject_reason := None |}.

(** The limits are dereferenced: [None] when one of them is absent. *)
Definition build_initial_snapshot (runtime_budget : RuntimeBudget) (started_at_ms : Z)
    : option BudgetSnapshot :=
  max_tokens ← rb_max_tokens runtime_budget;
  max_turns ← rb_max_turns runtime_budget;
  max_tool_calls ← rb_max_tool_calls runtime_budget;
  max_latency_ms ← rb_max_latency_ms runtime_budget;
  max_replan_count ← rb_max_replan_count runtime_budget;
  Some {| bs_snapshot_at_ms := Some started_at_ms;
          bs_entries := [initial_entry BudgetType.Token max_tokens;
                         initial_entry BudgetType.Turn max_turns;
                         initial_entry BudgetType.ToolCall max_tool_calls;
                         initial_entry BudgetType.Latency max_latency_ms;
                         initial_entry BudgetType.Replan max_replan_count];
          bs_overall_reject_reason := None |}.

(** One iteration of the loop of [runtime_budget_from_snapshot]: the 64-bit
    limit of the entry is stored in a 32-bit field. *)
Definition runtime_budget_of_entry (runtime_budget : RuntimeBudget) (entry : BudgetSnapshotEntry)
    : RuntimeBudget :=
  let '{| rb_max_tokens := tokens; rb_max_turns := turns; rb_max_tool_calls := tool_calls;
          rb_max_latency_ms := latency; rb_max_replan_count := replans |} := runtime_budget in
  let max := Some (u32 (bse_max entry)) in
  match bse_budget_type entry with
  | BudgetType.Token =>
      {| rb_max_tokens := max; rb_max_turns := turns; rb_max_tool_calls := tool_calls;
         rb_max_latency_ms := latency; rb_max_replan_count := replans |}
  | BudgetType.Turn =>
      {| rb_max_tokens := tokens; rb_max_turns := max; rb_max_tool_calls := tool_calls;
         rb_max_latency_ms := latency; rb_max_replan_count := replans |}
  | BudgetType.ToolCall =>
      {| rb_max_tokens := tokens; rb_max_turns := turns; rb_max_tool_calls := max;
         rb_max_latency_ms := latency; rb_max_replan_count := replans |}
  | BudgetType.Latency =>
      {| rb_max_tokens := tokens; rb_max_turns := turns; rb_max_tool_calls := tool_calls;
         rb_max_latency_ms := max; rb_max_replan_count := replans |}
  | BudgetType.Replan =>
      {| rb_max_tokens := tokens; rb_max_turns := turns; rb_max_tool_calls := tool_calls;
         rb_max_latency_ms := latency; rb_max_replan_count := max |}
  end.

(** [has_token], [has_turn], ... of the code are set exactly when the field is. *)
Definition runtime_budget_from_snapshot (snapshot : BudgetSnapshot) : option RuntimeBudget :=
  let runtime_budget :=
    fold_left runtime_budget_of_entry (bs_entries snapshot) empty_runtime_budget in
  if bool_decide (rb_max_tokens runtime_budget = None)
     || bool_decide (rb_max_turns runtime_budget = None)
     || bool_decide (rb_max_tool_calls runtime_budget = None)
     || bool_decide (rb_max_latency_ms runtime_budget = None)
     || bool_decide (rb_max_replan_count runtime_budget = None)
  then None
  else Some runtime_budget.

Definition initialize (request : BudgetInitializeRequest)
    : option (BudgetDecision * BudgetController) :=
  let guard_result := validate_runtime_budget (bir_runtime_budget request) in
  if negb (gr_ok guard_result) then
    Some (make_budget_rejected_decision BudgetViolationClass.ConfigurationInvalid
            (gr_reason guard_result) None,
          empty_budget_controller)
  else
    snapshot ← build_initial_snapshot (bir_runtime_budget request) (bir_started_at_ms request);
    Some (make_budget_allowed_decision None "budget initialized",
          {| bc_initialized := true; bc_started_at_ms := bir_started_at_ms request;
             bc_runtime_budget := bir_runtime_budget request; bc_snapshot := snapshot |}).

(** The first reject reason of the entries. *)
Definition first_reject_reason (entries : list BudgetSnapshotEntry) : option string :=
  match List.find (fun entry => bool_decide (is_Some (bse_reject_reason entry))) entries with
  | Some entry => bse_reject_reason entry
  | None => None
  end.

Definition refresh_overall_reject_reason_locked (snapshot : BudgetSnapshot) : BudgetSnapshot :=
  {| bs_snapshot_at_ms := bs_snapshot_at_ms snapshot; bs_entries := bs_entries snapshot;
     bs_overall_reject_reason := first_reject_reason (bs_entries snapshot) |}.

Definition restore (snapshot : BudgetSnapshot) (started_at_ms : Z)
    : BudgetDecision * BudgetController :=
  let snapshot_guard := validate_budget_snapshot snapshot in
  if negb (gr_ok snapshot_guard) then
    (make_budget_rejected_decision BudgetViolationClass.SnapshotUnavailable
       (gr_reason snapshot_guard) None, empty_budget_controller)
  else
  let? runtime_budget := runtime_budget_from_snapshot snapshot
  else
    (make_budget_rejected_decision BudgetViolationClass.SnapshotUnavailable
       "budget snapshot is missing one or more dimensions" None, empty_budget_controller)
  in
  let guard_result := validate_runtime_budget runtime_budget in
  if negb (gr_ok guard_result) then
    (make_budget_rejected_decision BudgetViolationClass.ConfigurationInvalid
       (gr_reason guard_result) None, empty_budget_controller)
  else
  let snapshot :=
    match bs_snapshot_at_ms snapshot with
    | Some _ => snapshot
    | None => {| bs_snapshot_at_ms := Some started_at_ms; bs_entries := bs_entries snapshot;
                 bs_overall_reject_reason := bs_overall_reject_reason snapshot |}
    end in
  (make_budget_allowed_decision None "budget restored from checkpoint snapshot",
   {| bc_initialized := true; bc_started_at_ms := started_at_ms;
      bc_runtime_budget := runtime_budget;
      bc_snapshot := refresh_overall_reject_reason_locked snapshot |}).

Definition find_entry_locked (b : BudgetController) (budget_type : BudgetType)
    : option BudgetSnapshotEntry :=
  List.find (fun entry => bool_decide (bse_budget_type entry = budget_type))
    (bs_entries (bc_snapshot b)).

(** Writing through the pointer [find_entry_locked] returned. *)
Fixpoint store_entry (budget_type : BudgetType) (entry : BudgetSnapshotEntry)
    (entries : list BudgetSnapshotEntry) : list BudgetSnapshotEntry :=
  match entries with
  | [] => []
  | e :: rest =>
      if bool_decide (bse_budget_type e = budget_type) then entry :: rest
      else e :: store_entry budget_type entry rest
  end.

Definition with_snapshot (b : BudgetController) (snapshot : BudgetSnapshot) : BudgetController :=
  {| bc_initialized := bc_initialized b; bc_started_at_ms := bc_started_at_ms b;
     bc_runtime_budget := bc_runtime_budget b; bc_snapshot := snapshot |}.

(** [None]: the subtraction of the two 64-bit signed values overflows. *)
Definition consume (b : BudgetController) (request : BudgetConsumeRequest)
    : option (BudgetDecision * BudgetController) :=
  if negb (bc_initialized b) then
    Some (make_budget_rejected_decision BudgetViolationClass.SnapshotUnavailable
            "budget controller must be initialized before consume" None, b)
  else
  let? entry := find_entry_locked b (bcr_budget_type request)
  else
    Some (make_budget_rejected_decision BudgetViolationClass.SnapshotUnavailable
            "budget snapshot entry is missing" (Some (bcr_budget_type request)), b)
  in
  let current :=
    if bool_decide (bcr_budget_type request = BudgetType.Latency) then
      if bc_started_at_ms b <? bcr_observed_at_ms request
      then bcr_observed_at_ms request - bc_started_at_ms b else 0
    else u64 (bse_current entry + bcr_amount request) in
  let remaining := s64 (bse_max entry) - s64 current in
  if negb (s64_fits remaining) then None else
  let over := bse_max entry <? current in
  let reject_reason :=
    if over
    then if is_empty (bcr_detail request) then "budget exhausted" else bcr_detail request
    else "" in
  let entry' :=
    {| bse_budget_type := bse_budget_type entry; bse_current := current;
       bse_max := bse_max entry; bse_remaining := remaining;
       bse_reject_reason := if over then Some reject_reason else None |} in
  let snapshot :=
    refresh_overall_reject_reason_locked
      {| bs_snapshot_at_ms := Some (bcr_observed_at_ms request);
         bs_entries := store_entry (bcr_budget_type request) entry' (bs_entries (bc_snapshot b));
         bs_overall_reject_reason := bs_overall_reject_reason (bc_snapshot b) |} in
  if over then
    Some (make_budget_rejected_decision (exhausted_violation_for (bcr_budget_type request))
            reject_reason (Some (bcr_budget_type request)), with_snapshot b snapshot)
  else
    Some (make_budget_allowed_decision (Some (bcr_budget_type request))
            (if is_empty (bcr_detail request) then "budget consumed" else bcr_detail request),
          with_snapshot b snapshot).

Definition snapshot (b : BudgetController) : BudgetSnapshot := bc_snapshot b.

(** The loop of [decision_for_locked] over the required dimensions. *)
Fixpoint decide_dimensions (b : BudgetController) (required_dimensions : list BudgetType)
    (allowed_budget_type : option BudgetType) (allowed_detail : string) : BudgetDecision :=
  match required_dimensions with
  | [] => make_budget_allowed_decision allowed_budget_type allowed_detail
  | budget_type :: rest =>
      let? entry := find_entry_locked b budget_type
      else make_budget_rejected_decision BudgetViolationClass.SnapshotUnavailable
             "budget snapshot entry is missing" (Some budget_type)
      in
      if bse_max entry <? bse_current entry then
        make_budget_rejected_decision (exhausted_violation_for budget_type)
          (default "budget exhausted" (bse_reject_reason entry)) (Some budget_type)
      else decide_dimensions b rest allowed_budget_type allowed_detail
  end.

Definition decision_for_locked (b : BudgetController) (required_dimensions : list BudgetType)
    (allowed_budget_type : option BudgetType) (allowed_detail : string) : BudgetDecision :=
  if negb (bc_initialized b) then
    make_budget_rejected_decision BudgetViolationClass.SnapshotUnavailable
      "budget controller has no snapshot" None
  else decide_dimensions b required_dimensions allowed_budget_type allowed_detail.

Definition can_continue (b : BudgetController) : BudgetDecision :=
  decision_for_locked b [BudgetType.Token; BudgetType.Turn; BudgetType.Latency]
    (Some BudgetType.Turn) "continue budget available".

Definition can_replan (b : BudgetController) : BudgetDecision :=
  decision_for_locked b
    [BudgetType.Token; BudgetType.Turn; BudgetType.Latency; BudgetType.Replan]
    (Some BudgetType.Replan) "replan budget available".

Definition can_call_tool (b : BudgetController) : BudgetDecision :=
  decision_for_locked b
    [BudgetType.Token; BudgetType.Turn; BudgetType.Latency; BudgetType.ToolCall]
    (Some BudgetType.ToolCall) "tool-call budget available".

(** ** Entries *)

Lemma find_entry_type b t e :
  find_entry_locked b t = Some e -> bse_budget_type e = t /\ e ∈ bs_entries (bc_snapshot b).
Proof.
  intros [Hin Ht]%find_some. reflect_tests. by rewrite list_elem_of_In.
Qed.

Lemma find_entry_exists b t :
  (t ∈ (bse_budget_type <$> bs_entries (bc_snapshot b))) ->
  exists e, find_entry_locked b t = Some e.
Proof.
  intros (e & -> & He)%list_elem_of_fmap. unfold find_entry_locked.
  destruct (List.find _ _) eqn:Hf; [eauto|].
  apply list_elem_of_In in He. pose proof (find_none _ _ Hf _ He) as H. simpl in H.
  by rewrite bool_decide_eq_true_2 in H.
Qed.

Lemma store_entry_find t t' e entries :
  bse_budget_type e = t ->
  List.find (fun x => bool_decide (bse_budget_type x = t')) (store_entry t e entries) =
  (if bool_decide (t = t')
   then (fun _ => e) <$> List.find (fun x => bool_decide (bse_budget_type x = t)) entries
   else List.find (fun x => bool_decide (bse_budget_type x = t')) entries).
Proof.
  intros Ht. induction entries as [|x rest IH]; simpl; [by case_bool_decide|].
  destruct (bool_decide_reflect (bse_budget_type x = t)) as [Hx|Hx]; simpl.
  - rewrite Ht. destruct (bool_decide_reflect (t = t')) as [->|Hne]; [done|].
    rewrite bool_decide_eq_false_2 by congruence. done.
  - rewrite IH. destruct (bool_decide_reflect (t = t')) as [->|Hne]; [|done].
    by rewrite bool_decide_eq_false_2.
Qed.

Lemma store_entry_types t e entries :
  bse_budget_type e = t ->
  bse_budget_type <$> store_entry t e entries = bse_budget_type <$> entries.
Proof.
  intros Ht. induction entries as [|x rest IH]; [done|]. simpl.
  case_bool_decide; csimpl; congruence.
Qed.

Lemma store_entry_forall (P : BudgetSnapshotEntry -> Prop) t e entries :
  Forall P entries -> P e -> Forall P (store_entry t e entries).
Proof.
  induction 1; simpl; [done|]. case_bool_decide; auto.
Qed.

(** ** The invariant *)

(** Counters and limits below 2{^63}, where the code's signed arithmetic is
    exact, and a limit the 32-bit budget can hold. *)
Definition entry_in_range (e : BudgetSnapshotEntry) : Prop :=
  0 <= bse_current e < 2 ^ 63 /\ 0 <= bse_max e < 2 ^ 63.

Record controller_wf (b : BudgetController) : Prop := {
  wf_valid : gr_ok (validate_budget_snapshot (bc_snapshot b)) = true;
  wf_types : forall t, t ∈ (bse_budget_type <$> bs_entries (bc_snapshot b));
  wf_range : Forall entry_in_range (bs_entries (bc_snapshot b));
  wf_limits : Forall (fun e => u32 (bse_max e) <> 0) (bs_entries (bc_snapshot b));
  wf_overall : bs_overall_reject_reason (bc_snapshot b)
               = first_reject_reason (bs_entries (bc_snapshot b));
}.

(** The counter a consumption writes. *)
Definition consumed_current (b : BudgetController) (e : BudgetSnapshotEntry)
    (request : BudgetConsumeRequest) : Z :=
  if bool_decide (bcr_budget_type request = BudgetType.Latency)
  then Z.max 0 (bcr_observed_at_ms request - bc_started_at_ms b)
  else bse_current e + bcr_amount request.

(** A consumption whose counter stays below 2{^63}. *)
Definition consume_in_range (b : BudgetController) (request : BudgetConsumeRequest) : Prop :=
  0 <= bcr_amount request /\
  forall e, find_entry_locked b (bcr_budget_type request) = Some e ->
    consumed_current b e request < 2 ^ 63.

(** The limits of a [RuntimeBudget] are 32-bit fields. *)
Definition rb_field (rb : RuntimeBudget) (t : BudgetType) : option Z :=
  match t with
  | BudgetType.Token => rb_max_tokens rb
  | BudgetType.Turn => rb_max_turns rb
  | BudgetType.ToolCall => rb_max_tool_calls rb
  | BudgetType.Latency => rb_max_latency_ms rb
  | BudgetType.Replan => rb_max_replan_count rb
  end.

Definition runtime_budget_typed (rb : RuntimeBudget) : Prop :=
  forall t v, rb_field rb t = Some v -> in_u32 v.

(** Every state a controller can be in: any sequence of initialisations,
    restores and in-range consumptions from a fresh controller. *)
Inductive controller_run : BudgetController -> Prop :=
| run_fresh : controller_run empty_budget_controller
| run_initialize request d b :
    runtime_budget_typed (bir_runtime_budget request) ->
    initialize request = Some (d, b) -> controller_run b
| run_restore s started d b :
    Forall entry_in_range (bs_entries s) ->
    restore s started = (d, b) -> controller_run b
| run_consume b request d b' :
    controller_run b -> consume_in_range b request ->
    consume b request = Some (d, b') -> controller_run b'.

Lemma validate_runtime_budget_spec rb :
  gr_ok (validate_runtime_budget rb) = true <->
  forall t, exists v, rb_field rb t = Some v /\ v <> 0.
Proof.
  split.
  - destruct rb as [a b c d e]. unfold validate_runtime_budget; simpl. intros H.
    destruct a as [a|]; [|done]. destruct (Z.eqb_spec a 0); [done|].
    destruct b as [b|]; [|done]. destruct (Z.eqb_spec b 0); [done|].
    destruct c as [c|]; [|done]. destruct (Z.eqb_spec c 0); [done|].
    destruct d as [d|]; [|done]. destruct (Z.eqb_spec d 0); [done|].
    destruct e as [e|]; [|done]. destruct (Z.eqb_spec e 0); [done|].
    intros []; eauto.
  - destruct rb as [a b c d e]. unfold validate_runtime_budget. intros H. simpl in *.
    destruct (H BudgetType.Token) as (? & [= ->] & ->%Z.eqb_neq).
    destruct (H BudgetType.Turn) as (? & [= ->] & ->%Z.eqb_neq).
    destruct (H BudgetType.ToolCall) as (? & [= ->] & ->%Z.eqb_neq).
    destruct (H BudgetType.Latency) as (? & [= ->] & ->%Z.eqb_neq).
    by destruct (H BudgetType.Replan) as (? & [= ->] & ->%Z.eqb_neq).
Qed.

Lemma rb_field_of_entry rb e t :
  rb_field (runtime_budget_of_entry rb e) t =
  if bool_decide (bse_budget_type e = t) then Some (u32 (bse_max e)) else rb_field rb t.
Proof. destruct rb, e as [[] ? ? ? ?], t; done. Qed.

Lemma rb_field_fold entries rb t :
  (exists e, e ∈ entries /\ bse_budget_type e = t /\
     rb_field (fold_left runtime_budget_of_entry entries rb) t = Some (u32 (bse_max e))) \/
  ((t ∉ (bse_budget_type <$> entries)) /\
     rb_field (fold_left runtime_budget_of_entry entries rb) t = rb_field rb t).
Proof.
  revert rb. induction entries as [|x rest IH]; intros rb; simpl; [right; split; [set_solver|done]|].
  destruct (IH (runtime_budget_of_entry rb x)) as [(e & ? & ? & ?)|[Hno ->]].
  - left. exists e. split; [by constructor|done].
  - rewrite rb_field_of_entry. destruct (bool_decide_reflect (bse_budget_type x = t)).
    + left. exists x. split; [constructor|done].
    + right. split; [|done]. csimpl. set_solver.
Qed.

Lemma runtime_budget_from_snapshot_spec s rb :
  runtime_budget_from_snapshot s = Some rb <->
  rb = fold_left runtime_budget_of_entry (bs_entries s) empty_runtime_budget /\
  forall t, t ∈ (bse_budget_type <$> bs_entries s).
Proof.
  unfold runtime_budget_from_snapshot. set (f := fold_left _ _ _).
  assert ((forall t, (t ∈ (bse_budget_type <$> bs_entries s))) <-> forall t, rb_field f t <> None) as ->.
  { split; intros H t; specialize (H t);
      destruct (rb_field_fold (bs_entries s) empty_runtime_budget t) as [(e & Hin & Ht & Hf)|[Hno Hf]];
      fold f in Hf.
    - by rewrite Hf.
    - done.
    - subst t. apply list_elem_of_fmap. eauto.
    - rewrite Hf in H. by destruct t. }
  split.
  - intros H. destruct (_ || _) eqn:E; [done|]. simplify_eq. split; [done|].
    reflect_tests. intros []; simpl; tauto.
  - intros [-> H]. rewrite !bool_decide_eq_false_2; [done|..];
      [apply (H BudgetType.Replan)|apply (H BudgetType.Latency)|apply (H BudgetType.ToolCall)
      |apply (H BudgetType.Turn)|apply (H BudgetType.Token)].
Qed.

(** ** Consumption *)

Definition reject_text (request : BudgetConsumeRequest) : string :=
  if is_empty (bcr_detail request) then "budget exhausted" else bcr_detail request.

(** The entry an in-range consumption writes: exact arithmetic, and a non-empty
    reject reason exactly when the counter passes the limit. *)
Definition consumed_entry (b : BudgetController) (e : BudgetSnapshotEntry)
    (request : BudgetConsumeRequest) : BudgetSnapshotEntry :=
  let c := consumed_current b e request in
  {| bse_budget_type := bse_budget_type e; bse_current := c; bse_max := bse_max e;
     bse_remaining := bse_max e - c;
     bse_reject_reason := if bse_max e <? c then Some (reject_text request) else None |}.

Definition consumed_snapshot (b : BudgetController) (e : BudgetSnapshotEntry)
    (request : BudgetConsumeRequest) : BudgetSnapshot :=
  refresh_overall_reject_reason_locked
    {| bs_snapshot_at_ms := Some (bcr_observed_at_ms request);
       bs_entries := store_entry (bcr_budget_type request) (consumed_entry b e request)
                       (bs_entries (bc_snapshot b));
       bs_overall_reject_reason := bs_overall_reject_reason (bc_snapshot b) |}.

Lemma consumed_current_nonneg b e request :
  0 <= bcr_amount request -> 0 <= bse_current e -> 0 <= consumed_current b e request.
Proof. unfold consumed_current. case_bool_decide; lia. Qed.

Lemma consume_spec b request e :
  bc_initialized b = true -> consume_in_range b request ->
  find_entry_locked b (bcr_budget_type request) = Some e -> entry_in_range e ->
  exists d, consume b request = Some (d, with_snapshot b (consumed_snapshot b e request)) /\
    bd_allowed d = (consumed_current b e request <=? bse_max e) /\
    bd_budget_type d = Some (bcr_budget_type request) /\
    bd_error_code d = (if consumed_current b e request <=? bse_max e then None
                       else budget_violation_error_code
                              (exhausted_violation_for (bcr_budget_type request))).
Proof.
  intros Hinit [Hamt Hrange] Hfind [Hc Hm]. specialize (Hrange e Hfind).
  pose proof (consumed_current_nonneg b e request Hamt (proj1 Hc)) as Hnn.
  unfold consumed_snapshot, consumed_entry, reject_text, consume.
  rewrite Hinit, Hfind. simpl.
  set (cur := if bool_decide _ then _ else _).
  assert (cur = consumed_current b e request) as ->.
  { unfold cur, consumed_current in *. case_bool_decide.
    - destruct (Z.ltb_spec (bc_started_at_ms b) (bcr_observed_at_ms request)); lia.
    - apply u64_id. unfold in_u64. lia. }
  rewrite !s64_id by (unfold in_s64; lia).
  replace (s64_fits _) with true by (symmetry; apply s64_fits_spec; unfold in_s64; lia). simpl.
  rewrite Z.ltb_antisym. destruct (_ <=? _); simpl; eauto 10.
Qed.

Lemma consumed_entry_ok b e request :
  0 <= consumed_current b e request < 2 ^ 63 -> entry_in_range e ->
  entry_ok (consumed_entry b e request) /\ entry_in_range (consumed_entry b e request).
Proof.
  intros Hc [? Hm]. unfold entry_ok, entry_in_range, consumed_entry; simpl.
  split; [|lia]. split; [done|split; [lia|]].
  destruct (Z.ltb_spec (bse_max e) (consumed_current b e request)); simpl; [|split; [done|lia]].
  rewrite negb_true_iff, is_empty_false. unfold reject_text.
  destruct (is_empty _) eqn:E; [|apply is_empty_false in E]; done.
Qed.

Lemma consume_preserves_wf b request e :
  controller_wf b -> consume_in_range b request ->
  find_entry_locked b (bcr_budget_type request) = Some e ->
  controller_wf (with_snapshot b (consumed_snapshot b e request)).
Proof.
  intros [Hvalid Htypes Hrange Hlimits _] [Hamt Hin] Hfind.
  destruct (find_entry_type _ _ _ Hfind) as [Ht He].
  pose proof (proj1 (Forall_forall _ _) Hrange e He) as Hre.
  pose proof (proj1 (Forall_forall _ _) Hlimits e He) as Hle.
  destruct (consumed_entry_ok b e request) as [Hok Hr]; [|done|].
  { split; [apply consumed_current_nonneg; [done|apply Hre]|by apply Hin]. }
  apply validate_budget_snapshot_spec in Hvalid as (_ & Hne & HF & HN).
  assert (bse_budget_type <$> store_entry (bcr_budget_type request) (consumed_entry b e request)
            (bs_entries (bc_snapshot b)) = bse_budget_type <$> bs_entries (bc_snapshot b)) as Htys
    by by apply store_entry_types.
  constructor; simpl.
  - apply validate_budget_snapshot_spec; simpl. rewrite Htys. split; [eauto|].
    split; [|split; [by apply store_entry_forall|done]].
    intros E. rewrite E in Htys. by destruct (bs_entries (bc_snapshot b)).
  - by rewrite Htys.
  - by apply store_entry_forall.
  - by apply store_entry_forall.
  - done.
Qed.

Lemma initialize_run_wf request d b :
  runtime_budget_typed (bir_runtime_budget request) ->
  initialize request = Some (d, b) -> bc_initialized b = true -> controller_wf b.
Proof.
  intros Htyped. unfold initialize. destruct (gr_ok _) eqn:Hok; simpl; [|intros; by simplify_eq].
  pose proof (proj1 (validate_runtime_budget_spec _) Hok) as Hf.
  destruct request as [[a b' c d' e] st]; simpl in *.
  destruct (Hf BudgetType.Token) as (va & [= ->] & Ha), (Hf BudgetType.Turn) as (vb & [= ->] & Hb),
    (Hf BudgetType.ToolCall) as (vc & [= ->] & Hc), (Hf BudgetType.Latency) as (vd & [= ->] & Hd),
    (Hf BudgetType.Replan) as (ve & [= ->] & He).
  intros [= <- <-] _.
  pose proof (Htyped BudgetType.Token va eq_refl). pose proof (Htyped BudgetType.Turn vb eq_refl).
  pose proof (Htyped BudgetType.ToolCall vc eq_refl).
  pose proof (Htyped BudgetType.Latency vd eq_refl).
  pose proof (Htyped BudgetType.Replan ve eq_refl).
  assert (forall v, in_u32 v -> v <> 0 -> forall t,
    entry_ok (initial_entry t v) /\ entry_in_range (initial_entry t v) /\ u32 v <> 0) as Hentry.
  { unfold in_u32. intros v Hv Hnz t. unfold entry_ok, entry_in_range, initial_entry; simpl.
    rewrite s64_id, u32_id by (unfold in_s64, in_u32; lia). repeat split; try lia; done. }
  assert (forall P, (forall t v, in_u32 v -> v <> 0 -> P (initial_entry t v)) ->
    Forall P [initial_entry BudgetType.Token va; initial_entry BudgetType.Turn vb;
              initial_entry BudgetType.ToolCall vc; initial_entry BudgetType.Latency vd;
              initial_entry BudgetType.Replan ve]) as HF.
  { intros P HP. repeat apply Forall_cons_2; [by apply HP..|constructor]. }
  constructor; simpl.
  - apply validate_budget_snapshot_spec; simpl. split; [eauto|]. split; [done|].
    split; [apply HF; intros; by apply Hentry|]. apply (bool_decide_unpack _). reflexivity.
  - intros t. apply list_elem_of_In. destruct t; simpl; auto 10.
  - apply HF. intros. by apply Hentry.
  - apply HF. intros. by apply (Hentry v).
  - done.
Qed.

Lemma refresh_wf s :
  gr_ok (validate_budget_snapshot s) = true ->
  gr_ok (validate_budget_snapshot (refresh_overall_reject_reason_locked s)) = true.
Proof. by rewrite !validate_budget_snapshot_spec. Qed.

(** The budget rebuilt from a snapshot has, per dimension, the 32-bit limit of
    the entry of that dimension. *)
Lemma rebuilt_budget_limits s rb :
  runtime_budget_from_snapshot s = Some rb -> NoDup (bse_budget_type <$> bs_entries s) ->
  forall e, e ∈ bs_entries s -> rb_field rb (bse_budget_type e) = Some (u32 (bse_max e)).
Proof.
  intros [-> _]%runtime_budget_from_snapshot_spec HN e He.
  destruct (rb_field_fold (bs_entries s) empty_runtime_budget (bse_budget_type e))
    as [(e' & He' & Ht & ->)|[Hno _]].
  - apply list_elem_of_lookup in He as [i Hi], He' as [j Hj].
    assert (i = j) as ->; [|by simplify_eq].
    apply (NoDup_lookup _ i j (bse_budget_type e) HN); rewrite list_lookup_fmap, ?Hi, ?Hj; simpl; congruence.
  - destruct Hno. apply list_elem_of_fmap. eauto.
Qed.

(** [restore] admits exactly the valid snapshots with all five dimensions and
    no zero 32-bit limit. *)
Lemma restore_spec s started :
  let '(d, b) := restore s started in
  (bd_allowed d = true <->
     gr_ok (validate_budget_snapshot s) = true /\
     (forall t, t ∈ (bse_budget_type <$> bs_entries s)) /\
     Forall (fun e => u32 (bse_max e) <> 0) (bs_entries s)) /\
  bc_initialized b = bd_allowed d /\
  (bd_allowed d = true -> bc_snapshot b = refresh_overall_reject_reason_locked s /\
                          bc_started_at_ms b = started) /\
  (bd_allowed d = false -> b = empty_budget_controller).
Proof.
  unfold restore. destruct (gr_ok (validate_budget_snapshot s)) eqn:Hok; simpl; [|naive_solver].
  apply validate_budget_snapshot_spec in Hok as (Hat & _ & _ & HN).
  destruct (runtime_budget_from_snapshot s) as [rb|] eqn:Hrb; simpl.
  2: { split; [split; [done|]|done]. intros (_ & Hty & _).
       pose proof (proj2 (runtime_budget_from_snapshot_spec s _) (conj eq_refl Hty)). congruence. }
  pose proof (rebuilt_budget_limits s rb Hrb HN) as Hlim.
  apply runtime_budget_from_snapshot_spec in Hrb as [-> Hty].
  set (rb := fold_left _ _ _) in *.
  assert (gr_ok (validate_runtime_budget rb) = true <->
          Forall (fun e => u32 (bse_max e) <> 0) (bs_entries s)) as Hval.
  { rewrite validate_runtime_budget_spec, Forall_forall. split.
    - intros H e He. destruct (H (bse_budget_type e)) as (v & Hv & Hnz). rewrite Hlim in Hv by done.
      by simplify_eq.
    - intros H t. destruct (proj1 (list_elem_of_fmap _ _ _) (Hty t)) as (e & -> & He). eauto. }
  destruct (gr_ok (validate_runtime_budget rb)) eqn:Hg; simpl.
  - destruct Hat as [at_ Hat]. rewrite Hat. naive_solver.
  - split; [|done]. split; [done|]. intros (_ & _ & HF). by apply Hval in HF.
Qed.

Lemma controller_run_wf b : controller_run b -> bc_initialized b = true -> controller_wf b.
Proof.
  induction 1 as [|request d b Ht Hi|s started d b Hr Hre|b request d b' Hrun IH Hin Hc].
  - done.
  - by eapply initialize_run_wf.
  - pose proof (restore_spec s started) as Hspec. rewrite Hre in Hspec.
    destruct Hspec as (Hiff & -> & Hsnap & _). intros Hal.
    destruct (Hsnap Hal) as [Hs _]. apply Hiff in Hal as (Hok & Hty & Hlim).
    constructor; rewrite Hs; simpl; [by apply refresh_wf|done..].
  - intros Hinit. assert (bc_initialized b = true) as Hb.
    { revert Hc. unfold consume. destruct (bc_initialized b) eqn:E; [done|]. simpl. congruence. }
    specialize (IH Hb). destruct (find_entry_exists b (bcr_budget_type request)) as [e He];
      [apply (wf_types _ IH)|].
    destruct (consume_spec b request e Hb Hin He) as (d' & Hc' & _).
    { apply (proj1 (Forall_forall _ _) (wf_range _ IH)). by apply (find_entry_type _ _ _ He). }
    simplify_eq. by apply consume_preserves_wf.
Qed.

(** ** Properties *)

(** Every snapshot an initialised controller hands out, after any sequence
    of initialisations, restores and in-range consumptions, passes the
    repository's own [validate_budget_snapshot] and has all five dimensions. *)
Theorem snapshot_always_valid b :
  controller_run b -> bc_initialized b = true ->
  gr_ok (validate_budget_snapshot (snapshot b)) = true /\
  forall t, exists e, find_entry_locked b t = Some e.
Proof.
  intros Hrun Hinit. destruct (controller_run_wf b Hrun Hinit) as [Hv Ht _ _ _].
  split; [exact Hv|]. intros t. apply find_entry_exists, Ht.
Qed.

(** Restoring the snapshot of a running controller (the checkpoint round
    trip) is always admitted, gives the same snapshot back, and the same
    decisions. *)
Theorem restore_snapshot_roundtrip b started :
  controller_run b -> bc_initialized b = true ->
  let '(d, b') := restore (snapshot b) started in
  bd_allowed d = true /\ bc_initialized b' = true /\ snapshot b' = snapshot b /\
  can_continue b' = can_continue b /\ can_replan b' = can_replan b /\
  can_call_tool b' = can_call_tool b.
Proof.
  intros Hrun Hinit. destruct (controller_run_wf b Hrun Hinit) as [Hv Ht Hr Hl Ho].
  pose proof (restore_spec (snapshot b) started) as Hspec.
  destruct (restore (snapshot b) started) as [d b']. destruct Hspec as (Hiff & Hi & Hsnap & _).
  assert (bd_allowed d = true) as Hal by by apply Hiff.
  destruct (Hsnap Hal) as [Hs _].
  assert (bc_snapshot b' = bc_snapshot b) as E.
  { rewrite Hs. unfold refresh_overall_reject_reason_locked, snapshot. rewrite <- Ho.
    by destruct (bc_snapshot b). }
  rewrite Hal in Hi. split; [done|]. split; [done|]. split; [exact E|].
  unfold can_continue, can_replan, can_call_tool, decision_for_locked.
  rewrite Hi, Hinit. simpl. unfold find_entry_locked. by rewrite E.
Qed.

(** A dimension is available when its counter has not passed its limit. *)
Definition dimension_available (b : BudgetController) (t : BudgetType) : Prop :=
  exists e, find_entry_locked b t = Some e /\ bse_current e <= bse_max e.

Lemma decide_dimensions_allowed b dims t detail :
  bd_allowed (decide_dimensions b dims t detail) = true <-> Forall (dimension_available b) dims.
Proof.
  induction dims as [|x rest IH]; simpl; [split; [constructor|done]|].
  rewrite Forall_cons, <- IH. unfold dimension_available.
  destruct (find_entry_locked b x) as [e|]; simpl; [|split; [done|naive_solver]].
  destruct (Z.ltb_spec (bse_max e) (bse_current e)); simpl; [|naive_solver].
  split; [done|]. intros [(e' & ? & ?) _]. simplify_eq. lia.
Qed.

(** The three decisions agree with the counters: each allows exactly when
    every dimension it depends on is available, so a tool call or a replan is
    never allowed when the loop may not continue. *)
Theorem decisions_follow_counters b :
  (bd_allowed (can_continue b) = true <->
     bc_initialized b = true /\ dimension_available b BudgetType.Token /\
     dimension_available b BudgetType.Turn /\ dimension_available b BudgetType.Latency) /\
  (bd_allowed (can_call_tool b) = true <->
     bd_allowed (can_continue b) = true /\ dimension_available b BudgetType.ToolCall) /\
  (bd_allowed (can_replan b) = true <->
     bd_allowed (can_continue b) = true /\ dimension_available b BudgetType.Replan).
Proof.
  unfold can_continue, can_call_tool, can_replan, decision_for_locked.
  destruct (bc_initialized b); cbn [negb]; [|simpl; naive_solver].
  rewrite !decide_dimensions_allowed, !Forall_cons, Forall_nil. tauto.
Qed.

(** Consumption is exact: an in-range consumption never overflows; it adds
    the amount to its own counter (the elapsed time for latency), changes no
    other entry, and is allowed exactly when the counter stays within the
    limit, whose violation it otherwise reports. *)
Theorem consume_accounts b request :
  controller_run b -> bc_initialized b = true -> consume_in_range b request ->
  exists e d b', consume b request = Some (d, b') /\ controller_run b' /\
    find_entry_locked b (bcr_budget_type request) = Some e /\
    find_entry_locked b' (bcr_budget_type request) = Some (consumed_entry b e request) /\
    (forall t, t <> bcr_budget_type request -> find_entry_locked b' t = find_entry_locked b t) /\
    (bd_allowed d = true <-> consumed_current b e request <= bse_max e) /\
    bd_error_code d = (if bd_allowed d then None
                       else budget_violation_error_code
                              (exhausted_violation_for (bcr_budget_type request))).
Proof.
  intros Hrun Hinit Hin. destruct (controller_run_wf b Hrun Hinit) as [_ Ht Hr _ _].
  destruct (find_entry_exists b (bcr_budget_type request)) as [e He]; [apply Ht|].
  destruct (find_entry_type _ _ _ He) as [Hty Hel].
  destruct (consume_spec b request e Hinit Hin He) as (d & Hc & Hal & _ & Hec).
  { by apply (proj1 (Forall_forall _ _) Hr). }
  exists e, d, (with_snapshot b (consumed_snapshot b e request)).
  split; [done|]. split; [by eapply run_consume|]. split; [done|].
  unfold find_entry_locked in *. simpl.
  split; [|split; [|split]].
  - rewrite store_entry_find by done. rewrite bool_decide_eq_true_2 by done. by rewrite He.
  - intros t Hne. rewrite store_entry_find by done. by rewrite bool_decide_eq_false_2 by congruence.
  - by rewrite Hal, Z.leb_le.
  - by rewrite Hec, Hal.
Qed.

(** Consumptions applied in order; [None] when one overflows. *)
Fixpoint consume_all (b : BudgetController) (requests : list BudgetConsumeRequest)
    : option BudgetController :=
  match requests with
  | [] => Some b
  | request :: rest =>
      match consume b request with
      | Some (_, b) => consume_all b rest
      | None => None
      end
  end.

(** Every consumption of the sequence stays in range. *)
Fixpoint all_in_range (b : BudgetController) (requests : list BudgetConsumeRequest) : Prop :=
  match requests with
  | [] => True
  | request :: rest =>
      consume_in_range b request /\
      (forall d b', consume b request = Some (d, b') -> all_in_range b' rest)
  end.

Lemma consume_initialized b request d b' :
  consume b request = Some (d, b') -> bc_initialized b' = bc_initialized b.
Proof.
  unfold consume. destruct (bc_initialized b) eqn:E; simpl; [|congruence].
  destruct (find_entry_locked _ _); [|congruence].
  destruct (negb (s64_fits _)); [done|]. case_match; intros; simplify_eq; done.
Qed.

(** Exhaustion is permanent: once a token, turn, tool-call or replan counter
    has passed its limit, no sequence of in-range consumptions makes the
    dimension available again. *)
Theorem exhaustion_is_permanent b requests b' t :
  controller_run b -> bc_initialized b = true -> t <> BudgetType.Latency ->
  all_in_range b requests -> consume_all b requests = Some b' ->
  ~ dimension_available b t -> ~ dimension_available b' t.
Proof.
  intros Hrun Hinit Ht. revert b Hrun Hinit.
  induction requests as [|request rest IH]; intros b Hrun Hinit; simpl.
  { intros _ [= ->]. done. }
  intros [Hin Hrest].
  destruct (consume_accounts b request Hrun Hinit Hin)
    as (e & d & b1 & Hc & Hrun1 & He & He1 & Hother & _).
  rewrite Hc. intros Hall Hno. apply (IH b1); [done|..|done|].
  - by rewrite (consume_initialized _ _ _ _ Hc).
  - by apply (Hrest d).
  - intros (e1 & Hf & Hle). apply Hno. unfold dimension_available.
    destruct (decide (t = bcr_budget_type request)) as [->|Hne];
      [|rewrite Hother in Hf by done; eauto].
    rewrite He1 in Hf. simplify_eq. exists e. split; [done|].
    unfold consumed_entry, consumed_current in Hle. simpl in Hle.
    rewrite bool_decide_eq_false_2 in Hle by done. destruct Hin. lia.
Qed.

(** ** The machine-integer edge *)

Definition sample_budget (tokens : Z) : RuntimeBudget :=
  {| rb_max_tokens := Some tokens; rb_max_turns := Some 8; rb_max_tool_calls := Some 4;
     rb_max_latency_ms := Some 60000; rb_max_replan_count := Some 2 |}.

Definition token_request (amount : Z) : BudgetConsumeRequest :=
  {| bcr_budget_type := BudgetType.Token; bcr_amount := amount; bcr_observed_at_ms := 1;
     bcr_detail := "" |}.

(** The controller after initialising with [tokens] tokens and consuming. *)
Definition after_consuming (tokens : Z) (amounts : list Z) : option BudgetController :=
  match initialize {| bir_runtime_budget := sample_budget tokens; bir_started_at_ms := 0 |} with
  | Some (_, b) => consume_all b (token_request <$> amounts)
  | None => None
  end.

(** Outside that range the 64-bit counter wraps: with a budget of 10 tokens,
    consuming 11 stops the loop, and consuming 2{^64} - 11 more brings the
    counter back to zero and lets it go on; a single consumption of 2{^63}
    makes the signed subtraction overflow. *)
Theorem consume_wraps_around :
  (bd_allowed ∘ can_continue <$> after_consuming 10 [11]) = Some false /\
  (bd_allowed ∘ can_continue <$> after_consuming 10 [11; 2 ^ 64 - 11]) = Some true /\
  after_consuming 10 [2 ^ 63] = None.
Proof. by vm_compute. Qed.

(** ** Witnesses *)

Definition sample_controller : BudgetController :=
  match initialize {| bir_runtime_budget := sample_budget 10; bir_started_at_ms := 0 |} with
  | Some (_, b) => b
  | None => empty_budget_controller
  end.

Lemma sample_controller_run : controller_run sample_controller.
Proof.
  apply (run_initialize {| bir_runtime_budget := sample_budget 10; bir_started_at_ms := 0 |}
           (make_budget_allowed_decision None "budget initialized")).
  - intros [] v; simpl; intros [= <-]; unfold in_u32; lia.
  - reflexivity.
Qed.

Lemma token_request_in_range amount :
  0 <= amount < 2 ^ 62 -> consume_in_range sample_controller (token_request amount).
Proof.
  intros H. split; [simpl; lia|]. intros e [= <-]. unfold consumed_current. simpl. lia.
Qed.

Lemma snapshot_always_valid_witness :
  gr_ok (validate_budget_snapshot (snapshot sample_controller)) = true.
Proof.
  exact (proj1 (snapshot_always_valid sample_controller sample_controller_run eq_refl)).
Defined.

Lemma restore_snapshot_roundtrip_witness :
  bd_allowed (fst (restore (snapshot sample_controller) 7)) = true.
Proof.
  exact (proj1 (restore_snapshot_roundtrip sample_controller 7 sample_controller_run eq_refl)).
Defined.

Lemma consume_accounts_witness :
  exists d b', consume sample_controller (token_request 4) = Some (d, b') /\ controller_run b'.
Proof.
  destruct (consume_accounts sample_controller (token_request 4) sample_controller_run eq_refl)
    as (e & d & b' & Hc & Hr & _).
  - apply token_request_in_range. lia.
  - exists d, b'. split; [exact Hc|exact Hr].
Defined.

Lemma exhausted_run :
  exists d b, consume sample_controller (token_request 11) = Some (d, b) /\ controller_run b /\
    ~ dimension_available b BudgetType.Token /\ bc_initialized b = true /\
    all_in_range b [token_request 3].
Proof.
  eexists _, _. split; [reflexivity|]. split; [|split; [|split; [done|]]].
  - eapply (run_consume sample_controller (token_request 11));
      [apply sample_controller_run| |reflexivity].
    apply token_request_in_range. lia.
  - intros (e & Hf & Hle). injection Hf as <-. by vm_compute in Hle.
  - split; [|done]. split; [simpl; lia|]. intros e [= <-]. by vm_compute.
Qed.

Lemma exhaustion_is_permanent_witness :
  exists b b', consume_all b [token_request 3] = Some b' /\
    ~ dimension_available b' BudgetType.Token.
Proof.
  destruct exhausted_run as (d & b & Hc & Hr & Hno & Hinit & Hin).
  destruct (consume_accounts b (token_request 3) Hr Hinit (proj1 Hin)) as (e & d' & b' & Hc' & _).
  assert (consume_all b [token_request 3] = Some b') as Hall by (simpl; by rewrite Hc').
  exists b, b'. split; [exact Hall|].
  exact (exhaustion_is_permanent b _ b' BudgetType.Token Hr Hinit ltac:(discriminate) Hin Hall Hno).
Defined.
