(* ===== verification/Text.v ===== *)
(** * Text formats

    The helpers of the durable stores, which
    runtime/src/checkpoint/CheckpointManager.cpp and
    runtime/src/session/SessionManager.cpp each define for themselves: hex
    encoding, decimal integers as the standard library prints and parses them,
    and the key=value lines of a record; and the case and the parts of texts, which other
    components look at. *)

From stdpp Require Import sorting.
From S2P Require Import Prelude.

(** ** Characters *)

Definition char_code (ch : Ascii.ascii) : Z := Z.of_N (Ascii.N_of_ascii ch).
Definition char_of_code (code : Z) : Ascii.ascii := Ascii.ascii_of_N (Z.to_N code).

Definition newline : Ascii.ascii := "010"%char.
Definition equals_sign : Ascii.ascii := "="%char.

Lemma char_code_bounds ch : 0 <= char_code ch < 256.
Proof. unfold char_code. pose proof (Ascii.N_ascii_bounded ch). lia. Qed.

Lemma char_of_code_code ch : char_of_code (char_code ch) = ch.
Proof. unfold char_code, char_of_code. rewrite N2Z.id. apply Ascii.ascii_N_embedding. Qed.

(** ** Hex encoding *)

(** [kHexDigits[index]] *)
Definition hex_digit (index : Z) : Ascii.ascii :=
  default "0"%char (String.get (Z.to_nat index) "0123456789abcdef").

Fixpoint hex_encode (value : string) : string :=
  match value with
  | EmptyString => EmptyString
  | String ch rest =>
      String (hex_digit (Z.land (Z.shiftr (char_code ch) 4) 15))
        (String (hex_digit (Z.land (char_code ch) 15)) (hex_encode rest))
  end.

Definition hex_value (ch : Ascii.ascii) : Z :=
  let c := char_code ch in
  if (char_code "0" <=? c) && (c <=? char_code "9") then c - char_code "0" else
  if (char_code "a" <=? c) && (c <=? char_code "f") then 10 + (c - char_code "a") else
  if (char_code "A" <=? c) && (c <=? char_code "F") then 10 + (c - char_code "A") else
  -1.

(** The loop of [hex_decode], two characters at a time. *)
Fixpoint hex_decode_pairs (value : string) : option string :=
  match value with
  | String c1 (String c2 rest) =>
      let high := hex_value c1 in
      let low := hex_value c2 in
      if (high <? 0) || (low <? 0) then None
      else String (char_of_code (Z.lor (Z.shiftl high 4) low)) <$> hex_decode_pairs rest
  | _ => Some EmptyString
  end.

Definition hex_decode (value : string) : option string :=
  if Nat.odd (String.length value) then None else hex_decode_pairs value.

(** ** Decimal integers *)

(** [std::to_string] and [operator<<] of an integer of at most 64 bits: 20
    digits are enough. *)
Definition digit_char (d : Z) : Ascii.ascii := char_of_code (48 + d).

Fixpoint digits (fuel : nat) (n : Z) (acc : string) : string :=
  match fuel with
  | O => acc
  | S fuel =>
      let acc := String (digit_char (n mod 10)) acc in
      if n / 10 =? 0 then acc else digits fuel (n / 10) acc
  end.

Definition to_string (n : Z) : string :=
  if n <? 0 then String "-" (digits 20 (- n) "") else digits 20 n "".

(** [strtoul] and its relatives, base 10: white space, a sign, then the longest
    run of digits; whatever follows is ignored. *)
Definition is_space (ch : Ascii.ascii) : bool :=
  let c := char_code ch in (c =? 32) || ((9 <=? c) && (c <=? 13)).

Definition is_digit (ch : Ascii.ascii) : bool :=
  let c := char_code ch in (48 <=? c) && (c <=? 57).

(** [std::isalnum] in the C locale. *)
Definition is_alnum (ch : Ascii.ascii) : bool :=
  let c := char_code ch in
  ((48 <=? c) && (c <=? 57)) || ((65 <=? c) && (c <=? 90)) || ((97 <=? c) && (c <=? 122)).

Fixpoint skip_spaces (s : string) : string :=
  match s with
  | String ch rest => if is_space ch then skip_spaces rest else s
  | EmptyString => s
  end.

Fixpoint digits_value (acc : Z) (s : string) : Z :=
  match s with
  | String ch rest =>
      if is_digit ch then digits_value (acc * 10 + (char_code ch - 48)) rest else acc
  | EmptyString => acc
  end.

(** The sign and magnitude read; [None] when no digit follows. *)
Definition parse_number (s : string) : option (bool * Z) :=
  let s := skip_spaces s in
  let '(negative, s) :=
    match s with
    | String "-" rest => (true, rest)
    | String "+" rest => (false, rest)
    | _ => (false, s)
    end in
  match s with
  | String ch _ => if is_digit ch then Some (negative, digits_value 0 s) else None
  | EmptyString => None
  end.

(** [std::stoul] and [std::stoull] (64-bit [unsigned long]); [None] when they
    throw. A minus sign negates modulo 2{^64}. *)
Definition stoull (s : string) : option Z :=
  match parse_number s with
  | Some (negative, magnitude) =>
      if 2 ^ 64 <=? magnitude then None
      else Some (if negative then u64 (- magnitude) else magnitude)
  | None => None
  end.

(** [std::stoll] *)
Definition stoll (s : string) : option Z :=
  match parse_number s with
  | Some (negative, magnitude) =>
      let v := if negative then - magnitude else magnitude in
      if s64_fits v then Some v else None
  | None => None
  end.

(** ** Key=value records *)

(** [write_field] on an output stream, the bytes written so far. *)
Definition write_field (output key value : string) : string :=
  output +:+ key +:+ String equals_sign value +:+ String newline EmptyString.

Definition write_integer_field (output key : string) (value : Z) : string :=
  write_field output key (to_string value).

Definition write_encoded_field (output key value : string) : string :=
  write_field output key (hex_encode value).

Definition write_optional_encoded_field (output key : string) (value : option string) : string :=
  match value with
  | Some value => write_encoded_field output key value
  | None => output
  end.

Definition write_optional_integer_field (output key : string) (value : option Z) : string :=
  match value with
  | Some value => write_integer_field output key value
  | None => output
  end.

(** The lines [std::getline] yields until the end of the file. *)
Fixpoint getlines (s : string) : list string :=
  match s with
  | EmptyString => []
  | String ch rest =>
      if bool_decide (ch = newline) then EmptyString :: getlines rest
      else match getlines rest with
           | [] => [String ch EmptyString]
           | line :: lines => String ch line :: lines
           end
  end.

(** [line.find('=')] and the two [substr] around it. *)
Fixpoint split_equals (line : string) : option (string * string) :=
  match line with
  | EmptyString => None
  | String ch rest =>
      if bool_decide (ch = equals_sign) then Some (EmptyString, rest)
      else match split_equals rest with
           | Some (key, value) => Some (String ch key, value)
           | None => None
           end
  end.

(** [fields.emplace(key, value)]: the first value of a key stays. *)
Definition emplace (fields : gmap string string) (key value : string) : gmap string string :=
  match fields !! key with
  | Some _ => fields
  | None => <[key := value]> fields
  end.

(** The loop of [parse_key_value_file]; [invalid_line] is the detail it reports. *)
Fixpoint parse_lines (invalid_line : string) (lines : list string)
    (fields : gmap string string) : result string (gmap string string) :=
  match lines with
  | [] => Ok fields
  | line :: rest =>
      if is_empty line then parse_lines invalid_line rest fields else
      let? kv := split_equals line else Err invalid_line in
      parse_lines invalid_line rest (emplace fields (fst kv) (snd kv))
  end.

Definition parse_key_value_file (invalid_line input : string)
    : result string (gmap string string) :=
  parse_lines invalid_line (getlines input) ∅.

(** The field decoders; [subject] starts the details they report. *)
Definition decode_optional_string_field (subject : string) (fields : gmap string string)
    (key : string) : result string (option string) :=
  match fields !! key with
  | None => Ok None
  | Some value =>
      match hex_decode value with
      | Some decoded => Ok (Some decoded)
      | None => Err (subject +:+ " could not decode " +:+ key)
      end
  end.

Definition decode_required_string_field (subject : string) (fields : gmap string string)
    (key : string) : result string string :=
  match fields !! key with
  | None => Err (subject +:+ " is missing " +:+ key)
  | Some value =>
      match hex_decode value with
      | Some decoded => Ok decoded
      | None => Err (subject +:+ " could not decode " +:+ key)
      end
  end.

(** The three integer types of [decode_optional_integer_field], by what the
    [if constexpr] of the code converts with. *)
Inductive IntegerType := Uint32 | Uint64 | Int64.

Definition parse_integer (type : IntegerType) (value : string) : option Z :=
  match type with
  | Uint32 => u32 <$> stoull value
  | Uint64 => stoull value
  | Int64 => stoll value
  end.

Definition decode_optional_integer_field (subject : string) (type : IntegerType)
    (fields : gmap string string) (key : string) : result string (option Z) :=
  match fields !! key with
  | None => Ok None
  | Some value =>
      match parse_integer type value with
      | Some v => Ok (Some v)
      | None => Err (subject +:+ " has an invalid integer for " +:+ key)
      end
  end.

Definition decode_required_integer_field (subject : string) (type : IntegerType)
    (fields : gmap string string) (key : string) : result string Z :=
  let* decoded := decode_optional_integer_field subject type fields key in
  match decoded with
  | Some v => Ok v
  | None => Err (subject +:+ " is missing " +:+ key)
  end.

(** ** Prefixes *)

(** [candidate.rfind(prefix, 0) == 0] and [candidate.substr(prefix.size())]. *)
Fixpoint strip_prefix (prefix candidate : string) : option string :=
  match prefix, candidate with
  | EmptyString, _ => Some candidate
  | String p prefix, String c candidate =>
      if bool_decide (p = c) then strip_prefix prefix candidate else None
  | String _ _, EmptyString => None
  end.

(** ** Hex round trip *)

Lemma hex_digit_value i : 0 <= i < 16 -> hex_value (hex_digit i) = i.
Proof.
  intros H. assert (exists n, (n < 16)%nat /\ i = Z.of_nat n) as (n & Hn & ->)
    by (exists (Z.to_nat i); lia).
  do 16 (destruct n as [|n]; [reflexivity|]). lia.
Qed.

Lemma nibble_bounds c : 0 <= c < 256 ->
  0 <= Z.land (Z.shiftr c 4) 15 < 16 /\ 0 <= Z.land c 15 < 16 /\
  Z.lor (Z.shiftl (Z.land (Z.shiftr c 4) 15) 4) (Z.land c 15) = c.
Proof.
  intros H. assert (exists n, (n < 256)%nat /\ c = Z.of_nat n) as (n & Hn & ->)
    by (exists (Z.to_nat c); lia).
  assert (forallb (fun n => let c := Z.of_nat n in
    (0 <=? Z.land (Z.shiftr c 4) 15) && (Z.land (Z.shiftr c 4) 15 <? 16) &&
    (0 <=? Z.land c 15) && (Z.land c 15 <? 16) &&
    (Z.lor (Z.shiftl (Z.land (Z.shiftr c 4) 15) 4) (Z.land c 15) =? c)) (seq 0 256) = true) as Hall
    by by vm_compute.
  rewrite forallb_forall in Hall.
  specialize (Hall n (proj2 (in_seq 256 0 n) ltac:(lia))). cbv beta zeta in Hall.
  rewrite !andb_true_iff, !Z.leb_le, !Z.ltb_lt, Z.eqb_eq in Hall. tauto.
Qed.

Lemma hex_encode_length s : String.length (hex_encode s) = (2 * String.length s)%nat.
Proof. induction s as [|ch s IH]; [done|]. simpl. lia. Qed.

Lemma hex_decode_pairs_encode s : hex_decode_pairs (hex_encode s) = Some s.
Proof.
  induction s as [|ch s IH]; [done|]. simpl.
  destruct (nibble_bounds (char_code ch) (char_code_bounds ch)) as (Hh & Hl & Hc).
  rewrite !hex_digit_value by done.
  replace (_ || _) with false by (symmetry; reflect_tests; lia).
  by rewrite IH, Hc, char_of_code_code.
Qed.

(** Hex decoding inverts hex encoding, for every byte string. *)
Lemma hex_roundtrip s : hex_decode (hex_encode s) = Some s.
Proof.
  unfold hex_decode. rewrite hex_encode_length, hex_decode_pairs_encode.
  by rewrite Nat.odd_mul.
Qed.

Lemma hex_encode_inj s1 s2 : hex_encode s1 = hex_encode s2 -> s1 = s2.
Proof.
  intros H. apply (f_equal hex_decode_pairs) in H. rewrite !hex_decode_pairs_encode in H. congruence.
Qed.

(** ** Character classes *)

Fixpoint all_chars (p : Ascii.ascii -> bool) (s : string) : bool :=
  match s with
  | EmptyString => true
  | String ch rest => p ch && all_chars p rest
  end.

Lemma all_chars_app p s1 s2 : all_chars p (s1 +:+ s2) = all_chars p s1 && all_chars p s2.
Proof. induction s1 as [|ch s1 IH]; simpl; [done|]. by rewrite IH, andb_assoc. Qed.

Lemma all_chars_impl (p q : Ascii.ascii -> bool) s :
  (forall ch, p ch = true -> q ch = true) -> all_chars p s = true -> all_chars q s = true.
Proof.
  intros H. induction s as [|ch s IH]; simpl; [done|]. rewrite !andb_true_iff. naive_solver.
Qed.

Definition not_newline (ch : Ascii.ascii) : bool := negb (bool_decide (ch = newline)).
Definition not_equals (ch : Ascii.ascii) : bool := negb (bool_decide (ch = equals_sign)).

(** What the printers emit: letters, digits and the minus sign. *)
Definition is_word (ch : Ascii.ascii) : bool :=
  bool_decide (ch = "-"%char) || is_digit ch
  || ((97 <=? char_code ch) && (char_code ch <=? 122)).

Lemma is_word_not_newline ch : is_word ch = true -> not_newline ch = true.
Proof. unfold not_newline. by destruct (bool_decide_reflect (ch = newline)) as [->|]. Qed.

Lemma is_word_not_equals ch : is_word ch = true -> not_equals ch = true.
Proof. unfold not_equals. by destruct (bool_decide_reflect (ch = equals_sign)) as [->|]. Qed.

Lemma hex_digit_word i : 0 <= i < 16 -> is_word (hex_digit i) = true.
Proof.
  intros H. assert (exists n, (n < 16)%nat /\ i = Z.of_nat n) as (n & Hn & ->)
    by (exists (Z.to_nat i); lia).
  do 16 (destruct n as [|n]; [reflexivity|]). lia.
Qed.

Lemma hex_encode_word s : all_chars is_word (hex_encode s) = true.
Proof.
  induction s as [|ch s IH]; [done|]. simpl.
  destruct (nibble_bounds (char_code ch) (char_code_bounds ch)) as (Hh & Hl & _).
  by rewrite !hex_digit_word, IH.
Qed.

(** ** Decimal round trip *)

Lemma digit_char_code d : 0 <= d < 10 -> char_code (digit_char d) = 48 + d.
Proof.
  intros H. unfold char_code, digit_char, char_of_code.
  rewrite Ascii.N_ascii_embedding by lia. lia.
Qed.

Lemma digit_char_digit d : 0 <= d < 10 -> is_digit (digit_char d) = true.
Proof. intros H. unfold is_digit. rewrite digit_char_code by done. reflect_tests. lia. Qed.

Lemma digits_value_digits fuel n acc :
  (0 < fuel)%nat -> 0 <= n < 10 ^ Z.of_nat fuel ->
  digits_value 0 (digits fuel n acc) = digits_value n acc.
Proof.
  revert n acc. induction fuel as [|fuel IH]; intros n acc Hf Hn; [lia|].
  pose proof (Z.mod_pos_bound n 10 ltac:(lia)) as Hmod.
  cbn [digits]. destruct (Z.eqb_spec (n / 10) 0) as [E|E].
  - cbn [digits_value]. rewrite digit_char_digit, digit_char_code by done.
    f_equal. pose proof (Z.div_mod n 10). lia.
  - rewrite IH.
    + cbn [digits_value]. rewrite digit_char_digit, digit_char_code by done.
      f_equal. pose proof (Z.div_mod n 10). lia.
    + destruct fuel; [|lia]. exfalso. apply E. apply Z.div_small. simpl in Hn. lia.
    + split; [apply Z.div_pos; lia|]. apply Z.div_lt_upper_bound; [lia|].
      rewrite Nat2Z.inj_succ, Z.pow_succ_r in Hn by lia. lia.
Qed.

Lemma digits_class (p : Ascii.ascii -> bool) fuel n acc :
  (forall ch, is_digit ch = true -> p ch = true) ->
  all_chars p (digits fuel n acc) = all_chars p acc.
Proof.
  intros Hp. revert n acc. induction fuel as [|fuel IH]; intros n acc; [done|].
  pose proof (Z.mod_pos_bound n 10 ltac:(lia)) as Hmod. cbn [digits].
  assert (p (digit_char (n mod 10)) = true) as Hd by (apply Hp, digit_char_digit; lia).
  case_match; [|rewrite IH]; simpl; by rewrite Hd.
Qed.

Lemma digits_first_digit fuel n acc :
  (0 < fuel)%nat -> exists ch rest, digits fuel n acc = String ch rest /\ is_digit ch = true.
Proof.
  revert n acc. induction fuel as [|fuel IH]; intros n acc Hf; [lia|]. cbn [digits].
  pose proof (Z.mod_pos_bound n 10 ltac:(lia)) as Hmod.
  assert (is_digit (digit_char (n mod 10)) = true) by (apply digit_char_digit; lia).
  case_match; [eauto|]. destruct fuel; [simpl; eauto|]. apply IH. lia.
Qed.

Lemma digit_not_space ch : is_digit ch = true -> is_space ch = false.
Proof. unfold is_digit, is_space. intros H. reflect_tests. lia. Qed.

Lemma digit_code_case ch : is_digit ch = true -> ch <> "-"%char /\ ch <> "+"%char.
Proof. intros H. by split; intros ->. Qed.

Lemma parse_number_digits n :
  0 <= n < 10 ^ 20 -> parse_number (digits 20 n "") = Some (false, n).
Proof.
  intros Hn. pose proof (digits_value_digits 20 n "" ltac:(lia) Hn) as Hv.
  destruct (digits_first_digit 20 n "" ltac:(lia)) as (ch & rest & E & Hd).
  rewrite E in *. unfold parse_number. cbn [skip_spaces]. rewrite digit_not_space by done.
  destruct (digit_code_case ch Hd) as [Hm Hp].
  assert ((match String ch rest with
           | String "-" r => (true, r) | String "+" r => (false, r)
           | _ => (false, String ch rest) end) = (false, String ch rest)) as ->.
  { destruct ch as [[] [] [] [] [] [] [] []]; done. }
  rewrite Hd, Hv. done.
Qed.

Lemma parse_number_minus n :
  0 <= n < 10 ^ 20 -> parse_number (String "-" (digits 20 n "")) = Some (true, n).
Proof.
  intros Hn. pose proof (digits_value_digits 20 n "" ltac:(lia) Hn) as Hv.
  destruct (digits_first_digit 20 n "" ltac:(lia)) as (ch & rest & E & Hd).
  unfold parse_number. cbn [skip_spaces]. rewrite E in *.
  replace (is_space "-") with false by done. by rewrite Hd, Hv.
Qed.

Lemma stoull_to_string n : in_u64 n -> stoull (to_string n) = Some n.
Proof.
  unfold in_u64. intros Hn. unfold stoull, to_string.
  destruct (Z.ltb_spec n 0); [lia|]. rewrite parse_number_digits by lia.
  destruct (Z.leb_spec (2 ^ 64) n); [lia|done].
Qed.

Lemma stoll_to_string n : in_s64 n -> stoll (to_string n) = Some n.
Proof.
  unfold in_s64. intros Hn. unfold stoll, to_string.
  destruct (Z.ltb_spec n 0).
  - rewrite parse_number_minus by lia. rewrite Z.opp_involutive.
    by rewrite (proj2 (s64_fits_spec n)).
  - rewrite parse_number_digits by lia. by rewrite (proj2 (s64_fits_spec n)).
Qed.

(** A negative number read back as unsigned is its value modulo 2{^64}. *)
Lemma stoull_to_string_signed n : in_s64 n -> stoull (to_string n) = Some (u64 n).
Proof.
  unfold in_s64. intros Hn. destruct (Z.ltb_spec n 0).
  - unfold stoull, to_string. rewrite (proj2 (Z.ltb_lt n 0)) by done.
    rewrite parse_number_minus by lia. destruct (Z.leb_spec (2 ^ 64) (- n)); [lia|].
    by rewrite Z.opp_involutive.
  - rewrite u64_id by (unfold in_u64; lia). apply stoull_to_string. unfold in_u64. lia.
Qed.

Definition integer_type_range (type : IntegerType) (v : Z) : Prop :=
  match type with
  | Uint32 => in_u32 v
  | Uint64 => in_u64 v
  | Int64 => in_s64 v
  end.

(** An integer field written in decimal is read back as the same value, for
    each of the three integer types of the durable records. *)
Lemma integer_roundtrip type v :
  integer_type_range type v -> parse_integer type (to_string v) = Some v.
Proof.
  destruct type; simpl; intros H.
  - rewrite stoull_to_string by (unfold in_u32, in_u64 in *; lia). simpl. by rewrite u32_id.
  - by apply stoull_to_string.
  - by apply stoll_to_string.
Qed.

Lemma to_string_word n : all_chars is_word (to_string n) = true.
Proof.
  assert (forall ch, is_digit ch = true -> is_word ch = true) as Hp.
  { unfold is_word. intros ch ->. by rewrite orb_true_r. }
  unfold to_string. destruct (n <? 0).
  - change (all_chars is_word (digits 20 (- n) "") = true). by rewrite digits_class.
  - by rewrite digits_class.
Qed.

Lemma to_string_not_equals n : all_chars not_equals (to_string n) = true.
Proof. exact (all_chars_impl _ _ _ is_word_not_equals (to_string_word n)). Qed.

Lemma to_string_not_newline n : all_chars not_newline (to_string n) = true.
Proof. exact (all_chars_impl _ _ _ is_word_not_newline (to_string_word n)). Qed.

(** ** Line round trip *)

Lemma getlines_app line rest :
  all_chars not_newline line = true ->
  getlines (line +:+ String newline rest) = line :: getlines rest.
Proof.
  induction line as [|ch line IH]; simpl; [done|].
  intros [Hch H]%andb_true_iff. unfold not_newline in Hch. apply negb_true_iff in Hch.
  by rewrite Hch, IH.
Qed.

Lemma split_equals_app key value :
  all_chars not_equals key = true ->
  split_equals (key +:+ String equals_sign value) = Some (key, value).
Proof.
  induction key as [|ch key IH]; simpl; [done|].
  intros [Hch H]%andb_true_iff. unfold not_equals in Hch. apply negb_true_iff in Hch.
  by rewrite Hch, IH.
Qed.

(** The fields of a record, in the order they were written. *)
Definition render_field (kv : string * string) : string :=
  fst kv +:+ String equals_sign (snd kv) +:+ String newline EmptyString.

Fixpoint render (l : list (string * string)) : string :=
  match l with
  | [] => EmptyString
  | kv :: l => render_field kv +:+ render l
  end.

Definition field_ok (kv : string * string) : Prop :=
  all_chars not_equals (fst kv) = true /\ all_chars not_newline (fst kv) = true /\
  all_chars not_newline (snd kv) = true.

Lemma string_nil_app (s : string) : "" +:+ s = s.
Proof. done. Qed.

Lemma string_cons_app ch (s1 s2 : string) : String ch s1 +:+ s2 = String ch (s1 +:+ s2).
Proof. done. Qed.

Lemma string_app_assoc (s1 s2 s3 : string) : (s1 +:+ s2) +:+ s3 = s1 +:+ (s2 +:+ s3).
Proof. induction s1 as [|ch s1 IH]; [done|]. by rewrite !string_cons_app, IH. Qed.

Lemma string_app_nil_r (s : string) : s +:+ "" = s.
Proof. induction s as [|ch s IH]; [done|]. by rewrite string_cons_app, IH. Qed.

Lemma string_length_app (s1 s2 : string) :
  String.length (s1 +:+ s2) = (String.length s1 + String.length s2)%nat.
Proof. induction s1 as [|c s1 IH]; [done|]. rewrite string_cons_app. simpl. by rewrite IH. Qed.

Lemma render_app l1 l2 : render (l1 ++ l2) = render l1 +:+ render l2.
Proof.
  induction l1 as [|kv l1 IH]; [done|]. cbn [render app]. by rewrite IH, <-string_app_assoc.
Qed.

Lemma parse_lines_render invalid l fields :
  Forall field_ok l ->
  parse_lines invalid (getlines (render l)) fields =
  Ok (fold_left (fun m kv => emplace m (fst kv) (snd kv)) l fields).
Proof.
  intros HF. revert fields. induction HF as [|kv l (He & Hn & Hv) HF IH]; intros fields; [done|].
  cbn [render]. unfold render_field.
  replace (_ +:+ render l) with
    ((fst kv +:+ String equals_sign (snd kv)) +:+ String newline (render l))
    by by rewrite ?string_app_assoc, ?string_cons_app, ?string_app_assoc.
  rewrite getlines_app by (rewrite all_chars_app; simpl; by rewrite Hn, Hv).
  cbn [parse_lines]. replace (is_empty _) with false by by destruct (fst kv).
  rewrite split_equals_app by done. simpl. apply IH.
Qed.

(** The value of the first field with a key. *)
Fixpoint assoc (key : string) (l : list (string * string)) : option string :=
  match l with
  | [] => None
  | (k, v) :: l => if bool_decide (k = key) then Some v else assoc key l
  end.

Definition fields_of (l : list (string * string)) : gmap string string :=
  fold_left (fun m kv => emplace m (fst kv) (snd kv)) l ∅.

Lemma emplace_lookup m k v key :
  emplace m k v !! key =
  match m !! key with
  | Some w => Some w
  | None => if bool_decide (k = key) then Some v else None
  end.
Proof.
  unfold emplace. destruct (bool_decide_reflect (k = key)) as [<-|Hne].
  - destruct (m !! k) eqn:E; by rewrite ?E, ?lookup_insert_eq.
  - destruct (m !! k); rewrite ?lookup_insert_ne by done; by destruct (m !! key).
Qed.

Lemma fold_emplace_lookup l m key :
  fold_left (fun m kv => emplace m (fst kv) (snd kv)) l m !! key =
  match m !! key with Some w => Some w | None => assoc key l end.
Proof.
  revert m. induction l as [|[k v] l IH]; intros m; simpl; [by destruct (m !! key)|].
  rewrite IH, emplace_lookup. by destruct (m !! key), (bool_decide (k = key)).
Qed.

Lemma fields_of_lookup l key : fields_of l !! key = assoc key l.
Proof. unfold fields_of. by rewrite fold_emplace_lookup, lookup_empty. Qed.

Lemma parse_render invalid l :
  Forall field_ok l -> parse_key_value_file invalid (render l) = Ok (fields_of l).
Proof. apply parse_lines_render. Qed.

Lemma assoc_app key l1 l2 :
  assoc key (l1 ++ l2) = match assoc key l1 with Some v => Some v | None => assoc key l2 end.
Proof. induction l1 as [|[k v] l1 IH]; simpl; [done|]. by destruct (bool_decide (k = key)). Qed.

(** The fields an optional member contributes to a record. *)
Definition optional_field {A} (key : string) (print : A -> string) (value : option A)
    : list (string * string) :=
  match value with
  | Some v => [(key, print v)]
  | None => []
  end.

Lemma assoc_optional_eq {A} key print (value : option A) :
  assoc key (optional_field key print value) = print <$> value.
Proof. destruct value; simpl; [|done]. by rewrite bool_decide_true. Qed.

Lemma assoc_optional_ne {A} key key' print (value : option A) :
  key <> key' -> assoc key (optional_field key' print value) = None.
Proof. intros H. destruct value; simpl; [|done]. by rewrite bool_decide_false. Qed.

Lemma write_field_render output key value :
  write_field output key value = output +:+ render [(key, value)].
Proof.
  unfold write_field. cbn [render]. unfold render_field. rewrite string_app_nil_r.
  by rewrite ?string_app_assoc, ?string_cons_app, ?string_app_assoc.
Qed.

Lemma write_optional_encoded_render output key value :
  write_optional_encoded_field output key value =
  output +:+ render (optional_field key hex_encode value).
Proof.
  destruct value; simpl; [apply write_field_render|]. by rewrite string_app_nil_r.
Qed.

Lemma write_optional_integer_render output key value :
  write_optional_integer_field output key value =
  output +:+ render (optional_field key to_string value).
Proof.
  destruct value; simpl; [apply write_field_render|]. by rewrite string_app_nil_r.
Qed.

Lemma word_field_ok key value :
  all_chars not_equals key && all_chars not_newline key = true ->
  all_chars is_word value = true -> field_ok (key, value).
Proof.
  intros [Hk Hn]%andb_true_iff Hv. split_and!; [done..|].
  exact (all_chars_impl _ _ _ is_word_not_newline Hv).
Qed.

Lemma optional_field_ok {A} key (print : A -> string) (value : option A) :
  all_chars not_equals key && all_chars not_newline key = true ->
  (forall v, all_chars is_word (print v) = true) ->
  Forall field_ok (optional_field key print value).
Proof.
  intros Hk Hp. destruct value; simpl; constructor; [|constructor]. by apply word_field_ok.
Qed.

Lemma assoc_cons_eq key value l : assoc key ((key, value) :: l) = Some value.
Proof. simpl. by rewrite bool_decide_true. Qed.

Lemma assoc_cons_ne key key' value l :
  key <> key' -> assoc key ((key', value) :: l) = assoc key l.
Proof. intros H. simpl. by rewrite bool_decide_false. Qed.

(** ** Families of indexed keys *)

Lemma strip_prefix_app p s : strip_prefix p (p +:+ s) = Some s.
Proof.
  induction p as [|c p IH]; [by destruct s|]. rewrite string_cons_app. simpl.
  by rewrite bool_decide_true.
Qed.

Lemma strip_prefix_some p s r : strip_prefix p s = Some r -> s = p +:+ r.
Proof.
  revert s. induction p as [|c p IH]; intros s; [by destruct s; intros [= <-]|].
  destruct s as [|c' s]; simpl; [done|]. case_bool_decide as H; [|done]. subst c'.
  intros H%IH. by rewrite string_cons_app, <-H.
Qed.

(** A key outside a family finds nothing in it. *)
Lemma assoc_outside p key l :
  strip_prefix p key = None -> Forall (fun kv => is_Some (strip_prefix p (fst kv))) l ->
  assoc key l = None.
Proof.
  intros Hk. induction 1 as [|[k v] l [r Hr] _ IH]; [done|].
  rewrite assoc_cons_ne; [done|]. intros ->. simpl in Hr. congruence.
Qed.

(** A key of a family finds nothing in a list without members of it. *)
Lemma assoc_family p key l :
  is_Some (strip_prefix p key) -> Forall (fun kv => strip_prefix p (fst kv) = None) l ->
  assoc key l = None.
Proof.
  intros [r Hr]. induction 1 as [|[k v] l Hk _ IH]; [done|].
  rewrite assoc_cons_ne; [done|]. intros ->. simpl in Hk. congruence.
Qed.

Lemma optional_field_forall {A} (P : string * string -> Prop) key print (value : option A) :
  (forall v, P (key, print v)) -> Forall P (optional_field key print value).
Proof. intros H. destruct value; simpl; repeat constructor; auto. Qed.

Lemma string_app_inj (s t1 t2 : string) : s +:+ t1 = s +:+ t2 -> t1 = t2.
Proof. induction s as [|c s IH]; [done|]. rewrite !string_cons_app. intros [= H]. auto. Qed.

(** What precedes the first occurrence of a separator is determined. *)
Lemma separator_inj (c : Ascii.ascii) s1 s2 t1 t2 :
  all_chars (fun ch => negb (bool_decide (ch = c))) s1 = true ->
  all_chars (fun ch => negb (bool_decide (ch = c))) s2 = true ->
  s1 +:+ String c t1 = s2 +:+ String c t2 -> s1 = s2 /\ t1 = t2.
Proof.
  revert s2. induction s1 as [|c1 s1 IH]; intros [|c2 s2]; simpl; rewrite ?string_cons_app.
  - intros _ _ [= ->]. done.
  - intros _ H [= <- _]. by rewrite bool_decide_true in H.
  - intros H _ [= -> _]. by rewrite bool_decide_true in H.
  - intros [_ H1]%andb_true_iff [_ H2]%andb_true_iff [= -> H].
    by destruct (IH _ H1 H2 H) as [-> ->].
Qed.

Lemma to_string_inj i j : in_u64 i -> in_u64 j -> to_string i = to_string j -> i = j.
Proof.
  intros Hi Hj H. apply (f_equal stoull) in H. rewrite !stoull_to_string in H by done. congruence.
Qed.

Lemma to_string_no_dot i : all_chars (fun ch => negb (bool_decide (ch = "."%char))) (to_string i) = true.
Proof.
  refine (all_chars_impl _ _ _ _ (to_string_word i)). intros ch H.
  by destruct (bool_decide_reflect (ch = "."%char)) as [->|].
Qed.

(** Writing a field extends the rendered record. *)
Lemma write_field_append l key value :
  write_field (render l) key value = render (l ++ [(key, value)]).
Proof. by rewrite write_field_render, render_app. Qed.

Lemma write_optional_encoded_append l key value :
  write_optional_encoded_field (render l) key value
  = render (l ++ optional_field key hex_encode value).
Proof. by rewrite write_optional_encoded_render, render_app. Qed.

Lemma write_optional_integer_append l key value :
  write_optional_integer_field (render l) key value
  = render (l ++ optional_field key to_string value).
Proof. by rewrite write_optional_integer_render, render_app. Qed.

(** ** Decoding rendered fields *)

Section Decode.
Context (subject : string) (l : list (string * string)).

Lemma decode_required_string_at key value :
  assoc key l = Some (hex_encode value) ->
  decode_required_string_field subject (fields_of l) key = Ok value.
Proof.
  intros H. unfold decode_required_string_field. rewrite fields_of_lookup, H.
  by rewrite hex_roundtrip.
Qed.

Lemma decode_optional_string_at key value :
  assoc key l = hex_encode <$> value ->
  decode_optional_string_field subject (fields_of l) key = Ok value.
Proof.
  intros H. unfold decode_optional_string_field. rewrite fields_of_lookup, H.
  destruct value as [value|]; simpl; [|done]. by rewrite hex_roundtrip.
Qed.

Lemma decode_optional_integer_at type key value :
  assoc key l = to_string <$> value ->
  (forall v, value = Some v -> integer_type_range type v) ->
  decode_optional_integer_field subject type (fields_of l) key = Ok value.
Proof.
  intros H Hr. unfold decode_optional_integer_field. rewrite fields_of_lookup, H.
  destruct value as [value|]; simpl; [|done]. by rewrite integer_roundtrip by auto.
Qed.

Lemma decode_required_integer_at type key v :
  assoc key l = Some (to_string v) -> integer_type_range type v ->
  decode_required_integer_field subject type (fields_of l) key = Ok v.
Proof.
  intros H Hr. unfold decode_required_integer_field.
  rewrite (decode_optional_integer_at type key (Some v)); [done|done|].
  intros ? [= <-]. done.
Qed.

(** A signed value read back as [std::uint32_t]. *)
Lemma decode_signed_as_uint32_at key v :
  assoc key l = Some (to_string v) -> in_s64 v ->
  decode_required_integer_field subject Uint32 (fields_of l) key = Ok (u32 (u64 v)).
Proof.
  intros H Hr. unfold decode_required_integer_field, decode_optional_integer_field.
  rewrite fields_of_lookup, H. simpl. by rewrite stoull_to_string_signed.
Qed.
End Decode.

(** Find a literal key in a record of literal and optional fields. *)
Ltac find_field :=
  repeat first
    [ rewrite assoc_app
    | rewrite assoc_cons_eq
    | rewrite assoc_cons_ne by done
    | rewrite assoc_optional_eq
    | rewrite assoc_optional_ne by done ].

(** ** Case and parts of texts *)

(** [std::tolower] in the C locale. *)
Definition to_lower (ch : Ascii.ascii) : Ascii.ascii :=
  let c := char_code ch in
  if (65 <=? c) && (c <=? 90) then char_of_code (c + 32) else ch.

Fixpoint lowercase_copy (value : string) : string :=
  match value with
  | EmptyString => EmptyString
  | String ch rest => String (to_lower ch) (lowercase_copy rest)
  end.

(** [value.substr(0, prefix.size()) == prefix] *)
Definition value_starts_with (value prefix : string) : bool :=
  bool_decide (is_Some (strip_prefix prefix value)).

(** [text.find(part) != npos] *)
Fixpoint contains_text (text part : string) : bool :=
  value_starts_with text part ||
  match text with EmptyString => false | String _ rest => contains_text rest part end.

(** ** Maps in the order of their keys *)

Definition key_order {A} (x y : string * A) : Prop := String.le x.1 y.1.

#[export] Instance key_order_dec {A} (x y : string * A) : Decision (key_order x y).
Proof. unfold key_order. apply _. Defined.

#[export] Instance key_order_trans {A} : Transitive (@key_order A).
Proof. intros x y z. apply (transitivity (R := String.le)). Qed.

#[export] Instance key_order_total {A} : Total (@key_order A).
Proof. intros x y. apply (total String.le). Qed.

(** The members of a [std::map], as an iteration meets them. *)
Definition in_key_order {A} (values : gmap string A) : list (string * A) :=
  merge_sort key_order (map_to_list values).

Lemma in_key_order_perm {A} (values : gmap string A) : in_key_order values ≡ₚ map_to_list values.
Proof. apply merge_sort_Permutation. Qed.

Lemma in_key_order_sorted {A} (values : gmap string A) :
  StronglySorted key_order (in_key_order values).
Proof. apply StronglySorted_merge_sort; apply _. Qed.
