(* ===== verification/Ordering.v ===== *)
(** * Comparisons and sorting

    The comparison functions of the code, built from comparisons of fields, and
    [std::sort], which may put elements that compare equal in any order: an argument of
    the models, described by the class [StdSort]. [UnorderedVisit] is the same for the order
    in which an unordered container is visited. *)

From stdpp Require Import sorting.
From S2P Require Import Prelude Text.

(** ** Comparisons *)

(** A comparison that orders its type up to elements that compare equal. *)
Class Ordering {A} (cmp : A -> A -> comparison) : Prop := {
  ordering_opp x y : cmp y x = CompOpp (cmp x y);
  ordering_lt x y z : cmp x y = Lt -> cmp y z = Lt -> cmp x z = Lt;
  ordering_eq x y z : cmp x y = Eq -> cmp x z = cmp y z;
}.

(** [a < b] in a [std::sort] or [std::tie]. *)
Definition less {A} (cmp : A -> A -> comparison) (x y : A) : bool :=
  match cmp x y with Lt => true | _ => false end.

(** [if (c1 differs) return c1; return c2;] *)
Definition then_by {A} (cmp1 cmp2 : A -> A -> comparison) (x y : A) : comparison :=
  match cmp1 x y with Eq => cmp2 x y | c => c end.

Definition by_number {A} (f : A -> Z) (x y : A) : comparison := f x ?= f y.
Definition by_text {A} (f : A -> string) (x y : A) : comparison := String.compare (f x) (f y).

(** The larger first. *)
Definition descending {A} (cmp : A -> A -> comparison) (x y : A) : comparison := cmp y x.

#[export] Instance by_number_ordering {A} (f : A -> Z) : Ordering (by_number f).
Proof.
  unfold by_number. split; intros x y; [apply Z.compare_antisym| |].
  - intros z. rewrite !Z.compare_lt_iff. lia.
  - intros z ->%Z.compare_eq_iff. done.
Qed.

Lemma string_compare_lt s1 s2 s3 :
  String.compare s1 s2 = Lt -> String.compare s2 s3 = Lt -> String.compare s1 s3 = Lt.
Proof.
  intros H12 H23.
  assert (String.le s1 s3) as H.
  { transitivity s2; unfold String.le, String.leb; by rewrite ?H12, ?H23. }
  unfold String.le, String.leb in H. destruct (String.compare s1 s3) eqn:H13; [|done|done].
  apply String.compare_eq_iff in H13 as ->. rewrite String.compare_antisym, H23 in H12. done.
Qed.

#[export] Instance by_text_ordering {A} (f : A -> string) : Ordering (by_text f).
Proof.
  unfold by_text. split; intros x y.
  - rewrite (String.compare_antisym (f y)). done.
  - intros z. apply string_compare_lt.
  - intros z ->%String.compare_eq_iff. done.
Qed.

#[export] Instance descending_ordering {A} (cmp : A -> A -> comparison) :
  Ordering cmp -> Ordering (descending cmp).
Proof.
  intros H. unfold descending. split; intros x y.
  - apply H.
  - intros z Hyx Hzy. by apply (ordering_lt z y x).
  - intros z Hyx. rewrite (ordering_opp x z), (ordering_opp y z). f_equal.
    apply ordering_eq. rewrite (ordering_opp y x), Hyx. done.
Qed.

#[export] Instance then_by_ordering {A} (cmp1 cmp2 : A -> A -> comparison) :
  Ordering cmp1 -> Ordering cmp2 -> Ordering (then_by cmp1 cmp2).
Proof.
  intros H1 H2. unfold then_by. split; intros x y.
  - rewrite (ordering_opp x y). destruct (cmp1 x y); simpl; [apply H2|done|done].
  - intros z. destruct (cmp1 x y) eqn:Exy; [|intros _|done].
    + intros Hxy. rewrite (ordering_eq _ _ z Exy). destruct (cmp1 y z); [|done|done].
      by apply (ordering_lt x y z).
    + destruct (cmp1 y z) eqn:Eyz; [|intros _|done].
      * assert (cmp1 x z = Lt) as ->; [|done].
        rewrite (ordering_opp z x).
        assert (cmp1 z y = Eq) as Ezy by by rewrite (ordering_opp y z), Eyz.
        by rewrite (ordering_eq _ _ x Ezy), (ordering_opp x y), Exy.
      * by rewrite (ordering_lt x y z).
  - intros z. destruct (cmp1 x y) eqn:Exy; [|done|done]. intros Hxy.
    rewrite (ordering_eq _ _ z Exy). destruct (cmp1 y z); [|done|done]. by apply ordering_eq.
Qed.

#[export] Typeclasses Opaque by_number by_text descending then_by.

(** [x] does not come after [y]. *)
Definition not_after {A} (cmp : A -> A -> comparison) (x y : A) : Prop := cmp y x <> Lt.

#[export] Instance not_after_dec {A} (cmp : A -> A -> comparison) : RelDecision (not_after cmp).
Proof. intros x y. unfold not_after. apply _. Defined.

#[export] Instance not_after_total {A} (cmp : A -> A -> comparison) `{!Ordering cmp} :
  Total (not_after cmp).
Proof.
  intros x y. unfold not_after. rewrite (ordering_opp x y). destruct (cmp x y); auto.
Qed.

#[export] Instance not_after_transitive {A} (cmp : A -> A -> comparison) `{!Ordering cmp} :
  Transitive (not_after cmp).
Proof.
  unfold not_after. intros x y z Hyx Hzy Hzx.
  destruct (cmp y z) eqn:Eyz.
  - apply Hyx. by rewrite (ordering_eq _ _ x Eyz).
  - apply Hyx. by apply (ordering_lt y z x).
  - apply Hzy. by rewrite (ordering_opp y z), Eyz.
Qed.

Lemma not_after_refl {A} (cmp : A -> A -> comparison) `{!Ordering cmp} x : not_after cmp x x.
Proof. unfold not_after. pose proof (ordering_opp x x). by destruct (cmp x x). Qed.

(** ** Sorting *)

(** [std::sort] with a comparison: the elements, each after none of its successors. *)
Class StdSort := {
  std_sort {A} (cmp : A -> A -> comparison) : list A -> list A;
  std_sort_perm {A} (cmp : A -> A -> comparison) `{!Ordering cmp} l : std_sort cmp l ≡ₚ l;
  std_sort_sorted {A} (cmp : A -> A -> comparison) `{!Ordering cmp} l :
    StronglySorted (not_after cmp) (std_sort cmp l);
}.

(** A sort there is. *)
Definition merging_sort : StdSort.
Proof.
  refine {| std_sort A cmp := merge_sort (not_after cmp) |}.
  - intros. apply merge_sort_Permutation.
  - intros. apply StronglySorted_merge_sort; apply _.
Defined.

Section with_sort.
Context {sorting : StdSort}.

Lemma std_sort_elem {A} (cmp : A -> A -> comparison) `{!Ordering cmp} l x :
  x ∈ std_sort cmp l <-> x ∈ l.
Proof. by rewrite std_sort_perm. Qed.

Lemma std_sort_length {A} (cmp : A -> A -> comparison) `{!Ordering cmp} l :
  length (std_sort cmp l) = length l.
Proof. by rewrite std_sort_perm. Qed.

Lemma std_sort_nil {A} (cmp : A -> A -> comparison) `{!Ordering cmp} : std_sort cmp [] = [].
Proof. apply Permutation_nil, symmetry, std_sort_perm, _. Qed.

(** The first of the sorted elements comes after none. *)
Lemma std_sort_first {A} (cmp : A -> A -> comparison) `{!Ordering cmp} l x rest :
  std_sort cmp l = x :: rest -> x ∈ l /\ forall y, y ∈ l -> not_after cmp x y.
Proof.
  intros E. split.
  - apply (std_sort_elem cmp). rewrite E. by left.
  - intros y Hy. rewrite <-(std_sort_elem cmp), E in Hy.
    pose proof (std_sort_sorted cmp l) as Hs. rewrite E in Hs.
    apply StronglySorted_inv in Hs as [_ Hs]. rewrite Forall_forall in Hs.
    apply elem_of_cons in Hy as [->|Hy]; [|by apply Hs].
    unfold not_after. pose proof (ordering_opp x x) as H. by destruct (cmp x x).
Qed.

Lemma std_sort_cons {A} (cmp : A -> A -> comparison) `{!Ordering cmp} l :
  l <> [] -> exists x rest, std_sort cmp l = x :: rest.
Proof.
  intros Hl. destruct (std_sort cmp l) as [|x rest] eqn:E; [|eauto].
  apply (f_equal length) in E. rewrite std_sort_length in E by done. by destruct l.
Qed.

End with_sort.

(** ** Visiting *)

(** The order in which an unordered_map with string keys is visited, left open. *)
Class UnorderedVisit := {
  visit_map {A} : gmap string A -> list (string * A);
  visit_map_perm {A} (values : gmap string A) : visit_map values ≡ₚ map_to_list values;
}.

(** An order there is. *)
Definition listed_order : UnorderedVisit := {|
  visit_map A := map_to_list;
  visit_map_perm A values := Permutation_refl (map_to_list values);
|}.

Lemma visit_map_elem {visiting : UnorderedVisit} {A} (values : gmap string A) key x :
  (key, x) ∈ visit_map values <-> values !! key = Some x.
Proof. by rewrite visit_map_perm, elem_of_map_to_list. Qed.

Lemma visit_map_keys {visiting : UnorderedVisit} {A} (values : gmap string A) :
  NoDup (visit_map values).*1.
Proof. rewrite visit_map_perm. apply NoDup_fst_map_to_list. Qed.
