(* ===== verification/Doubles.v ===== *)
(** * Doubles

    What the code computes with [double]s: IEEE binary64, rounded to the nearest and to even
    where two are as near, as the [spec_float]s of the Standard Library. *)

From Stdlib Require Export SpecFloat.
From S2P Require Import Prelude Text.

(** ** Arithmetic *)

Definition double_mul : spec_float -> spec_float -> spec_float := SFmul 53 1024.
Definition double_add : spec_float -> spec_float -> spec_float := SFadd 53 1024.
Definition double_div : spec_float -> spec_float -> spec_float := SFdiv 53 1024.
Definition double_sqrt : spec_float -> spec_float := SFsqrt 53 1024.

Definition double_zero : spec_float := S754_zero false.

(** [static_cast<double>] of an integer. *)
Definition double_of_integer (n : Z) : spec_float := binary_normalize 53 1024 n 0 false.

(** The double nearest to the fraction, as a literal is read. *)
Definition double_literal (numerator denominator : Z) : spec_float :=
  double_div (double_of_integer numerator) (double_of_integer denominator).

(** [a > b] *)
Definition double_gtb (a b : spec_float) : bool := SFltb b a.

(** ** To integers *)

(** [std::ceil] of a finite double. *)
Definition ceil_of (s : bool) (m : positive) (e : Z) : Z :=
  let n := if s then Z.neg m else Z.pos m in
  if 0 <=? e then n * 2 ^ e else - ((- n) / 2 ^ (- e)).

Definition double_ceil (x : spec_float) : option Z :=
  match x with
  | S754_zero _ => Some 0
  | S754_finite s m e => Some (ceil_of s m e)
  | S754_infinity _ | S754_nan => None
  end.

(** ** To text *)

(** A natural number of any size in decimal. *)
Definition decimal (n : Z) : string := digits (S (Z.to_nat (Z.log2 n))) n "".

(** The quotient nearest to [n / d], the even one of two. *)
Definition round_half_even (n d : Z) : Z :=
  let q := n / d in
  let twice := 2 * (n mod d) in
  if d <? twice then q + 1 else
  if twice =? d then (if Z.even q then q else q + 1) else q.

Fixpoint zeros (n : nat) (s : string) : string :=
  match n with O => s | S n => String "0" (zeros n s) end.

Definition pad_zeros (width : nat) (s : string) : string := zeros (width - String.length s) s.

(** A finite double in units of 10{^-6}. *)
Definition micros (m : positive) (e : Z) : Z :=
  if 0 <=? e then Z.pos m * 2 ^ e * 10 ^ 6 else round_half_even (Z.pos m * 10 ^ 6) (2 ^ (- e)).

(** [std::fixed] with a precision of 6. *)
Definition fixed6 (x : spec_float) : string :=
  match x with
  | S754_zero s => (if s then "-" else "") +:+ "0.000000"
  | S754_infinity s => (if s then "-" else "") +:+ "inf"
  | S754_nan => "nan"
  | S754_finite s m e =>
      let n := micros m e in
      (if s then "-" else "") +:+ decimal (n / 10 ^ 6) +:+ "." +:+ pad_zeros 6 (decimal (n mod 10 ^ 6))
  end.

Example fixed6_samples :
  (fixed6 (double_literal 1 10), fixed6 (double_literal (-27) 10), fixed6 (double_literal 1 3),
   fixed6 (double_literal 10 1), fixed6 (double_literal 1 1000000), fixed6 (double_literal 5 10000000)) =
  ("0.100000", "-2.700000", "0.333333", "10.000000", "0.000001", "0.000000").
Proof. vm_compute. reflexivity. Qed.

(** The text of a double is never empty. *)
Lemma fixed6_not_empty x : fixed6 x <> "".
Proof.
  destruct x as [[]|[]| |s m e]; cbn; try done.
  destruct s; [done|]. unfold decimal. intros H. apply (f_equal String.length) in H.
  rewrite !string_length_app in H. cbn in H. lia.
Qed.
