(* ===== verification/Checkpoint.v ===== *)
(** * Checkpoint building and resume planning

    runtime/include/checkpoint/CheckpointBuildTypes.h,
    runtime/include/recovery/ResumePlan.h,
    runtime/src/checkpoint/CheckpointStateMapper.cpp and the validators of
    runtime/src/checkpoint/CheckpointManager.cpp: how a transition outcome is
    folded into a checkpoint, which checkpoints are consistent, and the plan a
    consistent one is resumed with. *)

From S2P Require Import Prelude ErrorCodes CheckpointContracts Fsm Text.

(** ** Consistency reports *)

Module CheckpointConsistencyIssue.
Inductive CheckpointConsistencyIssue :=
| None | MissingCheckpointId | MissingStepId | MissingWorkingMemorySnapshot
| TransitionRejected | InvalidCheckpointState | MissingPendingAction | MissingVersionTag
| UnsupportedSchemaVersion | UnsupportedFsmStateVersion | UnsupportedBudgetSchemaVersion.
#[global] Instance CheckpointConsistencyIssue_eq_dec : EqDecision CheckpointConsistencyIssue.
Proof. solve_decision. Defined.
End CheckpointConsistencyIssue.
Abbreviation CheckpointConsistencyIssue := CheckpointConsistencyIssue.CheckpointConsistencyIssue.

Definition checkpoint_consistency_error_code (issue : CheckpointConsistencyIssue)
    : option RuntimeErrorCode :=
  match issue with
  | CheckpointConsistencyIssue.None => None
  | CheckpointConsistencyIssue.MissingCheckpointId
  | CheckpointConsistencyIssue.MissingStepId
  | CheckpointConsistencyIssue.MissingWorkingMemorySnapshot
  | CheckpointConsistencyIssue.TransitionRejected
  | CheckpointConsistencyIssue.InvalidCheckpointState
  | CheckpointConsistencyIssue.MissingPendingAction
  | CheckpointConsistencyIssue.MissingVersionTag => Some RT_E_202_STATE_INCONSISTENT
  | CheckpointConsistencyIssue.UnsupportedSchemaVersion
  | CheckpointConsistencyIssue.UnsupportedFsmStateVersion
  | CheckpointConsistencyIssue.UnsupportedBudgetSchemaVersion => Some RT_E_412_RESUME_REJECTED
  end.

Record CheckpointConsistencyReport := {
  ccr_consistent : bool;
  ccr_issue : CheckpointConsistencyIssue;
  ccr_error_code : option RuntimeErrorCode;
  ccr_detail : string;
}.

Definition default_consistency_report : CheckpointConsistencyReport :=
  {| ccr_consistent := false; ccr_issue := CheckpointConsistencyIssue.None;
     ccr_error_code := None; ccr_detail := "" |}.

Definition make_checkpoint_consistent_report (detail : string) : CheckpointConsistencyReport :=
  {| ccr_consistent := true; ccr_issue := CheckpointConsistencyIssue.None;
     ccr_error_code := None; ccr_detail := detail |}.

Definition make_checkpoint_rejected_report (issue : CheckpointConsistencyIssue)
    (detail : string) : CheckpointConsistencyReport :=
  {| ccr_consistent := false; ccr_issue := issue;
     ccr_error_code := checkpoint_consistency_error_code issue; ccr_detail := detail |}.

Definition reject_checkpoint (issue : CheckpointConsistencyIssue) (detail : string)
    : CheckpointConsistencyReport :=
  make_checkpoint_rejected_report issue detail.

(** ** Version tags *)

Definition kRuntimeCheckpointSchemaVersionTag : string := "rt.schema_version".
Definition kRuntimeCheckpointFsmStateEnumVersionTag : string := "rt.fsm_state_enum_version".
Definition kRuntimeCheckpointBudgetSchemaVersionTag : string := "rt.budget_schema_version".
Definition kRuntimeCheckpointSchemaVersion : string := "1".
Definition kRuntimeCheckpointFsmStateEnumVersion : string := "1".
Definition kRuntimeCheckpointBudgetSchemaVersion : string := "1".

Definition make_checkpoint_tag (key value : string) : string := key +:+ "=" +:+ value.

Fixpoint find_tag_value (tags : list string) (key : string) : option string :=
  match tags with
  | [] => None
  | candidate :: rest =>
      match strip_prefix (key +:+ "=") candidate with
      | Some value => Some value
      | None => find_tag_value rest key
      end
  end.

(** The overload for a checkpoint. *)
Definition find_checkpoint_tag_value (checkpoint : Checkpoint) (key : string) : option string :=
  let? tags := cp_tags checkpoint else None in find_tag_value tags key.

Definition runtime_checkpoint_version_tags : list string :=
  [make_checkpoint_tag kRuntimeCheckpointSchemaVersionTag kRuntimeCheckpointSchemaVersion;
   make_checkpoint_tag kRuntimeCheckpointFsmStateEnumVersionTag
     kRuntimeCheckpointFsmStateEnumVersion;
   make_checkpoint_tag kRuntimeCheckpointBudgetSchemaVersionTag
     kRuntimeCheckpointBudgetSchemaVersion].

Definition append_checkpoint_tag_if_missing (tags : list string) (key value : string)
    : list string :=
  match find_tag_value tags key with
  | Some _ => tags
  | None => tags ++ [make_checkpoint_tag key value]
  end.

Definition with_runtime_checkpoint_version_tags (tags : list string) : list string :=
  let merged := append_checkpoint_tag_if_missing tags
    kRuntimeCheckpointSchemaVersionTag kRuntimeCheckpointSchemaVersion in
  let merged := append_checkpoint_tag_if_missing merged
    kRuntimeCheckpointFsmStateEnumVersionTag kRuntimeCheckpointFsmStateEnumVersion in
  append_checkpoint_tag_if_missing merged
    kRuntimeCheckpointBudgetSchemaVersionTag kRuntimeCheckpointBudgetSchemaVersion.

(** ** CheckpointStateMapper *)

Definition to_checkpoint_state (runtime_state : RuntimeState) : option CheckpointState :=
  match runtime_state with
  | RuntimeState.Idle => Some CheckpointState.Unspecified
  | RuntimeState.Receiving | RuntimeState.Planning | RuntimeState.Reasoning
  | RuntimeState.ToolCalling | RuntimeState.Reflecting | RuntimeState.Responding
  | RuntimeState.Auditing | RuntimeState.Persisting => Some CheckpointState.Running
  | RuntimeState.WaitingClarify => Some CheckpointState.Paused
  | RuntimeState.WaitingConfirm => Some CheckpointState.WaitingConfirm
  | RuntimeState.WaitingExternal => Some CheckpointState.WaitingTool
  | RuntimeState.Completed => Some CheckpointState.Succeeded
  | RuntimeState.Failed | RuntimeState.FailedSafe | RuntimeState.Degraded
  | RuntimeState.SafeMode => Some CheckpointState.Failed
  | RuntimeState.Other _ => None
  end.

Definition can_resume_from (checkpoint_state : CheckpointState) : bool :=
  match checkpoint_state with
  | CheckpointState.Running | CheckpointState.Paused | CheckpointState.WaitingConfirm
  | CheckpointState.WaitingTool => true
  | CheckpointState.Failed | CheckpointState.Succeeded | CheckpointState.Unspecified => false
  | CheckpointState.Other _ => false
  end.

(** ** ResumePlan *)

Module ResumePlanViolation.
Inductive ResumePlanViolation :=
| None | CheckpointInvalid | MissingCheckpointReference | UnsupportedCheckpointState
| MissingPendingAction.
#[global] Instance ResumePlanViolation_eq_dec : EqDecision ResumePlanViolation.
Proof. solve_decision. Defined.
End ResumePlanViolation.
Abbreviation ResumePlanViolation := ResumePlanViolation.ResumePlanViolation.

Definition resume_plan_violation_error_code (violation : ResumePlanViolation)
    : option RuntimeErrorCode :=
  match violation with
  | ResumePlanViolation.None => None
  | ResumePlanViolation.CheckpointInvalid
  | ResumePlanViolation.MissingCheckpointReference
  | ResumePlanViolation.MissingPendingAction => Some RT_E_202_STATE_INCONSISTENT
  | ResumePlanViolation.UnsupportedCheckpointState => Some RT_E_412_RESUME_REJECTED
  end.

Definition resume_target_state (checkpoint_state : CheckpointState) : option RuntimeState :=
  match checkpoint_state with
  | CheckpointState.Running => Some RuntimeState.Reasoning
  | CheckpointState.Paused => Some RuntimeState.WaitingClarify
  | CheckpointState.WaitingConfirm => Some RuntimeState.WaitingConfirm
  | CheckpointState.WaitingTool => Some RuntimeState.WaitingExternal
  | CheckpointState.Failed | CheckpointState.Succeeded | CheckpointState.Unspecified => None
  | CheckpointState.Other _ => None
  end.

Record ResumePlan := {
  rp_checkpoint_ref : string;
  rp_target_state : RuntimeState;
  rp_checkpoint_state : CheckpointState;
  rp_resume_token : string;
  rp_resume_reason : string;
  rp_pending_action : option string;
  rp_policy_snapshot_ref : option string;
  rp_requires_operator_intervention : bool;
}.

Record ResumePlanDecision := {
  rpd_resumable : bool;
  rpd_plan : option ResumePlan;
  rpd_violation : ResumePlanViolation;
  rpd_error_code : option RuntimeErrorCode;
  rpd_detail : string;
}.

Definition make_resume_plan_decision (plan : ResumePlan) (detail : string) : ResumePlanDecision :=
  {| rpd_resumable := true; rpd_plan := Some plan; rpd_violation := ResumePlanViolation.None;
     rpd_error_code := None; rpd_detail := detail |}.

Definition make_rejected_resume_plan (violation : ResumePlanViolation) (detail : string)
    (error_code : option RuntimeErrorCode) : ResumePlanDecision :=
  {| rpd_resumable := false; rpd_plan := None; rpd_violation := violation;
     rpd_error_code :=
       match error_code with
       | Some _ => error_code
       | None => resume_plan_violation_error_code violation
       end;
     rpd_detail := detail |}.

(** ** Building *)

Record CheckpointBuildRequest := {
  cbr_transition_outcome : StateTransitionOutcome;
  cbr_checkpoint_id : string;
  cbr_step_id : string;
  cbr_working_memory_snapshot : string;
  cbr_pending_action : option string;
  cbr_request_id : option string;
  cbr_goal_id : option string;
  cbr_belief_state_ref : option string;
  cbr_retry_count : option Z;
  cbr_created_at_ms : option Z;
  cbr_runtime_budget_snapshot : option BudgetSnapshot;
  cbr_tags : list string;
}.

Record CheckpointBuildResult := {
  cbres_checkpoint : option Checkpoint;
  cbres_report : CheckpointConsistencyReport;
  cbres_runtime_budget_snapshot : option BudgetSnapshot;
}.

Definition built (result : CheckpointBuildResult) : bool :=
  bool_decide (is_Some (cbres_checkpoint result)) && ccr_consistent (cbres_report result).

Definition is_waiting_checkpoint_state (state : CheckpointState) : bool :=
  bool_decide (state = CheckpointState.Paused)
  || bool_decide (state = CheckpointState.WaitingConfirm)
  || bool_decide (state = CheckpointState.WaitingTool).

Definition resolve_checkpoint_state (outcome : StateTransitionOutcome)
    : option CheckpointState :=
  let mapped_state := to_checkpoint_state (to_resolved_state outcome) in
  if bool_decide (mapped_state = None)
     || bool_decide (mapped_state = Some CheckpointState.Unspecified) then None else
  let hint_state := ch_checkpoint_state (to_checkpoint_hint outcome) in
  if bool_decide (is_Some hint_state) && negb (bool_decide (hint_state = mapped_state))
  then None else mapped_state.

Definition validate_version_tag (checkpoint : Checkpoint) (key expected_value : string)
    (unsupported_issue : CheckpointConsistencyIssue) : CheckpointConsistencyReport :=
  let? value := find_checkpoint_tag_value checkpoint key
  else
    reject_checkpoint CheckpointConsistencyIssue.MissingVersionTag
      ("checkpoint is missing " +:+ key)
  in
  if negb (bool_decide (value = expected_value)) then
    reject_checkpoint unsupported_issue
      ("checkpoint " +:+ key +:+ " is not compatible with runtime")
  else
  make_checkpoint_consistent_report "".

Definition evaluate_checkpoint_consistency (checkpoint : Checkpoint)
    : CheckpointConsistencyReport :=
  if negb (has_non_empty_value (cp_checkpoint_id checkpoint)) then
    reject_checkpoint CheckpointConsistencyIssue.MissingCheckpointId
      "checkpoint_id must be populated" else
  if negb (has_non_empty_value (cp_step_id checkpoint)) then
    reject_checkpoint CheckpointConsistencyIssue.MissingStepId
      "step_id must be populated" else
  if negb (has_non_empty_value (cp_working_memory_snapshot checkpoint)) then
    reject_checkpoint CheckpointConsistencyIssue.MissingWorkingMemorySnapshot
      "working_memory_snapshot must be populated" else
  let invalid := reject_checkpoint CheckpointConsistencyIssue.InvalidCheckpointState in
  let? state := cp_state checkpoint else invalid "checkpoint state must be concrete" in
  if bool_decide (state = CheckpointState.Unspecified) then
    invalid "checkpoint state must be concrete" else
  let? pending_action := cp_pending_action checkpoint
  else
    reject_checkpoint CheckpointConsistencyIssue.MissingPendingAction
      "pending_action must be present (use empty string for none)"
  in
  if present_but_empty (cp_request_id checkpoint) then
    invalid "request_id must be non-empty when present" else
  if present_but_empty (cp_goal_id checkpoint) then
    invalid "goal_id must be non-empty when present" else
  if present_but_empty (cp_belief_state_ref checkpoint) then
    invalid "belief_state_ref must be non-empty when present" else
  if match cp_created_at checkpoint with Some t => t <=? 0 | None => false end then
    invalid "created_at must be a positive timestamp when present" else
  if bool_decide (cp_tags checkpoint = Some []) then
    invalid "tags must contain at least one item when present" else
  if match cp_tags checkpoint with Some tags => existsb is_empty tags | None => false end then
    invalid "tags must not contain empty strings" else
  if is_waiting_checkpoint_state state && is_empty pending_action then
    reject_checkpoint CheckpointConsistencyIssue.MissingPendingAction
      "waiting checkpoints must persist non-empty pending_action" else
  let report := validate_version_tag checkpoint
    kRuntimeCheckpointSchemaVersionTag kRuntimeCheckpointSchemaVersion
    CheckpointConsistencyIssue.UnsupportedSchemaVersion in
  if negb (ccr_consistent report) then report else
  let report := validate_version_tag checkpoint
    kRuntimeCheckpointFsmStateEnumVersionTag kRuntimeCheckpointFsmStateEnumVersion
    CheckpointConsistencyIssue.UnsupportedFsmStateVersion in
  if negb (ccr_consistent report) then report else
  let report := validate_version_tag checkpoint
    kRuntimeCheckpointBudgetSchemaVersionTag kRuntimeCheckpointBudgetSchemaVersion
    CheckpointConsistencyIssue.UnsupportedBudgetSchemaVersion in
  if negb (ccr_consistent report) then report else
  make_checkpoint_consistent_report "checkpoint is structurally resumable".

(** The checkpoint [build_checkpoint] makes of an accepted outcome whose state
    resolved to [checkpoint_state]. *)
Definition checkpoint_of_request (request : CheckpointBuildRequest)
    (checkpoint_state : CheckpointState) : Checkpoint :=
  {| cp_checkpoint_id := Some (cbr_checkpoint_id request);
     cp_state := Some checkpoint_state;
     cp_step_id := Some (cbr_step_id request);
     cp_working_memory_snapshot := Some (cbr_working_memory_snapshot request);
     cp_pending_action := Some (default "" (cbr_pending_action request));
     cp_request_id := cbr_request_id request;
     cp_goal_id := cbr_goal_id request;
     cp_belief_state_ref := cbr_belief_state_ref request;
     cp_retry_count := cbr_retry_count request;
     cp_created_at := cbr_created_at_ms request;
     cp_tags := Some (with_runtime_checkpoint_version_tags (cbr_tags request)) |}.

Definition synthesize_resume_plan (checkpoint : Checkpoint) : ResumePlanDecision :=
  let report := evaluate_checkpoint_consistency checkpoint in
  if negb (ccr_consistent report) then
    make_rejected_resume_plan ResumePlanViolation.CheckpointInvalid
      (ccr_detail report) (ccr_error_code report) else
  let missing_reference :=
    make_rejected_resume_plan ResumePlanViolation.MissingCheckpointReference
      "checkpoint_id is required to build a resume plan" None in
  let? checkpoint_id := cp_checkpoint_id checkpoint else missing_reference in
  if is_empty checkpoint_id then missing_reference else
  let state := default CheckpointState.Unspecified (cp_state checkpoint) in
  let? target_state := resume_target_state state
  else
    make_rejected_resume_plan ResumePlanViolation.UnsupportedCheckpointState
      "terminal or unspecified checkpoints cannot be resumed" None
  in
  if is_waiting_checkpoint_state state
     && negb (has_non_empty_value (cp_pending_action checkpoint)) then
    make_rejected_resume_plan ResumePlanViolation.MissingPendingAction
      "resume plan requires pending_action for waiting checkpoints" None else
  make_resume_plan_decision
    {| rp_checkpoint_ref := checkpoint_id;
       rp_target_state := target_state;
       rp_checkpoint_state := state;
       rp_resume_token := "";
       rp_resume_reason := "resume plan synthesized from checkpoint";
       rp_pending_action := cp_pending_action checkpoint;
       rp_policy_snapshot_ref := None;
       rp_requires_operator_intervention :=
         bool_decide (state = CheckpointState.WaitingConfirm) |}
    "checkpoint is resumable".

(** ** Consistency *)

(** The tags a checkpoint must carry, by key. *)
Definition version_tags : list (string * string) :=
  [(kRuntimeCheckpointSchemaVersionTag, kRuntimeCheckpointSchemaVersion);
   (kRuntimeCheckpointFsmStateEnumVersionTag, kRuntimeCheckpointFsmStateEnumVersion);
   (kRuntimeCheckpointBudgetSchemaVersionTag, kRuntimeCheckpointBudgetSchemaVersion)].

Definition version_tags_ok (cp : Checkpoint) : Prop :=
  Forall (fun kv => find_checkpoint_tag_value cp (fst kv) = Some (snd kv)) version_tags.

Lemma validate_version_tag_ok cp key v issue :
  ccr_consistent (validate_version_tag cp key v issue) = true <->
  find_checkpoint_tag_value cp key = Some v.
Proof.
  unfold validate_version_tag. destruct (find_checkpoint_tag_value cp key) as [w|]; simpl; [|done].
  case_bool_decide; simpl; naive_solver.
Qed.

Lemma report_chain r1 r2 r3 d :
  ccr_consistent
    (if negb (ccr_consistent r1) then r1 else
     if negb (ccr_consistent r2) then r2 else
     if negb (ccr_consistent r3) then r3 else make_checkpoint_consistent_report d) =
  ccr_consistent r1 && ccr_consistent r2 && ccr_consistent r3.
Proof.
  destruct (ccr_consistent r1) eqn:E1, (ccr_consistent r2) eqn:E2, (ccr_consistent r3) eqn:E3;
    simpl; by rewrite ?E1, ?E2, ?E3.
Qed.

(** What [evaluate_checkpoint_consistency] asks of the fields, the state and the
    pending action apart. *)
Definition fields_consistent (cp : Checkpoint) : Prop :=
  has_non_empty_value (cp_checkpoint_id cp) = true /\
  has_non_empty_value (cp_step_id cp) = true /\
  has_non_empty_value (cp_working_memory_snapshot cp) = true /\
  present_but_empty (cp_request_id cp) = false /\
  present_but_empty (cp_goal_id cp) = false /\
  present_but_empty (cp_belief_state_ref cp) = false /\
  (forall t, cp_created_at cp = Some t -> 0 < t) /\
  cp_tags cp <> Some [] /\
  (forall tags, cp_tags cp = Some tags -> existsb is_empty tags = false).

Definition consistent_checkpoint (cp : Checkpoint) : Prop :=
  fields_consistent cp /\
  (exists state action, cp_state cp = Some state /\ cp_pending_action cp = Some action /\
     state <> CheckpointState.Unspecified /\
     (is_waiting_checkpoint_state state = true -> action <> "")) /\
  version_tags_ok cp.

Lemma created_at_test (o : option Z) :
  (match o with Some t => t <=? 0 | None => false end) = false <->
  (forall t, o = Some t -> 0 < t).
Proof. destruct o; [rewrite Z.leb_gt|]; naive_solver. Qed.

Lemma tags_test (o : option (list string)) :
  (match o with Some tags => existsb is_empty tags | None => false end) = false <->
  (forall tags, o = Some tags -> existsb is_empty tags = false).
Proof. destruct o; naive_solver. Qed.

Lemma consistent_iff cp :
  ccr_consistent (evaluate_checkpoint_consistency cp) = true <-> consistent_checkpoint cp.
Proof.
  unfold evaluate_checkpoint_consistency, consistent_checkpoint, fields_consistent.
  rewrite <-created_at_test, <-tags_test.
  destruct (has_non_empty_value (cp_checkpoint_id cp)); simpl; [|naive_solver].
  destruct (has_non_empty_value (cp_step_id cp)); simpl; [|naive_solver].
  destruct (has_non_empty_value (cp_working_memory_snapshot cp)); simpl; [|naive_solver].
  destruct (cp_state cp) as [state|]; simpl; [|naive_solver].
  destruct (bool_decide_reflect (state = CheckpointState.Unspecified)); simpl; [naive_solver|].
  destruct (cp_pending_action cp) as [action|]; simpl; [|naive_solver].
  destruct (present_but_empty (cp_request_id cp)); simpl; [naive_solver|].
  destruct (present_but_empty (cp_goal_id cp)); simpl; [naive_solver|].
  destruct (present_but_empty (cp_belief_state_ref cp)); simpl; [naive_solver|].
  destruct (match cp_created_at cp with Some _ => _ | None => _ end); simpl; [naive_solver|].
  destruct (bool_decide_reflect (cp_tags cp = Some [])); simpl; [naive_solver|].
  destruct (match cp_tags cp with Some _ => _ | None => _ end); simpl; [naive_solver|].
  unfold version_tags_ok, version_tags. rewrite !Forall_cons, Forall_nil. cbn [fst snd].
  destruct (is_waiting_checkpoint_state state) eqn:Hw, (is_empty action) eqn:He; simpl;
    rewrite ?report_chain, ?andb_true_iff, ?validate_version_tag_ok;
    rewrite ?is_empty_true, ?is_empty_false in He; try naive_solver.
  split; [|naive_solver]. intros [[H1 H2] H3]. split; [naive_solver|]. split; [|done].
  exists state, action. by rewrite Hw.
Qed.

Lemma contract_guard_iff cp :
  gr_ok (validate_checkpoint_field_rules cp) = true <->
  fields_consistent cp /\
  exists state action, cp_state cp = Some state /\ cp_pending_action cp = Some action /\
    state <> CheckpointState.Unspecified /\
    0 <= checkpoint_state_value state <= 6 /\
    (is_waiting_checkpoint_state state = true -> action <> "").
Proof.
  unfold validate_checkpoint_field_rules, validate_checkpoint_boundary,
    validate_checkpoint_required_fields, fields_consistent.
  rewrite <-created_at_test, <-tags_test.
  destruct (has_non_empty_value (cp_checkpoint_id cp)); simpl; [|naive_solver].
  destruct (cp_state cp) as [state|]; simpl; [|naive_solver].
  destruct (bool_decide_reflect (state = CheckpointState.Unspecified)); simpl; [naive_solver|].
  destruct (has_non_empty_value (cp_step_id cp)); simpl; [|naive_solver].
  destruct (has_non_empty_value (cp_working_memory_snapshot cp)); simpl; [|naive_solver].
  destruct (cp_pending_action cp) as [action|]; simpl; [|naive_solver].
  destruct (_ || _) eqn:Hr; simpl.
  { rewrite orb_true_iff, !Z.ltb_lt in Hr. simpl in Hr. split; [done|].
    intros (_ & s & a & [= <-] & _ & _ & Hb & _). lia. }
  rewrite orb_false_iff, !Z.ltb_ge in Hr. simpl in Hr.
  destruct (present_but_empty (cp_request_id cp)); simpl; [naive_solver|].
  destruct (present_but_empty (cp_goal_id cp)); simpl; [naive_solver|].
  destruct (present_but_empty (cp_belief_state_ref cp)); simpl; [naive_solver|].
  destruct (match cp_created_at cp with Some _ => _ | None => _ end); simpl; [naive_solver|].
  destruct (bool_decide_reflect (cp_tags cp = Some [])); simpl; [naive_solver|].
  destruct (match cp_tags cp with Some _ => _ | None => _ end); simpl; [naive_solver|].
  fold (is_waiting_checkpoint_state state).
  destruct (is_waiting_checkpoint_state state) eqn:Hw, (is_empty action) eqn:He; simpl;
    rewrite ?is_empty_true, ?is_empty_false in He;
    (split; [intros ?; try done|intros (_ & ? & ? & [= <-] & [= <-] & _ & _ & Ha); auto]).
  1: by rewrite Hw in Ha; specialize (Ha eq_refl).
  all: split; [split_and!; done|]; exists state, action; rewrite Hw; split_and!; done || lia.
Qed.

(** For a checkpoint whose state is one the enumeration names, the runtime's
    consistency check is the contract's three-layer guard and the three version
    tags, no more and no less. *)
Theorem consistency_is_contract_guard cp :
  (forall s, cp_state cp = Some s -> known_checkpoint_state s) ->
  ccr_consistent (evaluate_checkpoint_consistency cp) = true <->
  gr_ok (validate_checkpoint_field_rules cp) = true /\ version_tags_ok cp.
Proof.
  intros Hk. rewrite consistent_iff, contract_guard_iff. unfold consistent_checkpoint.
  assert (forall s, known_checkpoint_state s -> 0 <= checkpoint_state_value s <= 6) as Hr
    by (intros []; simpl; lia || done).
  split; [|naive_solver].
  intros (Hf & (s & a & Hs & Ha & Hu & Hw) & Hv). split; [|done]. split; [done|].
  exists s, a. eauto 10.
Qed.

Definition with_state (s : CheckpointState) (cp : Checkpoint) : Checkpoint :=
  {| cp_checkpoint_id := cp_checkpoint_id cp; cp_state := Some s;
     cp_step_id := cp_step_id cp;
     cp_working_memory_snapshot := cp_working_memory_snapshot cp;
     cp_pending_action := cp_pending_action cp; cp_request_id := cp_request_id cp;
     cp_goal_id := cp_goal_id cp; cp_belief_state_ref := cp_belief_state_ref cp;
     cp_retry_count := cp_retry_count cp; cp_created_at := cp_created_at cp;
     cp_tags := cp_tags cp |}.

(** A state outside the enumeration goes unnoticed by the runtime's check:
    a consistent checkpoint whose state is overwritten with any such value is
    still consistent, though the contract's guard rejects it; only the resume
    plan refuses it, as an unsupported state. *)
Theorem unknown_state_is_consistent cp raw :
  ccr_consistent (evaluate_checkpoint_consistency cp) = true ->
  raw < 0 \/ 6 < raw ->
  let cp' := with_state (CheckpointState.Other raw) cp in
  ccr_consistent (evaluate_checkpoint_consistency cp') = true /\
  gr_ok (validate_checkpoint_field_rules cp') = false /\
  rpd_violation (synthesize_resume_plan cp') = ResumePlanViolation.UnsupportedCheckpointState.
Proof.
  intros Hc Hraw cp'. assert (ccr_consistent (evaluate_checkpoint_consistency cp') = true) as Hc'.
  { rewrite consistent_iff in *. destruct Hc as (Hf & (s & a & Hs & Ha & Hu & Hw) & Hv).
    split; [exact Hf|]. split; [|exact Hv]. by exists (CheckpointState.Other raw), a. }
  split; [done|]. split.
  - apply not_true_iff_false. rewrite contract_guard_iff. simpl. intros (_ & s & a & [= <-] & H).
    simpl in H. lia.
  - unfold synthesize_resume_plan. rewrite Hc'. simpl.
    apply consistent_iff in Hc as ((Hid & _) & _).
    apply has_non_empty_value_true in Hid as (id & -> & Hid). simpl.
    apply is_empty_false in Hid. by rewrite Hid.
Qed.

(** ** Resume plans *)

Lemma can_resume_target c : can_resume_from c = true <-> is_Some (resume_target_state c).
Proof. destruct c; simpl; split; try done; by intros [? ?]. Qed.

Lemma resume_target_folds_back c t :
  resume_target_state c = Some t -> to_checkpoint_state t = Some c.
Proof. by destruct c; intros [= <-]. Qed.

(** A checkpoint is resumable exactly when it is consistent and its state can
    be resumed from. The plan then names the checkpoint, targets a runtime state
    that folds back into the checkpoint's own, carries the pending action of a
    waiting checkpoint, and asks for the operator exactly when a confirmation
    is pending; the two rejections for a missing reference and a missing action
    never happen. *)
Theorem resume_plan_complete cp :
  let decision := synthesize_resume_plan cp in
  (rpd_resumable decision = true <->
     ccr_consistent (evaluate_checkpoint_consistency cp) = true /\
     exists s, cp_state cp = Some s /\ can_resume_from s = true) /\
  rpd_violation decision <> ResumePlanViolation.MissingCheckpointReference /\
  rpd_violation decision <> ResumePlanViolation.MissingPendingAction /\
  match rpd_plan decision with
  | Some plan =>
      cp_checkpoint_id cp = Some (rp_checkpoint_ref plan) /\
      cp_state cp = Some (rp_checkpoint_state plan) /\
      to_checkpoint_state (rp_target_state plan) = Some (rp_checkpoint_state plan) /\
      (is_waiting_checkpoint_state (rp_checkpoint_state plan) = true ->
         has_non_empty_value (rp_pending_action plan) = true) /\
      rp_requires_operator_intervention plan =
        bool_decide (rp_target_state plan = RuntimeState.WaitingConfirm)
  | None => rpd_resumable decision = false
  end.
Proof.
  intros decision. unfold decision, synthesize_resume_plan.
  destruct (ccr_consistent _) eqn:Hc; simpl; [|naive_solver].
  apply consistent_iff in Hc as ((Hid & _) & (s & a & Hs & Ha & Hu & Hw) & _).
  apply has_non_empty_value_true in Hid as (id & Hid & Hne). rewrite Hid, Hs, Ha. simpl.
  apply is_empty_false in Hne. rewrite Hne.
  destruct (resume_target_state s) as [t|] eqn:Ht; simpl.
  - destruct (is_waiting_checkpoint_state s) eqn:E; simpl.
    + specialize (Hw eq_refl). apply is_empty_false in Hw. rewrite Hw. simpl.
      destruct s; simplify_eq/=; rewrite Hw; split_and!; try done; split; eauto.
    + destruct s; simplify_eq/=; split_and!; try done; split; eauto.
  - split_and!; [|done..]. split; [done|]. intros (_ & s' & [= <-] & Hr).
    apply can_resume_target in Hr as [? ?]. congruence.
Qed.

(** A decision carries a plan exactly when it is positive, and the plan names
    the checkpoint. *)
Lemma plan_names_checkpoint cp :
  match rpd_plan (synthesize_resume_plan cp) with
  | Some plan =>
      rpd_resumable (synthesize_resume_plan cp) = true /\ cp_checkpoint_id cp = Some (rp_checkpoint_ref plan)
  | None => rpd_resumable (synthesize_resume_plan cp) = false /\ True
  end.
Proof.
  unfold synthesize_resume_plan. destruct (ccr_consistent _); simpl; [|done].
  destruct (cp_checkpoint_id cp) as [id|]; [|done]. destruct (is_empty id); [done|].
  destruct (resume_target_state _); [|done]. by destruct (_ && _).
Qed.

(** ** Folding transition outcomes *)

(** A hint that writes a checkpoint names the state the outcome folds into. *)
Lemma written_hint_resolves s request :
  let outcome := snd (transition s request) in
  to_accepted outcome = true ->
  writes_checkpoint (to_checkpoint_hint outcome) = true ->
  exists c, resolve_checkpoint_state outcome = Some c /\ c <> CheckpointState.Unspecified /\
    ch_checkpoint_state (to_checkpoint_hint outcome) = Some c /\
    is_waiting_checkpoint_state c = ch_pending_action_required (to_checkpoint_hint outcome).
Proof.
  intros outcome (r & Hin & _ & Hto & Hhint)%transition_hint.
  unfold resolve_checkpoint_state. fold outcome in Hto, Hhint. rewrite Hhint, <-Hto. clear Hto Hhint.
  unfold transition_rules in Hin.
  repeat (apply elem_of_cons in Hin as [-> | Hin];
    [first [done | intros _; eexists; split_and!; done]|]).
  by apply elem_of_nil in Hin.
Qed.

(** Retaining hints never resolve once the run is back in [Responding]: the
    state retained is [Failed] and [Responding] folds into [Running]. *)
Lemma retain_hint_unresolved s request :
  let outcome := snd (transition s request) in
  to_accepted outcome = true ->
  ch_mutation (to_checkpoint_hint outcome) = CheckpointMutationKind.Retain ->
  to_resolved_state outcome = RuntimeState.Responding ->
  resolve_checkpoint_state outcome = None.
Proof.
  intros outcome (r & Hin & _ & Hto & Hhint)%transition_hint.
  unfold resolve_checkpoint_state. fold outcome in Hto, Hhint. rewrite Hhint, <-Hto. clear Hto Hhint.
  unfold transition_rules in Hin.
  repeat (apply elem_of_cons in Hin as [-> | Hin]; [done|]).
  by apply elem_of_nil in Hin.
Qed.

(** ** Version tags *)

Lemma find_tag_value_app l1 l2 key :
  find_tag_value (l1 ++ l2) key =
  match find_tag_value l1 key with Some v => Some v | None => find_tag_value l2 key end.
Proof. induction l1 as [|t l1 IH]; simpl; [done|]. by destruct (strip_prefix _ t). Qed.

(** Tags of a caller that do not contradict the runtime's versions. *)
Definition tags_compatible (tags : list string) : Prop :=
  Forall (fun kv => default (snd kv) (find_tag_value tags (fst kv)) = snd kv) version_tags.

Lemma with_version_tags_ok tags :
  tags_compatible tags ->
  Forall (fun kv => find_tag_value (with_runtime_checkpoint_version_tags tags) (fst kv)
                    = Some (snd kv)) version_tags.
Proof.
  unfold tags_compatible, version_tags. rewrite !Forall_cons, !Forall_nil.
  unfold with_runtime_checkpoint_version_tags, append_checkpoint_tag_if_missing.
  cbn [fst snd]. intros (H1 & H2 & H3 & _).
  destruct (find_tag_value tags kRuntimeCheckpointSchemaVersionTag) eqn:E1;
  destruct (find_tag_value tags kRuntimeCheckpointFsmStateEnumVersionTag) eqn:E2;
  destruct (find_tag_value tags kRuntimeCheckpointBudgetSchemaVersionTag) eqn:E3;
  rewrite ?find_tag_value_app, ?E1, ?E2, ?E3; simpl;
  rewrite ?find_tag_value_app, ?E1, ?E2, ?E3; simpl;
  rewrite ?find_tag_value_app, ?E1, ?E2, ?E3; simpl in *; subst; done.
Qed.

Lemma append_tag_shape tags key value :
  exists extra, append_checkpoint_tag_if_missing tags key value = tags ++ extra /\
    (extra = [] \/ extra = [make_checkpoint_tag key value]).
Proof.
  unfold append_checkpoint_tag_if_missing.
  case_match; [exists []; rewrite app_nil_r|eexists]; eauto.
Qed.

Lemma with_version_tags_non_empty tags :
  existsb is_empty tags = false -> tags_compatible tags ->
  existsb is_empty (with_runtime_checkpoint_version_tags tags) = false /\
  with_runtime_checkpoint_version_tags tags <> [].
Proof.
  intros Ht Hc. pose proof (with_version_tags_ok tags Hc) as Hv. split.
  - unfold with_runtime_checkpoint_version_tags.
    destruct (append_tag_shape tags kRuntimeCheckpointSchemaVersionTag
      kRuntimeCheckpointSchemaVersion) as (e1 & -> & [-> | ->]);
    match goal with |- context [append_checkpoint_tag_if_missing ?l
      kRuntimeCheckpointFsmStateEnumVersionTag ?v] =>
      destruct (append_tag_shape l kRuntimeCheckpointFsmStateEnumVersionTag v)
        as (e2 & -> & [-> | ->]) end;
    match goal with |- context [append_checkpoint_tag_if_missing ?l
      kRuntimeCheckpointBudgetSchemaVersionTag ?v] =>
      destruct (append_tag_shape l kRuntimeCheckpointBudgetSchemaVersionTag v)
        as (e3 & -> & [-> | ->]) end;
    by rewrite !existsb_app, Ht.
  - intros E. rewrite E in Hv. unfold version_tags in Hv. by inversion Hv.
Qed.

(** ** Witnesses *)

Definition sample_checkpoint : Checkpoint :=
  {| cp_checkpoint_id := Some "ckpt-1"; cp_state := Some CheckpointState.WaitingConfirm;
     cp_step_id := Some "step-3"; cp_working_memory_snapshot := Some "{}";
     cp_pending_action := Some "confirm:delete"; cp_request_id := Some "req-7";
     cp_goal_id := None; cp_belief_state_ref := None; cp_retry_count := Some 1;
     cp_created_at := Some 1700000000000;
     cp_tags := Some ("origin=test" :: runtime_checkpoint_version_tags) |}.

Lemma consistency_is_contract_guard_witness :
  gr_ok (validate_checkpoint_field_rules sample_checkpoint) = true.
Proof.
  refine (proj1 (proj1 (consistency_is_contract_guard sample_checkpoint _) _)).
  - intros s [= <-]. done.
  - vm_compute. reflexivity.
Defined.

Lemma unknown_state_is_consistent_witness :
  ccr_consistent (evaluate_checkpoint_consistency
    (with_state (CheckpointState.Other 42) sample_checkpoint)) = true.
Proof.
  refine (proj1 (unknown_state_is_consistent sample_checkpoint 42 _ _)).
  - vm_compute. reflexivity.
  - lia.
Defined.
