(* ===== verification/DurableStore.v ===== *)
(** * Durable records

    What the durable stores of CheckpointManager.cpp and SessionManager.cpp share:
    record paths, the write-to-temporary-then-rename publication of a record, and
    the interface a durable store offers its manager. *)

From S2P Require Import Prelude Text.

(** ** The file system

    The regular files by path. One call meets one [IoOutcome] of the operating
    system: which of its system calls succeed and how many bytes of the output
    the file ends up with (the stream is never asked whether its writes
    succeeded, so a full disk shows only here). *)
Abbreviation FileSystem := (gmap string string).

Record IoOutcome := {
  io_create_directories : bool;
  io_open : bool;
  io_bytes_stored : nat;
  io_rename : bool;
}.

(** Every system call succeeds and everything is stored. *)
Definition io_sound (io : IoOutcome) (output : string) : Prop :=
  io_create_directories io = true /\ io_open io = true /\ io_rename io = true /\
  (String.length output <= io_bytes_stored io)%nat.

(** [path / component] of [std::filesystem::path] on POSIX. *)
Fixpoint ends_with_slash (path : string) : bool :=
  match path with
  | EmptyString => false
  | String ch EmptyString => bool_decide (ch = "/"%char)
  | String _ rest => ends_with_slash rest
  end.

Definition path_append (path component : string) : string :=
  if bool_decide (String.get 0 component = Some "/"%char) then component else
  if is_empty path || ends_with_slash path then path +:+ component else
  path +:+ "/" +:+ component.

(** [checkpoint_record_path] and [session_record_path], by directory. *)
Definition record_path (directory state_root ref : string) : string :=
  path_append (path_append state_root directory) (hex_encode ref +:+ ".kv").

Definition temporary_path (record_path : string) : string := record_path +:+ ".tmp".

(** ** Publication *)

Inductive PublishStatus :=
| CreateDirectoriesFailed | OpenFailed | RenameFailed | Published.

(** The system calls that change regular files. [create_directories] changes
    none of them. *)
Inductive FileOp :=
| OpenTruncate (path : string)
| Append (path : string) (ch : ascii)
| Rename (from to : string)
| Remove (path : string).

Definition run_op (op : FileOp) (fs : FileSystem) : FileSystem :=
  match op with
  | OpenTruncate path => <[path := ""]> fs
  | Append path ch => alter (fun content => content +:+ String ch "") path fs
  | Rename from to =>
      match fs !! from with
      | Some content => <[to := content]> (delete from fs)
      | None => fs
      end
  | Remove path => delete path fs
  end.

Fixpoint run_ops (ops : list FileOp) (fs : FileSystem) : FileSystem :=
  match ops with
  | [] => fs
  | op :: rest => run_ops rest (run_op op fs)
  end.

(** The file systems after every prefix of the calls: what a process that dies
    between two of them leaves behind. *)
Fixpoint crash_states (ops : list FileOp) (fs : FileSystem) : list FileSystem :=
  fs :: match ops with
        | [] => []
        | op :: rest => crash_states rest (run_op op fs)
        end.

(** The system calls of [write_durable_*_record], in their order, around the
    bytes [output] it streams: the temporary file is truncated, gets its bytes
    (as many as are stored; how they are grouped into writes is left open, so
    each is a call of its own), and is renamed onto the record, or removed when
    the rename fails (the removal is taken to succeed). *)
Definition publish_ops (io : IoOutcome) (path output : string) : list FileOp * PublishStatus :=
  if negb (io_create_directories io) then ([], CreateDirectoriesFailed) else
  if negb (io_open io) then ([], OpenFailed) else
  let written := OpenTruncate (temporary_path path)
    :: map (Append (temporary_path path))
         (String.list_ascii_of_string (String.substring 0 (io_bytes_stored io) output)) in
  if negb (io_rename io) then (written ++ [Remove (temporary_path path)], RenameFailed) else
  (written ++ [Rename (temporary_path path) path], Published).

Definition publish_record (io : IoOutcome) (fs : FileSystem) (path output : string)
    : FileSystem * PublishStatus :=
  let '(ops, status) := publish_ops io path output in (run_ops ops fs, status).

Definition read_file (fs : FileSystem) (path : string) : option string := fs !! path.

(** ** Paths *)

Lemma hex_encode_no_slash s : String.get 0 (hex_encode s +:+ ".kv") <> Some "/"%char.
Proof.
  destruct s as [|ch s]; [done|]. cbn [hex_encode]. rewrite string_cons_app. simpl. intros [= H].
  pose proof (hex_encode_word (String ch s)) as Hw. cbn [hex_encode all_chars] in Hw.
  rewrite H in Hw. done.
Qed.

(** A record path is its directory's prefix, then the hex name. *)
Lemma record_path_shape directory root :
  exists p, forall ref, record_path directory root ref = p +:+ hex_encode ref +:+ ".kv".
Proof.
  unfold record_path. set (d := path_append root directory).
  destruct (is_empty d || ends_with_slash d) eqn:E.
  - exists d. intros ref. unfold path_append. rewrite bool_decide_false by apply hex_encode_no_slash.
    by rewrite E.
  - exists (d +:+ "/"). intros ref. unfold path_append.
    rewrite bool_decide_false by apply hex_encode_no_slash. rewrite E. by rewrite string_app_assoc.
Qed.

Lemma kv_suffix_inj s1 s2 : hex_encode s1 +:+ ".kv" = hex_encode s2 +:+ ".kv" -> s1 = s2.
Proof.
  intros H. apply hex_encode_inj.
  destruct (separator_inj "." (hex_encode s1) (hex_encode s2) "kv" "kv") as [? _]; [..|exact H|done];
    refine (all_chars_impl _ _ _ _ (hex_encode_word _)); intros ch Hch;
    by destruct (bool_decide_reflect (ch = "."%char)) as [->|].
Qed.

Lemma kv_tmp_differ s1 s2 : hex_encode s1 +:+ ".kv" <> (hex_encode s2 +:+ ".kv") +:+ ".tmp".
Proof.
  intros H. rewrite string_app_assoc in H.
  destruct (separator_inj "." (hex_encode s1) (hex_encode s2) "kv" "kv.tmp") as [_ ?]; [..|exact H|done];
    refine (all_chars_impl _ _ _ _ (hex_encode_word _)); intros ch Hch;
    by destruct (bool_decide_reflect (ch = "."%char)) as [->|].
Qed.

Lemma record_path_inj directory root ref1 ref2 :
  record_path directory root ref1 = record_path directory root ref2 -> ref1 = ref2.
Proof.
  destruct (record_path_shape directory root) as [p Hp]. rewrite !Hp.
  intros H%string_app_inj. by apply kv_suffix_inj.
Qed.

Lemma record_path_not_temporary directory root ref1 ref2 :
  record_path directory root ref1 <> temporary_path (record_path directory root ref2).
Proof.
  destruct (record_path_shape directory root) as [p Hp]. unfold temporary_path. rewrite !Hp.
  rewrite string_app_assoc. intros H%string_app_inj. by apply kv_tmp_differ in H.
Qed.

(** ** Publication, seen by a reader *)

Lemma substring_whole n s : (String.length s <= n)%nat -> String.substring 0 n s = s.
Proof.
  revert n. induction s as [|ch s IH]; intros [|n] H; simpl in *; [done|done|lia|].
  by rewrite IH by lia.
Qed.

Lemma run_ops_app ops1 ops2 fs : run_ops (ops1 ++ ops2) fs = run_ops ops2 (run_ops ops1 fs).
Proof. revert fs. induction ops1 as [|op ops1 IH]; intros fs; [done|apply IH]. Qed.

Lemma crash_states_last ops fs : last (crash_states ops fs) = Some (run_ops ops fs).
Proof.
  revert fs. induction ops as [|op ops IH]; intros fs; [done|].
  cbn [crash_states run_ops]. specialize (IH (run_op op fs)).
  destruct ops; cbn [crash_states] in *; by rewrite <- IH.
Qed.

Lemma crash_states_snoc ops op fs fs' :
  fs' ∈ crash_states (ops ++ [op]) fs ->
  fs' ∈ crash_states ops fs \/ fs' = run_ops (ops ++ [op]) fs.
Proof.
  revert fs. induction ops as [|op1 ops IH]; intros fs; cbn [app crash_states run_ops].
  - rewrite !elem_of_cons. intros [-> | [-> | []%not_elem_of_nil]]; [left; by left|by right].
  - rewrite !elem_of_cons. intros [-> | [H|H]%IH]; [left; by left|left; by right|by right].
Qed.

(** What a call leaves alone. *)
Definition op_spares (path : string) (op : FileOp) : Prop :=
  match op with
  | OpenTruncate p | Append p _ | Remove p => p <> path
  | Rename from to => from <> path /\ to <> path
  end.

Lemma run_op_spared path op fs : op_spares path op -> run_op op fs !! path = fs !! path.
Proof.
  destruct op as [p|p ch|from to|p]; simpl.
  - apply lookup_insert_ne.
  - apply lookup_alter_ne.
  - intros [Hf Ht]. destruct (fs !! from); [|done].
    by rewrite lookup_insert_ne, lookup_delete_ne.
  - apply lookup_delete_ne.
Qed.

Lemma crash_states_spared path ops fs fs' :
  Forall (op_spares path) ops -> fs' ∈ crash_states ops fs -> fs' !! path = fs !! path.
Proof.
  intros Hops. revert fs. induction Hops as [|op ops Hop _ IH]; intros fs; cbn [crash_states];
    rewrite elem_of_cons; intros [-> | H]; try done; [by apply not_elem_of_nil in H|].
  rewrite (IH _ H). by apply run_op_spared.
Qed.

Lemma run_appends path content s fs :
  run_ops (map (Append path) (String.list_ascii_of_string s)) (<[path := content]> fs)
  = <[path := content +:+ s]> fs.
Proof.
  revert content. induction s as [|ch s IH]; intros content; cbn [String.list_ascii_of_string map run_ops run_op].
  - by rewrite string_app_nil_r.
  - rewrite alter_insert_eq, IH, string_app_assoc. done.
Qed.

(** What a publication comes to. *)
Lemma publish_record_eq io fs path output :
  publish_record io fs path output =
  if negb (io_create_directories io) then (fs, CreateDirectoriesFailed) else
  if negb (io_open io) then (fs, OpenFailed) else
  if negb (io_rename io) then (delete (temporary_path path) fs, RenameFailed) else
  (<[path := String.substring 0 (io_bytes_stored io) output]> (delete (temporary_path path) fs),
   Published).
Proof.
  unfold publish_record, publish_ops. repeat case_match; simplify_eq; try done; f_equal;
    rewrite <- ?app_comm_cons; cbn [run_ops run_op]; rewrite run_ops_app, run_appends; cbn [run_ops run_op].
  - by rewrite delete_insert_eq.
  - by rewrite lookup_insert_eq, delete_insert_eq.
Qed.

(** Every call but the last of a publication is about the temporary file. *)
Lemma publish_crash io fs path path' output fs' :
  path' <> temporary_path path ->
  fs' ∈ crash_states (fst (publish_ops io path output)) fs ->
  read_file fs' path' = read_file fs path' \/
  path' = path /\ snd (publish_ops io path output) = Published /\
  read_file fs' path' = Some (String.substring 0 (io_bytes_stored io) output).
Proof.
  intros Hne. pose proof (publish_record_eq io fs path output) as Heq. revert Heq.
  unfold publish_record, publish_ops, read_file.
  destruct (io_create_directories io); cbn [negb fst];
    [|intros _ [-> | []%not_elem_of_nil]%elem_of_cons; by left].
  destruct (io_open io); cbn [negb fst];
    [|intros _ [-> | []%not_elem_of_nil]%elem_of_cons; by left].
  destruct (io_rename io); cbn [negb fst snd];
    intros Heq%(f_equal fst) [H|H]%crash_states_snoc; cbn [fst] in Heq.
  1, 3: left; refine (crash_states_spared _ _ _ _ _ H); apply Forall_cons; split; [exact (not_eq_sym Hne)|];
    apply Forall_map, Forall_true; intros ch; exact (not_eq_sym Hne).
  - rewrite H, Heq. destruct (decide (path' = path)) as [-> | Hp].
    + right. by rewrite lookup_insert_eq.
    + left. by rewrite lookup_insert_ne, lookup_delete_ne by done.
  - left. by rewrite H, Heq, lookup_delete_ne by done.
Qed.

Section Publish.
Context (directory root : string).
Let path := record_path directory root.

Lemma publish_sound io fs ref output :
  io_sound io output ->
  publish_record io fs (path ref) output =
  (<[path ref := output]> (delete (temporary_path (path ref)) fs), Published).
Proof.
  intros (Hc & Ho & Hr & Hn). rewrite publish_record_eq, Hc, Ho, Hr. simpl.
  by rewrite substring_whole.
Qed.

(** A publication, complete or not, leaves every other record alone. *)
Lemma publish_other io fs ref ref' output :
  ref' <> ref ->
  read_file (fst (publish_record io fs (path ref) output)) (path ref')
  = read_file fs (path ref').
Proof.
  intros Hne. rewrite publish_record_eq. unfold read_file.
  assert (path ref <> path ref') by (intros H%record_path_inj; congruence).
  pose proof (record_path_not_temporary directory root ref' ref).
  repeat case_match; simpl; [done|done|..];
    rewrite ?lookup_insert_ne by done; by rewrite lookup_delete_ne.
Qed.

(** A publication that fails leaves the record it was to replace. *)
Lemma publish_failed io fs ref output :
  snd (publish_record io fs (path ref) output) <> Published ->
  read_file (fst (publish_record io fs (path ref) output)) (path ref)
  = read_file fs (path ref).
Proof.
  rewrite publish_record_eq. unfold read_file. pose proof (record_path_not_temporary directory root ref ref).
  repeat case_match; simpl; try done. intros _. by rewrite lookup_delete_ne.
Qed.

(** Atomicity: at every moment of a publication a reader finds in the record's
    file what was there before, or all that was stored of the new record; and
    never a change in another record. *)
Lemma publish_crash_atomic io fs ref output fs' :
  fs' ∈ crash_states (fst (publish_ops io (path ref) output)) fs ->
  (read_file fs' (path ref) = read_file fs (path ref) \/
   read_file fs' (path ref) = Some (String.substring 0 (io_bytes_stored io) output)) /\
  (forall ref', ref' <> ref -> read_file fs' (path ref') = read_file fs (path ref')).
Proof.
  intros Hin. split.
  - destruct (publish_crash io fs (path ref) (path ref) output fs') as [H|(_ & _ & H)];
      [apply record_path_not_temporary|done|by left|by right].
  - intros ref' Hne.
    destruct (publish_crash io fs (path ref) (path ref') output fs') as [H|(H & _)];
      [apply record_path_not_temporary|done|done|]. by apply record_path_inj in H.
Qed.
End Publish.

(** ** Two directories under one root *)

Lemma ends_with_slash_app s c t : ends_with_slash (s +:+ String c t) = ends_with_slash (String c t).
Proof.
  induction s as [|c' s IH]; [done|]. rewrite string_cons_app.
  destruct (s +:+ String c t) as [|c'' s''] eqn:E; [by destruct s|]. exact IH.
Qed.

(** A directory name: not empty, and without slashes at its ends. *)
Definition directory_name (directory : string) : Prop :=
  directory <> "" /\ String.get 0 directory <> Some "/"%char /\ ends_with_slash directory = false.

Lemma record_path_directories root :
  exists q, forall directory ref, directory_name directory ->
    record_path directory root ref = q +:+ directory +:+ "/" +:+ hex_encode ref +:+ ".kv".
Proof.
  exists (if is_empty root || ends_with_slash root then root else root +:+ "/").
  intros directory ref (Hne & Hfirst & Hlast). unfold record_path.
  assert (path_append root directory
    = (if is_empty root || ends_with_slash root then root else root +:+ "/") +:+ directory) as ->.
  { unfold path_append. rewrite bool_decide_false by done.
    destruct (_ || _); by rewrite ?string_app_assoc. }
  generalize (if is_empty root || ends_with_slash root then root else root +:+ "/"). intros q.
  unfold path_append. rewrite bool_decide_false by apply hex_encode_no_slash.
  destruct directory as [|c d]; [done|]. rewrite ends_with_slash_app, Hlast.
  assert (is_empty (q +:+ String c d) = false) as ->.
  { apply is_empty_false. by destruct q. }
  simpl. by rewrite !string_app_assoc.
Qed.

(** A publication in one directory leaves the records of another alone. *)
Lemma publish_other_directory io fs root d1 d2 ref1 ref2 output :
  directory_name d1 -> directory_name d2 ->
  (forall s t : string, d1 +:+ "/" +:+ s <> d2 +:+ "/" +:+ t) ->
  read_file (fst (publish_record io fs (record_path d1 root ref1) output))
    (record_path d2 root ref2)
  = read_file fs (record_path d2 root ref2).
Proof.
  intros H1 H2 Hdiff. destruct (record_path_directories root) as [q Hq].
  rewrite publish_record_eq. unfold read_file, temporary_path. rewrite !Hq by done.
  assert (forall s, q +:+ d1 +:+ "/" +:+ s <> q +:+ d2 +:+ "/" +:+ hex_encode ref2 +:+ ".kv") as Hp
    by (intros s E%string_app_inj; by apply Hdiff in E).
  pose proof (Hp (hex_encode ref1 +:+ ".kv")) as Hrecord.
  pose proof (Hp ((hex_encode ref1 +:+ ".kv") +:+ ".tmp")) as Htmp.
  rewrite !string_app_assoc in *.
  repeat case_match; simpl; [done|done|..]; rewrite ?lookup_insert_ne by done;
    by rewrite lookup_delete_ne.
Qed.

(** ** The interface of a durable store

    [ds_write] and [ds_read] are the store's own routines for records of type
    [R], with the detail they report. [ds_anchored] says what a write needs of
    the record (its reference names the file), [ds_encodable] which records
    survive the text format. *)
Inductive ReadStatus (R : Type) :=
| NotFound (detail : string)
| Corrupt (detail : string)
| Loaded (record : R) (detail : string).
Arguments NotFound {R} detail.
Arguments Corrupt {R} detail.
Arguments Loaded {R} record detail.

Definition loaded_record {R} (status : ReadStatus R) : option R :=
  match status with Loaded record _ => Some record | _ => None end.

Class DurableStore (R : Type) := {
  ds_directory : string;
  ds_ref : R -> string;
  ds_encode : R -> string;
  ds_encodable : R -> Prop;
  ds_write : IoOutcome -> FileSystem -> string -> R -> FileSystem * bool * string;
  ds_read : bool -> FileSystem -> string -> string -> ReadStatus R;
}.

Class DurableStoreLaws (R : Type) `{DurableStore R} := {
  (** A write is the publication of the encoded record under its reference. *)
  ds_write_publishes io fs root r :
    ds_ref r <> "" ->
    let '(fs', ok, _) := ds_write io fs root r in
    let '(fs'', status) :=
      publish_record io fs (record_path ds_directory root (ds_ref r)) (ds_encode r) in
    fs' = fs'' /\ (ok = true <-> status = Published);
  (** What a read yields depends only on the file of that reference. *)
  ds_read_local io fs fs' root ref :
    read_file fs (record_path ds_directory root ref)
    = read_file fs' (record_path ds_directory root ref) ->
    ds_read io fs root ref = ds_read io fs' root ref;
  (** An encoded record is read back. *)
  ds_read_encoded fs root r :
    ds_encodable r ->
    read_file fs (record_path ds_directory root (ds_ref r)) = Some (ds_encode r) ->
    loaded_record (ds_read true fs root (ds_ref r)) = Some r;
}.

Section Store.
Context {R : Type} `{DurableStoreLaws R}.

Lemma store_write_read io fs root r :
  ds_ref r <> "" -> ds_encodable r -> io_sound io (ds_encode r) ->
  let '(fs', ok, _) := ds_write io fs root r in
  ok = true /\ loaded_record (ds_read true fs' root (ds_ref r)) = Some r.
Proof.
  intros Hne He Hio. pose proof (ds_write_publishes io fs root r Hne) as Hw.
  destruct (ds_write io fs root r) as [[fs' ok] detail].
  rewrite publish_sound in Hw by done. destruct Hw as [-> Hok].
  split; [by apply Hok|]. apply ds_read_encoded; [done|].
  unfold read_file. by rewrite lookup_insert_eq.
Qed.

Lemma store_write_other io fs root r ref ok_open :
  ds_ref r <> "" -> ref <> ds_ref r ->
  ds_read ok_open (fst (fst (ds_write io fs root r))) root ref = ds_read ok_open fs root ref.
Proof.
  intros Hne Href. pose proof (ds_write_publishes io fs root r Hne) as Hw.
  destruct (ds_write io fs root r) as [[fs' ok] detail]. simpl. apply ds_read_local.
  pose proof (publish_other ds_directory root io fs (ds_ref r) ref (ds_encode r) Href) as Ho.
  destruct (publish_record _ _ _ _) as [fs'' status]. simpl in Ho. destruct Hw as [-> _]. done.
Qed.

Lemma store_write_failed io fs root r ok_open :
  ds_ref r <> "" -> snd (fst (ds_write io fs root r)) = false ->
  ds_read ok_open (fst (fst (ds_write io fs root r))) root (ds_ref r)
  = ds_read ok_open fs root (ds_ref r).
Proof.
  intros Hne Hfail. pose proof (ds_write_publishes io fs root r Hne) as Hw.
  destruct (ds_write io fs root r) as [[fs' ok] detail]. simpl in *. apply ds_read_local.
  pose proof (publish_failed ds_directory root io fs (ds_ref r) (ds_encode r)) as Hp.
  destruct (publish_record _ _ _ _) as [fs'' status]. simpl in Hp. destruct Hw as [-> Hok].
  apply Hp. intros ->. destruct ok; [done|]. by destruct Hok as [_ Hok]; specialize (Hok eq_refl).
Qed.

Lemma store_crash_atomic io fs root r fs' :
  ds_encodable r ->
  let path := record_path ds_directory root (ds_ref r) in
  fs' ∈ crash_states (fst (publish_ops io path (ds_encode r))) fs ->
  (ds_read true fs' root (ds_ref r) = ds_read true fs root (ds_ref r) \/
   read_file fs' path = Some (String.substring 0 (io_bytes_stored io) (ds_encode r)) /\
   ((String.length (ds_encode r) <= io_bytes_stored io)%nat ->
    loaded_record (ds_read true fs' root (ds_ref r)) = Some r)) /\
  (forall ref, ref <> ds_ref r -> ds_read true fs' root ref = ds_read true fs root ref).
Proof.
  intros He path Hin. destruct (publish_crash_atomic ds_directory root io fs (ds_ref r) (ds_encode r) fs' Hin)
    as [[Hf|Hf] Hother]; (split; [|intros ref Hne; by apply ds_read_local, Hother]).
  - left. by apply ds_read_local.
  - right. split; [done|]. intros Hn. apply ds_read_encoded; [done|]. by rewrite Hf, substring_whole.
Qed.

Lemma store_crash_last io fs root r :
  ds_ref r <> "" ->
  last (crash_states (fst (publish_ops io (record_path ds_directory root (ds_ref r)) (ds_encode r))) fs)
  = Some (fst (fst (ds_write io fs root r))).
Proof.
  intros Hne. rewrite crash_states_last. pose proof (ds_write_publishes io fs root r Hne) as Hw.
  unfold publish_record in Hw. destruct (publish_ops _ _ _) as [ops status].
  destruct (ds_write io fs root r) as [[fs' ok] detail]. by destruct Hw as [-> _].
Qed.
End Store.
