(* ===== verification/CheckpointStore.v ===== *)
(** * Durable checkpoint records

    The text format of runtime/src/checkpoint/CheckpointManager.cpp's durable
    store, [write_durable_checkpoint_record] and
    [read_durable_checkpoint_record], and its instance of the durable-store
    interface. *)

From S2P Require Import Prelude ErrorCodes CheckpointContracts Text DurableStore.

(** ** Durable records *)

Record ParsedCheckpointRecord := {
  pcr_checkpoint : Checkpoint;
  pcr_runtime_budget_snapshot : option BudgetSnapshot;
}.

Definition checkpoint_record_path (state_root checkpoint_ref : string) : string :=
  record_path "checkpoints" state_root checkpoint_ref.

(** The loop over the tags, from [index] on. *)
Fixpoint write_tags (output : string) (index : Z) (tags : list string) : string :=
  match tags with
  | [] => output
  | tag :: rest =>
      write_tags (write_encoded_field output ("tag." +:+ to_string index) tag) (index + 1) rest
  end.

Definition budget_entry_prefix (index : Z) : string := "budget_entry." +:+ to_string index +:+ ".".

Fixpoint write_budget_entries (output : string) (index : Z) (entries : list BudgetSnapshotEntry)
    : string :=
  match entries with
  | [] => output
  | entry :: rest =>
      let prefix := budget_entry_prefix index in
      let output := write_integer_field output (prefix +:+ "type")
        (Z.of_nat (budget_type_index (bse_budget_type entry))) in
      let output := write_integer_field output (prefix +:+ "current") (bse_current entry) in
      let output := write_integer_field output (prefix +:+ "max") (bse_max entry) in
      let output := write_integer_field output (prefix +:+ "remaining") (bse_remaining entry) in
      let output := write_optional_encoded_field output (prefix +:+ "reject_reason")
        (bse_reject_reason entry) in
      write_budget_entries output (index + 1) rest
  end.

(** The bytes streamed into the record. *)
Definition checkpoint_record_output (checkpoint : Checkpoint)
    (runtime_budget_snapshot : option BudgetSnapshot) : string :=
  let output := write_encoded_field "" "checkpoint_id"
    (default "" (cp_checkpoint_id checkpoint)) in
  let output := write_integer_field output "state"
    (checkpoint_state_value (default CheckpointState.Unspecified (cp_state checkpoint))) in
  let output := write_encoded_field output "step_id" (default "" (cp_step_id checkpoint)) in
  let output := write_encoded_field output "working_memory_snapshot"
    (default "" (cp_working_memory_snapshot checkpoint)) in
  let output := write_encoded_field output "pending_action"
    (default "" (cp_pending_action checkpoint)) in
  let output := write_optional_encoded_field output "request_id" (cp_request_id checkpoint) in
  let output := write_optional_encoded_field output "goal_id" (cp_goal_id checkpoint) in
  let output := write_optional_encoded_field output "belief_state_ref"
    (cp_belief_state_ref checkpoint) in
  let output := write_optional_integer_field output "retry_count" (cp_retry_count checkpoint) in
  let output := write_optional_integer_field output "created_at" (cp_created_at checkpoint) in
  let tags := default [] (cp_tags checkpoint) in
  let output := write_integer_field output "tag_count" (Z.of_nat (length tags)) in
  let output := write_tags output 0 tags in
  let output := write_integer_field output "budget_snapshot_present"
    (match runtime_budget_snapshot with Some _ => 1 | None => 0 end) in
  match runtime_budget_snapshot with
  | None => output
  | Some snapshot =>
      let output := write_optional_integer_field output "budget_snapshot.snapshot_at_ms"
        (bs_snapshot_at_ms snapshot) in
      let output := write_optional_encoded_field output "budget_snapshot.overall_reject_reason"
        (bs_overall_reject_reason snapshot) in
      let output := write_integer_field output "budget_snapshot.entry_count"
        (Z.of_nat (length (bs_entries snapshot))) in
      write_budget_entries output 0 (bs_entries snapshot)
  end.

Definition write_durable_checkpoint_record (io : IoOutcome) (fs : FileSystem)
    (state_root : string) (checkpoint : Checkpoint)
    (runtime_budget_snapshot : option BudgetSnapshot) : FileSystem * bool * string :=
  let? checkpoint_id := cp_checkpoint_id checkpoint
    else (fs, false, "checkpoint durable store requires checkpoint_id") in
  if is_empty checkpoint_id then (fs, false, "checkpoint durable store requires checkpoint_id")
  else
  let '(fs, status) := publish_record io fs (checkpoint_record_path state_root checkpoint_id)
    (checkpoint_record_output checkpoint runtime_budget_snapshot) in
  match status with
  | CreateDirectoriesFailed =>
      (fs, false, "checkpoint durable store could not create state directories")
  | OpenFailed =>
      (fs, false, "checkpoint durable store could not open the checkpoint record for writing")
  | RenameFailed =>
      (fs, false, "checkpoint durable store could not atomically publish the checkpoint record")
  | Published => (fs, true, "checkpoint persisted in durable store")
  end.

Definition subject : string := "durable checkpoint record".

Definition parse_budget_type (raw_value : Z) : option BudgetType :=
  if raw_value =? 0 then Some BudgetType.Token else
  if raw_value =? 1 then Some BudgetType.Turn else
  if raw_value =? 2 then Some BudgetType.ToolCall else
  if raw_value =? 3 then Some BudgetType.Latency else
  if raw_value =? 4 then Some BudgetType.Replan else
  None.

Fixpoint decode_tags (fields : gmap string string) (index : Z) (tag_count : nat)
    : result string (list string) :=
  match tag_count with
  | O => Ok []
  | S tag_count =>
      let* tag := decode_required_string_field subject fields ("tag." +:+ to_string index) in
      let* rest := decode_tags fields (index + 1) tag_count in
      Ok (tag :: rest)
  end.

Definition decode_budget_entry (fields : gmap string string) (index : Z)
    : result string BudgetSnapshotEntry :=
  let prefix := budget_entry_prefix index in
  let* raw_budget_type := decode_required_integer_field subject Uint32 fields (prefix +:+ "type") in
  let* current := decode_required_integer_field subject Uint64 fields (prefix +:+ "current") in
  let* max := decode_required_integer_field subject Uint64 fields (prefix +:+ "max") in
  let* remaining := decode_required_integer_field subject Int64 fields (prefix +:+ "remaining") in
  let* reject_reason :=
    decode_optional_string_field subject fields (prefix +:+ "reject_reason") in
  let? budget_type := parse_budget_type raw_budget_type
    else Err "durable checkpoint record has an invalid budget type" in
  Ok {| bse_budget_type := budget_type; bse_current := current; bse_max := max;
        bse_remaining := remaining; bse_reject_reason := reject_reason |}.

Fixpoint decode_budget_entries (fields : gmap string string) (index : Z) (entry_count : nat)
    : result string (list BudgetSnapshotEntry) :=
  match entry_count with
  | O => Ok []
  | S entry_count =>
      let* entry := decode_budget_entry fields index in
      let* rest := decode_budget_entries fields (index + 1) entry_count in
      Ok (entry :: rest)
  end.

Definition decode_budget_snapshot (fields : gmap string string)
    : result string (option BudgetSnapshot) :=
  let* budget_snapshot_present :=
    decode_required_integer_field subject Uint32 fields "budget_snapshot_present" in
  if negb (budget_snapshot_present =? 1) then Ok None else
  let* snapshot_at_ms :=
    decode_optional_integer_field subject Uint64 fields "budget_snapshot.snapshot_at_ms" in
  let* overall_reject_reason :=
    decode_optional_string_field subject fields "budget_snapshot.overall_reject_reason" in
  let* entry_count :=
    decode_required_integer_field subject Uint32 fields "budget_snapshot.entry_count" in
  let* entries := decode_budget_entries fields 0 (Z.to_nat entry_count) in
  Ok (Some {| bs_snapshot_at_ms := snapshot_at_ms; bs_entries := entries;
              bs_overall_reject_reason := overall_reject_reason |}).

(** [read_durable_checkpoint_record] once the file is open; the [Err]s are the
    details of its [Corrupt] results. *)
Definition decode_checkpoint_record (checkpoint_ref content : string)
    : result string ParsedCheckpointRecord :=
  let* fields := parse_key_value_file
    "durable checkpoint record contains an invalid key-value line" content in
  let* checkpoint_id := decode_required_string_field subject fields "checkpoint_id" in
  let* step_id := decode_required_string_field subject fields "step_id" in
  let* working_memory_snapshot :=
    decode_required_string_field subject fields "working_memory_snapshot" in
  let* pending_action := decode_required_string_field subject fields "pending_action" in
  let* request_id := decode_optional_string_field subject fields "request_id" in
  let* goal_id := decode_optional_string_field subject fields "goal_id" in
  let* belief_state_ref := decode_optional_string_field subject fields "belief_state_ref" in
  let* retry_count := decode_optional_integer_field subject Uint32 fields "retry_count" in
  let* created_at := decode_optional_integer_field subject Int64 fields "created_at" in
  let* raw_state := decode_required_integer_field subject Uint32 fields "state" in
  let* tag_count := decode_required_integer_field subject Uint32 fields "tag_count" in
  let* tags :=
    if 0 <? tag_count
    then let* tags := decode_tags fields 0 (Z.to_nat tag_count) in Ok (Some tags)
    else Ok None in
  let* runtime_budget_snapshot := decode_budget_snapshot fields in
  if negb (bool_decide (checkpoint_id = checkpoint_ref)) then
    Err "durable checkpoint record checkpoint_id does not match file anchor" else
  Ok {| pcr_checkpoint :=
          {| cp_checkpoint_id := Some checkpoint_id;
             cp_state := Some (checkpoint_state_of_value (s32 raw_state));
             cp_step_id := Some step_id;
             cp_working_memory_snapshot := Some working_memory_snapshot;
             cp_pending_action := Some pending_action;
             cp_request_id := request_id;
             cp_goal_id := goal_id;
             cp_belief_state_ref := belief_state_ref;
             cp_retry_count := retry_count;
             cp_created_at := created_at;
             cp_tags := tags |};
        pcr_runtime_budget_snapshot := runtime_budget_snapshot |}.

(** [open_ok]: whether the operating system lets the existing file be opened. *)
Definition read_durable_checkpoint_record (open_ok : bool) (fs : FileSystem)
    (state_root checkpoint_ref : string) : ReadStatus ParsedCheckpointRecord :=
  let? content := read_file fs (checkpoint_record_path state_root checkpoint_ref)
    else NotFound "checkpoint not found in durable store" in
  if negb open_ok then
    Corrupt "checkpoint durable store could not open the checkpoint record" else
  match decode_checkpoint_record checkpoint_ref content with
  | Err detail => Corrupt detail
  | Ok record => Loaded record "checkpoint loaded from durable store"
  end.

(** ** The fields of a record *)

Fixpoint tag_fields (index : Z) (tags : list string) : list (string * string) :=
  match tags with
  | [] => []
  | tag :: rest => ("tag." +:+ to_string index, hex_encode tag) :: tag_fields (index + 1) rest
  end.

Definition entry_fields (prefix : string) (entry : BudgetSnapshotEntry)
    : list (string * string) :=
  [(prefix +:+ "type", to_string (Z.of_nat (budget_type_index (bse_budget_type entry))));
   (prefix +:+ "current", to_string (bse_current entry));
   (prefix +:+ "max", to_string (bse_max entry));
   (prefix +:+ "remaining", to_string (bse_remaining entry))]
  ++ optional_field (prefix +:+ "reject_reason") hex_encode (bse_reject_reason entry).

Fixpoint entries_fields (index : Z) (entries : list BudgetSnapshotEntry)
    : list (string * string) :=
  match entries with
  | [] => []
  | entry :: rest =>
      entry_fields (budget_entry_prefix index) entry ++ entries_fields (index + 1) rest
  end.

Definition head_fields (cp : Checkpoint) : list (string * string) :=
  [("checkpoint_id", hex_encode (default "" (cp_checkpoint_id cp)));
   ("state", to_string (checkpoint_state_value
      (default CheckpointState.Unspecified (cp_state cp))));
   ("step_id", hex_encode (default "" (cp_step_id cp)));
   ("working_memory_snapshot", hex_encode (default "" (cp_working_memory_snapshot cp)));
   ("pending_action", hex_encode (default "" (cp_pending_action cp)))]
  ++ optional_field "request_id" hex_encode (cp_request_id cp)
  ++ optional_field "goal_id" hex_encode (cp_goal_id cp)
  ++ optional_field "belief_state_ref" hex_encode (cp_belief_state_ref cp)
  ++ optional_field "retry_count" to_string (cp_retry_count cp)
  ++ optional_field "created_at" to_string (cp_created_at cp)
  ++ [("tag_count", to_string (Z.of_nat (length (default [] (cp_tags cp)))))].

Definition snapshot_fields (snapshot : option BudgetSnapshot) : list (string * string) :=
  match snapshot with
  | None => [("budget_snapshot_present", to_string 0)]
  | Some snapshot =>
      [("budget_snapshot_present", to_string 1)]
      ++ optional_field "budget_snapshot.snapshot_at_ms" to_string (bs_snapshot_at_ms snapshot)
      ++ optional_field "budget_snapshot.overall_reject_reason" hex_encode
           (bs_overall_reject_reason snapshot)
      ++ [("budget_snapshot.entry_count", to_string (Z.of_nat (length (bs_entries snapshot))))]
      ++ entries_fields 0 (bs_entries snapshot)
  end.

Definition record_fields (record : ParsedCheckpointRecord) : list (string * string) :=
  head_fields (pcr_checkpoint record)
  ++ tag_fields 0 (default [] (cp_tags (pcr_checkpoint record)))
  ++ snapshot_fields (pcr_runtime_budget_snapshot record).

Lemma write_tags_append l index tags :
  write_tags (render l) index tags = render (l ++ tag_fields index tags).
Proof.
  revert l index. induction tags as [|tag tags IH]; intros l index; simpl.
  - by rewrite app_nil_r.
  - unfold write_encoded_field. rewrite write_field_append, IH, <-app_assoc. done.
Qed.

Lemma write_budget_entries_append l index entries :
  write_budget_entries (render l) index entries = render (l ++ entries_fields index entries).
Proof.
  revert l index. induction entries as [|entry entries IH]; intros l index.
  - simpl. by rewrite app_nil_r.
  - cbn [write_budget_entries entries_fields]. unfold write_integer_field.
    rewrite !write_field_append, write_optional_encoded_append, IH. f_equal.
    unfold entry_fields. by rewrite <-!app_assoc.
Qed.

Lemma checkpoint_record_output_render record :
  checkpoint_record_output (pcr_checkpoint record) (pcr_runtime_budget_snapshot record)
  = render (record_fields record).
Proof.
  unfold checkpoint_record_output, write_encoded_field, write_integer_field.
  rewrite (write_field_append [] : forall key v, write_field "" key v = render [(key, v)]).
  rewrite !write_field_append, !write_optional_encoded_append, !write_optional_integer_append,
    write_field_append, write_tags_append, write_field_append.
  unfold record_fields, head_fields, snapshot_fields.
  destruct (pcr_runtime_budget_snapshot record) as [snapshot|].
  - rewrite write_optional_integer_append, write_optional_encoded_append, write_field_append,
      write_budget_entries_append. f_equal. by rewrite <-!app_assoc.
  - f_equal. by rewrite <-!app_assoc.
Qed.

(** ** Looking fields up *)

Lemma tag_fields_family index tags :
  Forall (fun kv => is_Some (strip_prefix "tag." (fst kv))) (tag_fields index tags).
Proof.
  revert index. induction tags as [|tag tags IH]; intros index; cbn [tag_fields]; [by constructor|].
  constructor; [|apply IH]. cbn [fst]. rewrite strip_prefix_app. eauto.
Qed.

Lemma budget_entry_prefix_app index s :
  budget_entry_prefix index +:+ s = "budget_entry." +:+ to_string index +:+ String "." s.
Proof. unfold budget_entry_prefix. by rewrite !string_app_assoc. Qed.

Lemma entry_fields_keys (P : string * string -> Prop) prefix entry :
  (forall s v, P (prefix +:+ s, v)) -> Forall P (entry_fields prefix entry).
Proof.
  intros H. unfold entry_fields. apply Forall_app. split; [repeat constructor; apply H|].
  apply optional_field_forall. intros v. apply H.
Qed.

Lemma entries_fields_family index entries :
  Forall (fun kv => is_Some (strip_prefix "budget_entry." (fst kv))) (entries_fields index entries).
Proof.
  revert index. induction entries as [|entry entries IH]; intros index; cbn [entries_fields];
    [by constructor|].
  apply Forall_app. split; [|apply IH]. apply entry_fields_keys. intros s v. cbn [fst].
  rewrite budget_entry_prefix_app, strip_prefix_app. eauto.
Qed.

Lemma snapshot_fields_family snapshot :
  Forall (fun kv => is_Some (strip_prefix "budget_" (fst kv))) (snapshot_fields snapshot).
Proof.
  destruct snapshot as [snapshot|]; [|repeat constructor; eauto].
  unfold snapshot_fields. repeat (apply Forall_app; split);
    try (apply optional_field_forall; intros v; eexists; reflexivity);
    try (repeat constructor; eexists; reflexivity).
  eapply Forall_impl; [apply entries_fields_family|]. intros [k v] [r Hr]. cbn [fst] in *.
  apply strip_prefix_some in Hr. rewrite Hr. eexists. reflexivity.
Qed.

(** A literal key is looked up past the families of prefixed keys. *)
Ltac find_record_field :=
  unfold record_fields, head_fields;
  repeat first
    [ progress find_field
    | rewrite (assoc_outside "tag.") by (done || apply tag_fields_family)
    | rewrite (assoc_outside "budget_") by (done || apply snapshot_fields_family)
    | rewrite (assoc_outside "budget_entry.") by (done || apply entries_fields_family) ].

Lemma head_fields_plain p cp :
  Forall (fun key => strip_prefix p key = None)
    ["checkpoint_id"; "state"; "step_id"; "working_memory_snapshot"; "pending_action";
     "request_id"; "goal_id"; "belief_state_ref"; "retry_count"; "created_at"; "tag_count"] ->
  Forall (fun kv => strip_prefix p (fst kv) = None) (head_fields cp).
Proof.
  rewrite !Forall_cons. intros H. destruct_and! H. unfold head_fields.
  repeat (apply Forall_app; split); try (apply optional_field_forall; intros v; simpl; done);
    repeat constructor; simpl; done.
Qed.

Lemma assoc_tag_fields index tags n tag :
  0 <= index -> index + Z.of_nat (length tags) <= 2 ^ 32 -> tags !! n = Some tag ->
  assoc ("tag." +:+ to_string (index + Z.of_nat n)) (tag_fields index tags)
  = Some (hex_encode tag).
Proof.
  revert index n. induction tags as [|t tags IH]; intros index n Hi Hl Hn; [done|].
  cbn [tag_fields length] in *. destruct n as [|n].
  - simpl in Hn. injection Hn as ->. rewrite Z.add_0_r. apply assoc_cons_eq.
  - simpl in Hn. pose proof (lookup_lt_Some _ _ _ Hn) as Hlt.
    rewrite assoc_cons_ne.
    + replace (index + Z.of_nat (S n)) with (index + 1 + Z.of_nat n) by lia.
      apply IH; [lia|lia|done].
    + intros H%string_app_inj%to_string_inj; unfold in_u64; lia.
Qed.

Lemma assoc_tag_record record n tag :
  Z.of_nat (length (default [] (cp_tags (pcr_checkpoint record)))) < 2 ^ 32 ->
  default [] (cp_tags (pcr_checkpoint record)) !! n = Some tag ->
  assoc ("tag." +:+ to_string (0 + Z.of_nat n)) (record_fields record) = Some (hex_encode tag).
Proof.
  intros Hl Hn. unfold record_fields. rewrite !assoc_app.
  rewrite (assoc_family "tag." _ (head_fields _)).
  - by rewrite (assoc_tag_fields 0 _ n tag) by (done || lia).
  - rewrite strip_prefix_app. eauto.
  - apply head_fields_plain. repeat constructor.
Qed.

Lemma decode_tags_at l index tags :
  (forall n tag, tags !! n = Some tag ->
     assoc ("tag." +:+ to_string (index + Z.of_nat n)) l = Some (hex_encode tag)) ->
  decode_tags (fields_of l) index (length tags) = Ok tags.
Proof.
  revert index. induction tags as [|t tags IH]; intros index H; [done|]. cbn [decode_tags length].
  rewrite (decode_required_string_at _ _ _ t)
    by (rewrite <-(Z.add_0_r index); by apply (H 0%nat)). simpl.
  rewrite IH; [done|]. intros n tag Hn.
  replace (index + 1 + Z.of_nat n) with (index + Z.of_nat (S n)) by lia. by apply (H (S n)).
Qed.

(** *** Budget entries *)

Lemma assoc_entry_fields_other i j key entry :
  in_u64 i -> in_u64 j -> i <> j ->
  assoc (budget_entry_prefix i +:+ key) (entry_fields (budget_entry_prefix j) entry) = None.
Proof.
  intros Hi Hj Hne. apply (assoc_family (budget_entry_prefix i)).
  - rewrite strip_prefix_app. eauto.
  - apply entry_fields_keys. intros s v. cbn [fst].
    destruct (strip_prefix _ _) as [r|] eqn:E; [|done]. apply strip_prefix_some in E.
    rewrite !budget_entry_prefix_app in E. apply string_app_inj in E.
    apply separator_inj in E as [E _]; [|apply to_string_no_dot..].
    by apply to_string_inj in E.
Qed.

Lemma assoc_entries_later index i entries key :
  0 <= index < i -> i + Z.of_nat (length entries) <= 2 ^ 32 ->
  assoc (budget_entry_prefix index +:+ key) (entries_fields i entries) = None.
Proof.
  revert i. induction entries as [|e entries IH]; intros i Hlt Hl; [done|].
  cbn [entries_fields length] in *. rewrite assoc_app.
  rewrite assoc_entry_fields_other by (unfold in_u64; lia). apply IH; lia.
Qed.

Lemma assoc_entries_fields index entries n entry key :
  0 <= index -> index + Z.of_nat (length entries) <= 2 ^ 32 -> entries !! n = Some entry ->
  assoc (budget_entry_prefix (index + Z.of_nat n) +:+ key) (entries_fields index entries)
  = assoc (budget_entry_prefix (index + Z.of_nat n) +:+ key)
      (entry_fields (budget_entry_prefix (index + Z.of_nat n)) entry).
Proof.
  revert index n. induction entries as [|e entries IH]; intros index n Hi Hl Hn; [done|].
  cbn [entries_fields length] in *. rewrite assoc_app. destruct n as [|n].
  - simpl in Hn. injection Hn as ->. rewrite Z.add_0_r. case_match; [done|].
    apply assoc_entries_later; lia.
  - simpl in Hn. pose proof (lookup_lt_Some _ _ _ Hn) as Hlt.
    rewrite assoc_entry_fields_other by (unfold in_u64; lia).
    replace (index + Z.of_nat (S n)) with (index + 1 + Z.of_nat n) by lia.
    apply IH; [lia|lia|done].
Qed.

Definition entry_encodable (entry : BudgetSnapshotEntry) : Prop :=
  in_u64 (bse_current entry) /\ in_u64 (bse_max entry) /\ in_s64 (bse_remaining entry).

Lemma parse_budget_type_index t : parse_budget_type (Z.of_nat (budget_type_index t)) = Some t.
Proof. by destruct t. Qed.

(** A field of an entry, past the fields before it. *)
Ltac find_entry_field H Hne :=
  rewrite H; unfold entry_fields; simpl app;
  rewrite ?assoc_cons_ne by (by apply Hne); by find_field.

Lemma decode_budget_entry_at l index entry :
  entry_encodable entry ->
  (forall key, assoc (budget_entry_prefix index +:+ key) l
          = assoc (budget_entry_prefix index +:+ key)
              (entry_fields (budget_entry_prefix index) entry)) ->
  decode_budget_entry (fields_of l) index = Ok entry.
Proof.
  intros (Hc & Hm & Hr) H. unfold decode_budget_entry. set (p := budget_entry_prefix index) in *.
  assert (forall k1 k2 : string, k1 <> k2 -> p +:+ k1 <> p +:+ k2) as Hne
    by (intros k1 k2 Hk E%string_app_inj; done).
  rewrite (decode_required_integer_at _ _ Uint32 _
    (Z.of_nat (budget_type_index (bse_budget_type entry))));
    [|find_entry_field H Hne|by destruct (bse_budget_type entry)].
  rewrite (decode_required_integer_at _ _ Uint64 (p +:+ "current") (bse_current entry));
    [|find_entry_field H Hne|done].
  rewrite (decode_required_integer_at _ _ Uint64 (p +:+ "max") (bse_max entry));
    [|find_entry_field H Hne|done].
  rewrite (decode_required_integer_at _ _ Int64 (p +:+ "remaining") (bse_remaining entry));
    [|find_entry_field H Hne|done].
  rewrite (decode_optional_string_at _ _ (p +:+ "reject_reason") (bse_reject_reason entry));
    [|find_entry_field H Hne].
  simpl. rewrite parse_budget_type_index. by destruct entry.
Qed.

Lemma decode_budget_entries_at l index entries :
  0 <= index -> index + Z.of_nat (length entries) <= 2 ^ 32 ->
  Forall entry_encodable entries ->
  (forall i key, index <= i < 2 ^ 32 ->
     assoc (budget_entry_prefix i +:+ key) l
     = assoc (budget_entry_prefix i +:+ key) (entries_fields index entries)) ->
  decode_budget_entries (fields_of l) index (length entries) = Ok entries.
Proof.
  intros Hi Hl He H. revert index Hi Hl H.
  induction He as [|entry entries Hentry He IH]; intros index Hi Hl H; [done|].
  cbn [decode_budget_entries length] in *.
  rewrite (decode_budget_entry_at l index entry); [|done|].
  - simpl. rewrite IH; [done|lia|lia|]. intros i key Hir. rewrite H by lia.
    cbn [entries_fields]. rewrite assoc_app.
    by rewrite assoc_entry_fields_other by (unfold in_u64; lia).
  - intros key. rewrite H by lia. rewrite <-(Z.add_0_r index) at 1 3 4.
    by apply (assoc_entries_fields index (entry :: entries) 0 entry key).
Qed.

(** *** Records the format carries *)

Definition snapshot_encodable (snapshot : BudgetSnapshot) : Prop :=
  (forall t, bs_snapshot_at_ms snapshot = Some t -> in_u64 t) /\
  Z.of_nat (length (bs_entries snapshot)) < 2 ^ 32 /\
  Forall entry_encodable (bs_entries snapshot).

(** Machine integers in range, the five required members present, a tag list
    that is not present-but-empty (it would be read back as absent), and fewer
    than 2{^32} tags and entries. *)
Definition checkpoint_encodable (record : ParsedCheckpointRecord) : Prop :=
  let cp := pcr_checkpoint record in
  has_non_empty_value (cp_checkpoint_id cp) = true /\
  (exists s, cp_state cp = Some s /\ in_s32 (checkpoint_state_value s) /\
     checkpoint_state_of_value (checkpoint_state_value s) = s) /\
  is_Some (cp_step_id cp) /\ is_Some (cp_working_memory_snapshot cp) /\
  is_Some (cp_pending_action cp) /\
  (forall n, cp_retry_count cp = Some n -> in_u32 n) /\
  (forall t, cp_created_at cp = Some t -> in_s64 t) /\
  cp_tags cp <> Some [] /\
  Z.of_nat (length (default [] (cp_tags cp))) < 2 ^ 32 /\
  (forall snapshot, pcr_runtime_budget_snapshot record = Some snapshot -> snapshot_encodable snapshot).

Lemma tag_fields_ok index tags : Forall field_ok (tag_fields index tags).
Proof.
  revert index. induction tags as [|tag tags IH]; intros index; cbn [tag_fields]; [by constructor|].
  constructor; [|apply IH]. apply word_field_ok; [|apply hex_encode_word].
  by rewrite !all_chars_app, to_string_not_equals, to_string_not_newline.
Qed.

Lemma budget_entry_key_ok index s :
  all_chars not_equals s && all_chars not_newline s = true ->
  all_chars not_equals (budget_entry_prefix index +:+ s)
  && all_chars not_newline (budget_entry_prefix index +:+ s) = true.
Proof.
  intros [H1 H2]%andb_true_iff. rewrite budget_entry_prefix_app, !all_chars_app.
  cbn [all_chars]. by rewrite H1, H2, to_string_not_equals, to_string_not_newline.
Qed.

Lemma entries_fields_ok index entries : Forall field_ok (entries_fields index entries).
Proof.
  revert index. induction entries as [|entry entries IH]; intros index; cbn [entries_fields];
    [by constructor|].
  apply Forall_app. split; [|apply IH]. unfold entry_fields. apply Forall_app. split.
  - repeat (constructor;
      [apply word_field_ok; [by apply budget_entry_key_ok|apply to_string_word]|]). constructor.
  - apply optional_field_ok; [by apply budget_entry_key_ok|apply hex_encode_word].
Qed.

Ltac fields_ok :=
  repeat first
    [ apply Forall_nil; exact I
    | apply Forall_app; split
    | apply Forall_cons; split
    | apply optional_field_ok; [done|first [apply hex_encode_word | apply to_string_word]]
    | apply word_field_ok; [done|first [apply hex_encode_word | apply to_string_word]]
    | apply tag_fields_ok | apply entries_fields_ok ].

Lemma record_fields_ok record : Forall field_ok (record_fields record).
Proof.
  unfold record_fields, head_fields, snapshot_fields.
  destruct (pcr_runtime_budget_snapshot record); fields_ok.
Qed.

Lemma entries_in_record record snapshot i key :
  pcr_runtime_budget_snapshot record = Some snapshot ->
  assoc (budget_entry_prefix i +:+ key) (record_fields record)
  = assoc (budget_entry_prefix i +:+ key) (entries_fields 0 (bs_entries snapshot)).
Proof.
  intros Hs. unfold record_fields, snapshot_fields. rewrite Hs, !assoc_app.
  assert (is_Some (strip_prefix "budget_entry." (budget_entry_prefix i +:+ key))) as Hfam
    by (rewrite budget_entry_prefix_app, strip_prefix_app; eauto).
  rewrite (assoc_family "budget_entry." _ (head_fields _)) by
    (done || (apply head_fields_plain; repeat constructor)).
  rewrite (assoc_outside "tag.") by (apply tag_fields_family || (by rewrite budget_entry_prefix_app)).
  rewrite !(assoc_family "budget_entry." _ (_ :: _)) by (done || (repeat constructor)).
  by rewrite !(assoc_family "budget_entry." _ (optional_field _ _ _)) by
    (done || (by apply optional_field_forall)).
Qed.

Lemma decode_budget_snapshot_at record :
  (forall snapshot, pcr_runtime_budget_snapshot record = Some snapshot -> snapshot_encodable snapshot) ->
  decode_budget_snapshot (fields_of (record_fields record))
  = Ok (pcr_runtime_budget_snapshot record).
Proof.
  intros He. unfold decode_budget_snapshot.
  destruct (pcr_runtime_budget_snapshot record) as [snapshot|] eqn:Hs.
  - destruct (He _ eq_refl) as (Hat & Hlen & Hentries).
    rewrite (decode_required_integer_at _ _ Uint32 _ 1) by
      (done || (find_record_field; rewrite Hs; unfold snapshot_fields; by find_record_field)).
    cbn [result_bind negb Z.eqb Pos.eqb].
    rewrite (decode_optional_integer_at _ _ Uint64 _ (bs_snapshot_at_ms snapshot)) by
      (done || (find_record_field; rewrite Hs; unfold snapshot_fields; find_record_field; by destruct (bs_snapshot_at_ms snapshot))).
    cbn [result_bind].
    rewrite (decode_optional_string_at _ _ _ (bs_overall_reject_reason snapshot)) by
      (find_record_field; rewrite Hs; unfold snapshot_fields; find_record_field; by destruct (bs_overall_reject_reason snapshot)).
    cbn [result_bind].
    rewrite (decode_required_integer_at _ _ Uint32 _ (Z.of_nat (length (bs_entries snapshot)))) by
      (first [done | simpl; unfold in_u32; lia | find_record_field; rewrite Hs; unfold snapshot_fields; by find_record_field]).
    cbn [result_bind]. rewrite Nat2Z.id, decode_budget_entries_at; [by destruct snapshot|lia..|done|].
    intros i key _. by apply entries_in_record.
  - rewrite (decode_required_integer_at _ _ Uint32 _ 0) by
      (done || (find_record_field; rewrite Hs; unfold snapshot_fields; by find_record_field)). done.
Qed.

Lemma decode_checkpoint_record_output record :
  checkpoint_encodable record ->
  decode_checkpoint_record (default "" (cp_checkpoint_id (pcr_checkpoint record)))
    (checkpoint_record_output (pcr_checkpoint record) (pcr_runtime_budget_snapshot record))
  = Ok record.
Proof.
  destruct record as [[id st step wms pend req goal belief retry created tags] snap].
  intros (Hid & (s & Hs & Hs32 & Hcanon) & [step' Hstep] & [wms' Hwms] & [pend' Hpend] &
    Hretry & Hcreated & Htags & Hlen & Hsnap); simpl in *. subst st step wms pend.
  apply has_non_empty_value_true in Hid as (id' & -> & Hne).
  set (record := {| pcr_checkpoint := _; pcr_runtime_budget_snapshot := snap |}).
  change (checkpoint_record_output _ snap) with
    (checkpoint_record_output (pcr_checkpoint record) (pcr_runtime_budget_snapshot record)).
  rewrite checkpoint_record_output_render. unfold decode_checkpoint_record.
  rewrite parse_render by apply record_fields_ok.
  cbn [result_bind].
  rewrite (decode_required_string_at _ _ _ id') by by find_record_field.
  cbn [result_bind]. rewrite (decode_required_string_at _ _ _ step') by by find_record_field.
  cbn [result_bind]. rewrite (decode_required_string_at _ _ _ wms') by by find_record_field.
  cbn [result_bind]. rewrite (decode_required_string_at _ _ _ pend') by by find_record_field.
  cbn [result_bind].
  rewrite (decode_optional_string_at _ _ _ req) by (find_record_field; by destruct req).
  cbn [result_bind].
  rewrite (decode_optional_string_at _ _ _ goal) by (find_record_field; by destruct goal).
  cbn [result_bind].
  rewrite (decode_optional_string_at _ _ _ belief)
    by (find_record_field; by destruct belief).
  cbn [result_bind].
  rewrite (decode_optional_integer_at _ _ Uint32 _ retry)
    by (done || (find_record_field; by destruct retry)).
  cbn [result_bind].
  rewrite (decode_optional_integer_at _ _ Int64 _ created)
    by (done || (find_record_field; by destruct created)).
  cbn [result_bind].
  rewrite (decode_signed_as_uint32_at _ _ _ (checkpoint_state_value s))
    by (first [by find_record_field | unfold in_s32, in_s64 in *; lia]).
  cbn [result_bind]. set (all_tags := default [] tags) in *.
  rewrite (decode_required_integer_at _ _ Uint32 _ (Z.of_nat (length all_tags)))
    by (first [find_record_field; done | simpl; unfold in_u32; lia]).
  cbn [result_bind].
  assert (decode_tags (fields_of (record_fields record)) 0 (length all_tags) = Ok all_tags) as Htag
    by (apply decode_tags_at; intros n tag; by apply (assoc_tag_record record)).
  rewrite Nat2Z.id, Htag. clear Htag. cbn [result_bind].
  rewrite decode_budget_snapshot_at by done. rewrite s32_u32_u64 by done. rewrite Hcanon.
  destruct tags as [[|t tags]|]; simpl; [done|..]; by rewrite bool_decide_true.
Qed.

(** ** The checkpoint store *)

#[export] Instance checkpoint_store : DurableStore ParsedCheckpointRecord := {
  ds_directory := "checkpoints";
  ds_ref record := default "" (cp_checkpoint_id (pcr_checkpoint record));
  ds_encode record :=
    checkpoint_record_output (pcr_checkpoint record) (pcr_runtime_budget_snapshot record);
  ds_encodable := checkpoint_encodable;
  ds_write io fs root record :=
    write_durable_checkpoint_record io fs root (pcr_checkpoint record)
      (pcr_runtime_budget_snapshot record);
  ds_read := read_durable_checkpoint_record;
}.

#[export] Instance checkpoint_store_laws : DurableStoreLaws ParsedCheckpointRecord.
Proof.
  split.
  - intros io fs root record Hne. cbn [ds_write ds_ref ds_encode ds_directory checkpoint_store] in *.
    unfold write_durable_checkpoint_record, checkpoint_record_path.
    destruct (cp_checkpoint_id _) as [id|]; simpl in *; [|done].
    apply is_empty_false in Hne. rewrite Hne.
    destruct (publish_record _ _ _ _) as [fs' []]; simpl; split; done.
  - intros io fs fs' root ref Hf. cbn [ds_read checkpoint_store ds_directory] in *.
    unfold read_durable_checkpoint_record, checkpoint_record_path. by rewrite Hf.
  - intros fs root record He Hf. cbn [ds_read ds_ref ds_encode ds_directory ds_encodable checkpoint_store] in *.
    unfold read_durable_checkpoint_record, checkpoint_record_path. rewrite Hf. simpl.
    by rewrite decode_checkpoint_record_output.
Qed.
