(* ===== verification/CheckpointManager.v ===== *)
(** * CheckpointManager

    runtime/src/checkpoint/CheckpointManager.{h,cpp}: building, saving, loading
    and planning the resumption of checkpoints. Each operation holds the lock
    while it uses the maps, so it is a function of the manager's state and, where
    it touches the disk, of the file system and the operating system's answers.
    Logging is left out. *)

From S2P Require Import Prelude ErrorCodes CheckpointContracts Fsm SessionTypes.
From S2P Require Import Checkpoint DurableStore CheckpointStore.

(** ** State and results *)

Record StoredCheckpointRecord := {
  scr_checkpoint : Checkpoint;
  scr_runtime_budget_snapshot : option BudgetSnapshot;
}.

Record CheckpointManager := {
  cm_pending_runtime_budget_snapshots : gmap string (option BudgetSnapshot);
  cm_stored_checkpoints : gmap string StoredCheckpointRecord;
  cm_durable_state_root : option string;
}.

Definition new_checkpoint_manager : CheckpointManager :=
  {| cm_pending_runtime_budget_snapshots := ∅; cm_stored_checkpoints := ∅;
     cm_durable_state_root := None |}.

Record CheckpointPersistResult := {
  cpr_persisted : bool;
  cpr_checkpoint_ref : option string;
  cpr_error_code : option RuntimeErrorCode;
  cpr_detail : string;
}.

Record CheckpointLoadResult := {
  clr_checkpoint : option Checkpoint;
  clr_report : CheckpointConsistencyReport;
  clr_error_code : option RuntimeErrorCode;
  clr_detail : string;
  clr_runtime_budget_snapshot : option BudgetSnapshot;
}.

Definition loaded (result : CheckpointLoadResult) : bool :=
  bool_decide (is_Some (clr_checkpoint result)) && ccr_consistent (clr_report result)
  && bool_decide (clr_error_code result = None).

Definition set_pending (pending : gmap string (option BudgetSnapshot)) (m : CheckpointManager)
    : CheckpointManager :=
  {| cm_pending_runtime_budget_snapshots := pending;
     cm_stored_checkpoints := cm_stored_checkpoints m;
     cm_durable_state_root := cm_durable_state_root m |}.

Definition set_stored (stored : gmap string StoredCheckpointRecord) (m : CheckpointManager)
    : CheckpointManager :=
  {| cm_pending_runtime_budget_snapshots := cm_pending_runtime_budget_snapshots m;
     cm_stored_checkpoints := stored;
     cm_durable_state_root := cm_durable_state_root m |}.

(** ** Operations *)

Definition set_durable_state_root (state_root : option string) (m : CheckpointManager)
    : CheckpointManager :=
  {| cm_pending_runtime_budget_snapshots := cm_pending_runtime_budget_snapshots m;
     cm_stored_checkpoints := cm_stored_checkpoints m;
     cm_durable_state_root := if has_non_empty_value state_root then state_root else None |}.

Definition build_checkpoint (m : CheckpointManager) (request : CheckpointBuildRequest)
    : CheckpointManager * CheckpointBuildResult :=
  if negb (to_accepted (cbr_transition_outcome request)) then
    (m, {| cbres_checkpoint := None;
           cbres_report := reject_checkpoint CheckpointConsistencyIssue.TransitionRejected
             "checkpoint build requires an accepted transition outcome";
           cbres_runtime_budget_snapshot := None |})
  else
  let? checkpoint_state := resolve_checkpoint_state (cbr_transition_outcome request)
  else
    (m, {| cbres_checkpoint := None;
           cbres_report := reject_checkpoint CheckpointConsistencyIssue.InvalidCheckpointState
             ("resolved runtime state cannot be folded into a compatible " +:+
              "checkpoint state");
           cbres_runtime_budget_snapshot := None |})
  in
  let checkpoint := checkpoint_of_request request checkpoint_state in
  let report := evaluate_checkpoint_consistency checkpoint in
  let m :=
    if ccr_consistent report then
      set_pending (<[cbr_checkpoint_id request := cbr_runtime_budget_snapshot request]>
                     (cm_pending_runtime_budget_snapshots m)) m
    else m in
  (m, {| cbres_checkpoint := if ccr_consistent report then Some checkpoint else None;
         cbres_report := report;
         cbres_runtime_budget_snapshot := cbr_runtime_budget_snapshot request |}).

Definition save_failed (detail : string) : CheckpointPersistResult :=
  {| cpr_persisted := false; cpr_checkpoint_ref := None;
     cpr_error_code := Some RT_E_411_CHECKPOINT_SAVE_FAILED; cpr_detail := detail |}.

Definition saved (checkpoint : Checkpoint) (detail : string) : CheckpointPersistResult :=
  {| cpr_persisted := true; cpr_checkpoint_ref := cp_checkpoint_id checkpoint;
     cpr_error_code := None; cpr_detail := detail |}.

(** [save(checkpoint, runtime_budget_snapshot)]. A consistent checkpoint has an
    id, so the [default] of [checkpoint_id.value()] is never used. *)
Definition save_with_snapshot (io : IoOutcome) (fs : FileSystem) (m : CheckpointManager)
    (checkpoint : Checkpoint) (runtime_budget_snapshot : option BudgetSnapshot)
    : FileSystem * CheckpointManager * CheckpointPersistResult :=
  let report := evaluate_checkpoint_consistency checkpoint in
  if negb (ccr_consistent report) then (fs, m, save_failed (ccr_detail report)) else
  let checkpoint_id := default "" (cp_checkpoint_id checkpoint) in
  let m := set_stored
    (<[checkpoint_id := {| scr_checkpoint := checkpoint;
                           scr_runtime_budget_snapshot := runtime_budget_snapshot |}]>
       (cm_stored_checkpoints m)) m in
  let m := set_pending (delete checkpoint_id (cm_pending_runtime_budget_snapshots m)) m in
  match cm_durable_state_root m with
  | None => (fs, m, saved checkpoint "checkpoint persisted in memory store")
  | Some state_root =>
      let '(fs, written, persist_detail) :=
        write_durable_checkpoint_record io fs state_root checkpoint runtime_budget_snapshot in
      if negb written then (fs, m, save_failed persist_detail)
      else (fs, m, saved checkpoint persist_detail)
  end.

(** [save(checkpoint)]: the snapshot [build_checkpoint] left pending goes with it. *)
Definition save (io : IoOutcome) (fs : FileSystem) (m : CheckpointManager)
    (checkpoint : Checkpoint) : FileSystem * CheckpointManager * CheckpointPersistResult :=
  let '(m, runtime_budget_snapshot) :=
    match cp_checkpoint_id checkpoint with
    | None => (m, None)
    | Some checkpoint_id =>
        match cm_pending_runtime_budget_snapshots m !! checkpoint_id with
        | None => (m, None)
        | Some snapshot =>
            (set_pending (delete checkpoint_id (cm_pending_runtime_budget_snapshots m)) m,
             snapshot)
        end
    end in
  save_with_snapshot io fs m checkpoint runtime_budget_snapshot.

Definition load_failed (issue : CheckpointConsistencyIssue) (detail : string)
    : CheckpointLoadResult :=
  {| clr_checkpoint := None; clr_report := reject_checkpoint issue detail;
     clr_error_code := Some RT_E_410_CHECKPOINT_CORRUPT; clr_detail := detail;
     clr_runtime_budget_snapshot := None |}.

(** The consistency check of a checkpoint found in memory or on disk. *)
Definition load_found (checkpoint : Checkpoint) (runtime_budget_snapshot : option BudgetSnapshot)
    (load_detail : string) : CheckpointLoadResult :=
  let report := evaluate_checkpoint_consistency checkpoint in
  {| clr_checkpoint := if ccr_consistent report then Some checkpoint else None;
     clr_report := report;
     clr_error_code := if ccr_consistent report then None else ccr_error_code report;
     clr_detail := if ccr_consistent report then load_detail else ccr_detail report;
     clr_runtime_budget_snapshot :=
       if ccr_consistent report then runtime_budget_snapshot else None |}.

Definition load (open_ok : bool) (fs : FileSystem) (m : CheckpointManager)
    (checkpoint_ref : string) : CheckpointManager * CheckpointLoadResult :=
  match cm_stored_checkpoints m !! checkpoint_ref with
  | Some stored =>
      (m, load_found (scr_checkpoint stored) (scr_runtime_budget_snapshot stored)
            "checkpoint loaded from memory store")
  | None =>
      match cm_durable_state_root m with
      | None =>
          (m, load_failed CheckpointConsistencyIssue.MissingCheckpointId
                "checkpoint not found in memory store")
      | Some state_root =>
          match read_durable_checkpoint_record open_ok fs state_root checkpoint_ref with
          | NotFound detail =>
              (m, load_failed CheckpointConsistencyIssue.MissingCheckpointId detail)
          | Corrupt detail =>
              (m, load_failed CheckpointConsistencyIssue.InvalidCheckpointState detail)
          | Loaded record detail =>
              let checkpoint := pcr_checkpoint record in
              let snapshot := pcr_runtime_budget_snapshot record in
              (set_stored
                 (<[checkpoint_ref := {| scr_checkpoint := checkpoint;
                                         scr_runtime_budget_snapshot := snapshot |}]>
                    (cm_stored_checkpoints m)) m,
               load_found checkpoint snapshot detail)
          end
      end
  end.

Definition validate (checkpoint : Checkpoint) : CheckpointConsistencyReport :=
  evaluate_checkpoint_consistency checkpoint.

Definition make_resume_plan (checkpoint : Checkpoint) : ResumePlanDecision :=
  synthesize_resume_plan checkpoint.

(** [make_resume_plan(checkpoint, resume_seed)] *)
Definition make_resume_plan_with_seed (checkpoint : Checkpoint) (resume_seed : ResumeSeed)
    : ResumePlanDecision :=
  let invalid detail :=
    make_rejected_resume_plan ResumePlanViolation.CheckpointInvalid detail None in
  if negb (seed_has_minimum_requirements resume_seed) then
    invalid "resume seed must include checkpoint_ref, resume_token and resume_reason" else
  let base_decision := synthesize_resume_plan checkpoint in
  if negb (rpd_resumable base_decision) then base_decision else
  let? plan := rpd_plan base_decision else base_decision in
  if negb (bool_decide (rp_checkpoint_ref plan = rs_checkpoint_ref resume_seed)) then
    invalid "resume seed checkpoint_ref does not match checkpoint anchor" else
  if bool_decide (is_Some (cp_request_id checkpoint))
     && negb (bool_decide (cp_request_id checkpoint = Some (rs_request_id resume_seed))) then
    invalid "resume seed request_id does not match checkpoint request_id" else
  make_resume_plan_decision
    {| rp_checkpoint_ref := rp_checkpoint_ref plan;
       rp_target_state := rp_target_state plan;
       rp_checkpoint_state := rp_checkpoint_state plan;
       rp_resume_token := rs_resume_token resume_seed;
       rp_resume_reason := rs_resume_reason resume_seed;
       rp_pending_action := rp_pending_action plan;
       rp_policy_snapshot_ref := rs_policy_snapshot_ref resume_seed;
       rp_requires_operator_intervention := rp_requires_operator_intervention plan |}
    "checkpoint is resumable with session resume seed".

Definition seed_for_test (io : IoOutcome) (fs : FileSystem) (m : CheckpointManager)
    (checkpoint : Checkpoint) (runtime_budget_snapshot : option BudgetSnapshot)
    : FileSystem * CheckpointManager :=
  let? checkpoint_id := cp_checkpoint_id checkpoint else (fs, m) in
  if is_empty checkpoint_id then (fs, m) else
  let m := set_stored
    (<[checkpoint_id := {| scr_checkpoint := checkpoint;
                           scr_runtime_budget_snapshot := runtime_budget_snapshot |}]>
       (cm_stored_checkpoints m)) m in
  match cm_durable_state_root m with
  | None => (fs, m)
  | Some state_root =>
      let '(fs, _, _) :=
        write_durable_checkpoint_record io fs state_root checkpoint runtime_budget_snapshot in
      (fs, m)
  end.

(** ** Building *)

(** What a caller must supply for a checkpoint to be built of a transition that
    writes one. *)
Definition request_complete (request : CheckpointBuildRequest) : Prop :=
  cbr_checkpoint_id request <> "" /\ cbr_step_id request <> "" /\
  cbr_working_memory_snapshot request <> "" /\
  present_but_empty (cbr_request_id request) = false /\
  present_but_empty (cbr_goal_id request) = false /\
  present_but_empty (cbr_belief_state_ref request) = false /\
  (forall t, cbr_created_at_ms request = Some t -> 0 < t) /\
  existsb is_empty (cbr_tags request) = false /\ tags_compatible (cbr_tags request) /\
  (ch_pending_action_required (to_checkpoint_hint (cbr_transition_outcome request)) = true ->
   has_non_empty_value (cbr_pending_action request) = true).

Lemma built_checkpoint_consistent request c :
  request_complete request -> c <> CheckpointState.Unspecified ->
  is_waiting_checkpoint_state c
    = ch_pending_action_required (to_checkpoint_hint (cbr_transition_outcome request)) ->
  consistent_checkpoint (checkpoint_of_request request c).
Proof.
  intros (Hid & Hstep & Hwms & Hreq & Hgoal & Hbelief & Hat & Htags & Hcompat & Hpend) Hc Hw.
  destruct (with_version_tags_non_empty _ Htags Hcompat) as [Hne Hnil].
  split; [|split].
  - unfold fields_consistent. simpl. rewrite !negb_true_iff, !is_empty_false.
    split_and!; try done.
    + by intros [= ?].
    + by intros ? [= <-].
  - exists c, (default "" (cbr_pending_action request)). split_and!; try done. simpl.
    rewrite Hw. intros H%Hpend. apply has_non_empty_value_true in H as (a & -> & Ha). done.
  - exact (with_version_tags_ok _ Hcompat).
Qed.

(** The state machine and the checkpoint manager agree: of every accepted
    transition whose hint writes a checkpoint, a complete request builds one. It
    has the state the hint names, is consistent, and the budget snapshot of the
    request waits for its save. *)
Theorem written_transition_builds m s step request :
  cbr_transition_outcome request = snd (transition s step) ->
  to_accepted (snd (transition s step)) = true ->
  writes_checkpoint (to_checkpoint_hint (snd (transition s step))) = true ->
  request_complete request ->
  let '(m', result) := build_checkpoint m request in
  built result = true /\
  (exists cp, cbres_checkpoint result = Some cp /\
     cp_checkpoint_id cp = Some (cbr_checkpoint_id request) /\
     cp_state cp = ch_checkpoint_state (to_checkpoint_hint (snd (transition s step)))) /\
  cm_pending_runtime_budget_snapshots m' !! cbr_checkpoint_id request
    = Some (cbr_runtime_budget_snapshot request).
Proof.
  intros Hout Hacc Hwrite Hreq.
  destruct (written_hint_resolves s step Hacc Hwrite) as (c & Hres & Hc & Hhint & Hwait).
  rewrite <-Hout in *. unfold build_checkpoint. rewrite Hacc, Hres. cbn [negb].
  pose proof (built_checkpoint_consistent request c Hreq Hc Hwait) as Hcons.
  apply consistent_iff in Hcons. rewrite Hcons. unfold built. simpl.
  rewrite Hcons. split; [done|]. split; [by eexists|]. by rewrite lookup_insert_eq.
Qed.

(** ** Saving and loading *)

(** The values of the C++ types, where the format is concerned. *)
Definition representable (cp : Checkpoint) (snapshot : option BudgetSnapshot) : Prop :=
  (forall s, cp_state cp = Some s -> in_s32 (checkpoint_state_value s) /\
     checkpoint_state_of_value (checkpoint_state_value s) = s) /\
  (forall n, cp_retry_count cp = Some n -> in_u32 n) /\
  (forall t, cp_created_at cp = Some t -> in_s64 t) /\
  Z.of_nat (length (default [] (cp_tags cp))) < 2 ^ 32 /\
  (forall b, snapshot = Some b -> snapshot_encodable b).

Lemma consistent_encodable cp snapshot :
  ccr_consistent (evaluate_checkpoint_consistency cp) = true -> representable cp snapshot ->
  checkpoint_encodable {| pcr_checkpoint := cp; pcr_runtime_budget_snapshot := snapshot |}.
Proof.
  intros ((Hid & Hstep & Hwms & _ & _ & _ & _ & Htags & _) & (s & a & Hs & Ha & _) & _)%consistent_iff
    (Hst & Hretry & Hat & Hlen & Hsnap).
  apply has_non_empty_value_true in Hstep as (x & Hx & _), Hwms as (y & Hy & _).
  unfold checkpoint_encodable. cbn [pcr_checkpoint pcr_runtime_budget_snapshot].
  rewrite Hx, Hy, Ha. split_and!; eauto.
Qed.

Definition restarted (root : string) : CheckpointManager :=
  set_durable_state_root (Some root) new_checkpoint_manager.

Lemma load_restarted open_ok fs root ref :
  root <> "" ->
  snd (load open_ok fs (restarted root) ref) =
  match ds_read open_ok fs root ref with
  | NotFound detail => load_failed CheckpointConsistencyIssue.MissingCheckpointId detail
  | Corrupt detail => load_failed CheckpointConsistencyIssue.InvalidCheckpointState detail
  | Loaded record detail =>
      load_found (pcr_checkpoint record) (pcr_runtime_budget_snapshot record) detail
  end.
Proof.
  intros Hroot%is_empty_false. unfold load, restarted, set_durable_state_root.
  cbn [has_non_empty_value new_checkpoint_manager cm_stored_checkpoints cm_durable_state_root].
  rewrite lookup_empty, Hroot. cbn [negb ds_read checkpoint_store].
  by destruct (read_durable_checkpoint_record _ _ _ _).
Qed.

Lemma load_found_consistent cp snapshot detail :
  ccr_consistent (evaluate_checkpoint_consistency cp) = true ->
  let result := load_found cp snapshot detail in
  loaded result = true /\ clr_checkpoint result = Some cp /\
  clr_runtime_budget_snapshot result = snapshot.
Proof. intros H. unfold loaded, load_found. simpl. rewrite H. done. Qed.

Lemma load_restarted_record open_ok fs root ref cp snapshot :
  root <> "" -> ccr_consistent (evaluate_checkpoint_consistency cp) = true ->
  loaded_record (ds_read open_ok fs root ref)
    = Some {| pcr_checkpoint := cp; pcr_runtime_budget_snapshot := snapshot |} ->
  let result := snd (load open_ok fs (restarted root) ref) in
  loaded result = true /\ clr_checkpoint result = Some cp /\
  clr_runtime_budget_snapshot result = snapshot.
Proof.
  intros Hroot Hc Hread. cbv zeta. rewrite load_restarted by done.
  destruct (ds_read open_ok fs root ref) as [|?|record detail]; [done..|]. simpl in Hread.
  injection Hread as ->. by apply load_found_consistent.
Qed.

Lemma consistent_id cp :
  ccr_consistent (evaluate_checkpoint_consistency cp) = true ->
  exists id, cp_checkpoint_id cp = Some id /\ id <> "".
Proof. intros ((Hid & _) & _)%consistent_iff. by apply has_non_empty_value_true. Qed.

(** The disk side of [save_with_snapshot], through the store's interface. *)
Lemma save_consistent io fs m cp snapshot root :
  ccr_consistent (evaluate_checkpoint_consistency cp) = true ->
  cm_durable_state_root m = Some root ->
  let '(fs', m', result) := save_with_snapshot io fs m cp snapshot in
  let '(fs'', written, _) :=
    ds_write io fs root {| pcr_checkpoint := cp; pcr_runtime_budget_snapshot := snapshot |} in
  fs' = fs'' /\ cpr_persisted result = written /\
  cm_stored_checkpoints m' !! default "" (cp_checkpoint_id cp)
    = Some {| scr_checkpoint := cp; scr_runtime_budget_snapshot := snapshot |} /\
  cm_pending_runtime_budget_snapshots m' !! default "" (cp_checkpoint_id cp) = None.
Proof.
  intros Hc Hroot. unfold save_with_snapshot. rewrite Hc.
  cbn [negb ds_write checkpoint_store set_stored set_pending cm_durable_state_root
       pcr_checkpoint pcr_runtime_budget_snapshot].
  rewrite Hroot. destruct (write_durable_checkpoint_record _ _ _ _ _) as [[fs'' []] detail]; simpl;
    rewrite lookup_insert_eq, lookup_delete_eq; done.
Qed.

(** Over a sound disk a consistent checkpoint is saved and can be read back. *)
Lemma save_sound io fs m cp snapshot root :
  ccr_consistent (evaluate_checkpoint_consistency cp) = true ->
  representable cp snapshot ->
  cm_durable_state_root m = Some root ->
  io_sound io (checkpoint_record_output cp snapshot) ->
  let '(fs', m', result) := save_with_snapshot io fs m cp snapshot in
  cpr_persisted result = true /\ cpr_checkpoint_ref result = cp_checkpoint_id cp /\
  loaded_record (ds_read true fs' root (default "" (cp_checkpoint_id cp)))
    = Some {| pcr_checkpoint := cp; pcr_runtime_budget_snapshot := snapshot |}.
Proof.
  intros Hc Hrep Hroot Hio. pose proof (save_consistent io fs m cp snapshot root Hc Hroot) as Hs.
  destruct (consistent_id cp Hc) as (id & Hid & Hidne).
  pose proof (store_write_read io fs root
    {| pcr_checkpoint := cp; pcr_runtime_budget_snapshot := snapshot |}) as Hw.
  cbn [ds_ref ds_encode ds_encodable checkpoint_store pcr_checkpoint pcr_runtime_budget_snapshot] in Hw.
  rewrite Hid in *. specialize (Hw Hidne (consistent_encodable _ _ Hc Hrep) Hio).
  destruct (save_with_snapshot _ _ _ _ _) as [[fs' m'] result] eqn:Hsave.
  destruct (ds_write _ _ _ _) as [[fs'' written] detail].
  destruct Hs as (-> & Hp & _), Hw as [-> Hread]. split; [done|]. split; [|done].
  revert Hsave Hp. unfold save_with_snapshot. rewrite Hc. simpl. rewrite Hroot.
  destruct (write_durable_checkpoint_record _ _ _ _ _) as [[? []] ?]; by intros [= _ _ <-].
Qed.

(** C4. A saved checkpoint survives a restart: once [save] reports success over a
    sound disk, a new manager on the same state root loads the same checkpoint
    with the same budget snapshot. *)
Theorem save_survives_restart io fs m cp snapshot root :
  ccr_consistent (evaluate_checkpoint_consistency cp) = true ->
  representable cp snapshot ->
  cm_durable_state_root m = Some root -> root <> "" ->
  io_sound io (checkpoint_record_output cp snapshot) ->
  let '(fs', m', result) := save_with_snapshot io fs m cp snapshot in
  cpr_persisted result = true /\ cpr_checkpoint_ref result = cp_checkpoint_id cp /\
  let found := snd (load true fs' (restarted root) (default "" (cp_checkpoint_id cp))) in
  loaded found = true /\ clr_checkpoint found = Some cp /\
  clr_runtime_budget_snapshot found = snapshot.
Proof.
  intros Hc Hrep Hroot Hne Hio. pose proof (save_sound io fs m cp snapshot root Hc Hrep Hroot Hio) as Hs.
  destruct (save_with_snapshot _ _ _ _ _) as [[fs' m'] result]. destruct Hs as (Hp & Href & Hread).
  split; [done|]. split; [done|]. by apply load_restarted_record.
Qed.

(** C33. Saving is atomic: whatever the disk does, a process that dies between
    any two system calls of a save leaves a disk from which a new manager loads
    what it would have loaded before, or whose record holds all that was stored
    of the new one, never a mixture; that is the new checkpoint, with its budget
    snapshot, when the disk stored every byte, and may be a broken record when a
    full disk cut the write short ([short_write_reported_persisted]). Every other
    reference loads as before. The last of these disks is the one [save] leaves.
    Dying is the process's, not the machine's: nothing is flushed to the device,
    so the theorem says nothing of a power loss. *)
Theorem save_is_crash_atomic io fs m cp snapshot root :
  ccr_consistent (evaluate_checkpoint_consistency cp) = true ->
  representable cp snapshot ->
  cm_durable_state_root m = Some root -> root <> "" ->
  let ref := default "" (cp_checkpoint_id cp) in
  let path := checkpoint_record_path root ref in
  let output := checkpoint_record_output cp snapshot in
  let disks := crash_states (fst (publish_ops io path output)) fs in
  let found fs ref := snd (load true fs (restarted root) ref) in
  (forall fs', fs' ∈ disks ->
     (found fs' ref = found fs ref \/
      read_file fs' path = Some (String.substring 0 (io_bytes_stored io) output) /\
      ((String.length output <= io_bytes_stored io)%nat ->
       loaded (found fs' ref) = true /\ clr_checkpoint (found fs' ref) = Some cp /\
       clr_runtime_budget_snapshot (found fs' ref) = snapshot)) /\
     (forall ref', ref' <> ref -> found fs' ref' = found fs ref')) /\
  last disks = Some (fst (fst (save_with_snapshot io fs m cp snapshot))).
Proof.
  intros Hc Hrep Hroot Hne ref path output disks found.
  set (record := {| pcr_checkpoint := cp; pcr_runtime_budget_snapshot := snapshot |}).
  pose proof (consistent_encodable _ _ Hc Hrep) as Henc. split.
  - intros fs' Hin. pose proof (store_crash_atomic io fs root record fs') as Hatomic.
    destruct (Hatomic Henc Hin) as [Hown Hother]. split.
    + destruct Hown as [H|[H Hwhole]]; [left|right].
      * unfold found. rewrite !load_restarted by done. change ref with (ds_ref record). by rewrite H.
      * split; [exact H|]. intros Hn. apply load_restarted_record; [done..|]. by apply Hwhole.
    + intros ref' Hr. unfold found. rewrite !load_restarted by done. by rewrite Hother.
  - destruct (consistent_id cp Hc) as (id & Hid & Hidne).
    pose proof (save_consistent io fs m cp snapshot root Hc Hroot) as Hs.
    pose proof (store_crash_last io fs root record) as Hlast.
    unfold disks, path, ref, output. rewrite Hid in *. simpl default.
    cbn [ds_ref ds_directory ds_encode checkpoint_store pcr_checkpoint pcr_runtime_budget_snapshot
         record] in Hlast. rewrite Hid in Hlast. specialize (Hlast Hidne).
    destruct (save_with_snapshot _ _ _ _ _) as [[fs1 m1] result].
    fold record in Hs. destruct (ds_write _ _ _ _) as [[fs2 written] detail].
    destruct Hs as (-> & _). exact Hlast.
Qed.

(** Saving one checkpoint never changes what any other reference loads, in
    this process or after a restart, whether the save succeeds or fails. *)
Theorem save_is_isolated io fs m cp snapshot root ref open_ok :
  cm_durable_state_root m = Some root -> root <> "" ->
  cp_checkpoint_id cp <> Some ref ->
  let '(fs', m', _) := save_with_snapshot io fs m cp snapshot in
  snd (load open_ok fs' m' ref) = snd (load open_ok fs m ref) /\
  snd (load open_ok fs' (restarted root) ref) = snd (load open_ok fs (restarted root) ref).
Proof.
  intros Hroot Hne Href.
  destruct (ccr_consistent (evaluate_checkpoint_consistency cp)) eqn:Hc.
  2: { unfold save_with_snapshot. by rewrite Hc. }
  destruct (consistent_id cp Hc) as (id & Hid & Hidne). rewrite Hid in Href.
  assert (ref <> id) as Hdiff by congruence.
  pose proof (store_write_other io fs root
    {| pcr_checkpoint := cp; pcr_runtime_budget_snapshot := snapshot |} ref open_ok) as Ho.
  cbn [ds_ref checkpoint_store pcr_checkpoint] in Ho. rewrite Hid in Ho.
  specialize (Ho Hidne Hdiff).
  cbn [ds_write ds_read checkpoint_store pcr_checkpoint pcr_runtime_budget_snapshot] in Ho.
  unfold save_with_snapshot. rewrite Hc, Hid. cbn [negb set_stored set_pending cm_durable_state_root].
  rewrite Hroot. simpl default.
  destruct (write_durable_checkpoint_record _ _ _ _ _) as [[fs' []] detail];
    cbn [fst] in Ho; cbn [negb];
    rewrite (load_restarted open_ok fs' root), (load_restarted open_ok fs root) by done;
    cbn [ds_read checkpoint_store negb]; rewrite Ho;
    (split; [|done]); unfold load; cbn [cm_stored_checkpoints cm_durable_state_root set_stored set_pending];
    rewrite lookup_insert_ne by done; rewrite Hroot, Ho;
    (destruct (cm_stored_checkpoints m !! ref); [reflexivity|]);
    destruct (read_durable_checkpoint_record open_ok fs root ref); reflexivity.
Qed.

(** A full disk goes unnoticed: when the system calls succeed but none of the
    bytes written reach the file, [save] still reports the checkpoint persisted,
    and has replaced the record on disk by one a restarted manager rejects. *)
Theorem short_write_reported_persisted io fs m cp snapshot root :
  ccr_consistent (evaluate_checkpoint_consistency cp) = true ->
  cm_durable_state_root m = Some root -> root <> "" ->
  io_create_directories io = true -> io_open io = true -> io_rename io = true ->
  io_bytes_stored io = 0%nat ->
  let '(fs', m', result) := save_with_snapshot io fs m cp snapshot in
  cpr_persisted result = true /\ cpr_error_code result = None /\
  snd (load true fs' (restarted root) (default "" (cp_checkpoint_id cp)))
  = load_failed CheckpointConsistencyIssue.InvalidCheckpointState
      "durable checkpoint record is missing checkpoint_id".
Proof.
  intros Hc Hroot Hne Hd Ho Hr Hn. destruct (consistent_id cp Hc) as (id & Hid & Hidne).
  unfold save_with_snapshot, write_durable_checkpoint_record.
  rewrite Hc, Hid. cbn [negb set_stored set_pending cm_durable_state_root]. rewrite Hroot.
  apply is_empty_false in Hidne. rewrite Hidne, publish_record_eq, Hd, Ho, Hr, Hn. cbn [negb].
  split; [done|]. split; [done|]. rewrite load_restarted by done.
  cbn [ds_read checkpoint_store]. unfold read_durable_checkpoint_record, read_file.
  simpl default. rewrite lookup_insert_eq. destruct (checkpoint_record_output cp snapshot); reflexivity.
Qed.

(** A failed save leaves memory and disk apart: when the durable write fails,
    [save] reports failure and the disk still has what it had, yet this process
    goes on to load the checkpoint as saved. *)
Theorem failed_save_stays_in_memory io fs m cp snapshot root :
  ccr_consistent (evaluate_checkpoint_consistency cp) = true ->
  cm_durable_state_root m = Some root -> root <> "" ->
  io_create_directories io = false \/ io_open io = false \/ io_rename io = false ->
  let ref := default "" (cp_checkpoint_id cp) in
  let '(fs', m', result) := save_with_snapshot io fs m cp snapshot in
  cpr_persisted result = false /\
  cpr_error_code result = Some RT_E_411_CHECKPOINT_SAVE_FAILED /\
  snd (load true fs' (restarted root) ref) = snd (load true fs (restarted root) ref) /\
  clr_checkpoint (snd (load true fs' m' ref)) = Some cp.
Proof.
  intros Hc Hroot Hne Hio ref.
  set (record := {| pcr_checkpoint := cp; pcr_runtime_budget_snapshot := snapshot |}).
  pose proof (save_consistent io fs m cp snapshot root Hc Hroot) as Hs.
  destruct (consistent_id cp Hc) as (id & Hid & Hidne).
  assert (ds_ref record <> "") as Hrefne by (cbn; by rewrite Hid).
  pose proof (ds_write_publishes io fs root record Hrefne) as Hw.
  pose proof (fun H => store_write_failed io fs root record true Hrefne H) as Hfail.
  destruct (save_with_snapshot _ _ _ _ _) as [[fs1 m1] result] eqn:Hsave.
  fold record in Hs. destruct (ds_write _ _ _ _) as [[fs2 written] detail].
  assert (written = false) as ->.
  { destruct (publish_record _ _ _ _) as [fs3 status] eqn:Hpub.
    destruct Hw as [_ Hw]. destruct written; [|done].
    assert (status = Published) as -> by (by apply Hw). revert Hpub. rewrite publish_record_eq.
    destruct Hio as [-> | [-> | ->]]; simpl; repeat case_match; congruence. }
  cbn [fst snd] in Hfail. specialize (Hfail eq_refl).
  destruct Hs as (-> & Hp & Hstored & _). split; [done|]. split; [|split].
  - revert Hsave Hp. unfold save_with_snapshot. rewrite Hc. simpl. rewrite Hroot.
    destruct (write_durable_checkpoint_record _ _ _ _ _) as [[? []] ?]; by intros [= _ _ <-].
  - rewrite !load_restarted by done. change ref with (ds_ref record). by rewrite Hfail.
  - unfold load. unfold ref. rewrite Hstored. unfold load_found. simpl. by rewrite Hc.
Qed.

(** The budget snapshot given to [build_checkpoint] is the one saved: [save]
    takes it from the pending map, whatever the disk does, and a later load in
    the process returns it with the checkpoint. *)
Theorem built_snapshot_is_saved io fs m request cp :
  cbres_checkpoint (snd (build_checkpoint m request)) = Some cp ->
  let m1 := fst (build_checkpoint m request) in
  let '(fs', m2, _) := save io fs m1 cp in
  cm_pending_runtime_budget_snapshots m2 !! cbr_checkpoint_id request = None /\
  let found := snd (load true fs' m2 (cbr_checkpoint_id request)) in
  loaded found = true /\ clr_checkpoint found = Some cp /\
  clr_runtime_budget_snapshot found = cbr_runtime_budget_snapshot request.
Proof.
  unfold build_checkpoint.
  destruct (to_accepted _); cbn [negb]; [|done].
  destruct (resolve_checkpoint_state _) as [c|]; [|done]. cbn [fst snd cbres_checkpoint].
  destruct (ccr_consistent _) eqn:Hc; [|done]. intros [= <-].
  set (cp := checkpoint_of_request request c) in *.
  unfold save. cbn [cp checkpoint_of_request cp_checkpoint_id].
  cbn [set_pending cm_pending_runtime_budget_snapshots]. rewrite lookup_insert_eq.
  unfold save_with_snapshot. fold cp. rewrite Hc. cbn [negb].
  change (default "" (cp_checkpoint_id cp)) with (cbr_checkpoint_id request).
  cbn [set_pending set_stored cm_pending_runtime_budget_snapshots cm_durable_state_root
       cm_stored_checkpoints].
  assert (forall (m2 : CheckpointManager) fs',
    cm_stored_checkpoints m2 !! cbr_checkpoint_id request
      = Some {| scr_checkpoint := cp;
                scr_runtime_budget_snapshot := cbr_runtime_budget_snapshot request |} ->
    let found := snd (load true fs' m2 (cbr_checkpoint_id request)) in
    loaded found = true /\ clr_checkpoint found = Some cp /\
    clr_runtime_budget_snapshot found = cbr_runtime_budget_snapshot request) as Hfound.
  { intros m2 fs' Hst. unfold load. rewrite Hst. by apply load_found_consistent. }
  destruct (cm_durable_state_root m) as [root|];
    [destruct (write_durable_checkpoint_record _ _ _ _ _) as [[fs' []] detail]|];
    cbn [negb cm_pending_runtime_budget_snapshots];
    (split; [simpl; by rewrite lookup_delete_eq|]); apply Hfound; simpl; by rewrite lookup_insert_eq.
Qed.

(** ** Resuming *)

(** A session's resume seed is honoured exactly when it is complete, the
    checkpoint is resumable on its own, and both anchors match: the checkpoint
    reference always, the request id when the checkpoint has one. The plan then
    is the checkpoint's own with the seed's token, reason and policy. *)
Theorem seeded_resume_plan cp seed :
  let base := make_resume_plan cp in
  let decision := make_resume_plan_with_seed cp seed in
  (rpd_resumable decision = true <->
     seed_has_minimum_requirements seed = true /\ rpd_resumable base = true /\
     cp_checkpoint_id cp = Some (rs_checkpoint_ref seed) /\
     (cp_request_id cp = None \/ cp_request_id cp = Some (rs_request_id seed))) /\
  (rpd_resumable decision = true ->
   exists plan plan', rpd_plan base = Some plan /\ rpd_plan decision = Some plan' /\
     rp_checkpoint_ref plan' = rs_checkpoint_ref seed /\
     rp_target_state plan' = rp_target_state plan /\
     rp_pending_action plan' = rp_pending_action plan /\
     rp_requires_operator_intervention plan' = rp_requires_operator_intervention plan /\
     rp_resume_token plan' = rs_resume_token seed /\
     rp_resume_reason plan' = rs_resume_reason seed /\
     rp_policy_snapshot_ref plan' = rs_policy_snapshot_ref seed).
Proof.
  intros base decision. unfold decision, make_resume_plan_with_seed, base, make_resume_plan.
  destruct (seed_has_minimum_requirements seed); cbn [negb]; [|naive_solver].
  pose proof (plan_names_checkpoint cp) as Hplan.
  destruct (synthesize_resume_plan cp) as [resumable [plan|] violation code detail]; simpl in *;
    [|destruct Hplan as [-> _]; naive_solver].
  destruct Hplan as [-> Hid]. cbn [negb].
  destruct (bool_decide_reflect (rp_checkpoint_ref plan = rs_checkpoint_ref seed)) as [E|E];
    cbn [negb]; [|split; simpl; [split; [done|]; naive_solver congruence|done]].
  destruct (bool_decide_reflect (is_Some (cp_request_id cp))) as [[r Hr]|Hnone]; cbn [andb].
  - destruct (bool_decide_reflect (cp_request_id cp = Some (rs_request_id seed))) as [E2|E2];
      cbn [negb]; simpl; [|split; [split; [done|]; naive_solver congruence|done]].
    split; [split; [|done]; intros _; split_and!; eauto; congruence|]. intros _. eauto 12.
  - simpl. split; [split; [|done]; intros _; split_and!; eauto|].
    + congruence.
    + left. destruct (cp_request_id cp); [|done]. exfalso. eauto.
    + intros _. exists plan. eauto 12.
Qed.

(** ** Witnesses *)

Definition sample_io : IoOutcome :=
  {| io_create_directories := true; io_open := true; io_bytes_stored := 4096; io_rename := true |}.

Definition sample_root : string := "/var/lib/dasall".

Definition sample_budget_snapshot : BudgetSnapshot :=
  {| bs_snapshot_at_ms := Some 1700000000000;
     bs_entries :=
       [{| bse_budget_type := BudgetType.Turn; bse_current := 3; bse_max := 8;
           bse_remaining := 5; bse_reject_reason := None |}];
     bs_overall_reject_reason := None |}.

Lemma sample_consistent :
  ccr_consistent (evaluate_checkpoint_consistency sample_checkpoint) = true.
Proof. vm_compute. reflexivity. Qed.

Lemma sample_representable : representable sample_checkpoint (Some sample_budget_snapshot).
Proof.
  unfold representable, snapshot_encodable, entry_encodable, in_s32, in_u32, in_s64, in_u64. simpl.
  split_and!; try lia.
  - intros s [= <-]. simpl. split; [lia|done].
  - intros n [= <-]. lia.
  - intros t [= <-]. lia.
  - intros b [= <-]. simpl. split_and!; [|lia|].
    + intros t [= <-]. lia.
    + constructor; [simpl; lia|constructor].
Qed.

Lemma sample_io_sound :
  io_sound sample_io (checkpoint_record_output sample_checkpoint (Some sample_budget_snapshot)).
Proof. split_and!; [done..|]. apply Nat.leb_le. vm_compute. reflexivity. Qed.

Definition sample_build_request : CheckpointBuildRequest :=
  {| cbr_transition_outcome :=
       snd (transition RuntimeState.Reasoning
              (edge_request RuntimeState.Reasoning RuntimeState.WaitingConfirm));
     cbr_checkpoint_id := "ckpt-9"; cbr_step_id := "step-1";
     cbr_working_memory_snapshot := "{}"; cbr_pending_action := Some "confirm:delete";
     cbr_request_id := Some "req-7"; cbr_goal_id := None; cbr_belief_state_ref := None;
     cbr_retry_count := None; cbr_created_at_ms := Some 1700000000000;
     cbr_runtime_budget_snapshot := Some sample_budget_snapshot; cbr_tags := ["origin=test"] |}.

Lemma written_transition_builds_witness :
  built (snd (build_checkpoint new_checkpoint_manager sample_build_request)) = true.
Proof.
  pose proof (written_transition_builds new_checkpoint_manager RuntimeState.Reasoning
    (edge_request RuntimeState.Reasoning RuntimeState.WaitingConfirm) sample_build_request) as H.
  destruct (build_checkpoint new_checkpoint_manager sample_build_request) as [m result].
  apply H; [reflexivity..|]. unfold request_complete, tags_compatible, version_tags. simpl.
  split_and!; try done.
  - by intros t [= <-].
  - repeat constructor.
Defined.

Lemma save_survives_restart_witness :
  cpr_persisted (snd (save_with_snapshot sample_io ∅ (restarted sample_root) sample_checkpoint
                        (Some sample_budget_snapshot))) = true.
Proof.
  pose proof (save_survives_restart sample_io ∅ (restarted sample_root) sample_checkpoint
    (Some sample_budget_snapshot) sample_root sample_consistent sample_representable
    eq_refl ltac:(discriminate) sample_io_sound) as H.
  destruct (save_with_snapshot _ _ _ _ _) as [[fs' m'] result]. apply H.
Defined.

Lemma save_is_crash_atomic_witness :
  exists fs', last (crash_states (fst (publish_ops sample_io
      (checkpoint_record_path sample_root "ckpt-1")
      (checkpoint_record_output sample_checkpoint (Some sample_budget_snapshot)))) ∅) = Some fs'.
Proof.
  eexists.
  exact (proj2 (save_is_crash_atomic sample_io ∅ (restarted sample_root) sample_checkpoint
    (Some sample_budget_snapshot) sample_root sample_consistent sample_representable
    eq_refl ltac:(discriminate))).
Defined.

Lemma save_is_isolated_witness :
  snd (load true (fst (fst (save_with_snapshot sample_io ∅ (restarted sample_root)
         sample_checkpoint None))) (restarted sample_root) "ckpt-2")
  = snd (load true ∅ (restarted sample_root) "ckpt-2").
Proof.
  pose proof (save_is_isolated sample_io ∅ (restarted sample_root) sample_checkpoint None
    sample_root "ckpt-2" true eq_refl ltac:(discriminate) ltac:(discriminate)) as H.
  destruct (save_with_snapshot _ _ _ _ _) as [[fs' m'] result]. apply H.
Defined.

Lemma short_write_reported_persisted_witness :
  cpr_persisted (snd (save_with_snapshot
    {| io_create_directories := true; io_open := true; io_bytes_stored := 0; io_rename := true |}
    ∅ (restarted sample_root) sample_checkpoint None)) = true.
Proof.
  pose proof (short_write_reported_persisted
    {| io_create_directories := true; io_open := true; io_bytes_stored := 0; io_rename := true |}
    ∅ (restarted sample_root) sample_checkpoint None sample_root sample_consistent
    eq_refl ltac:(discriminate) eq_refl eq_refl eq_refl eq_refl) as H.
  destruct (save_with_snapshot _ _ _ _ _) as [[fs' m'] result]. apply H.
Defined.

Lemma failed_save_stays_in_memory_witness :
  cpr_persisted (snd (save_with_snapshot
    {| io_create_directories := true; io_open := false; io_bytes_stored := 0; io_rename := true |}
    ∅ (restarted sample_root) sample_checkpoint None)) = false.
Proof.
  pose proof (failed_save_stays_in_memory
    {| io_create_directories := true; io_open := false; io_bytes_stored := 0; io_rename := true |}
    ∅ (restarted sample_root) sample_checkpoint None sample_root sample_consistent
    eq_refl ltac:(discriminate) ltac:(right; left; reflexivity)) as H.
  destruct (save_with_snapshot _ _ _ _ _) as [[fs' m'] result]. apply H.
Defined.

Lemma built_snapshot_is_saved_witness :
  exists cp,
    let '(fs', m2, _) :=
      save sample_io ∅ (fst (build_checkpoint new_checkpoint_manager sample_build_request)) cp in
    clr_runtime_budget_snapshot (snd (load true fs' m2 "ckpt-9")) = Some sample_budget_snapshot.
Proof.
  destruct (cbres_checkpoint (snd (build_checkpoint new_checkpoint_manager sample_build_request)))
    as [cp|] eqn:E; [|vm_compute in E; discriminate].
  exists cp.
  pose proof (built_snapshot_is_saved sample_io ∅ new_checkpoint_manager sample_build_request cp E) as H.
  cbv zeta in H. destruct (save _ _ _ _) as [[fs' m'] result]. apply H.
Defined.
