(* ===== verification/SessionStore.v ===== *)
(** * Durable session records

    The text format of runtime/src/session/SessionManager.cpp's durable store,
    [write_durable_session_record] and [read_durable_session_record], and its
    instance of the durable-store interface. Its helpers for hex, fields and
    lines are those of Text.v: the two sources define them alike. *)

From S2P Require Import Prelude Fsm SessionTypes Text DurableStore.

Definition session_record_path (state_root session_id : string) : string :=
  record_path "sessions" state_root session_id.

(** The bytes streamed into the record. *)
Definition session_record_output (session_snapshot : SessionSnapshot) : string :=
  let output := write_encoded_field "" "session_id" (ss_session_id session_snapshot) in
  let output := write_encoded_field output "request_id" (ss_request_id session_snapshot) in
  let output := write_integer_field output "turn_index" (ss_turn_index session_snapshot) in
  let output := write_optional_encoded_field output "active_checkpoint_ref"
    (ss_active_checkpoint_ref session_snapshot) in
  let output := write_integer_field output "fsm_state"
    (runtime_state_value (ss_fsm_state session_snapshot)) in
  let output := write_optional_encoded_field output "budget_snapshot_ref"
    (ss_budget_snapshot_ref session_snapshot) in
  let output := write_optional_encoded_field output "last_result_summary"
    (ss_last_result_summary session_snapshot) in
  let output := write_integer_field output "pending_interaction_present"
    (match ss_pending_interaction session_snapshot with Some _ => 1 | None => 0 end) in
  match ss_pending_interaction session_snapshot with
  | None => output
  | Some interaction =>
      let output := write_integer_field output "pending_interaction.kind"
        (pending_interaction_kind_value (pi_interaction_kind interaction)) in
      let output := write_encoded_field output "pending_interaction.prompt_token"
        (pi_prompt_token interaction) in
      let output := write_optional_integer_field output "pending_interaction.deadline_ms"
        (pi_deadline_ms interaction) in
      let output := write_encoded_field output "pending_interaction.blocking_reason"
        (pi_blocking_reason interaction) in
      let output := write_encoded_field output "pending_interaction.resume_channel"
        (pi_resume_channel interaction) in
      write_encoded_field output "pending_interaction.input_schema_hint"
        (pi_input_schema_hint interaction)
  end.

Definition write_durable_session_record (io : IoOutcome) (fs : FileSystem)
    (state_root : string) (session_snapshot : SessionSnapshot) : FileSystem * bool * string :=
  let '(fs, status) :=
    publish_record io fs (session_record_path state_root (ss_session_id session_snapshot))
      (session_record_output session_snapshot) in
  match status with
  | CreateDirectoriesFailed =>
      (fs, false, "session durable store could not create state directories")
  | OpenFailed =>
      (fs, false, "session durable store could not open the session record for writing")
  | RenameFailed =>
      (fs, false, "session durable store could not atomically publish the session record")
  | Published => (fs, true, "session persisted in durable store")
  end.

Definition subject : string := "durable session record".

Definition decode_pending_interaction (fields : gmap string string)
    : result string (option PendingInteractionState) :=
  let* pending_interaction_present :=
    decode_required_integer_field subject Uint32 fields "pending_interaction_present" in
  if negb (pending_interaction_present =? 1) then Ok None else
  let* raw_kind :=
    decode_required_integer_field subject Uint32 fields "pending_interaction.kind" in
  let* prompt_token :=
    decode_required_string_field subject fields "pending_interaction.prompt_token" in
  let* deadline_ms :=
    decode_optional_integer_field subject Int64 fields "pending_interaction.deadline_ms" in
  let* blocking_reason :=
    decode_required_string_field subject fields "pending_interaction.blocking_reason" in
  let* resume_channel :=
    decode_required_string_field subject fields "pending_interaction.resume_channel" in
  let* input_schema_hint :=
    decode_required_string_field subject fields "pending_interaction.input_schema_hint" in
  Ok (Some {| pi_interaction_kind := pending_interaction_kind_of_value raw_kind;
              pi_prompt_token := prompt_token; pi_deadline_ms := deadline_ms;
              pi_blocking_reason := blocking_reason; pi_resume_channel := resume_channel;
              pi_input_schema_hint := input_schema_hint |}).

(** [read_durable_session_record] once the file is open. *)
Definition decode_session_record (session_id content : string)
    : result string SessionSnapshot :=
  let* fields := parse_key_value_file
    "durable session record contains an invalid key-value line" content in
  let* decoded_id := decode_required_string_field subject fields "session_id" in
  let* request_id := decode_required_string_field subject fields "request_id" in
  let* turn_index := decode_required_integer_field subject Uint32 fields "turn_index" in
  let* active_checkpoint_ref :=
    decode_optional_string_field subject fields "active_checkpoint_ref" in
  let* budget_snapshot_ref :=
    decode_optional_string_field subject fields "budget_snapshot_ref" in
  let* last_result_summary :=
    decode_optional_string_field subject fields "last_result_summary" in
  let* raw_fsm_state := decode_required_integer_field subject Uint32 fields "fsm_state" in
  let* pending_interaction := decode_pending_interaction fields in
  if negb (bool_decide (decoded_id = session_id)) then
    Err "durable session record session_id does not match file anchor" else
  Ok {| ss_session_id := decoded_id; ss_request_id := request_id;
        ss_turn_index := turn_index; ss_active_checkpoint_ref := active_checkpoint_ref;
        ss_fsm_state := runtime_state_of_value raw_fsm_state;
        ss_budget_snapshot_ref := budget_snapshot_ref;
        ss_pending_interaction := pending_interaction;
        ss_last_result_summary := last_result_summary |}.

(** The code returns [false] both for a record that is not there and for a
    corrupt one; the two differ by the detail alone. *)
Definition read_durable_session_record (open_ok : bool) (fs : FileSystem)
    (state_root session_id : string) : ReadStatus SessionSnapshot :=
  let? content := read_file fs (session_record_path state_root session_id)
    else NotFound "session not found in durable store" in
  if negb open_ok then Corrupt "session durable store could not open the session record" else
  match decode_session_record session_id content with
  | Err detail => Corrupt detail
  | Ok session_snapshot => Loaded session_snapshot "existing session loaded from durable store"
  end.

(** ** Round trip *)

Definition session_fields (s : SessionSnapshot) : list (string * string) :=
  [("session_id", hex_encode (ss_session_id s)); ("request_id", hex_encode (ss_request_id s));
   ("turn_index", to_string (ss_turn_index s))]
  ++ optional_field "active_checkpoint_ref" hex_encode (ss_active_checkpoint_ref s)
  ++ [("fsm_state", to_string (runtime_state_value (ss_fsm_state s)))]
  ++ optional_field "budget_snapshot_ref" hex_encode (ss_budget_snapshot_ref s)
  ++ optional_field "last_result_summary" hex_encode (ss_last_result_summary s).

Definition interaction_fields (interaction : option PendingInteractionState)
    : list (string * string) :=
  match interaction with
  | None => [("pending_interaction_present", to_string 0)]
  | Some i =>
      [("pending_interaction_present", to_string 1);
       ("pending_interaction.kind",
        to_string (pending_interaction_kind_value (pi_interaction_kind i)));
       ("pending_interaction.prompt_token", hex_encode (pi_prompt_token i))]
      ++ optional_field "pending_interaction.deadline_ms" to_string (pi_deadline_ms i)
      ++ [("pending_interaction.blocking_reason", hex_encode (pi_blocking_reason i));
          ("pending_interaction.resume_channel", hex_encode (pi_resume_channel i));
          ("pending_interaction.input_schema_hint", hex_encode (pi_input_schema_hint i))]
  end.

Definition session_record_fields (s : SessionSnapshot) : list (string * string) :=
  session_fields s ++ interaction_fields (ss_pending_interaction s).

Lemma session_record_output_render s :
  session_record_output s = render (session_record_fields s).
Proof.
  unfold session_record_output, write_encoded_field, write_integer_field.
  rewrite (write_field_append [] : forall key v, write_field "" key v = render [(key, v)]).
  rewrite !write_field_append, write_optional_encoded_append, write_field_append,
    !write_optional_encoded_append, write_field_append.
  unfold session_record_fields, session_fields, interaction_fields.
  destruct (ss_pending_interaction s) as [i|].
  - rewrite !write_field_append, write_optional_integer_append, !write_field_append. f_equal.
    by rewrite <-!app_assoc.
  - f_equal. by rewrite <-!app_assoc.
Qed.

Ltac word_fields :=
  repeat first
    [ apply Forall_nil; exact I
    | apply Forall_app; split
    | apply Forall_cons; split
    | apply optional_field_ok; [done|first [apply hex_encode_word | apply to_string_word]]
    | apply word_field_ok; [done|first [apply hex_encode_word | apply to_string_word]] ].

Lemma session_record_fields_ok s : Forall field_ok (session_record_fields s).
Proof.
  unfold session_record_fields, session_fields, interaction_fields.
  destruct (ss_pending_interaction s); word_fields.
Qed.

(** The values of the C++ types, where the format is concerned. *)
Definition session_encodable (s : SessionSnapshot) : Prop :=
  in_u32 (ss_turn_index s) /\
  (0 <= runtime_state_value (ss_fsm_state s) < 2 ^ 8 /\
   runtime_state_of_value (runtime_state_value (ss_fsm_state s)) = ss_fsm_state s) /\
  (forall i, ss_pending_interaction s = Some i ->
     kind_ok (pi_interaction_kind i) /\
     (forall t, pi_deadline_ms i = Some t -> in_s64 t)).

Lemma interaction_fields_family interaction :
  Forall (fun kv => is_Some (strip_prefix "pending_" (fst kv))) (interaction_fields interaction).
Proof.
  destruct interaction as [i|]; [|repeat constructor; eauto].
  unfold interaction_fields. repeat (apply Forall_app; split);
    try (apply optional_field_forall; intros v; eexists; reflexivity);
    repeat constructor; eexists; reflexivity.
Qed.

Ltac find_session_field :=
  unfold session_record_fields, session_fields;
  repeat first
    [ progress find_field
    | rewrite (assoc_outside "pending_") by (done || apply interaction_fields_family) ].

Lemma decode_pending_interaction_at s :
  session_encodable s ->
  decode_pending_interaction (fields_of (session_record_fields s))
  = Ok (ss_pending_interaction s).
Proof.
  intros (_ & _ & Hi). unfold decode_pending_interaction.
  destruct (ss_pending_interaction s) as [i|] eqn:Hs.
  - destruct (Hi _ eq_refl) as [Hkind Hdeadline].
    destruct (pending_interaction_kind_roundtrip _ Hkind) as [Hbyte Hback].
    rewrite (decode_required_integer_at _ _ Uint32 _ 1)
      by (done || (find_session_field; rewrite Hs; unfold interaction_fields; by find_field)).
    cbn [result_bind negb Z.eqb Pos.eqb].
    rewrite (decode_required_integer_at _ _ Uint32 _
      (pending_interaction_kind_value (pi_interaction_kind i)))
      by (first [simpl; unfold in_u32; lia
                | find_session_field; rewrite Hs; unfold interaction_fields; by find_field]).
    cbn [result_bind].
    rewrite (decode_required_string_at _ _ _ (pi_prompt_token i))
      by (find_session_field; rewrite Hs; unfold interaction_fields; by find_field).
    cbn [result_bind].
    rewrite (decode_optional_integer_at _ _ Int64 _ (pi_deadline_ms i))
      by (done || (find_session_field; rewrite Hs; unfold interaction_fields; find_field;
                   by destruct (pi_deadline_ms i))).
    cbn [result_bind].
    rewrite (decode_required_string_at _ _ _ (pi_blocking_reason i))
      by (find_session_field; rewrite Hs; unfold interaction_fields; by find_field).
    cbn [result_bind].
    rewrite (decode_required_string_at _ _ _ (pi_resume_channel i))
      by (find_session_field; rewrite Hs; unfold interaction_fields; by find_field).
    cbn [result_bind].
    rewrite (decode_required_string_at _ _ _ (pi_input_schema_hint i))
      by (find_session_field; rewrite Hs; unfold interaction_fields; by find_field).
    cbn [result_bind]. rewrite Hback. by destruct i.
  - rewrite (decode_required_integer_at _ _ Uint32 _ 0)
      by (done || (find_session_field; rewrite Hs; unfold interaction_fields; by find_field)).
    done.
Qed.

Lemma decode_session_record_output s :
  session_encodable s ->
  decode_session_record (ss_session_id s) (session_record_output s) = Ok s.
Proof.
  intros Henc. pose proof Henc as (Hturn & [Hbyte Hstate] & _).
  rewrite session_record_output_render. unfold decode_session_record.
  rewrite parse_render by apply session_record_fields_ok. cbn [result_bind].
  rewrite (decode_required_string_at _ _ _ (ss_session_id s)) by by find_session_field.
  cbn [result_bind].
  rewrite (decode_required_string_at _ _ _ (ss_request_id s)) by by find_session_field.
  cbn [result_bind].
  rewrite (decode_required_integer_at _ _ Uint32 _ (ss_turn_index s))
    by (done || by find_session_field).
  cbn [result_bind].
  rewrite (decode_optional_string_at _ _ _ (ss_active_checkpoint_ref s))
    by (find_session_field; by destruct (ss_active_checkpoint_ref s)).
  cbn [result_bind].
  rewrite (decode_optional_string_at _ _ _ (ss_budget_snapshot_ref s))
    by (find_session_field; by destruct (ss_budget_snapshot_ref s)).
  cbn [result_bind].
  rewrite (decode_optional_string_at _ _ _ (ss_last_result_summary s))
    by (find_session_field; by destruct (ss_last_result_summary s)).
  cbn [result_bind].
  rewrite (decode_required_integer_at _ _ Uint32 _ (runtime_state_value (ss_fsm_state s)))
    by (first [simpl; unfold in_u32; lia | by find_session_field]).
  cbn [result_bind]. rewrite decode_pending_interaction_at by done. cbn [result_bind].
  rewrite bool_decide_true, Hstate by done. by destruct s.
Qed.

(** ** The session store *)

#[export] Instance session_store : DurableStore SessionSnapshot := {
  ds_directory := "sessions";
  ds_ref := ss_session_id;
  ds_encode := session_record_output;
  ds_encodable := session_encodable;
  ds_write := write_durable_session_record;
  ds_read := read_durable_session_record;
}.

#[export] Instance session_store_laws : DurableStoreLaws SessionSnapshot.
Proof.
  split.
  - intros io fs root s _. cbn [ds_write ds_ref ds_encode ds_directory session_store].
    unfold write_durable_session_record, session_record_path.
    by destruct (publish_record _ _ _ _) as [fs' []].
  - intros io fs fs' root ref Hf. cbn [ds_read session_store ds_directory] in *.
    unfold read_durable_session_record, session_record_path. by rewrite Hf.
  - intros fs root s He Hf. cbn [ds_read ds_ref ds_encode ds_directory ds_encodable session_store] in *.
    unfold read_durable_session_record, session_record_path. rewrite Hf. simpl.
    by rewrite decode_session_record_output.
Qed.
