(* ===== verification/SessionManager.v ===== *)
(** * SessionManager

    runtime/src/session/SessionManager.{h,cpp}: loading, preparing, persisting and
    binding sessions. As for the checkpoints, each operation runs under the lock
    and is a function of the manager's map, the file system and the operating
    system's answers; logging is left out. *)

From S2P Require Import Prelude ErrorCodes Fsm SessionTypes DurableStore SessionStore.

(** ** State *)

Record SessionManager := {
  sm_stored_snapshots : gmap string SessionSnapshot;
  sm_durable_state_root : option string;
}.

Definition new_session_manager : SessionManager :=
  {| sm_stored_snapshots := ∅; sm_durable_state_root := None |}.

Definition store_snapshot (session_id : string) (snapshot : SessionSnapshot) (m : SessionManager)
    : SessionManager :=
  {| sm_stored_snapshots := <[session_id := snapshot]> (sm_stored_snapshots m);
     sm_durable_state_root := sm_durable_state_root m |}.

(** ** Operations *)

Definition set_durable_state_root (state_root : option string) (m : SessionManager)
    : SessionManager :=
  {| sm_stored_snapshots := sm_stored_snapshots m;
     sm_durable_state_root := if has_non_empty_value state_root then state_root else None |}.

Definition seed_for_test (io : IoOutcome) (fs : FileSystem) (m : SessionManager)
    (session_snapshot : SessionSnapshot) : FileSystem * SessionManager :=
  let m := store_snapshot (ss_session_id session_snapshot) session_snapshot m in
  match sm_durable_state_root m with
  | None => (fs, m)
  | Some state_root =>
      let '(fs, _, _) := write_durable_session_record io fs state_root session_snapshot in
      (fs, m)
  end.

Definition load_rejected (error_code : RuntimeErrorCode) (detail : string) : SessionLoadResult :=
  {| slres_accepted := false; slres_created_new_session := false; slres_snapshot := None;
     slres_error_code := Some error_code; slres_detail := detail |}.

(** The snapshot [load_session] creates for an unknown session. *)
Definition created_snapshot (request : SessionLoadRequest) : SessionSnapshot :=
  {| ss_session_id := slr_session_id request; ss_request_id := slr_request_id request;
     ss_turn_index := 0; ss_active_checkpoint_ref := slr_checkpoint_ref request;
     ss_fsm_state := RuntimeState.Idle; ss_budget_snapshot_ref := None;
     ss_pending_interaction := None; ss_last_result_summary := None |}.

Definition load_session (open_ok : bool) (fs : FileSystem) (m : SessionManager)
    (request : SessionLoadRequest) : SessionManager * SessionLoadResult :=
  if negb (load_has_minimum_requirements request) then
    (m, load_rejected RT_E_400_SESSION_NOT_FOUND "session_id and request_id are required")
  else
  let m :=
    match sm_stored_snapshots m !! slr_session_id request, sm_durable_state_root m with
    | None, Some state_root =>
        match read_durable_session_record open_ok fs state_root (slr_session_id request) with
        | Loaded durable_snapshot _ => store_snapshot (slr_session_id request) durable_snapshot m
        | NotFound _ | Corrupt _ => m
        end
    | _, _ => m
    end in
  match sm_stored_snapshots m !! slr_session_id request with
  | Some snapshot =>
      if bool_decide (is_Some (slr_checkpoint_ref request))
         && negb (bool_decide (ss_active_checkpoint_ref snapshot = slr_checkpoint_ref request))
      then
        (m, load_rejected RT_E_401_SESSION_INCONSISTENT
              "requested checkpoint_ref does not match active session anchor")
      else
        (m, make_session_load_result snapshot false
              (match sm_durable_state_root m with
               | Some _ => "existing session loaded from durable store cache"
               | None => "existing session loaded from in-memory store"
               end))
  | None =>
      if negb (slr_allow_session_create request) then
        (m, load_rejected RT_E_400_SESSION_NOT_FOUND
              "session does not exist and creation is disabled")
      else
        (m, make_session_load_result (created_snapshot request) true
              "new session snapshot created for runtime-local store")
  end.

Definition is_waiting_state (state : RuntimeState) : bool :=
  bool_decide (state = RuntimeState.WaitingClarify)
  || bool_decide (state = RuntimeState.WaitingConfirm)
  || bool_decide (state = RuntimeState.WaitingExternal).

Definition pending_active (interaction : option PendingInteractionState) : bool :=
  match interaction with Some interaction => active interaction | None => false end.

Definition prepare_turn (request : PrepareTurnRequest) : PrepareTurnResult :=
  let snapshot := ptr_session_snapshot request in
  let rejected detail :=
    {| ptres_accepted := false; ptres_effective_session := None;
       ptres_error_code := Some RT_E_401_SESSION_INCONSISTENT; ptres_detail := detail |} in
  if bool_decide (is_Some (ptr_expected_checkpoint_ref request))
     && negb (bool_decide (ss_active_checkpoint_ref snapshot
                           = ptr_expected_checkpoint_ref request)) then
    rejected "prepare_turn expected checkpoint_ref does not match session snapshot" else
  if pending_active (ss_pending_interaction snapshot)
     && negb (is_waiting_state (ss_fsm_state snapshot)) then
    rejected "pending interaction requires a waiting-state session snapshot" else
  make_prepare_turn_result snapshot
    (if ptr_resume_turn request then "resume turn prepared" else "fresh turn prepared").

Definition persist_rejected (detail : string) : SessionPersistResult :=
  {| spres_persisted := false; spres_active_checkpoint_ref := None;
     spres_error_code := Some RT_E_401_SESSION_INCONSISTENT; spres_detail := detail |}.

(** The common tail of [persist_turn] and [bind_checkpoint_ref]. *)
Definition persist_snapshot (io : IoOutcome) (fs : FileSystem) (m : SessionManager)
    (stored_snapshot : SessionSnapshot) (memory_detail : string)
    : FileSystem * SessionManager * SessionPersistResult :=
  match sm_durable_state_root m with
  | None =>
      (fs, m, make_session_persist_result (ss_active_checkpoint_ref stored_snapshot) memory_detail)
  | Some state_root =>
      let '(fs, written, persist_detail) :=
        write_durable_session_record io fs state_root stored_snapshot in
      if negb written then (fs, m, persist_rejected persist_detail)
      else (fs, m, make_session_persist_result (ss_active_checkpoint_ref stored_snapshot)
                     persist_detail)
  end.

(** The snapshot [persist_turn] stores. *)
Definition persisted_snapshot (request : SessionPersistRequest) : SessionSnapshot :=
  let snapshot := spr_session_snapshot request in
  {| ss_session_id := ss_session_id snapshot; ss_request_id := ss_request_id snapshot;
     ss_turn_index := ss_turn_index snapshot;
     ss_active_checkpoint_ref :=
       match spr_checkpoint_ref request with
       | Some _ => spr_checkpoint_ref request
       | None => ss_active_checkpoint_ref snapshot
       end;
     ss_fsm_state := spr_terminal_state request;
     ss_budget_snapshot_ref := ss_budget_snapshot_ref snapshot;
     ss_pending_interaction := ss_pending_interaction snapshot;
     ss_last_result_summary := ss_last_result_summary snapshot |}.

Definition persist_turn (io : IoOutcome) (fs : FileSystem) (m : SessionManager)
    (request : SessionPersistRequest) : FileSystem * SessionManager * SessionPersistResult :=
  if negb (persist_has_minimum_requirements request)
     || bool_decide (spr_terminal_state request = RuntimeState.Idle) then
    (fs, m, persist_rejected
       "persist_turn requires session identity and a non-idle terminal state")
  else
  let stored_snapshot := persisted_snapshot request in
  let m := store_snapshot (ss_session_id (spr_session_snapshot request)) stored_snapshot m in
  persist_snapshot io fs m stored_snapshot "turn persisted in in-memory session store".

(** The snapshot [bind_checkpoint_ref] stores over what it finds in memory. *)
Definition bound_snapshot (request : BindCheckpointRefRequest)
    (existing : option SessionSnapshot) : SessionSnapshot :=
  {| ss_session_id := bcr_session_id request; ss_request_id := bcr_request_id request;
     ss_turn_index := match existing with Some s => ss_turn_index s | None => 0 end;
     ss_active_checkpoint_ref := Some (bcr_checkpoint_ref request);
     ss_fsm_state := bcr_fsm_state request;
     ss_budget_snapshot_ref :=
       match existing with Some s => ss_budget_snapshot_ref s | None => None end;
     ss_pending_interaction := bcr_pending_interaction request;
     ss_last_result_summary :=
       match existing with Some s => ss_last_result_summary s | None => None end |}.

Definition bind_checkpoint_ref (io : IoOutcome) (fs : FileSystem) (m : SessionManager)
    (request : BindCheckpointRefRequest) : FileSystem * SessionManager * SessionPersistResult :=
  if negb (bind_has_minimum_requirements request) then
    (fs, m, persist_rejected
       "bind_checkpoint_ref requires session_id, request_id and checkpoint_ref")
  else
  let stored_snapshot :=
    bound_snapshot request (sm_stored_snapshots m !! bcr_session_id request) in
  let m := store_snapshot (bcr_session_id request) stored_snapshot m in
  persist_snapshot io fs m stored_snapshot "checkpoint reference bound to in-memory session".

Definition build_resume_seed (request : BuildResumeSeedRequest) : ResumeSeedResult :=
  let snapshot := brs_session_snapshot request in
  let rejected detail :=
    {| rsres_resume_seed := None; rsres_error_code := Some RT_E_401_SESSION_INCONSISTENT;
       rsres_detail := detail |} in
  if negb (build_seed_has_minimum_requirements request) then
    rejected ("build_resume_seed requires session identity, checkpoint_ref and " +:+
              "resume_reason") else
  if bool_decide (is_Some (ss_active_checkpoint_ref snapshot))
     && negb (bool_decide (ss_active_checkpoint_ref snapshot
                           = Some (brs_checkpoint_ref request))) then
    rejected "resume seed checkpoint_ref must match active session anchor" else
  make_resume_seed_result
    {| rs_session_id := ss_session_id snapshot; rs_request_id := ss_request_id snapshot;
       rs_checkpoint_ref := brs_checkpoint_ref request;
       rs_resume_token := brs_resume_token request; rs_fsm_state := ss_fsm_state snapshot;
       rs_pending_interaction := ss_pending_interaction snapshot;
       rs_policy_snapshot_ref := brs_policy_snapshot_ref request;
       rs_resume_reason := brs_resume_reason request |}
    "resume seed built from in-memory session snapshot".

(** ** Sessions across restarts *)

Definition restarted (root : string) : SessionManager :=
  set_durable_state_root (Some root) new_session_manager.

(** The load of a session found in memory or on disk. *)
Definition load_of (snapshot : SessionSnapshot) (detail : string) (request : SessionLoadRequest)
    : SessionLoadResult :=
  if bool_decide (slr_checkpoint_ref request = None)
     || bool_decide (slr_checkpoint_ref request = ss_active_checkpoint_ref snapshot)
  then make_session_load_result snapshot false detail
  else load_rejected RT_E_401_SESSION_INCONSISTENT
         "requested checkpoint_ref does not match active session anchor".

Lemma anchor_test (wanted active : option string) :
  bool_decide (is_Some wanted) && negb (bool_decide (active = wanted))
  = negb (bool_decide (wanted = None) || bool_decide (wanted = active)).
Proof.
  destruct wanted as [w|]; [|done]. rewrite (bool_decide_true (is_Some _)) by eauto. simpl.
  f_equal. by apply bool_decide_ext.
Qed.

Lemma load_session_restarted open_ok fs root request :
  root <> "" -> load_has_minimum_requirements request = true ->
  snd (load_session open_ok fs (restarted root) request) =
  match ds_read open_ok fs root (slr_session_id request) with
  | Loaded snapshot _ =>
      load_of snapshot "existing session loaded from durable store cache" request
  | _ =>
      if slr_allow_session_create request then
        make_session_load_result (created_snapshot request) true
          "new session snapshot created for runtime-local store"
      else load_rejected RT_E_400_SESSION_NOT_FOUND
             "session does not exist and creation is disabled"
  end.
Proof.
  intros Hroot%is_empty_false Hmin. unfold load_session, restarted, set_durable_state_root.
  rewrite Hmin. cbn [negb has_non_empty_value new_session_manager sm_stored_snapshots
    sm_durable_state_root]. rewrite lookup_empty, Hroot. cbn [negb ds_read session_store].
  destruct (read_durable_session_record open_ok fs root _) as [d|d|s d];
    cbn [sm_stored_snapshots sm_durable_state_root store_snapshot]; rewrite ?lookup_insert_eq.
  - rewrite lookup_empty. by destruct (slr_allow_session_create request).
  - rewrite lookup_empty. by destruct (slr_allow_session_create request).
  - rewrite anchor_test. unfold load_of. by destruct (_ || _).
Qed.

(** The disk side of [persist_turn] and [bind_checkpoint_ref]. *)
Lemma persist_snapshot_sound io fs m snapshot root detail :
  sm_durable_state_root m = Some root -> ss_session_id snapshot <> "" ->
  session_encodable snapshot -> io_sound io (session_record_output snapshot) ->
  let '(fs', m', result) := persist_snapshot io fs m snapshot detail in
  m' = m /\ spres_persisted result = true /\
  spres_active_checkpoint_ref result = ss_active_checkpoint_ref snapshot /\
  loaded_record (ds_read true fs' root (ss_session_id snapshot)) = Some snapshot /\
  fs' = fst (fst (ds_write io fs root snapshot)).
Proof.
  intros Hroot Hid Henc Hio. unfold persist_snapshot. rewrite Hroot.
  pose proof (store_write_read io fs root snapshot) as Hw.
  specialize (Hw Hid Henc Hio).
  cbn [ds_write ds_read ds_ref session_store] in *.
  destruct (write_durable_session_record io fs root snapshot) as [[fs' ok] d].
  destruct Hw as [-> Hread]. simpl. done.
Qed.

(** A persisted turn survives a restart: over a sound disk [persist_turn]
    succeeds, and a new manager on the same state root loads the session with the
    terminal state and the checkpoint anchor of the turn, for every request that
    asks for no checkpoint or for that one, and refuses every other. *)
Theorem persisted_turn_survives_restart io fs m request load_request root :
  persist_has_minimum_requirements request = true ->
  spr_terminal_state request <> RuntimeState.Idle ->
  sm_durable_state_root m = Some root -> root <> "" ->
  session_encodable (persisted_snapshot request) ->
  io_sound io (session_record_output (persisted_snapshot request)) ->
  load_has_minimum_requirements load_request = true ->
  slr_session_id load_request = ss_session_id (spr_session_snapshot request) ->
  let '(fs', m', result) := persist_turn io fs m request in
  let found := snd (load_session true fs' (restarted root) load_request) in
  spres_persisted result = true /\
  (slres_accepted found = true <->
     slr_checkpoint_ref load_request = None \/
     slr_checkpoint_ref load_request = spres_active_checkpoint_ref result) /\
  (slres_accepted found = true ->
     slres_created_new_session found = false /\
     slres_snapshot found = Some (persisted_snapshot request)) /\
  (slres_accepted found = false ->
     slres_error_code found = Some RT_E_401_SESSION_INCONSISTENT).
Proof.
  intros Hmin Hterm Hroot Hne Henc Hio Hlmin Hsame. unfold persist_turn.
  rewrite Hmin, bool_decide_false by done. cbn [negb orb].
  unfold persist_has_minimum_requirements in Hmin.
  apply andb_true_iff in Hmin as [Hid%negb_true_iff%is_empty_false _].
  pose proof (persist_snapshot_sound io fs
    (store_snapshot (ss_session_id (spr_session_snapshot request)) (persisted_snapshot request) m)
    (persisted_snapshot request) root "turn persisted in in-memory session store"
    Hroot Hid Henc Hio) as Hp.
  destruct (persist_snapshot _ _ _ _ _) as [[fs' m'] result].
  destruct Hp as (_ & Hok & Hactive & Hread & _). split; [done|].
  rewrite load_session_restarted, Hsame by done.
  change (ss_session_id (persisted_snapshot request))
    with (ss_session_id (spr_session_snapshot request)) in Hread.
  destruct (ds_read true fs' root _) as [|?|s d]; [done..|]. injection Hread as ->.
  unfold load_of. rewrite Hactive.
  destruct (bool_decide_reflect (slr_checkpoint_ref load_request = None)) as [|];
  destruct (bool_decide_reflect (slr_checkpoint_ref load_request
    = ss_active_checkpoint_ref (persisted_snapshot request))) as [|]; simpl; naive_solver.
Qed.

(** A corrupt session record is taken for no session at all: whenever the
    durable read fails, for whatever reason, [load_session] hands out a fresh
    session under the same id, with its turn count back at zero, and reports
    success. *)
Theorem corrupt_session_replaced fs root request detail open_ok :
  root <> "" -> load_has_minimum_requirements request = true ->
  slr_allow_session_create request = true ->
  read_durable_session_record open_ok fs root (slr_session_id request) = Corrupt detail ->
  let found := snd (load_session open_ok fs (restarted root) request) in
  slres_accepted found = true /\ slres_created_new_session found = true /\
  slres_error_code found = None /\
  slres_snapshot found = Some (created_snapshot request) /\
  ss_turn_index (created_snapshot request) = 0.
Proof.
  intros Hroot Hmin Hallow Hread. cbv zeta. rewrite load_session_restarted by done.
  cbn [ds_read session_store]. by rewrite Hread, Hallow.
Qed.

Lemma bind_sound io fs m request root :
  bind_has_minimum_requirements request = true ->
  sm_durable_state_root m = Some root ->
  let bound := bound_snapshot request (sm_stored_snapshots m !! bcr_session_id request) in
  session_encodable bound -> io_sound io (session_record_output bound) ->
  let '(fs', m', result) := bind_checkpoint_ref io fs m request in
  spres_persisted result = true /\
  loaded_record (ds_read true fs' root (bcr_session_id request)) = Some bound /\
  fs' = fst (fst (ds_write io fs root bound)).
Proof.
  intros Hmin Hroot bound Henc Hio. unfold bind_checkpoint_ref. rewrite Hmin. cbn [negb].
  fold bound. unfold bind_has_minimum_requirements in Hmin. rewrite !andb_true_iff in Hmin.
  destruct Hmin as [[Hid%negb_true_iff%is_empty_false _] _].
  pose proof (persist_snapshot_sound io fs (store_snapshot (bcr_session_id request) bound m)
    bound root "checkpoint reference bound to in-memory session" Hroot Hid Henc Hio) as Hp.
  destruct (persist_snapshot _ _ _ _ _) as [[fs' m'] result].
  destruct Hp as (_ & Hok & _ & Hread & Hfs). done.
Qed.

(** Binding a checkpoint looks for the session in memory only. On a manager
    that has not loaded a durable session since it started, the bind overwrites
    the session's record by one without its turn count, budget snapshot and last
    summary; had the session been loaded first they would all be there. *)
Theorem bind_forgets_unloaded_session io fs root request s load_request :
  root <> "" -> bind_has_minimum_requirements request = true ->
  loaded_record (read_durable_session_record true fs root (bcr_session_id request)) = Some s ->
  load_has_minimum_requirements load_request = true ->
  slr_session_id load_request = bcr_session_id request ->
  session_encodable (bound_snapshot request None) ->
  io_sound io (session_record_output (bound_snapshot request None)) ->
  let on_disk fs := loaded_record (ds_read true fs root (bcr_session_id request)) in
  let loaded_first := fst (load_session true fs (restarted root) load_request) in
  (let '(fs', _, result) := bind_checkpoint_ref io fs (restarted root) request in
   spres_persisted result = true /\ on_disk fs' = Some (bound_snapshot request None)) /\
  ss_turn_index (bound_snapshot request None) = 0 /\
  ss_last_result_summary (bound_snapshot request None) = None /\
  bound_snapshot request (sm_stored_snapshots loaded_first !! bcr_session_id request)
  = bound_snapshot request (Some s) /\
  ss_turn_index (bound_snapshot request (Some s)) = ss_turn_index s /\
  ss_last_result_summary (bound_snapshot request (Some s)) = ss_last_result_summary s.
Proof.
  intros Hroot Hmin Hread Hlmin Hsame Henc Hio on_disk loaded_first.
  split; [|split; [done|]; split; [done|]; split; [|done]].
  - pose proof (bind_sound io fs (restarted root) request root Hmin) as Hb.
    apply is_empty_false in Hroot.
    assert (sm_stored_snapshots (restarted root) !! bcr_session_id request = None) as Hnone
      by apply lookup_empty.
    rewrite Hnone in Hb. unfold restarted, set_durable_state_root in *.
    cbn [has_non_empty_value sm_durable_state_root] in Hb. rewrite Hroot in Hb.
    specialize (Hb eq_refl Henc Hio). cbn [has_non_empty_value]. rewrite Hroot.
    destruct (bind_checkpoint_ref _ _ _ _) as [[fs' m'] result]. by destruct Hb as (? & ? & _).
  - f_equal. unfold loaded_first, load_session, restarted, set_durable_state_root.
    rewrite Hlmin. apply is_empty_false in Hroot.
    cbn [negb has_non_empty_value new_session_manager sm_stored_snapshots sm_durable_state_root].
    rewrite lookup_empty, Hroot, Hsame. cbn [negb].
    destruct (read_durable_session_record true fs root _) as [|?|s' d]; [done..|].
    injection Hread as ->. cbn [sm_stored_snapshots store_snapshot].
    rewrite !lookup_insert_eq. by destruct (_ && _); simpl; rewrite lookup_insert_eq.
Qed.

(** [prepare_turn] accepts a session exactly when the checkpoint it is
    expected to be anchored to is its own and no interaction is pending outside
    the three waiting states; it then hands out the very snapshot it was given. *)
Theorem prepare_turn_complete request :
  let snapshot := ptr_session_snapshot request in
  let result := prepare_turn request in
  (ptres_accepted result = true <->
     (ptr_expected_checkpoint_ref request = None \/
      ptr_expected_checkpoint_ref request = ss_active_checkpoint_ref snapshot) /\
     (pending_active (ss_pending_interaction snapshot) = true ->
      is_waiting_state (ss_fsm_state snapshot) = true)) /\
  ptres_effective_session result = (if ptres_accepted result then Some snapshot else None) /\
  ptres_error_code result
    = (if ptres_accepted result then None else Some RT_E_401_SESSION_INCONSISTENT).
Proof.
  intros snapshot result. unfold result, prepare_turn. fold snapshot. rewrite anchor_test.
  destruct (bool_decide_reflect (ptr_expected_checkpoint_ref request = None)) as [E1|E1];
  destruct (bool_decide_reflect (ptr_expected_checkpoint_ref request
    = ss_active_checkpoint_ref snapshot)) as [E2|E2];
  destruct (pending_active (ss_pending_interaction snapshot));
  destruct (is_waiting_state (ss_fsm_state snapshot)); simpl; naive_solver.
Qed.

(** ** Witnesses *)

Definition sample_io : IoOutcome :=
  {| io_create_directories := true; io_open := true; io_bytes_stored := 4096; io_rename := true |}.

Definition sample_root : string := "/var/lib/dasall".

Definition sample_interaction : PendingInteractionState :=
  {| pi_interaction_kind := PendingInteractionKind.Confirm; pi_prompt_token := "tok";
     pi_deadline_ms := Some 1700000000000; pi_blocking_reason := "delete?";
     pi_resume_channel := "cli"; pi_input_schema_hint := "yes/no" |}.

Definition sample_session : SessionSnapshot :=
  {| ss_session_id := "session-1"; ss_request_id := "req-7"; ss_turn_index := 4;
     ss_active_checkpoint_ref := None; ss_fsm_state := RuntimeState.Responding;
     ss_budget_snapshot_ref := Some "budget-4";
     ss_pending_interaction := Some sample_interaction;
     ss_last_result_summary := Some "done" |}.

Definition sample_persist : SessionPersistRequest :=
  {| spr_session_snapshot := sample_session; spr_terminal_state := RuntimeState.WaitingConfirm;
     spr_checkpoint_ref := Some "ckpt-1"; spr_audit_summary := None;
     spr_next_resume_seed_ref := None |}.

Definition sample_load : SessionLoadRequest :=
  {| slr_session_id := "session-1"; slr_request_id := "req-7";
     slr_checkpoint_ref := Some "ckpt-1"; slr_allow_session_create := true |}.

Definition sample_bind : BindCheckpointRefRequest :=
  {| bcr_session_id := "session-1"; bcr_request_id := "req-7"; bcr_checkpoint_ref := "ckpt-1";
     bcr_fsm_state := RuntimeState.WaitingConfirm;
     bcr_pending_interaction := Some sample_interaction |}.

Lemma sample_interaction_encodable i :
  Some sample_interaction = Some i ->
  kind_ok (pi_interaction_kind i) /\ (forall t, pi_deadline_ms i = Some t -> in_s64 t).
Proof. intros [= <-]. split; [done|]. intros t [= <-]. unfold in_s64. lia. Qed.

Lemma persisted_turn_survives_restart_witness :
  spres_persisted (snd (persist_turn sample_io ∅ (restarted sample_root) sample_persist)) = true.
Proof.
  pose proof (persisted_turn_survives_restart sample_io ∅ (restarted sample_root) sample_persist
    sample_load sample_root eq_refl ltac:(discriminate) eq_refl ltac:(discriminate)) as H.
  destruct (persist_turn _ _ _ _) as [[fs' m'] result]. apply H.
  - split_and!; [unfold in_u32; simpl; lia..|done|apply sample_interaction_encodable].
  - split_and!; [done..|]. apply Nat.leb_le. vm_compute. reflexivity.
  - reflexivity.
  - reflexivity.
Defined.

Lemma corrupt_session_replaced_witness :
  slres_accepted (snd (load_session true
    {[ session_record_path sample_root "session-1" := "" ]} (restarted sample_root) sample_load))
  = true.
Proof.
  assert (read_durable_session_record true
    {[ session_record_path sample_root "session-1" := "" ]} sample_root "session-1"
    = Corrupt "durable session record is missing session_id") as Hread by (vm_compute; reflexivity).
  exact (proj1 (corrupt_session_replaced _ sample_root sample_load _ true
    ltac:(discriminate) eq_refl eq_refl Hread)).
Defined.

Lemma bind_forgets_unloaded_session_witness :
  ss_turn_index (bound_snapshot sample_bind (Some sample_session)) = 4 /\
  ss_turn_index (bound_snapshot sample_bind None) = 0.
Proof.
  assert (loaded_record (read_durable_session_record true
    {[ session_record_path sample_root "session-1" := session_record_output sample_session ]}
    sample_root "session-1") = Some sample_session) as Hread by (vm_compute; reflexivity).
  pose proof (bind_forgets_unloaded_session sample_io _ sample_root sample_bind sample_session
    sample_load ltac:(discriminate) eq_refl Hread eq_refl eq_refl) as H.
  cbv zeta in H. destruct H as (_ & H0 & _ & _ & H4 & _).
  - split_and!; [unfold in_u32; simpl; lia..|done|apply sample_interaction_encodable].
  - split_and!; [done..|]. apply Nat.leb_le. vm_compute. reflexivity.
  - split; [exact H4|exact H0].
Defined.
