(* ===== verification/ResumeFlow.v ===== *)
(** * Resuming a paused turn

    The checkpoint and session managers together, as AgentOrchestrator.cpp uses
    them: a turn that stops in a waiting state saves a checkpoint and binds it to
    its session, and after a restart the session is loaded, prepared and turned
    into a seed the checkpoint is resumed with. *)

From S2P Require Import Prelude CheckpointContracts Fsm SessionTypes Text.
From S2P Require Import Checkpoint DurableStore CheckpointStore CheckpointManager.
From S2P Require Import SessionStore.
From S2P Require SessionManager.

(** ** The two stores under one root *)

Lemma stores_disjoint_names (s t : string) : "sessions" +:+ "/" +:+ s <> "checkpoints" +:+ "/" +:+ t.
Proof. discriminate. Qed.

(** A session write leaves every checkpoint record alone. *)
Lemma session_write_keeps_checkpoints io fs root s ref ok_open :
  ss_session_id s <> "" ->
  ds_read (R := ParsedCheckpointRecord) ok_open (fst (fst (ds_write io fs root s))) root ref
  = ds_read ok_open fs root ref.
Proof.
  intros Hid. pose proof (ds_write_publishes io fs root s Hid) as Hw.
  destruct (ds_write io fs root s) as [[fs' ok] detail]. cbn [fst].
  pose proof (publish_other_directory io fs root "sessions" "checkpoints" (ss_session_id s) ref
    (session_record_output s)) as Ho.
  cbn [ds_directory ds_ref ds_encode session_store] in Hw.
  destruct (publish_record _ _ _ _) as [fs'' status]. destruct Hw as [-> _].
  apply ds_read_local. apply Ho; [done..|]. apply stores_disjoint_names.
Qed.

(** ** Seeds *)

Lemma seeded_plan cp seed plan :
  seed_has_minimum_requirements seed = true ->
  rpd_resumable (synthesize_resume_plan cp) = true ->
  rpd_plan (synthesize_resume_plan cp) = Some plan ->
  rp_checkpoint_ref plan = rs_checkpoint_ref seed ->
  cp_request_id cp = None \/ cp_request_id cp = Some (rs_request_id seed) ->
  exists plan', rpd_plan (make_resume_plan_with_seed cp seed) = Some plan' /\
    rpd_resumable (make_resume_plan_with_seed cp seed) = true /\
    rp_target_state plan' = rp_target_state plan /\
    rp_resume_token plan' = rs_resume_token seed.
Proof.
  intros Hmin Hr Hplan Href Hreq. unfold make_resume_plan_with_seed.
  rewrite Hmin, Hr, Hplan. cbn [negb]. rewrite bool_decide_true by done. cbn [negb].
  replace (_ && _) with false; [by eexists|].
  destruct Hreq as [-> | ->]; [done|]. by rewrite (bool_decide_true (_ = _)), andb_false_r.
Qed.

Lemma waiting_target w c :
  SessionManager.is_waiting_state w = true -> to_checkpoint_state w = Some c ->
  resume_target_state c = Some w.
Proof. destruct w; try done; by intros _ [= <-]. Qed.

Lemma waiting_plan cp w c :
  ccr_consistent (evaluate_checkpoint_consistency cp) = true ->
  SessionManager.is_waiting_state w = true -> to_checkpoint_state w = Some c ->
  cp_state cp = Some c ->
  exists plan, rpd_plan (synthesize_resume_plan cp) = Some plan /\
    rpd_resumable (synthesize_resume_plan cp) = true /\
    cp_checkpoint_id cp = Some (rp_checkpoint_ref plan) /\ rp_target_state plan = w.
Proof.
  intros Hc Hw Hfold Hs. pose proof (waiting_target w c Hw Hfold) as Ht.
  unfold synthesize_resume_plan. rewrite Hc. cbn [negb].
  apply consistent_iff in Hc as ((Hid & _) & (s & a & Hs' & Ha & _ & Hwait) & _).
  apply has_non_empty_value_true in Hid as (id & -> & Hne%is_empty_false). rewrite Hne, Hs.
  simpl. rewrite Ht. rewrite Hs in Hs'. injection Hs' as <-.
  destruct (is_waiting_checkpoint_state c) eqn:E; simpl; [|by eexists].
  rewrite Ha. simpl. rewrite (proj2 (is_empty_false a)) by auto. simpl. by eexists.
Qed.

(** ** The flow *)

Section ResumeFlow.
Context (io_checkpoint io_session : IoOutcome) (fs : FileSystem) (root : string).
Context (m : CheckpointManager) (sm : SessionManager.SessionManager).
Context (cp : Checkpoint) (snapshot : option BudgetSnapshot) (w : RuntimeState).
Context (bind : BindCheckpointRefRequest) (token reason : string) (policy : option string).

Let ref := default "" (cp_checkpoint_id cp).
Let bound := SessionManager.bound_snapshot bind
  (SessionManager.sm_stored_snapshots sm !! bcr_session_id bind).

(** The turn stopped in a waiting state, and its checkpoint records that. *)
Hypothesis Hcons : ccr_consistent (evaluate_checkpoint_consistency cp) = true.
Hypothesis Hrep : representable cp snapshot.
Hypothesis Hwaiting : SessionManager.is_waiting_state w = true.
Hypothesis Hstate : cp_state cp = to_checkpoint_state w.
(** Its session is bound to that checkpoint in that state. *)
Hypothesis Hbind : bind_has_minimum_requirements bind = true.
Hypothesis Hbind_ref : bcr_checkpoint_ref bind = ref.
Hypothesis Hbind_state : bcr_fsm_state bind = w.
Hypothesis Hrequest : cp_request_id cp = None \/ cp_request_id cp = Some (bcr_request_id bind).
Hypothesis Hsession : session_encodable bound.
(** Both managers persist under one root, and the disk is sound. *)
Hypothesis Hroot : root <> "".
Hypothesis Hm : cm_durable_state_root m = Some root.
Hypothesis Hsm : SessionManager.sm_durable_state_root sm = Some root.
Hypothesis Hio1 : io_sound io_checkpoint (checkpoint_record_output cp snapshot).
Hypothesis Hio2 : io_sound io_session (session_record_output bound).
(** The resume request carries a token and a reason. *)
Hypothesis Htoken : token <> "".
Hypothesis Hreason : reason <> "".

(** What the first process writes, read back by a second one. *)
Lemma paused_turn_on_disk :
  let fs1 := fst (fst (save_with_snapshot io_checkpoint fs m cp snapshot)) in
  let fs2 := fst (fst (SessionManager.bind_checkpoint_ref io_session fs1 sm bind)) in
  loaded_record (ds_read true fs2 root ref)
    = Some {| pcr_checkpoint := cp; pcr_runtime_budget_snapshot := snapshot |} /\
  loaded_record (ds_read true fs2 root (bcr_session_id bind)) = Some bound.
Proof.
  intros fs1 fs2.
  pose proof (save_sound io_checkpoint fs m cp snapshot root Hcons Hrep Hm Hio1) as Hs.
  unfold fs1 in *. clear fs1.
  destruct (save_with_snapshot io_checkpoint fs m cp snapshot) as [[fs1 m1] saved].
  destruct Hs as (_ & _ & Hcp). cbn [fst] in fs2.
  pose proof (SessionManager.bind_sound io_session fs1 sm bind root Hbind Hsm Hsession Hio2) as Hb.
  unfold fs2. clear fs2.
  destruct (SessionManager.bind_checkpoint_ref io_session fs1 sm bind) as [[fs2 sm1] result].
  destruct Hb as (_ & Hs & Hfs). cbn [fst]. split; [|done].
  rewrite Hfs, session_write_keeps_checkpoints; [done|].
  unfold bind_has_minimum_requirements in Hbind. rewrite !andb_true_iff in Hbind.
  destruct Hbind as [[H _] _]. by apply negb_true_iff, is_empty_false in H.
Qed.

(** C28. A paused turn can be resumed after a restart. Its checkpoint saved and
    its session bound, new managers on the same disk load the session under that
    checkpoint, prepare it, build a seed from it, load the checkpoint and plan
    its resumption into the very waiting state the turn stopped in, with the
    seed's token. *)
Theorem paused_turn_resumes :
  let fs1 := fst (fst (save_with_snapshot io_checkpoint fs m cp snapshot)) in
  let fs2 := fst (fst (SessionManager.bind_checkpoint_ref io_session fs1 sm bind)) in
  let loaded_session := snd (SessionManager.load_session true fs2
    (SessionManager.restarted root)
    {| slr_session_id := bcr_session_id bind; slr_request_id := bcr_request_id bind;
       slr_checkpoint_ref := Some ref; slr_allow_session_create := false |}) in
  let loaded_checkpoint := snd (load true fs2 (CheckpointManager.restarted root) ref) in
  exists session seed plan,
    slres_snapshot loaded_session = Some session /\
    ptres_effective_session (SessionManager.prepare_turn
      {| ptr_session_snapshot := session; ptr_resume_turn := true;
         ptr_expected_checkpoint_ref := Some ref |}) = Some session /\
    rsres_resume_seed (SessionManager.build_resume_seed
      {| brs_session_snapshot := session; brs_checkpoint_ref := ref;
         brs_resume_token := token; brs_resume_reason := reason;
         brs_policy_snapshot_ref := policy |}) = Some seed /\
    clr_checkpoint loaded_checkpoint = Some cp /\
    rpd_plan (make_resume_plan_with_seed cp seed) = Some plan /\
    rp_target_state plan = w /\ rp_resume_token plan = token.
Proof.
  intros fs1 fs2 loaded_session loaded_checkpoint.
  destruct paused_turn_on_disk as [Hcp Hs]. fold fs1 fs2 in Hcp, Hs.
  pose proof Hbind as Hmin. unfold bind_has_minimum_requirements in Hmin.
  rewrite !andb_true_iff, !negb_true_iff in Hmin. destruct Hmin as [[Hid Hreq] Href].
  assert (rs_ok : SessionManager.pending_active (ss_pending_interaction bound)
    && negb (SessionManager.is_waiting_state (ss_fsm_state bound)) = false).
  { simpl. by rewrite Hbind_state, Hwaiting, andb_false_r. }
  assert (Hanchor : ss_active_checkpoint_ref bound = Some ref) by (simpl; by rewrite Hbind_ref).
  destruct (to_checkpoint_state w) as [c|] eqn:Hc; [|by destruct w].
  destruct (waiting_plan cp w c Hcons Hwaiting Hc Hstate) as (base & Hbase & Hres & Hbid & Hbt).
  set (seed := {| rs_session_id := bcr_session_id bind; rs_request_id := bcr_request_id bind;
    rs_checkpoint_ref := ref; rs_resume_token := token; rs_fsm_state := w;
    rs_pending_interaction := bcr_pending_interaction bind; rs_policy_snapshot_ref := policy;
    rs_resume_reason := reason |}).
  apply is_empty_false in Htoken, Hreason. rewrite Hbind_ref in Href.
  destruct (seeded_plan cp seed base) as (plan & Hplan & _ & Htarget & Htok).
  - unfold seed_has_minimum_requirements. simpl. by rewrite Hid, Hreq, Href, Htoken, Hreason.
  - done.
  - done.
  - simpl. unfold ref. by rewrite Hbid.
  - done.
  - exists bound, seed, plan. split_and!; [..|congruence|done].
    + unfold loaded_session. rewrite SessionManager.load_session_restarted;
        [|done|unfold load_has_minimum_requirements; simpl; by rewrite Hid, Hreq].
      cbn [slr_session_id slr_checkpoint_ref].
      destruct (ds_read true fs2 root (bcr_session_id bind)) as [|?|s d]; [done..|].
      injection Hs as ->. unfold SessionManager.load_of. cbn [slr_checkpoint_ref].
      by rewrite Hanchor, (bool_decide_true (Some ref = Some ref)), orb_true_r.
    + unfold SessionManager.prepare_turn. cbn [ptr_expected_checkpoint_ref ptr_session_snapshot].
      by rewrite Hanchor, (bool_decide_true (Some ref = Some ref)), andb_false_r, rs_ok.
    + unfold SessionManager.build_resume_seed, build_seed_has_minimum_requirements.
      cbn [brs_session_snapshot brs_checkpoint_ref brs_resume_token brs_resume_reason
           ss_session_id ss_request_id bound SessionManager.bound_snapshot].
      rewrite Hid, Hreq, Href, Htoken, Hreason. cbn [andb negb].
      change (ss_active_checkpoint_ref _) with (Some (bcr_checkpoint_ref bind)).
      rewrite Hbind_ref, (bool_decide_true (Some ref = Some ref)), andb_false_r by done.
      simpl. by rewrite Hbind_state.
    + unfold loaded_checkpoint.
      destruct (load_restarted_record true fs2 root ref cp snapshot Hroot Hcons Hcp)
        as (_ & H & _). exact H.
    + done.
Qed.
End ResumeFlow.

(** ** Witness *)

Lemma paused_turn_resumes_witness :
  exists seed plan, rpd_plan (make_resume_plan_with_seed sample_checkpoint seed) = Some plan /\
    rp_target_state plan = RuntimeState.WaitingConfirm /\ rp_resume_token plan = "token".
Proof.
  destruct (paused_turn_resumes sample_io SessionManager.sample_io ∅ sample_root
    (restarted sample_root) (SessionManager.restarted sample_root) sample_checkpoint
    (Some sample_budget_snapshot) RuntimeState.WaitingConfirm SessionManager.sample_bind
    "token" "user confirmed" None sample_consistent sample_representable
    eq_refl eq_refl eq_refl eq_refl eq_refl (or_intror eq_refl))
    as (session & seed & plan & _ & _ & _ & _ & Hplan & Htarget & Htoken).
  - split_and!; [by vm_compute..|apply SessionManager.sample_interaction_encodable].
  - discriminate.
  - reflexivity.
  - reflexivity.
  - apply sample_io_sound.
  - split_and!; [done..|]. apply Nat.leb_le. vm_compute. reflexivity.
  - discriminate.
  - discriminate.
  - exists seed, plan. split; [exact Hplan|]. split; [exact Htarget|exact Htoken].
Defined.
