(* ===== verification/Scheduling.v ===== *)
(** * Cancellation tokens and the scheduler

    runtime/include/CancellationToken.h: copies of a token share one state, so a
    token is a handle into a store of states; what one holder does every other
    sees. The clock is an argument: [is_cancelled] is called at some time.

    runtime/include/scheduling/{SchedulerTicket,IScheduler}.h and
    runtime/src/scheduling/Scheduler.cpp: the three priority queues, their
    overflow rules and the worker budget. The lock is held for a whole operation;
    logging is left out. *)

From stdpp Require Import sorting.
From S2P Require Import Prelude Text.

(** ** State *)

Record TokenState := {
  ts_cancelled : bool;
  ts_deadline_epoch_ms : Z;
}.

Definition initial_token_state : TokenState :=
  {| ts_cancelled := false; ts_deadline_epoch_ms := -1 |}.

(** A token: the shared pointer's target. *)
Definition CancellationToken := positive.

Abbreviation TokenStore := (gmap positive TokenState).

Definition token_state (store : TokenStore) (token : CancellationToken) : TokenState :=
  default initial_token_state (store !! token).

(** ** Operations *)

(** The constructor makes a state no other token shares. *)
Definition make_token (store : TokenStore) : TokenStore * CancellationToken :=
  let token := fresh (dom store : gset positive) in
  (<[token := initial_token_state]> store, token).

Definition cancel (store : TokenStore) (token : CancellationToken) : TokenStore :=
  <[token := {| ts_cancelled := true;
                ts_deadline_epoch_ms := ts_deadline_epoch_ms (token_state store token) |}]> store.

(** [duration_cast<milliseconds>] of the nanoseconds since the epoch truncates
    towards zero. *)
Definition to_epoch_ms (deadline_ns : Z) : Z := Z.quot deadline_ns 1000000.

Definition bind_deadline (store : TokenStore) (token : CancellationToken) (deadline_ns : Z)
    : TokenStore :=
  <[token := {| ts_cancelled := ts_cancelled (token_state store token);
                ts_deadline_epoch_ms := to_epoch_ms deadline_ns |}]> store.

Definition has_deadline (store : TokenStore) (token : CancellationToken) : bool :=
  0 <=? ts_deadline_epoch_ms (token_state store token).

(** In milliseconds since the epoch. *)
Definition deadline (store : TokenStore) (token : CancellationToken) : option Z :=
  let deadline_ms := ts_deadline_epoch_ms (token_state store token) in
  if deadline_ms <? 0 then None else Some deadline_ms.

(** A deadline found to have passed is recorded as a cancellation. *)
Definition is_cancelled (store : TokenStore) (token : CancellationToken) (now_ms : Z)
    : TokenStore * bool :=
  if ts_cancelled (token_state store token) then (store, true) else
  let deadline_ms := ts_deadline_epoch_ms (token_state store token) in
  if (0 <=? deadline_ms) && (deadline_ms <=? now_ms) then (cancel store token, true)
  else (store, false).

(** ** Histories *)

(** One operation of any holder of any token, at any time. *)
Inductive token_op :=
| OpMake
| OpCancel (token : CancellationToken)
| OpBindDeadline (token : CancellationToken) (deadline_ns : Z)
| OpIsCancelled (token : CancellationToken) (now_ms : Z).

Definition run_op (store : TokenStore) (op : token_op) : TokenStore :=
  match op with
  | OpMake => fst (make_token store)
  | OpCancel token => cancel store token
  | OpBindDeadline token deadline_ns => bind_deadline store token deadline_ns
  | OpIsCancelled token now_ms => fst (is_cancelled store token now_ms)
  end.

Definition run_ops (store : TokenStore) (ops : list token_op) : TokenStore :=
  fold_left run_op ops store.

Lemma token_state_insert store token s : token_state (<[token := s]> store) token = s.
Proof. unfold token_state. by rewrite lookup_insert_eq. Qed.

Lemma token_state_insert_ne store token token' s :
  token <> token' -> token_state (<[token := s]> store) token' = token_state store token'.
Proof. intros H. unfold token_state. by rewrite lookup_insert_ne. Qed.

Lemma cancel_cancels store token token' :
  ts_cancelled (token_state (cancel store token) token')
  = bool_decide (token = token') || ts_cancelled (token_state store token').
Proof.
  unfold cancel. destruct (bool_decide_reflect (token = token')) as [<-|Hne].
  - by rewrite token_state_insert.
  - by rewrite token_state_insert_ne.
Qed.

Lemma cancelled_live store token :
  ts_cancelled (token_state store token) = true -> token ∈ dom store.
Proof.
  unfold token_state. intros H. apply elem_of_dom. by destruct (store !! token).
Qed.

(** No operation takes a cancellation back. *)
Lemma run_op_keeps store op token :
  ts_cancelled (token_state store token) = true ->
  ts_cancelled (token_state (run_op store op) token) = true.
Proof.
  intros H. destruct op as [|t|t d|t now]; simpl.
  - rewrite token_state_insert_ne; [done|]. intros E.
    rewrite <-E in H. apply cancelled_live in H. revert H. apply is_fresh.
  - rewrite cancel_cancels, H. apply orb_true_r.
  - unfold bind_deadline. destruct (decide (t = token)) as [->|Hne].
    + by rewrite token_state_insert.
    + by rewrite token_state_insert_ne.
  - unfold is_cancelled. destruct (ts_cancelled (token_state store t)); [done|].
    destruct (_ && _); simpl; [|done]. rewrite cancel_cancels, H. apply orb_true_r.
Qed.

Lemma run_ops_keep store ops token :
  ts_cancelled (token_state store token) = true ->
  ts_cancelled (token_state (run_ops store ops) token) = true.
Proof.
  revert store. induction ops as [|op ops IH]; intros store H; [done|].
  apply IH. by apply run_op_keeps.
Qed.

Lemma is_cancelled_answer store token now :
  snd (is_cancelled store token now)
  = ts_cancelled (token_state (fst (is_cancelled store token now)) token).
Proof.
  unfold is_cancelled. destruct (ts_cancelled _) eqn:E; simpl; [by rewrite E|].
  destruct (_ && _); simpl; [|by rewrite E]. by rewrite cancel_cancels, bool_decide_true.
Qed.

(** Cancellation is shared and final: once any holder of a token has
    cancelled it, or has been told it is cancelled because its deadline passed,
    every holder is told so ever after, whatever operations on whatever tokens
    come in between, a new deadline or a clock set back included. *)
Theorem cancellation_is_final store token now ops later :
  snd (is_cancelled store token now) = true ->
  snd (is_cancelled (run_ops (fst (is_cancelled store token now)) ops) token later) = true /\
  snd (is_cancelled (run_ops (cancel store token) ops) token later) = true.
Proof.
  rewrite is_cancelled_answer. intros H.
  assert (forall s, ts_cancelled (token_state s token) = true ->
    snd (is_cancelled (run_ops s ops) token later) = true) as Hkeep.
  { intros s Hs. unfold is_cancelled. by rewrite run_ops_keep. }
  split; apply Hkeep; [done|]. by rewrite cancel_cancels, bool_decide_true.
Qed.

Lemma cancellation_is_final_witness :
  let store := bind_deadline ∅ 1%positive 5000000 in
  snd (is_cancelled
    (run_ops (fst (is_cancelled store 1%positive 7)) [OpBindDeadline 1%positive 9000000000])
    1%positive 6) = true.
Proof.
  intros store. assert (snd (is_cancelled store 1%positive 7) = true) as H by (vm_compute; reflexivity).
  exact (proj1 (cancellation_is_final store 1%positive 7
    [OpBindDeadline 1%positive 9000000000] 6 H)).
Defined.

(** ** Data *)

Module SchedulerPriorityClass.
Inductive SchedulerPriorityClass := ForegroundInteractive | Recovery | Maintenance.
#[global] Instance SchedulerPriorityClass_eq_dec : EqDecision SchedulerPriorityClass.
Proof. solve_decision. Defined.
End SchedulerPriorityClass.
Abbreviation SchedulerPriorityClass := SchedulerPriorityClass.SchedulerPriorityClass.

Module SchedulerOverflowDisposition.
Inductive SchedulerOverflowDisposition := RejectNew | EnterFailedSafe | DropOldest.
End SchedulerOverflowDisposition.
Abbreviation SchedulerOverflowDisposition :=
  SchedulerOverflowDisposition.SchedulerOverflowDisposition.

Definition scheduler_overflow_disposition (priority_class : SchedulerPriorityClass)
    : SchedulerOverflowDisposition :=
  match priority_class with
  | SchedulerPriorityClass.ForegroundInteractive => SchedulerOverflowDisposition.RejectNew
  | SchedulerPriorityClass.Recovery => SchedulerOverflowDisposition.EnterFailedSafe
  | SchedulerPriorityClass.Maintenance => SchedulerOverflowDisposition.DropOldest
  end.

Module SchedulerTicketState.
Inductive SchedulerTicketState := Queued | WorkerAssigned | Released | Rejected.
End SchedulerTicketState.
Abbreviation SchedulerTicketState := SchedulerTicketState.SchedulerTicketState.

Module SchedulerBackpressureSignal.
Inductive SchedulerBackpressureSignal :=
| None | ForegroundBusy | RecoveryFailedSafe | MaintenanceDropOldest | WorkerPoolSaturated.
#[global] Instance SchedulerBackpressureSignal_eq_dec : EqDecision SchedulerBackpressureSignal.
Proof. solve_decision. Defined.
End SchedulerBackpressureSignal.
Abbreviation SchedulerBackpressureSignal :=
  SchedulerBackpressureSignal.SchedulerBackpressureSignal.

Record WorkerLeaseBudget := {
  wl_max_workers : Z;
  wl_busy_workers : Z;
}.

Definition has_capacity (budget : WorkerLeaseBudget) : bool :=
  wl_busy_workers budget <? wl_max_workers budget.

Record SchedulerTicketRequest := {
  str_ticket_id : string;
  str_request_id : string;
  str_session_id : option string;
  str_priority_class : SchedulerPriorityClass;
  str_cancellation_token : CancellationToken;
  str_checkpoint_ref : option string;
  str_queue_key : option string;
}.

Definition ticket_has_minimum_requirements (request : SchedulerTicketRequest) : bool :=
  negb (is_empty (str_ticket_id request)) && negb (is_empty (str_request_id request)).

Record SchedulerTicket := {
  st_ticket_id : string;
  st_request_id : string;
  st_session_id : option string;
  st_priority_class : SchedulerPriorityClass;
  st_cancellation_token : CancellationToken;
  st_checkpoint_ref : option string;
  st_queue_key : option string;
  st_assigned_worker_id : option string;
  st_enqueue_sequence : Z;
  st_state : SchedulerTicketState;
}.

Definition has_worker_assignment (ticket : SchedulerTicket) : bool :=
  has_non_empty_value (st_assigned_worker_id ticket).

Record SchedulerBackpressureState := {
  sb_foreground_queue_depth : Z;
  sb_foreground_queue_limit : Z;
  sb_recovery_queue_depth : Z;
  sb_recovery_queue_limit : Z;
  sb_maintenance_queue_depth : Z;
  sb_maintenance_queue_limit : Z;
  sb_worker_budget : WorkerLeaseBudget;
  sb_dominant_signal : SchedulerBackpressureSignal;
  sb_rejecting_foreground : bool;
  sb_failed_safe_recommended : bool;
  sb_dropping_oldest_maintenance : bool;
}.

Definition workers_saturated (state : SchedulerBackpressureState) : bool :=
  negb (has_capacity (sb_worker_budget state)).

Definition overloaded (state : SchedulerBackpressureState) : bool :=
  negb (bool_decide (sb_dominant_signal state = SchedulerBackpressureSignal.None))
  || sb_rejecting_foreground state || sb_failed_safe_recommended state
  || sb_dropping_oldest_maintenance state || workers_saturated state.

Definition make_scheduler_ticket (request : SchedulerTicketRequest) (enqueue_sequence : Z)
    (state : SchedulerTicketState) (assigned_worker_id : option string) : SchedulerTicket :=
  {| st_ticket_id := str_ticket_id request; st_request_id := str_request_id request;
     st_session_id := str_session_id request;
     st_priority_class := str_priority_class request;
     st_cancellation_token := str_cancellation_token request;
     st_checkpoint_ref := str_checkpoint_ref request; st_queue_key := str_queue_key request;
     st_assigned_worker_id := assigned_worker_id; st_enqueue_sequence := enqueue_sequence;
     st_state := state |}.

Record AcquireWorkerRequest := {
  awr_worker_budget : WorkerLeaseBudget;
  awr_preferred_priority_class : option SchedulerPriorityClass;
  awr_preferred_ticket_id : option string;
}.

Record SchedulerEnqueueResult := {
  ser_accepted : bool;
  ser_ticket : option SchedulerTicket;
  ser_applied_overflow_disposition : option SchedulerOverflowDisposition;
  ser_backpressure_state : SchedulerBackpressureState;
  ser_detail : string;
}.

Record AcquireWorkerResult := {
  awres_acquired : bool;
  awres_ticket : option SchedulerTicket;
  awres_backpressure_state : SchedulerBackpressureState;
  awres_detail : string;
}.

Record ReleaseWorkerRequest := {
  rwr_ticket : SchedulerTicket;
  rwr_worker_completed : bool;
}.

Record ReleaseWorkerResult := {
  rwres_released : bool;
  rwres_backpressure_state : SchedulerBackpressureState;
  rwres_detail : string;
}.

Definition make_scheduler_enqueue_result (ticket : SchedulerTicket)
    (backpressure_state : SchedulerBackpressureState) (detail : string)
    (applied_overflow_disposition : option SchedulerOverflowDisposition)
    : SchedulerEnqueueResult :=
  {| ser_accepted := true; ser_ticket := Some ticket;
     ser_applied_overflow_disposition := applied_overflow_disposition;
     ser_backpressure_state := backpressure_state; ser_detail := detail |}.

Definition make_acquire_worker_result (ticket : SchedulerTicket)
    (backpressure_state : SchedulerBackpressureState) (detail : string) : AcquireWorkerResult :=
  {| awres_acquired := true; awres_ticket := Some ticket;
     awres_backpressure_state := backpressure_state; awres_detail := detail |}.

Definition make_release_worker_result (backpressure_state : SchedulerBackpressureState)
    (detail : string) : ReleaseWorkerResult :=
  {| rwres_released := true; rwres_backpressure_state := backpressure_state;
     rwres_detail := detail |}.

(** ** The scheduler *)

Record Scheduler := {
  sc_foreground_queue : list SchedulerTicket;
  sc_recovery_queue : list SchedulerTicket;
  sc_maintenance_queue : list SchedulerTicket;
  sc_worker_budget : WorkerLeaseBudget;
  sc_next_sequence : Z;
  sc_recovery_queue_limit : Z;
  sc_maintenance_queue_limit : Z;
}.

Definition new_scheduler (recovery_queue_limit maintenance_queue_limit : Z) : Scheduler :=
  {| sc_foreground_queue := []; sc_recovery_queue := []; sc_maintenance_queue := [];
     sc_worker_budget := {| wl_max_workers := 1; wl_busy_workers := 0 |};
     sc_next_sequence := 1;
     sc_recovery_queue_limit := recovery_queue_limit;
     sc_maintenance_queue_limit := maintenance_queue_limit |}.

Definition queue_size (queue : list SchedulerTicket) : Z := Z.of_nat (length queue).

Definition with_queues (foreground recovery maintenance : list SchedulerTicket) (s : Scheduler)
    : Scheduler :=
  {| sc_foreground_queue := foreground; sc_recovery_queue := recovery;
     sc_maintenance_queue := maintenance; sc_worker_budget := sc_worker_budget s;
     sc_next_sequence := sc_next_sequence s;
     sc_recovery_queue_limit := sc_recovery_queue_limit s;
     sc_maintenance_queue_limit := sc_maintenance_queue_limit s |}.

Definition with_worker_budget (budget : WorkerLeaseBudget) (s : Scheduler) : Scheduler :=
  {| sc_foreground_queue := sc_foreground_queue s; sc_recovery_queue := sc_recovery_queue s;
     sc_maintenance_queue := sc_maintenance_queue s; sc_worker_budget := budget;
     sc_next_sequence := sc_next_sequence s;
     sc_recovery_queue_limit := sc_recovery_queue_limit s;
     sc_maintenance_queue_limit := sc_maintenance_queue_limit s |}.

Definition with_next_sequence (next_sequence : Z) (s : Scheduler) : Scheduler :=
  {| sc_foreground_queue := sc_foreground_queue s; sc_recovery_queue := sc_recovery_queue s;
     sc_maintenance_queue := sc_maintenance_queue s; sc_worker_budget := sc_worker_budget s;
     sc_next_sequence := next_sequence;
     sc_recovery_queue_limit := sc_recovery_queue_limit s;
     sc_maintenance_queue_limit := sc_maintenance_queue_limit s |}.

Definition compute_backpressure_state_locked (s : Scheduler)
    (dominant_signal : SchedulerBackpressureSignal) : SchedulerBackpressureState :=
  {| sb_foreground_queue_depth := u32 (queue_size (sc_foreground_queue s));
     sb_foreground_queue_limit := 1;
     sb_recovery_queue_depth := u32 (queue_size (sc_recovery_queue s));
     sb_recovery_queue_limit := sc_recovery_queue_limit s;
     sb_maintenance_queue_depth := u32 (queue_size (sc_maintenance_queue s));
     sb_maintenance_queue_limit := sc_maintenance_queue_limit s;
     sb_worker_budget := sc_worker_budget s;
     sb_dominant_signal := dominant_signal;
     sb_rejecting_foreground :=
       bool_decide (dominant_signal = SchedulerBackpressureSignal.ForegroundBusy);
     sb_failed_safe_recommended :=
       bool_decide (dominant_signal = SchedulerBackpressureSignal.RecoveryFailedSafe);
     sb_dropping_oldest_maintenance :=
       bool_decide (dominant_signal = SchedulerBackpressureSignal.MaintenanceDropOldest) |}.

Definition enqueue_rejected (disposition : option SchedulerOverflowDisposition)
    (state : SchedulerBackpressureState) (detail : string) : SchedulerEnqueueResult :=
  {| ser_accepted := false; ser_ticket := None;
     ser_applied_overflow_disposition := disposition;
     ser_backpressure_state := state; ser_detail := detail |}.

(** [None]: [pop_front] of an empty maintenance queue, which a limit of zero
    makes full. *)
Definition enqueue (s : Scheduler) (request : SchedulerTicketRequest)
    : option (Scheduler * SchedulerEnqueueResult) :=
  if negb (ticket_has_minimum_requirements request) then
    Some (s, enqueue_rejected None
               (compute_backpressure_state_locked s SchedulerBackpressureSignal.None)
               "ticket_id and request_id are required")
  else
  let next_ticket := make_scheduler_ticket request (sc_next_sequence s)
                       SchedulerTicketState.Queued None in
  let s := with_next_sequence (u64 (sc_next_sequence s + 1)) s in
  let accepted s :=
    (s, make_scheduler_enqueue_result next_ticket
          (compute_backpressure_state_locked s SchedulerBackpressureSignal.None)
          "ticket accepted into scheduler queue" None) in
  match str_priority_class request with
  | SchedulerPriorityClass.ForegroundInteractive =>
      match sc_foreground_queue s with
      | _ :: _ =>
          Some (s, enqueue_rejected (Some SchedulerOverflowDisposition.RejectNew)
                     (compute_backpressure_state_locked s
                        SchedulerBackpressureSignal.ForegroundBusy)
                     "foreground queue already has an active request")
      | [] =>
          Some (accepted (with_queues (sc_foreground_queue s ++ [next_ticket])
                            (sc_recovery_queue s) (sc_maintenance_queue s) s))
      end
  | SchedulerPriorityClass.Recovery =>
      if sc_recovery_queue_limit s <=? queue_size (sc_recovery_queue s) then
        Some (s, enqueue_rejected (Some SchedulerOverflowDisposition.EnterFailedSafe)
                   (compute_backpressure_state_locked s
                      SchedulerBackpressureSignal.RecoveryFailedSafe)
                   "recovery queue saturated; escalate to FailedSafe")
      else
        Some (accepted (with_queues (sc_foreground_queue s)
                          (sc_recovery_queue s ++ [next_ticket]) (sc_maintenance_queue s) s))
  | SchedulerPriorityClass.Maintenance =>
      if sc_maintenance_queue_limit s <=? queue_size (sc_maintenance_queue s) then
        match sc_maintenance_queue s with
        | [] => None
        | _ :: rest =>
            let s := with_queues (sc_foreground_queue s) (sc_recovery_queue s)
                       (rest ++ [next_ticket]) s in
            Some (s, make_scheduler_enqueue_result next_ticket
                       (compute_backpressure_state_locked s
                          SchedulerBackpressureSignal.MaintenanceDropOldest)
                       "maintenance queue dropped oldest ticket before accepting new work"
                       (Some SchedulerOverflowDisposition.DropOldest))
        end
      else
        Some (accepted (with_queues (sc_foreground_queue s) (sc_recovery_queue s)
                          (sc_maintenance_queue s ++ [next_ticket]) s))
  end.

(** The ticket taken and the queue it leaves. *)
Definition pop_front_ticket_locked (queue : list SchedulerTicket)
    : option (SchedulerTicket * list SchedulerTicket) :=
  match queue with
  | [] => None
  | ticket :: rest => Some (ticket, rest)
  end.

Fixpoint pop_ticket_by_id_locked (queue : list SchedulerTicket) (ticket_id : string)
    : option (SchedulerTicket * list SchedulerTicket) :=
  match queue with
  | [] => None
  | ticket :: rest =>
      if bool_decide (st_ticket_id ticket = ticket_id) then Some (ticket, rest) else
      match pop_ticket_by_id_locked rest ticket_id with
      | Some (found, rest) => Some (found, ticket :: rest)
      | None => None
      end
  end.

(** Taking a ticket from one of the three queues, the others unchanged. *)
Definition pop_from (pop : list SchedulerTicket -> option (SchedulerTicket * list SchedulerTicket))
    (queue : SchedulerPriorityClass) (s : Scheduler) : option (SchedulerTicket * Scheduler) :=
  match queue with
  | SchedulerPriorityClass.ForegroundInteractive =>
      let? taken := pop (sc_foreground_queue s) else None in
      Some (fst taken, with_queues (snd taken) (sc_recovery_queue s) (sc_maintenance_queue s) s)
  | SchedulerPriorityClass.Recovery =>
      let? taken := pop (sc_recovery_queue s) else None in
      Some (fst taken, with_queues (sc_foreground_queue s) (snd taken) (sc_maintenance_queue s) s)
  | SchedulerPriorityClass.Maintenance =>
      let? taken := pop (sc_maintenance_queue s) else None in
      Some (fst taken, with_queues (sc_foreground_queue s) (sc_recovery_queue s) (snd taken) s)
  end.

(** The first of the three queues, in order of priority, that yields a ticket. *)
Definition pop_in_order
    (pop : list SchedulerTicket -> option (SchedulerTicket * list SchedulerTicket))
    (s : Scheduler) : option (SchedulerTicket * Scheduler) :=
  match pop_from pop SchedulerPriorityClass.ForegroundInteractive s with
  | Some taken => Some taken
  | None =>
      match pop_from pop SchedulerPriorityClass.Recovery s with
      | Some taken => Some taken
      | None => pop_from pop SchedulerPriorityClass.Maintenance s
      end
  end.

Definition pop_next_ticket_locked (s : Scheduler)
    (preferred_priority_class : option SchedulerPriorityClass)
    (preferred_ticket_id : option string) : option (SchedulerTicket * Scheduler) :=
  let by_id :=
    let? ticket_id := preferred_ticket_id else None in
    pop_in_order (fun queue => pop_ticket_by_id_locked queue ticket_id) s in
  match by_id with
  | Some taken => Some taken
  | None =>
      match preferred_priority_class with
      | Some queue => pop_from pop_front_ticket_locked queue s
      | None => pop_in_order pop_front_ticket_locked s
      end
  end.

Definition assign_worker (ticket : SchedulerTicket) (worker_id : string) : SchedulerTicket :=
  {| st_ticket_id := st_ticket_id ticket; st_request_id := st_request_id ticket;
     st_session_id := st_session_id ticket; st_priority_class := st_priority_class ticket;
     st_cancellation_token := st_cancellation_token ticket;
     st_checkpoint_ref := st_checkpoint_ref ticket; st_queue_key := st_queue_key ticket;
     st_assigned_worker_id := Some worker_id;
     st_enqueue_sequence := st_enqueue_sequence ticket;
     st_state := SchedulerTicketState.WorkerAssigned |}.

Definition worker_name (busy_workers : Z) : string :=
  "worker-" +:+ to_string (u32 (busy_workers + 1)).

Definition acquire_worker (s : Scheduler) (request : AcquireWorkerRequest)
    : Scheduler * AcquireWorkerResult :=
  let s := with_worker_budget (awr_worker_budget request) s in
  let not_acquired signal detail :=
    (s, {| awres_acquired := false; awres_ticket := None;
           awres_backpressure_state := compute_backpressure_state_locked s signal;
           awres_detail := detail |}) in
  if negb (has_capacity (sc_worker_budget s)) then
    not_acquired SchedulerBackpressureSignal.WorkerPoolSaturated "worker pool saturated"
  else
  match pop_next_ticket_locked s (awr_preferred_priority_class request)
          (awr_preferred_ticket_id request) with
  | None =>
      not_acquired SchedulerBackpressureSignal.None "no ticket available for acquisition"
  | Some (ticket, s) =>
      let budget := sc_worker_budget s in
      let ticket := assign_worker ticket (worker_name (wl_busy_workers budget)) in
      let s := with_worker_budget
        {| wl_max_workers := wl_max_workers budget;
           wl_busy_workers := u32 (wl_busy_workers budget + 1) |} s in
      (s, make_acquire_worker_result ticket
            (compute_backpressure_state_locked s SchedulerBackpressureSignal.None)
            "worker acquired from scheduler queue")
  end.

Definition release_worker (s : Scheduler) (request : ReleaseWorkerRequest)
    : Scheduler * ReleaseWorkerResult :=
  if negb (has_worker_assignment (rwr_ticket request)) then
    (s, {| rwres_released := false;
           rwres_backpressure_state :=
             compute_backpressure_state_locked s SchedulerBackpressureSignal.None;
           rwres_detail := "release_worker requires an assigned worker ticket" |})
  else
  let budget := sc_worker_budget s in
  let s :=
    if 0 <? wl_busy_workers budget then
      with_worker_budget
        {| wl_max_workers := wl_max_workers budget;
           wl_busy_workers := wl_busy_workers budget - 1 |} s
    else s in
  (s, make_release_worker_result
        (compute_backpressure_state_locked s SchedulerBackpressureSignal.None)
        (if rwr_worker_completed request then "worker released after completion"
         else "worker released without completion")).

Definition backpressure_state (s : Scheduler) : SchedulerBackpressureState :=
  compute_backpressure_state_locked s SchedulerBackpressureSignal.None.

(** ** Histories *)

(** The tickets waiting, and their sequence numbers. *)
Definition queued (s : Scheduler) : list SchedulerTicket :=
  sc_foreground_queue s ++ sc_recovery_queue s ++ sc_maintenance_queue s.

Definition sequences (tickets : list SchedulerTicket) : list Z := map st_enqueue_sequence tickets.

(** A scheduler after [n] operations, and the sequence numbers it has handed out
    to workers so far, the latest first. *)
Inductive scheduler_run (recovery_limit maintenance_limit : Z)
    : nat -> Scheduler -> list Z -> Prop :=
| run_new :
    scheduler_run recovery_limit maintenance_limit 0
      (new_scheduler recovery_limit maintenance_limit) []
| run_enqueue n s h request s' result :
    scheduler_run recovery_limit maintenance_limit n s h ->
    enqueue s request = Some (s', result) ->
    scheduler_run recovery_limit maintenance_limit (S n) s' h
| run_acquire n s h request s' result :
    scheduler_run recovery_limit maintenance_limit n s h ->
    acquire_worker s request = (s', result) ->
    scheduler_run recovery_limit maintenance_limit (S n) s'
      (match awres_ticket result with
       | Some ticket => st_enqueue_sequence ticket :: h
       | None => h
       end)
| run_release n s h request :
    scheduler_run recovery_limit maintenance_limit n s h ->
    scheduler_run recovery_limit maintenance_limit (S n) (fst (release_worker s request)) h.

(** ** Queues *)

Definition queue_ok (next : Z) (priority_class : SchedulerPriorityClass)
    (queue : list SchedulerTicket) : Prop :=
  StronglySorted Z.lt (sequences queue) /\
  Forall (fun t => st_enqueue_sequence t < next /\ st_priority_class t = priority_class) queue.

Lemma queue_ok_remove next c l1 t l2 :
  queue_ok next c (l1 ++ t :: l2) -> queue_ok next c (l1 ++ l2).
Proof.
  unfold queue_ok, sequences. rewrite !map_app, !Forall_app. simpl.
  intros [Hs [H1 H2]]. split; [|split; [done|by inversion H2]].
  rewrite StronglySorted_app in Hs |- *. destruct Hs as (Hcross & Hs1 & Hs2).
  apply StronglySorted_inv in Hs2 as [Hs2 _]. split_and!; [|done|done].
  intros x y Hx Hy. apply Hcross; [done|by right].
Qed.

Lemma queue_ok_push next c q t :
  queue_ok next c q -> st_enqueue_sequence t = next -> st_priority_class t = c ->
  queue_ok (next + 1) c (q ++ [t]).
Proof.
  intros [Hs Hf] Ht Hc. unfold queue_ok, sequences in *. rewrite map_app. split.
  - apply StronglySorted_app. split_and!; [|done|repeat constructor].
    intros x y Hx Hy. simpl in Hy. apply list_elem_of_singleton in Hy as ->.
    apply list_elem_of_In, in_map_iff in Hx as (t' & <- & Hin%list_elem_of_In).
    rewrite list.Forall_forall in Hf. apply Hf in Hin as [Hin _]. lia.
  - apply Forall_app. split; [|by repeat constructor; [lia|]].
    eapply Forall_impl; [exact Hf|]. simpl. intros t' [? ?]. split; [lia|done].
Qed.

Lemma queue_ok_mono next next' c q : next <= next' -> queue_ok next c q -> queue_ok next' c q.
Proof.
  intros Hle [Hs Hf]. split; [done|]. eapply Forall_impl; [exact Hf|].
  simpl. intros t' [? ?]. split; [lia|done].
Qed.

(** What both ways of taking a ticket have in common. *)
Definition takes (pop : list SchedulerTicket -> option (SchedulerTicket * list SchedulerTicket))
    : Prop :=
  forall q t q', pop q = Some (t, q') -> exists l1 l2, q = l1 ++ t :: l2 /\ q' = l1 ++ l2.

Lemma pop_front_takes : takes pop_front_ticket_locked.
Proof. intros [|t' q] t q'; [done|]. intros [= -> ->]. by exists [], q'. Qed.

Lemma pop_by_id_takes id : takes (fun q => pop_ticket_by_id_locked q id).
Proof.
  intros q. induction q as [|t' q IH]; intros t q'; simpl; [done|].
  case_bool_decide; [intros [= -> ->]; by exists [], q'|].
  destruct (pop_ticket_by_id_locked q id) as [[found rest]|]; [|done].
  intros [= -> <-]. destruct (IH _ _ eq_refl) as (l1 & l2 & -> & ->).
  by exists (t' :: l1), l2.
Qed.

(** Taking a ticket: which queue loses it. *)
Inductive taken (t : SchedulerTicket) (s : Scheduler) : Scheduler -> Prop :=
| taken_foreground l1 l2 :
    sc_foreground_queue s = l1 ++ t :: l2 ->
    taken t s (with_queues (l1 ++ l2) (sc_recovery_queue s) (sc_maintenance_queue s) s)
| taken_recovery l1 l2 :
    sc_recovery_queue s = l1 ++ t :: l2 ->
    taken t s (with_queues (sc_foreground_queue s) (l1 ++ l2) (sc_maintenance_queue s) s)
| taken_maintenance l1 l2 :
    sc_maintenance_queue s = l1 ++ t :: l2 ->
    taken t s (with_queues (sc_foreground_queue s) (sc_recovery_queue s) (l1 ++ l2) s).

Lemma pop_from_taken pop c s t s' : takes pop -> pop_from pop c s = Some (t, s') -> taken t s s'.
Proof.
  intros Hpop. destruct c; simpl;
    match goal with |- context [pop ?q] => destruct (pop q) as [[t0 q']|] eqn:E end; simpl;
    try done; intros [= -> <-]; apply Hpop in E as (l1 & l2 & E & ->); by constructor.
Qed.

Lemma pop_in_order_taken pop s t s' : takes pop -> pop_in_order pop s = Some (t, s') -> taken t s s'.
Proof.
  intros Hpop. unfold pop_in_order.
  destruct (pop_from pop SchedulerPriorityClass.ForegroundInteractive s) as [[t1 s1]|] eqn:E1;
    [intros [= -> ->]; by eapply pop_from_taken|].
  destruct (pop_from pop SchedulerPriorityClass.Recovery s) as [[t1 s1]|] eqn:E2;
    [intros [= -> ->]; by eapply pop_from_taken|].
  intros E3. by eapply pop_from_taken.
Qed.

Lemma pop_next_taken s c id t s' : pop_next_ticket_locked s c id = Some (t, s') -> taken t s s'.
Proof.
  unfold pop_next_ticket_locked. destruct id as [id|]; simpl.
  - destruct (pop_in_order _ s) as [[t1 s1]|] eqn:E1; simpl.
    + intros [= -> ->]. by apply (pop_in_order_taken _ _ _ _ (pop_by_id_takes id)).
    + destruct c; intros E2; [by eapply pop_from_taken, E2; apply pop_front_takes|].
      by eapply pop_in_order_taken, E2; apply pop_front_takes.
  - destruct c; intros E2; [by eapply pop_from_taken, E2; apply pop_front_takes|].
    by eapply pop_in_order_taken, E2; apply pop_front_takes.
Qed.

(** ** The invariant *)

Record scheduler_inv (recovery_limit maintenance_limit : Z) (n : nat) (s : Scheduler)
    (h : list Z) : Prop := {
  si_limits : sc_recovery_queue_limit s = recovery_limit /\
              sc_maintenance_queue_limit s = maintenance_limit;
  si_next : 1 <= sc_next_sequence s <= 1 + Z.of_nat n;
  si_foreground : queue_size (sc_foreground_queue s) <= 1;
  si_recovery : queue_size (sc_recovery_queue s) <= recovery_limit;
  si_maintenance : queue_size (sc_maintenance_queue s) <= maintenance_limit;
  si_foreground_ok : queue_ok (sc_next_sequence s) SchedulerPriorityClass.ForegroundInteractive
                       (sc_foreground_queue s);
  si_recovery_ok : queue_ok (sc_next_sequence s) SchedulerPriorityClass.Recovery
                     (sc_recovery_queue s);
  si_maintenance_ok : queue_ok (sc_next_sequence s) SchedulerPriorityClass.Maintenance
                        (sc_maintenance_queue s);
  si_fresh : Forall (fun q => q < sc_next_sequence s) (h ++ sequences (queued s));
  si_nodup : NoDup (h ++ sequences (queued s));
}.

Lemma queue_size_app q1 q2 : queue_size (q1 ++ q2) = queue_size q1 + queue_size q2.
Proof. unfold queue_size. rewrite length_app. lia. Qed.

Lemma queue_size_cons t q : queue_size (t :: q) = queue_size q + 1.
Proof. unfold queue_size. simpl. lia. Qed.

Lemma taken_inv rl ml n s h t s' :
  taken t s s' -> scheduler_inv rl ml n s h ->
  scheduler_inv rl ml n s' (st_enqueue_sequence t :: h).
Proof.
  intros Ht [Hl Hn Hf Hr Hm Hfo Hro Hmo Hfr Hnd].
  assert (h ++ sequences (queued s) ≡ₚ (st_enqueue_sequence t :: h) ++ sequences (queued s')) as Hp.
  { unfold queued, sequences.
    destruct Ht as [l1 l2 E|l1 l2 E|l1 l2 E]; simpl; rewrite E, !map_app; simpl; solve_Permutation. }
  rewrite Hp in Hnd, Hfr.
  destruct Ht as [l1 l2 E|l1 l2 E|l1 l2 E]; rewrite E in *; split; simpl in *;
    rewrite ?queue_size_app, ?queue_size_cons in *;
    try done; try lia; by eapply queue_ok_remove.
Qed.

Lemma with_budget_inv rl ml n s h budget :
  scheduler_inv rl ml n s h -> scheduler_inv rl ml n (with_worker_budget budget s) h.
Proof. by intros []. Qed.

Lemma inv_mono rl ml n s h : scheduler_inv rl ml n s h -> scheduler_inv rl ml (S n) s h.
Proof. intros []. split; [done|lia|done..]. Qed.

Lemma acquire_inv rl ml n s h request s' result :
  acquire_worker s request = (s', result) -> scheduler_inv rl ml n s h ->
  scheduler_inv rl ml (S n) s'
    (match awres_ticket result with
     | Some ticket => st_enqueue_sequence ticket :: h
     | None => h
     end).
Proof.
  intros H Hinv. apply inv_mono. revert H. unfold acquire_worker.
  pose proof (with_budget_inv _ _ _ _ _ (awr_worker_budget request) Hinv) as Hb.
  destruct (has_capacity _); cbn [negb]; [|by intros [= <- <-]].
  destruct (pop_next_ticket_locked _ _ _) as [[t s1]|] eqn:E; [|by intros [= <- <-]].
  intros [= <- <-]. simpl. apply with_budget_inv. by eapply taken_inv; [eapply pop_next_taken|].
Qed.

Lemma release_inv rl ml n s h request :
  scheduler_inv rl ml n s h -> scheduler_inv rl ml (S n) (fst (release_worker s request)) h.
Proof.
  intros Hinv. apply inv_mono. unfold release_worker.
  destruct (has_worker_assignment _); cbn [negb]; [|done].
  destruct (0 <? _); [by apply with_budget_inv|done].
Qed.

Lemma next_sequence_inv rl ml n s h :
  Z.of_nat n < 2 ^ 64 - 2 -> scheduler_inv rl ml n s h ->
  u64 (sc_next_sequence s + 1) = sc_next_sequence s + 1 /\
  scheduler_inv rl ml (S n) (with_next_sequence (sc_next_sequence s + 1) s) h.
Proof.
  intros Hn [Hl Hnext Hf Hr Hm Hfo Hro Hmo Hfr Hnd]. split; [apply u64_id; unfold in_u64; lia|].
  split; simpl; try done; try lia.
  1-3: eapply queue_ok_mono, Hfo || eapply queue_ok_mono, Hro || eapply queue_ok_mono, Hmo; lia.
  eapply Forall_impl; [exact Hfr|]. simpl. lia.
Qed.

(** A ticket with the number the scheduler had before is added to one queue. *)
Inductive added (t : SchedulerTicket) (s : Scheduler) : Scheduler -> Prop :=
| added_foreground :
    sc_foreground_queue s = [] ->
    st_priority_class t = SchedulerPriorityClass.ForegroundInteractive ->
    added t s (with_queues (sc_foreground_queue s ++ [t]) (sc_recovery_queue s)
                 (sc_maintenance_queue s) s)
| added_recovery :
    queue_size (sc_recovery_queue s) < sc_recovery_queue_limit s ->
    st_priority_class t = SchedulerPriorityClass.Recovery ->
    added t s (with_queues (sc_foreground_queue s) (sc_recovery_queue s ++ [t])
                 (sc_maintenance_queue s) s)
| added_maintenance :
    queue_size (sc_maintenance_queue s) < sc_maintenance_queue_limit s ->
    st_priority_class t = SchedulerPriorityClass.Maintenance ->
    added t s (with_queues (sc_foreground_queue s) (sc_recovery_queue s)
                 (sc_maintenance_queue s ++ [t]) s).

(** Adding to a scheduler whose counter has just moved past the ticket. *)
Lemma added_inv rl ml n s h t s' :
  added t (with_next_sequence (sc_next_sequence s + 1) s) s' ->
  st_enqueue_sequence t = sc_next_sequence s -> Z.of_nat n < 2 ^ 64 - 2 ->
  scheduler_inv rl ml n s h -> scheduler_inv rl ml (S n) s' h.
Proof.
  intros Ha Ht Hn Hinv.
  pose proof (next_sequence_inv rl ml n s h Hn Hinv) as [_ [Hl Hnext Hf Hr Hm Hfo Hro Hmo Hfr Hnd]].
  destruct Hinv as [_ _ _ _ _ Hfo' Hro' Hmo' Hfr' _].
  set (s1 := with_next_sequence (sc_next_sequence s + 1) s) in *.
  assert (h ++ sequences (queued s') ≡ₚ st_enqueue_sequence t :: h ++ sequences (queued s1)) as Hp.
  { unfold queued, sequences. destruct Ha; simpl; rewrite !map_app; simpl; solve_Permutation. }
  assert (Forall (fun q => q < sc_next_sequence s') (h ++ sequences (queued s'))) as Hfr2.
  { rewrite Hp. constructor; [destruct Ha; simpl; lia|]. by destruct Ha. }
  assert (NoDup (h ++ sequences (queued s'))) as Hnd2.
  { rewrite Hp. constructor; [|done]. intros Hin. change (queued s1) with (queued s) in Hin.
    rewrite list.Forall_forall in Hfr'. apply Hfr' in Hin. lia. }
  destruct Hl as [Hl1 Hl2].
  destruct Ha as [E Hc|E Hc|E Hc]; split; try done; simpl in *;
    try (by apply queue_ok_push); rewrite ?queue_size_app; rewrite ?E; unfold queue_size in *;
    simpl in *; lia.
Qed.

Lemma enqueue_inv rl ml n s h request s' result :
  Z.of_nat n < 2 ^ 64 - 2 -> enqueue s request = Some (s', result) ->
  scheduler_inv rl ml n s h -> scheduler_inv rl ml (S n) s' h.
Proof.
  intros Hn He Hinv. revert He. unfold enqueue.
  destruct (ticket_has_minimum_requirements request); cbn [negb];
    [|intros [= <- <-]; by apply inv_mono].
  destruct (next_sequence_inv _ _ _ _ _ Hn Hinv) as [-> Hinv1].
  set (t := make_scheduler_ticket request (sc_next_sequence s)
    SchedulerTicketState.Queued None).
  set (s1 := with_next_sequence (sc_next_sequence s + 1) s) in *.
  destruct (str_priority_class request) eqn:Hc.
  - destruct (sc_foreground_queue s1) as [|t' q] eqn:E; intros [= <- <-]; [|done].
    eapply (added_inv _ _ _ s _ t); try done. fold s1.
    pose proof (added_foreground t s1 E Hc) as Ha. rewrite E in Ha. exact Ha.
  - destruct (Z.leb_spec (sc_recovery_queue_limit s1) (queue_size (sc_recovery_queue s1)));
      intros [= <- <-]; [done|].
    eapply (added_inv _ _ _ s _ t); try done. exact (added_recovery t s1 H Hc).
  - destruct (Z.leb_spec (sc_maintenance_queue_limit s1) (queue_size (sc_maintenance_queue s1))).
    + destruct (sc_maintenance_queue s1) as [|old rest] eqn:E; [done|]. intros [= <- <-].
      assert (taken old s (with_queues (sc_foreground_queue s) (sc_recovery_queue s) rest s)) as Ht
        by exact (taken_maintenance old s [] rest E).
      apply (taken_inv _ _ _ _ _ _ _ Ht) in Hinv as Hinv2.
      assert (scheduler_inv rl ml n
        (with_queues (sc_foreground_queue s) (sc_recovery_queue s) rest s) h) as Hinv3.
      { destruct Hinv2 as [? ? ? ? ? ? ? ? Hfr Hnd]. split; try done.
        - by apply Forall_inv_tail in Hfr.
        - by apply NoDup_cons in Hnd as [_ Hnd]. }
      set (s0 := with_queues (sc_foreground_queue s) (sc_recovery_queue s) rest s) in *.
      apply (added_inv rl ml n s0 h t); [|done|done|exact Hinv3].
      refine (added_maintenance t (with_next_sequence (sc_next_sequence s0 + 1) s0) _ Hc).
      destruct Hinv as [[_ Hl] _ _ _ Hm _ _ _ _ _]. simpl in *.
      rewrite E, queue_size_cons in Hm. lia.
    + intros [= <- <-]. eapply (added_inv _ _ _ s _ t); try done.
      exact (added_maintenance t s1 H Hc).
Qed.

Lemma scheduler_run_inv rl ml n s h :
  0 <= rl -> 0 <= ml -> Z.of_nat n < 2 ^ 64 - 1 ->
  scheduler_run rl ml n s h -> scheduler_inv rl ml n s h.
Proof.
  intros Hrl Hml Hn Hrun. induction Hrun as [|n s h request s' result _ IH He
    |n s h request s' result _ IH Ha|n s h request _ IH].
  - split; simpl; unfold queue_size, queue_ok; simpl; try done; try lia; repeat constructor.
  - eapply enqueue_inv; [lia|exact He|]. apply IH. lia.
  - eapply acquire_inv; [exact Ha|]. apply IH. lia.
  - apply release_inv, IH. lia.
Qed.

(** ** Properties *)

(** C37. In every run of a scheduler (of fewer than 2{^64} - 1 operations, when
    the ticket counter wraps), the queues stay within their limits, hold only
    tickets of their own class in the order they arrived, and no ticket is handed
    to a worker twice or both handed out and still queued. An enqueue meets
    undefined behaviour exactly when the maintenance limit is zero: a valid
    maintenance ticket then pops an empty queue. *)
Theorem scheduler_queues_sound rl ml n s h request :
  0 <= rl -> 0 <= ml -> Z.of_nat n < 2 ^ 64 - 1 -> scheduler_run rl ml n s h ->
  queue_size (sc_foreground_queue s) <= 1 /\ queue_size (sc_recovery_queue s) <= rl /\
  queue_size (sc_maintenance_queue s) <= ml /\
  Forall (fun queue => StronglySorted Z.lt (sequences queue))
    [sc_foreground_queue s; sc_recovery_queue s; sc_maintenance_queue s] /\
  Forall (fun t => st_priority_class t = SchedulerPriorityClass.ForegroundInteractive)
    (sc_foreground_queue s) /\
  Forall (fun t => st_priority_class t = SchedulerPriorityClass.Recovery)
    (sc_recovery_queue s) /\
  Forall (fun t => st_priority_class t = SchedulerPriorityClass.Maintenance)
    (sc_maintenance_queue s) /\
  NoDup (h ++ sequences (queued s)) /\
  (enqueue s request = None <->
     ticket_has_minimum_requirements request = true /\
     str_priority_class request = SchedulerPriorityClass.Maintenance /\ ml = 0).
Proof.
  intros Hrl Hml Hn Hrun.
  destruct (scheduler_run_inv _ _ _ _ _ Hrl Hml Hn Hrun)
    as [[Hlr Hlm] Hnext Hf Hr Hm [Hfs Hfc] [Hrs Hrc] [Hms Hmc] _ Hnd].
  split_and!; try done.
  - repeat constructor; done.
  - eapply Forall_impl; [exact Hfc|]. by simpl; intros ? [].
  - eapply Forall_impl; [exact Hrc|]. by simpl; intros ? [].
  - eapply Forall_impl; [exact Hmc|]. by simpl; intros ? [].
  - unfold enqueue. destruct (ticket_has_minimum_requirements request); cbn [negb]; [|naive_solver].
    destruct (str_priority_class request); simpl.
    + destruct (sc_foreground_queue s); naive_solver.
    + destruct (_ <=? _); naive_solver.
    + destruct (Z.leb_spec (sc_maintenance_queue_limit s) (queue_size (sc_maintenance_queue s))).
      * destruct (sc_maintenance_queue s) as [|t q] eqn:E; [simpl in *; unfold queue_size in *; simpl in *; split; [intros _; split_and!; done || lia|done]|].
        rewrite queue_size_cons in *. split; [done|]. intros (_ & _ & ->).
        unfold queue_size in *. lia.
      * split; [done|]. intros (_ & _ & ->). unfold queue_size in *. lia.
Qed.

(** A free worker without preferences takes the oldest ticket of the first
    non-empty queue, foreground before recovery before maintenance: it gets one
    exactly when the budget has room and some ticket waits, the rest of the
    queues stay as they are, and the lease stays within the budget. *)
Theorem acquire_takes_highest_priority s request :
  awr_preferred_priority_class request = None -> awr_preferred_ticket_id request = None ->
  wl_max_workers (awr_worker_budget request) < 2 ^ 32 ->
  0 <= wl_busy_workers (awr_worker_budget request) ->
  let budget := awr_worker_budget request in
  let '(s', result) := acquire_worker s request in
  (awres_acquired result = true <-> has_capacity budget = true /\ queued s <> []) /\
  match awres_ticket result with
  | None => awres_acquired result = false /\ queued s' = queued s
  | Some ticket =>
      exists t, ticket = assign_worker t (worker_name (wl_busy_workers budget)) /\
        queued s = t :: queued s' /\
        wl_busy_workers (sc_worker_budget s') = wl_busy_workers budget + 1 /\
        wl_busy_workers (sc_worker_budget s') <= wl_max_workers (sc_worker_budget s')
  end.
Proof.
  intros Hclass Hid Hmax Hbusy budget. unfold acquire_worker, pop_next_ticket_locked.
  rewrite Hclass, Hid. cbn [with_worker_budget sc_worker_budget]. fold budget.
  destruct (has_capacity budget) eqn:Hcap; cbn [negb];
    [|split; [split; [done|by intros [? _]]|done]].
  apply Z.ltb_lt in Hcap. fold budget in Hmax, Hbusy.
  assert (u32 (wl_busy_workers budget + 1) = wl_busy_workers budget + 1) as Hu
    by (apply u32_id; unfold in_u32; lia).
  unfold pop_in_order, pop_from, queued. simpl.
  destruct (sc_foreground_queue s) as [|t q] eqn:Ef; simpl;
    [destruct (sc_recovery_queue s) as [|t q] eqn:Er; simpl;
       [destruct (sc_maintenance_queue s) as [|t q] eqn:Em; simpl|]|];
    rewrite ?Hu, ?Ef, ?Er, ?Em; simpl.
  1: split; [split; [done|by intros [_ ?]]|done].
  all: split; [split; [by intros _; split|done]|]; exists t; split_and!; done || lia.
Qed.

(** The scheduler keeps no count of its own: a worker is leased against the
    budget of the request, and a foreground slot is free again once its ticket
    has a worker. Two foreground requests that follow each other are therefore
    both accepted and both get the same worker, before any is released, however
    small the pool. *)
Theorem one_worker_leased_twice s r1 r2 budget :
  sc_foreground_queue s = [] ->
  ticket_has_minimum_requirements r1 = true -> ticket_has_minimum_requirements r2 = true ->
  str_priority_class r1 = SchedulerPriorityClass.ForegroundInteractive ->
  str_priority_class r2 = SchedulerPriorityClass.ForegroundInteractive ->
  has_capacity budget = true ->
  let acquire := {| awr_worker_budget := budget;
                    awr_preferred_priority_class :=
                      Some SchedulerPriorityClass.ForegroundInteractive;
                    awr_preferred_ticket_id := None |} in
  exists s1 e1 s2 e2 t1 t2,
    enqueue s r1 = Some (s1, e1) /\ ser_accepted e1 = true /\
    enqueue (fst (acquire_worker s1 acquire)) r2 = Some (s2, e2) /\ ser_accepted e2 = true /\
    awres_ticket (snd (acquire_worker s1 acquire)) = Some t1 /\
    awres_ticket (snd (acquire_worker s2 acquire)) = Some t2 /\
    st_ticket_id t1 = str_ticket_id r1 /\ st_ticket_id t2 = str_ticket_id r2 /\
    st_assigned_worker_id t1 = st_assigned_worker_id t2.
Proof.
  intros Hq H1 H2 Hc1 Hc2 Hcap acquire.
  assert (forall s r, sc_foreground_queue s = [] -> ticket_has_minimum_requirements r = true ->
    str_priority_class r = SchedulerPriorityClass.ForegroundInteractive ->
    exists s' e t, enqueue s r = Some (s', e) /\ ser_accepted e = true /\
      awres_ticket (snd (acquire_worker s' acquire)) = Some t /\
      st_ticket_id t = str_ticket_id r /\
      st_assigned_worker_id t = Some (worker_name (wl_busy_workers budget)) /\
      sc_foreground_queue (fst (acquire_worker s' acquire)) = []) as Hround.
  { clear -Hcap. intros s r Hq Hmin Hc. unfold enqueue. rewrite Hmin, Hc. cbn [negb].
    cbn [with_next_sequence sc_foreground_queue]. rewrite Hq. do 3 eexists.
    split; [reflexivity|]. split; [done|]. unfold acquire_worker. simpl. rewrite Hcap. simpl. done. }
  destruct (Hround s r1 Hq H1 Hc1) as (s1 & e1 & t1 & He1 & Hacc1 & Ht1 & Hid1 & Hw1 & Hq1).
  destruct (Hround _ r2 Hq1 H2 Hc2) as (s2 & e2 & t2 & He2 & Hacc2 & Ht2 & Hid2 & Hw2 & _).
  exists s1, e1, s2, e2, t1, t2. split_and!; try done. by rewrite Hw1, Hw2.
Qed.

(** ** Witnesses *)

Definition sample_ticket (id : string) (c : SchedulerPriorityClass) : SchedulerTicketRequest :=
  {| str_ticket_id := id; str_request_id := "req-" +:+ id; str_session_id := None;
     str_priority_class := c; str_cancellation_token := 1%positive;
     str_checkpoint_ref := None; str_queue_key := None |}.

Definition sample_acquire : AcquireWorkerRequest :=
  {| awr_worker_budget := {| wl_max_workers := 1; wl_busy_workers := 0 |};
     awr_preferred_priority_class := None; awr_preferred_ticket_id := None |}.

Definition recovery_queued : Scheduler :=
  match enqueue (new_scheduler 2 0) (sample_ticket "r" SchedulerPriorityClass.Recovery) with
  | Some (s, _) => s
  | None => new_scheduler 2 0
  end.

Lemma scheduler_queues_sound_witness :
  enqueue recovery_queued (sample_ticket "m" SchedulerPriorityClass.Maintenance) = None.
Proof.
  destruct (scheduler_queues_sound 2 0 1 recovery_queued []
    (sample_ticket "m" SchedulerPriorityClass.Maintenance)) as (_ & _ & _ & _ & _ & _ & _ & _ & H).
  - lia.
  - lia.
  - lia.
  - exact (run_enqueue 2 0 0 _ _ (sample_ticket "r" SchedulerPriorityClass.Recovery) _ _
      (run_new 2 0) eq_refl).
  - apply H. split; [reflexivity|]. split; reflexivity.
Defined.

Lemma acquire_takes_highest_priority_witness :
  awres_acquired (snd (acquire_worker recovery_queued sample_acquire)) = true.
Proof.
  pose proof (acquire_takes_highest_priority recovery_queued sample_acquire eq_refl eq_refl
    ltac:(simpl; lia) ltac:(simpl; lia)) as H.
  cbv zeta in H. destruct (acquire_worker recovery_queued sample_acquire) as [s' result].
  destruct H as [H _]. apply H. split; [reflexivity|discriminate].
Defined.

Lemma one_worker_leased_twice_witness :
  exists t1 t2 : SchedulerTicket, st_ticket_id t1 = "a" /\ st_ticket_id t2 = "b" /\
    st_assigned_worker_id t1 = st_assigned_worker_id t2.
Proof.
  destruct (one_worker_leased_twice (new_scheduler 2 16)
    (sample_ticket "a" SchedulerPriorityClass.ForegroundInteractive)
    (sample_ticket "b" SchedulerPriorityClass.ForegroundInteractive)
    {| wl_max_workers := 1; wl_busy_workers := 0 |}
    eq_refl eq_refl eq_refl eq_refl eq_refl eq_refl)
    as (s1 & e1 & s2 & e2 & t1 & t2 & _ & _ & _ & _ & _ & _ & H1 & H2 & H3).
  exists t1, t2. split; [exact H1|]. split; [exact H2|exact H3].
Defined.
