(* ===== verification/RecoveryContracts.v ===== *)
(** * Recovery contracts

    contracts/include/checkpoint/{RecoveryRequest,RecoveryOutcome,
    ReflectionDecision}.h with their guards, and the objects a request nests:
    contracts/include/error/{ErrorInfo,ErrorInfoGuards}.h and
    contracts/include/observation/{Observation,ObservationGuards,
    ObservationSource,ObservationSourceGuards}.h.

    A guard that dereferences an optional field without testing it in the same
    function returns [None] when the field is empty; [field_rules_total] and its
    likes show that the layers before it rule this out. *)

From Stdlib Require Import SpecFloat.
From S2P Require Import Prelude ErrorCodes CheckpointContracts Text.

(** ** Error info *)

Record ErrorDetails := {
  ed_code : option Z;
  ed_message : string;
  ed_stage : string;
}.

Record ErrorSourceRefMinimal := {
  esr_ref_type : string;
  esr_ref_id : string;
}.

Record ErrorInfo := {
  ei_failure_type : option ResultCodeCategory;
  ei_retryable : option bool;
  ei_safe_to_replan : option bool;
  ei_details : ErrorDetails;
  ei_source_ref : ErrorSourceRefMinimal;
}.

Definition is_supported_error_source_ref_type (ref_type : string) : bool :=
  bool_decide (ref_type = "observation") || bool_decide (ref_type = "tool_call")
  || bool_decide (ref_type = "worker_task") || bool_decide (ref_type = "checkpoint").

Definition validate_error_info_required_fields (error_info : ErrorInfo) : GuardResult :=
  let? failure_type := ei_failure_type error_info
    else guard_fail "failure_type is required" in
  if bool_decide (failure_type = ResultCodeCategory.Unknown)
  then guard_fail "failure_type cannot be unknown" else
  if bool_decide (ei_retryable error_info = None)
  then guard_fail "retryable is required" else
  if bool_decide (ei_safe_to_replan error_info = None)
  then guard_fail "safe_to_replan is required" else
  if bool_decide (ed_code (ei_details error_info) = None)
  then guard_fail "details.code is required" else
  if is_empty (ed_message (ei_details error_info))
  then guard_fail "details.message is required" else
  if is_empty (ed_stage (ei_details error_info))
  then guard_fail "details.stage is required" else
  if is_empty (esr_ref_type (ei_source_ref error_info))
  then guard_fail "source_ref.ref_type is required" else
  if negb (is_supported_error_source_ref_type (esr_ref_type (ei_source_ref error_info)))
  then guard_fail "source_ref.ref_type is not supported" else
  if is_empty (esr_ref_id (ei_source_ref error_info))
  then guard_fail "source_ref.ref_id is required" else
  guard_pass "error info is valid".

(** ** Observation *)

(** The values no enumerator names are numbered away from them: [Other n] is the
    value [n] below zero, and the [n]-th one past the last enumerator otherwise. *)
Definition unnamed_value (enumerators n : Z) : Z := if n <? 0 then n else enumerators + n.

Module ObservationSource.
Inductive ObservationSource :=
| Unspecified | ToolExecution | WorkerAgent | Retrieval | HumanFeedback
| Other (n : Z).
#[global] Instance ObservationSource_eq_dec : EqDecision ObservationSource.
Proof. solve_decision. Defined.
End ObservationSource.
Abbreviation ObservationSource := ObservationSource.ObservationSource.

(** [static_cast<int>(source)] *)
Definition observation_source_value (source : ObservationSource) : Z :=
  match source with
  | ObservationSource.Unspecified => 0
  | ObservationSource.ToolExecution => 1
  | ObservationSource.WorkerAgent => 2
  | ObservationSource.Retrieval => 3
  | ObservationSource.HumanFeedback => 4
  | ObservationSource.Other n => unnamed_value 5 n
  end.

Definition source_to_error_ref_type (src : ObservationSource) : string :=
  match src with
  | ObservationSource.ToolExecution => "tool_call"
  | ObservationSource.WorkerAgent => "worker_task"
  | ObservationSource.Retrieval => "observation"
  | ObservationSource.HumanFeedback => "observation"
  | ObservationSource.Unspecified => ""
  | ObservationSource.Other _ => ""
  end.

Record Observation := {
  ob_observation_id : option string;
  ob_source : option ObservationSource;
  ob_success : option bool;
  ob_payload : option string;
  ob_created_at : option Z;
  ob_error : option ErrorInfo;
  ob_side_effects : option (list string);
  ob_tool_call_id : option string;
  ob_worker_task_id : option string;
  ob_request_id : option string;
  ob_goal_id : option string;
  ob_duration_ms : option Z;
  ob_tags : option (list string);
}.

(** [!value.has_value() || *value <= 0] and [value.has_value() && *value <= 0] *)
Definition missing_or_non_positive (value : option Z) : bool :=
  match value with Some v => v <=? 0 | None => true end.
Definition present_and_non_positive (value : option Z) : bool :=
  match value with Some v => v <=? 0 | None => false end.

Definition source_missing (obs : Observation) : bool :=
  match ob_source obs with
  | Some source => bool_decide (source = ObservationSource.Unspecified)
  | None => true
  end.

Definition validate_observation_required_fields (obs : Observation) : GuardResult :=
  if negb (has_non_empty_value (ob_observation_id obs))
  then guard_fail "observation_id is required and must be non-empty" else
  if source_missing obs
  then guard_fail "source is required and must not be Unspecified" else
  if bool_decide (ob_success obs = None) then guard_fail "success is required" else
  if negb (has_non_empty_value (ob_payload obs))
  then guard_fail "payload is required and must be non-empty" else
  if missing_or_non_positive (ob_created_at obs)
  then guard_fail "created_at is required and must be a positive timestamp" else
  guard_pass "all required fields present".

Definition validate_observation_boundary (obs : Observation) : option GuardResult :=
  let required_result := validate_observation_required_fields obs in
  if negb (gr_ok required_result) then Some required_result else
  let? source := ob_source obs else None in
  let raw_source := observation_source_value source in
  if (raw_source <? observation_source_value ObservationSource.Unspecified)
     || (observation_source_value ObservationSource.HumanFeedback <? raw_source)
  then Some (guard_fail "source value is outside the known ObservationSource range") else
  if present_and_non_positive (ob_duration_ms obs)
  then Some (guard_fail "duration_ms must be positive when present") else
  if bool_decide (ob_success obs = Some false) && bool_decide (ob_error obs = None)
  then Some (guard_fail "error must be present when success is false") else
  if bool_decide (ob_success obs = Some true) && negb (bool_decide (ob_error obs = None))
  then Some (guard_fail "error must not be present when success is true") else
  Some (guard_pass "observation boundary validation passed").

Definition validate_observation_source_correlation (obs : Observation) : GuardResult :=
  let missing :=
    guard_fail "source must be present and not Unspecified before correlation validation" in
  let? src := ob_source obs else missing in
  if bool_decide (src = ObservationSource.Unspecified) then missing else
  if present_but_empty (ob_tool_call_id obs)
  then guard_fail "tool_call_id must be non-empty when present" else
  if present_but_empty (ob_worker_task_id obs)
  then guard_fail "worker_task_id must be non-empty when present" else
  if present_but_empty (ob_request_id obs)
  then guard_fail "request_id must be non-empty when present" else
  if present_but_empty (ob_goal_id obs)
  then guard_fail "goal_id must be non-empty when present" else
  let passed := guard_pass "observation source correlation validation passed" in
  match src with
  | ObservationSource.ToolExecution =>
      if negb (has_non_empty_value (ob_tool_call_id obs))
      then guard_fail "tool_call_id is required when source is ToolExecution" else
      if negb (bool_decide (ob_worker_task_id obs = None))
      then guard_fail "worker_task_id must not be present when source is ToolExecution" else
      passed
  | ObservationSource.WorkerAgent =>
      if negb (has_non_empty_value (ob_worker_task_id obs))
      then guard_fail "worker_task_id is required when source is WorkerAgent" else
      if negb (bool_decide (ob_tool_call_id obs = None))
      then guard_fail "tool_call_id must not be present when source is WorkerAgent" else
      passed
  | ObservationSource.Retrieval =>
      if negb (bool_decide (ob_worker_task_id obs = None))
      then guard_fail "worker_task_id must not be present when source is Retrieval" else
      passed
  | ObservationSource.HumanFeedback =>
      if negb (bool_decide (ob_tool_call_id obs = None))
      then guard_fail "tool_call_id must not be present when source is HumanFeedback" else
      if negb (bool_decide (ob_worker_task_id obs = None))
      then guard_fail "worker_task_id must not be present when source is HumanFeedback" else
      passed
  | ObservationSource.Unspecified | ObservationSource.Other _ => passed
  end.

(** ** Reflection decision *)

Module ReflectionDecisionKind.
Inductive ReflectionDecisionKind :=
| Unspecified | Continue | RetryStep | Replan | AbortSafe
| Other (n : Z).
#[global] Instance ReflectionDecisionKind_eq_dec : EqDecision ReflectionDecisionKind.
Proof. solve_decision. Defined.
End ReflectionDecisionKind.
Abbreviation ReflectionDecisionKind := ReflectionDecisionKind.ReflectionDecisionKind.

(** [static_cast<int>(kind)] *)
Definition reflection_decision_kind_value (kind : ReflectionDecisionKind) : Z :=
  match kind with
  | ReflectionDecisionKind.Unspecified => 0
  | ReflectionDecisionKind.Continue => 1
  | ReflectionDecisionKind.RetryStep => 2
  | ReflectionDecisionKind.Replan => 3
  | ReflectionDecisionKind.AbortSafe => 4
  | ReflectionDecisionKind.Other n => unnamed_value 5 n
  end.

(** [confidence] is an IEEE single: comparisons with a NaN are false. *)
Record ReflectionDecision := {
  rd_request_id : option string;
  rd_decision_kind : option ReflectionDecisionKind;
  rd_rationale : option string;
  rd_goal_id : option string;
  rd_confidence : option spec_float;
  rd_relevant_observation_refs : option (list string);
  rd_hint_ref : option string;
  rd_created_at : option Z;
  rd_tags : option (list string);
}.

(** [0.0F] and [1.0F] *)
Definition float_zero : spec_float := S754_zero false.
Definition float_one : spec_float := S754_finite false 8388608 (-23).

(** [std::isfinite] *)
Definition float_is_finite (f : spec_float) : bool :=
  match f with
  | S754_zero _ | S754_finite _ _ _ => true
  | S754_infinity _ | S754_nan => false
  end.

Definition decision_kind_missing (decision : ReflectionDecision) : bool :=
  match rd_decision_kind decision with
  | Some kind => bool_decide (kind = ReflectionDecisionKind.Unspecified)
  | None => true
  end.

Definition validate_reflection_decision_required_fields (decision : ReflectionDecision)
    : GuardResult :=
  if negb (has_non_empty_value (rd_request_id decision))
  then guard_fail "request_id is required and must be non-empty" else
  if decision_kind_missing decision
  then guard_fail "decision_kind is required and must not be Unspecified" else
  if negb (has_non_empty_value (rd_rationale decision))
  then guard_fail "rationale is required and must be non-empty" else
  guard_pass "all required fields present".

Definition validate_reflection_decision_boundary (decision : ReflectionDecision)
    : option GuardResult :=
  let required_result := validate_reflection_decision_required_fields decision in
  if negb (gr_ok required_result) then Some required_result else
  let? kind := rd_decision_kind decision else None in
  let raw_kind := reflection_decision_kind_value kind in
  if (raw_kind <? reflection_decision_kind_value ReflectionDecisionKind.Continue)
     || (reflection_decision_kind_value ReflectionDecisionKind.AbortSafe <? raw_kind)
  then Some (guard_fail
    "decision_kind value is outside the known ReflectionDecisionKind range") else
  if present_but_empty (rd_goal_id decision)
  then Some (guard_fail "goal_id must be non-empty when present") else
  if match rd_confidence decision with
     | Some confidence => SFltb confidence float_zero || SFltb float_one confidence
     | None => false
     end
  then Some (guard_fail "confidence must be within [0.0, 1.0] when present") else
  if present_but_empty (rd_hint_ref decision)
  then Some (guard_fail "hint_ref must be non-empty when present") else
  if present_and_non_positive (rd_created_at decision)
  then Some (guard_fail "created_at must be a positive timestamp when present") else
  Some (guard_pass "reflection decision boundary validation passed").

(** The two nested loops over the references. *)
Fixpoint has_duplicates (refs : list string) : bool :=
  match refs with
  | [] => false
  | ref :: rest => existsb (fun probe => bool_decide (ref = probe)) rest || has_duplicates rest
  end.

Definition validate_observation_refs (refs : option (list string)) : GuardResult :=
  let? refs := refs else guard_pass "" in
  if bool_decide (refs = [])
  then guard_fail "relevant_observation_refs must contain at least one item when present" else
  if existsb is_empty refs
  then guard_fail "relevant_observation_refs must not contain empty-string elements" else
  if has_duplicates refs
  then guard_fail
    "relevant_observation_refs must not contain duplicate observation identifiers" else
  guard_pass "".

Definition validate_reflection_decision_field_rules (decision : ReflectionDecision)
    : option GuardResult :=
  let? boundary_result := validate_reflection_decision_boundary decision else None in
  if negb (gr_ok boundary_result) then Some boundary_result else
  if match rd_confidence decision with
     | Some confidence => negb (float_is_finite confidence)
     | None => false
     end
  then Some (guard_fail "confidence must be a finite value when present") else
  let refs_result := validate_observation_refs (rd_relevant_observation_refs decision) in
  if negb (gr_ok refs_result) then Some refs_result else
  if bool_decide (rd_tags decision = Some [])
  then Some (guard_fail "tags must contain at least one item when present") else
  if match rd_tags decision with Some tags => existsb is_empty tags | None => false end
  then Some (guard_fail "tags must not contain empty-string elements") else
  Some (guard_pass "reflection decision field rules validation passed").

(** ** Recovery request *)

Record IdempotencyAndSideEffectReport := {
  isr_replay_safe : option bool;
  isr_idempotency_key : option string;
  isr_side_effects_present : option bool;
  isr_non_replayable_reason : option string;
}.

Record RecoveryRequest := {
  rq_reflection_decision : option ReflectionDecision;
  rq_error_info : option ErrorInfo;
  rq_latest_observation : option Observation;
  rq_checkpoint : option Checkpoint;
  rq_idempotency_and_side_effect_report : option IdempotencyAndSideEffectReport;
  rq_retry_count : option Z;
  rq_runtime_budget_snapshot : option BudgetSnapshot;
}.

Definition validate_idempotency_and_side_effect_report_required_fields
    (report : IdempotencyAndSideEffectReport) : GuardResult :=
  let? replay_safe := isr_replay_safe report
    else guard_fail "idempotency_and_side_effect_report.replay_safe is required" in
  if present_but_empty (isr_idempotency_key report)
  then guard_fail ("idempotency_and_side_effect_report.idempotency_key must be non-empty " +:+
                   "when present") else
  if bool_decide (isr_side_effects_present report = None)
  then guard_fail "idempotency_and_side_effect_report.side_effects_present is required" else
  if negb replay_safe && negb (has_non_empty_value (isr_non_replayable_reason report))
  then guard_fail "non_replayable_reason is required when replay_safe is false" else
  if replay_safe && has_non_empty_value (isr_non_replayable_reason report)
  then guard_fail "non_replayable_reason must be empty when replay_safe is true" else
  guard_pass "idempotency and side-effect report is valid".

Definition validate_idempotency_and_side_effect_report_field_rules
    (report : IdempotencyAndSideEffectReport) : option GuardResult :=
  let required_result := validate_idempotency_and_side_effect_report_required_fields report in
  if negb (gr_ok required_result) then Some required_result else
  let? replay_safe := isr_replay_safe report else None in
  let? side_effects_present := isr_side_effects_present report else None in
  if replay_safe && side_effects_present
     && negb (has_non_empty_value (isr_idempotency_key report))
  then Some (guard_fail ("idempotency_key is required when replay_safe is true and " +:+
                         "side_effects_present is true")) else
  Some (guard_pass "idempotency and side-effect report field rules passed").

Definition recovery_request_optional_string_values_match (left right : option string) : bool :=
  match left, right with
  | Some l, Some r => bool_decide (l = r)
  | _, _ => true
  end.

Definition recovery_request_error_info_matches (left right : ErrorInfo) : bool :=
  bool_decide (ei_failure_type left = ei_failure_type right)
  && bool_decide (ei_retryable left = ei_retryable right)
  && bool_decide (ei_safe_to_replan left = ei_safe_to_replan right)
  && bool_decide (ed_code (ei_details left) = ed_code (ei_details right))
  && bool_decide (ed_message (ei_details left) = ed_message (ei_details right))
  && bool_decide (ed_stage (ei_details left) = ed_stage (ei_details right))
  && bool_decide (esr_ref_type (ei_source_ref left) = esr_ref_type (ei_source_ref right))
  && bool_decide (esr_ref_id (ei_source_ref left) = esr_ref_id (ei_source_ref right)).

(** The verdict of a nested guard, the reason of the outer one. *)
Definition validate_recovery_request_required_fields (request : RecoveryRequest)
    : option GuardResult :=
  let? decision := rq_reflection_decision request
    else Some (guard_fail "reflection_decision is required") in
  let? reflection_result := validate_reflection_decision_field_rules decision else None in
  if negb (gr_ok reflection_result)
  then Some (guard_fail
    "reflection_decision must pass nested ReflectionDecision validation") else
  let? error_info := rq_error_info request
    else Some (guard_fail "error_info is required") in
  if negb (gr_ok (validate_error_info_required_fields error_info))
  then Some (guard_fail "error_info must pass nested ErrorInfo validation") else
  let? observation := rq_latest_observation request
    else Some (guard_fail "latest_observation is required") in
  let? observation_result := validate_observation_boundary observation else None in
  if negb (gr_ok observation_result)
  then Some (guard_fail "latest_observation must pass nested Observation validation") else
  let? checkpoint := rq_checkpoint request
    else Some (guard_fail "checkpoint is required") in
  if negb (gr_ok (validate_checkpoint_field_rules checkpoint))
  then Some (guard_fail "checkpoint must pass nested Checkpoint validation") else
  let? report := rq_idempotency_and_side_effect_report request
    else Some (guard_fail "idempotency_and_side_effect_report is required") in
  let report_result := validate_idempotency_and_side_effect_report_required_fields report in
  if negb (gr_ok report_result) then Some report_result else
  Some (guard_pass "all required recovery-request evidence present").

Definition retry_count_conflicts (request : RecoveryRequest) (checkpoint : Checkpoint) : bool :=
  match rq_retry_count request, cp_retry_count checkpoint with
  | Some r, Some c => negb (r =? c)
  | _, _ => false
  end.

Definition validate_recovery_request_boundary (request : RecoveryRequest)
    : option GuardResult :=
  let? required_result := validate_recovery_request_required_fields request else None in
  if negb (gr_ok required_result) then Some required_result else
  let? observation := rq_latest_observation request else None in
  let? success := ob_success observation else None in
  if (success : bool)
  then Some (guard_fail "latest_observation must describe a failed execution") else
  if bool_decide (ob_error observation = None)
  then Some (guard_fail "latest_observation.error must be present for recovery admission") else
  let? checkpoint := rq_checkpoint request else None in
  let? state := cp_state checkpoint else None in
  if bool_decide (state = CheckpointState.Succeeded)
  then Some (guard_fail "checkpoint.state must not be Succeeded for recovery admission") else
  if retry_count_conflicts request checkpoint
  then Some (guard_fail
    "retry_count must match checkpoint.retry_count when both are present") else
  if match rq_runtime_budget_snapshot request with
     | Some snapshot => negb (gr_ok (validate_budget_snapshot snapshot))
     | None => false
     end
  then Some (guard_fail
    "runtime_budget_snapshot must pass nested BudgetSnapshot validation") else
  Some (guard_pass "recovery request boundary validation passed").

(** [request_id]s or [goal_id]s of decision, observation and checkpoint. *)
Definition identifiers_align (decision observation checkpoint : option string) : bool :=
  recovery_request_optional_string_values_match decision observation
  && recovery_request_optional_string_values_match decision checkpoint
  && recovery_request_optional_string_values_match observation checkpoint.

(** The switch over the observation's source. *)
Definition validate_error_source (error_info : ErrorInfo) (observation : Observation)
    : option GuardResult :=
  let ref := ei_source_ref error_info in
  let? source := ob_source observation else None in
  match source with
  | ObservationSource.ToolExecution =>
      if negb (bool_decide (esr_ref_type ref = "tool_call")) then
        Some (guard_fail ("error_info.source_ref.ref_type must be tool_call when " +:+
                          "latest_observation.source is ToolExecution")) else
      if negb (bool_decide (ob_tool_call_id observation = Some (esr_ref_id ref))) then
        Some (guard_fail ("error_info.source_ref.ref_id must match " +:+
              "latest_observation.tool_call_id for ToolExecution observations")) else
      Some (guard_pass "")
  | ObservationSource.WorkerAgent =>
      if negb (bool_decide (esr_ref_type ref = "worker_task")) then
        Some (guard_fail ("error_info.source_ref.ref_type must be worker_task when " +:+
                          "latest_observation.source is WorkerAgent")) else
      if negb (bool_decide (ob_worker_task_id observation = Some (esr_ref_id ref))) then
        Some (guard_fail ("error_info.source_ref.ref_id must match " +:+
              "latest_observation.worker_task_id for WorkerAgent observations")) else
      Some (guard_pass "")
  | ObservationSource.Retrieval | ObservationSource.HumanFeedback =>
      if negb (bool_decide (esr_ref_type ref = "observation")) then
        Some (guard_fail ("error_info.source_ref.ref_type must be observation when " +:+
              "latest_observation.source is Retrieval or HumanFeedback")) else
      let? observation_id := ob_observation_id observation else None in
      if negb (bool_decide (esr_ref_id ref = observation_id)) then
        Some (guard_fail ("error_info.source_ref.ref_id must match " +:+
          "latest_observation.observation_id for Retrieval or HumanFeedback observations")) else
      Some (guard_pass "")
  | ObservationSource.Unspecified =>
      Some (guard_fail "latest_observation.source must be present and not Unspecified")
  | ObservationSource.Other _ => Some (guard_pass "")
  end.

(** The tests of the third layer, on evidence the second found present. *)
Definition validate_evidence_agreement (decision : ReflectionDecision)
    (observation : Observation) (checkpoint : Checkpoint)
    (error_info observation_error : ErrorInfo) (report : IdempotencyAndSideEffectReport)
    : option GuardResult :=
  let correlation_result := validate_observation_source_correlation observation in
  if negb (gr_ok correlation_result) then Some correlation_result else
  if negb (identifiers_align (rd_request_id decision) (ob_request_id observation)
             (cp_request_id checkpoint))
  then Some (guard_fail ("request_id values across reflection_decision/" +:+
               "latest_observation/checkpoint must match when present")) else
  if negb (identifiers_align (rd_goal_id decision) (ob_goal_id observation)
             (cp_goal_id checkpoint))
  then Some (guard_fail ("goal_id values across reflection_decision/" +:+
               "latest_observation/checkpoint must match when present")) else
  if negb (recovery_request_error_info_matches error_info observation_error)
  then Some (guard_fail ("error_info must mirror latest_observation.error when " +:+
               "latest_observation.error is present")) else
  let? source_result := validate_error_source error_info observation else None in
  if negb (gr_ok source_result) then Some source_result else
  let? report_result := validate_idempotency_and_side_effect_report_field_rules report
    else None in
  if negb (gr_ok report_result) then Some report_result else
  Some (guard_pass "recovery request field rules validation passed").

Definition validate_recovery_request_field_rules (request : RecoveryRequest)
    : option GuardResult :=
  let? boundary_result := validate_recovery_request_boundary request else None in
  if negb (gr_ok boundary_result) then Some boundary_result else
  let? decision := rq_reflection_decision request else None in
  let? observation := rq_latest_observation request else None in
  let? checkpoint := rq_checkpoint request else None in
  let? error_info := rq_error_info request else None in
  let? observation_error := ob_error observation else None in
  let? report := rq_idempotency_and_side_effect_report request else None in
  validate_evidence_agreement decision observation checkpoint error_info observation_error
    report.

(** ** Recovery outcome *)

Record RecoveryOutcome := {
  ro_executed_action : option string;
  ro_final_runtime_state : option string;
  ro_updated_retry_count : option Z;
  ro_checkpoint_ref : option string;
  ro_compensation_result_ref : option string;
  ro_rejection_reason : option string;
  ro_escalation_reason : option string;
}.

#[export] Instance RecoveryOutcome_eq_dec : EqDecision RecoveryOutcome.
Proof. solve_decision. Defined.

Fixpoint recovery_outcome_string_has_non_whitespace_content (value : string) : bool :=
  match value with
  | EmptyString => false
  | String ch rest =>
      negb (is_space ch) || recovery_outcome_string_has_non_whitespace_content rest
  end.

Definition recovery_outcome_optional_string_has_non_whitespace_content (value : option string)
    : bool :=
  match value with
  | Some s => recovery_outcome_string_has_non_whitespace_content s
  | None => true
  end.

Definition recovery_outcome_optional_string_is_valid (value : option string) : bool :=
  negb (present_but_empty value).

Definition validate_recovery_outcome_required_fields (outcome : RecoveryOutcome) : GuardResult :=
  if negb (has_non_empty_value (ro_executed_action outcome))
  then guard_fail "executed_action is required and must be non-empty" else
  if negb (has_non_empty_value (ro_final_runtime_state outcome))
  then guard_fail "final_runtime_state is required and must be non-empty" else
  guard_pass "all required recovery-outcome fields present".

Definition validate_recovery_outcome_boundary (outcome : RecoveryOutcome) : GuardResult :=
  let required_result := validate_recovery_outcome_required_fields outcome in
  if negb (gr_ok required_result) then required_result else
  if negb (recovery_outcome_optional_string_is_valid (ro_checkpoint_ref outcome))
  then guard_fail "checkpoint_ref must be non-empty when present" else
  if negb (recovery_outcome_optional_string_is_valid (ro_compensation_result_ref outcome))
  then guard_fail "compensation_result_ref must be non-empty when present" else
  if negb (recovery_outcome_optional_string_is_valid (ro_rejection_reason outcome))
  then guard_fail "rejection_reason must be non-empty when present" else
  if negb (recovery_outcome_optional_string_is_valid (ro_escalation_reason outcome))
  then guard_fail "escalation_reason must be non-empty when present" else
  if negb (bool_decide (ro_rejection_reason outcome = None))
     && negb (bool_decide (ro_escalation_reason outcome = None))
  then guard_fail "rejection_reason and escalation_reason must not both be present" else
  guard_pass "recovery outcome boundary validation passed".

(** Both references present and equal. *)
Definition refs_collapse (checkpoint_ref compensation_result_ref : option string) : bool :=
  match checkpoint_ref, compensation_result_ref with
  | Some a, Some b => bool_decide (a = b)
  | _, _ => false
  end.

Definition validate_recovery_outcome_field_rules (outcome : RecoveryOutcome)
    : option GuardResult :=
  let boundary_result := validate_recovery_outcome_boundary outcome in
  if negb (gr_ok boundary_result) then Some boundary_result else
  let? executed_action := ro_executed_action outcome else None in
  if negb (recovery_outcome_string_has_non_whitespace_content executed_action)
  then Some (guard_fail
    "executed_action must contain at least one non-whitespace character") else
  let? final_runtime_state := ro_final_runtime_state outcome else None in
  if negb (recovery_outcome_string_has_non_whitespace_content final_runtime_state)
  then Some (guard_fail
    "final_runtime_state must contain at least one non-whitespace character") else
  let non_blank := recovery_outcome_optional_string_has_non_whitespace_content in
  if negb (non_blank (ro_checkpoint_ref outcome))
  then Some (guard_fail
    "checkpoint_ref must contain at least one non-whitespace character when present") else
  if negb (non_blank (ro_compensation_result_ref outcome))
  then Some (guard_fail
    "compensation_result_ref must contain at least one non-whitespace character when present") else
  if negb (non_blank (ro_rejection_reason outcome))
  then Some (guard_fail
    "rejection_reason must contain at least one non-whitespace character when present") else
  if negb (non_blank (ro_escalation_reason outcome))
  then Some (guard_fail
    "escalation_reason must contain at least one non-whitespace character when present") else
  if refs_collapse (ro_checkpoint_ref outcome) (ro_compensation_result_ref outcome)
  then Some (guard_fail
    "checkpoint_ref and compensation_result_ref must not use the same identifier") else
  Some (guard_pass "recovery outcome field rules validation passed").

(** ** Guard chains

    A guard is a chain of tests, each with its own refusal; it admits a value
    when every test passes. *)

Definition admitted (g : option GuardResult) : Prop :=
  exists result, g = Some result /\ gr_ok result = true.

Lemma guard_test (c : bool) reason g :
  gr_ok (if c then guard_fail reason else g) = true <-> c = false /\ gr_ok g = true.
Proof. destruct c; simpl; split; [done|by intros []|done|by intros []]. Qed.

Lemma guard_layer inner g :
  gr_ok (if negb (gr_ok inner) then inner else g) = true <->
  gr_ok inner = true /\ gr_ok g = true.
Proof. destruct (gr_ok inner) eqn:E; simpl; [tauto|]. rewrite E. split; [done|by intros []]. Qed.

Lemma guard_passed reason : gr_ok (guard_pass reason) = true <-> True.
Proof. done. Qed.

Lemma admitted_some g : admitted (Some g) <-> gr_ok g = true.
Proof. split; [by intros (? & [= <-] & ?)|by intros H; exists g]. Qed.

Lemma admitted_test (c : bool) reason g :
  admitted (if c then Some (guard_fail reason) else g) <-> c = false /\ admitted g.
Proof. destruct c; [rewrite admitted_some; simpl|]; naive_solver. Qed.

Lemma admitted_layer inner g :
  admitted (if negb (gr_ok inner) then Some inner else g) <->
  gr_ok inner = true /\ admitted g.
Proof. destruct (gr_ok inner) eqn:E; simpl; rewrite ?admitted_some, ?E; naive_solver. Qed.

Lemma admitted_deref {A} (o : option A) (k : A -> option GuardResult) :
  admitted (let? x := o else None in k x) <-> exists x, o = Some x /\ admitted (k x).
Proof.
  destruct o as [a|]; split; [by exists a|by intros (? & [= <-] & ?)|
    by intros (? & ? & ?)|by intros (? & ? & ?)].
Qed.

Lemma admitted_present {A} (o : option A) reason (k : A -> option GuardResult) :
  admitted (let? x := o else Some (guard_fail reason) in k x) <->
  exists x, o = Some x /\ admitted (k x).
Proof.
  destruct o as [a|]; split; [by exists a|by intros (? & [= <-] & ?)| |by intros (? & ? & ?)].
  by rewrite admitted_some.
Qed.

(** A chain that may dereference never does so on an empty field: the tests
    before it exclude it. *)
Lemma total_test (c : bool) r g :
  (c = false -> is_Some g) -> is_Some (if c then Some r else g : option GuardResult).
Proof. destruct c; eauto. Qed.

Lemma total_deref {A} (o : option A) (k : A -> option GuardResult) :
  is_Some o -> (forall x, o = Some x -> is_Some (k x)) ->
  is_Some (let? x := o else None in k x).
Proof. intros [x ->] H. by apply H. Qed.

Lemma total_present {A} (o : option A) r (k : A -> option GuardResult) :
  (forall x, o = Some x -> is_Some (k x)) ->
  is_Some (let? x := o else Some r in k x).
Proof. destruct o; eauto. Qed.

(** ** Outcomes *)

(** Blank: nothing but white space. *)
Definition blank (s : string) : Prop :=
  recovery_outcome_string_has_non_whitespace_content s = false.

Lemma not_blank s :
  ~ blank s <-> recovery_outcome_string_has_non_whitespace_content s = true.
Proof. unfold blank. by destruct (recovery_outcome_string_has_non_whitespace_content s). Qed.

Lemma non_blank_non_empty s :
  recovery_outcome_string_has_non_whitespace_content s = true -> s <> "".
Proof. by intros H ->. Qed.

(** What an outcome the guard admits looks like. *)
Record outcome_ok (o : RecoveryOutcome) : Prop := {
  ok_action : exists a, ro_executed_action o = Some a /\ ~ blank a;
  ok_state : exists s, ro_final_runtime_state o = Some s /\ ~ blank s;
  ok_optional : Forall (fun value => forall s, value = Some s -> ~ blank s)
    [ro_checkpoint_ref o; ro_compensation_result_ref o; ro_rejection_reason o;
     ro_escalation_reason o];
  ok_one_reason : ro_rejection_reason o = None \/ ro_escalation_reason o = None;
  ok_refs : forall r, ro_checkpoint_ref o = Some r -> ro_compensation_result_ref o <> Some r;
}.

Lemma non_blank_optional value :
  recovery_outcome_optional_string_has_non_whitespace_content value = true <->
  forall s, value = Some s -> ~ blank s.
Proof.
  unfold blank. destruct value as [s|]; simpl; [|naive_solver].
  split; [intros H ? [= <-]; congruence|].
  intros H. specialize (H s eq_refl). by destruct (recovery_outcome_string_has_non_whitespace_content s).
Qed.

Lemma non_blank_has_value value s :
  value = Some s -> ~ blank s -> has_non_empty_value value = true.
Proof.
  intros -> H. apply has_non_empty_value_true. exists s. split; [done|].
  intros ->. by apply H.
Qed.

Lemma non_blank_valid value :
  (forall s, value = Some s -> ~ blank s) ->
  recovery_outcome_optional_string_is_valid value = true.
Proof.
  intros H. unfold recovery_outcome_optional_string_is_valid. apply negb_true_iff.
  apply present_but_empty_false. intros ->. by apply (H "" eq_refl).
Qed.


Lemma required_outcome_fields outcome :
  gr_ok (validate_recovery_outcome_required_fields outcome) = true <->
  has_non_empty_value (ro_executed_action outcome) = true /\
  has_non_empty_value (ro_final_runtime_state outcome) = true.
Proof.
  unfold validate_recovery_outcome_required_fields.
  rewrite !guard_test, !negb_false_iff, guard_passed. tauto.
Qed.

Lemma boundary_outcome_fields outcome :
  gr_ok (validate_recovery_outcome_boundary outcome) = true ->
  exists action state,
    ro_executed_action outcome = Some action /\ ro_final_runtime_state outcome = Some state.
Proof.
  unfold validate_recovery_outcome_boundary. rewrite guard_layer, required_outcome_fields.
  intros [[Ha Hs] _]. apply has_non_empty_value_true in Ha as (a & -> & _), Hs as (s & -> & _).
  eauto.
Qed.

Lemma outcome_field_rules_total outcome :
  is_Some (validate_recovery_outcome_field_rules outcome).
Proof.
  unfold validate_recovery_outcome_field_rules. apply total_test.
  intros H%negb_false_iff%boundary_outcome_fields. destruct H as (a & s & -> & ->).
  repeat (apply total_test; intros _). by eexists.
Qed.

Lemma outcome_guard_spec outcome :
  admitted (validate_recovery_outcome_field_rules outcome) <-> outcome_ok outcome.
Proof.
  unfold validate_recovery_outcome_field_rules, validate_recovery_outcome_boundary.
  rewrite admitted_layer, guard_layer, required_outcome_fields, !guard_test, guard_passed.
  rewrite !admitted_deref.
  setoid_rewrite admitted_test. setoid_rewrite admitted_deref.
  repeat setoid_rewrite admitted_test. setoid_rewrite admitted_some.
  repeat setoid_rewrite negb_false_iff. repeat setoid_rewrite non_blank_optional. split.
  - intros ((_ & _ & _ & _ & _ & Hone & _) & a & Ha & Hna & s & Hs & Hns & Hc & Hk & Hr & He & Hd & _).
    split.
    + exists a. split; [done|by apply not_blank].
    + exists s. split; [done|by apply not_blank].
    + by repeat constructor.
    + destruct (ro_rejection_reason outcome), (ro_escalation_reason outcome); auto.
      by rewrite !bool_decide_false in Hone.
    + intros r Hcr Hkr. unfold refs_collapse in Hd. rewrite Hcr, Hkr in Hd.
      by rewrite bool_decide_true in Hd.
  - intros [(a & Ha & Hna) (s & Hs & Hns) Hopt Hone Hd].
    rewrite !Forall_cons in Hopt. destruct Hopt as (Hc & Hk & Hr & He & _).
    split_and!; eauto using non_blank_has_value, non_blank_valid.
    + by destruct Hone as [-> | ->]; simpl; rewrite ?andb_false_r.
    + exists a. split; [done|]. split; [by apply not_blank|].
      exists s. split; [done|]. split; [by apply not_blank|]. split_and!; try done.
      unfold refs_collapse. destruct (ro_checkpoint_ref outcome) as [c|]; [|done].
      destruct (ro_compensation_result_ref outcome) as [k|]; [|done].
      apply bool_decide_eq_false. intros ->. by apply (Hd k).
Qed.

(** ** Requests *)

Lemma admitted_inner (inner g : option GuardResult) :
  admitted (let? r := inner else None in if negb (gr_ok r) then Some r else g) <->
  admitted inner /\ admitted g.
Proof.
  rewrite admitted_deref. setoid_rewrite admitted_layer. unfold admitted. naive_solver.
Qed.

Lemma admitted_inner_reason (inner g : option GuardResult) reason :
  admitted (let? r := inner else None in
            if negb (gr_ok r) then Some (guard_fail reason) else g) <->
  admitted inner /\ admitted g.
Proof.
  rewrite admitted_deref. setoid_rewrite admitted_test. setoid_rewrite negb_false_iff.
  unfold admitted. naive_solver.
Qed.

Lemma reflection_field_rules_total decision :
  is_Some (validate_reflection_decision_field_rules decision).
Proof.
  unfold validate_reflection_decision_field_rules. apply total_deref.
  - unfold validate_reflection_decision_boundary. apply total_test. intros H%negb_false_iff.
    apply total_deref; [|intros; repeat (apply total_test; intros _); by eexists].
    revert H. unfold validate_reflection_decision_required_fields, decision_kind_missing.
    rewrite !guard_test. destruct (rd_decision_kind decision); [by eexists|by intros (_ & ? & _)].
  - intros. repeat (apply total_test; intros _). by eexists.
Qed.

Lemma reflection_kind_known decision :
  admitted (validate_reflection_decision_field_rules decision) ->
  exists kind, rd_decision_kind decision = Some kind /\
    kind ∈ [ReflectionDecisionKind.Continue; ReflectionDecisionKind.RetryStep;
            ReflectionDecisionKind.Replan; ReflectionDecisionKind.AbortSafe].
Proof.
  unfold validate_reflection_decision_field_rules, validate_reflection_decision_boundary.
  rewrite admitted_inner, admitted_layer, admitted_deref.
  setoid_rewrite admitted_test.
  intros [(Hreq & kind & Hkind & Hrange & _) _].
  unfold validate_reflection_decision_required_fields, decision_kind_missing in Hreq.
  rewrite !guard_test, Hkind in Hreq. destruct Hreq as (_ & Hne & _).
  exists kind. split; [done|]. apply bool_decide_eq_false in Hne.
  apply orb_false_iff in Hrange as [H1%Z.ltb_ge H2%Z.ltb_ge].
  destruct kind; try done; try set_solver.
  simpl in *. unfold unnamed_value in *. destruct (Z.ltb_spec n 0); lia.
Qed.

Lemma observation_required obs :
  gr_ok (validate_observation_required_fields obs) = true ->
  (exists id, ob_observation_id obs = Some id) /\
  (exists source, ob_source obs = Some source) /\ is_Some (ob_success obs).
Proof.
  unfold validate_observation_required_fields, source_missing. rewrite !guard_test.
  intros (Hid & Hs & Hok & _). apply negb_false_iff, has_non_empty_value_true in Hid.
  destruct Hid as (id & -> & _).
  destruct (ob_source obs); [|done]. destruct (ob_success obs); [|done].
  split_and!; by eexists.
Qed.

Lemma observation_boundary_total obs : is_Some (validate_observation_boundary obs).
Proof.
  unfold validate_observation_boundary. apply total_test.
  intros H%negb_false_iff%observation_required. destruct H as (_ & (source & ->) & _).
  repeat (apply total_test; intros _). by eexists.
Qed.

Lemma report_field_rules_total report :
  is_Some (validate_idempotency_and_side_effect_report_field_rules report).
Proof.
  unfold validate_idempotency_and_side_effect_report_field_rules,
    validate_idempotency_and_side_effect_report_required_fields.
  destruct (isr_replay_safe report); [|by eexists].
  apply total_test. rewrite negb_false_iff, !guard_test. intros (_ & Hp & _).
  destruct (isr_side_effects_present report); [|done].
  apply total_test. intros _. by eexists.
Qed.

Lemma request_required_total request :
  is_Some (validate_recovery_request_required_fields request).
Proof.
  unfold validate_recovery_request_required_fields.
  apply total_present. intros decision _. apply total_deref.
  { apply reflection_field_rules_total. }
  intros reflection _. apply total_test. intros _. apply total_present. intros error _.
  apply total_test. intros _. apply total_present. intros obs _. apply total_deref.
  { apply observation_boundary_total. }
  intros result _. apply total_test. intros _. apply total_present. intros cp _.
  apply total_test. intros _. apply total_present. intros report _.
  apply total_test. intros _. by eexists.
Qed.

(** The nested evidence of a request that passes the first layer. *)
Record evidence (q : RecoveryRequest) (d : ReflectionDecision) (e : ErrorInfo)
    (o : Observation) (cp : Checkpoint) (r : IdempotencyAndSideEffectReport) : Prop := {
  ev_decision : rq_reflection_decision q = Some d;
  ev_decision_ok : admitted (validate_reflection_decision_field_rules d);
  ev_error : rq_error_info q = Some e;
  ev_error_ok : gr_ok (validate_error_info_required_fields e) = true;
  ev_observation : rq_latest_observation q = Some o;
  ev_observation_ok : admitted (validate_observation_boundary o);
  ev_checkpoint : rq_checkpoint q = Some cp;
  ev_checkpoint_ok : gr_ok (validate_checkpoint_field_rules cp) = true;
  ev_report : rq_idempotency_and_side_effect_report q = Some r;
  ev_report_ok :
    gr_ok (validate_idempotency_and_side_effect_report_required_fields r) = true;
}.

Lemma request_required_spec q :
  admitted (validate_recovery_request_required_fields q) <->
  exists d e o cp r, evidence q d e o cp r.
Proof.
  unfold validate_recovery_request_required_fields. split.
  - rewrite admitted_present. intros (d & Hd & H). rewrite admitted_inner_reason in H.
    destruct H as [Hdok H]. rewrite admitted_present in H. destruct H as (e & He & H).
    rewrite admitted_test, negb_false_iff, admitted_present in H.
    destruct H as (Heok & o & Ho & H). rewrite admitted_inner_reason in H.
    destruct H as [Hook H]. rewrite admitted_present in H. destruct H as (cp & Hcp & H).
    rewrite admitted_test, negb_false_iff, admitted_present in H.
    destruct H as (Hcpok & r & Hr & H). rewrite admitted_layer in H. destruct H as [Hrok _].
    by exists d, e, o, cp, r.
  - intros (d & e & o & cp & r & [Hd Hdok He Heok Ho Hook Hcp Hcpok Hr Hrok]).
    rewrite Hd, He, Ho, Hcp, Hr, admitted_inner_reason. split; [done|].
    rewrite Heok. simpl. rewrite admitted_inner_reason. split; [done|].
    rewrite Hcpok, Hrok. simpl. by apply admitted_some.
Qed.

Lemma error_info_matches_eq left right :
  recovery_request_error_info_matches left right = true <-> left = right.
Proof.
  unfold recovery_request_error_info_matches. rewrite !andb_true_iff, !bool_decide_eq_true.
  split; [|by intros ->].
  destruct left as [? ? ? [] []], right as [? ? ? [] []]. simpl.
  by intros [[[[[[[-> ->] ->] ->] ->] ->] ->] ->].
Qed.

(** What the guard of all three layers admits. *)
Record admissible (q : RecoveryRequest) (d : ReflectionDecision) (e : ErrorInfo)
    (o : Observation) (cp : Checkpoint) (r : IdempotencyAndSideEffectReport) : Prop := {
  ad_evidence : evidence q d e o cp r;
  ad_failed : ob_success o = Some false;
  ad_error : ob_error o = Some e;
  ad_not_succeeded : cp_state cp <> Some CheckpointState.Succeeded;
  ad_retry_count : retry_count_conflicts q cp = false;
  ad_budget : forall snapshot, rq_runtime_budget_snapshot q = Some snapshot ->
    gr_ok (validate_budget_snapshot snapshot) = true;
  ad_correlation : gr_ok (validate_observation_source_correlation o) = true;
  ad_request_id :
    identifiers_align (rd_request_id d) (ob_request_id o) (cp_request_id cp) = true;
  ad_goal_id : identifiers_align (rd_goal_id d) (ob_goal_id o) (cp_goal_id cp) = true;
  ad_source : admitted (validate_error_source e o);
  ad_report : admitted (validate_idempotency_and_side_effect_report_field_rules r);
}.

Lemma evidence_unique q d e o cp r :
  evidence q d e o cp r ->
  rq_reflection_decision q = Some d /\ rq_error_info q = Some e /\
  rq_latest_observation q = Some o /\ rq_checkpoint q = Some cp /\
  rq_idempotency_and_side_effect_report q = Some r.
Proof. by intros []. Qed.

Lemma evidence_fields q d e o cp r :
  evidence q d e o cp r ->
  (exists id, ob_observation_id o = Some id) /\ (exists source, ob_source o = Some source) /\
  is_Some (ob_success o) /\ is_Some (cp_state cp).
Proof.
  intros [_ _ _ _ _ Ho _ Hcp _ _].
  unfold validate_observation_boundary in Ho. rewrite admitted_layer in Ho.
  destruct Ho as [(Hid & Hs & Hok)%observation_required _]. split_and!; try done.
  unfold validate_checkpoint_field_rules in Hcp. rewrite guard_layer in Hcp.
  destruct Hcp as [Hcp _]. unfold validate_checkpoint_boundary in Hcp. rewrite guard_layer in Hcp.
  destruct Hcp as [Hcp _]. unfold validate_checkpoint_required_fields in Hcp.
  rewrite !guard_test in Hcp. destruct Hcp as (_ & H & _). by destruct (cp_state cp).
Qed.

Lemma request_boundary_total q : is_Some (validate_recovery_request_boundary q).
Proof.
  unfold validate_recovery_request_boundary. apply total_deref.
  { apply request_required_total. }
  intros result Hr. apply total_test. intros Hok%negb_false_iff.
  assert (admitted (validate_recovery_request_required_fields q)) as Had by by exists result.
  apply request_required_spec in Had as (d & e & o & cp & r & Hev).
  destruct (evidence_fields _ _ _ _ _ _ Hev) as (_ & _ & Hsuccess & Hstate).
  apply evidence_unique in Hev as (_ & _ & Ho & Hcp & _). rewrite Ho. simpl.
  apply total_deref; [done|]. intros success _. destruct success; [by eexists|].
  apply total_test. intros _. rewrite Hcp. simpl.
  apply total_deref; [done|]. intros state _.
  repeat (apply total_test; intros _). by eexists.
Qed.

Lemma request_boundary_spec q d e o cp r :
  evidence q d e o cp r ->
  admitted (validate_recovery_request_boundary q) <->
  ob_success o = Some false /\ is_Some (ob_error o) /\
  cp_state cp <> Some CheckpointState.Succeeded /\ retry_count_conflicts q cp = false /\
  (forall snapshot, rq_runtime_budget_snapshot q = Some snapshot ->
     gr_ok (validate_budget_snapshot snapshot) = true).
Proof.
  intros Hev. unfold validate_recovery_request_boundary. rewrite admitted_inner.
  assert (admitted (validate_recovery_request_required_fields q)) as Hreq
    by (apply request_required_spec; by exists d, e, o, cp, r).
  destruct (evidence_fields _ _ _ _ _ _ Hev) as (_ & _ & [success Hs] & [state Hst]).
  apply evidence_unique in Hev as (_ & _ & Ho & Hcp & _). rewrite Ho, Hs, Hcp, Hst.
  destruct success.
  { rewrite admitted_some. split; [by intros []|by intros (? & _)]. }
  rewrite !admitted_test, !bool_decide_eq_false, admitted_some.
  destruct (ob_error o) as [err|]; [|split; [naive_solver|by intros (_ & [] & _)]].
  destruct (rq_runtime_budget_snapshot q) as [snapshot|]; rewrite ?negb_false_iff.
  - split.
    + intros (_ & _ & Hne & Hr & Hb & _). split_and!; try done; [by intros [= ->]|].
      by intros ? [= <-].
    + intros (_ & _ & Hne & Hr & Hb). split_and!; try done; [by intros ->|]. by apply Hb.
  - split.
    + intros (_ & _ & Hne & Hr & _). split_and!; try done. by intros [= ->].
    + intros (_ & _ & Hne & Hr & _). split_and!; try done. by intros ->.
Qed.

Lemma error_source_total e o :
  (exists id, ob_observation_id o = Some id) -> (exists source, ob_source o = Some source) ->
  is_Some (validate_error_source e o).
Proof.
  intros [id Hid] [source Hs]. unfold validate_error_source. rewrite Hs, Hid.
  destruct source; repeat (apply total_test; intros _); by eexists.
Qed.

Lemma evidence_agreement_spec d o cp e err r :
  admitted (validate_evidence_agreement d o cp e err r) <->
  err = e /\ gr_ok (validate_observation_source_correlation o) = true /\
  identifiers_align (rd_request_id d) (ob_request_id o) (cp_request_id cp) = true /\
  identifiers_align (rd_goal_id d) (ob_goal_id o) (cp_goal_id cp) = true /\
  admitted (validate_error_source e o) /\
  admitted (validate_idempotency_and_side_effect_report_field_rules r).
Proof.
  unfold validate_evidence_agreement.
  rewrite admitted_layer, !admitted_test, !negb_false_iff, error_info_matches_eq.
  rewrite !admitted_inner, admitted_some, guard_passed. intuition congruence.
Qed.

Lemma request_field_rules_total q : is_Some (validate_recovery_request_field_rules q).
Proof.
  unfold validate_recovery_request_field_rules. apply total_deref.
  { apply request_boundary_total. }
  intros result Hr. apply total_test. intros Hok%negb_false_iff.
  assert (admitted (validate_recovery_request_boundary q)) as Had by by exists result.
  assert (admitted (validate_recovery_request_required_fields q)) as Hreq.
  { unfold validate_recovery_request_boundary in Had. rewrite admitted_inner in Had. tauto. }
  apply request_required_spec in Hreq as (d & e & o & cp & r & Hev).
  apply (request_boundary_spec _ _ _ _ _ _ Hev) in Had as (_ & Herr & _).
  destruct (evidence_fields _ _ _ _ _ _ Hev) as (Hid & Hs & _).
  apply evidence_unique in Hev as (Hd & He & Ho & Hcp & Hrep).
  rewrite Hd, He, Ho, Hcp, Hrep. apply total_deref; [done|]. intros err _.
  unfold validate_evidence_agreement. repeat (apply total_test; intros _).
  apply total_deref; [by apply error_source_total|]. intros source_result _.
  apply total_test. intros _. apply total_deref; [apply report_field_rules_total|].
  intros report_result _. apply total_test. intros _. by eexists.
Qed.

Lemma request_guard_spec q :
  admitted (validate_recovery_request_field_rules q) <->
  exists d e o cp r, admissible q d e o cp r.
Proof.
  unfold validate_recovery_request_field_rules. rewrite admitted_inner.
  assert (admitted (validate_recovery_request_boundary q) ->
    exists d e o cp r, evidence q d e o cp r) as Hreq.
  { unfold validate_recovery_request_boundary. rewrite admitted_inner, request_required_spec. tauto. }
  split.
  - intros [Hb H]. destruct (Hreq Hb) as (d & e & o & cp & r & Hev).
    apply (request_boundary_spec _ _ _ _ _ _ Hev) in Hb as (Hs & [err Herr] & Hst & Hrc & Hbud).
    destruct (evidence_unique _ _ _ _ _ _ Hev) as (Hd & He & Ho & Hcp & Hrep).
    rewrite Hd, Ho, Hcp, He, Herr, Hrep in H.
    apply evidence_agreement_spec in H as (-> & Hc & Hr & Hg & Hsrc & Hrp).
    by exists d, e, o, cp, r.
  - intros (d & e & o & cp & r & [Hev Hs Herr Hst Hrc Hbud Hc Hr Hg Hsrc Hrp]). split.
    { apply (request_boundary_spec _ _ _ _ _ _ Hev). rewrite Herr. split_and!; by eauto. }
    destruct (evidence_unique _ _ _ _ _ _ Hev) as (Hd & He & Ho & Hcp & Hrep).
    rewrite Hd, Ho, Hcp, He, Herr, Hrep. by apply evidence_agreement_spec.
Qed.

(** The identifier the error of an observation must name: that of the call, the
    task or the observation itself. *)
Definition error_ref_id (o : Observation) (source : ObservationSource) : option string :=
  match source with
  | ObservationSource.ToolExecution => ob_tool_call_id o
  | ObservationSource.WorkerAgent => ob_worker_task_id o
  | _ => ob_observation_id o
  end.

(** One of the four channels. *)
Definition concrete_source (source : ObservationSource) : Prop :=
  match source with
  | ObservationSource.Unspecified | ObservationSource.Other _ => False
  | _ => True
  end.

Lemma source_known o :
  admitted (validate_observation_boundary o) ->
  exists source, ob_source o = Some source /\ concrete_source source.
Proof.
  unfold validate_observation_boundary. rewrite admitted_layer, admitted_deref.
  setoid_rewrite admitted_test. intros (Hreq & source & Hsource & Hrange & _).
  unfold validate_observation_required_fields, source_missing in Hreq.
  rewrite !guard_test, Hsource in Hreq. destruct Hreq as (_ & Hne%bool_decide_eq_false & _).
  exists source. split; [done|].
  apply orb_false_iff in Hrange as [H1%Z.ltb_ge H2%Z.ltb_ge].
  destruct source; try done.
  simpl in *. unfold unnamed_value in *. destruct (Z.ltb_spec n 0); lia.
Qed.

Lemma error_source_spec e o source :
  ob_source o = Some source ->
  concrete_source source ->
  admitted (validate_error_source e o) <->
  esr_ref_type (ei_source_ref e) = source_to_error_ref_type source /\
  error_ref_id o source = Some (esr_ref_id (ei_source_ref e)).
Proof.
  intros Hs Hknown. unfold validate_error_source. rewrite Hs.
  assert (forall P Q : Prop, (P /\ (Q /\ True) <-> P /\ Q)) as Htrue by tauto.
  destruct source; try by destruct Hknown. all: cbn [source_to_error_ref_type error_ref_id].
  1, 2: rewrite !admitted_test, !negb_false_iff, !bool_decide_eq_true, admitted_some,
    guard_passed; by rewrite Htrue.
  all: rewrite admitted_test, negb_false_iff, bool_decide_eq_true.
  all: destruct (ob_observation_id o) as [id|];
    [|split; [by intros [_ (? & ? & _)]|by intros [_ ?]]].
  all: rewrite admitted_test, negb_false_iff, bool_decide_eq_true, admitted_some, guard_passed.
  all: rewrite Htrue; intuition congruence.
Qed.

Lemma report_spec r :
  gr_ok (validate_idempotency_and_side_effect_report_required_fields r) = true ->
  admitted (validate_idempotency_and_side_effect_report_field_rules r) <->
  (isr_replay_safe r = Some true -> isr_side_effects_present r = Some true ->
   has_non_empty_value (isr_idempotency_key r) = true).
Proof.
  intros Hreq. unfold validate_idempotency_and_side_effect_report_field_rules.
  rewrite admitted_layer, !admitted_deref.
  assert (is_Some (isr_replay_safe r) /\ is_Some (isr_side_effects_present r)) as [[s Hs] [p Hp]].
  { revert Hreq. unfold validate_idempotency_and_side_effect_report_required_fields.
    destruct (isr_replay_safe r); [|done]. rewrite !guard_test. intros (_ & Hp & _).
    destruct (isr_side_effects_present r); [|done]. split; by eexists. }
  rewrite Hs. setoid_rewrite admitted_deref. setoid_rewrite admitted_test. rewrite Hp.
  setoid_rewrite admitted_some. destruct s, p, (has_non_empty_value _) eqn:Hk; simpl;
    naive_solver.
Qed.

(** The guard of a recovery request dereferences no empty field, whatever the
    request. It admits exactly the requests that carry a decision, an error, a
    failed observation, a checkpoint and a replay report, each valid by its own
    guard and in agreement: the error is the observation's own and names the
    channel and the identifier it came from, the request and goal identifiers
    match, the retry counts agree, the checkpoint has not succeeded, and the
    budget snapshot is valid when present. *)
Theorem request_guard_complete q :
  is_Some (validate_recovery_request_field_rules q) /\
  (admitted (validate_recovery_request_field_rules q) <->
   exists d e o cp r source,
     evidence q d e o cp r /\ ob_source o = Some source /\
     ob_success o = Some false /\ ob_error o = Some e /\
     esr_ref_type (ei_source_ref e) = source_to_error_ref_type source /\
     error_ref_id o source = Some (esr_ref_id (ei_source_ref e)) /\
     cp_state cp <> Some CheckpointState.Succeeded /\ retry_count_conflicts q cp = false /\
     (forall snapshot, rq_runtime_budget_snapshot q = Some snapshot ->
        gr_ok (validate_budget_snapshot snapshot) = true) /\
     gr_ok (validate_observation_source_correlation o) = true /\
     identifiers_align (rd_request_id d) (ob_request_id o) (cp_request_id cp) = true /\
     identifiers_align (rd_goal_id d) (ob_goal_id o) (cp_goal_id cp) = true /\
     (isr_replay_safe r = Some true -> isr_side_effects_present r = Some true ->
      has_non_empty_value (isr_idempotency_key r) = true)).
Proof.
  split; [apply request_field_rules_total|]. rewrite request_guard_spec. split.
  - intros (d & e & o & cp & r & [Hev Hs Herr Hst Hrc Hbud Hc Hr Hg Hsrc Hrp]).
    destruct (source_known o (ev_observation_ok _ _ _ _ _ _ Hev)) as (source & Hsource & Hk).
    apply (error_source_spec _ _ _ Hsource Hk) in Hsrc as [Ht Hid].
    exists d, e, o, cp, r, source. split_and!; try done.
    apply report_spec; [by destruct Hev|done].
  - intros (d & e & o & cp & r & source & Hev & Hsource & Hs & Herr & Ht & Hid & Hst & Hrc &
      Hbud & Hc & Hr & Hg & Hrp).
    destruct (source_known o (ev_observation_ok _ _ _ _ _ _ Hev)) as (source' & Hs' & Hk).
    assert (source' = source) as -> by congruence.
    exists d, e, o, cp, r. split; try done.
    + by apply (error_source_spec _ _ _ Hsource Hk).
    + apply report_spec; [|done]. by destruct Hev.
Qed.
