(* ===== verification/SafeMode.v ===== *)
(** * Safe mode controller

    runtime/src/safety/SafeModeController.{h,cpp} with the degrade policy of
    profiles/include/RuntimePolicySnapshot.h: which mode a trigger enters, with
    which fallback, and when the runtime may leave it. Each operation holds the
    mode lock while it reads and writes the mode; logging is left out. *)

From S2P Require Import Prelude ErrorCodes CheckpointContracts Fsm Budget Text RecoveryContracts.

(** ** Data *)

Module SafeModeTriggerKind.
Inductive SafeModeTriggerKind :=
| PolicyForbidden | BudgetExhausted | RecoveryExhausted | DependencyUnavailable
| WatchdogTimeout.
#[global] Instance SafeModeTriggerKind_eq_dec : EqDecision SafeModeTriggerKind.
Proof. solve_decision. Defined.
End SafeModeTriggerKind.
Abbreviation SafeModeTriggerKind := SafeModeTriggerKind.SafeModeTriggerKind.

Module SafeModeState.
Inductive SafeModeState := Normal | FailedSafe | Degraded | SafeMode.
#[global] Instance SafeModeState_eq_dec : EqDecision SafeModeState.
Proof. solve_decision. Defined.
End SafeModeState.
Abbreviation SafeModeState := SafeModeState.SafeModeState.

Definition safe_mode_state_name (state : SafeModeState) : string :=
  match state with
  | SafeModeState.Normal => "Normal"
  | SafeModeState.FailedSafe => "FailedSafe"
  | SafeModeState.Degraded => "Degraded"
  | SafeModeState.SafeMode => "SafeMode"
  end.

Module SafeModeAction.
Inductive SafeModeAction :=
| None | EnterFailedSafe | EnterDegraded | EnterSafeMode | ExitToNormal.
#[global] Instance SafeModeAction_eq_dec : EqDecision SafeModeAction.
Proof. solve_decision. Defined.
End SafeModeAction.
Abbreviation SafeModeAction := SafeModeAction.SafeModeAction.

Record HealthSignal := {
  hs_dependency_available : bool;
  hs_watchdog_healthy : bool;
  hs_dependency_name : string;
  hs_detail : string;
}.

Record SafeModeTrigger := {
  smt_trigger_kind : SafeModeTriggerKind;
  smt_budget_decision : option BudgetDecision;
  smt_recovery_outcome : option RecoveryOutcome;
  smt_error_code : option RuntimeErrorCode;
  smt_health_signal : option HealthSignal;
  smt_detail : string;
}.

Record SafeModeDecision := {
  smd_transition_required : bool;
  smd_previous_mode : SafeModeState;
  smd_target_mode : SafeModeState;
  smd_action : SafeModeAction;
  smd_target_runtime_state : option RuntimeState;
  smd_error_code : option RuntimeErrorCode;
  smd_selected_fallback : option string;
  smd_detail : string;
}.

Definition mode_changed (decision : SafeModeDecision) : bool :=
  smd_transition_required decision
  && negb (bool_decide (smd_previous_mode decision = smd_target_mode decision)).

Record SafeModeExitRequest := {
  sme_dependencies_healthy : bool;
  sme_watchdog_healthy : bool;
  sme_operator_cleared : bool;
  sme_budget_restored : bool;
  sme_detail : string;
}.

Record DegradePolicy := {
  dp_fallback_chain : list string;
  dp_allow_model_failover : bool;
  dp_allow_budget_degrade : bool;
}.

(** Of the policy snapshot the controller reads the degrade policy alone; [None]
    is the null pointer. *)
Record SafeModeController := {
  smc_policy_snapshot : option DegradePolicy;
  smc_current_mode : SafeModeState;
}.

Definition new_safe_mode_controller (policy_snapshot : option DegradePolicy)
    : SafeModeController :=
  {| smc_policy_snapshot := policy_snapshot; smc_current_mode := SafeModeState.Normal |}.

(** ** Helpers *)

Definition fallback_step_enabled (degrade_policy : DegradePolicy) (step : string) : bool :=
  if bool_decide (step = "allow_model_failover") then dp_allow_model_failover degrade_policy else
  if bool_decide (step = "allow_budget_degrade") then dp_allow_budget_degrade degrade_policy else
  if bool_decide (step = "allow_tool_skip") then true else
  bool_decide (step = "abort_safe").

Definition runtime_state_for_mode (mode : SafeModeState) : option RuntimeState :=
  match mode with
  | SafeModeState.FailedSafe => Some RuntimeState.FailedSafe
  | SafeModeState.Degraded => Some RuntimeState.Degraded
  | SafeModeState.SafeMode => Some RuntimeState.SafeMode
  | SafeModeState.Normal => None
  end.

Definition error_code_for_mode (mode : SafeModeState) : option RuntimeErrorCode :=
  match mode with
  | SafeModeState.FailedSafe => Some RT_E_501_RECOVERY_ESCALATED
  | SafeModeState.Degraded => Some RT_E_511_DEGRADE_ENTERED
  | SafeModeState.SafeMode => Some RT_E_510_SAFE_MODE_ENTERED
  | SafeModeState.Normal => None
  end.

(** The three loops return the first step that passes their test. *)
Definition select_fallback (c : SafeModeController) (trigger_kind : SafeModeTriggerKind)
    : option string :=
  let? degrade_policy := smc_policy_snapshot c else None in
  let chain := dp_fallback_chain degrade_policy in
  if bool_decide (trigger_kind = SafeModeTriggerKind.BudgetExhausted) then
    if dp_allow_budget_degrade degrade_policy then Some "allow_budget_degrade" else
    List.find (fun step => bool_decide (step = "abort_safe")) chain
  else
  let failover :=
    if bool_decide (trigger_kind = SafeModeTriggerKind.DependencyUnavailable)
       && dp_allow_model_failover degrade_policy
    then List.find
           (fun step => negb (is_empty step) && negb (bool_decide (step = "abort_safe"))) chain
    else None in
  match failover with
  | Some step => Some step
  | None =>
      List.find
        (fun step =>
           fallback_step_enabled degrade_policy step
           && bool_decide (trigger_kind = SafeModeTriggerKind.DependencyUnavailable)) chain
  end.

Definition no_transition (detail : string) (state : SafeModeState) : SafeModeDecision :=
  {| smd_transition_required := false; smd_previous_mode := state; smd_target_mode := state;
     smd_action := SafeModeAction.None;
     smd_target_runtime_state := runtime_state_for_mode state;
     smd_error_code := error_code_for_mode state;
     smd_selected_fallback := None; smd_detail := detail |}.

Definition transition_locked (c : SafeModeController) (target_mode : SafeModeState)
    (action : SafeModeAction) (selected_fallback : option string) (detail : string)
    : SafeModeController * SafeModeDecision :=
  let previous_mode := smc_current_mode c in
  ({| smc_policy_snapshot := smc_policy_snapshot c; smc_current_mode := target_mode |},
   {| smd_transition_required := negb (bool_decide (previous_mode = target_mode));
      smd_previous_mode := previous_mode; smd_target_mode := target_mode;
      smd_action := action;
      smd_target_runtime_state := runtime_state_for_mode target_mode;
      smd_error_code := error_code_for_mode target_mode;
      smd_selected_fallback := selected_fallback;
      smd_detail :=
        if is_empty detail
        then "safe mode transition -> " +:+ safe_mode_state_name target_mode
        else detail |}).

(** [detail.empty() ? other : detail] *)
Definition detail_or (detail other : string) : string :=
  if is_empty detail then other else detail.

(** [detail.empty() && value.has_value() ? value->detail : detail] *)
Definition detail_or_of {A} (detail : string) (value : option A) (of_value : A -> string)
    : string :=
  match value with
  | Some v => detail_or detail (of_value v)
  | None => detail
  end.

(** ** Operations *)

(** The switch of [evaluate_entry]. *)
Definition enter_mode (c : SafeModeController) (trigger : SafeModeTrigger)
    : SafeModeController * SafeModeDecision :=
  let detail := smt_detail trigger in
  match smt_trigger_kind trigger with
  | SafeModeTriggerKind.PolicyForbidden =>
      transition_locked c SafeModeState.SafeMode SafeModeAction.EnterSafeMode None
        (detail_or detail "policy forbids continuing execution")
  | SafeModeTriggerKind.WatchdogTimeout =>
      transition_locked c SafeModeState.SafeMode SafeModeAction.EnterSafeMode None
        (detail_or detail "watchdog timeout forces safe mode")
  | SafeModeTriggerKind.BudgetExhausted =>
      let selected_fallback := select_fallback c (smt_trigger_kind trigger) in
      let detail := detail_or_of detail (smt_budget_decision trigger) bd_detail in
      if bool_decide (selected_fallback = Some "allow_budget_degrade") then
        transition_locked c SafeModeState.Degraded SafeModeAction.EnterDegraded
          selected_fallback detail
      else
        transition_locked c SafeModeState.FailedSafe SafeModeAction.EnterFailedSafe
          selected_fallback detail
  | SafeModeTriggerKind.DependencyUnavailable =>
      let selected_fallback := select_fallback c (smt_trigger_kind trigger) in
      let detail := detail_or_of detail (smt_health_signal trigger) hs_detail in
      if match selected_fallback with
         | Some step => negb (bool_decide (step = "abort_safe"))
         | None => false
         end
      then
        transition_locked c SafeModeState.Degraded SafeModeAction.EnterDegraded
          selected_fallback detail
      else
        transition_locked c SafeModeState.FailedSafe SafeModeAction.EnterFailedSafe
          selected_fallback detail
  | SafeModeTriggerKind.RecoveryExhausted =>
      let failed_safe executed_action :=
        transition_locked c SafeModeState.FailedSafe SafeModeAction.EnterFailedSafe
          executed_action
          (detail_or detail "recovery exhausted without a viable continuation path") in
      match smt_recovery_outcome trigger with
      | Some outcome =>
          if bool_decide (ro_executed_action outcome = Some "degrade")
             || bool_decide (ro_final_runtime_state outcome = Some "Degraded") then
            transition_locked c SafeModeState.Degraded SafeModeAction.EnterDegraded
              (ro_executed_action outcome)
              (detail_or detail (default "recovery exhausted into degraded mode"
                                   (ro_escalation_reason outcome)))
          else if bool_decide (ro_final_runtime_state outcome = Some "SafeMode") then
            transition_locked c SafeModeState.SafeMode SafeModeAction.EnterSafeMode
              (ro_executed_action outcome)
              (detail_or detail (default "recovery exhausted into safe mode"
                                   (ro_escalation_reason outcome)))
          else failed_safe (ro_executed_action outcome)
      | None => failed_safe None
      end
  end.

Definition evaluate_entry (c : SafeModeController) (trigger : SafeModeTrigger)
    : SafeModeController * SafeModeDecision :=
  let '(c, decision) := enter_mode c trigger in
  if is_empty (smd_detail decision)
  then (c, no_transition "unknown safe mode trigger" (smc_current_mode c))
  else (c, decision).

Definition evaluate_exit (c : SafeModeController) (request : SafeModeExitRequest)
    : SafeModeController * SafeModeDecision :=
  if bool_decide (smc_current_mode c = SafeModeState.Normal)
  then (c, no_transition "runtime already in normal mode" (smc_current_mode c)) else
  if negb (sme_dependencies_healthy request) || negb (sme_watchdog_healthy request)
     || negb (sme_operator_cleared request) || negb (sme_budget_restored request)
  then
    (c, no_transition
          (detail_or (sme_detail request)
             "exit rejected because recovery conditions are incomplete")
          (smc_current_mode c))
  else
    transition_locked c SafeModeState.Normal SafeModeAction.ExitToNormal None
      (detail_or (sme_detail request) "safe mode exit accepted").

(** ** Histories *)

Inductive safe_mode_op :=
| OpEntry (trigger : SafeModeTrigger)
| OpExit (request : SafeModeExitRequest).

Definition run_safe_mode_op (c : SafeModeController) (op : safe_mode_op)
    : SafeModeController * SafeModeDecision :=
  match op with
  | OpEntry trigger => evaluate_entry c trigger
  | OpExit request => evaluate_exit c request
  end.

Fixpoint run_safe_mode (c : SafeModeController) (ops : list safe_mode_op)
    : SafeModeController :=
  match ops with
  | [] => c
  | op :: rest => run_safe_mode (fst (run_safe_mode_op c op)) rest
  end.

(** All four conditions of an exit hold. *)
Definition clearance (op : safe_mode_op) : Prop :=
  exists request, op = OpExit request /\
    sme_dependencies_healthy request = true /\ sme_watchdog_healthy request = true /\
    sme_operator_cleared request = true /\ sme_budget_restored request = true.

(** ** The mode a trigger enters *)

(** Written from the table of triggers: the mode depends on the trigger and the
    policy alone. *)
Definition entry_mode (policy : option DegradePolicy) (trigger : SafeModeTrigger)
    : SafeModeState :=
  match smt_trigger_kind trigger with
  | SafeModeTriggerKind.PolicyForbidden | SafeModeTriggerKind.WatchdogTimeout =>
      SafeModeState.SafeMode
  | SafeModeTriggerKind.BudgetExhausted =>
      match policy with
      | Some p => if dp_allow_budget_degrade p then SafeModeState.Degraded
                  else SafeModeState.FailedSafe
      | None => SafeModeState.FailedSafe
      end
  | SafeModeTriggerKind.DependencyUnavailable =>
      match policy with
      | Some p =>
          match List.find (fun step =>
            (dp_allow_model_failover p && negb (is_empty step)
             && negb (bool_decide (step = "abort_safe")))) (dp_fallback_chain p) with
          | Some _ => SafeModeState.Degraded
          | None =>
              match List.find (fallback_step_enabled p) (dp_fallback_chain p) with
              | Some step => if bool_decide (step = "abort_safe") then SafeModeState.FailedSafe
                             else SafeModeState.Degraded
              | None => SafeModeState.FailedSafe
              end
          end
      | None => SafeModeState.FailedSafe
      end
  | SafeModeTriggerKind.RecoveryExhausted =>
      match smt_recovery_outcome trigger with
      | Some outcome =>
          if decide (ro_executed_action outcome = Some "degrade" \/
                     ro_final_runtime_state outcome = Some "Degraded")
          then SafeModeState.Degraded else
          if decide (ro_final_runtime_state outcome = Some "SafeMode")
          then SafeModeState.SafeMode else SafeModeState.FailedSafe
      | None => SafeModeState.FailedSafe
      end
  end.

Lemma find_ext {A} (f g : A -> bool) l :
  (forall x, f x = g x) -> List.find f l = List.find g l.
Proof. intros H. induction l; simpl; [done|]. by rewrite H, IHl. Qed.

Lemma find_none {A} (f : A -> bool) l : (forall x, f x = false) -> List.find f l = None.
Proof. intros H. induction l; simpl; [done|]. by rewrite H. Qed.

Lemma detail_kept c mode action fallback detail :
  smd_detail (snd (transition_locked c mode action fallback detail)) <> "".
Proof.
  simpl. destruct (is_empty detail) eqn:E; [|by apply is_empty_false]. by destruct mode.
Qed.

(** A decision that moved from the controller's mode to a new one. *)
Definition reports (c c' : SafeModeController) (d : SafeModeDecision) : Prop :=
  smd_previous_mode d = smc_current_mode c /\ smd_target_mode d = smc_current_mode c' /\
  smd_transition_required d
    = negb (bool_decide (smc_current_mode c = smc_current_mode c')) /\
  smd_target_runtime_state d = runtime_state_for_mode (smc_current_mode c') /\
  smd_error_code d = error_code_for_mode (smc_current_mode c') /\
  smc_policy_snapshot c' = smc_policy_snapshot c.

Lemma transition_reports c mode action fallback detail :
  reports c (fst (transition_locked c mode action fallback detail))
    (snd (transition_locked c mode action fallback detail)).
Proof. by split_and!. Qed.

Lemma no_transition_reports c detail : reports c c (no_transition detail (smc_current_mode c)).
Proof. split_and!; try done. simpl. by rewrite bool_decide_true. Qed.

Lemma enter_mode_transition c trigger :
  exists action fallback detail,
    enter_mode c trigger
    = transition_locked c (entry_mode (smc_policy_snapshot c) trigger) action fallback detail.
Proof.
  unfold enter_mode, entry_mode, select_fallback. destruct (smt_trigger_kind trigger).
  - by do 3 eexists.
  - destruct (smc_policy_snapshot c) as [p|]; [|by do 3 eexists]. simpl.
    destruct (dp_allow_budget_degrade p); [by do 3 eexists|].
    rewrite bool_decide_false; [by do 3 eexists|]. intros [_ H]%List.find_some.
    by apply bool_decide_eq_true in H.
  - destruct (smt_recovery_outcome trigger) as [o|]; [|by do 3 eexists].
    destruct (bool_decide_reflect (ro_executed_action o = Some "degrade"));
      [rewrite decide_True by auto; by do 3 eexists|].
    destruct (bool_decide_reflect (ro_final_runtime_state o = Some "Degraded"));
      [rewrite decide_True by auto; by do 3 eexists|].
    rewrite decide_False by tauto. simpl.
    destruct (bool_decide_reflect (ro_final_runtime_state o = Some "SafeMode"));
      [rewrite decide_True by done|rewrite decide_False by done]; by do 3 eexists.
  - destruct (smc_policy_snapshot c) as [p|]; [|by do 3 eexists]. simpl.
    rewrite (find_ext (fun step => fallback_step_enabled p step && true)
      (fallback_step_enabled p)) by (intros; apply andb_true_r).
    destruct (dp_allow_model_failover p); simpl.
    + destruct (List.find _ _) as [step|] eqn:E; [|].
      * apply List.find_some in E as [_ E]. apply andb_true_iff in E as [_ ->].
        by do 3 eexists.
      * destruct (List.find (fallback_step_enabled p) _) as [step|]; [|by do 3 eexists].
        destruct (bool_decide _); by do 3 eexists.
    + rewrite (find_none (fun _ => false)) by done.
      destruct (List.find (fallback_step_enabled p) _) as [step|]; [|by do 3 eexists].
      destruct (bool_decide _); by do 3 eexists.
  - by do 3 eexists.
Qed.

Lemma entry_never_normal policy trigger : entry_mode policy trigger <> SafeModeState.Normal.
Proof. unfold entry_mode. repeat case_match; done. Qed.

(** Every trigger is known: the tail of [evaluate_entry] never runs. *)
Lemma evaluate_entry_is_enter_mode c trigger :
  evaluate_entry c trigger = enter_mode c trigger.
Proof.
  unfold evaluate_entry.
  destruct (enter_mode_transition c trigger) as (action & fallback & detail & ->).
  pose proof (detail_kept c (entry_mode (smc_policy_snapshot c) trigger) action fallback detail).
  destruct (transition_locked _ _ _ _ _) as [c' d]. by rewrite (proj2 (is_empty_false _)).
Qed.

Lemma entry_reports c trigger :
  let c' := fst (evaluate_entry c trigger) in
  smc_current_mode c' = entry_mode (smc_policy_snapshot c) trigger /\
  reports c c' (snd (evaluate_entry c trigger)) /\
  smd_detail (snd (evaluate_entry c trigger)) <> "".
Proof.
  rewrite evaluate_entry_is_enter_mode.
  destruct (enter_mode_transition c trigger) as (action & fallback & detail & ->).
  split_and!; [done|apply transition_reports|apply detail_kept].
Qed.

Lemma exit_mode c request :
  let c' := fst (evaluate_exit c request) in
  smc_current_mode c' = SafeModeState.Normal /\ clearance (OpExit request)
  \/ c' = c.
Proof.
  unfold evaluate_exit. destruct (bool_decide _); [by right|].
  destruct (_ || _) eqn:E; [by right|]. left. split; [done|].
  rewrite !orb_false_iff, !negb_false_iff in E. destruct E as [[[]]].
  by exists request.
Qed.

Lemma op_reports c op :
  reports c (fst (run_safe_mode_op c op)) (snd (run_safe_mode_op c op)).
Proof.
  destruct op as [trigger|request]; simpl; [apply entry_reports|].
  unfold evaluate_exit. destruct (bool_decide _); [apply no_transition_reports|].
  destruct (_ || _); [apply no_transition_reports|apply transition_reports].
Qed.

(** Normal operation is resumed by a clearance and nothing else. *)
Lemma step_to_normal c op :
  smc_current_mode c <> SafeModeState.Normal ->
  smc_current_mode (fst (run_safe_mode_op c op)) = SafeModeState.Normal -> clearance op.
Proof.
  intros Hc Hn. destruct op as [trigger|request]; simpl in *.
  - destruct (entry_reports c trigger) as [E _]. rewrite E in Hn.
    by apply entry_never_normal in Hn.
  - destruct (exit_mode c request) as [[_ H]|E]; [done|]. by rewrite E in Hn.
Qed.

(** ** Properties *)

(** An emergency ends only by clearance: when a controller that was in
    FailedSafe, Degraded or SafeMode is found back in Normal after any sequence of
    triggers and exit requests, one of them was an exit request with dependencies
    and watchdog healthy, the operator's clearance given and the budget restored.
    Every decision on the way names the mode before and after, the runtime state
    and the error code of the new mode, and whether it changed. *)
Theorem normal_needs_clearance c ops :
  smc_current_mode c <> SafeModeState.Normal ->
  smc_current_mode (run_safe_mode c ops) = SafeModeState.Normal ->
  Exists clearance ops /\
  forall before op after, ops = before ++ op :: after ->
    let c1 := run_safe_mode c before in
    reports c1 (fst (run_safe_mode_op c1 op)) (snd (run_safe_mode_op c1 op)).
Proof.
  intros Hc Hn. split; [|intros; apply op_reports].
  revert c Hc Hn. induction ops as [|op ops IH]; intros c Hc Hn; simpl in Hn; [done|].
  destruct (decide (smc_current_mode (fst (run_safe_mode_op c op)) = SafeModeState.Normal))
    as [E|E].
  - apply Exists_cons_hd. by apply (step_to_normal c).
  - apply Exists_cons_tl. by apply (IH (fst (run_safe_mode_op c op))).
Qed.

(** Every trigger puts the controller in the emergency mode its kind, its
    recovery outcome and the degrade policy call for, whatever the mode was, with
    a decision that says so and a reason that is never empty; the "unknown
    trigger" answer is never given. *)
Theorem entry_enters_its_mode c trigger :
  let '(c', decision) := evaluate_entry c trigger in
  smc_current_mode c' = entry_mode (smc_policy_snapshot c) trigger /\
  smc_current_mode c' <> SafeModeState.Normal /\
  smd_target_mode decision = smc_current_mode c' /\
  mode_changed decision
    = negb (bool_decide (smc_current_mode c = smc_current_mode c')) /\
  is_Some (smd_target_runtime_state decision) /\ is_Some (smd_error_code decision) /\
  smd_detail decision <> "".
Proof.
  destruct (entry_reports c trigger) as (Hmode & (Hp & Ht & Hr & Hs & He & _) & Hd).
  destruct (evaluate_entry c trigger) as [c' d]. simpl in *.
  pose proof (entry_never_normal (smc_policy_snapshot c) trigger) as Hne.
  rewrite <-Hmode in Hne. split_and!; try done.
  - unfold mode_changed. rewrite Hr, Hp, Ht. by rewrite andb_diag.
  - rewrite Hs. by destruct (smc_current_mode c').
  - rewrite He. by destruct (smc_current_mode c').
Qed.

(** A trigger can lift the safe mode without a clearance: where the policy
    lets an exhausted budget degrade, a budget trigger that comes after a policy
    or watchdog trigger leaves the controller Degraded, while an exit request at
    the same point without the operator's clearance is refused and stays in
    SafeMode. *)
Theorem budget_trigger_lifts_safe_mode c forced budget request :
  smt_trigger_kind forced = SafeModeTriggerKind.PolicyForbidden
  \/ smt_trigger_kind forced = SafeModeTriggerKind.WatchdogTimeout ->
  smt_trigger_kind budget = SafeModeTriggerKind.BudgetExhausted ->
  from_option dp_allow_budget_degrade false (smc_policy_snapshot c) = true ->
  sme_operator_cleared request = false ->
  let safe := fst (evaluate_entry c forced) in
  smc_current_mode safe = SafeModeState.SafeMode /\
  smc_current_mode (fst (evaluate_exit safe request)) = SafeModeState.SafeMode /\
  smc_current_mode (fst (evaluate_entry safe budget)) = SafeModeState.Degraded.
Proof.
  intros Hf Hb Hp Hr safe.
  destruct (entry_reports c forced) as (Hmode & (_ & _ & _ & _ & _ & Hpol) & _).
  assert (smc_current_mode safe = SafeModeState.SafeMode) as Hsafe.
  { unfold safe. rewrite Hmode. unfold entry_mode. by destruct Hf as [-> | ->]. }
  destruct (entry_reports safe budget) as [Hm2 _].
  split_and!; [done| |].
  - destruct (exit_mode safe request) as [[_ (r & [= <-] & _ & _ & Hop & _)]|E];
      [congruence|]. by rewrite E.
  - rewrite Hm2. unfold safe. rewrite Hpol. unfold entry_mode. rewrite Hb.
    destruct (smc_policy_snapshot c) as [p|]; [|done]. simpl in Hp. by rewrite Hp.
Qed.

(** ** Witnesses *)

Definition sample_trigger (kind : SafeModeTriggerKind) : SafeModeTrigger :=
  {| smt_trigger_kind := kind; smt_budget_decision := None; smt_recovery_outcome := None;
     smt_error_code := None; smt_health_signal := None; smt_detail := "" |}.

Definition sample_exit (cleared : bool) : SafeModeExitRequest :=
  {| sme_dependencies_healthy := true; sme_watchdog_healthy := true;
     sme_operator_cleared := cleared; sme_budget_restored := true; sme_detail := "" |}.

Definition degrading_policy : DegradePolicy :=
  {| dp_fallback_chain := ["abort_safe"]; dp_allow_model_failover := false;
     dp_allow_budget_degrade := true |}.

Lemma normal_needs_clearance_witness :
  let ops := [OpEntry (sample_trigger SafeModeTriggerKind.BudgetExhausted);
              OpExit (sample_exit false); OpExit (sample_exit true)] in
  Exists clearance ops.
Proof.
  intros ops.
  refine (proj1 (normal_needs_clearance
    (fst (evaluate_entry (new_safe_mode_controller (Some degrading_policy))
       (sample_trigger SafeModeTriggerKind.PolicyForbidden))) ops _ _)).
  - vm_compute. discriminate.
  - vm_compute. reflexivity.
Defined.

Lemma budget_trigger_lifts_safe_mode_witness :
  let safe := fst (evaluate_entry (new_safe_mode_controller (Some degrading_policy))
    (sample_trigger SafeModeTriggerKind.WatchdogTimeout)) in
  smc_current_mode (fst (evaluate_entry safe
    (sample_trigger SafeModeTriggerKind.BudgetExhausted))) = SafeModeState.Degraded.
Proof.
  exact (proj2 (proj2 (budget_trigger_lifts_safe_mode
    (new_safe_mode_controller (Some degrading_policy))
    (sample_trigger SafeModeTriggerKind.WatchdogTimeout)
    (sample_trigger SafeModeTriggerKind.BudgetExhausted) (sample_exit false)
    (or_intror eq_refl) eq_refl eq_refl eq_refl))).
Defined.
