(* ===== verification/Recovery.v ===== *)
(** * Recovery manager

    runtime/include/recovery/IRecoveryManager.h and
    runtime/src/recovery/RecoveryManager.{h,cpp}: the admission of a recovery
    request, the outcome a plan is executed to, and its application. The
    checkpoint manager it owns is used for [make_resume_plan] alone. *)

From Stdlib Require Import SpecFloat.
From S2P Require Import Prelude ErrorCodes CheckpointContracts Fsm Text.
From S2P Require Import Checkpoint CheckpointManager RecoveryContracts.

(** ** Data *)

Module RecoveryAdmission.
Inductive RecoveryAdmission := Admit | Reject | Escalate.
#[global] Instance RecoveryAdmission_eq_dec : EqDecision RecoveryAdmission.
Proof. solve_decision. Defined.
End RecoveryAdmission.
Abbreviation RecoveryAdmission := RecoveryAdmission.RecoveryAdmission.

Record SafeFailureHint := {
  sfh_enter_safe_mode : bool;
  sfh_enter_degraded_mode : bool;
  sfh_reason : string;
}.

Record RecoveryExecutionPlan := {
  rep_admission : RecoveryAdmission;
  rep_planned_action : string;
  rep_resume_plan : option ResumePlan;
  rep_safe_failure_hint : option SafeFailureHint;
  rep_error_code : option RuntimeErrorCode;
  rep_detail : string;
}.

Definition executable (plan : RecoveryExecutionPlan) : bool :=
  bool_decide (rep_admission plan = RecoveryAdmission.Admit).

Definition escalated (plan : RecoveryExecutionPlan) : bool :=
  bool_decide (rep_admission plan = RecoveryAdmission.Escalate).

Record RecoveryApplyResult := {
  rar_applied : bool;
  rar_error_code : option RuntimeErrorCode;
  rar_detail : string;
}.

Definition make_recovery_execution_plan (planned_action detail : string)
    (resume_plan : option ResumePlan) : RecoveryExecutionPlan :=
  {| rep_admission := RecoveryAdmission.Admit; rep_planned_action := planned_action;
     rep_resume_plan := resume_plan; rep_safe_failure_hint := None;
     rep_error_code := None; rep_detail := detail |}.

Definition make_recovery_rejection_plan (detail : string)
    (error_code : option RuntimeErrorCode) : RecoveryExecutionPlan :=
  {| rep_admission := RecoveryAdmission.Reject; rep_planned_action := "reject";
     rep_resume_plan := None; rep_safe_failure_hint := None;
     rep_error_code := error_code; rep_detail := detail |}.

Definition make_recovery_escalation_plan (detail : string) (hint : SafeFailureHint)
    : RecoveryExecutionPlan :=
  {| rep_admission := RecoveryAdmission.Escalate; rep_planned_action := "escalate";
     rep_resume_plan := None; rep_safe_failure_hint := Some hint;
     rep_error_code := Some RT_E_501_RECOVERY_ESCALATED; rep_detail := detail |}.

Record RecoveryManager := {
  rm_last_evaluated_retry_count : option Z;
  rm_last_outcome : option RecoveryOutcome;
}.

Definition new_recovery_manager : RecoveryManager :=
  {| rm_last_evaluated_retry_count := None; rm_last_outcome := None |}.

(** ** Helpers *)

Definition find_budget_entry (snapshot : BudgetSnapshot) (budget_type : BudgetType)
    : option BudgetSnapshotEntry :=
  List.find (fun entry => bool_decide (bse_budget_type entry = budget_type))
    (bs_entries snapshot).

(** [entry.current > entry.max || entry.reject_reason.has_value()] *)
Definition entry_exhausted (entry : BudgetSnapshotEntry) : bool :=
  (bse_max entry <? bse_current entry)
  || negb (bool_decide (bse_reject_reason entry = None)).

Definition snapshot_is_exhausted (snapshot : BudgetSnapshot) : bool :=
  if has_non_empty_value (bs_overall_reject_reason snapshot) then true else
  existsb entry_exhausted (bs_entries snapshot).

Definition replan_budget_available (snapshot : BudgetSnapshot) : bool :=
  let? entry := find_budget_entry snapshot BudgetType.Replan else true in
  (bse_current entry <=? bse_max entry) && bool_decide (bse_reject_reason entry = None).

Definition runtime_error_code_label (code : RuntimeErrorCode) : string :=
  match code with
  | RT_E_304_REPLAN_OVERRUN => "RT_E_304_REPLAN_OVERRUN"
  | RT_E_412_RESUME_REJECTED => "RT_E_412_RESUME_REJECTED"
  | RT_E_500_RECOVERY_REJECTED => "RT_E_500_RECOVERY_REJECTED"
  | RT_E_510_SAFE_MODE_ENTERED => "RT_E_510_SAFE_MODE_ENTERED"
  | RT_E_511_DEGRADE_ENTERED => "RT_E_511_DEGRADE_ENTERED"
  | _ => "RT_E_000_UNSPECIFIED"
  end.

Definition make_detail (code : RuntimeErrorCode) (detail : string) : string :=
  runtime_error_code_label code +:+ (": " +:+ detail).

Definition make_degrade_plan (detail : string) : RecoveryExecutionPlan :=
  make_recovery_escalation_plan detail
    {| sfh_enter_safe_mode := false; sfh_enter_degraded_mode := true; sfh_reason := detail |}.

(** [request.retry_count.value_or(request.checkpoint->retry_count.value_or(0U))] *)
Definition request_retry_count (request : RecoveryRequest) (checkpoint : Checkpoint) : Z :=
  default (default 0 (cp_retry_count checkpoint)) (rq_retry_count request).

Definition make_replan_token (request : RecoveryRequest) (checkpoint : Checkpoint) : string :=
  "replan:" +:+ (default "unknown" (cp_checkpoint_id checkpoint) +:+
    (":" +:+ to_string (u32 (request_retry_count request checkpoint + 1)))).

(** ** Operations *)

Definition reject_recovery (code : RuntimeErrorCode) (detail : string) : RecoveryExecutionPlan :=
  make_recovery_rejection_plan (make_detail code detail) (Some code).

(** The case [Continue] / [RetryStep] of the switch. *)
Definition admit_replay (kind : ReflectionDecisionKind) (checkpoint : Checkpoint)
    (report : IdempotencyAndSideEffectReport) : option RecoveryExecutionPlan :=
  let? replay_safe := isr_replay_safe report else None in
  if negb replay_safe then
    Some (reject_recovery RT_E_500_RECOVERY_REJECTED
            (default "replay rejected because side effects are not replay-safe"
               (isr_non_replayable_reason report))) else
  let no_key :=
    Some (reject_recovery RT_E_500_RECOVERY_REJECTED
            "retry_step requires retry_idempotency_token reuse evidence") in
  let? idempotency_key := isr_idempotency_key report else no_key in
  if is_empty idempotency_key then no_key else
  let resume_decision := make_resume_plan checkpoint in
  if negb (rpd_resumable resume_decision) then
    Some (reject_recovery (default RT_E_412_RESUME_REJECTED (rpd_error_code resume_decision))
            (rpd_detail resume_decision)) else
  let action :=
    if bool_decide (kind = ReflectionDecisionKind.Continue) then "continue" else "retry_step" in
  Some (make_recovery_execution_plan action
          (action +:+ (" admitted; reuse retry_idempotency_token=" +:+ idempotency_key))
          (rpd_plan resume_decision)).

(** The default-constructed plan. *)
Definition empty_plan : RecoveryExecutionPlan :=
  {| rep_admission := RecoveryAdmission.Reject; rep_planned_action := "";
     rep_resume_plan := None; rep_safe_failure_hint := None; rep_error_code := None;
     rep_detail := "" |}.

(** The switch over the decision kind. *)
Definition plan_for_decision (request : RecoveryRequest) (kind : ReflectionDecisionKind)
    (checkpoint : Checkpoint) (report : IdempotencyAndSideEffectReport)
    : option RecoveryExecutionPlan :=
  match kind with
  | ReflectionDecisionKind.AbortSafe =>
      Some (make_recovery_escalation_plan "reflection requested abort_safe escalation"
              {| sfh_enter_safe_mode := true; sfh_enter_degraded_mode := false;
                 sfh_reason := "abort_safe should enter a supervised recovery path" |})
  | ReflectionDecisionKind.Replan =>
      if match rq_runtime_budget_snapshot request with
         | Some snapshot => negb (replan_budget_available snapshot)
         | None => false
         end
      then Some (reject_recovery RT_E_304_REPLAN_OVERRUN "replan budget exhausted") else
      let replan_token := make_replan_token request checkpoint in
      Some (make_recovery_execution_plan "replan"
              ("replan admitted; new retry_idempotency_token=" +:+ replan_token) None)
  | ReflectionDecisionKind.Continue | ReflectionDecisionKind.RetryStep =>
      admit_replay kind checkpoint report
  | ReflectionDecisionKind.Unspecified =>
      Some (reject_recovery RT_E_500_RECOVERY_REJECTED "reflection decision must be concrete")
  | ReflectionDecisionKind.Other _ => Some empty_plan
  end.

Definition supported_plan (plan : RecoveryExecutionPlan) : RecoveryExecutionPlan :=
  if is_empty (rep_planned_action plan)
  then reject_recovery RT_E_500_RECOVERY_REJECTED "recovery decision is not supported"
  else plan.

(** The branch of [evaluate] for a request with budget left. *)
Definition evaluate_decision (m : RecoveryManager) (request : RecoveryRequest)
    : option (RecoveryManager * RecoveryExecutionPlan) :=
  let? checkpoint := rq_checkpoint request else None in
  let? decision := rq_reflection_decision request else None in
  let? kind := rd_decision_kind decision else None in
  let? report := rq_idempotency_and_side_effect_report request else None in
  let m :=
    {| rm_last_evaluated_retry_count := Some (u32 (request_retry_count request checkpoint + 1));
       rm_last_outcome := rm_last_outcome m |} in
  let? plan := plan_for_decision request kind checkpoint report else None in
  Some (m, supported_plan plan).

(** [None]: an empty optional dereferenced. The retry count last evaluated is the
    only state an evaluation changes. *)
Definition evaluate (m : RecoveryManager) (request : RecoveryRequest)
    : option (RecoveryManager * RecoveryExecutionPlan) :=
  let? request_guard := validate_recovery_request_field_rules request else None in
  if negb (gr_ok request_guard) then
    Some (m, reject_recovery RT_E_500_RECOVERY_REJECTED (gr_reason request_guard)) else
  match rq_runtime_budget_snapshot request with
  | Some snapshot =>
      if snapshot_is_exhausted snapshot then
        Some (m, supported_plan (make_degrade_plan
          (default "runtime budget exhausted during recovery admission"
             (bs_overall_reject_reason snapshot))))
      else evaluate_decision m request
  | None => evaluate_decision m request
  end.

Definition execute (m : RecoveryManager) (plan : RecoveryExecutionPlan) : RecoveryOutcome :=
  let updated_retry_count := rm_last_evaluated_retry_count m in
  if negb (executable plan) then
    if escalated plan then
      let degraded :=
        match rep_safe_failure_hint plan with
        | Some hint => sfh_enter_degraded_mode hint
        | None => false
        end in
      {| ro_executed_action := Some (if degraded then "degrade" else "abort_safe");
         ro_final_runtime_state := Some (if degraded then "Degraded" else "FailedSafe");
         ro_updated_retry_count := updated_retry_count; ro_checkpoint_ref := None;
         ro_compensation_result_ref := None; ro_rejection_reason := None;
         ro_escalation_reason := Some (rep_detail plan) |}
    else
      {| ro_executed_action := Some "rejected"; ro_final_runtime_state := Some "FailedSafe";
         ro_updated_retry_count := updated_retry_count; ro_checkpoint_ref := None;
         ro_compensation_result_ref := None; ro_rejection_reason := Some (rep_detail plan);
         ro_escalation_reason := None |}
  else
  let final_state :=
    if bool_decide (rep_planned_action plan = "replan") then "Planning" else
    match rep_resume_plan plan with
    | Some resume_plan => runtime_state_name (rp_target_state resume_plan)
    | None => "Reasoning"
    end in
  {| ro_executed_action := Some (rep_planned_action plan);
     ro_final_runtime_state := Some final_state;
     ro_updated_retry_count := updated_retry_count;
     ro_checkpoint_ref := rp_checkpoint_ref <$> rep_resume_plan plan;
     ro_compensation_result_ref := None; ro_rejection_reason := None;
     ro_escalation_reason := None |}.

Definition apply_result (applied : bool) (code : option RuntimeErrorCode) (detail : string)
    : RecoveryApplyResult :=
  {| rar_applied := applied; rar_error_code := code; rar_detail := detail |}.

Definition apply (m : RecoveryManager) (outcome : RecoveryOutcome)
    : option (RecoveryManager * RecoveryApplyResult) :=
  let? guard := validate_recovery_outcome_field_rules outcome else None in
  if negb (gr_ok guard) then
    Some (m, apply_result false (Some RT_E_500_RECOVERY_REJECTED) (gr_reason guard)) else
  let m :=
    {| rm_last_evaluated_retry_count := rm_last_evaluated_retry_count m;
       rm_last_outcome := Some outcome |} in
  let? executed_action := ro_executed_action outcome else None in
  if bool_decide (executed_action = "rejected") then
    Some (m, apply_result false (Some RT_E_500_RECOVERY_REJECTED)
               (default (make_detail RT_E_500_RECOVERY_REJECTED
                           "rejected outcomes are not applied")
                  (ro_rejection_reason outcome))) else
  if bool_decide (executed_action = "abort_safe") then
    Some (m, apply_result true (Some RT_E_510_SAFE_MODE_ENTERED)
               (make_detail RT_E_510_SAFE_MODE_ENTERED "abort_safe outcome applied")) else
  if bool_decide (executed_action = "degrade") then
    Some (m, apply_result true (Some RT_E_511_DEGRADE_ENTERED)
               (make_detail RT_E_511_DEGRADE_ENTERED "degraded recovery outcome applied")) else
  Some (m, apply_result true None "recovery outcome applied").

(** ** Evaluation *)

(** The sources a decision needs once the guard has admitted the request. *)
Lemma evaluate_decision_admissible m q d e o cp r :
  admissible q d e o cp r ->
  exists kind, rd_decision_kind d = Some kind /\
    kind ∈ [ReflectionDecisionKind.Continue; ReflectionDecisionKind.RetryStep;
            ReflectionDecisionKind.Replan; ReflectionDecisionKind.AbortSafe] /\
    evaluate_decision m q =
      (let? plan := plan_for_decision q kind cp r else None in
       Some ({| rm_last_evaluated_retry_count := Some (u32 (request_retry_count q cp + 1));
                rm_last_outcome := rm_last_outcome m |}, supported_plan plan)).
Proof.
  intros [Hev _ _ _ _ _ _ _ _ _ _].
  destruct (reflection_kind_known d (ev_decision_ok _ _ _ _ _ _ Hev)) as (kind & Hk & Hin).
  exists kind. split_and!; [done..|]. unfold evaluate_decision.
  destruct (evidence_unique _ _ _ _ _ _ Hev) as (-> & _ & _ & -> & ->). by rewrite Hk.
Qed.

Lemma replay_safe_present q d e o cp r :
  admissible q d e o cp r -> exists b, isr_replay_safe r = Some b.
Proof.
  intros [Hev _ _ _ _ _ _ _ _ _ _]. pose proof (ev_report_ok _ _ _ _ _ _ Hev) as H.
  unfold validate_idempotency_and_side_effect_report_required_fields in H.
  destruct (isr_replay_safe r); [by eexists|done].
Qed.

(** A replay is admitted exactly when it is safe, keyed and can be resumed. *)
Definition replayable (cp : Checkpoint) (r : IdempotencyAndSideEffectReport) : Prop :=
  isr_replay_safe r = Some true /\ has_non_empty_value (isr_idempotency_key r) = true /\
  rpd_resumable (make_resume_plan cp) = true.

Lemma admit_replay_spec kind cp r b :
  isr_replay_safe r = Some b ->
  exists plan, admit_replay kind cp r = Some plan /\
    rep_planned_action plan <> "" /\
    (executable plan = true <-> replayable cp r) /\ escalated plan = false /\
    (executable plan = true -> rep_resume_plan plan = rpd_plan (make_resume_plan cp)).
Proof.
  intros Hb. unfold admit_replay, replayable. rewrite Hb.
  destruct b; simpl; [|eexists; split_and!; [done..|split; [done|naive_solver]|done|done]].
  destruct (isr_idempotency_key r) as [key|]; simpl;
    [|eexists; split_and!; [done..|split; [done|naive_solver]|done|done]].
  destruct (is_empty key) eqn:Hkey; simpl;
    [eexists; split_and!; [done..|split; [done|naive_solver]|done|done]|].
  destruct (rpd_resumable (make_resume_plan cp)) eqn:Hres; simpl;
    [|eexists; split_and!; [done..|split; [done|naive_solver]|done|done]].
  eexists. split_and!; try done. by destruct (bool_decide _).
Qed.

Lemma find_budget_entry_in snapshot t entry :
  find_budget_entry snapshot t = Some entry -> In entry (bs_entries snapshot).
Proof. by intros [H _]%List.find_some. Qed.

(** A snapshot that is not exhausted has replan budget left. *)
Lemma not_exhausted_can_replan snapshot :
  snapshot_is_exhausted snapshot = false -> replan_budget_available snapshot = true.
Proof.
  unfold snapshot_is_exhausted, replan_budget_available.
  destruct (has_non_empty_value _); [done|]. intros H.
  destruct (find_budget_entry snapshot BudgetType.Replan) as [entry|] eqn:E; [|done].
  apply find_budget_entry_in in E.
  destruct (entry_exhausted entry) eqn:Hx.
  - assert (existsb entry_exhausted (bs_entries snapshot) = true); [|congruence].
    apply existsb_exists. by exists entry.
  - unfold entry_exhausted in Hx. apply orb_false_iff in Hx as [H1%Z.ltb_ge H2%negb_false_iff].
    by rewrite H2, (proj2 (Z.leb_le _ _)).
Qed.

Definition budget_exhausted (q : RecoveryRequest) : bool :=
  match rq_runtime_budget_snapshot q with
  | Some snapshot => snapshot_is_exhausted snapshot
  | None => false
  end.

(** The four ways an evaluation can go. *)
Inductive evaluation (m : RecoveryManager) (q : RecoveryRequest)
    : RecoveryManager -> RecoveryExecutionPlan -> Prop :=
| eval_refused reason :
    ~ admitted (validate_recovery_request_field_rules q) ->
    evaluation m q m (reject_recovery RT_E_500_RECOVERY_REJECTED reason)
| eval_exhausted d e o cp r snapshot :
    admissible q d e o cp r -> rq_runtime_budget_snapshot q = Some snapshot ->
    snapshot_is_exhausted snapshot = true ->
    evaluation m q m (make_degrade_plan
      (default "runtime budget exhausted during recovery admission"
         (bs_overall_reject_reason snapshot)))
| eval_decided d e o cp r kind plan :
    admissible q d e o cp r -> budget_exhausted q = false ->
    rd_decision_kind d = Some kind -> plan_for_decision q kind cp r = Some plan ->
    (kind = ReflectionDecisionKind.AbortSafe \/ kind = ReflectionDecisionKind.Replan \/
     kind = ReflectionDecisionKind.Continue \/ kind = ReflectionDecisionKind.RetryStep) ->
    evaluation m q
      {| rm_last_evaluated_retry_count := Some (u32 (request_retry_count q cp + 1));
         rm_last_outcome := rm_last_outcome m |} plan.

Lemma plan_for_decision_total q d e o cp r kind :
  admissible q d e o cp r ->
  kind ∈ [ReflectionDecisionKind.Continue; ReflectionDecisionKind.RetryStep;
          ReflectionDecisionKind.Replan; ReflectionDecisionKind.AbortSafe] ->
  exists plan, plan_for_decision q kind cp r = Some plan /\ rep_planned_action plan <> "".
Proof.
  intros Had Hin. destruct (replay_safe_present _ _ _ _ _ _ Had) as [b Hb].
  unfold plan_for_decision. destruct kind; try by eexists.
  - destruct (admit_replay_spec ReflectionDecisionKind.Continue cp r b Hb) as (p & ? & ? & _).
    by exists p.
  - destruct (admit_replay_spec ReflectionDecisionKind.RetryStep cp r b Hb) as (p & ? & ? & _).
    by exists p.
  - destruct (match rq_runtime_budget_snapshot q with Some _ => _ | None => _ end); by eexists.
  - exfalso. set_solver.
Qed.

Lemma evaluate_spec m q :
  exists m' plan, evaluate m q = Some (m', plan) /\ evaluation m q m' plan.
Proof.
  unfold evaluate.
  destruct (request_field_rules_total q) as [guard Hguard]. rewrite Hguard.
  destruct (gr_ok guard) eqn:Hok; simpl.
  2: { exists m. eexists. split; [done|]. apply eval_refused. intros (g & Hg & Hgok).
       congruence. }
  assert (admitted (validate_recovery_request_field_rules q)) as Hadm by by exists guard.
  apply request_guard_spec in Hadm as (d & e & o & cp & r & Had).
  destruct (evaluate_decision_admissible m _ _ _ _ _ _ Had) as (kind & Hk & Hin & Hdec).
  destruct (plan_for_decision_total _ _ _ _ _ _ _ Had Hin) as (plan & Hplan & Hact).
  assert (budget_exhausted q = false -> evaluate_decision m q =
    Some ({| rm_last_evaluated_retry_count := Some (u32 (request_retry_count q cp + 1));
             rm_last_outcome := rm_last_outcome m |}, plan)) as Heval.
  { intros _. rewrite Hdec, Hplan. unfold supported_plan.
    by rewrite (proj2 (is_empty_false _) Hact). }
  assert (kind = ReflectionDecisionKind.AbortSafe \/ kind = ReflectionDecisionKind.Replan \/
    kind = ReflectionDecisionKind.Continue \/ kind = ReflectionDecisionKind.RetryStep) as Hkind
    by set_solver.
  unfold budget_exhausted in Heval.
  destruct (rq_runtime_budget_snapshot q) as [snapshot|] eqn:Hsnap.
  - destruct (snapshot_is_exhausted snapshot) eqn:Hx.
    + exists m. eexists. split; [reflexivity|]. by eapply eval_exhausted.
    + do 2 eexists. split; [by apply Heval|]. eapply eval_decided; try done.
      unfold budget_exhausted. by rewrite Hsnap.
  - do 2 eexists. split; [by apply Heval|]. eapply eval_decided; try done.
    unfold budget_exhausted. by rewrite Hsnap.
Qed.

(** ** Execution and application *)

(** The parts of a plan that end up in the outcome's references and reasons. *)
Definition plan_text (plan : RecoveryExecutionPlan) : option string :=
  if executable plan then rp_checkpoint_ref <$> rep_resume_plan plan
  else Some (rep_detail plan).

Lemma non_blank_cons ch s : is_space ch = false -> ~ blank (String ch s).
Proof. intros H. unfold blank. simpl. by rewrite H. Qed.

Lemma reject_detail_non_blank code detail : ~ blank (rep_detail (reject_recovery code detail)).
Proof. destruct code; by apply non_blank_cons. Qed.

Lemma runtime_state_name_non_blank s : ~ blank (runtime_state_name s).
Proof. destruct s; by apply non_blank_cons. Qed.

(** The contract guard admits the outcome of a plan unless its only free text is
    blank. *)
Lemma execute_admitted m plan :
  ~ blank (rep_planned_action plan) ->
  admitted (validate_recovery_outcome_field_rules (execute m plan)) <->
  forall text, plan_text plan = Some text -> ~ blank text.
Proof.
  intros Hact. rewrite outcome_guard_spec. unfold plan_text, execute.
  assert (forall b : bool, ~ blank (if b then "degrade" else "abort_safe")) as Hda
    by (intros []; by apply non_blank_cons).
  assert (forall b : bool, ~ blank (if b then "Degraded" else "FailedSafe")) as Hdf
    by (intros []; by apply non_blank_cons).
  destruct (executable plan); simpl.
  - split.
    + intros [_ _ Hopt _ _]. simpl in Hopt. by apply Forall_cons in Hopt as [H _].
    + intros H. split; simpl; try done.
      * by eexists.
      * eexists. split; [done|]. destruct (bool_decide _); [by apply non_blank_cons|].
        destruct (rep_resume_plan plan); [apply runtime_state_name_non_blank|by apply non_blank_cons].
      * by repeat constructor.
      * by left.
  - destruct (escalated plan); simpl.
    + split.
      * intros [_ _ Hopt _ _]. simpl in Hopt. rewrite !Forall_cons in Hopt. tauto.
      * intros H. split; simpl; try done; [by eexists..|by repeat constructor|by left].
    + split.
      * intros [_ _ Hopt _ _]. simpl in Hopt. rewrite !Forall_cons in Hopt. tauto.
      * intros H. split; simpl; try done; [eexists; split; [done|by apply non_blank_cons]..| |by right].
        by repeat constructor.
Qed.

(** [apply] never dereferences an empty field: it records an outcome the guard
    admits and reports what its action means. *)
Lemma apply_spec m outcome :
  exists m' result, apply m outcome = Some (m', result) /\
    rm_last_evaluated_retry_count m' = rm_last_evaluated_retry_count m /\
    (outcome_ok outcome -> rm_last_outcome m' = Some outcome /\
       rar_applied result = negb (bool_decide (ro_executed_action outcome = Some "rejected"))) /\
    (~ outcome_ok outcome -> m' = m /\ rar_applied result = false).
Proof.
  unfold apply. setoid_rewrite <-outcome_guard_spec.
  destruct (outcome_field_rules_total outcome) as [guard Hguard]. rewrite Hguard.
  setoid_rewrite admitted_some.
  destruct (gr_ok guard) eqn:Hok; simpl; [|do 2 eexists; by split_and!].
  assert (outcome_ok outcome) as [(a & Ha & _) _ _ _ _]
    by (apply outcome_guard_spec; rewrite Hguard; by apply admitted_some).
  rewrite Ha.
  destruct (bool_decide_reflect (a = "rejected")) as [->|Hr];
    [do 2 eexists; by split_and!|].
  rewrite (bool_decide_false (Some a = _)) by congruence.
  destruct (bool_decide (a = "abort_safe")); [do 2 eexists; by split_and!|].
  destruct (bool_decide (a = "degrade")); do 2 eexists; by split_and!.
Qed.

(** ** Properties *)

Lemma evaluation_of m q m' plan :
  evaluate m q = Some (m', plan) -> evaluation m q m' plan.
Proof.
  destruct (evaluate_spec m q) as (m1 & p1 & He & H). rewrite He. by intros [= <- <-].
Qed.

(** The requests a plan is made for that lets the agent go on. *)
Definition admissible_action (q : RecoveryRequest) : Prop :=
  exists d e o cp r kind,
    admissible q d e o cp r /\ budget_exhausted q = false /\ rd_decision_kind d = Some kind /\
    (kind = ReflectionDecisionKind.Replan \/
     (kind = ReflectionDecisionKind.Continue \/ kind = ReflectionDecisionKind.RetryStep) /\
     replayable cp r).

(** The requests that are handed to the safe mode controller. *)
Definition escalating (q : RecoveryRequest) : Prop :=
  exists d e o cp r, admissible q d e o cp r /\
    (budget_exhausted q = true \/ rd_decision_kind d = Some ReflectionDecisionKind.AbortSafe).

Lemma admissible_unique q d e o cp r d' e' o' cp' r' :
  admissible q d e o cp r -> admissible q d' e' o' cp' r' -> d = d' /\ cp = cp' /\ r = r'.
Proof.
  intros [H1 _ _ _ _ _ _ _ _ _ _] [H2 _ _ _ _ _ _ _ _ _ _].
  destruct (evidence_unique _ _ _ _ _ _ H1) as (E1 & _ & _ & E2 & E3).
  destruct (evidence_unique _ _ _ _ _ _ H2) as (E1' & _ & _ & E2' & E3').
  split_and!; congruence.
Qed.

(** What a plan for a request with budget left is, by the kind of decision. *)
Lemma plan_kinds q d e o cp r kind plan :
  admissible q d e o cp r -> budget_exhausted q = false ->
  plan_for_decision q kind cp r = Some plan ->
  (kind = ReflectionDecisionKind.AbortSafe \/ kind = ReflectionDecisionKind.Replan \/
   kind = ReflectionDecisionKind.Continue \/ kind = ReflectionDecisionKind.RetryStep) ->
  (executable plan = true <->
     kind = ReflectionDecisionKind.Replan \/
     (kind = ReflectionDecisionKind.Continue \/ kind = ReflectionDecisionKind.RetryStep) /\
     replayable cp r) /\
  (escalated plan = true <-> kind = ReflectionDecisionKind.AbortSafe) /\
  (executable plan = true -> rep_resume_plan plan =
     if bool_decide (kind = ReflectionDecisionKind.Replan) then None
     else rpd_plan (make_resume_plan cp)).
Proof.
  intros Had Hx Hp Hkind. destruct (replay_safe_present _ _ _ _ _ _ Had) as [b Hb].
  assert (forall P Q : Prop, ~ P -> (Q <-> P \/ Q)) as Hor by tauto.
  destruct Hkind as [-> | [-> | Hkind]].
  - injection Hp as <-. split_and!; [|done|done]. split; [done|]. by intros [?|[[?|?] _]].
  - unfold plan_for_decision in Hp. unfold budget_exhausted in Hx.
    assert (executable plan = true /\ escalated plan = false /\ rep_resume_plan plan = None)
      as (-> & -> & ->).
    { destruct (rq_runtime_budget_snapshot q) as [snapshot|];
        [rewrite (not_exhausted_can_replan _ Hx) in Hp|]; by injection Hp as <-. }
    split_and!; [|done|done]. split; [by left|done].
  - assert (plan_for_decision q kind cp r = admit_replay kind cp r) as Heq
      by (by destruct Hkind as [-> | ->]).
    destruct (admit_replay_spec kind cp r b Hb) as (p & Hp' & _ & Hexec & Hesc & Hres).
    rewrite Heq, Hp' in Hp. injection Hp as <-. rewrite Hesc. split_and!.
    + rewrite Hexec. destruct Hkind as [-> | ->]; split; [by intros; right; auto|
        by intros [?|[_ ?]]|by intros; right; auto|by intros [?|[_ ?]]].
    + by destruct Hkind as [-> | ->].
    + intros H. rewrite (Hres H). by destruct Hkind as [-> | ->].
Qed.

(** The shape of a plan: admitted plans alone carry no error code, and they
    alone may carry a resume plan. *)
Lemma plan_shape q kind cp r plan :
  plan_for_decision q kind cp r = Some plan -> rep_planned_action plan <> "" ->
  (executable plan = false <-> is_Some (rep_error_code plan)) /\
  (executable plan = false -> rep_resume_plan plan = None).
Proof.
  assert (forall code detail, let p := reject_recovery code detail in
    (executable p = false <-> is_Some (rep_error_code p)) /\
    (executable p = false -> rep_resume_plan p = None)) as Hrej by done.
  assert (forall a d rp, let p := make_recovery_execution_plan a d rp in
    (executable p = false <-> is_Some (rep_error_code p)) /\
    (executable p = false -> rep_resume_plan p = None)) as Hadm
    by (split; [split; [done|by intros []]|done]).
  unfold plan_for_decision, admit_replay. intros Hp Hact.
  repeat case_match; simplify_eq/=; try apply Hrej; try apply Hadm; done.
Qed.

(** The verdict of an evaluation. *)
Lemma evaluation_verdict m q m' plan :
  evaluation m q m' plan ->
  (executable plan = true <-> admissible_action q) /\
  (escalated plan = true <-> escalating q).
Proof.
  intros [reason Hno|d e o cp r snapshot Had Hs Hx|d e o cp r kind plan' Had Hx Hk Hp Hkind].
  - assert (forall d e o cp r, ~ admissible q d e o cp r) as Hno'.
    { intros d e o cp r Had. apply Hno, request_guard_spec. by do 5 eexists. }
    split; (split; [done|]).
    + intros (d & e & o & cp & r & k & Had & _). by apply Hno' in Had.
    + intros (d & e & o & cp & r & Had & _). by apply Hno' in Had.
  - assert (budget_exhausted q = true) as Hbx by (unfold budget_exhausted; by rewrite Hs).
    split; split; [done| |intros _; exists d, e, o, cp, r; auto|done].
    intros (d' & e' & o' & cp' & r' & k & _ & Hx' & _). congruence.
  - destruct (plan_kinds _ _ _ _ _ _ _ _ Had Hx Hp Hkind) as (Hexec & Hesc & _). split.
    + rewrite Hexec. split; [intros H; by exists d, e, o, cp, r, kind|].
      intros (d' & e' & o' & cp' & r' & k & Had' & _ & Hk' & H).
      destruct (admissible_unique _ _ _ _ _ _ _ _ _ _ _ Had Had') as (-> & -> & ->).
      by assert (k = kind) as -> by congruence.
    + rewrite Hesc. split; [intros ->; exists d, e, o, cp, r; auto|].
      intros (d' & e' & o' & cp' & r' & Had' & [Hx'|Hk']); [congruence|].
      destruct (admissible_unique _ _ _ _ _ _ _ _ _ _ _ Had Had') as (-> & _ & _). congruence.
Qed.

(** Recovery admission is total and sound: [evaluate] answers every request
    without dereferencing an empty field. It admits an action exactly when the
    guard admits the request, the budget is not exhausted, and the reflection
    asked for a replan, or for a replay that is safe, carries its idempotency key
    and whose checkpoint can be resumed; it escalates exactly the admitted
    requests with an exhausted budget or an abort; it rejects all others, with a
    code, and an admitted replay carries the resume plan of its checkpoint. *)
Theorem recovery_admission_complete m q :
  exists m' plan,
    evaluate m q = Some (m', plan) /\
    (executable plan = true <-> admissible_action q) /\
    (escalated plan = true <-> escalating q) /\
    (executable plan = false <-> is_Some (rep_error_code plan)) /\
    (forall resume_plan, rep_resume_plan plan = Some resume_plan ->
       exists cp, rq_checkpoint q = Some cp /\ rpd_plan (make_resume_plan cp) = Some resume_plan).
Proof.
  destruct (evaluate_spec m q) as (m' & plan & He & Hev). exists m', plan. split; [done|].
  destruct (evaluation_verdict _ _ _ _ Hev) as [Hexec Hesc]. split; [done|]. split; [done|].
  destruct Hev as [reason Hno|d e o cp r snapshot Had Hs Hx|d e o cp r kind plan Had Hx Hk Hp Hkind];
    [split_and!; simpl; done|split_and!; simpl; done|].
  destruct (plan_for_decision_total q d e o cp r kind Had) as (p & Hp' & Hact); [set_solver|].
  assert (p = plan) as -> by congruence.
  destruct (plan_shape q kind cp r plan Hp Hact) as [Hcode Hnone]. split; [done|].
  intros rp Hrp. exists cp. split; [by destruct Had as [[]]|].
  destruct (executable plan) eqn:E; [|by rewrite (Hnone eq_refl) in Hrp].
  destruct (plan_kinds _ _ _ _ _ _ _ _ Had Hx Hp Hkind) as (_ & _ & Hres).
  rewrite (Hres E) in Hrp. by destruct (bool_decide _).
Qed.

Lemma evaluation_action m q m' plan :
  evaluation m q m' plan -> ~ blank (rep_planned_action plan).
Proof.
  intros [reason _|d e o cp r snapshot _ _ _|d e o cp r kind plan' Had _ _ Hp Hkind];
    [by apply non_blank_cons..|].
  revert Hp. unfold plan_for_decision, admit_replay. intros Hp.
  repeat case_match; simplify_eq/=; by apply non_blank_cons || (exfalso; naive_solver).
Qed.

Lemma outcome_rejected_iff m plan :
  ~ blank (rep_planned_action plan) -> rep_planned_action plan <> "rejected" ->
  ro_executed_action (execute m plan) = Some "rejected" <->
  executable plan = false /\ escalated plan = false.
Proof.
  intros _ Hne. unfold execute. destruct (executable plan); simpl; [naive_solver|].
  destruct (escalated plan); simpl; [|naive_solver].
  split; [|by intros []]. destruct (rep_safe_failure_hint plan) as [hint|]; [|done].
  by destruct (sfh_enter_degraded_mode hint).
Qed.

Lemma evaluation_not_rejected_action m q m' plan :
  evaluation m q m' plan -> rep_planned_action plan <> "rejected".
Proof.
  intros [reason _|d e o cp r snapshot _ _ _|d e o cp r kind plan' Had _ _ Hp Hkind];
    [done..|].
  revert Hp. unfold plan_for_decision, admit_replay. intros Hp.
  repeat case_match; by simplify_eq/=.
Qed.

(** The retry count an outcome of [q] carries: that of the request plus one when
    the evaluation got past the budget test, and otherwise whatever an earlier
    evaluation left. *)
Definition outcome_retry_count (m : RecoveryManager) (q : RecoveryRequest) (n : option Z)
    : Prop :=
  (forall d e o cp r, admissible q d e o cp r -> budget_exhausted q = false ->
     n = Some (u32 (request_retry_count q cp + 1))) /\
  ((forall d e o cp r, ~ admissible q d e o cp r) \/ budget_exhausted q = true ->
   n = rm_last_evaluated_retry_count m).

Lemma evaluation_retry_count m q m' plan :
  evaluation m q m' plan -> outcome_retry_count m q (rm_last_evaluated_retry_count m').
Proof.
  intros [reason Hno|d e o cp r snapshot Had Hs Hx|d e o cp r kind plan' Had Hx _ _ _]; split.
  - intros d e o cp r Had _. destruct Hno. apply request_guard_spec. by do 5 eexists.
  - done.
  - intros d' e' o' cp' r' _ H. unfold budget_exhausted in H. rewrite Hs in H. congruence.
  - done.
  - intros d' e' o' cp' r' Had' _.
    by destruct (admissible_unique _ _ _ _ _ _ _ _ _ _ _ Had Had') as (_ & -> & _).
  - intros [H|H]; [by destruct (H d e o cp r)|congruence].
Qed.

Lemma plan_text_decided plan :
  (forall text, plan_text plan = Some text -> ~ blank text) \/
  ~ (forall text, plan_text plan = Some text -> ~ blank text).
Proof.
  unfold blank. destruct (plan_text plan) as [text|]; [|by left].
  destruct (recovery_outcome_string_has_non_whitespace_content text) eqn:E.
  - left. intros ? [= <-]. congruence.
  - right. intros H. by apply (H text).
Qed.

(** The outcome of an evaluated plan is applied, and recorded as the last
    outcome, exactly when the plan was admitted or escalated and its text is not
    blank: the checkpoint reference of a resume plan, or the reason of an
    escalation, which for an exhausted budget is the snapshot's overall reason
    even when that is empty. An outcome whose evaluation stopped at the guard or
    at the budget carries the retry count of an earlier request. *)
Theorem recovery_outcome_applied m q m' plan :
  evaluate m q = Some (m', plan) ->
  let outcome := execute m' plan in
  outcome_retry_count m q (ro_updated_retry_count outcome) /\
  exists m'' result,
    apply m' outcome = Some (m'', result) /\
    (rar_applied result = true <->
       (executable plan = true \/ escalated plan = true) /\
       forall text, plan_text plan = Some text -> ~ blank text) /\
    (rar_applied result = true -> rm_last_outcome m'' = Some outcome).
Proof.
  intros He%evaluation_of outcome.
  pose proof (evaluation_action _ _ _ _ He) as Hact.
  pose proof (evaluation_not_rejected_action _ _ _ _ He) as Hne. split.
  { assert (ro_updated_retry_count outcome = rm_last_evaluated_retry_count m') as ->.
    { unfold outcome, execute. by destruct (executable plan), (escalated plan). }
    by apply (evaluation_retry_count m q m' plan). }
  destruct (apply_spec m' outcome) as (m'' & result & Ha & _ & Hok & Hnok).
  exists m'', result. split; [done|].
  pose proof (execute_admitted m' plan Hact) as Hadm. rewrite outcome_guard_spec in Hadm.
  fold outcome in Hadm.
  pose proof (outcome_rejected_iff m' plan Hact Hne) as Hrej. fold outcome in Hrej.
  destruct (plan_text_decided plan) as [Ht|Ht].
  - destruct (Hok (proj2 Hadm Ht)) as [Hlast ->]. split; [|done].
    rewrite negb_true_iff, bool_decide_eq_false, Hrej.
    destruct (executable plan), (escalated plan); naive_solver.
  - assert (~ outcome_ok outcome) as Hno by (intros H; exact (Ht (proj1 Hadm H))).
    destruct (Hnok Hno) as [_ ->]. split; [|done]. split; [done|by intros [_ ?]].
Qed.

(** ** Witnesses *)

Definition sample_error : ErrorInfo :=
  {| ei_failure_type := Some ResultCodeCategory.Tool; ei_retryable := Some true;
     ei_safe_to_replan := Some true;
     ei_details := {| ed_code := Some 601; ed_message := "timeout"; ed_stage := "tool" |};
     ei_source_ref := {| esr_ref_type := "tool_call"; esr_ref_id := "call-1" |} |}.

Definition sample_observation : Observation :=
  {| ob_observation_id := Some "obs-1"; ob_source := Some ObservationSource.ToolExecution;
     ob_success := Some false; ob_payload := Some "{}"; ob_created_at := Some 1700000000001;
     ob_error := Some sample_error; ob_side_effects := None;
     ob_tool_call_id := Some "call-1"; ob_worker_task_id := None;
     ob_request_id := Some "req-7"; ob_goal_id := None; ob_duration_ms := Some 12;
     ob_tags := None |}.

Definition sample_decision (kind : ReflectionDecisionKind) : ReflectionDecision :=
  {| rd_request_id := Some "req-7"; rd_decision_kind := Some kind;
     rd_rationale := Some "the tool timed out"; rd_goal_id := None;
     rd_confidence := Some (S754_finite false 8388608 (-24));
     rd_relevant_observation_refs := Some ["obs-1"]; rd_hint_ref := None;
     rd_created_at := None; rd_tags := None |}.

Definition sample_report : IdempotencyAndSideEffectReport :=
  {| isr_replay_safe := Some true; isr_idempotency_key := Some "key-1";
     isr_side_effects_present := Some false; isr_non_replayable_reason := None |}.

Definition sample_request (kind : ReflectionDecisionKind) (snapshot : option BudgetSnapshot)
    : RecoveryRequest :=
  {| rq_reflection_decision := Some (sample_decision kind); rq_error_info := Some sample_error;
     rq_latest_observation := Some sample_observation; rq_checkpoint := Some sample_checkpoint;
     rq_idempotency_and_side_effect_report := Some sample_report;
     rq_retry_count := None; rq_runtime_budget_snapshot := snapshot |}.

(** One turn over the budget, and no overall reason. *)
Definition overrun_snapshot : BudgetSnapshot :=
  {| bs_snapshot_at_ms := Some 5;
     bs_entries := [{| bse_budget_type := BudgetType.Turn; bse_current := 3; bse_max := 2;
                       bse_remaining := -1; bse_reject_reason := Some "turns" |}];
     bs_overall_reject_reason := Some "" |}.

Example sample_request_admitted :
  option_map (fun r => executable (snd r))
    (evaluate new_recovery_manager (sample_request ReflectionDecisionKind.RetryStep None))
  = Some true.
Proof. vm_compute. reflexivity. Qed.

Lemma recovery_outcome_applied_witness :
  exists m' plan m'' result,
    evaluate new_recovery_manager
      (sample_request ReflectionDecisionKind.RetryStep (Some overrun_snapshot))
      = Some (m', plan) /\
    escalated plan = true /\ apply m' (execute m' plan) = Some (m'', result) /\
    rar_applied result = false.
Proof.
  assert (exists p, evaluate new_recovery_manager
    (sample_request ReflectionDecisionKind.RetryStep (Some overrun_snapshot)) = Some p /\
    escalated (snd p) = true /\ plan_text (snd p) = Some "") as ([m' plan] & He & Hesc & Ht).
  { eexists. split; [vm_compute; reflexivity|]. split; reflexivity. }
  destruct (recovery_outcome_applied _ _ _ _ He) as [_ (m'' & result & Ha & Hiff & _)].
  exists m', plan, m'', result. split; [exact He|]. split; [exact Hesc|]. split; [exact Ha|].
  destruct (rar_applied result); [|reflexivity].
  destruct (proj1 Hiff eq_refl) as [_ H]. destruct (H "" Ht eq_refl).
Defined.
