(* ===== verification/RecoveryFlow.v ===== *)
(** * The recovery round

    The part of runtime/src/AgentOrchestrator.cpp that follows a failed tool
    call: it hands the request to the recovery manager, the outcome of an
    escalation to the safe mode controller, takes the state machine to the
    terminal state the controller names, builds and saves the terminal checkpoint,
    goes through the response steps to Completed and closes the session. What the
    round reports (the stage trace, telemetry, and the texts of the agent result)
    is left out, as is the turn that a resume plan continues. *)

From S2P Require Import Prelude ErrorCodes CheckpointContracts Fsm Budget.
From S2P Require Import SessionTypes DurableStore Checkpoint CheckpointStore CheckpointManager SessionManager.
From S2P Require Import RecoveryContracts SafeMode Recovery.

(** ** Transition steps *)

Record TransitionStep := {
  ts_to_state : RuntimeState;
  ts_reason : string;
  ts_guards : list TransitionGuardFact;
}.

Record TransitionFailure := {
  tf_state_before : RuntimeState;
  tf_stage : string;
  tf_detail : string;
}.

(** The outcome is the one the accepted transition writes to the out parameter. *)
Definition apply_step (fsm : RuntimeState) (stage : string) (step : TransitionStep)
    : RuntimeState * result TransitionFailure StateTransitionOutcome :=
  let request :=
    {| tr_from_state := fsm; tr_requested_to := ts_to_state step;
       tr_transition_reason := ts_reason step; tr_guard_facts := ts_guards step |} in
  let '(fsm', outcome) := transition fsm request in
  if to_accepted outcome then (fsm', Ok outcome) else
  (fsm', Err {| tf_state_before := fsm; tf_stage := stage;
                tf_detail := from_option rr_detail "transition rejected"
                               (to_rejection_reason outcome) |}).

Fixpoint apply_steps (fsm : RuntimeState) (stage : string) (steps : list TransitionStep)
    (last_outcome : option StateTransitionOutcome)
    : RuntimeState * result TransitionFailure (option StateTransitionOutcome) :=
  match steps with
  | [] => (fsm, Ok last_outcome)
  | step :: rest =>
      match apply_step fsm stage step with
      | (fsm, Ok outcome) => apply_steps fsm stage rest (Some outcome)
      | (fsm, Err failure) => (fsm, Err failure)
      end
  end.

(** ** Safe mode for a recovery *)

Definition exhausted_budget_violation (budget_type : BudgetType) : BudgetViolationClass :=
  match budget_type with
  | BudgetType.Token => BudgetViolationClass.TokenExhausted
  | BudgetType.Turn => BudgetViolationClass.TurnExhausted
  | BudgetType.ToolCall => BudgetViolationClass.ToolCallExhausted
  | BudgetType.Latency => BudgetViolationClass.LatencyExhausted
  | BudgetType.Replan => BudgetViolationClass.ReplanExhausted
  end.

Definition exhausted_budget_decision (budget_snapshot : option BudgetSnapshot)
    : option BudgetDecision :=
  let? snapshot := budget_snapshot else None in
  match List.find entry_exhausted (bs_entries snapshot) with
  | Some entry =>
      Some (make_budget_rejected_decision
              (exhausted_budget_violation (bse_budget_type entry))
              (default (default "budget exhausted" (bs_overall_reject_reason snapshot))
                 (bse_reject_reason entry))
              (Some (bse_budget_type entry)))
  | None =>
      let? reason := bs_overall_reject_reason snapshot else None in
      Some (make_budget_rejected_decision BudgetViolationClass.SnapshotUnavailable reason None)
  end.

Definition recovery_trigger (recovery_outcome : RecoveryOutcome)
    (budget_snapshot : option BudgetSnapshot) : SafeModeTrigger :=
  let budget_decision := exhausted_budget_decision budget_snapshot in
  {| smt_trigger_kind :=
       match budget_decision with
       | Some _ => SafeModeTriggerKind.BudgetExhausted
       | None => SafeModeTriggerKind.RecoveryExhausted
       end;
     smt_budget_decision := budget_decision;
     smt_recovery_outcome := Some recovery_outcome;
     smt_error_code := None; smt_health_signal := None;
     smt_detail :=
       match budget_decision with
       | Some decision => bd_detail decision
       | None => default "recovery exhausted without explicit escalation reason"
                   (ro_escalation_reason recovery_outcome)
       end |}.

Definition evaluate_safe_mode_for_recovery (safe_mode_controller : SafeModeController)
    (recovery_outcome : RecoveryOutcome) (budget_snapshot : option BudgetSnapshot)
    : SafeModeController * SafeModeDecision :=
  evaluate_entry safe_mode_controller (recovery_trigger recovery_outcome budget_snapshot).

Definition safe_terminal_result_code (terminal_state : RuntimeState) : Z :=
  match terminal_state with
  | RuntimeState.Degraded => 5008
  | RuntimeState.SafeMode => 5009
  | _ => 5003
  end.

Definition safe_terminal_label (terminal_state : RuntimeState) : string :=
  match terminal_state with
  | RuntimeState.Degraded => "degraded"
  | RuntimeState.SafeMode => "safe-mode"
  | _ => "fail-safe"
  end.

(** ** The round *)

Definition step_to (to_state : RuntimeState) (reason : string)
    (guards : list TransitionGuardFact) : TransitionStep :=
  {| ts_to_state := to_state; ts_reason := reason; ts_guards := guards |}.

(** The steps into the terminal state, in three branches. *)
Definition terminal_steps (target_runtime_state : RuntimeState) (detail : string)
    : list TransitionStep :=
  if bool_decide (target_runtime_state = RuntimeState.SafeMode) then
    [step_to RuntimeState.Degraded detail [TransitionGuardFact.RecoveryDegrade];
     step_to RuntimeState.SafeMode detail [TransitionGuardFact.SafeModeTriggerSatisfied]]
  else if bool_decide (target_runtime_state = RuntimeState.Degraded) then
    [step_to RuntimeState.Degraded detail [TransitionGuardFact.RecoveryDegrade]]
  else
    [step_to RuntimeState.FailedSafe detail [TransitionGuardFact.RecoveryAbortSafe]].

Definition response_steps (checkpoint_label : string) : list TransitionStep :=
  [step_to RuntimeState.Responding ("emit " +:+ (checkpoint_label +:+ " response")) [];
   step_to RuntimeState.Auditing "response materialized"
     [TransitionGuardFact.ResponseMaterialized];
   step_to RuntimeState.Persisting "audit committed" [TransitionGuardFact.AuditCommitted];
   step_to RuntimeState.Completed "persistence confirmed"
     [TransitionGuardFact.PersistenceConfirmed]].

Definition make_reflection_replan_resume_plan (checkpoint : Checkpoint) (reason : string)
    : ResumePlan :=
  {| rp_checkpoint_ref := default "" (cp_checkpoint_id checkpoint);
     rp_target_state := RuntimeState.Planning;
     rp_checkpoint_state := default CheckpointState.Unspecified (cp_state checkpoint);
     rp_resume_token := ""; rp_resume_reason := reason;
     rp_pending_action := cp_pending_action checkpoint;
     rp_policy_snapshot_ref := None; rp_requires_operator_intervention := false |}.

(** *** Checkpoint and session of the terminal state *)

Definition append_unique_string (destination : list string) (value : string) : list string :=
  if is_empty value then destination else
  if bool_decide (value ∈ destination) then destination else destination ++ [value].

Definition append_runtime_checkpoint_execution_model_tags (tags : list string) : list string :=
  append_unique_string
    (append_unique_string tags "runtime_execution_model=v1_sync_inline")
    "runtime_scheduler_effective_max_workers=1".

Record SavedCheckpointResult := {
  scres_checkpoint : option Checkpoint;
  scres_error_code : option RuntimeErrorCode;
  scres_detail : string;
}.

Definition checkpoint_saved (result : SavedCheckpointResult) : bool :=
  bool_decide (is_Some (scres_checkpoint result))
  && bool_decide (scres_error_code result = None).

Definition with_execution_model_tags (request : CheckpointBuildRequest)
    : CheckpointBuildRequest :=
  {| cbr_transition_outcome := cbr_transition_outcome request;
     cbr_checkpoint_id := cbr_checkpoint_id request; cbr_step_id := cbr_step_id request;
     cbr_working_memory_snapshot := cbr_working_memory_snapshot request;
     cbr_pending_action := cbr_pending_action request;
     cbr_request_id := cbr_request_id request; cbr_goal_id := cbr_goal_id request;
     cbr_belief_state_ref := cbr_belief_state_ref request;
     cbr_retry_count := cbr_retry_count request;
     cbr_created_at_ms := cbr_created_at_ms request;
     cbr_runtime_budget_snapshot := cbr_runtime_budget_snapshot request;
     cbr_tags := append_runtime_checkpoint_execution_model_tags (cbr_tags request) |}.

Definition build_and_save_checkpoint (io : IoOutcome) (fs : FileSystem)
    (checkpoint_manager : CheckpointManager) (request : CheckpointBuildRequest)
    : FileSystem * CheckpointManager * SavedCheckpointResult :=
  let '(checkpoint_manager, build_result) :=
    build_checkpoint checkpoint_manager (with_execution_model_tags request) in
  let not_built :=
    (fs, checkpoint_manager,
     {| scres_checkpoint := None;
        scres_error_code := ccr_error_code (cbres_report build_result);
        scres_detail := ccr_detail (cbres_report build_result) |}) in
  if negb (built build_result) then not_built else
  let? checkpoint := cbres_checkpoint build_result else not_built in
  let '(fs, checkpoint_manager, persist_result) :=
    save_with_snapshot io fs checkpoint_manager checkpoint
      (cbres_runtime_budget_snapshot build_result) in
  if negb (cpr_persisted persist_result) then
    (fs, checkpoint_manager,
     {| scres_checkpoint := None; scres_error_code := cpr_error_code persist_result;
        scres_detail := cpr_detail persist_result |})
  else
    (fs, checkpoint_manager,
     {| scres_checkpoint := Some checkpoint; scres_error_code := None;
        scres_detail := cpr_detail persist_result |}).

Record SessionUpdateResult := {
  sur_snapshot : option SessionSnapshot;
  sur_error_code : option RuntimeErrorCode;
  sur_detail : string;
}.

Definition persist_terminal_session (io : IoOutcome) (fs : FileSystem)
    (session_manager : SessionManager) (session_snapshot : SessionSnapshot)
    (terminal_state : RuntimeState) (checkpoint_ref : option string) (audit_summary : string)
    : FileSystem * SessionManager * SessionUpdateResult :=
  let closed :=
    {| ss_session_id := ss_session_id session_snapshot;
       ss_request_id := ss_request_id session_snapshot;
       ss_turn_index := ss_turn_index session_snapshot;
       ss_active_checkpoint_ref := ss_active_checkpoint_ref session_snapshot;
       ss_fsm_state := ss_fsm_state session_snapshot;
       ss_budget_snapshot_ref := ss_budget_snapshot_ref session_snapshot;
       ss_pending_interaction := None; ss_last_result_summary := Some audit_summary |} in
  let '(fs, session_manager, persist_result) :=
    persist_turn io fs session_manager
      {| spr_session_snapshot := closed; spr_terminal_state := terminal_state;
         spr_checkpoint_ref := checkpoint_ref; spr_audit_summary := Some audit_summary;
         spr_next_resume_seed_ref := None |} in
  if negb (spres_persisted persist_result) then
    (fs, session_manager,
     {| sur_snapshot := None; sur_error_code := spres_error_code persist_result;
        sur_detail := spres_detail persist_result |})
  else
    (fs, session_manager,
     {| sur_snapshot := Some
          {| ss_session_id := ss_session_id closed; ss_request_id := ss_request_id closed;
             ss_turn_index := ss_turn_index closed;
             ss_active_checkpoint_ref :=
               match checkpoint_ref with
               | Some ref => Some ref
               | None => ss_active_checkpoint_ref closed
               end;
             ss_fsm_state := terminal_state;
             ss_budget_snapshot_ref := ss_budget_snapshot_ref closed;
             ss_pending_interaction := None; ss_last_result_summary := Some audit_summary |};
        sur_error_code := None; sur_detail := spres_detail persist_result |}).

(** *** State and context *)

(** The members of the orchestrator a recovery round changes, with the disk the
    two managers write to. *)
Record Runtime := {
  rt_recovery_manager : RecoveryManager;
  rt_safe_mode_controller : SafeModeController;
  rt_fsm : RuntimeState;
  rt_checkpoint_manager : CheckpointManager;
  rt_session_manager : SessionManager;
  rt_disk : FileSystem;
}.

(** What the turn knows when the round starts: the normalised request (its id is
    always set), the goal, the composition's constants, the session, and the
    outcome the operating system gives the two writes. *)
Record TurnContext := {
  tc_request_id : string;
  tc_created_at : option Z;
  tc_goal_id : string;
  tc_default_belief_state_ref : string;
  tc_default_audit_summary : string;
  tc_budget_snapshot : BudgetSnapshot;
  tc_session_snapshot : SessionSnapshot;
  tc_checkpoint_io : IoOutcome;
  tc_session_io : IoOutcome;
}.

Definition terminal_checkpoint_request (context : TurnContext) (checkpoint_label : string)
    (terminal_outcome : StateTransitionOutcome) : CheckpointBuildRequest :=
  {| cbr_transition_outcome := terminal_outcome;
     cbr_checkpoint_id := "chk-" +:+ (checkpoint_label +:+ ("-" +:+ tc_request_id context));
     cbr_step_id := checkpoint_label +:+ ("-" +:+ tc_request_id context);
     cbr_working_memory_snapshot :=
       "wm:" +:+ (checkpoint_label +:+ (":" +:+ tc_request_id context));
     cbr_pending_action := Some "";
     cbr_request_id := Some (tc_request_id context);
     cbr_goal_id := Some (tc_goal_id context);
     cbr_belief_state_ref := Some (tc_default_belief_state_ref context);
     cbr_retry_count := Some 1;
     cbr_created_at_ms := tc_created_at context;
     cbr_runtime_budget_snapshot := Some (tc_budget_snapshot context);
     cbr_tags := ["path=" +:+ checkpoint_label] |}.

Definition with_fsm (fsm : RuntimeState) (rt : Runtime) : Runtime :=
  {| rt_recovery_manager := rt_recovery_manager rt;
     rt_safe_mode_controller := rt_safe_mode_controller rt; rt_fsm := fsm;
     rt_checkpoint_manager := rt_checkpoint_manager rt;
     rt_session_manager := rt_session_manager rt; rt_disk := rt_disk rt |}.

Definition with_safe_mode (smc : SafeModeController) (rt : Runtime) : Runtime :=
  {| rt_recovery_manager := rt_recovery_manager rt; rt_safe_mode_controller := smc;
     rt_fsm := rt_fsm rt; rt_checkpoint_manager := rt_checkpoint_manager rt;
     rt_session_manager := rt_session_manager rt; rt_disk := rt_disk rt |}.

Definition with_recovery (rm : RecoveryManager) (rt : Runtime) : Runtime :=
  {| rt_recovery_manager := rm; rt_safe_mode_controller := rt_safe_mode_controller rt;
     rt_fsm := rt_fsm rt; rt_checkpoint_manager := rt_checkpoint_manager rt;
     rt_session_manager := rt_session_manager rt; rt_disk := rt_disk rt |}.

Definition with_checkpoints (fs : FileSystem) (m : CheckpointManager) (rt : Runtime) : Runtime :=
  {| rt_recovery_manager := rt_recovery_manager rt;
     rt_safe_mode_controller := rt_safe_mode_controller rt; rt_fsm := rt_fsm rt;
     rt_checkpoint_manager := m; rt_session_manager := rt_session_manager rt;
     rt_disk := fs |}.

Definition with_sessions (fs : FileSystem) (m : SessionManager) (rt : Runtime) : Runtime :=
  {| rt_recovery_manager := rt_recovery_manager rt;
     rt_safe_mode_controller := rt_safe_mode_controller rt; rt_fsm := rt_fsm rt;
     rt_checkpoint_manager := rt_checkpoint_manager rt; rt_session_manager := m;
     rt_disk := fs |}.

(** *** The round itself *)

(** How a recovery round ends: the turn goes on from a resume plan, it ends in a
    safe terminal state, or it fails. *)
Inductive RoundResult :=
| ResumeFrom (plan : ResumePlan)
| SafeTerminal (target : RuntimeState) (decision : SafeModeDecision) (checkpoint : Checkpoint)
    (result_code : Z)
| Failed (detail : string).

(** The branch of an aborted or degraded outcome. [None]: the terminal steps
    accepted without an outcome, or a saved checkpoint missing. *)
Definition safe_terminal_round (context : TurnContext) (rt : Runtime)
    (outcome : RecoveryOutcome) (snapshot : option BudgetSnapshot)
    : option (Runtime * RoundResult) :=
  let '(smc, decision) :=
    evaluate_safe_mode_for_recovery (rt_safe_mode_controller rt) outcome snapshot in
  let rt := with_safe_mode smc rt in
  let target := default RuntimeState.FailedSafe (smd_target_runtime_state decision) in
  let '(fsm, stepped) :=
    apply_steps (rt_fsm rt) "recovery_round" (terminal_steps target (smd_detail decision)) None in
  let rt := with_fsm fsm rt in
  match stepped with
  | Err failure => Some (rt, Failed (tf_detail failure))
  | Ok terminal_outcome =>
      let? terminal_outcome := terminal_outcome else None in
      let checkpoint_label := safe_terminal_label target in
      let '(fs, cm, terminal_checkpoint) :=
        build_and_save_checkpoint (tc_checkpoint_io context) (rt_disk rt)
          (rt_checkpoint_manager rt)
          (terminal_checkpoint_request context checkpoint_label terminal_outcome) in
      let rt := with_checkpoints fs cm rt in
      if negb (checkpoint_saved terminal_checkpoint)
      then Some (rt, Failed (scres_detail terminal_checkpoint)) else
      let? checkpoint := scres_checkpoint terminal_checkpoint else None in
      let '(fsm, stepped) :=
        apply_steps (rt_fsm rt) "terminalize" (response_steps checkpoint_label) None in
      let rt := with_fsm fsm rt in
      match stepped with
      | Err failure => Some (rt, Failed (tf_detail failure))
      | Ok _ =>
          let '(fs, sm, _) :=
            persist_terminal_session (tc_session_io context) (rt_disk rt)
              (rt_session_manager rt) (tc_session_snapshot context) target
              (cp_checkpoint_id checkpoint)
              (tc_default_audit_summary context +:+ (" " +:+ checkpoint_label)) in
          Some (with_sessions fs sm rt,
                SafeTerminal target decision checkpoint (safe_terminal_result_code target))
      end
  end.

(** The request was built around the checkpoint and the decision the round
    resumes from. *)
Definition recovery_round (context : TurnContext) (rt : Runtime) (request : RecoveryRequest)
    : option (Runtime * RoundResult) :=
  let? evaluated := evaluate (rt_recovery_manager rt) request else None in
  let '(rm, plan) := evaluated in
  let outcome := execute rm plan in
  let? applied := apply rm outcome else None in
  let '(rm, recovery_apply_result) := applied in
  let rt := with_recovery rm rt in
  let executed_action := default "" (ro_executed_action outcome) in
  if bool_decide (executed_action = "continue") || bool_decide (executed_action = "retry_step")
  then
    match rep_resume_plan plan with
    | None =>
        Some (rt, Failed "recovery manager admitted a resume action without a resume plan")
    | Some resume_plan => Some (rt, ResumeFrom resume_plan)
    end
  else if bool_decide (executed_action = "replan") then
    let? checkpoint := rq_checkpoint request else None in
    let? decision := rq_reflection_decision request else None in
    Some (rt, ResumeFrom (make_reflection_replan_resume_plan checkpoint
            (default "reflection requested a planning restart" (rd_rationale decision))))
  else if bool_decide (executed_action = "abort_safe") || bool_decide (executed_action = "degrade")
  then safe_terminal_round context rt outcome (rq_runtime_budget_snapshot request)
  else
    Some (rt, Failed (default (default (rar_detail recovery_apply_result)
                                 (ro_escalation_reason outcome))
                        (ro_rejection_reason outcome))).

(** ** The safe terminal *)

Lemma apply_step_accepted fsm stage step :
  edge fsm (ts_to_state step) (fun fact => fact ∈ ts_guards step) ->
  exists outcome, apply_step fsm stage step = (ts_to_state step, Ok outcome) /\
    (exists request, outcome = snd (transition fsm request)) /\ to_accepted outcome = true /\
    exists r, r ∈ transition_rules /\ rule_from_state r = fsm /\
      rule_to_state r = ts_to_state step /\
      to_checkpoint_hint outcome = rule_checkpoint_strategy r.
Proof.
  intros He. unfold apply_step.
  set (request := {| tr_from_state := fsm; tr_requested_to := ts_to_state step;
    tr_transition_reason := ts_reason step; tr_guard_facts := ts_guards step |}).
  assert (er_accepted (evaluate_request_locked fsm request) = true) as Hacc
    by (by apply evaluate_accepted_iff).
  pose proof (transition_accepted fsm request) as Ha.
  pose proof (transition_state fsm request) as Hst. rewrite Hacc in Ha, Hst.
  destruct (evaluate_accepted_hint _ _ Hacc) as (r & Hin & Hfrom & Hto & Hhint).
  assert (to_checkpoint_hint (snd (transition fsm request)) = rule_checkpoint_strategy r) as Hh.
  { unfold transition. by rewrite Hacc, Hhint. }
  destruct (transition fsm request) as [fsm' outcome] eqn:Et. simpl in *. rewrite Ha, Hst.
  exists outcome. split; [done|]. split; [exists request; by rewrite Et|]. split; [done|].
  by exists r.
Qed.

(** From every safe terminal the response reaches Completed. *)
Lemma response_completes target stage label last :
  target = RuntimeState.FailedSafe \/ target = RuntimeState.Degraded ->
  exists outcome,
    apply_steps target stage (response_steps label) last = (RuntimeState.Completed, Ok outcome).
Proof.
  intros Ht. unfold response_steps. cbn [apply_steps].
  destruct (apply_step_accepted target stage
    (step_to RuntimeState.Responding ("emit " +:+ (label +:+ " response")) []))
    as (o1 & -> & _). { destruct Ht as [-> | ->]; constructor. }
  destruct (apply_step_accepted RuntimeState.Responding stage
    (step_to RuntimeState.Auditing "response materialized"
       [TransitionGuardFact.ResponseMaterialized])) as (o2 & E2 & _); [constructor; set_solver|].
  destruct (apply_step_accepted RuntimeState.Auditing stage
    (step_to RuntimeState.Persisting "audit committed" [TransitionGuardFact.AuditCommitted]))
    as (o3 & E3 & _); [constructor; set_solver|].
  destruct (apply_step_accepted RuntimeState.Persisting stage
    (step_to RuntimeState.Completed "persistence confirmed"
       [TransitionGuardFact.PersistenceConfirmed])) as (o4 & E4 & _); [constructor; set_solver|].
  cbn [step_to ts_to_state] in *. rewrite E2, E3, E4. by eexists.
Qed.

(** The state the round ends in, by the snapshot and the degrade policy. *)
Definition recovery_target (policy : option DegradePolicy) (snapshot : option BudgetSnapshot)
    : RuntimeState :=
  match exhausted_budget_decision snapshot, policy with
  | Some _, Some p => if dp_allow_budget_degrade p then RuntimeState.Degraded
                      else RuntimeState.FailedSafe
  | _, _ => RuntimeState.FailedSafe
  end.

Definition writes_failed_checkpoint (outcome : StateTransitionOutcome) : Prop :=
  (exists request, outcome = snd (transition RuntimeState.Reflecting request)) /\
  to_accepted outcome = true /\
  writes_checkpoint (to_checkpoint_hint outcome) = true /\
  ch_checkpoint_state (to_checkpoint_hint outcome) = Some CheckpointState.Failed.

Lemma terminal_hint r :
  r ∈ transition_rules -> rule_from_state r = RuntimeState.Reflecting ->
  rule_to_state r = RuntimeState.FailedSafe \/ rule_to_state r = RuntimeState.Degraded ->
  writes_checkpoint (rule_checkpoint_strategy r) = true /\
  ch_checkpoint_state (rule_checkpoint_strategy r) = Some CheckpointState.Failed.
Proof.
  intros Hin.
  assert (Forall (fun r => rule_from_state r = RuntimeState.Reflecting ->
    rule_to_state r = RuntimeState.FailedSafe \/ rule_to_state r = RuntimeState.Degraded ->
    writes_checkpoint (rule_checkpoint_strategy r) = true /\
    ch_checkpoint_state (rule_checkpoint_strategy r) = Some CheckpointState.Failed)
    transition_rules) as Hall.
  { unfold transition_rules.
    repeat (apply Forall_cons_2; [simpl; first [done | by intros _ [?|?]]|]).
    by apply Forall_nil_2. }
  rewrite Forall_forall in Hall. by apply Hall.
Qed.

Lemma terminal_reached target detail :
  target = RuntimeState.FailedSafe \/ target = RuntimeState.Degraded ->
  exists outcome,
    apply_steps RuntimeState.Reflecting "recovery_round" (terminal_steps target detail) None
      = (target, Ok (Some outcome)) /\ writes_failed_checkpoint outcome.
Proof.
  intros Ht.
  assert (exists guards, terminal_steps target detail = [step_to target detail guards] /\
    edge RuntimeState.Reflecting target (fun fact => fact ∈ guards)) as (guards & Heq & He).
  { destruct Ht as [-> | ->]; eexists; (split; [reflexivity|]); constructor; set_solver. }
  rewrite Heq.
  destruct (apply_step_accepted RuntimeState.Reflecting "recovery_round"
    (step_to target detail guards) He) as (o & Ho & Hreq & Hacc & r & Hin & Hfrom & Hto & Hhint).
  exists o. cbn [apply_steps]. rewrite Ho. split; [done|]. split; [done|]. split; [done|].
  rewrite Hhint. apply terminal_hint; [done..|].
  rewrite Hto. destruct Ht as [-> | ->]; auto.
Qed.

Lemma trigger_mode policy outcome snapshot :
  ro_executed_action outcome <> Some "degrade" \/ is_Some (exhausted_budget_decision snapshot) ->
  (is_Some (exhausted_budget_decision snapshot) \/
   ro_final_runtime_state outcome = Some "FailedSafe") ->
  runtime_state_for_mode (entry_mode policy (recovery_trigger outcome snapshot))
  = Some (recovery_target policy snapshot).
Proof.
  unfold entry_mode, recovery_trigger, recovery_target. simpl.
  destruct (exhausted_budget_decision snapshot) as [d|]; simpl.
  - intros _ _. destruct policy as [p|]; [|done]. by destruct (dp_allow_budget_degrade p).
  - intros [Ha|[? ?]] [[? ?]|Hs]; try done. rewrite decide_False, decide_False; [done| |];
      rewrite Hs; [done|]. by intros [?|?].
Qed.

Lemma recovery_target_cases policy snapshot :
  recovery_target policy snapshot = RuntimeState.FailedSafe \/
  recovery_target policy snapshot = RuntimeState.Degraded.
Proof.
  unfold recovery_target. destruct (exhausted_budget_decision snapshot); [|by left].
  destruct policy as [p|]; [|by left]. destruct (dp_allow_budget_degrade p); [by right|by left].
Qed.

(** A context the terminal checkpoint can be built in. *)
Definition context_ok (context : TurnContext) : Prop :=
  tc_request_id context <> "" /\ tc_goal_id context <> "" /\
  tc_default_belief_state_ref context <> "" /\
  (forall t, tc_created_at context = Some t -> 0 < t).

Lemma terminal_resolves terminal :
  writes_failed_checkpoint terminal ->
  resolve_checkpoint_state terminal = Some CheckpointState.Failed /\
  ch_pending_action_required (to_checkpoint_hint terminal) = false.
Proof.
  intros ([request ->] & Hacc & Hw & Hstate).
  destruct (written_hint_resolves _ _ Hacc Hw) as (c & Hres & _ & Hhint & Hwait).
  rewrite Hstate in Hhint. injection Hhint as <-. by rewrite Hres, <-Hwait.
Qed.

Lemma terminal_request_complete context target terminal :
  context_ok context -> writes_failed_checkpoint terminal ->
  target = RuntimeState.FailedSafe \/ target = RuntimeState.Degraded ->
  request_complete (with_execution_model_tags
    (terminal_checkpoint_request context (safe_terminal_label target) terminal)).
Proof.
  intros (Hr & Hg & Hb & Ht) Hw Hlabel.
  destruct (terminal_resolves _ Hw) as [_ Hpend].
  unfold request_complete, with_execution_model_tags, terminal_checkpoint_request. simpl.
  rewrite Hpend. unfold tags_compatible.
  assert (forall a s, "c" +:+ s <> "" /\ String a s <> "") as Hcons by done.
  destruct Hlabel as [-> | ->]; simpl; split_and!;
    try done; try (by apply is_empty_false); try by repeat constructor.
Qed.
Lemma exhausted_snapshot_decision snapshot :
  snapshot_is_exhausted snapshot = true ->
  is_Some (exhausted_budget_decision (Some snapshot)).
Proof.
  unfold snapshot_is_exhausted, exhausted_budget_decision. intros H.
  destruct (List.find entry_exhausted (bs_entries snapshot)) eqn:E; [by eexists|].
  destruct (has_non_empty_value _) eqn:Ho.
  - apply has_non_empty_value_true in Ho as (s & -> & _). by eexists.
  - apply existsb_exists in H as (e & Hin & He).
    by rewrite (List.find_none _ _ E e Hin) in He.
Qed.

Lemma resumable_has_plan cp :
  rpd_resumable (make_resume_plan cp) = true ->
  is_Some (rpd_plan (make_resume_plan cp)).
Proof.
  unfold make_resume_plan, synthesize_resume_plan. intros H.
  repeat case_match; simpl in *; try discriminate; by eexists.
Qed.

(** What the round reads of an evaluated plan and its outcome, in the order of
    its tests. *)
Inductive plan_action (q : RecoveryRequest) (plan : RecoveryExecutionPlan)
    (outcome : RecoveryOutcome) : Prop :=
| act_resume resume_plan action :
    executable plan = true -> escalated plan = false ->
    action = "continue" \/ action = "retry_step" ->
    ro_executed_action outcome = Some action -> rep_resume_plan plan = Some resume_plan ->
    plan_action q plan outcome
| act_replan cp d :
    executable plan = true -> escalated plan = false ->
    ro_executed_action outcome = Some "replan" ->
    rq_checkpoint q = Some cp -> rq_reflection_decision q = Some d ->
    plan_action q plan outcome
| act_escalate action :
    executable plan = false -> escalated plan = true ->
    action = "degrade" /\ is_Some (exhausted_budget_decision (rq_runtime_budget_snapshot q)) \/
    action = "abort_safe" /\ ro_final_runtime_state outcome = Some "FailedSafe" ->
    ro_executed_action outcome = Some action ->
    plan_action q plan outcome
| act_reject :
    executable plan = false -> escalated plan = false ->
    ro_executed_action outcome = Some "rejected" ->
    plan_action q plan outcome.

Lemma reject_action q m plan :
  executable plan = false -> escalated plan = false -> plan_action q plan (execute m plan).
Proof.
  intros H1 H2. apply act_reject; [done..|]. unfold execute. by rewrite H1, H2.
Qed.

Lemma evaluation_plan_action m q m' plan :
  evaluation m q m' plan -> plan_action q plan (execute m' plan).
Proof.
  intros [reason Hno|d e o cp r snapshot Had Hs Hx|d e o cp r kind plan' Had Hx Hk Hp Hkind].
  - by apply reject_action.
  - eapply act_escalate; [done..| |done]. left. split; [done|].
    rewrite Hs. by apply exhausted_snapshot_decision.
  - destruct (plan_kinds _ _ _ _ _ _ _ _ Had Hx Hp Hkind) as (Hexec & Hesc & Hres).
    destruct (executable plan') eqn:E.
    + specialize (Hres eq_refl). destruct Hexec as [Hexec _]. specialize (Hexec eq_refl).
      assert (escalated plan' = false) as He.
      { destruct (escalated plan'); [|done]. rewrite (proj1 Hesc eq_refl) in Hexec.
        by destruct Hexec as [?|[[?|?] _]]. }
      destruct Hexec as [-> | [Hkind' (Hsafe & Hkey & Hresume)]].
      * apply (act_replan _ _ _ cp d); try done; [|by destruct Had as [[]]..].
        unfold execute. rewrite E. simpl. revert Hp. unfold plan_for_decision.
        intros Hp. repeat case_match; simplify_eq/=; done.
      * destruct (resumable_has_plan cp Hresume) as [rp Hrp].
        apply (act_resume _ _ _ rp
          (if bool_decide (kind = ReflectionDecisionKind.Continue) then "continue"
           else "retry_step")); try done.
        -- destruct (bool_decide_reflect (kind = ReflectionDecisionKind.Continue)); [left|right]; reflexivity.
        -- unfold execute. rewrite E. simpl.
           assert (plan_for_decision q kind cp r = admit_replay kind cp r) as Heq
             by (by destruct Hkind' as [-> | ->]).
           rewrite Heq in Hp. unfold admit_replay in Hp.
           repeat case_match; by simplify_eq/=.
        -- rewrite Hres. by destruct Hkind' as [-> | ->].
    + destruct (escalated plan') eqn:He.
      * rewrite (proj1 Hesc eq_refl) in Hp. injection Hp as <-.
        apply (act_escalate _ _ _ "abort_safe"); try done. by right.
      * by apply reject_action.
Qed.

(** The manager holds the checkpoint, in state Failed, under its identifier. *)
Definition failed_checkpoint_stored (cm : CheckpointManager) (cp : Checkpoint) : Prop :=
  cp_state cp = Some CheckpointState.Failed /\
  exists r, cm_stored_checkpoints cm !! default "" (cp_checkpoint_id cp) = Some r /\
    scr_checkpoint r = cp.

Lemma stored_in_memory cp snapshot cm :
  cp_state cp = Some CheckpointState.Failed ->
  cm_stored_checkpoints cm !! default "" (cp_checkpoint_id cp)
    = Some {| scr_checkpoint := cp; scr_runtime_budget_snapshot := snapshot |} ->
  failed_checkpoint_stored cm cp.
Proof. intros Hs Hl. split; [done|]. by eexists. Qed.

(** What building and saving the terminal checkpoint gives. *)
Lemma terminal_checkpoint_spec context fs cm target terminal :
  writes_failed_checkpoint terminal ->
  target = RuntimeState.FailedSafe \/ target = RuntimeState.Degraded ->
  let label := safe_terminal_label target in
  let '(_, cm', result) :=
    build_and_save_checkpoint (tc_checkpoint_io context) fs cm
      (terminal_checkpoint_request context label terminal) in
  (checkpoint_saved result = true -> exists cp,
     scres_checkpoint result = Some cp /\ failed_checkpoint_stored cm' cp) /\
  (checkpoint_saved result = false -> scres_checkpoint result = None) /\
  (context_ok context -> cm_durable_state_root cm = None -> checkpoint_saved result = true).
Proof.
  intros Hw Ht label. destruct (terminal_resolves _ Hw) as [Hres Hpend].
  pose proof Hw as (_ & Hacc & _).
  unfold build_and_save_checkpoint.
  set (request := with_execution_model_tags (terminal_checkpoint_request context label terminal)).
  assert (context_ok context ->
    consistent_checkpoint (checkpoint_of_request request CheckpointState.Failed)) as Hcons.
  { intros Hok. apply built_checkpoint_consistent; [by apply terminal_request_complete|done|].
    exact (eq_sym Hpend). }
  unfold build_checkpoint. replace (cbr_transition_outcome request) with terminal by done.
  rewrite Hacc, Hres. cbn [negb].
  set (cp := checkpoint_of_request request CheckpointState.Failed) in *.
  destruct (ccr_consistent (evaluate_checkpoint_consistency cp)) eqn:Hc.
  2: { cbn. split; [done|]. split; [done|].
       intros Hok. apply Hcons, consistent_iff in Hok. congruence. }
  unfold built. cbn [cbres_report cbres_checkpoint cbres_runtime_budget_snapshot].
  rewrite Hc. cbn. unfold save_with_snapshot. rewrite Hc. simpl.
  destruct (cm_durable_state_root cm) as [root|]; simpl.
  2: { split_and!; [|done..]. intros _. exists cp. split; [done|].
       eapply stored_in_memory; [done|]. apply lookup_insert_eq. }
  destruct (write_durable_checkpoint_record _ _ _ _ _) as [[fs' written] detail]. simpl.
  destruct written; simpl; split_and!; try done.
  intros _. exists cp. split; [done|]. eapply stored_in_memory; [done|]. apply lookup_insert_eq.
Qed.

(** What a round that does not end safely leaves alone. *)
Definition same_but_recovery (rt rt' : Runtime) : Prop :=
  exists rm, rt' = with_recovery rm rt.

Lemma safe_terminal_spec context rt outcome snapshot :
  rt_fsm rt = RuntimeState.Reflecting ->
  ro_executed_action outcome <> Some "degrade" \/ is_Some (exhausted_budget_decision snapshot) ->
  is_Some (exhausted_budget_decision snapshot) \/
  ro_final_runtime_state outcome = Some "FailedSafe" ->
  let target := recovery_target (smc_policy_snapshot (rt_safe_mode_controller rt)) snapshot in
  exists rt' result,
    safe_terminal_round context rt outcome snapshot = Some (rt', result) /\
    runtime_state_for_mode (smc_current_mode (rt_safe_mode_controller rt')) = Some target /\
    ((rt_fsm rt' = RuntimeState.Completed /\ exists decision cp,
        result = SafeTerminal target decision cp (safe_terminal_result_code target) /\
        failed_checkpoint_stored (rt_checkpoint_manager rt') cp) \/
     (rt_fsm rt' = target /\ exists detail, result = Failed detail)) /\
    (context_ok context -> cm_durable_state_root (rt_checkpoint_manager rt) = None ->
     rt_fsm rt' = RuntimeState.Completed).
Proof.
  intros Hfsm H1 H2 target. unfold safe_terminal_round, evaluate_safe_mode_for_recovery.
  set (trigger := recovery_trigger outcome snapshot).
  destruct (entry_reports (rt_safe_mode_controller rt) trigger)
    as (Hmode & (_ & _ & _ & Hstate & _) & _). rewrite Hmode in Hstate.
  pose proof (trigger_mode (smc_policy_snapshot (rt_safe_mode_controller rt)) outcome snapshot
    H1 H2) as Htarget. fold trigger target in Htarget.
  destruct (evaluate_entry (rt_safe_mode_controller rt) trigger) as [smc' decision].
  simpl in Hmode, Hstate. rewrite Hstate, Htarget. cbn [from_option id rt_fsm with_safe_mode].
  rewrite Hfsm.
  assert (target = RuntimeState.FailedSafe \/ target = RuntimeState.Degraded) as Ht
    by apply recovery_target_cases.
  destruct (terminal_reached target (smd_detail decision) Ht) as (terminal & -> & Hw).
  cbn [rt_disk rt_checkpoint_manager with_fsm with_safe_mode].
  pose proof (terminal_checkpoint_spec context (rt_disk rt) (rt_checkpoint_manager rt) target
    terminal Hw Ht) as Hsave. cbv zeta in Hsave.
  destruct (build_and_save_checkpoint _ _ _ _) as [[fs' cm'] saved_result].
  destruct Hsave as (Hsaved & _ & Hok).
  destruct (checkpoint_saved saved_result) eqn:Hs; cbn [negb].
  2: { do 2 eexists. split; [reflexivity|]. simpl. rewrite Hmode. split_and!; [done| |].
       - right. eauto.
       - intros Hctx Hroot. by specialize (Hok Hctx Hroot). }
  destruct (Hsaved eq_refl) as (cp & Hcp & Hstored). rewrite Hcp.
  cbn [rt_fsm with_checkpoints with_fsm].
  destruct (response_completes target "terminalize" (safe_terminal_label target) None Ht)
    as (final & ->).
  destruct (persist_terminal_session _ _ _ _ _ _ _) as [[fs2 sm'] updated].
  do 2 eexists. split; [reflexivity|]. simpl. rewrite Hmode. split_and!; [done| |done].
  left. eauto.
Qed.

(** C9. A recovery round started in Reflecting ends one of three ways, whatever
    the request. An admitted action resumes from a plan and changes nothing but
    the recovery manager. An escalation takes the safe mode controller to Degraded
    when the snapshot carries a budget verdict and the policy lets the budget
    degrade, and to FailedSafe otherwise, never to SafeMode; the state machine
    accepts the steps into that very state, where a checkpoint in state Failed is
    built and saved; if that fails the round stops there, and otherwise the
    response steps are accepted too and the turn is Completed. It always is when
    the context is well formed and checkpoints are kept in memory. Every other
    request fails and changes nothing but the recovery manager. *)
Theorem recovery_round_complete context rt q :
  rt_fsm rt = RuntimeState.Reflecting ->
  let target := recovery_target (smc_policy_snapshot (rt_safe_mode_controller rt))
                  (rq_runtime_budget_snapshot q) in
  exists rt' result,
    recovery_round context rt q = Some (rt', result) /\
    (admissible_action q -> same_but_recovery rt rt' /\ exists plan, result = ResumeFrom plan) /\
    (escalating q ->
       runtime_state_for_mode (smc_current_mode (rt_safe_mode_controller rt')) = Some target /\
       ((rt_fsm rt' = RuntimeState.Completed /\ exists decision cp,
           result = SafeTerminal target decision cp (safe_terminal_result_code target) /\
           failed_checkpoint_stored (rt_checkpoint_manager rt') cp) \/
        (rt_fsm rt' = target /\ exists detail, result = Failed detail)) /\
       (context_ok context -> cm_durable_state_root (rt_checkpoint_manager rt) = None ->
        rt_fsm rt' = RuntimeState.Completed)) /\
    (~ admissible_action q -> ~ escalating q ->
       same_but_recovery rt rt' /\ exists detail, result = Failed detail).
Proof.
  intros Hfsm target. unfold recovery_round.
  destruct (evaluate_spec (rt_recovery_manager rt) q) as (rm1 & plan & -> & Hev).
  destruct (evaluation_verdict _ _ _ _ Hev) as [Hexec Hesc].
  destruct (apply_spec rm1 (execute rm1 plan)) as (rm2 & applied & -> & _).
  assert (same_but_recovery rt (with_recovery rm2 rt)) as Hsame by by exists rm2.
  destruct (evaluation_plan_action _ _ _ _ Hev) as
    [rp action Hx Hs Hact Ha Hrp|cp d Hx Hs Ha Hcp Hd|action Hx Hs Hact Ha|Hx Hs Ha];
    rewrite Ha.
  - exists (with_recovery rm2 rt), (ResumeFrom rp).
    assert (~ escalating q) as Hno by (rewrite <-Hesc; congruence).
    split_and!; [by destruct Hact as [-> | ->]; rewrite Hrp|by eauto|done|].
    intros H. by destruct H; apply Hexec.
  - exists (with_recovery rm2 rt), (ResumeFrom (make_reflection_replan_resume_plan cp
      (default "reflection requested a planning restart" (rd_rationale d)))).
    assert (~ escalating q) as Hno by (rewrite <-Hesc; congruence).
    split_and!; [by rewrite Hcp, Hd|by eauto|done|]. intros H. by destruct H; apply Hexec.
  - assert (~ admissible_action q) as Hno by (rewrite <-Hexec; congruence).
    destruct (safe_terminal_spec context (with_recovery rm2 rt) (execute rm1 plan)
      (rq_runtime_budget_snapshot q)) as (rt' & result & Hround & Hend); [done| | |].
    { rewrite Ha. destruct Hact as [[-> ?]|[-> ?]]; [by right|by left]. }
    { destruct Hact as [[-> ?]|[-> ?]]; auto. }
    exists rt', result. split_and!;
      [by destruct Hact as [[-> _]|[-> _]]; simpl; rewrite Hround|done|done|].
    intros _ H. by destruct H; apply Hesc.
  - assert (~ admissible_action q) as Hno by (rewrite <-Hexec; congruence).
    assert (~ escalating q) as Hno' by (rewrite <-Hesc; congruence).
    do 2 eexists. split; [reflexivity|]. split_and!; [done..|by eauto].
Qed.

(** ** Examples *)

Definition sample_context : TurnContext :=
  {| tc_request_id := "req-7"; tc_created_at := Some 1700000000000; tc_goal_id := "goal-1";
     tc_default_belief_state_ref := "belief-1"; tc_default_audit_summary := "audit";
     tc_budget_snapshot := sample_budget_snapshot; tc_session_snapshot := sample_session;
     tc_checkpoint_io := sample_io; tc_session_io := sample_io |}.

Definition sample_runtime (policy : option DegradePolicy) : Runtime :=
  {| rt_recovery_manager := new_recovery_manager;
     rt_safe_mode_controller := new_safe_mode_controller policy;
     rt_fsm := RuntimeState.Reflecting; rt_checkpoint_manager := new_checkpoint_manager;
     rt_session_manager := new_session_manager; rt_disk := ∅ |}.

Definition round_target (policy : option DegradePolicy) (kind : ReflectionDecisionKind)
    (snapshot : option BudgetSnapshot) : option (RuntimeState * RuntimeState * Z) :=
  match recovery_round sample_context (sample_runtime policy) (sample_request kind snapshot) with
  | Some (rt, SafeTerminal target _ _ code) => Some (rt_fsm rt, target, code)
  | _ => None
  end.

Example abort_ends_failed_safe :
  round_target (Some degrading_policy) ReflectionDecisionKind.AbortSafe None
  = Some (RuntimeState.Completed, RuntimeState.FailedSafe, 5003).
Proof. vm_compute. reflexivity. Qed.

(** The outcome of an exhausted budget is [degrade] in both; the policy decides. *)
Example exhausted_ends_by_policy :
  round_target (Some degrading_policy) ReflectionDecisionKind.RetryStep (Some overrun_snapshot)
  = Some (RuntimeState.Completed, RuntimeState.Degraded, 5008) /\
  round_target None ReflectionDecisionKind.RetryStep (Some overrun_snapshot)
  = Some (RuntimeState.Completed, RuntimeState.FailedSafe, 5003).
Proof. split; vm_compute; reflexivity. Qed.

Example retry_resumes :
  match recovery_round sample_context (sample_runtime None)
          (sample_request ReflectionDecisionKind.RetryStep None) with
  | Some (rt, ResumeFrom plan) => Some (rt_fsm rt, rp_target_state plan)
  | _ => None
  end = Some (RuntimeState.Reflecting, RuntimeState.WaitingConfirm).
Proof. vm_compute. reflexivity. Qed.

Lemma recovery_round_complete_witness :
  exists rt' result,
    recovery_round sample_context (sample_runtime (Some degrading_policy))
      (sample_request ReflectionDecisionKind.RetryStep (Some overrun_snapshot))
      = Some (rt', result) /\
    rt_fsm rt' = RuntimeState.Completed /\
    smc_current_mode (rt_safe_mode_controller rt') = SafeModeState.Degraded.
Proof.
  assert (exists p, evaluate new_recovery_manager
    (sample_request ReflectionDecisionKind.RetryStep (Some overrun_snapshot)) = Some p /\
    escalated (snd p) = true) as ([m' plan] & He & Hesc).
  { eexists. split; [vm_compute; reflexivity|reflexivity]. }
  apply evaluation_of, evaluation_verdict in He as [_ Hiff].
  apply (proj1 Hiff) in Hesc.
  destruct (recovery_round_complete sample_context (sample_runtime (Some degrading_policy))
    (sample_request ReflectionDecisionKind.RetryStep (Some overrun_snapshot)) eq_refl)
    as (rt' & result & Hround & _ & Hend & _).
  destruct (Hend Hesc) as (Hmode & _ & Hcompleted).
  exists rt', result. split; [exact Hround|]. split.
  - apply Hcompleted; [|reflexivity]. split_and!; [done..|]. intros t [= <-]. lia.
  - assert (forall s, runtime_state_for_mode s = Some RuntimeState.Degraded ->
      s = SafeModeState.Degraded) as Hdeg by (intros []; done).
    exact (Hdeg _ Hmode).
Defined.
