(* ===== verification/EventBus.v ===== *)
(** * Event bus

    runtime/src/telemetry/RuntimeEventBus.{h,cpp}: a queue of events whose
    non-audit part is bounded, and the dispatch of events to subscribers. Each
    operation, and each round of the dispatch loop, holds the lock for one step;
    handlers run between steps and may call the bus themselves. Handlers are not
    part of the source: what one does to the bus is an argument of
    [dispatch_pending], and the histories below let any calls of any threads come
    between any two steps. *)

From S2P Require Import Prelude ErrorCodes.

(** ** Data *)

Module RuntimeEventCategory.
Inductive RuntimeEventCategory :=
| Transition | BudgetReject | RecoveryReject | SafeMode | Health | Maintenance | Audit.
End RuntimeEventCategory.
Abbreviation RuntimeEventCategory := RuntimeEventCategory.RuntimeEventCategory.

Module RuntimeEventSeverity.
Inductive RuntimeEventSeverity := Debug | Info | Warning | Error.
End RuntimeEventSeverity.
Abbreviation RuntimeEventSeverity := RuntimeEventSeverity.RuntimeEventSeverity.

Record RuntimeEventContext := {
  ec_request_id : option string;
  ec_session_id : option string;
  ec_trace_id : option string;
  ec_turn_id : option string;
  ec_checkpoint_id : option string;
}.

Record RuntimeEventAttribute := {
  ea_key : string;
  ea_value : string;
}.

Record RuntimeEventEnvelope := {
  ev_sequence : Z;
  ev_category : RuntimeEventCategory;
  ev_severity : RuntimeEventSeverity;
  ev_event_name : string;
  ev_detail : string;
  ev_context : RuntimeEventContext;
  ev_error_code : option RuntimeErrorCode;
  ev_attributes : list RuntimeEventAttribute;
  ev_audit : bool;
  ev_timestamp_ms : Z;
}.

Definition event_has_minimum_fields (event : RuntimeEventEnvelope) : bool :=
  negb (is_empty (ev_event_name event)).

Record RuntimeEventSubscription := {
  es_subscription_id : Z;
  es_event_name_filter : string;
  es_audit_only : bool;
}.

Definition is_valid (subscription : RuntimeEventSubscription) : bool :=
  negb (es_subscription_id subscription =? 0).

Record RuntimeEventPublishResult := {
  epr_accepted : bool;
  epr_dropped_oldest : bool;
  epr_dropped_count : Z;
  epr_queue_depth : Z;
}.

(** The subscription stands for its entry: the handler is known by its id. *)
Record RuntimeEventBus := {
  eb_max_non_audit_queue_depth : Z;
  eb_pending_events : list RuntimeEventEnvelope;
  eb_subscriptions : list RuntimeEventSubscription;
  eb_next_sequence : Z;
  eb_next_subscription_id : Z;
  eb_dropped_count : Z;
  eb_non_audit_queue_depth : Z;
}.

Definition new_event_bus (max_non_audit_queue_depth : Z) : RuntimeEventBus :=
  {| eb_max_non_audit_queue_depth := max_non_audit_queue_depth; eb_pending_events := [];
     eb_subscriptions := []; eb_next_sequence := 1; eb_next_subscription_id := 1;
     eb_dropped_count := 0; eb_non_audit_queue_depth := 0 |}.

(** ** Updates of single members *)

Definition with_pending (pending : list RuntimeEventEnvelope) (depth : Z) (b : RuntimeEventBus)
    : RuntimeEventBus :=
  {| eb_max_non_audit_queue_depth := eb_max_non_audit_queue_depth b;
     eb_pending_events := pending; eb_subscriptions := eb_subscriptions b;
     eb_next_sequence := eb_next_sequence b;
     eb_next_subscription_id := eb_next_subscription_id b;
     eb_dropped_count := eb_dropped_count b; eb_non_audit_queue_depth := depth |}.

Definition with_dropped_count (count : Z) (b : RuntimeEventBus) : RuntimeEventBus :=
  {| eb_max_non_audit_queue_depth := eb_max_non_audit_queue_depth b;
     eb_pending_events := eb_pending_events b; eb_subscriptions := eb_subscriptions b;
     eb_next_sequence := eb_next_sequence b;
     eb_next_subscription_id := eb_next_subscription_id b;
     eb_dropped_count := count; eb_non_audit_queue_depth := eb_non_audit_queue_depth b |}.

Definition with_event_sequence (sequence : Z) (b : RuntimeEventBus) : RuntimeEventBus :=
  {| eb_max_non_audit_queue_depth := eb_max_non_audit_queue_depth b;
     eb_pending_events := eb_pending_events b; eb_subscriptions := eb_subscriptions b;
     eb_next_sequence := sequence;
     eb_next_subscription_id := eb_next_subscription_id b;
     eb_dropped_count := eb_dropped_count b;
     eb_non_audit_queue_depth := eb_non_audit_queue_depth b |}.

Definition with_subscriptions (subscriptions : list RuntimeEventSubscription) (next_id : Z)
    (b : RuntimeEventBus) : RuntimeEventBus :=
  {| eb_max_non_audit_queue_depth := eb_max_non_audit_queue_depth b;
     eb_pending_events := eb_pending_events b; eb_subscriptions := subscriptions;
     eb_next_sequence := eb_next_sequence b; eb_next_subscription_id := next_id;
     eb_dropped_count := eb_dropped_count b;
     eb_non_audit_queue_depth := eb_non_audit_queue_depth b |}.

Definition set_timestamp (timestamp_ms : Z) (event : RuntimeEventEnvelope)
    : RuntimeEventEnvelope :=
  {| ev_sequence := ev_sequence event; ev_category := ev_category event;
     ev_severity := ev_severity event; ev_event_name := ev_event_name event;
     ev_detail := ev_detail event; ev_context := ev_context event;
     ev_error_code := ev_error_code event; ev_attributes := ev_attributes event;
     ev_audit := ev_audit event; ev_timestamp_ms := timestamp_ms |}.

Definition set_sequence (sequence : Z) (event : RuntimeEventEnvelope) : RuntimeEventEnvelope :=
  {| ev_sequence := sequence; ev_category := ev_category event;
     ev_severity := ev_severity event; ev_event_name := ev_event_name event;
     ev_detail := ev_detail event; ev_context := ev_context event;
     ev_error_code := ev_error_code event; ev_attributes := ev_attributes event;
     ev_audit := ev_audit event; ev_timestamp_ms := ev_timestamp_ms event |}.

(** ** Operations *)

Definition subscribe (b : RuntimeEventBus) (event_name_filter : string) (audit_only : bool)
    : RuntimeEventBus * RuntimeEventSubscription :=
  let subscription :=
    {| es_subscription_id := eb_next_subscription_id b;
       es_event_name_filter := event_name_filter; es_audit_only := audit_only |} in
  (with_subscriptions (eb_subscriptions b ++ [subscription])
     (u64 (eb_next_subscription_id b + 1)) b, subscription).

Definition unsubscribe (b : RuntimeEventBus) (subscription_id : Z) : RuntimeEventBus * bool :=
  let remaining :=
    List.filter (fun entry => negb (es_subscription_id entry =? subscription_id))
      (eb_subscriptions b) in
  (with_subscriptions remaining (eb_next_subscription_id b) b,
   negb (length remaining =? length (eb_subscriptions b))%nat).

(** The queue without its first non-audit event, when it has one. *)
Fixpoint erase_oldest_non_audit (pending : list RuntimeEventEnvelope)
    : option (list RuntimeEventEnvelope) :=
  match pending with
  | [] => None
  | event :: rest =>
      if negb (ev_audit event) then Some rest else
      let? rest := erase_oldest_non_audit rest else None in
      Some (event :: rest)
  end.

Definition evict_oldest_non_audit_locked (b : RuntimeEventBus) : RuntimeEventBus * bool :=
  match erase_oldest_non_audit (eb_pending_events b) with
  | None => (b, false)
  | Some pending =>
      (with_pending pending
         (if 0 <? eb_non_audit_queue_depth b then eb_non_audit_queue_depth b - 1
          else eb_non_audit_queue_depth b) b, true)
  end.

Definition queue_depth (b : RuntimeEventBus) : Z := Z.of_nat (length (eb_pending_events b)).

(** [now_ms]: what the clock shows if it is read. *)
Definition publish (b : RuntimeEventBus) (event : RuntimeEventEnvelope) (now_ms : Z)
    : RuntimeEventBus * RuntimeEventPublishResult :=
  let answer b accepted dropped_oldest :=
    (b, {| epr_accepted := accepted; epr_dropped_oldest := dropped_oldest;
           epr_dropped_count := eb_dropped_count b; epr_queue_depth := queue_depth b |}) in
  if negb (event_has_minimum_fields event) then answer b false false else
  let event := if ev_timestamp_ms event <=? 0 then set_timestamp now_ms event else event in
  if negb (ev_audit event) && (eb_max_non_audit_queue_depth b =? 0)
  then answer b false false else
  let '(b, dropped_oldest) :=
    if negb (ev_audit event)
       && (eb_max_non_audit_queue_depth b <=? eb_non_audit_queue_depth b)
    then
      let '(b, dropped_oldest) := evict_oldest_non_audit_locked b in
      (if dropped_oldest then with_dropped_count (u64 (eb_dropped_count b + 1)) b else b,
       dropped_oldest)
    else (b, false) in
  let event := set_sequence (eb_next_sequence b) event in
  let b := with_event_sequence (u64 (eb_next_sequence b + 1)) b in
  let b :=
    with_pending (eb_pending_events b ++ [event])
      (if negb (ev_audit event) then u64 (eb_non_audit_queue_depth b + 1)
       else eb_non_audit_queue_depth b) b in
  answer b true dropped_oldest.

Definition matches (subscription : RuntimeEventSubscription) (event : RuntimeEventEnvelope)
    : bool :=
  if es_audit_only subscription && negb (ev_audit event) then false else
  if negb (is_empty (es_event_name_filter subscription))
     && negb (bool_decide (es_event_name_filter subscription = ev_event_name event))
  then false else true.

(** The locked part of a round of the dispatch loop: the event taken and a copy of
    the subscriptions. *)
Definition take_front (b : RuntimeEventBus)
    : option (RuntimeEventBus * RuntimeEventEnvelope * list RuntimeEventSubscription) :=
  match eb_pending_events b with
  | [] => None
  | event :: rest =>
      Some (with_pending rest
              (if negb (ev_audit event) && (0 <? eb_non_audit_queue_depth b)
               then eb_non_audit_queue_depth b - 1 else eb_non_audit_queue_depth b) b,
            event, eb_subscriptions b)
  end.

(** ** Steps *)

(** The calls of the bus's interface, and the locked part of a dispatch round. *)
Inductive bus_op :=
| BusPublish (event : RuntimeEventEnvelope) (now_ms : Z)
| BusSubscribe (event_name_filter : string) (audit_only : bool)
| BusUnsubscribe (subscription_id : Z)
| BusTake.

Definition bus_call (b : RuntimeEventBus) (op : bus_op) : RuntimeEventBus :=
  match op with
  | BusPublish event now_ms => fst (publish b event now_ms)
  | BusSubscribe event_name_filter audit_only =>
      fst (subscribe b event_name_filter audit_only)
  | BusUnsubscribe subscription_id => fst (unsubscribe b subscription_id)
  | BusTake => match take_front b with Some (b, _, _) => b | None => b end
  end.

Section dispatch.
(** What the handler of a subscription does to the bus when it is given an
    event. *)
Variable handler : Z -> RuntimeEventEnvelope -> list bus_op.

(** The inner loop over the copied subscriptions. *)
Definition notify (b : RuntimeEventBus) (event : RuntimeEventEnvelope)
  (subscribers : list RuntimeEventSubscription) : RuntimeEventBus :=
fold_left
  (fun b subscriber =>
     if matches subscriber event
     then fold_left bus_call (handler (es_subscription_id subscriber) event) b
     else b) subscribers b.

(** The bus after the loop, the events dispatched, and their number. *)
Fixpoint dispatch_pending (b : RuntimeEventBus) (max_events : nat)
  : RuntimeEventBus * list RuntimeEventEnvelope :=
match max_events with
| O => (b, [])
| S max_events =>
    match take_front b with
    | None => (b, [])
    | Some (b, event, subscribers) =>
        let '(b, dispatched) :=
          dispatch_pending (notify b event subscribers) max_events in
        (b, event :: dispatched)
    end
end.
End dispatch.

(** ** Histories *)

(** The event as [publish] stores it. *)
Definition stored_event (b : RuntimeEventBus) (event : RuntimeEventEnvelope) (now_ms : Z)
    : RuntimeEventEnvelope :=
  set_sequence (eb_next_sequence b)
    (if ev_timestamp_ms event <=? 0 then set_timestamp now_ms event else event).

(** A bus with every event it accepted and every event taken from it so far. *)
Record BusHistory := {
  bh_bus : RuntimeEventBus;
  bh_published : list RuntimeEventEnvelope;
  bh_taken : list RuntimeEventEnvelope;
}.

Definition history_step (h : BusHistory) (op : bus_op) : BusHistory :=
  {| bh_bus := bus_call (bh_bus h) op;
     bh_published :=
       match op with
       | BusPublish event now_ms =>
           if epr_accepted (snd (publish (bh_bus h) event now_ms))
           then bh_published h ++ [stored_event (bh_bus h) event now_ms] else bh_published h
       | _ => bh_published h
       end;
     bh_taken :=
       match op with
       | BusTake =>
           match take_front (bh_bus h) with
           | Some (_, event, _) => bh_taken h ++ [event]
           | None => bh_taken h
           end
       | _ => bh_taken h
       end |}.

Definition history (max_depth : Z) (ops : list bus_op) : BusHistory :=
  fold_left history_step ops
    {| bh_bus := new_event_bus max_depth; bh_published := []; bh_taken := [] |}.

(** Any calls of any threads: every step of the bus is a step of a history, the
    dispatch loop with its handlers included. *)
Lemma history_calls h ops :
  bh_bus (fold_left history_step ops h) = fold_left bus_call ops (bh_bus h).
Proof. revert h. induction ops as [|op ops IH]; intros h; [done|]. apply IH. Qed.

(** ** Counting *)

Definition non_audit (events : list RuntimeEventEnvelope) : list RuntimeEventEnvelope :=
  List.filter (fun event => negb (ev_audit event)) events.
Definition audits (events : list RuntimeEventEnvelope) : list RuntimeEventEnvelope :=
  List.filter ev_audit events.

Definition non_audit_count (events : list RuntimeEventEnvelope) : Z :=
  Z.of_nat (length (non_audit events)).

Lemma non_audit_count_app l1 l2 :
  non_audit_count (l1 ++ l2) = non_audit_count l1 + non_audit_count l2.
Proof. unfold non_audit_count, non_audit. rewrite List.filter_app, length_app. lia. Qed.

Lemma non_audit_count_cons event l :
  non_audit_count (event :: l) = (if ev_audit event then 0 else 1) + non_audit_count l.
Proof. unfold non_audit_count. simpl. destruct (ev_audit event); simpl; lia. Qed.

Lemma non_audit_count_nil : non_audit_count [] = 0.
Proof. done. Qed.

Lemma audits_app l1 l2 : audits (l1 ++ l2) = audits l1 ++ audits l2.
Proof. apply List.filter_app. Qed.

(** The event evicted is the oldest non-audit one. *)
Lemma erase_oldest_spec pending rest :
  erase_oldest_non_audit pending = Some rest ->
  exists before old after, pending = before ++ old :: after /\ rest = before ++ after /\
    ev_audit old = false /\ non_audit before = [].
Proof.
  revert rest. induction pending as [|event pending IH]; intros rest; simpl; [done|].
  destruct (ev_audit event) eqn:Ha; simpl.
  - destruct (erase_oldest_non_audit pending) as [rest'|]; [|done]. intros [= <-].
    destruct (IH rest' eq_refl) as (before & old & after & -> & -> & Hold & Hb).
    exists (event :: before), old, after. split_and!; try done. simpl. by rewrite Ha.
  - intros [= <-]. by exists [], event, pending.
Qed.

Lemma erase_oldest_none pending :
  erase_oldest_non_audit pending = None -> non_audit pending = [].
Proof.
  induction pending as [|event pending IH]; simpl; [done|].
  destruct (ev_audit event); simpl; [|done].
  destruct (erase_oldest_non_audit pending); [done|]. intros _. by apply IH.
Qed.

(** ** Invariant *)

Record bus_inv (max_depth : Z) (h : BusHistory) : Prop := {
  bi_max : eb_max_non_audit_queue_depth (bh_bus h) = max_depth;
  bi_depth : eb_non_audit_queue_depth (bh_bus h) = non_audit_count (eb_pending_events (bh_bus h));
  bi_bound : non_audit_count (eb_pending_events (bh_bus h)) <= max_depth;
  bi_order : sublist (bh_taken h ++ eb_pending_events (bh_bus h)) (bh_published h);
  bi_audit : audits (bh_taken h ++ eb_pending_events (bh_bus h)) = audits (bh_published h);
  bi_dropped : eb_dropped_count (bh_bus h)
    = u64 (Z.of_nat (length (bh_published h))
           - Z.of_nat (length (bh_taken h ++ eb_pending_events (bh_bus h))));
}.

(** The room [publish] makes for an event, and what it gives up for it. *)
Inductive makes_room (max_depth : Z) (audit : bool) (b : RuntimeEventBus)
    : RuntimeEventBus -> bool -> Prop :=
| room_free :
    audit = true \/ eb_non_audit_queue_depth b < max_depth -> makes_room max_depth audit b b false
| room_evicted before old after :
    audit = false -> max_depth <= eb_non_audit_queue_depth b ->
    eb_pending_events b = before ++ old :: after -> ev_audit old = false ->
    non_audit before = [] ->
    makes_room max_depth audit b
      (with_dropped_count (u64 (eb_dropped_count b + 1))
         (with_pending (before ++ after) (eb_non_audit_queue_depth b - 1) b)) true.

Lemma u64_succ z : u64 (u64 z + 1) = u64 (z + 1).
Proof. unfold u64. by rewrite Z.add_mod_idemp_l. Qed.

Lemma publish_accepted max_depth h event now_ms :
  0 <= max_depth < 2 ^ 64 -> bus_inv max_depth h ->
  epr_accepted (snd (publish (bh_bus h) event now_ms)) = true ->
  exists b dropped, makes_room max_depth (ev_audit event) (bh_bus h) b dropped /\
    snd (publish (bh_bus h) event now_ms) =
      {| epr_accepted := true; epr_dropped_oldest := dropped;
         epr_dropped_count := eb_dropped_count b;
         epr_queue_depth := Z.of_nat (length (eb_pending_events b)) + 1 |} /\
    fst (publish (bh_bus h) event now_ms) =
      with_pending (eb_pending_events b ++ [stored_event (bh_bus h) event now_ms])
        (if ev_audit event then eb_non_audit_queue_depth b else eb_non_audit_queue_depth b + 1)
        (with_event_sequence (u64 (eb_next_sequence (bh_bus h) + 1)) b).
Proof.
  intros Hmax [Hm Hd Hb _ _ _]. unfold publish, stored_event.
  destruct (event_has_minimum_fields event); simpl; [|done].
  set (stamped := if ev_timestamp_ms event <=? 0 then set_timestamp now_ms event else event).
  assert (ev_audit stamped = ev_audit event) as Haudit
    by (unfold stamped; by destruct (_ <=? _)).
  rewrite Haudit, Hm.
  destruct (ev_audit event) eqn:Ha; simpl.
  { intros _. exists (bh_bus h), false. split; [apply room_free; by left|].
    unfold queue_depth. simpl. rewrite length_app. split; [f_equal; simpl; lia|done]. }
  destruct (Z.eqb_spec max_depth 0) as [|Hne]; [done|]. simpl.
  destruct (Z.leb_spec max_depth (eb_non_audit_queue_depth (bh_bus h))) as [Hfull|Hfree]; simpl.
  - unfold evict_oldest_non_audit_locked.
    destruct (erase_oldest_non_audit _) as [rest|] eqn:He.
    2: { apply erase_oldest_none in He. unfold non_audit_count in *.
         rewrite Hd in Hfull. rewrite He in Hfull. simpl in Hfull. lia. }
    apply erase_oldest_spec in He as (before & old & after & Hp & -> & Hold & Hbefore).
    intros _. assert ((0 <? eb_non_audit_queue_depth (bh_bus h)) = true) as -> by (apply Z.ltb_lt; lia).
    do 2 eexists. split; [by eapply room_evicted|]. simpl. unfold queue_depth. simpl.
    rewrite !length_app. simpl.
    rewrite (u64_id (_ - 1 + 1)) by (unfold in_u64; lia).
    split; [f_equal; lia|done].
  - intros _. exists (bh_bus h), false. split; [apply room_free; by right|].
    simpl. unfold queue_depth. simpl. rewrite length_app. simpl.
    assert (0 <= non_audit_count (eb_pending_events (bh_bus h))) by (unfold non_audit_count; lia).
    rewrite (u64_id (eb_non_audit_queue_depth _ + 1)) by (unfold in_u64; lia).
    split; [f_equal; lia|done].
Qed.

Lemma publish_refused h event now_ms :
  epr_accepted (snd (publish (bh_bus h) event now_ms)) = false ->
  fst (publish (bh_bus h) event now_ms) = bh_bus h.
Proof.
  unfold publish. destruct (event_has_minimum_fields event); simpl; [|done].
  destruct (negb _ && _); simpl; [done|].
  destruct (negb _ && _); [destruct (evict_oldest_non_audit_locked _)|]; done.
Qed.

(** The queue and the counters once room is made. *)
Lemma makes_room_inv max_depth h audit b dropped :
  0 <= max_depth -> bus_inv max_depth h -> makes_room max_depth audit (bh_bus h) b dropped ->
  let h' := {| bh_bus := b; bh_published := bh_published h; bh_taken := bh_taken h |} in
  bus_inv max_depth h' /\ eb_next_sequence b = eb_next_sequence (bh_bus h) /\
  (audit = false -> 0 < max_depth -> non_audit_count (eb_pending_events b) < max_depth).
Proof.
  intros Hmax Hinv Hroom. pose proof Hinv as [Hm Hd Hb Ho Ha Hdrop].
  destruct Hroom as [Hfree|before old after Haud Hfull Hp Hold Hbefore].
  { split; [by destruct h|]. split; [done|]. intros -> _. destruct Hfree; [done|lia]. }
  assert (non_audit_count (before ++ after) = non_audit_count (eb_pending_events (bh_bus h)) - 1)
    as Hcount.
  { rewrite Hp, !non_audit_count_app, non_audit_count_cons, Hold. lia. }
  split; [|split; [done|]].
  - split; simpl; [done|lia|lia| | |].
    + rewrite Hp in Ho. etrans; [|exact Ho]. apply sublist_app; [done|].
      apply sublist_app; [done|]. by apply sublist_cons.
    + rewrite Hp in Ha. rewrite <-Ha, !audits_app. f_equal. f_equal. simpl. by rewrite Hold.
    + rewrite Hdrop, u64_succ. rewrite Hp, !length_app. simpl. f_equal. lia.
  - intros _ _. simpl. rewrite Hcount. lia.
Qed.

Lemma publish_inv max_depth h event now_ms :
  0 <= max_depth < 2 ^ 64 -> bus_inv max_depth h ->
  bus_inv max_depth (history_step h (BusPublish event now_ms)).
Proof.
  intros Hmax Hinv. unfold history_step, bus_call.
  destruct (epr_accepted (snd (publish (bh_bus h) event now_ms))) eqn:Hacc.
  2: { rewrite publish_refused by done. by destruct h. }
  destruct (publish_accepted _ _ _ _ Hmax Hinv Hacc) as (b & dropped & Hroom & _ & ->).
  set (e := stored_event (bh_bus h) event now_ms).
  assert (ev_audit e = ev_audit event) as He
    by (unfold e, stored_event; simpl; by destruct (_ <=? _)).
  clearbody e.
  assert (0 < max_depth \/ ev_audit event = true) as Hpos.
  { revert Hacc. unfold publish. destruct Hinv as [-> _ _ _ _ _].
    destruct (event_has_minimum_fields event); simpl; [|done].
    set (stamped := if ev_timestamp_ms event <=? 0 then set_timestamp now_ms event else event).
    assert (ev_audit stamped = ev_audit event) as Haudit
      by (unfold stamped; by destruct (_ <=? _)).
    rewrite Haudit.
    destruct (ev_audit event); [by right|]. destruct (Z.eqb_spec max_depth 0); simpl; [done|].
    left. lia. }
  destruct (makes_room_inv _ _ _ _ _ (proj1 Hmax) Hinv Hroom) as ([Hm Hd Hb Ho Ha Hdrop] & _ & Hlt).
  simpl in *. split; simpl.
  - done.
  - rewrite non_audit_count_app, non_audit_count_cons, He, Hd,
      non_audit_count_nil. destruct (ev_audit event); lia.
  - rewrite non_audit_count_app, non_audit_count_cons, He, non_audit_count_nil.
    destruct (ev_audit event); [lia|]. destruct Hpos as [Hpos|]; [|done]. specialize (Hlt eq_refl Hpos). lia.
  - rewrite app_assoc. by apply sublist_app.
  - rewrite app_assoc, audits_app, Ha, <-audits_app. done.
  - rewrite Hdrop, !length_app. simpl. f_equal. lia.
Qed.

Lemma take_inv max_depth h :
  bus_inv max_depth h -> bus_inv max_depth (history_step h BusTake).
Proof.
  intros Hinv. pose proof Hinv as [Hm Hd Hb Ho Ha Hdrop].
  unfold history_step, bus_call, take_front.
  destruct (eb_pending_events (bh_bus h)) as [|event rest] eqn:Hp; [by destruct h|].
  rewrite non_audit_count_cons in Hd, Hb.
  assert (0 <= non_audit_count rest) by (unfold non_audit_count; lia).
  rewrite (cons_middle event (bh_taken h) rest), app_assoc in Ho, Ha, Hdrop.
  split; simpl; try done.
  - destruct (ev_audit event); simpl; [lia|].
    destruct (Z.ltb_spec 0 (eb_non_audit_queue_depth (bh_bus h))); lia.
  - destruct (ev_audit event); lia.
Qed.

Lemma history_inv max_depth ops :
  0 <= max_depth < 2 ^ 64 -> bus_inv max_depth (history max_depth ops).
Proof.
  intros Hmax. unfold history.
  assert (forall h, bus_inv max_depth h -> bus_inv max_depth (fold_left history_step ops h))
    as Hsteps.
  { induction ops as [|op ops IH]; intros h Hinv; [done|]. apply IH. destruct op.
    - by apply publish_inv.
    - destruct Hinv. by split.
    - destruct Hinv. by split.
    - by apply take_inv. }
  apply Hsteps. split; simpl; try done; unfold non_audit_count; simpl; lia.
Qed.

Lemma notify_calls handler b event subscribers :
  exists ops, notify handler b event subscribers = fold_left bus_call ops b.
Proof.
  unfold notify. revert b. induction subscribers as [|s subscribers IH]; intros b; simpl;
    [by exists []|].
  destruct (matches s event); [|by apply IH].
  destruct (IH (fold_left bus_call (handler (es_subscription_id s) event) b)) as [ops ->].
  exists (handler (es_subscription_id s) event ++ ops). by rewrite fold_left_app.
Qed.

Lemma taken_grows ops h :
  exists taken, bh_taken (fold_left history_step ops h) = bh_taken h ++ taken.
Proof.
  revert h. induction ops as [|op ops IH]; intros h; simpl; [exists []; by rewrite app_nil_r|].
  destruct (IH (history_step h op)) as [taken ->].
  destruct op; simpl; try by exists taken.
  destruct (take_front (bh_bus h)) as [[[b event] subscribers]|]; [|by exists taken].
  exists (event :: taken). by rewrite <-app_assoc.
Qed.

(** The dispatch loop is a history too: the calls of the handlers and one take per
    round, the events it reports among those taken, in order. *)
Lemma dispatch_is_history handler h max_events :
  exists ops,
    let result := dispatch_pending handler (bh_bus h) max_events in
    let h' := fold_left history_step ops h in
    bh_bus h' = fst result /\ (length (snd result) <= max_events)%nat /\
    exists taken, bh_taken h' = bh_taken h ++ taken /\ sublist (snd result) taken.
Proof.
  revert h. induction max_events as [|n IH]; intros h; simpl.
  { exists []. split_and!; [done|done|]. exists []. by rewrite app_nil_r. }
  destruct (take_front (bh_bus h)) as [[[b event] subscribers]|] eqn:Ht.
  2: { exists []. split_and!; [done|simpl; lia|]. exists []. by rewrite app_nil_r. }
  destruct (notify_calls handler b event subscribers) as [calls Hcalls].
  set (h1 := history_step h BusTake).
  assert (bh_bus h1 = b) as Hb1 by (simpl; by rewrite Ht).
  assert (bh_taken h1 = bh_taken h ++ [event]) as Ht1 by (simpl; by rewrite Ht).
  set (h2 := fold_left history_step calls h1).
  assert (bh_bus h2 = notify handler b event subscribers) as Hb2
    by (unfold h2; by rewrite history_calls, Hb1).
  destruct (taken_grows calls h1) as [taken2 Ht2]. fold h2 in Ht2.
  destruct (IH h2) as (ops & Hbus & Hlen & taken & Htaken & Hsub). rewrite Hb2 in *.
  destruct (dispatch_pending handler (notify handler b event subscribers) n) as [b' dispatched].
  exists (BusTake :: calls ++ ops). cbn [fold_left]. fold h1. rewrite fold_left_app. fold h2.
  simpl in *. split_and!; [done|lia|].
  exists (event :: taken2 ++ taken). split.
  - rewrite Htaken, Ht2, Ht1. by rewrite <-!app_assoc.
  - apply sublist_skip. by apply sublist_inserts_l.
Qed.

Lemma publish_accepts b event now_ms :
  epr_accepted (snd (publish b event now_ms)) = true <->
  ev_event_name event <> "" /\ (ev_audit event = true \/ eb_max_non_audit_queue_depth b <> 0).
Proof.
  unfold publish, event_has_minimum_fields. rewrite <-is_empty_false.
  destruct (is_empty (ev_event_name event)); simpl; [naive_solver|].
  set (stamped := if ev_timestamp_ms event <=? 0 then set_timestamp now_ms event else event).
  assert (ev_audit stamped = ev_audit event) as Haudit
    by (unfold stamped; by destruct (_ <=? _)).
  rewrite Haudit. destruct (ev_audit event); simpl; [split; auto|].
  destruct (Z.eqb_spec (eb_max_non_audit_queue_depth b) 0) as [->|Hne]; simpl;
    [split; [done|]; by intros [_ [?|?]]|].
  clearbody stamped.
  destruct (_ <=? _); [destruct (evict_oldest_non_audit_locked b)|]; simpl;
    (split; [intros _; split; [done|by right]|done]).
Qed.

(** ** Properties *)

(** The bus loses and reorders nothing it should not, under any interleaving of
    publishers, subscribers, dispatching threads and handlers that call the bus:
    the events taken so far and those still pending are, in order, a subsequence
    of the events accepted; every accepted audit event is among them; the drop
    counter is the number of the others (modulo 2{^64}); and the non-audit counter
    is exact and within the limit. *)
Theorem bus_conserves_events max_depth ops :
  0 <= max_depth < 2 ^ 64 ->
  let h := history max_depth ops in
  let kept := bh_taken h ++ eb_pending_events (bh_bus h) in
  sublist kept (bh_published h) /\
  audits kept = audits (bh_published h) /\
  eb_dropped_count (bh_bus h)
    = u64 (Z.of_nat (length (bh_published h)) - Z.of_nat (length kept)) /\
  eb_non_audit_queue_depth (bh_bus h) = non_audit_count (eb_pending_events (bh_bus h)) /\
  eb_non_audit_queue_depth (bh_bus h) <= max_depth.
Proof.
  intros Hmax h kept. destruct (history_inv max_depth ops Hmax) as [_ Hd Hb Ho Ha Hdrop].
  split_and!; try done. fold h in Hd, Hb. lia.
Qed.

(** An event is accepted exactly when it has a name and is an audit event or
    the limit is not zero; it goes to the end of the queue. Only a non-audit event
    that finds the limit reached costs another: the oldest pending non-audit event,
    never an audit one. A refused event leaves the bus as it was. *)
Theorem publish_evicts_oldest max_depth ops event now_ms :
  0 <= max_depth < 2 ^ 64 ->
  let b := bh_bus (history max_depth ops) in
  let '(b', result) := publish b event now_ms in
  let stored := stored_event b event now_ms in
  (epr_accepted result = true <->
     ev_event_name event <> "" /\ (ev_audit event = true \/ 0 < max_depth)) /\
  (epr_accepted result = false -> b' = b) /\
  (epr_accepted result = true ->
     (epr_dropped_oldest result = true <->
        ev_audit event = false /\ non_audit_count (eb_pending_events b) = max_depth) /\
     (epr_dropped_oldest result = false ->
        eb_pending_events b' = eb_pending_events b ++ [stored]) /\
     (epr_dropped_oldest result = true -> exists before old after,
        eb_pending_events b = before ++ old :: after /\ ev_audit old = false /\
        non_audit before = [] /\ eb_pending_events b' = before ++ after ++ [stored])).
Proof.
  intros Hmax b. pose proof (history_inv max_depth ops Hmax) as Hinv.
  pose proof (publish_accepted max_depth _ event now_ms Hmax Hinv) as Hacc.
  pose proof (publish_refused (history max_depth ops) event now_ms) as Href.
  pose proof (publish_accepts b event now_ms) as Hiff.
  pose proof (bi_max _ _ Hinv) as Hm. fold b in Hm, Hacc, Href. rewrite Hm in Hiff.
  destruct (publish b event now_ms) as [b' result]. simpl in *.
  destruct Hinv as [_ Hd Hb _ _ _]. fold b in Hd, Hb.
  split; [rewrite Hiff; intuition lia|]. split; [done|].
  intros H. destruct (Hacc H) as (b1 & dropped & Hroom & -> & ->). simpl.
  destruct Hroom as [Hfree|before old after Haud Hfull Hp Hold Hbefore].
  - split_and!; [|done|done]. split; [done|]. intros [Haud Heq]. destruct Hfree; [congruence|lia].
  - split_and!; [|done|].
    + split; [|done]. intros _. split; [done|lia].
    + intros _. exists before, old, after. split_and!; try done. simpl. by rewrite <-app_assoc.
Qed.

(** ** Witnesses *)

Definition sample_event (name : string) (audit : bool) : RuntimeEventEnvelope :=
  {| ev_sequence := 0; ev_category := RuntimeEventCategory.Transition;
     ev_severity := RuntimeEventSeverity.Info; ev_event_name := name; ev_detail := "";
     ev_context := {| ec_request_id := None; ec_session_id := None; ec_trace_id := None;
                      ec_turn_id := None; ec_checkpoint_id := None |};
     ev_error_code := None; ev_attributes := []; ev_audit := audit; ev_timestamp_ms := 5 |}.

Definition sample_ops : list bus_op :=
  [BusPublish (sample_event "a" false) 1; BusPublish (sample_event "audit" true) 1; BusTake;
   BusPublish (sample_event "b" false) 1; BusPublish (sample_event "c" false) 1].

Lemma bus_conserves_events_witness :
  eb_dropped_count (bh_bus (history 1 sample_ops)) = 1.
Proof.
  destruct (bus_conserves_events 1 sample_ops ltac:(lia)) as (_ & _ & H & _).
  rewrite H. reflexivity.
Defined.

Lemma publish_evicts_oldest_witness :
  epr_dropped_oldest (snd (publish (bh_bus (history 1 sample_ops)) (sample_event "d" false) 1))
  = true.
Proof.
  assert (epr_accepted (snd (publish (bh_bus (history 1 sample_ops)) (sample_event "d" false) 1))
    = true) as Hok by (vm_compute; reflexivity).
  assert (non_audit_count (eb_pending_events (bh_bus (history 1 sample_ops))) = 1) as Hfull
    by (vm_compute; reflexivity).
  pose proof (publish_evicts_oldest 1 sample_ops (sample_event "d" false) 1 ltac:(lia)) as H.
  cbv zeta in H. generalize dependent (bh_bus (history 1 sample_ops)). intros b Hok Hfull H.
  destruct (publish b (sample_event "d" false) 1) as [b' result].
  destruct H as (_ & _ & H). apply (proj1 (H Hok)). split; [reflexivity|exact Hfull].
Defined.
