(* ===== verification/FlatJson.v ===== *)
(** * Flat JSON objects

    The JSON helpers of tools/src/execution/WorkflowEngine.cpp, through which the
    output of one workflow step becomes an argument of another: an object whose
    members are kept as raw text. A cursor into a text is the rest of the text. *)

From stdpp Require Import sorting.
From S2P Require Import Prelude Text.

Definition quote : Ascii.ascii := "034"%char.
Definition backslash : Ascii.ascii := "092"%char.

Definition escape_char (character : Ascii.ascii) : string :=
  if bool_decide (character = backslash) then String backslash (String backslash "") else
  if bool_decide (character = quote) then String backslash (String quote "") else
  if bool_decide (character = "010"%char) then String backslash "n" else
  if bool_decide (character = "013"%char) then String backslash "r" else
  if bool_decide (character = "009"%char) then String backslash "t" else
  String character "".

Fixpoint escape_json (value : string) : string :=
  match value with
  | EmptyString => EmptyString
  | String character rest => escape_char character +:+ escape_json rest
  end.

(** [skip_ascii_ws] *)
Definition skip_ascii_ws (text : string) : string := skip_spaces text.

(** [text[cursor] == ch] *)
Definition starts_with (ch : Ascii.ascii) (text : string) : option string :=
  match text with
  | String c rest => if bool_decide (c = ch) then Some rest else None
  | EmptyString => None
  end.

(** The loop of [parse_json_string_token], after the opening quote. *)
Fixpoint parse_json_string_body (text : string) : option (string * string) :=
  match text with
  | EmptyString => None
  | String character rest =>
      if bool_decide (character = backslash) then
        match rest with
        | EmptyString => None
        | String escaped rest =>
            let? body := parse_json_string_body rest else None in
            Some (String escaped body.1, body.2)
        end
      else if bool_decide (character = quote) then Some (EmptyString, rest)
      else
        let? body := parse_json_string_body rest else None in
        Some (String character body.1, body.2)
  end.

Definition parse_json_string_token (text : string) : option (string * string) :=
  let? rest := starts_with quote text else None in parse_json_string_body rest.

(** The loop over a value that is not a string: what it passes, and the rest. The
    nesting counters are [int]s; a text of less than 2{^31} characters does not
    overflow them. *)
Fixpoint scan_value (nested_braces nested_brackets : Z) (text : string) : string * string :=
  match text with
  | EmptyString => (EmptyString, EmptyString)
  | String character rest =>
      let pass (braces brackets : Z) :=
        let scanned := scan_value braces brackets rest in
        (String character scanned.1, scanned.2) in
      if bool_decide (character = "{"%char) then pass (nested_braces + 1) nested_brackets else
      if bool_decide (character = "}"%char) then
        if (nested_braces =? 0) && (nested_brackets =? 0) then (EmptyString, text)
        else pass (nested_braces - 1) nested_brackets else
      if bool_decide (character = "["%char) then pass nested_braces (nested_brackets + 1) else
      if bool_decide (character = "]"%char) then pass nested_braces (nested_brackets - 1) else
      if bool_decide (character = ","%char) && (nested_braces =? 0) && (nested_brackets =? 0)
      then (EmptyString, text)
      else pass nested_braces nested_brackets
  end.

(** The last loop of [parse_json_value_token] gives the spaces at the end back. *)
Fixpoint trim_spaces (text : string) : string * string :=
  match text with
  | EmptyString => (EmptyString, EmptyString)
  | String ch rest =>
      let '(kept, spaces) := trim_spaces rest in
      if is_empty kept && is_space ch then (EmptyString, String ch spaces)
      else (String ch kept, spaces)
  end.

Definition quoted (value : string) : string :=
  String quote (escape_json value +:+ String quote "").

Definition parse_json_value_token (text : string) : option (string * string) :=
  let text := skip_ascii_ws text in
  if is_empty text then None else
  if bool_decide (is_Some (starts_with quote text)) then
    let? parsed := parse_json_string_token text else None in
    Some (quoted parsed.1, parsed.2)
  else
    let scanned := scan_value 0 0 text in
    let trimmed := trim_spaces scanned.1 in
    Some (trimmed.1, trimmed.2 +:+ scanned.2).

(** The loop of [parse_flat_json_object]. Each round passes a key, so the length of
    the text is fuel enough. *)
Fixpoint parse_members (fuel : nat) (text : string) (values : gmap string string)
    : option (gmap string string) :=
  match fuel with
  | O => None
  | S fuel =>
      let text := skip_ascii_ws text in
      if bool_decide (is_Some (starts_with "}" text)) then Some values else
      let? key := parse_json_string_token text else None in
      let? text := starts_with ":" (skip_ascii_ws key.2) else None in
      let? raw_value := parse_json_value_token text else None in
      let values := <[key.1 := raw_value.1]> values in
      let text := skip_ascii_ws raw_value.2 in
      match starts_with "," text with
      | Some text => parse_members fuel text values
      | None =>
          if bool_decide (is_Some (starts_with "}" text)) then Some values
          else parse_members fuel text values
      end
  end.

Definition parse_flat_json_object (text : string) : option (gmap string string) :=
  let? rest := starts_with "{" (skip_ascii_ws text) else None in
  parse_members (String.length rest) rest ∅.

Definition sorted_members (values : gmap string string) : list (string * string) :=
  in_key_order values.

Definition serialize_member (member : string * string) : string :=
  quoted member.1 +:+ String ":" member.2.

Fixpoint serialize_members (members : list (string * string)) : string :=
  match members with
  | [] => EmptyString
  | [member] => serialize_member member
  | member :: members => serialize_member member +:+ String "," (serialize_members members)
  end.

Definition serialize_flat_json_object (values : gmap string string) : string :=
  String "{" (serialize_members (sorted_members values) +:+ "}").

Definition extract_json_pointer_value (payload pointer : string) : option string :=
  let? key := starts_with "/" pointer else None in
  let? values := parse_flat_json_object payload else None in
  values !! key.

Definition inject_argument_value (raw_arguments key raw_value : string) : option string :=
  let? parsed := parse_flat_json_object raw_arguments else None in
  Some (serialize_flat_json_object (<[key := raw_value]> parsed)).

(** ** Strings *)

(** The characters that survive escaping and parsing: the parser drops the backslash
    of an escape and keeps the letter. *)
Definition plain_char (ch : Ascii.ascii) : bool :=
  negb (bool_decide (ch = "010"%char) || bool_decide (ch = "013"%char)
        || bool_decide (ch = "009"%char)).

Definition plain (s : string) : bool := all_chars plain_char s.

Lemma body_escape_char ch text :
  plain_char ch = true ->
  parse_json_string_body (escape_char ch +:+ text) =
  (let? body := parse_json_string_body text else None in Some (String ch body.1, body.2)).
Proof.
  unfold plain_char, escape_char. intros H.
  apply negb_true_iff, orb_false_iff in H as [[H1 H2]%orb_false_iff H3].
  destruct (bool_decide_reflect (ch = backslash)) as [->|Hb]; [done|].
  destruct (bool_decide_reflect (ch = quote)) as [->|Hq]; [done|].
  rewrite H1, H2, H3, string_cons_app, string_nil_app. cbn [parse_json_string_body].
  by rewrite !bool_decide_false by done.
Qed.

Lemma body_escape s tail :
  plain s = true -> parse_json_string_body (escape_json s +:+ String quote tail) = Some (s, tail).
Proof.
  induction s as [|ch s IH]; [done|]. unfold plain. simpl. intros [Hc Hs]%andb_true_iff.
  by rewrite string_app_assoc, body_escape_char, IH by done.
Qed.

Lemma string_token_quoted s tail :
  plain s = true -> parse_json_string_token (quoted s +:+ tail) = Some (s, tail).
Proof.
  intros Hs. unfold parse_json_string_token, quoted.
  rewrite string_cons_app, string_app_assoc, string_cons_app, string_nil_app.
  cbn [starts_with]. rewrite bool_decide_true by done. by apply body_escape.
Qed.

(** ** Values *)

(** A value that parses back: the text of a plain string, or any other text that is
    passed as one value and has no space around it. *)
Definition stable_value (raw : string) : bool :=
  match starts_with quote raw with
  | Some _ =>
      match parse_json_string_token raw with
      | Some (value, rest) => is_empty rest && plain value && bool_decide (raw = quoted value)
      | None => false
      end
  | None =>
      bool_decide (scan_value 0 0 (raw +:+ ",") = (raw, ","))
      && bool_decide (trim_spaces raw = (raw, "")) && bool_decide (skip_ascii_ws raw = raw)
  end.

Definition closes (ch : Ascii.ascii) : Prop := ch = ","%char \/ ch = "}"%char.

Lemma scan_value_closes raw braces brackets ch tail :
  closes ch -> scan_value braces brackets (raw +:+ ",") = (raw, ",") ->
  scan_value braces brackets (raw +:+ String ch tail) = (raw, String ch tail).
Proof.
  intros Hch. revert braces brackets. induction raw as [|c raw IH]; intros braces brackets.
  - rewrite !string_nil_app. cbn [scan_value].
    rewrite !(bool_decide_false (","%char = _)) by done.
    destruct (braces =? 0) eqn:Eb; [|done]. destruct (brackets =? 0) eqn:Ek; [|done].
    intros _. destruct Hch as [-> | ->]; reflexivity.
  - rewrite !string_cons_app. cbn [scan_value].
    repeat match goal with |- context [if ?b then _ else _] => destruct b end; try done;
      intros E; injection E as E1 E2;
      match goal with |- context [scan_value ?a ?b (raw +:+ String ch tail)] =>
        rewrite (IH a b) by (destruct (scan_value a b (raw +:+ ",")); simpl in *; by subst) end;
      done.
Qed.

Lemma skip_spaces_closed ch tail : closes ch -> skip_ascii_ws (String ch tail) = String ch tail.
Proof. by intros [-> | ->]. Qed.

Lemma skip_spaces_app raw ch tail :
  closes ch -> skip_ascii_ws raw = raw -> skip_ascii_ws (raw +:+ String ch tail)
                                         = raw +:+ String ch tail.
Proof.
  intros Hch. destruct raw as [|c raw]; [by intros _; apply skip_spaces_closed|].
  rewrite string_cons_app. unfold skip_ascii_ws. simpl.
  destruct (is_space c) eqn:E; [|done]. intros Hs. exfalso.
  assert (forall s, (String.length (skip_spaces s) <= String.length s)%nat) as Hlen.
  { induction s as [|d s IH]; simpl; [lia|]. destruct (is_space d); simpl; lia. }
  specialize (Hlen raw). rewrite Hs in Hlen. simpl in Hlen. lia.
Qed.

Lemma starts_with_app ch raw tail :
  raw <> "" -> starts_with ch (raw +:+ tail) = option_map (fun r => r +:+ tail) (starts_with ch raw).
Proof.
  destruct raw as [|c raw]; [done|]. intros _. rewrite string_cons_app. simpl. by case_match.
Qed.

Lemma value_token_stable raw ch tail :
  closes ch -> stable_value raw = true ->
  parse_json_value_token (raw +:+ String ch tail) = Some (raw, String ch tail).
Proof.
  intros Hch. unfold stable_value, parse_json_value_token.
  destruct (starts_with quote raw) as [r|] eqn:Eq.
  - destruct (parse_json_string_token raw) as [[value rest]|]; [|done].
    intros [[_ Hplain]%andb_true_iff Hraw%bool_decide_eq_true]%andb_true_iff. subst raw.
    assert (skip_ascii_ws (quoted value +:+ String ch tail) = quoted value +:+ String ch tail)
      as -> by done.
    rewrite starts_with_app, Eq by done. rewrite (proj2 (is_empty_false _)) by done.
    rewrite bool_decide_true by (simpl; eauto). by rewrite string_token_quoted.
  - intros [[Hscan%bool_decide_eq_true Htrim%bool_decide_eq_true]%andb_true_iff
      Hskip%bool_decide_eq_true]%andb_true_iff.
    rewrite skip_spaces_app by done.
    assert (starts_with quote (raw +:+ String ch tail) = None) as ->.
    { destruct raw as [|c raw]; [by destruct Hch as [-> | ->]|].
      by rewrite starts_with_app, Eq by done. }
    rewrite (proj2 (is_empty_false _)) by (by destruct raw).
    rewrite bool_decide_false by (by intros [? ?]).
    rewrite (scan_value_closes _ _ _ _ _ Hch Hscan). cbn [fst snd]. by rewrite Htrim.
Qed.

(** ** Members *)

Definition stable_member (member : string * string) : bool :=
  plain member.1 && stable_value member.2.

Definition insert_member (values : gmap string string) (member : string * string)
    : gmap string string := <[member.1 := member.2]> values.

Lemma serialize_member_text member tail :
  serialize_member member +:+ tail = quoted member.1 +:+ String ":" (member.2 +:+ tail).
Proof. unfold serialize_member. by rewrite string_app_assoc, string_cons_app. Qed.

(** One round of the loop. *)
Lemma parse_members_round fuel member ch tail values :
  closes ch -> stable_member member = true ->
  parse_members (S fuel) (serialize_member member +:+ String ch tail) values =
  if bool_decide (ch = "}"%char) then Some (insert_member values member)
  else parse_members fuel tail (insert_member values member).
Proof.
  intros Hch [Hkey Hval]%andb_true_iff. cbn [parse_members]. rewrite serialize_member_text.
  assert (forall t, skip_ascii_ws (quoted member.1 +:+ t) = quoted member.1 +:+ t) as -> by done.
  rewrite (starts_with_app "}") by done. cbn [quoted starts_with option_map].
  rewrite (bool_decide_false (quote = _)) by done.
  rewrite bool_decide_false by (by intros [? ?]).
  change (String quote (escape_json member.1 +:+ String quote "")) with (quoted member.1).
  rewrite string_token_quoted by done. cbn [fst snd].
  assert (skip_ascii_ws (String ":" (member.2 +:+ String ch tail))
          = String ":" (member.2 +:+ String ch tail)) as -> by done.
  cbn [starts_with]. rewrite (bool_decide_true (":"%char = _)) by done.
  rewrite (value_token_stable _ _ _ Hch Hval). cbn [fst snd].
  rewrite skip_spaces_closed by done. fold (insert_member values member).
  by destruct Hch as [-> | ->].
Qed.

Lemma parse_members_serialize members fuel values :
  Forall (fun m => stable_member m = true) members -> (length members < fuel)%nat ->
  parse_members fuel (serialize_members members +:+ "}") values =
  Some (foldl insert_member values members).
Proof.
  revert fuel values. induction members as [|m members IH]; intros fuel values Hall Hf.
  - by destruct fuel; [lia|].
  - apply Forall_cons in Hall as [Hm Hall]. destruct fuel as [|fuel]; [simpl in Hf; lia|].
    destruct members as [|m' members]; cbn [serialize_members].
    + rewrite parse_members_round by (done || by right). done.
    + rewrite string_app_assoc, string_cons_app.
      rewrite parse_members_round by (done || by left).
      rewrite bool_decide_false by done. apply IH; [done|simpl in *; lia].
Qed.

Lemma foldl_insert_member members values :
  NoDup (members.*1) -> foldl insert_member values members = list_to_map members ∪ values.
Proof.
  revert values. induction members as [|[k v] members IH]; intros values Hnd; simpl.
  - by rewrite (left_id_L ∅ (∪)).
  - apply NoDup_cons in Hnd as [Hk Hnd]. rewrite IH by done. unfold insert_member. simpl.
    rewrite <-insert_union_r by (by apply not_elem_of_list_to_map_1). by rewrite insert_union_l.
Qed.

Lemma sorted_members_perm values : sorted_members values ≡ₚ map_to_list values.
Proof. apply in_key_order_perm. Qed.

Lemma serialize_members_length members :
  (length members <= String.length (serialize_members members))%nat.
Proof.
  induction members as [|m members IH]; [simpl; lia|].
  destruct members as [|m' members]; cbn [serialize_members length] in *.
  - unfold serialize_member, quoted. rewrite string_cons_app. simpl. lia.
  - unfold serialize_member at 1, quoted. rewrite !string_cons_app. cbn [String.length].
    rewrite !string_length_app in *. cbn [String.length]. lia.
Qed.

Lemma serialize_parse values :
  map_Forall (fun k raw => stable_member (k, raw) = true) values ->
  parse_flat_json_object (serialize_flat_json_object values) = Some values.
Proof.
  intros Hall. unfold parse_flat_json_object, serialize_flat_json_object.
  change (skip_ascii_ws (String "{" ?t)) with (String "{" t). cbn [starts_with].
  rewrite bool_decide_true by done. pose proof (sorted_members_perm values) as Hperm.
  pose proof (NoDup_fst_map_to_list values) as Hnd. rewrite <-Hperm in Hnd.
  rewrite parse_members_serialize.
  - rewrite foldl_insert_member, (right_id_L ∅ (∪)) by done.
    by rewrite (list_to_map_proper _ _ Hnd Hperm), list_to_map_to_list.
  - rewrite Hperm. apply Forall_forall. intros [k raw] Hin%elem_of_map_to_list.
    by apply (Hall k raw).
  - pose proof (serialize_members_length (sorted_members values)).
    rewrite string_length_app. simpl. lia.
Qed.

(** ** What the parser yields *)

Lemma trim_spaces_parts text :
  let '(kept, spaces) := trim_spaces text in
  text = kept +:+ spaces /\ all_chars is_space spaces = true /\ trim_spaces kept = (kept, "").
Proof.
  induction text as [|ch text IH]; [done|]. simpl. destruct (trim_spaces text) as [kept spaces].
  destruct IH as (-> & Hs & Hk). destruct (is_empty kept && is_space ch) eqn:E.
  - apply andb_true_iff in E as [->%is_empty_true Hc]. simpl. by rewrite Hc.
  - simpl. rewrite Hk, E. done.
Qed.

Lemma space_not_special ch :
  is_space ch = true ->
  ch <> "{"%char /\ ch <> "}"%char /\ ch <> "["%char /\ ch <> "]"%char /\ ch <> ","%char.
Proof. by repeat split; intros ->. Qed.

(** Spaces do not change the nesting. *)
Lemma scan_value_spaces kept spaces braces brackets :
  all_chars is_space spaces = true ->
  scan_value braces brackets ((kept +:+ spaces) +:+ ",") = (kept +:+ spaces, ",") ->
  scan_value braces brackets (kept +:+ ",") = (kept, ",").
Proof.
  intros Hs. revert braces brackets. induction kept as [|c kept IH]; intros braces brackets.
  - rewrite !string_nil_app. revert braces brackets Hs.
    induction spaces as [|c spaces IH]; intros braces brackets; [done|].
    cbn [all_chars]. intros [Hc Hs]%andb_true_iff. destruct (space_not_special c Hc) as (? & ? & ? & ? & ?).
    rewrite string_cons_app. cbn [scan_value]. rewrite !(bool_decide_false (c = _)) by done.
    cbn [andb]. intros E. injection E as E1 E2. apply IH; [done|].
    by destruct (scan_value braces brackets (spaces +:+ ",")); simpl in *; subst.
  - rewrite !string_cons_app. cbn [scan_value].
    repeat match goal with |- context [if ?b then _ else _] => destruct b end; try done;
      intros E; injection E as E1 E2;
      match goal with |- context [scan_value ?a ?b (kept +:+ ",")] =>
        rewrite (IH a b) by (destruct (scan_value a b ((kept +:+ spaces) +:+ ","));
                             simpl in *; by subst) end;
      done.
Qed.

Lemma scan_value_stops text braces brackets :
  let '(raw, rest) := scan_value braces brackets text in
  text = raw +:+ rest /\
  (rest = "" \/ (exists ch tail, rest = String ch tail /\ closes ch) /\
                scan_value braces brackets (raw +:+ ",") = (raw, ",")).
Proof.
  revert braces brackets. induction text as [|c text IH]; intros braces brackets; [by split; [|left]|].
  cbn [scan_value].
  repeat match goal with |- context [if ?b then _ else _] => destruct b eqn:? end;
    match goal with
    | |- context [scan_value ?b ?k text] =>
        specialize (IH b k); destruct (scan_value b k text) as [raw rest];
        destruct IH as [-> Hr]; split; [done|]; destruct Hr as [->|[Hc Hr]]; [by left|right];
        split; [done|]; rewrite string_cons_app; cbn [scan_value];
        repeat match goal with H : ?b = _ |- context [if ?b then _ else _] => rewrite H end;
        cbn [fst snd]; by rewrite Hr
    | _ => split; [done|]; right; reflect_tests; destruct_and?; subst; split;
           [eexists _, text; split; [done|]; (by left) || (by right)|done]
    end.
Qed.

Lemma skip_spaces_head text ch rest : skip_ascii_ws text = String ch rest -> is_space ch = false.
Proof.
  unfold skip_ascii_ws. induction text as [|c text IH]; [done|]. simpl.
  destruct (is_space c) eqn:E; [done|]. intros [= <- _]. done.
Qed.

Lemma skip_spaces_all spaces rest :
  all_chars is_space spaces = true -> skip_ascii_ws (spaces +:+ rest) = skip_ascii_ws rest.
Proof.
  induction spaces as [|c spaces IH]; [done|]. cbn [all_chars]. intros [Hc Hs]%andb_true_iff.
  rewrite string_cons_app. unfold skip_ascii_ws. simpl. rewrite Hc. by apply IH.
Qed.

Definition string_or_stable (raw : string) : Prop :=
  (exists v, raw = quoted v) \/ stable_value raw = true.

(** A value is a string, or reads back, or is the last thing of the text. *)
Lemma value_token_parsed text raw rest :
  parse_json_value_token text = Some (raw, rest) ->
  string_or_stable raw \/ skip_ascii_ws rest = "".
Proof.
  unfold parse_json_value_token.
  destruct (skip_ascii_ws text) as [|c t] eqn:Et; [done|]. cbn [is_empty].
  rewrite (proj2 (is_empty_false _)) by done.
  case_bool_decide as Hq.
  - destruct (parse_json_string_token _) as [[v r]|]; [|done]. intros [= <- <-]. left; left. by exists v.
  - pose proof (scan_value_stops (String c t) 0 0) as Hstop.
    destruct (scan_value 0 0 (String c t)) as [scanned stop]. destruct Hstop as [Htext Hstop].
    pose proof (trim_spaces_parts scanned) as Htrim. cbn [fst snd].
    destruct (trim_spaces scanned) as [kept spaces]. destruct Htrim as (-> & Hspaces & Hkept).
    cbn [fst snd]. intros [= <- <-]. rewrite skip_spaces_all by done.
    destruct Hstop as [->|[_ Hscan]]; [by right|]. left; right. unfold stable_value.
    assert (starts_with quote kept = None /\ skip_ascii_ws kept = kept) as [Hno Hsk].
    { destruct kept as [|k kept]; [done|]. rewrite !string_cons_app in Htext.
      injection Htext as <- _. pose proof (skip_spaces_head _ _ _ Et) as Hc. simpl in *.
      unfold skip_ascii_ws. simpl. rewrite Hc. destruct (bool_decide _); [|done].
      exfalso. by apply Hq. }
    rewrite Hno, Hkept, Hsk, !bool_decide_true; try done.
    by apply (scan_value_spaces _ _ _ _ Hspaces).
Qed.

Lemma quoted_stable v : plain v = true -> stable_value (quoted v) = true.
Proof.
  intros Hv. unfold stable_value. cbn [quoted starts_with]. rewrite bool_decide_true by done.
  pose proof (string_token_quoted v "" Hv) as Ht. rewrite string_app_nil_r in Ht.
  change (String quote (escape_json v +:+ String quote "")) with (quoted v).
  rewrite Ht. cbn [is_empty]. by rewrite Hv, !bool_decide_true.
Qed.

Lemma parse_members_values fuel text values parsed :
  map_Forall (fun _ => string_or_stable) values ->
  parse_members fuel text values = Some parsed -> map_Forall (fun _ => string_or_stable) parsed.
Proof.
  revert text values. induction fuel as [|fuel IH]; intros text values Hv; [done|].
  cbn [parse_members]. case_bool_decide; [by intros [= <-]|].
  destruct (parse_json_string_token _) as [[key t1]|]; [|done]. cbn [fst snd].
  destruct (starts_with ":" _) as [t2|]; [|done].
  destruct (parse_json_value_token t2) as [[raw t3]|] eqn:Ev; [|done]. cbn [fst snd].
  destruct (value_token_parsed _ _ _ Ev) as [Hraw|Hend].
  - assert (map_Forall (fun _ => string_or_stable) (<[key := raw]> values)) as Hnew
      by (by apply map_Forall_insert_2).
    destruct (starts_with "," _); [by apply IH|].
    case_bool_decide; [by intros [= <-]|by apply IH].
  - rewrite Hend. cbn [starts_with]. rewrite bool_decide_false by (by intros [? ?]).
    by destruct fuel.
Qed.

Lemma parsed_values text values :
  parse_flat_json_object text = Some values -> map_Forall (fun _ => string_or_stable) values.
Proof.
  unfold parse_flat_json_object. destruct (starts_with "{" _) as [rest|]; [|done].
  apply parse_members_values. apply map_Forall_empty.
Qed.

(** ** Fuel *)

Lemma skip_length text : (String.length (skip_ascii_ws text) <= String.length text)%nat.
Proof.
  unfold skip_ascii_ws. induction text as [|ch text IH]; simpl; [lia|].
  destruct (is_space ch); simpl; lia.
Qed.

Lemma starts_with_length ch text rest :
  starts_with ch text = Some rest -> (String.length rest < String.length text)%nat.
Proof. destruct text as [|c text]; simpl; [done|]. case_match; intros E; simplify_eq; simpl; lia. Qed.

Lemma string_body_length text v rest :
  parse_json_string_body text = Some (v, rest) ->
  (String.length rest < String.length text)%nat.
Proof.
  revert v rest. induction text as [text IH] using (induction_ltof1 _ String.length).
  unfold ltof in IH. destruct text as [|c text]; [done|]. intros v rest. cbn [parse_json_string_body].
  destruct (bool_decide (c = backslash)).
  - destruct text as [|e text]; [done|].
    destruct (parse_json_string_body text) as [[v' r']|] eqn:E; [|done]. intros [= <- <-].
    apply IH in E; simpl in *; lia.
  - destruct (bool_decide (c = quote)); [intros [= <- <-]; simpl; lia|].
    destruct (parse_json_string_body text) as [[v' r']|] eqn:E; [|done]. intros [= <- <-].
    apply IH in E; simpl in *; lia.
Qed.

Lemma string_token_length text v rest :
  parse_json_string_token text = Some (v, rest) ->
  (String.length rest < String.length text)%nat.
Proof.
  unfold parse_json_string_token. destruct (starts_with quote text) as [t|] eqn:E; [|done].
  apply starts_with_length in E. intros H%string_body_length. lia.
Qed.

Lemma value_token_length text raw rest :
  parse_json_value_token text = Some (raw, rest) ->
  (String.length rest <= String.length text)%nat.
Proof.
  unfold parse_json_value_token. pose proof (skip_length text). cbv zeta.
  destruct (is_empty (skip_ascii_ws text)); [done|]. case_bool_decide.
  - destruct (parse_json_string_token _) as [[v r]|] eqn:E; [|done]. intros [= _ <-].
    apply string_token_length in E. simpl. lia.
  - pose proof (scan_value_stops (skip_ascii_ws text) 0 0) as Hs.
    destruct (scan_value 0 0 (skip_ascii_ws text)) as [scanned stop]. destruct Hs as [Htext _].
    pose proof (trim_spaces_parts scanned) as Ht. cbn [fst snd].
    destruct (trim_spaces scanned) as [kept spaces]. destruct Ht as [-> _]. cbn [fst snd].
    intros [= _ <-]. apply (f_equal String.length) in Htext.
    rewrite !string_length_app in *. lia.
Qed.

(** The loop ends before the fuel does: more of it changes nothing. *)
Lemma parse_members_fuel n m text values :
  (String.length text <= n)%nat -> (String.length text <= m)%nat ->
  parse_members n text values = parse_members m text values.
Proof.
  revert m text values. induction n as [|n IH]; intros m text values Hn Hm.
  { destruct text; [|simpl in Hn; lia]. by destruct m. }
  destruct m as [|m]; [by destruct text; [|simpl in Hm; lia]|]. cbn [parse_members].
  pose proof (skip_length text). case_bool_decide; [done|].
  destruct (parse_json_string_token _) as [[key t1]|] eqn:E1; [|done]. cbn [fst snd].
  apply string_token_length in E1. pose proof (skip_length t1).
  destruct (starts_with ":" _) as [t2|] eqn:E2; [|done]. apply starts_with_length in E2.
  destruct (parse_json_value_token t2) as [[raw t3]|] eqn:E3; [|done]. cbn [fst snd].
  apply value_token_length in E3. pose proof (skip_length t3).
  destruct (starts_with "," _) as [t4|] eqn:E4.
  - apply starts_with_length in E4. apply IH; lia.
  - case_bool_decide; [done|]. apply IH; lia.
Qed.

(** ** What comes through *)

(** The parser reads the escape of a line feed, a return or a tab as its letter. *)
Definition letter_of (ch : Ascii.ascii) : Ascii.ascii :=
  if bool_decide (ch = "010"%char) then "n"%char else
  if bool_decide (ch = "013"%char) then "r"%char else
  if bool_decide (ch = "009"%char) then "t"%char else ch.

Fixpoint letters (s : string) : string :=
  match s with
  | EmptyString => EmptyString
  | String ch s => String (letter_of ch) (letters s)
  end.

Lemma body_escape_letter ch text :
  parse_json_string_body (escape_char ch +:+ text) =
  (let? body := parse_json_string_body text else None in Some (String (letter_of ch) body.1, body.2)).
Proof.
  destruct (plain_char ch) eqn:Hp.
  - rewrite body_escape_char by done. unfold plain_char in Hp. unfold letter_of.
    apply negb_true_iff, orb_false_iff in Hp as [[-> ->]%orb_false_iff ->]. done.
  - unfold plain_char in Hp. apply negb_false_iff in Hp.
    repeat case_bool_decide; by subst.
Qed.

Lemma body_escape_letters s tail :
  parse_json_string_body (escape_json s +:+ String quote tail) = Some (letters s, tail).
Proof.
  induction s as [|ch s IH]; [done|]. cbn [escape_json].
  by rewrite string_app_assoc, body_escape_letter, IH.
Qed.

Lemma letters_plain s : letters s = s <-> plain s = true.
Proof.
  induction s as [|ch s IH]; [done|]. unfold plain. cbn [letters all_chars].
  rewrite andb_true_iff. fold (plain s). rewrite <-IH.
  assert (letter_of ch = ch <-> plain_char ch = true) as Hch.
  { unfold letter_of, plain_char. repeat case_bool_decide; subst; by split. }
  rewrite <-Hch. split; [by intros [= -> ->]|by intros [-> ->]].
Qed.

(** What becomes of a string that is escaped and parsed back: every line feed,
    return and tab has turned into the letter of its escape, because the parser
    drops the backslash and keeps the letter. A string comes back unchanged exactly
    when it has none of the three. *)
Theorem string_roundtrip_exact s tail :
  parse_json_string_token (quoted s +:+ tail) = Some (letters s, tail) /\
  (letters s = s <-> plain s = true).
Proof.
  split; [|apply letters_plain]. unfold parse_json_string_token, quoted.
  rewrite string_cons_app, string_app_assoc, string_cons_app, string_nil_app.
  cbn [starts_with]. rewrite bool_decide_true by done. apply body_escape_letters.
Qed.

(** No string of the object, key or value, has a line feed, a return or a tab. *)
Definition plain_raw (raw : string) : Prop := forall v, raw = quoted v -> plain v = true.

Definition plain_strings (values : gmap string string) : Prop :=
  map_Forall (fun k raw => plain k = true /\ plain_raw raw) values.

(** Reading every escape for what it stands for undoes [escape_json]. *)
Fixpoint unescape (s : string) : string :=
  match s with
  | String c (String e rest as tail) =>
      if bool_decide (c = backslash) then
        let meant := if bool_decide (e = "n"%char) then "010"%char else
                     if bool_decide (e = "r"%char) then "013"%char else
                     if bool_decide (e = "t"%char) then "009"%char else e in
        String meant (unescape rest)
      else String c (unescape tail)
  | _ => s
  end.

Lemma unescape_cons ch s :
  ch <> backslash -> unescape (String ch s) = String ch (unescape s).
Proof. intros Hch. destruct s as [|e s]; [done|]. cbn [unescape]. by rewrite bool_decide_false. Qed.

Lemma unescape_escape s : unescape (escape_json s) = s.
Proof.
  induction s as [|ch s IH]; [done|]. cbn [escape_json]. unfold escape_char.
  repeat case_bool_decide; subst; rewrite ?string_cons_app, ?string_nil_app; try (simpl; by rewrite IH).
  rewrite unescape_cons by done. by rewrite IH.
Qed.

Lemma string_app_last_inj s t c : s +:+ String c "" = t +:+ String c "" -> s = t.
Proof.
  revert t. induction s as [|d s IH]; intros [|e t]; rewrite ?string_nil_app, ?string_cons_app;
    intros E; [done|injection E as _ E; by destruct t|injection E as _ E; by destruct s|].
  injection E as -> E. f_equal. by apply IH.
Qed.

Lemma quoted_plain_raw w : plain w = true -> plain_raw (quoted w).
Proof.
  intros Hw v E. injection E as E%string_app_last_inj.
  by rewrite <-(unescape_escape v), <-E, unescape_escape.
Qed.

Lemma plain_stable raw : string_or_stable raw -> plain_raw raw -> stable_value raw = true.
Proof. intros [[v ->]|]; [intros Hp; by apply quoted_stable, Hp|done]. Qed.

(** An output mapped to an argument arrives: a value extracted from the payload of
    one step and injected into the arguments of another is found there under its key,
    and every other argument keeps its value, as long as the strings of the arguments
    and the value have no line feed, return or tab. *)
Theorem mapped_value_arrives payload pointer raw arguments values key :
  extract_json_pointer_value payload pointer = Some raw -> plain_raw raw ->
  parse_flat_json_object arguments = Some values -> plain_strings values ->
  plain key = true ->
  exists updated,
    inject_argument_value arguments key raw = Some updated /\
    forall k, extract_json_pointer_value updated (String "/" k)
              = if decide (k = key) then Some raw
                else extract_json_pointer_value arguments (String "/" k).
Proof.
  unfold extract_json_pointer_value, inject_argument_value. intros Hraw Hplain Hargs Hall Hkey.
  rewrite Hargs. eexists. split; [done|].
  assert (string_or_stable raw) as Hstable.
  { destruct (starts_with "/" pointer) as [name|]; [|done].
    destruct (parse_flat_json_object payload) as [source|] eqn:Es; [|done].
    by apply (parsed_values _ _ Es name). }
  rewrite serialize_parse.
  - intros k. cbn [starts_with]. rewrite bool_decide_true by done.
    destruct (decide (k = key)) as [->|Hne]; [apply lookup_insert_eq|by apply lookup_insert_ne].
  - apply map_Forall_insert_2.
    + unfold stable_member. simpl. by rewrite Hkey, (plain_stable raw).
    + intros k v Hkv. destruct (Hall k v Hkv) as [Hk Hv]. unfold stable_member. simpl.
      rewrite Hk. apply plain_stable; [by apply (parsed_values _ _ Hargs k)|done].
Qed.

(** ** Examples *)

Definition sample_arguments : string :=
  "{" +:+ quoted "path" +:+ ": " +:+ quoted "/tmp" +:+ " , "
  +:+ quoted "deep" +:+ ":[1,{}] }".

Lemma mapped_value_arrives_witness :
  exists updated,
    inject_argument_value sample_arguments "limit" "42" = Some updated /\
    extract_json_pointer_value updated "/limit" = Some "42" /\
    extract_json_pointer_value updated "/deep" = Some "[1,{}]".
Proof.
  destruct (mapped_value_arrives ("{" +:+ quoted "count" +:+ ": 42 }") "/count" "42"
    sample_arguments {["path" := quoted "/tmp"; "deep" := "[1,{}]"]} "limit")
    as (updated & E & H).
  - reflexivity.
  - intros v [=].
  - reflexivity.
  - apply map_Forall_insert_2; [split; [reflexivity|]|apply map_Forall_singleton; split; [reflexivity|]].
    + apply (quoted_plain_raw "/tmp"). reflexivity.
    + intros v [=].
  - reflexivity.
  - exists updated. split; [exact E|]. split; [exact (H "limit")|exact (H "deep")].
Defined.
