(* ===== verification/ToolContracts.v ===== *)
(** * Tool contracts

    contracts/include/tool/{ToolIR,ToolResult,ToolDescriptor,ToolRequest}.h, the
    compensation hint of tools/include/ToolInvocationEnvelope.h, and the guards of
    ToolRequestGuards.h, ToolDescriptor.h, ToolIR.h and ToolResultGuards.h: what a
    request for a tool, the entry of a tool in the registry, the call that is executed
    and its result must look like. Guards are written as in RecoveryContracts.v: one
    that would dereference an empty field gives [None]. *)

From S2P Require Import Prelude ErrorCodes CheckpointContracts Text RecoveryContracts.

Module ToolIROperation.
Inductive ToolIROperation := Unspecified | Invoke | DryRun | ValidateOnly | Other (n : Z).
#[global] Instance ToolIROperation_eq_dec : EqDecision ToolIROperation.
Proof. solve_decision. Defined.
End ToolIROperation.
Abbreviation ToolIROperation := ToolIROperation.ToolIROperation.

Module ToolIRPriority.
Inductive ToolIRPriority := Unspecified | Low | Normal | High | Urgent | Other (n : Z).
End ToolIRPriority.
Abbreviation ToolIRPriority := ToolIRPriority.ToolIRPriority.

Module ToolIRRoute.
Inductive ToolIRRoute := Unspecified | LocalTool | WorkflowEngine | MCPRemote | Other (n : Z).
#[global] Instance ToolIRRoute_eq_dec : EqDecision ToolIRRoute.
Proof. solve_decision. Defined.
End ToolIRRoute.
Abbreviation ToolIRRoute := ToolIRRoute.ToolIRRoute.

(** [static_cast<int>] of the three; the values no enumerator names are numbered as in
    RecoveryContracts.v. *)
Definition tool_ir_operation_value (operation : ToolIROperation) : Z :=
  match operation with
  | ToolIROperation.Unspecified => 0
  | ToolIROperation.Invoke => 1
  | ToolIROperation.DryRun => 2
  | ToolIROperation.ValidateOnly => 3
  | ToolIROperation.Other n => unnamed_value 4 n
  end.

Definition tool_ir_priority_value (priority : ToolIRPriority) : Z :=
  match priority with
  | ToolIRPriority.Unspecified => 0
  | ToolIRPriority.Low => 1
  | ToolIRPriority.Normal => 2
  | ToolIRPriority.High => 3
  | ToolIRPriority.Urgent => 4
  | ToolIRPriority.Other n => unnamed_value 5 n
  end.

Definition tool_ir_route_value (route : ToolIRRoute) : Z :=
  match route with
  | ToolIRRoute.Unspecified => 0
  | ToolIRRoute.LocalTool => 1
  | ToolIRRoute.WorkflowEngine => 2
  | ToolIRRoute.MCPRemote => 3
  | ToolIRRoute.Other n => unnamed_value 4 n
  end.

Record ToolIR := {
  ir_request_id : option string;
  ir_tool_call_id : option string;
  ir_tool_name : option string;
  ir_operation : option ToolIROperation;
  ir_normalized_arguments : option string;
  ir_route : option ToolIRRoute;
  ir_timeout_ms : option Z;
  ir_idempotency_key : option string;
  ir_priority : option ToolIRPriority;
  ir_goal_id : option string;
  ir_worker_task_id : option string;
}.

Record ToolResult := {
  tres_request_id : option string;
  tres_tool_call_id : option string;
  tres_tool_name : option string;
  tres_success : option bool;
  tres_payload : option string;
  tres_error : option ErrorInfo;
  tres_side_effects : option (list string);
  tres_completed_at : option Z;
  tres_duration_ms : option Z;
  tres_goal_id : option string;
  tres_worker_task_id : option string;
  tres_tags : option (list string);
}.

Record ToolCompensationHint := {
  tch_compensation_action : option string;
  tch_target_ref : option string;
  tch_reason_code : option string;
  tch_evidence_refs : option (list string);
}.

(** The defaulted [value_or(false)] of a result's success. *)
Definition succeeded (result : ToolResult) : bool := default false (tres_success result).

(** ** Data *)

Module ToolCategory.
Inductive ToolCategory :=
| Unspecified | Information | Action | Workflow | AgentDelegation | Diagnostic | Other (n : Z).
#[global] Instance ToolCategory_eq_dec : EqDecision ToolCategory.
Proof. solve_decision. Defined.
End ToolCategory.
Abbreviation ToolCategory := ToolCategory.ToolCategory.

Definition tool_category_value (category : ToolCategory) : Z :=
  match category with
  | ToolCategory.Unspecified => 0
  | ToolCategory.Information => 1
  | ToolCategory.Action => 2
  | ToolCategory.Workflow => 3
  | ToolCategory.AgentDelegation => 4
  | ToolCategory.Diagnostic => 5
  | ToolCategory.Other n => unnamed_value 6 n
  end.

Module ToolCapabilityTier.
Inductive ToolCapabilityTier := Unspecified | Stable | Preview | Internal | Other (n : Z).
#[global] Instance ToolCapabilityTier_eq_dec : EqDecision ToolCapabilityTier.
Proof. solve_decision. Defined.
End ToolCapabilityTier.
Abbreviation ToolCapabilityTier := ToolCapabilityTier.ToolCapabilityTier.

Definition tool_capability_tier_value (tier : ToolCapabilityTier) : Z :=
  match tier with
  | ToolCapabilityTier.Unspecified => 0
  | ToolCapabilityTier.Stable => 1
  | ToolCapabilityTier.Preview => 2
  | ToolCapabilityTier.Internal => 3
  | ToolCapabilityTier.Other n => unnamed_value 4 n
  end.

Record ToolDescriptor := {
  td_tool_name : option string;
  td_display_name : option string;
  td_category : option ToolCategory;
  td_capability_tier : option ToolCapabilityTier;
  td_is_read_only : option bool;
  td_supports_compensation : option bool;
  td_default_timeout_ms : option Z;
  td_input_schema_ref : option string;
  td_output_schema_ref : option string;
  td_required_scopes : option (list string);
  td_tags : option (list string);
  td_version : option string;
}.

#[export] Instance ToolDescriptor_eq_dec : EqDecision ToolDescriptor.
Proof. solve_decision. Defined.

Module ToolInvocationKind.
Inductive ToolInvocationKind :=
| Unspecified | InformationQuery | Action | Workflow | AgentDelegation | Diagnostic | Other (n : Z).
#[global] Instance ToolInvocationKind_eq_dec : EqDecision ToolInvocationKind.
Proof. solve_decision. Defined.
End ToolInvocationKind.
Abbreviation ToolInvocationKind := ToolInvocationKind.ToolInvocationKind.

Definition tool_invocation_kind_value (kind : ToolInvocationKind) : Z :=
  match kind with
  | ToolInvocationKind.Unspecified => 0
  | ToolInvocationKind.InformationQuery => 1
  | ToolInvocationKind.Action => 2
  | ToolInvocationKind.Workflow => 3
  | ToolInvocationKind.AgentDelegation => 4
  | ToolInvocationKind.Diagnostic => 5
  | ToolInvocationKind.Other n => unnamed_value 6 n
  end.

Record ToolRequest := {
  tr_request_id : option string;
  tr_tool_call_id : option string;
  tr_tool_name : option string;
  tr_invocation_kind : option ToolInvocationKind;
  tr_arguments_payload : option string;
  tr_created_at : option Z;
  tr_goal_id : option string;
  tr_worker_task_id : option string;
  tr_runtime_budget : option RuntimeBudget;
  tr_timeout_ms : option Z;
  tr_idempotency_key : option string;
  tr_tags : option (list string);
}.

(** ** Lists of names

    The two nested loops over the items of a list that is present: an item may not be
    empty, nor occur again. *)

Fixpoint validate_items (field : string) (items : list string) : GuardResult :=
  match items with
  | [] => guard_pass ""
  | item :: rest =>
      if is_empty item then guard_fail (field +:+ " must not contain empty strings") else
      if existsb (fun probe => bool_decide (item = probe)) rest
      then guard_fail (field +:+ " must not contain duplicate items") else
      validate_items field rest
  end.

Definition validate_list (field : string) (items : option (list string)) : GuardResult :=
  let? items := items else guard_pass "" in
  if bool_decide (items = [])
  then guard_fail (field +:+ " must contain at least one item when present") else
  validate_items field items.

(** [value.has_value() && *value == 0U] *)
Definition present_and_zero (value : option Z) : bool :=
  match value with Some v => v =? 0 | None => false end.

(** A required enumerator that is missing or [Unspecified]. *)
Definition unset {A} `{EqDecision A} (unspecified : A) (value : option A) : bool :=
  match value with Some v => bool_decide (v = unspecified) | None => true end.

(** ** Requests *)

Definition validate_tool_request_required_fields (request : ToolRequest) : GuardResult :=
  if negb (has_non_empty_value (tr_request_id request))
  then guard_fail "request_id is required and must be non-empty" else
  if negb (has_non_empty_value (tr_tool_call_id request))
  then guard_fail "tool_call_id is required and must be non-empty" else
  if negb (has_non_empty_value (tr_tool_name request))
  then guard_fail "tool_name is required and must be non-empty" else
  if unset ToolInvocationKind.Unspecified (tr_invocation_kind request)
  then guard_fail "invocation_kind is required and must not be Unspecified" else
  if negb (has_non_empty_value (tr_arguments_payload request))
  then guard_fail "arguments_payload is required and must be non-empty" else
  if missing_or_non_positive (tr_created_at request)
  then guard_fail "created_at is required and must be a positive timestamp" else
  guard_pass "all required tool request fields present".

Definition validate_tool_request_boundary (request : ToolRequest) : option GuardResult :=
  let required_result := validate_tool_request_required_fields request in
  if negb (gr_ok required_result) then Some required_result else
  let? kind := tr_invocation_kind request else None in
  let raw_kind := tool_invocation_kind_value kind in
  if (raw_kind <? tool_invocation_kind_value ToolInvocationKind.InformationQuery)
     || (tool_invocation_kind_value ToolInvocationKind.Diagnostic <? raw_kind)
  then Some (guard_fail "invocation_kind value is outside the known enum range") else
  let? tool_call_id := tr_tool_call_id request else None in
  let? request_id := tr_request_id request else None in
  if bool_decide (tool_call_id = request_id)
  then Some (guard_fail "tool_call_id must not equal request_id because call identity and request identity are layered separately") else
  Some (guard_pass "tool request boundary validation passed").

Definition validate_request_budget (budget : RuntimeBudget) : GuardResult :=
  if present_and_zero (rb_max_tokens budget)
  then guard_fail "runtime_budget.max_tokens must be positive when present" else
  if present_and_zero (rb_max_turns budget)
  then guard_fail "runtime_budget.max_turns must be positive when present" else
  if present_and_zero (rb_max_tool_calls budget)
  then guard_fail "runtime_budget.max_tool_calls must be positive when present" else
  if present_and_zero (rb_max_latency_ms budget)
  then guard_fail "runtime_budget.max_latency_ms must be positive when present" else
  if present_and_zero (rb_max_replan_count budget)
  then guard_fail "runtime_budget.max_replan_count must be positive when present" else
  guard_pass "".

Definition validate_tool_request_field_rules (request : ToolRequest) : option GuardResult :=
  let? boundary_result := validate_tool_request_boundary request else None in
  if negb (gr_ok boundary_result) then Some boundary_result else
  if present_but_empty (tr_goal_id request)
  then Some (guard_fail "goal_id must be non-empty when present") else
  if present_but_empty (tr_worker_task_id request)
  then Some (guard_fail "worker_task_id must be non-empty when present") else
  if present_but_empty (tr_idempotency_key request)
  then Some (guard_fail "idempotency_key must be non-empty when present") else
  if present_and_zero (tr_timeout_ms request)
  then Some (guard_fail "timeout_ms must be positive when present") else
  let budget_result :=
    validate_request_budget (default empty_runtime_budget (tr_runtime_budget request)) in
  if negb (gr_ok budget_result) then Some budget_result else
  let tags_result := validate_list "tags" (tr_tags request) in
  if negb (gr_ok tags_result) then Some tags_result else
  Some (guard_pass "tool request field rules validation passed").

(** ** Descriptors *)

Definition validate_tool_descriptor_required_fields (descriptor : ToolDescriptor) : GuardResult :=
  if negb (has_non_empty_value (td_tool_name descriptor))
  then guard_fail "tool_name is required and must be non-empty" else
  if unset ToolCategory.Unspecified (td_category descriptor)
  then guard_fail "category is required and must not be Unspecified" else
  guard_pass "all required tool descriptor fields present".

Definition tier_outside (tier : option ToolCapabilityTier) : bool :=
  match tier with
  | Some tier =>
      (tool_capability_tier_value tier <? tool_capability_tier_value ToolCapabilityTier.Stable)
      || (tool_capability_tier_value ToolCapabilityTier.Internal <? tool_capability_tier_value tier)
  | None => false
  end.

Definition validate_tool_descriptor_field_rules (descriptor : ToolDescriptor)
    : option GuardResult :=
  let required_result := validate_tool_descriptor_required_fields descriptor in
  if negb (gr_ok required_result) then Some required_result else
  let? category := td_category descriptor else None in
  let raw_category := tool_category_value category in
  if (raw_category <? tool_category_value ToolCategory.Information)
     || (tool_category_value ToolCategory.Diagnostic <? raw_category)
  then Some (guard_fail "category value is outside the known enum range") else
  if tier_outside (td_capability_tier descriptor)
  then Some (guard_fail "capability_tier value is outside the known enum range") else
  if present_but_empty (td_display_name descriptor)
  then Some (guard_fail "display_name must be non-empty when present") else
  if present_and_zero (td_default_timeout_ms descriptor)
  then Some (guard_fail "default_timeout_ms must be positive when present") else
  if present_but_empty (td_input_schema_ref descriptor)
  then Some (guard_fail "input_schema_ref must be non-empty when present") else
  if present_but_empty (td_output_schema_ref descriptor)
  then Some (guard_fail "output_schema_ref must be non-empty when present") else
  if present_but_empty (td_version descriptor)
  then Some (guard_fail "version must be non-empty when present") else
  let scopes_result := validate_list "required_scopes" (td_required_scopes descriptor) in
  if negb (gr_ok scopes_result) then Some scopes_result else
  let tags_result := validate_list "tags" (td_tags descriptor) in
  if negb (gr_ok tags_result) then Some tags_result else
  Some (guard_pass "tool descriptor field rules validation passed").

(** ** Calls *)

Definition validate_tool_ir_required_fields (tool_ir : ToolIR) : GuardResult :=
  if negb (has_non_empty_value (ir_request_id tool_ir))
  then guard_fail "request_id is required and must be non-empty" else
  if negb (has_non_empty_value (ir_tool_call_id tool_ir))
  then guard_fail "tool_call_id is required and must be non-empty" else
  if negb (has_non_empty_value (ir_tool_name tool_ir))
  then guard_fail "tool_name is required and must be non-empty" else
  if unset ToolIROperation.Unspecified (ir_operation tool_ir)
  then guard_fail "operation is required and must not be Unspecified" else
  if negb (has_non_empty_value (ir_normalized_arguments tool_ir))
  then guard_fail "normalized_arguments is required and must be non-empty" else
  if unset ToolIRRoute.Unspecified (ir_route tool_ir)
  then guard_fail "route is required and must not be Unspecified" else
  guard_pass "all required tool IR fields present".

Definition priority_outside (priority : option ToolIRPriority) : bool :=
  match priority with
  | Some priority =>
      (tool_ir_priority_value priority <? tool_ir_priority_value ToolIRPriority.Low)
      || (tool_ir_priority_value ToolIRPriority.Urgent <? tool_ir_priority_value priority)
  | None => false
  end.

Definition validate_tool_ir_field_rules (tool_ir : ToolIR) : option GuardResult :=
  let required_result := validate_tool_ir_required_fields tool_ir in
  if negb (gr_ok required_result) then Some required_result else
  let? operation := ir_operation tool_ir else None in
  let raw_operation := tool_ir_operation_value operation in
  if (raw_operation <? tool_ir_operation_value ToolIROperation.Invoke)
     || (tool_ir_operation_value ToolIROperation.ValidateOnly <? raw_operation)
  then Some (guard_fail "operation value is outside the known enum range") else
  let? route := ir_route tool_ir else None in
  let raw_route := tool_ir_route_value route in
  if (raw_route <? tool_ir_route_value ToolIRRoute.LocalTool)
     || (tool_ir_route_value ToolIRRoute.MCPRemote <? raw_route)
  then Some (guard_fail "route value is outside the known enum range") else
  if priority_outside (ir_priority tool_ir)
  then Some (guard_fail "priority value is outside the known enum range") else
  let? tool_call_id := ir_tool_call_id tool_ir else None in
  let? request_id := ir_request_id tool_ir else None in
  if bool_decide (tool_call_id = request_id)
  then Some (guard_fail "tool_call_id must not equal request_id because call identity and request identity are layered separately") else
  if present_and_zero (ir_timeout_ms tool_ir)
  then Some (guard_fail "timeout_ms must be positive when present") else
  if present_but_empty (ir_idempotency_key tool_ir)
  then Some (guard_fail "idempotency_key must be non-empty when present") else
  if present_but_empty (ir_goal_id tool_ir)
  then Some (guard_fail "goal_id must be non-empty when present") else
  if present_but_empty (ir_worker_task_id tool_ir)
  then Some (guard_fail "worker_task_id must be non-empty when present") else
  Some (guard_pass "tool IR field rules validation passed").

(** ** Results *)

Definition validate_tool_result_required_fields (result : ToolResult) : GuardResult :=
  if negb (has_non_empty_value (tres_request_id result))
  then guard_fail "request_id is required and must be non-empty" else
  if negb (has_non_empty_value (tres_tool_call_id result))
  then guard_fail "tool_call_id is required and must be non-empty" else
  if negb (has_non_empty_value (tres_tool_name result))
  then guard_fail "tool_name is required and must be non-empty" else
  if bool_decide (tres_success result = None) then guard_fail "success is required" else
  if missing_or_non_positive (tres_completed_at result)
  then guard_fail "completed_at is required and must be a positive timestamp" else
  guard_pass "all required tool result fields present".

(** The success flag against the payload and the error. *)
Definition validate_outcome (result : ToolResult) : option GuardResult :=
  let? success := tres_success result else None in
  if success && negb (has_non_empty_value (tres_payload result))
  then Some (guard_fail "payload is required and must be non-empty when success is true") else
  if success && negb (bool_decide (tres_error result = None))
  then Some (guard_fail "error must not be present when success is true") else
  if negb success && bool_decide (tres_error result = None)
  then Some (guard_fail "error must be present when success is false") else
  Some (guard_pass "tool result boundary validation passed").

Definition validate_tool_result_boundary (result : ToolResult) : option GuardResult :=
  let required_result := validate_tool_result_required_fields result in
  if negb (gr_ok required_result) then Some required_result else
  let? tool_call_id := tres_tool_call_id result else None in
  let? request_id := tres_request_id result else None in
  if bool_decide (tool_call_id = request_id)
  then Some (guard_fail "tool_call_id must not equal request_id because execution identity and request identity are layered separately") else
  if present_and_non_positive (tres_duration_ms result)
  then Some (guard_fail "duration_ms must be positive when present") else
  validate_outcome result.

Definition validate_tool_result_field_rules (result : ToolResult) : option GuardResult :=
  let? boundary_result := validate_tool_result_boundary result else None in
  if negb (gr_ok boundary_result) then Some boundary_result else
  if present_but_empty (tres_payload result)
  then Some (guard_fail "payload must be non-empty when present") else
  if present_but_empty (tres_goal_id result)
  then Some (guard_fail "goal_id must be non-empty when present") else
  if present_but_empty (tres_worker_task_id result)
  then Some (guard_fail "worker_task_id must be non-empty when present") else
  let side_effects_result := validate_list "side_effects" (tres_side_effects result) in
  if negb (gr_ok side_effects_result) then Some side_effects_result else
  let tags_result := validate_list "tags" (tres_tags result) in
  if negb (gr_ok tags_result) then Some tags_result else
  Some (guard_pass "tool result field rules validation passed").

(** ** What the guards admit *)

Definition named_items (items : option (list string)) : Prop :=
  forall l, items = Some l -> l <> [] /\ NoDup l /\ ("" ∉ l).

Lemma validate_items_ok field l :
  gr_ok (validate_items field l) = true <-> NoDup l /\ ("" ∉ l).
Proof.
  induction l as [|item rest IH]; simpl.
  { split; [|done]. intros _. split; [constructor|by intros ?%elem_of_nil]. }
  rewrite !guard_test, IH, NoDup_cons, not_elem_of_cons, is_empty_false.
  assert (existsb (fun probe => bool_decide (item = probe)) rest = false <-> item ∉ rest) as ->;
    [|split; [intros (H1 & H2 & H3 & H4)|intros ((H1 & H2) & H3 & H4)]; by split_and!].
  rewrite <-not_true_iff_false, existsb_exists, list_elem_of_In.
  setoid_rewrite bool_decide_eq_true. naive_solver.
Qed.

Lemma validate_list_ok field items :
  gr_ok (validate_list field items) = true <-> named_items items.
Proof.
  unfold named_items, validate_list. destruct items as [l|]; [|by split; [intros _ ? [=]|]].
  rewrite guard_test, bool_decide_eq_false, validate_items_ok.
  split; [by intros (? & ? & ?) ? [= <-]|intros H; by apply H].
Qed.

(** A value is named when an enumerator other than [Unspecified] names it. *)
Ltac named_enum :=
  let x := fresh "x" in
  intros x; destruct x; simpl;
  try (split; [done|by intros [[] _]]);
  try (split; [intros _; by split|done]);
  rewrite orb_false_iff, !Z.ltb_ge; unfold unnamed_value;
  (split; [case_match; reflect_tests; lia|let H := fresh in intros [_ H]; by destruct (H _ eq_refl)]).

Lemma category_in_range x :
  (tool_category_value x <? tool_category_value ToolCategory.Information)
  || (tool_category_value ToolCategory.Diagnostic <? tool_category_value x) = false
  <-> x <> ToolCategory.Unspecified /\ forall n, x <> ToolCategory.Other n.
Proof. revert x. named_enum. Qed.

Lemma kind_in_range x :
  (tool_invocation_kind_value x <? tool_invocation_kind_value ToolInvocationKind.InformationQuery)
  || (tool_invocation_kind_value ToolInvocationKind.Diagnostic <? tool_invocation_kind_value x)
     = false
  <-> x <> ToolInvocationKind.Unspecified /\ forall n, x <> ToolInvocationKind.Other n.
Proof. revert x. named_enum. Qed.

Lemma operation_in_range x :
  (tool_ir_operation_value x <? tool_ir_operation_value ToolIROperation.Invoke)
  || (tool_ir_operation_value ToolIROperation.ValidateOnly <? tool_ir_operation_value x) = false
  <-> x <> ToolIROperation.Unspecified /\ forall n, x <> ToolIROperation.Other n.
Proof. revert x. named_enum. Qed.

Lemma route_in_range x :
  (tool_ir_route_value x <? tool_ir_route_value ToolIRRoute.LocalTool)
  || (tool_ir_route_value ToolIRRoute.MCPRemote <? tool_ir_route_value x) = false
  <-> x <> ToolIRRoute.Unspecified /\ forall n, x <> ToolIRRoute.Other n.
Proof. revert x. named_enum. Qed.

Definition non_empty (value : option string) : Prop := exists s, value = Some s /\ s <> "".

Record request_ok (r : ToolRequest) : Prop := {
  rok_ids : non_empty (tr_request_id r) /\ non_empty (tr_tool_call_id r) /\
            tr_tool_call_id r <> tr_request_id r;
  rok_name : non_empty (tr_tool_name r);
  rok_kind : exists kind, tr_invocation_kind r = Some kind /\
               kind <> ToolInvocationKind.Unspecified /\
               forall n, kind <> ToolInvocationKind.Other n;
  rok_arguments : non_empty (tr_arguments_payload r);
  rok_created : exists t, tr_created_at r = Some t /\ 0 < t;
  rok_optional : tr_goal_id r <> Some "" /\ tr_worker_task_id r <> Some "" /\
                 tr_idempotency_key r <> Some "" /\ tr_timeout_ms r <> Some 0;
  rok_budget : gr_ok (validate_request_budget
                        (default empty_runtime_budget (tr_runtime_budget r))) = true;
  rok_tags : named_items (tr_tags r);
}.

Record descriptor_ok (d : ToolDescriptor) : Prop := {
  dok_name : non_empty (td_tool_name d);
  dok_category : exists category, td_category d = Some category /\
                   category <> ToolCategory.Unspecified /\
                   forall n, category <> ToolCategory.Other n;
  dok_tier : tier_outside (td_capability_tier d) = false;
  dok_optional : td_display_name d <> Some "" /\ td_default_timeout_ms d <> Some 0 /\
                 td_input_schema_ref d <> Some "" /\ td_output_schema_ref d <> Some "" /\
                 td_version d <> Some "";
  dok_scopes : named_items (td_required_scopes d);
  dok_tags : named_items (td_tags d);
}.

Record ir_ok (ir : ToolIR) : Prop := {
  iok_ids : non_empty (ir_request_id ir) /\ non_empty (ir_tool_call_id ir) /\
            ir_tool_call_id ir <> ir_request_id ir;
  iok_name : non_empty (ir_tool_name ir);
  iok_operation : exists operation, ir_operation ir = Some operation /\
                    operation <> ToolIROperation.Unspecified /\
                    forall n, operation <> ToolIROperation.Other n;
  iok_arguments : non_empty (ir_normalized_arguments ir);
  iok_route : exists route, ir_route ir = Some route /\
                route <> ToolIRRoute.Unspecified /\ forall n, route <> ToolIRRoute.Other n;
  iok_priority : priority_outside (ir_priority ir) = false;
  iok_optional : ir_timeout_ms ir <> Some 0 /\ ir_idempotency_key ir <> Some "" /\
                 ir_goal_id ir <> Some "" /\ ir_worker_task_id ir <> Some "";
}.

Record result_ok (r : ToolResult) : Prop := {
  sok_ids : non_empty (tres_request_id r) /\ non_empty (tres_tool_call_id r) /\
            tres_tool_call_id r <> tres_request_id r;
  sok_name : non_empty (tres_tool_name r);
  sok_completed : exists t, tres_completed_at r = Some t /\ 0 < t;
  sok_duration : forall t, tres_duration_ms r = Some t -> 0 < t;
  sok_outcome : tres_success r = Some true /\ non_empty (tres_payload r) /\ tres_error r = None \/
                tres_success r = Some false /\ is_Some (tres_error r) /\ tres_payload r <> Some "";
  sok_optional : tres_goal_id r <> Some "" /\ tres_worker_task_id r <> Some "";
  sok_side_effects : named_items (tres_side_effects r);
  sok_tags : named_items (tres_tags r);
}.

Lemma missing_name value : negb (has_non_empty_value value) = false <-> non_empty value.
Proof. by rewrite negb_false_iff, has_non_empty_value_true. Qed.

Lemma present_and_zero_false value : present_and_zero value = false <-> value <> Some 0.
Proof. destruct value; simpl; reflect_tests; naive_solver. Qed.

Lemma unset_false {A} `{EqDecision A} (u : A) value :
  unset u value = false <-> exists x, value = Some x /\ x <> u.
Proof. destruct value; simpl; reflect_tests; naive_solver. Qed.

Lemma missing_or_non_positive_false value :
  missing_or_non_positive value = false <-> exists t, value = Some t /\ 0 < t.
Proof. destruct value; simpl; reflect_tests; naive_solver. Qed.

Lemma present_and_non_positive_false value :
  present_and_non_positive value = false <-> forall t, value = Some t -> 0 < t.
Proof. destruct value; simpl; reflect_tests; naive_solver. Qed.

Lemma admitted_ids call_id request_id reason g :
  admitted (let? a := call_id else None in let? b := request_id else None in
            if bool_decide (a = b :> string) then Some (guard_fail reason) else g) <->
  is_Some call_id /\ is_Some request_id /\ call_id <> request_id /\ admitted g.
Proof.
  destruct call_id as [a|]; [|split; [by intros (? & [=] & _)|by intros ([? [=]] & _)]].
  destruct request_id as [b|]; [|split; [by intros (? & [=] & _)|by intros (_ & [? [=]] & _)]].
  rewrite admitted_test, bool_decide_eq_false. split; [intros [H Hg]|intros (_ & _ & H & Hg)].
  - split_and!; [by eexists|by eexists|congruence|done].
  - split; [congruence|done].
Qed.

(** Rewrite a chain of tests into what it asks for. *)
Create Rewrite HintDb guards.
#[export] Hint Rewrite guard_test @guard_layer guard_passed admitted_test @admitted_layer
  admitted_ids admitted_inner admitted_some missing_name present_and_zero_false @unset_false
  missing_or_non_positive_false present_and_non_positive_false
  present_but_empty_false validate_list_ok bool_decide_eq_false : guards.

Lemma non_empty_some value : non_empty value -> is_Some value.
Proof. by intros (s & -> & _). Qed.

#[local] Hint Resolve non_empty_some : core.

Lemma request_guard r :
  admitted (validate_tool_request_field_rules r) <-> request_ok r.
Proof.
  unfold validate_tool_request_field_rules, validate_tool_request_boundary,
    validate_tool_request_required_fields.
  autorewrite with guards. cbv zeta. rewrite admitted_deref. setoid_rewrite admitted_test.
  setoid_rewrite kind_in_range. setoid_rewrite admitted_ids. setoid_rewrite admitted_some.
  setoid_rewrite guard_passed. split.
  - intros (((? & ? & ? & _ & ? & ? & _) & kind & ? & [? ?] & _ & _ & ? & _) & ? & ? & ? & ? & ? & ? & _).
    split; eauto.
  - intros [(? & ? & ?) ? (kind & ? & ? & ?) ? ? (? & ? & ? & ?) ? ?].
    split_and!; eauto. exists kind. split_and!; eauto.
Qed.

Lemma descriptor_guard d :
  admitted (validate_tool_descriptor_field_rules d) <-> descriptor_ok d.
Proof.
  unfold validate_tool_descriptor_field_rules, validate_tool_descriptor_required_fields.
  autorewrite with guards. cbv zeta. rewrite admitted_deref. setoid_rewrite admitted_test.
  setoid_rewrite category_in_range. autorewrite with guards. split.
  - intros ((? & _ & _) & category & ? & [? ?] & Hrest). autorewrite with guards in Hrest.
    destruct_and! Hrest. split; eauto 10.
  - intros [? (category & ? & ? & ?) ? (? & ? & ? & ? & ?) ? ?].
    split_and!; eauto. exists category. autorewrite with guards. by split_and!.
Qed.

Lemma ir_guard ir : admitted (validate_tool_ir_field_rules ir) <-> ir_ok ir.
Proof.
  unfold validate_tool_ir_field_rules, validate_tool_ir_required_fields.
  autorewrite with guards. cbv zeta. rewrite admitted_deref. setoid_rewrite admitted_test.
  setoid_rewrite operation_in_range. split.
  - intros ((? & ? & ? & _ & ? & _ & _) & operation & ? & [? ?] & Hrest).
    rewrite admitted_deref in Hrest. destruct Hrest as (route & ? & Hrest).
    rewrite admitted_test, route_in_range in Hrest. autorewrite with guards in Hrest.
    destruct_and! Hrest. split; eauto 10.
  - intros [(? & ? & ?) ? (operation & ? & ? & ?) ? (route & ? & ? & ?) ? (? & ? & ? & ?)].
    split_and!; eauto. exists operation. split_and!; eauto. rewrite admitted_deref.
    exists route. rewrite admitted_test, route_in_range. autorewrite with guards.
    split_and!; eauto.
Qed.

Lemma outcome_guard r :
  admitted (validate_outcome r) <->
  tres_success r = Some true /\ non_empty (tres_payload r) /\ tres_error r = None \/
  tres_success r = Some false /\ is_Some (tres_error r).
Proof.
  unfold validate_outcome. rewrite admitted_deref. do 3 setoid_rewrite admitted_test.
  destruct (tres_success r) as [success|]; [|split; [by intros (? & [=] & _)|naive_solver]].
  split.
  - intros (? & [= <-] & Hp & He & Hf & _). destruct success, (tres_error r) as [e|]; simpl in *.
    + done.
    + left. by rewrite missing_name in Hp.
    + right. split; [done|by eexists].
    + done.
  - intros [([= ->] & Hp%missing_name & ->)|([= ->] & [? ->])]; eexists; (split; [done|]); simpl;
      rewrite ?admitted_test, admitted_some; by rewrite ?Hp.
Qed.

Lemma result_guard_total r : is_Some (validate_tool_result_field_rules r).
Proof.
  unfold validate_tool_result_field_rules. apply total_deref.
  + unfold validate_tool_result_boundary. apply total_test.
    unfold validate_tool_result_required_fields. intros H%negb_false_iff.
    autorewrite with guards in H. destruct H as (Hr & Hc & _ & Hs & _).
    apply non_empty_some in Hr, Hc.
    apply total_deref; [done|intros ? _]. apply total_deref; [done|intros ? _].
    repeat (apply total_test; intros _). unfold validate_outcome.
    apply total_deref; [by destruct (tres_success r)|intros ? _].
    repeat (apply total_test; intros _). by eexists.
  + intros. repeat (apply total_test; intros _). by eexists.
Qed.

Lemma result_guard r : admitted (validate_tool_result_field_rules r) <-> result_ok r.
Proof.
  unfold validate_tool_result_field_rules, validate_tool_result_boundary,
    validate_tool_result_required_fields.
  autorewrite with guards. split.
  + intros (((? & ? & ? & _ & ? & _) & _ & _ & ? & ? & Hout%outcome_guard) & ? & ? & ? & ? & ? & _).
    split; eauto. naive_solver.
  + intros [(? & ? & ?) ? ? ? Hout (? & ?) ? ?]. split_and!; eauto.
    * destruct Hout as [(-> & _)|(-> & _)]; done.
    * apply outcome_guard. naive_solver.
    * destruct Hout as [(_ & (? & -> & ?) & _)|(_ & _ & ?)]; congruence.
Qed.

(** The guard of a tool result dereferences no empty field and admits exactly the
    results that name their call and tool, were completed after 1970, and took a positive
    time, if any is given: a success has a payload and no error, a failure an error. *)
Theorem result_guard_complete r :
  is_Some (validate_tool_result_field_rules r) /\
  (admitted (validate_tool_result_field_rules r) <-> result_ok r).
Proof. split; [apply result_guard_total|apply result_guard]. Qed.

Lemma request_guard_total r : is_Some (validate_tool_request_field_rules r).
Proof.
  unfold validate_tool_request_field_rules. apply total_deref.
  - unfold validate_tool_request_boundary. apply total_test.
    unfold validate_tool_request_required_fields. intros H%negb_false_iff.
    autorewrite with guards in H. destruct H as (Hr & Hc & _ & (kind & Hk & _) & _).
    apply non_empty_some in Hr, Hc.
    apply total_deref; [by eexists|intros ? _]. apply total_test. intros _.
    apply total_deref; [done|intros ? _]. apply total_deref; [done|intros ? _].
    apply total_test. by eexists.
  - intros. repeat (apply total_test; intros _). by eexists.
Qed.

Lemma descriptor_guard_total d : is_Some (validate_tool_descriptor_field_rules d).
Proof.
  unfold validate_tool_descriptor_field_rules. apply total_test.
  unfold validate_tool_descriptor_required_fields. intros H%negb_false_iff.
  autorewrite with guards in H. destruct H as (_ & (category & Hc & _) & _).
  apply total_deref; [by eexists|intros ? _].
  repeat (apply total_test; intros _). by eexists.
Qed.

Lemma ir_guard_total ir : is_Some (validate_tool_ir_field_rules ir).
Proof.
  unfold validate_tool_ir_field_rules. apply total_test.
  unfold validate_tool_ir_required_fields. intros H%negb_false_iff.
  autorewrite with guards in H. destruct H as (Hr & Hc & _ & (operation & Ho & _) & _ & (route & Hroute & _) & _).
  apply non_empty_some in Hr, Hc.
  apply total_deref; [by eexists|intros ? _]. apply total_test. intros _.
  apply total_deref; [by eexists|intros ? _]. do 2 (apply total_test; intros _).
  apply total_deref; [done|intros ? _]. apply total_deref; [done|intros ? _].
  repeat (apply total_test; intros _). by eexists.
Qed.
