(* ===== verification/ToolValidation.v ===== *)
(** * Validation of tool requests

    tools/src/validation/ToolValidator.{h,cpp}: a request is checked against the
    descriptor of its tool and becomes the call that is executed. *)

From S2P Require Import Prelude ErrorCodes CheckpointContracts Text RecoveryContracts ToolContracts.

Record ValidationDiagnostics := {
  vd_error_code : string;
  vd_message : string;
}.

Record ToolValidationResult := {
  tvr_tool_ir : option ToolIR;
  tvr_diagnostics : option ValidationDiagnostics;
}.

Definition validation_ok (result : ToolValidationResult) : bool :=
  negb (bool_decide (tvr_tool_ir result = None)) && bool_decide (tvr_diagnostics result = None).

Definition kDryRunTag : string := "tool.mode.dry_run".
Definition kValidateOnlyTag : string := "tool.mode.validate_only".
Definition kPreferMcpRouteTag : string := "tool.route.mcp".

Definition invalid (error_code message : string) : ToolValidationResult :=
  {| tvr_tool_ir := None;
     tvr_diagnostics := Some {| vd_error_code := error_code; vd_message := message |} |}.

Definition invocation_matches_category (invocation_kind : ToolInvocationKind)
    (category : ToolCategory) : bool :=
  match invocation_kind with
  | ToolInvocationKind.InformationQuery => bool_decide (category = ToolCategory.Information)
  | ToolInvocationKind.Action => bool_decide (category = ToolCategory.Action)
  | ToolInvocationKind.Workflow => bool_decide (category = ToolCategory.Workflow)
  | ToolInvocationKind.AgentDelegation => bool_decide (category = ToolCategory.AgentDelegation)
  | ToolInvocationKind.Diagnostic => bool_decide (category = ToolCategory.Diagnostic)
  | ToolInvocationKind.Unspecified | ToolInvocationKind.Other _ => false
  end.

Definition has_tag (tags : option (list string)) (target_tag : string) : bool :=
  let? tags := tags else false in
  existsb (fun tag => bool_decide (tag = target_tag)) tags.

(** The two loops move [begin] past the leading white space and [end] before the
    trailing one. *)
Fixpoint trim_end (value : string) : string :=
  match value with
  | EmptyString => ""
  | String ch rest =>
      let rest := trim_end rest in
      if is_empty rest && is_space ch then "" else String ch rest
  end.

Definition trim_ascii (value : string) : string := trim_end (skip_spaces value).

Definition starts_json_value (first : Ascii.ascii) : bool :=
  bool_decide (first = "{"%char) || bool_decide (first = "["%char)
  || bool_decide (first = "034"%char) || bool_decide (first = "t"%char)
  || bool_decide (first = "f"%char) || bool_decide (first = "n"%char) || is_digit first
  || bool_decide (first = "-"%char).

Definition normalize_arguments (arguments_payload : string) : string :=
  match trim_ascii arguments_payload with
  | EmptyString => ""
  | String first rest => if starts_json_value first then String first rest else ""
  end.

Definition derive_operation (request : ToolRequest) : option ToolIROperation :=
  let dry_run := has_tag (tr_tags request) kDryRunTag in
  let validate_only := has_tag (tr_tags request) kValidateOnlyTag in
  if dry_run && validate_only then None else
  if dry_run then Some ToolIROperation.DryRun else
  if validate_only then Some ToolIROperation.ValidateOnly else
  Some ToolIROperation.Invoke.

Definition build_route_hint (category : ToolCategory) (request : ToolRequest) : ToolIRRoute :=
  if has_tag (tr_tags request) kPreferMcpRouteTag then ToolIRRoute.MCPRemote else
  match category with
  | ToolCategory.Workflow | ToolCategory.AgentDelegation => ToolIRRoute.WorkflowEngine
  | ToolCategory.Information | ToolCategory.Action | ToolCategory.Diagnostic
  | ToolCategory.Unspecified | ToolCategory.Other _ => ToolIRRoute.LocalTool
  end.

(** [None]: the category is dereferenced, unless the tag decides, and missing. *)
Definition inject_defaults (request : ToolRequest) (descriptor : ToolDescriptor)
    (operation : ToolIROperation) (normalized_arguments : string) : option ToolIR :=
  let ir route :=
    {| ir_request_id := tr_request_id request;
       ir_tool_call_id := tr_tool_call_id request;
       ir_tool_name := tr_tool_name request;
       ir_operation := Some operation;
       ir_normalized_arguments := Some normalized_arguments;
       ir_route := Some route;
       ir_timeout_ms :=
         match tr_timeout_ms request with
         | Some timeout_ms => Some timeout_ms
         | None => td_default_timeout_ms descriptor
         end;
       ir_idempotency_key := tr_idempotency_key request;
       ir_priority := None;
       ir_goal_id := tr_goal_id request;
       ir_worker_task_id := tr_worker_task_id request |} in
  if has_tag (tr_tags request) kPreferMcpRouteTag then Some (ir ToolIRRoute.MCPRemote) else
  let? category := td_category descriptor else None in
  Some (ir (build_route_hint category request)).

Definition validate (request : ToolRequest) (descriptor : ToolDescriptor)
    : option ToolValidationResult :=
  let? request_guard := validate_tool_request_field_rules request else None in
  if negb (gr_ok request_guard)
  then Some (invalid "InvalidRequest" (gr_reason request_guard)) else
  let? descriptor_guard := validate_tool_descriptor_field_rules descriptor else None in
  if negb (gr_ok descriptor_guard)
  then Some (invalid "InvalidDescriptor" (gr_reason descriptor_guard)) else
  let? request_name := tr_tool_name request else None in
  let? descriptor_name := td_tool_name descriptor else None in
  if negb (bool_decide (request_name = descriptor_name))
  then Some (invalid "DescriptorMismatch" "descriptor tool_name must match request.tool_name") else
  let? invocation_kind := tr_invocation_kind request else None in
  let? category := td_category descriptor else None in
  if negb (invocation_matches_category invocation_kind category)
  then Some (invalid "DescriptorMismatch"
               "request invocation_kind must match descriptor category") else
  let? operation := derive_operation request
    else Some (invalid "InvalidValidationMode"
                 "request tags contain conflicting validation operation markers") in
  let? arguments_payload := tr_arguments_payload request else None in
  let normalized_arguments := normalize_arguments arguments_payload in
  if is_empty normalized_arguments
  then Some (invalid "InvalidRequest" "normalized_arguments must not be empty") else
  let? tool_ir := inject_defaults request descriptor operation normalized_arguments else None in
  let? tool_ir_guard := validate_tool_ir_field_rules tool_ir else None in
  if negb (gr_ok tool_ir_guard)
  then Some (invalid "InvalidToolIR" (gr_reason tool_ir_guard)) else
  Some {| tvr_tool_ir := Some tool_ir; tvr_diagnostics := None |}.

(** ** What validation accepts *)

Definition conflicting_tags (r : ToolRequest) : bool :=
  has_tag (tr_tags r) kDryRunTag && has_tag (tr_tags r) kValidateOnlyTag.

Record acceptable (r : ToolRequest) (d : ToolDescriptor) : Prop := {
  ac_request : request_ok r;
  ac_descriptor : descriptor_ok d;
  ac_name : tr_tool_name r = td_tool_name d;
  ac_kind : exists kind category, tr_invocation_kind r = Some kind /\
              td_category d = Some category /\ invocation_matches_category kind category = true;
  ac_tags : conflicting_tags r = false;
  ac_arguments : exists payload, tr_arguments_payload r = Some payload /\
                   normalize_arguments payload <> "";
}.

Lemma derived_operation r :
  derive_operation r = None <-> conflicting_tags r = true.
Proof.
  unfold derive_operation, conflicting_tags.
  by destruct (has_tag _ kDryRunTag), (has_tag _ kValidateOnlyTag).
Qed.

Lemma derived_operation_named r operation :
  derive_operation r = Some operation ->
  operation <> ToolIROperation.Unspecified /\ forall n, operation <> ToolIROperation.Other n.
Proof.
  unfold derive_operation. destruct (_ && _); [done|].
  repeat case_match; intros [= <-]; done.
Qed.

(** The call built from an acceptable request passes its guard. *)
Lemma injected r d kind category operation arguments :
  request_ok r -> descriptor_ok d -> tr_invocation_kind r = Some kind ->
  td_category d = Some category -> derive_operation r = Some operation -> arguments <> "" ->
  exists ir, inject_defaults r d operation arguments = Some ir /\ ir_ok ir /\
    ir_operation ir = Some operation /\ ir_route ir = Some (build_route_hint category r).
Proof.
  intros Hr Hd Hk Hc Hop Harg. unfold inject_defaults.
  assert (forall route, route <> ToolIRRoute.Unspecified -> (forall n, route <> ToolIRRoute.Other n) ->
    ir_ok {| ir_request_id := tr_request_id r; ir_tool_call_id := tr_tool_call_id r;
             ir_tool_name := tr_tool_name r; ir_operation := Some operation;
             ir_normalized_arguments := Some arguments; ir_route := Some route;
             ir_timeout_ms := match tr_timeout_ms r with
                              | Some timeout_ms => Some timeout_ms
                              | None => td_default_timeout_ms d
                              end;
             ir_idempotency_key := tr_idempotency_key r; ir_priority := None;
             ir_goal_id := tr_goal_id r; ir_worker_task_id := tr_worker_task_id r |}) as Hok.
  { intros route Hu Ho. destruct (rok_optional _ Hr) as (? & ? & ? & ?).
    destruct (dok_optional _ Hd) as (_ & ? & _).
    split; simpl; [apply (rok_ids _ Hr)|apply (rok_name _ Hr)| |by exists arguments| |done|].
    - exists operation. split; [done|by apply derived_operation_named in Hop].
    - by exists route.
    - split_and!; try done. by destruct (tr_timeout_ms r). }
  unfold build_route_hint. destruct (has_tag _ kPreferMcpRouteTag); [|rewrite Hc];
    eexists; (split; [done|]); (split; [|by split]); apply Hok; by destruct category.
Qed.

Lemma total_admitted g :
  is_Some g -> admitted g /\ (exists r, g = Some r /\ gr_ok r = true) \/
               ~ admitted g /\ (exists r, g = Some r /\ gr_ok r = false).
Proof.
  intros [r ->]. destruct (gr_ok r) eqn:E; [left|right]; rewrite admitted_some, E;
    (split; [done|by exists r]).
Qed.

(** What validation promises of its result. *)
Record validated (r : ToolRequest) (d : ToolDescriptor) (result : ToolValidationResult) : Prop := {
  va_ok : validation_ok result = true <-> acceptable r d;
  va_refused : validation_ok result = false -> tvr_tool_ir result = None;
  va_ir : forall ir, tvr_tool_ir result = Some ir ->
    ir_ok ir /\ ir_operation ir = derive_operation r /\
    exists category, td_category d = Some category /\
      ir_route ir = Some (build_route_hint category r);
}.

Lemma refusal_validated r d code message :
  ~ acceptable r d -> validated r d (invalid code message).
Proof. by intros H; split; [split|..]. Qed.

Lemma validate_spec r d :
  exists result, validate r d = Some result /\ validated r d result.
Proof.
  unfold validate.
  destruct (total_admitted _ (request_guard_total r)) as [(Hr & g & -> & ->)|(Hr & g & -> & ->)];
    simpl; rewrite request_guard in Hr; [|eexists; split; [done|apply refusal_validated; by intros []]].
  destruct (total_admitted _ (descriptor_guard_total d)) as [(Hd & g' & -> & ->)|(Hd & g' & -> & ->)];
    simpl; rewrite descriptor_guard in Hd; [|eexists; split; [done|apply refusal_validated; by intros []]].
  destruct (rok_name _ Hr) as (rname & Hrn & _), (dok_name _ Hd) as (dname & Hdn & _).
  rewrite Hrn, Hdn. case_bool_decide as Hname; simpl;
    [|eexists; split; [done|apply refusal_validated; intros []; congruence]].
  destruct (rok_kind _ Hr) as (kind & Hk & _), (dok_category _ Hd) as (category & Hc & _).
  rewrite Hk, Hc. destruct (invocation_matches_category kind category) eqn:Hm; simpl;
    [|eexists; split; [done|apply refusal_validated; intros [_ _ _ (?&?&?&?&?)]; congruence]].
  destruct (derive_operation r) as [operation|] eqn:Hop;
    [|eexists; split; [done|apply refusal_validated; intros [_ _ _ _ Ht _];
      apply derived_operation in Hop; congruence]].
  destruct (rok_arguments _ Hr) as (payload & Hp & _). rewrite Hp.
  destruct (is_empty (normalize_arguments payload)) eqn:He;
    [apply is_empty_true in He; eexists; split;
      [done|apply refusal_validated; intros [_ _ _ _ _ (? & ? & ?)]; congruence]|].
  apply is_empty_false in He.
  destruct (injected r d kind category operation _ Hr Hd Hk Hc Hop He) as (ir & -> & Hir & Hop' & Hroute).
  pose proof Hir as Hg. apply ir_guard in Hg as (g'' & -> & ->). simpl.
  eexists. split; [done|]. split; [split; [intros _|done]|done|].
  - split; [done|done|congruence| | |by exists payload].
    + by exists kind, category.
    + apply not_true_iff_false. rewrite <-derived_operation. congruence.
  - intros ir' [= <-]. split; [done|]. split; [congruence|by exists category].
Qed.

(** Validation of a request against the descriptor of its tool dereferences no empty
    field. It accepts exactly the requests that pass their guard, whose tool has a
    descriptor that passes its own, of the same name and of the invoked kind, with at most
    one of the two tags for a mode without execution, and with arguments that start like a
    JSON value; the call it then builds passes the guard of calls, and goes to MCP when the
    request asks for it and otherwise where the category of the tool says. *)
Theorem validate_complete r d :
  exists result, validate r d = Some result /\ validated r d result.
Proof. apply validate_spec. Qed.
