(* ===== verification/ToolRegistry.v ===== *)
(** * Tool registry

    tools/src/registry/{ToolRegistry,MCPBindingRegistry}.{h,cpp}: the descriptors of the
    tools and the bindings of tools to remote servers, each owned by the source that
    brought it. Every change copies the published snapshot and publishes the copy when
    it succeeds, so a step of the registry is one function from snapshot to snapshot. *)

From stdpp Require Import sorting.
From S2P Require Import Prelude ErrorCodes CheckpointContracts Text RecoveryContracts ToolContracts.

(** ** An index by owner

    Both registries keep a map of records that name their source, and for each source
    the list of the keys it owns. *)

Section index.
Context {K V : Type} `{Countable K} (source_of : V -> string).

(** The key leaves the list of a source, and an empty list leaves the index. *)
Definition release_key (index : gmap string (list K)) (source_key : string) (key : K)
    : gmap string (list K) :=
  let? owned := index !! source_key else index in
  let owned := filter (fun k => k <> key) owned in
  if bool_decide (owned = []) then delete source_key index else <[source_key := owned]> index.

Definition revoke_keys (records : gmap K V) (owned : list K) : gmap K V :=
  foldl (fun records key => delete key records) records owned.

(** What is left of the records when a source goes. *)
Definition without_source (source_key : string) (records : gmap K V) : gmap K V :=
  filter (fun record => source_of record.2 <> source_key) records.

(** The index lists, for each source that owns anything, its keys, each once. *)
Record exact (records : gmap K V) (index : gmap string (list K)) : Prop := {
  ex_owned : forall source_key key,
    key ∈ default [] (index !! source_key) <->
    exists v, records !! key = Some v /\ source_of v = source_key;
  ex_lists : map_Forall (fun _ owned => owned <> [] /\ NoDup owned) index;
}.

Lemma exact_empty : exact ∅ ∅.
Proof.
  split; [|by apply map_Forall_empty]. intros s k. rewrite !lookup_empty. simpl.
  rewrite elem_of_nil. naive_solver.
Qed.

Lemma exact_claim records index key v :
  exact records index -> records !! key = None ->
  exact (<[key := v]> records)
    (<[source_of v := default [] (index !! source_of v) ++ [key]]> index).
Proof.
  intros [Hown Hlists] Hnew. split.
  - intros s k. rewrite !lookup_insert. destruct (decide (source_of v = s)) as [<-|Hs].
    + cbn [default from_option id]. rewrite elem_of_app, list_elem_of_singleton, Hown.
      destruct (decide (key = k)) as [<-|Hk]; [naive_solver|naive_solver].
    + rewrite Hown. destruct (decide (key = k)) as [<-|Hk]; naive_solver.
  - apply map_Forall_insert_2; [|done]. split; [by destruct (default _ _)|].
    apply NoDup_app. split_and!; [|intros k|apply NoDup_singleton].
    + destruct (index !! source_of v) eqn:E; [by apply (Hlists _ _ E)|constructor].
    + rewrite list_elem_of_singleton, Hown. intros (? & ? & _) ->. congruence.
Qed.

Lemma released_lookup index s s' key :
  default [] (release_key index s key !! s')
  = if decide (s = s') then filter (fun k => k <> key) (default [] (index !! s'))
    else default [] (index !! s').
Proof.
  unfold release_key. destruct (decide (s = s')) as [<-|Hs].
  - destruct (index !! s) as [owned|] eqn:E; [|by rewrite E].
    case_bool_decide as He; simpl; [by rewrite lookup_delete_eq, He|by rewrite lookup_insert_eq].
  - destruct (index !! s) as [owned|]; [|done].
    case_bool_decide; [by rewrite lookup_delete_ne|by rewrite lookup_insert_ne].
Qed.

Lemma exact_release records index key v :
  exact records index -> records !! key = Some v ->
  exact (delete key records) (release_key index (source_of v) key).
Proof.
  intros [Hown Hlists] Hv. split.
  - intros s k. rewrite released_lookup, lookup_delete.
    destruct (decide (source_of v = s)) as [<-|Hs], (decide (key = k)) as [<-|Hk];
      rewrite ?list_elem_of_filter, Hown; naive_solver.
  - unfold release_key. destruct (index !! source_of v) as [owned|] eqn:E; [|done].
    destruct (Hlists _ _ E) as [_ Hnd]. case_bool_decide.
    + by apply map_Forall_delete.
    + apply map_Forall_insert_2; [|done]. split; [done|by apply NoDup_filter].
Qed.

Lemma exact_replace records index key v v' :
  exact records index -> records !! key = Some v -> source_of v = source_of v' ->
  exact (<[key := v']> records) index.
Proof.
  intros [Hown Hlists] Hv Hs. split; [|done]. intros s k. rewrite lookup_insert, Hown.
  destruct (decide (key = k)) as [<-|Hk]; naive_solver.
Qed.

Lemma revoked_lookup records owned key :
  revoke_keys records owned !! key = if decide (key ∈ owned) then None else records !! key.
Proof.
  unfold revoke_keys. revert records. induction owned as [|k owned IH]; intros records; cbn [foldl].
  { rewrite decide_False; [done|apply not_elem_of_nil]. }
  rewrite IH, lookup_delete. destruct (decide (key ∈ owned)), (decide (k = key)),
    (decide (key ∈ k :: owned)); set_solver.
Qed.

Lemma revoked_all records index source_key :
  exact records index ->
  revoke_keys records (default [] (index !! source_key)) = without_source source_key records.
Proof.
  intros [Hown _]. apply map_eq. intros key. rewrite revoked_lookup. unfold without_source.
  symmetry. destruct (decide _) as [Hin|Hout].
  - apply Hown in Hin as (v & Hv & Hs). apply map_lookup_filter_None. right.
    intros v' Hv'. simplify_eq. naive_solver.
  - destruct (records !! key) as [v|] eqn:E; [|by apply map_lookup_filter_None; left].
    apply map_lookup_filter_Some. split; [done|]. intros Hs. apply Hout, Hown. eauto.
Qed.

Lemma exact_revoke records index source_key :
  exact records index ->
  exact (without_source source_key records) (delete source_key index).
Proof.
  intros [Hown Hlists]. split; [|by apply map_Forall_delete]. intros s k.
  unfold without_source. setoid_rewrite map_lookup_filter_Some. rewrite lookup_delete.
  destruct (decide (source_key = s)) as [<-|Hs]; [|rewrite Hown; naive_solver].
  simpl. rewrite elem_of_nil. naive_solver.
Qed.

Lemma unknown_source records index source_key :
  exact records index ->
  index !! source_key = None <-> without_source source_key records = records.
Proof.
  intros Hex. rewrite <-(revoked_all _ index) by done. split.
  - intros ->. done.
  - intros Hsame. destruct (index !! source_key) as [[|key owned]|] eqn:E; [| |done].
    { by destruct (ex_lists _ _ Hex _ _ E) as [[] _]. }
    assert (key ∈ default [] (index !! source_key)) as Hin by (rewrite E; by left).
    apply (ex_owned _ _ Hex) in Hin as (v & Hv & _). rewrite <-Hsame, revoked_lookup in Hv.
    rewrite decide_True in Hv; [done|by left].
Qed.
End index.

(** ** Bindings to remote servers *)

Record MCPToolBinding := {
  mb_internal_tool_name : string;
  mb_remote_tool_name : string;
  mb_server_id : string;
  mb_remote_capability_id : option string;
  mb_input_schema_ref : option string;
}.

Record MCPToolBindingRecord := {
  mbr_binding : MCPToolBinding;
  mbr_source_key : string;
}.

#[export] Instance MCPToolBinding_eq_dec : EqDecision MCPToolBinding.
Proof. solve_decision. Defined.
#[export] Instance MCPToolBindingRecord_eq_dec : EqDecision MCPToolBindingRecord.
Proof. solve_decision. Defined.

(** The tool, the server and the remote tool. *)
Abbreviation BindingKey := (string * string * string)%type.

Record MCPBindingRegistry := {
  bindings_by_key_ : gmap BindingKey MCPToolBindingRecord;
  binding_keys_by_source_ : gmap string (list BindingKey);
}.

Definition empty_binding_registry : MCPBindingRegistry :=
  {| bindings_by_key_ := ∅; binding_keys_by_source_ := ∅ |}.

Definition make_key (binding : MCPToolBinding) : BindingKey :=
  (mb_internal_tool_name binding, mb_server_id binding, mb_remote_tool_name binding).

Definition binding_consistent (binding : MCPToolBinding) : bool :=
  negb (is_empty (mb_internal_tool_name binding))
  && negb (is_empty (mb_remote_tool_name binding)) && negb (is_empty (mb_server_id binding)).

(** The order of the [std::map]: by the fields of the key, each as a string. *)
Definition key_compare (a b : BindingKey) : comparison :=
  let '(a1, a2, a3) := a in
  let '(b1, b2, b3) := b in
  match String.compare a1 b1 with
  | Eq => match String.compare a2 b2 with Eq => String.compare a3 b3 | c => c end
  | c => c
  end.

Definition binding_le (x y : BindingKey * MCPToolBindingRecord) : Prop :=
  key_compare x.1 y.1 <> Gt.

#[export] Instance binding_le_dec x y : Decision (binding_le x y).
Proof. unfold binding_le. apply _. Defined.

Definition list_bindings (registry : MCPBindingRegistry) (internal_tool_name : string)
    : list MCPToolBinding :=
  filter (fun binding => mb_internal_tool_name binding = internal_tool_name)
    ((fun entry => mbr_binding entry.2)
       <$> merge_sort binding_le (map_to_list (bindings_by_key_ registry))).

(** [None]: the source is unknown, and the code returns [false]. *)
Definition revoke_binding_source (registry : MCPBindingRegistry) (source_key : string)
    : option MCPBindingRegistry :=
  if is_empty source_key then None else
  let? owned := binding_keys_by_source_ registry !! source_key else None in
  Some {| bindings_by_key_ := revoke_keys (bindings_by_key_ registry) owned;
          binding_keys_by_source_ := delete source_key (binding_keys_by_source_ registry) |}.

(** The first loop: every binding is complete and their keys are distinct. *)
Fixpoint check_batch (batch_keys : gset BindingKey) (bindings : list MCPToolBinding) : bool :=
  match bindings with
  | [] => true
  | binding :: bindings =>
      binding_consistent binding && negb (bool_decide (make_key binding ∈ batch_keys))
      && check_batch ({[make_key binding]} ∪ batch_keys) bindings
  end.

Definition add_binding (source_key : string) (registry : MCPBindingRegistry)
    (binding : MCPToolBinding) : MCPBindingRegistry :=
  let key := make_key binding in
  let index :=
    match bindings_by_key_ registry !! key with
    | Some existing =>
        release_key (binding_keys_by_source_ registry) (mbr_source_key existing) key
    | None => binding_keys_by_source_ registry
    end in
  {| bindings_by_key_ :=
       <[key := {| mbr_binding := binding; mbr_source_key := source_key |}]>
         (bindings_by_key_ registry);
     binding_keys_by_source_ :=
       <[source_key := default [] (index !! source_key) ++ [key]]> index |}.

Definition replace_source_bindings (registry : MCPBindingRegistry) (source_key : string)
    (bindings : list MCPToolBinding) : option MCPBindingRegistry :=
  if is_empty source_key then None else
  if negb (check_batch ∅ bindings) then None else
  Some (foldl (add_binding source_key)
          (default registry (revoke_binding_source registry source_key)) bindings).

(** ** Descriptors *)

Record ToolDescriptorRecord := {
  tdr_descriptor : ToolDescriptor;
  tdr_source_key : string;
}.

#[export] Instance ToolDescriptorRecord_eq_dec : EqDecision ToolDescriptorRecord.
Proof. solve_decision. Defined.

Record ToolRegistrySnapshot := {
  descriptors_by_name : gmap string ToolDescriptorRecord;
  descriptor_names_by_source : gmap string (list string);
  mcp_binding_registry : MCPBindingRegistry;
  trs_revision : Z;
}.

Definition kBuiltinSourceKey : string := "builtin.static".

Definition is_builtin_source (source_key : string) : bool :=
  bool_decide (source_key = kBuiltinSourceKey).

(** The guard of a descriptor, which never fails to answer ([descriptor_guard_total]). *)
Definition descriptor_valid (descriptor : ToolDescriptor) : bool :=
  let? guard := validate_tool_descriptor_field_rules descriptor else false in gr_ok guard.

(** [None]: the code returns [false], and its caller drops the copy it worked on. *)
Definition upsert_descriptor (snapshot : ToolRegistrySnapshot) (descriptor : ToolDescriptor)
    (source_key : string) : option ToolRegistrySnapshot :=
  if is_empty source_key then None else
  if negb (descriptor_valid descriptor) then None else
  let? tool_name := td_tool_name descriptor else None in
  let index :=
    match descriptors_by_name snapshot !! tool_name with
    | Some existing =>
        if bool_decide (tdr_source_key existing = source_key)
        then descriptor_names_by_source snapshot
        else release_key (descriptor_names_by_source snapshot) (tdr_source_key existing) tool_name
    | None => descriptor_names_by_source snapshot
    end in
  let owned := default [] (index !! source_key) in
  Some {| descriptors_by_name :=
            <[tool_name := {| tdr_descriptor := descriptor; tdr_source_key := source_key |}]>
              (descriptors_by_name snapshot);
          descriptor_names_by_source :=
            <[source_key := if bool_decide (tool_name ∈ owned) then owned
                            else owned ++ [tool_name]]> index;
          mcp_binding_registry := mcp_binding_registry snapshot;
          trs_revision := trs_revision snapshot |}.

Definition revoke_descriptors_for_source (snapshot : ToolRegistrySnapshot) (source_key : string)
    : option ToolRegistrySnapshot :=
  let? owned := descriptor_names_by_source snapshot !! source_key else None in
  Some {| descriptors_by_name := revoke_keys (descriptors_by_name snapshot) owned;
          descriptor_names_by_source := delete source_key (descriptor_names_by_source snapshot);
          mcp_binding_registry := mcp_binding_registry snapshot;
          trs_revision := trs_revision snapshot |}.

Definition set_bindings (snapshot : ToolRegistrySnapshot) (bindings : MCPBindingRegistry)
    : ToolRegistrySnapshot :=
  {| descriptors_by_name := descriptors_by_name snapshot;
     descriptor_names_by_source := descriptor_names_by_source snapshot;
     mcp_binding_registry := bindings;
     trs_revision := trs_revision snapshot |}.

Definition set_revision (snapshot : ToolRegistrySnapshot) (revision : Z) : ToolRegistrySnapshot :=
  {| descriptors_by_name := descriptors_by_name snapshot;
     descriptor_names_by_source := descriptor_names_by_source snapshot;
     mcp_binding_registry := mcp_binding_registry snapshot;
     trs_revision := revision |}.

Definition empty_snapshot : ToolRegistrySnapshot :=
  {| descriptors_by_name := ∅; descriptor_names_by_source := ∅;
     mcp_binding_registry := empty_binding_registry; trs_revision := 0 |}.

(** The constructor: a builtin descriptor that is refused is passed over. *)
Definition add_builtin (snapshot : ToolRegistrySnapshot) (descriptor : ToolDescriptor)
    : ToolRegistrySnapshot :=
  let? next := upsert_descriptor snapshot descriptor kBuiltinSourceKey else snapshot in
  set_revision next 1.

Definition new_tool_registry (builtin_descriptors : list ToolDescriptor) : ToolRegistrySnapshot :=
  foldl add_builtin empty_snapshot builtin_descriptors.

Definition resolve_descriptor (snapshot : ToolRegistrySnapshot) (tool_name : string)
    : option ToolDescriptor :=
  tdr_descriptor <$> descriptors_by_name snapshot !! tool_name.

Definition list_descriptors (snapshot : ToolRegistrySnapshot) : list ToolDescriptor :=
  (fun '(_, record) => tdr_descriptor record) <$> in_key_order (descriptors_by_name snapshot).

Definition list_mcp_bindings (snapshot : ToolRegistrySnapshot) (internal_tool_name : string)
    : list MCPToolBinding :=
  list_bindings (mcp_binding_registry snapshot) internal_tool_name.

(** A change that succeeds publishes the copy one revision further; one that fails
    leaves what was published. *)
Definition publish_change (snapshot : ToolRegistrySnapshot) (next : option ToolRegistrySnapshot)
    : bool * ToolRegistrySnapshot :=
  let? next := next else (false, snapshot) in
  (true, set_revision next (u64 (trs_revision snapshot + 1))).

Definition register_builtin (snapshot : ToolRegistrySnapshot) (descriptor : ToolDescriptor)
    : bool * ToolRegistrySnapshot :=
  publish_change snapshot (upsert_descriptor snapshot descriptor kBuiltinSourceKey).

(** Valid descriptors of distinct names that the snapshot does not have. *)
Fixpoint validate_plugin_descriptor_batch (snapshot : ToolRegistrySnapshot)
    (seen_tool_names : list string) (descriptors : list ToolDescriptor) : bool :=
  match descriptors with
  | [] => true
  | descriptor :: descriptors =>
      if negb (descriptor_valid descriptor) then false else
      let? tool_name := td_tool_name descriptor else false in
      if bool_decide (tool_name ∈ seen_tool_names) then false else
      if bool_decide (is_Some (descriptors_by_name snapshot !! tool_name)) then false else
      validate_plugin_descriptor_batch snapshot (seen_tool_names ++ [tool_name]) descriptors
  end.

Fixpoint upsert_descriptors (snapshot : ToolRegistrySnapshot) (source_key : string)
    (descriptors : list ToolDescriptor) : option ToolRegistrySnapshot :=
  match descriptors with
  | [] => Some snapshot
  | descriptor :: descriptors =>
      let? snapshot := upsert_descriptor snapshot descriptor source_key else None in
      upsert_descriptors snapshot source_key descriptors
  end.

Definition apply_plugin_extension_delta (snapshot : ToolRegistrySnapshot) (source_key : string)
    (descriptors : list ToolDescriptor) : bool * ToolRegistrySnapshot :=
  if is_empty source_key || is_builtin_source source_key then (false, snapshot) else
  let revoked := revoke_descriptors_for_source snapshot source_key in
  let next := default snapshot revoked in
  if negb (bool_decide (descriptors = []))
     && negb (validate_plugin_descriptor_batch next [] descriptors) then (false, snapshot) else
  let? next := upsert_descriptors next source_key descriptors else (false, snapshot) in
  if bool_decide (revoked = None) && bool_decide (descriptors = []) then (false, snapshot) else
  publish_change snapshot (Some next).

Definition revoke_mcp_bindings_for_source (snapshot : ToolRegistrySnapshot) (source_key : string)
    : bool * ToolRegistrySnapshot :=
  if is_empty source_key || is_builtin_source source_key then (false, snapshot) else
  publish_change snapshot
    (set_bindings snapshot <$> revoke_binding_source (mcp_binding_registry snapshot) source_key).

Definition validate_binding_batch (snapshot : ToolRegistrySnapshot)
    (bindings : list MCPToolBinding) : bool :=
  forallb (fun binding =>
    binding_consistent binding
    && bool_decide (is_Some (descriptors_by_name snapshot !! mb_internal_tool_name binding)))
    bindings.

Definition upsert_mcp_bindings (snapshot : ToolRegistrySnapshot) (source_key : string)
    (bindings : list MCPToolBinding) : bool * ToolRegistrySnapshot :=
  if bool_decide (bindings = []) then revoke_mcp_bindings_for_source snapshot source_key else
  if is_empty source_key || is_builtin_source source_key then (false, snapshot) else
  if negb (validate_binding_batch snapshot bindings) then (false, snapshot) else
  publish_change snapshot
    (set_bindings snapshot
       <$> replace_source_bindings (mcp_binding_registry snapshot) source_key bindings).

Definition revoke_source (snapshot : ToolRegistrySnapshot) (source_key : string)
    : bool * ToolRegistrySnapshot :=
  if is_empty source_key || is_builtin_source source_key then (false, snapshot) else
  let revoked := revoke_descriptors_for_source snapshot source_key in
  let next := default snapshot revoked in
  let bindings := revoke_binding_source (mcp_binding_registry next) source_key in
  if bool_decide (revoked = None) && bool_decide (bindings = None) then (false, snapshot) else
  publish_change snapshot
    (Some (set_bindings next (default (mcp_binding_registry next) bindings))).

(** ** The catalog

    What the registry is for, without its indexes: each tool has at most one descriptor and
    each key at most one binding, with the source that brought it. *)

Record Catalog := {
  cat_descriptors : gmap string ToolDescriptorRecord;
  cat_bindings : gmap BindingKey MCPToolBindingRecord;
}.

Inductive RegistryOp :=
| RegisterBuiltin (descriptor : ToolDescriptor)
| ApplyDelta (source_key : string) (descriptors : list ToolDescriptor)
| UpsertBindings (source_key : string) (bindings : list MCPToolBinding)
| RevokeBindings (source_key : string)
| RevokeSource (source_key : string).

Definition registry_step (snapshot : ToolRegistrySnapshot) (op : RegistryOp)
    : bool * ToolRegistrySnapshot :=
  match op with
  | RegisterBuiltin descriptor => register_builtin snapshot descriptor
  | ApplyDelta source_key descriptors =>
      apply_plugin_extension_delta snapshot source_key descriptors
  | UpsertBindings source_key bindings => upsert_mcp_bindings snapshot source_key bindings
  | RevokeBindings source_key => revoke_mcp_bindings_for_source snapshot source_key
  | RevokeSource source_key => revoke_source snapshot source_key
  end.

Definition registry_run (snapshot : ToolRegistrySnapshot) (ops : list RegistryOp)
    : ToolRegistrySnapshot :=
  foldl (fun snapshot op => (registry_step snapshot op).2) snapshot ops.

Definition descriptor_name (descriptor : ToolDescriptor) : string :=
  default "" (td_tool_name descriptor).

Definition put_descriptor (source_key : string) (records : gmap string ToolDescriptorRecord)
    (descriptor : ToolDescriptor) : gmap string ToolDescriptorRecord :=
  <[descriptor_name descriptor :=
      {| tdr_descriptor := descriptor; tdr_source_key := source_key |}]> records.

Definition put_binding (source_key : string) (records : gmap BindingKey MCPToolBindingRecord)
    (binding : MCPToolBinding) : gmap BindingKey MCPToolBindingRecord :=
  <[make_key binding := {| mbr_binding := binding; mbr_source_key := source_key |}]> records.

(** A batch of a plugin fits what the other sources have. *)
Definition batch_fits (rest : gmap string ToolDescriptorRecord) (descriptors : list ToolDescriptor)
    : Prop :=
  Forall (fun descriptor => descriptor_valid descriptor = true /\
                            rest !! descriptor_name descriptor = None) descriptors /\
  NoDup (descriptor_name <$> descriptors).

Definition bindings_fit (catalog : Catalog) (bindings : list MCPToolBinding) : Prop :=
  Forall (fun binding => binding_consistent binding = true /\
            is_Some (cat_descriptors catalog !! mb_internal_tool_name binding)) bindings /\
  NoDup (make_key <$> bindings).

#[export] Instance batch_fits_dec rest descriptors : Decision (batch_fits rest descriptors).
Proof. unfold batch_fits. apply _. Defined.
#[export] Instance bindings_fit_dec catalog bindings : Decision (bindings_fit catalog bindings).
Proof. unfold bindings_fit. apply _. Defined.

(** A source that may change the catalog: it has a name, and is not the builtin one. *)
Definition foreign (source_key : string) : bool :=
  negb (is_empty source_key) && negb (is_builtin_source source_key).

(** A change of the catalog; [None] when it is refused or changes nothing. *)
Definition catalog_step (c : Catalog) (op : RegistryOp) : option Catalog :=
  match op with
  | RegisterBuiltin descriptor =>
      if descriptor_valid descriptor then
        Some {| cat_descriptors := put_descriptor kBuiltinSourceKey (cat_descriptors c) descriptor;
                cat_bindings := cat_bindings c |}
      else None
  | ApplyDelta source_key descriptors =>
      let rest := without_source tdr_source_key source_key (cat_descriptors c) in
      if negb (foreign source_key) then None else
      if negb (bool_decide (batch_fits rest descriptors)) then None else
      if bool_decide (descriptors = [] /\ rest = cat_descriptors c) then None else
      Some {| cat_descriptors := foldl (put_descriptor source_key) rest descriptors;
              cat_bindings := cat_bindings c |}
  | UpsertBindings source_key bindings =>
      let rest := without_source mbr_source_key source_key (cat_bindings c) in
      if negb (foreign source_key) then None else
      if negb (bool_decide (bindings_fit c bindings)) then None else
      if bool_decide (bindings = [] /\ rest = cat_bindings c) then None else
      Some {| cat_descriptors := cat_descriptors c;
              cat_bindings := foldl (put_binding source_key) rest bindings |}
  | RevokeBindings source_key =>
      let rest := without_source mbr_source_key source_key (cat_bindings c) in
      if negb (foreign source_key) || bool_decide (rest = cat_bindings c) then None else
      Some {| cat_descriptors := cat_descriptors c; cat_bindings := rest |}
  | RevokeSource source_key =>
      let descriptors := without_source tdr_source_key source_key (cat_descriptors c) in
      let bindings := without_source mbr_source_key source_key (cat_bindings c) in
      if negb (foreign source_key) then None else
      if bool_decide (descriptors = cat_descriptors c /\ bindings = cat_bindings c) then None else
      Some {| cat_descriptors := descriptors; cat_bindings := bindings |}
  end.

Definition catalog_of (s : ToolRegistrySnapshot) : Catalog :=
  {| cat_descriptors := descriptors_by_name s;
     cat_bindings := bindings_by_key_ (mcp_binding_registry s) |}.

Record registry_ok (s : ToolRegistrySnapshot) : Prop := {
  ro_descriptors : exact tdr_source_key (descriptors_by_name s) (descriptor_names_by_source s);
  ro_bindings : exact mbr_source_key (bindings_by_key_ (mcp_binding_registry s))
                  (binding_keys_by_source_ (mcp_binding_registry s));
}.

Lemma descriptor_valid_ok d : descriptor_valid d = true <-> descriptor_ok d.
Proof.
  rewrite <-descriptor_guard. unfold descriptor_valid, admitted.
  destruct (validate_tool_descriptor_field_rules d); [|naive_solver]. naive_solver.
Qed.

Lemma valid_name d : descriptor_valid d = true -> td_tool_name d = Some (descriptor_name d).
Proof.
  intros (? & Hn & _)%descriptor_valid_ok%dok_name. unfold descriptor_name. by rewrite Hn.
Qed.

Lemma upsert_spec s d source_key :
  registry_ok s -> source_key <> "" ->
  if descriptor_valid d then exists s', upsert_descriptor s d source_key = Some s' /\
    registry_ok s' /\ descriptors_by_name s' = put_descriptor source_key (descriptors_by_name s) d /\
    mcp_binding_registry s' = mcp_binding_registry s /\ trs_revision s' = trs_revision s
  else upsert_descriptor s d source_key = None.
Proof.
  intros [Hex Hb] Hs. unfold upsert_descriptor, put_descriptor.
  rewrite (proj2 (is_empty_false _) Hs). destruct (descriptor_valid d) eqn:Hv; [|done].
  cbn [negb]. rewrite (valid_name _ Hv). eexists. split; [done|].
  split; [|by split_and!]. split; [|done]. cbn [descriptors_by_name descriptor_names_by_source].
  set (name := descriptor_name d). set (v := {| tdr_descriptor := d; tdr_source_key := source_key |}).
  destruct (descriptors_by_name s !! name) as [existing|] eqn:E.
  - destruct (bool_decide_reflect (tdr_source_key existing = source_key)) as [Hsame|Hsame].
    + assert (name ∈ default [] (descriptor_names_by_source s !! source_key)) as Hin
        by (apply (ex_owned _ _ _ Hex); eauto).
      rewrite bool_decide_true by done. rewrite (insert_id (descriptor_names_by_source s));
        [by apply (exact_replace _ _ _ _ existing)|].
      by destruct (descriptor_names_by_source s !! source_key); [|apply elem_of_nil in Hin].
    + pose proof (exact_release _ _ _ _ _ Hex E) as Hrel.
      rewrite bool_decide_false.
      * rewrite <-insert_delete_eq. apply (exact_claim _ _ _ _ v Hrel). apply lookup_delete_eq.
      * rewrite (ex_owned _ _ _ Hrel). rewrite lookup_delete_eq. naive_solver.
  - rewrite bool_decide_false by (rewrite (ex_owned _ _ _ Hex), E; naive_solver).
    by apply (exact_claim _ _ _ _ v Hex).
Qed.

Lemma upsert_all s ds source_key :
  registry_ok s -> source_key <> "" -> Forall (fun d => descriptor_valid d = true) ds ->
  exists s', upsert_descriptors s source_key ds = Some s' /\ registry_ok s' /\
    descriptors_by_name s' = foldl (put_descriptor source_key) (descriptors_by_name s) ds /\
    mcp_binding_registry s' = mcp_binding_registry s /\ trs_revision s' = trs_revision s.
Proof.
  intros Hok Hs Hvalid. revert s Hok. induction Hvalid as [|d ds Hd _ IH]; intros s Hok; [by exists s|].
  pose proof (upsert_spec s d source_key Hok Hs) as H. rewrite Hd in H.
  destruct H as (s1 & Hup & Hok1 & Hd1 & Hb1 & Hr1). simpl. rewrite Hup.
  destruct (IH s1 Hok1) as (s2 & -> & Hok2 & Hd2 & Hb2 & Hr2).
  exists s2. split_and!; [done|done|congruence|congruence|congruence].
Qed.

Lemma batch_checked s seen ds :
  validate_plugin_descriptor_batch s seen ds = true <->
  batch_fits (descriptors_by_name s) ds /\ Forall (fun d => descriptor_name d ∉ seen) ds.
Proof.
  revert seen. induction ds as [|d ds IH]; intros seen; cbn [validate_plugin_descriptor_batch].
  { unfold batch_fits. split; [|done]. by repeat constructor. }
  unfold batch_fits in *. rewrite !Forall_cons, fmap_cons, NoDup_cons.
  destruct (descriptor_valid d) eqn:Hv; cbn [negb]; [|by split; [|intros [[[[] _] _] _]]].
  rewrite (valid_name _ Hv).
  destruct (bool_decide_reflect (descriptor_name d ∈ seen)) as [Hseen|Hseen];
    [by split; [|intros (_ & ? & _)]|].
  destruct (bool_decide_reflect (is_Some (descriptors_by_name s !! descriptor_name d))) as [Hin|Hin];
    [split; [done|]; intros (((( _ & Hno) & _) & _) & _); by rewrite Hno in Hin; destruct Hin|].
  apply eq_None_not_Some in Hin.
  assert (Forall (fun d' => descriptor_name d' ∉ seen ++ [descriptor_name d]) ds <->
          Forall (fun d' => descriptor_name d' ∉ seen) ds /\
          descriptor_name d ∉ descriptor_name <$> ds) as Happ.
  { rewrite list_elem_of_fmap, !Forall_forall. setoid_rewrite elem_of_app.
    setoid_rewrite list_elem_of_singleton. split.
    - intros H. split; [naive_solver|]. intros (d' & ? & ?). naive_solver.
    - intros [H1 H2] d' Hd' [?|?]; [by apply (H1 d')|]. apply H2. eauto. }
  rewrite IH, Happ. tauto.
Qed.

Lemma revoke_spec s source_key :
  registry_ok s ->
  let revoked := revoke_descriptors_for_source s source_key in
  let next := default s revoked in
  registry_ok next /\
  descriptors_by_name next = without_source tdr_source_key source_key (descriptors_by_name s) /\
  mcp_binding_registry next = mcp_binding_registry s /\ trs_revision next = trs_revision s /\
  (revoked = None <-> descriptors_by_name next = descriptors_by_name s).
Proof.
  intros [Hex Hb]. pose proof (unknown_source _ _ _ source_key Hex) as Hunknown.
  pose proof (revoked_all _ _ _ source_key Hex) as Hall. unfold revoke_descriptors_for_source.
  destruct (descriptor_names_by_source s !! source_key) as [owned|] eqn:E; simpl in *.
  - rewrite Hall. split_and!; try done.
    + split; [|done]. by apply exact_revoke.
    + split; [done|by intros ?%Hunknown].
  - by split_and!.
Qed.

(** ** The bindings *)

Definition bindings_ok (b : MCPBindingRegistry) : Prop :=
  exact mbr_source_key (bindings_by_key_ b) (binding_keys_by_source_ b).

Lemma revoke_bindings_spec b source_key :
  bindings_ok b -> source_key <> "" ->
  let revoked := revoke_binding_source b source_key in
  let next := default b revoked in
  bindings_ok next /\
  bindings_by_key_ next = without_source mbr_source_key source_key (bindings_by_key_ b) /\
  (revoked = None <-> bindings_by_key_ next = bindings_by_key_ b).
Proof.
  intros Hex Hs. pose proof (unknown_source _ _ _ source_key Hex) as Hunknown.
  pose proof (revoked_all _ _ _ source_key Hex) as Hall. unfold revoke_binding_source.
  rewrite (proj2 (is_empty_false _) Hs).
  destruct (binding_keys_by_source_ b !! source_key) as [owned|] eqn:E; simpl in *.
  - rewrite Hall. split_and!; [by apply exact_revoke|done|split; [done|by intros ?%Hunknown]].
  - by split_and!.
Qed.

Lemma add_binding_spec source_key b binding :
  bindings_ok b ->
  bindings_ok (add_binding source_key b binding) /\
  bindings_by_key_ (add_binding source_key b binding)
  = put_binding source_key (bindings_by_key_ b) binding.
Proof.
  intros Hex. split; [|done]. unfold bindings_ok, add_binding.
  cbn [bindings_by_key_ binding_keys_by_source_].
  set (v := {| mbr_binding := binding; mbr_source_key := source_key |}).
  destruct (bindings_by_key_ b !! make_key binding) as [existing|] eqn:E.
  - rewrite <-insert_delete_eq.
    apply (exact_claim _ _ _ _ v (exact_release _ _ _ _ _ Hex E)), lookup_delete_eq.
  - by apply (exact_claim _ _ _ _ v Hex).
Qed.

Lemma batch_keys_checked seen bindings :
  check_batch seen bindings = true <->
  Forall (fun b => binding_consistent b = true /\ make_key b ∉ seen) bindings /\
  NoDup (make_key <$> bindings).
Proof.
  revert seen. induction bindings as [|b bindings IH]; intros seen; cbn [check_batch].
  { rewrite Forall_nil. split; [|done]. split; [done|constructor]. }
  rewrite !andb_true_iff, negb_true_iff, bool_decide_eq_false, IH, Forall_cons, fmap_cons,
    NoDup_cons, list_elem_of_fmap, !Forall_forall.
  setoid_rewrite elem_of_union. setoid_rewrite elem_of_singleton. split.
  - intros ((Hc & Hseen) & Hall & Hnd).
    split; [split; [done|]|split; [|done]].
    + intros b' Hb'. destruct (Hall b' Hb') as [? Hn]. split; [done|]. intros ?. apply Hn. by right.
    + intros (b' & Heq & Hb'). destruct (Hall b' Hb') as [_ Hn]. apply Hn. by left.
  - intros (((Hc & Hseen) & Hall) & Hno & Hnd). split; [done|split; [|done]].
    intros b' Hb'. destruct (Hall b' Hb') as [? Hn]. split; [done|].
    intros [?|?]; [apply Hno; by exists b'|done].
Qed.

Lemma replace_spec b source_key bindings :
  bindings_ok b -> source_key <> "" ->
  Forall (fun b => binding_consistent b = true) bindings ->
  if decide (NoDup (make_key <$> bindings))
  then exists b', replace_source_bindings b source_key bindings = Some b' /\ bindings_ok b' /\
    bindings_by_key_ b' = foldl (put_binding source_key)
      (without_source mbr_source_key source_key (bindings_by_key_ b)) bindings
  else replace_source_bindings b source_key bindings = None.
Proof.
  intros Hok Hs Hc. unfold replace_source_bindings. rewrite (proj2 (is_empty_false _) Hs).
  destruct (revoke_bindings_spec b source_key Hok Hs) as (Hok' & Hrest & _).
  destruct (check_batch ∅ bindings) eqn:E; cbn [negb].
  - apply batch_keys_checked in E as [_ Hnd]. rewrite decide_True by done.
    eexists. split; [done|]. rewrite <-Hrest. clear -Hok'.
    revert Hok'. generalize (default b (revoke_binding_source b source_key)).
    induction bindings as [|x bindings IH]; intros c Hc; [done|]. simpl.
    destruct (add_binding_spec source_key c x Hc) as [Hc' <-]. by apply IH.
  - rewrite decide_False; [done|]. intros Hnd. apply not_true_iff_false in E. apply E.
    apply batch_keys_checked. split; [|done]. eapply Forall_impl; [exact Hc|].
    intros ? ?. split; [done|apply not_elem_of_empty].
Qed.

(** ** The registry implements the catalog *)

(** What a step makes of a registry, as the catalog says. *)
Definition implements (s : ToolRegistrySnapshot) (next : option Catalog)
    (answer : bool * ToolRegistrySnapshot) : Prop :=
  match next with
  | Some c => registry_ok answer.2 /\ answer.1 = true /\ catalog_of answer.2 = c /\
              trs_revision answer.2 = u64 (trs_revision s + 1)
  | None => answer = (false, s)
  end.

Lemma publish_implements s s' c :
  registry_ok s' -> catalog_of s' = c -> implements s (Some c) (publish_change s (Some s')).
Proof. intros [? ?] <-. by split; [split|]. Qed.

Lemma refuse_source source_key :
  is_empty source_key || is_builtin_source source_key = negb (foreign source_key).
Proof. unfold foreign. by destruct (is_empty source_key), (is_builtin_source source_key). Qed.

Lemma foreign_named source_key : foreign source_key = true -> source_key <> "".
Proof. unfold foreign. by intros [?%negb_true_iff%is_empty_false _]%andb_true_iff. Qed.

Lemma register_implements s d :
  registry_ok s ->
  implements s (catalog_step (catalog_of s) (RegisterBuiltin d)) (register_builtin s d).
Proof.
  intros Hok. unfold register_builtin. cbn [catalog_step].
  pose proof (upsert_spec s d kBuiltinSourceKey Hok ltac:(done)) as H.
  destruct (descriptor_valid d); [|by rewrite H].
  destruct H as (s' & -> & Hok' & Hd & Hb & _). apply publish_implements; [done|].
  unfold catalog_of. by rewrite Hd, Hb.
Qed.

Lemma delta_implements s source_key ds :
  registry_ok s ->
  implements s (catalog_step (catalog_of s) (ApplyDelta source_key ds))
    (apply_plugin_extension_delta s source_key ds).
Proof.
  intros Hok. unfold apply_plugin_extension_delta. cbn [catalog_step]. rewrite refuse_source.
  destruct (foreign source_key) eqn:Hf; cbn [negb]; [|done]. apply foreign_named in Hf.
  destruct (revoke_spec s source_key Hok) as (Hok1 & Hd1 & Hb1 & _ & Hsame).
  rewrite Hd1 in Hsame. cbn [catalog_of cat_descriptors cat_bindings]. rewrite <-Hd1.
  set (next := default s (revoke_descriptors_for_source s source_key)) in *.
  pose proof (batch_checked next [] ds) as Hbatch.
  assert (Forall (fun d => descriptor_name d ∉ []) ds) as Hseen
    by (apply Forall_forall; intros; apply not_elem_of_nil).
  destruct (bool_decide_reflect (batch_fits (descriptors_by_name next) ds)) as [Hfit|Hfit].
  - rewrite (proj2 Hbatch) by done. rewrite andb_false_r. cbn [negb].
    destruct (upsert_all next ds source_key Hok1 Hf) as (s' & -> & Hok' & Hd & Hb & _).
    { eapply Forall_impl; [apply Hfit|]. naive_solver. }
    assert (bool_decide (revoke_descriptors_for_source s source_key = None)
              && bool_decide (ds = [])
            = bool_decide (ds = [] /\ descriptors_by_name next = descriptors_by_name s)) as ->
      by (rewrite <-bool_decide_and; apply bool_decide_ext; rewrite Hd1, Hsame; tauto).
    destruct (bool_decide _); [done|]. apply publish_implements; [done|].
    unfold catalog_of. by rewrite Hd, Hb, Hb1.
  - assert (ds <> []) as Hne by (intros ->; apply Hfit; split; by constructor).
    rewrite (bool_decide_false (ds = [])) by done. cbn [negb andb].
    destruct (validate_plugin_descriptor_batch next [] ds); [|done].
    destruct Hfit. by apply Hbatch.
Qed.

Lemma revoke_bindings_implements s source_key :
  registry_ok s ->
  implements s (catalog_step (catalog_of s) (RevokeBindings source_key))
    (revoke_mcp_bindings_for_source s source_key).
Proof.
  intros [Hd Hb]. unfold revoke_mcp_bindings_for_source. cbn [catalog_step]. rewrite refuse_source.
  destruct (foreign source_key) eqn:Hf; cbn [negb orb]; [|done]. apply foreign_named in Hf.
  destruct (revoke_bindings_spec _ source_key Hb Hf) as (Hok1 & Hb1 & Hsame).
  cbn [catalog_of cat_descriptors cat_bindings]. rewrite <-Hb1.
  destruct (revoke_binding_source _ _) as [next|]; simpl in *.
  - rewrite bool_decide_false by (by intros ?%Hsame). by apply publish_implements; [split|].
  - by rewrite bool_decide_true.
Qed.

Lemma bindings_implements s source_key bindings :
  registry_ok s ->
  implements s (catalog_step (catalog_of s) (UpsertBindings source_key bindings))
    (upsert_mcp_bindings s source_key bindings).
Proof.
  intros Hok. unfold upsert_mcp_bindings.
  destruct (bool_decide_reflect (bindings = [])) as [->|Hne].
  { pose proof (revoke_bindings_implements s source_key Hok) as H. cbn [catalog_step] in *.
    destruct (foreign source_key); cbn [negb orb] in *; [|done].
    rewrite (bool_decide_true (bindings_fit _ _)) by (split; by constructor). cbn [negb].
    rewrite bool_decide_and, bool_decide_true by done. done. }
  cbn [catalog_step]. rewrite refuse_source. destruct Hok as [Hd Hb].
  destruct (foreign source_key) eqn:Hf; cbn [negb]; [|done]. apply foreign_named in Hf.
  assert (validate_binding_batch s bindings = true <->
          Forall (fun b => binding_consistent b = true /\
            is_Some (descriptors_by_name s !! mb_internal_tool_name b)) bindings) as Hbatch.
  { unfold validate_binding_batch. rewrite forallb_forall, Forall_forall.
    split; intros H b Hin; apply list_elem_of_In in Hin; specialize (H b Hin);
      by rewrite ?andb_true_iff, ?bool_decide_eq_true in *. }
  destruct (bool_decide_reflect (bindings_fit (catalog_of s) bindings)) as [[Hfit Hnd]|Hfit]; cbn [negb].
  - rewrite (proj2 Hbatch Hfit). cbn [negb]. rewrite bool_decide_false by naive_solver.
    pose proof (replace_spec _ source_key bindings Hb Hf) as H.
    rewrite decide_True in H by done. destruct H as (b' & -> & Hok' & Hb').
    { eapply Forall_impl; [exact Hfit|]. naive_solver. }
    simpl. apply publish_implements; [by split|]. unfold catalog_of. simpl. by rewrite Hb'.
  - destruct (validate_binding_batch s bindings); [|done]. cbn [negb].
    assert (Forall _ bindings) as Hall by (by apply Hbatch).
    pose proof (replace_spec _ source_key bindings Hb Hf) as H.
    rewrite decide_False in H by (intros ?; by destruct Hfit).
    rewrite H; [done|]. eapply Forall_impl; [exact Hall|]. naive_solver.
Qed.

Lemma iff_both {P P' Q Q' : Prop} : (P <-> P') -> (Q <-> Q') -> P /\ Q <-> P' /\ Q'.
Proof. tauto. Qed.

Lemma revoke_implements s source_key :
  registry_ok s ->
  implements s (catalog_step (catalog_of s) (RevokeSource source_key)) (revoke_source s source_key).
Proof.
  intros Hok. unfold revoke_source. cbn [catalog_step]. rewrite refuse_source.
  destruct (foreign source_key) eqn:Hf; cbn [negb]; [|done]. apply foreign_named in Hf.
  destruct (revoke_spec s source_key Hok) as (Hok1 & Hd1 & Hb1 & _ & Hsame1).
  destruct (revoke_bindings_spec _ source_key (ro_bindings _ Hok1) Hf) as (Hok2 & Hb2 & Hsame2).
  rewrite Hb1 in Hok2, Hb2, Hsame2. cbn [catalog_of cat_descriptors cat_bindings].
  rewrite <-Hd1, <-Hb2, Hb1.
  rewrite <-bool_decide_and. rewrite (bool_decide_ext _ _ (iff_both Hsame1 Hsame2)).
  destruct (bool_decide _); [done|]. apply publish_implements; [split; [apply Hok1|done]|done].
Qed.

Lemma step_implements s op :
  registry_ok s -> implements s (catalog_step (catalog_of s) op) (registry_step s op).
Proof.
  destruct op; [apply register_implements|apply delta_implements|apply bindings_implements
    |apply revoke_bindings_implements|apply revoke_implements].
Qed.

Lemma step_ok s op : registry_ok s -> registry_ok (registry_step s op).2.
Proof.
  intros Hok. pose proof (step_implements s op Hok) as H. unfold implements in H.
  destruct (catalog_step _ _); [by destruct H|by rewrite H].
Qed.

Lemma new_registry_ok builtins : registry_ok (new_tool_registry builtins).
Proof.
  unfold new_tool_registry.
  assert (registry_ok empty_snapshot) as Hok by (split; apply exact_empty).
  revert Hok. generalize empty_snapshot.
  induction builtins as [|d builtins IH]; intros s Hok; [done|]. simpl. apply IH.
  unfold add_builtin. pose proof (upsert_spec s d kBuiltinSourceKey Hok ltac:(done)) as H.
  destruct (descriptor_valid d); [|by rewrite H].
  destruct H as (s' & -> & [? ?] & _). by split.
Qed.

Lemma run_ok builtins ops : registry_ok (registry_run (new_tool_registry builtins) ops).
Proof.
  pose proof (new_registry_ok builtins) as Hok. revert Hok. generalize (new_tool_registry builtins).
  induction ops as [|op ops IH]; intros s Hok; [done|]. by apply IH, step_ok.
Qed.

(** C14. After any history, every change of the registry is the change of the catalog: it
    succeeds exactly when the catalog accepts it, publishes then the catalog's new contents
    one revision further, with both indexes exact, and otherwise publishes nothing. *)
Theorem registry_refines_catalog builtins ops op :
  let s := registry_run (new_tool_registry builtins) ops in
  registry_ok s /\ implements s (catalog_step (catalog_of s) op) (registry_step s op).
Proof. split; [apply run_ok|apply step_implements, run_ok]. Qed.

Lemma put_all_other source_key rest ds name :
  (name ∉ descriptor_name <$> ds) ->
  foldl (put_descriptor source_key) rest ds !! name = rest !! name.
Proof.
  revert rest. induction ds as [|d ds IH]; intros rest; [done|].
  rewrite fmap_cons, not_elem_of_cons. intros [Hne Hnot]. simpl. rewrite IH by done.
  unfold put_descriptor. by rewrite lookup_insert_ne.
Qed.

Lemma put_all_own source_key rest ds d :
  d ∈ ds -> NoDup (descriptor_name <$> ds) ->
  foldl (put_descriptor source_key) rest ds !! descriptor_name d
  = Some {| tdr_descriptor := d; tdr_source_key := source_key |}.
Proof.
  revert rest. induction ds as [|d' ds IH]; intros rest; [by intros ?%elem_of_nil|].
  rewrite fmap_cons, NoDup_cons. intros [->|Hd]%elem_of_cons [Hnot Hnd]; simpl.
  - rewrite put_all_other by done. unfold put_descriptor. by rewrite lookup_insert_eq.
  - by apply IH.
Qed.

(** What a plugin may change. After any history, a batch of descriptors from a source
    leaves every tool of another source as it was; and if it is accepted, the source has
    exactly the tools of the batch, whatever it had before. *)
Theorem delta_changes_own_tools builtins ops source_key ds name r :
  let s := registry_run (new_tool_registry builtins) ops in
  let answer := apply_plugin_extension_delta s source_key ds in
  if decide (tdr_source_key r = source_key)
  then answer.1 = true ->
       (descriptors_by_name answer.2 !! name = Some r <->
        tdr_descriptor r ∈ ds /\ descriptor_name (tdr_descriptor r) = name)
  else descriptors_by_name answer.2 !! name = Some r <-> descriptors_by_name s !! name = Some r.
Proof.
  intros s answer. pose proof (delta_implements s source_key ds (run_ok _ _)) as H.
  fold answer in H. cbn [catalog_step catalog_of cat_descriptors] in H. unfold implements in H.
  clearbody answer.
  set (rest := without_source tdr_source_key source_key (descriptors_by_name s)) in *.
  destruct (foreign source_key); cbn [negb] in H; [|subst answer; by destruct (decide _)].
  destruct (bool_decide_reflect (batch_fits rest ds)) as [[Hfit Hnd]|]; cbn [negb] in H;
    [|subst answer; by destruct (decide _)].
  destruct (bool_decide _); [subst answer; by destruct (decide _)|].
  destruct H as (_ & _ & Hc & _). apply (f_equal cat_descriptors) in Hc. simpl in Hc.
  rewrite Hc. rewrite Forall_forall in Hfit.
  assert (forall v, rest !! name = Some v <->
    descriptors_by_name s !! name = Some v /\ tdr_source_key v <> source_key) as Hrest
    by (intros v; apply map_lookup_filter_Some).
  destruct (decide (name ∈ descriptor_name <$> ds)) as [Hin|Hout].
  - apply list_elem_of_fmap in Hin as (d & -> & Hd). rewrite (put_all_own _ _ _ d) by done.
    destruct (Hfit d Hd) as [_ Hnone]. destruct (decide _) as [Hs|Hs].
    + intros _. split; [by intros [= <-]|]. intros [Hr Hname]. f_equal. destruct r as [d' s'].
      simpl in *. subst s'. f_equal.
      pose proof (put_all_own source_key rest ds d' Hr Hnd) as H1. rewrite Hname in H1.
      pose proof (put_all_own source_key rest ds d Hd Hnd) as H2. congruence.
    + split; [by intros [= <-]|]. intros Hr.
      assert (rest !! descriptor_name d = Some r) by (by apply Hrest). congruence.
  - rewrite put_all_other by done.
    destruct (decide (tdr_source_key r = source_key)) as [Hs|Hs]; rewrite Hrest; [|tauto].
    intros _. split; [by intros []|]. intros [Hr <-]. destruct Hout. apply list_elem_of_fmap. eauto.
Qed.

(** What is listed is what resolves. *)
Lemma list_descriptors_spec snapshot descriptor :
  descriptor ∈ list_descriptors snapshot <->
  exists tool_name, resolve_descriptor snapshot tool_name = Some descriptor.
Proof.
  unfold list_descriptors, resolve_descriptor. rewrite list_elem_of_fmap.
  setoid_rewrite in_key_order_perm. setoid_rewrite fmap_Some. split.
  - intros ([tool_name record] & -> & Hin%elem_of_map_to_list). eauto.
  - intros (tool_name & record & Hin & ->). exists (tool_name, record).
    by rewrite elem_of_map_to_list.
Qed.

(** ** Examples *)

Definition sample_descriptor (name : string) (category : ToolCategory) (read_only : bool)
    : ToolDescriptor :=
  {| td_tool_name := Some name; td_display_name := None; td_category := Some category;
     td_capability_tier := None; td_is_read_only := Some read_only;
     td_supports_compensation := None; td_default_timeout_ms := None;
     td_input_schema_ref := None; td_output_schema_ref := None; td_required_scopes := None;
     td_tags := None; td_version := None |}.

Definition sample_tool : ToolDescriptor := sample_descriptor "t" ToolCategory.Information true.

Definition sample_binding : MCPToolBinding :=
  {| mb_internal_tool_name := "t"; mb_remote_tool_name := "remote"; mb_server_id := "server";
     mb_remote_capability_id := None; mb_input_schema_ref := None |}.

(** A plugin brings a tool, a server binds it, and the plugin goes. *)
Definition sample_history : list RegistryOp :=
  [ApplyDelta "plugin" [sample_tool]; UpsertBindings "server" [sample_binding];
   RevokeSource "plugin"].

(** A binding outlives its tool: the tool that another plugin registers under the same name
    inherits it. *)
Example binding_outlives_tool :
  let s := registry_run (new_tool_registry []) sample_history in
  resolve_descriptor s "t" = None /\ list_mcp_bindings s "t" = [sample_binding] /\
  let '(ok, s') := apply_plugin_extension_delta s "other" [sample_tool] in
  ok = true /\ list_mcp_bindings s' "t" = [sample_binding].
Proof. vm_compute. done. Qed.

Lemma delta_changes_own_tools_witness :
  let s := registry_run (new_tool_registry []) sample_history in
  let answer := apply_plugin_extension_delta s "other" [sample_tool] in
  answer.1 = true /\
  (descriptors_by_name answer.2 !! "t"
     = Some {| tdr_descriptor := sample_tool; tdr_source_key := "other" |} <->
   sample_tool ∈ [sample_tool] /\ descriptor_name sample_tool = "t").
Proof.
  split; [vm_compute; reflexivity|].
  exact (delta_changes_own_tools [] sample_history "other" [sample_tool] "t"
           {| tdr_descriptor := sample_tool; tdr_source_key := "other" |}
           ltac:(vm_compute; reflexivity)).
Defined.
