(* ===== verification/ToolRouting.v ===== *)
(** * Admission, lanes and routes of tool calls

    tools/include/IPolicyGate.h and tools/src/policy/ToolPolicyGate.cpp (who may call what),
    tools/src/execution/ExecutorLanePool.{h,cpp} (how many calls run at once) and
    tools/src/route/ToolRouteSelector.{h,cpp} (where a call runs). *)

From S2P Require Import Prelude ErrorCodes CheckpointContracts Text RecoveryContracts ToolContracts ToolRegistry.

(** ** Policy gate *)

Record ToolPolicyView := {
  tpv_effective_profile_id : string;
  tpv_safe_mode_enabled : bool;
  tpv_high_risk_confirmation_required : bool;
  tpv_audit_level : string;
  tpv_allowed_tool_domains : list string;
  tpv_tool_visibility_rules : list string;
}.

Record ToolAdmissionRequest := {
  tar_tool_name : string;
  tar_required_scopes : list string;
  tar_caller_domain : option string;
  tar_high_risk : bool;
  tar_confirmation_present : bool;
  tar_route_proven : bool;
}.

(** [allowed()] is the effect. *)
Record ToolAdmissionDecision := {
  tad_allowed : bool;
  tad_reason_code : string;
  tad_confirmation_required : bool;
  tad_retryable : bool;
}.

Definition deny (reason_code : string) (confirmation_required retryable : bool)
    : ToolAdmissionDecision :=
  {| tad_allowed := false; tad_reason_code := reason_code;
     tad_confirmation_required := confirmation_required; tad_retryable := retryable |}.

Definition allow : ToolAdmissionDecision :=
  {| tad_allowed := true; tad_reason_code := "policy.allowed";
     tad_confirmation_required := false; tad_retryable := false |}.

Definition check_policy_view (policy_view : ToolPolicyView) : option ToolAdmissionDecision :=
  if is_empty (tpv_effective_profile_id policy_view) || is_empty (tpv_audit_level policy_view)
     || bool_decide (tpv_allowed_tool_domains policy_view = [])
     || bool_decide (tpv_tool_visibility_rules policy_view = [])
  then Some (deny "policy.profile_missing" false false) else None.

Definition check_safe_mode (request : ToolAdmissionRequest) (policy_view : ToolPolicyView)
    : option ToolAdmissionDecision :=
  if tpv_safe_mode_enabled policy_view && negb (tar_route_proven request)
  then Some (deny "policy.safe_mode_route_unproven" false true) else None.

Definition check_allowed_domain (request : ToolAdmissionRequest) (policy_view : ToolPolicyView)
    : option ToolAdmissionDecision :=
  let missing := Some (deny "policy.domain_missing" false false) in
  let? caller_domain := tar_caller_domain request else missing in
  if is_empty caller_domain then missing else
  if bool_decide (caller_domain ∈ tpv_allowed_tool_domains policy_view) then None else
  Some (deny "policy.domain_denied" false false).

(** [rule.find(':')]: what is before and after the first colon. *)
Fixpoint split_rule (rule : string) : option (string * string) :=
  match rule with
  | EmptyString => None
  | String ch rest =>
      if bool_decide (ch = ":"%char) then Some ("", rest) else
      match split_rule rest with
      | Some (domain, selector) => Some (String ch domain, selector)
      | None => None
      end
  end.

(** [selector.back()] and [selector.substr(0, size - 1)] of a selector that is not empty. *)
Fixpoint split_last (selector : string) : option (string * Ascii.ascii) :=
  match selector with
  | EmptyString => None
  | String ch rest =>
      match split_last rest with
      | None => Some ("", ch)
      | Some (prefix, last) => Some (String ch prefix, last)
      end
  end.

Definition selects (request : ToolAdmissionRequest) (selector : string) : bool :=
  if bool_decide (selector = "all") then true else
  if bool_decide (selector = "trusted") then tar_route_proven request else
  if bool_decide (selector = tar_tool_name request) then true else
  if match split_last selector with
     | Some (prefix, last) =>
         bool_decide (last = "*"%char) && String.prefix prefix (tar_tool_name request)
     | None => false
     end then true else
  bool_decide (selector ∈ tar_required_scopes request).

Definition matches_visibility_rule (request : ToolAdmissionRequest) (rule : string) : bool :=
  match split_rule rule, tar_caller_domain request with
  | Some (domain, selector), Some caller_domain =>
      bool_decide (domain = caller_domain) && selects request selector
  | _, _ => false
  end.

Definition check_visibility (request : ToolAdmissionRequest) (policy_view : ToolPolicyView)
    : option ToolAdmissionDecision :=
  if existsb (matches_visibility_rule request) (tpv_tool_visibility_rules policy_view) then None
  else Some (deny "policy.visibility_denied" false false).

Definition check_confirmation (request : ToolAdmissionRequest) (policy_view : ToolPolicyView)
    : option ToolAdmissionDecision :=
  if tar_high_risk request && tpv_high_risk_confirmation_required policy_view
     && negb (tar_confirmation_present request)
  then Some (deny "policy.confirmation_required" true true) else None.

(** The first check that decides. *)
Definition evaluate_policy (request : ToolAdmissionRequest) (policy_view : ToolPolicyView)
    : ToolAdmissionDecision :=
  match check_policy_view policy_view with Some decision => decision | None =>
  match check_safe_mode request policy_view with Some decision => decision | None =>
  match check_allowed_domain request policy_view with Some decision => decision | None =>
  match check_visibility request policy_view with Some decision => decision | None =>
  match check_confirmation request policy_view with Some decision => decision | None =>
  allow end end end end end.

(** ** Lanes *)

Record ToolLaneTimeoutBudget := {
  ltb_timeout_ms : Z;
  ltb_retry_budget : Z;
  ltb_circuit_breaker_threshold : Z;
}.

Record ToolTimeoutView := {
  ttv_tool : ToolLaneTimeoutBudget;
  ttv_mcp : ToolLaneTimeoutBudget;
  ttv_workflow : ToolLaneTimeoutBudget;
  ttv_max_tool_calls : Z;
  ttv_builtin_lane_enabled : bool;
  ttv_mcp_lane_enabled : bool;
  ttv_multi_agent_enabled : bool;
  ttv_capability_refresh_interval_ms : Z;
  ttv_capability_expire_after_ms : Z;
  ttv_stale_read_allowed : bool;
  ttv_capability_failure_backoff_ms : Z;
  ttv_snapshot_fingerprint : Z;
}.

Module ExecutorLaneKind.
Inductive ExecutorLaneKind := Unavailable | Builtin | Workflow | MCP.
#[global] Instance ExecutorLaneKind_eq_dec : EqDecision ExecutorLaneKind.
Proof. solve_decision. Defined.
End ExecutorLaneKind.
Abbreviation ExecutorLaneKind := ExecutorLaneKind.ExecutorLaneKind.

Record LaneReservation := {
  lr_kind : ExecutorLaneKind;
  lr_lane_key : string;
  lr_available : bool;
  lr_concurrency_budget : Z;
}.

Record LaneAcquireResult := {
  lar_reservation : LaneReservation;
  lar_acquired : bool;
  lar_reason_code : string;
  lar_inflight : Z;
}.

Record LaneCounters := {
  lc_concurrency_budget : Z;
  lc_inflight : Z;
}.

(** [counters_by_lane], the state every copy of the pool shares. *)
Abbreviation ExecutorLanePool := (gmap string LaneCounters).

Definition backpressure_reason_code (kind : ExecutorLaneKind) : string :=
  match kind with
  | ExecutorLaneKind.Builtin => "lane.builtin.backpressure"
  | ExecutorLaneKind.Workflow => "lane.workflow.backpressure"
  | ExecutorLaneKind.MCP => "lane.mcp.backpressure"
  | ExecutorLaneKind.Unavailable => "lane.unavailable"
  end.

Definition reserve (kind : ExecutorLaneKind) (lane_key : string) (available : bool)
    (timeout_view : ToolTimeoutView) : LaneReservation :=
  {| lr_kind := if available then kind else ExecutorLaneKind.Unavailable;
     lr_lane_key := lane_key; lr_available := available;
     lr_concurrency_budget := if available then ttv_max_tool_calls timeout_view else 0 |}.

Definition reserve_builtin (timeout_view : ToolTimeoutView) : LaneReservation :=
  let available := ttv_builtin_lane_enabled timeout_view
                   && (0 <? ttv_max_tool_calls timeout_view)
                   && (0 <? ltb_timeout_ms (ttv_tool timeout_view)) in
  reserve ExecutorLaneKind.Builtin "builtin" available timeout_view.

Definition reserve_workflow (timeout_view : ToolTimeoutView) : LaneReservation :=
  let available := (0 <? ttv_max_tool_calls timeout_view)
                   && (0 <? ltb_timeout_ms (ttv_workflow timeout_view)) in
  reserve ExecutorLaneKind.Workflow "workflow" available timeout_view.

Definition reserve_mcp (server_id : string) (timeout_view : ToolTimeoutView) : LaneReservation :=
  let available := ttv_mcp_lane_enabled timeout_view
                   && (0 <? ttv_max_tool_calls timeout_view)
                   && (0 <? ltb_timeout_ms (ttv_mcp timeout_view))
                   && negb (is_empty server_id) in
  reserve ExecutorLaneKind.MCP (if available then "mcp:" +:+ server_id else "mcp") available
    timeout_view.

Definition acquire_lane (pool : ExecutorLanePool) (reservation : LaneReservation)
    (reason_code : string) : ExecutorLanePool * LaneAcquireResult :=
  let result acquired reason_code inflight :=
    {| lar_reservation := reservation; lar_acquired := acquired;
       lar_reason_code := reason_code; lar_inflight := inflight |} in
  if negb (lr_available reservation) || (lr_concurrency_budget reservation =? 0)
     || is_empty (lr_lane_key reservation)
  then (pool, result false reason_code 0) else
  let inflight :=
    let? counters := pool !! lr_lane_key reservation else 0 in lc_inflight counters in
  let stored inflight :=
    <[lr_lane_key reservation :=
        {| lc_concurrency_budget := lr_concurrency_budget reservation;
           lc_inflight := inflight |}]> pool in
  if lr_concurrency_budget reservation <=? inflight
  then (stored inflight, result false reason_code inflight)
  else (stored (u32 (inflight + 1)), result true "" (u32 (inflight + 1))).

Definition acquire_builtin (pool : ExecutorLanePool) (timeout_view : ToolTimeoutView) :=
  acquire_lane pool (reserve_builtin timeout_view)
    (backpressure_reason_code ExecutorLaneKind.Builtin).

Definition acquire_workflow (pool : ExecutorLanePool) (timeout_view : ToolTimeoutView) :=
  acquire_lane pool (reserve_workflow timeout_view)
    (backpressure_reason_code ExecutorLaneKind.Workflow).

Definition acquire_mcp (pool : ExecutorLanePool) (server_id : string)
    (timeout_view : ToolTimeoutView) :=
  acquire_lane pool (reserve_mcp server_id timeout_view)
    (backpressure_reason_code ExecutorLaneKind.MCP).

Definition release_lane (pool : ExecutorLanePool) (lane_key : string) : ExecutorLanePool :=
  if is_empty lane_key then pool else
  let? counters := pool !! lane_key else pool in
  if lc_inflight counters =? 0 then pool else
  <[lane_key := {| lc_concurrency_budget := lc_concurrency_budget counters;
                   lc_inflight := lc_inflight counters - 1 |}]> pool.

(** ** Routes *)

Module CapabilityFreshness.
Inductive CapabilityFreshness := fresh | stale | expired.
#[global] Instance CapabilityFreshness_eq_dec : EqDecision CapabilityFreshness.
Proof. solve_decision. Defined.
End CapabilityFreshness.
Abbreviation CapabilityFreshness := CapabilityFreshness.CapabilityFreshness.

Record CapabilityEntry := {
  ce_capability_id : string;
  ce_capability_version : string;
  ce_tool_names : list string;
}.

Record CapabilitySnapshot := {
  cs_server_id : string;
  cs_entries : list CapabilityEntry;
  cs_freshness : CapabilityFreshness;
  cs_last_refresh_at_ms : option Z;
  cs_last_error : option string;
  cs_trust_marker : option string;
}.

Record ToolRouteHealthSnapshot := {
  trh_builtin_lane_healthy : bool;
  trh_workflow_lane_healthy : bool;
  trh_mcp_lane_healthy : bool;
}.

Record ToolRouteDecision := {
  trd_available : bool;
  trd_route : ToolIRRoute;
  trd_lane_key : string;
  trd_reason_code : string;
  trd_uses_stale_snapshot : bool;
  trd_server_id : option string;
}.

Definition kBuiltinBaseScore : Z := 60.
Definition kBuiltinRouteHintBonus : Z := 20.
Definition kBuiltinReadOnlyBonus : Z := 5.
Definition kMCPBaseScore : Z := 50.
Definition kMCPRoutePreferenceBonus : Z := 25.
Definition kMCPFreshSnapshotBonus : Z := 15.

Definition unavailable (reason_code : string) : ToolRouteDecision :=
  {| trd_available := false; trd_route := ToolIRRoute.Unspecified;
     trd_lane_key := "unavailable"; trd_reason_code := reason_code;
     trd_uses_stale_snapshot := false; trd_server_id := None |}.

Definition is_workflow_like (descriptor : ToolDescriptor) : bool :=
  bool_decide (td_category descriptor = Some ToolCategory.Workflow)
  || bool_decide (td_category descriptor = Some ToolCategory.AgentDelegation).

Definition is_agent_delegation (descriptor : ToolDescriptor) : bool :=
  bool_decide (td_category descriptor = Some ToolCategory.AgentDelegation).

Definition snapshot_supports_binding (snapshot : CapabilitySnapshot) (binding : MCPToolBinding)
    : bool :=
  existsb (fun entry =>
    match mb_remote_capability_id binding with
    | Some capability_id => bool_decide (capability_id = ce_capability_id entry)
    | None => true
    end && bool_decide (mb_remote_tool_name binding ∈ ce_tool_names entry))
    (cs_entries snapshot).

Definition may_use_stale_snapshot (timeout_view : ToolTimeoutView) (snapshot : CapabilitySnapshot)
    : bool :=
  ttv_stale_read_allowed timeout_view && has_non_empty_value (cs_trust_marker snapshot).

Definition prefers_mcp (tool_ir : ToolIR) : bool :=
  bool_decide (ir_route tool_ir = Some ToolIRRoute.MCPRemote).

(** The first binding of the snapshot's server that the snapshot supports. *)
Definition selected_binding (bindings : list MCPToolBinding) (snapshot : CapabilitySnapshot)
    : option MCPToolBinding :=
  List.find (fun binding => bool_decide (mb_server_id binding = cs_server_id snapshot)
                            && snapshot_supports_binding snapshot binding) bindings.

Definition score_builtin_candidate (tool_ir : ToolIR) (descriptor : ToolDescriptor)
    (timeout_view : ToolTimeoutView) (health : ToolRouteHealthSnapshot) : Z :=
  if negb (ttv_builtin_lane_enabled timeout_view) || negb (trh_builtin_lane_healthy health)
  then 0 else
  if bool_decide (td_category descriptor = None) || is_workflow_like descriptor then 0 else
  kBuiltinBaseScore
  + (if bool_decide (ir_route tool_ir = Some ToolIRRoute.LocalTool)
     then kBuiltinRouteHintBonus else 0)
  + (if default false (td_is_read_only descriptor) then kBuiltinReadOnlyBonus else 0).

Definition score_mcp_candidate (tool_ir : ToolIR) (timeout_view : ToolTimeoutView)
    (bindings : list MCPToolBinding) (capability_snapshot : option CapabilitySnapshot)
    (health : ToolRouteHealthSnapshot) : Z :=
  if negb (ttv_mcp_lane_enabled timeout_view) || negb (trh_mcp_lane_healthy health)
     || bool_decide (bindings = []) then 0 else
  let? snapshot := capability_snapshot else 0 in
  if bool_decide (cs_freshness snapshot = CapabilityFreshness.expired) then 0 else
  if bool_decide (cs_freshness snapshot = CapabilityFreshness.stale)
     && negb (may_use_stale_snapshot timeout_view snapshot) then 0 else
  if bool_decide (selected_binding bindings snapshot = None) then 0 else
  kMCPBaseScore
  + (if prefers_mcp tool_ir then kMCPRoutePreferenceBonus else 0)
  + (if bool_decide (cs_freshness snapshot = CapabilityFreshness.fresh)
     then kMCPFreshSnapshotBonus else 0).

Definition selected_route (route : ToolIRRoute) (reservation : LaneReservation)
    (reason_code : string) (uses_stale_snapshot : bool) (server_id : option string)
    : ToolRouteDecision :=
  {| trd_available := true; trd_route := route; trd_lane_key := lr_lane_key reservation;
     trd_reason_code := reason_code; trd_uses_stale_snapshot := uses_stale_snapshot;
     trd_server_id := server_id |}.

Definition select_workflow_route (descriptor : ToolDescriptor) (timeout_view : ToolTimeoutView)
    (health : ToolRouteHealthSnapshot) : ToolRouteDecision :=
  if negb (trh_workflow_lane_healthy health) then unavailable "RouteUnavailable" else
  if is_agent_delegation descriptor && negb (ttv_multi_agent_enabled timeout_view)
  then unavailable "route.agent_delegation_disabled" else
  let reservation := reserve_workflow timeout_view in
  if negb (lr_available reservation) then unavailable "RouteUnavailable" else
  selected_route ToolIRRoute.WorkflowEngine reservation "route.workflow.selected" false None.

Definition build_builtin_decision (timeout_view : ToolTimeoutView) : ToolRouteDecision :=
  let reservation := reserve_builtin timeout_view in
  if negb (lr_available reservation) then unavailable "RouteUnavailable" else
  selected_route ToolIRRoute.LocalTool reservation "route.builtin.selected" false None.

Definition build_mcp_decision (binding : MCPToolBinding) (timeout_view : ToolTimeoutView)
    (uses_stale_snapshot : bool) : ToolRouteDecision :=
  let reservation := reserve_mcp (mb_server_id binding) timeout_view in
  if negb (lr_available reservation) then unavailable "RouteUnavailable" else
  selected_route ToolIRRoute.MCPRemote reservation
    (if uses_stale_snapshot then "route.mcp.stale_fallback" else "route.mcp.selected")
    uses_stale_snapshot (Some (mb_server_id binding)).

(** The MCP decision for the first supported binding, if there is one. *)
Definition mcp_decision (timeout_view : ToolTimeoutView) (bindings : list MCPToolBinding)
    (capability_snapshot : option CapabilitySnapshot) : option ToolRouteDecision :=
  let? snapshot := capability_snapshot else None in
  let? binding := selected_binding bindings snapshot else None in
  Some (build_mcp_decision binding timeout_view
          (bool_decide (cs_freshness snapshot = CapabilityFreshness.stale))).

Definition select_route (tool_ir : ToolIR) (descriptor : ToolDescriptor)
    (timeout_view : ToolTimeoutView) (bindings : list MCPToolBinding)
    (capability_snapshot : option CapabilitySnapshot) (health : ToolRouteHealthSnapshot)
    : ToolRouteDecision :=
  if is_workflow_like descriptor then select_workflow_route descriptor timeout_view health else
  let builtin_score := score_builtin_candidate tool_ir descriptor timeout_view health in
  let mcp_score := score_mcp_candidate tool_ir timeout_view bindings capability_snapshot health in
  if (builtin_score <=? 0) && (mcp_score <=? 0) then unavailable "RouteUnavailable" else
  let by_mcp := mcp_decision timeout_view bindings capability_snapshot in
  match (if builtin_score <? mcp_score then by_mcp else None) with
  | Some decision => decision
  | None =>
      if 0 <? builtin_score then build_builtin_decision timeout_view else
      match (if 0 <? mcp_score then by_mcp else None) with
      | Some decision => decision
      | None => unavailable "RouteUnavailable"
      end
  end.

(** ** What the gate admits *)

Fixpoint no_colon (s : string) : bool :=
  match s with
  | EmptyString => true
  | String ch rest => negb (bool_decide (ch = ":"%char)) && no_colon rest
  end.

Lemma split_rule_some rule domain selector :
  split_rule rule = Some (domain, selector) <->
  rule = domain +:+ String ":" selector /\ no_colon domain = true.
Proof.
  revert domain selector. induction rule as [|ch rest IH]; intros domain selector; simpl.
  { split; [done|]. by intros [E _]; destruct domain. }
  destruct (bool_decide_reflect (ch = ":"%char)) as [->|Hch].
  - split; [by intros [= <- <-]|]. intros [E Hd]. destruct domain as [|c domain]; [by injection E as <-|].
    injection E as <- _. done.
  - split.
    + destruct (split_rule rest) as [[d s]|]; [|done]. intros [= <- <-].
      destruct (proj1 (IH d s) eq_refl) as [-> Hd]. split; [done|].
      simpl. by rewrite bool_decide_false, Hd.
    + intros [Heq Hd]. destruct domain as [|c domain]; [by injection Heq as -> _|].
      injection Heq as <- Heq. simpl in Hd. apply andb_true_iff in Hd as [_ Hd].
      by rewrite (proj2 (IH domain selector) (conj Heq Hd)).
Qed.

Lemma split_last_some s prefix last :
  split_last s = Some (prefix, last) <-> s = prefix +:+ String last "".
Proof.
  revert prefix last. induction s as [|ch rest IH]; intros prefix last; simpl.
  { split; [done|]. by intros E; destruct prefix. }
  split.
  - destruct (split_last rest) as [[p l]|] eqn:E.
    + intros [= <- <-]. by rewrite (proj1 (IH p l) eq_refl).
    + intros [= <- <-]. destruct rest; [done|]. simpl in E. by destruct (split_last rest) as [[]|].
  - intros Heq. destruct prefix as [|c prefix]; injection Heq as <- Heq.
    + by subst rest.
    + by rewrite (proj2 (IH prefix last) Heq).
Qed.

(** The selectors that show a tool: everything, the proven route, the tool, a prefix of its
    name, a scope it needs. *)
Definition shows (request : ToolAdmissionRequest) (selector : string) : Prop :=
  selector = "all" \/ selector = "trusted" /\ tar_route_proven request = true \/
  selector <> "trusted" /\
  (selector = tar_tool_name request \/ selector ∈ tar_required_scopes request \/
   exists prefix, selector = prefix +:+ "*" /\
     String.prefix prefix (tar_tool_name request) = true).

Lemma selects_shows request selector : selects request selector = true <-> shows request selector.
Proof.
  unfold selects, shows.
  destruct (bool_decide_reflect (selector = "all")) as [->|Hall]; [by split; [left|]|].
  destruct (bool_decide_reflect (selector = "trusted")) as [->|Htrusted].
  { split; [by right; left|]. by intros [?|[[_ ?]|[? _]]]. }
  destruct (bool_decide_reflect (selector = tar_tool_name request)) as [Hname|Hname].
  { split; [|done]. intros _. right; right. split; [done|]. by left. }
  destruct (split_last selector) as [[prefix last]|] eqn:E.
  - pose proof E as Hsel. apply split_last_some in Hsel.
    destruct (bool_decide_reflect (last = "*"%char)) as [->|Hlast];
      [destruct (String.prefix prefix (tar_tool_name request)) eqn:Hp|]; simpl.
    + split; [|done]. intros _. right; right. split; [done|]. right; right. by exists prefix.
    + rewrite bool_decide_eq_true. split; [by right; right; split; [|right; left]|].
      intros [?|[[? _]|(_ & [?|[?|(p & Hp1 & Hp2)]])]]; try done.
      assert (split_last selector = Some (p, "*"%char)) as H by (by apply split_last_some).
      congruence.
    + rewrite bool_decide_eq_true. split; [by right; right; split; [|right; left]|].
      intros [?|[[? _]|(_ & [?|[?|(p & Hp1 & Hp2)]])]]; try done.
      assert (split_last selector = Some (p, "*"%char)) as H by (by apply split_last_some).
      congruence.
  - rewrite bool_decide_eq_true. split; [by right; right; split; [|right; left]|].
    intros [?|[[? _]|(_ & [?|[?|(p & Hp1 & Hp2)]])]]; try done.
    assert (split_last selector = Some (p, "*"%char)) as H by (by apply split_last_some).
    congruence.
Qed.

Record admissible (request : ToolAdmissionRequest) (view : ToolPolicyView) : Prop := {
  ad_view : tpv_effective_profile_id view <> "" /\ tpv_audit_level view <> "" /\
            tpv_allowed_tool_domains view <> [] /\ tpv_tool_visibility_rules view <> [];
  ad_safe : tpv_safe_mode_enabled view = true -> tar_route_proven request = true;
  ad_domain : exists domain selector,
    tar_caller_domain request = Some domain /\ domain <> "" /\ no_colon domain = true /\
    domain ∈ tpv_allowed_tool_domains view /\
    domain +:+ String ":" selector ∈ tpv_tool_visibility_rules view /\ shows request selector;
  ad_confirmed : tar_high_risk request = true ->
    tpv_high_risk_confirmation_required view = true -> tar_confirmation_present request = true;
}.

Lemma view_checked view :
  check_policy_view view = None <->
  tpv_effective_profile_id view <> "" /\ tpv_audit_level view <> "" /\
  tpv_allowed_tool_domains view <> [] /\ tpv_tool_visibility_rules view <> [].
Proof.
  unfold check_policy_view. destruct (_ || _) eqn:E.
  - split; [done|]. intros (? & ? & ? & ?). reflect_tests. tauto.
  - apply orb_false_iff in E as [[[? ?]%orb_false_iff ?]%orb_false_iff ?].
    reflect_tests. tauto.
Qed.

Lemma safe_mode_checked request view :
  check_safe_mode request view = None <->
  (tpv_safe_mode_enabled view = true -> tar_route_proven request = true).
Proof.
  unfold check_safe_mode. by destruct (tpv_safe_mode_enabled view), (tar_route_proven request);
    split; try done; intros H; discriminate (H eq_refl).
Qed.

Lemma confirmation_checked request view :
  check_confirmation request view = None <->
  (tar_high_risk request = true -> tpv_high_risk_confirmation_required view = true ->
   tar_confirmation_present request = true).
Proof.
  unfold check_confirmation.
  by destruct (tar_high_risk request), (tpv_high_risk_confirmation_required view),
    (tar_confirmation_present request); split; try done; intros H; discriminate (H eq_refl eq_refl).
Qed.

Lemma domain_checked request view :
  check_allowed_domain request view = None /\ check_visibility request view = None <->
  exists domain selector,
    tar_caller_domain request = Some domain /\ domain <> "" /\ no_colon domain = true /\
    domain ∈ tpv_allowed_tool_domains view /\
    domain +:+ String ":" selector ∈ tpv_tool_visibility_rules view /\ shows request selector.
Proof.
  assert (check_visibility request view = None <->
    exists rule, rule ∈ tpv_tool_visibility_rules view /\
      matches_visibility_rule request rule = true) as ->.
  { unfold check_visibility. setoid_rewrite list_elem_of_In. rewrite <-existsb_exists.
    by destruct (existsb _ _). }
  unfold check_allowed_domain, matches_visibility_rule.
  destruct (tar_caller_domain request) as [domain|];
    [|split; [by intros [? _]|by intros (? & ? & ? & _)]].
  destruct (is_empty domain) eqn:He.
  { split; [by intros [? _]|]. intros (? & ? & [= <-] & Hne & _).
    by apply is_empty_true in He. }
  apply is_empty_false in He. case_bool_decide as Hin;
    [|split; [by intros [? _]|by intros (? & ? & [= <-] & _ & _ & ? & _)]].
  split.
  - intros (_ & rule & Hrule & Hm). destruct (split_rule rule) as [[d selector]|] eqn:Es; [|done].
    apply split_rule_some in Es as [-> Hcolon].
    apply andb_true_iff in Hm as [->%bool_decide_eq_true Hm%selects_shows]. by exists domain, selector.
  - intros (? & selector & [= <-] & _ & Hcolon & _ & Hrule & Hshows). split; [done|].
    eexists. split; [exact Hrule|].
    rewrite (proj2 (split_rule_some _ domain selector)) by done.
    rewrite bool_decide_true by done. by apply selects_shows.
Qed.

(** The first four checks deny without asking for a confirmation. *)
Lemma early_denial request view d :
  check_policy_view view = Some d \/ check_safe_mode request view = Some d \/
  check_allowed_domain request view = Some d \/ check_visibility request view = Some d ->
  tad_allowed d = false /\ tad_confirmation_required d = false.
Proof.
  unfold check_policy_view, check_safe_mode, check_allowed_domain, check_visibility.
  intros [H|[H|[H|H]]]; split_in H.
Qed.

(** What the gate answers. *)
Lemma gate_cases request view :
  let decision := evaluate_policy request view in
  admissible request view /\ decision = allow \/
  ~ admissible request view /\ tad_allowed decision = false /\
  (tad_confirmation_required decision = false \/
   check_policy_view view = None /\ check_safe_mode request view = None /\
   (check_allowed_domain request view = None /\ check_visibility request view = None) /\
   check_confirmation request view = Some decision).
Proof.
  pose proof (view_checked view) as H1. pose proof (safe_mode_checked request view) as H2.
  pose proof (domain_checked request view) as H3.
  pose proof (confirmation_checked request view) as H4.
  pose proof (early_denial request view) as Hearly. simpl. unfold evaluate_policy.
  destruct (check_policy_view view) as [d|]; [right; split_and!|].
  { intros [Ha _ _ _]. by apply H1 in Ha. }
  { apply Hearly. by left. }
  { left. apply Hearly. by left. }
  destruct (check_safe_mode request view) as [d|]; [right; split_and!|].
  { intros [_ Ha _ _]. by apply H2 in Ha. }
  { apply Hearly. by right; left. }
  { left. apply Hearly. by right; left. }
  destruct (check_allowed_domain request view) as [d|]; [right; split_and!|].
  { intros [_ _ Ha _]. by apply H3 in Ha as [? _]. }
  { apply Hearly. by right; right; left. }
  { left. apply Hearly. by right; right; left. }
  destruct (check_visibility request view) as [d|]; [right; split_and!|].
  { intros [_ _ Ha _]. by apply H3 in Ha as [_ ?]. }
  { apply Hearly. by right; right; right. }
  { left. apply Hearly. by right; right; right. }
  destruct (check_confirmation request view) as [d|] eqn:E; [right; split_and!|left; split].
  { intros [_ _ _ Ha]. by apply H4 in Ha. }
  { unfold check_confirmation in E. by split_in E. }
  { by right. }
  { split; [by apply H1|by apply H2|by apply H3|by apply H4]. }
  done.
Qed.

(** The policy gate admits a call exactly when the policy is complete, the route is
    proven if the safe mode asks for it, the domain is allowed, a rule of that domain shows
    the tool, and a high risk is confirmed where the policy asks for it; and only a missing
    confirmation is answered by a request for one. *)
Theorem policy_gate_exact request view :
  let decision := evaluate_policy request view in
  (tad_allowed decision = true <-> admissible request view) /\
  (tad_confirmation_required decision = true ->
   tar_confirmation_present request = false /\
   admissible {| tar_tool_name := tar_tool_name request;
                 tar_required_scopes := tar_required_scopes request;
                 tar_caller_domain := tar_caller_domain request;
                 tar_high_risk := tar_high_risk request; tar_confirmation_present := true;
                 tar_route_proven := tar_route_proven request |} view).
Proof.
  destruct (gate_cases request view) as [[Ha Hd]|(Hn & Hd & Hc)]; simpl.
  { rewrite Hd. by split. }
  rewrite Hd. split; [by split|]. intros Hreq.
  destruct Hc as [Hc|(Hv & Hs & Hdom & Hconf)]; [congruence|]. split.
  - unfold check_confirmation in Hconf. destruct (tar_confirmation_present request); [|done].
    by rewrite andb_false_r in Hconf.
  - split; [by apply view_checked|exact (proj1 (safe_mode_checked _ _) Hs)
      |exact (proj1 (domain_checked _ _) Hdom)|done].
Qed.

(** ** Lanes as semaphores *)

Definition lane_inflight (pool : ExecutorLanePool) (lane_key : string) : Z :=
  default 0 (lc_inflight <$> pool !! lane_key).

Definition held_count (held : list string) (lane_key : string) : Z :=
  Z.of_nat (length (filter (fun key => key = lane_key) held)).

(** The pool and the permits its users hold, each a lane's key. A permit is given back by
    who holds it, as the scope guard of a tool call does; [limit] bounds what any call asks
    for on a lane. *)
Inductive permit_step (limit : string -> Z)
    : ExecutorLanePool * list string -> ExecutorLanePool * list string -> Prop :=
| permit_granted pool held reservation reason pool' result :
    in_u32 (lr_concurrency_budget reservation) ->
    lr_concurrency_budget reservation <= limit (lr_lane_key reservation) ->
    acquire_lane pool reservation reason = (pool', result) -> lar_acquired result = true ->
    permit_step limit (pool, held) (pool', lr_lane_key reservation :: held)
| permit_refused pool held reservation reason pool' result :
    in_u32 (lr_concurrency_budget reservation) ->
    acquire_lane pool reservation reason = (pool', result) -> lar_acquired result = false ->
    permit_step limit (pool, held) (pool', held)
| permit_released pool held held' lane_key :
    held ≡ₚ lane_key :: held' ->
    permit_step limit (pool, held) (release_lane pool lane_key, held').

Lemma held_cons held key lane_key :
  held_count (key :: held) lane_key
  = held_count held lane_key + (if decide (key = lane_key) then 1 else 0).
Proof. unfold held_count. rewrite filter_cons. destruct (decide _); simpl; lia. Qed.

Lemma held_permutation held held' lane_key :
  held ≡ₚ held' -> held_count held lane_key = held_count held' lane_key.
Proof. intros H. unfold held_count. by rewrite H. Qed.

Lemma inflight_insert pool key counters lane_key :
  lane_inflight (<[key := counters]> pool) lane_key
  = if decide (key = lane_key) then lc_inflight counters else lane_inflight pool lane_key.
Proof.
  unfold lane_inflight. rewrite lookup_insert. by destruct (decide _).
Qed.

(** What an acquisition does, when the count it finds is one. *)
Lemma acquire_spec pool reservation reason :
  let key := lr_lane_key reservation in
  let '(pool', result) := acquire_lane pool reservation reason in
  0 <= lane_inflight pool key -> in_u32 (lr_concurrency_budget reservation) ->
  (lar_acquired result = true <->
   lr_available reservation = true /\ key <> "" /\
   lane_inflight pool key < lr_concurrency_budget reservation) /\
  forall lane_key, lane_inflight pool' lane_key
    = lane_inflight pool lane_key
      + (if decide (key = lane_key) then if lar_acquired result then 1 else 0 else 0).
Proof.
  unfold acquire_lane. cbv zeta.
  assert ((let? counters := pool !! lr_lane_key reservation else 0 in lc_inflight counters)
          = lane_inflight pool (lr_lane_key reservation)) as ->
    by (unfold lane_inflight; by destruct (pool !! _)).
  destruct (negb _ || _ || _) eqn:E.
  - intros Hpos [Hb _]. cbn [lar_acquired]. split.
    + split; [done|]. intros (Ha & Hkey & Hlt). rewrite Ha in E. simpl in E.
      apply orb_true_iff in E as [E|E]; reflect_tests; [lia|done].
    + intros lane_key. destruct (decide _); lia.
  - apply orb_false_iff in E as [[Ha Hb]%orb_false_iff Hkey].
    apply negb_false_iff in Ha. apply is_empty_false in Hkey. reflect_tests.
    destruct (Z.leb_spec (lr_concurrency_budget reservation)
                (lane_inflight pool (lr_lane_key reservation))) as [Hle|Hlt];
      intros Hpos Hu; cbn [lar_acquired]; (split; [split; [try done|]|]).
    + intros (_ & _ & ?). lia.
    + intros lane_key. rewrite inflight_insert. destruct (decide _) as [<-|]; simpl; lia.
    + done.
    + intros lane_key. rewrite inflight_insert. unfold in_u32 in Hu.
      destruct (decide _) as [<-|]; simpl; [|lia]. rewrite u32_id by (unfold in_u32; lia). lia.
Qed.

Lemma release_spec pool key lane_key :
  key <> "" -> lane_inflight pool key <> 0 ->
  lane_inflight (release_lane pool key) lane_key
  = lane_inflight pool lane_key - (if decide (key = lane_key) then 1 else 0).
Proof.
  intros Hkey Hpos. unfold release_lane. rewrite (proj2 (is_empty_false _) Hkey).
  unfold lane_inflight at 1 in Hpos. destruct (pool !! key) as [counters|] eqn:E; [|done].
  simpl in Hpos. rewrite (proj2 (Z.eqb_neq _ _) Hpos). rewrite inflight_insert.
  destruct (decide (key = lane_key)) as [<-|]; [|lia]. unfold lane_inflight. by rewrite E.
Qed.

Record permits_ok (limit : string -> Z) (state : ExecutorLanePool * list string) : Prop := {
  po_count : forall key, lane_inflight state.1 key = held_count state.2 key;
  po_limit : forall key, key ∈ state.2 -> key <> "" /\ held_count state.2 key <= limit key;
}.

Lemma held_pos held key : 0 <= held_count held key.
Proof. unfold held_count. lia. Qed.

Lemma held_in held key : held_count held key <> 0 <-> key ∈ held.
Proof.
  unfold held_count. split.
  - intros H. destruct (filter (fun k => k = key) held) as [|k l] eqn:E; [done|].
    assert (k ∈ filter (fun k => k = key) held) as Hk by (rewrite E; by left).
    by apply list_elem_of_filter in Hk as [<- ?].
  - intros H. assert (key ∈ filter (fun k => k = key) held) as Hk by (by apply list_elem_of_filter).
    destruct (filter _ held); [by apply elem_of_nil in Hk|]. simpl. lia.
Qed.

Lemma permit_step_ok limit state state' :
  permits_ok limit state -> permit_step limit state state' -> permits_ok limit state'.
Proof.
  intros [Hcount Hlimit] Hstep. destruct Hstep
    as [pool held res reason pool' result Hu Hl Hacq Hok
       |pool held res reason pool' result Hu Hacq Hok|pool held held' key Hperm];
    simpl in *.
  - pose proof (acquire_spec pool res reason) as H. rewrite Hacq in H.
    destruct H as [Hiff Hnew]; [rewrite Hcount; apply held_pos|done|].
    apply Hiff in Hok as Hgrant. destruct Hgrant as (_ & Hkey & Hlt). rewrite Hok in Hnew. split; simpl.
    + intros key. by rewrite Hnew, Hcount, held_cons.
    + intros key [->|Hin]%elem_of_cons; rewrite held_cons.
      * split; [done|]. rewrite decide_True by done. rewrite Hcount in Hlt. lia.
      * destruct (Hlimit key Hin) as [? ?]. split; [done|].
        destruct (decide _) as [<-|]; [rewrite Hcount in Hlt|]; lia.
  - pose proof (acquire_spec pool res reason) as H. rewrite Hacq in H.
    destruct H as [_ Hnew]; [rewrite Hcount; apply held_pos|done|]. rewrite Hok in Hnew.
    split; simpl; [|done]. intros key. rewrite Hnew, Hcount. by destruct (decide _); rewrite Z.add_0_r.
  - assert (key ∈ held) as Hin by (rewrite Hperm; by left).
    destruct (Hlimit key Hin) as [Hkey _]. split; simpl.
    + intros lane_key. rewrite release_spec; [|done|by rewrite Hcount, held_in].
      rewrite Hcount, (held_permutation _ _ _ Hperm), held_cons. lia.
    + intros lane_key Hl. destruct (Hlimit lane_key) as [? Hmax]; [rewrite Hperm; by right|].
      split; [done|]. rewrite (held_permutation _ _ _ Hperm), held_cons in Hmax.
      destruct (decide _); lia.
Qed.

(** The lanes are semaphores. Whatever calls were granted, refused and released, the
    count of a lane is the number of permits held on it, never more than the largest budget
    a call may ask with; and the next call gets a permit exactly when its lane is available
    and fewer permits than its budget are held. *)
Theorem lane_permits limit pool held reservation reason :
  rtc (permit_step limit) (∅, []) (pool, held) -> in_u32 (lr_concurrency_budget reservation) ->
  (forall lane_key, lane_inflight pool lane_key = held_count held lane_key) /\
  (forall lane_key, lane_key ∈ held -> held_count held lane_key <= limit lane_key) /\
  (lar_acquired (acquire_lane pool reservation reason).2 = true <->
   lr_available reservation = true /\ lr_lane_key reservation <> "" /\
   held_count held (lr_lane_key reservation) < lr_concurrency_budget reservation).
Proof.
  intros Hrun Hu. assert (permits_ok limit (pool, held)) as [Hcount Hlimit].
  { remember (∅, []) as start eqn:Hs in Hrun. assert (permits_ok limit start) as Hok.
    { subst start. split; [done|]. by intros ? ?%elem_of_nil. }
    clear Hs. induction Hrun as [|x y z Hstep _ IH]; [done|]. by apply IH, (permit_step_ok _ x). }
  split_and!; [done|by apply Hlimit|]. rewrite <-Hcount.
  pose proof (acquire_spec pool reservation reason) as H.
  destruct (acquire_lane pool reservation reason) as [pool' result]. simpl in *.
  apply H; [rewrite Hcount; apply held_pos|done].
Qed.

(** ** The choice of a route *)

(** A builtin lane may run the tool. *)
Definition builtin_usable (descriptor : ToolDescriptor) (timeout_view : ToolTimeoutView)
    (health : ToolRouteHealthSnapshot) : bool :=
  ttv_builtin_lane_enabled timeout_view && trh_builtin_lane_healthy health
  && negb (bool_decide (td_category descriptor = None)).

(** The binding and the snapshot an MCP server may run the tool with: not expired, and stale
    only where the policy allows it and the server is trusted. *)
Definition mcp_usable (timeout_view : ToolTimeoutView) (bindings : list MCPToolBinding)
    (capability_snapshot : option CapabilitySnapshot) (health : ToolRouteHealthSnapshot)
    : option (MCPToolBinding * CapabilitySnapshot) :=
  let? snapshot := capability_snapshot else None in
  let? binding := selected_binding bindings snapshot else None in
  if ttv_mcp_lane_enabled timeout_view && trh_mcp_lane_healthy health
     && match cs_freshness snapshot with
        | CapabilityFreshness.fresh => true
        | CapabilityFreshness.stale => may_use_stale_snapshot timeout_view snapshot
        | CapabilityFreshness.expired => false
        end
  then Some (binding, snapshot) else None.

(** Where both may run it: the request's hint decides; without one the server is preferred
    when its capabilities are fresh and the tool may change something. *)
Definition prefers_server (tool_ir : ToolIR) (descriptor : ToolDescriptor)
    (snapshot : CapabilitySnapshot) : bool :=
  match ir_route tool_ir with
  | Some ToolIRRoute.MCPRemote => true
  | Some ToolIRRoute.LocalTool => false
  | _ => bool_decide (cs_freshness snapshot = CapabilityFreshness.fresh)
         && negb (default false (td_is_read_only descriptor))
  end.

Definition is_stale (snapshot : CapabilitySnapshot) : bool :=
  bool_decide (cs_freshness snapshot = CapabilityFreshness.stale).

Lemma builtin_score_spec tool_ir descriptor timeout_view health :
  is_workflow_like descriptor = false ->
  score_builtin_candidate tool_ir descriptor timeout_view health
  = if builtin_usable descriptor timeout_view health
    then 60 + (if bool_decide (ir_route tool_ir = Some ToolIRRoute.LocalTool) then 20 else 0)
         + (if default false (td_is_read_only descriptor) then 5 else 0)
    else 0.
Proof.
  intros Hw. unfold score_builtin_candidate, builtin_usable. rewrite Hw, orb_false_r.
  by destruct (ttv_builtin_lane_enabled _), (trh_builtin_lane_healthy _), (bool_decide (td_category _ = _)).
Qed.

Lemma mcp_score_spec tool_ir timeout_view bindings capability_snapshot health :
  score_mcp_candidate tool_ir timeout_view bindings capability_snapshot health
  = match mcp_usable timeout_view bindings capability_snapshot health with
    | Some (_, snapshot) =>
        50 + (if prefers_mcp tool_ir then 25 else 0)
        + (if bool_decide (cs_freshness snapshot = CapabilityFreshness.fresh) then 15 else 0)
    | None => 0
    end.
Proof.
  unfold score_mcp_candidate, mcp_usable. destruct capability_snapshot as [snapshot|];
    [|by destruct (_ || _)].
  destruct (selected_binding bindings snapshot) as [binding|] eqn:Hb.
  - destruct (bool_decide_reflect (bindings = [])) as [->|_]; [done|].
    rewrite (bool_decide_false (Some binding = None)) by done.
    destruct (ttv_mcp_lane_enabled _), (trh_mcp_lane_healthy _), (cs_freshness snapshot) eqn:Hf,
      (may_use_stale_snapshot timeout_view snapshot); cbn; rewrite ?Hf; reflexivity.
  - by destruct (_ || _), (cs_freshness snapshot), (may_use_stale_snapshot timeout_view snapshot).
Qed.

Lemma usable_decision timeout_view bindings capability_snapshot health binding snapshot :
  mcp_usable timeout_view bindings capability_snapshot health = Some (binding, snapshot) ->
  mcp_decision timeout_view bindings capability_snapshot
  = Some (build_mcp_decision binding timeout_view (is_stale snapshot)).
Proof.
  unfold mcp_usable, mcp_decision. destruct capability_snapshot as [s|]; [|done].
  destruct (selected_binding bindings s) as [b|]; [|done].
  destruct (_ && _); [|done]. by intros [= -> ->].
Qed.

(** The route that should be chosen. *)
Definition chosen_route (tool_ir : ToolIR) (descriptor : ToolDescriptor)
    (timeout_view : ToolTimeoutView) (bindings : list MCPToolBinding)
    (capability_snapshot : option CapabilitySnapshot) (health : ToolRouteHealthSnapshot)
    : ToolRouteDecision :=
  if is_workflow_like descriptor then select_workflow_route descriptor timeout_view health else
  match builtin_usable descriptor timeout_view health,
        mcp_usable timeout_view bindings capability_snapshot health with
  | true, Some (binding, snapshot) =>
      if prefers_server tool_ir descriptor snapshot
      then build_mcp_decision binding timeout_view (is_stale snapshot)
      else build_builtin_decision timeout_view
  | true, None => build_builtin_decision timeout_view
  | false, Some (binding, snapshot) => build_mcp_decision binding timeout_view (is_stale snapshot)
  | false, None => unavailable "RouteUnavailable"
  end.

Lemma route_spec tool_ir descriptor timeout_view bindings capability_snapshot health :
  select_route tool_ir descriptor timeout_view bindings capability_snapshot health
  = chosen_route tool_ir descriptor timeout_view bindings capability_snapshot health.
Proof.
  unfold select_route, chosen_route. destruct (is_workflow_like descriptor) eqn:Hw; [done|].
  rewrite builtin_score_spec, mcp_score_spec by done.
  destruct (mcp_usable timeout_view bindings capability_snapshot health) as [[binding snapshot]|] eqn:Hm.
  - rewrite (usable_decision _ _ _ _ _ _ Hm).
    destruct (builtin_usable descriptor timeout_view health).
    + unfold prefers_server, prefers_mcp.
      destruct (ir_route tool_ir) as [[| | | |]|], (default false (td_is_read_only descriptor)),
        (bool_decide (cs_freshness snapshot = _)); done.
    + by destruct (prefers_mcp tool_ir), (bool_decide (cs_freshness snapshot = _)).
  - destruct (builtin_usable descriptor timeout_view health); [|done].
    by destruct (bool_decide (ir_route tool_ir = _)), (default false (td_is_read_only descriptor)).
Qed.

(** Where a tool runs. A workflow or a delegation runs in the workflow engine or not at
    all. Any other tool runs in the builtin lane or on the first server whose capabilities
    support it, whichever may run it; where both may, on the one the call asks for, and
    without a hint on the server exactly when its capabilities are fresh and the tool may
    change something. *)
Theorem route_choice tool_ir descriptor timeout_view bindings capability_snapshot health :
  select_route tool_ir descriptor timeout_view bindings capability_snapshot health
  = chosen_route tool_ir descriptor timeout_view bindings capability_snapshot health.
Proof. apply route_spec. Qed.

(** ** Examples *)

Definition sample_lane_budget : ToolLaneTimeoutBudget :=
  {| ltb_timeout_ms := 1000; ltb_retry_budget := 0; ltb_circuit_breaker_threshold := 1 |}.

Definition sample_timeout_view (builtin mcp : bool) : ToolTimeoutView :=
  {| ttv_tool := sample_lane_budget; ttv_mcp := sample_lane_budget;
     ttv_workflow := sample_lane_budget; ttv_max_tool_calls := 2;
     ttv_builtin_lane_enabled := builtin; ttv_mcp_lane_enabled := mcp;
     ttv_multi_agent_enabled := true; ttv_capability_refresh_interval_ms := 0;
     ttv_capability_expire_after_ms := 0; ttv_stale_read_allowed := false;
     ttv_capability_failure_backoff_ms := 0; ttv_snapshot_fingerprint := 0 |}.

Definition sample_reservation : LaneReservation := reserve_builtin (sample_timeout_view true false).

Definition sample_pool : ExecutorLanePool := (acquire_lane ∅ sample_reservation "busy").1.

Lemma lane_permits_witness :
  rtc (permit_step (fun _ => 2)) (∅, []) (sample_pool, ["builtin"]) /\
  lane_inflight sample_pool "builtin" = held_count ["builtin"] "builtin" /\
  (lar_acquired (acquire_lane sample_pool sample_reservation "busy").2 = true <->
   true = true /\ "builtin" <> "" /\ held_count ["builtin"] "builtin" < 2).
Proof.
  assert (rtc (permit_step (fun _ => 2)) (∅, []) (sample_pool, ["builtin"])) as Hrun.
  { apply rtc_once. apply (permit_granted _ ∅ [] sample_reservation "busy" sample_pool
      (acquire_lane ∅ sample_reservation "busy").2); vm_compute; try done; by split. }
  destruct (lane_permits (fun _ => 2) sample_pool ["builtin"] sample_reservation "busy" Hrun)
    as (Hcount & _ & Hnext); [vm_compute; by split|].
  split; [exact Hrun|]. split; [exact (Hcount "builtin")|exact Hnext].
Defined.
