(* ===== verification/CapabilityCache.v ===== *)
(** * The cache of server capabilities

    tools/src/mcp/CapabilityCache.{h,cpp}: what each MCP server last said it can do, how old
    that is, and whether the last attempt to refresh it failed. The clock and the two options
    are arguments. Readers load one pointer to an immutable state and writers hold a lock, so
    every operation is a step on the state. *)

From stdpp Require Import sorting.
From S2P Require Import Prelude CheckpointContracts Text RecoveryContracts ToolContracts ToolRegistry ToolRouting.

Record CapabilityCacheState := {
  snapshots_by_server : gmap string CapabilitySnapshot;
  cache_revision : Z;
}.

Definition empty_cache : CapabilityCacheState :=
  {| snapshots_by_server := ∅; cache_revision := 0 |}.

Definition clamp_age_ms (now_ms then_ms : Z) : Z :=
  if now_ms <=? then_ms then 0 else now_ms - then_ms.

Definition with_freshness (freshness : CapabilityFreshness) (snapshot : CapabilitySnapshot)
    : CapabilitySnapshot :=
  {| cs_server_id := cs_server_id snapshot; cs_entries := cs_entries snapshot;
     cs_freshness := freshness; cs_last_refresh_at_ms := cs_last_refresh_at_ms snapshot;
     cs_last_error := cs_last_error snapshot; cs_trust_marker := cs_trust_marker snapshot |}.

(** Publishing a snapshot under its server. *)
Definition publish_state (state : CapabilityCacheState) (snapshot : CapabilitySnapshot)
    : CapabilityCacheState :=
  {| snapshots_by_server := <[cs_server_id snapshot := snapshot]> (snapshots_by_server state);
     cache_revision := u64 (cache_revision state + 1) |}.

Section cache.
(** [options_]. *)
Variable expire_after_ms : Z.
Variable stale_read_allowed : bool.

Definition classify_freshness (stored_snapshot : CapabilitySnapshot) (now_ms : Z)
    : CapabilityFreshness :=
  match cs_last_refresh_at_ms stored_snapshot with
  | None => CapabilityFreshness.expired
  | Some refreshed =>
      if expire_after_ms <=? 0 then CapabilityFreshness.expired else
      if expire_after_ms <=? clamp_age_ms now_ms refreshed then CapabilityFreshness.expired else
      match cs_last_error stored_snapshot with
      | Some _ => CapabilityFreshness.stale
      | None => CapabilityFreshness.fresh
      end
  end.

Definition materialize_snapshot (stored_snapshot : CapabilitySnapshot) (now_ms : Z)
    : CapabilitySnapshot :=
  with_freshness (classify_freshness stored_snapshot now_ms) stored_snapshot.

Definition cache_snapshot (state : CapabilityCacheState) (server_id : string) (now_ms : Z)
    : option CapabilitySnapshot :=
  if is_empty server_id then None else
  let? found := snapshots_by_server state !! server_id else None in
  Some (materialize_snapshot found now_ms).

(** The trust marker of an answer without one is that of the answer before. *)
Definition update_cache (state : CapabilityCacheState) (snapshot : CapabilitySnapshot)
    (now_ms : Z) : CapabilityCacheState :=
  if is_empty (cs_server_id snapshot) then state else
  let existing := snapshots_by_server state !! cs_server_id snapshot ≫= cs_trust_marker in
  let trust_marker :=
    if negb (has_non_empty_value (cs_trust_marker snapshot)) && has_non_empty_value existing
    then existing else cs_trust_marker snapshot in
  publish_state state
    {| cs_server_id := cs_server_id snapshot; cs_entries := cs_entries snapshot;
       cs_freshness := CapabilityFreshness.fresh; cs_last_refresh_at_ms := Some now_ms;
       cs_last_error := None; cs_trust_marker := trust_marker |}.

Definition invalidate_cache (state : CapabilityCacheState) (server_id : string)
    : bool * CapabilityCacheState :=
  if is_empty server_id then (false, state) else
  match snapshots_by_server state !! server_id with
  | None => (false, state)
  | Some _ =>
      (true, {| snapshots_by_server := delete server_id (snapshots_by_server state);
                cache_revision := u64 (cache_revision state + 1) |})
  end.

Definition mark_failed (state : CapabilityCacheState) (server_id error_message : string)
    (now_ms : Z) : CapabilityCacheState :=
  if is_empty server_id then state else
  let error_message :=
    if is_empty error_message then "mcp.capability_refresh_failed" else error_message in
  let stored :=
    match snapshots_by_server state !! server_id with
    | Some existing => existing
    | None =>
        {| cs_server_id := server_id; cs_entries := [];
           cs_freshness := CapabilityFreshness.expired; cs_last_refresh_at_ms := None;
           cs_last_error := None; cs_trust_marker := None |}
    end in
  let failed_snapshot :=
    {| cs_server_id := cs_server_id stored; cs_entries := cs_entries stored;
       cs_freshness := cs_freshness stored;
       cs_last_refresh_at_ms := cs_last_refresh_at_ms stored;
       cs_last_error := Some error_message; cs_trust_marker := cs_trust_marker stored |} in
  publish_state state (with_freshness (classify_freshness failed_snapshot now_ms) failed_snapshot).

Definition listed (snapshot : CapabilitySnapshot) : bool :=
  has_non_empty_value (cs_trust_marker snapshot)
  && negb (bool_decide (cs_freshness snapshot = CapabilityFreshness.expired))
  && negb (bool_decide (cs_freshness snapshot = CapabilityFreshness.stale)
           && negb stale_read_allowed).

(** The snapshots in the order of their servers, each seen now. *)
Definition list_trusted (state : CapabilityCacheState) (now_ms : Z) : list CapabilitySnapshot :=
  List.filter listed
    ((fun '(_, stored) => materialize_snapshot stored now_ms)
     <$> in_key_order (snapshots_by_server state)).

(** ** Histories *)

Inductive CacheOp :=
| Updated (snapshot : CapabilitySnapshot)
| Invalidated (server_id : string)
| Failed (server_id error_message : string).

Definition op_server (op : CacheOp) : string :=
  match op with
  | Updated snapshot => cs_server_id snapshot
  | Invalidated server_id | Failed server_id _ => server_id
  end.

Definition cache_step (now_ms : Z) (op : CacheOp) (state : CapabilityCacheState)
    : CapabilityCacheState :=
  match op with
  | Updated snapshot => update_cache state snapshot now_ms
  | Invalidated server_id => (invalidate_cache state server_id).2
  | Failed server_id error_message => mark_failed state server_id error_message now_ms
  end.

(** A history, the latest operation first. *)
Fixpoint cache_run (history : list (Z * CacheOp)) : CapabilityCacheState :=
  match history with
  | [] => empty_cache
  | (now_ms, op) :: history => cache_step now_ms op (cache_run history)
  end.

(** ** What the cache should answer *)

(** What happened to a server since it was last invalidated, the latest first. *)
Fixpoint since (server_id : string) (history : list (Z * CacheOp)) : list (Z * CacheOp) :=
  match history with
  | [] => []
  | (now_ms, op) :: history =>
      if bool_decide (op_server op = server_id)
      then match op with
           | Invalidated _ => []
           | _ => (now_ms, op) :: since server_id history
           end
      else since server_id history
  end.

Definition answer_of (event : Z * CacheOp) : option (Z * CapabilitySnapshot) :=
  match event with
  | (now_ms, Updated snapshot) => Some (now_ms, snapshot)
  | _ => None
  end.

(** The last answer of the server, with its time. *)
Definition last_answer (events : list (Z * CacheOp)) : option (Z * CapabilitySnapshot) :=
  head (omap answer_of events).

(** The failure the server is in: the last event, if it is one. *)
Definition current_failure (events : list (Z * CacheOp)) : option string :=
  match events with
  | (_, Failed _ error_message) :: _ =>
      Some (if is_empty error_message then "mcp.capability_refresh_failed" else error_message)
  | _ => None
  end.

Fixpoint markers (events : list (Z * CacheOp)) : list string :=
  match events with
  | [] => []
  | (_, Updated snapshot) :: events =>
      match cs_trust_marker snapshot with
      | Some marker => marker :: markers events
      | None => markers events
      end
  | _ :: events => markers events
  end.

(** The last marker that is not empty, or else what the last answer has. *)
Definition trust_of (events : list (Z * CacheOp)) : option string :=
  match List.find (fun marker => negb (is_empty marker)) (markers events) with
  | Some marker => Some marker
  | None => last_answer events ≫= fun answer => cs_trust_marker answer.2
  end.

Definition expected_freshness (events : list (Z * CacheOp)) (now_ms : Z) : CapabilityFreshness :=
  match last_answer events with
  | None => CapabilityFreshness.expired
  | Some (refreshed, _) =>
      if bool_decide (0 < expire_after_ms) && bool_decide (now_ms - refreshed < expire_after_ms)
      then if bool_decide (current_failure events = None) then CapabilityFreshness.fresh
           else CapabilityFreshness.stale
      else CapabilityFreshness.expired
  end.

Definition expected_snapshot (server_id : string) (history : list (Z * CacheOp)) (now_ms : Z)
    : option CapabilitySnapshot :=
  let events := since server_id history in
  if is_empty server_id || bool_decide (events = []) then None else
  Some {| cs_server_id := server_id;
          cs_entries := from_option (fun answer => cs_entries answer.2) [] (last_answer events);
          cs_freshness := expected_freshness events now_ms;
          cs_last_refresh_at_ms := fst <$> last_answer events;
          cs_last_error := current_failure events;
          cs_trust_marker := trust_of events |}.
End cache.

(** ** The cache answers what it should *)

Lemma trust_known events :
  has_non_empty_value (trust_of events) = true ->
  exists marker, List.find (fun marker => negb (is_empty marker)) (markers events) = Some marker /\
    trust_of events = Some marker.
Proof.
  unfold trust_of. destruct (List.find _ _) as [marker|] eqn:E; [eauto|].
  unfold last_answer. intros H. exfalso. revert E H.
  induction events as [|[now [snapshot|id|id message]] events IH]; [done| |done|done].
  simpl. destruct (cs_trust_marker snapshot) as [[|ch marker]|]; done.
Qed.

Lemma trust_updated now snapshot events :
  trust_of ((now, Updated snapshot) :: events)
  = if negb (has_non_empty_value (cs_trust_marker snapshot)) && has_non_empty_value (trust_of events)
    then trust_of events else cs_trust_marker snapshot.
Proof.
  destruct (has_non_empty_value (trust_of events)) eqn:E.
  - destruct (trust_known _ E) as (marker & Hfind & Htrust). rewrite Htrust. unfold trust_of. simpl.
    destruct (cs_trust_marker snapshot) as [[|ch m]|]; simpl; by rewrite ?Hfind.
  - rewrite andb_false_r. revert E. unfold trust_of. simpl.
    destruct (cs_trust_marker snapshot) as [[|ch m]|]; simpl; [|done|];
      destruct (List.find _ _) as [marker|] eqn:Hfind; try done;
      apply List.find_some in Hfind as [_ Hne]; by destruct marker.
Qed.

Lemma since_other server_id now op history :
  op_server op <> server_id -> since server_id ((now, op) :: history) = since server_id history.
Proof. intros H. simpl. by rewrite bool_decide_false. Qed.

Lemma since_same server_id now op history :
  op_server op = server_id -> (forall id, op <> Invalidated id) ->
  since server_id ((now, op) :: history) = (now, op) :: since server_id history.
Proof.
  intros <- H. simpl. rewrite bool_decide_true by done.
  destruct op as [snapshot|id|id message]; [done|by destruct (H id)|done].
Qed.

Section laws.
Variable expire_after_ms : Z.
Variable stale_read_allowed : bool.

Abbreviation run := (cache_run expire_after_ms).
Abbreviation expected := (expected_snapshot expire_after_ms).
Abbreviation step := (cache_step expire_after_ms).

Definition stored_snapshot (server_id : string) (events : list (Z * CacheOp)) : CapabilitySnapshot :=
  {| cs_server_id := server_id;
     cs_entries := from_option (fun answer => cs_entries answer.2) [] (last_answer events);
     cs_freshness := CapabilityFreshness.fresh;
     cs_last_refresh_at_ms := fst <$> last_answer events;
     cs_last_error := current_failure events;
     cs_trust_marker := trust_of events |}.

(** What is stored, up to the freshness, which is computed when it is read. *)
Record cache_ok (history : list (Z * CacheOp)) (state : CapabilityCacheState) : Prop := {
  co_stored : forall server_id, server_id <> "" ->
    with_freshness CapabilityFreshness.fresh <$> (snapshots_by_server state !! server_id)
    = if bool_decide (since server_id history = []) then None
      else Some (stored_snapshot server_id (since server_id history));
  co_unnamed : snapshots_by_server state !! "" = None;
}.

Lemma stored_under history state server_id stored :
  cache_ok history state -> snapshots_by_server state !! server_id = Some stored ->
  server_id <> "" /\ cs_server_id stored = server_id /\
  since server_id history <> [] /\
  with_freshness CapabilityFreshness.fresh stored
  = stored_snapshot server_id (since server_id history).
Proof.
  intros [Hst Hun] Hlook. assert (server_id <> "") as Hne by (intros ->; congruence).
  split; [done|]. specialize (Hst server_id Hne). rewrite Hlook in Hst. simpl in Hst.
  case_bool_decide; [done|]. apply (inj Some) in Hst. split; [|done].
  apply (f_equal cs_server_id) in Hst. exact Hst.
Qed.

(** A snapshot published for a server, and no other touched. *)
Lemma published history state now op snapshot :
  cache_ok history state -> cs_server_id snapshot = op_server op -> op_server op <> "" ->
  (forall id, op <> Invalidated id) ->
  with_freshness CapabilityFreshness.fresh snapshot
  = stored_snapshot (op_server op) ((now, op) :: since (op_server op) history) ->
  cache_ok ((now, op) :: history) (publish_state state snapshot).
Proof.
  intros [Hst Hun] Hid Hne Hop Hsnap. split; cbn [publish_state snapshots_by_server]; rewrite Hid.
  - intros server_id Hs. destruct (decide (op_server op = server_id)) as [<-|Hother].
    + rewrite since_same, lookup_insert_eq, bool_decide_false by done. simpl. by rewrite Hsnap.
    + rewrite lookup_insert_ne, since_other by done. by apply Hst.
  - by rewrite lookup_insert_ne.
Qed.

Lemma ignored history state now op :
  cache_ok history state -> op_server op = "" -> cache_ok ((now, op) :: history) state.
Proof.
  intros [Hst Hun] He. split; [|done]. intros server_id Hs.
  rewrite since_other by congruence. by apply Hst.
Qed.

Lemma cache_run_ok history : cache_ok history (run history).
Proof.
  induction history as [|[now op] history IH].
  { split; [|done]. intros server_id Hs. simpl. by rewrite lookup_empty. }
  simpl. destruct (is_empty (op_server op)) eqn:He.
  { apply is_empty_true in He as He'. replace (step now op (run history)) with (run history).
    - by apply ignored.
    - destruct op; simpl in *; unfold update_cache, invalidate_cache, mark_failed; by rewrite He. }
  pose proof He as Hne. apply is_empty_false in Hne.
  destruct op as [snapshot|id|id message]; simpl in *.
  - unfold update_cache. rewrite He. apply published; simpl; try done.
    unfold with_freshness, stored_snapshot. simpl. f_equal. rewrite trust_updated.
    pose proof (co_stored _ _ IH (cs_server_id snapshot) Hne) as Hst.
    assert (snapshots_by_server (run history) !! cs_server_id snapshot ≫= cs_trust_marker
            = trust_of (since (cs_server_id snapshot) history)) as ->; [|done].
    destruct (snapshots_by_server (run history) !! _) as [stored|] eqn:Hlook.
    + destruct (stored_under _ _ _ _ IH Hlook) as (_ & _ & _ & H).
      by apply (f_equal cs_trust_marker) in H.
    + simpl in Hst. case_bool_decide as H; [by rewrite H|done].
  - unfold invalidate_cache. rewrite He.
    assert (cache_ok ((now, Invalidated id) :: history)
              {| snapshots_by_server := delete id (snapshots_by_server (run history));
                 cache_revision := u64 (cache_revision (run history) + 1) |}) as Hok.
    { split; cbn [snapshots_by_server].
      - intros server_id Hs. destruct (decide (id = server_id)) as [<-|H].
        + rewrite lookup_delete_eq. simpl. by rewrite (bool_decide_true (id = id)).
        + rewrite lookup_delete_ne, since_other by done. by apply IH.
      - rewrite lookup_delete_ne by done. apply IH. }
    destruct (_ !! id) eqn:Hlook; [done|]. simpl. destruct Hok as [Hst _].
    split; [|apply IH]. intros server_id Hs. rewrite <-(Hst server_id Hs). simpl.
    by rewrite delete_id.
  - unfold mark_failed. rewrite He.
    pose proof (co_stored _ _ IH id Hne) as Hst.
    destruct (snapshots_by_server (run history) !! id) as [stored|] eqn:Hlook.
    + destruct (stored_under _ _ _ _ IH Hlook) as (_ & Hid & _ & H).
      apply published; simpl; try done. unfold with_freshness, stored_snapshot in *. simpl.
      injection H as -> -> -> _ ->. by destruct (is_empty message).
    + simpl in Hst. case_bool_decide as H; [|done].
      apply published; simpl; try done. rewrite H. unfold with_freshness, stored_snapshot. simpl.
      by destruct (is_empty message).
Qed.

Lemma freshness_spec history server_id stored now :
  cache_ok history (run history) -> snapshots_by_server (run history) !! server_id = Some stored ->
  classify_freshness expire_after_ms stored now
  = expected_freshness expire_after_ms (since server_id history) now.
Proof.
  intros Hok Hlook. destruct (stored_under _ _ _ _ Hok Hlook) as (_ & _ & _ & H).
  apply (f_equal cs_last_refresh_at_ms) in H as Hrefresh.
  apply (f_equal cs_last_error) in H as Herror. simpl in Hrefresh, Herror.
  unfold classify_freshness, expected_freshness, clamp_age_ms. rewrite Hrefresh, Herror.
  destruct (last_answer _) as [[refreshed snapshot]|]; [simpl|done].
  destruct (current_failure _); repeat case_bool_decide; try done;
    destruct (Z.leb_spec expire_after_ms 0), (Z.leb_spec now refreshed); simpl; try done; try lia;
    try destruct (Z.leb_spec expire_after_ms (now - refreshed));
    try destruct (Z.leb_spec expire_after_ms 0); done || lia.
Qed.

Lemma answer_spec history server_id now :
  cache_snapshot expire_after_ms (run history) server_id now = expected server_id history now.
Proof.
  pose proof (cache_run_ok history) as Hok. unfold cache_snapshot, expected_snapshot.
  destruct (is_empty server_id) eqn:He; [done|]. apply is_empty_false in He. simpl.
  destruct (snapshots_by_server (run history) !! server_id) as [stored|] eqn:Hlook.
  - destruct (stored_under _ _ _ _ Hok Hlook) as (_ & _ & Hsome & H).
    rewrite bool_decide_false by done. unfold materialize_snapshot.
    rewrite (freshness_spec _ _ _ _ Hok Hlook). unfold with_freshness, stored_snapshot in *.
    by injection H as -> -> -> -> ->.
  - pose proof (co_stored _ _ Hok server_id He) as Hst. rewrite Hlook in Hst. simpl in Hst.
    by case_bool_decide.
Qed.

Abbreviation trusted := (list_trusted expire_after_ms stale_read_allowed).
Abbreviation seen now := (fun '(_, stored) => materialize_snapshot expire_after_ms stored now).

Lemma trusted_spec history now snapshot :
  snapshot ∈ trusted (run history) now <->
  listed stale_read_allowed snapshot = true /\
  expected (cs_server_id snapshot) history now = Some snapshot.
Proof.
  pose proof (cache_run_ok history) as Hok. unfold list_trusted.
  rewrite list_elem_of_In, filter_In, <-list_elem_of_In, list_elem_of_fmap.
  rewrite (and_comm (exists _, _)). apply and_iff_compat_l. rewrite <-answer_spec.
  unfold cache_snapshot. split.
  - intros ([server_id stored] & -> & Hin). rewrite in_key_order_perm in Hin.
    apply elem_of_map_to_list in Hin.
    destruct (stored_under _ _ _ _ Hok Hin) as (Hne & Hid & _). simpl. rewrite Hid.
    by rewrite (proj2 (is_empty_false _) Hne), Hin.
  - destruct (is_empty _); [done|].
    destruct (snapshots_by_server (run history) !! _) as [stored|] eqn:Hlook; [|done].
    intros [= Heq]. exists (cs_server_id snapshot, stored). split; [done|].
    rewrite in_key_order_perm. by apply elem_of_map_to_list.
Qed.

(** The servers of a list of stored snapshots, in order and without repetition. *)
Lemma members_sorted (members : list (string * CapabilitySnapshot)) now :
  (forall server_id stored, (server_id, stored) ∈ members -> cs_server_id stored = server_id) ->
  StronglySorted key_order members ->
  StronglySorted String.le
    (cs_server_id <$> List.filter (listed stale_read_allowed) (seen now <$> members)).
Proof.
  intros Hid Hsorted. induction Hsorted as [|[server_id stored] members Hsorted IH Hall]; [constructor|].
  assert (StronglySorted String.le
    (cs_server_id <$> List.filter (listed stale_read_allowed) (seen now <$> members))) as Hrest.
  { apply IH. intros id s Hin. apply Hid. by right. }
  simpl. destruct (listed _ _); [|done]. simpl. constructor; [done|].
  rewrite (Hid server_id stored) by left. apply Forall_forall. intros id Hin.
  apply list_elem_of_fmap in Hin as (snapshot & -> & Hin).
  rewrite list_elem_of_In, filter_In, <-list_elem_of_In, list_elem_of_fmap in Hin.
  destruct Hin as (([id s] & -> & Hin) & _). simpl. rewrite (Hid id s) by (by right).
  rewrite Forall_forall in Hall. exact (Hall _ Hin).
Qed.

(** The cache is a function of its history. What it answers for a server depends on
    what happened to that server since it was last invalidated: the entries and the time
    are those of its last answer, the marker is the last one given that is not empty, and
    the answer is expired when there is none or it is too old, stale when the last attempt
    after it failed, and fresh otherwise. The trusted list holds, in the order of the
    servers, exactly the answers with a marker that have not expired and are stale only
    where that is allowed. *)
Theorem cache_refines_history history now :
  (forall server_id,
     cache_snapshot expire_after_ms (run history) server_id now = expected server_id history now) /\
  StronglySorted String.le (cs_server_id <$> trusted (run history) now) /\
  forall snapshot, snapshot ∈ trusted (run history) now <->
    listed stale_read_allowed snapshot = true /\
    expected (cs_server_id snapshot) history now = Some snapshot.
Proof.
  split; [intros; apply answer_spec|split; [|intros; apply trusted_spec]].
  apply members_sorted; [|apply in_key_order_sorted].
  intros server_id stored Hin. rewrite in_key_order_perm in Hin. apply elem_of_map_to_list in Hin.
  by destruct (stored_under _ _ _ _ (cache_run_ok history) Hin) as (_ & Hid & _).
Qed.
End laws.
