(* ===== verification/WorkflowBatches.v ===== *)
(** * Workflow batches

    tools/src/execution/WorkflowEngine.{h,cpp}: a workflow plan, and
    [WorkflowEngine::build_batches], which checks it and lays its steps out in batches.
    The dependencies are kept in an unordered map; the order it is visited in is an
    argument ([visit]), any permutation of its keys. *)

From stdpp Require Import sorting.
From S2P Require Import Prelude ErrorCodes RecoveryContracts ToolContracts.

Module WorkflowStepKind.
Inductive WorkflowStepKind := Tool | Delegation.
#[global] Instance WorkflowStepKind_eq_dec : EqDecision WorkflowStepKind.
Proof. solve_decision. Defined.
End WorkflowStepKind.
Abbreviation WorkflowStepKind := WorkflowStepKind.WorkflowStepKind.

Module WorkflowDependencyKind.
Inductive WorkflowDependencyKind := Payload | Ordering.
End WorkflowDependencyKind.
Abbreviation WorkflowDependencyKind := WorkflowDependencyKind.WorkflowDependencyKind.

Module WorkflowDelegationMode.
Inductive WorkflowDelegationMode := Disabled | RecommendOnly.
#[global] Instance WorkflowDelegationMode_eq_dec : EqDecision WorkflowDelegationMode.
Proof. solve_decision. Defined.
End WorkflowDelegationMode.
Abbreviation WorkflowDelegationMode := WorkflowDelegationMode.WorkflowDelegationMode.

Record WorkflowEdge := {
  we_from_step_id : string;
  we_to_step_id : string;
  we_dependency_kind : WorkflowDependencyKind;
}.

Record WorkflowStepOutputBinding := {
  sob_source_step_id : string;
  sob_source_json_pointer : string;
  sob_target_step_id : string;
  sob_target_argument_key : string;
  sob_required : bool;
}.

Record WorkflowDelegationPolicy := {
  wdp_mode : WorkflowDelegationMode;
  wdp_max_delegate_steps : Z;
}.

Record WorkflowStep := {
  ws_step_id : string;
  ws_tool_ir : ToolIR;
  ws_route_kind_hint : option ToolIRRoute;
  ws_step_kind : WorkflowStepKind;
  ws_depends_on : list string;
  ws_allow_partial_side_effect : bool;
  ws_timeout_override_ms : option Z;
  ws_delegate_target : option string;
}.

Record WorkflowPlan := {
  wp_workflow_id : string;
  wp_entry_step_ids : list string;
  wp_steps : list WorkflowStep;
  wp_edges : list WorkflowEdge;
  wp_step_output_mapping : list WorkflowStepOutputBinding;
  wp_delegation_policy : WorkflowDelegationPolicy;
  wp_metadata : list (string * string);
}.

Record WorkflowBatch := {
  wb_step_ids : list string;
}.

Record WorkflowBatchBuildResult := {
  bbr_ok : bool;
  bbr_batches : list WorkflowBatch;
  bbr_error : option ErrorInfo;
  bbr_evidence_refs : list string;
  bbr_failure_reason_code : string;
}.

Definition build_error (code : ResultCode) (message stage ref_id : string) : ErrorInfo :=
  {| ei_failure_type := Some (classify_result_code code);
     ei_retryable := Some false; ei_safe_to_replan := Some true;
     ei_details := {| ed_code := Some (result_code_value code); ed_message := message;
                      ed_stage := stage |};
     ei_source_ref := {| esr_ref_type := "workflow_engine"; esr_ref_id := ref_id |} |}.

(** A refused plan: every refusal has this shape. *)
Definition invalid_plan (message ref_id : string) (evidence_refs : list string)
    : WorkflowBatchBuildResult :=
  {| bbr_ok := false; bbr_batches := [];
     bbr_error := Some (build_error ResultCode.ValidationFieldMissing message
                          "tools.workflow.build_batches" ref_id);
     bbr_evidence_refs := evidence_refs; bbr_failure_reason_code := "InvalidWorkflowPlan" |}.

Definition batches_built (batches : list WorkflowBatch) : WorkflowBatchBuildResult :=
  {| bbr_ok := true; bbr_batches := batches; bbr_error := None; bbr_evidence_refs := [];
     bbr_failure_reason_code := "" |}.

(** A check of the plan that goes on or returns the refusal. *)
Abbreviation checked := (result WorkflowBatchBuildResult).

Abbreviation StepOrder := (gmap string nat).
Abbreviation Dependencies := (gmap string (gset string)).

(** [step_order.contains(step_id)] *)
Definition contains (step_order : StepOrder) (step_id : string) : bool :=
  bool_decide (is_Some (step_order !! step_id)).

Fixpoint index_steps (plan : WorkflowPlan) (index : nat) (steps : list WorkflowStep)
    (step_order : StepOrder) (dependencies : Dependencies)
    : checked (StepOrder * Dependencies) :=
  match steps with
  | [] => Ok (step_order, dependencies)
  | step :: steps =>
      let id := ws_step_id step in
      if is_empty id || contains step_order id
      then Err (invalid_plan "workflow.step_id_invalid" (wp_workflow_id plan)
                  ["workflow.step_id_invalid"])
      else index_steps plan (S index) steps (<[id := index]> step_order)
             (<[id := ∅]> dependencies)
  end.

Fixpoint check_entries (step_order : StepOrder) (entry_step_ids : list string) : checked unit :=
  match entry_step_ids with
  | [] => Ok ()
  | entry :: entries =>
      if negb (contains step_order entry)
      then Err (invalid_plan "workflow.entry_step_missing" entry ["entry:" +:+ entry])
      else check_entries step_order entries
  end.

(** [dependencies[step_id].insert(dependency)] *)
Definition add_dependency (step_id dependency : string) (dependencies : Dependencies)
    : Dependencies :=
  <[step_id := {[dependency]} ∪ default ∅ (dependencies !! step_id)]> dependencies.

Fixpoint add_depends_on (step_order : StepOrder) (step_id : string) (depends_on : list string)
    (dependencies : Dependencies) : checked Dependencies :=
  match depends_on with
  | [] => Ok dependencies
  | dependency :: depends_on =>
      if negb (contains step_order dependency) || bool_decide (dependency = step_id)
      then Err (invalid_plan "workflow.depends_on_invalid" step_id ["step:" +:+ step_id])
      else add_depends_on step_order step_id depends_on
             (add_dependency step_id dependency dependencies)
  end.

Fixpoint add_step_dependencies (step_order : StepOrder) (steps : list WorkflowStep)
    (dependencies : Dependencies) : checked Dependencies :=
  match steps with
  | [] => Ok dependencies
  | step :: steps =>
      let* dependencies := add_depends_on step_order (ws_step_id step) (ws_depends_on step)
                             dependencies in
      add_step_dependencies step_order steps dependencies
  end.

Fixpoint add_edges (plan : WorkflowPlan) (step_order : StepOrder) (edges : list WorkflowEdge)
    (dependencies : Dependencies) : checked Dependencies :=
  match edges with
  | [] => Ok dependencies
  | edge :: edges =>
      let from := we_from_step_id edge in
      let to := we_to_step_id edge in
      if negb (contains step_order from) || negb (contains step_order to)
         || bool_decide (from = to)
      then Err (invalid_plan "workflow.edge_invalid" (wp_workflow_id plan)
                  ["edge:" +:+ (from +:+ ("->" +:+ to))])
      else add_edges plan step_order edges (add_dependency to from dependencies)
  end.

Fixpoint add_bindings (plan : WorkflowPlan) (step_order : StepOrder)
    (bindings : list WorkflowStepOutputBinding) (dependencies : Dependencies)
    : checked Dependencies :=
  match bindings with
  | [] => Ok dependencies
  | binding :: bindings =>
      let source := sob_source_step_id binding in
      let target := sob_target_step_id binding in
      if negb (contains step_order source) || negb (contains step_order target)
         || is_empty (sob_source_json_pointer binding)
         || is_empty (sob_target_argument_key binding)
      then Err (invalid_plan "workflow.output_mapping_invalid" (wp_workflow_id plan)
                  ["binding:" +:+ (source +:+ ("->" +:+ target))])
      else add_bindings plan step_order bindings (add_dependency target source dependencies)
  end.

(** [dependencies[step_id]] *)
Definition dependencies_of (dependencies : Dependencies) (step_id : string) : gset string :=
  default ∅ (dependencies !! step_id).

(** [adjacency[dependency].push_back(step_id)] *)
Definition add_dependent (step_id : string) (adjacency : gmap string (list string))
    (dependency : string) : gmap string (list string) :=
  <[dependency := default [] (adjacency !! dependency) ++ [step_id]]> adjacency.

Definition build_adjacency (dependencies : Dependencies) (visit : list string)
    : gmap string (list string) :=
  foldl (fun adjacency step_id =>
           foldl (add_dependent step_id) adjacency
             (elements (dependencies_of dependencies step_id)))
    ∅ visit.

Definition order_le (step_order : StepOrder) (left right : string) : Prop :=
  (default 0 (step_order !! left) <= default 0 (step_order !! right))%nat.

#[export] Instance order_le_dec step_order left right : Decision (order_le step_order left right).
Proof. unfold order_le. apply _. Defined.

(** [std::sort] by the position in the plan, which is different for each step. *)
Definition sort_steps (step_order : StepOrder) (ids : list string) : list string :=
  merge_sort (order_le step_order) ids.

Fixpoint check_zero_indegree (plan : WorkflowPlan) (zero_indegree : list string) : checked unit :=
  match zero_indegree with
  | [] => Ok ()
  | step_id :: rest =>
      if bool_decide (step_id ∈ wp_entry_step_ids plan) then check_zero_indegree plan rest
      else Err (invalid_plan "workflow.entry_step_incomplete" (wp_workflow_id plan)
                  ["entry:" +:+ step_id])
  end.

(** One dependent of a step of the batch: its count goes down, and at zero it is due. *)
Definition release_dependent (state : gmap string nat * list string) (dependent : string)
    : gmap string nat * list string :=
  match default 0%nat (state.1 !! dependent) with
  | O => state
  | S n => (<[dependent := n]> state.1,
            if bool_decide (n = 0%nat) then state.2 ++ [dependent] else state.2)
  end.

Definition release_batch (adjacency : gmap string (list string)) (indegree : gmap string nat)
    (ready : list string) : gmap string nat * list string :=
  foldl (fun state step_id => foldl release_dependent state (default [] (adjacency !! step_id)))
    (indegree, []) ready.

(** The [while] loop; [None] would be a loop that goes on after [fuel] rounds. *)
Fixpoint batch_loop (fuel : nat) (step_order : StepOrder) (adjacency : gmap string (list string))
    (indegree : gmap string nat) (ready : list string) (batches : list WorkflowBatch)
    (processed : nat) : option (list WorkflowBatch * nat) :=
  match ready with
  | [] => Some (batches, processed)
  | _ =>
      match fuel with
      | O => None
      | S fuel =>
          let released := release_batch adjacency indegree ready in
          batch_loop fuel step_order adjacency released.1 (sort_steps step_order released.2)
            (batches ++ [{| wb_step_ids := ready |}]) (processed + length ready)
      end
  end.

Definition has_no_indegree (indegree : gmap string nat) (step_id : string) : Prop :=
  default 0%nat (indegree !! step_id) = 0%nat.

#[export] Instance has_no_indegree_dec indegree step_id : Decision (has_no_indegree indegree step_id).
Proof. unfold has_no_indegree. apply _. Defined.

(** The checks before the batches, up to the dependencies of each step. *)
Definition check_plan (plan : WorkflowPlan) : checked (StepOrder * Dependencies) :=
  if is_empty (wp_workflow_id plan)
  then Err (invalid_plan "workflow.plan_id_missing" "workflow.plan" ["workflow.plan_id_missing"])
  else
  if bool_decide (wp_steps plan = []) || bool_decide (wp_entry_step_ids plan = [])
  then Err (invalid_plan "workflow.plan_steps_missing" (wp_workflow_id plan)
              ["workflow.plan_steps_missing"])
  else
  let* indexed := index_steps plan 0 (wp_steps plan) ∅ ∅ in
  let step_order := indexed.1 in
  let* _ := check_entries step_order (wp_entry_step_ids plan) in
  let* dependencies := add_step_dependencies step_order (wp_steps plan) indexed.2 in
  let* dependencies := add_edges plan step_order (wp_edges plan) dependencies in
  let* dependencies := add_bindings plan step_order (wp_step_output_mapping plan) dependencies in
  Ok (step_order, dependencies).

Definition build_batches (plan : WorkflowPlan) (visit : list string)
    : option WorkflowBatchBuildResult :=
  match check_plan plan with
  | Err refused => Some refused
  | Ok (step_order, dependencies) =>
      let adjacency := build_adjacency dependencies visit in
      let indegree := (size : gset string -> nat) <$> dependencies in
      let zero_indegree :=
        sort_steps step_order (filter (has_no_indegree indegree) (ws_step_id <$> wp_steps plan)) in
      match check_zero_indegree plan zero_indegree with
      | Err refused => Some refused
      | Ok _ =>
          let? built := batch_loop (length (wp_steps plan)) step_order adjacency indegree
                          zero_indegree [] 0 else None in
          Some (if bool_decide (built.2 = length (wp_steps plan)) then batches_built built.1
                else invalid_plan "workflow.cyclic_graph" (wp_workflow_id plan)
                       ["workflow:" +:+ wp_workflow_id plan; "workflow.cyclic_graph"])
      end
  end.

(** ** The plan as a graph *)

Definition step_ids (plan : WorkflowPlan) : list string := ws_step_id <$> wp_steps plan.

(** The pairs of a step and a step it waits for. *)
Definition dependency_pairs (plan : WorkflowPlan) : list (string * string) :=
  (wp_steps plan ≫= fun step => pair (ws_step_id step) <$> ws_depends_on step)
  ++ ((fun edge => (we_to_step_id edge, we_from_step_id edge)) <$> wp_edges plan)
  ++ ((fun binding => (sob_target_step_id binding, sob_source_step_id binding))
      <$> wp_step_output_mapping plan).

Definition depends (plan : WorkflowPlan) (step_id dependency : string) : Prop :=
  (step_id, dependency) ∈ dependency_pairs plan.

(** What [build_batches] asks of a plan, the shape of the graph apart. *)
Record plan_checked (plan : WorkflowPlan) : Prop := {
  pc_workflow_id : wp_workflow_id plan <> "";
  pc_steps : wp_steps plan <> [];
  pc_entries : wp_entry_step_ids plan <> [];
  pc_distinct : NoDup (step_ids plan);
  pc_named : "" ∉ step_ids plan;
  pc_entries_known : Forall (fun entry => entry ∈ step_ids plan) (wp_entry_step_ids plan);
  pc_depends_on : Forall (fun step =>
    Forall (fun d => d ∈ step_ids plan /\ d <> ws_step_id step) (ws_depends_on step))
    (wp_steps plan);
  pc_edges : Forall (fun edge =>
    (we_from_step_id edge ∈ step_ids plan /\ we_to_step_id edge ∈ step_ids plan)
    /\ we_from_step_id edge <> we_to_step_id edge) (wp_edges plan);
  pc_mapping : Forall (fun binding =>
    (sob_source_step_id binding ∈ step_ids plan /\ sob_target_step_id binding ∈ step_ids plan)
    /\ sob_source_json_pointer binding <> "" /\ sob_target_argument_key binding <> "")
    (wp_step_output_mapping plan);
}.

(** ** The checks *)

Definition knows (step_order : StepOrder) (ids : list string) : Prop :=
  forall s, contains step_order s = bool_decide (s ∈ ids).

Lemma index_steps_spec plan index steps step_order dependencies :
  let ids := ws_step_id <$> steps in
  (exists step_order' dependencies',
     index_steps plan index steps step_order dependencies = Ok (step_order', dependencies') /\
     (forall s, s ∉ ids -> step_order' !! s = step_order !! s /\
                           dependencies' !! s = dependencies !! s) /\
     (forall k s, ids !! k = Some s -> step_order' !! s = Some (index + k)%nat) /\
     (forall s, s ∈ ids -> dependencies' !! s = Some ∅)) /\
  NoDup ids /\ ("" ∉ ids) /\ (forall s, s ∈ ids -> step_order !! s = None) \/
  (exists refused, index_steps plan index steps step_order dependencies = Err refused) /\
  ~ (NoDup ids /\ ("" ∉ ids) /\ (forall s, s ∈ ids -> step_order !! s = None)).
Proof.
  revert index step_order dependencies. induction steps as [|step steps IH];
    intros index step_order dependencies; cbn zeta; cbn [index_steps fmap list_fmap].
  { left. split; [|split; [constructor|set_solver]].
    eexists _, _. split; [done|]. split; [done|]. split; [done|set_solver]. }
  cbn zeta. set (id := ws_step_id step). set (ids := ws_step_id <$> steps) in *.
  destruct (is_empty id || contains step_order id) eqn:Etest.
  { right. split; [by eexists|]. intros (Hnd & Hne & Hfresh). unfold contains in Etest.
    apply orb_true_iff in Etest as [->%is_empty_true|Hc%bool_decide_eq_true]; [set_solver|].
    rewrite (Hfresh id) in Hc by set_solver. by destruct Hc. }
  apply orb_false_iff in Etest as [Hid%is_empty_false Hnew].
  unfold contains in Hnew. apply bool_decide_eq_false, eq_None_not_Some in Hnew.
  destruct (IH (S index) (<[id := index]> step_order) (<[id := ∅]> dependencies))
    as [((so & deps & E & Hout & Hpos & Hin) & Hnd & Hne & Hfresh)|[[refused E] Hbad]].
  - left. assert (id ∉ ids) as Hni.
    { intros Hin'. specialize (Hfresh id Hin'). by rewrite lookup_insert_eq in Hfresh. }
    destruct (Hout id Hni) as [Ho Hd]. rewrite lookup_insert_eq in Ho. rewrite lookup_insert_eq in Hd.
    split.
    + exists so, deps. split; [done|]. split.
      { intros s [Hs1 Hs2]%not_elem_of_cons. destruct (Hout s Hs2) as [-> ->].
        by rewrite !lookup_insert_ne by done. }
      split.
      { intros [|k] s Hk; simpl in Hk; [injection Hk as <-; by rewrite Nat.add_0_r|].
        rewrite (Hpos k s Hk). f_equal. lia. }
      intros s [->|Hs]%elem_of_cons; [done|by apply Hin].
    + split; [by apply NoDup_cons|]. split; [set_solver|].
      intros s [->|Hs]%elem_of_cons; [done|]. specialize (Hfresh s Hs).
      destruct (decide (s = id)) as [->|Hsi]; [done|]. by rewrite lookup_insert_ne in Hfresh.
  - right. split; [by exists refused|]. intros (Hnd & Hne & Hfresh). apply Hbad.
    apply NoDup_cons in Hnd as [Hni Hnd]. split; [done|]. split; [set_solver|].
    intros s Hs. rewrite lookup_insert_ne by set_solver. apply Hfresh. set_solver.
Qed.

Lemma check_entries_spec step_order ids entries :
  knows step_order ids ->
  check_entries step_order entries = Ok () <-> Forall (fun entry => entry ∈ ids) entries.
Proof.
  intros Hk. induction entries as [|entry entries IH]; [done|]. cbn [check_entries].
  rewrite Forall_cons, <-IH, Hk. case_bool_decide; simpl; naive_solver.
Qed.

(** The dependencies with some pairs added. *)
Definition add_pairs (pairs : list (string * string)) (dependencies : Dependencies)
    : Dependencies :=
  foldl (fun dependencies pair => add_dependency pair.1 pair.2 dependencies) dependencies pairs.

Lemma add_pairs_app p1 p2 deps : add_pairs (p1 ++ p2) deps = add_pairs p2 (add_pairs p1 deps).
Proof. apply foldl_app. Qed.

Lemma add_depends_on_spec step_order ids step_id depends_on deps deps' :
  knows step_order ids ->
  add_depends_on step_order step_id depends_on deps = Ok deps' <->
  Forall (fun d => d ∈ ids /\ d <> step_id) depends_on /\
  deps' = add_pairs (pair step_id <$> depends_on) deps.
Proof.
  intros Hk. revert deps. induction depends_on as [|d depends_on IH]; intros deps.
  - simpl. split; [by intros [= ->]|by intros [_ ->]].
  - cbn [add_depends_on]. rewrite Forall_cons, Hk.
    destruct (decide (d ∈ ids)) as [Hd|Hd];
      [rewrite bool_decide_true by done|rewrite bool_decide_false by done; simpl; naive_solver].
    destruct (decide (d = step_id)) as [->|Hne];
      [rewrite bool_decide_true by done; simpl; naive_solver|].
    rewrite bool_decide_false by done. simpl. rewrite IH. simpl. naive_solver.
Qed.

Lemma add_step_dependencies_spec step_order ids steps deps deps' :
  knows step_order ids ->
  add_step_dependencies step_order steps deps = Ok deps' <->
  Forall (fun step => Forall (fun d => d ∈ ids /\ d <> ws_step_id step) (ws_depends_on step))
    steps /\
  deps' = add_pairs (steps ≫= fun step => pair (ws_step_id step) <$> ws_depends_on step) deps.
Proof.
  intros Hk. revert deps. induction steps as [|step steps IH]; intros deps.
  - simpl. split; [by intros [= ->]|by intros [_ ->]].
  - cbn [add_step_dependencies]. rewrite result_bind_ok, Forall_cons. cbn [mbind list_bind].
    rewrite add_pairs_app. split.
    + intros (d & [H1 ->]%(add_depends_on_spec _ _ _ _ _ _ Hk) & [H2 ->]%IH). done.
    + intros [[H1 H2] ->]. eexists. rewrite (add_depends_on_spec _ _ _ _ _ _ Hk), IH. done.
Qed.

Lemma add_edges_spec plan step_order ids edges deps deps' :
  knows step_order ids ->
  add_edges plan step_order edges deps = Ok deps' <->
  Forall (fun edge => (we_from_step_id edge ∈ ids /\ we_to_step_id edge ∈ ids)
                      /\ we_from_step_id edge <> we_to_step_id edge) edges /\
  deps' = add_pairs ((fun edge => (we_to_step_id edge, we_from_step_id edge)) <$> edges) deps.
Proof.
  intros Hk. revert deps. induction edges as [|edge edges IH]; intros deps.
  - simpl. split; [by intros [= ->]|by intros [_ ->]].
  - cbn [add_edges]. cbn zeta. rewrite Forall_cons, !Hk.
    repeat case_bool_decide; simpl; rewrite ?IH; simpl; naive_solver.
Qed.

Lemma add_bindings_spec plan step_order ids bindings deps deps' :
  knows step_order ids ->
  add_bindings plan step_order bindings deps = Ok deps' <->
  Forall (fun binding =>
    (sob_source_step_id binding ∈ ids /\ sob_target_step_id binding ∈ ids)
    /\ sob_source_json_pointer binding <> "" /\ sob_target_argument_key binding <> "") bindings /\
  deps' = add_pairs
    ((fun binding => (sob_target_step_id binding, sob_source_step_id binding)) <$> bindings) deps.
Proof.
  intros Hk. revert deps. induction bindings as [|binding bindings IH]; intros deps.
  - simpl. split; [by intros [= ->]|by intros [_ ->]].
  - cbn [add_bindings]. cbn zeta. rewrite Forall_cons, !Hk. unfold is_empty.
    repeat case_bool_decide; simpl; rewrite ?IH; simpl; naive_solver.
Qed.

Lemma elem_of_add_pairs pairs deps s d :
  d ∈ dependencies_of (add_pairs pairs deps) s <-> (s, d) ∈ pairs \/ d ∈ dependencies_of deps s.
Proof.
  revert deps. induction pairs as [|[s' d'] pairs IH]; intros deps; simpl; [set_solver|].
  rewrite IH, elem_of_cons. unfold dependencies_of, add_dependency. simpl.
  destruct (decide (s = s')) as [->|Hne].
  - rewrite lookup_insert_eq. simpl. set_solver.
  - rewrite lookup_insert_ne by done. naive_solver.
Qed.

Lemma dom_add_pairs pairs deps :
  Forall (fun pair => pair.1 ∈ dom deps) pairs -> dom (add_pairs pairs deps) = dom deps.
Proof.
  revert deps. induction pairs as [|[s d] pairs IH]; intros deps Hall; [done|].
  apply Forall_cons in Hall as [Hs Hall]. simpl in *.
  assert (dom (add_dependency s d deps) = dom deps) as Hdom.
  { unfold add_dependency. rewrite dom_insert_L. set_solver. }
  rewrite IH; [done|]. eapply Forall_impl; [exact Hall|]. intros p. by rewrite Hdom.
Qed.

(** What the checks leave: the position of each step, and its dependencies. *)
Record planned (plan : WorkflowPlan) (step_order : StepOrder) (deps : Dependencies) : Prop := {
  pl_order : forall k s, step_ids plan !! k = Some s -> step_order !! s = Some k;
  pl_dom : dom deps = list_to_set (step_ids plan);
  pl_deps : forall s d, d ∈ dependencies_of deps s <-> depends plan s d;
}.

Lemma index_steps_planned plan step_order deps :
  index_steps plan 0 (wp_steps plan) ∅ ∅ = Ok (step_order, deps) ->
  NoDup (step_ids plan) /\ ("" ∉ step_ids plan) /\ knows step_order (step_ids plan) /\
  (forall k s, step_ids plan !! k = Some s -> step_order !! s = Some k) /\
  (forall s, deps !! s = if bool_decide (s ∈ step_ids plan) then Some ∅ else None).
Proof.
  intros E. pose proof (index_steps_spec plan 0 (wp_steps plan) ∅ ∅) as H.
  cbn zeta in H. fold (step_ids plan) in H.
  destruct H as [[(so & dp & E' & Hout & Hpos & Hin) (Hnd & Hne & _)]|[[r E'] _]];
    rewrite E in E'; [|done]. injection E' as <- <-.
  split; [done|]. split; [done|]. split.
  { intros s. unfold contains. apply bool_decide_ext. split.
    - intros Hs. destruct (decide (s ∈ step_ids plan)) as [|Hn]; [done|].
      destruct (Hout s Hn) as [Ho _]. rewrite Ho in Hs. by destruct Hs.
    - intros [k Hk]%list_elem_of_lookup. rewrite (Hpos k s Hk). by eexists. }
  split; [done|]. intros s. case_bool_decide as Hs; [by apply Hin|]. by destruct (Hout s Hs) as [_ ->].
Qed.

(** The steps of a dependency are steps of the plan. *)
Lemma depends_known plan s d :
  plan_checked plan -> depends plan s d -> s ∈ step_ids plan /\ d ∈ step_ids plan.
Proof.
  intros H. unfold depends, dependency_pairs. rewrite !elem_of_app. intros [Hd|[He|Hb]].
  - apply list_elem_of_bind in Hd as (step & Hd & Hstep).
    apply list_elem_of_fmap in Hd as (d' & [= -> ->] & Hd).
    pose proof (pc_depends_on _ H) as Hall. rewrite Forall_forall in Hall.
    specialize (Hall _ Hstep). rewrite Forall_forall in Hall. destruct (Hall _ Hd) as [Hin _].
    split; [|done]. by apply (list_elem_of_fmap_2 ws_step_id).
  - apply list_elem_of_fmap in He as (edge & [= -> ->] & He).
    pose proof (pc_edges _ H) as Hall. rewrite Forall_forall in Hall. by destruct (Hall _ He) as [[] _].
  - apply list_elem_of_fmap in Hb as (binding & [= -> ->] & Hb).
    pose proof (pc_mapping _ H) as Hall. rewrite Forall_forall in Hall.
    by destruct (Hall _ Hb) as [[] _].
Qed.

Lemma check_plan_ok plan step_order deps :
  check_plan plan = Ok (step_order, deps) -> plan_checked plan /\ planned plan step_order deps.
Proof.
  unfold check_plan. destruct (is_empty (wp_workflow_id plan)) eqn:E1; [done|].
  apply is_empty_false in E1. case_bool_decide as E2; [done|]. case_bool_decide as E3; [done|].
  cbn [orb]. intros ([so dp0] & Hidx & H)%result_bind_ok. cbn [fst snd] in H.
  apply result_bind_ok in H as ([] & Hent & H).
  apply result_bind_ok in H as (dp1 & Hdep & H). apply result_bind_ok in H as (dp2 & Hedge & H).
  apply result_bind_ok in H as (dp3 & Hmap & [= <- <-]).
  apply index_steps_planned in Hidx as (Hnd & Hne & Hk & Hpos & Hdp0).
  apply (check_entries_spec _ _ _ Hk) in Hent.
  apply (add_step_dependencies_spec _ _ _ _ _ Hk) in Hdep as [Hdep ->].
  apply (add_edges_spec _ _ _ _ _ _ Hk) in Hedge as [Hedge ->].
  apply (add_bindings_spec _ _ _ _ _ _ Hk) in Hmap as [Hmap ->].
  assert (plan_checked plan) as Hchecked by (by split).
  split; [done|]. rewrite <-!add_pairs_app. fold (dependency_pairs plan).
  assert (dom dp0 = list_to_set (step_ids plan)) as Hdom0.
  { apply set_eq. intros s. rewrite elem_of_dom, elem_of_list_to_set, Hdp0.
    case_bool_decide; [split; [done|by eexists]|split; [by intros []|done]]. }
  split; [done| |].
  - rewrite dom_add_pairs; [done|]. rewrite Hdom0. apply Forall_forall. intros [s d] Hsd.
    apply elem_of_list_to_set. by apply (depends_known _ s d).
  - intros s d. rewrite elem_of_add_pairs. unfold depends, dependencies_of. rewrite Hdp0.
    case_bool_decide; simpl; rewrite elem_of_empty; tauto.
Qed.

Lemma check_plan_complete plan :
  plan_checked plan -> exists step_order deps, check_plan plan = Ok (step_order, deps).
Proof.
  intros [H1 H2 H3 H4 H5 H6 H7 H8 H9]. unfold check_plan.
  rewrite (proj2 (is_empty_false _)), !bool_decide_false by done. cbn [orb].
  destruct (index_steps_spec plan 0 (wp_steps plan) ∅ ∅) as [[(so & dp & E & _) _]|[_ Hbad]];
    [|exfalso; by apply Hbad].
  destruct (index_steps_planned _ _ _ E) as (_ & _ & Hk & _).
  rewrite E. cbn [result_bind fst snd].
  rewrite (proj2 (check_entries_spec _ _ _ Hk) H6). cbn [result_bind].
  rewrite (proj2 (add_step_dependencies_spec _ _ _ _ _ Hk) (conj H7 eq_refl)). cbn [result_bind].
  rewrite (proj2 (add_edges_spec _ _ _ _ _ _ Hk) (conj H8 eq_refl)). cbn [result_bind].
  rewrite (proj2 (add_bindings_spec _ _ _ _ _ _ Hk) (conj H9 eq_refl)). cbn [result_bind].
  by eexists _, _.
Qed.

(** ** A round of the loop *)

Lemma add_dependents_lookup s ds adjacency d :
  NoDup ds ->
  default [] (foldl (add_dependent s) adjacency ds !! d)
  = default [] (adjacency !! d) ++ (if bool_decide (d ∈ ds) then [s] else []).
Proof.
  revert adjacency. induction ds as [|d' ds IH]; intros adjacency Hnd; cbn [foldl].
  - rewrite bool_decide_false by set_solver. by rewrite app_nil_r.
  - apply NoDup_cons in Hnd as [Hni Hnd]. rewrite IH by done. unfold add_dependent.
    destruct (decide (d = d')) as [->|Hne].
    + rewrite lookup_insert_eq. rewrite bool_decide_false by done.
      rewrite bool_decide_true by set_solver. simpl. by rewrite app_nil_r.
    + rewrite lookup_insert_ne by done. f_equal.
      by rewrite (bool_decide_ext (d ∈ d' :: ds) (d ∈ ds)) by set_solver.
Qed.

Lemma adjacency_lookup deps visit d :
  default [] (build_adjacency deps visit !! d)
  = filter (fun s => d ∈ dependencies_of deps s) visit.
Proof.
  unfold build_adjacency.
  assert (forall adjacency,
    default [] (foldl (fun adjacency step_id =>
      foldl (add_dependent step_id) adjacency (elements (dependencies_of deps step_id)))
      adjacency visit !! d)
    = default [] (adjacency !! d) ++ filter (fun s => d ∈ dependencies_of deps s) visit) as H.
  { induction visit as [|s visit IH]; intros adjacency; cbn [foldl].
    - by rewrite app_nil_r.
    - rewrite IH, add_dependents_lookup by apply NoDup_elements. rewrite filter_cons, <-app_assoc.
      f_equal. destruct (decide (d ∈ dependencies_of deps s)) as [Hd|Hd].
      + by rewrite bool_decide_true by (by apply elem_of_elements).
      + by rewrite bool_decide_false by (by rewrite elem_of_elements). }
  by rewrite H, lookup_empty.
Qed.

(** The dependents of one step go down by one, and those that reach zero are due. *)
Lemma release_list dependents (counts : gmap string nat) next :
  NoDup dependents -> (forall s, s ∈ dependents -> exists n, counts !! s = Some (S n)) ->
  let state := foldl release_dependent (counts, next) dependents in
  (forall s, state.1 !! s = if bool_decide (s ∈ dependents) then Nat.pred <$> counts !! s
                            else counts !! s) /\
  state.2 = next ++ filter (fun s => counts !! s = Some 1%nat) dependents.
Proof.
  revert counts next. induction dependents as [|d dependents IH]; intros counts next Hnd Hpos.
  - cbn [foldl]. split; [|by rewrite app_nil_r].
    intros s. by rewrite bool_decide_false by set_solver.
  - apply NoDup_cons in Hnd as [Hni Hnd]. destruct (Hpos d) as [n Hn]; [set_solver|].
    cbn [foldl].
    assert (release_dependent (counts, next) d
            = (<[d := n]> counts, if bool_decide (n = 0%nat) then next ++ [d] else next)) as ->
      by (unfold release_dependent; simpl; by rewrite Hn).
    destruct (IH (<[d := n]> counts) (if bool_decide (n = 0%nat) then next ++ [d] else next) Hnd)
      as [H1 H2].
    { intros s Hs. rewrite lookup_insert_ne by set_solver. apply Hpos. set_solver. }
    split.
    + intros s. rewrite H1. destruct (decide (s = d)) as [->|Hne].
      * rewrite bool_decide_false by done. rewrite bool_decide_true by set_solver.
        by rewrite lookup_insert_eq, Hn.
      * rewrite lookup_insert_ne by done.
        by rewrite (bool_decide_ext (s ∈ d :: dependents) (s ∈ dependents)) by set_solver.
    + rewrite H2, filter_cons, Hn.
      assert (filter (fun s => <[d := n]> counts !! s = Some 1%nat) dependents
              = filter (fun s => counts !! s = Some 1%nat) dependents) as ->.
      { apply filter_ext_in. intros s Hs. by rewrite lookup_insert_ne by set_solver. }
      destruct n as [|n]; [rewrite decide_True by done|by rewrite decide_False by done].
      by rewrite bool_decide_true, <-app_assoc by done.
Qed.

Lemma size_difference_step (X D : gset string) r :
  r ∈ X -> r ∉ D -> size (X ∖ D) = S (size (X ∖ ({[r]} ∪ D))).
Proof.
  intros HX HD. assert (X ∖ D = {[r]} ∪ X ∖ ({[r]} ∪ D)) as ->.
  { apply set_eq. intros s. destruct (decide (s = r)) as [->|]; set_solver. }
  rewrite size_union by set_solver. by rewrite size_singleton.
Qed.

Lemma size_difference_zero (X D : gset string) : size (X ∖ D) = 0%nat <-> X ⊆ D.
Proof.
  rewrite size_empty_iff. split; [apply empty_difference_subseteq|apply subseteq_empty_difference].
Qed.

Section kahn.
Context (deps : Dependencies) (visit : list string).
Hypothesis visit_distinct : NoDup visit.
Hypothesis visit_all : forall s, s ∈ visit <-> s ∈ dom deps.

(** What each step still waits for when [done] is done. *)
Definition counts_after (finished : gset string) (counts : gmap string nat) : Prop :=
  forall s, s ∈ dom deps -> counts !! s = Some (size (dependencies_of deps s ∖ finished)).

Definition due_after (before finished : gset string) (s : string) : Prop :=
  s ∈ dom deps /\ ~ dependencies_of deps s ⊆ before /\ dependencies_of deps s ⊆ finished.

Lemma release_step step_id before finished counts next :
  step_id ∉ finished -> before ⊆ finished ->
  counts_after finished counts -> NoDup next -> (forall s, s ∈ next <-> due_after before finished s) ->
  let state := foldl release_dependent (counts, next)
                 (default [] (build_adjacency deps visit !! step_id)) in
  counts_after ({[step_id]} ∪ finished) state.1 /\ NoDup state.2 /\
  (forall s, s ∈ state.2 <-> due_after before ({[step_id]} ∪ finished) s).
Proof.
  intros Hnew Hbf Hcounts Hnd Hnext. rewrite adjacency_lookup.
  set (dependents := filter _ visit).
  assert (forall s, s ∈ dependents <-> s ∈ dom deps /\ step_id ∈ dependencies_of deps s) as Hin.
  { intros s. unfold dependents. rewrite list_elem_of_filter, visit_all. tauto. }
  destruct (release_list dependents counts next) as [H1 H2].
  { by apply NoDup_filter. }
  { intros s [Hs Hd]%Hin. rewrite (Hcounts s Hs), (size_difference_step _ _ step_id) by done.
    by eexists. }
  split; [|split].
  - intros s Hs. rewrite H1. case_bool_decide as Hd; rewrite (Hcounts s Hs).
    + apply Hin in Hd as [_ Hd]. by rewrite (size_difference_step _ _ step_id).
    + simpl. do 2 f_equal. rewrite Hin in Hd. set_solver.
  - rewrite H2. apply NoDup_app. split; [done|]. split; [|by apply NoDup_filter, NoDup_filter].
    intros s (_ & _ & Hs)%Hnext [_ [_ Hd]%Hin]%list_elem_of_filter. set_solver.
  - intros s. rewrite H2, elem_of_app, list_elem_of_filter, Hin, Hnext. unfold due_after.
    split.
    + intros [(Hs & Hb & Hf)|(Hone & Hs & Hd)]; [set_solver|].
      rewrite (Hcounts s Hs), (size_difference_step _ _ step_id) in Hone by done.
      injection Hone as Hone. apply size_difference_zero in Hone. set_solver.
    + intros (Hs & Hb & Hf). destruct (decide (step_id ∈ dependencies_of deps s)) as [Hd|Hd].
      * right. split; [|done]. rewrite (Hcounts s Hs), (size_difference_step _ _ step_id) by done.
        do 2 f_equal. by apply size_difference_zero.
      * left. set_solver.
Qed.

Lemma release_batch_spec ready finished counts :
  NoDup ready -> (forall s, s ∈ ready -> s ∉ finished) -> counts_after finished counts ->
  let state := release_batch (build_adjacency deps visit) counts ready in
  counts_after (list_to_set ready ∪ finished) state.1 /\ NoDup state.2 /\
  (forall s, s ∈ state.2 <-> due_after finished (list_to_set ready ∪ finished) s).
Proof.
  intros Hnd Hnew Hcounts.
  assert (forall before next, before ⊆ finished -> NoDup next ->
    (forall s, s ∈ next <-> due_after before finished s) ->
    let state := foldl (fun state step_id => foldl release_dependent state
                   (default [] (build_adjacency deps visit !! step_id))) (counts, next) ready in
    counts_after (list_to_set ready ∪ finished) state.1 /\ NoDup state.2 /\
    (forall s, s ∈ state.2 <-> due_after before (list_to_set ready ∪ finished) s)) as H.
  { revert finished counts Hnew Hcounts.
    induction ready as [|r ready IH]; intros finished counts Hnew Hcounts before next Hb Hn Hnext.
    - cbn [foldl list_to_set]. by rewrite (left_id_L ∅ (∪)).
    - apply NoDup_cons in Hnd as [Hr Hnd]. cbn [foldl].
      destruct (release_step r before finished counts next) as (H1 & H2 & H3); try done.
      { apply Hnew. by left. }
      destruct (foldl release_dependent (counts, next) _) as [counts' next'] eqn:E.
      assert (list_to_set (r :: ready) ∪ finished
              = list_to_set ready ∪ ({[r]} ∪ finished :> gset string)) as -> by (clear; set_solver).
      apply IH; try done; [|clear -Hb; set_solver]. intros s Hs.
      specialize (Hnew s ltac:(by right)). clear -Hnew Hr Hs. set_solver. }
  apply H; [done|constructor|]. clear. unfold due_after. set_solver.
Qed.
End kahn.

(** ** Layers *)

Lemma StronglySorted_filter {A} (R : relation A) (P : A -> Prop) `{forall x, Decision (P x)} l :
  StronglySorted R l -> StronglySorted R (filter P l).
Proof.
  induction 1 as [|x l _ IH Hall]; [constructor|]. rewrite filter_cons.
  destruct (decide (P x)); [|done]. constructor; [done|].
  rewrite Forall_forall in Hall |- *. intros y [_ Hy]%list_elem_of_filter. by apply Hall.
Qed.

Lemma positions_sorted (step_order : StepOrder) ids base :
  (forall k s, ids !! k = Some s -> step_order !! s = Some (base + k)%nat) ->
  StronglySorted (order_le step_order) ids.
Proof.
  revert base. induction ids as [|s ids IH]; intros base Hpos; [constructor|].
  constructor.
  - apply (IH (S base)). intros k s' Hk. rewrite (Hpos (S k) s' Hk). f_equal. lia.
  - apply Forall_forall. intros s' [k Hk]%list_elem_of_lookup. unfold order_le.
    rewrite (Hpos 0%nat s eq_refl), (Hpos (S k) s' Hk). simpl. lia.
Qed.

#[export] Instance order_le_trans step_order : Transitive (order_le step_order).
Proof. intros x y z. unfold order_le. lia. Qed.

#[export] Instance order_le_total step_order : Total (order_le step_order).
Proof. intros x y. unfold order_le. lia. Qed.

(** Sorting restores the order of the plan. *)
Lemma sort_steps_filter (step_order : StepOrder) ids P `{forall s : string, Decision (P s)} l :
  (forall k s, ids !! k = Some s -> step_order !! s = Some k) ->
  l ≡ₚ filter P ids -> sort_steps step_order l = filter P ids.
Proof.
  intros Hpos Hperm. unfold sort_steps.
  apply (StronglySorted_unique_strong (order_le step_order)).
  - intros x y Hx Hy. rewrite (merge_sort_Permutation _ l), Hperm in Hx.
    apply list_elem_of_filter in Hx as [_ [i Hi]%list_elem_of_lookup],
      Hy as [_ [j Hj]%list_elem_of_lookup].
    unfold order_le. rewrite (Hpos _ _ Hi), (Hpos _ _ Hj). simpl. intros.
    assert (i = j) as -> by lia. congruence.
  - apply StronglySorted_merge_sort; apply _.
  - by apply StronglySorted_filter, (positions_sorted _ _ 0).
  - by rewrite merge_sort_Permutation.
Qed.

Section layers.
Context (ids : list string) (waits : string -> gset string).

Definition eligible (finished : gset string) (s : string) : Prop :=
  (s ∉ finished) /\ waits s ⊆ finished.

#[local] Instance eligible_dec finished s : Decision (eligible finished s).
Proof. unfold eligible. apply _. Defined.

(** The steps that can start when [finished] is done, in the order of the plan. *)
Definition layer (finished : gset string) : list string := filter (eligible finished) ids.

Inductive layered : gset string -> list (list string) -> gset string -> Prop :=
| layered_end finished : layer finished = [] -> layered finished [] finished
| layered_next finished layers final :
    layer finished <> [] ->
    layered (list_to_set (layer finished) ∪ finished) layers final ->
    layered finished (layer finished :: layers) final.

Lemma elem_of_layer finished s : s ∈ layer finished <-> s ∈ ids /\ eligible finished s.
Proof. unfold layer. rewrite list_elem_of_filter. tauto. Qed.

Lemma layered_final finished layers final :
  layered finished layers final ->
  layer final = [] /\ final = list_to_set (concat layers) ∪ finished.
Proof.
  induction 1 as [finished Hend|finished layers final Hne _ [IH1 IH2]].
  - split; [done|]. simpl. by rewrite (left_id_L ∅ (∪)).
  - split; [done|]. rewrite IH2. simpl. rewrite list_to_set_app_L. clear. set_solver.
Qed.

Lemma layered_distinct finished layers final :
  NoDup ids -> layered finished layers final ->
  NoDup (concat layers) /\
  (forall s, s ∈ concat layers -> s ∈ ids /\ s ∉ finished).
Proof.
  intros Hnd. induction 1 as [finished Hend|finished layers final Hne _ [IH1 IH2]].
  - split; [constructor|]. intros s Hs. by apply elem_of_nil in Hs.
  - simpl. split.
    + apply NoDup_app. split; [by apply NoDup_filter|]. split; [|done].
      intros s Hs [_ Hs']%IH2. apply Hs'. apply elem_of_union_l. by apply elem_of_list_to_set.
    + intros s [[Hs [Hf _]]%elem_of_layer|[Hs Hf]%IH2]%elem_of_app; [done|].
      split; [done|]. intros Hin. apply Hf. by apply elem_of_union_r.
Qed.

(** A step is in the first layer after everything it waits for. *)
Lemma layered_lookup finished layers final i l s :
  layered finished layers final -> layers !! i = Some l -> s ∈ l ->
  l = layer (list_to_set (concat (take i layers)) ∪ finished) /\
  (forall j, i = S j -> exists d, d ∈ waits s /\ exists l', layers !! j = Some l' /\ d ∈ l').
Proof.
  intros Hlay. revert i. induction Hlay as [|finished layers final Hne Hlay IH]; intros i Hi Hs;
    [done|]. destruct i as [|i].
  - injection Hi as <-. split; [|done]. simpl. by rewrite (left_id_L ∅ (∪)).
  - simpl in Hi. destruct (IH i Hi Hs) as [Hl Hprev]. split.
    + rewrite Hl. simpl. rewrite list_to_set_app_L. f_equal. clear. set_solver.
    + intros j [= <-]. destruct i as [|i].
      * (* the layer just before is the first *)
        simpl in Hl. rewrite (left_id_L ∅ (∪)) in Hl. subst l.
        apply elem_of_layer in Hs as [Hs [Hnew Hw]].
        destruct (decide (waits s ∖ finished = ∅)) as [Hearly|Hlate].
        { apply empty_difference_subseteq_L in Hearly. exfalso. apply Hnew, elem_of_union_l, elem_of_list_to_set, elem_of_layer.
          split; [done|]. split; [|done]. intros Hf. by apply Hnew, elem_of_union_r. }
        apply set_choose_L in Hlate as (d & [Hd Hf]%elem_of_difference). exists d. split; [done|].
        eexists. split; [done|]. apply Hw, elem_of_union in Hd as [Hd|Hd]; [|done].
        by apply elem_of_list_to_set in Hd.
      * destruct (Hprev i eq_refl) as (d & Hd & l' & Hl' & Hdl). exists d. split; [done|].
        by exists l'.
Qed.

Lemma layered_unique finished layers1 layers2 final1 final2 :
  layered finished layers1 final1 -> layered finished layers2 final2 -> layers1 = layers2.
Proof.
  intros H1. revert layers2. induction H1 as [finished Hend|finished layers final Hne _ IH];
    intros layers2 H2; inversion H2; subst; try done. f_equal. by apply IH.
Qed.

(** Every step with a finite past is reached. *)
Lemma layered_reaches finished layers final s :
  layered finished layers final -> (forall s d, d ∈ waits s -> s ∈ ids -> d ∈ ids) ->
  Acc (fun d s => d ∈ waits s) s -> s ∈ ids -> s ∈ final.
Proof.
  intros [Hend _]%layered_final Hids Hacc. induction Hacc as [s _ IH]. intros Hs.
  destruct (decide (s ∈ final)) as [|Hnot]; [done|]. exfalso.
  assert (s ∈ layer final) as Hl; [|by rewrite Hend in Hl; apply elem_of_nil in Hl].
  apply elem_of_layer. split; [done|]. split; [done|]. intros d Hd. apply IH; [done|].
  by apply (Hids s).
Qed.
End layers.

(** ** The loop *)

Section loop.
Context (plan : WorkflowPlan) (step_order : StepOrder) (deps : Dependencies).
Context (visit : list string).
Hypothesis Hchecked : plan_checked plan.
Hypothesis Hplanned : planned plan step_order deps.
Hypothesis Hvisit : visit ≡ₚ step_ids plan.

#[local] Existing Instance eligible_dec.

Abbreviation ids := (step_ids plan).
Abbreviation waits := (dependencies_of deps).

Lemma in_dom s : s ∈ dom deps <-> s ∈ ids.
Proof. rewrite (pl_dom _ _ _ Hplanned). apply elem_of_list_to_set. Qed.

Lemma waits_known s d : d ∈ waits s -> s ∈ ids /\ d ∈ ids.
Proof. rewrite (pl_deps _ _ _ Hplanned). by apply depends_known. Qed.

(** What is finished waits for what is finished only. *)
Definition closed (finished : gset string) : Prop := forall s, s ∈ finished -> waits s ⊆ finished.

Lemma next_layer finished counts :
  closed finished -> counts_after deps finished counts ->
  let ready := layer ids waits finished in
  let released := release_batch (build_adjacency deps visit) counts ready in
  closed (list_to_set ready ∪ finished) /\
  counts_after deps (list_to_set ready ∪ finished) released.1 /\
  sort_steps step_order released.2 = layer ids waits (list_to_set ready ∪ finished).
Proof.
  intros Hclosed Hcounts ready.
  assert (forall s, s ∈ ready -> eligible waits finished s) as Hel
    by (intros s [_ H]%elem_of_layer; done).
  destruct (release_batch_spec deps visit) with (ready := ready) (finished := finished)
    (counts := counts) as (H1 & H2 & H3); try done.
  { rewrite Hvisit. apply (pc_distinct _ Hchecked). }
  { intros s. by rewrite Hvisit, in_dom. }
  { apply NoDup_filter, (pc_distinct _ Hchecked). }
  { intros s Hs. by apply Hel. }
  cbn zeta. split.
  { intros s [Hs%elem_of_list_to_set%Hel|Hs%Hclosed]%elem_of_union; [destruct Hs as [_ Hs]|];
      clear -Hs; set_solver. }
  split; [done|]. apply sort_steps_filter; [apply (pl_order _ _ _ Hplanned)|].
  apply NoDup_Permutation; [done|apply NoDup_filter, (pc_distinct _ Hchecked)|].
  intros s. rewrite H3, list_elem_of_filter. unfold due_after, eligible. rewrite in_dom.
  split.
  - intros (Hs & Hlate & Hw). split; [|done]. split; [|done].
    intros [Hr%elem_of_list_to_set%Hel|Hf%Hclosed]%elem_of_union; [destruct Hr as [_ Hr]|]; done.
  - intros [[Hnew Hw] Hs]. split; [done|]. split; [|done]. intros Hearly. apply Hnew.
    apply elem_of_union_l, elem_of_list_to_set, elem_of_layer. split; [done|].
    split; [|done]. intros Hf. by apply Hnew, elem_of_union_r.
Qed.

Lemma batch_loop_layers fuel finished counts batches processed :
  closed finished -> counts_after deps finished counts ->
  (size (list_to_set ids ∖ finished :> gset string) <= fuel)%nat ->
  exists layers final,
    layered ids waits finished layers final /\
    batch_loop fuel step_order (build_adjacency deps visit) counts (layer ids waits finished)
      batches processed
    = Some (batches ++ (Build_WorkflowBatch <$> layers),
            (processed + length (concat layers))%nat).
Proof.
  revert finished counts batches processed.
  induction fuel as [|fuel IH]; intros finished counts batches processed Hclosed Hcounts Hfuel;
    destruct (layer ids waits finished) as [|s ready] eqn:Hready.
  1, 3: exists [], finished; split; [by constructor|]; cbn [batch_loop fmap list_fmap];
    by rewrite app_nil_r, Nat.add_0_r.
  - exfalso. assert (s ∈ layer ids waits finished) as [Hs [Hf _]]%elem_of_layer
      by (rewrite Hready; by left).
    assert (size (list_to_set ids ∖ finished :> gset string) = 0%nat) as H0 by lia.
    apply size_difference_zero in H0. by apply Hf, H0, elem_of_list_to_set.
  - rewrite <-Hready. destruct (next_layer finished counts Hclosed Hcounts) as (H1 & H2 & H3).
    destruct (IH _ _ (batches ++ [{| wb_step_ids := layer ids waits finished |}])
      (processed + length (layer ids waits finished))%nat H1 H2) as (layers & final & Hl & Hrun).
    { assert (s ∈ layer ids waits finished) as [Hs [Hf _]]%elem_of_layer
        by (rewrite Hready; by left).
      rewrite (size_difference_step _ _ s) in Hfuel by (done || by apply elem_of_list_to_set).
      apply le_S_n in Hfuel. etrans; [|exact Hfuel]. apply subseteq_size.
      rewrite Hready. clear. set_solver. }
    exists (layer ids waits finished :: layers), final. split.
    { apply layered_next; [by rewrite Hready|done]. }
    rewrite Hready at 1. cbn [batch_loop]. rewrite <-Hready, H3, Hrun.
    cbn [fmap list_fmap concat]. rewrite length_app, <-app_assoc. do 2 f_equal. lia.
Qed.

Definition initial_counts : gmap string nat := (size : gset string -> nat) <$> deps.

Lemma initial_counts_after : counts_after deps ∅ initial_counts.
Proof.
  intros s [w Hw]%elem_of_dom. unfold initial_counts, dependencies_of.
  rewrite lookup_fmap, Hw. simpl. by rewrite difference_empty_L.
Qed.

Lemma zero_indegree_layer :
  sort_steps step_order (filter (has_no_indegree initial_counts) ids) = layer ids waits ∅.
Proof.
  apply sort_steps_filter; [apply (pl_order _ _ _ Hplanned)|].
  rewrite (filter_ext_in (has_no_indegree initial_counts) (eligible waits ∅)); [done|].
  intros s Hs. unfold has_no_indegree, eligible.
  rewrite (initial_counts_after s) by (by apply in_dom). simpl.
  rewrite size_difference_zero. clear. set_solver.
Qed.

Lemma check_zero_indegree_spec zero_indegree :
  check_zero_indegree plan zero_indegree = Ok () <->
  Forall (fun s => s ∈ wp_entry_step_ids plan) zero_indegree.
Proof.
  induction zero_indegree as [|s zero IH]; [done|]. cbn [check_zero_indegree].
  rewrite Forall_cons, <-IH. case_bool_decide; naive_solver.
Qed.

Lemma loop_from_start :
  exists layers final,
    layered ids waits ∅ layers final /\
    batch_loop (length (wp_steps plan)) step_order (build_adjacency deps visit) initial_counts
      (layer ids waits ∅) [] 0
    = Some (Build_WorkflowBatch <$> layers, length (concat layers)).
Proof.
  apply (batch_loop_layers (length (wp_steps plan)) ∅ initial_counts [] 0).
  - intros s Hs. by apply not_elem_of_empty in Hs.
  - apply initial_counts_after.
  - rewrite difference_empty_L, size_list_to_set by apply (pc_distinct _ Hchecked).
    unfold step_ids. by rewrite length_fmap.
Qed.

Lemma no_rank_layer s :
  s ∈ layer ids waits ∅ <-> s ∈ ids /\ forall d, ~ depends plan s d.
Proof.
  rewrite elem_of_layer. unfold eligible. split.
  - intros (Hs & _ & Hw). split; [done|]. intros d Hd%(pl_deps _ _ _ Hplanned).
    by apply Hw, not_elem_of_empty in Hd.
  - intros [Hs Hno]. split; [done|]. split; [apply not_elem_of_empty|].
    intros d Hd%(pl_deps _ _ _ Hplanned). by apply Hno in Hd.
Qed.
End loop.

(** ** What the batches are *)

Definition refusal {A} (check : checked A) : Prop :=
  forall refused, check = Err refused -> bbr_ok refused = false.

Lemma refusal_ok {A} (a : A) : refusal (Ok a).
Proof. intros r [=]. Qed.

Lemma refusal_invalid {A} message ref_id evidence :
  refusal (Err (invalid_plan message ref_id evidence) : checked A).
Proof. by intros r [= <-]. Qed.

Lemma refusal_bind {A B} (m : checked A) (f : A -> checked B) :
  refusal m -> (forall a, refusal (f a)) -> refusal (let* a := m in f a).
Proof. intros Hm Hf r. destruct m as [a|e]; simpl; [apply Hf|]. intros [= ->]. by apply Hm. Qed.

Create HintDb refusals.
#[local] Hint Resolve refusal_ok refusal_invalid refusal_bind : refusals.

Lemma index_steps_refusal plan index steps step_order deps :
  refusal (index_steps plan index steps step_order deps).
Proof.
  revert index step_order deps. induction steps as [|step steps IH]; intros; simpl;
    [|case_match]; auto with refusals.
Qed.

Lemma check_entries_refusal step_order entries : refusal (check_entries step_order entries).
Proof. induction entries; simpl; [|case_match]; auto with refusals. Qed.

Lemma add_depends_on_refusal step_order step_id depends_on deps :
  refusal (add_depends_on step_order step_id depends_on deps).
Proof.
  revert deps. induction depends_on; intros; simpl; [|case_match]; auto with refusals.
Qed.

Lemma add_step_dependencies_refusal step_order steps deps :
  refusal (add_step_dependencies step_order steps deps).
Proof.
  revert deps. induction steps; intros; simpl; auto using add_depends_on_refusal with refusals.
Qed.

Lemma add_edges_refusal plan step_order edges deps :
  refusal (add_edges plan step_order edges deps).
Proof. revert deps. induction edges; intros; simpl; [|case_match]; auto with refusals. Qed.

Lemma add_bindings_refusal plan step_order bindings deps :
  refusal (add_bindings plan step_order bindings deps).
Proof. revert deps. induction bindings; intros; simpl; [|case_match]; auto with refusals. Qed.

Lemma check_zero_indegree_refusal plan zero : refusal (check_zero_indegree plan zero).
Proof. induction zero; simpl; [|case_match]; auto with refusals. Qed.

Lemma check_plan_refusal plan : refusal (check_plan plan).
Proof.
  unfold check_plan. repeat case_match; auto with refusals.
  apply refusal_bind; [apply index_steps_refusal|intros indexed].
  apply refusal_bind; [apply check_entries_refusal|intros _].
  apply refusal_bind; [apply add_step_dependencies_refusal|intros deps1].
  apply refusal_bind; [apply add_edges_refusal|intros deps2].
  apply refusal_bind; [apply add_bindings_refusal|auto with refusals].
Qed.

(** No chain of dependencies goes on for ever: there is no cycle. *)
Definition acyclic (plan : WorkflowPlan) : Prop := well_founded (fun d s => depends plan s d).

(** Every step that waits for nothing is declared an entry. *)
Definition entries_complete (plan : WorkflowPlan) : Prop :=
  forall s, s ∈ step_ids plan -> (forall d, ~ depends plan s d) -> s ∈ wp_entry_step_ids plan.

Definition executable_plan (plan : WorkflowPlan) : Prop :=
  plan_checked plan /\ entries_complete plan /\ acyclic plan.

(** The layers of a plan that was accepted. *)
Record batched (plan : WorkflowPlan) (deps : Dependencies) (layers : list (list string)) : Prop := {
  bt_checked : plan_checked plan;
  bt_deps : forall s d, d ∈ dependencies_of deps s <-> depends plan s d;
  bt_entries : entries_complete plan;
  bt_layered : layered (step_ids plan) (dependencies_of deps) ∅ layers
                 (list_to_set (concat layers));
  bt_all : concat layers ≡ₚ step_ids plan;
}.

Lemma layered_all ids waits layers final :
  NoDup ids -> layered ids waits ∅ layers final ->
  final = list_to_set (concat layers) /\
  (length (concat layers) = length ids <-> forall s, s ∈ ids -> s ∈ final) /\
  (length (concat layers) = length ids -> concat layers ≡ₚ ids).
Proof.
  intros Hnd Hl. destruct (layered_distinct _ _ _ _ _ Hnd Hl) as [Hdistinct Hin].
  destruct (layered_final _ _ _ _ _ Hl) as [_ ->]. rewrite (right_id_L ∅ (∪)).
  assert (length (concat layers) = length ids -> concat layers ≡ₚ ids) as Hperm.
  { intros Hlen. apply submseteq_length_Permutation; [|lia].
    apply NoDup_submseteq; [done|]. intros s Hs. by apply Hin. }
  split; [done|]. split; [|done]. split.
  - intros Hlen s Hs. apply elem_of_list_to_set. by rewrite (Hperm Hlen).
  - intros Hall. apply Permutation_length, NoDup_Permutation; [done..|].
    intros s. split; [by intros [Hs _]%Hin|]. intros Hs%Hall. by apply elem_of_list_to_set in Hs.
Qed.

Lemma build_batches_cases plan visit :
  visit ≡ₚ step_ids plan ->
  (exists deps layers,
     build_batches plan visit = Some (batches_built (Build_WorkflowBatch <$> layers)) /\
     batched plan deps layers) \/
  (exists refused, build_batches plan visit = Some refused /\ bbr_ok refused = false /\
     ~ executable_plan plan).
Proof.
  intros Hvisit. unfold build_batches.
  destruct (check_plan plan) as [[step_order deps]|refused] eqn:Hcheck.
  2: { right. exists refused. split; [done|]. split; [by apply check_plan_refusal in Hcheck|].
       intros [H _]. apply check_plan_complete in H as (so & dp & E). by rewrite Hcheck in E. }
  apply check_plan_ok in Hcheck as [Hchecked Hplanned]. cbn zeta.
  change ((size : gset string -> nat) <$> deps) with (initial_counts deps).
  fold (step_ids plan). rewrite (zero_indegree_layer _ _ _ Hplanned).
  destruct (check_zero_indegree plan _) as [[]|refused] eqn:Hzero.
  2: { right. exists refused. split; [done|].
       split; [by apply check_zero_indegree_refusal in Hzero|]. intros (_ & Hent & _).
       assert (check_zero_indegree plan (layer (step_ids plan) (dependencies_of deps) ∅) = Ok ())
         as E; [|by rewrite Hzero in E].
       apply check_zero_indegree_spec, Forall_forall.
       intros s [Hs Hno]%(no_rank_layer _ _ _ Hplanned). by apply Hent. }
  apply check_zero_indegree_spec in Hzero. rewrite Forall_forall in Hzero.
  destruct (loop_from_start plan step_order deps visit Hchecked Hplanned Hvisit)
    as (layers & final & Hl & Hrun). rewrite Hrun. cbn [fst snd].
  destruct (layered_all _ _ _ _ (pc_distinct _ Hchecked) Hl) as (-> & Hall & Hperm).
  assert (length (wp_steps plan) = length (step_ids plan)) as ->
    by (unfold step_ids; by rewrite length_fmap).
  case_bool_decide as Hlen.
  - left. exists deps, layers. split; [done|]. split; try done.
    + apply (pl_deps _ _ _ Hplanned).
    + intros s Hs Hno. apply Hzero. by apply (no_rank_layer _ _ _ Hplanned).
    + by apply Hperm.
  - right. eexists. split; [done|]. split; [done|]. intros (_ & _ & Hacyclic). apply Hlen, Hall.
    intros s Hs. apply (layered_reaches _ _ _ _ _ s Hl); [|..|done].
    + intros s' d Hd _. by apply (waits_known _ _ _ Hchecked Hplanned) in Hd as [_ Hd].
    + clear Hs. induction (Hacyclic s) as [s _ IH]. constructor.
      intros d Hd%(pl_deps _ _ _ Hplanned). by apply IH.
Qed.

Lemma elem_of_concat_lookup {A} (x : A) (ls : list (list A)) :
  x ∈ concat ls <-> exists i l, ls !! i = Some l /\ x ∈ l.
Proof.
  induction ls as [|l ls IH]; simpl.
  - split; [intros H; by apply elem_of_nil in H|by intros (i & l & H & _)].
  - rewrite elem_of_app, IH. split.
    + intros [H|(i & l' & Hi & H)]; [by exists 0%nat, l|by exists (S i), l'].
    + intros ([|i] & l' & Hi & H); [injection Hi as <-; by left|right; by exists i, l'].
Qed.

(** In an accepted plan what a step waits for is in an earlier layer. *)
Lemma batched_earlier plan deps layers i l s d :
  batched plan deps layers -> layers !! i = Some l -> s ∈ l -> depends plan s d ->
  exists j l', (j < i)%nat /\ layers !! j = Some l' /\ d ∈ l'.
Proof.
  intros Hb Hi Hs Hd%(bt_deps _ _ _ Hb).
  destruct (layered_lookup _ _ _ _ _ _ _ _ (bt_layered _ _ _ Hb) Hi Hs) as [Hl _]. rewrite Hl in Hs.
  apply elem_of_layer in Hs as [_ [_ Hw]]. apply Hw in Hd.
  rewrite (right_id_L ∅ (∪)), elem_of_list_to_set in Hd.
  apply elem_of_concat_lookup in Hd as (j & l' & Hj & Hd).
  apply lookup_take_Some in Hj as [Hj Hlt]. by exists j, l'.
Qed.

Lemma batched_acyclic plan deps layers : batched plan deps layers -> acyclic plan.
Proof.
  intros Hb. pose proof (bt_all _ _ _ Hb) as Hall.
  assert (forall n i l s, (i < n)%nat -> layers !! i = Some l -> s ∈ l ->
    Acc (fun d s => depends plan s d) s) as Hacc.
  { induction n as [|n IH]; intros i l s Hi Hil Hs; [lia|]. constructor. intros d Hd.
    destruct (batched_earlier _ _ _ _ _ _ _ Hb Hil Hs Hd) as (j & l' & Hj & Hjl & Hdl).
    apply (IH j l'); [lia|done..]. }
  intros s. destruct (decide (s ∈ step_ids plan)) as [Hs|Hs].
  - rewrite <-Hall in Hs. apply elem_of_concat_lookup in Hs as (i & l & Hi & Hs).
    by apply (Hacc (S i) i l s ltac:(lia)).
  - constructor. intros d [Hs' _]%(depends_known _ _ _ (bt_checked _ _ _ Hb)). done.
Qed.

(** C32. Every plan gets an answer, and the answer is batches exactly when the plan is
    well formed (named distinct steps, known and distinct ends of every dependency and
    edge, complete mappings between known steps), every step that waits for nothing is
    declared an entry, and no chain of dependencies goes on for ever. *)
Theorem build_batches_complete plan visit :
  visit ≡ₚ step_ids plan ->
  exists built, build_batches plan visit = Some built /\
    (bbr_ok built = true <-> executable_plan plan).
Proof.
  intros Hvisit.
  destruct (build_batches_cases plan visit Hvisit)
    as [(deps & layers & E & Hb)|(refused & E & Hok & Hnot)].
  - eexists. split; [exact E|]. split; [|done]. intros _. split; [apply (bt_checked _ _ _ Hb)|].
    split; [apply (bt_entries _ _ _ Hb)|by apply (batched_acyclic _ _ _ Hb)].
  - exists refused. split; [done|]. rewrite Hok. split; [done|]. by intros ?%Hnot.
Qed.

(** The answer to an accepted plan. *)
Lemma built_batched plan visit batches :
  visit ≡ₚ step_ids plan -> build_batches plan visit = Some (batches_built batches) ->
  exists deps layers, batches = Build_WorkflowBatch <$> layers /\ batched plan deps layers.
Proof.
  intros Hvisit E.
  destruct (build_batches_cases plan visit Hvisit)
    as [(deps & layers & E' & Hb)|(refused & E' & Hok & _)]; rewrite E in E'.
  - injection E' as ->. by exists deps, layers.
  - injection E' as <-. done.
Qed.

(** [i < 0] and [batch i] of a result. *)
Definition in_batch (batches : list WorkflowBatch) (i : nat) (step_id : string) : Prop :=
  exists batch, batches !! i = Some batch /\ step_id ∈ wb_step_ids batch.

Lemma in_batch_layer layers i s :
  in_batch (Build_WorkflowBatch <$> layers) i s <-> exists l, layers !! i = Some l /\ s ∈ l.
Proof.
  unfold in_batch. rewrite list_lookup_fmap. split.
  - intros (batch & Hi & Hs). destruct (layers !! i) as [l|]; [|done]. injection Hi as <-.
    by exists l.
  - intros (l & Hi & Hs). rewrite Hi. eexists. split; [done|]. done.
Qed.

(** The batches of an accepted plan. Each step of the plan is in exactly one place;
    a batch keeps the order of the plan; what a step waits for is in an earlier batch;
    and no step could be in an earlier one: after the first batch, each waits for a step
    of the batch just before its own. *)
Theorem batches_in_order plan visit batches :
  visit ≡ₚ step_ids plan -> build_batches plan visit = Some (batches_built batches) ->
  concat (wb_step_ids <$> batches) ≡ₚ step_ids plan /\
  Forall (fun batch => sublist (wb_step_ids batch) (step_ids plan)) batches /\
  forall i s, in_batch batches i s ->
    (forall d, depends plan s d -> exists j, (j < i)%nat /\ in_batch batches j d) /\
    (forall j, i = S j -> exists d, depends plan s d /\ in_batch batches j d).
Proof.
  intros Hvisit E. destruct (built_batched _ _ _ Hvisit E) as (deps & layers & -> & Hb).
  split; [|split].
  - rewrite <-list_fmap_compose. unfold compose. cbn [wb_step_ids]. rewrite list_fmap_id.
    apply (bt_all _ _ _ Hb).
  - apply Forall_fmap, Forall_forall. intros l [i Hi]%list_elem_of_lookup. simpl.
    destruct l as [|s l]; [apply sublist_nil_l|].
    destruct (layered_lookup _ _ _ _ _ _ _ s (bt_layered _ _ _ Hb) Hi ltac:(by left)) as [-> _].
    apply sublist_filter.
  - intros i s (l & Hi & Hs)%in_batch_layer. split.
    + intros d Hd. destruct (batched_earlier _ _ _ _ _ _ _ Hb Hi Hs Hd) as (j & l' & Hj & Hl').
      exists j. split; [done|]. apply in_batch_layer. by exists l'.
    + intros j Hj. destruct (layered_lookup _ _ _ _ _ _ _ _ (bt_layered _ _ _ Hb) Hi Hs) as [_ Hprev].
      destruct (Hprev j Hj) as (d & Hd & Hl'). exists d. rewrite <-(bt_deps _ _ _ Hb).
      split; [done|]. by apply in_batch_layer.
Qed.

Lemma layered_ext ids waits1 waits2 finished layers final :
  (forall s, waits1 s = waits2 s) -> layered ids waits1 finished layers final ->
  layered ids waits2 finished layers final.
Proof.
  intros Hw.
  assert (forall f, layer ids waits1 f = layer ids waits2 f) as Hlayer.
  { intros f. apply filter_ext_in. intros s _. unfold eligible. by rewrite Hw. }
  induction 1 as [f Hend|f layers final Hne _ IH].
  - apply layered_end. by rewrite <-Hlayer.
  - rewrite Hlayer in *. by apply layered_next.
Qed.

(** The order in which the map is visited does not show in the result. *)
Lemma visit_irrelevant plan visit1 visit2 batches1 batches2 :
  visit1 ≡ₚ step_ids plan -> visit2 ≡ₚ step_ids plan ->
  build_batches plan visit1 = Some (batches_built batches1) ->
  build_batches plan visit2 = Some (batches_built batches2) -> batches1 = batches2.
Proof.
  intros H1 H2 E1 E2. destruct (built_batched _ _ _ H1 E1) as (deps1 & layers1 & -> & Hb1).
  destruct (built_batched _ _ _ H2 E2) as (deps2 & layers2 & -> & Hb2). f_equal.
  assert (forall s, dependencies_of deps1 s = dependencies_of deps2 s) as Hdeps.
  { intros s. apply set_eq. intros d. by rewrite (bt_deps _ _ _ Hb1), (bt_deps _ _ _ Hb2). }
  apply (layered_unique (step_ids plan) (dependencies_of deps2) ∅ _ _ (list_to_set (concat layers1))
    (list_to_set (concat layers2))); [|apply (bt_layered _ _ _ Hb2)].
  apply (layered_ext _ _ _ _ _ _ Hdeps), (bt_layered _ _ _ Hb1).
Qed.

(** ** Examples *)

Definition sample_step (id : string) (depends_on : list string) : WorkflowStep :=
  {| ws_step_id := id;
     ws_tool_ir :=
       {| ir_request_id := Some "r1"; ir_tool_call_id := Some ("call-" +:+ id);
          ir_tool_name := Some "tool"; ir_operation := Some ToolIROperation.Invoke;
          ir_normalized_arguments := Some "{}"; ir_route := None; ir_timeout_ms := None;
          ir_idempotency_key := None; ir_priority := None; ir_goal_id := None;
          ir_worker_task_id := None |};
     ws_route_kind_hint := None; ws_step_kind := WorkflowStepKind.Tool;
     ws_depends_on := depends_on; ws_allow_partial_side_effect := false;
     ws_timeout_override_ms := None; ws_delegate_target := None |}.

(** A diamond listed out of order, and an edge. *)
Definition sample_plan : WorkflowPlan :=
  {| wp_workflow_id := "w"; wp_entry_step_ids := ["a"];
     wp_steps := [sample_step "d" ["b"; "c"]; sample_step "c" ["a"]; sample_step "b" ["a"];
                  sample_step "a" []];
     wp_edges := [{| we_from_step_id := "b"; we_to_step_id := "c";
                     we_dependency_kind := WorkflowDependencyKind.Ordering |}];
     wp_step_output_mapping := [];
     wp_delegation_policy := {| wdp_mode := WorkflowDelegationMode.Disabled;
                                wdp_max_delegate_steps := 0 |};
     wp_metadata := [] |}.

Definition sample_visit : list string := ["b"; "d"; "a"; "c"].

Definition sample_batches : list WorkflowBatch :=
  Build_WorkflowBatch <$> [["a"]; ["b"]; ["c"]; ["d"]].

Example sample_built : build_batches sample_plan sample_visit = Some (batches_built sample_batches).
Proof. vm_compute. reflexivity. Qed.

Lemma build_batches_complete_witness :
  exists built, build_batches sample_plan sample_visit = Some built /\
    (bbr_ok built = true <-> executable_plan sample_plan).
Proof. apply build_batches_complete. vm_compute. solve_Permutation. Defined.

Lemma batches_in_order_witness :
  concat (wb_step_ids <$> sample_batches) ≡ₚ step_ids sample_plan.
Proof.
  destruct (batches_in_order sample_plan sample_visit sample_batches) as [H _].
  - vm_compute. solve_Permutation.
  - vm_compute. reflexivity.
  - exact H.
Defined.
