(* ===== verification/Workflow.v ===== *)
(** * Workflow execution

    tools/src/execution/WorkflowEngine.{h,cpp} and CompensationLedger.{h,cpp}: a plan
    runs batch by batch, step by step, up to the first step that fails; what the steps
    did to the world is noted in a ledger, from which the compensation hints are made.

    The executors, the plan loader and the clock are the engine's callbacks: functions
    of the state of the world, the parameters of the section. The execution context,
    which the engine hands on unread, is part of the executors. *)

From S2P Require Import Prelude ErrorCodes RecoveryContracts Text ToolContracts FlatJson WorkflowBatches.

(** ** Compensation ledger *)

Record CompensationRecord := {
  crec_step_id : string;
  crec_route_kind : string;
  crec_tool_call_id : option string;
  crec_tool_name : option string;
  crec_side_effects : list string;
  crec_evidence_refs : list string;
  crec_reversible : bool;
}.

Definition CompensationLedger : Type := list CompensationRecord.

Definition non_empty_ref (prefix : string) (value : option string) : list string :=
  let? text := value else [] in
  if is_empty text then [] else [prefix +:+ text].

Definition collect_evidence_refs (step_id : string) (result : ToolResult) : list string :=
  ["workflow.step." +:+ step_id]
  ++ non_empty_ref "workflow.tool_call." (tres_tool_call_id result)
  ++ non_empty_ref "workflow.tool." (tres_tool_name result)
  ++ (default [] (tres_side_effects result)
        ≫= fun side_effect => non_empty_ref "workflow.side_effect." (Some side_effect)).

Definition build_record (step_id route_kind : string) (result : ToolResult) (reversible : bool)
    : option CompensationRecord :=
  let? side_effects := tres_side_effects result else None in
  if bool_decide (side_effects = []) then None else
  Some {| crec_step_id := step_id; crec_route_kind := route_kind;
          crec_tool_call_id := tres_tool_call_id result;
          crec_tool_name := tres_tool_name result; crec_side_effects := side_effects;
          crec_evidence_refs := collect_evidence_refs step_id result;
          crec_reversible := reversible |}.

(** The record of the same step is replaced in place. *)
Fixpoint replace_record (record : CompensationRecord) (records : CompensationLedger)
    : option CompensationLedger :=
  match records with
  | [] => None
  | candidate :: records =>
      if bool_decide (crec_step_id candidate = crec_step_id record)
      then Some (record :: records)
      else let? replaced := replace_record record records else None in
           Some (candidate :: replaced)
  end.

Definition register_result (ledger : CompensationLedger) (step_id route_kind : string)
    (result : ToolResult) (reversible : bool) : CompensationLedger :=
  let? record := build_record step_id route_kind result reversible else ledger in
  default (ledger ++ [record]) (replace_record record ledger).

Definition record_irreversible_effect (ledger : CompensationLedger) (step_id route_kind : string)
    (result : ToolResult) : CompensationLedger :=
  register_result ledger step_id route_kind result false.

Definition ledger_lookup (ledger : CompensationLedger) (step_id : string)
    : option CompensationRecord :=
  snd <$> list_find (fun candidate => crec_step_id candidate = step_id) ledger.

(** tools/src/bridge/ToolServiceBridge.cpp *)
Definition format_compensation_target_ref (capability_id target_id : string) : string :=
  if is_empty capability_id then "" else
  "tool://" +:+ (capability_id +:+ (if is_empty target_id then "" else "/" +:+ target_id)).

Definition build_hint (record : CompensationRecord) : ToolCompensationHint :=
  let capability_id := default (crec_step_id record) (crec_tool_name record) in
  let target_id := default (crec_step_id record) (crec_tool_call_id record) in
  {| tch_compensation_action := Some capability_id;
     tch_target_ref := Some (format_compensation_target_ref capability_id target_id);
     tch_reason_code := Some "workflow.compensation_available";
     tch_evidence_refs := Some (crec_evidence_refs record) |}.

Definition build_hints (ledger : CompensationLedger) : list ToolCompensationHint :=
  reverse ledger ≫= fun record =>
    if negb (crec_reversible record) || bool_decide (crec_side_effects record = []) then []
    else [build_hint record].

(** ** Receipts *)

Record WorkflowStepReceipt := {
  wsr_step_id : string;
  wsr_route_kind : string;
  wsr_result : ToolResult;
  wsr_mapped_arguments : list string;
  wsr_evidence_refs : list string;
}.

Record WorkflowDelegationSidecar := {
  wds_step_id : string;
  wds_delegate_target : string;
  wds_reason_code : string;
  wds_input_evidence_refs : list string;
}.

Record WorkflowReceipt := {
  wr_workflow_id : string;
  wr_status : string;
  wr_completed_step_ids : list string;
  wr_skipped_step_ids : list string;
  wr_failed_step_id : option string;
  wr_step_results : list WorkflowStepReceipt;
  wr_compensation_hints : list ToolCompensationHint;
  wr_evidence_refs : list string;
  wr_failure_digest : option ErrorInfo;
  wr_delegation_sidecar : option WorkflowDelegationSidecar;
}.

Record WorkflowStepDispatchResult := {
  sdr_ok : bool;
  sdr_step_id : string;
  sdr_route_kind : string;
  sdr_result : ToolResult;
  sdr_mapped_arguments : list string;
  sdr_evidence_refs : list string;
  sdr_delegation_sidecar : option WorkflowDelegationSidecar;
  sdr_failure_reason_code : string;
}.

Record WorkflowExecutionOutcome := {
  weo_receipt : WorkflowReceipt;
  weo_tool_result : ToolResult;
  weo_compensation_hints : option (list ToolCompensationHint);
  weo_evidence_refs : list string;
  weo_failure_reason_code : string;
}.

Definition route_kind_string (route : ToolIRRoute) : string :=
  match route with
  | ToolIRRoute.LocalTool => "builtin"
  | ToolIRRoute.MCPRemote => "mcp"
  | ToolIRRoute.WorkflowEngine | ToolIRRoute.Unspecified | ToolIRRoute.Other _ => "workflow"
  end.

Definition append_unique (target : list string) (value : string) : list string :=
  if bool_decide (value ∈ target) then target else target ++ [value].

Fixpoint serialize_strings (values : list string) : string :=
  match values with
  | [] => EmptyString
  | [value] => quoted value
  | value :: values => quoted value +:+ String "," (serialize_strings values)
  end.

Definition serialize_string_array (values : list string) : string :=
  String "[" (serialize_strings values +:+ "]").

(** [quoted name ":" value] *)
Definition json_field (name value : string) : string := quoted name +:+ String ":" value.

Definition serialize_sidecar (sidecar : WorkflowDelegationSidecar) : string :=
  "{" +:+ (json_field "step_id" (quoted (wds_step_id sidecar)) +:+ (","
    +:+ (json_field "delegate_target" (quoted (wds_delegate_target sidecar)) +:+ (","
    +:+ (json_field "reason_code" (quoted (wds_reason_code sidecar)) +:+ "}"))))).

Definition serialize_receipt (receipt : WorkflowReceipt) : string :=
  "{" +:+ (json_field "workflow_id" (quoted (wr_workflow_id receipt)) +:+ (","
    +:+ (json_field "status" (quoted (wr_status receipt)) +:+ (","
    +:+ (json_field "completed_step_ids" (serialize_string_array (wr_completed_step_ids receipt))
    +:+ (","
    +:+ (json_field "skipped_step_ids" (serialize_string_array (wr_skipped_step_ids receipt))
    +:+ ((let? failed := wr_failed_step_id receipt else "" in
          "," +:+ json_field "failed_step_id" (quoted failed))
    +:+ ((let? sidecar := wr_delegation_sidecar receipt else "" in
          "," +:+ json_field "delegation_sidecar" (serialize_sidecar sidecar))
    +:+ ("," +:+ (json_field "compensation_hint_count"
                    (to_string (Z.of_nat (length (wr_compensation_hints receipt))))
    +:+ "}"))))))))))).

(** ** Results *)

Definition tool_result_of (step_ir : ToolIR) (success : bool) (payload : option string)
    (error : option ErrorInfo) (side_effects : option (list string)) (completed_at : Z)
    (tags : list string) : ToolResult :=
  {| tres_request_id := ir_request_id step_ir; tres_tool_call_id := ir_tool_call_id step_ir;
     tres_tool_name := ir_tool_name step_ir; tres_success := Some success;
     tres_payload := payload; tres_error := error; tres_side_effects := side_effects;
     tres_completed_at := Some completed_at; tres_duration_ms := Some 0;
     tres_goal_id := ir_goal_id step_ir; tres_worker_task_id := ir_worker_task_id step_ir;
     tres_tags := Some tags |}.

Definition build_failure_result (step : WorkflowStep) (code : ResultCode) (message stage : string)
    (now : Z) : ToolResult :=
  tool_result_of (ws_tool_ir step) false None
    (Some (build_error code message stage (ws_step_id step))) None now ["workflow"].

(** [a ? a : b] of an optional. *)
Definition or_else {A} (value fallback : option A) : option A :=
  match value with Some a => Some a | None => fallback end.

(** [normalize_result] but for the clock, read when the executor gave no time. *)
Definition normalize_result (step : WorkflowStep) (result : ToolResult) (now : Z) : ToolResult :=
  let success := default (bool_decide (tres_error result = None)) (tres_success result) in
  {| tres_request_id := or_else (tres_request_id result) (ir_request_id (ws_tool_ir step));
     tres_tool_call_id := or_else (tres_tool_call_id result) (ir_tool_call_id (ws_tool_ir step));
     tres_tool_name := or_else (tres_tool_name result) (ir_tool_name (ws_tool_ir step));
     tres_success := Some success;
     tres_payload := tres_payload result;
     tres_error :=
       if success then None else
       or_else (tres_error result)
         (Some (build_error ResultCode.ToolExecutionFailed "workflow.step_failed"
                  "tools.workflow.dispatch" (ws_step_id step)));
     tres_side_effects := tres_side_effects result;
     tres_completed_at := or_else (tres_completed_at result) (Some now);
     tres_duration_ms := or_else (tres_duration_ms result) (Some 0);
     tres_goal_id := or_else (tres_goal_id result) (ir_goal_id (ws_tool_ir step));
     tres_worker_task_id :=
       or_else (tres_worker_task_id result) (ir_worker_task_id (ws_tool_ir step));
     tres_tags := tres_tags result |}.

Definition with_arguments (arguments : option string) (ir : ToolIR) : ToolIR :=
  {| ir_request_id := ir_request_id ir; ir_tool_call_id := ir_tool_call_id ir;
     ir_tool_name := ir_tool_name ir; ir_operation := ir_operation ir;
     ir_normalized_arguments := arguments; ir_route := ir_route ir;
     ir_timeout_ms := ir_timeout_ms ir; ir_idempotency_key := ir_idempotency_key ir;
     ir_priority := ir_priority ir; ir_goal_id := ir_goal_id ir;
     ir_worker_task_id := ir_worker_task_id ir |}.

Definition with_timeout (timeout_ms : option Z) (ir : ToolIR) : ToolIR :=
  {| ir_request_id := ir_request_id ir; ir_tool_call_id := ir_tool_call_id ir;
     ir_tool_name := ir_tool_name ir; ir_operation := ir_operation ir;
     ir_normalized_arguments := ir_normalized_arguments ir; ir_route := ir_route ir;
     ir_timeout_ms := timeout_ms; ir_idempotency_key := ir_idempotency_key ir;
     ir_priority := ir_priority ir; ir_goal_id := ir_goal_id ir;
     ir_worker_task_id := ir_worker_task_id ir |}.

Definition with_route (route : ToolIRRoute) (ir : ToolIR) : ToolIR :=
  {| ir_request_id := ir_request_id ir; ir_tool_call_id := ir_tool_call_id ir;
     ir_tool_name := ir_tool_name ir; ir_operation := ir_operation ir;
     ir_normalized_arguments := ir_normalized_arguments ir; ir_route := Some route;
     ir_timeout_ms := ir_timeout_ms ir; ir_idempotency_key := ir_idempotency_key ir;
     ir_priority := ir_priority ir; ir_goal_id := ir_goal_id ir;
     ir_worker_task_id := ir_worker_task_id ir |}.

(** ** Argument mapping *)

(** Why a binding stops the step: the failure code and the evidence, with the
    arguments mapped so far. *)
Record MappingFailure := {
  mf_code : string;
  mf_evidence_refs : list string;
  mf_mapped_arguments : list string;
}.

Definition find_receipt (step_id : string) (prior_results : list WorkflowStepReceipt)
    : option WorkflowStepReceipt :=
  snd <$> list_find (fun receipt => wsr_step_id receipt = step_id) prior_results.

(** The payload of the step a binding reads, when that step succeeded with one. *)
Definition source_payload (binding : WorkflowStepOutputBinding)
    (prior_results : list WorkflowStepReceipt) : option string :=
  let? receipt := find_receipt (sob_source_step_id binding) prior_results else None in
  if negb (succeeded (wsr_result receipt)) then None else tres_payload (wsr_result receipt).

Fixpoint map_arguments (step_id : string) (prior_results : list WorkflowStepReceipt)
    (bindings : list WorkflowStepOutputBinding) (arguments : option string)
    (mapped_arguments : list string) : result MappingFailure (option string * list string) :=
  match bindings with
  | [] => Ok (arguments, mapped_arguments)
  | binding :: bindings =>
      let go_on := map_arguments step_id prior_results bindings in
      let stop code evidence :=
        Err {| mf_code := code; mf_evidence_refs := [evidence];
               mf_mapped_arguments := mapped_arguments |} in
      if negb (bool_decide (sob_target_step_id binding = step_id))
      then go_on arguments mapped_arguments else
      match source_payload binding prior_results with
      | None =>
          if negb (sob_required binding) then go_on arguments mapped_arguments
          else stop "workflow.mapping_source_missing"
                 ("binding:" +:+ (sob_source_step_id binding +:+ ("->"
                    +:+ sob_target_step_id binding)))
      | Some payload =>
          match extract_json_pointer_value payload (sob_source_json_pointer binding) with
          | None =>
              if negb (sob_required binding) then go_on arguments mapped_arguments
              else stop "workflow.mapping_pointer_missing"
                     ("binding:" +:+ sob_source_json_pointer binding)
          | Some raw_value =>
              match inject_argument_value (default "{}" arguments)
                      (sob_target_argument_key binding) raw_value with
              | None =>
                  stop "workflow.mapping_target_invalid"
                    ("target:" +:+ sob_target_argument_key binding)
              | Some injected =>
                  go_on (Some injected) (mapped_arguments ++ [sob_target_argument_key binding])
              end
          end
      end
  end.

Definition failed_dispatch (step : WorkflowStep) (route_kind : string) (code : ResultCode)
    (message stage : string) (mapped_arguments evidence_refs : list string) (now : Z)
    : WorkflowStepDispatchResult :=
  {| sdr_ok := false; sdr_step_id := ws_step_id step; sdr_route_kind := route_kind;
     sdr_result := build_failure_result step code message stage now;
     sdr_mapped_arguments := mapped_arguments; sdr_evidence_refs := evidence_refs;
     sdr_delegation_sidecar := None; sdr_failure_reason_code := message |}.

(** A delegation step recommends and runs nothing. *)
Definition dispatch_delegation (plan : WorkflowPlan) (step : WorkflowStep) (delegation_count : Z)
    (now : Z) : WorkflowStepDispatchResult :=
  let policy := wp_delegation_policy plan in
  let refused message :=
    failed_dispatch step "workflow" ResultCode.PolicyDenied message "tools.workflow.delegation" []
      ["workflow:" +:+ ws_step_id step] now in
  if negb (bool_decide (wdp_mode policy = WorkflowDelegationMode.RecommendOnly))
  then refused "workflow.delegation_disabled" else
  if (0 <? wdp_max_delegate_steps policy) && (wdp_max_delegate_steps policy <=? delegation_count)
  then refused "workflow.delegation_limit_exceeded" else
  let delegate_target := default "runtime.delegate" (ws_delegate_target step) in
  {| sdr_ok := true; sdr_step_id := ws_step_id step; sdr_route_kind := "workflow";
     sdr_result :=
       tool_result_of (ws_tool_ir step) true
         (Some ("{" +:+ (json_field "delegation" (quoted "recommended") +:+ (","
                  +:+ (json_field "delegate_target" (quoted delegate_target) +:+ "}")))))
         None None now ["workflow"; "delegation"];
     sdr_mapped_arguments := [];
     sdr_evidence_refs := ["workflow:" +:+ ws_step_id step;
                           "delegate_target:" +:+ delegate_target];
     sdr_delegation_sidecar :=
       Some {| wds_step_id := ws_step_id step; wds_delegate_target := delegate_target;
               wds_reason_code := "workflow.delegation.recommend_only";
               wds_input_evidence_refs := ["workflow:" +:+ ws_step_id step] |};
     sdr_failure_reason_code := "" |}.

(** ** The engine *)

Section engine.
Context {World : Type}.

Definition StepExecutor : Type := World -> ToolIR -> World * ToolResult.

(** The loaded plan, the failure reason code and the failure message. *)
Definition PlanLoader : Type := World -> ToolIR -> World * (option WorkflowPlan * string * string).

Record WorkflowEngineDependencies := {
  wed_plan_loader : option PlanLoader;
  wed_builtin_executor : option StepExecutor;
  wed_mcp_executor : option StepExecutor;
}.

Variable current_time_ms : World -> World * Z.

(** What a string holds after it was moved: the language leaves it open. *)
Variable moved_from : string -> string.

Variable dependencies_ : WorkflowEngineDependencies.

Definition step_executor (route : ToolIRRoute) : option StepExecutor :=
  match route with
  | ToolIRRoute.LocalTool => wed_builtin_executor dependencies_
  | ToolIRRoute.MCPRemote => wed_mcp_executor dependencies_
  | ToolIRRoute.WorkflowEngine | ToolIRRoute.Unspecified | ToolIRRoute.Other _ => None
  end.

Definition executed_evidence (step : WorkflowStep) (result : ToolResult) : list string :=
  ["workflow:" +:+ ws_step_id step]
  ++ (let? id := tres_tool_call_id result else [] in ["tool_call:" +:+ id])
  ++ default [] (tres_side_effects result).

(** The executor's call and what is made of its result. *)
Definition execute_step (w : World) (step : WorkflowStep) (route : ToolIRRoute)
    (executor : StepExecutor) (prepared_ir : ToolIR) (mapped_arguments : list string)
    : World * WorkflowStepDispatchResult :=
  let '(w, raw) := executor w (with_route route prepared_ir) in
  let '(w, now) :=
    match tres_completed_at raw with
    | Some _ => (w, 0)
    | None => current_time_ms w
    end in
  let result := normalize_result step raw now in
  (w, {| sdr_ok := succeeded result; sdr_step_id := ws_step_id step;
         sdr_route_kind := route_kind_string route; sdr_result := result;
         sdr_mapped_arguments := mapped_arguments;
         sdr_evidence_refs := executed_evidence step result;
         sdr_delegation_sidecar := None;
         sdr_failure_reason_code := if succeeded result then "" else "workflow.step_failed" |}).

Definition prepared_ir_of (step : WorkflowStep) (arguments : option string) : ToolIR :=
  let ir := with_arguments arguments (ws_tool_ir step) in
  if bool_decide (ws_timeout_override_ms step = None) then ir
  else with_timeout (ws_timeout_override_ms step) ir.

Definition step_route_of (step : WorkflowStep) : ToolIRRoute :=
  let? route := ir_route (ws_tool_ir step)
  else default ToolIRRoute.LocalTool (ws_route_kind_hint step) in route.

Definition dispatch_step (w : World) (plan : WorkflowPlan) (step : WorkflowStep)
    (prior_results : list WorkflowStepReceipt) (delegation_count : Z)
    : World * WorkflowStepDispatchResult :=
  if bool_decide (ws_step_kind step = WorkflowStepKind.Delegation) then
    let '(w, now) := current_time_ms w in
    (w, dispatch_delegation plan step delegation_count now)
  else
  match map_arguments (ws_step_id step) prior_results (wp_step_output_mapping plan)
          (ir_normalized_arguments (ws_tool_ir step)) [] with
  | Err failure =>
      let '(w, now) := current_time_ms w in
      (w, failed_dispatch step "workflow" ResultCode.ValidationFieldMissing (mf_code failure)
            "tools.workflow.mapping" (mf_mapped_arguments failure) (mf_evidence_refs failure) now)
  | Ok (arguments, mapped_arguments) =>
      let step_route := step_route_of step in
      match step_executor step_route with
      | None =>
          let '(w, now) := current_time_ms w in
          (w, failed_dispatch step (route_kind_string step_route)
                ResultCode.ToolExecutionFailed "workflow.executor_unavailable"
                "tools.workflow.dispatch" mapped_arguments
                ["workflow:" +:+ ws_step_id step] now)
      | Some executor =>
          execute_step w step step_route executor (prepared_ir_of step arguments) mapped_arguments
      end
  end.

Definition collect_step_result (receipt : WorkflowReceipt) (step : WorkflowStep)
    (dispatch_result : WorkflowStepDispatchResult) : WorkflowReceipt :=
  let step_receipt :=
    {| wsr_step_id := ws_step_id step; wsr_route_kind := sdr_route_kind dispatch_result;
       wsr_result := sdr_result dispatch_result;
       wsr_mapped_arguments := sdr_mapped_arguments dispatch_result;
       wsr_evidence_refs := sdr_evidence_refs dispatch_result |} in
  let ok := succeeded (sdr_result dispatch_result) in
  {| wr_workflow_id := wr_workflow_id receipt;
     wr_status := if ok then wr_status receipt else "failed";
     wr_completed_step_ids :=
       if ok then wr_completed_step_ids receipt ++ [ws_step_id step]
       else wr_completed_step_ids receipt;
     wr_skipped_step_ids := wr_skipped_step_ids receipt;
     wr_failed_step_id := if ok then wr_failed_step_id receipt else Some (ws_step_id step);
     wr_step_results := wr_step_results receipt ++ [step_receipt];
     wr_compensation_hints := wr_compensation_hints receipt;
     wr_evidence_refs :=
       foldl append_unique (wr_evidence_refs receipt) (sdr_evidence_refs dispatch_result);
     wr_failure_digest :=
       if ok then wr_failure_digest receipt else
       or_else (tres_error (sdr_result dispatch_result))
         (Some (build_error ResultCode.ToolExecutionFailed
            (if is_empty (sdr_failure_reason_code dispatch_result) then "workflow.step_failed"
             else sdr_failure_reason_code dispatch_result)
            "tools.workflow.collect" (ws_step_id step)));
     wr_delegation_sidecar :=
       or_else (wr_delegation_sidecar receipt) (sdr_delegation_sidecar dispatch_result) |}.

Definition aggregated_side_effects (step_results : list WorkflowStepReceipt) : list string :=
  foldl append_unique []
    (step_results ≫= fun receipt => default [] (tres_side_effects (wsr_result receipt))).

(** The outcome's fields are initialised in their order: when the reason is read, the
    result that holds the message has been moved into the outcome. *)
Definition finalize_receipt (w : World) (receipt : WorkflowReceipt) (workflow_ir : ToolIR)
    : World * WorkflowExecutionOutcome :=
  let side_effects := aggregated_side_effects (wr_step_results receipt) in
  let success := bool_decide (wr_status receipt = "completed") in
  let '(w, now) := current_time_ms w in
  let error := if success then None else wr_failure_digest receipt in
  (w, {| weo_receipt := receipt;
         weo_tool_result :=
           tool_result_of workflow_ir success (Some (serialize_receipt receipt)) error
             (if bool_decide (side_effects = []) then None else Some side_effects) now
             ["workflow"];
         weo_compensation_hints :=
           if bool_decide (wr_compensation_hints receipt = []) then None
           else Some (wr_compensation_hints receipt);
         weo_evidence_refs := wr_evidence_refs receipt;
         weo_failure_reason_code :=
           if success then "" else
           let? error := error else "workflow.step_failed" in
           let message := moved_from (ed_message (ei_details error)) in
           if is_empty message then "workflow.step_failed" else message |}).

Definition new_receipt (workflow_id status : string) (evidence_refs : list string)
    (failure_digest : option ErrorInfo) : WorkflowReceipt :=
  {| wr_workflow_id := workflow_id; wr_status := status; wr_completed_step_ids := [];
     wr_skipped_step_ids := []; wr_failed_step_id := None; wr_step_results := [];
     wr_compensation_hints := []; wr_evidence_refs := evidence_refs;
     wr_failure_digest := failure_digest; wr_delegation_sidecar := None |}.

(** [step_by_id]: the ids of a plan that was laid out are distinct. *)
Definition find_step (steps : list WorkflowStep) (step_id : string) : option WorkflowStep :=
  snd <$> list_find (fun step => ws_step_id step = step_id) steps.

Record RunState := {
  run_receipt : WorkflowReceipt;
  run_ledger : CompensationLedger;
  run_delegation_count : Z;
}.

(** What a step that left side effects leaves in the ledger. *)
Definition note_side_effects (ledger : CompensationLedger) (step : WorkflowStep)
    (dispatch_result : WorkflowStepDispatchResult) : CompensationLedger :=
  let result := sdr_result dispatch_result in
  if bool_decide (default [] (tres_side_effects result) = []) then ledger else
  if succeeded result || ws_allow_partial_side_effect step
  then register_result ledger (ws_step_id step) (sdr_route_kind dispatch_result) result true
  else record_irreversible_effect ledger (ws_step_id step) (sdr_route_kind dispatch_result) result.

Definition run_step (w : World) (plan : WorkflowPlan) (step : WorkflowStep) (state : RunState)
    : World * RunState :=
  let '(w, dispatch_result) :=
    dispatch_step w plan step (wr_step_results (run_receipt state)) (run_delegation_count state) in
  (w, {| run_receipt := collect_step_result (run_receipt state) step dispatch_result;
         run_ledger := note_side_effects (run_ledger state) step dispatch_result;
         run_delegation_count :=
           if bool_decide (sdr_delegation_sidecar dispatch_result = None)
           then run_delegation_count state else u32 (run_delegation_count state + 1) |}).

(** The steps of a batch; [true] is the [stop] that leaves both loops. *)
Fixpoint run_batch (w : World) (plan : WorkflowPlan) (step_ids : list string) (state : RunState)
    : World * RunState * bool :=
  match step_ids with
  | [] => (w, state, false)
  | step_id :: step_ids =>
      let? step := find_step (wp_steps plan) step_id else run_batch w plan step_ids state in
      let '(w, state) := run_step w plan step state in
      if bool_decide (wr_status (run_receipt state) = "failed") then (w, state, true)
      else run_batch w plan step_ids state
  end.

Fixpoint run_batches (w : World) (plan : WorkflowPlan) (batches : list WorkflowBatch)
    (state : RunState) : World * RunState :=
  match batches with
  | [] => (w, state)
  | batch :: batches =>
      let '(w, state, stop) := run_batch w plan (wb_step_ids batch) state in
      if stop : bool then (w, state) else run_batches w plan batches state
  end.

Definition was_skipped (receipt : WorkflowReceipt) (step_id : string) : Prop :=
  (step_id ∉ wr_completed_step_ids receipt) /\ wr_failed_step_id receipt <> Some step_id.

#[export] Instance was_skipped_dec receipt step_id : Decision (was_skipped receipt step_id).
Proof. unfold was_skipped. apply _. Defined.

Definition with_skipped_and_hints (skipped : list string) (hints : list ToolCompensationHint)
    (receipt : WorkflowReceipt) : WorkflowReceipt :=
  {| wr_workflow_id := wr_workflow_id receipt; wr_status := wr_status receipt;
     wr_completed_step_ids := wr_completed_step_ids receipt; wr_skipped_step_ids := skipped;
     wr_failed_step_id := wr_failed_step_id receipt;
     wr_step_results := wr_step_results receipt; wr_compensation_hints := hints;
     wr_evidence_refs := wr_evidence_refs receipt;
     wr_failure_digest := wr_failure_digest receipt;
     wr_delegation_sidecar := wr_delegation_sidecar receipt |}.

Definition execute_plan (w : World) (plan : WorkflowPlan) (visit : list string)
    (workflow_ir : ToolIR) : option (World * WorkflowExecutionOutcome) :=
  let plan_ref := "workflow:" +:+ wp_workflow_id plan in
  let? batch_result := build_batches plan visit else None in
  if negb (bbr_ok batch_result) then
    Some (finalize_receipt w
            (new_receipt (wp_workflow_id plan) "rejected"
               ([plan_ref] ++ bbr_evidence_refs batch_result) (bbr_error batch_result))
            workflow_ir)
  else
    let '(w, state) :=
      run_batches w plan (bbr_batches batch_result)
        {| run_receipt := new_receipt (wp_workflow_id plan) "completed" [plan_ref] None;
           run_ledger := []; run_delegation_count := 0 |} in
    let receipt := run_receipt state in
    Some (finalize_receipt w
            (with_skipped_and_hints
               (filter (was_skipped receipt) (ws_step_id <$> wp_steps plan))
               (build_hints (run_ledger state)) receipt)
            workflow_ir).

(** The entry point: it loads the plan first. *)
Definition execute_workflow (w : World) (visit : WorkflowPlan -> list string)
    (workflow_ir : ToolIR) : option (World * WorkflowExecutionOutcome) :=
  match wed_plan_loader dependencies_ with
  | None =>
      let id := default "workflow.unconfigured" (ir_tool_call_id workflow_ir) in
      Some (finalize_receipt w
              (new_receipt id "rejected" ["workflow.plan_loader_unavailable"]
                 (Some (build_error ResultCode.ValidationFieldMissing
                          "workflow.plan_loader_unavailable" "tools.workflow.plan" id)))
              workflow_ir)
  | Some plan_loader =>
      match plan_loader w workflow_ir with
      | (w, (None, failure_reason_code, failure_message)) =>
          let id := default "workflow.invalid" (ir_tool_call_id workflow_ir) in
          Some (finalize_receipt w
                  (new_receipt id "rejected" ["workflow.plan_load_failed"; failure_reason_code]
                     (Some (build_error ResultCode.ValidationFieldMissing
                              (if is_empty failure_message then failure_reason_code
                               else failure_message)
                              "tools.workflow.plan" id)))
                  workflow_ir)
      | (w, (Some plan, _, _)) => execute_plan w plan (visit plan) workflow_ir
      end
  end.
End engine.

(** ** Steps of a plan *)

Lemma find_step_id steps id step : find_step steps id = Some step -> ws_step_id step = id.
Proof.
  unfold find_step. destruct (list_find _ steps) as [[i s]|] eqn:E; [|done]. intros [= <-].
  by apply list_find_Some in E as (_ & ? & _).
Qed.

Lemma find_step_known steps id :
  id ∈ ws_step_id <$> steps -> exists step, find_step steps id = Some step.
Proof.
  intros (step & -> & Hin)%list_elem_of_fmap. unfold find_step.
  destruct (list_find_elem_of (fun s => ws_step_id s = ws_step_id step) steps step Hin eq_refl)
    as [[i s] ->]. by exists s.
Qed.

(** In a list of layers, what a step waits for comes before it. *)
Lemma concat_lookup {A} (ls : list (list A)) i x :
  concat ls !! i = Some x ->
  exists k l, ls !! k = Some l /\ x ∈ l /\ (length (concat (take k ls)) <= i)%nat.
Proof.
  revert i. induction ls as [|l ls IH]; intros i; [done|]. simpl.
  rewrite lookup_app_Some. intros [Hx|[Hlen Hx]].
  - exists 0%nat, l. split; [done|]. split; [by apply list_elem_of_lookup_2 in Hx|]. simpl. lia.
  - destruct (IH _ Hx) as (k & l' & Hk & Hl & Hle). exists (S k), l'. split; [done|].
    split; [done|]. simpl. rewrite length_app. lia.
Qed.

Lemma batched_position plan deps layers i s d :
  batched plan deps layers -> concat layers !! i = Some s -> depends plan s d ->
  exists j, (j < i)%nat /\ concat layers !! j = Some d.
Proof.
  intros Hb Hi Hd%(bt_deps _ _ _ Hb).
  destruct (concat_lookup _ _ _ Hi) as (k & l & Hk & Hs & Hle).
  destruct (layered_lookup _ _ _ _ _ _ _ _ (bt_layered _ _ _ Hb) Hk Hs) as [Hl _]. rewrite Hl in Hs.
  apply elem_of_layer in Hs as [_ [_ Hw]]. apply Hw in Hd.
  rewrite (right_id_L ∅ (∪)), elem_of_list_to_set in Hd.
  apply list_elem_of_lookup in Hd as [j Hj]. pose proof (lookup_lt_Some _ _ _ Hj) as Hlt.
  exists j. split; [lia|]. rewrite <-(take_drop k layers), concat_app.
  by rewrite lookup_app_l.
Qed.

(** ** Ledger *)

(** The record a step's result leaves. *)
Definition entry_of (plan : WorkflowPlan) (receipt : WorkflowStepReceipt)
    : list CompensationRecord :=
  let? step := find_step (wp_steps plan) (wsr_step_id receipt) else [] in
  option_list (build_record (wsr_step_id receipt) (wsr_route_kind receipt) (wsr_result receipt)
                 (succeeded (wsr_result receipt) || ws_allow_partial_side_effect step)).

Lemma build_record_step step_id route_kind result reversible record :
  build_record step_id route_kind result reversible = Some record -> crec_step_id record = step_id.
Proof. unfold build_record. repeat case_match; intros E; by simplify_eq. Qed.

Lemma replace_record_fresh record ledger :
  Forall (fun candidate => crec_step_id candidate <> crec_step_id record) ledger ->
  replace_record record ledger = None.
Proof.
  induction 1 as [|candidate ledger Hne _ IH]; [done|]. simpl.
  by rewrite bool_decide_false, IH by done.
Qed.

Lemma register_result_fresh ledger step_id route_kind result reversible :
  Forall (fun candidate => crec_step_id candidate <> step_id) ledger ->
  register_result ledger step_id route_kind result reversible
  = ledger ++ option_list (build_record step_id route_kind result reversible).
Proof.
  intros Hfresh. unfold register_result.
  destruct (build_record step_id route_kind result reversible) as [record|] eqn:E; simpl.
  - apply build_record_step in E. by rewrite replace_record_fresh by (by rewrite E).
  - by rewrite app_nil_r.
Qed.

Lemma note_side_effects_fresh plan ledger step dispatch_result receipt :
  find_step (wp_steps plan) (ws_step_id step) = Some step ->
  Forall (fun candidate => crec_step_id candidate <> ws_step_id step) ledger ->
  wsr_step_id receipt = ws_step_id step -> wsr_result receipt = sdr_result dispatch_result ->
  wsr_route_kind receipt = sdr_route_kind dispatch_result ->
  note_side_effects ledger step dispatch_result = ledger ++ entry_of plan receipt.
Proof.
  intros Hfind Hfresh Hid Hres Hroute. unfold note_side_effects, entry_of, record_irreversible_effect.
  rewrite Hid, Hfind, Hres, Hroute, !register_result_fresh by done.
  destruct (tres_side_effects (sdr_result dispatch_result)) as [effects|] eqn:E; simpl.
  - case_bool_decide as He.
    + unfold build_record. rewrite E, bool_decide_true by done. simpl. by rewrite app_nil_r.
    + by destruct (succeeded _ || _).
  - unfold build_record. rewrite E. simpl. by rewrite app_nil_r.
Qed.

Lemma entry_of_step plan receipts :
  Forall (fun record => crec_step_id record ∈ wsr_step_id <$> receipts)
    (receipts ≫= entry_of plan).
Proof.
  apply Forall_forall. intros record (receipt & Hr & Hin)%list_elem_of_bind.
  unfold entry_of in Hr. destruct (find_step _ _) as [step|]; [|by apply elem_of_nil in Hr].
  destruct (build_record _ _ _ _) as [r|] eqn:E; simpl in Hr; [|by apply elem_of_nil in Hr].
  apply list_elem_of_singleton in Hr as ->. rewrite (build_record_step _ _ _ _ _ E).
  by apply (list_elem_of_fmap_2 wsr_step_id).
Qed.

(** ** Runs *)

Section runs.
Context {World : Type}.
Variable current_time_ms : World -> World * Z.
Variable dependencies_ : @WorkflowEngineDependencies World.

(** After the steps [finished], all of which succeeded. *)
Record going_on (plan : WorkflowPlan) (finished : list string) (state : RunState) : Prop := {
  go_status : wr_status (run_receipt state) = "completed";
  go_failed : wr_failed_step_id (run_receipt state) = None;
  go_completed : wr_completed_step_ids (run_receipt state) = finished;
  go_results : wsr_step_id <$> wr_step_results (run_receipt state) = finished;
  go_succeeded : Forall (fun receipt => succeeded (wsr_result receipt) = true)
                   (wr_step_results (run_receipt state));
  go_ledger : run_ledger state = wr_step_results (run_receipt state) ≫= entry_of plan;
}.

(** After the steps [finished] and then a step that failed. *)
Record stopped_at (plan : WorkflowPlan) (finished : list string) (step_id : string)
    (state : RunState) : Prop := {
  st_status : wr_status (run_receipt state) = "failed";
  st_failed : wr_failed_step_id (run_receipt state) = Some step_id;
  st_completed : wr_completed_step_ids (run_receipt state) = finished;
  st_results : exists results last,
    wr_step_results (run_receipt state) = results ++ [last] /\
    wsr_step_id <$> results = finished /\ wsr_step_id last = step_id /\
    Forall (fun receipt => succeeded (wsr_result receipt) = true) results /\
    succeeded (wsr_result last) = false;
  st_ledger : run_ledger state = wr_step_results (run_receipt state) ≫= entry_of plan;
}.

Lemma run_step_spec w plan finished step state w' state' :
  find_step (wp_steps plan) (ws_step_id step) = Some step ->
  ws_step_id step ∉ finished -> going_on plan finished state ->
  run_step current_time_ms dependencies_ w plan step state = (w', state') ->
  going_on plan (finished ++ [ws_step_id step]) state' \/
  stopped_at plan finished (ws_step_id step) state'.
Proof.
  intros Hfind Hnew Hgo. unfold run_step.
  destruct (dispatch_step _ _ w plan step _ _) as [w1 dispatch_result]. intros [= <- <-].
  destruct Hgo as [Hstatus Hfailed Hcompleted Hresults Hsucc Hledger].
  pose (receipt := {| wsr_step_id := ws_step_id step;
    wsr_route_kind := sdr_route_kind dispatch_result; wsr_result := sdr_result dispatch_result;
    wsr_mapped_arguments := sdr_mapped_arguments dispatch_result;
    wsr_evidence_refs := sdr_evidence_refs dispatch_result |}).
  assert (note_side_effects (run_ledger state) step dispatch_result
          = (wr_step_results (run_receipt state) ++ [receipt]) ≫= entry_of plan) as Hledger'.
  { rewrite bind_app. cbn [mbind list_bind]. rewrite app_nil_r, <-Hledger.
    apply note_side_effects_fresh; try done. rewrite Hledger.
    eapply Forall_impl; [apply entry_of_step|]. intros record Hin E. simpl in Hin.
    rewrite Hresults, E in Hin. done. }
  destruct (succeeded (sdr_result dispatch_result)) eqn:Hok.
  - left. split; simpl; rewrite ?Hok; try done.
    + by rewrite Hcompleted.
    + by rewrite fmap_app, Hresults.
    + by apply Forall_app_last.
  - right. split; simpl; rewrite ?Hok; try done.
    eexists _, receipt. done.
Qed.

Lemma run_batch_spec ids : forall w plan finished state w' state' stop,
  Forall (fun id => id ∈ step_ids plan) ids -> NoDup (finished ++ ids) ->
  going_on plan finished state ->
  run_batch current_time_ms dependencies_ w plan ids state = (w', state', stop) ->
  (stop = false /\ going_on plan (finished ++ ids) state') \/
  (stop = true /\ exists before step_id after, ids = before ++ step_id :: after /\
     stopped_at plan (finished ++ before) step_id state').
Proof.
  induction ids as [|id ids IH]; intros w plan finished state w' state' stop Hids Hnd Hgo.
  { intros [= <- <- <-]. left. by rewrite app_nil_r. }
  apply Forall_cons in Hids as [Hid Hids]. cbn [run_batch].
  destruct (find_step_known _ _ Hid) as [step Hstep]. rewrite Hstep.
  pose proof (find_step_id _ _ _ Hstep) as Heq. subst id.
  destruct (run_step _ _ w plan step state) as [w1 state1] eqn:Erun.
  assert (ws_step_id step ∉ finished) as Hnew.
  { apply NoDup_app in Hnd as (_ & Hdis & _). intros Hin. apply (Hdis _ Hin). by left. }
  destruct (run_step_spec _ _ _ _ _ _ _ Hstep Hnew Hgo Erun) as [Hgo1|Hst1].
  - rewrite (go_status _ _ _ Hgo1), bool_decide_false by done. intros Erest.
    apply (IH w1 plan (finished ++ [ws_step_id step])) in Erest as [[-> Hgo']|(-> & b & s & a & -> & Hst)];
      try done.
    + left. split; [done|]. by rewrite <-app_assoc in Hgo'.
    + right. split; [done|]. exists (ws_step_id step :: b), s, a. split; [done|].
      by rewrite <-app_assoc in Hst.
    + by rewrite <-app_assoc.
  - rewrite (st_status _ _ _ _ Hst1), bool_decide_true by done. intros [= <- <- <-]. right.
    split; [done|]. exists [], (ws_step_id step), ids. by rewrite app_nil_r.
Qed.

Lemma run_batches_spec batches : forall w plan finished state w' state',
  let ids := concat (wb_step_ids <$> batches) in
  Forall (fun id => id ∈ step_ids plan) ids -> NoDup (finished ++ ids) ->
  going_on plan finished state ->
  run_batches current_time_ms dependencies_ w plan batches state = (w', state') ->
  going_on plan (finished ++ ids) state' \/
  (exists before step_id after, ids = before ++ step_id :: after /\
     stopped_at plan (finished ++ before) step_id state').
Proof.
  induction batches as [|batch batches IH]; intros w plan finished state w' state' ids Hids Hnd Hgo.
  { intros [= <- <-]. left. subst ids. simpl. by rewrite app_nil_r. }
  subst ids. cbn [fmap list_fmap concat run_batches] in *.
  change (list_fmap WorkflowBatch (list string) wb_step_ids batches) with (wb_step_ids <$> batches) in *.
  apply Forall_app in Hids as [Hids1 Hids2]. rewrite app_assoc in Hnd.
  destruct (run_batch _ _ w plan _ state) as [[w1 state1] stop] eqn:Erun.
  apply (run_batch_spec _ _ _ finished) in Erun as [[-> Hgo1]|(-> & b & s & a & Hsplit & Hst)];
    try done.
  - intros Erest. apply (IH w1 plan (finished ++ wb_step_ids batch) state1) in Erest as [Hgo'|(b & s & a & Hsplit & Hst)];
      try done.
    + left. by rewrite app_assoc.
    + right. exists (wb_step_ids batch ++ b), s, a. rewrite Hsplit, <-app_assoc. split; [done|].
      by rewrite <-app_assoc in Hst.
  - intros [= <- <-]. right. exists b, s, (a ++ concat (wb_step_ids <$> batches)).
    rewrite Hsplit, <-app_assoc. done.
  - by apply NoDup_app in Hnd as [Hnd _].
Qed.
End runs.

(** ** What an execution does *)

(** The facts of the receipt of an accepted plan. *)
Record ran_in_order (plan : WorkflowPlan) (batches : list WorkflowBatch)
    (receipt : WorkflowReceipt) : Prop := {
  rio_prefix : (wsr_step_id <$> wr_step_results receipt)
               `prefix_of` concat (wb_step_ids <$> batches);
  rio_waited : forall i result d,
    wr_step_results receipt !! i = Some result -> depends plan (wsr_step_id result) d ->
    exists j earlier, (j < i)%nat /\ wr_step_results receipt !! j = Some earlier /\
      wsr_step_id earlier = d /\ succeeded (wsr_result earlier) = true;
  rio_outcome :
    wr_completed_step_ids receipt ++ option_list (wr_failed_step_id receipt)
    = wsr_step_id <$> wr_step_results receipt;
  rio_partition :
    wr_completed_step_ids receipt ++ option_list (wr_failed_step_id receipt)
    ++ wr_skipped_step_ids receipt ≡ₚ step_ids plan;
  rio_status :
    wr_status receipt = "completed" /\ wr_completed_step_ids receipt ≡ₚ step_ids plan \/
    wr_status receipt = "failed" /\ is_Some (wr_failed_step_id receipt);
}.

(** What happened to the steps, whether all of them ran or one failed. *)
Record finished_run (plan : WorkflowPlan) (order : list string) (state : RunState) : Prop := {
  fr_shape : exists before last,
    wr_step_results (run_receipt state) = before ++ last /\ (length last <= 1)%nat /\
    wr_completed_step_ids (run_receipt state) ++ option_list (wr_failed_step_id (run_receipt state))
      = wsr_step_id <$> wr_step_results (run_receipt state) /\
    Forall (fun receipt => succeeded (wsr_result receipt) = true) before;
  fr_prefix : (wsr_step_id <$> wr_step_results (run_receipt state)) `prefix_of` order;
  fr_status :
    wr_status (run_receipt state) = "completed" /\ wr_failed_step_id (run_receipt state) = None /\
      wr_completed_step_ids (run_receipt state) = order \/
    wr_status (run_receipt state) = "failed" /\ is_Some (wr_failed_step_id (run_receipt state));
  fr_ledger : run_ledger state = wr_step_results (run_receipt state) ≫= entry_of plan;
}.

Lemma skipped_partition ids finished (failed : option string) :
  NoDup ids -> NoDup (finished ++ option_list failed) ->
  (forall s, s ∈ finished ++ option_list failed -> s ∈ ids) ->
  finished ++ option_list failed ++
    filter (fun s => (s ∉ finished) /\ failed <> Some s) ids ≡ₚ ids.
Proof.
  intros Hnd Hnd' Hin. rewrite app_assoc. apply NoDup_Permutation; [|done|].
  - apply NoDup_app. split; [done|]. split; [|by apply NoDup_filter].
    intros s Hs [[Hf1 Hf2] _]%list_elem_of_filter. apply elem_of_app in Hs as [Hs|Hs]; [done|].
    destruct failed as [f|]; simpl in Hs; [|by apply elem_of_nil in Hs].
    apply list_elem_of_singleton in Hs. congruence.
  - intros s. rewrite elem_of_app, list_elem_of_filter. split.
    + intros [Hs|[_ Hs]]; [by apply Hin|done].
    + intros Hs. destruct (decide (s ∈ finished ++ option_list failed)) as [|Hno]; [by left|right].
      split; [|done]. rewrite elem_of_app in Hno. split; [tauto|].
      intros ->. apply Hno. right. simpl. by left.
Qed.

Section execution.
Context {World : Type}.
Variable current_time_ms : World -> World * Z.
Variable moved_from : string -> string.
Variable dependencies_ : @WorkflowEngineDependencies World.

Lemma run_batches_finished w plan deps layers state w' state' :
  batched plan deps layers -> going_on plan [] state ->
  run_batches current_time_ms dependencies_ w plan (Build_WorkflowBatch <$> layers) state
    = (w', state') ->
  finished_run plan (concat layers) state'.
Proof.
  intros Hb Hgo Hrun.
  assert (concat (wb_step_ids <$> (Build_WorkflowBatch <$> layers)) = concat layers) as Hids.
  { rewrite <-list_fmap_compose. unfold compose. cbn [wb_step_ids]. by rewrite list_fmap_id. }
  assert (NoDup (concat layers)) as Hnd
    by (rewrite (bt_all _ _ _ Hb); apply (pc_distinct _ (bt_checked _ _ _ Hb))).
  apply (run_batches_spec _ _ _ _ _ []) in Hrun as [Hgo'|(b & s & a & Hsplit & Hst)]; try done.
  - rewrite Hids in Hgo'. cbn [app] in Hgo'. split.
    + exists (wr_step_results (run_receipt state')), []. split; [by rewrite app_nil_r|].
      split; [simpl; lia|]. split; [|apply (go_succeeded _ _ _ Hgo')].
      rewrite (go_failed _ _ _ Hgo'), (go_completed _ _ _ Hgo'), (go_results _ _ _ Hgo').
      apply app_nil_r.
    + by rewrite (go_results _ _ _ Hgo').
    + left. split; [apply (go_status _ _ _ Hgo')|]. split; [apply (go_failed _ _ _ Hgo')|].
      apply (go_completed _ _ _ Hgo').
    + apply (go_ledger _ _ _ Hgo').
  - rewrite Hids in Hsplit. cbn [app] in Hst.
    destruct (st_results _ _ _ _ Hst) as (results & last & Hr & Hrids & Hlast & Hok & _).
    split.
    + exists results, [last]. split; [done|]. split; [simpl; lia|]. split; [|done].
      rewrite (st_failed _ _ _ _ Hst), (st_completed _ _ _ _ Hst), Hr, fmap_app, Hrids.
      simpl. by rewrite Hlast.
    + rewrite Hr, fmap_app, Hrids, Hsplit. simpl. rewrite Hlast. exists a.
      by rewrite <-app_assoc.
    + right. split; [apply (st_status _ _ _ _ Hst)|]. rewrite (st_failed _ _ _ _ Hst). by eexists.
    + apply (st_ledger _ _ _ _ Hst).
  - rewrite Hids. apply Forall_forall. intros id. by rewrite (bt_all _ _ _ Hb).
  - by rewrite Hids.
Qed.

Lemma finished_in_order plan deps layers state hints :
  batched plan deps layers -> finished_run plan (concat layers) state ->
  ran_in_order plan (Build_WorkflowBatch <$> layers)
    (with_skipped_and_hints
       (filter (was_skipped (run_receipt state)) (ws_step_id <$> wp_steps plan)) hints
       (run_receipt state)).
Proof.
  intros Hb [(before & last & Hsplit & Hlast & Hout & Hok) Hpre Hstatus _].
  pose proof (pc_distinct _ (bt_checked _ _ _ Hb)) as Hnd.
  assert (concat (wb_step_ids <$> (Build_WorkflowBatch <$> layers)) = concat layers) as Hids.
  { rewrite <-list_fmap_compose. unfold compose. cbn [wb_step_ids]. by rewrite list_fmap_id. }
  assert (forall s, s ∈ concat layers <-> s ∈ step_ids plan) as Hall
    by (intros s; by rewrite (bt_all _ _ _ Hb)).
  destruct Hpre as [after Hpre].
  split; cbn [with_skipped_and_hints wr_step_results wr_completed_step_ids wr_failed_step_id
              wr_skipped_step_ids wr_status].
  - rewrite Hids. by exists after.
  - intros i result d Hi Hd.
    assert (concat layers !! i = Some (wsr_step_id result)) as Hpos.
    { rewrite Hpre, lookup_app_l; [by rewrite list_lookup_fmap, Hi|].
      rewrite length_fmap. by apply lookup_lt_Some in Hi. }
    destruct (batched_position _ _ _ _ _ _ Hb Hpos Hd) as (j & Hj & Hdj).
    pose proof (lookup_lt_Some _ _ _ Hi) as Hlen.
    rewrite Hpre, lookup_app_l in Hdj by (rewrite length_fmap; lia).
    apply list_lookup_fmap_Some in Hdj as (earlier & -> & Hearlier).
    exists j, earlier. split; [done|]. split; [done|]. split; [done|].
    rewrite Hsplit, length_app in Hlen. rewrite Hsplit, lookup_app_l in Hearlier by lia.
    rewrite Forall_forall in Hok. by apply Hok, (list_elem_of_lookup_2 _ j).
  - done.
  - apply skipped_partition; [done|..].
    + rewrite Hout. assert (NoDup (concat layers)) as Hc by (by rewrite (bt_all _ _ _ Hb)).
      rewrite Hpre in Hc. by apply NoDup_app in Hc as [? _].
    + intros s. rewrite Hout, <-Hall, Hpre. intros Hs. by apply elem_of_app; left.
  - destruct Hstatus as [(Hs & _ & ->)|[Hs Hf]]; [left|by right]. split; [done|].
    apply (bt_all _ _ _ Hb).
Qed.

(** C7. Running a plan. A plan that cannot be laid out is rejected and no step of it
    runs. Otherwise the steps run in the order of the batches, up to the end or to the
    first failure; a step runs only after every step it waits for has run and
    succeeded; the completed, the failed and the skipped steps are the steps of the
    plan, each once; and the workflow succeeds exactly when all of them completed. *)
Theorem workflow_runs_in_order w plan visit workflow_ir :
  visit ≡ₚ step_ids plan ->
  exists w' outcome,
    execute_plan current_time_ms moved_from dependencies_ w plan visit workflow_ir = Some (w', outcome) /\
    let receipt := weo_receipt outcome in
    (succeeded (weo_tool_result outcome) = true <-> wr_status receipt = "completed") /\
    (executable_plan plan /\ (exists batches,
       build_batches plan visit = Some (batches_built batches) /\
       ran_in_order plan batches receipt) \/
     ~ executable_plan plan /\ wr_status receipt = "rejected" /\ wr_step_results receipt = [] /\
       wr_compensation_hints receipt = [] /\ w' = fst (current_time_ms w)).
Proof.
  intros Hvisit. unfold execute_plan.
  destruct (build_batches_cases plan visit Hvisit)
    as [(deps & layers & -> & Hb)|(refused & -> & Hok & Hnot)].
  - cbn [bbr_ok batches_built negb bbr_batches].
    destruct (run_batches _ _ w plan _ _) as [w1 state] eqn:Hrun.
    apply (run_batches_finished _ _ _ _ _ _ _ Hb) in Hrun; [|by split].
    unfold finalize_receipt. destruct (current_time_ms w1) as [w2 now].
    eexists _, _. split; [done|]. cbn [weo_receipt weo_tool_result]. split.
    { unfold succeeded. simpl. apply bool_decide_eq_true. }
    left. split.
    + split; [apply (bt_checked _ _ _ Hb)|]. split; [apply (bt_entries _ _ _ Hb)|].
      by apply (batched_acyclic _ _ _ Hb).
    + eexists. split; [done|]. by apply (finished_in_order plan deps).
  - rewrite Hok. cbn [negb]. unfold finalize_receipt. destruct (current_time_ms w) as [w2 now].
    eexists _, _. split; [done|]. cbn [weo_receipt weo_tool_result]. split.
    { split; [done|intros [=]]. }
    by right.
Qed.

(** The hint a step's result gives: one for each step that left side effects, if it
    succeeded or its failures may be undone. *)
Definition result_hint (plan : WorkflowPlan) (receipt : WorkflowStepReceipt)
    : list ToolCompensationHint :=
  let? step := find_step (wp_steps plan) (wsr_step_id receipt) else [] in
  if succeeded (wsr_result receipt) || ws_allow_partial_side_effect step
  then build_hint <$> entry_of plan receipt else [].

Lemma build_hints_entries plan results :
  build_hints (results ≫= entry_of plan) = reverse results ≫= result_hint plan.
Proof.
  induction results as [|receipt results IH]; [done|]. cbn [mbind list_bind].
  unfold build_hints in *. rewrite reverse_app, bind_app, IH, reverse_cons, bind_app.
  f_equal. cbn [mbind list_bind]. rewrite app_nil_r. unfold result_hint, entry_of.
  destruct (find_step (wp_steps plan) (wsr_step_id receipt)) as [step|]; [|done].
  destruct (build_record _ _ _ _) as [record|] eqn:E; [|by destruct (_ || _)].
  unfold build_record in E. destruct (tres_side_effects _) as [effects|]; [|done].
  case_bool_decide as He; [done|]. injection E as <-. simpl.
  rewrite (bool_decide_false (effects = [])) by done.
  by destruct (succeeded _ || _).
Qed.

(** The compensation hints of a workflow: the steps that ran, last first, each
    with one hint when it left side effects and it succeeded or may be undone after a
    failure; a failed step that may not leaves none. *)
Theorem hints_last_first w plan visit workflow_ir w' outcome :
  visit ≡ₚ step_ids plan ->
  execute_plan current_time_ms moved_from dependencies_ w plan visit workflow_ir = Some (w', outcome) ->
  wr_compensation_hints (weo_receipt outcome)
  = reverse (wr_step_results (weo_receipt outcome)) ≫= result_hint plan.
Proof.
  intros Hvisit. unfold execute_plan.
  destruct (build_batches_cases plan visit Hvisit)
    as [(deps & layers & -> & Hb)|(refused & -> & Hok & Hnot)].
  - cbn [bbr_ok batches_built negb bbr_batches].
    destruct (run_batches _ _ w plan _ _) as [w1 state] eqn:Hrun.
    apply (run_batches_finished _ _ _ _ _ _ _ Hb) in Hrun; [|by split].
    unfold finalize_receipt. destruct (current_time_ms w1) as [w2 now]. intros [= <- <-].
    cbn [weo_receipt with_skipped_and_hints wr_compensation_hints wr_step_results].
    rewrite (fr_ledger _ _ _ Hrun). apply build_hints_entries.
  - rewrite Hok. cbn [negb]. unfold finalize_receipt. destruct (current_time_ms w) as [w2 now].
    by intros [= <- <-].
Qed.

(** Where a moved string is empty, as in the usual libraries, a workflow that does not
    complete gives no other reason than "workflow.step_failed": the message of its
    first failure was moved away before it is read. *)
Theorem failure_reason_lost w plan visit workflow_ir w' outcome :
  (forall message, moved_from message = "") ->
  execute_plan current_time_ms moved_from dependencies_ w plan visit workflow_ir
    = Some (w', outcome) ->
  weo_failure_reason_code outcome
  = if bool_decide (wr_status (weo_receipt outcome) = "completed") then ""
    else "workflow.step_failed".
Proof.
  intros Hmoved.
  assert (forall w receipt,
    weo_failure_reason_code (finalize_receipt current_time_ms moved_from w receipt workflow_ir).2
    = if bool_decide (wr_status receipt = "completed") then "" else "workflow.step_failed") as Hf.
  { clear -Hmoved. intros w receipt. unfold finalize_receipt.
    destruct (current_time_ms w). simpl. case_bool_decide; [done|].
    destruct (wr_failure_digest receipt); [|done]. by rewrite Hmoved. }
  assert (forall w receipt,
    weo_receipt (finalize_receipt current_time_ms moved_from w receipt workflow_ir).2 = receipt)
    as Hr by (clear; intros; unfold finalize_receipt; by destruct (current_time_ms _)).
  unfold execute_plan. destruct (build_batches plan visit) as [built|]; [|done].
  destruct (negb (bbr_ok built)); [|destruct (run_batches _ _ _ _ _ _)];
    intros [= E]; apply (f_equal snd) in E; simpl in E; subst outcome; by rewrite Hr, Hf.
Qed.
End execution.

(** ** What a workflow leaves alone

    A relation that the clock, the loader and the executors keep is kept by a workflow. *)

Section preserves.
Context {World : Type} (R : relation World) {HR : PreOrder R}.
Variable current_time_ms : World -> World * Z.
Variable moved_from : string -> string.
Variable dependencies_ : @WorkflowEngineDependencies World.

Definition keeps {A B} (f : World -> A -> World * B) : Prop := forall w a, R w (f w a).1.

Definition executor_keeps (executor : option (World -> ToolIR -> World * ToolResult)) : Prop :=
  forall e, executor = Some e -> keeps e.

Hypothesis clock_keeps : forall w, R w (current_time_ms w).1.
Hypothesis loader_keeps : forall loader, wed_plan_loader dependencies_ = Some loader -> keeps loader.
Hypothesis builtin_keeps : executor_keeps (wed_builtin_executor dependencies_).
Hypothesis mcp_keeps : executor_keeps (wed_mcp_executor dependencies_).

Lemma clock_step {A} w (f : World -> Z -> A) :
  R w (let '(w', now) := current_time_ms w in (w', f w' now)).1.
Proof. pose proof (clock_keeps w) as H. by destruct (current_time_ms w). Qed.

Lemma dispatch_keeps w plan step prior count :
  R w (dispatch_step current_time_ms dependencies_ w plan step prior count).1.
Proof.
  unfold dispatch_step. case_bool_decide; [apply clock_step|].
  destruct (map_arguments _ _ _ _ _) as [[arguments mapped]|f]; [|apply clock_step].
  destruct (step_executor dependencies_ (step_route_of step)) as [e|] eqn:E; [|apply clock_step].
  assert (keeps e) as He.
  { unfold step_executor in E. destruct (step_route_of step); try done;
      [by apply builtin_keeps|by apply mcp_keeps]. }
  unfold execute_step. pose proof (He w (with_route (step_route_of step) (prepared_ir_of step arguments)))
    as Hrun. destruct (e _ _) as [w1 raw]. simpl in Hrun. etrans; [exact Hrun|].
  destruct (tres_completed_at raw); [done|]. apply clock_step.
Qed.

Lemma run_batch_keeps w plan ids state :
  R w (run_batch current_time_ms dependencies_ w plan ids state).1.1.
Proof.
  revert w state. induction ids as [|id ids IH]; intros w state; [done|]. simpl.
  destruct (find_step _ _) as [step|]; [|apply IH]. unfold run_step.
  pose proof (dispatch_keeps w plan step (wr_step_results (run_receipt state))
                (run_delegation_count state)) as H.
  destruct (dispatch_step _ _ _ _ _ _ _) as [w1 d]. simpl in H. etrans; [exact H|].
  case_bool_decide; [done|apply IH].
Qed.

Lemma run_batches_keeps w plan batches state :
  R w (run_batches current_time_ms dependencies_ w plan batches state).1.
Proof.
  revert w state. induction batches as [|batch batches IH]; intros w state; [done|]. simpl.
  pose proof (run_batch_keeps w plan (wb_step_ids batch) state) as H.
  destruct (run_batch _ _ _ _ _ _) as [[w1 s] stop]. simpl in H. etrans; [exact H|].
  destruct stop; [done|apply IH].
Qed.

Lemma finalize_keeps w receipt ir : R w (finalize_receipt current_time_ms moved_from w receipt ir).1.
Proof. apply clock_step. Qed.

Lemma execute_plan_keeps w plan visit ir w' outcome :
  execute_plan current_time_ms moved_from dependencies_ w plan visit ir = Some (w', outcome) ->
  R w w'.
Proof.
  unfold execute_plan. destruct (build_batches plan visit) as [built|]; [|done].
  destruct (negb (bbr_ok built)).
  - intros [= H]. apply (f_equal fst) in H. simpl in H. subst w'. apply finalize_keeps.
  - set (start := {| run_receipt := _ |}).
    pose proof (run_batches_keeps w plan (bbr_batches built) start) as H.
    destruct (run_batches _ _ _ _ _ _) as [w1 s]. intros [= E]. apply (f_equal fst) in E.
    simpl in *. subst w'. etrans; [exact H|apply finalize_keeps].
Qed.

Lemma execute_workflow_keeps w visit ir w' outcome :
  execute_workflow current_time_ms moved_from dependencies_ w visit ir = Some (w', outcome) ->
  R w w'.
Proof.
  unfold execute_workflow. destruct (wed_plan_loader dependencies_) as [loader|] eqn:E.
  - pose proof (loader_keeps loader eq_refl w ir) as H.
    destruct (loader w ir) as [w1 [[[plan|] code] message]]; simpl in H.
    + intros Hrun. etrans; [exact H|]. by apply (execute_plan_keeps _ _ _ _ _ _ Hrun).
    + intros [= Hf]. apply (f_equal fst) in Hf. simpl in Hf. subst w'.
      etrans; [exact H|apply finalize_keeps].
  - intros [= Hf]. apply (f_equal fst) in Hf. simpl in Hf. subst w'. apply finalize_keeps.
Qed.
End preserves.

(** ** Examples *)

(** The world is the log of the calls; the tool of step c fails. *)
Definition sample_executor (log : list string) (ir : ToolIR) : list string * ToolResult :=
  let id := default "" (ir_tool_call_id ir) in
  (log ++ [id],
   {| tres_request_id := None; tres_tool_call_id := None; tres_tool_name := None;
      tres_success := Some (negb (bool_decide (id = "call-c"))); tres_payload := None;
      tres_error := None; tres_side_effects := Some ["effect-of-" +:+ id];
      tres_completed_at := Some 7; tres_duration_ms := None; tres_goal_id := None;
      tres_worker_task_id := None; tres_tags := None |}).

Definition sample_dependencies : @WorkflowEngineDependencies (list string) :=
  {| wed_plan_loader := None; wed_builtin_executor := Some sample_executor;
     wed_mcp_executor := None |}.

Definition sample_clock (log : list string) : list string * Z := (log, 7).

Definition sample_outcome : option (list string * WorkflowExecutionOutcome) :=
  execute_plan sample_clock (fun _ => "") sample_dependencies [] sample_plan sample_visit
    (ws_tool_ir (sample_step "w" [])).

Example sample_log : fst <$> sample_outcome = Some ["call-a"; "call-b"; "call-c"].
Proof. vm_compute. reflexivity. Qed.

Lemma workflow_runs_in_order_witness :
  exists w' outcome,
    sample_outcome = Some (w', outcome) /\
    (succeeded (weo_tool_result outcome) = true <-> wr_status (weo_receipt outcome) = "completed").
Proof.
  destruct (workflow_runs_in_order sample_clock (fun _ => "") sample_dependencies [] sample_plan sample_visit
    (ws_tool_ir (sample_step "w" []))) as (w' & outcome & E & H & _).
  - vm_compute. solve_Permutation.
  - exists w', outcome. split; [exact E|exact H].
Defined.

Lemma hints_last_first_witness :
  (tch_compensation_action <$>
     (let? outcome := snd <$> sample_outcome else [] in
      wr_compensation_hints (weo_receipt outcome))) = [Some "tool"; Some "tool"] /\
  forall w' outcome, sample_outcome = Some (w', outcome) ->
    wr_compensation_hints (weo_receipt outcome)
    = reverse (wr_step_results (weo_receipt outcome)) ≫= result_hint sample_plan.
Proof.
  split; [vm_compute; reflexivity|]. intros w' outcome E.
  apply (hints_last_first sample_clock (fun _ => "") sample_dependencies [] sample_plan sample_visit
    (ws_tool_ir (sample_step "w" [])) w' outcome); [vm_compute; solve_Permutation|exact E].
Defined.
