(* ===== verification/ToolPipeline.v ===== *)
(** * The invocation pipeline

    tools/src/ToolManager.cpp: how a request becomes a call, is admitted, routed, given a
    permit of a lane, executed and answered. The executors and the projector are arguments;
    so are the two views that ToolConfigAdapter builds from the profile snapshot. A pool of
    lanes is threaded through, and an executor may use it too, as a nested invocation
    does. Tracing, metrics and audit hooks are left out. *)

From S2P Require Import Prelude ErrorCodes CheckpointContracts Text RecoveryContracts ToolContracts ToolValidation ToolRegistry ToolRouting FlatJson WorkflowBatches Workflow.

(** ** Data *)

Record ToolConfirmationFact := {
  tcf_confirmation_id : option string;
  tcf_subject_ref : option string;
  tcf_proof_type : option string;
  tcf_confirmed_at_ms : option Z;
}.

Definition fact_consistent (fact : ToolConfirmationFact) : bool :=
  has_non_empty_value (tcf_confirmation_id fact) && has_non_empty_value (tcf_subject_ref fact)
  && has_non_empty_value (tcf_proof_type fact)
  && match tcf_confirmed_at_ms fact with Some t => 0 <? t | None => false end.

(** Of the context: the views built from its profile snapshot, if it has one, and the
    confirmations. *)
Record ToolInvocationContext := {
  tic_views : option (ToolPolicyView * ToolTimeoutView);
  tic_confirmation_facts : option (list ToolConfirmationFact);
}.

Record ToolRouteFacts := {
  trf_route_kind : option string;
  trf_route_ref : option string;
  trf_decision_reason : option string;
  trf_plugin_id : option string;
  trf_server_id : option string;
}.

(** Of the envelope, all but the projected observation and its digest. *)
Record ToolInvocationEnvelope := {
  tie_tool_result : option ToolResult;
  tie_route_facts : option ToolRouteFacts;
  tie_evidence_refs : option (list string);
  tie_compensation_hints : option (list ToolCompensationHint);
  tie_failure_reason_code : option string;
}.

(** ** From the request to the facts of the policy gate *)

Definition manager_route_kind_string (route : ToolIRRoute) : string :=
  match route with
  | ToolIRRoute.LocalTool => "builtin"
  | ToolIRRoute.WorkflowEngine => "workflow"
  | ToolIRRoute.MCPRemote => "mcp"
  | ToolIRRoute.Unspecified | ToolIRRoute.Other _ => "unspecified"
  end.

Definition category_domain (category : option ToolCategory) : option string :=
  match category with
  | Some (ToolCategory.Workflow | ToolCategory.AgentDelegation) => Some "workflow"
  | Some (ToolCategory.Information | ToolCategory.Action | ToolCategory.Diagnostic) =>
      Some "builtin"
  | Some (ToolCategory.Unspecified | ToolCategory.Other _) | None => None
  end.

Definition derive_requested_domain (tool_ir : ToolIR) (descriptor : ToolDescriptor)
    : option string :=
  match ir_route tool_ir with
  | Some ToolIRRoute.LocalTool => Some "builtin"
  | Some ToolIRRoute.WorkflowEngine => Some "workflow"
  | Some ToolIRRoute.MCPRemote => Some "mcp"
  | Some (ToolIRRoute.Unspecified | ToolIRRoute.Other _) | None =>
      category_domain (td_category descriptor)
  end.

Definition has_confirmation_fact (context : ToolInvocationContext) : bool :=
  let? facts := tic_confirmation_facts context else false in existsb fact_consistent facts.

Definition is_high_risk_descriptor (descriptor : ToolDescriptor) : bool :=
  match td_category descriptor with
  | Some ToolCategory.Action => negb (default false (td_is_read_only descriptor))
  | Some ToolCategory.AgentDelegation => true
  | _ => false
  end.

Definition admission_request (tool_ir : ToolIR) (descriptor : ToolDescriptor)
    (requested_name : string) (context : ToolInvocationContext) : ToolAdmissionRequest :=
  let requested_domain := derive_requested_domain tool_ir descriptor in
  {| tar_tool_name := default requested_name (td_tool_name descriptor);
     tar_required_scopes := default [] (td_required_scopes descriptor);
     tar_caller_domain := requested_domain;
     tar_high_risk := is_high_risk_descriptor descriptor;
     tar_confirmation_present := has_confirmation_fact context;
     tar_route_proven := negb (bool_decide (requested_domain = None)) |}.

(** ** Failures *)

Definition manager_error (code : ResultCode) (message stage ref_id : string) : ErrorInfo :=
  {| ei_failure_type := Some (classify_result_code code);
     ei_retryable := Some false; ei_safe_to_replan := Some true;
     ei_details := {| ed_code := Some (result_code_value code); ed_message := message;
                      ed_stage := stage |};
     ei_source_ref := {| esr_ref_type := "tool_manager"; esr_ref_id := ref_id |} |}.

Definition build_route_facts (route_decision : ToolRouteDecision) : ToolRouteFacts :=
  {| trf_route_kind := Some (manager_route_kind_string (trd_route route_decision));
     trf_route_ref := match trd_server_id route_decision with
                      | Some server_id => Some server_id
                      | None => Some (trd_lane_key route_decision)
                      end;
     trf_decision_reason := Some (trd_reason_code route_decision);
     trf_plugin_id := None;
     trf_server_id := trd_server_id route_decision |}.

Record InvokeFailure := {
  if_code : ResultCode;
  if_reason : string;
  if_stage : string;
  if_route_facts : option ToolRouteFacts;
}.

Definition failure (code : ResultCode) (reason stage : string) : InvokeFailure :=
  {| if_code := code; if_reason := reason; if_stage := stage; if_route_facts := None |}.

Definition routed_failure (code : ResultCode) (reason stage : string)
    (route_decision : ToolRouteDecision) : InvokeFailure :=
  {| if_code := code; if_reason := reason; if_stage := stage;
     if_route_facts := Some (build_route_facts route_decision) |}.

Definition manager_failure_result (request : ToolRequest) (code : ResultCode)
    (reason_code stage : string) (now : Z) : ToolResult :=
  {| tres_request_id := tr_request_id request; tres_tool_call_id := tr_tool_call_id request;
     tres_tool_name := tr_tool_name request; tres_success := Some false; tres_payload := None;
     tres_error := Some (manager_error code reason_code stage
                           (default "unknown_tool" (tr_tool_name request)));
     tres_side_effects := None; tres_completed_at := Some now; tres_duration_ms := Some 0;
     tres_goal_id := tr_goal_id request; tres_worker_task_id := tr_worker_task_id request;
     tres_tags := tr_tags request |}.

Definition build_failure_envelope (request : ToolRequest) (f : InvokeFailure) (now : Z)
    : ToolInvocationEnvelope :=
  {| tie_tool_result :=
       Some (manager_failure_result request (if_code f) (if_reason f) (if_stage f) now);
     tie_route_facts := if_route_facts f;
     tie_evidence_refs := Some ["stage:" +:+ if_stage f; "reason:" +:+ if_reason f];
     tie_compensation_hints := None;
     tie_failure_reason_code := Some (if_reason f) |}.

(** ** Planning a call: everything before the lane *)

(** The call, with what was decided about it. *)
Record PlannedCall := {
  pc_tool_ir : ToolIR;
  pc_descriptor : ToolDescriptor;
  pc_timeout_view : ToolTimeoutView;
  pc_route_decision : ToolRouteDecision;
}.

(** What the manager holds apart from the executors: [dependencies_available] is the test of
    the pointers at the start of the pipeline. *)
Record ToolManager := {
  tm_dependencies_available : bool;
  tm_registry : ToolRegistrySnapshot;
  tm_route_health : ToolRouteHealthSnapshot;
  tm_capability_snapshot : option CapabilitySnapshot;
}.

Definition set_route_health (manager : ToolManager) (health : ToolRouteHealthSnapshot)
    : ToolManager :=
  {| tm_dependencies_available := tm_dependencies_available manager;
     tm_registry := tm_registry manager; tm_route_health := health;
     tm_capability_snapshot := tm_capability_snapshot manager |}.

Definition set_capability_snapshot (manager : ToolManager)
    (capability_snapshot : option CapabilitySnapshot) : ToolManager :=
  {| tm_dependencies_available := tm_dependencies_available manager;
     tm_registry := tm_registry manager; tm_route_health := tm_route_health manager;
     tm_capability_snapshot := capability_snapshot |}.

Definition plan_call (manager : ToolManager) (request : ToolRequest)
    (context : ToolInvocationContext) : option (result InvokeFailure PlannedCall) :=
  if negb (tm_dependencies_available manager)
  then Some (Err (failure ResultCode.RuntimeRetryExhausted
                    "tool.manager.dependencies_unavailable" "tools.manager.init")) else
  match tic_views context with
  | None => Some (Err (failure ResultCode.ValidationFieldMissing "tool.manager.profile_missing"
                         "tools.manager.context"))
  | Some (policy_view, timeout_view) =>
  let invalid_request :=
    Some (Err (failure ResultCode.ValidationFieldMissing "InvalidRequest"
                 "tools.manager.resolve")) in
  let? tool_name := tr_tool_name request else invalid_request in
  if is_empty tool_name then invalid_request else
  let? descriptor := resolve_descriptor (tm_registry manager) tool_name
    else Some (Err (failure ResultCode.ToolExecutionFailed "tool.manager.descriptor_missing"
                      "tools.manager.resolve")) in
  let? validation_result := validate request descriptor else None in
  match tvr_tool_ir validation_result, tvr_diagnostics validation_result with
  | Some tool_ir, None =>
      let admission_decision :=
        evaluate_policy (admission_request tool_ir descriptor tool_name context) policy_view in
      if negb (tad_allowed admission_decision)
      then Some (Err (failure ResultCode.PolicyDenied (tad_reason_code admission_decision)
                        "tools.manager.admit")) else
      let route_decision :=
        select_route tool_ir descriptor timeout_view
          (list_mcp_bindings (tm_registry manager) tool_name)
          (tm_capability_snapshot manager) (tm_route_health manager) in
      if negb (trd_available route_decision)
      then Some (Err (routed_failure ResultCode.ToolExecutionFailed
                        (trd_reason_code route_decision) "tools.manager.route" route_decision)) else
      Some (Ok {| pc_tool_ir := tool_ir; pc_descriptor := descriptor;
                  pc_timeout_view := timeout_view; pc_route_decision := route_decision |})
  | _, Some diagnostics =>
      Some (Err (failure ResultCode.ValidationFieldMissing (vd_error_code diagnostics)
                   "tools.manager.validate"))
  | None, None => None
  end
  end.

Definition acquire_lane_for_route (pool : ExecutorLanePool) (call : PlannedCall)
    : ExecutorLanePool * LaneAcquireResult :=
  let route_decision := pc_route_decision call in
  match trd_route route_decision with
  | ToolIRRoute.LocalTool => acquire_builtin pool (pc_timeout_view call)
  | ToolIRRoute.WorkflowEngine => acquire_workflow pool (pc_timeout_view call)
  | ToolIRRoute.MCPRemote =>
      acquire_mcp pool (default "" (trd_server_id route_decision)) (pc_timeout_view call)
  | ToolIRRoute.Unspecified | ToolIRRoute.Other _ =>
      (pool, {| lar_reservation :=
                  {| lr_kind := ExecutorLaneKind.Unavailable; lr_lane_key := "";
                     lr_available := false; lr_concurrency_budget := 0 |};
                lar_acquired := false; lar_reason_code := ""; lar_inflight := 0 |})
  end.

(** ** Results *)

Definition kDryRunMode : string := "tool.mode.dry_run".
Definition kValidateOnlyMode : string := "tool.mode.validate_only".

(** A text between quotes, as it is. *)
Definition raw_quoted (value : string) : string := String quote (value +:+ String quote "").

Definition build_non_execution_result (tool_ir : ToolIR) (route_decision : ToolRouteDecision)
    (mode_tag : string) (now : Z) : ToolResult :=
  tool_result_of tool_ir true
    (Some ("{" +:+ raw_quoted "status" +:+ ":" +:+ raw_quoted "accepted" +:+ "," +:+
           raw_quoted "mode" +:+ ":" +:+ raw_quoted mode_tag +:+ "," +:+
           raw_quoted "route" +:+ ":" +:+
           raw_quoted (manager_route_kind_string (trd_route route_decision)) +:+ "," +:+
           raw_quoted "lane" +:+ ":" +:+ raw_quoted (trd_lane_key route_decision) +:+ "}"))
    None None now [mode_tag].

(** [normalize_result] of ToolManager.cpp; [now] is read when the completion is missing. *)
Definition manager_normalize_result (request : ToolRequest) (tool_ir : ToolIR)
    (result : ToolResult) (now : Z) : ToolResult :=
  let tool_name := or_else (tres_tool_name result) (or_else (ir_tool_name tool_ir) (tr_tool_name request)) in
  let success :=
    match tres_success result with
    | Some success => success
    | None => bool_decide (tres_error result = None)
    end in
  {| tres_request_id :=
       or_else (tres_request_id result) (or_else (ir_request_id tool_ir) (tr_request_id request));
     tres_tool_call_id :=
       or_else (tres_tool_call_id result)
         (or_else (ir_tool_call_id tool_ir) (tr_tool_call_id request));
     tres_tool_name := tool_name;
     tres_success := Some success;
     tres_payload := tres_payload result;
     tres_error :=
       if success then None else
       or_else (tres_error result)
         (Some (manager_error ResultCode.ToolExecutionFailed "tool.manager.execution_failed"
                  "tools.manager.execute" (default "unknown_tool" tool_name)));
     tres_side_effects := tres_side_effects result;
     tres_completed_at := or_else (tres_completed_at result) (Some now);
     tres_duration_ms := or_else (tres_duration_ms result) (Some 0);
     tres_goal_id := or_else (tres_goal_id result) (or_else (ir_goal_id tool_ir) (tr_goal_id request));
     tres_worker_task_id :=
       or_else (tres_worker_task_id result)
         (or_else (ir_worker_task_id tool_ir) (tr_worker_task_id request));
     tres_tags := or_else (tres_tags result) (tr_tags request) |}.

Definition build_compensation_hints (result : ToolResult) : option (list ToolCompensationHint) :=
  let? side_effects := tres_side_effects result else None in
  if bool_decide (side_effects = []) then None else
  let capability_id := default "unknown_tool" (tres_tool_name result) in
  let target_id := default ("builtin:" +:+ capability_id) (tres_tool_call_id result) in
  Some [{| tch_compensation_action := tres_tool_name result;
           tch_target_ref := Some (format_compensation_target_ref capability_id target_id);
           tch_reason_code := Some "tool.manager.compensation_available";
           tch_evidence_refs := Some side_effects |}].

(** What came of a call; the last three only from the workflow engine. *)
Record CallOutcome := {
  co_result : ToolResult;
  co_compensation_hints : option (list ToolCompensationHint);
  co_evidence_refs : option (list string);
  co_failure_reason_code : option string;
}.

Definition plain_outcome (result : ToolResult) : CallOutcome :=
  {| co_result := result; co_compensation_hints := None; co_evidence_refs := None;
     co_failure_reason_code := None |}.

Definition workflow_outcome (outcome : WorkflowExecutionOutcome) : CallOutcome :=
  {| co_result := weo_tool_result outcome;
     co_compensation_hints := weo_compensation_hints outcome;
     co_evidence_refs :=
       if bool_decide (weo_evidence_refs outcome = []) then None
       else Some (weo_evidence_refs outcome);
     co_failure_reason_code :=
       if is_empty (weo_failure_reason_code outcome) then None
       else Some (weo_failure_reason_code outcome) |}.

(** The envelope of a call that ran, from the projection of its result; [fallback] is the
    standard projection, for what the projector leaves out. *)
Definition finish_call (call : PlannedCall) (result : ToolResult) (outcome : CallOutcome)
    (projected fallback : ToolInvocationEnvelope) : ToolInvocationEnvelope :=
  let ok := succeeded result in
  let reason :=
    match tie_failure_reason_code projected with
    | Some reason => Some reason
    | None => if ok then None else tie_failure_reason_code fallback
    end in
  {| tie_tool_result := Some result;
     tie_route_facts := or_else (tie_route_facts projected) (tie_route_facts fallback);
     tie_evidence_refs :=
       or_else (co_evidence_refs outcome)
         (or_else (tie_evidence_refs projected) (tie_evidence_refs fallback));
     tie_compensation_hints :=
       match co_compensation_hints outcome, tie_compensation_hints projected with
       | Some hints, _ => Some hints
       | None, Some hints => Some hints
       | None, None =>
           if negb (bool_decide (trd_route (pc_route_decision call) = ToolIRRoute.WorkflowEngine))
              && default false (td_supports_compensation (pc_descriptor call))
           then build_compensation_hints result else None
       end;
     tie_failure_reason_code := if ok then None else or_else (co_failure_reason_code outcome) reason |}.

(** ** Execution *)

(** Neither a dry run nor a validation. *)
Definition executes (operation : ToolIROperation) : bool :=
  negb (bool_decide (operation = ToolIROperation.DryRun))
  && negb (bool_decide (operation = ToolIROperation.ValidateOnly)).

Section manager.
Context {World : Type}.

(** The outside world and the shared pool of lanes. *)
Abbreviation State := (World * ExecutorLanePool)%type.

Variable current_time_ms : World -> World * Z.
Variable moved_from : string -> string.

Record Executors := {
  ex_executor : State -> ToolIR -> ToolRouteDecision -> State * ToolResult;
  ex_workflow_engine : option (@WorkflowEngineDependencies State);
  ex_visit : WorkflowPlan -> list string;
  ex_projector : ToolResult -> ToolRouteDecision -> ToolInvocationEnvelope;
  ex_standard_projector : ToolResult -> ToolRouteDecision -> ToolInvocationEnvelope;
}.

Definition clock (state : State) : State * Z :=
  let '(w, now) := current_time_ms state.1 in ((w, state.2), now).

Definition fail_call (state : State) (request : ToolRequest) (f : InvokeFailure)
    : State * ToolInvocationEnvelope :=
  let '(state, now) := clock state in (state, build_failure_envelope request f now).

(** The branches on the operation and the route. *)
Definition execute_call (executors : Executors) (state : State) (call : PlannedCall)
    (operation : ToolIROperation) : option (State * result InvokeFailure CallOutcome) :=
  let tool_ir := pc_tool_ir call in
  let route_decision := pc_route_decision call in
  let without_execution mode_tag :=
    let '(state, now) := clock state in
    Some (state, Ok (plain_outcome
                       (build_non_execution_result tool_ir route_decision mode_tag now))) in
  if bool_decide (operation = ToolIROperation.DryRun) then without_execution kDryRunMode else
  if bool_decide (operation = ToolIROperation.ValidateOnly)
  then without_execution kValidateOnlyMode else
  if bool_decide (trd_route route_decision = ToolIRRoute.WorkflowEngine) then
    let? engine := ex_workflow_engine executors
      else Some (state, Err (routed_failure ResultCode.ToolExecutionFailed
                               "workflow.engine_unavailable" "tools.manager.execute"
                               route_decision)) in
    match execute_workflow clock moved_from engine state (ex_visit executors) tool_ir with
    | Some (state, outcome) => Some (state, Ok (workflow_outcome outcome))
    | None => None
    end
  else
    let '(state, result) := ex_executor executors state tool_ir route_decision in
    Some (state, Ok (plain_outcome result)).

(** From the execution to the envelope. *)
Definition complete_call (executors : Executors) (state : State) (request : ToolRequest)
    (call : PlannedCall) (operation : ToolIROperation)
    : option (State * ToolInvocationEnvelope) :=
  match execute_call executors state call operation with
  | None => None
  | Some (state, Err f) => Some (fail_call state request f)
  | Some (state, Ok outcome) =>
      let '(state, now) :=
        match tres_completed_at (co_result outcome) with
        | Some _ => (state, 0)
        | None => clock state
        end in
      let result := manager_normalize_result request (pc_tool_ir call) (co_result outcome) now in
      Some (state,
            finish_call call result outcome
              (ex_projector executors result (pc_route_decision call))
              (ex_standard_projector executors result (pc_route_decision call)))
  end.

Definition run_invoke_pipeline (manager : ToolManager) (executors : Executors) (state : State)
    (request : ToolRequest) (context : ToolInvocationContext)
    : option (State * ToolInvocationEnvelope) :=
  match plan_call manager request context with
  | None => None
  | Some (Err f) => Some (fail_call state request f)
  | Some (Ok call) =>
      let? operation := ir_operation (pc_tool_ir call) else None in
      if negb (executes operation) then complete_call executors state request call operation else
      let '(pool, acquisition) := acquire_lane_for_route state.2 call in
      let state := (state.1, pool) in
      if negb (lar_acquired acquisition)
      then Some (fail_call state request
                   (routed_failure ResultCode.ToolExecutionFailed
                      (lar_reason_code acquisition) "tools.manager.lane"
                      (pc_route_decision call))) else
      match complete_call executors state request call operation with
      | None => None
      | Some (state, envelope) =>
          let lane_key := lr_lane_key (lar_reservation acquisition) in
          Some ((state.1, release_lane state.2 lane_key), envelope)
      end
  end.

Fixpoint invoke_batch (manager : ToolManager) (executors : Executors) (state : State)
    (requests : list ToolRequest) (context : ToolInvocationContext)
    : option (State * list ToolInvocationEnvelope) :=
  match requests with
  | [] => Some (state, [])
  | request :: requests =>
      match run_invoke_pipeline manager executors state request context with
      | None => None
      | Some (state, envelope) =>
          match invoke_batch manager executors state requests context with
          | None => None
          | Some (state, envelopes) => Some (state, envelope :: envelopes)
          end
      end
  end.
End manager.

(** ** What is planned *)

Record planned_for (manager : ToolManager) (request : ToolRequest) (context : ToolInvocationContext)
    (policy_view : ToolPolicyView) (tool_name : string) (call : PlannedCall) : Prop := {
  pf_available : tm_dependencies_available manager = true;
  pf_views : tic_views context = Some (policy_view, pc_timeout_view call);
  pf_name : tr_tool_name request = Some tool_name /\ tool_name <> "";
  pf_descriptor : resolve_descriptor (tm_registry manager) tool_name = Some (pc_descriptor call);
  pf_acceptable : acceptable request (pc_descriptor call);
  pf_ir : ir_ok (pc_tool_ir call) /\ ir_operation (pc_tool_ir call) = derive_operation request;
  pf_hint : exists category, td_category (pc_descriptor call) = Some category /\
    ir_route (pc_tool_ir call) = Some (build_route_hint category request);
  pf_admissible : admissible
    (admission_request (pc_tool_ir call) (pc_descriptor call) tool_name context) policy_view;
  pf_route : pc_route_decision call
    = chosen_route (pc_tool_ir call) (pc_descriptor call) (pc_timeout_view call)
        (list_mcp_bindings (tm_registry manager) tool_name)
        (tm_capability_snapshot manager) (tm_route_health manager);
  pf_routed : trd_available (pc_route_decision call) = true;
}.

Lemma validated_fields r d result :
  validated r d result ->
  match tvr_tool_ir result, tvr_diagnostics result with
  | None, None => validation_ok result = false
  | Some _, Some _ => validation_ok result = false
  | Some _, None => validation_ok result = true
  | None, Some _ => validation_ok result = false
  end.
Proof. intros _. unfold validation_ok. by destruct (tvr_tool_ir result), (tvr_diagnostics result). Qed.

Lemma validate_shape r d result :
  validate r d = Some result ->
  (exists ir, result = {| tvr_tool_ir := Some ir; tvr_diagnostics := None |}) \/
  (exists code message, result = invalid code message).
Proof. unfold validate. intros H. split_in H; eauto. Qed.

Lemma plan_spec manager request context :
  (exists f, plan_call manager request context = Some (Err f)) \/
  (exists policy_view tool_name call, plan_call manager request context = Some (Ok call) /\
     planned_for manager request context policy_view tool_name call).
Proof.
  unfold plan_call. destruct (tm_dependencies_available manager) eqn:Ha; simpl; [|by left; eexists].
  destruct (tic_views context) as [[policy_view timeout_view]|] eqn:Hv; [|by left; eexists].
  destruct (tr_tool_name request) as [tool_name|] eqn:Hn; [|by left; eexists].
  destruct (is_empty tool_name) eqn:He; [by left; eexists|]. apply is_empty_false in He.
  destruct (resolve_descriptor (tm_registry manager) tool_name) as [d|] eqn:Hd; [|by left; eexists].
  destruct (validate_spec request d) as (result & Hval & Hresult). rewrite Hval.
  destruct (validate_shape _ _ _ Hval) as [(ir & ->)|(code & message & ->)];
    [|by left; eexists].
  simpl. destruct (gate_cases (admission_request ir d tool_name context) policy_view)
    as [[Hadm Hdec]|(_ & Hdec & _)]; simpl in Hdec; rewrite Hdec; simpl; [|by left; eexists].
  rewrite route_spec. destruct (trd_available (chosen_route _ _ _ _ _ _)) eqn:Hr; simpl;
    [|by left; eexists].
  right. eexists policy_view, tool_name, _. split; [done|].
  destruct (va_ir _ _ _ Hresult ir eq_refl) as (Hir & Hop & Hhint).
  by split; try done; apply (va_ok _ _ _ Hresult).
Qed.

(** The hint of a call that validation built. *)
Lemma hint_domain ir d category request :
  td_category d = Some category -> ir_route ir = Some (build_route_hint category request) ->
  derive_requested_domain ir d
  = Some (if has_tag (tr_tags request) kPreferMcpRouteTag then "mcp"
          else if is_workflow_like d then "workflow" else "builtin").
Proof.
  intros Hc Hr. unfold derive_requested_domain, is_workflow_like. rewrite Hr, Hc.
  unfold build_route_hint. destruct (has_tag _ _); [done|]. by destruct category.
Qed.

Lemma hint_route d category request :
  td_category d = Some category -> is_workflow_like d = false ->
  build_route_hint category request
  = if has_tag (tr_tags request) kPreferMcpRouteTag then ToolIRRoute.MCPRemote
    else ToolIRRoute.LocalTool.
Proof.
  intros Hc Hw. unfold is_workflow_like in Hw. rewrite Hc in Hw. unfold build_route_hint.
  destruct (has_tag _ _); [done|]. by destruct category.
Qed.

Lemma builtin_routed timeout_view :
  trd_available (build_builtin_decision timeout_view) = true ->
  trd_route (build_builtin_decision timeout_view) = ToolIRRoute.LocalTool.
Proof. unfold build_builtin_decision. by destruct (lr_available _). Qed.

Lemma mcp_routed binding timeout_view stale :
  trd_available (build_mcp_decision binding timeout_view stale) = true ->
  trd_route (build_mcp_decision binding timeout_view stale) = ToolIRRoute.MCPRemote.
Proof. unfold build_mcp_decision. by destruct (lr_available _). Qed.

Lemma workflow_routed descriptor timeout_view health :
  trd_available (select_workflow_route descriptor timeout_view health) = true ->
  trd_route (select_workflow_route descriptor timeout_view health) = ToolIRRoute.WorkflowEngine.
Proof.
  unfold select_workflow_route. destruct (negb _); [done|]. destruct (_ && _); [done|].
  by destruct (lr_available _).
Qed.

(** The domain a call was admitted for is not always the one it runs in. Every call the
    manager plans was admitted for the domain its hint or its category names; a workflow runs
    there unless the request asked for MCP, and any other tool runs there exactly when the
    lane or the server of the hint is usable: otherwise it runs in the other domain, which
    the policy was never asked about. *)
Theorem admitted_domain_and_route manager request context call :
  plan_call manager request context = Some (Ok call) ->
  exists policy_view domain tool_name,
    tic_views context = Some (policy_view, pc_timeout_view call) /\
    tr_tool_name request = Some tool_name /\
    derive_requested_domain (pc_tool_ir call) (pc_descriptor call) = Some domain /\
    domain ∈ tpv_allowed_tool_domains policy_view /\
    let asks_mcp := has_tag (tr_tags request) kPreferMcpRouteTag in
    let route := manager_route_kind_string (trd_route (pc_route_decision call)) in
    let descriptor := pc_descriptor call in
    let timeout_view := pc_timeout_view call in
    let health := tm_route_health manager in
    if is_workflow_like descriptor then route = "workflow" /\ (domain = route <-> asks_mcp = false)
    else (route = "builtin" \/ route = "mcp") /\
      (domain = route <->
       if asks_mcp
       then is_Some (mcp_usable timeout_view (list_mcp_bindings (tm_registry manager) tool_name)
                       (tm_capability_snapshot manager) health)
       else builtin_usable descriptor timeout_view health = true).
Proof.
  intros Hplan. destruct (plan_spec manager request context)
    as [(f & Hf)|(policy_view & tool_name & call' & Hcall & Hp)]; [congruence|].
  rewrite Hplan in Hcall. injection Hcall as <-. destruct (pf_hint _ _ _ _ _ _ Hp) as (category & Hc & Hr).
  pose proof (hint_domain _ _ _ _ Hc Hr) as Hdom.
  destruct (ad_domain _ _ (pf_admissible _ _ _ _ _ _ Hp))
    as (domain & selector & Hcaller & _ & _ & Hallowed & _).
  simpl in Hcaller. exists policy_view, domain, tool_name.
  split_and!; [apply (pf_views _ _ _ _ _ _ Hp)|apply (pf_name _ _ _ _ _ _ Hp)|done|done|].
  rewrite Hdom in Hcaller. injection Hcaller as <-.
  pose proof (pf_routed _ _ _ _ _ _ Hp) as Havail. rewrite (pf_route _ _ _ _ _ _ Hp) in *.
  cbv zeta. unfold chosen_route in *. destruct (is_workflow_like (pc_descriptor call)) eqn:Hw.
  - rewrite (workflow_routed _ _ _ Havail). split; [done|].
    by destruct (has_tag (tr_tags request) kPreferMcpRouteTag).
  - unfold prefers_server in *. rewrite Hr, (hint_route _ _ _ Hc Hw) in *.
    destruct (builtin_usable _ _ _), (mcp_usable _ _ _ _) as [[binding snapshot]|],
      (has_tag (tr_tags request) kPreferMcpRouteTag);
      rewrite ?(mcp_routed _ _ _ Havail), ?(builtin_routed _ Havail); try done;
      (split; [by (left + right)|]); (split; [done|intros H]); try done; by destruct H.
Qed.

(** The setting of the safe mode. *)
Definition with_safe_mode (enabled : bool) (view : ToolPolicyView) : ToolPolicyView :=
  {| tpv_effective_profile_id := tpv_effective_profile_id view;
     tpv_safe_mode_enabled := enabled;
     tpv_high_risk_confirmation_required := tpv_high_risk_confirmation_required view;
     tpv_audit_level := tpv_audit_level view;
     tpv_allowed_tool_domains := tpv_allowed_tool_domains view;
     tpv_tool_visibility_rules := tpv_tool_visibility_rules view |}.

Definition context_safe_mode (enabled : bool) (context : ToolInvocationContext)
    : ToolInvocationContext :=
  {| tic_views := prod_map (with_safe_mode enabled) id <$> tic_views context;
     tic_confirmation_facts := tic_confirmation_facts context |}.

(** The safe mode of the policy has no effect on a call: validation gives every call a
    route hint, so the manager reports every route as proven, and no call is refused for an
    unproven one. *)
Theorem safe_mode_has_no_effect manager request context enabled :
  plan_call manager request (context_safe_mode enabled context)
  = plan_call manager request context.
Proof.
  unfold plan_call. destruct (tm_dependencies_available manager); [|done]. simpl.
  destruct (tic_views context) as [[view timeout_view]|]; [|done]. simpl.
  destruct (tr_tool_name request) as [tool_name|]; [|done].
  destruct (is_empty tool_name); [done|].
  destruct (resolve_descriptor (tm_registry manager) tool_name) as [d|]; [|done].
  destruct (validate_spec request d) as (result & -> & Hresult).
  destruct (tvr_tool_ir result) as [ir|] eqn:Hir; [|done].
  destruct (tvr_diagnostics result); [done|].
  destruct (va_ir _ _ _ Hresult ir Hir) as (_ & _ & category & Hc & Hr).
  assert (forall c, tar_route_proven (admission_request ir d tool_name c) = true) as Hproven.
  { intros c. simpl. by rewrite (hint_domain _ _ _ _ Hc Hr). }
  assert (evaluate_policy (admission_request ir d tool_name (context_safe_mode enabled context))
            (with_safe_mode enabled view)
          = evaluate_policy (admission_request ir d tool_name context) view) as ->; [|done].
  unfold evaluate_policy, check_safe_mode. rewrite !Hproven, !andb_false_r. done.
Qed.

(** ** What runs *)

Section running.
Context {World : Type}.
Variable current_time_ms : World -> World * Z.
Variable moved_from : string -> string.

Abbreviation State := (World * ExecutorLanePool)%type.
Abbreviation run := (run_invoke_pipeline current_time_ms moved_from).

(** C6. A tool runs only for a call that may: if what a request brings about depends on the
    executors at all, the request was validated against its tool, its domain admitted by
    the policy, a route found, its operation is a real invocation, and it holds a permit of
    its lane. *)
Theorem tool_runs_only_if_admitted manager executors executors' (state : State) request context :
  ex_projector executors = ex_projector executors' ->
  ex_standard_projector executors = ex_standard_projector executors' ->
  run manager executors state request context <> run manager executors' state request context ->
  exists policy_view tool_name call,
    planned_for manager request context policy_view tool_name call /\
    derive_operation request = Some ToolIROperation.Invoke /\
    lar_acquired (acquire_lane_for_route state.2 call).2 = true.
Proof.
  intros Hproj Hstd Hdiff. unfold run_invoke_pipeline in Hdiff.
  destruct (plan_spec manager request context)
    as [(f & Hf)|(policy_view & tool_name & call & Hcall & Hp)]; [by rewrite Hf in Hdiff|].
  rewrite Hcall in Hdiff. exists policy_view, tool_name, call. split; [done|].
  destruct (pf_ir _ _ _ _ _ _ Hp) as [Hir Hop]. rewrite <-Hop.
  destruct (ir_operation (pc_tool_ir call)) as [operation|] eqn:Hoperation; [|done].
  destruct (derived_operation_named request operation) as [Hu Ho]; [congruence|].
  destruct (executes operation) eqn:He; cbn [negb] in Hdiff.
  - split; [destruct operation; try done; by destruct (Ho n)|].
    destruct (acquire_lane_for_route state.2 call) as [pool acquisition]. simpl.
    destruct (lar_acquired acquisition); [done|]. by destruct Hdiff.
  - destruct Hdiff. unfold complete_call. rewrite Hproj, Hstd.
    assert (execute_call current_time_ms moved_from executors state call operation
            = execute_call current_time_ms moved_from executors' state call operation) as ->;
      [|done].
    unfold executes in He. apply andb_false_iff in He. unfold execute_call.
    destruct He as [He|He]; apply negb_false_iff in He; rewrite He; [done|]. by case_match.
Qed.
End running.

(** ** Lanes *)

(** The permits of every lane are as they were. *)
Definition same_lanes {World} (state state' : World * ExecutorLanePool) : Prop :=
  forall lane_key, lane_inflight state'.2 lane_key = lane_inflight state.2 lane_key.

#[export] Instance same_lanes_preorder {World} : PreOrder (@same_lanes World).
Proof. split; [by intros ? ?|]. intros x y z H1 H2 key. by rewrite H2, H1. Qed.

(** Executors that give back every permit they take: those that take none, and those that
    invoke tools through a manager again. *)
Record executors_keep {World} (executors : @Executors World) : Prop := {
  ek_executor : forall state ir decision,
    same_lanes state (ex_executor executors state ir decision).1;
  ek_engine : forall engine, ex_workflow_engine executors = Some engine ->
    (forall loader, wed_plan_loader engine = Some loader -> keeps same_lanes loader) /\
    executor_keeps same_lanes (wed_builtin_executor engine) /\
    executor_keeps same_lanes (wed_mcp_executor engine);
}.

Section lanes.
Context {World : Type}.
Variable current_time_ms : World -> World * Z.
Variable moved_from : string -> string.

Abbreviation State := (World * ExecutorLanePool)%type.

Lemma clock_pool (state : State) : (clock current_time_ms state).1.2 = state.2.
Proof. unfold clock. by destruct (current_time_ms state.1). Qed.

Lemma clock_lanes (state : State) : same_lanes state (clock current_time_ms state).1.
Proof. intros key. unfold clock. by destruct (current_time_ms state.1). Qed.

Lemma fail_lanes (state : State) request f : same_lanes state (fail_call current_time_ms state request f).1.
Proof.
  unfold fail_call. pose proof (clock_lanes state) as H. by destruct (clock _ _).
Qed.

Lemma execute_lanes executors (state : State) call operation state' outcome :
  executors_keep executors ->
  execute_call current_time_ms moved_from executors state call operation = Some (state', outcome) ->
  same_lanes state state'.
Proof.
  intros [Hex Heng]. unfold execute_call. pose proof (clock_lanes state) as Hclock.
  destruct (bool_decide (operation = ToolIROperation.DryRun)).
  { destruct (clock _ _). by intros [= <- _]. }
  destruct (bool_decide (operation = ToolIROperation.ValidateOnly)).
  { destruct (clock _ _). by intros [= <- _]. }
  destruct (bool_decide (_ = ToolIRRoute.WorkflowEngine)).
  - destruct (ex_workflow_engine executors) as [engine|] eqn:E; [|by intros [= <- _]].
    destruct (Heng engine eq_refl) as (Hload & Hbuiltin & Hmcp).
    destruct (execute_workflow _ _ _ _ _ _) as [[s o]|] eqn:Hrun; [|done]. intros [= <- _].
    by apply (execute_workflow_keeps same_lanes _ _ _ clock_lanes Hload Hbuiltin Hmcp _ _ _ _ _ Hrun).
  - pose proof (Hex state (pc_tool_ir call) (pc_route_decision call)) as H.
    destruct (ex_executor _ _ _ _). by intros [= <- _].
Qed.

Lemma complete_lanes executors (state : State) request call operation state' envelope :
  executors_keep executors ->
  complete_call current_time_ms moved_from executors state request call operation
    = Some (state', envelope) ->
  same_lanes state state'.
Proof.
  intros Hk. unfold complete_call.
  destruct (execute_call _ _ _ _ _ _) as [[s [outcome|f]]|] eqn:E; [| |done];
    apply (execute_lanes _ _ _ _ _ _ Hk) in E.
  - destruct (tres_completed_at _); [by intros [= <- _]|].
    pose proof (clock_lanes s) as H. destruct (clock _ s). intros [= <- _]. by etrans.
  - pose proof (fail_lanes s request f) as H. destruct (fail_call _ _ _ _).
    intros [= <- _]. by etrans.
Qed.

(** Acquisitions of a planned call: budgets of the view, lanes with a name. *)
Lemma acquisition_spec pool call :
  in_u32 (ttv_max_tool_calls (pc_timeout_view call)) ->
  (forall key, 0 <= lane_inflight pool key) ->
  let '(pool', acquisition) := acquire_lane_for_route pool call in
  let key := lr_lane_key (lar_reservation acquisition) in
  (lar_acquired acquisition = true ->
   key <> "" /\ lane_inflight pool' key <= ttv_max_tool_calls (pc_timeout_view call)) /\
  forall lane_key, lane_inflight pool' lane_key
    = lane_inflight pool lane_key
      + (if decide (key = lane_key) then if lar_acquired acquisition then 1 else 0 else 0).
Proof.
  intros Hu Hpos.
  assert (forall reservation reason,
    0 <= lr_concurrency_budget reservation <= ttv_max_tool_calls (pc_timeout_view call) ->
    let '(pool', acquisition) := acquire_lane pool reservation reason in
    let key := lr_lane_key (lar_reservation acquisition) in
    (lar_acquired acquisition = true ->
     key <> "" /\ lane_inflight pool' key <= ttv_max_tool_calls (pc_timeout_view call)) /\
    forall lane_key, lane_inflight pool' lane_key
      = lane_inflight pool lane_key
        + (if decide (key = lane_key) then if lar_acquired acquisition then 1 else 0 else 0))
    as Hacquire.
  { intros reservation reason Hb. pose proof (acquire_spec pool reservation reason) as H.
    assert (lar_reservation (acquire_lane pool reservation reason).2 = reservation) as Hres.
    { unfold acquire_lane. by repeat case_match. }
    destruct (acquire_lane pool reservation reason) as [pool' acquisition]. simpl in Hres.
    destruct H as [Hiff Hnew]; [apply Hpos|unfold in_u32 in *; lia|]. rewrite Hres.
    split; [|done]. intros Hok. pose proof (proj1 Hiff Hok) as (_ & Hkey & Hlt).
    split; [done|]. rewrite Hnew, decide_True, Hok by done. lia. }
  assert (forall kind key available,
    0 <= lr_concurrency_budget (reserve kind key available (pc_timeout_view call))
      <= ttv_max_tool_calls (pc_timeout_view call)) as Hreserve.
  { intros kind key available. simpl. unfold in_u32 in Hu. destruct available; lia. }
  unfold acquire_lane_for_route, acquire_builtin, acquire_workflow, acquire_mcp.
  destruct (trd_route (pc_route_decision call)); try (by apply Hacquire, Hreserve);
    simpl; (split; [done|]); intros; destruct (decide _); lia.
Qed.

(** A permit that was granted and is given back, and one that was refused. *)
Lemma permit_given_back (state state' : State) call pool acquisition :
  in_u32 (ttv_max_tool_calls (pc_timeout_view call)) ->
  (forall key, 0 <= lane_inflight state.2 key) ->
  acquire_lane_for_route state.2 call = (pool, acquisition) ->
  lar_acquired acquisition = true -> same_lanes (state.1, pool) state' ->
  same_lanes state
    (state'.1, release_lane state'.2 (lr_lane_key (lar_reservation acquisition))).
Proof.
  intros Hu Hpos Hacq Hok Hbody. pose proof (acquisition_spec state.2 call Hu Hpos) as H.
  rewrite Hacq in H. destruct H as [Hgrant Hnew]. destruct (Hgrant Hok) as [Hkey _].
  rewrite Hok in Hnew. intros key. simpl. rewrite release_spec; [|done|].
  - rewrite (Hbody key). simpl. rewrite Hnew. destruct (decide _); lia.
  - rewrite (Hbody _). simpl. rewrite Hnew, decide_True by done.
    pose proof (Hpos (lr_lane_key (lar_reservation acquisition))). lia.
Qed.

Lemma permit_refused (state : State) call pool acquisition :
  in_u32 (ttv_max_tool_calls (pc_timeout_view call)) ->
  (forall key, 0 <= lane_inflight state.2 key) ->
  acquire_lane_for_route state.2 call = (pool, acquisition) ->
  lar_acquired acquisition = false -> same_lanes state (state.1, pool).
Proof.
  intros Hu Hpos Hacq Hno. pose proof (acquisition_spec state.2 call Hu Hpos) as H.
  rewrite Hacq in H. destruct H as [_ Hnew]. rewrite Hno in Hnew. intros key. simpl.
  rewrite Hnew. destruct (decide _); lia.
Qed.

(** An invocation gives back the permit it takes: whatever happens to the call, each
    lane holds as many permits after it as before, provided the executors give back theirs;
    and the call runs with no more permits on its lane than the policy allows at once. *)
Theorem invocation_keeps_lanes manager executors (state : State) request context state' envelope :
  executors_keep executors ->
  (forall policy_view timeout_view, tic_views context = Some (policy_view, timeout_view) ->
     in_u32 (ttv_max_tool_calls timeout_view)) ->
  (forall lane_key, 0 <= lane_inflight state.2 lane_key) ->
  run_invoke_pipeline current_time_ms moved_from manager executors state request context
    = Some (state', envelope) ->
  same_lanes state state' /\
  forall call, plan_call manager request context = Some (Ok call) ->
    let '(pool, acquisition) := acquire_lane_for_route state.2 call in
    lar_acquired acquisition = true ->
    lane_inflight pool (lr_lane_key (lar_reservation acquisition))
    <= ttv_max_tool_calls (pc_timeout_view call).
Proof.
  intros Hk Hviews Hpos Hrun.
  assert (forall call, plan_call manager request context = Some (Ok call) ->
            in_u32 (ttv_max_tool_calls (pc_timeout_view call))) as Hu.
  { intros call Hcall. destruct (plan_spec manager request context)
      as [(f & Hf)|(policy_view & tool_name & call' & Hcall' & Hp)]; [congruence|].
    replace call with call' by congruence. apply (Hviews policy_view), (pf_views _ _ _ _ _ _ Hp). }
  split; [|intros call Hcall; pose proof (acquisition_spec state.2 call (Hu _ Hcall) Hpos) as H;
           destruct (acquire_lane_for_route state.2 call); intros Hok; by apply H].
  unfold run_invoke_pipeline in Hrun.
  destruct (plan_call manager request context) as [[call|f]|]; [| |done].
  2: { pose proof (fail_lanes state request f) as H. destruct (fail_call _ _ _ _).
       by injection Hrun as <- _. }
  destruct (ir_operation (pc_tool_ir call)) as [operation|]; [|done].
  destruct (executes operation); cbn [negb] in Hrun; [|by apply (complete_lanes _ _ _ _ _ _ _ Hk Hrun)].
  destruct (acquire_lane_for_route state.2 call) as [pool acquisition] eqn:Hacq.
  destruct (lar_acquired acquisition) eqn:Hok; cbn [negb] in Hrun.
  - destruct (complete_call _ _ _ _ _ _ _) as [[s e]|] eqn:E; [|done].
    injection Hrun as <- _. apply (complete_lanes _ _ _ _ _ _ _ Hk) in E.
    by apply (permit_given_back state s call pool acquisition (Hu _ eq_refl) Hpos).
  - injection Hrun as Hfail. etrans;
      [apply (permit_refused state call pool acquisition (Hu _ eq_refl) Hpos Hacq Hok)|].
    etrans; [apply fail_lanes|]. by rewrite Hfail.
Qed.
End lanes.

(** ** Examples *)

(** A request that asks for MCP, for a tool with no binding, under a policy that admits the
    domain "mcp" only. *)
Definition sample_tool_request : ToolRequest :=
  {| tr_request_id := Some "r"; tr_tool_call_id := Some "c"; tr_tool_name := Some "t";
     tr_invocation_kind := Some ToolInvocationKind.InformationQuery;
     tr_arguments_payload := Some "{}"; tr_created_at := Some 1; tr_goal_id := None;
     tr_worker_task_id := None; tr_runtime_budget := None; tr_timeout_ms := None;
     tr_idempotency_key := None; tr_tags := Some [kPreferMcpRouteTag] |}.

Definition sample_policy : ToolPolicyView :=
  {| tpv_effective_profile_id := "p"; tpv_safe_mode_enabled := true;
     tpv_high_risk_confirmation_required := false; tpv_audit_level := "full";
     tpv_allowed_tool_domains := ["mcp"]; tpv_tool_visibility_rules := ["mcp:all"] |}.

Definition sample_context : ToolInvocationContext :=
  {| tic_views := Some (sample_policy, sample_timeout_view true true);
     tic_confirmation_facts := None |}.

Definition sample_manager : ToolManager :=
  {| tm_dependencies_available := true;
     tm_registry := new_tool_registry [sample_tool];
     tm_route_health := {| trh_builtin_lane_healthy := true; trh_workflow_lane_healthy := true;
                           trh_mcp_lane_healthy := true |};
     tm_capability_snapshot := None |}.

Definition sample_call : option PlannedCall :=
  match plan_call sample_manager sample_tool_request sample_context with
  | Some (Ok call) => Some call
  | _ => None
  end.

Definition sample_envelope (result : ToolResult) (_ : ToolRouteDecision)
    : ToolInvocationEnvelope :=
  {| tie_tool_result := Some result; tie_route_facts := None; tie_evidence_refs := None;
     tie_compensation_hints := None; tie_failure_reason_code := None |}.

Definition sample_result (ir : ToolIR) (payload : string) : ToolResult :=
  {| tres_request_id := ir_request_id ir; tres_tool_call_id := ir_tool_call_id ir;
     tres_tool_name := ir_tool_name ir; tres_success := Some true;
     tres_payload := Some payload; tres_error := None; tres_side_effects := None;
     tres_completed_at := Some 5; tres_duration_ms := Some 1; tres_goal_id := None;
     tres_worker_task_id := None; tres_tags := None |}.

(** Executors that answer with a fixed payload. *)
Definition sample_executors (payload : string) : @Executors unit :=
  {| ex_executor := fun state ir _ => (state, sample_result ir payload);
     ex_workflow_engine := None; ex_visit := fun _ => [];
     ex_projector := sample_envelope; ex_standard_projector := sample_envelope |}.

Abbreviation sample_run payload :=
  (run_invoke_pipeline (fun _ : unit => (tt, 7)) (fun s => s) sample_manager
     (sample_executors payload) (tt, ∅) sample_tool_request sample_context).

Definition sample_payload {State} (answer : option (State * ToolInvocationEnvelope)) : option string :=
  answer ≫= fun '(_, envelope) => tie_tool_result envelope ≫= tres_payload.

Lemma admitted_domain_and_route_witness :
  exists call, sample_call = Some call /\
    manager_route_kind_string (trd_route (pc_route_decision call)) = "builtin" /\
    exists policy_view domain,
      tic_views sample_context = Some (policy_view, pc_timeout_view call) /\
      domain ∈ tpv_allowed_tool_domains policy_view.
Proof.
  destruct sample_call as [call|] eqn:E; [|by vm_compute in E].
  assert (plan_call sample_manager sample_tool_request sample_context = Some (Ok call)) as Hplan.
  { unfold sample_call in E. destruct (plan_call _ _ _) as [[c|]|]; congruence. }
  exists call. split; [done|].
  split; [vm_compute in E; by injection E as <-|].
  destruct (admitted_domain_and_route _ _ _ _ Hplan)
    as (policy_view & domain & _ & Hviews & _ & _ & Hin & _).
  exact (ex_intro _ policy_view (ex_intro _ domain (conj Hviews Hin))).
Defined.

Lemma tool_runs_only_if_admitted_witness :
  sample_run "a" <> sample_run "b" /\
  exists policy_view tool_name call,
    planned_for sample_manager sample_tool_request sample_context policy_view tool_name call.
Proof.
  assert (sample_run "a" <> sample_run "b") as Hdiff.
  { assert (sample_payload (sample_run "a") <> sample_payload (sample_run "b")) as H
      by (vm_compute; congruence).
    intros E. by rewrite E in H. }
  split; [exact Hdiff|].
  destruct (tool_runs_only_if_admitted (fun _ : unit => (tt, 7)) (fun s => s) sample_manager
    (sample_executors "a") (sample_executors "b") (tt, ∅) sample_tool_request sample_context
    eq_refl eq_refl Hdiff) as (policy_view & tool_name & call & Hp & _).
  exact (ex_intro _ policy_view (ex_intro _ tool_name (ex_intro _ call Hp))).
Defined.

Lemma invocation_keeps_lanes_witness :
  exists state' envelope, sample_run "a" = Some (state', envelope) /\
    @same_lanes unit (tt, ∅) state'.
Proof.
  assert (is_Some (sample_run "a")) as [[state' envelope] E] by (vm_compute; by eexists).
  exists state', envelope. split; [done|].
  refine (proj1 (invocation_keeps_lanes _ _ _ _ (tt, ∅) _ _ _ _ _ _ _ E)).
  - split; [by intros ? ? ? ?|done].
  - intros policy_view timeout_view [= _ <-]. vm_compute. by split.
  - intros key. simpl. unfold lane_inflight. by rewrite lookup_empty.
Defined.
