(* ===== verification/Compensation.v ===== *)
(** * Compensations

    [run_compensation_pipeline] of tools/src/ToolManager.cpp and the target references of
    tools/src/bridge/ToolServiceBridge.cpp: how a tool that had effects is asked to take them
    back. The executor, the projector and the budget of the profile are arguments. *)

From S2P Require Import Prelude ErrorCodes CheckpointContracts Text RecoveryContracts ToolContracts ToolValidation ToolRegistry ToolRouting FlatJson WorkflowBatches Workflow ToolPipeline.

(** ** Target references *)

Record CompensationTargetRef := {
  ctr_capability_id : string;
  ctr_target_id : string;
}.

Definition kToolScheme : string := "tool://".

Definition default_target_id_for (capability_id : string) : string :=
  "builtin:" +:+ capability_id.

(** [remainder.find('/')]: what is before the first slash, and what is after it, if any. *)
Fixpoint split_slash (remainder : string) : string * option string :=
  match remainder with
  | EmptyString => ("", None)
  | String ch rest =>
      if bool_decide (ch = "/"%char) then ("", Some rest) else
      let '(capability_id, target_id) := split_slash rest in (String ch capability_id, target_id)
  end.

Definition resolve_compensation_target (target_ref : string) : option CompensationTargetRef :=
  if is_empty target_ref then None else
  match strip_prefix kToolScheme target_ref with
  | Some remainder =>
      let '(capability_id, separated) := split_slash remainder in
      if is_empty capability_id then None else
      let target_id := default (default_target_id_for capability_id) separated in
      Some {| ctr_capability_id := capability_id;
              ctr_target_id :=
                if is_empty target_id then default_target_id_for capability_id else target_id |}
  | None =>
      Some {| ctr_capability_id := target_ref; ctr_target_id := default_target_id_for target_ref |}
  end.

(** ** The request and its failures *)

Record CompensationRequest := {
  cr_tool_call_id : option string;
  cr_compensation_action : option string;
  cr_target_ref : option string;
  cr_reason_code : option string;
  cr_evidence_refs : option (list string);
}.

Definition build_compensation_failure_envelope (request : CompensationRequest)
    (f : InvokeFailure) (now : Z) : ToolInvocationEnvelope :=
  {| tie_tool_result :=
       Some {| tres_request_id := None; tres_tool_call_id := cr_tool_call_id request;
               tres_tool_name := None; tres_success := Some false; tres_payload := None;
               tres_error := Some (manager_error (if_code f) (if_reason f) (if_stage f)
                                     (default "unknown_call" (cr_tool_call_id request)));
               tres_side_effects := None; tres_completed_at := Some now;
               tres_duration_ms := Some 0; tres_goal_id := None; tres_worker_task_id := None;
               tres_tags := None |};
     tie_route_facts := if_route_facts f;
     tie_evidence_refs := cr_evidence_refs request;
     tie_compensation_hints := None;
     tie_failure_reason_code := Some (if_reason f) |}.

Definition invocation_kind_for_category (descriptor : ToolDescriptor) : ToolInvocationKind :=
  match td_category descriptor with
  | None => ToolInvocationKind.Action
  | Some ToolCategory.Information => ToolInvocationKind.InformationQuery
  | Some ToolCategory.Action => ToolInvocationKind.Action
  | Some ToolCategory.Workflow => ToolInvocationKind.Workflow
  | Some ToolCategory.AgentDelegation => ToolInvocationKind.AgentDelegation
  | Some ToolCategory.Diagnostic => ToolInvocationKind.Diagnostic
  | Some (ToolCategory.Unspecified | ToolCategory.Other _) => ToolInvocationKind.Action
  end.

(** The references of the request that the envelope does not hold yet, in their order. *)
Definition append_ref (refs : list string) (ref : string) : list string :=
  if is_empty ref then refs else
  if bool_decide (ref ∈ refs) then refs else refs ++ [ref].

Definition append_unique_evidence_refs (target source : option (list string))
    : option (list string) :=
  match source with
  | None | Some [] => target
  | Some source => Some (foldl append_ref (default [] target) source)
  end.

(** ** Planning *)

(** Up to the descriptor of the tool that the target names. *)
Definition resolve_compensation (dependencies_available : bool) (manager : ToolManager)
    (request : CompensationRequest) (context : ToolInvocationContext)
    : result InvokeFailure (string * string * ToolDescriptor) :=
  let missing code reason := Err (failure code reason "tools.manager.compensate") in
  if negb dependencies_available
  then missing ResultCode.RuntimeRetryExhausted "tool.manager.dependencies_unavailable" else
  match tic_views context with
  | None => missing ResultCode.ValidationFieldMissing "tool.manager.profile_missing"
  | Some _ =>
  match cr_tool_call_id request, cr_target_ref request with
  | Some tool_call_id, Some target_ref =>
      if is_empty tool_call_id || negb (has_non_empty_value (cr_compensation_action request))
         || is_empty target_ref || negb (has_non_empty_value (cr_reason_code request))
      then missing ResultCode.ValidationFieldMissing "InvalidRequest" else
      let no_target :=
        missing ResultCode.ValidationFieldMissing "tool.manager.compensation_target_invalid" in
      let? target := resolve_compensation_target target_ref else no_target in
      let capability_id := ctr_capability_id target in
      if is_empty capability_id then no_target else
      let? descriptor := resolve_descriptor (tm_registry manager) capability_id
        else Err (failure ResultCode.ToolExecutionFailed "tool.manager.descriptor_missing"
                    "tools.manager.resolve") in
      if negb (default false (td_supports_compensation descriptor))
         || negb (bool_decide (td_category descriptor = Some ToolCategory.Action))
      then missing ResultCode.ToolExecutionFailed "tool.manager.compensation_unsupported" else
      Ok (tool_call_id, capability_id, descriptor)
  | _, _ => missing ResultCode.ValidationFieldMissing "InvalidRequest"
  end
  end.

(** The request that stands for the compensation. *)
Definition synthetic_request (tool_call_id capability_id : string) (descriptor : ToolDescriptor)
    (budget : RuntimeBudget) (now : Z) : ToolRequest :=
  {| tr_request_id := Some (tool_call_id +:+ ".compensate");
     tr_tool_call_id := Some tool_call_id;
     tr_tool_name := Some capability_id;
     tr_invocation_kind := Some (invocation_kind_for_category descriptor);
     tr_arguments_payload := Some "{}";
     tr_created_at := Some now;
     tr_goal_id := None;
     tr_worker_task_id := None;
     tr_runtime_budget := Some budget;
     tr_timeout_ms := td_default_timeout_ms descriptor;
     tr_idempotency_key := Some tool_call_id;
     tr_tags := Some ["tool.compensation"] |}.

(** From the request built to the route. *)
Definition admit_compensation (manager : ToolManager) (context : ToolInvocationContext)
    (synthetic : ToolRequest) (capability_id : string) (descriptor : ToolDescriptor)
    : option (result InvokeFailure PlannedCall) :=
  let? tool_ir := inject_defaults synthetic descriptor ToolIROperation.Invoke "{}" else None in
  let? tool_ir_guard := validate_tool_ir_field_rules tool_ir else None in
  if negb (gr_ok tool_ir_guard)
  then Some (Err (failure ResultCode.ValidationFieldMissing "InvalidToolIR"
                    "tools.manager.compensate")) else
  match tic_views context with
  | None => None
  | Some (policy_view, timeout_view) =>
      let admission_decision :=
        evaluate_policy (admission_request tool_ir descriptor capability_id context) policy_view in
      if negb (tad_allowed admission_decision)
      then Some (Err (failure ResultCode.PolicyDenied (tad_reason_code admission_decision)
                        "tools.manager.admit")) else
      let route_decision :=
        select_route tool_ir descriptor timeout_view
          (list_mcp_bindings (tm_registry manager) capability_id)
          (tm_capability_snapshot manager) (tm_route_health manager) in
      if negb (trd_available route_decision)
      then Some (Err (routed_failure ResultCode.ToolExecutionFailed
                        (trd_reason_code route_decision) "tools.manager.route" route_decision)) else
      if negb (bool_decide (trd_route route_decision = ToolIRRoute.LocalTool))
      then Some (Err (routed_failure ResultCode.ToolExecutionFailed
                        "tool.manager.compensation_route_unsupported" "tools.manager.route"
                        route_decision)) else
      Some (Ok {| pc_tool_ir := tool_ir; pc_descriptor := descriptor;
                  pc_timeout_view := timeout_view; pc_route_decision := route_decision |})
  end.

(** The envelope of a compensation that ran. *)
Definition finish_compensation (request : CompensationRequest) (result : ToolResult)
    (projected fallback : ToolInvocationEnvelope) : ToolInvocationEnvelope :=
  let reason :=
    match tie_failure_reason_code projected with
    | Some reason => Some reason
    | None => if succeeded result then None else tie_failure_reason_code fallback
    end in
  {| tie_tool_result := Some result;
     tie_route_facts := or_else (tie_route_facts projected) (tie_route_facts fallback);
     tie_evidence_refs :=
       append_unique_evidence_refs
         (or_else (tie_evidence_refs projected) (tie_evidence_refs fallback))
         (cr_evidence_refs request);
     tie_compensation_hints := tie_compensation_hints projected;
     tie_failure_reason_code := if succeeded result then None else reason |}.

(** ** The pipeline *)

Section compensation.
Context {World : Type}.

Abbreviation State := (World * ExecutorLanePool)%type.

Variable current_time_ms : World -> World * Z.

Abbreviation clock := (clock current_time_ms).

(** What the manager needs here: whether its pointers are set, the executor, given the key
    of the lane, and the two projections. *)
Record CompensationDependencies := {
  cd_available : bool;
  cd_executor : State -> ToolIR -> CompensationRequest -> string -> State * ToolResult;
  cd_projector : ToolResult -> ToolRouteDecision -> ToolInvocationEnvelope;
  cd_standard_projector : ToolResult -> ToolRouteDecision -> ToolInvocationEnvelope;
}.

Definition fail_compensation (state : State) (request : CompensationRequest) (f : InvokeFailure)
    : State * ToolInvocationEnvelope :=
  let '(state, now) := clock state in
  (state, build_compensation_failure_envelope request f now).

Definition complete_compensation (dependencies : CompensationDependencies) (state : State)
    (request : CompensationRequest) (synthetic : ToolRequest) (call : PlannedCall)
    : State * ToolInvocationEnvelope :=
  let route_decision := pc_route_decision call in
  let '(state, answer) :=
    cd_executor dependencies state (pc_tool_ir call) request (trd_lane_key route_decision) in
  let '(state, now) :=
    match tres_completed_at answer with
    | Some _ => (state, 0)
    | None => clock state
    end in
  let result := manager_normalize_result synthetic (pc_tool_ir call) answer now in
  (state,
   finish_compensation request result
     (cd_projector dependencies result route_decision)
     (cd_standard_projector dependencies result route_decision)).

Definition run_compensation_pipeline (manager : ToolManager) (budget : RuntimeBudget)
    (dependencies : CompensationDependencies) (state : State) (request : CompensationRequest)
    (context : ToolInvocationContext) : option (State * ToolInvocationEnvelope) :=
  match resolve_compensation (cd_available dependencies) manager request context with
  | Err f => Some (fail_compensation state request f)
  | Ok (tool_call_id, capability_id, descriptor) =>
      let '(state, now) := clock state in
      let synthetic := synthetic_request tool_call_id capability_id descriptor budget now in
      match admit_compensation manager context synthetic capability_id descriptor with
      | None => None
      | Some (Err f) => Some (fail_compensation state request f)
      | Some (Ok call) =>
          let '(pool, acquisition) := acquire_builtin state.2 (pc_timeout_view call) in
          let state := (state.1, pool) in
          if negb (lar_acquired acquisition)
          then Some (fail_compensation state request
                       (routed_failure ResultCode.ToolExecutionFailed
                          (lar_reason_code acquisition) "tools.manager.lane"
                          (pc_route_decision call))) else
          let '(state, envelope) :=
            complete_compensation dependencies state request synthetic call in
          let lane_key := lr_lane_key (lar_reservation acquisition) in
          Some ((state.1, release_lane state.2 lane_key), envelope)
      end
  end.
End compensation.

(** ** Round trip of the target references *)

Definition not_slash (ch : Ascii.ascii) : bool := negb (bool_decide (ch = "/"%char)).

Lemma split_slash_head s : all_chars not_slash (split_slash s).1 = true.
Proof.
  induction s as [|ch s IH]; [done|]. simpl. case_bool_decide as H; [done|].
  destruct (split_slash s) as [head rest]. simpl in *. rewrite IH, andb_true_r.
  unfold not_slash. by rewrite bool_decide_false.
Qed.

Lemma split_slash_alone s : all_chars not_slash s = true -> split_slash s = (s, None).
Proof.
  induction s as [|ch s IH]; [done|]. simpl. intros [H1 H2]%andb_true_iff.
  unfold not_slash in H1. apply negb_true_iff in H1. rewrite H1. by rewrite IH.
Qed.

Lemma split_slash_app s t :
  all_chars not_slash s = true -> split_slash (s +:+ String "/" t) = (s, Some t).
Proof.
  induction s as [|ch s IH]; simpl.
  - done.
  - intros [H1 H2]%andb_true_iff. fold (s +:+ String "/" t).
    unfold not_slash in H1. apply negb_true_iff in H1. rewrite H1. by rewrite IH.
Qed.

(** The capability that a target names, and none other, is what the reference resolves to. *)
Definition target_of (capability_id target_id : string) : CompensationTargetRef :=
  {| ctr_capability_id := capability_id;
     ctr_target_id :=
       if is_empty target_id then default_target_id_for capability_id else target_id |}.

Lemma resolve_scheme remainder :
  resolve_compensation_target (kToolScheme +:+ remainder)
  = let '(capability_id, separated) := split_slash remainder in
    if is_empty capability_id then None else
    Some (target_of capability_id (default (default_target_id_for capability_id) separated)).
Proof.
  unfold resolve_compensation_target. rewrite strip_prefix_app. unfold kToolScheme.
  rewrite string_cons_app. simpl. by destruct (split_slash remainder).
Qed.

Lemma roundtrip_spec capability_id target_id :
  resolve_compensation_target (format_compensation_target_ref capability_id target_id)
  = Some (target_of capability_id target_id) <->
  capability_id <> "" /\ all_chars not_slash capability_id = true.
Proof.
  unfold format_compensation_target_ref.
  destruct (is_empty capability_id) eqn:He.
  { apply is_empty_true in He as ->. by split; [|intros [[] _]]. }
  pose proof He as Hne. apply is_empty_false in Hne.
  change "tool://" with kToolScheme. rewrite resolve_scheme. split.
  - intros H. split; [done|].
    pose proof (split_slash_head (capability_id +:+ (if is_empty target_id then "" else "/" +:+ target_id)))
      as Hhead.
    destruct (split_slash _) as [head separated]. simpl in *. destruct (is_empty head); [done|].
    injection H as -> _. done.
  - intros [_ Hc]. destruct (is_empty target_id) eqn:Ht.
    + rewrite string_app_nil_r, (split_slash_alone _ Hc), He. simpl. unfold target_of.
      apply is_empty_true in Ht as ->. done.
    + change ("/" +:+ target_id) with (String "/" target_id).
      by rewrite (split_slash_app _ _ Hc), He.
Qed.

(** A compensation target comes back from its reference exactly when its capability has
    a name without a slash: then the capability is the one named, with the target named or,
    if that is empty, the default one. A tool whose name has a slash cannot be addressed by
    the hint that the tool manager and the workflow engine give for it. *)
Theorem compensation_target_roundtrip capability_id target_id :
  resolve_compensation_target (format_compensation_target_ref capability_id target_id)
  = Some (target_of capability_id target_id) <->
  capability_id <> "" /\ all_chars not_slash capability_id = true.
Proof. apply roundtrip_spec. Qed.

(** The hint for "a/b" addresses the tool "a". *)
Example slash_addresses_another_tool :
  resolve_compensation_target (format_compensation_target_ref "a/b" "call")
  = Some {| ctr_capability_id := "a"; ctr_target_id := "b/call" |}.
Proof. reflexivity. Qed.

(** ** What is compensated *)

Record compensable (manager : ToolManager) (request : CompensationRequest)
    (context : ToolInvocationContext) (tool_call_id : string) (policy_view : ToolPolicyView)
    (target : CompensationTargetRef) (descriptor : ToolDescriptor) (tool_ir : ToolIR)
    (timeout_view : ToolTimeoutView) : Prop := {
  cp_views : tic_views context = Some (policy_view, timeout_view);
  cp_call : cr_tool_call_id request = Some tool_call_id /\ tool_call_id <> "";
  cp_named : non_empty (cr_compensation_action request) /\ non_empty (cr_reason_code request);
  cp_target : exists target_ref, cr_target_ref request = Some target_ref /\
                resolve_compensation_target target_ref = Some target;
  cp_descriptor : resolve_descriptor (tm_registry manager) (ctr_capability_id target)
                  = Some descriptor;
  cp_reversible : td_supports_compensation descriptor = Some true /\
                  td_category descriptor = Some ToolCategory.Action;
  cp_ir : ir_ok tool_ir /\ ir_tool_call_id tool_ir = Some tool_call_id /\
          ir_idempotency_key tool_ir = Some tool_call_id /\
          ir_tool_name tool_ir = Some (ctr_capability_id target) /\
          ir_route tool_ir = Some ToolIRRoute.LocalTool;
  cp_domain : derive_requested_domain tool_ir descriptor = Some "builtin";
  cp_admissible : admissible
    (admission_request tool_ir descriptor (ctr_capability_id target) context) policy_view;
  cp_lane : builtin_usable descriptor timeout_view (tm_route_health manager) = true;
}.

Lemma compensation_ir tool_call_id capability_id descriptor budget now :
  td_category descriptor = Some ToolCategory.Action ->
  exists tool_ir,
    inject_defaults (synthetic_request tool_call_id capability_id descriptor budget now)
      descriptor ToolIROperation.Invoke "{}" = Some tool_ir /\
    ir_tool_call_id tool_ir = Some tool_call_id /\
    ir_idempotency_key tool_ir = Some tool_call_id /\
    ir_tool_name tool_ir = Some capability_id /\
    ir_route tool_ir = Some ToolIRRoute.LocalTool /\
    derive_requested_domain tool_ir descriptor = Some "builtin".
Proof.
  intros Hc. unfold inject_defaults. simpl. rewrite Hc. eexists. split; [done|].
  by split_and!.
Qed.

(** What may stop a compensation before the lane, and what is known of one that goes on. *)
Inductive compensation_plan (manager : ToolManager) (request : CompensationRequest)
    (context : ToolInvocationContext) (tool_call_id : string) (target : CompensationTargetRef)
    (descriptor : ToolDescriptor) : option (result InvokeFailure PlannedCall) -> Prop :=
| plan_stopped f :
    compensation_plan manager request context tool_call_id target descriptor (Some (Err f))
| plan_ready call policy_view :
    compensable manager request context tool_call_id policy_view target descriptor
      (pc_tool_ir call) (pc_timeout_view call) ->
    pc_route_decision call = build_builtin_decision (pc_timeout_view call) ->
    trd_available (pc_route_decision call) = true ->
    compensation_plan manager request context tool_call_id target descriptor (Some (Ok call)).

Lemma resolve_compensation_spec available manager request context answer :
  resolve_compensation available manager request context = Ok answer ->
  exists tool_call_id target descriptor views,
    answer = (tool_call_id, ctr_capability_id target, descriptor) /\
    available = true /\ tic_views context = Some views /\
    (cr_tool_call_id request = Some tool_call_id /\ tool_call_id <> "") /\
    (non_empty (cr_compensation_action request) /\ non_empty (cr_reason_code request)) /\
    (exists target_ref, cr_target_ref request = Some target_ref /\
       resolve_compensation_target target_ref = Some target) /\
    ctr_capability_id target <> "" /\
    resolve_descriptor (tm_registry manager) (ctr_capability_id target) = Some descriptor /\
    (td_supports_compensation descriptor = Some true /\
     td_category descriptor = Some ToolCategory.Action).
Proof.
  unfold resolve_compensation. destruct available; [simpl|done].
  destruct (tic_views context) as [views|]; [|done].
  destruct (cr_tool_call_id request) as [id|]; [|done].
  destruct (cr_target_ref request) as [ref|]; [|done].
  destruct (_ || _) eqn:Hmissing; [done|]. apply orb_false_iff in Hmissing as [Hm Hreason].
  apply orb_false_iff in Hm as [Hm Href]. apply orb_false_iff in Hm as [Hid Haction].
  apply missing_name in Hreason, Haction. apply is_empty_false in Hid.
  destruct (resolve_compensation_target ref) as [target|] eqn:Ht; [|done].
  destruct (is_empty (ctr_capability_id target)) eqn:Hc; [done|]. apply is_empty_false in Hc.
  destruct (resolve_descriptor _ _) as [d|] eqn:Hd; [|done].
  destruct (_ || _) eqn:Hs; [done|]. apply orb_false_iff in Hs as [Hs Ha].
  apply negb_false_iff in Hs, Ha. apply bool_decide_eq_true in Ha. intros [= <-].
  exists id, target, d, views. split_and!; try done.
  - eauto.
  - destruct (td_supports_compensation d) as [[]|]; done.
Qed.

Lemma local_route manager descriptor tool_ir timeout_view capability_id :
  td_category descriptor = Some ToolCategory.Action ->
  ir_route tool_ir = Some ToolIRRoute.LocalTool ->
  let route := chosen_route tool_ir descriptor timeout_view
                 (list_mcp_bindings (tm_registry manager) capability_id)
                 (tm_capability_snapshot manager) (tm_route_health manager) in
  trd_available route = true -> trd_route route = ToolIRRoute.LocalTool ->
  builtin_usable descriptor timeout_view (tm_route_health manager) = true /\
  route = build_builtin_decision timeout_view.
Proof.
  intros Hc Hroute. cbv zeta. unfold chosen_route, is_workflow_like, prefers_server.
  rewrite Hc, Hroute. simpl. destruct (builtin_usable _ _ _);
    destruct (mcp_usable _ _ _ _) as [[binding snapshot]|]; simpl; try done.
  intros Ha Hl. by rewrite (mcp_routed _ _ _ Ha) in Hl.
Qed.

Lemma admit_compensation_spec available manager request context tool_call_id target descriptor
    budget now :
  resolve_compensation available manager request context
    = Ok (tool_call_id, ctr_capability_id target, descriptor) ->
  (exists target_ref, cr_target_ref request = Some target_ref /\
     resolve_compensation_target target_ref = Some target) ->
  compensation_plan manager request context tool_call_id target descriptor
    (admit_compensation manager context
       (synthetic_request tool_call_id (ctr_capability_id target) descriptor budget now)
       (ctr_capability_id target) descriptor).
Proof.
  intros Hres Htarget.
  destruct (resolve_compensation_spec _ _ _ _ _ Hres)
    as (id & target' & d & [policy_view timeout_view] & [= <- Hcap <-] & _ & Hv & Hcall & Hnamed & _
        & Hne & Hd & Hrev). rewrite <-Hcap in Hd.
  destruct (compensation_ir tool_call_id (ctr_capability_id target) descriptor budget now
              (proj2 Hrev)) as (ir & Hir & Hid & Hkey & Hname & Hroute & Hdom).
  unfold admit_compensation. rewrite Hir.
  destruct (total_admitted _ (ir_guard_total ir)) as [(Hg & g & -> & ->)|(_ & g & -> & ->)];
    simpl; [|constructor]. apply ir_guard in Hg. rewrite Hv.
  destruct (gate_cases (admission_request ir descriptor (ctr_capability_id target) context) policy_view)
    as [[Hadm Hdec]|(_ & Hdec & _)]; simpl in Hdec; rewrite Hdec; simpl; [|constructor].
  rewrite route_spec.
  destruct (trd_available (chosen_route _ _ _ _ _ _)) eqn:Ha; simpl; [|constructor].
  destruct (bool_decide_reflect (trd_route (chosen_route ir descriptor timeout_view
    (list_mcp_bindings (tm_registry manager) (ctr_capability_id target))
    (tm_capability_snapshot manager) (tm_route_health manager)) = ToolIRRoute.LocalTool))
    as [Hlocal|]; simpl; [|constructor].
  destruct (local_route manager descriptor ir timeout_view _ (proj2 Hrev) Hroute Ha Hlocal)
    as [Husable Hbuiltin].
  by apply plan_ready with policy_view; simpl; [split|..].
Qed.

Section running.
Context {World : Type}.
Variable current_time_ms : World -> World * Z.

Abbreviation State := (World * ExecutorLanePool)%type.
Abbreviation run := (run_compensation_pipeline current_time_ms).

(** A tool is asked to take its effects back only for a request that may: if what a
    compensation brings about depends on its executor at all, then the request is complete,
    its reference leads to a registered tool that acts and that declares it can be
    compensated, the call built for it passes its guard and carries the id of the call to
    undo as its idempotency key, the policy admits the builtin domain for it, the builtin
    lane is usable, and a permit of that lane is held. *)
Theorem compensation_runs_only_if_admitted manager budget dependencies dependencies'
    (state : State) request context :
  cd_available dependencies = cd_available dependencies' ->
  cd_projector dependencies = cd_projector dependencies' ->
  cd_standard_projector dependencies = cd_standard_projector dependencies' ->
  run manager budget dependencies state request context
  <> run manager budget dependencies' state request context ->
  exists tool_call_id policy_view target descriptor tool_ir timeout_view,
    compensable manager request context tool_call_id policy_view target descriptor tool_ir
      timeout_view /\
    lar_acquired (acquire_builtin state.2 timeout_view).2 = true.
Proof.
  intros Ha Hproj Hstd Hdiff. unfold run_compensation_pipeline in Hdiff. rewrite <-Ha in Hdiff.
  destruct (resolve_compensation _ _ _ _) as [[[id cap] d]|f] eqn:Hres; [|done].
  destruct (resolve_compensation_spec _ _ _ _ _ Hres)
    as (id' & target & d' & _ & [= <- -> <-] & _ & _ & _ & _ & Ht & _).
  pose proof (clock_pool current_time_ms state) as Hclock.
  destruct (clock current_time_ms state) as [s now]. simpl in Hclock.
  pose proof (admit_compensation_spec _ _ _ _ _ _ _ budget now Hres Ht) as Hplan.
  destruct Hplan as [f|call policy_view Hok Hroute Havail]; [done|].
  exists id, policy_view, target, d, (pc_tool_ir call), (pc_timeout_view call).
  split; [done|]. rewrite <-Hclock.
  destruct (acquire_builtin s.2 (pc_timeout_view call)) as [pool acquisition]. simpl.
  by destruct (lar_acquired acquisition).
Qed.

Lemma complete_compensation_lanes dependencies (state : State) request synthetic call :
  (forall state ir request lane_key,
     same_lanes state (cd_executor dependencies state ir request lane_key).1) ->
  same_lanes state
    (complete_compensation current_time_ms dependencies state request synthetic call).1.
Proof.
  intros Hex. unfold complete_compensation.
  pose proof (Hex state (pc_tool_ir call) request (trd_lane_key (pc_route_decision call))) as H.
  destruct (cd_executor _ _ _ _ _) as [s answer].
  destruct (tres_completed_at answer); [done|].
  pose proof (clock_lanes current_time_ms s). destruct (clock _ s). by etrans.
Qed.

(** A compensation gives its permit back. *)
Lemma compensation_keeps_lanes manager budget dependencies (state : State) request context
    state' envelope :
  (forall state ir request lane_key,
     same_lanes state (cd_executor dependencies state ir request lane_key).1) ->
  (forall policy_view timeout_view, tic_views context = Some (policy_view, timeout_view) ->
     in_u32 (ttv_max_tool_calls timeout_view)) ->
  (forall lane_key, 0 <= lane_inflight state.2 lane_key) ->
  run manager budget dependencies state request context = Some (state', envelope) ->
  same_lanes state state'.
Proof.
  intros Hex Hviews Hpos. unfold run_compensation_pipeline.
  assert (forall (s : State) f, same_lanes s (fail_compensation current_time_ms s request f).1) as Hfail.
  { intros s f. unfold fail_compensation. pose proof (clock_lanes current_time_ms s).
    by destruct (clock _ _). }
  destruct (resolve_compensation _ _ _ _) as [[[id cap] d]|f] eqn:Hres;
    [|intros Hrun; injection Hrun as Hrun; by specialize (Hfail state f); rewrite Hrun in Hfail].
  destruct (resolve_compensation_spec _ _ _ _ _ Hres)
    as (id' & target & d' & _ & [= <- -> <-] & _ & _ & _ & _ & Ht & _).
  pose proof (clock_pool current_time_ms state) as Hclock.
  pose proof (clock_lanes current_time_ms state) as Hlanes.
  destruct (clock current_time_ms state) as [s now]. simpl in Hclock.
  destruct (admit_compensation_spec _ _ _ _ _ _ _ budget now Hres Ht)
    as [f|call policy_view Hok Hroute Havail].
  { intros Hrun. injection Hrun as Hrun. etrans; [exact Hlanes|].
    by specialize (Hfail s f); rewrite Hrun in Hfail. }
  assert (in_u32 (ttv_max_tool_calls (pc_timeout_view call))) as Hu
    by apply (Hviews _ _ (cp_views _ _ _ _ _ _ _ _ _ Hok)).
  assert (forall key, 0 <= lane_inflight s.2 key) as Hs by (by rewrite Hclock).
  assert (acquire_lane_for_route s.2 call = acquire_builtin s.2 (pc_timeout_view call)) as Hacq.
  { unfold acquire_lane_for_route. rewrite Hroute in *. by rewrite (builtin_routed _ Havail). }
  destruct (acquire_builtin s.2 (pc_timeout_view call)) as [pool acquisition].
  destruct (lar_acquired acquisition) eqn:Hgrant; simpl.
  - pose proof (complete_compensation_lanes dependencies (s.1, pool) request
      (synthetic_request id (ctr_capability_id target) d budget now) call Hex) as Hbody.
    destruct (complete_compensation _ _ _ _ _ _) as [s' e]. intros [= <- _].
    etrans; [exact Hlanes|]. by apply (permit_given_back s s' call pool acquisition).
  - intros Hrun. injection Hrun as Hrun. etrans; [exact Hlanes|].
    etrans; [by apply (permit_refused s call pool acquisition)|].
    match type of Hrun with fail_compensation _ ?s _ ?f = _ =>
      specialize (Hfail s f); by rewrite Hrun in Hfail end.
Qed.
End running.

(** ** Examples *)

Definition sample_reversible_tool : ToolDescriptor :=
  {| td_tool_name := Some "t"; td_display_name := None; td_category := Some ToolCategory.Action;
     td_capability_tier := None; td_is_read_only := Some false;
     td_supports_compensation := Some true; td_default_timeout_ms := None;
     td_input_schema_ref := None; td_output_schema_ref := None; td_required_scopes := None;
     td_tags := None; td_version := None |}.

Definition sample_compensation_context : ToolInvocationContext :=
  {| tic_views :=
       Some ({| tpv_effective_profile_id := "p"; tpv_safe_mode_enabled := false;
                tpv_high_risk_confirmation_required := false; tpv_audit_level := "full";
                tpv_allowed_tool_domains := ["builtin"];
                tpv_tool_visibility_rules := ["builtin:all"] |}, sample_timeout_view true true);
     tic_confirmation_facts := None |}.

Definition sample_compensation_manager : ToolManager :=
  {| tm_dependencies_available := true;
     tm_registry := new_tool_registry [sample_reversible_tool];
     tm_route_health := {| trh_builtin_lane_healthy := true; trh_workflow_lane_healthy := true;
                           trh_mcp_lane_healthy := true |};
     tm_capability_snapshot := None |}.

(** The request that follows the hint of a call that had an effect. *)
Definition follow_hint (tool_call_id : string) (hint : ToolCompensationHint) : CompensationRequest :=
  {| cr_tool_call_id := Some tool_call_id;
     cr_compensation_action := tch_compensation_action hint;
     cr_target_ref := tch_target_ref hint;
     cr_reason_code := tch_reason_code hint;
     cr_evidence_refs := tch_evidence_refs hint |}.

Definition sample_effect : ToolResult :=
  {| tres_request_id := Some "r"; tres_tool_call_id := Some "c"; tres_tool_name := Some "t";
     tres_success := Some true; tres_payload := Some "{}"; tres_error := None;
     tres_side_effects := Some ["file written"]; tres_completed_at := Some 5;
     tres_duration_ms := Some 1; tres_goal_id := None; tres_worker_task_id := None;
     tres_tags := None |}.

Definition sample_compensation : CompensationRequest :=
  match build_compensation_hints sample_effect with
  | Some (hint :: _) => follow_hint "c" hint
  | _ => {| cr_tool_call_id := None; cr_compensation_action := None; cr_target_ref := None;
            cr_reason_code := None; cr_evidence_refs := None |}
  end.

Definition sample_dependencies (payload : string) : @CompensationDependencies unit :=
  {| cd_available := true;
     cd_executor := fun state ir _ _ => (state, sample_result ir payload);
     cd_projector := sample_envelope; cd_standard_projector := sample_envelope |}.

Abbreviation sample_compensate payload :=
  (run_compensation_pipeline (fun _ : unit => (tt, 7)) sample_compensation_manager
     empty_runtime_budget (sample_dependencies payload) (tt, ∅) sample_compensation
     sample_compensation_context).

Lemma compensation_runs_only_if_admitted_witness :
  sample_payload (sample_compensate "undone") = Some "undone" /\
  exists policy_view target descriptor tool_ir timeout_view,
    compensable sample_compensation_manager sample_compensation sample_compensation_context
      "c" policy_view target descriptor tool_ir timeout_view.
Proof.
  assert (sample_compensate "a" <> sample_compensate "b") as Hdiff.
  { assert (sample_payload (sample_compensate "a") <> sample_payload (sample_compensate "b")) as H
      by (vm_compute; congruence).
    intros E. by rewrite E in H. }
  split; [vm_compute; reflexivity|].
  destruct (compensation_runs_only_if_admitted (fun _ : unit => (tt, 7)) sample_compensation_manager
    empty_runtime_budget (sample_dependencies "a") (sample_dependencies "b") (tt, ∅)
    sample_compensation sample_compensation_context eq_refl eq_refl eq_refl Hdiff)
    as (id & policy_view & target & d & ir & timeout_view & Hok & _).
  destruct (cp_call _ _ _ _ _ _ _ _ _ Hok) as [[= <-] _].
  exists policy_view, target, d, ir, timeout_view. exact Hok.
Defined.
