(* ===== verification/AgentContracts.v ===== *)
(** * Agent contracts

    contracts/include/agent/{AgentRequest,AgentResult}.h and their guards: what the
    access layer hands to the runtime, and what comes back. Guards are written as in
    RecoveryContracts.v: one that would dereference an empty field gives [None]. *)

From S2P Require Import Prelude ErrorCodes CheckpointContracts RecoveryContracts ToolContracts.

(** ** Data *)

Module RequestChannel.
Inductive RequestChannel := Unspecified | Cli | Gateway | Daemon | Simulator | Other (n : Z).
#[global] Instance RequestChannel_eq_dec : EqDecision RequestChannel.
Proof. solve_decision. Defined.
End RequestChannel.
Abbreviation RequestChannel := RequestChannel.RequestChannel.

Definition request_channel_value (channel : RequestChannel) : Z :=
  match channel with
  | RequestChannel.Unspecified => 0
  | RequestChannel.Cli => 1
  | RequestChannel.Gateway => 2
  | RequestChannel.Daemon => 3
  | RequestChannel.Simulator => 4
  | RequestChannel.Other n => unnamed_value 5 n
  end.

Record AgentRequest := {
  ar_request_id : option string;
  ar_session_id : option string;
  ar_trace_id : option string;
  ar_user_input : option string;
  ar_request_channel : option RequestChannel;
  ar_created_at : option Z;
  ar_goal_hint : option string;
  ar_domain_context : option string;
  ar_constraint_set : option string;
  ar_approval_policy_hint : option string;
  ar_runtime_budget : option RuntimeBudget;
  ar_timeout_ms : option Z;
  ar_deadline_at : option Z;
  ar_priority : option Z;
  ar_idempotency_key : option string;
  ar_locale : option string;
  ar_client_capabilities : option string;
  ar_tags : option (list string);
}.

(** [AgentRequest{}] *)
Definition empty_agent_request : AgentRequest :=
  {| ar_request_id := None; ar_session_id := None; ar_trace_id := None; ar_user_input := None;
     ar_request_channel := None; ar_created_at := None; ar_goal_hint := None;
     ar_domain_context := None; ar_constraint_set := None; ar_approval_policy_hint := None;
     ar_runtime_budget := None; ar_timeout_ms := None; ar_deadline_at := None;
     ar_priority := None; ar_idempotency_key := None; ar_locale := None;
     ar_client_capabilities := None; ar_tags := None |}.

Module AgentResultStatus.
Inductive AgentResultStatus :=
| Unspecified | Completed | Failed | PartiallyCompleted | Cancelled | Timeout | Other (n : Z).
#[global] Instance AgentResultStatus_eq_dec : EqDecision AgentResultStatus.
Proof. solve_decision. Defined.
End AgentResultStatus.
Abbreviation AgentResultStatus := AgentResultStatus.AgentResultStatus.

Definition agent_result_status_value (status : AgentResultStatus) : Z :=
  match status with
  | AgentResultStatus.Unspecified => 0
  | AgentResultStatus.Completed => 1
  | AgentResultStatus.Failed => 2
  | AgentResultStatus.PartiallyCompleted => 3
  | AgentResultStatus.Cancelled => 4
  | AgentResultStatus.Timeout => 5
  | AgentResultStatus.Other n => unnamed_value 6 n
  end.

Record AgentResult := {
  ag_result_id : option string;
  ag_status : option AgentResultStatus;
  ag_result_code : option Z;
  ag_response_text : option string;
  ag_task_completed : option bool;
  ag_created_at : option Z;
  ag_request_id : option string;
  ag_trace_id : option string;
  ag_structured_payload : option string;
  ag_error_info : option ErrorInfo;
  ag_checkpoint_ref : option string;
  ag_goal_id : option string;
  ag_tags : option (list string);
}.

(** ** Requests *)

(** Tags that are present: at least one, and none is empty. *)
Definition validate_tags (tags : option (list string)) : GuardResult :=
  if bool_decide (tags = Some [])
  then guard_fail "tags must contain at least one item when present" else
  if match tags with Some tags => existsb is_empty tags | None => false end
  then guard_fail "tags must not contain empty strings" else
  guard_pass "".

Definition validate_agent_request_required_fields (request : AgentRequest) : GuardResult :=
  if negb (has_non_empty_value (ar_request_id request))
  then guard_fail "request_id is required and must be non-empty" else
  if negb (has_non_empty_value (ar_session_id request))
  then guard_fail "session_id is required and must be non-empty" else
  if negb (has_non_empty_value (ar_trace_id request))
  then guard_fail "trace_id is required and must be non-empty" else
  if negb (has_non_empty_value (ar_user_input request))
  then guard_fail "user_input is required and must be non-empty" else
  if unset RequestChannel.Unspecified (ar_request_channel request)
  then guard_fail "request_channel is required and must not be Unspecified" else
  if missing_or_non_positive (ar_created_at request)
  then guard_fail "created_at is required and must be a positive timestamp" else
  guard_pass "all required fields present".

(** [deadline_at], when it is present: positive and not before [created_at]. *)
Definition validate_request_deadline (request : AgentRequest) : GuardResult :=
  let? deadline_at := ar_deadline_at request else guard_pass "" in
  if deadline_at <=? 0
  then guard_fail "deadline_at must be a positive timestamp when present" else
  if match ar_created_at request with
     | Some created_at => deadline_at <? created_at
     | None => false
     end
  then guard_fail "deadline_at must not be earlier than created_at" else
  guard_pass "".

Definition validate_agent_request_boundary (request : AgentRequest) : option GuardResult :=
  let required_result := validate_agent_request_required_fields request in
  if negb (gr_ok required_result) then Some required_result else
  let? channel := ar_request_channel request else None in
  let raw_channel := request_channel_value channel in
  if (raw_channel <? request_channel_value RequestChannel.Unspecified)
     || (request_channel_value RequestChannel.Simulator <? raw_channel)
  then Some (guard_fail "request_channel value is outside the known enum range") else
  let deadline_result := validate_request_deadline request in
  if negb (gr_ok deadline_result) then Some deadline_result else
  Some (guard_pass "agent request boundary validation passed").

Definition validate_agent_request_field_rules (request : AgentRequest) : option GuardResult :=
  let? boundary_result := validate_agent_request_boundary request else None in
  if negb (gr_ok boundary_result) then Some boundary_result else
  if present_but_empty (ar_goal_hint request)
  then Some (guard_fail "goal_hint must be non-empty when present") else
  if present_but_empty (ar_domain_context request)
  then Some (guard_fail "domain_context must be non-empty when present") else
  if present_but_empty (ar_constraint_set request)
  then Some (guard_fail "constraint_set must be non-empty when present") else
  if present_but_empty (ar_approval_policy_hint request)
  then Some (guard_fail "approval_policy_hint must be non-empty when present") else
  if present_but_empty (ar_idempotency_key request)
  then Some (guard_fail "idempotency_key must be non-empty when present") else
  if present_but_empty (ar_locale request)
  then Some (guard_fail "locale must be non-empty when present") else
  if present_but_empty (ar_client_capabilities request)
  then Some (guard_fail "client_capabilities must be non-empty when present") else
  if present_and_zero (ar_timeout_ms request)
  then Some (guard_fail "timeout_ms must be positive when present") else
  if present_and_zero (ar_priority request)
  then Some (guard_fail "priority must be positive when present") else
  let tags_result := validate_tags (ar_tags request) in
  if negb (gr_ok tags_result) then Some tags_result else
  let budget_result :=
    validate_request_budget (default empty_runtime_budget (ar_runtime_budget request)) in
  if negb (gr_ok budget_result) then Some budget_result else
  Some (guard_pass "agent request field rules validation passed").

(** ** Results *)

Definition validate_agent_result_required_fields (result : AgentResult) : GuardResult :=
  if negb (has_non_empty_value (ag_result_id result))
  then guard_fail "result_id is required and must be non-empty" else
  if unset AgentResultStatus.Unspecified (ag_status result)
  then guard_fail "status is required and must not be Unspecified" else
  if bool_decide (ag_result_code result = None) then guard_fail "result_code is required" else
  if bool_decide (ag_response_text result = None)
  then guard_fail "response_text is required (use empty string if no text reply)" else
  if bool_decide (ag_task_completed result = None)
  then guard_fail "task_completed is required" else
  if missing_or_non_positive (ag_created_at result)
  then guard_fail "created_at is required and must be a positive timestamp" else
  guard_pass "all required fields present".

Definition validate_agent_result_boundary (result : AgentResult) : option GuardResult :=
  let required_result := validate_agent_result_required_fields result in
  if negb (gr_ok required_result) then Some required_result else
  let? status := ag_status result else None in
  let raw_status := agent_result_status_value status in
  if (raw_status <? agent_result_status_value AgentResultStatus.Unspecified)
     || (agent_result_status_value AgentResultStatus.Timeout <? raw_status)
  then Some (guard_fail "status value is outside the known AgentResultStatus range") else
  let? result_code := ag_result_code result else None in
  if bool_decide (classify_result_code_segment result_code = ResultCodeCategory.Unknown)
  then Some (guard_fail "result_code is outside WP-02 frozen category ranges (1000-5999)") else
  if present_but_empty (ag_request_id result)
  then Some (guard_fail "request_id must be non-empty when present") else
  if present_but_empty (ag_trace_id result)
  then Some (guard_fail "trace_id must be non-empty when present") else
  if present_but_empty (ag_structured_payload result)
  then Some (guard_fail "structured_payload must be non-empty when present") else
  if present_but_empty (ag_checkpoint_ref result)
  then Some (guard_fail "checkpoint_ref must be non-empty when present") else
  if present_but_empty (ag_goal_id result)
  then Some (guard_fail "goal_id must be non-empty when present") else
  let tags_result := validate_tags (ag_tags result) in
  if negb (gr_ok tags_result) then Some tags_result else
  Some (guard_pass "agent result boundary validation passed").

(** ** What the guards admit *)

Definition filled_items (items : option (list string)) : Prop :=
  forall l, items = Some l -> l <> [] /\ ("" ∉ l).

Lemma validate_tags_ok tags : gr_ok (validate_tags tags) = true <-> filled_items tags.
Proof.
  unfold validate_tags, filled_items. rewrite !guard_test, guard_passed, bool_decide_eq_false.
  destruct tags as [l|]; [|by split; [intros _ ? [=]|]].
  assert (existsb is_empty l = false <-> "" ∉ l) as ->.
  { rewrite <-not_true_iff_false, existsb_exists, list_elem_of_In.
    split; intros H; [intros ?; apply H; by exists ""|].
    intros (s & Hs & ->%is_empty_true). done. }
  split; [intros (Hl & ? & _) ? [= <-]; split; congruence|].
  intros H. destruct (H l eq_refl). split_and!; [congruence|done..].
Qed.

Definition deadline_follows (request : AgentRequest) : Prop :=
  forall t, ar_deadline_at request = Some t ->
    0 < t /\ forall c, ar_created_at request = Some c -> c <= t.

Lemma request_deadline_ok request :
  gr_ok (validate_request_deadline request) = true <-> deadline_follows request.
Proof.
  unfold validate_request_deadline, deadline_follows.
  destruct (ar_deadline_at request) as [t|]; [|naive_solver].
  rewrite !guard_test, guard_passed, Z.leb_gt.
  destruct (ar_created_at request) as [c|]; [rewrite Z.ltb_ge|]; naive_solver.
Qed.

Lemma channel_in_range x :
  x <> RequestChannel.Unspecified ->
  (request_channel_value x <? request_channel_value RequestChannel.Unspecified)
  || (request_channel_value RequestChannel.Simulator <? request_channel_value x) = false
  <-> forall n, x <> RequestChannel.Other n.
Proof.
  intros Hx. destruct x; simpl; try (split; [done|done]).
  rewrite orb_false_iff, !Z.ltb_ge. unfold unnamed_value. split.
  - case_match; reflect_tests; lia.
  - intros H. by destruct (H n).
Qed.

Lemma status_in_range x :
  x <> AgentResultStatus.Unspecified ->
  (agent_result_status_value x <? agent_result_status_value AgentResultStatus.Unspecified)
  || (agent_result_status_value AgentResultStatus.Timeout <? agent_result_status_value x) = false
  <-> forall n, x <> AgentResultStatus.Other n.
Proof.
  intros Hx. destruct x; simpl; try (split; [done|done]).
  rewrite orb_false_iff, !Z.ltb_ge. unfold unnamed_value. split.
  - case_match; reflect_tests; lia.
  - intros H. by destruct (H n).
Qed.

Record agent_request_ok (r : AgentRequest) : Prop := {
  arok_ids : non_empty (ar_request_id r) /\ non_empty (ar_session_id r) /\
             non_empty (ar_trace_id r);
  arok_input : non_empty (ar_user_input r);
  arok_channel : exists channel, ar_request_channel r = Some channel /\
                   channel <> RequestChannel.Unspecified /\
                   forall n, channel <> RequestChannel.Other n;
  arok_created : exists t, ar_created_at r = Some t /\ 0 < t;
  arok_deadline : deadline_follows r;
  arok_texts : ar_goal_hint r <> Some "" /\ ar_domain_context r <> Some "" /\
               ar_constraint_set r <> Some "" /\ ar_approval_policy_hint r <> Some "" /\
               ar_idempotency_key r <> Some "" /\ ar_locale r <> Some "" /\
               ar_client_capabilities r <> Some "";
  arok_numbers : ar_timeout_ms r <> Some 0 /\ ar_priority r <> Some 0;
  arok_tags : filled_items (ar_tags r);
  arok_budget : gr_ok (validate_request_budget
                         (default empty_runtime_budget (ar_runtime_budget r))) = true;
}.

Record agent_result_ok (r : AgentResult) : Prop := {
  agok_id : non_empty (ag_result_id r);
  agok_status : exists status, ag_status r = Some status /\
                  status <> AgentResultStatus.Unspecified /\
                  forall n, status <> AgentResultStatus.Other n;
  agok_code : exists code, ag_result_code r = Some code /\ 1000 <= code <= 5999;
  agok_text : is_Some (ag_response_text r);
  agok_completed : is_Some (ag_task_completed r);
  agok_created : exists t, ag_created_at r = Some t /\ 0 < t;
  agok_optional : ag_request_id r <> Some "" /\ ag_trace_id r <> Some "" /\
                  ag_structured_payload r <> Some "" /\ ag_checkpoint_ref r <> Some "" /\
                  ag_goal_id r <> Some "";
  agok_tags : filled_items (ag_tags r);
}.

#[export] Hint Rewrite validate_tags_ok request_deadline_ok : guards.

Lemma code_in_range code :
  bool_decide (classify_result_code_segment code = ResultCodeCategory.Unknown) = false
  <-> 1000 <= code <= 5999.
Proof. rewrite bool_decide_eq_false, classify_result_code_segment_unknown. lia. Qed.

Lemma agent_request_guard r :
  admitted (validate_agent_request_field_rules r) <-> agent_request_ok r.
Proof.
  unfold validate_agent_request_field_rules, validate_agent_request_boundary,
    validate_agent_request_required_fields.
  autorewrite with guards. cbv zeta. rewrite admitted_deref.
  repeat setoid_rewrite admitted_test. setoid_rewrite admitted_layer.
  setoid_rewrite admitted_some. setoid_rewrite guard_passed. setoid_rewrite request_deadline_ok.
  split.
  - intros (((? & ? & ? & ? & (channel & Hch & Hne) & ? & _) & channel' & E & Hrange & ? & _) & Hrest).
    assert (channel' = channel) as -> by congruence. rewrite channel_in_range in Hrange by done.
    destruct_and! Hrest. split; eauto 10.
  - intros [(? & ? & ?) ? (channel & ? & ? & ?) ? ? (? & ? & ? & ? & ? & ? & ?) (? & ?) ? ?].
    split_and!; eauto. exists channel. rewrite channel_in_range by done. by split_and!.
Qed.

Lemma agent_request_guard_total r : is_Some (validate_agent_request_field_rules r).
Proof.
  unfold validate_agent_request_field_rules. apply total_deref.
  - unfold validate_agent_request_boundary. apply total_test.
    unfold validate_agent_request_required_fields. intros H%negb_false_iff.
    autorewrite with guards in H. destruct H as (_ & _ & _ & _ & (channel & Hc & _) & _).
    apply total_deref; [by eexists|intros ? _].
    repeat (apply total_test; intros _). by eexists.
  - intros. repeat (apply total_test; intros _). by eexists.
Qed.

(** The guard of a request dereferences no empty field, and admits exactly the
    well-formed requests. *)
Theorem agent_request_guard_complete r :
  is_Some (validate_agent_request_field_rules r) /\
  (admitted (validate_agent_request_field_rules r) <-> agent_request_ok r).
Proof. split; [apply agent_request_guard_total|apply agent_request_guard]. Qed.

Lemma agent_result_guard_total r : is_Some (validate_agent_result_boundary r).
Proof.
  unfold validate_agent_result_boundary. apply total_test.
  unfold validate_agent_result_required_fields. intros H%negb_false_iff.
  autorewrite with guards in H. destruct H as (_ & (status & Hs & _) & Hc & _).
  apply total_deref; [by eexists|intros ? _]. apply total_test. intros _.
  apply total_deref; [by destruct (ag_result_code r); [eexists|destruct Hc]|intros ? _].
  repeat (apply total_test; intros _). by eexists.
Qed.

Lemma agent_result_guard r :
  admitted (validate_agent_result_boundary r) <-> agent_result_ok r.
Proof.
  unfold validate_agent_result_boundary, validate_agent_result_required_fields.
  autorewrite with guards. cbv zeta. rewrite admitted_deref.
  setoid_rewrite admitted_test. setoid_rewrite admitted_deref. split.
  - intros ((? & (status & Hs & Hne) & Hc & Ht & Hd & ? & _) & status' & E & Hrange & code & Hcode & Hrest).
    assert (status' = status) as -> by congruence. rewrite status_in_range in Hrange by done.
    rewrite admitted_test, code_in_range in Hrest. autorewrite with guards in Hrest.
    destruct_and! Hrest. split; eauto 10; by apply not_eq_None_Some.
  - intros [? (status & ? & ? & ?) (code & Hcode & ?) Ht Hd ? (? & ? & ? & ? & ?) ?].
    split_and!; eauto; try (by apply not_eq_None_Some).
    exists status. rewrite status_in_range by done. split_and!; [done..|].
    exists code. rewrite admitted_test, code_in_range. autorewrite with guards. split_and!; done || lia.
Qed.

(** The guard of a result dereferences no empty field, and admits exactly the
    well-formed results. *)
Theorem agent_result_guard_complete r :
  is_Some (validate_agent_result_boundary r) /\
  (admitted (validate_agent_result_boundary r) <-> agent_result_ok r).
Proof. split; [apply agent_result_guard_total|apply agent_result_guard]. Qed.
