(* ===== verification/AccessTypes.v ===== *)
(** * Types and errors of the access layer

    access/include/AccessTypes.h: what the access layer passes between its parts.
    Instants of the steady clock are nanoseconds.

    access/include/AccessErrors.h: the error codes, their domains and texts, and
    access/src/ProtocolErrorMapper.cpp: what an error or a result is to the HTTP, gRPC and
    command-line callers. The codes are never cast from integers. *)

From S2P Require Import Prelude ErrorCodes CheckpointContracts RecoveryContracts AgentContracts.

Module AccessGatewayState.
Inductive AccessGatewayState := Uninitialized | Initializing | Ready | Draining | ShutDown.
#[global] Instance AccessGatewayState_eq_dec : EqDecision AccessGatewayState.
Proof. solve_decision. Defined.
End AccessGatewayState.
Abbreviation AccessGatewayState := AccessGatewayState.AccessGatewayState.

Module AccessDisposition.
Inductive AccessDisposition := Rejected | Completed | AcceptedAsync | StreamAttached.
End AccessDisposition.
Abbreviation AccessDisposition := AccessDisposition.AccessDisposition.

#[global] Instance AccessDisposition_eq_dec : EqDecision AccessDisposition.
Proof. solve_decision. Defined.

Record SubjectIdentity := {
  si_actor_ref : string;
  si_subject_type : string;
  si_auth_method : string;
  si_trust_level : string;
  si_tenant_ref : string;
  si_auth_metadata : option string;
}.

(** [SubjectIdentity{}] *)
Definition empty_subject : SubjectIdentity :=
  {| si_actor_ref := ""; si_subject_type := ""; si_auth_method := ""; si_trust_level := "";
     si_tenant_ref := ""; si_auth_metadata := None |}.

Record LocalPeerUidFact := {
  lp_actor_ref : string;
  lp_peer_uid : Z;
  lp_peer_gid : Z;
  lp_peer_pid : Z;
  lp_is_local_socket_peer : bool;
  lp_eligible_for_local_trusted : bool;
}.

(** [LocalPeerUidFact{}] *)
Definition no_local_peer : LocalPeerUidFact :=
  {| lp_actor_ref := ""; lp_peer_uid := 0; lp_peer_gid := 0; lp_peer_pid := 0;
     lp_is_local_socket_peer := false; lp_eligible_for_local_trusted := false |}.

Record AccessDecisionProof := {
  adp_decision : string;
  adp_policy_decision_ref : string;
  adp_reason_code : string;
  adp_reason_description : option string;
  adp_evaluated_at : option string;
}.

(** [AccessDecisionProof{}] *)
Definition empty_decision_proof : AccessDecisionProof :=
  {| adp_decision := ""; adp_policy_decision_ref := ""; adp_reason_code := "";
     adp_reason_description := None; adp_evaluated_at := None |}.

Record InboundPacket := {
  ip_packet_id : string;
  ip_entry_type : string;
  ip_protocol_kind : string;
  ip_peer_ref : string;
  ip_payload : string;
  ip_headers : gmap string string;
  ip_trace_id : option string;
  ip_session_hint : option string;
  ip_deadline_ms : option Z;
  ip_async_preferred : bool;
  ip_stream_requested : bool;
}.

Record RuntimeDispatchRequest := {
  dr_packet : InboundPacket;
  dr_subject_identity : SubjectIdentity;
  dr_decision_proof : AccessDecisionProof;
  dr_agent_request : AgentRequest;
  dr_client_capability_view : string;
  dr_async_allowed : bool;
  dr_stream_requested : bool;
  dr_request_context : gmap string string;
  dr_access_deadline : option string;
}.

Record AsyncTaskReceipt := {
  atr_receipt_id : string;
  atr_request_id : string;
  atr_session_id : string;
  atr_actor_ref : string;
  atr_task_ref : string;
  atr_expires_at : Z;
  atr_ownership_token : string;
  atr_initial_status : option string;
}.

Record PublishEnvelope := {
  pe_request_id : string;
  pe_result_id : string;
  pe_session_id : string;
  pe_trace_id : string;
  pe_channel_ref : string;
  pe_protocol_kind : string;
  pe_agent_result : option AgentResult;
  pe_protocol_status_hint : string;
  pe_protocol_metadata : string;
  pe_is_final : bool;
  pe_payload : string;
  pe_receipt : option AsyncTaskReceipt;
}.

Record RuntimeDispatchResult := {
  ds_disposition : AccessDisposition;
  ds_publish_envelope : option PublishEnvelope;
  ds_receipt_ref : option string;
  ds_subscription_ref : option string;
  ds_error_ref : option string;
  ds_response_context : gmap string string;
}.

Record AccessAdmissionResult := {
  aar_admitted : bool;
  aar_replay_hit : bool;
  aar_conflict_hit : bool;
  aar_ticket_ref : option string;
  aar_replay_receipt_ref : option string;
  aar_reject_reason : option string;
  aar_challenge_hint : option string;
}.

Record AccessAdmissionView := {
  aav_idempotency_window_ms : Z;
  aav_max_inflight_requests : Z;
  aav_dispatch_deadline_ms : Z;
  aav_default_deny : bool;
}.

Record SnapshotVersionFingerprint := {
  svf_bootstrap_revision : string;
  svf_effective_profile_id : string;
  svf_runtime_policy_generation : Z;
}.

Record AccessAuthView := {
  auv_peer_auth_mode : string;
  auv_auth_provider_ref : option string;
  auv_trusted_local_subjects : list string;
  auv_strict_auth_required : bool;
}.

Record AccessPublishView := {
  apv_result_replay_ttl_ms : Z;
  apv_stream_heartbeat_ms : Z;
  apv_slow_consumer_max_buffer : Z;
  apv_drain_timeout_ms : Z;
  apv_max_payload_bytes : Z;
  apv_max_user_input_bytes : Z;
  apv_cors_allowed_origins : list string;
}.

(** [std::chrono::milliseconds] on the steady clock. *)
Definition milliseconds (ms : Z) : Z := 1000000 * ms.

(** ** Examples shared by the components *)

Definition sample_packet (packet_id : string) : InboundPacket :=
  {| ip_packet_id := packet_id; ip_entry_type := "cli"; ip_protocol_kind := "ipc";
     ip_peer_ref := ""; ip_payload := "{}"; ip_headers := ∅; ip_trace_id := None;
     ip_session_hint := None; ip_deadline_ms := None; ip_async_preferred := false;
     ip_stream_requested := false |}.

Definition sample_subject (actor_ref : string) : SubjectIdentity :=
  {| si_actor_ref := actor_ref; si_subject_type := "user"; si_auth_method := "token";
     si_trust_level := "authenticated"; si_tenant_ref := ""; si_auth_metadata := None |}.

Definition sample_dispatch (actor_ref packet_id key : string) : RuntimeDispatchRequest :=
  {| dr_packet := sample_packet packet_id; dr_subject_identity := sample_subject actor_ref;
     dr_decision_proof := empty_decision_proof; dr_agent_request := empty_agent_request;
     dr_client_capability_view := ""; dr_async_allowed := false; dr_stream_requested := false;
     dr_request_context := {["idempotency_key" := key]}; dr_access_deadline := None |}.

Definition sample_completion : RuntimeDispatchResult :=
  {| ds_disposition := AccessDisposition.Completed; ds_publish_envelope := None;
     ds_receipt_ref := None; ds_subscription_ref := None; ds_error_ref := None;
     ds_response_context := ∅ |}.

Module AccessErrorDomain.
Inductive AccessErrorDomain :=
| Unknown | Validation | Authentication | Authorization | Admission | RuntimeDispatch | Publish
| Receipt | Internal.
#[global] Instance AccessErrorDomain_eq_dec : EqDecision AccessErrorDomain.
Proof. solve_decision. Defined.
End AccessErrorDomain.
Abbreviation AccessErrorDomain := AccessErrorDomain.AccessErrorDomain.

Definition access_error_domain_name (domain : AccessErrorDomain) : string :=
  match domain with
  | AccessErrorDomain.Validation => "validation"
  | AccessErrorDomain.Authentication => "authentication"
  | AccessErrorDomain.Authorization => "authorization"
  | AccessErrorDomain.Admission => "admission"
  | AccessErrorDomain.RuntimeDispatch => "runtime_dispatch"
  | AccessErrorDomain.Publish => "publish"
  | AccessErrorDomain.Receipt => "receipt"
  | AccessErrorDomain.Internal => "internal"
  | AccessErrorDomain.Unknown => "unknown"
  end.

Module AccessErrorCode.
Inductive AccessErrorCode :=
| ValidationRejected | PayloadTooLarge | UnsupportedProtocol | MalformedInput
| AuthenticationFailed | AuthenticationChallengeRequired | CredentialExpired
| AuthorizationDenied | ConfirmationRequired | OverrideSourceInvalid | AdmissionRejected
| RateLimitExceeded | ConcurrencyLimitExceeded | IdempotencyConflict
| IdempotencyReplayHit | QueueFull | RuntimeDispatchFailed | RuntimeDispatchTimeout
| RuntimeBridgeUnavailable | PublishChannelUnavailable | PublishTimeout
| PublishEncodingFailed | ReceiptNotFound | ReceiptExpired | ReceiptOwnerMismatch
| CancellationFailed | InternalError | ShuttingDown.
#[global] Instance AccessErrorCode_eq_dec : EqDecision AccessErrorCode.
Proof. solve_decision. Defined.
End AccessErrorCode.
Abbreviation AccessErrorCode := AccessErrorCode.AccessErrorCode.

Definition access_error_code_value (code : AccessErrorCode) : Z :=
  match code with
  | AccessErrorCode.ValidationRejected => 100
  | AccessErrorCode.PayloadTooLarge => 101
  | AccessErrorCode.UnsupportedProtocol => 102
  | AccessErrorCode.MalformedInput => 103
  | AccessErrorCode.AuthenticationFailed => 200
  | AccessErrorCode.AuthenticationChallengeRequired => 201
  | AccessErrorCode.CredentialExpired => 202
  | AccessErrorCode.AuthorizationDenied => 300
  | AccessErrorCode.ConfirmationRequired => 301
  | AccessErrorCode.OverrideSourceInvalid => 302
  | AccessErrorCode.AdmissionRejected => 400
  | AccessErrorCode.RateLimitExceeded => 401
  | AccessErrorCode.ConcurrencyLimitExceeded => 402
  | AccessErrorCode.IdempotencyConflict => 403
  | AccessErrorCode.IdempotencyReplayHit => 404
  | AccessErrorCode.QueueFull => 405
  | AccessErrorCode.RuntimeDispatchFailed => 500
  | AccessErrorCode.RuntimeDispatchTimeout => 501
  | AccessErrorCode.RuntimeBridgeUnavailable => 502
  | AccessErrorCode.PublishChannelUnavailable => 600
  | AccessErrorCode.PublishTimeout => 601
  | AccessErrorCode.PublishEncodingFailed => 602
  | AccessErrorCode.ReceiptNotFound => 700
  | AccessErrorCode.ReceiptExpired => 701
  | AccessErrorCode.ReceiptOwnerMismatch => 702
  | AccessErrorCode.CancellationFailed => 703
  | AccessErrorCode.InternalError => 900
  | AccessErrorCode.ShuttingDown => 901
  end.

Definition classify_access_error_code_value (raw_code : Z) : AccessErrorDomain :=
  if (100 <=? raw_code) && (raw_code <=? 199) then AccessErrorDomain.Validation else
  if (200 <=? raw_code) && (raw_code <=? 299) then AccessErrorDomain.Authentication else
  if (300 <=? raw_code) && (raw_code <=? 399) then AccessErrorDomain.Authorization else
  if (400 <=? raw_code) && (raw_code <=? 499) then AccessErrorDomain.Admission else
  if (500 <=? raw_code) && (raw_code <=? 599) then AccessErrorDomain.RuntimeDispatch else
  if (600 <=? raw_code) && (raw_code <=? 699) then AccessErrorDomain.Publish else
  if (700 <=? raw_code) && (raw_code <=? 799) then AccessErrorDomain.Receipt else
  if (900 <=? raw_code) && (raw_code <=? 999) then AccessErrorDomain.Internal else
  AccessErrorDomain.Unknown.

Definition classify_access_error_code (code : AccessErrorCode) : AccessErrorDomain :=
  classify_access_error_code_value (access_error_code_value code).

Definition is_known_access_error_code (raw_code : Z) : bool :=
  negb (bool_decide (classify_access_error_code_value raw_code = AccessErrorDomain.Unknown)).

Definition access_error_code_name (code : AccessErrorCode) : string :=
  match code with
  | AccessErrorCode.ValidationRejected => "validation_rejected"
  | AccessErrorCode.PayloadTooLarge => "payload_too_large"
  | AccessErrorCode.UnsupportedProtocol => "unsupported_protocol"
  | AccessErrorCode.MalformedInput => "malformed_input"
  | AccessErrorCode.AuthenticationFailed => "authentication_failed"
  | AccessErrorCode.AuthenticationChallengeRequired => "authentication_challenge_required"
  | AccessErrorCode.CredentialExpired => "credential_expired"
  | AccessErrorCode.AuthorizationDenied => "authorization_denied"
  | AccessErrorCode.ConfirmationRequired => "confirmation_required"
  | AccessErrorCode.OverrideSourceInvalid => "override_source_invalid"
  | AccessErrorCode.AdmissionRejected => "admission_rejected"
  | AccessErrorCode.RateLimitExceeded => "rate_limit_exceeded"
  | AccessErrorCode.ConcurrencyLimitExceeded => "concurrency_limit_exceeded"
  | AccessErrorCode.IdempotencyConflict => "idempotency_conflict"
  | AccessErrorCode.IdempotencyReplayHit => "idempotency_replay_hit"
  | AccessErrorCode.QueueFull => "queue_full"
  | AccessErrorCode.RuntimeDispatchFailed => "runtime_dispatch_failed"
  | AccessErrorCode.RuntimeDispatchTimeout => "runtime_dispatch_timeout"
  | AccessErrorCode.RuntimeBridgeUnavailable => "runtime_bridge_unavailable"
  | AccessErrorCode.PublishChannelUnavailable => "publish_channel_unavailable"
  | AccessErrorCode.PublishTimeout => "publish_timeout"
  | AccessErrorCode.PublishEncodingFailed => "publish_encoding_failed"
  | AccessErrorCode.ReceiptNotFound => "receipt_not_found"
  | AccessErrorCode.ReceiptExpired => "receipt_expired"
  | AccessErrorCode.ReceiptOwnerMismatch => "receipt_owner_mismatch"
  | AccessErrorCode.CancellationFailed => "cancellation_failed"
  | AccessErrorCode.InternalError => "internal_error"
  | AccessErrorCode.ShuttingDown => "shutting_down"
  end.

Record AccessErrorDescriptor := {
  aed_domain : AccessErrorDomain;
  aed_retryable : bool;
  aed_default_reason : string;
}.

Definition describe_access_error (code : AccessErrorCode) : AccessErrorDescriptor :=
  let describe domain retryable :=
    {| aed_domain := domain; aed_retryable := retryable;
       aed_default_reason := access_error_code_name code |} in
  match code with
  | AccessErrorCode.ValidationRejected | AccessErrorCode.PayloadTooLarge
  | AccessErrorCode.UnsupportedProtocol | AccessErrorCode.MalformedInput =>
      describe AccessErrorDomain.Validation false
  | AccessErrorCode.AuthenticationFailed | AccessErrorCode.AuthenticationChallengeRequired
  | AccessErrorCode.CredentialExpired =>
      describe AccessErrorDomain.Authentication true
  | AccessErrorCode.AuthorizationDenied | AccessErrorCode.OverrideSourceInvalid =>
      describe AccessErrorDomain.Authorization false
  | AccessErrorCode.ConfirmationRequired =>
      describe AccessErrorDomain.Authorization true
  | AccessErrorCode.AdmissionRejected | AccessErrorCode.RateLimitExceeded
  | AccessErrorCode.ConcurrencyLimitExceeded | AccessErrorCode.IdempotencyConflict
  | AccessErrorCode.QueueFull =>
      describe AccessErrorDomain.Admission true
  | AccessErrorCode.IdempotencyReplayHit =>
      describe AccessErrorDomain.Admission false
  | AccessErrorCode.RuntimeDispatchFailed =>
      describe AccessErrorDomain.RuntimeDispatch false
  | AccessErrorCode.RuntimeDispatchTimeout | AccessErrorCode.RuntimeBridgeUnavailable =>
      describe AccessErrorDomain.RuntimeDispatch true
  | AccessErrorCode.PublishChannelUnavailable | AccessErrorCode.PublishTimeout =>
      describe AccessErrorDomain.Publish true
  | AccessErrorCode.PublishEncodingFailed =>
      describe AccessErrorDomain.Publish false
  | AccessErrorCode.ReceiptNotFound | AccessErrorCode.ReceiptExpired
  | AccessErrorCode.ReceiptOwnerMismatch =>
      describe AccessErrorDomain.Receipt false
  | AccessErrorCode.CancellationFailed =>
      describe AccessErrorDomain.Receipt true
  | AccessErrorCode.ShuttingDown =>
      describe AccessErrorDomain.Internal true
  | AccessErrorCode.InternalError =>
      describe AccessErrorDomain.Internal false
  end.

Record AccessError := {
  aer_code : AccessErrorCode;
  aer_reason : string;
  aer_detail : string;
  aer_retryable : bool;
  aer_upstream_error : option ErrorInfo;
}.

Definition make_access_error (code : AccessErrorCode) (detail : string)
    (upstream_error : option ErrorInfo) (reason : string) : AccessError :=
  let descriptor := describe_access_error code in
  {| aer_code := code;
     aer_reason := if is_empty reason then aed_default_reason descriptor else reason;
     aer_detail := detail; aer_retryable := aed_retryable descriptor;
     aer_upstream_error := upstream_error |}.

(** ** Protocols *)

Record AccessProtocolErrorMapping := {
  apm_code : AccessErrorCode;
  apm_http_status : Z;
  apm_cli_exit_code : Z;
  apm_grpc_status : string;
  apm_http_header_name : string;
  apm_http_header_value : string;
  apm_reason : string;
}.

Definition make_protocol_mapping (code : AccessErrorCode) (http_status cli_exit_code : Z)
    (grpc_status reason http_header_name http_header_value : string)
    : AccessProtocolErrorMapping :=
  {| apm_code := code; apm_http_status := http_status; apm_cli_exit_code := cli_exit_code;
     apm_grpc_status := grpc_status; apm_http_header_name := http_header_name;
     apm_http_header_value := http_header_value; apm_reason := reason |}.

(** A mapping without a header. *)
Definition plain_mapping (code : AccessErrorCode) (http_status cli_exit_code : Z)
    (grpc_status reason : string) : AccessProtocolErrorMapping :=
  make_protocol_mapping code http_status cli_exit_code grpc_status reason EmptyString EmptyString.

Definition map_access_error (code : AccessErrorCode) : AccessProtocolErrorMapping :=
  match code with
  | AccessErrorCode.ValidationRejected =>
      plain_mapping code 400 1 "INVALID_ARGUMENT"
        "generic access validation failures stay inside bad-request semantics"
  | AccessErrorCode.PayloadTooLarge =>
      plain_mapping code 413 1 "INVALID_ARGUMENT"
        "oversized payloads map to payload-too-large semantics"
  | AccessErrorCode.UnsupportedProtocol =>
      plain_mapping code 400 1 "INVALID_ARGUMENT"
        "unsupported protocol kinds stay inside access validation semantics"
  | AccessErrorCode.MalformedInput =>
      plain_mapping code 400 1 "INVALID_ARGUMENT"
        "malformed access input stays inside bad-request semantics"
  | AccessErrorCode.AuthenticationFailed =>
      plain_mapping code 401 77 "UNAUTHENTICATED"
        "authentication failures require an unauthenticated response"
  | AccessErrorCode.AuthenticationChallengeRequired =>
      make_protocol_mapping code 401 77 "UNAUTHENTICATED"
        "challenge-required responses must carry a WWW-Authenticate hint"
        "WWW-Authenticate" "challenge-required"
  | AccessErrorCode.CredentialExpired =>
      plain_mapping code 401 77 "UNAUTHENTICATED"
        "expired credentials stay inside unauthenticated semantics"
  | AccessErrorCode.AuthorizationDenied =>
      plain_mapping code 403 77 "PERMISSION_DENIED"
        "authorization denials stay inside forbidden semantics"
  | AccessErrorCode.ConfirmationRequired =>
      make_protocol_mapping code 403 77 "PERMISSION_DENIED"
        "confirmation-required responses must surface an explicit confirmation hint"
        "X-Confirmation-Required" "true"
  | AccessErrorCode.OverrideSourceInvalid =>
      plain_mapping code 403 77 "PERMISSION_DENIED"
        "override source violations stay inside forbidden semantics"
  | AccessErrorCode.AdmissionRejected =>
      plain_mapping code 503 75 "UNAVAILABLE"
        "generic admission rejects are treated as temporary service unavailability"
  | AccessErrorCode.RateLimitExceeded =>
      plain_mapping code 429 75 "RESOURCE_EXHAUSTED"
        "rate-limit rejects stay inside resource-exhausted semantics"
  | AccessErrorCode.ConcurrencyLimitExceeded =>
      plain_mapping code 429 75 "RESOURCE_EXHAUSTED"
        "concurrency rejects stay inside resource-exhausted semantics"
  | AccessErrorCode.IdempotencyConflict =>
      plain_mapping code 409 75 "ABORTED"
        "idempotency conflicts stay inside conflict semantics"
  | AccessErrorCode.IdempotencyReplayHit =>
      make_protocol_mapping code 200 0 "OK"
        "idempotency replay hits must preserve the prior success semantics"
        "X-Replay-Hit" "true"
  | AccessErrorCode.QueueFull =>
      plain_mapping code 503 75 "UNAVAILABLE"
        "queue saturation stays inside temporary unavailability semantics"
  | AccessErrorCode.RuntimeDispatchFailed =>
      plain_mapping code 502 1 "INTERNAL"
        "runtime dispatch failures stay inside bad-gateway semantics"
  | AccessErrorCode.RuntimeDispatchTimeout =>
      plain_mapping code 504 75 "DEADLINE_EXCEEDED"
        "runtime dispatch timeouts stay inside deadline-exceeded semantics"
  | AccessErrorCode.RuntimeBridgeUnavailable =>
      plain_mapping code 503 75 "UNAVAILABLE"
        "runtime bridge unavailability stays inside temporary unavailable semantics"
  | AccessErrorCode.PublishChannelUnavailable =>
      plain_mapping code 502 1 "INTERNAL"
        "publish channel failures stay inside bad-gateway semantics"
  | AccessErrorCode.PublishTimeout =>
      plain_mapping code 504 75 "DEADLINE_EXCEEDED"
        "publish timeouts stay inside deadline-exceeded semantics"
  | AccessErrorCode.PublishEncodingFailed =>
      plain_mapping code 500 1 "INTERNAL"
        "publish encoding failures stay inside internal error semantics"
  | AccessErrorCode.ReceiptNotFound =>
      plain_mapping code 404 1 "NOT_FOUND"
        "receipt lookups should surface not-found semantics"
  | AccessErrorCode.ReceiptExpired =>
      plain_mapping code 410 1 "NOT_FOUND"
        "expired receipts should surface gone semantics"
  | AccessErrorCode.ReceiptOwnerMismatch =>
      plain_mapping code 403 77 "PERMISSION_DENIED"
        "receipt owner mismatches stay inside forbidden semantics"
  | AccessErrorCode.CancellationFailed =>
      plain_mapping code 409 75 "ABORTED"
        "cancellation failures stay inside conflict/aborted semantics"
  | AccessErrorCode.ShuttingDown =>
      plain_mapping code 503 75 "UNAVAILABLE"
        "shutdown rejects stay inside temporary unavailable semantics"
  | AccessErrorCode.InternalError =>
      plain_mapping code 500 1 "INTERNAL"
        "internal access failures stay inside generic internal-error semantics"
  end.

Definition map_agent_result_to_protocol (result : AgentResult) : AccessProtocolErrorMapping :=
  match ag_status result with
  | None => map_access_error AccessErrorCode.InternalError
  | Some AgentResultStatus.Completed =>
      plain_mapping AccessErrorCode.IdempotencyReplayHit 200 0 "OK"
        "completed agent result should map to success semantics"
  | Some AgentResultStatus.PartiallyCompleted =>
      plain_mapping AccessErrorCode.PublishTimeout 202 0 "OK"
        "partially completed result should map to accepted semantics"
  | Some AgentResultStatus.Cancelled => map_access_error AccessErrorCode.CancellationFailed
  | Some AgentResultStatus.Timeout => map_access_error AccessErrorCode.RuntimeDispatchTimeout
  | Some AgentResultStatus.Failed => map_access_error AccessErrorCode.RuntimeDispatchFailed
  | Some AgentResultStatus.Unspecified => map_access_error AccessErrorCode.InternalError
  | Some (AgentResultStatus.Other _) => map_access_error AccessErrorCode.InternalError
  end.

(** ** Facts *)

(** The domain that the descriptor names is the one of the hundreds of the code. *)
Lemma descriptor_domain code :
  aed_domain (describe_access_error code) = classify_access_error_code code.
Proof. by destruct code. Qed.

Lemma access_codes_known code : is_known_access_error_code (access_error_code_value code) = true.
Proof. by destruct code. Qed.

(** Callers are told of success by the same errors over every protocol: HTTP 200, exit code 0
    and OK, and only a replay of an earlier success is one. *)
Lemma mapped_success code :
  let mapping := map_access_error code in
  (apm_http_status mapping = 200 <-> code = AccessErrorCode.IdempotencyReplayHit) /\
  (apm_cli_exit_code mapping = 0 <-> code = AccessErrorCode.IdempotencyReplayHit) /\
  (apm_grpc_status mapping = "OK" <-> code = AccessErrorCode.IdempotencyReplayHit).
Proof. destruct code; simpl; repeat split; (done || lia). Qed.
