(* ===== verification/Admission.v ===== *)
(** * Admission controller

    access/src/AdmissionController.{h,cpp}: the last gate before the runtime. It
    bounds the requests in flight and answers a repeated request from the record
    of the first one. Each operation holds the lock while it runs; the instant it
    reads from the clock is an argument. *)

From S2P Require Import Prelude Text AccessTypes.

Record InflightTicket := {
  ift_ticket_ref : string;
  ift_signature : string;
  ift_issued_at : Z;
}.

Record IdempotencyRecord := {
  ir_signature : string;
  ir_inflight_ticket_ref : option string;
  ir_completed : bool;
  ir_replay_receipt_ref : option string;
  ir_expires_at : Z;
}.

Record AdmissionController := {
  ac_config : AccessAdmissionView;
  ac_ticket_counter : Z;
  ac_inflight_tickets : gmap string InflightTicket;
  ac_idempotency_records : gmap string IdempotencyRecord;
}.

Definition new_admission_controller (config : AccessAdmissionView) : AdmissionController :=
  {| ac_config := config; ac_ticket_counter := 0; ac_inflight_tickets := ∅;
     ac_idempotency_records := ∅ |}.

Definition with_inflight (tickets : gmap string InflightTicket) (c : AdmissionController)
    : AdmissionController :=
  {| ac_config := ac_config c; ac_ticket_counter := ac_ticket_counter c;
     ac_inflight_tickets := tickets; ac_idempotency_records := ac_idempotency_records c |}.

Definition with_records (records : gmap string IdempotencyRecord) (c : AdmissionController)
    : AdmissionController :=
  {| ac_config := ac_config c; ac_ticket_counter := ac_ticket_counter c;
     ac_inflight_tickets := ac_inflight_tickets c; ac_idempotency_records := records |}.

(** ** Operations *)

Definition build_idempotency_signature (request : RuntimeDispatchRequest) : string :=
  let packet := dr_packet request in
  let signature last :=
    ip_entry_type packet +:+ ("|" +:+ (ip_protocol_kind packet +:+ ("|" +:+
      (si_actor_ref (dr_subject_identity request) +:+ ("|" +:+ last))))) in
  let fallback :=
    if is_empty (ip_packet_id packet) || is_empty (si_actor_ref (dr_subject_identity request))
    then "" else signature (ip_packet_id packet) in
  let? idempotency_key := dr_request_context request !! "idempotency_key" else fallback in
  if is_empty idempotency_key then fallback else signature idempotency_key.

Definition prune_expired_records (now : Z) (c : AdmissionController) : AdmissionController :=
  with_records
    (filter (fun kr => negb ((ir_expires_at kr.2 <? now)
                             && bool_decide (ir_inflight_ticket_ref kr.2 = None)) = true)
       (ac_idempotency_records c)) c.

Definition rejected_admission (reject_reason : string) : AccessAdmissionResult :=
  {| aar_admitted := false; aar_replay_hit := false; aar_conflict_hit := false;
     aar_ticket_ref := None; aar_replay_receipt_ref := None;
     aar_reject_reason := Some reject_reason; aar_challenge_hint := None |}.

Definition check_idempotency (c : AdmissionController) (signature : string) (now : Z)
    : option AccessAdmissionResult :=
  let? record := ac_idempotency_records c !! signature else None in
  if ir_expires_at record <? now then None else
  if ir_completed record then
    Some {| aar_admitted := false; aar_replay_hit := true; aar_conflict_hit := false;
            aar_ticket_ref := None; aar_replay_receipt_ref := ir_replay_receipt_ref record;
            aar_reject_reason := Some "idempotency_replay_hit"; aar_challenge_hint := None |}
  else
  let? ticket_ref := ir_inflight_ticket_ref record else None in
  Some {| aar_admitted := false; aar_replay_hit := false; aar_conflict_hit := true;
          aar_ticket_ref := Some ticket_ref; aar_replay_receipt_ref := None;
          aar_reject_reason := Some "idempotency_conflict"; aar_challenge_hint := None |}.

Definition acquire_inflight_ticket (c : AdmissionController) (signature : string) (now : Z)
    : AdmissionController * InflightTicket :=
  let counter := u64 (ac_ticket_counter c + 1) in
  let ticket :=
    {| ift_ticket_ref := "ticket-" +:+ to_string counter; ift_signature := signature;
       ift_issued_at := now |} in
  ({| ac_config := ac_config c; ac_ticket_counter := counter;
      ac_inflight_tickets := <[ift_ticket_ref ticket := ticket]> (ac_inflight_tickets c);
      ac_idempotency_records := ac_idempotency_records c |}, ticket).

Definition admit_request (c : AdmissionController) (request : RuntimeDispatchRequest) (now : Z)
    : AdmissionController * AccessAdmissionResult :=
  let c := prune_expired_records now c in
  let max := aav_max_inflight_requests (ac_config c) in
  if (max <=? 0) || (max <=? Z.of_nat (size (ac_inflight_tickets c)))
  then (c, rejected_admission "concurrency_limit_exceeded") else
  let signature := build_idempotency_signature request in
  if is_empty signature then (c, rejected_admission "admission_rejected") else
  match check_idempotency c signature now with
  | Some existing => (c, existing)
  | None =>
      let '(c, ticket) := acquire_inflight_ticket c signature now in
      let record :=
        {| ir_signature := signature;
           ir_inflight_ticket_ref := Some (ift_ticket_ref ticket);
           ir_completed := false; ir_replay_receipt_ref := None;
           ir_expires_at := now + milliseconds (aav_idempotency_window_ms (ac_config c)) |} in
      (with_records (<[signature := record]> (ac_idempotency_records c)) c,
       {| aar_admitted := true; aar_replay_hit := false; aar_conflict_hit := false;
          aar_ticket_ref := Some (ift_ticket_ref ticket); aar_replay_receipt_ref := None;
          aar_reject_reason := None; aar_challenge_hint := None |})
  end.

Definition release_ticket (c : AdmissionController) (ticket_ref : string)
    : AdmissionController :=
  let? inflight := ac_inflight_tickets c !! ticket_ref else c in
  let signature := ift_signature inflight in
  let c := with_inflight (delete ticket_ref (ac_inflight_tickets c)) c in
  let? record := ac_idempotency_records c !! signature else c in
  if negb (ir_completed record)
  then with_records (delete signature (ac_idempotency_records c)) c else c.

Definition make_receipt_ref (ticket_ref : string) : string := "receipt-for-" +:+ ticket_ref.

Definition record_completion (c : AdmissionController) (ticket_ref : string)
    (result : RuntimeDispatchResult) : AdmissionController :=
  let? inflight := ac_inflight_tickets c !! ticket_ref else c in
  let signature := ift_signature inflight in
  let c :=
    let? record := ac_idempotency_records c !! signature else c in
    with_records
      (<[signature :=
          {| ir_signature := ir_signature record; ir_inflight_ticket_ref := None;
             ir_completed := true;
             ir_replay_receipt_ref :=
               Some (default (make_receipt_ref ticket_ref) (ds_receipt_ref result));
             ir_expires_at := ir_expires_at record |}]> (ac_idempotency_records c)) c in
  with_inflight (delete ticket_ref (ac_inflight_tickets c)) c.

(** ** Runs

    The calls of all threads in the order they take the lock. *)

Inductive admission_op :=
| Admit (request : RuntimeDispatchRequest) (now : Z)
| Release (ticket_ref : string)
| Complete (ticket_ref : string) (result : RuntimeDispatchResult).

Definition admission_call (c : AdmissionController) (op : admission_op) : AdmissionController :=
  match op with
  | Admit request now => fst (admit_request c request now)
  | Release ticket_ref => release_ticket c ticket_ref
  | Complete ticket_ref result => record_completion c ticket_ref result
  end.

Definition admission_run (c : AdmissionController) (ops : list admission_op)
    : AdmissionController :=
  fold_left admission_call ops c.

(** The ticket a call hands out. *)
Definition issued (c : AdmissionController) (op : admission_op) : option string :=
  match op with
  | Admit request now =>
      let result := snd (admit_request c request now) in
      if aar_admitted result then aar_ticket_ref result else None
  | _ => None
  end.

Fixpoint issued_tickets (c : AdmissionController) (ops : list admission_op) : list string :=
  match ops with
  | [] => []
  | op :: ops => option_list (issued c op) ++ issued_tickets (admission_call c op) ops
  end.

Definition ticket_signature (c : AdmissionController) (ticket_ref : string) : option string :=
  ift_signature <$> ac_inflight_tickets c !! ticket_ref.

(** No ticket of the signature is released, and no admission is later than the
    given instant. *)
Fixpoint undisturbed (signature : string) (until : Z) (c : AdmissionController)
    (ops : list admission_op) : Prop :=
  match ops with
  | [] => True
  | op :: ops =>
      match op with
      | Admit _ now => now <= until
      | Release ticket_ref => ticket_signature c ticket_ref <> Some signature
      | Complete _ _ => True
      end /\ undisturbed signature until (admission_call c op) ops
  end.

(** The receipt of the last completed ticket of the signature. *)
Fixpoint last_receipt (signature : string) (receipt : option string) (c : AdmissionController)
    (ops : list admission_op) : option string :=
  match ops with
  | [] => receipt
  | op :: ops =>
      last_receipt signature
        match op with
        | Complete ticket_ref result =>
            if bool_decide (ticket_signature c ticket_ref = Some signature)
            then Some (default (make_receipt_ref ticket_ref) (ds_receipt_ref result))
            else receipt
        | _ => receipt
        end (admission_call c op) ops
  end.

(** ** The operations, case by case *)

Definition capacity (c : AdmissionController) : Z := aav_max_inflight_requests (ac_config c).

Definition has_room (c : AdmissionController) : bool :=
  (0 <? capacity c) && (Z.of_nat (size (ac_inflight_tickets c)) <? capacity c).

Definition expiry (c : AdmissionController) (now : Z) : Z :=
  now + milliseconds (aav_idempotency_window_ms (ac_config c)).

Definition next_ticket (c : AdmissionController) : string :=
  "ticket-" +:+ to_string (u64 (ac_ticket_counter c + 1)).

Definition conflict_with (ticket_ref : string) : AccessAdmissionResult :=
  {| aar_admitted := false; aar_replay_hit := false; aar_conflict_hit := true;
     aar_ticket_ref := Some ticket_ref; aar_replay_receipt_ref := None;
     aar_reject_reason := Some "idempotency_conflict"; aar_challenge_hint := None |}.

Definition replay_of (receipt_ref : string) : AccessAdmissionResult :=
  {| aar_admitted := false; aar_replay_hit := true; aar_conflict_hit := false;
     aar_ticket_ref := None; aar_replay_receipt_ref := Some receipt_ref;
     aar_reject_reason := Some "idempotency_replay_hit"; aar_challenge_hint := None |}.

(** A record that still answers at [now] survives the pruning. *)
Lemma prune_keeps c now signature record :
  ac_idempotency_records c !! signature = Some record -> now <= ir_expires_at record ->
  ac_idempotency_records (prune_expired_records now c) !! signature = Some record.
Proof.
  intros Hr Hnow. simpl. apply map_lookup_filter_Some. split; [done|]. simpl.
  apply negb_true_iff, andb_false_iff. left. apply Z.ltb_ge. lia.
Qed.

Lemma prune_lookup c now signature record :
  ac_idempotency_records (prune_expired_records now c) !! signature = Some record ->
  ac_idempotency_records c !! signature = Some record.
Proof. simpl. rewrite map_lookup_filter_Some. naive_solver. Qed.

(** What an admission does: it prunes, and answers or admits. *)
Lemma admit_cases c request now :
  let signature := build_idempotency_signature request in
  let pruned := prune_expired_records now c in
  (has_room c = false /\
   admit_request c request now = (pruned, rejected_admission "concurrency_limit_exceeded")) \/
  (has_room c = true /\ signature = "" /\
   admit_request c request now = (pruned, rejected_admission "admission_rejected")) \/
  (has_room c = true /\ signature <> "" /\ exists answer,
   check_idempotency pruned signature now = Some answer /\ aar_admitted answer = false /\
   admit_request c request now = (pruned, answer)) \/
  (has_room c = true /\ signature <> "" /\ check_idempotency pruned signature now = None /\
   exists c' result, admit_request c request now = (c', result) /\ aar_admitted result = true /\
     aar_ticket_ref result = Some (next_ticket c) /\
     ac_config c' = ac_config c /\ ac_ticket_counter c' = u64 (ac_ticket_counter c + 1) /\
     ac_inflight_tickets c' = <[next_ticket c :=
       {| ift_ticket_ref := next_ticket c; ift_signature := signature; ift_issued_at := now |}]>
       (ac_inflight_tickets c) /\
     ac_idempotency_records c' = <[signature :=
       {| ir_signature := signature; ir_inflight_ticket_ref := Some (next_ticket c);
          ir_completed := false; ir_replay_receipt_ref := None;
          ir_expires_at := expiry c now |}]> (ac_idempotency_records pruned)).
Proof.
  intros signature pruned. unfold admit_request. fold pruned.
  assert (has_room c = negb ((aav_max_inflight_requests (ac_config pruned) <=? 0)
    || (aav_max_inflight_requests (ac_config pruned)
        <=? Z.of_nat (size (ac_inflight_tickets pruned))))) as ->.
  { unfold has_room, capacity. simpl. rewrite negb_orb, <-!Z.ltb_antisym. done. }
  destruct (_ || _); cbn [negb]; [by left|]. right. fold signature.
  destruct (is_empty signature) eqn:He; [left; by apply is_empty_true in He|].
  apply is_empty_false in He. right.
  destruct (check_idempotency pruned signature now) as [answer|] eqn:Hc; [left|right].
  - split_and!; [done..|]. exists answer. split_and!; [done| |done].
    revert Hc. unfold check_idempotency. intros Hc. by repeat case_match; simplify_eq/=.
  - split_and!; [done..|]. by do 2 eexists.
Qed.

(** ** The idempotency window *)

(** The record of a signature whose ticket [ticket_ref] was the last admitted:
    open, or completed with a receipt. *)
Definition record_stands (c : AdmissionController) (signature ticket_ref : string) (until : Z)
    (receipt : option string) : Prop :=
  exists record, ac_idempotency_records c !! signature = Some record /\
    ir_expires_at record = until /\
    match receipt with
    | None => ir_completed record = false /\ ir_inflight_ticket_ref record = Some ticket_ref
    | Some receipt_ref =>
        ir_completed record = true /\ ir_replay_receipt_ref record = Some receipt_ref
    end.

Definition standing_answer (ticket_ref : string) (receipt : option string)
    : AccessAdmissionResult :=
  match receipt with
  | None => conflict_with ticket_ref
  | Some receipt_ref => replay_of receipt_ref
  end.

Lemma stands_pruned c signature ticket_ref until receipt now :
  record_stands c signature ticket_ref until receipt -> now <= until ->
  record_stands (prune_expired_records now c) signature ticket_ref until receipt.
Proof.
  intros (record & Hr & <- & Hrec) Hnow. exists record. split_and!; [|done..].
  by apply prune_keeps.
Qed.

Lemma stands_answers c signature ticket_ref until receipt now :
  record_stands c signature ticket_ref until receipt -> now <= until ->
  check_idempotency c signature now = Some (standing_answer ticket_ref receipt).
Proof.
  intros (record & Hr & <- & Hrec) Hnow. unfold check_idempotency. rewrite Hr.
  rewrite (proj2 (Z.ltb_ge _ _)) by lia.
  destruct receipt as [receipt_ref|]; destruct Hrec as [-> ->]; done.
Qed.

Lemma stands_admit c signature ticket_ref until receipt request now :
  record_stands c signature ticket_ref until receipt -> now <= until ->
  record_stands (fst (admit_request c request now)) signature ticket_ref until receipt.
Proof.
  intros Hst Hnow. pose proof (stands_pruned _ _ _ _ _ _ Hst Hnow) as Hp.
  destruct (admit_cases c request now)
    as [[_ ->]|[(_ & _ & ->)|[(_ & _ & answer & _ & _ & ->)|(_ & _ & Hno & Hadm)]]];
    [done..|].
  destruct (decide (build_idempotency_signature request = signature)) as [<-|Hne].
  { by rewrite (stands_answers _ _ _ _ _ _ Hp Hnow) in Hno. }
  destruct Hadm as (c' & result & -> & _ & _ & _ & _ & _ & Hrecords).
  destruct Hp as (record & Hr & Hrec). exists record. simpl.
  rewrite Hrecords, lookup_insert_ne by done. done.
Qed.

Lemma stands_release c signature ticket_ref until receipt ref :
  record_stands c signature ticket_ref until receipt ->
  ticket_signature c ref <> Some signature ->
  record_stands (release_ticket c ref) signature ticket_ref until receipt.
Proof.
  unfold ticket_signature, release_ticket. intros (record & Hr & Hrec) Hne.
  destruct (ac_inflight_tickets c !! ref) as [ticket|]; [|by exists record].
  simpl in *. destruct (ac_idempotency_records c !! ift_signature ticket) as [other|];
    [|by exists record].
  destruct (ir_completed other); exists record; [done|]. simpl.
  rewrite lookup_delete_ne by congruence. done.
Qed.

Lemma stands_complete c signature ticket_ref until receipt ref result :
  record_stands c signature ticket_ref until receipt ->
  record_stands (record_completion c ref result) signature ticket_ref until
    (if bool_decide (ticket_signature c ref = Some signature)
     then Some (default (make_receipt_ref ref) (ds_receipt_ref result)) else receipt).
Proof.
  unfold ticket_signature, record_completion. intros (record & Hr & Hat & Hrec).
  destruct (ac_inflight_tickets c !! ref) as [ticket|]; simpl; [|by exists record].
  destruct (decide (ift_signature ticket = signature)) as [<-|Hne].
  - rewrite bool_decide_true by done. rewrite Hr. eexists. simpl.
    rewrite lookup_insert_eq. by split_and!.
  - rewrite bool_decide_false by congruence. exists record.
    destruct (ac_idempotency_records c !! ift_signature ticket); simpl; [|done].
    by rewrite lookup_insert_ne by done.
Qed.

Lemma stands_run signature ticket_ref until receipt c ops :
  record_stands c signature ticket_ref until receipt -> undisturbed signature until c ops ->
  record_stands (admission_run c ops) signature ticket_ref until
    (last_receipt signature receipt c ops).
Proof.
  revert c receipt. induction ops as [|op ops IH]; intros c receipt Hst; [done|].
  intros [Hop Hops]. simpl. apply IH; [|done].
  destruct op as [request now|ref|ref result]; simpl.
  - by apply stands_admit.
  - by apply stands_release.
  - by apply stands_complete.
Qed.

(** C12. Once a request is admitted, and as long as no call in between releases a
    ticket of its signature (a release forgets the request) or is made after the
    window, every later admission of its signature inside the window is refused: as
    [concurrency_limit_exceeded] where the tickets in flight leave no room, which is looked
    at first; otherwise as a conflict with the first ticket until a ticket of the signature
    completes, and from then on as a replay of the last completion's receipt. *)
Theorem admission_window c request ticket_ref t0 ops request' now :
  let c1 := fst (admit_request c request t0) in
  let result := snd (admit_request c request t0) in
  let signature := build_idempotency_signature request in
  aar_admitted result = true -> aar_ticket_ref result = Some ticket_ref ->
  undisturbed signature (expiry c t0) c1 ops ->
  build_idempotency_signature request' = signature -> now <= expiry c t0 ->
  let c2 := admission_run c1 ops in
  snd (admit_request c2 request' now) =
    if has_room c2 then standing_answer ticket_ref (last_receipt signature None c1 ops)
    else rejected_admission "concurrency_limit_exceeded".
Proof.
  intros c1 result signature Hadm Hticket Hun Hsig Hnow c2.
  assert (record_stands c1 signature ticket_ref (expiry c t0) None) as Hst.
  { subst c1 result signature. destruct (admit_cases c request t0)
      as [[_ E]|[(_ & _ & E)|[(_ & _ & answer & _ & Hna & E)|(_ & _ & _ & Hc)]]];
      [rewrite E in *; simpl in *; congruence..|].
    destruct Hc as (c' & r & E & _ & Ht & _ & _ & _ & Hr). rewrite E in *. simpl in *.
    eexists. rewrite Hr, lookup_insert_eq. split_and!; [done..|]. simpl. congruence. }
  apply (stands_run _ _ _ _ _ ops) in Hst; [|done]. fold c2 in Hst.
  pose proof (stands_answers _ _ _ _ _ _ (stands_pruned _ _ _ _ _ _ Hst Hnow) Hnow) as Ha.
  destruct (admit_cases c2 request' now)
    as [[-> ->]|[(-> & He & _)|[(-> & _ & answer & Hc & _ & ->)|(-> & _ & Hno & _)]]].
  - done.
  - rewrite Hsig in He. exfalso. subst signature result.
    destruct (admit_cases c request t0)
      as [[_ E]|[(_ & _ & E)|[(_ & _ & answer & _ & Hna & E)|(_ & Hne & _)]]];
      [rewrite E in *; simpl in *; congruence..|done].
  - rewrite Hsig in Hc. simpl. congruence.
  - rewrite Hsig in Hno. congruence.
Qed.

(** ** Bounds *)

(** After [n] calls: the tickets in flight are among the first ones numbered, and
    there are no more of them than the configuration allows. *)
Definition admission_inv (config : AccessAdmissionView) (n : Z) (c : AdmissionController)
    : Prop :=
  ac_config c = config /\ 0 <= ac_ticket_counter c <= n /\
  Z.of_nat (size (ac_inflight_tickets c)) <= Z.max 0 (aav_max_inflight_requests config) /\
  forall ref, is_Some (ac_inflight_tickets c !! ref) ->
    exists i, 1 <= i <= ac_ticket_counter c /\ ref = "ticket-" +:+ to_string i.

Lemma ticket_number_inj i j :
  in_u64 i -> in_u64 j -> "ticket-" +:+ to_string i = "ticket-" +:+ to_string j -> i = j.
Proof. intros Hi Hj H%string_app_inj. by apply to_string_inj. Qed.

Lemma delete_inv config n c ref c' :
  admission_inv config n c -> ac_config c' = ac_config c ->
  ac_ticket_counter c' = ac_ticket_counter c ->
  ac_inflight_tickets c' = delete ref (ac_inflight_tickets c) ->
  admission_inv config (n + 1) c'.
Proof.
  intros (Hcfg & Hn & Hsize & Hrefs) E1 E2 E3. unfold admission_inv. rewrite E1, E2, E3.
  split_and!; [done|lia|lia| |].
  - assert (size (delete ref (ac_inflight_tickets c)) <= size (ac_inflight_tickets c))%nat; [|lia].
    rewrite map_size_delete. destruct (ac_inflight_tickets c !! ref); simpl; lia.
  - intros ref' [t Ht]. apply lookup_delete_Some in Ht as [_ Ht]. by apply Hrefs.
Qed.

Lemma admission_inv_mono config n c : admission_inv config n c -> admission_inv config (n + 1) c.
Proof. intros (? & ? & ? & ?). split_and!; try done; lia. Qed.

Lemma next_ticket_fresh config n c :
  admission_inv config n c -> n < 2 ^ 64 - 1 -> ac_inflight_tickets c !! next_ticket c = None.
Proof.
  intros (_ & Hn & _ & Hrefs) Hlt. apply eq_None_not_Some. intros Hs.
  destruct (Hrefs _ Hs) as (i & Hi & Heq). unfold next_ticket in Heq.
  rewrite u64_id in Heq by (unfold in_u64; lia).
  apply ticket_number_inj in Heq; unfold in_u64; lia.
Qed.

Lemma admission_inv_step config n c op :
  admission_inv config n c -> n < 2 ^ 64 - 1 -> admission_inv config (n + 1) (admission_call c op).
Proof.
  intros Hinv Hlt. destruct op as [request now|ref|ref result]; simpl.
  - assert (admission_inv config (n + 1) (prune_expired_records now c)) as Hp
      by (by apply admission_inv_mono).
    destruct (admit_cases c request now)
      as [[_ ->]|[(_ & _ & ->)|[(_ & _ & answer & _ & _ & ->)|(Hroom & _ & _ & Hadm)]]];
      [done..|].
    destruct Hadm as (c' & result & -> & _ & _ & Hcfg & Hcount & Hin & _). simpl.
    pose proof (next_ticket_fresh _ _ _ Hinv Hlt) as Hfresh.
    destruct Hinv as (Ecfg & Hn & _ & Hrefs). unfold has_room, capacity in Hroom.
    rewrite andb_true_iff, !Z.ltb_lt, Ecfg in Hroom.
    unfold admission_inv. rewrite Hcfg, Hcount, Hin, map_size_insert_None by done.
    rewrite u64_id by (unfold in_u64; lia). split_and!; [done|lia|lia|lia|].
    intros ref Hs. destruct (decide (ref = next_ticket c)) as [->|Hne].
    + exists (ac_ticket_counter c + 1). split; [lia|]. unfold next_ticket.
      by rewrite u64_id by (unfold in_u64; lia).
    + rewrite lookup_insert_ne in Hs by done. destruct (Hrefs _ Hs) as (i & Hi & ->).
      exists i. split; [lia|done].
  - unfold release_ticket. destruct (ac_inflight_tickets c !! ref) as [t|]; [|by apply admission_inv_mono].
    simpl. destruct (ac_idempotency_records c !! ift_signature t) as [r|];
      [destruct (ir_completed r)|]; by eapply delete_inv.
  - unfold record_completion.
    destruct (ac_inflight_tickets c !! ref) as [t|]; [|by apply admission_inv_mono].
    destruct (ac_idempotency_records c !! ift_signature t) as [r|]; by eapply delete_inv.
Qed.

Lemma admission_inv_run config n c ops :
  admission_inv config n c -> n + Z.of_nat (length ops) < 2 ^ 64 ->
  admission_inv config (n + Z.of_nat (length ops)) (admission_run c ops).
Proof.
  revert n c. induction ops as [|op ops IH]; intros n c Hinv Hlt; simpl in *.
  - by rewrite Z.add_0_r.
  - replace (n + Z.of_nat (S (length ops))) with (n + 1 + Z.of_nat (length ops)) by lia.
    apply IH; [|lia]. apply admission_inv_step; [done|lia].
Qed.

(** The tickets issued from a state carry numbers above its counter. *)
Lemma issued_above config n c ops ref :
  admission_inv config n c -> n + Z.of_nat (length ops) < 2 ^ 64 ->
  ref ∈ issued_tickets c ops ->
  exists i, ac_ticket_counter c < i <= n + Z.of_nat (length ops) /\
    ref = "ticket-" +:+ to_string i.
Proof.
  revert n c. induction ops as [|op ops IH]; intros n c Hinv Hlt Hin; simpl in *; [set_solver|].
  pose proof (admission_inv_step config n c op Hinv ltac:(lia)) as Hinv'.
  assert (ac_ticket_counter c <= ac_ticket_counter (admission_call c op) /\
    forall ref, issued c op = Some ref ->
      ref = next_ticket c /\ ac_ticket_counter (admission_call c op) = ac_ticket_counter c + 1)
    as [Hmono Hissued].
  { destruct Hinv as (_ & Hn & _). destruct op as [request now|r|r result]; simpl.
    - destruct (admit_cases c request now)
        as [[_ ->]|[(_ & _ & ->)|[(_ & _ & answer & _ & Hna & ->)|(_ & _ & _ & Hadm)]]];
        [by simpl..|simpl; rewrite Hna; by split|].
      destruct Hadm as (c' & result & -> & Ha & Ht & _ & Hcount & _). simpl. rewrite Ha, Ht, Hcount.
      rewrite u64_id by (unfold in_u64; lia). split; [lia|]. by intros ? [= <-].
    - unfold release_ticket. by repeat case_match.
    - unfold record_completion. by repeat case_match. }
  apply elem_of_app in Hin as [Hin|Hin].
  - destruct (issued c op) as [r|] eqn:Eop; [|by apply elem_of_nil in Hin].
    simpl in Hin. apply list_elem_of_singleton in Hin as ->.
    destruct (Hissued r eq_refl) as [-> Hc]. destruct Hinv as (_ & Hn & _).
    exists (ac_ticket_counter c + 1). split; [lia|]. unfold next_ticket.
    by rewrite u64_id by (unfold in_u64; lia).
  - destruct (IH (n + 1) _ Hinv' ltac:(lia) Hin) as (i & Hi & ->). exists i. split; [lia|done].
Qed.

Lemma issued_next config n c op ref :
  admission_inv config n c -> n < 2 ^ 64 - 1 -> issued c op = Some ref ->
  ref = "ticket-" +:+ to_string (ac_ticket_counter (admission_call c op)).
Proof.
  intros (_ & Hn & _) Hlt. destruct op as [request now|r|r result]; simpl; [|done..].
  destruct (admit_cases c request now)
    as [[_ ->]|[(_ & _ & ->)|[(_ & _ & answer & _ & Hna & ->)|(_ & _ & _ & Hadm)]]];
    [done..|simpl; by rewrite Hna|].
  destruct Hadm as (c' & result & -> & Ha & Ht & _ & Hcount & _). simpl. rewrite Ha, Ht, Hcount.
  by intros [= <-].
Qed.

Lemma issued_nodup config n c ops :
  admission_inv config n c -> n + Z.of_nat (length ops) < 2 ^ 64 ->
  NoDup (issued_tickets c ops).
Proof.
  revert n c. induction ops as [|op ops IH]; intros n c Hinv Hlt; simpl in *; [constructor|].
  pose proof (admission_inv_step config n c op Hinv ltac:(lia)) as Hinv'.
  pose proof (IH (n + 1) _ Hinv' ltac:(lia)) as Hnd.
  destruct (issued c op) as [ref|] eqn:E; [|done]. simpl. constructor; [|done].
  intros Hin. pose proof (issued_next _ _ _ _ _ Hinv ltac:(lia) E) as ->.
  destruct (issued_above config (n + 1) _ ops _ Hinv' ltac:(lia) Hin) as (i & Hi & Heq).
  destruct Hinv' as (_ & Hn & _). apply ticket_number_inj in Heq; unfold in_u64; lia.
Qed.

(** In every run of fewer than 2{^64} calls the requests in flight stay within
    the configured limit, and no ticket is issued twice. *)
Theorem admission_bounded config ops :
  Z.of_nat (length ops) < 2 ^ 64 ->
  let c := admission_run (new_admission_controller config) ops in
  Z.of_nat (size (ac_inflight_tickets c)) <= Z.max 0 (aav_max_inflight_requests config) /\
  NoDup (issued_tickets (new_admission_controller config) ops).
Proof.
  intros Hlt c.
  assert (admission_inv config 0 (new_admission_controller config)) as Hinv.
  { unfold admission_inv. simpl. split_and!; [done|lia|lia|rewrite map_size_empty; lia|].
    intros ref [t Ht]. by rewrite lookup_empty in Ht. }
  split; [|by eapply issued_nodup]. destruct (admission_inv_run _ _ _ ops Hinv Hlt) as (_ & _ & ? & _).
  done.
Qed.

(** ** After the window *)

Lemma admitted_state c request now :
  aar_admitted (snd (admit_request c request now)) = true ->
  let signature := build_idempotency_signature request in
  let c' := fst (admit_request c request now) in
  has_room c = true /\ signature <> "" /\
  aar_ticket_ref (snd (admit_request c request now)) = Some (next_ticket c) /\
  ac_config c' = ac_config c /\
  ac_inflight_tickets c' = <[next_ticket c :=
    {| ift_ticket_ref := next_ticket c; ift_signature := signature; ift_issued_at := now |}]>
    (ac_inflight_tickets c) /\
  record_stands c' signature (next_ticket c) (expiry c now) None.
Proof.
  intros Hadm signature c'. subst c'.
  destruct (admit_cases c request now)
    as [[_ E]|[(_ & _ & E)|[(_ & _ & answer & _ & Hna & E)|(Hroom & Hne & _ & Hc)]]];
    [rewrite E in *; simpl in *; congruence..|].
  destruct Hc as (c' & r & E & _ & Ht & Hcfg & _ & Hin & Hrec). rewrite E in *. simpl in *.
  split_and!; [done..|]. eexists. by rewrite Hrec, lookup_insert_eq.
Qed.

Lemma unanswered_admitted c request now :
  has_room c = true -> build_idempotency_signature request <> "" ->
  check_idempotency (prune_expired_records now c) (build_idempotency_signature request) now
    = None ->
  aar_admitted (snd (admit_request c request now)) = true.
Proof.
  intros Hroom Hne Hno. destruct (admit_cases c request now)
    as [[H _]|[(_ & H & _)|[(_ & _ & answer & H & _)|(_ & _ & _ & Hc)]]]; [congruence..|].
  by destruct Hc as (c' & r & -> & Ha & _).
Qed.

Lemma answered c request now answer :
  has_room c = true -> build_idempotency_signature request <> "" ->
  check_idempotency (prune_expired_records now c) (build_idempotency_signature request) now
    = Some answer ->
  snd (admit_request c request now) = answer.
Proof.
  intros Hroom Hne Hyes. destruct (admit_cases c request now)
    as [[H _]|[(_ & H & _)|[(_ & _ & a & H & _ & ->)|(_ & _ & H & _)]]]; simpl; congruence.
Qed.

(** A record whose time is over answers nothing, pruned or not. *)
Lemma late_unanswered c signature ticket_ref until receipt now :
  record_stands c signature ticket_ref until receipt -> until < now ->
  check_idempotency (prune_expired_records now c) signature now = None.
Proof.
  intros (record & Hr & <- & _) Hlt. unfold check_idempotency.
  destruct (ac_idempotency_records (prune_expired_records now c) !! signature) as [record'|] eqn:E;
    [|done].
  apply prune_lookup in E. assert (record' = record) as -> by congruence.
  by rewrite (proj2 (Z.ltb_lt _ _)) by lia.
Qed.

Lemma absent_unanswered c signature now :
  ac_idempotency_records c !! signature = None ->
  check_idempotency (prune_expired_records now c) signature now = None.
Proof.
  intros Hno. unfold check_idempotency.
  destruct (ac_idempotency_records (prune_expired_records now c) !! signature) as [r|] eqn:E;
    [|done].
  apply prune_lookup in E. congruence.
Qed.

Lemma has_room_true c :
  has_room c = true <-> 0 < capacity c /\ Z.of_nat (size (ac_inflight_tickets c)) < capacity c.
Proof. unfold has_room. by rewrite andb_true_iff, !Z.ltb_lt. Qed.

(** Two tickets of one signature in flight, the record the second's. *)
Record doubled (c : AdmissionController) (signature k1 k2 : string) (now : Z) : Prop := {
  db_ne : k1 <> k2;
  db_first : ticket_signature c k1 = Some signature;
  db_second : ticket_signature c k2 = Some signature;
  db_room : Z.of_nat (size (ac_inflight_tickets c)) <= capacity c;
  db_record : exists until, now <= until /\ record_stands c signature k2 until None;
}.

Lemma doubled_release c request k1 k2 now :
  let signature := build_idempotency_signature request in
  signature <> "" -> doubled c signature k1 k2 now ->
  aar_admitted (snd (admit_request (release_ticket c k1) request now)) = true /\
  ticket_signature (release_ticket c k1) k2 = Some signature.
Proof.
  intros signature Hne [Hk H1 H2 Hroom (until & Hnow & record & Hr & _ & Hopen & _)].
  unfold ticket_signature in *. unfold release_ticket.
  destruct (ac_inflight_tickets c !! k1) as [t|] eqn:E1; [|done]. simpl in H1.
  assert (ift_signature t = signature) as -> by congruence. simpl. rewrite Hr, Hopen. simpl.
  split; [|by rewrite lookup_delete_ne by done].
  apply unanswered_admitted; [|done|].
  - apply has_room_true. unfold capacity in *. simpl. rewrite map_size_delete, E1.
    assert (size (ac_inflight_tickets c) <> 0%nat); [|simpl; lia].
    intros H0. apply map_size_empty_inv in H0. by rewrite H0, lookup_empty in E1.
  - apply absent_unanswered. simpl. apply lookup_delete_eq.
Qed.

Lemma doubled_completion c request k1 k2 now completion :
  let signature := build_idempotency_signature request in
  signature <> "" -> doubled c signature k1 k2 now ->
  snd (admit_request (record_completion c k1 completion) request now)
  = replay_of (default (make_receipt_ref k1) (ds_receipt_ref completion)) /\
  ticket_signature (record_completion c k1 completion) k2 = Some signature.
Proof.
  intros signature Hne [Hk H1 H2 Hroom (until & Hnow & Hst)].
  pose proof (stands_complete _ _ _ _ _ k1 completion Hst) as Hst'.
  rewrite bool_decide_true in Hst' by done.
  assert (ac_config (record_completion c k1 completion) = ac_config c /\
    ac_inflight_tickets (record_completion c k1 completion)
    = delete k1 (ac_inflight_tickets c)) as [Hcfg Hin].
  { unfold ticket_signature in H1. unfold record_completion.
    destruct (ac_inflight_tickets c !! k1) as [t|]; [|done].
    by destruct (ac_idempotency_records c !! ift_signature t). }
  split.
  - change (replay_of ?r) with (standing_answer k2 (Some r)).
    apply answered; [|done|].
    + apply has_room_true. unfold capacity in *. rewrite Hcfg, Hin, map_size_delete.
      unfold ticket_signature in H1.
      destruct (ac_inflight_tickets c !! k1) as [t|] eqn:E1; [|done].
      assert (size (ac_inflight_tickets c) <> 0%nat); [|simpl; lia].
      intros H0. apply map_size_empty_inv in H0. by rewrite H0, lookup_empty in E1.
    + eapply stands_answers; [|done]. by eapply stands_pruned.
  - unfold ticket_signature in *. by rewrite Hin, lookup_delete_ne by done.
Qed.

(** A request still in flight when its window ends is admitted a second time.
    The two share one record from then on, inside the second window too: if the
    first is released, the request is admitted a third time while the second is
    in flight, and if the first completes, its receipt answers the request although
    the second is still in flight. *)
Theorem duplicate_after_window c request t0 t1 :
  let c1 := fst (admit_request c request t0) in
  let c2 := fst (admit_request c1 request t1) in
  let k1 := next_ticket c in
  let k2 := next_ticket c1 in
  let signature := build_idempotency_signature request in
  aar_admitted (snd (admit_request c request t0)) = true ->
  expiry c t0 < t1 -> 0 <= aav_idempotency_window_ms (ac_config c) ->
  Z.of_nat (size (ac_inflight_tickets c1)) < capacity c ->
  ac_inflight_tickets c1 !! k2 = None ->
  aar_admitted (snd (admit_request c1 request t1)) = true /\ k1 <> k2 /\
  ticket_signature c2 k1 = Some signature /\ ticket_signature c2 k2 = Some signature /\
  (aar_admitted (snd (admit_request (release_ticket c2 k1) request t1)) = true /\
   ticket_signature (release_ticket c2 k1) k2 = Some signature) /\
  (forall completion,
     snd (admit_request (record_completion c2 k1 completion) request t1)
     = replay_of (default (make_receipt_ref k1) (ds_receipt_ref completion)) /\
     ticket_signature (record_completion c2 k1 completion) k2 = Some signature).
Proof.
  intros c1 c2 k1 k2 signature Hadm Hlate Hwin Hroom Hfresh.
  destruct (admitted_state _ _ _ Hadm) as (Hroom0 & Hne & _ & Hcfg1 & Hin1 & Hst1).
  fold c1 signature k1 in Hcfg1, Hin1, Hst1.
  assert (aar_admitted (snd (admit_request c1 request t1)) = true) as Hadm2.
  { apply unanswered_admitted; [|done|by eapply late_unanswered].
    apply has_room_true in Hroom0. apply has_room_true. unfold capacity in *.
    rewrite Hcfg1. lia. }
  destruct (admitted_state _ _ _ Hadm2) as (_ & _ & _ & Hcfg2 & Hin2 & Hst2).
  fold c2 signature k2 in Hcfg2, Hin2, Hst2.
  assert (k1 <> k2) as Hk by (intros H; by rewrite Hin1, H, lookup_insert_eq in Hfresh).
  assert (doubled c2 signature k1 k2 t1) as Hdb.
  { split; [done|..].
    - unfold ticket_signature. rewrite Hin2, lookup_insert_ne by done.
      by rewrite Hin1, lookup_insert_eq.
    - unfold ticket_signature. by rewrite Hin2, lookup_insert_eq.
    - unfold capacity in *. rewrite Hcfg2, Hcfg1, Hin2, map_size_insert_None by done. lia.
    - exists (expiry c1 t1). split; [|done]. unfold expiry, milliseconds. rewrite Hcfg1. lia. }
  split; [done|]. split; [done|]. split; [apply Hdb|]. split; [apply Hdb|].
  split; [by apply doubled_release|]. intros completion. by apply doubled_completion.
Qed.

(** ** Signatures *)

Definition no_bar (s : string) : bool := all_chars (fun ch => negb (bool_decide (ch = "|"%char))) s.

(** What a signature ends with: the client's key, or the packet's own id. *)
Definition operation_key (request : RuntimeDispatchRequest) : string :=
  match dr_request_context request !! "idempotency_key" with
  | Some key => if is_empty key then ip_packet_id (dr_packet request) else key
  | None => ip_packet_id (dr_packet request)
  end.

Definition operation_scope (request : RuntimeDispatchRequest) : string * string * string :=
  (ip_entry_type (dr_packet request), ip_protocol_kind (dr_packet request),
   si_actor_ref (dr_subject_identity request)).

Lemma signature_text request :
  build_idempotency_signature request <> "" ->
  let '(entry, protocol, actor) := operation_scope request in
  build_idempotency_signature request =
    entry +:+ String "|" (protocol +:+ String "|" (actor +:+ String "|" (operation_key request))).
Proof.
  unfold build_idempotency_signature, operation_scope, operation_key.
  destruct (dr_request_context request !! "idempotency_key") as [key|];
    [destruct (is_empty key)|]; try done; by destruct (_ || _).
Qed.

(** Two requests that have a signature share it exactly when they agree on the
    entry, the protocol, the actor and the key, provided no bar occurs in the first
    three; the key of one may be the packet id of the other. *)
Theorem signature_scope r1 r2 :
  build_idempotency_signature r1 <> "" -> build_idempotency_signature r2 <> "" ->
  (forall r, r = r1 \/ r = r2 -> let '(entry, protocol, actor) := operation_scope r in
     no_bar entry = true /\ no_bar protocol = true /\ no_bar actor = true) ->
  build_idempotency_signature r1 = build_idempotency_signature r2 <->
  operation_scope r1 = operation_scope r2 /\ operation_key r1 = operation_key r2.
Proof.
  intros H1%signature_text H2%signature_text Hbar.
  pose proof (Hbar r1 (or_introl eq_refl)) as Hb1.
  pose proof (Hbar r2 (or_intror eq_refl)) as Hb2. clear Hbar.
  destruct (operation_scope r1) as [[e1 p1] a1], (operation_scope r2) as [[e2 p2] a2].
  destruct Hb1 as (? & ? & ?), Hb2 as (? & ? & ?). rewrite H1, H2.
  split; [|by intros [[= -> -> ->] ->]].
  intros E. do 3 (apply separator_inj in E as [-> E]; [|done..]). by rewrite E.
Qed.

(** ** Examples *)

Definition sample_view : AccessAdmissionView :=
  {| aav_idempotency_window_ms := 1000; aav_max_inflight_requests := 4;
     aav_dispatch_deadline_ms := 30000; aav_default_deny := true |}.

Definition sample_request : RuntimeDispatchRequest := sample_dispatch "user://cli/ann" "p1" "k1".

(** An actor with a bar in its name shares a signature with another. *)
Example bars_collide :
  build_idempotency_signature (sample_dispatch "ann|x" "p" "k")
  = build_idempotency_signature (sample_dispatch "ann" "p" "x|k").
Proof. reflexivity. Qed.

Lemma admission_bounded_witness :
  NoDup (issued_tickets (new_admission_controller sample_view)
    [Admit sample_request 0; Release "ticket-1"; Admit sample_request 1]).
Proof.
  destruct (admission_bounded sample_view
    [Admit sample_request 0; Release "ticket-1"; Admit sample_request 1]) as [_ H];
    [simpl; lia|exact H].
Defined.

Lemma admission_window_witness :
  let c := new_admission_controller sample_view in
  snd (admit_request (admission_run (fst (admit_request c sample_request 0))
    [Complete "ticket-1" sample_completion]) (sample_dispatch "user://cli/ann" "p2" "k1") 5)
  = replay_of "receipt-for-ticket-1".
Proof.
  pose proof (admission_window (new_admission_controller sample_view) sample_request
    "ticket-1" 0 [Complete "ticket-1" sample_completion]
    (sample_dispatch "user://cli/ann" "p2" "k1") 5) as H.
  refine (H _ _ _ _ _); try reflexivity.
  - split; exact I.
  - vm_compute. discriminate.
Defined.

Lemma duplicate_after_window_witness :
  let c := new_admission_controller sample_view in
  aar_admitted (snd (admit_request (fst (admit_request c sample_request 0)) sample_request 1000000001)) = true.
Proof.
  pose proof (duplicate_after_window (new_admission_controller sample_view) sample_request
    0 1000000001) as H.
  refine (proj1 (H _ _ _ _ _)); vm_compute; first [reflexivity | discriminate].
Defined.

Lemma signature_scope_witness :
  build_idempotency_signature (sample_dispatch "ann" "p" "k")
  <> build_idempotency_signature (sample_dispatch "bob" "p" "k").
Proof.
  intros H.
  pose proof (signature_scope (sample_dispatch "ann" "p" "k") (sample_dispatch "bob" "p" "k")) as S.
  destruct S as [S _]; [discriminate|discriminate|by intros r [-> | ->]|].
  destruct (S H) as [E _]. discriminate E.
Defined.
