(* ===== verification/ReplayCache.v ===== *)
(** * Result replay cache

    access/src/ResultReplayCache.{h,cpp}: results kept for a while to answer a
    repeated request, the least recently used dropped first. The keys are held in
    a linked list, and each entry holds an iterator into it: nodes of the list are
    modelled by identity, and an iterator is the identity of its node. Erasing
    through an iterator whose node is gone gives [None]. The clock is an argument;
    [evict_expired] reads it anew for each entry. *)

From S2P Require Import Prelude AccessTypes.

Record CacheEntry := {
  ce_envelope : PublishEnvelope;
  ce_expires_at : Z;
  ce_lru_it : Z;
}.

(** [rrc_next_node] numbers the next list node to be allocated. *)
Record ResultReplayCache := {
  rrc_capacity : Z;
  rrc_ttl : Z;
  rrc_lru_keys : list (Z * string);
  rrc_next_node : Z;
  rrc_entries : gmap string CacheEntry;
}.

Definition new_result_replay_cache (capacity ttl_ms : Z) : ResultReplayCache :=
  {| rrc_capacity := if capacity =? 0 then 1 else capacity;
     rrc_ttl := milliseconds (if ttl_ms <=? 0 then 10 * 60 * 1000 else ttl_ms);
     rrc_lru_keys := []; rrc_next_node := 0; rrc_entries := ∅ |}.

Definition with_lru (keys : list (Z * string)) (c : ResultReplayCache) : ResultReplayCache :=
  {| rrc_capacity := rrc_capacity c; rrc_ttl := rrc_ttl c; rrc_lru_keys := keys;
     rrc_next_node := rrc_next_node c; rrc_entries := rrc_entries c |}.

Definition with_entries (entries : gmap string CacheEntry) (c : ResultReplayCache)
    : ResultReplayCache :=
  {| rrc_capacity := rrc_capacity c; rrc_ttl := rrc_ttl c; rrc_lru_keys := rrc_lru_keys c;
     rrc_next_node := rrc_next_node c; rrc_entries := entries |}.

(** ** Operations *)

(** [lru_keys_.erase(it)] *)
Fixpoint erase_node (it : Z) (keys : list (Z * string)) : option (list (Z * string)) :=
  match keys with
  | [] => None
  | node :: rest =>
      if fst node =? it then Some rest else
      let? rest := erase_node it rest else None in
      Some (node :: rest)
  end.

(** [lru_keys_.push_front(key)]; the node's identity is that of [begin()]. *)
Definition push_front (key : string) (c : ResultReplayCache) : ResultReplayCache * Z :=
  ({| rrc_capacity := rrc_capacity c; rrc_ttl := rrc_ttl c;
      rrc_lru_keys := (rrc_next_node c, key) :: rrc_lru_keys c;
      rrc_next_node := rrc_next_node c + 1; rrc_entries := rrc_entries c |}, rrc_next_node c).

Definition erase_entry (key : string) (entry : CacheEntry) (c : ResultReplayCache)
    : option ResultReplayCache :=
  let? keys := erase_node (ce_lru_it entry) (rrc_lru_keys c) else None in
  Some (with_entries (delete key (rrc_entries c)) (with_lru keys c)).

(** The loop takes keys from the back; [None] when there is none left to take. *)
Fixpoint evict_loop (capacity : Z) (backwards : list (Z * string))
    (entries : gmap string CacheEntry) : option (list (Z * string) * gmap string CacheEntry) :=
  if Z.of_nat (size entries) <=? capacity then Some (rev backwards, entries) else
  match backwards with
  | [] => None
  | node :: rest => evict_loop capacity rest (delete (snd node) entries)
  end.

Definition evict_if_needed_locked (c : ResultReplayCache) : option ResultReplayCache :=
  let? evicted := evict_loop (rrc_capacity c) (rev (rrc_lru_keys c)) (rrc_entries c) else None in
  Some (with_entries (snd evicted) (with_lru (fst evicted) c)).

(** The clock and the lifetime are of one unit, the nanoseconds of the steady clock, and their sum
    is taken to fit its 64 signed bits, as it does for the next centuries of uptime with the
    lifetimes the pipelines configure. *)
Definition put (c : ResultReplayCache) (key : string) (envelope : PublishEnvelope) (now : Z)
    : option ResultReplayCache :=
  let expires_at := now + rrc_ttl c in
  let? c :=
    match rrc_entries c !! key with
    | Some existed => erase_entry key existed c
    | None => Some c
    end
  else None in
  let '(c, it) := push_front key c in
  let entry :=
    {| ce_envelope := envelope; ce_expires_at := expires_at; ce_lru_it := it |} in
  evict_if_needed_locked (with_entries (<[key := entry]> (rrc_entries c)) c).

Definition is_expired_locked (entry : CacheEntry) (now : Z) : bool :=
  ce_expires_at entry <=? now.

Definition touch_lru_locked (c : ResultReplayCache) (key : string) (entry : CacheEntry)
    : option ResultReplayCache :=
  let? keys := erase_node (ce_lru_it entry) (rrc_lru_keys c) else None in
  let '(c, it) := push_front key (with_lru keys c) in
  Some (with_entries
          (<[key := {| ce_envelope := ce_envelope entry; ce_expires_at := ce_expires_at entry;
                       ce_lru_it := it |}]> (rrc_entries c)) c).

Definition lookup_result (c : ResultReplayCache) (key : string) (now : Z)
    : option (ResultReplayCache * option PublishEnvelope) :=
  match rrc_entries c !! key with
  | None => Some (c, None)
  | Some entry =>
      if is_expired_locked entry now then
        let? c := erase_entry key entry c else None in
        Some (c, None)
      else
        let? c := touch_lru_locked c key entry else None in
        Some (c, Some (ce_envelope entry))
  end.

Definition erase_result (c : ResultReplayCache) (key : string)
    : option (ResultReplayCache * bool) :=
  match rrc_entries c !! key with
  | None => Some (c, false)
  | Some entry =>
      let? c := erase_entry key entry c else None in
      Some (c, true)
  end.

(** The map's entries in the order the iteration visits them. *)
Fixpoint evict_expired (c : ResultReplayCache) (visit : list string) (clock : string -> Z)
    : option (ResultReplayCache * Z) :=
  match visit with
  | [] => Some (c, 0)
  | key :: visit =>
      let? entry := rrc_entries c !! key else None in
      if negb (is_expired_locked entry (clock key)) then evict_expired c visit clock else
      let? c := erase_entry key entry c else None in
      let? result := evict_expired c visit clock else None in
      Some (fst result, 1 + snd result)
  end.

Definition cache_size (c : ResultReplayCache) : Z := Z.of_nat (size (rrc_entries c)).

(** ** What the cache promises

    A list of results, the most recently used first, of at most the capacity. *)

Record CachedResult := {
  cr_key : string;
  cr_envelope : PublishEnvelope;
  cr_expires_at : Z;
}.

Definition without (key : string) (l : list CachedResult) : list CachedResult :=
  filter (fun r => cr_key r <> key) l.

Definition cached (key : string) (l : list CachedResult) : option CachedResult :=
  List.find (fun r => bool_decide (cr_key r = key)) l.

Inductive cache_op :=
| Put (key : string) (envelope : PublishEnvelope) (now : Z)
| Lookup (key : string) (now : Z)
| Erase (key : string)
| EvictExpired (visit : list string) (clock : string -> Z).

Inductive cache_answer :=
| Done
| Found (envelope : option PublishEnvelope)
| Erased (existed : bool)
| Evicted (count : Z).

Definition spec_call (capacity ttl : Z) (l : list CachedResult) (op : cache_op)
    : list CachedResult * cache_answer :=
  match op with
  | Put key envelope now =>
      (take (Z.to_nat capacity)
         ({| cr_key := key; cr_envelope := envelope; cr_expires_at := now + ttl |}
          :: without key l), Done)
  | Lookup key now =>
      match cached key l with
      | None => (l, Found None)
      | Some r =>
          if cr_expires_at r <=? now then (without key l, Found None)
          else (r :: without key l, Found (Some (cr_envelope r)))
      end
  | Erase key => (without key l, Erased (bool_decide (is_Some (cached key l))))
  | EvictExpired _ clock =>
      let kept := filter (fun r => clock (cr_key r) < cr_expires_at r) l in
      (kept, Evicted (Z.of_nat (length l) - Z.of_nat (length kept)))
  end.

Definition cache_call (c : ResultReplayCache) (op : cache_op)
    : option (ResultReplayCache * cache_answer) :=
  match op with
  | Put key envelope now => (fun c => (c, Done)) <$> put c key envelope now
  | Lookup key now => (fun r => (fst r, Found (snd r))) <$> lookup_result c key now
  | Erase key => (fun r => (fst r, Erased (snd r))) <$> erase_result c key
  | EvictExpired visit clock =>
      (fun r => (fst r, Evicted (snd r))) <$> evict_expired c visit clock
  end.

(** ** The representation

    The entries and the list nodes are two views of one list of slots. *)

Record Slot := {
  sl_node : Z;
  sl_result : CachedResult;
}.

Definition sl_key (s : Slot) : string := cr_key (sl_result s).

Definition slot_node (s : Slot) : Z * string := (sl_node s, sl_key s).

Definition slot_entry (s : Slot) : string * CacheEntry :=
  (sl_key s, {| ce_envelope := cr_envelope (sl_result s);
                ce_expires_at := cr_expires_at (sl_result s); ce_lru_it := sl_node s |}).

Definition slots_of (entries : gmap string CacheEntry) (slots : list Slot) : Prop :=
  NoDup (sl_key <$> slots) /\ entries = list_to_map (slot_entry <$> slots).

Definition represents (slots : list Slot) (c : ResultReplayCache) : Prop :=
  slots_of (rrc_entries c) slots /\ rrc_lru_keys c = slot_node <$> slots /\
  NoDup (sl_node <$> slots) /\ Forall (fun s => sl_node s < rrc_next_node c) slots.

Definition drop_key (key : string) (slots : list Slot) : list Slot :=
  filter (fun s => sl_key s <> key) slots.

Lemma fst_slot_entry slots : (slot_entry <$> slots).*1 = sl_key <$> slots.
Proof. rewrite <-list_fmap_compose. done. Qed.

Lemma slots_lookup entries slots key entry :
  slots_of entries slots ->
  entries !! key = Some entry <-> exists s, s ∈ slots /\ slot_entry s = (key, entry).
Proof.
  intros [Hnd ->]. rewrite <-elem_of_list_to_map by (by rewrite fst_slot_entry).
  rewrite list_elem_of_fmap. naive_solver.
Qed.

Lemma slots_size entries slots : slots_of entries slots -> size entries = length slots.
Proof.
  intros [Hnd ->]. rewrite map_size_list_to_map by (by rewrite fst_slot_entry).
  by rewrite length_fmap.
Qed.

Lemma slots_sublist slots slots' :
  NoDup (sl_key <$> slots) -> sublist slots' slots -> NoDup (sl_key <$> slots').
Proof. intros Hnd Hs. eapply sublist_NoDup; [exact Hnd|]. by apply sublist_fmap. Qed.

Lemma slots_delete entries slots key :
  slots_of entries slots -> slots_of (delete key entries) (drop_key key slots).
Proof.
  intros [Hnd ->]. split; [by eapply slots_sublist, sublist_filter|].
  clear Hnd. unfold drop_key. induction slots as [|s slots IH]; [apply delete_empty|].
  rewrite filter_cons. cbn [fmap list_fmap list_to_map foldr slot_entry fst snd].
  destruct (decide (sl_key s <> key)) as [Hne|He].
  - cbn [fmap list_fmap list_to_map foldr fst snd]. rewrite delete_insert_ne by done.
    f_equal. exact IH.
  - apply dec_stable in He. rewrite <-He at 1. rewrite delete_insert_eq, He. exact IH.
Qed.

(** Erasing the node a slot points at drops the slot's key. *)
Lemma erase_node_drop slots s :
  s ∈ slots -> NoDup (sl_key <$> slots) -> NoDup (sl_node <$> slots) ->
  erase_node (sl_node s) (slot_node <$> slots) = Some (slot_node <$> drop_key (sl_key s) slots).
Proof.
  intros Hin. induction slots as [|s' slots IH]; [by apply elem_of_nil in Hin|].
  rewrite !fmap_cons, !NoDup_cons. intros [Hk Hks] [Hn Hns]. cbn [erase_node slot_node fst].
  unfold drop_key. rewrite filter_cons. apply elem_of_cons in Hin as [->|Hin].
  - rewrite Z.eqb_refl, decide_False by auto. do 2 f_equal.
    symmetry. apply filter_all, Forall_forall. intros x Hx Heq.
    apply Hk. rewrite <-Heq. by apply list_elem_of_fmap_2.
  - assert (sl_node s' <> sl_node s) as Hne.
    { intros E. apply Hn. rewrite E. by apply list_elem_of_fmap_2. }
    assert (sl_key s' <> sl_key s) as Hke.
    { intros E. apply Hk. rewrite E. by apply list_elem_of_fmap_2. }
    rewrite (proj2 (Z.eqb_neq _ _)) by done. rewrite decide_True by done.
    by rewrite (IH Hin Hks Hns).
Qed.

(** ** The operations keep the representation *)

Lemma represents_lookup slots c key entry :
  represents slots c ->
  rrc_entries c !! key = Some entry <-> exists s, s ∈ slots /\ slot_entry s = (key, entry).
Proof. intros (Hs & _). by apply slots_lookup. Qed.

Lemma represents_erase slots c key entry :
  represents slots c -> rrc_entries c !! key = Some entry ->
  exists c', erase_entry key entry c = Some c' /\ represents (drop_key key slots) c' /\
    rrc_capacity c' = rrc_capacity c /\ rrc_ttl c' = rrc_ttl c.
Proof.
  intros Hrep Hl. pose proof Hrep as (Hs & Hlru & Hnd & Hnext).
  apply (represents_lookup _ _ _ _ Hrep) in Hl as (s & Hin & [= <- <-]).
  unfold erase_entry. simpl. rewrite Hlru, erase_node_drop by (done || apply Hs).
  eexists. split; [reflexivity|]. split; [|done]. split_and!; simpl; [|done|..].
  - by apply slots_delete.
  - eapply sublist_NoDup; [exact Hnd|]. apply sublist_fmap, sublist_filter.
  - rewrite Forall_forall in Hnext |- *. intros s' [_ Hin']%list_elem_of_filter.
    by apply Hnext.
Qed.

Lemma drop_key_fresh key slots : key ∉ sl_key <$> drop_key key slots.
Proof.
  intros (s & -> & Hin)%list_elem_of_fmap. by apply list_elem_of_filter in Hin as [Hne _].
Qed.

(** A new node and its entry, whose key is not held yet. *)
Lemma represents_push slots c key envelope expires_at :
  represents slots c -> key ∉ sl_key <$> slots ->
  let '(c', it) := push_front key c in
  represents
    ({| sl_node := it; sl_result := {| cr_key := key; cr_envelope := envelope;
                                       cr_expires_at := expires_at |} |} :: slots)
    (with_entries (<[key := {| ce_envelope := envelope; ce_expires_at := expires_at;
                               ce_lru_it := it |}]> (rrc_entries c')) c').
Proof.
  intros ([Hnd Hent] & Hlru & Hnodes & Hnext) Hfresh. simpl. split_and!; simpl.
  - split; [by constructor|]. simpl. by rewrite Hent.
  - by rewrite Hlru.
  - constructor; [|done]. intros (s & Heq & Hin)%list_elem_of_fmap.
    rewrite Forall_forall in Hnext. specialize (Hnext s Hin). lia.
  - constructor; [simpl; lia|]. eapply Forall_impl; [exact Hnext|]. simpl. lia.
Qed.

Lemma evict_loop_take capacity slots entries :
  0 <= capacity -> slots_of entries slots ->
  exists entries', evict_loop capacity (rev (slot_node <$> slots)) entries
    = Some (slot_node <$> take (Z.to_nat capacity) slots, entries') /\
    slots_of entries' (take (Z.to_nat capacity) slots).
Proof.
  intros Hcap. revert entries. induction slots as [|s slots IH] using rev_ind; intros entries Hs.
  - exists entries. pose proof (slots_size _ _ Hs) as Hsize. rewrite take_nil. split; [|done].
    simpl in *. rewrite Hsize. by rewrite (proj2 (Z.leb_le _ _)) by (simpl; lia).
  - pose proof (slots_size _ _ Hs) as Hsize. rewrite length_app in Hsize. simpl in Hsize.
    rewrite fmap_app, rev_app_distr. cbn [fmap list_fmap rev app evict_loop].
    destruct (Z.leb_spec (Z.of_nat (size entries)) capacity) as [Hle|Hgt].
    + rewrite take_ge by (rewrite length_app; simpl; lia). exists entries. split; [|done].
      f_equal. f_equal. simpl. by rewrite rev_involutive, fmap_app.
    + rewrite take_app_le by lia. apply (IH (delete (sl_key s) entries)).
      replace slots with (drop_key (sl_key s) (slots ++ [s])); [by apply slots_delete|].
      destruct Hs as [Hnd _]. rewrite fmap_app, NoDup_app in Hnd.
      destruct Hnd as (_ & Hdis & _). unfold drop_key.
      rewrite filter_app, filter_cons, decide_False, filter_nil, app_nil_r by auto.
      apply filter_all, Forall_forall. intros s' Hin Heq.
      apply (Hdis (sl_key s')); [by apply list_elem_of_fmap_2|]. rewrite Heq. set_solver.
Qed.

Lemma represents_evict slots c :
  0 <= rrc_capacity c -> represents slots c ->
  exists c', evict_if_needed_locked c = Some c' /\
    represents (take (Z.to_nat (rrc_capacity c)) slots) c' /\
    rrc_capacity c' = rrc_capacity c /\ rrc_ttl c' = rrc_ttl c.
Proof.
  intros Hcap (Hs & Hlru & Hnodes & Hnext). unfold evict_if_needed_locked. rewrite Hlru.
  destruct (evict_loop_take _ _ _ Hcap Hs) as (entries' & -> & Hs'). simpl.
  eexists. split; [reflexivity|]. split; [|done]. split_and!; simpl; [done|done|..].
  - eapply sublist_NoDup; [exact Hnodes|]. apply sublist_fmap, sublist_take.
  - by apply Forall_take.
Qed.

(** Every operation keeps the limits too. *)
Definition refines (c : ResultReplayCache) (l : list CachedResult) : Prop :=
  exists slots, represents slots c /\ l = sl_result <$> slots /\
    0 <= rrc_capacity c /\ (length slots <= Z.to_nat (rrc_capacity c))%nat.

Lemma drop_key_results key slots :
  sl_result <$> drop_key key slots = without key (sl_result <$> slots).
Proof.
  unfold drop_key, without. induction slots as [|s slots IH]; [done|].
  rewrite fmap_cons, !filter_cons. unfold sl_key at 1.
  destruct (decide (cr_key (sl_result s) <> key)); [rewrite fmap_cons|]; by rewrite IH.
Qed.

(** What the map says of a key is what the list says of it. *)
Lemma represents_cached slots c key :
  represents slots c ->
  rrc_entries c !! key = (fun r => {| ce_envelope := cr_envelope (sl_result r);
      ce_expires_at := cr_expires_at (sl_result r); ce_lru_it := sl_node r |})
    <$> List.find (fun s => bool_decide (sl_key s = key)) slots /\
  cached key (sl_result <$> slots)
    = sl_result <$> List.find (fun s => bool_decide (sl_key s = key)) slots.
Proof.
  intros ([_ ->] & _). unfold cached. split.
  - induction slots as [|s slots IH]; [done|]. simpl. case_bool_decide as Hk; simpl.
    + by rewrite <-Hk, lookup_insert_eq.
    + by rewrite lookup_insert_ne.
  - induction slots as [|s slots IH]; [done|]. simpl.
    change (cr_key (sl_result s)) with (sl_key s). by destruct (bool_decide _).
Qed.

Lemma found_slot slots key s :
  List.find (fun s => bool_decide (sl_key s = key)) slots = Some s -> s ∈ slots /\ sl_key s = key.
Proof. intros [Hin Hk]%find_some. apply list_elem_of_In in Hin. by apply bool_decide_eq_true in Hk. Qed.

Lemma drop_key_length key slots :
  (length (drop_key key slots) <= length slots)%nat.
Proof. apply sublist_length, sublist_filter. Qed.

Lemma drop_found_length slots key s :
  NoDup (sl_key <$> slots) -> s ∈ slots -> sl_key s = key ->
  length slots = S (length (drop_key key slots)).
Proof.
  intros Hnd Hin <-. induction slots as [|s' slots IH]; [by apply elem_of_nil in Hin|].
  rewrite fmap_cons, NoDup_cons in Hnd. destruct Hnd as [Hk Hnd].
  unfold drop_key. rewrite filter_cons. simpl. apply elem_of_cons in Hin as [->|Hin].
  - rewrite decide_False by auto. rewrite filter_all; [done|]. apply Forall_forall.
    intros x Hx E. apply Hk. rewrite <-E. by apply list_elem_of_fmap_2.
  - rewrite decide_True; [simpl; by rewrite (IH Hnd Hin)|].
    intros E. apply Hk. rewrite E. by apply list_elem_of_fmap_2.
Qed.

Lemma drop_key_absent slots key :
  List.find (fun s => bool_decide (sl_key s = key)) slots = None -> drop_key key slots = slots.
Proof.
  intros H. apply filter_all, Forall_forall. intros s Hin E.
  apply list_elem_of_In in Hin. pose proof (List.find_none _ _ H s Hin) as Hn. simpl in Hn.
  by rewrite bool_decide_true in Hn.
Qed.

Lemma put_refines c l key envelope now :
  refines c l ->
  exists c', put c key envelope now = Some c' /\
    refines c' (fst (spec_call (rrc_capacity c) (rrc_ttl c) l (Put key envelope now))) /\
    rrc_capacity c' = rrc_capacity c /\ rrc_ttl c' = rrc_ttl c.
Proof.
  intros (slots & Hrep & -> & Hcap & Hlen). destruct (represents_cached _ _ key Hrep) as [Hl _].
  assert (exists c1, match rrc_entries c !! key with
      | Some existed => erase_entry key existed c | None => Some c end = Some c1 /\
      represents (drop_key key slots) c1 /\ rrc_capacity c1 = rrc_capacity c /\
      rrc_ttl c1 = rrc_ttl c) as (c1 & Hc1 & Hrep1 & Ecap & Ettl).
  { destruct (rrc_entries c !! key) as [entry|] eqn:E.
    - by apply represents_erase.
    - exists c. split; [done|]. rewrite drop_key_absent; [done|].
      by destruct (List.find _ slots). }
  unfold put. rewrite Hc1.
  pose proof (represents_push _ _ key envelope (now + rrc_ttl c) Hrep1 (drop_key_fresh key slots))
    as Hpush.
  unfold push_front in Hpush |- *. set (c2 := with_entries _ _) in Hpush |- *.
  assert (0 <= rrc_capacity c2) as Hcap2 by (subst c2; simpl; lia).
  destruct (represents_evict _ c2 Hcap2 Hpush) as (c' & -> & Hrep' & Ecap' & Ettl').
  simpl in *. exists c'. split; [done|]. split; [|split; congruence].
  eexists. split; [exact Hrep'|]. rewrite Ecap', Ecap. split_and!; [|done|].
  - by rewrite fmap_take, fmap_cons, drop_key_results.
  - rewrite length_take. lia.
Qed.

Lemma lookup_refines c l key now :
  refines c l ->
  let '(l', answer) := spec_call (rrc_capacity c) (rrc_ttl c) l (Lookup key now) in
  exists c' found, lookup_result c key now = Some (c', found) /\ answer = Found found /\
    refines c' l' /\ rrc_capacity c' = rrc_capacity c /\ rrc_ttl c' = rrc_ttl c.
Proof.
  intros (slots & Hrep & -> & Hcap & Hlen).
  destruct (represents_cached _ _ key Hrep) as [Hl Hc]. simpl. rewrite Hc. unfold lookup_result.
  destruct (List.find _ slots) as [s|] eqn:Es; simpl in Hl |- *; rewrite Hl.
  2: { exists c, None. split_and!; [done|done| |done|done]. by exists slots. }
  pose proof (found_slot _ _ _ Es) as [Hin Hk]. unfold is_expired_locked. simpl.
  destruct (represents_erase _ _ _ _ Hrep Hl) as (c1 & Herase & Hrep1 & Ecap & Ettl).
  pose proof (drop_key_length key slots) as Hshort.
  destruct (cr_expires_at (sl_result s) <=? now).
  - rewrite Herase. exists c1, None. split_and!; [done|done| |done|done].
    exists (drop_key key slots). rewrite drop_key_results, Ecap. split_and!; try done. lia.
  - unfold touch_lru_locked. unfold erase_entry in Herase. simpl in Herase |- *.
    destruct (erase_node (sl_node s) (rrc_lru_keys c)) as [keys|] eqn:En; [|done].
    injection Herase as <-.
    pose proof (represents_push _ _ key (cr_envelope (sl_result s)) (cr_expires_at (sl_result s))
      Hrep1 (drop_key_fresh key slots)) as Hpush. simpl in Hpush |- *.
    rewrite insert_delete_eq in Hpush.
    do 2 eexists. split_and!; [reflexivity|done| |done|done].
    eexists. split; [exact Hpush|]. rewrite fmap_cons, drop_key_results. simpl. split_and!.
    + f_equal. rewrite <-Hk. by destruct s as [? []].
    + done.
    + pose proof (drop_found_length slots key s ltac:(apply Hrep) Hin Hk). lia.
Qed.

Lemma erase_refines c l key :
  refines c l ->
  let '(l', answer) := spec_call (rrc_capacity c) (rrc_ttl c) l (Erase key) in
  exists c' existed, erase_result c key = Some (c', existed) /\ answer = Erased existed /\
    refines c' l' /\ rrc_capacity c' = rrc_capacity c /\ rrc_ttl c' = rrc_ttl c.
Proof.
  intros (slots & Hrep & -> & Hcap & Hlen).
  destruct (represents_cached _ _ key Hrep) as [Hl Hc]. simpl. rewrite Hc. unfold erase_result.
  destruct (List.find _ slots) as [s|] eqn:Es; simpl in Hl |- *; rewrite Hl.
  - destruct (represents_erase _ _ _ _ Hrep Hl) as (c1 & -> & Hrep1 & Ecap & Ettl).
    pose proof (drop_key_length key slots) as Hshort.
    exists c1, true. split_and!; [done|done| |done|done].
    exists (drop_key key slots). rewrite drop_key_results, Ecap. split_and!; try done. lia.
  - exists c, false. split_and!; [done|done| |done|done]. exists slots.
    rewrite <-drop_key_results, drop_key_absent by done. done.
Qed.

(** The entries an [evict_expired] over the keys [visit] leaves. *)
Definition survivors (visit : list string) (clock : string -> Z) (slots : list Slot)
    : list Slot :=
  filter (fun s => sl_key s ∉ visit \/ clock (sl_key s) < cr_expires_at (sl_result s)) slots.

Lemma survivors_drop visit clock key slots :
  (forall s, s ∈ slots -> sl_key s = key -> cr_expires_at (sl_result s) <= clock key) ->
  survivors visit clock (drop_key key slots) = survivors (key :: visit) clock slots.
Proof.
  intros Hexp. unfold survivors, drop_key. rewrite list_filter_filter.
  apply filter_ext_in. intros s Hs. specialize (Hexp s Hs). rewrite elem_of_cons.
  destruct (decide (sl_key s = key)) as [<-|Hne]; [|tauto].
  specialize (Hexp eq_refl). split; [tauto|]. intros [?|?]; [tauto|lia].
Qed.

Lemma survivors_keep visit clock key slots :
  (forall s, s ∈ slots -> sl_key s = key -> clock key < cr_expires_at (sl_result s)) ->
  survivors visit clock slots = survivors (key :: visit) clock slots.
Proof.
  intros Hlive. apply filter_ext_in. intros s Hs. specialize (Hlive s Hs).
  rewrite elem_of_cons. destruct (decide (sl_key s = key)) as [<-|Hne]; [|tauto].
  specialize (Hlive eq_refl). tauto.
Qed.

Lemma represents_key_unique slots c s s' :
  represents slots c -> s ∈ slots -> s' ∈ slots -> sl_key s = sl_key s' -> s = s'.
Proof.
  intros ([Hnd _] & _) Hin Hin' E. apply list_elem_of_lookup in Hin as [i Hi], Hin' as [j Hj].
  pose proof (NoDup_lookup _ i j (sl_key s) Hnd) as H.
  rewrite !list_lookup_fmap, Hi, Hj in H. simpl in H. rewrite E in H.
  specialize (H eq_refl eq_refl) as ->. congruence.
Qed.

Lemma evict_expired_spec slots c visit clock :
  represents slots c -> NoDup visit -> (forall key, key ∈ visit -> key ∈ sl_key <$> slots) ->
  exists c' count, evict_expired c visit clock = Some (c', count) /\
    represents (survivors visit clock slots) c' /\
    count = Z.of_nat (length slots) - Z.of_nat (length (survivors visit clock slots)) /\
    rrc_capacity c' = rrc_capacity c /\ rrc_ttl c' = rrc_ttl c.
Proof.
  revert slots c. induction visit as [|key visit IH]; intros slots c Hrep Hnd Hin.
  { exists c, 0. unfold survivors. rewrite filter_all by (apply Forall_forall; set_solver).
    split_and!; try done. lia. }
  apply NoDup_cons in Hnd as [Hk Hnd]. simpl.
  assert (key ∈ sl_key <$> slots) as (s & -> & Hs)%list_elem_of_fmap by (apply Hin; set_solver).
  pose proof (proj2 (represents_lookup slots c (sl_key s) (snd (slot_entry s)) Hrep)
    (ex_intro _ s (conj Hs eq_refl))) as Hl. rewrite Hl. unfold is_expired_locked. simpl.
  assert (forall s', s' ∈ slots -> sl_key s' = sl_key s -> s' = s) as Huniq.
  { intros s' Hs' E. by eapply represents_key_unique. }
  destruct (Z.leb_spec (cr_expires_at (sl_result s)) (clock (sl_key s))) as [Hexp|Hlive];
    cbn [negb].
  - destruct (represents_erase _ _ _ _ Hrep Hl) as (c1 & Herase & Hrep1 & Ecap & Ettl).
    cbn [slot_entry snd] in Herase. rewrite Herase.
    destruct (IH _ _ Hrep1 Hnd) as (c' & count & -> & Hrep' & -> & Ecap' & Ettl').
    { intros key Hkey. pose proof (Hin key ltac:(set_solver)) as (s' & -> & Hs')%list_elem_of_fmap. apply list_elem_of_fmap_2, list_elem_of_filter. split; [|done].
      intros E. apply Hk. by rewrite <-E. }
    rewrite survivors_drop in * by (first [done | intros s' Hs' E; by rewrite (Huniq _ Hs' E)]).
    simpl. do 2 eexists. split_and!; [reflexivity|exact Hrep'| |congruence|congruence].
    pose proof (drop_found_length slots (sl_key s) s ltac:(apply Hrep) Hs eq_refl). lia.
  - rewrite <-survivors_keep by (intros s' Hs' E; by rewrite (Huniq _ Hs' E)).
    apply IH; [done|done|]. intros key Hkey. apply Hin. set_solver.
Qed.

Lemma survivors_results slots clock :
  sl_result <$> survivors (sl_key <$> slots) clock slots
  = filter (fun r => clock (cr_key r) < cr_expires_at r) (sl_result <$> slots).
Proof.
  unfold survivors. assert (forall visit : list string, (forall s, s ∈ slots -> sl_key s ∈ visit) ->
    sl_result <$> filter (fun s => sl_key s ∉ visit \/
      clock (sl_key s) < cr_expires_at (sl_result s)) slots
    = filter (fun r => clock (cr_key r) < cr_expires_at r) (sl_result <$> slots)) as H.
  { intros visit. induction slots as [|s slots IH]; intros Hin; [done|].
    rewrite fmap_cons, !filter_cons. specialize (IH ltac:(set_solver)).
    assert (sl_key s ∈ visit) as Hv by set_solver.
    change (cr_key (sl_result s)) with (sl_key s).
    destruct (decide (clock (sl_key s) < cr_expires_at (sl_result s))).
    - rewrite decide_True by (by right). rewrite fmap_cons. by f_equal.
    - rewrite decide_False; [done|]. intros [?|?]; done. }
  apply H. intros s Hs. by apply list_elem_of_fmap_2.
Qed.

(** ** Runs *)

Fixpoint cache_run (c : ResultReplayCache) (ops : list cache_op)
    : option (ResultReplayCache * list cache_answer) :=
  match ops with
  | [] => Some (c, [])
  | op :: ops =>
      let? called := cache_call c op else None in
      let? rest := cache_run (fst called) ops else None in
      Some (fst rest, snd called :: snd rest)
  end.

Fixpoint spec_run (capacity ttl : Z) (l : list CachedResult) (ops : list cache_op)
    : list CachedResult * list cache_answer :=
  match ops with
  | [] => (l, [])
  | op :: ops =>
      let '(l, answer) := spec_call capacity ttl l op in
      let '(l, answers) := spec_run capacity ttl l ops in
      (l, answer :: answers)
  end.

(** The map is iterated in some order: each key it holds is visited once. *)
Definition visit_ok (l : list CachedResult) (op : cache_op) : Prop :=
  match op with
  | EvictExpired visit _ => visit ≡ₚ cr_key <$> l
  | _ => True
  end.

Fixpoint visits_ok (capacity ttl : Z) (l : list CachedResult) (ops : list cache_op) : Prop :=
  match ops with
  | [] => True
  | op :: ops =>
      visit_ok l op /\ visits_ok capacity ttl (fst (spec_call capacity ttl l op)) ops
  end.

Lemma call_refines c l op :
  refines c l -> visit_ok l op ->
  let '(l', answer) := spec_call (rrc_capacity c) (rrc_ttl c) l op in
  exists c', cache_call c op = Some (c', answer) /\ refines c' l' /\
    rrc_capacity c' = rrc_capacity c /\ rrc_ttl c' = rrc_ttl c.
Proof.
  intros Href Hok. destruct op as [key envelope now|key now|key|visit clock]; simpl in Hok |- *.
  - destruct (put_refines c l key envelope now Href) as (c' & -> & ?). by exists c'.
  - pose proof (lookup_refines c l key now Href) as H.
    cbn [spec_call] in H. destruct (match cached key l with Some _ => _ | None => _ end)
      as [l' answer].
    destruct H as (c' & found & -> & -> & ?). by exists c'.
  - destruct (erase_refines c l key Href) as (c' & existed & -> & E & ?).
    exists c'. simpl. by rewrite <-E.
  - destruct Href as (slots & Hrep & -> & Hcap & Hlen).
    assert (cr_key <$> (sl_result <$> slots) = sl_key <$> slots) as Ekeys
      by (rewrite <-list_fmap_compose; done).
    rewrite Ekeys in Hok.
    destruct (evict_expired_spec slots c visit clock Hrep) as
      (c' & count & -> & Hrep' & -> & Ecap & Ettl).
    { rewrite Hok. apply Hrep. }
    { intros key. by rewrite Hok. }
    assert (survivors visit clock slots = survivors (sl_key <$> slots) clock slots) as E.
    { apply filter_ext_in. intros s _. by rewrite Hok. }
    rewrite E in *. exists c'. rewrite <-survivors_results, !length_fmap. split_and!; try done.
    eexists. split; [exact Hrep'|]. rewrite Ecap. split_and!; [done..|].
    pose proof (sublist_length _ _ (sublist_filter (fun s => sl_key s ∉ (sl_key <$> slots) \/
      clock (sl_key s) < cr_expires_at (sl_result s)) slots)) as Hshort.
    unfold survivors. lia.
Qed.

Lemma run_refines c l ops :
  refines c l -> visits_ok (rrc_capacity c) (rrc_ttl c) l ops ->
  let '(l', answers) := spec_run (rrc_capacity c) (rrc_ttl c) l ops in
  exists c', cache_run c ops = Some (c', answers) /\ refines c' l' /\
    rrc_capacity c' = rrc_capacity c.
Proof.
  revert c l. induction ops as [|op ops IH]; intros c l Href Hok; simpl in *; [by exists c|].
  destruct Hok as [Hop Hops]. pose proof (call_refines c l op Href Hop) as Hcall.
  destruct (spec_call (rrc_capacity c) (rrc_ttl c) l op) as [l1 answer]. simpl in Hops.
  destruct Hcall as (c1 & -> & Href1 & Ecap & Ettl). cbn [fst snd].
  rewrite <-Ecap, <-Ettl in Hops. specialize (IH c1 l1 Href1 Hops). rewrite Ecap, Ettl in IH.
  destruct (spec_run (rrc_capacity c) (rrc_ttl c) l1 ops) as [l' answers].
  destruct IH as (c' & -> & Href' & Ecap'). exists c'. split_and!; [done|done|congruence].
Qed.

Lemma new_cache_refines capacity ttl_ms :
  0 <= capacity -> refines (new_result_replay_cache capacity ttl_ms) [].
Proof.
  intros Hcap. exists []. split_and!; try done.
  - split_and!; try done; [split; [constructor|done]|constructor].
  - simpl. destruct (capacity =? 0); lia.
  - simpl. lia.
Qed.

Lemma refines_size c l :
  refines c l -> cache_size c = Z.of_nat (length l) /\ cache_size c <= rrc_capacity c.
Proof.
  intros (slots & [Hs _] & -> & Hcap & Hlen). unfold cache_size.
  rewrite (slots_size _ _ Hs), length_fmap. lia.
Qed.

(** C35. Whatever the calls, and whatever order the expired entries are visited in,
    the cache never uses an iterator that is gone or an empty list, gives the
    answers of the list that keeps the most recently used results first, and holds
    what that list holds, never more than its capacity. *)
Theorem cache_refines_list capacity ttl_ms ops :
  0 <= capacity ->
  let c := new_result_replay_cache capacity ttl_ms in
  visits_ok (rrc_capacity c) (rrc_ttl c) [] ops ->
  let '(l, answers) := spec_run (rrc_capacity c) (rrc_ttl c) [] ops in
  exists c', cache_run c ops = Some (c', answers) /\ refines c' l /\
    cache_size c' = Z.of_nat (length l) /\ cache_size c' <= Z.max 1 capacity.
Proof.
  intros Hcap c Hok.
  pose proof (run_refines c [] ops (new_cache_refines capacity ttl_ms Hcap) Hok) as H.
  destruct (spec_run _ _ _ _) as [l answers]. destruct H as (c' & Hrun & Href & Ecap).
  exists c'. destruct (refines_size _ _ Href) as [Hsize Hle]. split_and!; try done.
  rewrite Ecap in Hle. simpl in Hle. destruct (Z.eqb_spec capacity 0); lia.
Qed.

(** ** Recently used results *)

(** The calls that neither replace nor drop a result of the given lifetime. *)
Definition keeps (key : string) (until : Z) (op : cache_op) : Prop :=
  match op with
  | Put key' _ _ => key' <> key
  | Lookup key' now => key' = key -> now < until
  | Erase key' => key' <> key
  | EvictExpired _ clock => clock key < until
  end.

Definition touches (op : cache_op) : option string :=
  match op with
  | Put key _ _ | Lookup key _ => Some key
  | _ => None
  end.

(** The keys other than [key] that the calls put or look up. *)
Definition others (key : string) (ops : list cache_op) : gset string :=
  list_to_set (omap touches ops) ∖ {[key]}.

(** The result sits behind results of the keys [D] only. *)
Definition held (r : CachedResult) (D : gset string) (l : list CachedResult) : Prop :=
  exists before after, l = before ++ r :: after /\ NoDup (cr_key <$> l) /\
    forall x, x ∈ before -> cr_key x ∈ D ∖ {[cr_key r]}.

Lemma without_app key l1 l2 : without key (l1 ++ l2) = without key l1 ++ without key l2.
Proof. apply filter_app. Qed.

Lemma without_nodup key l : NoDup (cr_key <$> l) -> NoDup (cr_key <$> without key l).
Proof. intros H. eapply sublist_NoDup; [exact H|]. apply sublist_fmap, sublist_filter. Qed.

Lemma without_fresh key l : key ∉ cr_key <$> without key l.
Proof. intros (x & -> & [Hne _]%list_elem_of_filter)%list_elem_of_fmap. done. Qed.

Lemma held_mono r D D' l : D ⊆ D' -> held r D l -> held r D' l.
Proof.
  intros HD (before & after & -> & Hnd & Hb). exists before, after. split_and!; [done..|].
  intros x Hx. specialize (Hb x Hx). set_solver.
Qed.

Lemma held_filter (P : CachedResult -> Prop) `{forall x, Decision (P x)} r D l :
  P r -> held r D l -> held r D (filter P l).
Proof.
  intros HP (before & after & -> & Hnd & Hb). exists (filter P before), (filter P after).
  rewrite filter_app, filter_cons, decide_True by done. split_and!; [done| |].
  - eapply sublist_NoDup; [exact Hnd|]. apply sublist_fmap.
    replace (filter P before ++ r :: filter P after) with (filter P (before ++ r :: after))
      by (by rewrite filter_app, filter_cons, decide_True).
    apply sublist_filter.
  - intros x [_ Hx]%list_elem_of_filter. by apply Hb.
Qed.

Lemma held_front r D l x :
  held r D l -> cr_key x <> cr_key r -> cr_key x ∉ cr_key <$> l ->
  held r (D ∪ {[cr_key x]}) (x :: l).
Proof.
  intros (before & after & -> & Hnd & Hb) Hne Hfresh. exists (x :: before), after.
  split_and!; [done|by constructor|]. intros y [->|Hy]%elem_of_cons; [set_solver|].
  specialize (Hb y Hy). set_solver.
Qed.

(** No more results stand before it than there are other keys. *)
Lemma held_position r (D : gset string) l n :
  held r D l -> (size (D ∖ {[cr_key r]}) < n)%nat -> held r D (take n l).
Proof.
  intros (before & after & -> & Hnd & Hb) Hsize.
  assert (length before <= size (D ∖ {[cr_key r]}))%nat as Hlen.
  { rewrite fmap_app in Hnd. apply NoDup_app in Hnd as (Hnd & _ & _).
    rewrite <-(length_fmap cr_key), <-(size_list_to_set (C:=gset string)) by done. apply subseteq_size.
    intros k (x & -> & Hx)%elem_of_list_to_set%list_elem_of_fmap. by apply Hb. }
  exists before, (take (n - S (length before)) after).
  replace (take n (before ++ r :: after))
    with (before ++ r :: take (n - S (length before)) after).
  - split_and!; [done| |done].
    eapply sublist_NoDup; [exact Hnd|]. apply sublist_fmap.
    apply sublist_app; [done|]. apply sublist_skip, sublist_take.
  - rewrite take_app_ge by lia. f_equal.
    replace (n - length before)%nat with (S (n - S (length before))) by lia. done.
Qed.

Lemma held_cached r D l : held r D l -> cached (cr_key r) l = Some r.
Proof.
  intros (before & after & -> & Hnd & _). unfold cached.
  induction before as [|x before IH]; simpl; [by rewrite bool_decide_true|].
  simpl in Hnd. apply NoDup_cons in Hnd as [Hx Hnd].
  rewrite bool_decide_false; [by apply IH|]. intros E. apply Hx. rewrite E, fmap_app. set_solver.
Qed.

Lemma held_step capacity ttl r D l op :
  held r D l -> keeps (cr_key r) (cr_expires_at r) op ->
  let D' := D ∪ list_to_set (option_list (touches op)) in
  (size (D' ∖ {[cr_key r]}) < Z.to_nat capacity)%nat ->
  held r D' (fst (spec_call capacity ttl l op)).
Proof.
  intros Hheld Hkeeps D' Hsize. assert (held r D' l) as Hheld' by (apply (held_mono r D); [set_solver|done]).
  assert (forall key, key <> cr_key r -> held r D' (without key l)) as Hwithout.
  { intros key Hne. apply held_filter; [congruence|done]. }
  destruct op as [key envelope now|key now|key|visit clock]; simpl in *.
  - apply held_position; [|done]. eapply held_mono; [|apply held_front; [by apply Hwithout|done|
      simpl; apply without_fresh]]. simpl. set_solver.
  - destruct (cached key l) as [x|] eqn:Ex; [|done].
    assert (cr_key x = key) as Ekey.
    { unfold cached in Ex. apply find_some in Ex as [_ Ex]. by apply bool_decide_eq_true in Ex. }
    destruct (decide (key = cr_key r)) as [->|Hne].
    + rewrite (held_cached r D' l Hheld') in Ex. injection Ex as <-.
      specialize (Hkeeps eq_refl). rewrite (proj2 (Z.leb_gt _ _)) by done.
      destruct Hheld' as (before & after & -> & Hnd & Hb).
      exists [], (without (cr_key r) (before ++ r :: after)). split_and!; [done| |set_solver].
      constructor; [apply without_fresh|by apply without_nodup].
    + destruct (cr_expires_at x <=? now); simpl; [by apply Hwithout|].
      eapply held_mono; [|apply held_front; [by apply Hwithout|congruence|
        rewrite Ekey; apply without_fresh]]. set_solver.
  - by apply Hwithout.
  - by apply held_filter.
Qed.

Lemma held_run capacity ttl r D l ops :
  held r D l -> Forall (keeps (cr_key r) (cr_expires_at r)) ops ->
  (size ((D ∪ list_to_set (omap touches ops)) ∖ {[cr_key r]}) < Z.to_nat capacity)%nat ->
  held r (D ∪ list_to_set (omap touches ops)) (fst (spec_run capacity ttl l ops)).
Proof.
  revert D l. induction ops as [|op ops IH]; intros D l Hheld Hkeeps Hsize.
  { simpl. by rewrite union_empty_r_L. }
  apply Forall_cons in Hkeeps as [Hop Hkeeps].
  assert (list_to_set (C:=gset string) (omap touches (op :: ops))
    = list_to_set (option_list (touches op)) ∪ list_to_set (omap touches ops)) as Eset.
  { simpl. destruct (touches op); simpl; set_solver. }
  rewrite Eset, (assoc_L (∪)) in Hsize |- *. cbn [spec_run].
  pose proof (held_step capacity ttl r D l op Hheld Hop) as Hstep.
  destruct (spec_call capacity ttl l op) as [l1 answer]. cbn [fst] in Hstep.
  specialize (IH (D ∪ list_to_set (option_list (touches op))) l1).
  destruct (spec_run capacity ttl l1 ops) as [l' answers]. apply IH; [|done|done].
  apply Hstep. eapply Nat.le_lt_trans; [|exact Hsize]. apply subseteq_size. set_solver.
Qed.

Lemma spec_run_app capacity ttl l ops1 ops2 :
  spec_run capacity ttl l (ops1 ++ ops2) =
  let '(l1, answers1) := spec_run capacity ttl l ops1 in
  let '(l2, answers2) := spec_run capacity ttl l1 ops2 in (l2, answers1 ++ answers2).
Proof.
  revert l. induction ops1 as [|op ops1 IH]; intros l; simpl.
  - by destruct (spec_run capacity ttl l ops2).
  - destruct (spec_call capacity ttl l op) as [l1 answer]. rewrite IH.
    destruct (spec_run capacity ttl l1 ops1) as [l2 answers1].
    by destruct (spec_run capacity ttl l2 ops2) as [l3 answers2].
Qed.

Lemma spec_call_nodup capacity ttl l op :
  NoDup (cr_key <$> l) -> NoDup (cr_key <$> fst (spec_call capacity ttl l op)).
Proof.
  intros Hnd. destruct op as [key envelope now|key now|key|visit clock]; simpl.
  - eapply sublist_NoDup; [|apply sublist_fmap, sublist_take].
    constructor; [apply without_fresh|by apply without_nodup].
  - destruct (cached key l) as [x|] eqn:Ex; [|done].
    destruct (cr_expires_at x <=? now); simpl; [by apply without_nodup|].
    assert (cr_key x = key) as <-.
    { unfold cached in Ex. apply find_some in Ex as [_ Ex]. by apply bool_decide_eq_true in Ex. }
    constructor; [apply without_fresh|by apply without_nodup].
  - by apply without_nodup.
  - eapply sublist_NoDup; [exact Hnd|]. apply sublist_fmap, sublist_filter.
Qed.

Lemma spec_run_nodup capacity ttl l ops :
  NoDup (cr_key <$> l) -> NoDup (cr_key <$> fst (spec_run capacity ttl l ops)).
Proof.
  revert l. induction ops as [|op ops IH]; intros l Hnd; [done|]. simpl.
  pose proof (spec_call_nodup capacity ttl l op Hnd) as Hnd1.
  destruct (spec_call capacity ttl l op) as [l1 answer]. specialize (IH l1 Hnd1).
  by destruct (spec_run capacity ttl l1 ops).
Qed.

Lemma put_held capacity ttl l key envelope now :
  0 < capacity -> NoDup (cr_key <$> l) ->
  held {| cr_key := key; cr_envelope := envelope; cr_expires_at := now + ttl |} ∅
    (fst (spec_call capacity ttl l (Put key envelope now))).
Proof.
  intros Hpos Hnd. simpl. apply held_position.
  2: { replace (∅ ∖ _) with (∅ : gset string) by set_solver. rewrite size_empty. lia. }
  exists [], (without key l). split_and!; [done| |set_solver].
  constructor; [apply without_fresh|by apply without_nodup].
Qed.

(** A result put into the cache is found until its lifetime ends, as long as it
    was not replaced or erased and fewer keys than the capacity, itself included,
    were put or looked up since. *)
Theorem recent_result_found capacity ttl_ms ops1 key envelope now ops2 now' :
  0 <= capacity ->
  let c := new_result_replay_cache capacity ttl_ms in
  let ops := ops1 ++ Put key envelope now :: ops2 ++ [Lookup key now'] in
  visits_ok (rrc_capacity c) (rrc_ttl c) [] ops ->
  Forall (keeps key (now + rrc_ttl c)) (ops2 ++ [Lookup key now']) ->
  Z.of_nat (size (others key ops2)) < rrc_capacity c ->
  exists c' answers,
    cache_run c ops = Some (c', answers ++ [Found (Some envelope)]).
Proof.
  intros Hcap c ops Hok Hkeeps Hsize.
  pose proof (run_refines c [] ops (new_cache_refines capacity ttl_ms Hcap) Hok) as H.
  apply Forall_app in Hkeeps as [Hkeeps Hlast].
  rewrite Forall_singleton in Hlast. specialize (Hlast eq_refl).
  set (capa := rrc_capacity c) in *. set (ttl := rrc_ttl c) in *.
  pose proof (spec_run_nodup capa ttl [] ops1 ltac:(constructor)) as Hnd.
  subst ops. rewrite spec_run_app in H.
  destruct (spec_run capa ttl [] ops1) as [l1 answers1]. cbn [fst] in Hnd.
  pose proof (put_held capa ttl l1 key envelope now ltac:(lia) Hnd) as Hheld.
  cbn [spec_run] in H.
  destruct (spec_call capa ttl l1 (Put key envelope now)) as [l2 answer]. cbn [fst] in Hheld.
  rewrite spec_run_app in H.
  pose proof (held_run capa ttl _ ∅ l2 ops2 Hheld Hkeeps) as Hrun.
  rewrite union_empty_l_L in Hrun. unfold others in Hsize. specialize (Hrun ltac:(simpl; lia)).
  destruct (spec_run capa ttl l2 ops2) as [l3 answers2]. cbn [fst] in Hrun.
  apply held_cached in Hrun. cbn [spec_run spec_call cr_key] in H, Hrun. rewrite Hrun in H.
  simpl in H. rewrite (proj2 (Z.leb_gt _ _)) in H by done.
  destruct H as (c' & Hc & _). exists c', (answers1 ++ answer :: answers2).
  rewrite Hc. by rewrite <-app_assoc.
Qed.

(** ** Examples *)

Definition sample_envelope (payload : string) : PublishEnvelope :=
  {| pe_request_id := "r"; pe_result_id := "x"; pe_session_id := "s"; pe_trace_id := "t";
     pe_channel_ref := ""; pe_protocol_kind := "ipc"; pe_agent_result := None;
     pe_protocol_status_hint := "200";
     pe_protocol_metadata := ""; pe_is_final := true; pe_payload := payload;
     pe_receipt := None |}.

(** Two slots: looking the first result up keeps it, and the second is dropped. *)
Definition sample_ops : list cache_op :=
  [Put "a" (sample_envelope "1") 0; Put "b" (sample_envelope "2") 1; Lookup "a" 2;
   Put "c" (sample_envelope "3") 3; Lookup "b" 4; Lookup "a" 5].

Example least_recent_dropped :
  option_map snd (cache_run (new_result_replay_cache 2 1) sample_ops)
  = Some [Done; Done; Found (Some (sample_envelope "1")); Done; Found None;
          Found (Some (sample_envelope "1"))].
Proof. vm_compute. reflexivity. Qed.

Lemma cache_refines_list_witness :
  exists c', option_map fst (cache_run (new_result_replay_cache 2 1) sample_ops) = Some c' /\
    cache_size c' <= 2.
Proof.
  pose proof (cache_refines_list 2 1 sample_ops) as H. cbv zeta in H.
  destruct (spec_run _ _ _ sample_ops) as [l answers].
  destruct H as (c' & Hc & _ & _ & Hle); [lia|repeat split|].
  exists c'. rewrite Hc. split; [reflexivity|exact Hle].
Defined.

Lemma recent_result_found_witness :
  exists c' answers,
    cache_run (new_result_replay_cache 2 1) (sample_ops ++ [Put "d" (sample_envelope "4") 6;
      Put "a" (sample_envelope "5") 7; Lookup "a" 8])
    = Some (c', answers ++ [Found (Some (sample_envelope "5"))]).
Proof.
  apply (recent_result_found 2 1 (sample_ops ++ [Put "d" (sample_envelope "4") 6]) "a"
    (sample_envelope "5") 7 [] 8).
  - lia.
  - repeat split.
  - constructor; [|constructor]. intros _. vm_compute. reflexivity.
  - vm_compute. reflexivity.
Defined.
