(* ===== verification/Digest.v ===== *)
(** * Digests and base64url

    The helpers of access/src/AsyncTaskRegistry.cpp: SHA-256, HMAC-SHA-256, the
    base64url coding without padding, and the comparison of two strings in time
    that does not depend on where they differ. Bytes and words are integers in
    range. *)

From S2P Require Import Prelude Text.

(** ** Bytes *)

Fixpoint to_bytes (text : string) : list Z :=
  match text with
  | EmptyString => []
  | String ch rest => char_code ch :: to_bytes rest
  end.

Fixpoint of_bytes (bytes : list Z) : string :=
  match bytes with
  | [] => EmptyString
  | byte :: rest => String (char_of_code byte) (of_bytes rest)
  end.

Definition is_byte (z : Z) : Prop := 0 <= z < 256.

(** ** SHA-256 *)

(** The words of a row of the table, in hexadecimal. *)
Fixpoint hex_words (word : Z) (row : string) : list Z :=
  match row with
  | EmptyString => [word]
  | String ch rest =>
      if bool_decide (ch = " "%char) then word :: hex_words 0 rest
      else hex_words (Z.lor (Z.shiftl word 4) (hex_value ch)) rest
  end.

Definition kSha256RoundConstants : list Z := Eval cbv in
  flat_map (hex_words 0) [
    "428a2f98 71374491 b5c0fbcf e9b5dba5 3956c25b";
    "59f111f1 923f82a4 ab1c5ed5 d807aa98 12835b01";
    "243185be 550c7dc3 72be5d74 80deb1fe 9bdc06a7";
    "c19bf174 e49b69c1 efbe4786 0fc19dc6 240ca1cc";
    "2de92c6f 4a7484aa 5cb0a9dc 76f988da 983e5152";
    "a831c66d b00327c8 bf597fc7 c6e00bf3 d5a79147";
    "06ca6351 14292967 27b70a85 2e1b2138 4d2c6dfc";
    "53380d13 650a7354 766a0abb 81c2c92e 92722c85";
    "a2bfe8a1 a81a664b c24b8b70 c76c51a3 d192e819";
    "d6990624 f40e3585 106aa070 19a4c116 1e376c08";
    "2748774c 34b0bcb5 391c0cb3 4ed8aa4a 5b9cca4f";
    "682e6ff3 748f82ee 78a5636f 84c87814 8cc70208";
    "90befffa a4506ceb bef9a3f7 c67178f2"].

Definition rotate_right (value shift : Z) : Z :=
  Z.lor (Z.shiftr value shift) (u32 (Z.shiftl value (32 - shift))).

Definition sha256_choose (x y z : Z) : Z :=
  Z.lxor (Z.land x y) (Z.land (u32 (Z.lnot x)) z).

Definition sha256_majority (x y z : Z) : Z :=
  Z.lxor (Z.lxor (Z.land x y) (Z.land x z)) (Z.land y z).

Definition sha256_big_sigma0 (value : Z) : Z :=
  Z.lxor (Z.lxor (rotate_right value 2) (rotate_right value 13)) (rotate_right value 22).

Definition sha256_big_sigma1 (value : Z) : Z :=
  Z.lxor (Z.lxor (rotate_right value 6) (rotate_right value 11)) (rotate_right value 25).

Definition sha256_small_sigma0 (value : Z) : Z :=
  Z.lxor (Z.lxor (rotate_right value 7) (rotate_right value 18)) (Z.shiftr value 3).

Definition sha256_small_sigma1 (value : Z) : Z :=
  Z.lxor (Z.lxor (rotate_right value 17) (rotate_right value 19)) (Z.shiftr value 10).

(** The padding loop; at most 63 zeros are pushed. *)
Fixpoint pad_zeros (fuel : nat) (message : list Z) : list Z :=
  match fuel with
  | O => message
  | S fuel =>
      if Z.of_nat (length message) mod 64 =? 56 then message
      else pad_zeros fuel (message ++ [0])
  end.

Definition length_bytes (bit_length : Z) : list Z :=
  map (fun shift => Z.land (Z.shiftr bit_length shift) 255) [56; 48; 40; 32; 24; 16; 8; 0].

Definition sha256_message (input : list Z) : list Z :=
  let bit_length := u64 (Z.of_nat (length input) * 8) in
  pad_zeros 64 (input ++ [128]) ++ length_bytes bit_length.

(** The four bytes of a big-endian word, and back. *)
Definition word_of (b0 b1 b2 b3 : Z) : Z :=
  Z.lor (Z.lor (Z.lor (Z.shiftl b0 24) (Z.shiftl b1 16)) (Z.shiftl b2 8)) b3.

Definition bytes_of_word (w : Z) : list Z :=
  [Z.land (Z.shiftr w 24) 255; Z.land (Z.shiftr w 16) 255; Z.land (Z.shiftr w 8) 255;
   Z.land w 255].

Fixpoint block_words (block : list Z) : list Z :=
  match block with
  | b0 :: b1 :: b2 :: b3 :: rest => word_of b0 b1 b2 b3 :: block_words rest
  | _ => []
  end.

(** The schedule grows by one word a step, [schedule[index]]. *)
Fixpoint extend_schedule (steps : nat) (schedule : list Z) : list Z :=
  match steps with
  | O => schedule
  | S steps =>
      let index := length schedule in
      let at_ back := nth (index - back) schedule 0 in
      extend_schedule steps
        (schedule ++ [u32 (sha256_small_sigma1 (at_ 2%nat) + at_ 7%nat
                           + sha256_small_sigma0 (at_ 15%nat) + at_ 16%nat)])
  end.

(** The eight working variables. *)
Record Sha256State := {
  h0 : Z; h1 : Z; h2 : Z; h3 : Z; h4 : Z; h5 : Z; h6 : Z; h7 : Z;
}.

Definition sha256_initial : Sha256State :=
  {| h0 := 0x6a09e667; h1 := 0xbb67ae85; h2 := 0x3c6ef372; h3 := 0xa54ff53a;
     h4 := 0x510e527f; h5 := 0x9b05688c; h6 := 0x1f83d9ab; h7 := 0x5be0cd19 |}.

Definition sha256_round (s : Sha256State) (constant_word : Z * Z) : Sha256State :=
  let temp1 := u32 (h7 s + sha256_big_sigma1 (h4 s) + sha256_choose (h4 s) (h5 s) (h6 s)
                    + fst constant_word + snd constant_word) in
  let temp2 := u32 (sha256_big_sigma0 (h0 s) + sha256_majority (h0 s) (h1 s) (h2 s)) in
  {| h0 := u32 (temp1 + temp2); h1 := h0 s; h2 := h1 s; h3 := h2 s;
     h4 := u32 (h3 s + temp1); h5 := h4 s; h6 := h5 s; h7 := h6 s |}.

Definition add_state (s t : Sha256State) : Sha256State :=
  {| h0 := u32 (h0 s + h0 t); h1 := u32 (h1 s + h1 t); h2 := u32 (h2 s + h2 t);
     h3 := u32 (h3 s + h3 t); h4 := u32 (h4 s + h4 t); h5 := u32 (h5 s + h5 t);
     h6 := u32 (h6 s + h6 t); h7 := u32 (h7 s + h7 t) |}.

Definition sha256_block (hash : Sha256State) (block : list Z) : Sha256State :=
  let schedule := extend_schedule 48 (block_words block) in
  add_state hash (fold_left sha256_round (combine kSha256RoundConstants schedule) hash).

(** The blocks of 64 bytes from the front; the length is fuel enough. *)
Fixpoint sha256_blocks (fuel : nat) (hash : Sha256State) (message : list Z) : Sha256State :=
  match fuel with
  | O => hash
  | S fuel =>
      match message with
      | [] => hash
      | _ => sha256_blocks fuel (sha256_block hash (take 64 message)) (drop 64 message)
      end
  end.

Definition state_words (s : Sha256State) : list Z :=
  [h0 s; h1 s; h2 s; h3 s; h4 s; h5 s; h6 s; h7 s].

Definition sha256_digest (input : list Z) : list Z :=
  let message := sha256_message input in
  flat_map bytes_of_word
    (state_words (sha256_blocks (length message) sha256_initial message)).

(** ** Base64url *)

Definition kBase64UrlAlphabet : string :=
  "ABCDEFGHIJKLMNOPQRSTUVWXYZabcdefghijklmnopqrstuvwxyz0123456789-_".

Definition base64url_char (value : Z) : Ascii.ascii :=
  default "A"%char (String.get (Z.to_nat value) kBase64UrlAlphabet).

(** One turn of the loop takes three bytes, or the one or two that are left. *)
Fixpoint base64url_encode (bytes : list Z) : string :=
  let chunk first second third :=
    Z.lor (Z.lor (Z.shiftl first 16) (Z.shiftl second 8)) third in
  let sextet chunk shift := base64url_char (Z.land (Z.shiftr chunk shift) 63) in
  match bytes with
  | [] => EmptyString
  | [first] =>
      let c := chunk first 0 0 in
      String (sextet c 18) (String (sextet c 12) EmptyString)
  | [first; second] =>
      let c := chunk first second 0 in
      String (sextet c 18) (String (sextet c 12) (String (sextet c 6) EmptyString))
  | first :: second :: third :: rest =>
      let c := chunk first second third in
      String (sextet c 18) (String (sextet c 12) (String (sextet c 6)
        (String (sextet c 0) (base64url_encode rest))))
  end.

(** The decode table: the index of a character, -1 for the others. *)
Fixpoint find_char (ch : Ascii.ascii) (alphabet : string) (index : Z) : Z :=
  match alphabet with
  | EmptyString => -1
  | String c rest => if bool_decide (c = ch) then index else find_char ch rest (index + 1)
  end.

Definition base64url_value (ch : Ascii.ascii) : Z := find_char ch kBase64UrlAlphabet 0.

Fixpoint base64url_decode_loop (text : string) (accumulator bits_collected : Z)
    (decoded : list Z) : option (list Z) :=
  match text with
  | EmptyString => if 6 <=? bits_collected then None else Some decoded
  | String character rest =>
      let value := base64url_value character in
      if value <? 0 then None else
      let accumulator := Z.lor (u32 (Z.shiftl accumulator 6)) value in
      let bits_collected := bits_collected + 6 in
      if 8 <=? bits_collected then
        let bits_collected := bits_collected - 8 in
        base64url_decode_loop rest accumulator bits_collected
          (decoded ++ [Z.land (Z.shiftr accumulator bits_collected) 255])
      else base64url_decode_loop rest accumulator bits_collected decoded
  end.

Definition base64url_decode (text : string) : option (list Z) :=
  base64url_decode_loop text 0 0 [].

Definition base64url_encode_text (text : string) : string := base64url_encode (to_bytes text).

Definition base64url_decode_text (text : string) : option string :=
  of_bytes <$> base64url_decode text.

(** ** HMAC *)

Definition pad_key (key_bytes : list Z) : list Z :=
  let key := if 64 <? Z.of_nat (length key_bytes) then sha256_digest key_bytes else key_bytes in
  take 64 (key ++ repeat 0 64).

Definition hmac_sha256_base64url (key message : string) : string :=
  let normalized_key := pad_key (to_bytes key) in
  let inner := map (fun byte => Z.lxor byte 0x36) normalized_key ++ to_bytes message in
  let outer := map (fun byte => Z.lxor byte 0x5c) normalized_key ++ sha256_digest inner in
  base64url_encode (sha256_digest outer).

(** ** Comparison *)

Definition byte_at (s : string) (index : nat) : Z :=
  from_option char_code 0 (String.get index s).

Definition constant_time_equals (lhs rhs : string) : bool :=
  let max_size := Nat.max (String.length lhs) (String.length rhs) in
  let diff :=
    Z.lxor (Z.of_nat (String.length lhs)) (Z.of_nat (String.length rhs)) mod 256 in
  fold_left (fun diff index => Z.lor diff (Z.lxor (byte_at lhs index) (byte_at rhs index)))
    (seq 0 max_size) diff =? 0.

(** ** Test vectors *)

Example sha256_empty :
  sha256_digest [] =
  [0xe3; 0xb0; 0xc4; 0x42; 0x98; 0xfc; 0x1c; 0x14; 0x9a; 0xfb; 0xf4; 0xc8; 0x99; 0x6f; 0xb9;
   0x24; 0x27; 0xae; 0x41; 0xe4; 0x64; 0x9b; 0x93; 0x4c; 0xa4; 0x95; 0x99; 0x1b; 0x78; 0x52;
   0xb8; 0x55].
Proof. vm_compute. reflexivity. Qed.

Example sha256_abc :
  sha256_digest (to_bytes "abc") =
  [0xba; 0x78; 0x16; 0xbf; 0x8f; 0x01; 0xcf; 0xea; 0x41; 0x41; 0x40; 0xde; 0x5d; 0xae; 0x22;
   0x23; 0xb0; 0x03; 0x61; 0xa3; 0x96; 0x17; 0x7a; 0x9c; 0xb4; 0x10; 0xff; 0x61; 0xf2; 0x00;
   0x15; 0xad].
Proof. vm_compute. reflexivity. Qed.

(** RFC 4231, test case 2, in base64url. *)
Example hmac_jefe :
  base64url_decode (hmac_sha256_base64url "Jefe" "what do ya want for nothing?") = Some
  [0x5b; 0xdc; 0xc1; 0x46; 0xbf; 0x60; 0x75; 0x4e; 0x6a; 0x04; 0x24; 0x26; 0x08; 0x95; 0x75;
   0xc7; 0x5a; 0x00; 0x3f; 0x08; 0x9d; 0x27; 0x39; 0x83; 0x9d; 0xec; 0x58; 0xb9; 0x64; 0xec;
   0x38; 0x43].
Proof. vm_compute. reflexivity. Qed.

(** Two blocks. *)
Example sha256_two_blocks :
  take 4 (sha256_digest (to_bytes "abcdbcdecdefdefgefghfghighijhijkijkljklmklmnlmnomnopnopq"))
  = [0x24; 0x8d; 0x6a; 0x61].
Proof. vm_compute. reflexivity. Qed.

(** ** Bytes and strings *)

Lemma of_to_bytes text : of_bytes (to_bytes text) = text.
Proof. induction text as [|ch text IH]; [done|]. simpl. by rewrite char_of_code_code, IH. Qed.

Lemma to_bytes_bytes text : Forall is_byte (to_bytes text).
Proof. induction text as [|ch text IH]; constructor; [apply char_code_bounds|done]. Qed.

Lemma to_bytes_length text : length (to_bytes text) = String.length text.
Proof. induction text as [|ch text IH]; [done|]. simpl. by rewrite IH. Qed.

(** ** Base64url inverts *)

Lemma below_64 (P : Z -> bool) :
  forallb (fun n => P (Z.of_nat n)) (seq 0 64) = true -> forall v, 0 <= v < 64 -> P v = true.
Proof.
  intros H v Hv. rewrite forallb_forall in H. specialize (H (Z.to_nat v)).
  rewrite Z2Nat.id in H by lia. apply H, in_seq. lia.
Qed.

Lemma base64url_value_char v : 0 <= v < 64 -> base64url_value (base64url_char v) = v.
Proof.
  intros Hv. apply Z.eqb_eq.
  apply (below_64 (fun v => base64url_value (base64url_char v) =? v)); [by vm_compute|done].
Qed.

(** The or of numbers that share no bit is their sum. *)
Lemma lor_disjoint a b k : 0 <= b < 2 ^ k -> 0 <= k -> a mod 2 ^ k = 0 -> Z.lor a b = a + b.
Proof.
  intros Hb Hk Ha. assert (Z.land a b = 0) as Hland.
  { apply Z.bits_inj'. intros n Hn. rewrite Z.land_spec, Z.bits_0.
    destruct (Z.lt_ge_cases n k) as [Hlt|Hge].
    - rewrite <-(Z.mod_pow2_bits_low a k n), Ha, Z.bits_0 by lia. done.
    - apply andb_false_iff. right.
      destruct (Z.eq_dec b 0) as [->|]; [apply Z.bits_0|].
      apply Z.bits_above_log2; [lia|].
      apply Z.log2_lt_pow2; [lia|]. pose proof (Z.pow_le_mono_r 2 k n). lia. }
  rewrite <-Z.lxor_lor by done. symmetry. by apply Z.add_nocarry_lxor.
Qed.

Lemma accumulator_step acc v :
  0 <= v < 64 ->
  (Z.lor (u32 (Z.shiftl acc 6)) v) mod 4096 = (acc mod 64) * 64 + v.
Proof.
  intros Hv. rewrite Z.shiftl_mul_pow2 by lia. unfold u32.
  rewrite (lor_disjoint _ v 6); [|lia..|].
  - rewrite <-Z.add_mod_idemp_l by lia. rewrite Z.mod_mod_divide by (by exists (2 ^ 20)).
    rewrite Z.add_mod_idemp_l by lia. pose proof (Z.div_mod acc 64 ltac:(lia)) as E.
    pose proof (Z.mod_pos_bound acc 64 ltac:(lia)).
    replace (acc * 2 ^ 6 + v) with ((acc mod 64) * 64 + v + (acc / 64) * 4096) by lia.
    rewrite Z.mod_add by lia. apply Z.mod_small. lia.
  - rewrite Z.mod_mod_divide by (by exists (2 ^ 26)). apply Z.mod_mul. lia.
Qed.

(** A byte taken out of the low twelve bits. *)
Lemma low_byte acc shift :
  0 <= shift <= 4 ->
  Z.land (Z.shiftr acc shift) 255 = (acc mod 4096 / 2 ^ shift) mod 256.
Proof.
  intros Hs. rewrite Z.shiftr_div_pow2 by lia.
  change 255 with (Z.ones 8). rewrite Z.land_ones by lia. change (2 ^ 8) with 256.
  assert (shift = 0 \/ shift = 1 \/ shift = 2 \/ shift = 3 \/ shift = 4)
    as [-> | [-> | [-> | [-> | ->]]]] by lia;
    cbn [Z.pow Z.pow_pos Pos.iter Z.mul Pos.mul];
    Z.to_euclidean_division_equations; lia.
Qed.

(** The accumulator ends in the last sextet. *)
Lemma accumulator_last acc v :
  0 <= v < 64 -> (Z.lor (u32 (Z.shiftl acc 6)) v) mod 64 = v.
Proof.
  intros Hv. rewrite <-(Z.mod_mod_divide _ 4096 64) by (by exists 64).
  rewrite accumulator_step by done. rewrite Z.add_comm, Z.mod_add by lia. by apply Z.mod_small.
Qed.

Lemma decode_first v rest acc decoded :
  0 <= v < 64 ->
  exists acc', acc' mod 64 = v /\ base64url_decode_loop (String (base64url_char v) rest) acc 0 decoded
    = base64url_decode_loop rest acc' 6 decoded.
Proof.
  intros Hv. exists (Z.lor (u32 (Z.shiftl acc 6)) v). split; [by apply accumulator_last|].
  cbn [base64url_decode_loop]. rewrite base64url_value_char by done.
  by rewrite (proj2 (Z.ltb_ge v 0)) by lia.
Qed.

Lemma decode_next v rest acc bits decoded :
  0 <= v < 64 -> 2 <= bits <= 6 ->
  exists acc', acc' mod 64 = v /\ base64url_decode_loop (String (base64url_char v) rest) acc bits decoded
    = base64url_decode_loop rest acc' (bits - 2)
        (decoded ++ [((acc mod 64 * 64 + v) / 2 ^ (bits - 2)) mod 256]).
Proof.
  intros Hv Hb. exists (Z.lor (u32 (Z.shiftl acc 6)) v). split; [by apply accumulator_last|].
  cbn [base64url_decode_loop]. rewrite base64url_value_char by done.
  rewrite (proj2 (Z.ltb_ge v 0)) by lia. cbv zeta.
  rewrite (proj2 (Z.leb_le 8 (bits + 6))) by lia.
  replace (bits + 6 - 8) with (bits - 2) by lia.
  rewrite low_byte by lia. by rewrite accumulator_step.
Qed.

(** The sextets of a chunk. *)
Lemma chunk_sextets first second third :
  is_byte first -> is_byte second -> is_byte third ->
  let c := Z.lor (Z.lor (Z.shiftl first 16) (Z.shiftl second 8)) third in
  Z.land (Z.shiftr c 18) 63 = first / 4 /\
  Z.land (Z.shiftr c 12) 63 = first mod 4 * 16 + second / 16 /\
  Z.land (Z.shiftr c 6) 63 = second mod 16 * 4 + third / 64 /\
  Z.land (Z.shiftr c 0) 63 = third mod 64.
Proof.
  intros H1 H2 H3 c. unfold is_byte in *.
  assert (c = first * 65536 + second * 256 + third) as ->.
  { subst c. rewrite !Z.shiftl_mul_pow2 by lia.
    rewrite (lor_disjoint (first * 2 ^ 16) (second * 2 ^ 8) 16) by (try lia; by apply Z.mod_mul).
    rewrite (lor_disjoint _ third 8); [lia|lia|lia|].
    replace (first * 2 ^ 16 + second * 2 ^ 8) with ((first * 256 + second) * 2 ^ 8) by lia.
    by apply Z.mod_mul. }
  change 63 with (Z.ones 6). rewrite !Z.land_ones, !Z.shiftr_div_pow2 by lia.
  cbn [Z.pow Z.pow_pos Pos.iter Z.mul Pos.mul].
  split_and!; Z.to_euclidean_division_equations; lia.
Qed.

Lemma sextet_bounds first second third :
  is_byte first -> is_byte second -> is_byte third ->
  0 <= first / 4 < 64 /\ 0 <= first mod 4 * 16 + second / 16 < 64 /\
  0 <= second mod 16 * 4 + third / 64 < 64 /\ 0 <= third mod 64 < 64.
Proof. unfold is_byte. intros. Z.to_euclidean_division_equations. lia. Qed.

(** The first two characters of a chunk give its first byte, the third the second
    and the fourth the last. *)
Lemma decode_two first second rest acc decoded :
  is_byte first -> is_byte second ->
  exists acc', acc' mod 64 = first mod 4 * 16 + second / 16 /\
    base64url_decode_loop (String (base64url_char (first / 4))
      (String (base64url_char (first mod 4 * 16 + second / 16)) rest)) acc 0 decoded
    = base64url_decode_loop rest acc' 4 (decoded ++ [first]).
Proof.
  intros H1 H2. destruct (sextet_bounds first second 0 H1 H2 ltac:(done)) as (S1 & S2 & _).
  destruct (decode_first _ (String (base64url_char (first mod 4 * 16 + second / 16)) rest)
    acc decoded S1) as (a1 & E1 & ->).
  destruct (decode_next _ rest a1 6 decoded S2 ltac:(lia)) as (a2 & E2 & ->).
  exists a2. split; [done|]. rewrite E1. do 3 f_equal. change (2 ^ (6 - 2)) with 16.
  unfold is_byte in *. Z.to_euclidean_division_equations. lia.
Qed.

Lemma decode_three first second third rest acc decoded :
  is_byte first -> is_byte second -> is_byte third ->
  exists acc', acc' mod 64 = second mod 16 * 4 + third / 64 /\
    base64url_decode_loop (String (base64url_char (first / 4))
      (String (base64url_char (first mod 4 * 16 + second / 16))
        (String (base64url_char (second mod 16 * 4 + third / 64)) rest))) acc 0 decoded
    = base64url_decode_loop rest acc' 2 (decoded ++ [first; second]).
Proof.
  intros H1 H2 H3. destruct (sextet_bounds _ _ _ H1 H2 H3) as (_ & _ & S3 & _).
  destruct (decode_two first second (String (base64url_char (second mod 16 * 4 + third / 64)) rest)
    acc decoded H1 H2) as (a2 & E2 & ->).
  destruct (decode_next _ rest a2 4 (decoded ++ [first]) S3 ltac:(lia)) as (a3 & E3 & ->).
  exists a3. split; [done|]. rewrite E2, <-app_assoc. do 4 f_equal. change (2 ^ (4 - 2)) with 4.
  unfold is_byte in *. Z.to_euclidean_division_equations. lia.
Qed.

Lemma decode_four first second third rest acc decoded :
  is_byte first -> is_byte second -> is_byte third ->
  exists acc', base64url_decode_loop (String (base64url_char (first / 4))
      (String (base64url_char (first mod 4 * 16 + second / 16))
        (String (base64url_char (second mod 16 * 4 + third / 64))
          (String (base64url_char (third mod 64)) rest)))) acc 0 decoded
    = base64url_decode_loop rest acc' 0 (decoded ++ [first; second; third]).
Proof.
  intros H1 H2 H3. destruct (sextet_bounds _ _ _ H1 H2 H3) as (_ & _ & _ & S4).
  destruct (decode_three first second third (String (base64url_char (third mod 64)) rest)
    acc decoded H1 H2 H3) as (a3 & E3 & ->).
  destruct (decode_next _ rest a3 2 (decoded ++ [first; second]) S4 ltac:(lia)) as (a4 & _ & ->).
  exists a4. rewrite E3, <-app_assoc. change (2 ^ (2 - 2)) with 1.
  assert ((((second mod 16 * 4 + third / 64) * 64 + third mod 64) / 1) mod 256 = third) as ->;
    [|done].
  unfold is_byte in *. Z.to_euclidean_division_equations. lia.
Qed.

Lemma decode_encode_loop bytes acc decoded :
  Forall is_byte bytes ->
  base64url_decode_loop (base64url_encode bytes) acc 0 decoded = Some (decoded ++ bytes).
Proof.
  revert acc decoded. induction bytes as [bytes IH] using (induction_ltof1 _ (@length Z)).
  intros acc decoded Hb. destruct bytes as [|b1 [|b2 [|b3 rest]]].
  - by rewrite app_nil_r.
  - apply Forall_cons in Hb as [H1 _]. cbn [base64url_encode].
    destruct (chunk_sextets b1 0 0 H1 ltac:(done) ltac:(done)) as (-> & -> & _).
    destruct (decode_two b1 0 "" acc decoded H1 ltac:(done)) as (a & _ & ->). done.
  - rewrite !Forall_cons in Hb. destruct Hb as (H1 & H2 & _). cbn [base64url_encode].
    destruct (chunk_sextets b1 b2 0 H1 H2 ltac:(done)) as (-> & -> & -> & _).
    destruct (decode_three b1 b2 0 "" acc decoded H1 H2 ltac:(done)) as (a & _ & ->). done.
  - rewrite !Forall_cons in Hb. destruct Hb as (H1 & H2 & H3 & Hrest). cbn [base64url_encode].
    destruct (chunk_sextets b1 b2 b3 H1 H2 H3) as (-> & -> & -> & ->).
    destruct (decode_four b1 b2 b3 (base64url_encode rest) acc decoded H1 H2 H3) as (a & ->).
    rewrite IH; [by rewrite <-app_assoc|unfold ltof; simpl; lia|done].
Qed.

(** Decoding inverts encoding, for every sequence of bytes. *)
Theorem base64url_roundtrip bytes :
  Forall is_byte bytes -> base64url_decode (base64url_encode bytes) = Some bytes.
Proof. intros Hb. by apply decode_encode_loop. Qed.

Lemma base64url_roundtrip_witness :
  base64url_decode (base64url_encode [0; 255; 16; 131]) = Some [0; 255; 16; 131].
Proof. apply base64url_roundtrip. repeat constructor; done. Defined.

Lemma base64url_text_roundtrip text :
  base64url_decode_text (base64url_encode_text text) = Some text.
Proof.
  unfold base64url_decode_text, base64url_encode_text, base64url_decode.
  rewrite decode_encode_loop by apply to_bytes_bytes. simpl. by rewrite of_to_bytes.
Qed.

(** ** The comparison *)

Fixpoint nuls (n : nat) : string :=
  match n with
  | O => EmptyString
  | S n => String "000"%char (nuls n)
  end.

Lemma nuls_length n : String.length (nuls n) = n.
Proof. induction n; simpl; congruence. Qed.

Lemma byte_at_nonneg s i : 0 <= byte_at s i.
Proof.
  unfold byte_at. destruct (String.get i s) as [ch|]; simpl; [|lia].
  pose proof (char_code_bounds ch). lia.
Qed.

Lemma byte_at_beyond s i : (String.length s <= i)%nat -> byte_at s i = 0.
Proof.
  unfold byte_at. revert i. induction s as [|ch s IH]; intros [|i] H; simpl in *; try done; [lia|].
  apply IH. lia.
Qed.

Lemma lor_zero a b : 0 <= a -> 0 <= b -> Z.lor a b = 0 <-> a = 0 /\ b = 0.
Proof. intros Ha Hb. by rewrite Z.lor_eq_0_iff. Qed.

Lemma fold_lor_zero (f : nat -> Z) l d :
  fold_left (fun d i => Z.lor d (f i)) l d = 0 <-> d = 0 /\ forall i, i ∈ l -> f i = 0.
Proof.
  revert d. induction l as [|i l IH]; intros d; simpl; [set_solver|].
  rewrite IH, Z.lor_eq_0_iff. split.
  - intros [[Hd Hi] Hl]. split; [done|]. intros j [->|Hj]%elem_of_cons; auto.
  - intros [Hd Hl]. split_and!; [done|apply Hl; by left|]. intros j Hj. apply Hl. by right.
Qed.

Lemma lxor_mod_zero a b : 0 <= a -> 0 <= b -> Z.lxor a b mod 256 = 0 <-> a mod 256 = b mod 256.
Proof.
  intros Ha Hb. change 256 with (2 ^ 8).
  assert (Z.lxor a b mod 2 ^ 8 = Z.lxor (a mod 2 ^ 8) (b mod 2 ^ 8)) as ->.
  { apply Z.bits_inj'. intros n Hn. rewrite Z.lxor_spec.
    destruct (Z.lt_ge_cases n 8).
    - rewrite !Z.mod_pow2_bits_low by lia. by rewrite Z.lxor_spec.
    - by rewrite !Z.mod_pow2_bits_high by lia. }
  apply Z.lxor_eq_0_iff.
Qed.

Lemma all_zero_nuls s : (forall i, byte_at s i = 0) -> s = nuls (String.length s).
Proof.
  induction s as [|ch s IH]; intros H; [done|]. simpl.
  rewrite <-IH by (intros i; apply (H (S i))). f_equal.
  specialize (H 0%nat). unfold byte_at in H. simpl in H.
  rewrite <-(char_of_code_code ch), H. done.
Qed.

Lemma same_bytes l r :
  (forall i, byte_at l i = byte_at r i) -> (String.length l <= String.length r)%nat ->
  r = l +:+ nuls (String.length r - String.length l).
Proof.
  revert r. induction l as [|ch l IH]; intros r Hb Hlen.
  - simpl. rewrite Nat.sub_0_r, string_nil_app. apply all_zero_nuls. intros i. by rewrite <-Hb.
  - destruct r as [|ch' r]; simpl in Hlen; [lia|]. simpl. rewrite string_cons_app.
    rewrite <-IH; [|intros i; apply (Hb (S i))|lia]. f_equal.
    specialize (Hb 0%nat). unfold byte_at in Hb. simpl in Hb.
    by rewrite <-(char_of_code_code ch), Hb, char_of_code_code.
Qed.

Lemma byte_at_app_nuls s n i : byte_at (s +:+ nuls n) i = byte_at s i.
Proof.
  unfold byte_at. revert i. induction s as [|ch s IH]; intros i.
  - rewrite string_nil_app. revert i. induction n as [|n IHn]; intros [|i]; simpl; done.
  - rewrite string_cons_app. destruct i as [|i]; [done|]. apply IH.
Qed.

Lemma length_app_nuls s n : String.length (s +:+ nuls n) = (String.length s + n)%nat.
Proof.
  induction s as [|ch s IH]; [by rewrite string_nil_app, nuls_length|].
  rewrite string_cons_app. simpl. by rewrite IH.
Qed.

Lemma constant_time_spec lhs rhs :
  constant_time_equals lhs rhs = true <->
  Z.of_nat (String.length lhs) mod 256 = Z.of_nat (String.length rhs) mod 256 /\
  forall i, byte_at lhs i = byte_at rhs i.
Proof.
  unfold constant_time_equals. rewrite Z.eqb_eq, fold_lor_zero, lxor_mod_zero by lia.
  apply and_iff_compat_l. split.
  - intros H i. destruct (decide (i < Nat.max (String.length lhs) (String.length rhs))%nat).
    + apply Z.lxor_eq_0_iff, H, elem_of_seq. lia.
    + by rewrite !byte_at_beyond by lia.
  - intros H i _. by apply Z.lxor_eq_0_iff.
Qed.

(** The comparison does not test equality: the lengths are compared modulo 256,
    and a missing byte counts as zero, so two strings also compare equal when one
    is the other with a multiple of 256 NUL bytes after it, and only then. *)
Lemma constant_time_equals_iff lhs rhs :
  constant_time_equals lhs rhs = true <->
  exists n, rhs = lhs +:+ nuls (256 * n) \/ lhs = rhs +:+ nuls (256 * n).
Proof.
  rewrite constant_time_spec. split.
  - intros [Hlen Hb].
    assert (forall a b, Z.of_nat a mod 256 = Z.of_nat b mod 256 -> (a <= b)%nat ->
      exists n, (b - a = 256 * n)%nat) as Hn.
    { intros a b E Hle. exists (Z.to_nat ((Z.of_nat b - Z.of_nat a) / 256)).
      Z.to_euclidean_division_equations. lia. }
    destruct (Nat.le_gt_cases (String.length lhs) (String.length rhs)) as [Hle|Hgt].
    + destruct (Hn _ _ Hlen Hle) as [n En]. exists n. left. rewrite <-En. by apply same_bytes.
    + destruct (Hn _ _ (eq_sym Hlen) ltac:(lia)) as [n En]. exists n. right. rewrite <-En.
      apply same_bytes; [|lia]. intros i. by rewrite Hb.
  - intros (n & [-> | ->]); rewrite length_app_nuls; split.
    + rewrite Nat2Z.inj_add, Nat2Z.inj_mul, (Z.mul_comm (Z.of_nat 256)).
      symmetry. apply Z.mod_add. lia.
    + intros i. by rewrite byte_at_app_nuls.
    + rewrite Nat2Z.inj_add, Nat2Z.inj_mul, (Z.mul_comm (Z.of_nat 256)). apply Z.mod_add. lia.
    + intros i. by rewrite byte_at_app_nuls.
Qed.

(** ** SHA-256 is total *)

Lemma pad_zeros_spec fuel message :
  (Z.to_nat ((56 - Z.of_nat (length message)) mod 64) < fuel)%nat ->
  exists k, pad_zeros fuel message = message ++ repeat 0 k /\ (k < 64)%nat /\
    (Z.of_nat (length message) + Z.of_nat k) mod 64 = 56.
Proof.
  revert message. induction fuel as [|fuel IH]; intros message Hf; [lia|]. cbn [pad_zeros].
  destruct (Z.eqb_spec (Z.of_nat (length message) mod 64) 56) as [E|E].
  - exists 0%nat. rewrite app_nil_r, Z.add_0_r. split_and!; [done|lia|done].
  - destruct (IH (message ++ [0])) as (k & -> & Hk & Hmod).
    + rewrite length_app in *. simpl. Z.to_euclidean_division_equations. lia.
    + rewrite length_app in Hmod. simpl in Hmod. exists (S k). split; [by rewrite <-app_assoc|].
      split; [|Z.to_euclidean_division_equations; lia].
      Z.to_euclidean_division_equations. lia.
Qed.

Lemma length_bytes_length n : length (length_bytes n) = 8%nat.
Proof. done. Qed.

Lemma sha256_blocks_chunks fuel hash message n :
  length message = (64 * n)%nat -> (n <= fuel)%nat ->
  exists blocks, concat blocks = message /\ Forall (fun b => length b = 64%nat) blocks /\
    sha256_blocks fuel hash message = fold_left sha256_block blocks hash.
Proof.
  revert fuel hash message. induction n as [|n IH]; intros fuel hash message Hlen Hf.
  - exists []. destruct message as [|b message]; [|simpl in Hlen; lia].
    split; [done|]. split; [constructor|]. by destruct fuel.
  - destruct fuel as [|fuel]; [lia|].
    destruct (IH fuel (sha256_block hash (take 64 message)) (drop 64 message))
      as (blocks & Hc & Hall & Hrun); [rewrite length_drop; lia|lia|].
    exists (take 64 message :: blocks). split; [simpl; by rewrite Hc, take_drop|].
    split; [constructor; [rewrite length_take; lia|done]|].
    cbn [fold_left]. rewrite <-Hrun. by destruct message.
Qed.

Lemma extend_schedule_length steps schedule :
  length (extend_schedule steps schedule) = (length schedule + steps)%nat.
Proof.
  revert schedule. induction steps as [|steps IH]; intros schedule; cbn [extend_schedule]; [lia|].
  rewrite IH, length_app. simpl. lia.
Qed.

Lemma block_words_length n block : length block = (4 * n)%nat -> length (block_words block) = n.
Proof.
  revert block. induction n as [|n IH]; intros block Hlen.
  - by destruct block.
  - do 4 (destruct block as [|? block]; [simpl in Hlen; lia|]). simpl in *. rewrite IH; lia.
Qed.

Lemma land_byte z : is_byte (Z.land z 255).
Proof. change 255 with (Z.ones 8). rewrite Z.land_ones by lia. apply Z.mod_pos_bound. lia. Qed.

(** The loops of the digest stop for every input: less than 64 zeros pad the
    message to whole blocks of 64 bytes, which are taken one by one, each giving a
    schedule of 64 words; the digest is 32 bytes. *)
Theorem sha256_total input :
  exists k blocks,
    (k < 64)%nat /\
    concat blocks = input ++ 128 :: repeat 0 k
                    ++ length_bytes (u64 (Z.of_nat (length input) * 8)) /\
    Forall (fun block => length block = 64%nat /\
              length (extend_schedule 48 (block_words block)) = 64%nat) blocks /\
    sha256_digest input
      = flat_map bytes_of_word (state_words (fold_left sha256_block blocks sha256_initial)) /\
    length (sha256_digest input) = 32%nat /\ Forall is_byte (sha256_digest input).
Proof.
  destruct (pad_zeros_spec 64 (input ++ [128])) as (k & Hpad & Hk & Hmod).
  { pose proof (Z.mod_pos_bound (56 - Z.of_nat (length (input ++ [128]))) 64 ltac:(lia)). lia. }
  set (tail := length_bytes (u64 (Z.of_nat (length input) * 8))).
  assert (sha256_message input = input ++ 128 :: repeat 0 k ++ tail) as Hmsg.
  { unfold sha256_message. rewrite Hpad. fold tail. by rewrite <-!app_assoc. }
  assert (exists n, length (sha256_message input) = (64 * n)%nat) as [n Hn].
  { exists (Z.to_nat ((Z.of_nat (length (input ++ [128])) + Z.of_nat k + 8) / 64)).
    rewrite Hmsg, !length_app. cbn [length]. rewrite !length_app, repeat_length.
    subst tail. rewrite length_bytes_length. rewrite length_app in *. cbn [length] in *.
    Z.to_euclidean_division_equations. lia. }
  destruct (sha256_blocks_chunks (length (sha256_message input)) sha256_initial _ n Hn ltac:(lia))
    as (blocks & Hc & Hall & Hrun).
  exists k, blocks. split; [done|]. split; [by rewrite Hc|]. split.
  { eapply Forall_impl; [exact Hall|]. intros block Hb. split; [done|].
    by rewrite extend_schedule_length, (block_words_length 16). }
  unfold sha256_digest. cbv zeta. rewrite Hrun. split; [done|]. split; [done|].
  unfold state_words. simpl. repeat (constructor; [apply land_byte|]). constructor.
Qed.
