(* ===== verification/TaskRegistry.v ===== *)
(** * Async task registry

    access/src/AsyncTaskRegistry.{h,cpp}: the receipts of requests accepted for
    later, each with a token that proves who may ask for the result. Each operation
    holds the lock. The clocks are arguments: steady instants in nanoseconds, one
    for each reading, and the Unix time in milliseconds. The steady clock does not
    overflow; the Unix time is a signed 64-bit integer, and adding the lifetime to
    it gives [None] where it would. *)

From S2P Require Import Prelude Text AccessTypes Digest.

Record OwnershipTokenKey := {
  otk_key_id : string;
  otk_secret : string;
}.

Definition key_is_valid (key : OwnershipTokenKey) : bool :=
  negb (is_empty (otk_key_id key)) && negb (is_empty (otk_secret key)).

Definition no_key : OwnershipTokenKey := {| otk_key_id := ""; otk_secret := "" |}.

Record StoredReceipt := {
  sre_receipt : AsyncTaskReceipt;
  sre_task_status : string;
}.

Record AsyncTaskRegistry := {
  reg_receipt_ttl : Z;
  reg_receipts : gmap string StoredReceipt;
  reg_current_key : OwnershipTokenKey;
  reg_previous_key : option OwnershipTokenKey;
}.

Definition with_receipts (receipts : gmap string StoredReceipt) (r : AsyncTaskRegistry)
    : AsyncTaskRegistry :=
  {| reg_receipt_ttl := reg_receipt_ttl r; reg_receipts := receipts;
     reg_current_key := reg_current_key r; reg_previous_key := reg_previous_key r |}.

Definition valid_key_or_none (key : OwnershipTokenKey) : OwnershipTokenKey :=
  if key_is_valid key then key else no_key.

Definition valid_previous_key (key : option OwnershipTokenKey) : option OwnershipTokenKey :=
  let? previous := key else None in
  if key_is_valid previous then Some previous else None.

Definition new_async_task_registry (current_key : OwnershipTokenKey)
    (previous_key : option OwnershipTokenKey) (receipt_ttl_ms : Z) : AsyncTaskRegistry :=
  {| reg_receipt_ttl := if receipt_ttl_ms <=? 0 then 10 * 60 * 1000 else receipt_ttl_ms;
     reg_receipts := ∅;
     reg_current_key := valid_key_or_none current_key;
     reg_previous_key := valid_previous_key previous_key |}.

Definition rotate_ownership_keys (r : AsyncTaskRegistry) (current_key : OwnershipTokenKey)
    (previous_key : option OwnershipTokenKey) : AsyncTaskRegistry :=
  {| reg_receipt_ttl := reg_receipt_ttl r; reg_receipts := reg_receipts r;
     reg_current_key := valid_key_or_none current_key;
     reg_previous_key := valid_previous_key previous_key |}.

(** ** Tokens *)

Definition build_token_payload (key_id : string) (issued_at_unix_ms expires_at_unix_ms : Z)
    (receipt_id actor_ref request_id : string) : string :=
  "v1." +:+ (base64url_encode_text key_id +:+ ("." +:+ (to_string issued_at_unix_ms +:+ ("."
    +:+ (to_string expires_at_unix_ms +:+ ("." +:+ (base64url_encode_text receipt_id +:+ ("."
    +:+ (base64url_encode_text actor_ref +:+ ("." +:+ base64url_encode_text request_id)))))))))).

Definition build_ownership_token (current_key : OwnershipTokenKey) (receipt_id actor_ref
    request_id : string) (issued_at_unix_ms expires_at_unix_ms : Z) : string :=
  if negb (key_is_valid current_key) then "" else
  let payload := build_token_payload (otk_key_id current_key) issued_at_unix_ms
                   expires_at_unix_ms receipt_id actor_ref request_id in
  payload +:+ ("." +:+ hmac_sha256_base64url (otk_secret current_key) payload).

(** [std::from_chars] on the whole text: a minus sign and digits, nothing else. *)
Definition parse_int64 (text : string) : option Z :=
  let '(negative, digits) :=
    match text with
    | String "-" rest => (true, rest)
    | _ => (false, text)
    end in
  if is_empty digits || negb (all_chars is_digit digits) then None else
  let magnitude := digits_value 0 digits in
  let value := if negative then - magnitude else magnitude in
  if s64_fits value then Some value else None.

(** The parts between the dots. *)
Fixpoint split_dots (token : string) : list string :=
  match token with
  | EmptyString => [EmptyString]
  | String ch rest =>
      if bool_decide (ch = "."%char) then EmptyString :: split_dots rest
      else match split_dots rest with
           | part :: parts => String ch part :: parts
           | [] => [String ch EmptyString]
           end
  end.

(** [token.substr(0, token.rfind('.'))] *)
Fixpoint before_last_dot (token : string) : option string :=
  match token with
  | EmptyString => None
  | String ch rest =>
      match before_last_dot rest with
      | Some prefix => Some (String ch prefix)
      | None => if bool_decide (ch = "."%char) then Some EmptyString else None
      end
  end.

Record ParsedOwnershipToken := {
  pot_version : string;
  pot_key_id : string;
  pot_issued_at_unix_ms : Z;
  pot_expires_at_unix_ms : Z;
  pot_receipt_id : string;
  pot_actor_ref : string;
  pot_request_id : string;
  pot_signature : string;
  pot_signed_payload : string;
}.

Definition parse_ownership_token (token : string) : option ParsedOwnershipToken :=
  match split_dots token with
  | [p0; p1; p2; p3; p4; p5; p6; p7] =>
      let? key_id := base64url_decode_text p1 else None in
      let? receipt_id := base64url_decode_text p4 else None in
      let? actor_ref := base64url_decode_text p5 else None in
      let? request_id := base64url_decode_text p6 else None in
      let? issued_at := parse_int64 p2 else None in
      let? expires_at := parse_int64 p3 else None in
      Some {| pot_version := p0; pot_key_id := key_id; pot_issued_at_unix_ms := issued_at;
              pot_expires_at_unix_ms := expires_at; pot_receipt_id := receipt_id;
              pot_actor_ref := actor_ref; pot_request_id := request_id; pot_signature := p7;
              pot_signed_payload := default token (before_last_dot token) |}
  | _ => None
  end.

(** ** Operations *)

Definition context_or_default (request : RuntimeDispatchRequest) (key fallback : string)
    : string :=
  let? value := dr_request_context request !! key else fallback in
  if is_empty value then fallback else value.

Definition build_receipt_id (request : RuntimeDispatchRequest) (result : RuntimeDispatchResult)
    : string :=
  let fallback :=
    "receipt:" +:+ context_or_default request "request_id" (ip_packet_id (dr_packet request)) in
  let? receipt_ref := ds_receipt_ref result else fallback in
  if is_empty receipt_ref then fallback else receipt_ref.

(** The receipt made for an accepted request. *)
Definition make_receipt (r : AsyncTaskRegistry) (request : RuntimeDispatchRequest)
    (result : RuntimeDispatchResult) (issued_at_unix_ms now : Z) : AsyncTaskReceipt :=
  let receipt_id := build_receipt_id request result in
  let request_id := context_or_default request "request_id" (ip_packet_id (dr_packet request)) in
  let actor_ref := si_actor_ref (dr_subject_identity request) in
  {| atr_receipt_id := receipt_id;
     atr_request_id := request_id;
     atr_session_id := context_or_default request "session_id" ("session:" +:+ request_id);
     atr_actor_ref := actor_ref;
     atr_task_ref := default ("task:" +:+ request_id) (ds_receipt_ref result);
     atr_expires_at := now + milliseconds (reg_receipt_ttl r);
     atr_ownership_token :=
       build_ownership_token (reg_current_key r) receipt_id actor_ref request_id
         issued_at_unix_ms (issued_at_unix_ms + reg_receipt_ttl r);
     atr_initial_status := Some "pending" |}.

Definition register_async_accept (r : AsyncTaskRegistry) (request : RuntimeDispatchRequest)
    (result : RuntimeDispatchResult) (unix_now now : Z)
    : option (AsyncTaskRegistry * option AsyncTaskReceipt) :=
  if negb (bool_decide (ds_disposition result = AccessDisposition.AcceptedAsync))
  then Some (r, None) else
  if negb (key_is_valid (reg_current_key r)) then Some (r, None) else
  if negb (s64_fits (unix_now + reg_receipt_ttl r)) then None else
  let receipt := make_receipt r request result unix_now now in
  Some (with_receipts
          (<[atr_receipt_id receipt :=
               {| sre_receipt := receipt; sre_task_status := "pending" |}]> (reg_receipts r)) r,
        Some receipt).

Definition receipt_live (now : Z) (stored : StoredReceipt) : Prop :=
  now < atr_expires_at (sre_receipt stored).

#[export] Instance receipt_live_dec now stored : Decision (receipt_live now stored).
Proof. unfold receipt_live. apply _. Defined.

Definition prune_expired_locked (now : Z) (r : AsyncTaskRegistry) : AsyncTaskRegistry :=
  with_receipts (filter (fun kr => receipt_live now kr.2) (reg_receipts r)) r.

(** The count of the removed receipts. *)
Definition prune_expired (r : AsyncTaskRegistry) (now : Z) : AsyncTaskRegistry * Z :=
  (prune_expired_locked now r,
   Z.of_nat (size (reg_receipts r))
   - Z.of_nat (size (reg_receipts (prune_expired_locked now r)))).

(** [size] prunes first. *)
Definition registry_size (r : AsyncTaskRegistry) (now : Z) : AsyncTaskRegistry * Z :=
  let pruned := prune_expired_locked now r in
  (pruned, Z.of_nat (size (reg_receipts pruned))).

Definition enabled (r : AsyncTaskRegistry) : bool := key_is_valid (reg_current_key r).

Module QueryStatus.
Inductive QueryStatus := Found | NotFound | Expired.
End QueryStatus.
Abbreviation QueryStatus := QueryStatus.QueryStatus.

Definition query_receipt (r : AsyncTaskRegistry) (receipt_id : string) (now : Z)
    : AsyncTaskRegistry * (QueryStatus * option AsyncTaskReceipt) :=
  match reg_receipts r !! receipt_id with
  | None => (r, (QueryStatus.NotFound, None))
  | Some stored =>
      if atr_expires_at (sre_receipt stored) <=? now
      then (with_receipts (delete receipt_id (reg_receipts r)) r, (QueryStatus.Expired, None))
      else (r, (QueryStatus.Found, Some (sre_receipt stored)))
  end.

(** The tests on a parsed token, without the signature. *)
Definition token_fields_match (receipt : AsyncTaskReceipt) (parsed : ParsedOwnershipToken)
    (unix_now : Z) : bool :=
  bool_decide (pot_version parsed = "v1")
  && bool_decide (pot_receipt_id parsed = atr_receipt_id receipt)
  && bool_decide (pot_actor_ref parsed = atr_actor_ref receipt)
  && bool_decide (pot_request_id parsed = atr_request_id receipt)
  && (0 <? pot_issued_at_unix_ms parsed)
  && (pot_issued_at_unix_ms parsed <=? pot_expires_at_unix_ms parsed)
  && (unix_now <=? pot_expires_at_unix_ms parsed).

Definition signing_key (r : AsyncTaskRegistry) (key_id : string) : option OwnershipTokenKey :=
  let key :=
    if bool_decide (key_id = otk_key_id (reg_current_key r)) then Some (reg_current_key r)
    else
      let? previous := reg_previous_key r else None in
      if bool_decide (key_id = otk_key_id previous) then Some previous else None in
  let? key := key else None in
  if key_is_valid key then Some key else None.

Definition token_accepted (r : AsyncTaskRegistry) (receipt : AsyncTaskReceipt)
    (ownership_token : string) (unix_now : Z) : bool :=
  let? parsed_token := parse_ownership_token ownership_token else false in
  if negb (token_fields_match receipt parsed_token unix_now) then false else
  let? key := signing_key r (pot_key_id parsed_token) else false in
  let expected_signature :=
    hmac_sha256_base64url (otk_secret key) (pot_signed_payload parsed_token) in
  constant_time_equals expected_signature (pot_signature parsed_token)
  && constant_time_equals (atr_ownership_token receipt) ownership_token.

Definition validate_ownership (r : AsyncTaskRegistry) (receipt_id actor_ref ownership_token
    : string) (prune_now now unix_now : Z) : AsyncTaskRegistry * bool :=
  if negb (key_is_valid (reg_current_key r)) then (r, false) else
  let r := prune_expired_locked prune_now r in
  let? stored := reg_receipts r !! receipt_id else (r, false) in
  if atr_expires_at (sre_receipt stored) <=? now
  then (with_receipts (delete receipt_id (reg_receipts r)) r, false) else
  if negb (bool_decide (atr_actor_ref (sre_receipt stored) = actor_ref)) then (r, false) else
  (r, token_accepted r (sre_receipt stored) ownership_token unix_now).

Definition with_status (task_status : string) (stored : StoredReceipt) : StoredReceipt :=
  let receipt := sre_receipt stored in
  {| sre_receipt :=
       {| atr_receipt_id := atr_receipt_id receipt; atr_request_id := atr_request_id receipt;
          atr_session_id := atr_session_id receipt; atr_actor_ref := atr_actor_ref receipt;
          atr_task_ref := atr_task_ref receipt; atr_expires_at := atr_expires_at receipt;
          atr_ownership_token := atr_ownership_token receipt;
          atr_initial_status := Some task_status |};
     sre_task_status := task_status |}.

Definition mark_completed (r : AsyncTaskRegistry) (receipt_id task_status : string)
    (prune_now now : Z) : AsyncTaskRegistry * bool :=
  let r := prune_expired_locked prune_now r in
  let? stored := reg_receipts r !! receipt_id else (r, false) in
  if atr_expires_at (sre_receipt stored) <=? now
  then (with_receipts (delete receipt_id (reg_receipts r)) r, false)
  else (with_receipts (<[receipt_id := with_status task_status stored]> (reg_receipts r)) r,
        true).

(** ** Texts without dots or NULs *)

Definition no_dot (s : string) : bool := all_chars (fun ch => negb (bool_decide (ch = "."%char))) s.
Definition no_nul (s : string) : bool :=
  all_chars (fun ch => negb (bool_decide (ch = "000"%char))) s.

(** What the coding and the decimal printer emit. *)
Definition token_char (ch : Ascii.ascii) : bool :=
  negb (bool_decide (ch = "."%char)) && negb (bool_decide (ch = "000"%char)).

Lemma token_char_no_dot s : all_chars token_char s = true -> no_dot s = true.
Proof. apply all_chars_impl. intros ch [H _]%andb_true_iff. done. Qed.

Lemma token_char_no_nul s : all_chars token_char s = true -> no_nul s = true.
Proof. apply all_chars_impl. intros ch [_ H]%andb_true_iff. done. Qed.

Lemma sextet_range z : 0 <= Z.land z 63 < 64.
Proof. change 63 with (Z.ones 6). rewrite Z.land_ones by lia. apply Z.mod_pos_bound. lia. Qed.

Lemma base64url_char_token z : token_char (base64url_char (Z.land z 63)) = true.
Proof.
  apply (below_64 (fun v => token_char (base64url_char v))); [by vm_compute|apply sextet_range].
Qed.

Lemma base64url_token bytes : all_chars token_char (base64url_encode bytes) = true.
Proof.
  induction bytes as [bytes IH] using (induction_ltof1 _ (@length Z)).
  destruct bytes as [|b1 [|b2 [|b3 rest]]]; cbn [base64url_encode all_chars];
    rewrite ?base64url_char_token; try done.
  cbn [andb]. apply IH. unfold ltof. simpl. lia.
Qed.

Lemma to_string_token n : all_chars token_char (to_string n) = true.
Proof.
  refine (all_chars_impl _ _ _ _ (to_string_word n)). intros ch H. unfold token_char.
  destruct (bool_decide_reflect (ch = "."%char)) as [->|]; [done|].
  by destruct (bool_decide_reflect (ch = "000"%char)) as [->|].
Qed.

Lemma hmac_token key message : all_chars token_char (hmac_sha256_base64url key message) = true.
Proof. apply base64url_token. Qed.

(** ** Splitting *)

Lemma split_dots_part s rest :
  no_dot s = true -> split_dots (s +:+ String "." rest) = s :: split_dots rest.
Proof.
  induction s as [|ch s IH]; [done|]. unfold no_dot. simpl. intros [Hc Hs]%andb_true_iff.
  rewrite ?string_cons_app. cbn [split_dots].
  apply negb_true_iff, bool_decide_eq_false in Hc. rewrite bool_decide_false by done.
  by rewrite (IH Hs).
Qed.

Lemma split_dots_last s : no_dot s = true -> split_dots s = [s].
Proof.
  induction s as [|ch s IH]; [done|]. unfold no_dot. simpl. intros [Hc Hs]%andb_true_iff.
  apply negb_true_iff, bool_decide_eq_false in Hc. rewrite bool_decide_false by done.
  by rewrite (IH Hs).
Qed.

Lemma before_last_dot_none s : no_dot s = true -> before_last_dot s = None.
Proof.
  induction s as [|ch s IH]; [done|]. unfold no_dot. simpl. intros [Hc Hs]%andb_true_iff.
  apply negb_true_iff, bool_decide_eq_false in Hc. by rewrite (IH Hs), bool_decide_false.
Qed.

Lemma before_last_dot_app s last :
  no_dot last = true -> before_last_dot (s +:+ String "." last) = Some s.
Proof.
  intros Hl. induction s as [|ch s IH].
  - rewrite string_nil_app. cbn [before_last_dot]. by rewrite before_last_dot_none.
  - rewrite string_cons_app. cbn [before_last_dot]. by rewrite IH.
Qed.

(** NULs after a token go to its last part. *)
Lemma split_dots_nuls s n :
  exists parts last, split_dots s = parts ++ [last] /\
    split_dots (s +:+ nuls n) = parts ++ [last +:+ nuls n].
Proof.
  induction s as [|ch s IH].
  - exists [], "". rewrite !string_nil_app. split; [done|]. apply split_dots_last.
    induction n as [|n IH]; [done|]. unfold no_dot in *. simpl. done.
  - rewrite string_cons_app. cbn [split_dots]. destruct IH as (parts & last & E1 & E2).
    rewrite E1, E2. destruct (bool_decide (ch = "."%char)); [by exists ("" :: parts), last|].
    destruct parts as [|part parts]; simpl.
    + exists [], (String ch last). by rewrite string_cons_app.
    + by exists (String ch part :: parts), last.
Qed.

Lemma before_last_dot_nuls s n : before_last_dot (s +:+ nuls n) = before_last_dot s.
Proof.
  induction s as [|ch s IH].
  - rewrite string_nil_app. apply before_last_dot_none.
    induction n as [|n IH]; [done|]. unfold no_dot in *. simpl. done.
  - rewrite string_cons_app. cbn [before_last_dot]. by rewrite IH.
Qed.

(** ** Integers *)

Lemma digits_all n : all_chars is_digit (digits 20 n "") = true.
Proof. by rewrite digits_class. Qed.

Lemma parse_int64_to_string n : in_s64 n -> parse_int64 (to_string n) = Some n.
Proof.
  unfold in_s64. intros Hn. unfold parse_int64, to_string.
  destruct (Z.ltb_spec n 0) as [Hneg|Hpos].
  - destruct (digits_first_digit 20 (- n) "" ltac:(lia)) as (ch & rest & E & _).
    rewrite digits_all, digits_value_digits by lia. rewrite E.
    rewrite (proj2 (is_empty_false _)) by done. cbn [negb orb digits_value].
    rewrite Z.opp_involutive. by rewrite (proj2 (s64_fits_spec n)).
  - destruct (digits_first_digit 20 n "" ltac:(lia)) as (ch & rest & E & Hd).
    assert (match digits 20 n "" with String "-" rest => (true, rest) | _ =>
      (false, digits 20 n "") end = (false, digits 20 n "")) as ->.
    { rewrite E. destruct (digit_code_case ch Hd) as [Hm _].
      destruct ch as [[] [] [] [] [] [] [] []]; done. }
    rewrite digits_all, digits_value_digits by lia. rewrite E.
    rewrite (proj2 (is_empty_false _)) by done. cbn [negb orb digits_value].
    by rewrite (proj2 (s64_fits_spec n)).
Qed.

(** ** Tokens *)

(** Two texts without dots joined by one. *)
Lemma payload_text key_id i e receipt_id actor_ref request_id :
  build_token_payload key_id i e receipt_id actor_ref request_id =
  "v1" +:+ String "." (base64url_encode_text key_id +:+ String "." (to_string i +:+ String "."
    (to_string e +:+ String "." (base64url_encode_text receipt_id +:+ String "."
      (base64url_encode_text actor_ref +:+ String "." (base64url_encode_text request_id)))))).
Proof. done. Qed.

Definition issued_fields (key : OwnershipTokenKey) (receipt : AsyncTaskReceipt) (i e : Z)
    : ParsedOwnershipToken :=
  let payload := build_token_payload (otk_key_id key) i e (atr_receipt_id receipt)
                   (atr_actor_ref receipt) (atr_request_id receipt) in
  {| pot_version := "v1"; pot_key_id := otk_key_id key; pot_issued_at_unix_ms := i;
     pot_expires_at_unix_ms := e; pot_receipt_id := atr_receipt_id receipt;
     pot_actor_ref := atr_actor_ref receipt; pot_request_id := atr_request_id receipt;
     pot_signature := hmac_sha256_base64url (otk_secret key) payload;
     pot_signed_payload := payload |}.

(** A receipt with the token the registry makes for it. *)
Record issued_by (key : OwnershipTokenKey) (receipt : AsyncTaskReceipt) (i e : Z) : Prop := {
  ib_valid : key_is_valid key = true;
  ib_token : atr_ownership_token receipt
             = build_ownership_token key (atr_receipt_id receipt) (atr_actor_ref receipt)
                 (atr_request_id receipt) i e;
  ib_issued : in_s64 i;
  ib_expires : in_s64 e;
}.

Lemma base64_no_dot text : no_dot (base64url_encode_text text) = true.
Proof. apply token_char_no_dot, base64url_token. Qed.

Lemma to_string_dotless n : no_dot (to_string n) = true.
Proof. apply token_char_no_dot, to_string_token. Qed.

Lemma hmac_no_dot key message : no_dot (hmac_sha256_base64url key message) = true.
Proof. apply token_char_no_dot, hmac_token. Qed.

Lemma string_app_right_assoc (s t u : string) : (s +:+ t) +:+ u = s +:+ (t +:+ u).
Proof. apply string_app_assoc. Qed.

Lemma issued_parts key receipt i e :
  issued_by key receipt i e ->
  split_dots (atr_ownership_token receipt) =
    ["v1"; base64url_encode_text (otk_key_id key); to_string i; to_string e;
     base64url_encode_text (atr_receipt_id receipt); base64url_encode_text (atr_actor_ref receipt);
     base64url_encode_text (atr_request_id receipt);
     pot_signature (issued_fields key receipt i e)] /\
  before_last_dot (atr_ownership_token receipt)
    = Some (pot_signed_payload (issued_fields key receipt i e)).
Proof.
  intros [Hvalid Htoken _ _]. rewrite Htoken. unfold build_ownership_token. rewrite Hvalid.
  cbn [negb issued_fields pot_signature pot_signed_payload]. cbv zeta.
  set (payload := build_token_payload _ _ _ _ _ _).
  set (signature := hmac_sha256_base64url _ _).
  change (payload +:+ ("." +:+ signature)) with (payload +:+ String "." signature).
  split; [|apply before_last_dot_app, hmac_no_dot]. subst payload. rewrite payload_text.
  assert (no_dot "v1" = true) as Hv by done. revert Hv. generalize "v1". intros v Hv.
  repeat (rewrite string_app_right_assoc || rewrite string_cons_app).
  rewrite !split_dots_part by (apply base64_no_dot || apply to_string_dotless || done).
  by rewrite split_dots_last by apply hmac_no_dot.
Qed.

(** NULs after an issued token leave its fields alone. *)
Lemma parse_issued key receipt i e n :
  issued_by key receipt i e ->
  let fields := issued_fields key receipt i e in
  parse_ownership_token (atr_ownership_token receipt +:+ nuls n) =
  Some {| pot_version := pot_version fields; pot_key_id := pot_key_id fields;
          pot_issued_at_unix_ms := i; pot_expires_at_unix_ms := e;
          pot_receipt_id := pot_receipt_id fields; pot_actor_ref := pot_actor_ref fields;
          pot_request_id := pot_request_id fields;
          pot_signature := pot_signature fields +:+ nuls n;
          pot_signed_payload := pot_signed_payload fields |}.
Proof.
  intros Hib fields. destruct (issued_parts _ _ _ _ Hib) as [Hsplit Hlast].
  destruct (split_dots_nuls (atr_ownership_token receipt) n) as (parts & last & E1 & E2).
  rewrite Hsplit in E1. unfold parse_ownership_token. rewrite E2.
  change ["v1"; base64url_encode_text (otk_key_id key); to_string i; to_string e;
     base64url_encode_text (atr_receipt_id receipt); base64url_encode_text (atr_actor_ref receipt);
     base64url_encode_text (atr_request_id receipt);
     pot_signature (issued_fields key receipt i e)] with
    (["v1"; base64url_encode_text (otk_key_id key); to_string i; to_string e;
     base64url_encode_text (atr_receipt_id receipt); base64url_encode_text (atr_actor_ref receipt);
     base64url_encode_text (atr_request_id receipt)]
     ++ [pot_signature (issued_fields key receipt i e)]) in E1.
  apply app_inj_tail in E1 as [<- <-]. cbn [app].
  rewrite !base64url_text_roundtrip. destruct Hib as [_ _ Hi He].
  rewrite !parse_int64_to_string by done. rewrite before_last_dot_nuls, Hlast. done.
Qed.

(** Parsing inverts the building of a token: every field comes back, and the
    payload under the signature is the one that was signed. *)
Theorem token_roundtrip key receipt_id actor_ref request_id i e :
  key_is_valid key = true -> in_s64 i -> in_s64 e ->
  let payload := build_token_payload (otk_key_id key) i e receipt_id actor_ref request_id in
  parse_ownership_token (build_ownership_token key receipt_id actor_ref request_id i e) =
  Some {| pot_version := "v1"; pot_key_id := otk_key_id key; pot_issued_at_unix_ms := i;
          pot_expires_at_unix_ms := e; pot_receipt_id := receipt_id;
          pot_actor_ref := actor_ref; pot_request_id := request_id;
          pot_signature := hmac_sha256_base64url (otk_secret key) payload;
          pot_signed_payload := payload |}.
Proof.
  intros Hkey Hi He payload.
  pose proof (parse_issued key
    {| atr_receipt_id := receipt_id; atr_request_id := request_id; atr_session_id := "";
       atr_actor_ref := actor_ref; atr_task_ref := ""; atr_expires_at := 0;
       atr_ownership_token := build_ownership_token key receipt_id actor_ref request_id i e;
       atr_initial_status := None |} i e 0) as H.
  cbn [nuls atr_ownership_token] in H. rewrite !string_app_nil_r in H. by apply H.
Qed.

(** ** Who is accepted *)

Lemma no_nul_app s t : no_nul (s +:+ t) = no_nul s && no_nul t.
Proof. apply all_chars_app. Qed.

Lemma payload_no_nul key_id i e receipt_id actor_ref request_id :
  no_nul (build_token_payload key_id i e receipt_id actor_ref request_id) = true.
Proof.
  unfold build_token_payload. rewrite !no_nul_app.
  rewrite !(token_char_no_nul (base64url_encode_text _)) by apply base64url_token.
  by rewrite !(token_char_no_nul (to_string _)) by apply to_string_token.
Qed.

Lemma issued_no_nul key receipt i e :
  issued_by key receipt i e -> no_nul (atr_ownership_token receipt) = true.
Proof.
  intros [Hvalid Htoken _ _]. rewrite Htoken. unfold build_ownership_token. rewrite Hvalid.
  cbn [negb]. cbv zeta.
  pose proof (payload_no_nul (otk_key_id key) i e (atr_receipt_id receipt)
    (atr_actor_ref receipt) (atr_request_id receipt)) as Hp.
  generalize dependent (build_token_payload (otk_key_id key) i e (atr_receipt_id receipt)
    (atr_actor_ref receipt) (atr_request_id receipt)). intros payload Hp.
  pose proof (token_char_no_nul _ (hmac_token (otk_secret key) payload)) as Hs.
  revert Hs. generalize (hmac_sha256_base64url (otk_secret key) payload). intros signature Hs.
  by rewrite !no_nul_app, Hp, Hs.
Qed.

Lemma no_nul_nuls s n : no_nul (s +:+ nuls n) = true -> n = 0%nat.
Proof.
  unfold no_nul. rewrite all_chars_app. intros [_ H]%andb_true_iff. by destruct n.
Qed.

(** An issued token compares equal to itself followed by NULs, and to nothing else. *)
Lemma issued_compares key receipt i e token :
  issued_by key receipt i e ->
  constant_time_equals (atr_ownership_token receipt) token = true <->
  exists n, token = atr_ownership_token receipt +:+ nuls (256 * n).
Proof.
  intros Hib. pose proof (issued_no_nul _ _ _ _ Hib) as Hno.
  rewrite constant_time_equals_iff. split.
  - intros (n & [Ht|Ht]); [by exists n|]. rewrite Ht in Hno. apply no_nul_nuls in Hno.
    rewrite Hno in Ht. exists 0%nat. simpl in *. by rewrite string_app_nil_r in *.
  - intros (n & ->). exists n. by left.
Qed.

Lemma string_app_nuls s a b : (s +:+ nuls a) +:+ nuls b = s +:+ nuls (a + b).
Proof.
  rewrite string_app_assoc. f_equal. induction a as [|a IH]; [done|].
  cbn [nuls Nat.add]. by rewrite string_cons_app, IH.
Qed.

(** A text without NULs is determined by what follows it up to NULs. *)
Lemma no_nul_prefix s t a b :
  no_nul s = true -> no_nul t = true -> s +:+ nuls a = t +:+ nuls b -> s = t /\ a = b.
Proof.
  revert t. induction s as [|c s IH]; intros [|d t] Hs Ht E.
  - rewrite !string_nil_app in E. split; [done|]. apply (f_equal String.length) in E.
    by rewrite !nuls_length in E.
  - rewrite string_nil_app, string_cons_app in E. destruct a as [|a]; [done|].
    injection E as <- _. done.
  - rewrite string_nil_app, string_cons_app in E. destruct b as [|b]; [done|].
    injection E as -> _. done.
  - rewrite !string_cons_app in E. injection E as -> E. unfold no_nul in *. simpl in Hs, Ht.
    apply andb_true_iff in Hs as [_ Hs], Ht as [_ Ht]. by destruct (IH t Hs Ht E) as [-> ->].
Qed.

(** Two signatures compare equal when they are: neither holds a NUL. *)
Lemma hmac_compares s1 s2 m n :
  constant_time_equals (hmac_sha256_base64url s1 m)
    (hmac_sha256_base64url s2 m +:+ nuls (256 * n)) = true <->
  hmac_sha256_base64url s1 m = hmac_sha256_base64url s2 m.
Proof.
  pose proof (token_char_no_nul _ (hmac_token s1 m)) as H1.
  pose proof (token_char_no_nul _ (hmac_token s2 m)) as H2.
  generalize dependent (hmac_sha256_base64url s1 m). intros t1 H1.
  generalize dependent (hmac_sha256_base64url s2 m). intros t2 H2.
  rewrite constant_time_equals_iff. split.
  - intros (k & [E|E]); [by destruct (no_nul_prefix t2 t1 _ _ H2 H1 E)|].
    rewrite string_app_nuls, <-(string_app_nil_r t1) in E. change "" with (nuls 0) in E.
    by destruct (no_nul_prefix t1 t2 _ _ H1 H2 E).
  - intros ->. exists n. by left.
Qed.

(** When a token is accepted for a receipt: the key that signed the receipt is
    still known, by its name and its signature, and the token is the receipt's,
    with NULs after it in multiples of 256. *)
Lemma token_accepted_iff r key receipt i e token unix_now :
  issued_by key receipt i e -> 0 < i <= e ->
  token_accepted r receipt token unix_now = true <->
  unix_now <= e /\
  (exists known, signing_key r (otk_key_id key) = Some known /\
     hmac_sha256_base64url (otk_secret known) (pot_signed_payload (issued_fields key receipt i e))
     = pot_signature (issued_fields key receipt i e)) /\
  exists n, token = atr_ownership_token receipt +:+ nuls (256 * n).
Proof.
  intros Hib Hie. pose proof (issued_compares _ _ _ _ token Hib) as Hcmp.
  split.
  - intros Hacc. assert (constant_time_equals (atr_ownership_token receipt) token = true) as Heq.
    { unfold token_accepted in Hacc. repeat (case_match; try done).
      by apply andb_true_iff in Hacc as [_ ?]. }
    apply Hcmp in Heq as [n ->]. revert Hacc. unfold token_accepted.
    rewrite (parse_issued key receipt i e) by done. unfold token_fields_match.
    cbn [issued_fields pot_version pot_key_id pot_issued_at_unix_ms pot_expires_at_unix_ms
      pot_receipt_id pot_actor_ref pot_request_id pot_signature pot_signed_payload].
    rewrite !bool_decide_true by done. rewrite (proj2 (Z.ltb_lt 0 i)) by lia.
    rewrite (proj2 (Z.leb_le i e)) by lia. cbn [andb].
    destruct (Z.leb_spec unix_now e); cbn [negb]; [|done].
    destruct (signing_key r (otk_key_id key)) as [known|]; [|done].
    rewrite andb_true_iff, hmac_compares. intros [Hsig _]. split; [done|].
    split; [by exists known|by exists n].
  - intros (Hu & (known & Hk & Hsig) & n & ->). unfold token_accepted.
    rewrite (parse_issued key receipt i e) by done. unfold token_fields_match.
    cbn [issued_fields pot_version pot_key_id pot_issued_at_unix_ms pot_expires_at_unix_ms
      pot_receipt_id pot_actor_ref pot_request_id pot_signature pot_signed_payload] in *.
    rewrite !bool_decide_true by done. rewrite (proj2 (Z.ltb_lt 0 i)) by lia.
    rewrite (proj2 (Z.leb_le i e)) by lia. rewrite (proj2 (Z.leb_le unix_now e)) by lia.
    cbn [andb negb]. rewrite Hk. apply andb_true_iff. split; [by apply hmac_compares|].
    apply Hcmp. by exists n.
Qed.

(** ** Runs *)

Inductive registry_op :=
| Register (request : RuntimeDispatchRequest) (result : RuntimeDispatchResult) (unix_now now : Z)
| Query (receipt_id : string) (now : Z)
| Validate (receipt_id actor_ref token : string) (prune_now now unix_now : Z)
| MarkCompleted (receipt_id task_status : string) (prune_now now : Z)
| Prune (now : Z)
| Rotate (current_key : OwnershipTokenKey) (previous_key : option OwnershipTokenKey).

Definition registry_call (r : AsyncTaskRegistry) (op : registry_op) : option AsyncTaskRegistry :=
  match op with
  | Register request result unix_now now =>
      fst <$> register_async_accept r request result unix_now now
  | Query receipt_id now => Some (fst (query_receipt r receipt_id now))
  | Validate receipt_id actor_ref token prune_now now unix_now =>
      Some (fst (validate_ownership r receipt_id actor_ref token prune_now now unix_now))
  | MarkCompleted receipt_id task_status prune_now now =>
      Some (fst (mark_completed r receipt_id task_status prune_now now))
  | Prune now => Some (fst (prune_expired r now))
  | Rotate current_key previous_key => Some (rotate_ownership_keys r current_key previous_key)
  end.

Fixpoint registry_run (r : AsyncTaskRegistry) (ops : list registry_op)
    : option AsyncTaskRegistry :=
  match ops with
  | [] => Some r
  | op :: ops => let? r := registry_call r op else None in registry_run r ops
  end.

(** What is stored under an id after a call, receipt by receipt. *)
Definition receipt_after (r : AsyncTaskRegistry) (op : registry_op) (receipt_id : string)
    (stored : StoredReceipt) : option StoredReceipt :=
  let keep_if (b : bool) (s : StoredReceipt) := if b then Some s else None in
  let live now := bool_decide (receipt_live now stored) in
  match op with
  | Query id now => keep_if (negb (bool_decide (id = receipt_id)) || live now) stored
  | Validate id _ _ prune_now now _ =>
      keep_if (negb (key_is_valid (reg_current_key r))
               || live prune_now && (negb (bool_decide (id = receipt_id)) || live now)) stored
  | MarkCompleted id task_status prune_now now =>
      keep_if (live prune_now && (negb (bool_decide (id = receipt_id)) || live now))
        (if bool_decide (id = receipt_id) then with_status task_status stored else stored)
  | Prune now => keep_if (live now) stored
  | _ => Some stored
  end.

Definition registers (r : AsyncTaskRegistry) (op : registry_op) (receipt_id : string) : Prop :=
  match op with
  | Register request result _ _ => build_receipt_id request result = receipt_id
  | _ => False
  end.

Lemma live_false now stored :
  bool_decide (receipt_live now stored) = negb (atr_expires_at (sre_receipt stored) <=? now).
Proof.
  unfold receipt_live. destruct (Z.leb_spec (atr_expires_at (sre_receipt stored)) now).
  - by rewrite bool_decide_false by lia.
  - by rewrite bool_decide_true by lia.
Qed.

Lemma prune_lookup_receipt r now id :
  reg_receipts (prune_expired_locked now r) !! id =
  (let? stored := reg_receipts r !! id else None in
   if bool_decide (receipt_live now stored) then Some stored else None).
Proof.
  simpl. destruct (reg_receipts r !! id) as [stored|] eqn:E.
  - destruct (bool_decide_reflect (receipt_live now stored)) as [Hl|Hl].
    + by apply map_lookup_filter_Some.
    + apply map_lookup_filter_None. right. intros s Hs. simpl. congruence.
  - apply map_lookup_filter_None. by left.
Qed.

(** The test of [query_receipt] and its relatives on one id. *)
Definition drop_expired (id : string) (now : Z) (r : AsyncTaskRegistry) : AsyncTaskRegistry :=
  let? stored := reg_receipts r !! id else r in
  if atr_expires_at (sre_receipt stored) <=? now
  then with_receipts (delete id (reg_receipts r)) r else r.

Lemma drop_expired_lookup r id' now id :
  reg_receipts (drop_expired id' now r) !! id =
  (let? stored := reg_receipts r !! id else None in
   if negb (bool_decide (id' = id)) || bool_decide (receipt_live now stored)
   then Some stored else None).
Proof.
  unfold drop_expired. destruct (decide (id' = id)) as [->|Hne].
  - rewrite bool_decide_true by done. cbn [negb orb].
    destruct (reg_receipts r !! id) as [s|] eqn:E; [|by rewrite E]. rewrite live_false.
    destruct (atr_expires_at (sre_receipt s) <=? now); simpl; [apply lookup_delete_eq|done].
  - rewrite bool_decide_false by done. cbn [negb orb].
    destruct (reg_receipts r !! id') as [s|]; [|by case_match].
    destruct (atr_expires_at (sre_receipt s) <=? now); simpl; [|by case_match].
    rewrite lookup_delete_ne by done. by case_match.
Qed.

Lemma query_drops r id now : fst (query_receipt r id now) = drop_expired id now r.
Proof. unfold query_receipt, drop_expired. split_tests. Qed.

Lemma validate_drops r id actor token prune_now now unix_now :
  fst (validate_ownership r id actor token prune_now now unix_now) =
  if key_is_valid (reg_current_key r) then drop_expired id now (prune_expired_locked prune_now r)
  else r.
Proof.
  unfold validate_ownership, drop_expired. destruct (key_is_valid (reg_current_key r)); [|done].
  cbn [negb]. destruct (reg_receipts (prune_expired_locked prune_now r) !! id) as [s|]; [|done].
  destruct (atr_expires_at (sre_receipt s) <=? now); [done|]. by case_match.
Qed.

(** A completion stores the status over what the test leaves. *)
Lemma mark_lookup r rid status prune_now now id :
  reg_receipts (fst (mark_completed r rid status prune_now now)) !! id =
  (let? stored := reg_receipts (drop_expired rid now (prune_expired_locked prune_now r)) !! id
   else None in
   Some (if bool_decide (rid = id) then with_status status stored else stored)).
Proof.
  unfold mark_completed, drop_expired.
  set (pruned := prune_expired_locked prune_now r).
  destruct (reg_receipts pruned !! rid) as [s|] eqn:E; cbn beta iota.
  - destruct (atr_expires_at (sre_receipt s) <=? now); cbn [fst with_receipts reg_receipts];
      destruct (bool_decide_reflect (rid = id)) as [->|Hne].
    + by rewrite lookup_delete_eq.
    + by destruct (delete rid (reg_receipts pruned) !! id).
    + by rewrite lookup_insert_eq, E.
    + rewrite lookup_insert_ne by done. by destruct (reg_receipts pruned !! id).
  - cbn [fst]. destruct (bool_decide_reflect (rid = id)) as [->|Hne]; [by rewrite E|].
    by destruct (reg_receipts pruned !! id).
Qed.

(** The receipts a call leaves, other than one it registers. *)
Lemma call_receipt r op r' id :
  registry_call r op = Some r' -> ~ registers r op id ->
  reg_receipts r' !! id = (let? stored := reg_receipts r !! id else None in
                           receipt_after r op id stored).
Proof.
  intros Hcall Hno. destruct op as [request result unix_now now|rid now|
    rid actor token prune_now now unix_now|rid status prune_now now|now|ck pk]; simpl in Hcall, Hno.
  - assert (reg_receipts r' !! id = reg_receipts r !! id) as ->; [|by case_match].
    unfold register_async_accept in Hcall.
    destruct (negb _); [by simplify_eq/=|]. destruct (negb _); [by simplify_eq/=|].
    destruct (negb _); simplify_eq/=. by rewrite lookup_insert_ne.
  - injection Hcall as <-. rewrite query_drops. apply drop_expired_lookup.
  - injection Hcall as <-. rewrite validate_drops. unfold receipt_after.
    destruct (key_is_valid (reg_current_key r)); cbn [negb orb]; [|by case_match].
    rewrite drop_expired_lookup, prune_lookup_receipt.
    destruct (reg_receipts r !! id) as [s|]; [|done]. cbv zeta.
    by destruct (bool_decide (receipt_live prune_now s)).
  - injection Hcall as <-. rewrite mark_lookup, drop_expired_lookup, prune_lookup_receipt.
    unfold receipt_after. destruct (reg_receipts r !! id) as [s|]; [|done]. cbv zeta.
    destruct (bool_decide (receipt_live prune_now s)); [|done].
    by destruct (bool_decide (receipt_live now s)), (bool_decide (rid = id)).
  - injection Hcall as <-. apply prune_lookup_receipt.
  - injection Hcall as <-. simpl. by case_match.
Qed.

(** ** The receipts of a registry *)

(** The Unix clock reads after 1970 where a receipt is registered. *)
Definition after_epoch (op : registry_op) : Prop :=
  match op with
  | Register _ _ unix_now _ => 0 < unix_now
  | _ => True
  end.

Definition receipt_issued (ttl : Z) (id : string) (stored : StoredReceipt) : Prop :=
  atr_receipt_id (sre_receipt stored) = id /\
  exists key i, 0 < i /\ issued_by key (sre_receipt stored) i (i + ttl).

Definition registry_inv (r : AsyncTaskRegistry) : Prop :=
  0 < reg_receipt_ttl r /\ map_Forall (receipt_issued (reg_receipt_ttl r)) (reg_receipts r).

Lemma registered_inv r request result unix_now now r' receipt :
  register_async_accept r request result unix_now now = Some (r', Some receipt) ->
  key_is_valid (reg_current_key r) = true /\
  s64_fits (unix_now + reg_receipt_ttl r) = true /\
  receipt = make_receipt r request result unix_now now /\
  r' = with_receipts (<[build_receipt_id request result :=
         {| sre_receipt := receipt; sre_task_status := "pending" |}]> (reg_receipts r)) r.
Proof.
  unfold register_async_accept. destruct (negb _); [done|].
  destruct (key_is_valid (reg_current_key r)); [|done]. cbn [negb].
  destruct (s64_fits _) eqn:Hfits; [|done]. cbn [negb]. intros E. by simplify_eq.
Qed.

Lemma refused_inv r request result unix_now now r' :
  register_async_accept r request result unix_now now = Some (r', None) -> r' = r.
Proof. unfold register_async_accept. repeat case_match; by intros E; simplify_eq. Qed.

Lemma call_ttl r op r' : registry_call r op = Some r' -> reg_receipt_ttl r' = reg_receipt_ttl r.
Proof.
  destruct op as [request result unix_now now| | | | |]; simpl; intros E.
  - destruct (register_async_accept r request result unix_now now) as [[r1 [receipt|]]|] eqn:Er;
      simplify_eq/=.
    + by apply registered_inv in Er as (_ & _ & _ & ->).
    + by apply refused_inv in Er as ->.
  - injection E as <-. rewrite query_drops. unfold drop_expired. split_tests.
  - injection E as <-. rewrite validate_drops. unfold drop_expired. split_tests.
  - injection E as <-. unfold mark_completed. split_tests.
  - by injection E as <-.
  - by injection E as <-.
Qed.

(** A receipt a call leaves was there before it, but for its status. *)
Lemma receipt_after_cases r op id stored s :
  receipt_after r op id stored = Some s ->
  s = stored \/ exists status, s = with_status status stored.
Proof. unfold receipt_after. repeat case_match; intros E; simplify_eq; eauto. Qed.

Lemma issued_with_status ttl id status stored :
  receipt_issued ttl id stored -> receipt_issued ttl id (with_status status stored).
Proof.
  intros (Hid & key & i & Hi & Hib). split; [done|]. exists key, i. split; [done|].
  by destruct Hib.
Qed.

Lemma make_receipt_issued r request result unix_now now :
  0 < unix_now -> 0 < reg_receipt_ttl r -> s64_fits (unix_now + reg_receipt_ttl r) = true ->
  key_is_valid (reg_current_key r) = true ->
  receipt_issued (reg_receipt_ttl r) (build_receipt_id request result)
    {| sre_receipt := make_receipt r request result unix_now now; sre_task_status := "pending" |}.
Proof.
  intros Hu Ht Hfits Hkey. split; [done|]. exists (reg_current_key r), unix_now.
  split; [done|]. apply s64_fits_spec in Hfits. split; try done.
  unfold in_s64 in *. lia.
Qed.

Lemma registry_inv_call r op r' :
  registry_inv r -> after_epoch op -> registry_call r op = Some r' -> registry_inv r'.
Proof.
  intros [Httl Hall] Hepoch Hcall. split; [by rewrite (call_ttl _ _ _ Hcall)|].
  rewrite (call_ttl _ _ _ Hcall). intros id stored Hs.
  assert (~ registers r op id -> receipt_issued (reg_receipt_ttl r) id stored) as Hold.
  { intros Hno. rewrite (call_receipt _ _ _ _ Hcall Hno) in Hs.
    destruct (reg_receipts r !! id) as [s|] eqn:E; [|done].
    destruct (receipt_after_cases _ _ _ _ _ Hs) as [->|[status ->]];
      [|apply issued_with_status]; by apply (Hall id). }
  destruct op as [request result unix_now now| | | | |]; try (apply Hold; by intros []).
  destruct (decide (build_receipt_id request result = id)) as [<-|Hne]; [|by apply Hold].
  simpl in Hcall, Hepoch.
  destruct (register_async_accept r request result unix_now now) as [[r1 [receipt|]]|] eqn:Er;
    simplify_eq/=.
  - apply registered_inv in Er as (Hkey & Hfits & -> & ->). simpl in Hs.
    rewrite lookup_insert_eq in Hs. injection Hs as <-. by apply make_receipt_issued.
  - apply refused_inv in Er as ->. by apply (Hall _ _ Hs).
Qed.

Lemma registry_inv_run r ops r' :
  registry_inv r -> Forall after_epoch ops -> registry_run r ops = Some r' -> registry_inv r'.
Proof.
  revert r. induction ops as [|op ops IH]; simpl; intros r Hr He Hrun; [by simplify_eq|].
  apply Forall_cons in He as [Hop He]. destruct (registry_call r op) as [r1|] eqn:Hc; [|done].
  apply (IH r1); [by apply (registry_inv_call r op)|done..].
Qed.

Lemma registry_inv_new ck pk ttl : registry_inv (new_async_task_registry ck pk ttl).
Proof. split; [|by apply map_Forall_empty]. simpl. destruct (Z.leb_spec ttl 0); lia. Qed.

(** The key that signed a receipt is still known: a key with its id that signs the
    receipt's payload the same way. *)
Definition still_signs (r : AsyncTaskRegistry) (key : OwnershipTokenKey)
    (receipt : AsyncTaskReceipt) (i e : Z) : Prop :=
  exists known, signing_key r (otk_key_id key) = Some known /\
    hmac_sha256_base64url (otk_secret known) (pot_signed_payload (issued_fields key receipt i e))
    = pot_signature (issued_fields key receipt i e).

(** C20. Who owns a receipt. In a registry with any history of calls made after 1970, a
    token is accepted for an id and an actor exactly when the registry signs at all,
    the id names an unexpired receipt of that actor, the Unix time is within the
    token's lifetime, the key that signed the receipt is the current or the previous
    one, and the token is the receipt's own, or that token followed by a multiple of
    256 NULs. *)
Theorem ownership_exact ck pk ttl ops r id actor token prune_now now unix_now :
  registry_run (new_async_task_registry ck pk ttl) ops = Some r -> Forall after_epoch ops ->
  snd (validate_ownership r id actor token prune_now now unix_now) = true <->
  key_is_valid (reg_current_key r) = true /\
  exists stored key i,
    let receipt := sre_receipt stored in
    reg_receipts r !! id = Some stored /\ 0 < i /\
    issued_by key receipt i (i + reg_receipt_ttl r) /\
    Z.max prune_now now < atr_expires_at receipt /\ atr_actor_ref receipt = actor /\
    unix_now <= i + reg_receipt_ttl r /\ still_signs r key receipt i (i + reg_receipt_ttl r) /\
    exists n, token = atr_ownership_token receipt +:+ nuls (256 * n).
Proof.
  intros Hrun Hepoch.
  destruct (registry_inv_run _ _ _ (registry_inv_new ck pk ttl) Hepoch Hrun) as [Httl Hall].
  unfold validate_ownership. destruct (key_is_valid (reg_current_key r)); [|naive_solver].
  cbn [negb]. rewrite prune_lookup_receipt.
  destruct (reg_receipts r !! id) as [stored|] eqn:Hs; [|naive_solver].
  destruct (Hall id stored Hs) as (Hid & key & i & Hi & Hib). rewrite live_false.
  destruct (Z.leb_spec (atr_expires_at (sre_receipt stored)) prune_now); cbn [negb];
    [split; [done|intros (_ & s & ? & ? & ? & ?); simplify_eq; lia]|].
  destruct (Z.leb_spec (atr_expires_at (sre_receipt stored)) now); cbn [negb snd];
    [split; [done|intros (_ & s & ? & ? & ? & ?); simplify_eq; lia]|].
  destruct (bool_decide_reflect (atr_actor_ref (sre_receipt stored) = actor)) as [Ha|Ha];
    cbn [negb snd]; [|naive_solver]. split.
  - intros Hacc. apply (token_accepted_iff r key _ i (i + reg_receipt_ttl r)) in Hacc
      as (Hu & Hk & Ht); [|done|lia].
    split; [done|]. exists stored, key, i. split_and!; try done. lia.
  - intros (_ & s & key' & i' & E & Hi' & Hib' & _ & _ & Hu & Hk & Ht). simplify_eq.
    apply (token_accepted_iff r key' _ i' (i' + reg_receipt_ttl r)); [done|lia|]. done.
Qed.

(** ** The life of a receipt *)

Definition op_instants (op : registry_op) : list Z :=
  match op with
  | Register _ _ _ _ | Rotate _ _ => []
  | Query _ now | Prune now => [now]
  | Validate _ _ _ prune_now now _ | MarkCompleted _ _ prune_now now => [prune_now; now]
  end.

(** The status a receipt was last completed with. *)
Definition last_status (id : string) (ops : list registry_op) (status : string) : string :=
  foldl (fun status op =>
    match op with
    | MarkCompleted id' status' _ _ => if bool_decide (id' = id) then status' else status
    | _ => status
    end) status ops.

Definition before (expires : Z) (op : registry_op) : Prop :=
  Forall (fun now => now < expires) (op_instants op).

Lemma receipt_kept r op id status stored :
  before (atr_expires_at (sre_receipt stored)) op ->
  receipt_after r op id (with_status status stored) =
  Some (with_status (last_status id [op] status) stored).
Proof.
  unfold before, receipt_after, last_status, receipt_live.
  destruct op; simpl; rewrite ?Forall_cons; intros Hb;
    repeat match goal with
      |- context [bool_decide (?now < _)] => rewrite (bool_decide_true (now < _)) by naive_solver
      end; rewrite ?orb_true_r; cbn [andb orb]; try done.
  by destruct (bool_decide (receipt_id = id)).
Qed.

Lemma receipt_kept_run r ops r' id status stored :
  reg_receipts r !! id = Some (with_status status stored) ->
  Forall (before (atr_expires_at (sre_receipt stored))) ops ->
  Forall (fun op => ~ registers r op id) ops ->
  registry_run r ops = Some r' ->
  reg_receipts r' !! id = Some (with_status (last_status id ops status) stored).
Proof.
  revert r status. induction ops as [|op ops IH]; simpl; intros r status Hs Hb Hn Hrun;
    [by simplify_eq|].
  apply Forall_cons in Hb as [Hb1 Hb], Hn as [Hn1 Hn].
  destruct (registry_call r op) as [r1|] eqn:Hc; [|done].
  apply (IH r1 (last_status id [op] status)); try done.
  rewrite (call_receipt _ _ _ _ Hc Hn1), Hs. by apply receipt_kept.
Qed.

(** A receipt lives until its expiry. After a request is registered, and whatever is
    called before the expiry short of registering the same id again, a query before the expiry
    finds the receipt, with the status it was last completed with; a query from the
    expiry on finds it expired, and the next one does not find it. *)
Theorem receipt_lifecycle r request result unix_now now r1 receipt ops r2 t :
  register_async_accept r request result unix_now now = Some (r1, Some receipt) ->
  Forall (before (atr_expires_at receipt)) ops ->
  Forall (fun op => ~ registers r1 op (atr_receipt_id receipt)) ops ->
  registry_run r1 ops = Some r2 ->
  let id := atr_receipt_id receipt in
  let found := {| sre_receipt := receipt; sre_task_status := "pending" |} in
  let query := query_receipt r2 id t in
  atr_expires_at receipt = now + milliseconds (reg_receipt_ttl r) /\
  (t < atr_expires_at receipt ->
   query = (r2, (QueryStatus.Found,
                 Some (sre_receipt (with_status (last_status id ops "pending") found))))) /\
  (atr_expires_at receipt <= t ->
   query.2 = (QueryStatus.Expired, None) /\
   forall t', (query_receipt query.1 id t').2 = (QueryStatus.NotFound, None)).
Proof.
  intros Hreg Hb Hn Hrun id found query.
  apply registered_inv in Hreg as (_ & _ & -> & ->). split; [done|].
  assert (reg_receipts r2 !! id = Some (with_status (last_status id ops "pending") found)) as Hs.
  { apply (receipt_kept_run _ ops r2 id "pending" found) in Hrun; try done.
    simpl. by rewrite lookup_insert_eq. }
  subst query. unfold query_receipt. rewrite Hs. cbn [with_status sre_receipt atr_expires_at].
  split; intros Ht.
  - by rewrite (proj2 (Z.leb_gt _ t)).
  - rewrite (proj2 (Z.leb_le _ t)) by done. split; [done|]. intros t'. simpl.
    by rewrite lookup_delete_eq.
Qed.

(** ** Examples *)

Definition sample_key : OwnershipTokenKey := {| otk_key_id := "k1"; otk_secret := "secret" |}.

Definition sample_async : RuntimeDispatchResult :=
  {| ds_disposition := AccessDisposition.AcceptedAsync; ds_publish_envelope := None;
     ds_receipt_ref := Some "receipt-1"; ds_subscription_ref := None; ds_error_ref := None;
     ds_response_context := ∅ |}.

Definition sample_empty : AsyncTaskRegistry := new_async_task_registry sample_key None 1000.

Definition sample_accepted : RuntimeDispatchRequest := sample_dispatch "user://cli/ann" "p1" "k1".

Definition sample_receipt : AsyncTaskReceipt :=
  make_receipt sample_empty sample_accepted sample_async 1700000000000 0.

Definition sample_registry : AsyncTaskRegistry :=
  with_receipts
    {["receipt-1" := {| sre_receipt := sample_receipt; sre_task_status := "pending" |}]}
    sample_empty.

Lemma token_roundtrip_witness :
  pot_actor_ref <$> parse_ownership_token
    (build_ownership_token sample_key "receipt-1" "user://cli/ann" "p1" (-5) 995)
  = Some "user://cli/ann".
Proof.
  rewrite (token_roundtrip sample_key "receipt-1" "user://cli/ann" "p1" (-5) 995);
    [reflexivity|reflexivity|unfold in_s64; lia|unfold in_s64; lia].
Defined.

Lemma ownership_exact_witness :
  snd (validate_ownership sample_registry "receipt-1" "user://cli/ann"
         (atr_ownership_token sample_receipt +:+ nuls 256) 5 6 1700000000900) = true.
Proof.
  apply (ownership_exact sample_key None 1000
           [Register sample_accepted sample_async 1700000000000 0]);
    [reflexivity|repeat constructor|]. split; [reflexivity|].
  exists {| sre_receipt := sample_receipt; sre_task_status := "pending" |}, sample_key,
    1700000000000.
  split; [reflexivity|]. split; [reflexivity|].
  split; [split; [reflexivity..|unfold in_s64; simpl; lia|unfold in_s64; simpl; lia]|].
  split; [reflexivity|]. split; [reflexivity|].
  split; [vm_compute; discriminate|]. split; [exists sample_key; split; reflexivity|].
  exists 1%nat. reflexivity.
Defined.

Lemma receipt_lifecycle_witness :
  let r := fst (mark_completed sample_registry "receipt-1" "completed" 7 8) in
  (query_receipt r "receipt-1" 999999999).2
  = (QueryStatus.Found, Some (sre_receipt (with_status "completed"
       {| sre_receipt := sample_receipt; sre_task_status := "pending" |}))).
Proof.
  pose proof (receipt_lifecycle sample_empty sample_accepted sample_async 1700000000000 0
    sample_registry sample_receipt
    [Query "receipt-1" 3; MarkCompleted "receipt-1" "completed" 7 8]
    (fst (mark_completed sample_registry "receipt-1" "completed" 7 8)) 999999999) as H.
  destruct H as (_ & H & _).
  - reflexivity.
  - repeat constructor; reflexivity.
  - repeat constructor; intros [].
  - reflexivity.
  - intros r. exact (f_equal snd (H eq_refl)).
Defined.
