(* ===== verification/Identity.v ===== *)
(** * Identity

    Who sent a packet: access/src/SubjectResolver.{h,cpp} turns what is known of the
    peer into a subject, access/src/AuthenticatorChain.{h,cpp} accepts or refuses it,
    and access/src/AccessGatewayFactory.cpp reads the peer from the packet's
    [peer_ref], in one way for the daemon and in another for the gateway. *)

From S2P Require Import Prelude Text AgentContracts AccessTypes.

(** ** Data *)

Record PeerMetadata := {
  pm_certificate_subject : option string;
  pm_jwt_actor_ref : option string;
  pm_token_actor_ref : option string;
  pm_simulator_actor_ref : option string;
  pm_tenant_ref : option string;
  pm_device_ref : option string;
  pm_local_peer : LocalPeerUidFact;
}.

Record ResolverView := {
  rv_trusted_local_subjects : list string;
  rv_strict_auth_required : bool;
  rv_allow_remote_challenge : bool;
}.

Record ChallengePlan := {
  chp_challenge_type : string;
  chp_reason_code : string;
  chp_detail : string;
}.

Definition challenge_plan_consistent (plan : ChallengePlan) : bool :=
  negb (is_empty (chp_challenge_type plan)) && negb (is_empty (chp_reason_code plan)).

Record SubjectResolveOutcome := {
  sro_resolved : bool;
  sro_rejected : bool;
  sro_channel_ref : string;
  sro_subject_identity : SubjectIdentity;
  sro_challenge_plan : option ChallengePlan;
  sro_reject_reason : option string;
}.

Definition resolve_requires_challenge (outcome : SubjectResolveOutcome) : bool :=
  negb (sro_resolved outcome) && negb (sro_rejected outcome)
  && match sro_challenge_plan outcome with
     | Some plan => challenge_plan_consistent plan
     | None => false
     end.

Record SubjectHint := {
  sh_actor_ref : string;
  sh_auth_method : string;
  sh_subject_type : string;
  sh_auth_metadata : option string;
}.

Record AuthChallenge := {
  ach_challenge_type : string;
  ach_reason_code : string;
  ach_detail : string;
}.

Definition auth_challenge_consistent (challenge : AuthChallenge) : bool :=
  negb (is_empty (ach_challenge_type challenge)) && negb (is_empty (ach_reason_code challenge)).

Record AuthenticationOutcome := {
  auo_authenticated : bool;
  auo_rejected : bool;
  auo_chain_ref : string;
  auo_subject_identity : SubjectIdentity;
  auo_challenge : option AuthChallenge;
  auo_failure_reason : option string;
}.

Definition auth_requires_challenge (outcome : AuthenticationOutcome) : bool :=
  negb (auo_authenticated outcome) && negb (auo_rejected outcome)
  && match auo_challenge outcome with
     | Some challenge => auth_challenge_consistent challenge
     | None => false
     end.

(** ** Resolving a subject *)

Definition is_local_entry_type (entry_type : string) : bool :=
  bool_decide (entry_type = "cli") || bool_decide (entry_type = "daemon").

Definition is_daemon_entry_type (entry_type : string) : bool :=
  bool_decide (entry_type = "daemon").

Definition stable_value_or_unknown (value : string) : string :=
  if is_empty value then "unknown" else value.

(** Both classes look an actor up in the same list. *)
Definition is_allowlisted_local_subject (trusted : list string) (actor_ref : string) : bool :=
  existsb (fun subject => bool_decide (subject = actor_ref)) trusted.

Definition local_actor_ref_from_fact (local_peer : LocalPeerUidFact) : string :=
  if negb (is_empty (lp_actor_ref local_peer)) then lp_actor_ref local_peer else
  "local://uid/" +:+ to_string (lp_peer_uid local_peer).

Definition make_identity (hint : SubjectHint) (peer_metadata : PeerMetadata) : SubjectIdentity :=
  {| si_actor_ref := sh_actor_ref hint; si_subject_type := sh_subject_type hint;
     si_auth_method := sh_auth_method hint; si_trust_level := "authenticated";
     si_tenant_ref := default "default" (pm_tenant_ref peer_metadata);
     si_auth_metadata := sh_auth_metadata hint |}.

(** One of the four pieces of [collect_subject_hints]: a field that is present and not
    empty gives a hint. *)
Definition hint_of (field : option string) (hint : string -> SubjectHint) : list SubjectHint :=
  let? value := field else [] in
  if is_empty value then [] else [hint value].

Definition collect_subject_hints (peer_metadata : PeerMetadata) : list SubjectHint :=
  hint_of (pm_certificate_subject peer_metadata) (fun subject =>
    {| sh_actor_ref := "mtls://" +:+ subject; sh_auth_method := "mTLS";
       sh_subject_type := "service"; sh_auth_metadata := Some subject |})
  ++ hint_of (pm_jwt_actor_ref peer_metadata) (fun actor =>
    {| sh_actor_ref := actor; sh_auth_method := "JWT"; sh_subject_type := "user";
       sh_auth_metadata := None |})
  ++ hint_of (pm_token_actor_ref peer_metadata) (fun actor =>
    {| sh_actor_ref := actor; sh_auth_method := "token"; sh_subject_type := "user";
       sh_auth_metadata := None |})
  ++ hint_of (pm_simulator_actor_ref peer_metadata) (fun actor =>
    {| sh_actor_ref := actor; sh_auth_method := "simulator_stub";
       sh_subject_type := "diagnostic_endpoint"; sh_auth_metadata := None |}).

Definition derive_channel_ref (packet : InboundPacket) : string :=
  "channel://" +:+ (stable_value_or_unknown (ip_entry_type packet) +:+ ("/" +:+
    stable_value_or_unknown (ip_protocol_kind packet))).

Definition derive_local_subject (packet : InboundPacket) (peer_metadata : PeerMetadata)
    (view : ResolverView) : option SubjectIdentity :=
  if negb (is_local_entry_type (ip_entry_type packet)) then None else
  let local_peer := pm_local_peer peer_metadata in
  if negb (lp_is_local_socket_peer local_peer) || negb (lp_eligible_for_local_trusted local_peer)
  then None else
  let actor_ref := local_actor_ref_from_fact local_peer in
  if bool_decide (rv_trusted_local_subjects view = [])
     || negb (is_allowlisted_local_subject (rv_trusted_local_subjects view) actor_ref)
  then None else
  Some {| si_actor_ref := actor_ref; si_subject_type := "operator";
          si_auth_method := "local_trusted"; si_trust_level := "trusted";
          si_tenant_ref := default "local" (pm_tenant_ref peer_metadata);
          si_auth_metadata := Some ("peer_uid=" +:+ to_string (lp_peer_uid local_peer)) |}.

Definition build_challenge_plan (packet : InboundPacket) (reason_code : string)
    : ChallengePlan :=
  {| chp_challenge_type :=
       if bool_decide (ip_protocol_kind packet = "http")
          || bool_decide (ip_protocol_kind packet = "http_unary")
       then "http_authenticate" else "credential_prompt";
     chp_reason_code := reason_code;
     chp_detail := "additional authentication is required for " +:+
       stable_value_or_unknown (ip_entry_type packet) |}.

Definition subject_resolved (channel_ref : string) (subject : SubjectIdentity)
    : SubjectResolveOutcome :=
  {| sro_resolved := true; sro_rejected := false; sro_channel_ref := channel_ref;
     sro_subject_identity := subject; sro_challenge_plan := None; sro_reject_reason := None |}.

Definition subject_rejected (channel_ref reason : string) : SubjectResolveOutcome :=
  {| sro_resolved := false; sro_rejected := true; sro_channel_ref := channel_ref;
     sro_subject_identity := empty_subject; sro_challenge_plan := None;
     sro_reject_reason := Some reason |}.

Definition resolve (packet : InboundPacket) (peer_metadata : PeerMetadata)
    (view : ResolverView) : SubjectResolveOutcome :=
  let channel_ref := derive_channel_ref packet in
  match derive_local_subject packet peer_metadata view with
  | Some local_subject => subject_resolved channel_ref local_subject
  | None =>
      if is_daemon_entry_type (ip_entry_type packet)
         && (negb (lp_is_local_socket_peer (pm_local_peer peer_metadata))
             || negb (lp_eligible_for_local_trusted (pm_local_peer peer_metadata)))
      then subject_rejected channel_ref "missing_local_peer_identity" else
      let subject_hints := collect_subject_hints peer_metadata in
      let distinct_actor_refs : gset string := list_to_set (sh_actor_ref <$> subject_hints) in
      if (1 <? size distinct_actor_refs)%nat
      then subject_rejected channel_ref "identity_conflict" else
      match subject_hints with
      | hint :: _ => subject_resolved channel_ref (make_identity hint peer_metadata)
      | [] =>
          if negb (is_local_entry_type (ip_entry_type packet)) && rv_allow_remote_challenge view
          then {| sro_resolved := false; sro_rejected := false; sro_channel_ref := channel_ref;
                  sro_subject_identity := empty_subject;
                  sro_challenge_plan := Some (build_challenge_plan packet "missing_identity_hint");
                  sro_reject_reason := None |}
          else subject_rejected channel_ref
                 (if rv_strict_auth_required view then "missing_identity_hint"
                  else "identity_not_resolved")
      end
  end.

(** ** Authenticating it *)

Definition uses_external_secret_backend (chain_ref : string) : bool :=
  bool_decide (chain_ref = "jwt") || bool_decide (chain_ref = "token")
  || bool_decide (chain_ref = "mtls").

Definition select_chain (resolved_subject : SubjectResolveOutcome) : string :=
  if negb (sro_resolved resolved_subject) then "missing_subject" else
  let auth_method := si_auth_method (sro_subject_identity resolved_subject) in
  if bool_decide (auth_method = "local_trusted") then "local_trusted" else
  if bool_decide (auth_method = "JWT") then "jwt" else
  if bool_decide (auth_method = "token") then "token" else
  if bool_decide (auth_method = "mTLS") then "mtls" else
  if bool_decide (auth_method = "simulator_stub") then "simulator_stub" else
  "unknown".

Definition merge_subject_attributes (subject : SubjectIdentity) (auth_view : AccessAuthView)
    (chain_ref : string) : SubjectIdentity :=
  let metadata_value := "chain=" +:+ chain_ref in
  {| si_actor_ref := si_actor_ref subject;
     si_subject_type := si_subject_type subject;
     si_auth_method := si_auth_method subject;
     si_trust_level :=
       if bool_decide (chain_ref = "local_trusted")
          && is_allowlisted_local_subject (auv_trusted_local_subjects auth_view)
               (si_actor_ref subject)
       then "trusted"
       else if is_empty (si_trust_level subject)
       then (if bool_decide (chain_ref = "local_trusted") then "trusted" else "authenticated")
       else si_trust_level subject;
     si_tenant_ref :=
       if is_empty (si_tenant_ref subject) then "default" else si_tenant_ref subject;
     si_auth_metadata :=
       Some (if has_non_empty_value (si_auth_metadata subject)
             then default "" (si_auth_metadata subject) +:+ (";" +:+ metadata_value)
             else metadata_value) |}.

Definition map_failure_reason (reason_code : string) : string :=
  if bool_decide (reason_code = "identity_conflict") then "identity_conflict" else
  if bool_decide (reason_code = "secret_backend_unavailable")
  then "secret_backend_unavailable" else
  if bool_decide (reason_code = "local_trusted_not_allowlisted")
  then "authentication_failed" else
  if bool_decide (reason_code = "missing_identity_hint")
     || bool_decide (reason_code = "missing_subject")
     || bool_decide (reason_code = "credential_missing")
  then "authentication_required" else
  "authentication_failed".

Definition auth_failed (chain_ref reason_code : string) : AuthenticationOutcome :=
  {| auo_authenticated := false; auo_rejected := true; auo_chain_ref := chain_ref;
     auo_subject_identity := empty_subject; auo_challenge := None;
     auo_failure_reason := Some (map_failure_reason reason_code) |}.

Definition auth_passed (subject : SubjectIdentity) (auth_view : AccessAuthView)
    (chain_ref : string) : AuthenticationOutcome :=
  {| auo_authenticated := true; auo_rejected := false; auo_chain_ref := chain_ref;
     auo_subject_identity := merge_subject_attributes subject auth_view chain_ref;
     auo_challenge := None; auo_failure_reason := None |}.

Definition verify_credentials (resolved_subject : SubjectResolveOutcome)
    (auth_view : AccessAuthView) (chain_ref : string) : AuthenticationOutcome :=
  let subject := sro_subject_identity resolved_subject in
  let authenticated := auth_passed subject auth_view chain_ref in
  if negb (sro_resolved resolved_subject) then auth_failed chain_ref "missing_subject" else
  if is_empty (si_actor_ref subject) || is_empty (si_auth_method subject)
  then auth_failed chain_ref "credential_missing" else
  if bool_decide (chain_ref = "local_trusted") then
    if negb (is_allowlisted_local_subject (auv_trusted_local_subjects auth_view)
               (si_actor_ref subject))
    then auth_failed chain_ref "local_trusted_not_allowlisted" else authenticated
  else if uses_external_secret_backend chain_ref
          && bool_decide (auv_auth_provider_ref auth_view = Some "secret://unavailable")
  then auth_failed chain_ref "secret_backend_unavailable"
  else if bool_decide (chain_ref = "unknown") || bool_decide (chain_ref = "missing_subject")
  then auth_failed chain_ref "credential_missing"
  else authenticated.

Definition authenticate (resolved_subject : SubjectResolveOutcome) (auth_view : AccessAuthView)
    : option AuthenticationOutcome :=
  if resolve_requires_challenge resolved_subject then
    let? plan := sro_challenge_plan resolved_subject else None in
    Some {| auo_authenticated := false; auo_rejected := false; auo_chain_ref := "challenge";
            auo_subject_identity := empty_subject;
            auo_challenge :=
              Some {| ach_challenge_type := chp_challenge_type plan;
                      ach_reason_code := chp_reason_code plan;
                      ach_detail := chp_detail plan |};
            auo_failure_reason := None |}
  else if sro_rejected resolved_subject then
    Some (auth_failed "rejected"
            (default "authentication_failed" (sro_reject_reason resolved_subject)))
  else Some (verify_credentials resolved_subject auth_view (select_chain resolved_subject)).

(** ** The peer of a packet *)

(** [std::from_chars] into a 32-bit unsigned integer: the leading digits; what follows
    them is not looked at. *)
Definition from_chars_u32 (text : string) : option Z :=
  match text with
  | String ch _ =>
      if negb (is_digit ch) then None else
      let value := digits_value 0 text in
      if value <? 2 ^ 32 then Some value else None
  | EmptyString => None
  end.

Definition parse_local_peer_fact (packet : InboundPacket) : LocalPeerUidFact :=
  match strip_prefix "local_trusted:" (ip_peer_ref packet) with
  | None => no_local_peer
  | Some uid_text =>
      match from_chars_u32 uid_text with
      | None => {| lp_actor_ref := ""; lp_peer_uid := 0; lp_peer_gid := 0; lp_peer_pid := 0;
                   lp_is_local_socket_peer := true; lp_eligible_for_local_trusted := false |}
      | Some uid => {| lp_actor_ref := "local://uid/" +:+ to_string uid; lp_peer_uid := uid;
                       lp_peer_gid := 0; lp_peer_pid := 0; lp_is_local_socket_peer := true;
                       lp_eligible_for_local_trusted := true |}
      end
  end.

Definition local_peer_metadata (local_peer : LocalPeerUidFact) : PeerMetadata :=
  {| pm_certificate_subject := None; pm_jwt_actor_ref := None; pm_token_actor_ref := None;
     pm_simulator_actor_ref := None; pm_tenant_ref := None; pm_device_ref := None;
     pm_local_peer := local_peer |}.

Definition parse_gateway_peer_metadata (packet : InboundPacket) : PeerMetadata :=
  let metadata certificate jwt token simulator :=
    {| pm_certificate_subject := certificate; pm_jwt_actor_ref := jwt;
       pm_token_actor_ref := token; pm_simulator_actor_ref := simulator;
       pm_tenant_ref := None; pm_device_ref := None; pm_local_peer := no_local_peer |} in
  let peer_ref := ip_peer_ref packet in
  match strip_prefix "jwt:" peer_ref with
  | Some actor => metadata None (Some actor) None None
  | None =>
  match strip_prefix "token:" peer_ref with
  | Some actor => metadata None None (Some actor) None
  | None =>
  match strip_prefix "mtls:" peer_ref with
  | Some subject => metadata (Some subject) None None None
  | None =>
  match strip_prefix "simulator:" peer_ref with
  | Some actor => metadata None None None (Some actor)
  | None => metadata None None None None
  end end end end.

(** The three steps of both submit pipelines: the peer, the resolver's view of the
    authentication view, the two classes. *)
Definition authenticate_packet (peer_metadata : PeerMetadata) (allow_remote_challenge : bool)
    (auth_view : AccessAuthView) (packet : InboundPacket) : option AuthenticationOutcome :=
  let resolver_view :=
    {| rv_trusted_local_subjects := auv_trusted_local_subjects auth_view;
       rv_strict_auth_required := auv_strict_auth_required auth_view;
       rv_allow_remote_challenge := allow_remote_challenge |} in
  authenticate (resolve packet peer_metadata resolver_view) auth_view.

Definition authenticate_daemon_packet (auth_view : AccessAuthView) (packet : InboundPacket)
    : option AuthenticationOutcome :=
  authenticate_packet (local_peer_metadata (parse_local_peer_fact packet)) false auth_view packet.

Definition authenticate_gateway_packet (auth_view : AccessAuthView) (packet : InboundPacket)
    : option AuthenticationOutcome :=
  authenticate_packet (parse_gateway_peer_metadata packet) true auth_view packet.

(** apps/daemon/src/DaemonBootstrap.cpp: the [peer_ref] the daemon puts into a packet,
    from what the socket says of the peer and from the packet as it was decoded. *)
Definition resolve_daemon_peer_ref (peer_fact : LocalPeerUidFact) (decoded_peer_ref : string)
    : string :=
  if lp_eligible_for_local_trusted peer_fact
  then "local_trusted:" +:+ to_string (lp_peer_uid peer_fact) else
  if negb (is_empty decoded_peer_ref) then decoded_peer_ref else "untrusted".

(** ** The outcomes are exclusive *)

(** Exactly one of three verdicts. *)
Definition one_verdict (a b c : bool) : Prop :=
  (a, b, c) = (true, false, false) \/ (a, b, c) = (false, true, false)
  \/ (a, b, c) = (false, false, true).

Lemma resolve_cases packet meta view :
  let channel_ref := derive_channel_ref packet in
  (exists subject, resolve packet meta view = subject_resolved channel_ref subject) \/
  (exists reason, resolve packet meta view = subject_rejected channel_ref reason) \/
  (sro_resolved (resolve packet meta view) = false /\
   sro_rejected (resolve packet meta view) = false /\
   sro_challenge_plan (resolve packet meta view)
     = Some (build_challenge_plan packet "missing_identity_hint")).
Proof.
  unfold resolve. cbv zeta. destruct (derive_local_subject packet meta view); [eauto|].
  case_match; [eauto|]. case_match; [eauto|].
  destruct (collect_subject_hints meta); [|eauto]. case_match; [by right; right|eauto].
Qed.

Lemma challenge_consistent packet reason :
  reason <> "" -> challenge_plan_consistent (build_challenge_plan packet reason) = true.
Proof.
  intros H. unfold challenge_plan_consistent. simpl. rewrite (proj2 (is_empty_false reason)) by done.
  by case_match.
Qed.

Definition failure_reasons : list string :=
  ["identity_conflict"; "secret_backend_unavailable"; "authentication_failed";
   "authentication_required"].

Lemma map_failure_reason_known code : map_failure_reason code ∈ failure_reasons.
Proof. unfold map_failure_reason, failure_reasons. repeat case_match; set_solver. Qed.

Lemma verify_cases resolved auth_view chain_ref :
  (exists reason, verify_credentials resolved auth_view chain_ref = auth_failed chain_ref reason) \/
  verify_credentials resolved auth_view chain_ref
    = auth_passed (sro_subject_identity resolved) auth_view chain_ref.
Proof.
  unfold verify_credentials. cbv zeta.
  case_match; [eauto|]. case_match; [eauto|].
  case_match; [case_match; eauto|]. case_match; [eauto|]. case_match; eauto.
Qed.

Lemma authenticate_verdict packet meta view auth_view :
  let resolved := resolve packet meta view in
  one_verdict (sro_resolved resolved) (sro_rejected resolved)
    (resolve_requires_challenge resolved) /\
  exists outcome, authenticate resolved auth_view = Some outcome /\
    one_verdict (auo_authenticated outcome) (auo_rejected outcome)
      (auth_requires_challenge outcome) /\
    match auo_failure_reason outcome with
    | Some reason => auo_rejected outcome = true /\ reason ∈ failure_reasons
    | None => auo_rejected outcome = false
    end.
Proof.
  intros resolved. subst resolved. pose proof map_failure_reason_known as Hk.
  destruct (resolve_cases packet meta view) as [[subject ->]|[[reason ->]|(H1 & H2 & H3)]].
  - split; [by left|]. eexists. split; [done|].
    destruct (verify_cases (subject_resolved (derive_channel_ref packet) subject) auth_view
      (select_chain (subject_resolved (derive_channel_ref packet) subject))) as [[reason ->]| ->].
    + split; [by right; left|]. split; [done|apply Hk].
    + split; [by left|done].
  - split; [by right; left|]. eexists. split; [done|]. split; [by right; left|].
    split; [done|apply Hk].
  - assert (resolve_requires_challenge (resolve packet meta view) = true) as Hc.
    { unfold resolve_requires_challenge. by rewrite H1, H2, H3, challenge_consistent. }
    rewrite H1, H2, Hc. split; [by right; right|]. unfold authenticate. rewrite Hc, H3.
    eexists. split; [done|]. split; [|done]. right. right. simpl. f_equal.
    unfold auth_requires_challenge. simpl. by case_match.
Qed.

(** Resolution and authentication dereference no empty field. Each gives exactly one of
    three verdicts: resolved or authenticated, challenged, rejected; and a rejection, and
    nothing else, carries one of four reasons. *)
Theorem authentication_trichotomy packet meta view auth_view :
  let resolved := resolve packet meta view in
  one_verdict (sro_resolved resolved) (sro_rejected resolved)
    (resolve_requires_challenge resolved) /\
  exists outcome, authenticate resolved auth_view = Some outcome /\
    one_verdict (auo_authenticated outcome) (auo_rejected outcome)
      (auth_requires_challenge outcome) /\
    match auo_failure_reason outcome with
    | Some reason => auo_rejected outcome = true /\ reason ∈ failure_reasons
    | None => auo_rejected outcome = false
    end.
Proof. apply authenticate_verdict. Qed.

(** ** Who is authenticated *)

Definition accepted_as (outcome : option AuthenticationOutcome) (subject : SubjectIdentity)
    : Prop :=
  exists o, outcome = Some o /\ auo_authenticated o = true /\ auo_subject_identity o = subject.

Lemma accepted_passed subject view chain subject' :
  accepted_as (Some (auth_passed subject view chain)) subject' <->
  subject' = merge_subject_attributes subject view chain.
Proof. unfold accepted_as. split; [by intros (o & [= <-] & _ & <-)|intros ->; by eexists]. Qed.

Lemma accepted_failed chain reason subject : accepted_as (Some (auth_failed chain reason)) subject <-> False.
Proof. unfold accepted_as. split; [by intros (o & [= <-] & ? & _)|done]. Qed.

Lemma accepted_rejected channel reason view subject :
  accepted_as (authenticate (subject_rejected channel reason) view) subject <-> False.
Proof. apply accepted_failed. Qed.

Lemma accepted_challenge resolved view subject :
  resolve_requires_challenge resolved = true -> accepted_as (authenticate resolved view) subject <-> False.
Proof.
  intros H. unfold authenticate. rewrite H. unfold accepted_as.
  case_match; split; try done; by intros (o & ? & ? & ?); simplify_eq/=.
Qed.

Lemma allowlisted trusted actor : is_allowlisted_local_subject trusted actor = true <-> actor ∈ trusted.
Proof.
  unfold is_allowlisted_local_subject. rewrite existsb_exists, list_elem_of_In.
  setoid_rewrite bool_decide_eq_true. naive_solver.
Qed.

Lemma local_actor_not_empty uid : "local://uid/" +:+ to_string uid <> "".
Proof. done. Qed.

Lemma local_actor_of_fact uid gid pid socket eligible :
  local_actor_ref_from_fact {| lp_actor_ref := "local://uid/" +:+ to_string uid;
    lp_peer_uid := uid; lp_peer_gid := gid; lp_peer_pid := pid;
    lp_is_local_socket_peer := socket; lp_eligible_for_local_trusted := eligible |}
  = "local://uid/" +:+ to_string uid.
Proof. done. Qed.

(** What a daemon packet is accepted as. *)
Definition local_subject (uid : Z) : SubjectIdentity :=
  {| si_actor_ref := "local://uid/" +:+ to_string uid; si_subject_type := "operator";
     si_auth_method := "local_trusted"; si_trust_level := "trusted"; si_tenant_ref := "local";
     si_auth_metadata :=
       Some (("peer_uid=" +:+ to_string uid) +:+ (";" +:+ ("chain=" +:+ "local_trusted"))) |}.

(** The packet claims the user id, by its [peer_ref]. *)
Definition claims_uid (packet : InboundPacket) (uid : Z) : Prop :=
  exists text, ip_peer_ref packet = "local_trusted:" +:+ text /\ from_chars_u32 text = Some uid.

Lemma parse_local_peer_some packet uid :
  claims_uid packet uid ->
  parse_local_peer_fact packet =
  {| lp_actor_ref := "local://uid/" +:+ to_string uid; lp_peer_uid := uid; lp_peer_gid := 0;
     lp_peer_pid := 0; lp_is_local_socket_peer := true; lp_eligible_for_local_trusted := true |}.
Proof.
  intros (text & E & Hu). unfold parse_local_peer_fact. by rewrite E, strip_prefix_app, Hu.
Qed.

Lemma parse_local_peer_none packet :
  (forall uid, ~ claims_uid packet uid) ->
  lp_eligible_for_local_trusted (parse_local_peer_fact packet) = false.
Proof.
  intros H. unfold parse_local_peer_fact.
  destruct (strip_prefix _ _) as [text|] eqn:E; [|done]. apply strip_prefix_some in E.
  destruct (from_chars_u32 text) as [uid|] eqn:Hu; [|done].
  destruct (H uid). by exists text.
Qed.

Lemma from_chars_unique packet uid uid' : claims_uid packet uid -> claims_uid packet uid' -> uid = uid'.
Proof.
  intros (t & E & H) (t' & E' & H'). rewrite E in E'. apply string_app_inj in E' as ->. congruence.
Qed.

Lemma claims_dec packet : (exists uid, claims_uid packet uid) \/ (forall uid, ~ claims_uid packet uid).
Proof.
  unfold claims_uid. destruct (strip_prefix "local_trusted:" (ip_peer_ref packet)) as [text|] eqn:E.
  - apply strip_prefix_some in E as ->. destruct (from_chars_u32 text) as [uid|] eqn:Hu; [by eauto|].
    right. intros uid (t & ->%string_app_inj & ?). congruence.
  - right. intros uid (t & E' & _). by rewrite E', strip_prefix_app in E.
Qed.

(** Without a local subject and without hints a packet is challenged or rejected. *)
Lemma resolve_no_hints packet meta view auth_view subject :
  derive_local_subject packet meta view = None -> collect_subject_hints meta = [] ->
  accepted_as (authenticate (resolve packet meta view) auth_view) subject <-> False.
Proof.
  intros Hl Hh. unfold resolve. rewrite Hl, Hh. cbv zeta. case_match; [apply accepted_rejected|].
  cbn [fmap list_fmap list_to_set]. rewrite size_empty. cbn [Nat.ltb Nat.leb].
  case_match; [|apply accepted_rejected]. apply accepted_challenge.
  unfold resolve_requires_challenge. cbn [negb sro_resolved sro_rejected sro_challenge_plan andb].
  by rewrite challenge_consistent.
Qed.

Lemma verify_local packet view subject :
  si_actor_ref subject <> "" -> si_auth_method subject = "local_trusted" ->
  si_actor_ref subject ∈ auv_trusted_local_subjects view ->
  authenticate (subject_resolved (derive_channel_ref packet) subject) view
  = Some (auth_passed subject view "local_trusted").
Proof.
  intros Ha Hm Hin%allowlisted. unfold authenticate, select_chain, verify_credentials.
  cbn [resolve_requires_challenge subject_resolved sro_resolved sro_rejected sro_subject_identity
    negb andb].
  rewrite Hm, (proj2 (is_empty_false _)) by done. cbn. by rewrite Hin.
Qed.

(** The daemon accepts a packet exactly when its entry is local and its [peer_ref] claims
    the user id of a trusted subject, as that subject. *)
Lemma daemon_accepts view packet subject :
  accepted_as (authenticate_daemon_packet view packet) subject <->
  is_local_entry_type (ip_entry_type packet) = true /\
  exists uid, claims_uid packet uid /\
    "local://uid/" +:+ to_string uid ∈ auv_trusted_local_subjects view /\
    subject = local_subject uid.
Proof.
  unfold authenticate_daemon_packet, authenticate_packet.
  set (rview := {| rv_trusted_local_subjects := _ |}).
  set (meta := local_peer_metadata _).
  destruct (derive_local_subject packet meta rview) as [local|] eqn:Hd.
  - unfold resolve. rewrite Hd. revert Hd. unfold derive_local_subject. subst meta rview.
    destruct (is_local_entry_type _); [|done]. cbn [negb pm_local_peer local_peer_metadata
      rv_trusted_local_subjects].
    destruct (claims_dec packet) as [[uid Hc]|Hc].
    2: { rewrite (parse_local_peer_none _ Hc), orb_true_r. done. }
    rewrite (parse_local_peer_some _ _ Hc). cbn [lp_is_local_socket_peer
      lp_eligible_for_local_trusted negb orb]. cbv zeta. rewrite local_actor_of_fact.
    destruct (is_allowlisted_local_subject _ _) eqn:Ht; [|by rewrite orb_true_r].
    pose proof (proj1 (allowlisted _ _) Ht) as Hin.
    rewrite bool_decide_false by (by intros E; rewrite E in Hin; apply elem_of_nil in Hin).
    cbn [negb orb]. intros [= <-]. rewrite verify_local by done. rewrite accepted_passed.
    unfold merge_subject_attributes. cbn [si_actor_ref si_subject_type si_auth_method
      si_trust_level si_tenant_ref si_auth_metadata]. rewrite Ht. cbn.
    split.
    + intros ->. split; [done|]. exists uid. by split_and!.
    + intros (_ & uid' & Hc' & _ & ->). by rewrite (from_chars_unique _ _ _ Hc' Hc).
  - rewrite resolve_no_hints by done. split; [done|].
    intros (Hl & uid & Hc & Hin & _). revert Hd. unfold derive_local_subject. subst meta rview.
    cbn [pm_local_peer local_peer_metadata rv_trusted_local_subjects].
    rewrite Hl, (parse_local_peer_some _ _ Hc). cbn [lp_is_local_socket_peer
      lp_eligible_for_local_trusted negb orb]. cbv zeta. rewrite local_actor_of_fact.
    rewrite (proj2 (allowlisted _ _) Hin).
    by rewrite bool_decide_false by (by intros E; rewrite E in Hin; apply elem_of_nil in Hin).
Qed.

(** *** The gateway *)

Inductive CredentialKind := Jwt | Token | Mtls | SimulatorStub.

Definition credential_prefix (kind : CredentialKind) : string :=
  match kind with
  | Jwt => "jwt:" | Token => "token:" | Mtls => "mtls:" | SimulatorStub => "simulator:"
  end.

Definition credential_metadata (kind : CredentialKind) (text : string) : PeerMetadata :=
  {| pm_certificate_subject := match kind with Mtls => Some text | _ => None end;
     pm_jwt_actor_ref := match kind with Jwt => Some text | _ => None end;
     pm_token_actor_ref := match kind with Token => Some text | _ => None end;
     pm_simulator_actor_ref := match kind with SimulatorStub => Some text | _ => None end;
     pm_tenant_ref := None; pm_device_ref := None; pm_local_peer := no_local_peer |}.

(** What a gateway packet is accepted as. *)
Definition remote_subject (kind : CredentialKind) (text : string) : SubjectIdentity :=
  let subject actor type method metadata :=
    {| si_actor_ref := actor; si_subject_type := type; si_auth_method := method;
       si_trust_level := "authenticated"; si_tenant_ref := "default";
       si_auth_metadata := Some metadata |} in
  match kind with
  | Jwt => subject text "user" "JWT" "chain=jwt"
  | Token => subject text "user" "token" "chain=token"
  | Mtls => subject ("mtls://" +:+ text) "service" "mTLS" (text +:+ ";chain=mtls")
  | SimulatorStub => subject text "diagnostic_endpoint" "simulator_stub" "chain=simulator_stub"
  end.

Lemma credential_unique kind kind' text text' :
  credential_prefix kind +:+ text = credential_prefix kind' +:+ text' ->
  kind = kind' /\ text = text'.
Proof. destruct kind, kind'; simpl; intros E; by simplify_eq. Qed.

Lemma parse_gateway_some packet kind text :
  ip_peer_ref packet = credential_prefix kind +:+ text ->
  parse_gateway_peer_metadata packet = credential_metadata kind text.
Proof.
  intros E. unfold parse_gateway_peer_metadata. rewrite E. by destruct kind.
Qed.

Lemma parse_gateway_none packet :
  (forall kind text, ip_peer_ref packet <> credential_prefix kind +:+ text) ->
  collect_subject_hints (parse_gateway_peer_metadata packet) = [].
Proof.
  intros H. unfold parse_gateway_peer_metadata.
  destruct (strip_prefix "jwt:" _) as [t|] eqn:E; [by apply strip_prefix_some, (H Jwt) in E|clear E].
  destruct (strip_prefix "token:" _) as [t|] eqn:E;
    [by apply strip_prefix_some, (H Token) in E|clear E].
  destruct (strip_prefix "mtls:" _) as [t|] eqn:E;
    [by apply strip_prefix_some, (H Mtls) in E|clear E].
  destruct (strip_prefix "simulator:" _) as [t|] eqn:E;
    [by apply strip_prefix_some, (H SimulatorStub) in E|done].
Qed.

Lemma gateway_no_local packet packet' view : derive_local_subject packet (parse_gateway_peer_metadata packet') view = None.
Proof.
  unfold derive_local_subject. case_match; [done|]. unfold parse_gateway_peer_metadata.
  by repeat (destruct (strip_prefix _ _); [done|]).
Qed.

Lemma credential_claimed packet :
  (exists kind text, ip_peer_ref packet = credential_prefix kind +:+ text) \/
  (forall kind text, ip_peer_ref packet <> credential_prefix kind +:+ text).
Proof.
  destruct (decide (Exists (fun kind => is_Some (strip_prefix (credential_prefix kind) (ip_peer_ref packet)))
    [Jwt; Token; Mtls; SimulatorStub])) as [H|H].
  - left. apply Exists_exists in H as (kind & _ & text & E%strip_prefix_some). eauto.
  - right. intros kind text E. apply H, Exists_exists. exists kind.
    rewrite E, strip_prefix_app. split; [destruct kind; set_solver|done].
Qed.

(** The subject of a name before it is authenticated. *)
Definition hinted_identity (kind : CredentialKind) (text : string) : SubjectIdentity :=
  let subject := remote_subject kind text in
  {| si_actor_ref := si_actor_ref subject; si_subject_type := si_subject_type subject;
     si_auth_method := si_auth_method subject; si_trust_level := "authenticated";
     si_tenant_ref := "default";
     si_auth_metadata := match kind with Mtls => Some text | _ => None end |}.

Lemma one_hint packet kind text rview :
  text <> "" -> ip_entry_type packet <> "daemon" ->
  resolve packet (credential_metadata kind text) rview
  = subject_resolved (derive_channel_ref packet) (hinted_identity kind text).
Proof.
  intros Ht%is_empty_false He. unfold resolve.
  assert (derive_local_subject packet (credential_metadata kind text) rview = None) as ->.
  { unfold derive_local_subject. by case_match. }
  unfold is_daemon_entry_type. rewrite bool_decide_false by done. cbn [andb].
  destruct kind; unfold collect_subject_hints, hint_of; cbn; rewrite Ht; cbn;
    rewrite union_empty_r_L, size_singleton; done.
Qed.

Lemma verify_hinted packet kind text view :
  text <> "" ->
  authenticate (subject_resolved (derive_channel_ref packet) (hinted_identity kind text)) view
  = Some (if match kind with SimulatorStub => false | _ =>
               bool_decide (auv_auth_provider_ref view = Some "secret://unavailable") end
          then auth_failed (select_chain (subject_resolved "" (hinted_identity kind text)))
                 "secret_backend_unavailable"
          else auth_passed (hinted_identity kind text) view
                 (select_chain (subject_resolved "" (hinted_identity kind text)))).
Proof.
  intros Ht%is_empty_false. unfold authenticate, verify_credentials.
  destruct kind; cbn -[bool_decide]; rewrite ?Ht; cbn -[bool_decide is_empty];
    by destruct (bool_decide (auv_auth_provider_ref view = _)).
Qed.

(** The secret backend is not asked for a stub. *)
Definition backend_answers (view : AccessAuthView) (kind : CredentialKind) : Prop :=
  kind = SimulatorStub \/ auv_auth_provider_ref view <> Some "secret://unavailable".

(** The gateway accepts a packet exactly when its entry is not the daemon and its
    [peer_ref] is one of four prefixes and a name, as the subject of that name; the
    secret backend must not be marked unavailable, except for a stub. Nothing else of
    the authentication view matters, and nothing but the name is verified. *)
Lemma gateway_accepts view packet subject :
  accepted_as (authenticate_gateway_packet view packet) subject <->
  ip_entry_type packet <> "daemon" /\
  exists kind text, ip_peer_ref packet = credential_prefix kind +:+ text /\ text <> "" /\
    backend_answers view kind /\ subject = remote_subject kind text.
Proof.
  unfold authenticate_gateway_packet, authenticate_packet.
  set (rview := {| rv_trusted_local_subjects := _ |}).
  pose proof (gateway_no_local packet packet rview) as Hd.
  destruct (credential_claimed packet) as [(kind & text & E)|Hnone].
  2: { rewrite resolve_no_hints by (done || by apply parse_gateway_none).
       split; [done|]. intros (_ & kind & text & E & _). by destruct (Hnone kind text). }
  rewrite (parse_gateway_some _ _ _ E) in *.
  assert (forall P, (ip_entry_type packet <> "daemon" /\ P kind text) <->
    (ip_entry_type packet <> "daemon" /\ exists k t,
       ip_peer_ref packet = credential_prefix k +:+ t /\ P k t)) as Hcred.
  { intros P. split; [intros [? HP]; eauto|].
    intros (? & k & t & E' & HP). rewrite E in E'. by apply credential_unique in E' as [<- <-]. }
  rewrite <-(Hcred (fun k t => t <> "" /\ backend_answers view k /\ subject = remote_subject k t)).
  destruct (decide (text = "")) as [->|Htext].
  { rewrite resolve_no_hints by (done || by destruct kind). naive_solver. }
  assert (is_empty text = false) as Ht by by apply is_empty_false.
  destruct (decide (ip_entry_type packet = "daemon")) as [Hentry|Hentry].
  { unfold resolve. rewrite Hd. unfold is_daemon_entry_type. rewrite bool_decide_true by done.
    replace (pm_local_peer (credential_metadata kind text)) with no_local_peer by done.
    cbn [no_local_peer lp_is_local_socket_peer negb orb andb]. rewrite accepted_rejected.
    naive_solver. }
  rewrite one_hint, verify_hinted by done. unfold backend_answers.
  destruct (match kind with SimulatorStub => false | _ => _ end) eqn:Hb.
  - rewrite accepted_failed. split; [done|]. intros (_ & _ & [->|Hready] & _); [done|].
    destruct kind; try done; by apply bool_decide_eq_true in Hb.
  - rewrite accepted_passed. assert (kind = SimulatorStub \/
      auv_auth_provider_ref view <> Some "secret://unavailable") as Hready.
    { destruct kind; try (right; by apply bool_decide_eq_false in Hb). by left. }
    assert (merge_subject_attributes (hinted_identity kind text) view
      (select_chain (subject_resolved "" (hinted_identity kind text)))
      = remote_subject kind text) as ->.
    { destruct kind; try done. unfold merge_subject_attributes. cbn. by rewrite Ht. }
    naive_solver.
Qed.

(** C29. Whom the two pipelines accept, as the code has it. It depends on the entry type of the
    packet, its [peer_ref] and two fields of the authentication view; no header, payload or
    credential is looked at. The daemon accepts exactly a packet of a local entry that claims a
    user id the view trusts, as that local user. The gateway accepts exactly a packet of
    another entry than the daemon's whose [peer_ref] is one of four prefixes and a name that is
    not empty, as the subject of that name, unless the view marks the secret backend
    unavailable (a stub is accepted even then). Nothing verifies the name: the access
    design wants tokens and certificates verified and the daemon design wants a
    peer without an identity refused, and neither is what the code does ([daemon_peer_claim] says
    where the daemon's [peer_ref] comes from). *)
Theorem packet_identity_exact view packet subject :
  (accepted_as (authenticate_daemon_packet view packet) subject <->
   is_local_entry_type (ip_entry_type packet) = true /\
   exists uid, claims_uid packet uid /\
     "local://uid/" +:+ to_string uid ∈ auv_trusted_local_subjects view /\
     subject = local_subject uid) /\
  (accepted_as (authenticate_gateway_packet view packet) subject <->
   ip_entry_type packet <> "daemon" /\
   exists kind text, ip_peer_ref packet = credential_prefix kind +:+ text /\ text <> "" /\
     backend_answers view kind /\ subject = remote_subject kind text).
Proof. split; [apply daemon_accepts|apply gateway_accepts]. Qed.

(** *** The peer of the daemon *)

Lemma from_chars_to_string n : in_u32 n -> from_chars_u32 (to_string n) = Some n.
Proof.
  unfold in_u32. intros Hn. unfold to_string. rewrite (proj2 (Z.ltb_ge n 0)) by lia.
  destruct (digits_first_digit 20 n "" ltac:(lia)) as (ch & rest & E & Hd).
  pose proof (digits_value_digits 20 n "" ltac:(lia) ltac:(lia)) as Hv.
  rewrite E in *. cbn [from_chars_u32]. rewrite Hd. cbn [negb]. rewrite Hv. cbn [digits_value].
  by rewrite (proj2 (Z.ltb_lt _ _)) by lia.
Qed.

(** A peer that the socket identifies claims its own user id, whatever it sends. One that
    the socket does not identify claims what it sends: the daemon takes over the
    [peer_ref] of its frame. *)
Theorem daemon_peer_claim packet peer_fact decoded uid :
  in_u32 (lp_peer_uid peer_fact) ->
  ip_peer_ref packet = resolve_daemon_peer_ref peer_fact decoded ->
  claims_uid packet uid <->
  if lp_eligible_for_local_trusted peer_fact then uid = lp_peer_uid peer_fact
  else exists text, decoded = "local_trusted:" +:+ text /\ from_chars_u32 text = Some uid.
Proof.
  unfold resolve_daemon_peer_ref, claims_uid. intros Hu E. rewrite E.
  destruct (lp_eligible_for_local_trusted peer_fact).
  - split; [intros (text & <-%string_app_inj & H)|intros ->].
    + rewrite from_chars_to_string in H by done. congruence.
    + eexists. by rewrite from_chars_to_string.
  - destruct (is_empty decoded) eqn:He; cbn [negb]; [|done]. apply is_empty_true in He as ->.
    split; intros (text & ? & _); done.
Qed.

(** ** Examples *)

Definition sample_auth_view : AccessAuthView :=
  {| auv_peer_auth_mode := "strict"; auv_auth_provider_ref := Some "secret://access/jwt";
     auv_trusted_local_subjects := ["local://uid/1000"]; auv_strict_auth_required := true |}.

Definition packet_from (entry_type peer_ref : string) : InboundPacket :=
  {| ip_packet_id := "p1"; ip_entry_type := entry_type; ip_protocol_kind := "http_unary";
     ip_peer_ref := peer_ref; ip_payload := "{}"; ip_headers := ∅; ip_trace_id := None;
     ip_session_hint := None; ip_deadline_ms := None; ip_async_preferred := false;
     ip_stream_requested := false |}.

(** Strict mode and a provider do not keep a caller from naming itself. *)
Example gateway_takes_the_name :
  accepted_as (authenticate_gateway_packet sample_auth_view (packet_from "gateway" "jwt:admin"))
    (remote_subject Jwt "admin").
Proof. apply gateway_accepts. split; [done|]. exists Jwt, "admin". split_and!; [done..| |done]. by right. Qed.

Lemma daemon_peer_claim_witness :
  claims_uid (packet_from "daemon" (resolve_daemon_peer_ref no_local_peer "local_trusted:1000")) 1000.
Proof.
  apply (daemon_peer_claim _ no_local_peer "local_trusted:1000" 1000).
  - done.
  - reflexivity.
  - by exists "1000".
Defined.

(** So a peer that the socket does not identify can be accepted as any trusted one. *)
Lemma unidentified_peer_accepted view uid :
  in_u32 uid -> "local://uid/" +:+ to_string uid ∈ auv_trusted_local_subjects view ->
  accepted_as (authenticate_daemon_packet view
      (packet_from "daemon" (resolve_daemon_peer_ref no_local_peer
        ("local_trusted:" +:+ to_string uid))))
    (local_subject uid).
Proof.
  intros Hu Hin. apply daemon_accepts. split; [done|]. exists uid. split_and!; [|done..].
  exists (to_string uid). split; [done|]. by apply from_chars_to_string.
Qed.
