(* ===== verification/PolicyRules.v ===== *)
(** * Security policy: data and rules

    infra/include/policy/{PolicyTypes,PolicyErrors}.h: rules, the bundles they come in,
    the patches that change them, the snapshots in force and the decisions they give.
    The enumerations are never cast from integers, so they hold their enumerators only.

    infra/src/policy/PolicySchemaValidator.cpp (what a bundle or a patch must look
    like), PolicyConflictResolver.cpp (one rule for each scope) and
    PolicyDecisionProjector.cpp (the decision of the rules for a query). The order of
    elements that [std::sort] holds equal is an argument ([StdSort]). *)

From stdpp Require Import sorting.
From S2P Require Import Prelude ErrorCodes CheckpointContracts Text Ordering RecoveryContracts.

(** ** Enumerations *)

Module PolicyDomain.
Inductive PolicyDomain :=
| Unspecified | SecretAccess | PluginLoad | DiagnosticsCommand | OTAApply | OTARollback
| PolicyAdmin.
#[global] Instance PolicyDomain_eq_dec : EqDecision PolicyDomain.
Proof. solve_decision. Defined.
End PolicyDomain.
Abbreviation PolicyDomain := PolicyDomain.PolicyDomain.

Definition policy_domain_name (domain : PolicyDomain) : string :=
  match domain with
  | PolicyDomain.SecretAccess => "secret_access"
  | PolicyDomain.PluginLoad => "plugin_load"
  | PolicyDomain.DiagnosticsCommand => "diagnostics_command"
  | PolicyDomain.OTAApply => "ota_apply"
  | PolicyDomain.OTARollback => "ota_rollback"
  | PolicyDomain.PolicyAdmin => "policy_admin"
  | PolicyDomain.Unspecified => "unspecified"
  end.

Module PolicyEffect.
Inductive PolicyEffect := Unspecified | Allow | Deny | RequireConfirmation | Observe.
#[global] Instance PolicyEffect_eq_dec : EqDecision PolicyEffect.
Proof. solve_decision. Defined.
End PolicyEffect.
Abbreviation PolicyEffect := PolicyEffect.PolicyEffect.

(** The enumerator's number, which [std::tie] compares. *)
Definition policy_effect_value (effect : PolicyEffect) : Z :=
  match effect with
  | PolicyEffect.Unspecified => 0
  | PolicyEffect.Allow => 1
  | PolicyEffect.Deny => 2
  | PolicyEffect.RequireConfirmation => 3
  | PolicyEffect.Observe => 4
  end.

Definition policy_effect_precedence (effect : PolicyEffect) : Z :=
  match effect with
  | PolicyEffect.Deny => 0
  | PolicyEffect.RequireConfirmation => 1
  | PolicyEffect.Allow => 2
  | PolicyEffect.Observe => 3
  | PolicyEffect.Unspecified => 4
  end.

Module PolicyMode.
Inductive PolicyMode := Unspecified | Enforced | Compatibility.
#[global] Instance PolicyMode_eq_dec : EqDecision PolicyMode.
Proof. solve_decision. Defined.
End PolicyMode.
Abbreviation PolicyMode := PolicyMode.PolicyMode.

(** ** Rules and bundles *)

Record PolicyRuleDescriptor := {
  prd_rule_id : string;
  prd_domain : PolicyDomain;
  prd_subject : string;
  prd_action : string;
  prd_target_selector : string;
  prd_effect : PolicyEffect;
  prd_priority : Z;
  prd_mode : PolicyMode;
  prd_conditions : list string;
  prd_reason_code : string;
}.

#[export] Instance PolicyRuleDescriptor_eq_dec : EqDecision PolicyRuleDescriptor.
Proof. solve_decision. Defined.

Definition rule_is_valid (rule : PolicyRuleDescriptor) : bool :=
  negb (is_empty (prd_rule_id rule))
  && negb (bool_decide (prd_domain rule = PolicyDomain.Unspecified))
  && negb (is_empty (prd_subject rule)) && negb (is_empty (prd_action rule))
  && negb (is_empty (prd_target_selector rule))
  && negb (bool_decide (prd_effect rule = PolicyEffect.Unspecified))
  && negb (bool_decide (prd_mode rule = PolicyMode.Unspecified))
  && negb (is_empty (prd_reason_code rule)).

Record PolicyBundle := {
  pbu_bundle_id : string;
  pbu_schema_version : string;
  pbu_source : string;
  pbu_checksum : string;
  pbu_rules : list PolicyRuleDescriptor;
  pbu_generated_at : string;
}.

Definition bundle_is_valid (bundle : PolicyBundle) : bool :=
  if is_empty (pbu_bundle_id bundle) || is_empty (pbu_schema_version bundle)
     || is_empty (pbu_source bundle) || is_empty (pbu_checksum bundle)
     || is_empty (pbu_generated_at bundle) || bool_decide (pbu_rules bundle = [])
  then false else forallb rule_is_valid (pbu_rules bundle).

Record ValidationReport := {
  vrp_blocking_errors : list string;
  vrp_warnings : list string;
  vrp_invalid_rule_ids : list string;
  vrp_field_paths : list string;
}.

Definition has_blocking_errors (report : ValidationReport) : bool :=
  negb (bool_decide (vrp_blocking_errors report = [])).

(** ** Patches *)

Module PolicyPatchOperationType.
Inductive PolicyPatchOperationType :=
| Unspecified | AddRule | ReplaceRule | RemoveRule | UpdateMode.
#[global] Instance PolicyPatchOperationType_eq_dec : EqDecision PolicyPatchOperationType.
Proof. solve_decision. Defined.
End PolicyPatchOperationType.
Abbreviation PolicyPatchOperationType := PolicyPatchOperationType.PolicyPatchOperationType.

Record PolicyPatchOperation := {
  ppo_operation : PolicyPatchOperationType;
  ppo_rule_id : string;
  ppo_rule : option PolicyRuleDescriptor;
  ppo_mode : PolicyMode;
}.

Record PolicyPatch := {
  pp_patch_id : string;
  pp_base_generation : Z;
  pp_operations : list PolicyPatchOperation;
  pp_actor : string;
  pp_reason : string;
}.

(** ** Snapshots *)

Record PolicySnapshot := {
  psn_snapshot_id : string;
  psn_generation : Z;
  psn_version : string;
  psn_mode : PolicyMode;
  psn_effective_rules : list PolicyRuleDescriptor;
  psn_created_at : string;
  psn_source_chain : list string;
  psn_last_known_good_ref : string;
}.

(** [PolicySnapshot{}] *)
Definition empty_policy_snapshot : PolicySnapshot :=
  {| psn_snapshot_id := ""; psn_generation := 0; psn_version := "";
     psn_mode := PolicyMode.Unspecified; psn_effective_rules := []; psn_created_at := "";
     psn_source_chain := []; psn_last_known_good_ref := "" |}.

Definition snapshot_is_valid (snapshot : PolicySnapshot) : bool :=
  if is_empty (psn_snapshot_id snapshot) || (psn_generation snapshot =? 0)
     || is_empty (psn_version snapshot)
     || bool_decide (psn_mode snapshot = PolicyMode.Unspecified)
     || is_empty (psn_created_at snapshot) || bool_decide (psn_effective_rules snapshot = [])
     || bool_decide (psn_source_chain snapshot = [])
  then false else forallb rule_is_valid (psn_effective_rules snapshot).

(** ** Queries and decisions *)

Module PolicyDecision.
Inductive PolicyDecision := Unspecified | Allow | Deny | RequireConfirmation.
#[global] Instance PolicyDecision_eq_dec : EqDecision PolicyDecision.
Proof. solve_decision. Defined.
End PolicyDecision.
Abbreviation PolicyDecision := PolicyDecision.PolicyDecision.

Record PolicyQueryContext := {
  pqc_module : string;
  pqc_operation : string;
  pqc_target_type : string;
  pqc_target_ref : string;
  pqc_actor_ref : string;
  pqc_request_id : string;
  pqc_session_id : string;
  pqc_trace_id : string;
  pqc_task_id : string;
  pqc_profile_id : string;
}.

Definition has_required_fields (query : PolicyQueryContext) : bool :=
  negb (is_empty (pqc_module query)) && negb (is_empty (pqc_operation query))
  && negb (is_empty (pqc_target_type query)) && negb (is_empty (pqc_target_ref query))
  && negb (is_empty (pqc_actor_ref query)).

Record PolicyDecisionRef := {
  pdr_decision : PolicyDecision;
  pdr_reason_code : string;
  pdr_matched_rule_ids : list string;
  pdr_snapshot_id : string;
  pdr_generation : Z;
  pdr_evidence_ref : string;
  pdr_warnings : list string;
}.

Definition decision_is_valid (decision : PolicyDecisionRef) : bool :=
  negb (bool_decide (pdr_decision decision = PolicyDecision.Unspecified))
  && negb (is_empty (pdr_reason_code decision))
  && negb (bool_decide (pdr_matched_rule_ids decision = []))
  && negb (is_empty (pdr_snapshot_id decision)) && (0 <? pdr_generation decision)
  && negb (is_empty (pdr_evidence_ref decision)).

(** ** Results of operations *)

Module PolicyErrorCode.
Inductive PolicyErrorCode :=
| BundleInvalid | SchemaUnsupported | ConflictUnresolved | PatchBaseMismatch
| SnapshotNotFound | RollbackFailed | QueryDenied | SourceUnavailable | StoreCommitFailed
| DryRunRejected.
#[global] Instance PolicyErrorCode_eq_dec : EqDecision PolicyErrorCode.
Proof. solve_decision. Defined.
End PolicyErrorCode.
Abbreviation PolicyErrorCode := PolicyErrorCode.PolicyErrorCode.

Definition policy_error_code_name (code : PolicyErrorCode) : string :=
  match code with
  | PolicyErrorCode.BundleInvalid => "INF_E_POLICY_BUNDLE_INVALID"
  | PolicyErrorCode.SchemaUnsupported => "INF_E_POLICY_SCHEMA_UNSUPPORTED"
  | PolicyErrorCode.ConflictUnresolved => "INF_E_POLICY_CONFLICT_UNRESOLVED"
  | PolicyErrorCode.PatchBaseMismatch => "INF_E_POLICY_PATCH_BASE_MISMATCH"
  | PolicyErrorCode.SnapshotNotFound => "INF_E_POLICY_SNAPSHOT_NOT_FOUND"
  | PolicyErrorCode.RollbackFailed => "INF_E_POLICY_ROLLBACK_FAILED"
  | PolicyErrorCode.QueryDenied => "INF_E_POLICY_QUERY_DENIED"
  | PolicyErrorCode.SourceUnavailable => "INF_E_POLICY_SOURCE_UNAVAILABLE"
  | PolicyErrorCode.StoreCommitFailed => "INF_E_POLICY_STORE_COMMIT_FAILED"
  | PolicyErrorCode.DryRunRejected => "INF_E_POLICY_DRYRUN_REJECTED"
  end.

(** Of the mapping the result code; the other fields say the same in words. *)
Definition map_policy_error_code (code : PolicyErrorCode) : ResultCode :=
  match code with
  | PolicyErrorCode.BundleInvalid | PolicyErrorCode.SchemaUnsupported
  | PolicyErrorCode.PatchBaseMismatch => ResultCode.ValidationFieldMissing
  | PolicyErrorCode.ConflictUnresolved | PolicyErrorCode.QueryDenied
  | PolicyErrorCode.DryRunRejected => ResultCode.PolicyDenied
  | PolicyErrorCode.SnapshotNotFound | PolicyErrorCode.RollbackFailed
  | PolicyErrorCode.StoreCommitFailed => ResultCode.RuntimeRetryExhausted
  | PolicyErrorCode.SourceUnavailable => ResultCode.ProviderTimeout
  end.

Record PolicyOpResult := {
  por_applied : bool;
  por_rolled_back : bool;
  por_dry_run : bool;
  por_snapshot_id : string;
  por_generation : Z;
  por_result_code : ResultCode;
  por_error_info : option ErrorInfo;
}.

Definition op_success (snapshot_id : string) (generation : Z) (rolled_back dry_run : bool)
    : PolicyOpResult :=
  {| por_applied := true; por_rolled_back := rolled_back; por_dry_run := dry_run;
     por_snapshot_id := snapshot_id; por_generation := generation;
     por_result_code := ResultCode.RuntimeRetryExhausted; por_error_info := None |}.

Definition op_failure (result_code : ResultCode) (message stage source_ref : string)
    : PolicyOpResult :=
  {| por_applied := false; por_rolled_back := false; por_dry_run := false;
     por_snapshot_id := ""; por_generation := 0; por_result_code := result_code;
     por_error_info :=
       Some {| ei_failure_type := Some (classify_result_code result_code);
               ei_retryable := Some false; ei_safe_to_replan := Some false;
               ei_details := {| ed_code := Some (result_code_value result_code);
                                ed_message := message; ed_stage := stage |};
               ei_source_ref := {| esr_ref_type := "infra.policy";
                                   esr_ref_id := source_ref |} |} |}.

(** The helper that the store and the manager each define. *)
Definition make_failure (code : PolicyErrorCode) (message stage source_ref : string)
    : PolicyOpResult :=
  op_failure (map_policy_error_code code)
    (policy_error_code_name code +:+ (": " +:+ message)) stage source_ref.

(** ** Facts *)

(** No error the policy code reports passes the guard of errors: the guard knows no
    source of the kind [infra.policy]. *)
Lemma policy_errors_refused code message stage source_ref error_info :
  por_error_info (make_failure code message stage source_ref) = Some error_info ->
  gr_ok (validate_error_info_required_fields error_info) = false.
Proof.
  intros [= <-]. unfold validate_error_info_required_fields. simpl.
  repeat (case_match; [done|]). done.
Qed.

Lemma snapshot_valid_rules snapshot :
  snapshot_is_valid snapshot = true ->
  Forall (fun rule => rule_is_valid rule = true) (psn_effective_rules snapshot).
Proof.
  unfold snapshot_is_valid. case_match; [done|]. rewrite forallb_forall. intros Hall.
  apply Forall_forall. intros rule Hin%list_elem_of_In. by apply Hall.
Qed.

(** ** Schema *)

Definition no_errors : ValidationReport :=
  {| vrp_blocking_errors := []; vrp_warnings := []; vrp_invalid_rule_ids := [];
     vrp_field_paths := [] |}.

Definition append_error (report : ValidationReport) (error invalid_rule_id field_path : string)
    : ValidationReport :=
  {| vrp_blocking_errors := vrp_blocking_errors report ++ [error];
     vrp_warnings := vrp_warnings report;
     vrp_invalid_rule_ids :=
       if is_empty invalid_rule_id then vrp_invalid_rule_ids report
       else vrp_invalid_rule_ids report ++ [invalid_rule_id];
     vrp_field_paths := vrp_field_paths report ++ [field_path] |}.

(** [if (wrong) append_error(...)] *)
Definition append_if (wrong : bool) (error invalid_rule_id field_path : string)
    (report : ValidationReport) : ValidationReport :=
  if wrong then append_error report error invalid_rule_id field_path else report.

Definition make_rule_label (rule : PolicyRuleDescriptor) (rule_index : Z) : string :=
  if negb (is_empty (prd_rule_id rule)) then prd_rule_id rule else
  "rule[" +:+ (to_string rule_index +:+ "]").

Fixpoint validate_conditions (conditions : list string) (condition_index : Z)
    (rule_label field_prefix : string) (report : ValidationReport) : ValidationReport :=
  match conditions with
  | [] => report
  | condition :: rest =>
      validate_conditions rest (condition_index + 1) rule_label field_prefix
        (append_if (is_empty condition) "policy_rule_condition_invalid" rule_label
           (field_prefix +:+ (".conditions[" +:+ (to_string condition_index +:+ "]"))) report)
  end.

Definition validate_rule_fields (rule : PolicyRuleDescriptor) (rule_index : Z)
    (field_prefix : string) (report : ValidationReport) : ValidationReport :=
  let rule_label := make_rule_label rule rule_index in
  let missing value field :=
    append_if (is_empty value) "policy_rule_field_missing" rule_label (field_prefix +:+ field) in
  let report := missing (prd_rule_id rule) ".rule_id" report in
  let report := append_if (bool_decide (prd_domain rule = PolicyDomain.Unspecified))
    "policy_rule_domain_unsupported" rule_label (field_prefix +:+ ".domain") report in
  let report := missing (prd_subject rule) ".subject" report in
  let report := missing (prd_action rule) ".action" report in
  let report := missing (prd_target_selector rule) ".target_selector" report in
  let report := append_if (bool_decide (prd_effect rule = PolicyEffect.Unspecified))
    "policy_rule_effect_invalid" rule_label (field_prefix +:+ ".effect") report in
  let report := append_if (bool_decide (prd_mode rule = PolicyMode.Unspecified))
    "policy_rule_mode_invalid" rule_label (field_prefix +:+ ".mode") report in
  let report := missing (prd_reason_code rule) ".reason_code" report in
  validate_conditions (prd_conditions rule) 0 rule_label field_prefix report.

Fixpoint validate_rules (rules : list PolicyRuleDescriptor) (rule_index : Z)
    (report : ValidationReport) : ValidationReport :=
  match rules with
  | [] => report
  | rule :: rest =>
      validate_rules rest (rule_index + 1)
        (validate_rule_fields rule rule_index
           ("rules[" +:+ (to_string rule_index +:+ "]")) report)
  end.

Definition validate_bundle (bundle : PolicyBundle) : ValidationReport :=
  let missing value field :=
    append_if (is_empty value) "policy_bundle_field_missing" "bundle" field in
  let report := missing (pbu_bundle_id bundle) "bundle_id" no_errors in
  let report :=
    if is_empty (pbu_schema_version bundle)
    then append_error report "policy_bundle_field_missing" "bundle" "schema_version"
    else append_if (negb (bool_decide (pbu_schema_version bundle = "1")))
           "policy_schema_unsupported" "bundle" "schema_version" report in
  let report := missing (pbu_source bundle) "source" report in
  let report := missing (pbu_checksum bundle) "checksum" report in
  let report := missing (pbu_generated_at bundle) "generated_at" report in
  if bool_decide (pbu_rules bundle = [])
  then append_error report "policy_bundle_rules_missing" "bundle" "rules"
  else validate_rules (pbu_rules bundle) 0 report.

Definition validate_patch_operation (operation : PolicyPatchOperation) (operation_index : Z)
    (report : ValidationReport) : ValidationReport :=
  let prefix := "operations[" +:+ (to_string operation_index +:+ "]") in
  match ppo_operation operation with
  | PolicyPatchOperationType.AddRule | PolicyPatchOperationType.ReplaceRule =>
      match ppo_rule operation with
      | None => append_error report "policy_patch_rule_missing" (ppo_rule_id operation)
                  (prefix +:+ ".rule")
      | Some rule => validate_rule_fields rule operation_index (prefix +:+ ".rule") report
      end
  | PolicyPatchOperationType.RemoveRule =>
      append_if (is_empty (ppo_rule_id operation)) "policy_patch_rule_missing" ""
        (prefix +:+ ".rule_id") report
  | PolicyPatchOperationType.UpdateMode =>
      append_if (bool_decide (ppo_mode operation = PolicyMode.Unspecified))
        "policy_patch_mode_invalid" (ppo_rule_id operation) (prefix +:+ ".mode") report
  | PolicyPatchOperationType.Unspecified =>
      append_error report "policy_patch_operation_invalid" (ppo_rule_id operation)
        (prefix +:+ ".operation")
  end.

Fixpoint validate_operations (operations : list PolicyPatchOperation) (operation_index : Z)
    (report : ValidationReport) : ValidationReport :=
  match operations with
  | [] => report
  | operation :: rest =>
      validate_operations rest (operation_index + 1)
        (validate_patch_operation operation operation_index report)
  end.

Definition validate_patch (current_snapshot : PolicySnapshot) (patch : PolicyPatch)
    : ValidationReport :=
  if negb (snapshot_is_valid current_snapshot)
  then append_error no_errors "policy_snapshot_invalid" (psn_snapshot_id current_snapshot)
         "current_snapshot" else
  let missing wrong field := append_if wrong "policy_patch_field_missing" "patch" field in
  let report := missing (is_empty (pp_patch_id patch)) "patch_id" no_errors in
  let report := append_if ((pp_base_generation patch =? 0)
      || negb (pp_base_generation patch =? psn_generation current_snapshot))
    "patch_base_mismatch" "patch" "base_generation" report in
  let report := missing (bool_decide (pp_operations patch = [])) "operations" report in
  let report := missing (is_empty (pp_actor patch)) "actor" report in
  let report := missing (is_empty (pp_reason patch)) "reason" report in
  validate_operations (pp_operations patch) 0 report.

(** ** Conflicts *)

Record ConflictResolutionResult := {
  crr_resolved : bool;
  crr_priority_order : string;
  crr_effective_rules : list PolicyRuleDescriptor;
  crr_conflict_rule_ids : list string;
  crr_warnings : list string;
  crr_reason_code : string;
}.

Fixpoint extract_order_of (rules : list PolicyRuleDescriptor) : string :=
  match rules with
  | [] => "deny-first"
  | rule :: rest =>
      match find (fun item => value_starts_with item "priority_order=") (prd_conditions rule) with
      | Some condition =>
          if bool_decide (strip_prefix "priority_order=" condition = Some "explicit-priority")
          then "explicit-priority" else "deny-first"
      | None => extract_order_of rest
      end
  end.

Definition extract_priority_order (bundle : PolicyBundle) : string :=
  extract_order_of (pbu_rules bundle).

Definition make_scope_key (rule : PolicyRuleDescriptor) : string :=
  policy_domain_name (prd_domain rule) +:+ ("|" +:+ (prd_subject rule +:+ ("|" +:+
    (prd_action rule +:+ ("|" +:+ prd_target_selector rule))))).

Definition by_precedence : PolicyRuleDescriptor -> PolicyRuleDescriptor -> comparison :=
  by_number (fun rule => policy_effect_precedence (prd_effect rule)).

(** [make_rank] and the comparison of two ranks. *)
Definition compare_ranks (priority_order : string)
    : PolicyRuleDescriptor -> PolicyRuleDescriptor -> comparison :=
  if bool_decide (priority_order = "explicit-priority")
  then then_by (by_number prd_priority) by_precedence
  else then_by by_precedence (by_number prd_priority).

Definition same_rank (priority_order : string) (lhs rhs : PolicyRuleDescriptor) : bool :=
  bool_decide (compare_ranks priority_order lhs rhs = Eq).

Definition compare_rules (priority_order : string)
    : PolicyRuleDescriptor -> PolicyRuleDescriptor -> comparison :=
  then_by (compare_ranks priority_order) (by_text prd_rule_id).

Definition is_compat_group (rules : list PolicyRuleDescriptor) : bool :=
  forallb (fun rule => bool_decide (prd_mode rule = PolicyMode.Compatibility)) rules.

(** [grouped_rules[make_scope_key(rule)].push_back(rule)] *)
Definition group_rules (rules : list PolicyRuleDescriptor)
    : gmap string (list PolicyRuleDescriptor) :=
  fold_left (fun groups rule =>
      <[make_scope_key rule := default [] (groups !! make_scope_key rule) ++ [rule]]> groups)
    rules ∅.

Fixpoint take_tied (priority_order : string) (winner : PolicyRuleDescriptor)
    (rules : list PolicyRuleDescriptor) : list string :=
  match rules with
  | [] => []
  | rule :: rest =>
      if negb (same_rank priority_order winner rule) then [] else
      prd_rule_id rule :: take_tied priority_order winner rest
  end.

Section Rules.
Context {sorting : StdSort}.

(** The loop over the scopes; a scope without rules does not occur. *)
Fixpoint resolve_scopes (priority_order : string)
    (groups : list (string * list PolicyRuleDescriptor))
    (effective_rules : list PolicyRuleDescriptor) (warnings : list string)
    : option ConflictResolutionResult :=
  match groups with
  | [] =>
      Some {| crr_resolved := true; crr_priority_order := priority_order;
              crr_effective_rules := effective_rules; crr_conflict_rule_ids := [];
              crr_warnings := warnings;
              crr_reason_code :=
                if bool_decide (warnings = []) then "policy_conflicts_resolved"
                else "policy_conflicts_resolved_with_compat_downgrade" |}
  | (scope_key, rules) :: groups =>
      match std_sort (compare_rules priority_order) rules with
      | [] => None
      | winner :: others =>
          let tied_rule_ids := prd_rule_id winner :: take_tied priority_order winner others in
          if (1 <? length tied_rule_ids)%nat then
            if negb (is_compat_group rules) then
              Some {| crr_resolved := false; crr_priority_order := priority_order;
                      crr_effective_rules := []; crr_conflict_rule_ids := tied_rule_ids;
                      crr_warnings := warnings; crr_reason_code := "policy_conflict_unresolved" |}
            else resolve_scopes priority_order groups (effective_rules ++ [winner])
                   (warnings ++ ["compat_conflict_downgraded:" +:+ scope_key])
          else resolve_scopes priority_order groups (effective_rules ++ [winner]) warnings
      end
  end.

Definition resolve_conflicts (bundle : PolicyBundle) : option ConflictResolutionResult :=
  let priority_order := extract_priority_order bundle in
  if negb (bundle_is_valid bundle) then
    Some {| crr_resolved := false; crr_priority_order := priority_order;
            crr_effective_rules := []; crr_conflict_rule_ids := []; crr_warnings := [];
            crr_reason_code := "policy_bundle_invalid" |}
  else resolve_scopes priority_order (in_key_order (group_rules (pbu_rules bundle))) [] [].

(** ** Decisions *)

Definition normalize_snapshot_id (snapshot : PolicySnapshot) : string :=
  if is_empty (psn_snapshot_id snapshot) then "snapshot-unavailable"
  else psn_snapshot_id snapshot.

Definition normalize_generation (snapshot : PolicySnapshot) : Z :=
  if psn_generation snapshot =? 0 then 1 else psn_generation snapshot.

Definition build_evidence_ref (snapshot_id : string) (generation : Z) (rule_id : string) : string :=
  "audit://policy/decision/" +:+ (snapshot_id +:+ ("/" +:+ (to_string generation +:+
    ("/" +:+ rule_id)))).

Definition map_query_domain (query : PolicyQueryContext) : PolicyDomain :=
  let module := lowercase_copy (pqc_module query) in
  let target_type := lowercase_copy (pqc_target_type query) in
  let operation := lowercase_copy (pqc_operation query) in
  if bool_decide (module = "secret") || bool_decide (target_type = "secret")
  then PolicyDomain.SecretAccess else
  if bool_decide (module = "plugin") || bool_decide (target_type = "plugin")
     || bool_decide (target_type = "manifest")
  then PolicyDomain.PluginLoad else
  if bool_decide (module = "diagnostics") || bool_decide (module = "diag")
     || bool_decide (target_type = "command")
  then PolicyDomain.DiagnosticsCommand else
  if bool_decide (module = "ota")
  then (if bool_decide (operation = "rollback") then PolicyDomain.OTARollback
        else PolicyDomain.OTAApply) else
  if bool_decide (module = "policy") then PolicyDomain.PolicyAdmin else
  PolicyDomain.Unspecified.

Definition action_matches (rule_action query_operation : string) : bool :=
  let normalized_action := lowercase_copy rule_action in
  if bool_decide (normalized_action = "*") || bool_decide (normalized_action = "any")
  then true else bool_decide (normalized_action = lowercase_copy query_operation).

Definition subject_matches (rule_subject actor_ref : string) : bool :=
  let normalized_subject := lowercase_copy rule_subject in
  if bool_decide (normalized_subject = "*") || bool_decide (normalized_subject = "any")
  then true else bool_decide (normalized_subject = lowercase_copy actor_ref).

Definition target_selector_specificity (selector : string) (query : PolicyQueryContext) : Z :=
  let normalized_selector := lowercase_copy selector in
  let target_type := lowercase_copy (pqc_target_type query) in
  let target_ref := lowercase_copy (pqc_target_ref query) in
  if bool_decide (normalized_selector = target_type +:+ (":" +:+ target_ref)) then 3 else
  if bool_decide (normalized_selector = target_ref) then 2 else
  if bool_decide (normalized_selector = target_type +:+ ":*")
     || bool_decide (normalized_selector = target_type +:+ ":any") then 1 else
  if bool_decide (normalized_selector = "*") || bool_decide (normalized_selector = "any")
  then 0 else -1.

Definition is_default_rule (rule : PolicyRuleDescriptor) : bool :=
  bool_decide (prd_action rule = "evaluate_default")
  && bool_decide (prd_target_selector rule = "policy:default_effect").

(** [std::tie] compares the effects by the numbers of their enumerators. *)
Definition compare_default_rules : PolicyRuleDescriptor -> PolicyRuleDescriptor -> comparison :=
  then_by (by_number prd_priority)
    (then_by (by_number (fun rule => policy_effect_value (prd_effect rule)))
       (by_text prd_rule_id)).

Definition prefer_default_rule (candidate current : PolicyRuleDescriptor) : bool :=
  less compare_default_rules candidate current.

Definition map_effect_to_decision (effect : PolicyEffect) (warnings : list string)
    : PolicyDecision * list string :=
  match effect with
  | PolicyEffect.Allow => (PolicyDecision.Allow, warnings)
  | PolicyEffect.Deny => (PolicyDecision.Deny, warnings)
  | PolicyEffect.RequireConfirmation => (PolicyDecision.RequireConfirmation, warnings)
  | PolicyEffect.Observe =>
      (PolicyDecision.Allow, warnings ++ ["observe_effect_projected_as_allow"])
  | PolicyEffect.Unspecified =>
      (PolicyDecision.Deny, warnings ++ ["invalid_effect_projected_as_deny"])
  end.

Definition build_decision_from_rule (rule : PolicyRuleDescriptor) (snapshot : PolicySnapshot)
    (matched_rule_ids warnings : list string) : PolicyDecisionRef :=
  let snapshot_id := normalize_snapshot_id snapshot in
  let generation := normalize_generation snapshot in
  let '(decision, warnings) := map_effect_to_decision (prd_effect rule) warnings in
  {| pdr_decision := decision; pdr_reason_code := prd_reason_code rule;
     pdr_matched_rule_ids := matched_rule_ids; pdr_snapshot_id := snapshot_id;
     pdr_generation := generation;
     pdr_evidence_ref := build_evidence_ref snapshot_id generation (prd_rule_id rule);
     pdr_warnings := warnings |}.

Definition make_synthetic_deny (snapshot : PolicySnapshot) (reason_code synthetic_rule_id : string)
    (warnings : list string) : PolicyDecisionRef :=
  let snapshot_id := normalize_snapshot_id snapshot in
  let generation := normalize_generation snapshot in
  {| pdr_decision := PolicyDecision.Deny; pdr_reason_code := reason_code;
     pdr_matched_rule_ids := [synthetic_rule_id]; pdr_snapshot_id := snapshot_id;
     pdr_generation := generation;
     pdr_evidence_ref := build_evidence_ref snapshot_id generation synthetic_rule_id;
     pdr_warnings := warnings |}.

(** A rule and how specific its target is. *)
Definition compare_matches
    : PolicyRuleDescriptor * Z -> PolicyRuleDescriptor * Z -> comparison :=
  then_by (descending (by_number snd))
    (then_by (by_number (fun m => prd_priority m.1))
       (then_by (by_number (fun m => policy_effect_precedence (prd_effect m.1)))
          (by_text (fun m => prd_rule_id m.1)))).

(** The loop over the rules: the default rule and the rules that match. *)
Definition match_rule (query : PolicyQueryContext) (query_domain : PolicyDomain)
    (found : option PolicyRuleDescriptor * list (PolicyRuleDescriptor * Z))
    (rule : PolicyRuleDescriptor)
    : option PolicyRuleDescriptor * list (PolicyRuleDescriptor * Z) :=
  let '(default_rule, matched_rules) := found in
  if is_default_rule rule then
    (match default_rule with
     | None => Some rule
     | Some current => if prefer_default_rule rule current then Some rule else Some current
     end, matched_rules)
  else
  if bool_decide (query_domain = PolicyDomain.Unspecified)
     || negb (bool_decide (prd_domain rule = query_domain)) then found else
  if negb (action_matches (prd_action rule) (pqc_operation query))
     || negb (subject_matches (prd_subject rule) (pqc_actor_ref query)) then found else
  let specificity := target_selector_specificity (prd_target_selector rule) query in
  if specificity <? 0 then found else
  (default_rule, matched_rules ++ [(rule, specificity)]).

Definition match_rules (query : PolicyQueryContext) (snapshot : PolicySnapshot)
    : option PolicyRuleDescriptor * list (PolicyRuleDescriptor * Z) :=
  fold_left (match_rule query (map_query_domain query)) (psn_effective_rules snapshot) (None, []).

Definition project (query : PolicyQueryContext) (snapshot : PolicySnapshot) : PolicyDecisionRef :=
  if negb (snapshot_is_valid snapshot)
  then make_synthetic_deny snapshot "policy_snapshot_invalid" "policy-snapshot-invalid" [] else
  if negb (has_required_fields query)
  then make_synthetic_deny snapshot "policy_query_invalid" "policy-query-invalid" [] else
  let '(default_rule, matched_rules) := match_rules query snapshot in
  let matched_rules := std_sort compare_matches matched_rules in
  match matched_rules with
  | (rule, _) :: _ =>
      build_decision_from_rule rule snapshot ((fun m => prd_rule_id m.1) <$> matched_rules) []
  | [] =>
      match default_rule with
      | Some rule =>
          build_decision_from_rule rule snapshot [prd_rule_id rule] ["default_effect_applied"]
      | None =>
          make_synthetic_deny snapshot "policy_query_no_match" "policy-default-deny"
            ((if bool_decide (map_query_domain query = PolicyDomain.Unspecified)
              then ["query_domain_unknown"] else []) ++ ["default_effect_rule_missing"])
      end
  end.

End Rules.

(** ** The validator *)

Lemma append_if_errors wrong e r f report :
  has_blocking_errors (append_if wrong e r f report) = wrong || has_blocking_errors report.
Proof.
  unfold append_if, has_blocking_errors. destruct wrong; [|done]. simpl.
  by destruct (vrp_blocking_errors report).
Qed.

Lemma append_error_errors e r f report : has_blocking_errors (append_error report e r f) = true.
Proof. unfold has_blocking_errors. simpl. by destruct (vrp_blocking_errors report). Qed.

Create Rewrite HintDb policy_errors.
#[export] Hint Rewrite append_if_errors append_error_errors : policy_errors.

(** The rule has what the schema asks for. *)
Definition rule_complete (rule : PolicyRuleDescriptor) : bool :=
  rule_is_valid rule && forallb (fun condition => negb (is_empty condition)) (prd_conditions rule).

Lemma conditions_errors conditions i label prefix report :
  has_blocking_errors (validate_conditions conditions i label prefix report) =
  negb (forallb (fun condition => negb (is_empty condition)) conditions)
  || has_blocking_errors report.
Proof.
  revert i report. induction conditions as [|c conditions IH]; intros i report; [done|].
  cbn [validate_conditions forallb]. rewrite IH, append_if_errors.
  by destruct (is_empty c), (forallb _ conditions).
Qed.

Lemma rule_errors rule i prefix report :
  has_blocking_errors (validate_rule_fields rule i prefix report) =
  negb (rule_complete rule) || has_blocking_errors report.
Proof.
  unfold validate_rule_fields, rule_complete, rule_is_valid.
  rewrite conditions_errors. autorewrite with policy_errors.
  destruct (is_empty (prd_rule_id rule)), (bool_decide (prd_domain rule = _)),
    (is_empty (prd_subject rule)), (is_empty (prd_action rule)),
    (is_empty (prd_target_selector rule)); cbn [negb andb orb]; rewrite ?orb_true_r; try done.
  destruct (bool_decide (prd_effect rule = _)), (bool_decide (prd_mode rule = _)),
    (is_empty (prd_reason_code rule)), (forallb _ _); by cbn [negb andb orb].
Qed.

Lemma rules_errors rules i report :
  has_blocking_errors (validate_rules rules i report) =
  negb (forallb rule_complete rules) || has_blocking_errors report.
Proof.
  revert i report. induction rules as [|rule rules IH]; intros i report; [done|].
  cbn [validate_rules forallb]. rewrite IH, rule_errors.
  by destruct (rule_complete rule), (forallb _ rules).
Qed.

Lemma forallb_complete rules :
  forallb rule_complete rules = forallb rule_is_valid rules
    && forallb (fun rule => forallb (fun condition => negb (is_empty condition)) (prd_conditions rule)) rules.
Proof.
  induction rules as [|rule rules IH]; [done|]. cbn [forallb]. rewrite IH. unfold rule_complete.
  destruct (rule_is_valid rule), (forallb _ (prd_conditions rule)); cbn [andb];
    by rewrite ?andb_false_r.
Qed.

(** The validator finds an error exactly where the bundle is not valid, of another schema
    or has a rule with an empty condition. *)
Lemma bundle_errors bundle :
  has_blocking_errors (validate_bundle bundle) =
  negb (bundle_is_valid bundle && bool_decide (pbu_schema_version bundle = "1")
        && forallb (fun rule => forallb (fun condition => negb (is_empty condition))
                                  (prd_conditions rule)) (pbu_rules bundle)).
Proof.
  unfold validate_bundle, bundle_is_valid.
  destruct (bool_decide (pbu_rules bundle = [])).
  { rewrite append_error_errors, !orb_true_r. done. }
  rewrite rules_errors, forallb_complete.
  destruct (is_empty (pbu_schema_version bundle));
    autorewrite with policy_errors; rewrite ?orb_true_r, ?orb_false_r; cbn [orb negb andb];
    rewrite ?orb_true_r; [done|].
  destruct (bool_decide (pbu_schema_version bundle = "1")), (is_empty (pbu_bundle_id bundle)),
    (is_empty (pbu_source bundle)), (is_empty (pbu_checksum bundle)),
    (is_empty (pbu_generated_at bundle)); cbn [orb negb andb]; rewrite ?orb_true_r, ?andb_false_r;
    try done; by destruct (forallb rule_is_valid _), (forallb _ _).
Qed.

(** ** The resolver *)

Definition scope_rules (rules : list PolicyRuleDescriptor) (key : string)
    : list PolicyRuleDescriptor :=
  filter (fun rule => make_scope_key rule = key) rules.

Lemma group_rules_lookup rules key :
  group_rules rules !! key =
  if bool_decide (scope_rules rules key = []) then None else Some (scope_rules rules key).
Proof.
  unfold group_rules, scope_rules.
  assert (forall m : gmap string (list PolicyRuleDescriptor),
    fold_left (fun groups rule =>
      <[make_scope_key rule := default [] (groups !! make_scope_key rule) ++ [rule]]> groups)
      rules m !! key =
    let own := filter (fun rule => make_scope_key rule = key) rules in
    if bool_decide (own = []) then m !! key else Some (default [] (m !! key) ++ own)) as H.
  { induction rules as [|rule rules IH]; intros m; [done|]. cbn [fold_left]. rewrite IH.
    rewrite filter_cons. destruct (decide (make_scope_key rule = key)) as [<-|Hne].
    - rewrite lookup_insert_eq, (bool_decide_false (_ :: _ = [])) by done. simpl.
      destruct (bool_decide_reflect (filter (fun r => make_scope_key r = make_scope_key rule) rules = []))
        as [->|]; [done|]. by rewrite <-(assoc_L (++)).
    - by rewrite lookup_insert_ne. }
  rewrite H. cbv zeta. case_match; [done|]. by rewrite lookup_empty.
Qed.

#[export] Instance compare_ranks_ordering order : Ordering (compare_ranks order).
Proof. unfold compare_ranks, by_precedence. case_match; apply _. Qed.

#[export] Instance compare_rules_ordering order : Ordering (compare_rules order).
Proof. unfold compare_rules. apply _. Qed.

(** No rule of the list ranks before [best]. *)
Definition best_ranked (order : string) (rules : list PolicyRuleDescriptor)
    (best : PolicyRuleDescriptor) : Prop :=
  best ∈ rules /\ forall rule, rule ∈ rules -> not_after (compare_ranks order) best rule.

(** Several rules share the best rank, and one rule of the scope is enforced. *)
Definition scope_conflict (order : string) (rules : list PolicyRuleDescriptor) : Prop :=
  is_compat_group rules = false /\
  exists best, best_ranked order rules best /\
    (1 < length (filter (fun rule => compare_ranks order best rule = Eq) rules))%nat.

Lemma rules_after_ranks order r1 r2 :
  not_after (compare_rules order) r1 r2 -> not_after (compare_ranks order) r1 r2.
Proof.
  unfold not_after, compare_rules, then_by. destruct (compare_ranks order r2 r1); done.
Qed.

Lemma filter_none {A} (P : A -> Prop) `{!forall x, Decision (P x)} (l : list A) :
  (forall x, x ∈ l -> ~ P x) -> filter P l = [].
Proof.
  intros Hno. induction l as [|x l IH]; [done|]. rewrite filter_cons, decide_False.
  - apply IH. intros y Hy. apply Hno. by right.
  - apply Hno. by left.
Qed.

Lemma take_tied_filter order winner rules :
  StronglySorted (not_after (compare_rules order)) (winner :: rules) ->
  take_tied order winner rules
  = prd_rule_id <$> filter (fun rule => compare_ranks order winner rule = Eq) rules.
Proof.
  induction rules as [|rule rules IH]; intros Hs; [done|].
  cbn [take_tied]. unfold same_rank. rewrite filter_cons.
  apply StronglySorted_inv in Hs as [Hs Hw]. apply StronglySorted_inv in Hs as [Hs Hr].
  apply Forall_cons in Hw as [Hwr Hw].
  destruct (decide (compare_ranks order winner rule = Eq)) as [E|E].
  - rewrite bool_decide_true by done. cbn [negb]. rewrite fmap_cons. f_equal. apply IH.
    by constructor.
  - rewrite bool_decide_false by done. cbn [negb]. symmetry.
    rewrite filter_none; [done|]. intros r Hr' Er. rewrite Forall_forall in Hr.
    specialize (Hr r Hr'). apply rules_after_ranks in Hr, Hwr. unfold not_after in *.
    rewrite (ordering_opp winner rule) in Hwr. destruct (compare_ranks order winner rule) eqn:E'; try done.
    apply Hr. rewrite <-(ordering_eq _ _ rule Er). done.
Qed.

Section Resolver.
Context {sorting : StdSort}.

(** What the loop does with one scope. *)
Lemma scope_winner order g :
  g <> [] ->
  exists winner others, std_sort (compare_rules order) g = winner :: others /\
    best_ranked order g winner /\
    length (prd_rule_id winner :: take_tied order winner others)
    = length (filter (fun rule => compare_ranks order winner rule = Eq) g).
Proof.
  intros Hg. destruct (std_sort_cons (compare_rules order) g Hg) as (winner & others & E).
  exists winner, others. pose proof (std_sort_first _ _ _ _ E) as [Hin Hfirst].
  split_and!; [done| |].
  - split; [done|]. intros rule Hr. by apply rules_after_ranks, Hfirst.
  - pose proof (std_sort_sorted (compare_rules order) g) as Hs. rewrite E in Hs.
    rewrite take_tied_filter by done. rewrite <-(std_sort_perm (compare_rules order) g), E.
    rewrite filter_cons, decide_True; [by rewrite length_cons, length_fmap|].
    pose proof (ordering_opp (cmp := compare_ranks order) winner winner) as H.
    by destruct (compare_ranks order winner winner).
Qed.

Lemma tied_conflict order g winner :
  best_ranked order g winner ->
  (exists best, best_ranked order g best /\
     (1 < length (filter (fun rule => compare_ranks order best rule = Eq) g))%nat) <->
  (1 < length (filter (fun rule => compare_ranks order winner rule = Eq) g))%nat.
Proof.
  intros Hw. split; [|by eauto]. intros (best & Hb & Hlen).
  assert (compare_ranks order winner best = Eq) as E.
  { destruct Hw as [Hin Hw], Hb as [Hin' Hb]. specialize (Hw _ Hin'). specialize (Hb _ Hin).
    unfold not_after in *. rewrite (ordering_opp winner best) in Hw.
    by destruct (compare_ranks order winner best). }
  erewrite filter_ext_in; [exact Hlen|]. intros rule _. by rewrite (ordering_eq _ _ rule E).
Qed.

(** What the resolver chose from the scopes. *)
Definition chosen_from (order : string) (groups : list (string * list PolicyRuleDescriptor))
    (chosen : list PolicyRuleDescriptor) : Prop :=
  Forall2 (fun scope winner => best_ranked order scope.2 winner) groups chosen.

Lemma resolve_scopes_spec order groups effective warnings :
  Forall (fun scope => scope.2 <> []) groups ->
  exists result, resolve_scopes order groups effective warnings = Some result /\
    crr_priority_order result = order /\
    if crr_resolved result
    then Forall (fun scope => ~ scope_conflict order scope.2) groups /\
      crr_conflict_rule_ids result = [] /\
      exists chosen, crr_effective_rules result = effective ++ chosen /\
        chosen_from order groups chosen
    else Exists (fun scope => scope_conflict order scope.2) groups /\
      crr_effective_rules result = [] /\ (1 < length (crr_conflict_rule_ids result))%nat.
Proof.
  revert effective warnings. induction groups as [|[key g] groups IH]; intros effective warnings Hne.
  - eexists. split; [done|]. split; [done|]. simpl. split_and!; [constructor|done|].
    exists []. by rewrite app_nil_r; split; [|constructor].
  - apply Forall_cons in Hne as [Hg Hne]. cbn [resolve_scopes].
    destruct (scope_winner order g Hg) as (winner & others & -> & Hbest & Hlen).
    rewrite Hlen. pose proof (tied_conflict _ _ _ Hbest) as Htied.
    assert (forall warnings', ~ scope_conflict order g ->
      exists result, resolve_scopes order groups (effective ++ [winner]) warnings' = Some result /\
        crr_priority_order result = order /\
        if crr_resolved result
        then Forall (fun scope => ~ scope_conflict order scope.2) ((key, g) :: groups) /\
          crr_conflict_rule_ids result = [] /\
          exists chosen, crr_effective_rules result = effective ++ chosen /\
            chosen_from order ((key, g) :: groups) chosen
        else Exists (fun scope => scope_conflict order scope.2) ((key, g) :: groups) /\
          crr_effective_rules result = [] /\ (1 < length (crr_conflict_rule_ids result))%nat)
      as Hgo.
    { intros warnings' Hno. destruct (IH (effective ++ [winner]) warnings' Hne)
        as (result & -> & Ho & Hr). exists result. split; [done|]. split; [done|].
      destruct (crr_resolved result).
      - destruct Hr as (Hall & Hids & chosen & -> & Hch). split_and!; [by constructor|done|].
        exists (winner :: chosen). rewrite <-(assoc_L (++)). split; [done|]. by constructor.
      - destruct Hr as (Hex & ?). split; [by right|done]. }
    assert (scope_conflict order g <-> is_compat_group g = false /\
      (1 < length (filter (fun rule => compare_ranks order winner rule = Eq) g))%nat) as Hsc
      by (unfold scope_conflict; by rewrite Htied).
    destruct (Nat.ltb_spec 1 (length (filter (fun rule => compare_ranks order winner rule = Eq) g))).
    + destruct (is_compat_group g) eqn:Hc; cbn [negb].
      * apply Hgo. rewrite Hsc. by intros [[=] _].
      * eexists. split; [done|]. split; [done|]. simpl. split_and!; [|done|].
        -- left. by apply Hsc.
        -- by rewrite <-Hlen in H.
    + apply Hgo. rewrite Hsc. intros [_ ?]. lia.
Qed.

End Resolver.

Lemma scope_rules_elem rules rule : rule ∈ rules -> rule ∈ scope_rules rules (make_scope_key rule).
Proof. intros Hin. unfold scope_rules. by apply list_elem_of_filter. Qed.

Lemma scope_rules_key rules key rule :
  rule ∈ scope_rules rules key -> make_scope_key rule = key /\ rule ∈ rules.
Proof. unfold scope_rules. by rewrite list_elem_of_filter. Qed.

(** The scopes of the bundle, as the loop visits them. *)
Lemma in_groups rules key g :
  (key, g) ∈ in_key_order (group_rules rules) <-> g = scope_rules rules key /\ g <> [].
Proof.
  rewrite in_key_order_perm, elem_of_map_to_list, group_rules_lookup.
  case_bool_decide as Hnil; split; try done.
  - intros [-> ?]. done.
  - by intros [= <-].
  - by intros [-> _].
Qed.

Lemma groups_not_empty rules :
  Forall (fun scope => scope.2 <> []) (in_key_order (group_rules rules)).
Proof. apply Forall_forall. intros [key g] Hin. by apply in_groups in Hin as [_ ?]. Qed.

(** Some scope of the rules is in conflict. *)
Definition rules_in_conflict (order : string) (rules : list PolicyRuleDescriptor) : Prop :=
  exists rule, rule ∈ rules /\ scope_conflict order (scope_rules rules (make_scope_key rule)).

Lemma scope_of_group rules key g :
  (key, g) ∈ in_key_order (group_rules rules) ->
  exists rule, rule ∈ rules /\ make_scope_key rule = key /\ g = scope_rules rules key.
Proof.
  intros [Hg Hne]%in_groups. destruct g as [|rule g]; [done|].
  assert (rule ∈ scope_rules rules key) as [? ?]%scope_rules_key by (rewrite <-Hg; by left).
  by exists rule.
Qed.

Lemma conflict_in_groups order rules :
  Exists (fun scope => scope_conflict order scope.2) (in_key_order (group_rules rules)) <->
  rules_in_conflict order rules.
Proof.
  rewrite Exists_exists. split.
  - intros ([key g] & Hin & Hc). simpl in Hc.
    destruct (scope_of_group _ _ _ Hin) as (rule & Hr & <- & ->). by exists rule.
  - intros (rule & Hin & Hc).
    exists (make_scope_key rule, scope_rules rules (make_scope_key rule)). split; [|done].
    apply in_groups. split; [done|]. apply scope_rules_elem in Hin. by intros Hnil; rewrite Hnil in Hin; apply not_elem_of_nil in Hin.
Qed.

(** The rules in force: of each scope one rule that no other of the scope outranks. *)
Definition one_of_each_scope (order : string) (rules effective : list PolicyRuleDescriptor)
    : Prop :=
  NoDup (make_scope_key <$> effective) /\
  (forall rule, rule ∈ effective ->
     best_ranked order (scope_rules rules (make_scope_key rule)) rule) /\
  forall rule, rule ∈ rules -> make_scope_key rule ∈ make_scope_key <$> effective.

Lemma chosen_keys order rules groups chosen :
  chosen_from order groups chosen ->
  (forall key g, (key, g) ∈ groups -> g = scope_rules rules key) ->
  make_scope_key <$> chosen = groups.*1.
Proof.
  induction 1 as [|[key g] winner groups chosen Hbest Hrest IH]; intros Hg; [done|].
  cbn [fmap list_fmap fst]. f_equal.
  - rewrite (Hg key g) in Hbest by left. by destruct Hbest as [[? _]%scope_rules_key _].
  - apply IH. intros. apply Hg. by right.
Qed.

Lemma chosen_best order rules groups chosen rule :
  chosen_from order groups chosen ->
  (forall key g, (key, g) ∈ groups -> g = scope_rules rules key) ->
  rule ∈ chosen -> best_ranked order (scope_rules rules (make_scope_key rule)) rule.
Proof.
  intros Hch Hg [i Hi]%list_elem_of_lookup.
  destruct (Forall2_lookup_r _ _ _ _ _ Hch Hi) as ([key g] & Hi' & Hbest). simpl in Hbest.
  apply list_elem_of_lookup_2 in Hi'. apply Hg in Hi' as ->.
  pose proof Hbest as [[-> _]%scope_rules_key _]. done.
Qed.

Lemma keys_distinct {A} (values : gmap string A) : NoDup (in_key_order values).*1.
Proof. rewrite in_key_order_perm. apply NoDup_fst_map_to_list. Qed.

Lemma chosen_covers order rules chosen :
  chosen_from order (in_key_order (group_rules rules)) chosen ->
  one_of_each_scope order rules chosen.
Proof.
  intros Hch.
  assert (forall key g, (key, g) ∈ in_key_order (group_rules rules) -> g = scope_rules rules key)
    as Hg by (intros key g Hin; by apply in_groups in Hin as [? _]).
  pose proof (chosen_keys _ _ _ _ Hch Hg) as Hkeys. split_and!.
  - rewrite Hkeys. apply keys_distinct.
  - intros rule. by eapply chosen_best.
  - intros rule Hin. rewrite Hkeys. apply list_elem_of_fmap.
    exists (make_scope_key rule, scope_rules rules (make_scope_key rule)). split; [done|].
    apply in_groups. split; [done|]. apply scope_rules_elem in Hin. intros Hnil.
    by rewrite Hnil in Hin; apply not_elem_of_nil in Hin.
Qed.

(** What a resolution must be. *)
Definition resolution_of (bundle : PolicyBundle) (result : ConflictResolutionResult) : Prop :=
  let order := extract_priority_order bundle in
  (crr_resolved result = true <->
     bundle_is_valid bundle = true /\ ~ rules_in_conflict order (pbu_rules bundle)) /\
  if crr_resolved result
  then one_of_each_scope order (pbu_rules bundle) (crr_effective_rules result)
  else crr_effective_rules result = [].

(** The resolver always answers, and resolves the valid bundles in which no scope has
    several rules of the best rank; then it puts in force one best-ranked rule of each
    scope, and otherwise none. *)
Lemma resolve_conflicts_spec {sorting : StdSort} bundle :
  exists result, resolve_conflicts bundle = Some result /\ resolution_of bundle result.
Proof.
  unfold resolve_conflicts, resolution_of. destruct (bundle_is_valid bundle) eqn:Hv; cbn [negb].
  - destruct (resolve_scopes_spec (extract_priority_order bundle)
      (in_key_order (group_rules (pbu_rules bundle))) [] [] (groups_not_empty _))
      as (result & -> & _ & Hr). exists result. split; [done|].
    destruct (crr_resolved result).
    + destruct Hr as (Hno & _ & chosen & -> & Hch). split; [|by apply chosen_covers].
      split; [|done]. intros _. split; [done|]. rewrite <-conflict_in_groups.
      by apply Forall_not_Exists.
    + destruct Hr as (Hc & -> & _). split; [|done]. split; [done|].
      intros [_ Hno]. by rewrite <-conflict_in_groups in Hno.
  - eexists. split; [done|]. simpl. split; [|done]. split; [done|]. by intros [? _].
Qed.

(** Under deny-first the rule in force of a scope with a rule that denies denies. *)
Lemma deny_wins_in_scope rules effective rule denying :
  one_of_each_scope "deny-first" rules effective ->
  rule ∈ effective -> denying ∈ rules -> make_scope_key denying = make_scope_key rule ->
  prd_effect denying = PolicyEffect.Deny -> prd_effect rule = PolicyEffect.Deny.
Proof.
  intros (_ & Hbest & _) Hin Hden Hkey Hdeny. destruct (Hbest _ Hin) as [_ Hno].
  specialize (Hno denying). rewrite <-Hkey in Hno. specialize (Hno (scope_rules_elem _ _ Hden)).
  unfold not_after, compare_ranks, then_by, by_precedence, by_number in Hno. simpl in Hno.
  rewrite Hdeny in Hno. by destruct (prd_effect rule).
Qed.

Lemma extract_order_known rules :
  extract_order_of rules = "deny-first" \/ extract_order_of rules = "explicit-priority".
Proof.
  induction rules as [|rule rules IH]; [by left|]. simpl. destruct (find _ _); [|done].
  case_bool_decide; auto.
Qed.

(** ** The projector *)

Definition effect_decision (effect : PolicyEffect) : PolicyDecision :=
  (map_effect_to_decision effect []).1.

(** The rule speaks about the query. *)
Definition rule_matches (query : PolicyQueryContext) (rule : PolicyRuleDescriptor) : bool :=
  negb (is_default_rule rule)
  && negb (bool_decide (map_query_domain query = PolicyDomain.Unspecified))
  && bool_decide (prd_domain rule = map_query_domain query)
  && action_matches (prd_action rule) (pqc_operation query)
  && subject_matches (prd_subject rule) (pqc_actor_ref query)
  && (0 <=? target_selector_specificity (prd_target_selector rule) query).

Definition with_specificity (query : PolicyQueryContext) (rule : PolicyRuleDescriptor)
    : PolicyRuleDescriptor * Z :=
  (rule, target_selector_specificity (prd_target_selector rule) query).

(** [rule] is a rule of the list with the property, and none with it comes before. *)
Definition best_with {A} (cmp : A -> A -> comparison) (P : A -> bool) (rules : list A) (rule : A)
    : Prop :=
  rule ∈ rules /\ P rule = true /\
  forall other, other ∈ rules -> P other = true -> not_after cmp rule other.

Definition compare_for (query : PolicyQueryContext)
    : PolicyRuleDescriptor -> PolicyRuleDescriptor -> comparison :=
  fun r1 r2 => compare_matches (with_specificity query r1) (with_specificity query r2).

#[export] Instance compare_matches_ordering : Ordering compare_matches.
Proof. unfold compare_matches. apply _. Qed.

#[export] Instance compare_default_rules_ordering : Ordering compare_default_rules.
Proof. unfold compare_default_rules. apply _. Qed.

#[export] Instance compare_for_ordering query : Ordering (compare_for query).
Proof.
  unfold compare_for. split; intros.
  - apply ordering_opp.
  - by eapply ordering_lt.
  - by apply ordering_eq.
Qed.

Lemma best_with_tied {A} (cmp : A -> A -> comparison) `{!Ordering cmp} P rules r1 r2 :
  best_with cmp P rules r1 -> best_with cmp P rules r2 -> cmp r1 r2 = Eq.
Proof.
  intros (Hin1 & HP1 & H1) (Hin2 & HP2 & H2). specialize (H1 _ Hin2 HP2).
  specialize (H2 _ Hin1 HP1). unfold not_after in *. rewrite (ordering_opp r1 r2) in H1.
  by destruct (cmp r1 r2).
Qed.

Lemma best_with_perm {A} (cmp : A -> A -> comparison) P rules rules' r :
  rules ≡ₚ rules' -> best_with cmp P rules r <-> best_with cmp P rules' r.
Proof. intros Hp. unfold best_with. by setoid_rewrite Hp. Qed.

(** One step of the loop that looks for the default rule. *)
Definition prefer_default (default_rule : option PolicyRuleDescriptor)
    (rule : PolicyRuleDescriptor) : option PolicyRuleDescriptor :=
  match default_rule with
  | None => Some rule
  | Some current => if prefer_default_rule rule current then Some rule else Some current
  end.

Lemma match_rule_step query default_rule matched rule :
  match_rule query (map_query_domain query) (default_rule, matched) rule =
  (if is_default_rule rule then prefer_default default_rule rule else default_rule,
   if rule_matches query rule then matched ++ [with_specificity query rule] else matched).
Proof.
  unfold match_rule, rule_matches, with_specificity.
  destruct (is_default_rule rule); cbn [negb andb]; [done|].
  case_bool_decide as Hdom; cbn [negb andb orb]; [done|].
  case_bool_decide as Hrd; cbn [negb andb orb]; [|done].
  destruct (action_matches (prd_action rule) (pqc_operation query)); cbn [negb andb orb]; [|done].
  destruct (subject_matches (prd_subject rule) (pqc_actor_ref query)); cbn [negb andb orb]; [|done].
  rewrite Z.ltb_antisym. by destruct (0 <=? _).
Qed.

Lemma match_rules_fold query rules found :
  fold_left (match_rule query (map_query_domain query)) rules found =
  (fold_left prefer_default (filter (fun rule => is_default_rule rule = true) rules) found.1,
   found.2 ++ (with_specificity query <$> filter (fun rule => rule_matches query rule = true) rules)).
Proof.
  revert found. induction rules as [|rule rules IH]; intros [default_rule matched].
  - simpl. by rewrite app_nil_r.
  - cbn [fold_left]. rewrite match_rule_step, IH, !filter_cons. cbn [fst snd]. f_equal.
    + by destruct (is_default_rule rule).
    + destruct (rule_matches query rule); [|done]. rewrite decide_True by done.
      by rewrite fmap_cons, <-(assoc_L (++)).
Qed.

Lemma preferred_default rules start :
  Forall (fun rule => is_default_rule rule = true) rules ->
  match fold_left prefer_default rules start with
  | None => start = None /\ rules = []
  | Some best =>
      (start = Some best \/ best ∈ rules) /\
      forall other, start = Some other \/ other ∈ rules -> not_after compare_default_rules best other
  end.
Proof.
  revert start. induction rules as [|rule rules IH]; intros start Hall.
  - simpl. destruct start as [best|]; [|done]. split; [by left|].
    intros other [[= ->]|[]%not_elem_of_nil]. unfold not_after.
    pose proof (ordering_opp (cmp := compare_default_rules) other other) as H. by destruct (compare_default_rules other other).
  - apply Forall_cons in Hall as [_ Hall]. cbn [fold_left].
    set (next := prefer_default start rule). specialize (IH next Hall).
    assert (exists n, next = Some n /\ (start = Some n \/ n = rule) /\
      not_after compare_default_rules n rule /\
      forall c, start = Some c -> not_after compare_default_rules n c) as (n & Hn & Hfrom & Hr & Hc).
    { assert (forall r, not_after compare_default_rules r r) as Hrefl.
      { intros r. unfold not_after. pose proof (ordering_opp (cmp := compare_default_rules) r r) as H.
        by destruct (compare_default_rules r r). }
      subst next. destruct start as [current|]; [|by exists rule; split_and!; auto].
      unfold prefer_default, prefer_default_rule, less.
      destruct (compare_default_rules rule current) eqn:E.
      - exists current. split_and!; auto; [unfold not_after; by rewrite E|].
        by intros c [= <-].
      - exists rule. split_and!; auto. intros c [= <-]. unfold not_after.
        by rewrite (ordering_opp (cmp := compare_default_rules) rule current), E.
      - exists current. split_and!; auto; [unfold not_after; by rewrite E|].
        by intros c [= <-]. }
    rewrite Hn in IH. rewrite Hn. destruct (fold_left _ rules (Some n)) as [best|]; [|by destruct IH].
    destruct IH as [Hin Hbest]. split.
    + destruct Hin as [[= ->]|Hin]; [destruct Hfrom as [?| ->]; [by left|right; by left]|].
      right. by right.
    + intros other [Ho|[->|Ho]%elem_of_cons].
      * transitivity n; [by apply Hbest; left|by apply Hc].
      * transitivity n; [by apply Hbest; left|done].
      * apply Hbest. by right.
Qed.

(** The rule that decides the query: the best of the rules that speak about it, or where
    there is none the best default rule. *)
Definition deciding (query : PolicyQueryContext) (rules : list PolicyRuleDescriptor)
    (rule : PolicyRuleDescriptor) : Prop :=
  best_with (compare_for query) (rule_matches query) rules rule \/
  (forall other, other ∈ rules -> rule_matches query other = false) /\
  best_with compare_default_rules is_default_rule rules rule.

(** No rule decides it. *)
Definition undecided (query : PolicyQueryContext) (rules : list PolicyRuleDescriptor) : Prop :=
  forall rule, rule ∈ rules -> rule_matches query rule = false /\ is_default_rule rule = false.

Section Projector.
Context {sorting : StdSort}.

Lemma best_match query rules rule specificity rest :
  std_sort compare_matches
    (with_specificity query <$> filter (fun rule => rule_matches query rule = true) rules)
  = (rule, specificity) :: rest ->
  best_with (compare_for query) (rule_matches query) rules rule.
Proof.
  intros [Hin Hbest]%std_sort_first; [|apply _].
  apply list_elem_of_fmap in Hin as (r & [= -> ->] & [Hm Hin]%list_elem_of_filter).
  split_and!; [done..|]. intros other Hin' Hm'. apply (Hbest (with_specificity query other)).
  apply list_elem_of_fmap. exists other. by rewrite list_elem_of_filter.
Qed.

Lemma no_match query rules :
  std_sort compare_matches
    (with_specificity query <$> filter (fun rule => rule_matches query rule = true) rules) = [] ->
  forall other, other ∈ rules -> rule_matches query other = false.
Proof.
  intros E other Hin. destruct (rule_matches query other) eqn:Hm; [|done].
  assert (with_specificity query other ∈ std_sort compare_matches
    (with_specificity query <$> filter (fun rule => rule_matches query rule = true) rules)) as H.
  { apply std_sort_elem; [apply _|]. apply list_elem_of_fmap. exists other.
    by rewrite list_elem_of_filter. }
  rewrite E in H. by apply not_elem_of_nil in H.
Qed.

Lemma best_default rules :
  match fold_left prefer_default (filter (fun rule => is_default_rule rule = true) rules) None with
  | Some rule => best_with compare_default_rules is_default_rule rules rule
  | None => forall rule, rule ∈ rules -> is_default_rule rule = false
  end.
Proof.
  pose proof (preferred_default (filter (fun rule => is_default_rule rule = true) rules) None) as H.
  assert (Forall (fun rule => is_default_rule rule = true)
    (filter (fun rule => is_default_rule rule = true) rules)) as Hall.
  { apply Forall_forall. intros r. by rewrite list_elem_of_filter; intros [? _]. }
  specialize (H Hall). destruct (fold_left _ _ _) as [rule|].
  - destruct H as [[?|[Hd Hin]%list_elem_of_filter] Hbest]; [done|]. split_and!; [done..|].
    intros other Hin' Hd'. apply Hbest. right. by rewrite list_elem_of_filter.
  - destruct H as [_ Hnil]. intros rule Hin. destruct (is_default_rule rule) eqn:Hd; [|done].
    assert (rule ∈ filter (fun rule => is_default_rule rule = true) rules) as Hf
      by by rewrite list_elem_of_filter.
    rewrite Hnil in Hf. by apply not_elem_of_nil in Hf.
Qed.

Lemma decision_from_rule rule snapshot ids warnings :
  let decision := build_decision_from_rule rule snapshot ids warnings in
  pdr_decision decision = effect_decision (prd_effect rule) /\
  pdr_reason_code decision = prd_reason_code rule /\
  pdr_matched_rule_ids decision = ids /\
  pdr_snapshot_id decision = normalize_snapshot_id snapshot /\
  pdr_generation decision = normalize_generation snapshot /\
  pdr_evidence_ref decision
    = build_evidence_ref (normalize_snapshot_id snapshot) (normalize_generation snapshot)
        (prd_rule_id rule).
Proof. unfold build_decision_from_rule, effect_decision. by destruct (prd_effect rule). Qed.

(** The decision for a query is that of the deciding rule, and denial where there is none. *)
Lemma project_spec query snapshot :
  snapshot_is_valid snapshot = true -> has_required_fields query = true ->
  (exists rule, deciding query (psn_effective_rules snapshot) rule /\
     pdr_decision (project query snapshot) = effect_decision (prd_effect rule) /\
     pdr_reason_code (project query snapshot) = prd_reason_code rule /\
     prd_rule_id rule ∈ pdr_matched_rule_ids (project query snapshot)) \/
  (undecided query (psn_effective_rules snapshot) /\
   pdr_decision (project query snapshot) = PolicyDecision.Deny /\
   pdr_reason_code (project query snapshot) = "policy_query_no_match").
Proof.
  intros Hs Hq. unfold project, match_rules. rewrite Hs, Hq, match_rules_fold. cbn [negb].
  cbv beta iota. cbn [fst snd app].
  set (matches := std_sort _ _). destruct matches as [|[rule specificity] rest] eqn:E; subst matches.
  - pose proof (no_match _ _ E) as Hno.
    pose proof (best_default (psn_effective_rules snapshot)) as Hd.
    destruct (fold_left _ _ _) as [rule|].
    + left. exists rule. destruct (decision_from_rule rule snapshot [prd_rule_id rule]
        ["default_effect_applied"]) as (-> & -> & -> & _).
      split_and!; [|done..|by left]. right. done.
    + right. split_and!; [|done..]. intros rule Hin. auto.
  - left. exists rule. apply best_match in E.
    match goal with |- context [build_decision_from_rule rule snapshot ?ids ?w] =>
      destruct (decision_from_rule rule snapshot ids w) as (-> & -> & -> & _) end.
    split_and!; [by left|done..|]. simpl. by left.
Qed.

End Projector.

(** Rules that compare equal decide the same. *)
Lemma tied_rules_agree query rule1 rule2 :
  compare_for query rule1 rule2 = Eq \/ compare_default_rules rule1 rule2 = Eq ->
  prd_effect rule1 = prd_effect rule2.
Proof.
  unfold compare_for, compare_matches, compare_default_rules, then_by, descending, by_number.
  simpl. intros [H|H].
  - destruct (_ ?= _); [|done|done].
    destruct (prd_priority rule1 ?= prd_priority rule2); [|done|done].
    destruct (policy_effect_precedence (prd_effect rule1)
      ?= policy_effect_precedence (prd_effect rule2)) eqn:E; [|done|done].
    apply Z.compare_eq_iff in E. by destruct (prd_effect rule1), (prd_effect rule2).
  - destruct (prd_priority rule1 ?= prd_priority rule2); [|done|done].
    destruct (policy_effect_value (prd_effect rule1)
      ?= policy_effect_value (prd_effect rule2)) eqn:E; [|done|done].
    apply Z.compare_eq_iff in E. by destruct (prd_effect rule1), (prd_effect rule2).
Qed.

Lemma deciding_rules_agree query rules rules' rule1 rule2 :
  rules ≡ₚ rules' -> deciding query rules rule1 -> deciding query rules' rule2 ->
  prd_effect rule1 = prd_effect rule2.
Proof.
  intros Hp. unfold deciding. rewrite <-!(best_with_perm _ _ _ _ rule2 Hp).
  setoid_rewrite <-Hp. intros [H1|[Hno1 H1]] [H2|[Hno2 H2]].
  - apply (tied_rules_agree query). left. by eapply best_with_tied; [apply _|..].
  - destruct H1 as (Hin & Hm & _). by rewrite Hno2 in Hm.
  - destruct H2 as (Hin & Hm & _). by rewrite Hno1 in Hm.
  - apply (tied_rules_agree query). right. by eapply best_with_tied; [apply _|..].
Qed.

Lemma deciding_undecided query rules rule :
  deciding query rules rule -> ~ undecided query rules.
Proof.
  intros [(Hin & Hm & _)|[_ (Hin & Hd & _)]] Hu; destruct (Hu _ Hin); congruence.
Qed.

(** ** Decisions are well formed *)

Lemma non_empty_app s1 s2 : is_empty (s1 +:+ s2) = is_empty s1 && is_empty s2.
Proof. by destruct s1. Qed.

Lemma rule_valid_reason rule : rule_is_valid rule = true -> is_empty (prd_reason_code rule) = false.
Proof. unfold rule_is_valid. rewrite !andb_true_iff, !negb_true_iff. tauto. Qed.

Lemma normalized_ids snapshot :
  0 <= psn_generation snapshot ->
  is_empty (normalize_snapshot_id snapshot) = false /\ (0 <? normalize_generation snapshot) = true.
Proof.
  unfold normalize_snapshot_id, normalize_generation. intros Hg. split.
  - by destruct (is_empty (psn_snapshot_id snapshot)) eqn:E.
  - destruct (Z.eqb_spec (psn_generation snapshot) 0); apply Z.ltb_lt; lia.
Qed.

Lemma synthetic_deny_valid snapshot reason rule_id warnings :
  0 <= psn_generation snapshot -> is_empty reason = false ->
  decision_is_valid (make_synthetic_deny snapshot reason rule_id warnings) = true.
Proof.
  intros [Hid Hg]%normalized_ids Hr. unfold decision_is_valid. simpl. by rewrite Hr, Hid, Hg.
Qed.

Lemma rule_decision_valid rule snapshot ids warnings :
  0 <= psn_generation snapshot -> rule_is_valid rule = true -> ids <> [] ->
  decision_is_valid (build_decision_from_rule rule snapshot ids warnings) = true.
Proof.
  intros [Hid Hg]%normalized_ids Hr Hids.
  destruct (decision_from_rule rule snapshot ids warnings) as (Hd & H1 & H2 & H3 & H4 & H5).
  unfold decision_is_valid. rewrite Hd, H1, H2, H3, H4, H5, Hid, Hg.
  rewrite (rule_valid_reason _ Hr), (bool_decide_false (ids = [])) by done.
  rewrite bool_decide_false by by destruct (prd_effect rule). done.
Qed.

Lemma project_valid {sorting : StdSort} query snapshot :
  0 <= psn_generation snapshot -> decision_is_valid (project query snapshot) = true.
Proof.
  intros Hg. unfold project. destruct (snapshot_is_valid snapshot) eqn:Hs; cbn [negb];
    [|by apply synthetic_deny_valid].
  destruct (has_required_fields query); cbn [negb]; [|by apply synthetic_deny_valid].
  unfold match_rules. rewrite match_rules_fold. cbv beta iota. cbn [fst snd app].
  apply snapshot_valid_rules in Hs. rewrite Forall_forall in Hs.
  set (matches := std_sort _ _). destruct matches as [|[rule specificity] rest] eqn:E; subst matches.
  - pose proof (best_default (psn_effective_rules snapshot)) as Hd.
    destruct (fold_left _ _ _) as [rule|].
    + destruct Hd as [Hin _]. apply rule_decision_valid; [done|by apply Hs|done].
    + by apply synthetic_deny_valid.
  - apply best_match in E as [Hin _]. apply rule_decision_valid; [done|by apply Hs|done].
Qed.

(** The decision depends on the rules only. *)
Lemma project_perm (sort1 sort2 : StdSort) query s1 s2 :
  snapshot_is_valid s1 = true -> snapshot_is_valid s2 = true ->
  psn_effective_rules s1 ≡ₚ psn_effective_rules s2 ->
  pdr_decision (project (sorting := sort1) query s1)
  = pdr_decision (project (sorting := sort2) query s2).
Proof.
  intros Hs1 Hs2 Hp. destruct (has_required_fields query) eqn:Hq.
  - destruct (project_spec (sorting := sort1) query s1 Hs1 Hq) as [(r1 & H1 & -> & _)|(H1 & -> & _)],
      (project_spec (sorting := sort2) query s2 Hs2 Hq) as [(r2 & H2 & -> & _)|(H2 & -> & _)].
    + f_equal. by eapply deciding_rules_agree.
    + apply deciding_undecided in H1. destruct H1. unfold undecided. by setoid_rewrite Hp.
    + apply deciding_undecided in H2. destruct H2. unfold undecided. by setoid_rewrite <-Hp.
    + done.
  - unfold project. by rewrite Hs1, Hs2, Hq.
Qed.

(** ** Theorems *)

(** The resolver answers for every bundle, whatever order [std::sort] gives to rules it
    holds equal. It resolves exactly the valid bundles in which every scope has one rule of
    the best rank or only compatibility rules; the rules in force are then one
    of each scope that no other rule of the scope outranks, and none otherwise. Under
    deny-first no scope with a rule that denies has another rule in force. *)
Theorem policy_resolution_exact (sorting : StdSort) bundle :
  exists result, resolve_conflicts bundle = Some result /\ resolution_of bundle result /\
    (extract_priority_order bundle = "deny-first" ->
     forall rule denying, rule ∈ crr_effective_rules result -> denying ∈ pbu_rules bundle ->
       make_scope_key denying = make_scope_key rule ->
       prd_effect denying = PolicyEffect.Deny -> prd_effect rule = PolicyEffect.Deny).
Proof.
  destruct (resolve_conflicts_spec bundle) as (result & E & Hr). exists result.
  split_and!; [done..|]. intros Horder rule denying Hin. destruct Hr as [_ Hr].
  rewrite Horder in Hr. destruct (crr_resolved result).
  - by eapply deny_wins_in_scope.
  - rewrite Hr in Hin. by apply not_elem_of_nil in Hin.
Qed.

(** C11. Every decision is well formed: it allows, denies or asks, with a reason, a rule and
    evidence. A query that lacks a field, or is asked of no valid snapshot, is denied. Any
    other is decided by the most specific rule that speaks about it, of these the one of the
    best priority and then effect, or where there is none by the default rule, and denied
    where there is no default rule either. *)
Theorem policy_decision_exact (sorting : StdSort) query snapshot :
  0 <= psn_generation snapshot ->
  let rules := psn_effective_rules snapshot in
  let decision := project query snapshot in
  decision_is_valid decision = true /\
  if snapshot_is_valid snapshot && has_required_fields query
  then (exists rule, deciding query rules rule /\
          pdr_decision decision = effect_decision (prd_effect rule) /\
          pdr_reason_code decision = prd_reason_code rule /\
          prd_rule_id rule ∈ pdr_matched_rule_ids decision) \/
       (undecided query rules /\ pdr_decision decision = PolicyDecision.Deny /\
        pdr_reason_code decision = "policy_query_no_match")
  else pdr_decision decision = PolicyDecision.Deny.
Proof.
  intros Hg. cbv zeta. split; [by apply project_valid|].
  destruct (snapshot_is_valid snapshot) eqn:Hs, (has_required_fields query) eqn:Hq; cbn [andb];
    [by apply project_spec|unfold project; by rewrite Hs, ?Hq..].
Qed.

(** The decision depends on the rules in force and not on their order, nor on the order
    [std::sort] gives to rules it holds equal. *)
Theorem policy_decision_order_irrelevant (sort1 sort2 : StdSort) query s1 s2 :
  snapshot_is_valid s1 = true -> snapshot_is_valid s2 = true ->
  psn_effective_rules s1 ≡ₚ psn_effective_rules s2 ->
  pdr_decision (project (sorting := sort1) query s1)
  = pdr_decision (project (sorting := sort2) query s2).
Proof. apply project_perm. Qed.

(** ** Examples *)

Definition sample_rule (rule_id subject : string) (effect : PolicyEffect) (priority : Z)
    : PolicyRuleDescriptor :=
  {| prd_rule_id := rule_id; prd_domain := PolicyDomain.DiagnosticsCommand;
     prd_subject := subject; prd_action := "execute"; prd_target_selector := "command:*";
     prd_effect := effect; prd_priority := priority; prd_mode := PolicyMode.Enforced;
     prd_conditions := []; prd_reason_code := "sample" |}.

Definition sample_default (rule_id subject : string) (effect : PolicyEffect)
    : PolicyRuleDescriptor :=
  {| prd_rule_id := rule_id; prd_domain := PolicyDomain.PolicyAdmin; prd_subject := subject;
     prd_action := "evaluate_default"; prd_target_selector := "policy:default_effect";
     prd_effect := effect; prd_priority := 1000; prd_mode := PolicyMode.Enforced;
     prd_conditions := []; prd_reason_code := "default" |}.

Definition sample_snapshot (rules : list PolicyRuleDescriptor) : PolicySnapshot :=
  {| psn_snapshot_id := "snap-1"; psn_generation := 1; psn_version := "1";
     psn_mode := PolicyMode.Enforced; psn_effective_rules := rules;
     psn_created_at := "2026-01-01T00:00:00Z"; psn_source_chain := ["infra.defaults"];
     psn_last_known_good_ref := "" |}.

Definition sample_query (actor : string) : PolicyQueryContext :=
  {| pqc_module := "diagnostics"; pqc_operation := "execute"; pqc_target_type := "command";
     pqc_target_ref := "health"; pqc_actor_ref := actor; pqc_request_id := "";
     pqc_session_id := ""; pqc_trace_id := ""; pqc_task_id := ""; pqc_profile_id := "" |}.

Lemma policy_decision_exact_witness :
  pdr_decision (project (sorting := merging_sort) (sample_query "ops")
    (sample_snapshot [sample_rule "r1" "ops" PolicyEffect.Allow 1;
                      sample_default "d1" "any" PolicyEffect.Deny])) = PolicyDecision.Allow /\
  decision_is_valid (project (sorting := merging_sort) (sample_query "ops")
    (sample_snapshot [sample_rule "r1" "ops" PolicyEffect.Allow 1;
                      sample_default "d1" "any" PolicyEffect.Deny])) = true.
Proof.
  split; [vm_compute; reflexivity|].
  apply (policy_decision_exact merging_sort); vm_compute; discriminate.
Defined.

Lemma policy_decision_order_irrelevant_witness :
  pdr_decision (project (sorting := merging_sort) (sample_query "ops")
    (sample_snapshot [sample_rule "r1" "ops" PolicyEffect.Allow 1;
                      sample_default "d1" "any" PolicyEffect.Deny]))
  = pdr_decision (project (sorting := merging_sort) (sample_query "ops")
    (sample_snapshot [sample_default "d1" "any" PolicyEffect.Deny;
                      sample_rule "r1" "ops" PolicyEffect.Allow 1])).
Proof.
  apply policy_decision_order_irrelevant; [vm_compute; reflexivity..|].
  apply Permutation_swap.
Defined.

(** Of two default rules of one priority the one that allows wins: [prefer_default_rule]
    compares the numbers of the enumerators, not the precedence of the effects. *)
Example default_allow_beats_deny :
  pdr_decision (project (sorting := merging_sort) (sample_query "ops")
    (sample_snapshot [sample_default "d1" "any" PolicyEffect.Deny;
                      sample_default "d2" "*" PolicyEffect.Allow])) = PolicyDecision.Allow.
Proof. vm_compute. reflexivity. Qed.

(** A rule that denies everyone gives way to one that allows the actor and has the smaller
    priority number: they are of two scopes, and the projector asks for the effect last. *)
Example allow_of_smaller_priority_wins :
  pdr_decision (project (sorting := merging_sort) (sample_query "ops")
    (sample_snapshot [sample_rule "r1" "*" PolicyEffect.Deny 10;
                      sample_rule "r2" "ops" PolicyEffect.Allow 5])) = PolicyDecision.Allow.
Proof. vm_compute. reflexivity. Qed.
