(* ===== verification/PolicyManager.v ===== *)
(** * Security policy: snapshots and their manager

    infra/src/policy/PolicySnapshotStore.cpp (the snapshots committed, the last of them in
    force) and SecurityPolicyManager.cpp (loading a bundle, patches with their dry runs,
    rollback, safe mode). The store has a lock of its own and the manager holds its lock
    only in parts of a call, so a call is a sequence of steps, one for each locked part, and
    the calls of several threads interleave. *)

From stdpp Require Import sorting.
From S2P Require Import Prelude ErrorCodes CheckpointContracts Text Ordering RecoveryContracts PolicyRules.

(** ** The store *)

Record PolicySnapshotStore := {
  pst_max_history_snapshots : Z;
  pst_snapshots_by_id : gmap string PolicySnapshot;
  pst_history_order : list string;
  pst_current : PolicySnapshot;
  pst_last_known_good : PolicySnapshot;
  pst_pending_commit_failure_reason : option string;
}.

Definition normalize_max_history_snapshots (max_history_snapshots : Z) : Z :=
  if max_history_snapshots =? 0 then 1 else max_history_snapshots.

Definition new_store (max_history_snapshots : Z) : PolicySnapshotStore :=
  {| pst_max_history_snapshots := normalize_max_history_snapshots max_history_snapshots;
     pst_snapshots_by_id := ∅; pst_history_order := []; pst_current := empty_policy_snapshot;
     pst_last_known_good := empty_policy_snapshot; pst_pending_commit_failure_reason := None |}.

Definition with_last_known_good_ref (snapshot : PolicySnapshot) (ref : string) : PolicySnapshot :=
  {| psn_snapshot_id := psn_snapshot_id snapshot; psn_generation := psn_generation snapshot;
     psn_version := psn_version snapshot; psn_mode := psn_mode snapshot;
     psn_effective_rules := psn_effective_rules snapshot;
     psn_created_at := psn_created_at snapshot; psn_source_chain := psn_source_chain snapshot;
     psn_last_known_good_ref := ref |}.

Definition normalize_snapshot (store : PolicySnapshotStore) (snapshot : PolicySnapshot)
    : PolicySnapshot :=
  if is_empty (psn_last_known_good_ref snapshot) && snapshot_is_valid (pst_last_known_good store)
  then with_last_known_good_ref snapshot (psn_snapshot_id (pst_last_known_good store))
  else snapshot.

(** The loop of [trim_history_locked] over the deque and the map. *)
Fixpoint trim_history (max_history_snapshots : Z) (current_id last_known_good_id : string)
    (history_order : list string) (snapshots_by_id : gmap string PolicySnapshot)
    : list string * gmap string PolicySnapshot :=
  match history_order with
  | evicted :: rest =>
      if max_history_snapshots <? Z.of_nat (length history_order) then
        if bool_decide (current_id = evicted) || bool_decide (last_known_good_id = evicted)
        then trim_history max_history_snapshots current_id last_known_good_id rest snapshots_by_id
        else trim_history max_history_snapshots current_id last_known_good_id rest
               (delete evicted snapshots_by_id)
      else (history_order, snapshots_by_id)
  | [] => ([], snapshots_by_id)
  end.

Definition clear_pending_failure (store : PolicySnapshotStore) : PolicySnapshotStore :=
  {| pst_max_history_snapshots := pst_max_history_snapshots store;
     pst_snapshots_by_id := pst_snapshots_by_id store;
     pst_history_order := pst_history_order store; pst_current := pst_current store;
     pst_last_known_good := pst_last_known_good store;
     pst_pending_commit_failure_reason := None |}.

Definition inject_commit_failure_for_test (reason : string) (store : PolicySnapshotStore)
    : PolicySnapshotStore :=
  {| pst_max_history_snapshots := pst_max_history_snapshots store;
     pst_snapshots_by_id := pst_snapshots_by_id store;
     pst_history_order := pst_history_order store; pst_current := pst_current store;
     pst_last_known_good := pst_last_known_good store;
     pst_pending_commit_failure_reason :=
       Some (if is_empty reason then "simulated policy snapshot store commit failure"
             else reason) |}.

Definition commit (snapshot : PolicySnapshot) (store : PolicySnapshotStore)
    : PolicySnapshotStore * PolicyOpResult :=
  let normalized_snapshot := normalize_snapshot store snapshot in
  let id := psn_snapshot_id normalized_snapshot in
  let fail code message :=
    make_failure code message "policy.commit_snapshot"
      (if is_empty id then "PolicySnapshotStore" else id) in
  if negb (snapshot_is_valid normalized_snapshot) then
    (store, fail PolicyErrorCode.BundleInvalid
       "policy snapshot must satisfy the frozen snapshot contract before commit") else
  if snapshot_is_valid (pst_current store)
     && (psn_generation normalized_snapshot <=? psn_generation (pst_current store)) then
    (store, fail PolicyErrorCode.StoreCommitFailed
       "policy snapshot generation must increase monotonically") else
  if bool_decide (is_Some (pst_snapshots_by_id store !! id)) then
    (store, fail PolicyErrorCode.StoreCommitFailed
       "policy snapshot id must remain unique across committed history") else
  match pst_pending_commit_failure_reason store with
  | Some reason => (clear_pending_failure store, fail PolicyErrorCode.StoreCommitFailed reason)
  | None =>
      let '(history_order, snapshots_by_id) :=
        trim_history (pst_max_history_snapshots store) id id (pst_history_order store ++ [id])
          (<[id := normalized_snapshot]> (pst_snapshots_by_id store)) in
      ({| pst_max_history_snapshots := pst_max_history_snapshots store;
          pst_snapshots_by_id := snapshots_by_id; pst_history_order := history_order;
          pst_current := normalized_snapshot; pst_last_known_good := normalized_snapshot;
          pst_pending_commit_failure_reason := None |},
       op_success id (psn_generation normalized_snapshot) false false)
  end.

Definition get_by_id (store : PolicySnapshotStore) (snapshot_id : string) : PolicySnapshot :=
  default empty_policy_snapshot (pst_snapshots_by_id store !! snapshot_id).

(** ** The manager's own state *)

Record SecurityPolicyManager := {
  spm_dry_run_required : bool;
  spm_safe_mode_threshold : Z;
  spm_consecutive_patch_failures : Z;
  spm_safe_mode : bool;
  spm_last_dry_run_patch_id : string;
  spm_last_dry_run_base_generation : Z;
}.

Definition normalize_safe_mode_threshold (threshold : Z) : Z :=
  if threshold =? 0 then 1 else threshold.

Definition new_manager (dry_run_required : bool) (safe_mode_threshold : Z)
    : SecurityPolicyManager :=
  {| spm_dry_run_required := dry_run_required;
     spm_safe_mode_threshold := normalize_safe_mode_threshold safe_mode_threshold;
     spm_consecutive_patch_failures := 0; spm_safe_mode := false;
     spm_last_dry_run_patch_id := ""; spm_last_dry_run_base_generation := 0 |}.

Definition with_options (dry_run_required : bool) (safe_mode_threshold : Z)
    (manager : SecurityPolicyManager) : SecurityPolicyManager :=
  {| spm_dry_run_required := dry_run_required; spm_safe_mode_threshold := safe_mode_threshold;
     spm_consecutive_patch_failures := spm_consecutive_patch_failures manager;
     spm_safe_mode := spm_safe_mode manager;
     spm_last_dry_run_patch_id := spm_last_dry_run_patch_id manager;
     spm_last_dry_run_base_generation := spm_last_dry_run_base_generation manager |}.

Definition with_failures (failures : Z) (safe_mode : bool) (manager : SecurityPolicyManager)
    : SecurityPolicyManager :=
  {| spm_dry_run_required := spm_dry_run_required manager;
     spm_safe_mode_threshold := spm_safe_mode_threshold manager;
     spm_consecutive_patch_failures := failures; spm_safe_mode := safe_mode;
     spm_last_dry_run_patch_id := spm_last_dry_run_patch_id manager;
     spm_last_dry_run_base_generation := spm_last_dry_run_base_generation manager |}.

Definition with_dry_run (patch_id : string) (base_generation : Z)
    (manager : SecurityPolicyManager) : SecurityPolicyManager :=
  {| spm_dry_run_required := spm_dry_run_required manager;
     spm_safe_mode_threshold := spm_safe_mode_threshold manager;
     spm_consecutive_patch_failures := spm_consecutive_patch_failures manager;
     spm_safe_mode := spm_safe_mode manager;
     spm_last_dry_run_patch_id := patch_id;
     spm_last_dry_run_base_generation := base_generation |}.

Definition is_unsigned_integer (value : string) : bool :=
  negb (is_empty value) && all_chars is_digit value.

Fixpoint find_rule_condition_value (rules : list PolicyRuleDescriptor)
    (action target_selector key : string) : option string :=
  match rules with
  | [] => None
  | rule :: rest =>
      if negb (bool_decide (prd_action rule = action))
         || negb (bool_decide (prd_target_selector rule = target_selector))
      then find_rule_condition_value rest action target_selector key else
      match find (fun item => value_starts_with item (key +:+ "=")) (prd_conditions rule) with
      | Some condition => strip_prefix (key +:+ "=") condition
      | None => find_rule_condition_value rest action target_selector key
      end
  end.

Definition patch_gate_condition (rules : list PolicyRuleDescriptor) (key : string)
    : option string :=
  find_rule_condition_value rules "apply_patch" "policy:runtime_patch" key.

(** The options that the rules set; [false] when [std::stoul] throws. *)
Definition sync_options_from_rules (rules : list PolicyRuleDescriptor)
    (manager : SecurityPolicyManager) : SecurityPolicyManager * bool :=
  let manager :=
    match patch_gate_condition rules "dry_run_required" with
    | Some value => with_options (bool_decide (lowercase_copy value = "true"))
                      (spm_safe_mode_threshold manager) manager
    | None => manager
    end in
  match patch_gate_condition rules "safe_mode_threshold" with
  | Some value =>
      if is_unsigned_integer value then
        match stoull value with
        | Some threshold =>
            (with_options (spm_dry_run_required manager)
               (normalize_safe_mode_threshold (u32 threshold)) manager, true)
        | None => (manager, false)
        end
      else (manager, true)
  | None => (manager, true)
  end.

Definition note_patch_failure (manager : SecurityPolicyManager) : SecurityPolicyManager :=
  let failures := u32 (spm_consecutive_patch_failures manager + 1) in
  with_failures failures
    (if spm_safe_mode_threshold manager <=? failures then true else spm_safe_mode manager) manager.

Definition reset_patch_failures (manager : SecurityPolicyManager) : SecurityPolicyManager :=
  with_failures 0 false manager.

Definition dry_run_matches (manager : SecurityPolicyManager) (patch : PolicyPatch) : bool :=
  negb (is_empty (spm_last_dry_run_patch_id manager))
  && bool_decide (spm_last_dry_run_patch_id manager = pp_patch_id patch)
  && (spm_last_dry_run_base_generation manager =? pp_base_generation patch).

Definition remember_dry_run (patch : PolicyPatch) : SecurityPolicyManager -> SecurityPolicyManager :=
  with_dry_run (pp_patch_id patch) (pp_base_generation patch).

Definition clear_dry_run : SecurityPolicyManager -> SecurityPolicyManager := with_dry_run "" 0.

(** ** What the calls build *)

Definition snapshot_mode_from_rules (rules : list PolicyRuleDescriptor) (fallback : PolicyMode)
    : PolicyMode :=
  match rules with rule :: _ => prd_mode rule | [] => fallback end.

Definition next_snapshot_id (generation : Z) : string :=
  "policy-snapshot-" +:+ to_string generation.

Definition rollback_snapshot_id (target_snapshot_id : string) (generation : Z) : string :=
  "policy-rollback-" +:+ (to_string generation +:+ ("-from-" +:+ target_snapshot_id)).

Definition merge_source_chain (previous_snapshot : PolicySnapshot) (source_ref : string)
    : list string :=
  psn_source_chain previous_snapshot ++ [source_ref].

Definition with_rule_id_and_mode (rule_id : string) (mode : PolicyMode)
    (rule : PolicyRuleDescriptor) : PolicyRuleDescriptor :=
  {| prd_rule_id := rule_id; prd_domain := prd_domain rule; prd_subject := prd_subject rule;
     prd_action := prd_action rule; prd_target_selector := prd_target_selector rule;
     prd_effect := prd_effect rule; prd_priority := prd_priority rule; prd_mode := mode;
     prd_conditions := prd_conditions rule; prd_reason_code := prd_reason_code rule |}.

(** The first rule of the id is replaced; without one the rule is added. *)
Fixpoint replace_rule (rules : list PolicyRuleDescriptor) (rule : PolicyRuleDescriptor)
    : list PolicyRuleDescriptor :=
  match rules with
  | [] => [rule]
  | candidate :: rest =>
      if bool_decide (prd_rule_id candidate = prd_rule_id rule) then rule :: rest
      else candidate :: replace_rule rest rule
  end.

(** One operation; [None]: the rule of the operation is dereferenced and there is none. *)
Definition apply_operation (state : list PolicyRuleDescriptor * PolicyMode)
    (operation : PolicyPatchOperation) : option (list PolicyRuleDescriptor * PolicyMode) :=
  let '(rules, effective_mode) := state in
  match ppo_operation operation with
  | PolicyPatchOperationType.AddRule =>
      rule ← ppo_rule operation;
      Some (rules ++ [with_rule_id_and_mode (prd_rule_id rule) effective_mode rule], effective_mode)
  | PolicyPatchOperationType.ReplaceRule =>
      rule ← ppo_rule operation;
      let rule_id := if is_empty (ppo_rule_id operation) then prd_rule_id rule
                     else ppo_rule_id operation in
      Some (replace_rule rules (with_rule_id_and_mode rule_id effective_mode rule), effective_mode)
  | PolicyPatchOperationType.RemoveRule =>
      Some (filter (fun candidate => prd_rule_id candidate <> ppo_rule_id operation) rules,
            effective_mode)
  | PolicyPatchOperationType.UpdateMode =>
      Some ((fun rule => with_rule_id_and_mode (prd_rule_id rule) (ppo_mode operation) rule) <$> rules,
            ppo_mode operation)
  | PolicyPatchOperationType.Unspecified => Some (rules, effective_mode)
  end.

Fixpoint apply_operations (state : list PolicyRuleDescriptor * PolicyMode)
    (operations : list PolicyPatchOperation) : option (list PolicyRuleDescriptor * PolicyMode) :=
  match operations with
  | [] => Some state
  | operation :: rest => state ← apply_operation state operation; apply_operations state rest
  end.

Definition apply_patch_to_snapshot (current_snapshot : PolicySnapshot) (patch : PolicyPatch)
    : option PolicyBundle :=
  state ← apply_operations (psn_effective_rules current_snapshot, psn_mode current_snapshot)
            (pp_operations patch);
  Some {| pbu_bundle_id := "policy-bundle-patch-" +:+ pp_patch_id patch;
          pbu_schema_version := "1";
          pbu_source := "runtime_patch:" +:+ pp_patch_id patch;
          pbu_checksum := "patch-checksum:" +:+ pp_patch_id patch;
          pbu_rules := state.1;
          pbu_generated_at :=
            if is_empty (psn_created_at current_snapshot) then "runtime-patch"
            else psn_created_at current_snapshot |}.

Definition next_generation (previous_snapshot : PolicySnapshot) : Z :=
  if snapshot_is_valid previous_snapshot then u64 (psn_generation previous_snapshot + 1) else 1.

Definition build_snapshot (bundle : PolicyBundle) (effective_rules : list PolicyRuleDescriptor)
    (previous_snapshot : PolicySnapshot) (snapshot_id : string) : PolicySnapshot :=
  {| psn_snapshot_id := snapshot_id; psn_generation := next_generation previous_snapshot;
     psn_version := pbu_schema_version bundle;
     psn_mode := snapshot_mode_from_rules effective_rules
       (if snapshot_is_valid previous_snapshot then psn_mode previous_snapshot
        else PolicyMode.Enforced);
     psn_effective_rules := effective_rules;
     psn_created_at := if is_empty (pbu_generated_at bundle) then "policy-snapshot"
                       else pbu_generated_at bundle;
     psn_source_chain := merge_source_chain previous_snapshot (pbu_source bundle);
     psn_last_known_good_ref :=
       if snapshot_is_valid previous_snapshot then psn_snapshot_id previous_snapshot else "" |}.

Definition next_snapshot (bundle : PolicyBundle) (effective_rules : list PolicyRuleDescriptor)
    (previous_snapshot : PolicySnapshot) : PolicySnapshot :=
  build_snapshot bundle effective_rules previous_snapshot
    (next_snapshot_id (next_generation previous_snapshot)).

Definition classify_bundle_validation_error (report : ValidationReport) : PolicyErrorCode :=
  if existsb (fun error => contains_text (lowercase_copy error) "schema") (vrp_blocking_errors report)
  then PolicyErrorCode.SchemaUnsupported else PolicyErrorCode.BundleInvalid.

Definition classify_patch_validation_error (report : ValidationReport) : PolicyErrorCode :=
  if existsb (fun error => contains_text (lowercase_copy error) "patch_base_mismatch")
       (vrp_blocking_errors report)
  then PolicyErrorCode.PatchBaseMismatch else PolicyErrorCode.DryRunRejected.

Definition conflict_report_from_result (result : ConflictResolutionResult) : ValidationReport :=
  {| vrp_blocking_errors := if crr_resolved result then [] else [crr_reason_code result];
     vrp_warnings := crr_warnings result; vrp_invalid_rule_ids := crr_conflict_rule_ids result;
     vrp_field_paths := if crr_resolved result then [] else ["rules"] |}.

Definition or_default (value fallback : string) : string :=
  if is_empty value then fallback else value.

(** ** The calls *)

Record PolicyState := {
  pos_store : PolicySnapshotStore;
  pos_manager : SecurityPolicyManager;
}.

Definition with_store (store : PolicySnapshotStore) (state : PolicyState) : PolicyState :=
  {| pos_store := store; pos_manager := pos_manager state |}.

Definition with_manager (f : SecurityPolicyManager -> SecurityPolicyManager)
    (state : PolicyState) : PolicyState :=
  {| pos_store := pos_store state; pos_manager := f (pos_manager state) |}.

(** A call and what it still has to do: each step holds a lock once. *)
Inductive PolicyCall :=
| LoadPolicy (bundle : PolicyBundle)
| LoadCommit (snapshot : PolicySnapshot)
| DryRunPatch (patch : PolicyPatch)
| DryRunRemember (patch : PolicyPatch) (warnings : list string)
| ApplyPatch (patch : PolicyPatch)
| ApplyDryRun (patch : PolicyPatch)
| ApplyRemember (patch : PolicyPatch)
| ApplyBuild (patch : PolicyPatch)
| ApplyCommit (snapshot : PolicySnapshot)
| ApplyFailed (result : PolicyOpResult)
| Rollback (snapshot_id : string)
| RollbackBuild (snapshot_id : string) (target_snapshot : PolicySnapshot)
| RollbackCommit (snapshot_id : string) (snapshot : PolicySnapshot)
| Finish (rules : list PolicyRuleDescriptor) (result : PolicyOpResult).

Inductive PolicyOutcome :=
| OpResult (result : PolicyOpResult)
| Report (report : ValidationReport)
| Thrown.

Definition patch_source (patch : PolicyPatch) : string :=
  or_default (pp_patch_id patch) "policy-patch".

Definition patch_failure (code : PolicyErrorCode) (message : string) (patch : PolicyPatch)
    : PolicyOpResult :=
  make_failure code message "policy.apply_patch" (patch_source patch).

Definition front (errors : list string) : string := hd "" errors.

Section Manager.
Context {sorting : StdSort}.

(** [dry_run_patch] up to the moment it remembers the patch; the warnings, or the report
    that refuses. [None]: a dereference of nothing, or a scope without rules. *)
Definition check_patch (current_snapshot : PolicySnapshot) (patch : PolicyPatch)
    : option (list string + ValidationReport) :=
  let patch_report := validate_patch current_snapshot patch in
  if has_blocking_errors patch_report then Some (inr patch_report) else
  candidate_bundle ← apply_patch_to_snapshot current_snapshot patch;
  let bundle_report := validate_bundle candidate_bundle in
  if has_blocking_errors bundle_report then Some (inr bundle_report) else
  resolved ← resolve_conflicts candidate_bundle;
  Some (if negb (crr_resolved resolved) then inr (conflict_report_from_result resolved)
        else inl (crr_warnings resolved)).

(** The snapshot that [apply_patch] commits. *)
Definition build_patched (current_snapshot : PolicySnapshot) (patch : PolicyPatch)
    : option (PolicySnapshot + PolicyOpResult) :=
  candidate_bundle ← apply_patch_to_snapshot current_snapshot patch;
  resolved ← resolve_conflicts candidate_bundle;
  Some (if negb (crr_resolved resolved)
        then inr (patch_failure PolicyErrorCode.ConflictUnresolved (crr_reason_code resolved) patch)
        else inl (next_snapshot candidate_bundle (crr_effective_rules resolved) current_snapshot)).

Definition build_loaded (previous_snapshot : PolicySnapshot) (bundle : PolicyBundle)
    : option (PolicySnapshot + PolicyOpResult) :=
  let fail code message := inr (make_failure code message "policy.load"
    (or_default (pbu_bundle_id bundle) "policy-bundle")) in
  let report := validate_bundle bundle in
  if has_blocking_errors report
  then Some (fail (classify_bundle_validation_error report) (front (vrp_blocking_errors report))) else
  resolved ← resolve_conflicts bundle;
  Some (if negb (crr_resolved resolved)
        then fail PolicyErrorCode.ConflictUnresolved (crr_reason_code resolved)
        else inl (next_snapshot bundle (crr_effective_rules resolved) previous_snapshot)).

Definition build_rollback (current_snapshot target_snapshot : PolicySnapshot) (snapshot_id : string)
    : PolicySnapshot :=
  let generation :=
    if snapshot_is_valid current_snapshot then u64 (psn_generation current_snapshot + 1)
    else u64 (psn_generation target_snapshot + 1) in
  {| psn_snapshot_id := rollback_snapshot_id snapshot_id generation;
     psn_generation := generation; psn_version := psn_version target_snapshot;
     psn_mode := psn_mode target_snapshot;
     psn_effective_rules := psn_effective_rules target_snapshot;
     psn_created_at := psn_created_at target_snapshot;
     psn_source_chain := merge_source_chain current_snapshot ("rollback:" +:+ snapshot_id);
     psn_last_known_good_ref := psn_snapshot_id target_snapshot |}.

Definition error_message (result : PolicyOpResult) (fallback : string) : string :=
  match por_error_info result with
  | Some error_info => ed_message (ei_details error_info)
  | None => fallback
  end.

(** One step of a call: the new state, and the rest of the call or its outcome. *)
Definition call_step (call : PolicyCall) (state : PolicyState)
    : PolicyState * (PolicyCall + PolicyOutcome) :=
  let store := pos_store state in
  let manager := pos_manager state in
  match call with
  | LoadPolicy bundle =>
      (state,
       match build_loaded (pst_current store) bundle with
       | Some (inl snapshot) => inl (LoadCommit snapshot)
       | Some (inr failure) => inr (OpResult failure)
       | None => inr Thrown
       end)
  | LoadCommit snapshot =>
      let '(store, result) := commit snapshot store in
      (with_store store state,
       if negb (por_applied result) then inr (OpResult result)
       else inl (Finish (psn_effective_rules snapshot) result))
  | DryRunPatch patch =>
      (state,
       match check_patch (pst_current store) patch with
       | Some (inl warnings) => inl (DryRunRemember patch warnings)
       | Some (inr report) => inr (Report report)
       | None => inr Thrown
       end)
  | DryRunRemember patch warnings =>
      (with_manager (remember_dry_run patch) state,
       inr (Report {| vrp_blocking_errors := []; vrp_warnings := warnings;
                      vrp_invalid_rule_ids := []; vrp_field_paths := [] |}))
  | ApplyPatch patch =>
      if spm_safe_mode manager then
        (state, inr (OpResult (patch_failure PolicyErrorCode.DryRunRejected
           "policy_safe_mode_active" patch))) else
      if spm_dry_run_required manager && negb (dry_run_matches manager patch) then
        (with_manager note_patch_failure state,
         inr (OpResult (patch_failure PolicyErrorCode.DryRunRejected
           "policy_patch_dry_run_required" patch))) else
      (state, inl (ApplyDryRun patch))
  | ApplyDryRun patch =>
      (state,
       match check_patch (pst_current store) patch with
       | Some (inl _) => inl (ApplyRemember patch)
       | Some (inr report) =>
           if has_blocking_errors report
           then inl (ApplyFailed (patch_failure (classify_patch_validation_error report)
                       (front (vrp_blocking_errors report)) patch))
           else inl (ApplyBuild patch)
       | None => inr Thrown
       end)
  | ApplyRemember patch =>
      (with_manager (remember_dry_run patch) state, inl (ApplyBuild patch))
  | ApplyBuild patch =>
      (state,
       match build_patched (pst_current store) patch with
       | Some (inl snapshot) => inl (ApplyCommit snapshot)
       | Some (inr failure) => inl (ApplyFailed failure)
       | None => inr Thrown
       end)
  | ApplyCommit snapshot =>
      let '(store, result) := commit snapshot store in
      (with_store store state,
       if negb (por_applied result) then inl (ApplyFailed result)
       else inl (Finish (psn_effective_rules snapshot) result))
  | ApplyFailed result => (with_manager note_patch_failure state, inr (OpResult result))
  | Rollback snapshot_id =>
      let target_snapshot := get_by_id store snapshot_id in
      (state,
       if negb (snapshot_is_valid target_snapshot) then
         inr (OpResult (make_failure PolicyErrorCode.SnapshotNotFound "policy_snapshot_not_found"
           "policy.rollback" (or_default snapshot_id "policy-snapshot")))
       else inl (RollbackBuild snapshot_id target_snapshot))
  | RollbackBuild snapshot_id target_snapshot =>
      (state, inl (RollbackCommit snapshot_id
         (build_rollback (pst_current store) target_snapshot snapshot_id)))
  | RollbackCommit snapshot_id snapshot =>
      let '(store, result) := commit snapshot store in
      (with_store store state,
       if negb (por_applied result) then
         inr (OpResult (make_failure PolicyErrorCode.RollbackFailed
           (error_message result "policy_rollback_failed") "policy.rollback" snapshot_id))
       else inl (Finish (psn_effective_rules snapshot)
         (op_success (psn_snapshot_id snapshot) (psn_generation snapshot) true false)))
  | Finish rules result =>
      let '(manager, returned) := sync_options_from_rules rules manager in
      if returned then
        ({| pos_store := store; pos_manager := clear_dry_run (reset_patch_failures manager) |},
         inr (OpResult result))
      else ({| pos_store := store; pos_manager := manager |}, inr Thrown)
  end.

(** A call that no other comes between. *)
Fixpoint run_call (fuel : nat) (call : PolicyCall) (state : PolicyState)
    : PolicyState * (PolicyCall + PolicyOutcome) :=
  match fuel with
  | O => (state, inl call)
  | S fuel =>
      match call_step call state with
      | (state, inl call) => run_call fuel call state
      | returned => returned
      end
  end.

(** The calls of the interface. *)
Definition is_entry (call : PolicyCall) : bool :=
  match call with
  | LoadPolicy _ | DryRunPatch _ | ApplyPatch _ | Rollback _ => true
  | _ => false
  end.

(** The calls of several threads: the state and the calls under way. *)
Inductive policy_step : PolicyState * list PolicyCall -> PolicyState * list PolicyCall -> Prop :=
| policy_begin state calls call :
    is_entry call = true -> policy_step (state, calls) (state, call :: calls)
| policy_continue state calls1 call calls2 state' call' :
    call_step call state = (state', inl call') ->
    policy_step (state, calls1 ++ call :: calls2) (state', calls1 ++ call' :: calls2)
| policy_return state calls1 call calls2 state' outcome :
    call_step call state = (state', inr outcome) ->
    policy_step (state, calls1 ++ call :: calls2) (state', calls1 ++ calls2).

Definition policy_snapshot (store : PolicySnapshotStore) : PolicySnapshot :=
  if snapshot_is_valid (pst_current store) then pst_current store else pst_last_known_good store.

Definition evaluate_current (query : PolicyQueryContext) (store : PolicySnapshotStore) : PolicyDecisionRef :=
  project query (policy_snapshot store).

End Manager.

(** ** The store keeps the end of a log *)

(** The last [n] snapshots of the log. *)
Definition retained (n : nat) (log : list PolicySnapshot) : list PolicySnapshot :=
  drop (length log - n) log.

Lemma retained_length n log : length (retained n log) = Nat.min n (length log).
Proof. unfold retained. rewrite length_drop. lia. Qed.

Lemma retained_snoc n log s :
  (1 <= n)%nat ->
  retained n (log ++ [s]) =
    (if (length (retained n log) <? n)%nat then retained n log else tail (retained n log)) ++ [s].
Proof.
  intros Hn. rewrite retained_length. unfold retained. rewrite length_app. simpl.
  destruct (Nat.ltb_spec (Nat.min n (length log)) n).
  - replace (length log - n)%nat with 0%nat by lia.
    by replace (length log + 1 - n)%nat with 0%nat by lia.
  - replace (length log + 1 - n)%nat with (S (length log - n)) by lia.
    rewrite drop_app_le by lia. f_equal. generalize (length log - n)%nat. clear.
    induction log as [|x log IH]; intros k; [by destruct k|]. destruct k; [done|]. apply IH.
Qed.

Definition generations_increase : list PolicySnapshot -> Prop :=
  StronglySorted (fun s1 s2 => psn_generation s1 < psn_generation s2).

(** The store's history and map hold the snapshots [kept]. *)
Definition holds (store : PolicySnapshotStore) (kept : list PolicySnapshot) : Prop :=
  pst_history_order store = psn_snapshot_id <$> kept /\
  NoDup (psn_snapshot_id <$> kept) /\
  forall id s, pst_snapshots_by_id store !! id = Some s <-> s ∈ kept /\ psn_snapshot_id s = id.

(** The store is that of the log: the log's last snapshot is in force, and its last ones
    can be looked up. *)
Record store_log (store : PolicySnapshotStore) (log : list PolicySnapshot) : Prop := {
  sl_bound : 1 <= pst_max_history_snapshots store;
  sl_holds : holds store (retained (Z.to_nat (pst_max_history_snapshots store)) log);
  sl_current : pst_current store = default empty_policy_snapshot (last log);
  sl_good : pst_last_known_good store = default empty_policy_snapshot (last log);
  sl_valid : Forall (fun s => snapshot_is_valid s = true) log;
  sl_increase : generations_increase log;
}.

Lemma new_store_log n : 0 <= n -> store_log (new_store n) [].
Proof.
  intros Hn. constructor; try done; simpl.
  - unfold normalize_max_history_snapshots. destruct (Z.eqb_spec n 0); lia.
  - split_and!; [done|constructor|]. intros id s.
    assert (pst_snapshots_by_id (new_store n) !! id = None) as -> by apply lookup_empty.
    split; [done|]. by intros [?%elem_of_nil _].
  - constructor.
Qed.

Lemma generations_snoc log s :
  generations_increase log -> (forall s', s' ∈ log -> psn_generation s' < psn_generation s) ->
  generations_increase (log ++ [s]).
Proof.
  induction 1 as [|x log Hs IH Hx]; intros Hlt; simpl.
  - repeat constructor.
  - constructor; [apply IH; intros; apply Hlt; by right|]. apply Forall_app. split; [done|].
    constructor; [|done]. apply Hlt. by left.
Qed.

(** The last generation of the log is the greatest. *)
Lemma generations_last log s g :
  generations_increase log -> last log = Some s ->
  psn_generation s < g <-> forall s', s' ∈ log -> psn_generation s' < g.
Proof.
  intros Hinc Hlast. split.
  - intros Hg s' Hin. revert s Hlast Hg. induction Hinc as [|x log Hs IH Hx]; [by apply elem_of_nil in Hin|].
    intros s Hlast Hg. destruct log as [|y log].
    + injection Hlast as <-. by apply list_elem_of_singleton in Hin as ->.
    + rewrite last_cons_cons in Hlast. apply elem_of_cons in Hin as [->|Hin]; [|by eapply IH].
      rewrite Forall_forall in Hx. specialize (Hx s (last_Some_elem_of _ _ Hlast)). lia.
  - intros Hall. apply Hall. by apply last_Some_elem_of.
Qed.

Lemma trim_kept bound id s kept snapshots :
  1 <= bound -> Z.of_nat (length kept) <= bound -> NoDup (psn_snapshot_id <$> kept) ->
  id ∉ psn_snapshot_id <$> kept ->
  trim_history bound id id ((psn_snapshot_id <$> kept) ++ [id]) (<[id := s]> snapshots) =
  if Z.of_nat (length kept) <? bound
  then ((psn_snapshot_id <$> kept) ++ [id], <[id := s]> snapshots)
  else ((psn_snapshot_id <$> tail kept) ++ [id],
        <[id := s]> (match kept with x :: _ => delete (psn_snapshot_id x) snapshots | [] => snapshots end)).
Proof.
  intros Hb Hlen Hnd Hid. destruct kept as [|x kept]; cbn [fmap list_fmap app trim_history].
  - destruct (Z.ltb_spec bound (Z.of_nat (length [id]))); [simpl in *; lia|].
    destruct (Z.ltb_spec (Z.of_nat (@length PolicySnapshot [])) bound); [done|simpl in *; lia].
  - rewrite fmap_cons, not_elem_of_cons in Hid. destruct Hid as [Hne Hid].
    rewrite length_cons, length_app, length_fmap. simpl length. simpl length in Hlen.
    destruct (Z.ltb_spec (Z.of_nat (S (length kept))) bound).
    + destruct (Z.ltb_spec bound (Z.of_nat (S (length kept + 1)))); [lia|done].
    + destruct (Z.ltb_spec bound (Z.of_nat (S (length kept + 1)))); [|lia].
      rewrite !(bool_decide_false (id = psn_snapshot_id x)) by done. cbn [orb].
      rewrite delete_insert_ne by done. cbn [tail].
      assert (forall l, Z.of_nat (length l) <= bound ->
        forall m, trim_history bound id id l m = (l, m)) as Hstop.
      { intros [|y l] Hl m; [done|]. cbn [trim_history].
        destruct (Z.ltb_spec bound (Z.of_nat (length (y :: l)))); [lia|done]. }
      apply Hstop. rewrite length_app, length_fmap. simpl. lia.
Qed.

Lemma holds_insert (snapshots : gmap string PolicySnapshot) kept s :
  (forall id s', snapshots !! id = Some s' <-> s' ∈ kept /\ psn_snapshot_id s' = id) ->
  psn_snapshot_id s ∉ psn_snapshot_id <$> kept ->
  forall id s', <[psn_snapshot_id s := s]> snapshots !! id = Some s' <->
    s' ∈ kept ++ [s] /\ psn_snapshot_id s' = id.
Proof.
  intros Hm Hs id s'. rewrite lookup_insert_Some, Hm, elem_of_app, list_elem_of_singleton.
  split.
  - intros [[<- <-]|(Hne & Hin & <-)]; auto.
  - intros [[Hin | ->] <-]; [|by left]. right. split_and!; [|done..].
    intros E. apply Hs. rewrite E. by apply list_elem_of_fmap_2.
Qed.

Lemma holds_tail (snapshots : gmap string PolicySnapshot) x kept :
  NoDup (psn_snapshot_id <$> x :: kept) ->
  (forall id s', snapshots !! id = Some s' <-> s' ∈ x :: kept /\ psn_snapshot_id s' = id) ->
  forall id s', delete (psn_snapshot_id x) snapshots !! id = Some s' <->
    s' ∈ kept /\ psn_snapshot_id s' = id.
Proof.
  rewrite fmap_cons, NoDup_cons. intros [Hx _] Hm id s'.
  rewrite lookup_delete_Some, Hm, elem_of_cons. split.
  - intros (Hne & [->|Hin] & <-); done.
  - intros [Hin <-]. split_and!; auto. intros E. apply Hx. rewrite E. by apply list_elem_of_fmap_2.
Qed.

Lemma store_log_current store log :
  store_log store log ->
  (snapshot_is_valid (pst_current store) = false /\ log = []) \/
  (snapshot_is_valid (pst_current store) = true /\ last log = Some (pst_current store)).
Proof.
  intros H. pose proof (sl_current _ _ H) as Hc. destruct (last log) as [s|] eqn:E.
  - right. simpl in Hc. rewrite Hc. split; [|done]. pose proof (sl_valid _ _ H) as Hv.
    rewrite Forall_forall in Hv. by apply Hv, last_Some_elem_of.
  - left. rewrite Hc. split; [done|]. by apply last_None.
Qed.

Lemma store_log_newer store log g :
  store_log store log ->
  snapshot_is_valid (pst_current store) && (g <=? psn_generation (pst_current store)) = false <->
  forall s', s' ∈ log -> psn_generation s' < g.
Proof.
  intros H. destruct (store_log_current _ _ H) as [[-> ->]|[-> Hlast]]; cbn [andb].
  - split; [|done]. intros _ s' []%elem_of_nil.
  - rewrite <-(generations_last _ _ g (sl_increase _ _ H) Hlast).
    rewrite Z.leb_nle. lia.
Qed.

Lemma store_log_known store log id :
  store_log store log ->
  is_Some (pst_snapshots_by_id store !! id) <->
  id ∈ psn_snapshot_id <$> retained (Z.to_nat (pst_max_history_snapshots store)) log.
Proof.
  intros H. destruct (sl_holds _ _ H) as (_ & _ & Hm). rewrite list_elem_of_fmap. split.
  - intros [s [Hin <-]%Hm]. by exists s.
  - intros (s & -> & Hin). exists s. by apply Hm.
Qed.

(** What [commit] keeps in the history and the map. *)
Lemma holds_commit store log s :
  store_log store log ->
  let bound := pst_max_history_snapshots store in
  psn_snapshot_id s ∉ psn_snapshot_id <$> retained (Z.to_nat bound) log ->
  let '(history_order, snapshots_by_id) :=
    trim_history bound (psn_snapshot_id s) (psn_snapshot_id s)
      (pst_history_order store ++ [psn_snapshot_id s])
      (<[psn_snapshot_id s := s]> (pst_snapshots_by_id store)) in
  let kept := retained (Z.to_nat bound) (log ++ [s]) in
  history_order = psn_snapshot_id <$> kept /\ NoDup (psn_snapshot_id <$> kept) /\
  forall id s', snapshots_by_id !! id = Some s' <-> s' ∈ kept /\ psn_snapshot_id s' = id.
Proof.
  intros H. cbv zeta. pose proof (sl_bound _ _ H) as Hb.
  destruct (sl_holds _ _ H) as (-> & Hnd & Hm).
  pose proof (retained_length (Z.to_nat (pst_max_history_snapshots store)) log) as Hlen.
  rewrite retained_snoc by lia.
  set (kept := retained (Z.to_nat (pst_max_history_snapshots store)) log) in *. intros Hid.
  rewrite trim_kept by (done || lia).
  destruct (Z.ltb_spec (Z.of_nat (length kept)) (pst_max_history_snapshots store)),
    (Nat.ltb_spec (length kept) (Z.to_nat (pst_max_history_snapshots store))); try lia.
  - rewrite fmap_app. split_and!; [done| |by apply holds_insert].
    apply NoDup_app. split_and!; [done| |apply NoDup_singleton].
    by intros x Hx ->%list_elem_of_singleton.
  - destruct kept as [|x kept']; [simpl in *; lia|]. cbn [tail].
    rewrite fmap_app. pose proof (holds_tail _ _ _ Hnd Hm) as Hm'.
    rewrite fmap_cons, NoDup_cons in Hnd. destruct Hnd as [Hx Hnd].
    rewrite fmap_cons, not_elem_of_cons in Hid. destruct Hid as [_ Hid].
    split_and!; [done| |by apply holds_insert].
    apply NoDup_app. split_and!; [done| |apply NoDup_singleton].
    by intros y Hy ->%list_elem_of_singleton.
Qed.

(** A commit extends the log by the snapshot it is given, or refuses it and leaves the log. *)
Lemma commit_log store log s :
  store_log store log ->
  let n := normalize_snapshot store s in
  (por_applied (commit s store).2 = true <->
     snapshot_is_valid n = true /\ (forall s', s' ∈ log -> psn_generation s' < psn_generation n) /\
     (psn_snapshot_id n ∉ psn_snapshot_id <$> retained (Z.to_nat (pst_max_history_snapshots store)) log) /\
     pst_pending_commit_failure_reason store = None) /\
  store_log (commit s store).1 (if por_applied (commit s store).2 then log ++ [n] else log).
Proof.
  intros H. cbv zeta. unfold commit.
  pose proof (store_log_newer _ _ (psn_generation (normalize_snapshot store s)) H) as Hnew.
  pose proof (store_log_known _ _ (psn_snapshot_id (normalize_snapshot store s)) H) as Hknown.
  set (n := normalize_snapshot store s) in *. clearbody n.
  destruct (snapshot_is_valid n) eqn:Hv; cbn [negb]; [|by split; [split; [|intros (? & _)]|]].
  destruct (_ && _) eqn:Hg.
  { split; [|done]. split; [done|]. intros (_ & Hlt & _). by apply Hnew in Hlt. }
  case_bool_decide as Hk.
  { split; [|done]. split; [done|]. intros (_ & _ & Hid & _). destruct Hid. by apply Hknown. }
  destruct (pst_pending_commit_failure_reason store) eqn:Hp.
  { split; [split; [done|by intros (_ & _ & _ & ?)]|]. by destruct H. }
  rewrite Hknown in Hk. pose proof (holds_commit _ _ _ H Hk) as Hh.
  destruct (trim_history _ _ _ _ _) as [history_order snapshots_by_id].
  simpl. split; [split; [|done]; intros _; split_and!; try done; by apply Hnew|].
  constructor; simpl.
  - apply (sl_bound _ _ H).
  - exact Hh.
  - by rewrite last_snoc.
  - by rewrite last_snoc.
  - apply Forall_app. split; [apply (sl_valid _ _ H)|by constructor].
  - apply generations_snoc; [apply (sl_increase _ _ H)|by apply Hnew].
Qed.

(** ** The manager's own state *)

(** Safe mode is on as soon as the failures reach the threshold. *)
Definition manager_ok (manager : SecurityPolicyManager) : Prop :=
  1 <= spm_safe_mode_threshold manager < 2 ^ 32 /\
  in_u32 (spm_consecutive_patch_failures manager) /\
  (spm_safe_mode manager = false ->
   spm_consecutive_patch_failures manager < spm_safe_mode_threshold manager).

Lemma threshold_normalized z : in_u32 z -> 1 <= normalize_safe_mode_threshold z < 2 ^ 32.
Proof. unfold in_u32, normalize_safe_mode_threshold. destruct (Z.eqb_spec z 0); lia. Qed.

Lemma note_patch_failure_ok manager : manager_ok manager -> manager_ok (note_patch_failure manager).
Proof.
  intros (Ht & Hf & Hs). unfold manager_ok, note_patch_failure. simpl.
  split; [done|]. split; [apply u32_in|].
  destruct (Z.leb_spec (spm_safe_mode_threshold manager) (u32 (spm_consecutive_patch_failures manager + 1)));
    [done|lia].
Qed.

Lemma sync_options_ok rules manager :
  manager_ok manager ->
  manager_ok (sync_options_from_rules rules manager).1 \/
  (1 <= spm_safe_mode_threshold (sync_options_from_rules rules manager).1 < 2 ^ 32 /\
   (sync_options_from_rules rules manager).2 = true).
Proof.
  intros (Ht & Hf & Hs). unfold sync_options_from_rules.
  destruct (patch_gate_condition rules "dry_run_required");
    (destruct (patch_gate_condition rules "safe_mode_threshold") as [value|]; [|by left]);
    (destruct (is_unsigned_integer value); [|by left]);
    (destruct (stoull value); [|by left]); right; simpl; split; try done;
    apply threshold_normalized, u32_in.
Qed.

Lemma reset_ok manager :
  1 <= spm_safe_mode_threshold manager < 2 ^ 32 ->
  manager_ok (clear_dry_run (reset_patch_failures manager)).
Proof. intros Ht. unfold manager_ok. simpl. unfold in_u32. lia. Qed.

(** ** Every interleaving *)

(** The policy as the calls leave it: the store is that of a log, and safe mode is on when
    the failures say so. *)
Definition policy_ok (log : list PolicySnapshot) (state : PolicyState) : Prop :=
  store_log (pos_store state) log /\ manager_ok (pos_manager state).

Definition new_policy (max_history_snapshots : Z) (dry_run_required : bool)
    (safe_mode_threshold : Z) : PolicyState :=
  {| pos_store := new_store max_history_snapshots;
     pos_manager := new_manager dry_run_required safe_mode_threshold |}.

Lemma new_policy_ok max_history dry_run_required threshold :
  0 <= max_history -> in_u32 threshold ->
  policy_ok [] (new_policy max_history dry_run_required threshold).
Proof.
  intros Hm Ht. split; [by apply new_store_log|].
  pose proof (threshold_normalized _ Ht). unfold manager_ok, in_u32. simpl. lia.
Qed.

(** At most one snapshot is added to the log. *)
Definition extends (log log' : list PolicySnapshot) : Prop :=
  log' = log \/ exists s, log' = log ++ [s].

Lemma commit_extends store log s :
  store_log store log ->
  exists log', store_log (commit s store).1 log' /\ extends log log'.
Proof.
  intros H. destruct (commit_log _ _ s H) as [_ Hlog]. eexists. split; [exact Hlog|].
  unfold extends. destruct (por_applied _); eauto.
Qed.

Section Interleaving.
Context {sorting : StdSort}.

Lemma call_step_ok log call state :
  policy_ok log state ->
  exists log', policy_ok log' (call_step call state).1 /\ extends log log'.
Proof.
  intros [Hs Hm]. assert (extends log log) as Hsame by by left.
  assert (forall s, exists log', store_log (commit s (pos_store state)).1 log' /\ extends log log')
    as Hcommit by (intros; by apply commit_extends).
  destruct call as [ |s| | | | | | |s| | | |id s|rules result]; cbn [call_step];
    try solve [exists log; done].
  - destruct (Hcommit s) as (log' & H & ?). destruct (commit s (pos_store state)) as [store result].
    by exists log'.
  - destruct (spm_safe_mode (pos_manager state)); [exists log; by split; [split|]|].
    destruct (_ && _); exists log; (split; [split|]; try done). by apply note_patch_failure_ok.
  - destruct (Hcommit s) as (log' & H & ?). destruct (commit s (pos_store state)) as [store result].
    by exists log'.
  - exists log. split; [split; [done|]|done]. by apply note_patch_failure_ok.
  - destruct (Hcommit s) as (log' & H & ?). destruct (commit s (pos_store state)) as [store result].
    by exists log'.
  - exists log. split; [|done]. pose proof (sync_options_ok rules _ Hm) as H.
    destruct (sync_options_from_rules rules (pos_manager state)) as [manager returned].
    simpl in H. split; [by destruct returned|]. destruct returned; simpl.
    + apply reset_ok. destruct H as [[? _]|[? _]]; done.
    + by destruct H as [?|[_ ?]].
Qed.

Lemma policy_step_ok log config config' :
  policy_ok log config.1 -> policy_step config config' ->
  exists log', policy_ok log' config'.1 /\ extends log log'.
Proof.
  intros Hok Hstep. destruct Hstep as [state calls call _|state c1 call c2 state' call' E|
    state c1 call c2 state' outcome E]; simpl in *.
  - exists log. split; [done|]. by left.
  - pose proof (call_step_ok log call state Hok) as H. by rewrite E in H.
  - pose proof (call_step_ok log call state Hok) as H. by rewrite E in H.
Qed.

Lemma policy_reachable_ok log config config' :
  policy_ok log config.1 -> rtc policy_step config config' ->
  exists log' added, policy_ok log' config'.1 /\ log' = log ++ added.
Proof.
  intros Hok Hsteps. revert log Hok. induction Hsteps as [config|c1 c2 c3 Hstep _ IH]; intros log Hok.
  - exists log, []. by rewrite app_nil_r.
  - destruct (policy_step_ok _ _ _ Hok Hstep) as (log2 & Hok2 & Hext).
    destruct (IH _ Hok2) as (log3 & added & Hok3 & ->). destruct Hext as [->|[s ->]].
    + by exists (log ++ added), added.
    + exists ((log ++ [s]) ++ added), (s :: added). split; [done|]. by rewrite <-(assoc_L (++)).
Qed.

(** ** A call alone *)

(** The steps a call still takes at most. *)
Definition call_rank (call : PolicyCall) : nat :=
  match call with
  | ApplyPatch _ => 6 | ApplyDryRun _ => 5 | ApplyRemember _ => 4 | ApplyBuild _ => 3
  | LoadPolicy _ => 3 | Rollback _ => 4 | RollbackBuild _ _ => 3
  | ApplyCommit _ | LoadCommit _ | RollbackCommit _ _ | DryRunPatch _ => 2
  | ApplyFailed _ | DryRunRemember _ _ | Finish _ _ => 1
  end.

Lemma call_step_rank call state state' call' :
  call_step call state = (state', inl call') -> (call_rank call' < call_rank call)%nat.
Proof.
  destruct call; cbn [call_step];
    repeat (case_match; try discriminate); intros [= <- <-]; simpl; lia.
Qed.

Lemma run_call_returns fuel call state :
  (call_rank call <= fuel)%nat ->
  exists state' outcome, run_call fuel call state = (state', inr outcome).
Proof.
  revert call state. induction fuel as [|fuel IH]; intros call state Hf.
  - by destruct call; simpl in Hf; lia.
  - cbn [run_call]. destruct (call_step call state) as [state' [call'|outcome]] eqn:E; [|by eauto].
    apply IH. apply call_step_rank in E. lia.
Qed.

End Interleaving.

(** ** Patches *)

Lemma commit_applied_current s store :
  por_applied (commit s store).2 = true ->
  pst_current (commit s store).1 = normalize_snapshot store s /\
  snapshot_is_valid (normalize_snapshot store s) = true /\
  (snapshot_is_valid (pst_current store) = true ->
   psn_generation (pst_current store) < psn_generation s).
Proof.
  assert (psn_generation (normalize_snapshot store s) = psn_generation s) as Hgen
    by (unfold normalize_snapshot; by case_match).
  unfold commit. destruct (snapshot_is_valid (normalize_snapshot store s)) eqn:Hv; cbn [negb]; [|done].
  destruct (snapshot_is_valid (pst_current store) && _) eqn:Hg; [done|].
  case_bool_decide; [done|]. destruct (pst_pending_commit_failure_reason store); [done|].
  destruct (trim_history _ _ _ _ _). simpl. intros _. split_and!; [done..|].
  intros Hc. rewrite Hc, Hgen in Hg. cbn [andb] in Hg. apply Z.leb_nle in Hg. lia.
Qed.

Lemma commit_refused_current s store :
  por_applied (commit s store).2 = false -> pst_current (commit s store).1 = pst_current store.
Proof.
  unfold commit. case_match; [done|]. case_match; [done|]. case_match; [done|].
  case_match; [done|]. case_match. done.
Qed.

(** A patch that the check lets pass has the generation it is for. *)
Definition patch_checked (snapshot : PolicySnapshot) (patch : PolicyPatch) : Prop :=
  has_blocking_errors (validate_patch snapshot patch) = false.

Lemma operations_errors_kept operations i report :
  has_blocking_errors report = true ->
  has_blocking_errors (validate_operations operations i report) = true.
Proof.
  revert i report. induction operations as [|op operations IH]; intros i report H; [done|].
  apply IH. unfold validate_patch_operation.
  destruct (ppo_operation op); try destruct (ppo_rule op);
    rewrite ?append_if_errors, ?append_error_errors, ?H, ?orb_true_r; try done;
    by rewrite rule_errors, H, orb_true_r.
Qed.

Lemma checked_patch_base snapshot patch :
  patch_checked snapshot patch ->
  snapshot_is_valid snapshot = true /\ pp_base_generation patch = psn_generation snapshot.
Proof.
  unfold patch_checked, validate_patch.
  destruct (snapshot_is_valid snapshot) eqn:Hv; cbn [negb]; [|by rewrite append_error_errors].
  intros H. split; [done|]. apply Z.eqb_eq.
  destruct (pp_base_generation patch =? psn_generation snapshot) eqn:Hb; [done|].
  rewrite operations_errors_kept in H; [done|].
  rewrite !append_if_errors, orb_true_r. cbn [negb]. by rewrite !orb_true_r.
Qed.

(** The snapshot carries the rules that the bundle resolves to. *)
Definition carries_resolution {sorting : StdSort} (bundle : PolicyBundle)
    (snapshot : PolicySnapshot) : Prop :=
  exists resolved, resolve_conflicts bundle = Some resolved /\ crr_resolved resolved = true /\
    psn_effective_rules snapshot = crr_effective_rules resolved.

Lemma next_generation_after s t :
  snapshot_is_valid s = true -> 0 <= psn_generation s ->
  psn_generation t = next_generation s -> psn_generation s < psn_generation t ->
  psn_generation t = psn_generation s + 1.
Proof.
  intros Hv Hs -> . unfold next_generation. rewrite Hv. unfold u64. intros Hlt.
  assert (psn_generation s < 2 ^ 64) by
    (pose proof (Z.mod_pos_bound (psn_generation s + 1) (2 ^ 64)); lia).
  destruct (decide (psn_generation s + 1 = 2 ^ 64)) as [E|].
  - rewrite E, Z.mod_same in Hlt by done. lia.
  - apply Z.mod_small. lia.
Qed.

Section Patches.
Context {sorting : StdSort}.

(** The patch is in force: it is for the generation before, and its rules are resolved. *)
Definition put_in_force (patch : PolicyPatch) (state state' : PolicyState) : Prop :=
  let current := pst_current (pos_store state) in
  let current' := pst_current (pos_store state') in
  patch_checked current patch /\
  psn_generation current' = pp_base_generation patch + 1 /\
  exists bundle, apply_patch_to_snapshot current patch = Some bundle /\
    carries_resolution bundle current'.

(** What a patch does that safe mode and the dry run let through. *)
Definition tried_outcome (patch : PolicyPatch) (state state' : PolicyState)
    (outcome : PolicyOutcome) : Prop :=
  match outcome with
  | OpResult result =>
      if por_applied result
      then put_in_force patch state state' /\ spm_safe_mode (pos_manager state') = false /\
           spm_consecutive_patch_failures (pos_manager state') = 0
      else pst_current (pos_store state') = pst_current (pos_store state) /\
           spm_consecutive_patch_failures (pos_manager state')
           = u32 (spm_consecutive_patch_failures (pos_manager state) + 1)
  | Report _ => False
  | Thrown => put_in_force patch state state'
  end.

Lemma build_patched_inl current patch next :
  build_patched current patch = Some (inl next) ->
  exists bundle resolved, apply_patch_to_snapshot current patch = Some bundle /\
    resolve_conflicts bundle = Some resolved /\ crr_resolved resolved = true /\
    next = next_snapshot bundle (crr_effective_rules resolved) current.
Proof.
  unfold build_patched. destruct (apply_patch_to_snapshot current patch) as [bundle|]; [|done]. simpl.
  destruct (resolve_conflicts bundle) as [resolved|] eqn:E; [|done]. simpl.
  destruct (crr_resolved resolved) eqn:Hr; [|done]. cbn [negb]. intros [= <-]. by eauto 10.
Qed.

Lemma normalized_parts store s :
  psn_generation (normalize_snapshot store s) = psn_generation s /\
  psn_effective_rules (normalize_snapshot store s) = psn_effective_rules s.
Proof. unfold normalize_snapshot. by case_match. Qed.

(** The last steps of [apply_patch], from a patch that was checked. *)
Lemma commit_patched current patch next store :
  0 <= psn_generation current -> snapshot_is_valid current = true ->
  pst_current store = current -> build_patched current patch = Some (inl next) ->
  por_applied (commit next store).2 = true ->
  psn_generation (pst_current (commit next store).1) = psn_generation current + 1 /\
  exists bundle, apply_patch_to_snapshot current patch = Some bundle /\
    carries_resolution bundle (pst_current (commit next store).1).
Proof.
  intros Hg Hv <- (bundle & resolved & Hb & Hr & Hok & ->)%build_patched_inl Happ.
  destruct (commit_applied_current _ _ Happ) as (-> & _ & Hlt). specialize (Hlt Hv).
  destruct (normalized_parts store (next_snapshot bundle (crr_effective_rules resolved)
    (pst_current store))) as [-> Hrules]. split.
  - by apply next_generation_after.
  - exists bundle. split; [done|]. exists resolved. by rewrite Hrules.
Qed.

End Patches.

Definition operation_complete (operation : PolicyPatchOperation) : Prop :=
  match ppo_operation operation with
  | PolicyPatchOperationType.AddRule | PolicyPatchOperationType.ReplaceRule =>
      is_Some (ppo_rule operation)
  | _ => True
  end.

Lemma checked_operations operations i report :
  has_blocking_errors (validate_operations operations i report) = false ->
  Forall operation_complete operations.
Proof.
  revert i report. induction operations as [|op operations IH]; intros i report H; [done|].
  constructor; [|by eapply IH]. unfold operation_complete.
  assert (ppo_rule op = None ->
    (ppo_operation op = PolicyPatchOperationType.AddRule \/
     ppo_operation op = PolicyPatchOperationType.ReplaceRule) -> False) as Hrule.
  { intros Hn Hop. cbn [validate_operations] in H. rewrite operations_errors_kept in H; [done|].
    unfold validate_patch_operation. destruct Hop as [-> | ->]; rewrite Hn; apply append_error_errors. }
  destruct (ppo_operation op); try done; destruct (ppo_rule op); eauto; destruct Hrule; auto.
Qed.

Lemma complete_operations_apply operations state :
  Forall operation_complete operations -> is_Some (apply_operations state operations).
Proof.
  intros H. revert state. induction H as [|op operations Hop _ IH]; intros state; [by eexists|].
  cbn [apply_operations]. assert (is_Some (apply_operation state op)) as [state' ->]; [|apply IH].
  destruct state as [rules mode]. unfold apply_operation, operation_complete in *.
  destruct (ppo_operation op); try (by eexists); destruct Hop as [rule ->]; by eexists.
Qed.

Lemma checked_patch_applies snapshot patch :
  patch_checked snapshot patch -> is_Some (apply_patch_to_snapshot snapshot patch).
Proof.
  intros H. pose proof (checked_patch_base _ _ H) as [Hv _].
  unfold patch_checked, validate_patch in H. rewrite Hv in H. cbn [negb] in H.
  apply checked_operations in H. unfold apply_patch_to_snapshot.
  destruct (complete_operations_apply _ (psn_effective_rules snapshot, psn_mode snapshot) H)
    as [state ->]. by eexists.
Qed.

Section Checked.
Context {sorting : StdSort}.

(** The check answers; a report it gives refuses the patch. *)
Lemma check_patch_spec snapshot patch :
  (exists warnings, check_patch snapshot patch = Some (inl warnings) /\ patch_checked snapshot patch) \/
  (exists report, check_patch snapshot patch = Some (inr report) /\ has_blocking_errors report = true).
Proof.
  unfold check_patch. destruct (has_blocking_errors (validate_patch snapshot patch)) eqn:E; [by eauto|].
  destruct (checked_patch_applies _ _ E) as [bundle ->]. cbn [mbind option_bind].
  destruct (has_blocking_errors (validate_bundle bundle)) eqn:Eb; [by eauto|].
  destruct (resolve_conflicts_spec bundle) as (resolved & -> & _). cbn [mbind option_bind].
  unfold conflict_report_from_result. destruct (crr_resolved resolved) eqn:Er; cbn [negb]; eauto.
Qed.

Lemma build_patched_spec snapshot patch :
  patch_checked snapshot patch -> is_Some (build_patched snapshot patch).
Proof.
  intros [bundle E]%checked_patch_applies. unfold build_patched. rewrite E. cbn [mbind option_bind].
  destruct (resolve_conflicts_spec bundle) as (resolved & -> & _). by eexists.
Qed.

Lemma build_patched_inr snapshot patch failure :
  build_patched snapshot patch = Some (inr failure) -> por_applied failure = false.
Proof.
  unfold build_patched. destruct (apply_patch_to_snapshot snapshot patch) as [bundle|]; [|done]. simpl.
  destruct (resolve_conflicts bundle) as [resolved|]; [|done]. simpl.
  destruct (crr_resolved resolved); [done|]. by intros [= <-].
Qed.

End Checked.

Section Alone.
Context {sorting : StdSort}.

Lemma commit_result_applied s store :
  let '(store', result) := commit s store in
  store' = (commit s store).1 /\ por_applied result = por_applied (commit s store).2.
Proof. by destruct (commit s store). Qed.

Lemma failed_outcome patch state result :
  por_applied result = false ->
  forall state', pst_current (pos_store state') = pst_current (pos_store state) ->
    pos_manager state' = pos_manager state ->
    exists state'' outcome, run_call 1 (ApplyFailed result) state' = (state'', inr outcome) /\
      tried_outcome patch state state'' outcome.
Proof.
  intros Hr state' Hc Hm. eexists _, _. split; [reflexivity|]. simpl. rewrite Hr, Hm. done.
Qed.

Lemma run_apply_build patch state :
  0 <= psn_generation (pst_current (pos_store state)) ->
  patch_checked (pst_current (pos_store state)) patch ->
  exists state' outcome, run_call 3 (ApplyBuild patch) state = (state', inr outcome) /\
    tried_outcome patch state state' outcome.
Proof.
  intros Hg Hchecked. pose proof (checked_patch_base _ _ Hchecked) as [Hv Hbase].
  destruct (build_patched_spec _ _ Hchecked) as [[next|failure] Hb].
  - remember 2%nat as two eqn:E2. cbn [run_call call_step]. rewrite Hb. subst two.
    remember 1%nat as one eqn:E1. cbn [run_call call_step]. subst one.
    pose proof (commit_patched _ _ _ _ Hg Hv eq_refl Hb) as Hdone.
    pose proof (commit_refused_current next (pos_store state)) as Hrefused.
    destruct (commit next (pos_store state)) as [store result]. simpl in Hdone, Hrefused.
    destruct (por_applied result) eqn:Hr; cbn [negb].
    + specialize (Hdone eq_refl). cbn [run_call call_step].
      destruct (sync_options_from_rules _ _) as [manager [|]]; (eexists _, _; split; [reflexivity|]);
        unfold tried_outcome; rewrite ?Hr; unfold put_in_force; simpl; rewrite Hbase; tauto.
    + apply failed_outcome; [done| |done]. by apply Hrefused.
  - apply build_patched_inr in Hb as Hr. remember 2%nat as two eqn:E2. cbn [run_call call_step].
    rewrite Hb. subst two. cbn [run_call call_step]. eexists _, _. split; [reflexivity|].
    simpl. by rewrite Hr.
Qed.

Lemma run_apply_dry_run patch state :
  0 <= psn_generation (pst_current (pos_store state)) ->
  exists state' outcome, run_call 5 (ApplyDryRun patch) state = (state', inr outcome) /\
    tried_outcome patch state state' outcome.
Proof.
  intros Hg. remember 4%nat as four eqn:E4. cbn [run_call call_step]. subst four.
  destruct (check_patch_spec (pst_current (pos_store state)) patch)
    as [(warnings & -> & Hchecked)|(report & -> & Hreport)].
  - remember 3%nat as three eqn:E3. cbn [run_call call_step]. subst three.
    destruct (run_apply_build patch (with_manager (remember_dry_run patch) state) Hg Hchecked)
      as (state' & outcome & -> & H). eexists _, _. split; [reflexivity|]. exact H.
  - rewrite Hreport. eexists _, _. split; [reflexivity|]. done.
Qed.

End Alone.

(** ** Schedules *)

Section Schedules.
Context {sorting : StdSort}.

(** The calls under way, stepped in the order of the schedule. *)
Fixpoint run_schedule (schedule : list nat) (config : PolicyState * list PolicyCall)
    : PolicyState * list PolicyCall :=
  match schedule with
  | [] => config
  | i :: schedule =>
      let '(state, calls) := config in
      match calls !! i with
      | None => config
      | Some call =>
          run_schedule schedule
            (match call_step call state with
             | (state, inl call) => (state, take i calls ++ call :: drop (S i) calls)
             | (state, inr _) => (state, take i calls ++ drop (S i) calls)
             end)
      end
  end.

Lemma run_schedule_steps schedule config : rtc policy_step config (run_schedule schedule config).
Proof.
  revert config. induction schedule as [|i schedule IH]; intros [state calls]; [done|].
  cbn [run_schedule]. destruct (calls !! i) as [call|] eqn:E; [|done].
  eapply rtc_l; [|apply IH]. rewrite <-(take_drop_middle calls i call E) at 1.
  destruct (call_step call state) as [state' [call'|outcome]] eqn:Ec.
  - by apply policy_continue.
  - by eapply policy_return.
Qed.

Lemma begin_calls calls state :
  forallb is_entry calls = true -> rtc policy_step (state, []) (state, calls).
Proof.
  induction calls as [|call calls IH]; [done|]. simpl. rewrite andb_true_iff. intros [Hc Hcs].
  eapply rtc_r; [by apply IH|by apply policy_begin].
Qed.

End Schedules.

(** ** Theorems *)

(** C34. However the calls of the threads interleave, the store is that of a log of valid
    snapshots whose generations increase: the last is in force and known good, the last ones
    up to the bound can be looked up, and a step adds at most one. Safe
    mode is on whenever the failures have reached the threshold. *)
Theorem policy_history_kept (sorting : StdSort) max_history dry_run_required threshold config :
  0 <= max_history -> in_u32 threshold ->
  rtc policy_step (new_policy max_history dry_run_required threshold, []) config ->
  exists log, policy_ok log config.1 /\
    forall config', policy_step config config' ->
      exists log', policy_ok log' config'.1 /\ extends log log'.
Proof.
  intros Hm Ht Hsteps.
  destruct (policy_reachable_ok [] (new_policy max_history dry_run_required threshold, []) _ (new_policy_ok _ dry_run_required _ Hm Ht) Hsteps)
    as (log & added & Hok & _).
  exists log. split; [done|]. intros config' Hstep. by eapply policy_step_ok.
Qed.

(** A commit adds the snapshot exactly when it is valid, newer than every one of the log and
    its id is none of those retained; else nothing is committed. *)
Theorem policy_commit_exact store log s :
  store_log store log ->
  let n := normalize_snapshot store s in
  let result := (commit s store).2 in
  (por_applied result = true <->
     snapshot_is_valid n = true /\ (forall s', s' ∈ log -> psn_generation s' < psn_generation n) /\
     (psn_snapshot_id n ∉ psn_snapshot_id <$> retained (Z.to_nat (pst_max_history_snapshots store)) log) /\
     pst_pending_commit_failure_reason store = None) /\
  store_log (commit s store).1 (if por_applied result then log ++ [n] else log).
Proof. apply commit_log. Qed.

(** A patch that no other call comes between: in safe mode it is refused and changes
    nothing; without the dry run it needs it is refused and counts as a failure. Otherwise it
    is put in force, which takes that it is for the generation in force and that the rules it
    gives resolve, makes the next generation and ends the count of failures, or is refused,
    counts as a failure and leaves the snapshot in force. The call always returns; it throws
    only after the patch was put in force. *)
Theorem policy_patch_exact (sorting : StdSort) patch state :
  0 <= psn_generation (pst_current (pos_store state)) ->
  let manager := pos_manager state in
  exists state' outcome, run_call 6 (ApplyPatch patch) state = (state', inr outcome) /\
    if spm_safe_mode manager then
      state' = state /\
      outcome = OpResult (patch_failure PolicyErrorCode.DryRunRejected "policy_safe_mode_active" patch)
    else if spm_dry_run_required manager && negb (dry_run_matches manager patch) then
      state' = with_manager note_patch_failure state /\
      outcome = OpResult (patch_failure PolicyErrorCode.DryRunRejected
        "policy_patch_dry_run_required" patch)
    else tried_outcome patch state state' outcome.
Proof.
  intros Hg. cbv zeta. remember 5%nat as five eqn:E5. cbn [run_call call_step].
  destruct (spm_safe_mode (pos_manager state)); [by eexists _, _|].
  destruct (_ && _); [by eexists _, _|]. subst five. by apply run_apply_dry_run.
Qed.

(** A rollback that succeeds makes a new generation that decides every query as the snapshot
    it goes back to did, which is one of those retained. *)
Theorem policy_rollback_decides (sorting : StdSort) log snapshot_id state state' result :
  policy_ok log state ->
  run_call 4 (Rollback snapshot_id) state = (state', inr (OpResult result)) ->
  por_applied result = true ->
  exists target,
    target ∈ retained (Z.to_nat (pst_max_history_snapshots (pos_store state))) log /\
    psn_snapshot_id target = snapshot_id /\
    por_rolled_back result = true /\
    psn_generation (pst_current (pos_store state))
      < psn_generation (pst_current (pos_store state')) /\
    forall query, pdr_decision (evaluate_current query (pos_store state'))
                  = pdr_decision (project query target).
Proof.
  intros [Hlog _]. remember 3%nat as three eqn:E3. cbn [run_call call_step]. unfold get_by_id.
  destruct (pst_snapshots_by_id (pos_store state) !! snapshot_id) as [target|] eqn:Et;
    cbn [from_option id]; [|by intros [= _ <-]].
  destruct (sl_holds _ _ Hlog) as (_ & _ & Hm). pose proof (proj1 (Hm _ _) Et) as [Hin Hid].
  destruct (snapshot_is_valid target) eqn:Hv; cbn [negb]; [|by intros [= _ <-]]. subst three.
  remember 2%nat as two eqn:E2. cbn [run_call call_step]. subst two.
  remember 1%nat as one eqn:E1. cbn [run_call call_step]. subst one.
  set (next := build_rollback _ _ _).
  pose proof (commit_applied_current next (pos_store state)) as Hdone.
  destruct (commit next (pos_store state)) as [store r]. simpl in Hdone.
  destruct (por_applied r); cbn [negb]; [|by intros [= _ <-]].
  destruct (Hdone eq_refl) as (Hcur & Hvn & Hgen). cbn [run_call call_step].
  destruct (sync_options_from_rules _ _) as [manager [|]]; [|done]. intros [= <- <-] _.
  exists target. split_and!; [done..| |].
  - cbn [pos_store]. rewrite Hcur. destruct (normalized_parts (pos_store state) next) as [-> _].
    destruct (store_log_current _ _ Hlog) as [[_ ->]|[Hcv _]]; [by apply elem_of_nil in Hin|auto].
  - intros query. unfold evaluate_current, policy_snapshot. cbn [pos_store]. rewrite Hcur, Hvn.
    apply project_perm; [done..|].
    by destruct (normalized_parts (pos_store state) next) as [_ ->].
Qed.

(** ** Examples *)

Definition sample_gate (threshold : string) : PolicyRuleDescriptor :=
  {| prd_rule_id := "policy-loader-admin-patch-gate"; prd_domain := PolicyDomain.PolicyAdmin;
     prd_subject := "infra.policy"; prd_action := "apply_patch";
     prd_target_selector := "policy:runtime_patch"; prd_effect := PolicyEffect.RequireConfirmation;
     prd_priority := 1; prd_mode := PolicyMode.Enforced;
     prd_conditions := ["dry_run_required=false"; "safe_mode_threshold=" +:+ threshold];
     prd_reason_code := "policy_patch_confirmation_required" |}.

Definition sample_bundle (bundle_id threshold : string) (rules : list PolicyRuleDescriptor)
    : PolicyBundle :=
  {| pbu_bundle_id := bundle_id; pbu_schema_version := "1"; pbu_source := "sample";
     pbu_checksum := "sum"; pbu_rules := sample_gate threshold :: rules;
     pbu_generated_at := "2026-01-01T00:00:00Z" |}.

Definition sample_patch (base_generation : Z) : PolicyPatch :=
  {| pp_patch_id := "p1"; pp_base_generation := base_generation;
     pp_operations := [{| ppo_operation := PolicyPatchOperationType.AddRule; ppo_rule_id := "r9";
                          ppo_rule := Some (sample_rule "r9" "ops" PolicyEffect.Allow 1);
                          ppo_mode := PolicyMode.Unspecified |}];
     pp_actor := "ops"; pp_reason := "test" |}.

Definition after_loading (bundle : PolicyBundle) (state : PolicyState) : PolicyState :=
  (run_call (sorting := merging_sort) 3 (LoadPolicy bundle) state).1.

Definition sample_policy : PolicyState :=
  after_loading (sample_bundle "b1" "3" [sample_default "d1" "any" PolicyEffect.Deny]) (new_policy 2 true 3).

Definition sample_policy2 : PolicyState :=
  after_loading (sample_bundle "b2" "3" [sample_default "d1" "any" PolicyEffect.Allow]) sample_policy.

Definition sample_calls : list PolicyCall :=
  [LoadPolicy (sample_bundle "b1" "3" [sample_default "d1" "any" PolicyEffect.Deny]);
   LoadPolicy (sample_bundle "b2" "3" [sample_default "d1" "any" PolicyEffect.Allow])].

(** Two calls of [load_policy] one after the other. *)
Lemma sample_policies_reachable :
  rtc (policy_step (sorting := merging_sort)) (new_policy 2 true 3, []) (sample_policy2, []).
Proof.
  transitivity (new_policy 2 true 3, sample_calls); [by apply begin_calls|].
  replace (sample_policy2, []) with
    (run_schedule (sorting := merging_sort) [0; 0; 0; 0; 0; 0]%nat (new_policy 2 true 3, sample_calls)).
  - apply run_schedule_steps.
  - vm_compute. reflexivity.
Qed.

Lemma policy_history_kept_witness :
  exists log, policy_ok log sample_policy2 /\
    forall config', policy_step (sorting := merging_sort) (sample_policy2, []) config' ->
      exists log', policy_ok log' config'.1 /\ extends log log'.
Proof.
  apply (policy_history_kept merging_sort 2 true 3 (sample_policy2, [])).
  - lia.
  - split; reflexivity || discriminate.
  - apply sample_policies_reachable.
Defined.

Lemma policy_commit_exact_witness :
  por_applied (commit (sample_snapshot [sample_default "d1" "any" PolicyEffect.Deny]) (new_store 2)).2
    = true /\
  store_log (commit (sample_snapshot [sample_default "d1" "any" PolicyEffect.Deny]) (new_store 2)).1
    [sample_snapshot [sample_default "d1" "any" PolicyEffect.Deny]].
Proof.
  split; [vm_compute; reflexivity|].
  apply (policy_commit_exact (new_store 2) []
    (sample_snapshot [sample_default "d1" "any" PolicyEffect.Deny])).
  apply new_store_log. lia.
Defined.

Lemma policy_patch_exact_witness :
  psn_generation (pst_current (pos_store (run_call (sorting := merging_sort) 6
    (ApplyPatch (sample_patch 1)) sample_policy).1)) = 2 /\
  exists state' outcome, run_call (sorting := merging_sort) 6 (ApplyPatch (sample_patch 1)) sample_policy
    = (state', inr outcome).
Proof.
  split; [vm_compute; reflexivity|].
  destruct (policy_patch_exact merging_sort (sample_patch 1) sample_policy) as (state' & outcome & E & _).
  - vm_compute. discriminate.
  - by exists state', outcome.
Defined.

Definition sample_rollback : PolicyState * (PolicyCall + PolicyOutcome) :=
  run_call (sorting := merging_sort) 4 (Rollback "policy-snapshot-1") sample_policy2.

Definition sample_rollback_result : PolicyOpResult :=
  match sample_rollback.2 with inr (OpResult result) => result | _ => op_success "" 0 false false end.

Lemma policy_rollback_decides_witness :
  por_applied sample_rollback_result = true /\
  psn_generation (pst_current (pos_store sample_policy2))
    < psn_generation (pst_current (pos_store sample_rollback.1)).
Proof.
  split; [vm_compute; reflexivity|].
  destruct (policy_reachable_ok (sorting := merging_sort) [] (new_policy 2 true 3, []) (sample_policy2, [])
    (new_policy_ok 2 true 3 ltac:(lia) ltac:(split; reflexivity || discriminate))
    sample_policies_reachable) as (log & added & Hok & _).
  destruct (policy_rollback_decides merging_sort log "policy-snapshot-1" sample_policy2
    sample_rollback.1 sample_rollback_result Hok) as (target & _ & _ & _ & Hlt & _).
  - vm_compute. reflexivity.
  - vm_compute. reflexivity.
  - exact Hlt.
Defined.

(** The check of the base generation and the build of the patched rules read the snapshot in
    force twice: a bundle loaded between is patched although the patch is for the generation
    before. *)
Example patch_applied_past_its_base :
  let config := run_schedule (sorting := merging_sort) [0; 0; 0; 1; 1; 1; 0; 0; 0]%nat
    (sample_policy,
     [ApplyPatch (sample_patch 1);
      LoadPolicy (sample_bundle "b2" "3" [sample_default "d1" "any" PolicyEffect.Allow])]) in
  config.2 = [] /\ psn_generation (pst_current (pos_store config.1)) = 3 /\
  (prd_rule_id <$> psn_effective_rules (pst_current (pos_store config.1)))
  = ["r9"; "d1"; "policy-loader-admin-patch-gate"].
Proof. vm_compute. done. Qed.

(** A threshold beyond [unsigned long] ends [load_policy] with an exception when the bundle is
    in force already, and one of 2^32 is taken for 1. *)
Example threshold_out_of_range :
  let result := run_call (sorting := merging_sort) 3
    (LoadPolicy (sample_bundle "b1" "99999999999999999999" [])) (new_policy 2 true 3) in
  result.2 = inr Thrown /\ psn_generation (pst_current (pos_store result.1)) = 1.
Proof. vm_compute. done. Qed.

Example threshold_truncated :
  spm_safe_mode_threshold (pos_manager (after_loading (sample_bundle "b1" "4294967296" [])
    (new_policy 2 true 3))) = 1.
Proof. vm_compute. reflexivity. Qed.
