(* ===== verification/PolicyLoader.v ===== *)
(** * Security policy: the loader

    infra/src/policy/PolicyLoader.cpp: the bundle made from the configuration. The
    configuration centre answers through its interface (IConfigCenter), [std::hash] gives the
    fingerprint and the clock the time of the bundle: arguments of the section. *)

From S2P Require Import Prelude ErrorCodes CheckpointContracts Text Ordering RecoveryContracts PolicyRules PolicyManager.

(** ** The configuration *)

Module ConfigValueType.
Inductive ConfigValueType :=
| Unspecified | Boolean | Integer | UnsignedInteger | String | DurationMs | StringList | StringMap
| Object.
End ConfigValueType.
Abbreviation ConfigValueType := ConfigValueType.ConfigValueType.

Module ConfigSourceKind.
Inductive ConfigSourceKind := Unspecified | Defaults | Profile | DeploymentOverride | RuntimeOverride.
End ConfigSourceKind.
Abbreviation ConfigSourceKind := ConfigSourceKind.ConfigSourceKind.

Record TypedConfig := {
  tc_key_path : string;
  tc_value_type : ConfigValueType;
  tc_serialized_value : string;
  tc_source_kind : ConfigSourceKind;
  tc_source_id : string;
}.

Record ResolvedConfigValue := {
  rcv_key_path : string;
  rcv_serialized_value : string;
  rcv_value_type : ConfigValueType;
  rcv_source_kind : ConfigSourceKind;
  rcv_source_id : string;
}.

Record PolicyLoaderInputs := {
  pli_profile_id : string;
  pli_enabled : bool;
  pli_mode_name : string;
  pli_hot_reload : bool;
  pli_max_history_snapshots : Z;
  pli_default_effect_name : string;
  pli_priority_order : string;
  pli_require_checksum : bool;
  pli_dry_run_required : bool;
  pli_safe_mode_threshold : Z;
  pli_persist_lkg : bool;
  pli_resolved_values : list ResolvedConfigValue;
}.

Definition bool_to_string (value : bool) : string := if value then "true" else "false".

Definition normalize_mode_name (value : string) : string :=
  let value := lowercase_copy value in
  if bool_decide (value = "compat") || bool_decide (value = "compatibility") then "compat"
  else "strict".

Definition normalize_default_effect (value : string) : string :=
  let value := lowercase_copy value in
  if bool_decide (value = "allow") || bool_decide (value = "require_confirmation")
     || bool_decide (value = "observe") then value else "deny".

Definition normalize_priority_order (value : string) : string :=
  if bool_decide (lowercase_copy value = "explicit-priority") then "explicit-priority"
  else "deny-first".

Definition parse_mode (mode_name : string) : PolicyMode :=
  if bool_decide (mode_name = "compat") then PolicyMode.Compatibility else PolicyMode.Enforced.

Definition parse_effect (effect_name : string) : PolicyEffect :=
  if bool_decide (effect_name = "allow") then PolicyEffect.Allow else
  if bool_decide (effect_name = "require_confirmation") then PolicyEffect.RequireConfirmation else
  if bool_decide (effect_name = "observe") then PolicyEffect.Observe else PolicyEffect.Deny.

Definition base_priority (priority_order : string) : Z :=
  if bool_decide (priority_order = "explicit-priority") then 100 else 1.

Definition source_kind_version_ref (source_kind : ConfigSourceKind) : string :=
  match source_kind with
  | ConfigSourceKind.Defaults | ConfigSourceKind.Unspecified => "defaults@resolved"
  | ConfigSourceKind.Profile => "profile@resolved"
  | ConfigSourceKind.DeploymentOverride => "deployment@resolved"
  | ConfigSourceKind.RuntimeOverride => "runtime-override@resolved"
  end.

Definition make_fallback_value (key_path : string) (value_type : ConfigValueType)
    (serialized_value : string) : ResolvedConfigValue :=
  {| rcv_key_path := key_path; rcv_serialized_value := serialized_value;
     rcv_value_type := value_type; rcv_source_kind := ConfigSourceKind.Defaults;
     rcv_source_id := "infra/policy/defaults/frozen" |}.

Definition resolved_value (config : TypedConfig) : ResolvedConfigValue :=
  {| rcv_key_path := tc_key_path config; rcv_serialized_value := tc_serialized_value config;
     rcv_value_type := tc_value_type config; rcv_source_kind := tc_source_kind config;
     rcv_source_id := tc_source_id config |}.

(** [std::hex << value] *)
Fixpoint hex_digits (fuel : nat) (n : Z) (acc : string) : string :=
  match fuel with
  | O => acc
  | S fuel =>
      let acc := String (hex_digit (n mod 16)) acc in
      if n <? 16 then acc else hex_digits fuel (n / 16) acc
  end.

Definition to_hex (value : Z) : string := hex_digits 16 (u64 value) "".

Section Loader.
Context (get_typed : string -> ConfigValueType -> option TypedConfig).
Context (std_hash : string -> Z) (generated_at : string).

Fixpoint lookup_typed_config (key_paths : list string) (expected_type : ConfigValueType)
    : option TypedConfig :=
  match key_paths with
  | [] => None
  | key_path :: rest =>
      match get_typed key_path expected_type with
      | Some value => Some value
      | None => lookup_typed_config rest expected_type
      end
  end.

Definition resolve_bool (key_paths : list string) (default_value : bool) : ResolvedConfigValue :=
  match lookup_typed_config key_paths ConfigValueType.Boolean with
  | None => make_fallback_value (hd "" key_paths) ConfigValueType.Boolean
              (bool_to_string default_value)
  | Some resolved =>
      if bool_decide (tc_serialized_value resolved = "true")
         || bool_decide (tc_serialized_value resolved = "false")
      then resolved_value resolved
      else make_fallback_value (tc_key_path resolved) ConfigValueType.Boolean
             (bool_to_string default_value)
  end.

Definition resolve_string (key_paths : list string) (default_value : string)
    : ResolvedConfigValue :=
  match lookup_typed_config key_paths ConfigValueType.String with
  | None => make_fallback_value (hd "" key_paths) ConfigValueType.String default_value
  | Some resolved =>
      if is_empty (tc_serialized_value resolved)
      then make_fallback_value (hd "" key_paths) ConfigValueType.String default_value
      else resolved_value resolved
  end.

Definition resolve_uint (key_paths : list string) (default_value : Z) : ResolvedConfigValue :=
  match lookup_typed_config key_paths ConfigValueType.UnsignedInteger with
  | None => make_fallback_value (hd "" key_paths) ConfigValueType.UnsignedInteger
              (to_string default_value)
  | Some resolved =>
      if negb (is_unsigned_integer (tc_serialized_value resolved))
      then make_fallback_value (hd "" key_paths) ConfigValueType.UnsignedInteger
             (to_string default_value)
      else resolved_value resolved
  end.

(** [None]: [std::stoul] throws. *)
Definition resolve_inputs : option PolicyLoaderInputs :=
  let profile_id := resolve_string ["profile_meta.profile_id"] "unknown" in
  let enabled := resolve_bool
    ["infra.security_policy.enabled"; "infra.security.policy.enabled"] true in
  let mode := resolve_string
    ["infra.security_policy.mode"; "infra.security.policy.mode"] "strict" in
  let hot_reload := resolve_bool
    ["infra.security_policy.hot_reload"; "infra.security.policy.hot_reload"] true in
  let max_history := resolve_uint ["infra.security_policy.max_history_snapshots"] 16 in
  let default_effect := resolve_string ["infra.security_policy.default_effect"] "deny" in
  let priority_order := resolve_string ["infra.security_policy.priority_order"] "deny-first" in
  let require_checksum := resolve_bool ["infra.security_policy.require_checksum"] true in
  let dry_run_required := resolve_bool ["infra.security_policy.dry_run_required"] true in
  let safe_mode_threshold := resolve_uint ["infra.security_policy.safe_mode_threshold"] 3 in
  let persist_lkg := resolve_bool ["infra.security_policy.snapshot.persist_lkg"] true in
  let is_true value := bool_decide (rcv_serialized_value value = "true") in
  max_history_value ← stoull (rcv_serialized_value max_history);
  safe_mode_threshold_value ← stoull (rcv_serialized_value safe_mode_threshold);
  Some {| pli_profile_id := rcv_serialized_value profile_id;
          pli_enabled := is_true enabled;
          pli_mode_name := normalize_mode_name (rcv_serialized_value mode);
          pli_hot_reload := is_true hot_reload;
          pli_max_history_snapshots := u32 max_history_value;
          pli_default_effect_name :=
            normalize_default_effect (rcv_serialized_value default_effect);
          pli_priority_order := normalize_priority_order (rcv_serialized_value priority_order);
          pli_require_checksum := is_true require_checksum;
          pli_dry_run_required := is_true dry_run_required;
          pli_safe_mode_threshold := u32 safe_mode_threshold_value;
          pli_persist_lkg := is_true persist_lkg;
          pli_resolved_values :=
            [profile_id; enabled; mode; hot_reload; max_history; default_effect; priority_order;
             require_checksum; dry_run_required; safe_mode_threshold; persist_lkg] |}.

(** The entries of the sources, each once. *)
Definition source_entries (values : list ResolvedConfigValue) : list string :=
  fold_left (fun entries value =>
      let candidate := "source_id=" +:+ (rcv_source_id value +:+ (",version=" +:+
        source_kind_version_ref (rcv_source_kind value))) in
      if bool_decide (candidate ∈ entries) then entries else entries ++ [candidate])
    values [].

Definition build_source_trace (inputs : PolicyLoaderInputs) : string :=
  "profile_id=" +:+ (pli_profile_id inputs +:+ (";mode=" +:+ (pli_mode_name inputs +:+
    (";schema_version=1;sources=" +:+
      String.concat "|" (source_entries (pli_resolved_values inputs)))))).

Definition build_fingerprint (inputs : PolicyLoaderInputs) : string :=
  to_hex (std_hash (String.concat ";"
    ([pli_profile_id inputs; bool_to_string (pli_enabled inputs); pli_mode_name inputs;
      bool_to_string (pli_hot_reload inputs); to_string (pli_max_history_snapshots inputs);
      pli_default_effect_name inputs; pli_priority_order inputs;
      bool_to_string (pli_require_checksum inputs);
      bool_to_string (pli_dry_run_required inputs); to_string (pli_safe_mode_threshold inputs);
      bool_to_string (pli_persist_lkg inputs)]
     ++ ((fun value => rcv_key_path value +:+ ("=" +:+ (rcv_serialized_value value +:+
           ("@" +:+ rcv_source_id value)))) <$> pli_resolved_values inputs)))).

Definition make_patch_gate_rule (inputs : PolicyLoaderInputs) : PolicyRuleDescriptor :=
  {| prd_rule_id := "policy-loader-admin-patch-gate"; prd_domain := PolicyDomain.PolicyAdmin;
     prd_subject := "infra.policy"; prd_action := "apply_patch";
     prd_target_selector := "policy:runtime_patch";
     prd_effect := if negb (pli_enabled inputs) || negb (pli_hot_reload inputs)
                   then PolicyEffect.Deny else PolicyEffect.RequireConfirmation;
     prd_priority := base_priority (pli_priority_order inputs);
     prd_mode := parse_mode (pli_mode_name inputs);
     prd_conditions :=
       ["policy_enabled=" +:+ bool_to_string (pli_enabled inputs);
        "hot_reload=" +:+ bool_to_string (pli_hot_reload inputs);
        "dry_run_required=" +:+ bool_to_string (pli_dry_run_required inputs);
        "require_checksum=" +:+ bool_to_string (pli_require_checksum inputs);
        "safe_mode_threshold=" +:+ to_string (pli_safe_mode_threshold inputs)];
     prd_reason_code :=
       if negb (pli_enabled inputs) then "policy_loader_disabled_fail_closed" else
       if pli_hot_reload inputs then "policy_patch_confirmation_required"
       else "policy_hot_reload_disabled" |}.

Definition make_default_rule (inputs : PolicyLoaderInputs) : PolicyRuleDescriptor :=
  {| prd_rule_id := "policy-loader-default-effect"; prd_domain := PolicyDomain.PolicyAdmin;
     prd_subject := "infra.policy"; prd_action := "evaluate_default";
     prd_target_selector := "policy:default_effect";
     prd_effect := if pli_enabled inputs then parse_effect (pli_default_effect_name inputs)
                   else PolicyEffect.Deny;
     prd_priority := base_priority (pli_priority_order inputs) + 1;
     prd_mode := parse_mode (pli_mode_name inputs);
     prd_conditions :=
       ["default_effect=" +:+ pli_default_effect_name inputs;
        "priority_order=" +:+ pli_priority_order inputs;
        "max_history_snapshots=" +:+ to_string (pli_max_history_snapshots inputs);
        "persist_lkg=" +:+ bool_to_string (pli_persist_lkg inputs);
        "profile_id=" +:+ pli_profile_id inputs];
     prd_reason_code := "policy_default_" +:+ pli_default_effect_name inputs |}.

Definition loaded_bundle (inputs : PolicyLoaderInputs) : PolicyBundle :=
  {| pbu_bundle_id := "policy-bundle-" +:+ (pli_profile_id inputs +:+ ("-" +:+
       build_fingerprint inputs));
     pbu_schema_version := "1"; pbu_source := build_source_trace inputs;
     pbu_checksum := "loader-hash:" +:+ build_fingerprint inputs;
     pbu_rules := [make_patch_gate_rule inputs; make_default_rule inputs];
     pbu_generated_at := generated_at |}.

Definition load_from_sources : option PolicyBundle := loaded_bundle <$> resolve_inputs.

End Loader.

(** ** The policy in force after loading *)

Lemma loader_groups gate default_rule :
  make_scope_key gate = "policy_admin|infra.policy|apply_patch|policy:runtime_patch" ->
  make_scope_key default_rule
  = "policy_admin|infra.policy|evaluate_default|policy:default_effect" ->
  in_key_order (group_rules [gate; default_rule])
  = [("policy_admin|infra.policy|apply_patch|policy:runtime_patch", [gate]);
     ("policy_admin|infra.policy|evaluate_default|policy:default_effect", [default_rule])].
Proof.
  intros Hg Hd. unfold group_rules. cbn [fold_left]. rewrite Hg, Hd. vm_compute. reflexivity.
Qed.

Lemma parse_mode_specified mode : bool_decide (parse_mode mode = PolicyMode.Unspecified) = false.
Proof. unfold parse_mode. by destruct (bool_decide (mode = "compat")). Qed.

Lemma parse_effect_specified effect :
  bool_decide (parse_effect effect = PolicyEffect.Unspecified) = false.
Proof.
  unfold parse_effect. destruct (bool_decide (effect = "allow")); [done|].
  destruct (bool_decide (effect = "require_confirmation")); [done|].
  by destruct (bool_decide (effect = "observe")).
Qed.

Lemma gate_valid inputs : rule_is_valid (make_patch_gate_rule inputs) = true.
Proof.
  unfold rule_is_valid. simpl. rewrite parse_mode_specified. simpl.
  by destruct (pli_enabled inputs), (pli_hot_reload inputs).
Qed.

Lemma default_valid inputs : rule_is_valid (make_default_rule inputs) = true.
Proof.
  unfold rule_is_valid. simpl. rewrite parse_mode_specified. simpl.
  destruct (pli_enabled inputs); [|done]. by rewrite parse_effect_specified.
Qed.

Lemma to_string_unsigned n : in_u64 n -> is_unsigned_integer (to_string n) = true.
Proof.
  intros Hn. unfold is_unsigned_integer. apply andb_true_iff. split.
  - pose proof (stoull_to_string n Hn) as H. by destruct (to_string n) eqn:E.
  - unfold to_string. destruct (Z.ltb_spec n 0); [unfold in_u64 in Hn; lia|].
    by rewrite digits_class.
Qed.

Section Loaded.
Context {sorting : StdSort} (std_hash : string -> Z) (generated_at : string).

Lemma std_sort_single {A} (cmp : A -> A -> comparison) `{!Ordering cmp} x :
  std_sort cmp [x] = [x].
Proof. apply Permutation_singleton_r, std_sort_perm, _. Qed.

Lemma loaded_bundle_checked inputs :
  generated_at <> "" ->
  bundle_is_valid (loaded_bundle std_hash generated_at inputs) = true /\
  has_blocking_errors (validate_bundle (loaded_bundle std_hash generated_at inputs)) = false.
Proof.
  intros Hnow. assert (is_empty generated_at = false) as Hne by by destruct generated_at.
  assert (bundle_is_valid (loaded_bundle std_hash generated_at inputs) = true) as Hv.
  { unfold bundle_is_valid. simpl. rewrite Hne. simpl. by rewrite gate_valid, default_valid. }
  split; [done|]. by rewrite bundle_errors, Hv.
Qed.

Lemma loaded_bundle_resolves inputs :
  generated_at <> "" ->
  exists resolved, resolve_conflicts (loaded_bundle std_hash generated_at inputs) = Some resolved /\
    crr_resolved resolved = true /\
    crr_effective_rules resolved = [make_patch_gate_rule inputs; make_default_rule inputs].
Proof.
  intros Hnow. destruct (loaded_bundle_checked inputs Hnow) as [Hv _].
  unfold resolve_conflicts. rewrite Hv. cbn [negb pbu_rules loaded_bundle].
  rewrite (loader_groups (make_patch_gate_rule inputs) (make_default_rule inputs) eq_refl eq_refl).
  cbn [resolve_scopes]. rewrite !(std_sort_single (compare_rules _)). by eexists.
Qed.

(** The default rule decides what the gate of patches does not speak about. *)
Lemma project_two query snapshot gate default_rule :
  psn_effective_rules snapshot = [gate; default_rule] ->
  is_default_rule gate = false -> is_default_rule default_rule = true ->
  snapshot_is_valid snapshot = true -> has_required_fields query = true ->
  pdr_decision (project query snapshot) =
  effect_decision (prd_effect (if rule_matches query gate then gate else default_rule)).
Proof.
  intros Hrules Hg Hd Hs Hq. assert (rule_matches query default_rule = false) as Hdm
    by (unfold rule_matches; by rewrite Hd).
  destruct (project_spec query snapshot Hs Hq) as [(rule & Hdec & -> & _)|(Hno & _)];
    rewrite Hrules in *.
  - f_equal. destruct Hdec as [(Hin & Hm & _)|[Hnone (Hin & Hdef & _)]].
    + apply elem_of_cons in Hin as [->|Hin%list_elem_of_singleton]; [by rewrite Hm|subst].
      by rewrite Hdm in Hm.
    + apply elem_of_cons in Hin as [->|Hin%list_elem_of_singleton]; [by rewrite Hg in Hdef|subst].
      rewrite (Hnone gate); [done|by left].
  - destruct (Hno default_rule); [right; by left|congruence].
Qed.

Lemma value_starts_with_app prefix s : value_starts_with (prefix +:+ s) prefix = true.
Proof. unfold value_starts_with. by rewrite strip_prefix_app. Qed.

Lemma loaded_threshold inputs :
  patch_gate_condition [make_patch_gate_rule inputs; make_default_rule inputs] "safe_mode_threshold"
  = Some (to_string (pli_safe_mode_threshold inputs)).
Proof.
  unfold patch_gate_condition. cbn [find_rule_condition_value].
  rewrite !bool_decide_true by done. cbn [negb orb].
  assert (find (fun item => value_starts_with item ("safe_mode_threshold" +:+ "="))
    (prd_conditions (make_patch_gate_rule inputs))
    = Some ("safe_mode_threshold=" +:+ to_string (pli_safe_mode_threshold inputs))) as ->.
  { change ("safe_mode_threshold" +:+ "=") with "safe_mode_threshold=".
    cbn [find prd_conditions make_patch_gate_rule].
    rewrite (value_starts_with_app "safe_mode_threshold=").
    by destruct (pli_enabled inputs), (pli_hot_reload inputs), (pli_dry_run_required inputs),
      (pli_require_checksum inputs). }
  apply strip_prefix_app.
Qed.

Lemma loaded_options inputs manager :
  in_u32 (pli_safe_mode_threshold inputs) ->
  (sync_options_from_rules [make_patch_gate_rule inputs; make_default_rule inputs] manager).2 = true.
Proof.
  intros Ht. assert (in_u64 (pli_safe_mode_threshold inputs)) by (unfold in_u32, in_u64 in *; lia).
  unfold sync_options_from_rules. rewrite loaded_threshold, to_string_unsigned by done.
  by rewrite stoull_to_string.
Qed.

End Loaded.

Lemma inputs_threshold get_typed inputs :
  resolve_inputs get_typed = Some inputs -> in_u32 (pli_safe_mode_threshold inputs).
Proof.
  unfold resolve_inputs. cbv zeta.
  destruct (stoull (rcv_serialized_value (resolve_uint _ ["infra.security_policy.max_history_snapshots"] 16)));
    cbn [mbind option_bind]; [|discriminate].
  destruct (stoull _); cbn [mbind option_bind]; [|discriminate]. intros [= <-]. apply u32_in.
Qed.

Section Fresh.
Context {sorting : StdSort} (get_typed : string -> ConfigValueType -> option TypedConfig).
Context (std_hash : string -> Z) (generated_at : string).

(** The decision of a query under the policy that the loader makes. *)
Definition loaded_decision (inputs : PolicyLoaderInputs) (query : PolicyQueryContext)
    : PolicyDecision :=
  if has_required_fields query then
    effect_decision (prd_effect (if rule_matches query (make_patch_gate_rule inputs)
                                 then make_patch_gate_rule inputs else make_default_rule inputs))
  else PolicyDecision.Deny.

Lemma first_snapshot_valid inputs :
  generated_at <> "" ->
  snapshot_is_valid (next_snapshot (loaded_bundle std_hash generated_at inputs)
    [make_patch_gate_rule inputs; make_default_rule inputs] empty_policy_snapshot) = true.
Proof.
  intros Hnow. assert (is_empty generated_at = false) as Hne by by destruct generated_at.
  unfold snapshot_is_valid. simpl. rewrite Hne, parse_mode_specified, Hne. simpl.
  by rewrite gate_valid, default_valid.
Qed.

Lemma load_fresh inputs max_history dry_run_required threshold :
  0 <= max_history -> generated_at <> "" -> in_u32 (pli_safe_mode_threshold inputs) ->
  exists state result,
    run_call 3 (LoadPolicy (loaded_bundle std_hash generated_at inputs))
      (new_policy max_history dry_run_required threshold) = (state, inr (OpResult result)) /\
    por_applied result = true /\
    snapshot_is_valid (pst_current (pos_store state)) = true /\
    psn_generation (pst_current (pos_store state)) = 1 /\
    psn_effective_rules (pst_current (pos_store state))
    = [make_patch_gate_rule inputs; make_default_rule inputs].
Proof.
  intros Hmax Hnow Ht. destruct (loaded_bundle_checked std_hash generated_at inputs Hnow) as [_ Hck].
  destruct (loaded_bundle_resolves std_hash generated_at inputs Hnow) as (resolved & Hres & Hok & Hrules).
  remember 2%nat as two eqn:E2. cbn [run_call call_step]. unfold build_loaded.
  rewrite Hck, Hres. cbn [mbind option_bind]. rewrite Hok, Hrules. cbn [negb]. subst two.
  remember 1%nat as one eqn:E1. cbn [run_call call_step]. subst one.
  set (first := next_snapshot _ _ _).
  assert (snapshot_is_valid first = true) as Hvalid by by apply first_snapshot_valid.
  assert (normalize_snapshot (new_store max_history) first = first) as Hnorm
    by (unfold normalize_snapshot; by rewrite andb_false_r).
  destruct (commit_log _ _ first (new_store_log max_history Hmax)) as [Happ _].
  pose proof (commit_applied_current first (new_store max_history)) as Hdone.
  change (pos_store (new_policy max_history dry_run_required threshold)) with (new_store max_history).
  rewrite Hnorm in *. destruct (commit first (new_store max_history)) as [store result].
  simpl in Happ, Hdone. assert (por_applied result = true) as Hr.
  { apply Happ. split_and!; [done|intros s Hs; by apply elem_of_nil in Hs| |done].
    unfold retained. simpl. apply not_elem_of_nil. }
  rewrite Hr. cbn [negb run_call call_step].
  pose proof (loaded_options inputs (new_manager dry_run_required threshold) Ht) as Hopt.
  change (psn_effective_rules first) with [make_patch_gate_rule inputs; make_default_rule inputs].
  change (pos_manager (with_store store (new_policy max_history dry_run_required threshold)))
    with (new_manager dry_run_required threshold).
  destruct (sync_options_from_rules _ _) as [manager returned]. simpl in Hopt. subst returned.
  eexists _, _. split; [reflexivity|]. split; [done|]. cbn [pos_store with_store].
  destruct (Hdone Hr) as (-> & _). done.
Qed.

End Fresh.

(** The bundle that the loader makes of any configuration it reads is valid, resolves without
    conflict and is put in force by a manager that starts with it. Then a query is decided by
    the gate of patches if that speaks about it, and by the configured default effect
    otherwise, where a loader switched off denies. *)
Theorem loaded_policy_decides (sorting : StdSort) get_typed std_hash generated_at inputs
    max_history dry_run_required threshold :
  resolve_inputs get_typed = Some inputs -> generated_at <> "" -> 0 <= max_history ->
  exists bundle state result,
    load_from_sources get_typed std_hash generated_at = Some bundle /\
    run_call 3 (LoadPolicy bundle) (new_policy max_history dry_run_required threshold)
    = (state, inr (OpResult result)) /\
    por_applied result = true /\
    forall query, pdr_decision (evaluate_current query (pos_store state)) = loaded_decision inputs query.
Proof.
  intros Hin Hnow Hmax. exists (loaded_bundle std_hash generated_at inputs).
  destruct (load_fresh std_hash generated_at inputs max_history dry_run_required threshold Hmax Hnow
    (inputs_threshold _ _ Hin)) as (state & result & Hrun & Hr & Hv & _ & Hrules).
  exists state, result. split; [unfold load_from_sources; by rewrite Hin|]. split; [done|].
  split; [done|]. intros query. unfold evaluate_current, policy_snapshot, loaded_decision. rewrite Hv.
  destruct (has_required_fields query) eqn:Hq.
  - by rewrite (project_two _ _ _ _ Hrules).
  - unfold project. by rewrite Hv, Hq.
Qed.

(** Nothing is configured: the defaults hold. *)
Lemma loaded_policy_decides_witness :
  exists inputs, resolve_inputs (fun _ _ => None) = Some inputs /\
  exists bundle state result,
    load_from_sources (fun _ _ => None) (fun _ => 255) "2026-01-01T00:00:00Z" = Some bundle /\
    run_call (sorting := merging_sort) 3 (LoadPolicy bundle) (new_policy 16 true 3)
    = (state, inr (OpResult result)) /\
    pdr_decision (evaluate_current (sorting := merging_sort) (sample_query "ops") (pos_store state))
    = PolicyDecision.Deny.
Proof.
  eexists. split; [vm_compute; reflexivity|].
  edestruct (loaded_policy_decides merging_sort (fun _ _ => None) (fun _ => 255)
    "2026-01-01T00:00:00Z") as (bundle & state & result & Hl & Hrun & _ & Hd);
    [vm_compute; reflexivity|done|..].
  2:{ exists bundle, state, result. split; [exact Hl|]. split; [exact Hrun|].
      rewrite Hd. vm_compute. reflexivity. }
  lia.
Defined.
