(* ===== verification/AccessPolicy.v ===== *)
(** * The policy gate of access

    access/src/AccessPolicyGate.cpp: whether an authenticated packet may submit a request,
    query a task, read diagnostics or override the policy. The gate asks an evaluator
    through an interface ([IAccessPolicyEvaluator]); one evaluator answers from a fixed
    backend snapshot, the other asks the security policy. *)

From S2P Require Import Prelude Text Ordering PolicyRules PolicyManager PolicyLoader AgentContracts AccessTypes Identity.

(** ** Types *)

Record OperationTargetView := {
  otv_operation : string;
  otv_target_type : string;
  otv_target_ref : string;
}.

Definition target_consistent (target : OperationTargetView) : bool :=
  negb (is_empty (otv_operation target)) && negb (is_empty (otv_target_type target))
  && negb (is_empty (otv_target_ref target)).

Record OverrideSourceFact := {
  osf_source_type : string;
  osf_has_config_patch_metadata : bool;
  osf_path_op_summary_complete : bool;
  osf_ttl_valid : bool;
  osf_target_ref_present : bool;
}.

Definition source_consistent (fact : OverrideSourceFact) : bool :=
  negb (is_empty (osf_source_type fact)) && osf_has_config_patch_metadata fact
  && osf_path_op_summary_complete fact && osf_ttl_valid fact && osf_target_ref_present fact.

Record PolicyBackendSnapshot := {
  pbs_backend_available : bool;
  pbs_allow_submit : bool;
  pbs_allow_task_query : bool;
  pbs_allow_diagnostics : bool;
  pbs_allow_override : bool;
  pbs_require_confirmation_for_override : bool;
  pbs_decision_ref : string;
}.

Record AccessPolicyEvaluationInput := {
  api_authentication : AuthenticationOutcome;
  api_packet : InboundPacket;
  api_snapshot_fingerprint : option SnapshotVersionFingerprint;
}.

Record AccessPolicyEvaluationResult := {
  apr_allowed : bool;
  apr_requires_confirmation : bool;
  apr_decision_proof : AccessDecisionProof;
  apr_reject_reason : option string;
}.

Definition denied (result : AccessPolicyEvaluationResult) : bool :=
  negb (apr_allowed result) && negb (apr_requires_confirmation result).

Record AccessPolicyQuery := {
  apq_subject_identity : SubjectIdentity;
  apq_operation_target : OperationTargetView;
  apq_entry_type : string;
  apq_protocol_kind : string;
  apq_request_id : string;
  apq_session_id : string;
  apq_trace_id : string;
  apq_snapshot_fingerprint : option SnapshotVersionFingerprint;
  apq_sensitive_request : bool;
}.

Definition query_consistent (query : AccessPolicyQuery) : bool :=
  target_consistent (apq_operation_target query)
  && negb (is_empty (si_actor_ref (apq_subject_identity query)))
  && negb (is_empty (apq_entry_type query)) && negb (is_empty (apq_protocol_kind query))
  && negb (is_empty (apq_request_id query)).

Definition make_denied_result (reason_code decision_ref : string) : AccessPolicyEvaluationResult :=
  {| apr_allowed := false; apr_requires_confirmation := false;
     apr_decision_proof :=
       {| adp_decision := "Deny"; adp_policy_decision_ref := decision_ref;
          adp_reason_code := reason_code;
          adp_reason_description := Some "access policy gate denied request";
          adp_evaluated_at := Some "policy-eval" |};
     apr_reject_reason := Some reason_code |}.

(** [make_denied_result(reason_code)] *)
Definition gate_deny (reason_code : string) : AccessPolicyEvaluationResult :=
  make_denied_result reason_code "policy://access/deny".

Definition make_confirmation_result (reason_code decision_ref : string)
    : AccessPolicyEvaluationResult :=
  {| apr_allowed := false; apr_requires_confirmation := true;
     apr_decision_proof :=
       {| adp_decision := "RequireConfirmation"; adp_policy_decision_ref := decision_ref;
          adp_reason_code := reason_code;
          adp_reason_description := Some "sensitive operation requires confirmation";
          adp_evaluated_at := Some "policy-eval" |};
     apr_reject_reason := None |}.

Definition make_allowed_result (decision_ref : string) : AccessPolicyEvaluationResult :=
  {| apr_allowed := true; apr_requires_confirmation := false;
     apr_decision_proof :=
       {| adp_decision := "Allow"; adp_policy_decision_ref := decision_ref;
          adp_reason_code := "allow_proof";
          adp_reason_description := Some "explicit allow proof emitted by access policy gate";
          adp_evaluated_at := Some "policy-eval" |};
     apr_reject_reason := None |}.

(** ** The interface *)

(** A result says one of three things, and its proof says the same. *)
Definition result_exclusive (result : AccessPolicyEvaluationResult) : Prop :=
  match apr_allowed result, apr_requires_confirmation result with
  | true, false => adp_decision (apr_decision_proof result) = "Allow" /\
                   apr_reject_reason result = None
  | false, true => adp_decision (apr_decision_proof result) = "RequireConfirmation" /\
                   apr_reject_reason result = None
  | false, false => adp_decision (apr_decision_proof result) = "Deny" /\
                    is_Some (apr_reject_reason result)
  | true, true => False
  end.

Class AccessPolicyEvaluator := {
  evaluate_query : AccessPolicyQuery -> AccessPolicyEvaluationResult;
  evaluate_exclusive query : result_exclusive (evaluate_query query);
}.

(** ** The evaluators *)

Definition snapshot_evaluate (backend : PolicyBackendSnapshot) (query : AccessPolicyQuery)
    : AccessPolicyEvaluationResult :=
  if negb (query_consistent query) then gate_deny "malformed_policy_context" else
  if negb (pbs_backend_available backend) then gate_deny "policy_backend_unavailable" else
  let operation := otv_operation (apq_operation_target query) in
  let allow_result :=
    (bool_decide (operation = "submit") && pbs_allow_submit backend)
    || (bool_decide (operation = "task_query") && pbs_allow_task_query backend)
    || (bool_decide (operation = "diagnostics_read") && pbs_allow_diagnostics backend)
    || (bool_decide (operation = "runtime_override") && pbs_allow_override backend) in
  if allow_result then make_allowed_result (pbs_decision_ref backend) else
  if apq_sensitive_request query && pbs_require_confirmation_for_override backend
  then make_confirmation_result "confirmation_required" (pbs_decision_ref backend)
  else make_denied_result "authorization_denied" (pbs_decision_ref backend).

Definition build_policy_ref_from_decision (decision : PolicyDecisionRef) : string :=
  let policy_ref := "policy://snapshots/" +:+ (pdr_snapshot_id decision +:+ ("?generation=" +:+
    to_string (pdr_generation decision))) in
  match pdr_matched_rule_ids decision with
  | [] => policy_ref
  | rule_id :: _ => policy_ref +:+ ("#" +:+ rule_id)
  end.

Definition build_policy_module (query : AccessPolicyQuery) : string :=
  "access." +:+ (apq_entry_type query +:+ ("." +:+ apq_protocol_kind query)).

Definition access_policy_unavailable_ref : string := "policy://access/backend-unavailable".

Definition map_policy_manager_decision (decision : PolicyDecisionRef)
    : AccessPolicyEvaluationResult :=
  if negb (decision_is_valid decision)
  then make_denied_result "policy_backend_unavailable" access_policy_unavailable_ref else
  let result name reject_reason :=
    {| apr_allowed := bool_decide (pdr_decision decision = PolicyDecision.Allow);
       apr_requires_confirmation :=
         bool_decide (pdr_decision decision = PolicyDecision.RequireConfirmation);
       apr_decision_proof :=
         {| adp_decision := name;
            adp_policy_decision_ref := build_policy_ref_from_decision decision;
            adp_reason_code := pdr_reason_code decision;
            adp_reason_description :=
              if is_empty (pdr_evidence_ref decision) then None
              else Some (pdr_evidence_ref decision);
            adp_evaluated_at := Some "policy-manager" |};
       apr_reject_reason := reject_reason |} in
  match pdr_decision decision with
  | PolicyDecision.Allow => result "Allow" None
  | PolicyDecision.Deny => result "Deny" (Some (pdr_reason_code decision))
  | PolicyDecision.RequireConfirmation => result "RequireConfirmation" None
  | PolicyDecision.Unspecified =>
      make_denied_result "policy_backend_unavailable" access_policy_unavailable_ref
  end.

(** What the security policy is asked. *)
Definition policy_query (query : AccessPolicyQuery) : PolicyQueryContext :=
  let target := apq_operation_target query in
  {| pqc_module := build_policy_module query; pqc_operation := otv_operation target;
     pqc_target_type := otv_target_type target; pqc_target_ref := otv_target_ref target;
     pqc_actor_ref := si_actor_ref (apq_subject_identity query);
     pqc_request_id := apq_request_id query; pqc_session_id := apq_session_id query;
     pqc_trace_id := apq_trace_id query;
     pqc_task_id := if bool_decide (otv_target_type target = "async_task")
                    then otv_target_ref target else "unknown";
     pqc_profile_id :=
       match apq_snapshot_fingerprint query with
       | Some fingerprint => or_default (svf_effective_profile_id fingerprint) "unknown"
       | None => "unknown"
       end |}.

(** [policy_evaluate]: the manager's [evaluate]. *)
Definition infra_evaluate (policy_evaluate : PolicyQueryContext -> PolicyDecisionRef)
    (query : AccessPolicyQuery) : AccessPolicyEvaluationResult :=
  if negb (query_consistent query)
  then make_denied_result "policy_backend_unavailable" access_policy_unavailable_ref
  else map_policy_manager_decision (policy_evaluate (policy_query query)).

(** ** The gate *)

Definition is_override_source_allowlisted (source_type : string) : bool :=
  bool_decide (source_type ∈ ["ops_command"; "diagnostics"; "config_center_api"]).

Definition is_local_trusted_daemon_subject (input : AccessPolicyEvaluationInput) : bool :=
  if negb (bool_decide (ip_entry_type (api_packet input) = "daemon")) then true else
  let subject := auo_subject_identity (api_authentication input) in
  if negb (bool_decide (si_auth_method subject = "local_trusted")) then false else
  if is_empty (si_actor_ref subject) then false else
  value_starts_with (si_actor_ref subject) "local://uid/".

Definition build_query_context (input : AccessPolicyEvaluationInput)
    (operation target_type target_ref : string) (sensitive_request : bool)
    : option AccessPolicyQuery :=
  let subject := auo_subject_identity (api_authentication input) in
  let packet := api_packet input in
  if is_empty operation || is_empty target_type || is_empty target_ref
     || is_empty (si_actor_ref subject) || is_empty (ip_entry_type packet)
     || is_empty (ip_protocol_kind packet) then None else
  Some {| apq_subject_identity := subject;
          apq_operation_target :=
            {| otv_operation := operation; otv_target_type := target_type;
               otv_target_ref := target_ref |};
          apq_entry_type := ip_entry_type packet; apq_protocol_kind := ip_protocol_kind packet;
          apq_request_id := or_default (ip_packet_id packet) "unknown";
          apq_session_id := default "unknown" (ip_session_hint packet);
          apq_trace_id := default "unknown" (ip_trace_id packet);
          apq_snapshot_fingerprint := api_snapshot_fingerprint input;
          apq_sensitive_request := sensitive_request |}.

Definition evaluate_with_evaluator (evaluator : AccessPolicyEvaluator)
    (input : AccessPolicyEvaluationInput) (operation target_type target_ref : string)
    (sensitive_request require_local_trusted : bool) (source_fact : option OverrideSourceFact)
    : AccessPolicyEvaluationResult :=
  if negb (auo_authenticated (api_authentication input)) then gate_deny "authentication_required" else
  if match source_fact with
     | Some fact => negb (source_consistent fact)
                    || negb (is_override_source_allowlisted (osf_source_type fact))
     | None => false
     end
  then gate_deny "override_source_invalid" else
  if require_local_trusted && negb (is_local_trusted_daemon_subject input)
  then gate_deny "daemon_peer_identity_required" else
  match build_query_context input operation target_type target_ref sensitive_request with
  | None => gate_deny "malformed_policy_context"
  | Some query => evaluate_query query
  end.

(** What is asked of the gate; the gate without an evaluator denies everything. *)
Inductive AccessOperation :=
| Submit
| TaskQuery (task_ref : string)
| DiagnosticsRequest (command_name : string)
| OverrideRequest (source_fact : OverrideSourceFact).

Definition evaluate_submit (evaluator : option AccessPolicyEvaluator)
    (input : AccessPolicyEvaluationInput) : AccessPolicyEvaluationResult :=
  match evaluator with
  | None => gate_deny "policy_backend_unavailable"
  | Some evaluator =>
      evaluate_with_evaluator evaluator input "submit" "entry" (ip_entry_type (api_packet input))
        false false None
  end.

Definition evaluate_task_query (evaluator : option AccessPolicyEvaluator)
    (input : AccessPolicyEvaluationInput) (task_ref : string) : AccessPolicyEvaluationResult :=
  match evaluator with
  | None => gate_deny "policy_backend_unavailable"
  | Some evaluator =>
      evaluate_with_evaluator evaluator input "task_query" "async_task" task_ref false false None
  end.

Definition evaluate_diagnostics_request (evaluator : option AccessPolicyEvaluator)
    (input : AccessPolicyEvaluationInput) (command_name : string)
    : AccessPolicyEvaluationResult :=
  match evaluator with
  | None => gate_deny "policy_backend_unavailable"
  | Some evaluator =>
      evaluate_with_evaluator evaluator input "diagnostics_read" "diagnostics_command" command_name
        false true None
  end.

Definition evaluate_override_request (evaluator : option AccessPolicyEvaluator)
    (input : AccessPolicyEvaluationInput) (source_fact : OverrideSourceFact)
    : AccessPolicyEvaluationResult :=
  match evaluator with
  | None => gate_deny "policy_backend_unavailable"
  | Some evaluator =>
      evaluate_with_evaluator evaluator input "runtime_override" "runtime_policy_patch"
        (ip_packet_id (api_packet input)) true true (Some source_fact)
  end.

Definition evaluate_operation (evaluator : option AccessPolicyEvaluator)
    (input : AccessPolicyEvaluationInput) (operation : AccessOperation)
    : AccessPolicyEvaluationResult :=
  match operation with
  | Submit => evaluate_submit evaluator input
  | TaskQuery task_ref => evaluate_task_query evaluator input task_ref
  | DiagnosticsRequest command_name => evaluate_diagnostics_request evaluator input command_name
  | OverrideRequest source_fact => evaluate_override_request evaluator input source_fact
  end.

(** ** The evaluators keep the interface *)

#[global] Program Instance snapshot_evaluator (backend : PolicyBackendSnapshot)
    : AccessPolicyEvaluator := {| evaluate_query := snapshot_evaluate backend |}.
Next Obligation.
  intros backend query. unfold snapshot_evaluate.
  destruct (negb (query_consistent query)); [by split|].
  destruct (negb (pbs_backend_available backend)); [by split|]. cbv zeta.
  destruct (_ || _); [done|]. destruct (_ && _); by split.
Qed.

#[global] Program Instance infra_evaluator (policy_evaluate : PolicyQueryContext -> PolicyDecisionRef)
    : AccessPolicyEvaluator := {| evaluate_query := infra_evaluate policy_evaluate |}.
Next Obligation.
  intros policy_evaluate query. unfold infra_evaluate.
  destruct (negb (query_consistent query)); [by split|]. unfold map_policy_manager_decision.
  destruct (negb (decision_is_valid _)); [by split|]. unfold result_exclusive.
  destruct (pdr_decision (policy_evaluate (policy_query query))) eqn:E; simpl; by split.
Qed.

(** ** The gate *)

(** The operation, its target and whether it is sensitive and asks for a local peer. *)
Definition operation_of (input : AccessPolicyEvaluationInput) (operation : AccessOperation)
    : string * string * string :=
  match operation with
  | Submit => ("submit", "entry", ip_entry_type (api_packet input))
  | TaskQuery task_ref => ("task_query", "async_task", task_ref)
  | DiagnosticsRequest command_name => ("diagnostics_read", "diagnostics_command", command_name)
  | OverrideRequest _ => ("runtime_override", "runtime_policy_patch", ip_packet_id (api_packet input))
  end.

(** The packet may ask: it is authenticated, an override names a source that may
    override, and a daemon's packet that reads diagnostics or overrides is of a local peer. *)
Definition may_ask (input : AccessPolicyEvaluationInput) (operation : AccessOperation) : Prop :=
  auo_authenticated (api_authentication input) = true /\
  match operation with
  | OverrideRequest fact =>
      source_consistent fact = true /\
      is_override_source_allowlisted (osf_source_type fact) = true
  | _ => True
  end /\
  match operation with
  | DiagnosticsRequest _ | OverrideRequest _ => is_local_trusted_daemon_subject input = true
  | _ => True
  end.

(** The query is what the packet asks for, in the name of its subject. *)
Definition query_of (input : AccessPolicyEvaluationInput) (operation : AccessOperation)
    (query : AccessPolicyQuery) : Prop :=
  let target := apq_operation_target query in
  operation_of input operation
  = (otv_operation target, otv_target_type target, otv_target_ref target) /\
  apq_subject_identity query = auo_subject_identity (api_authentication input) /\
  apq_entry_type query = ip_entry_type (api_packet input) /\
  apq_protocol_kind query = ip_protocol_kind (api_packet input) /\
  apq_sensitive_request query = match operation with OverrideRequest _ => true | _ => false end /\
  query_consistent query = true.

Lemma or_default_not_empty value fallback :
  is_empty fallback = false -> is_empty (or_default value fallback) = false.
Proof. unfold or_default. by destruct (is_empty value) eqn:E. Qed.

Lemma build_query_spec input operation target_type target_ref sensitive query :
  build_query_context input operation target_type target_ref sensitive = Some query ->
  apq_operation_target query = {| otv_operation := operation; otv_target_type := target_type;
                                  otv_target_ref := target_ref |} /\
  apq_subject_identity query = auo_subject_identity (api_authentication input) /\
  apq_entry_type query = ip_entry_type (api_packet input) /\
  apq_protocol_kind query = ip_protocol_kind (api_packet input) /\
  apq_sensitive_request query = sensitive /\ query_consistent query = true.
Proof.
  unfold build_query_context. destruct (_ || _) eqn:E; [done|]. intros [= <-].
  rewrite !orb_false_iff in E. destruct E as [[[[[E1 E2] E3] E4] E5] E6].
  split_and!; [done..|]. unfold query_consistent, target_consistent. simpl.
  by rewrite E1, E2, E3, E4, E5, E6, or_default_not_empty.
Qed.

Lemma deny_exclusive reason : result_exclusive (gate_deny reason) /\ denied (gate_deny reason) = true.
Proof. by split; [split|]. Qed.

Lemma build_query_none input operation target_type target_ref sensitive :
  build_query_context input operation target_type target_ref sensitive = None ->
  is_empty operation = true \/ is_empty target_type = true \/ is_empty target_ref = true \/
  is_empty (si_actor_ref (auo_subject_identity (api_authentication input))) = true \/
  is_empty (ip_entry_type (api_packet input)) = true \/
  is_empty (ip_protocol_kind (api_packet input)) = true.
Proof.
  unfold build_query_context. destruct (_ || _) eqn:E; [|done]. intros _.
  rewrite !orb_true_iff in E. tauto.
Qed.

Definition source_of (operation : AccessOperation) : option OverrideSourceFact :=
  match operation with OverrideRequest fact => Some fact | _ => None end.

Definition local_only (operation : AccessOperation) : bool :=
  match operation with DiagnosticsRequest _ | OverrideRequest _ => true | _ => false end.

(** The four entries of the gate, as one. *)
Lemma evaluate_operation_with ev input operation :
  evaluate_operation (Some ev) input operation =
  let '(name, target_type, target_ref) := operation_of input operation in
  evaluate_with_evaluator ev input name target_type target_ref
    (match operation with OverrideRequest _ => true | _ => false end)
    (local_only operation) (source_of operation).
Proof. by destruct operation. Qed.

Lemma may_ask_spec input operation :
  may_ask input operation <->
  auo_authenticated (api_authentication input) = true /\
  match source_of operation with
  | Some fact => negb (source_consistent fact)
                 || negb (is_override_source_allowlisted (osf_source_type fact))
  | None => false
  end = false /\
  local_only operation && negb (is_local_trusted_daemon_subject input) = false.
Proof.
  unfold may_ask. destruct operation; simpl;
    rewrite ?orb_false_iff, ?negb_false_iff; tauto.
Qed.

(** The gate denies, or passes on what the evaluator says of the packet's query. *)
Lemma evaluate_operation_cases evaluator input operation :
  (exists reason, evaluate_operation evaluator input operation = gate_deny reason /\
     (evaluator = None \/ ~ may_ask input operation \/
      forall query, ~ query_of input operation query)) \/
  (exists ev query, evaluator = Some ev /\ may_ask input operation /\
     query_of input operation query /\
     evaluate_operation evaluator input operation = evaluate_query query).
Proof.
  destruct evaluator as [ev|];
    [|left; exists "policy_backend_unavailable"; split; [by destruct operation|by left]].
  rewrite evaluate_operation_with. pose proof (may_ask_spec input operation) as Hask. unfold query_of.
  destruct (operation_of input operation) as [[name target_type] target_ref].
  unfold evaluate_with_evaluator.
  destruct (auo_authenticated (api_authentication input)) eqn:Ea; cbn [negb];
    [|left; eexists; split; [reflexivity|]; right; left; rewrite Hask; intros (? & _); congruence].
  destruct (match source_of operation with Some _ => _ | None => false end) eqn:Es;
    [left; eexists; split; [reflexivity|]; right; left; rewrite Hask; intros (_ & ? & _); congruence|].
  destruct (local_only operation && _) eqn:El;
    [left; eexists; split; [reflexivity|]; right; left; rewrite Hask; intros (_ & _ & ?); congruence|].
  destruct (build_query_context _ _ _ _ _) as [query|] eqn:E.
  - right. apply build_query_spec in E as (Ht & Hs & He & Hp & Hsens & Hc).
    exists ev, query. rewrite Ht, Hask. done.
  - left. eexists. split; [reflexivity|]. right. right. intros query ([= Hn Htt Htr] & Hs & He & Hp & _ & Hc).
    apply build_query_none in E. unfold query_consistent, target_consistent in Hc.
    rewrite <-Hn, <-Htt, <-Htr, Hs, He, Hp, !andb_true_iff, !negb_true_iff in Hc.
    decompose [and] Hc. decompose [or] E; congruence.
Qed.

(** ** The security policy as the evaluator *)

Lemma lowercase_app s1 s2 : lowercase_copy (s1 +:+ s2) = lowercase_copy s1 +:+ lowercase_copy s2.
Proof. induction s1 as [|ch s1 IH]; [done|]. rewrite string_cons_app. simpl. by rewrite IH. Qed.

(** The policy knows no domain for what access asks. *)
Lemma access_query_domain input operation query :
  query_of input operation query ->
  map_query_domain (policy_query query) = PolicyDomain.Unspecified.
Proof.
  intros (Ht & _). unfold map_query_domain, policy_query, build_policy_module. simpl.
  destruct operation; injection Ht as _ <- _; reflexivity.
Qed.

Lemma access_no_rule_matches input operation query rule :
  query_of input operation query -> rule_matches (policy_query query) rule = false.
Proof.
  intros H%access_query_domain. unfold rule_matches. rewrite H.
  by destruct (is_default_rule rule).
Qed.

Lemma policy_query_complete query :
  query_consistent query = true -> has_required_fields (policy_query query) = true.
Proof.
  unfold query_consistent, target_consistent, has_required_fields, policy_query. simpl.
  rewrite !andb_true_iff. tauto.
Qed.

Section Policy.
Context {sorting : StdSort} (active_snapshot : PolicySnapshot).

Definition policy_evaluator : AccessPolicyEvaluator :=
  infra_evaluator (fun query => project query active_snapshot).

(** The default rule decides what access asks. *)
Lemma access_decision query input operation :
  snapshot_is_valid active_snapshot = true -> query_of input operation query ->
  let rules := psn_effective_rules active_snapshot in
  (exists rule, best_with compare_default_rules is_default_rule rules rule /\
     pdr_decision (project (policy_query query) active_snapshot)
     = effect_decision (prd_effect rule)) \/
  ((forall rule, rule ∈ rules -> is_default_rule rule = false) /\
   pdr_decision (project (policy_query query) active_snapshot) = PolicyDecision.Deny).
Proof.
  intros Hs Hq. pose proof Hq as (_ & _ & _ & _ & _ & Hc). apply policy_query_complete in Hc.
  destruct (project_spec (policy_query query) active_snapshot Hs Hc)
    as [(rule & Hd & Hdec & _)|(Hu & Hdec & _)].
  - left. exists rule. split; [|done]. destruct Hd as [(_ & Hm & _)|[_ Hd]]; [|done].
    by rewrite (access_no_rule_matches _ _ _ _ Hq) in Hm.
  - right. split; [|done]. intros rule Hin. by destruct (Hu rule Hin).
Qed.

End Policy.

Lemma effect_decision_allow effect :
  effect_decision effect = PolicyDecision.Allow <->
  effect = PolicyEffect.Allow \/ effect = PolicyEffect.Observe.
Proof. unfold effect_decision. destruct effect; simpl; intuition congruence. Qed.

Lemma mapped_allowed decision :
  decision_is_valid decision = true ->
  apr_allowed (map_policy_manager_decision decision) = true <->
  pdr_decision decision = PolicyDecision.Allow.
Proof.
  intros Hv. unfold map_policy_manager_decision. rewrite Hv. cbn [negb].
  by destruct (pdr_decision decision) eqn:E.
Qed.

(** ** Theorems *)

(** The gate's answer is one of allowed, denied and to be confirmed, and its proof says the
    same. It is other than a denial only where the packet is authenticated, an override comes from
    a source that may override, a daemon's diagnostics and overrides from a local peer, and
    the evaluator answered so for the operation, the target and the authenticated subject. *)
Theorem access_gate_exact evaluator input operation :
  let result := evaluate_operation evaluator input operation in
  result_exclusive result /\
  (denied result = false ->
   exists ev query, evaluator = Some ev /\ may_ask input operation /\
     query_of input operation query /\ result = evaluate_query query) /\
  (forall ev, evaluator = Some ev -> may_ask input operation ->
     (exists query, query_of input operation query) ->
     exists query, query_of input operation query /\ result = evaluate_query query).
Proof.
  cbv zeta. destruct (evaluate_operation_cases evaluator input operation)
    as [(reason & -> & Hwhy)|(ev & query & -> & Hask & Hq & ->)].
  - destruct (deny_exclusive reason) as [Hex Hden]. split_and!; [done|congruence|].
    intros ev -> Hask [query Hq]. destruct Hwhy as [?|[?|Hno]]; [done..|]. by destruct (Hno query).
  - split_and!; [apply evaluate_exclusive|by eauto 10|]. intros ev' [= <-]. by eauto.
Qed.

(** Where the gate asks the security policy, no rule of the policy speaks about what access
    asks: the query is of no domain the policy knows. The default rule alone decides, for every
    subject and operation alike, and without one the gate denies. *)
Theorem access_decided_by_default (sorting : StdSort) active_snapshot input operation query :
  0 <= psn_generation active_snapshot -> snapshot_is_valid active_snapshot = true ->
  may_ask input operation -> query_of input operation query ->
  let rules := psn_effective_rules active_snapshot in
  (forall rule, rule ∈ rules -> rule_matches (policy_query query) rule = false) /\
  (apr_allowed (evaluate_operation (Some (policy_evaluator active_snapshot)) input operation) = true
   <-> exists rule, best_with compare_default_rules is_default_rule rules rule /\
         (prd_effect rule = PolicyEffect.Allow \/ prd_effect rule = PolicyEffect.Observe)).
Proof.
  intros Hg Hs Hask Hq rules. split; [intros rule _; by eapply access_no_rule_matches|].
  destruct (evaluate_operation_cases (Some (policy_evaluator active_snapshot)) input operation)
    as [(reason & _ & [?|[?|Hno]])|(ev & q & [= <-] & _ & Hq' & ->)]; [done..|by destruct (Hno query)|].
  simpl. unfold infra_evaluate. pose proof Hq' as (_ & _ & _ & _ & _ & ->). cbn [negb].
  rewrite mapped_allowed by by apply project_valid.
  destruct (access_decision active_snapshot q input operation Hs Hq')
    as [(rule & Hbest & ->)|[Hnone ->]].
  - rewrite effect_decision_allow. split; [by eauto|]. intros (rule' & Hbest' & He).
    pose proof (tied_rules_agree (policy_query q) rule rule'
      (or_intror (best_with_tied _ _ _ _ _ Hbest Hbest'))) as ->. done.
  - split; [done|]. intros (rule & (Hin & Hd & _) & _). by rewrite (Hnone _ Hin) in Hd.
Qed.

(** With the policy that the loader makes of the configuration, the gate lets an authenticated
    packet do what it asks exactly if the configured default effect is to allow or to
    observe and the policy is switched on. *)
Theorem access_under_loaded_policy (sorting : StdSort) get_typed std_hash generated_at inputs
    max_history dry_run_required threshold :
  resolve_inputs get_typed = Some inputs -> generated_at <> "" -> 0 <= max_history ->
  exists bundle state result,
    load_from_sources get_typed std_hash generated_at = Some bundle /\
    run_call 3 (LoadPolicy bundle) (new_policy max_history dry_run_required threshold)
    = (state, inr (OpResult result)) /\
    forall input operation query, may_ask input operation -> query_of input operation query ->
      apr_allowed (evaluate_operation (Some (policy_evaluator (pst_current (pos_store state))))
        input operation)
      = pli_enabled inputs && (bool_decide (pli_default_effect_name inputs = "allow")
                               || bool_decide (pli_default_effect_name inputs = "observe")).
Proof.
  intros Hin Hnow Hmax.
  destruct (load_fresh std_hash generated_at inputs max_history dry_run_required threshold Hmax Hnow
    (inputs_threshold _ _ Hin)) as (state & result & Hrun & _ & Hv & Hgen & Hrules).
  exists (loaded_bundle std_hash generated_at inputs), state, result.
  split; [unfold load_from_sources; by rewrite Hin|]. split; [done|].
  intros input operation query Hask Hq.
  destruct (evaluate_operation_cases
    (Some (policy_evaluator (pst_current (pos_store state)))) input operation)
    as [(reason & _ & [?|[?|Hno]])|(ev & q & [= <-] & _ & Hq' & ->)]; [done..|by destruct (Hno query)|].
  simpl. unfold infra_evaluate. pose proof Hq' as (_ & _ & _ & _ & _ & Hc). rewrite Hc. cbn [negb].
  pose proof (project_two (policy_query q) _ _ _ Hrules eq_refl eq_refl Hv (policy_query_complete _ Hc))
    as Hd.
  rewrite (access_no_rule_matches _ _ _ _ Hq') in Hd.
  apply Bool.eq_iff_eq_true. rewrite mapped_allowed by (apply project_valid; lia).
  rewrite Hd, effect_decision_allow. simpl.
  destruct (pli_enabled inputs); cbn [andb]; [|by split; [intros [?|?]|]].
  unfold parse_effect. rewrite orb_true_iff, !bool_decide_eq_true.
  destruct (bool_decide_reflect (pli_default_effect_name inputs = "allow")) as [->|]; [by split; auto|].
  destruct (bool_decide_reflect (pli_default_effect_name inputs = "require_confirmation")) as [->|];
    [by split; intros [?|?]|].
  destruct (bool_decide_reflect (pli_default_effect_name inputs = "observe")) as [->|]; [by split; auto|].
  by split; intros [?|?].
Qed.

(** ** Examples *)

(** A diagnostics request of a local peer, and a backend that allows it. *)
Definition sample_input (entry_type : string) (subject : SubjectIdentity)
    : AccessPolicyEvaluationInput :=
  {| api_authentication :=
       {| auo_authenticated := true; auo_rejected := false; auo_chain_ref := "local_trusted";
          auo_subject_identity := subject; auo_challenge := None; auo_failure_reason := None |};
     api_packet := packet_from entry_type ""; api_snapshot_fingerprint := None |}.

Definition sample_backend : PolicyBackendSnapshot :=
  {| pbs_backend_available := true; pbs_allow_submit := false; pbs_allow_task_query := false;
     pbs_allow_diagnostics := true; pbs_allow_override := false;
     pbs_require_confirmation_for_override := false; pbs_decision_ref := "policy://sample" |}.

Lemma access_gate_exact_witness :
  let result := evaluate_operation (Some (snapshot_evaluator sample_backend))
    (sample_input "daemon" (local_subject 1000)) (DiagnosticsRequest "health") in
  apr_allowed result = true /\
  exists ev query, Some (snapshot_evaluator sample_backend) = Some ev /\
    may_ask (sample_input "daemon" (local_subject 1000)) (DiagnosticsRequest "health") /\
    query_of (sample_input "daemon" (local_subject 1000)) (DiagnosticsRequest "health") query /\
    result = evaluate_query query.
Proof.
  split; [vm_compute; reflexivity|].
  apply (access_gate_exact (Some (snapshot_evaluator sample_backend))
    (sample_input "daemon" (local_subject 1000)) (DiagnosticsRequest "health")).
  vm_compute. reflexivity.
Defined.

(** What access asks when a subject submits. *)
Definition sample_access_query (subject : SubjectIdentity) : AccessPolicyQuery :=
  {| apq_subject_identity := subject;
     apq_operation_target := {| otv_operation := "submit"; otv_target_type := "entry";
                                otv_target_ref := "gateway" |};
     apq_entry_type := "gateway"; apq_protocol_kind := "http_unary"; apq_request_id := "p1";
     apq_session_id := "unknown"; apq_trace_id := "unknown"; apq_snapshot_fingerprint := None;
     apq_sensitive_request := false |}.

Lemma access_decided_by_default_witness :
  apr_allowed (evaluate_operation
    (Some (policy_evaluator (sorting := merging_sort)
      (sample_snapshot [sample_rule "r1" "*" PolicyEffect.Deny 1;
                        sample_default "d1" "any" PolicyEffect.Observe])))
    (sample_input "gateway" (sample_subject "mallory")) Submit) = true.
Proof.
  apply (access_decided_by_default merging_sort _ _ _ (sample_access_query (sample_subject "mallory"))).
  - vm_compute. discriminate.
  - reflexivity.
  - done.
  - done.
  - exists (sample_default "d1" "any" PolicyEffect.Observe). split; [|by right].
    split; [right; by left|]. split; [done|]. intros other Hin Hd.
    apply elem_of_cons in Hin as [->|Hin%list_elem_of_singleton]; [done|]. subst. done.
Defined.

Lemma access_under_loaded_policy_witness :
  exists state, apr_allowed (evaluate_operation
    (Some (policy_evaluator (sorting := merging_sort) (pst_current (pos_store state))))
    (sample_input "gateway" (sample_subject "mallory")) Submit) = false.
Proof.
  edestruct (access_under_loaded_policy merging_sort (fun _ _ => None) (fun _ => 255)
    "2026-01-01T00:00:00Z") as (bundle & state & result & _ & _ & Hd);
    [vm_compute; reflexivity|done|..].
  2:{ exists state.
      rewrite (Hd (sample_input "gateway" (sample_subject "mallory")) Submit
        (sample_access_query (sample_subject "mallory"))); [vm_compute; reflexivity|done|done]. }
  instantiate (1 := 16). lia.
  Unshelve. all: exact true || exact 3.
Defined.
