(* ===== verification/RequestChecks.v ===== *)
(** * Requests of the access layer

    access/src/RequestValidator.cpp (what a packet and its context must look like),
    AccessIdGenerator.cpp and RequestNormalizer.cpp (the AgentRequest made of it). The clock
    is an argument, in milliseconds of the epoch; it counts nanoseconds in 64 bits, so a
    deadline added to it does not overflow. *)

From S2P Require Import Prelude Text CheckpointContracts RecoveryContracts ToolContracts AgentContracts AccessTypes.

(** ** Validation *)

Record RequestValidationResult := {
  rvr_accepted : bool;
  rvr_error : option AccessError;
}.

Definition validation_failed (code : AccessErrorCode) (detail reason : string) : AccessError :=
  make_access_error code detail None reason.

Definition has_char (ch : Ascii.ascii) (value : string) : bool :=
  negb (all_chars (fun c => negb (bool_decide (c = ch))) value).

Definition carriage_return : Ascii.ascii := "013"%char.

Definition contains_newline_or_cr (value : string) : bool :=
  has_char newline value || has_char carriage_return value.

Definition is_header_key_char (ch : Ascii.ascii) : bool :=
  is_alnum ch || bool_decide (ch = "-"%char) || bool_decide (ch = "_"%char)
  || bool_decide (ch = "."%char).

Definition text_size (value : string) : Z := Z.of_nat (String.length value).

Definition is_allowed_protocol (allowed_protocols : list string) (protocol_kind : string) : bool :=
  if is_empty protocol_kind then false else
  if bool_decide (allowed_protocols = []) then true else
  bool_decide (protocol_kind ∈ allowed_protocols).

Definition validate_payload_limits (publish_view : AccessPublishView)
    (request : RuntimeDispatchRequest) : option AccessError :=
  if (0 <? apv_max_payload_bytes publish_view)
     && (apv_max_payload_bytes publish_view <? text_size (ip_payload (dr_packet request)))
  then Some (validation_failed AccessErrorCode.PayloadTooLarge "payload exceeds max_payload_bytes"
               "payload_size_limit_exceeded") else
  match dr_request_context request !! "user_input" with
  | Some user_input =>
      if (0 <? apv_max_user_input_bytes publish_view)
         && (apv_max_user_input_bytes publish_view <? text_size user_input)
      then Some (validation_failed AccessErrorCode.PayloadTooLarge
                   "user_input exceeds max_user_input_bytes" "user_input_size_limit_exceeded")
      else None
  | None => None
  end.

Definition validate_header (key value : string) : option AccessError :=
  let malformed detail reason := Some (validation_failed AccessErrorCode.MalformedInput detail reason) in
  if is_empty key
  then malformed "request_context key must be non-empty" "malformed_request_context_key" else
  if (128 <? text_size key) || (4096 <? text_size value)
  then malformed "request_context key/value exceeds max length" "request_context_too_large" else
  if contains_newline_or_cr key || contains_newline_or_cr value
  then malformed "request_context key/value contains CRLF characters"
         "request_context_header_injection_detected" else
  if negb (all_chars is_header_key_char key)
  then malformed "request_context key contains unsupported characters"
         "request_context_key_charset_invalid" else
  None.

(** The loop over the map, in the order of the keys. *)
Fixpoint validate_headers (headers : list (string * string)) : option AccessError :=
  match headers with
  | [] => None
  | (key, value) :: rest =>
      match validate_header key value with
      | Some error => Some error
      | None => validate_headers rest
      end
  end.

Definition validate_packet (publish_view : AccessPublishView) (allowed_protocols : list string)
    (request : RuntimeDispatchRequest) : RequestValidationResult :=
  let packet := dr_packet request in
  let reject error := {| rvr_accepted := false; rvr_error := Some error |} in
  if is_empty (ip_packet_id packet) || is_empty (ip_entry_type packet)
     || is_empty (ip_protocol_kind packet)
  then reject (validation_failed AccessErrorCode.ValidationRejected
         "packet_id/entry_type/protocol_kind must be non-empty" "missing_required_packet_metadata") else
  if is_empty (si_actor_ref (dr_subject_identity request))
  then reject (validation_failed AccessErrorCode.ValidationRejected
         "subject actor_ref must be non-empty" "missing_subject_actor_ref") else
  if negb (is_allowed_protocol allowed_protocols (ip_protocol_kind packet))
  then reject (validation_failed AccessErrorCode.UnsupportedProtocol
         "protocol_kind is not in access allowed protocol set" "unsupported_protocol_kind") else
  match validate_payload_limits publish_view request with
  | Some error => reject error
  | None =>
      match validate_headers (in_key_order (dr_request_context request)) with
      | Some error => reject error
      | None => {| rvr_accepted := true; rvr_error := None |}
      end
  end.

(** ** Normalization *)

(** [AccessIdGenerator::generate] *)
Definition generate_stable_id (prefix : string) (request : RuntimeDispatchRequest) (ordinal : Z)
    : string :=
  prefix +:+ (":" +:+ (ip_entry_type (dr_packet request) +:+ (":" +:+
    (ip_packet_id (dr_packet request) +:+ (":" +:+ to_string ordinal))))).

(** The value of the key if there is one that is not empty. *)
Definition context_value (request : RuntimeDispatchRequest) (key : string) : option string :=
  match dr_request_context request !! key with
  | Some value => if is_empty value then None else Some value
  | None => None
  end.

Record TraceIdentityBundle := {
  tib_request_id : string;
  tib_session_id : string;
  tib_trace_id : string;
}.

Definition ensure_trace_ids (request : RuntimeDispatchRequest) : TraceIdentityBundle :=
  {| tib_request_id := default (generate_stable_id "req" request 1) (context_value request "request_id");
     tib_session_id := default (generate_stable_id "sess" request 2) (context_value request "session_id");
     tib_trace_id := default (generate_stable_id "trace" request 3) (context_value request "trace_id") |}.

(** access/src/AccessSemanticKinds.h: the entry kinds by name. *)
Definition map_request_channel (entry_type : string) : RequestChannel :=
  if bool_decide (entry_type = "cli") then RequestChannel.Cli else
  if bool_decide (entry_type = "gateway") then RequestChannel.Gateway else
  if bool_decide (entry_type = "daemon") then RequestChannel.Daemon else
  if bool_decide (entry_type = "simulator") then RequestChannel.Simulator else
  RequestChannel.Unspecified.

Definition request_deadline (request : RuntimeDispatchRequest) (created_at_ms : Z) : option Z :=
  let from_access :=
    match dr_access_deadline request with
    | Some deadline => if is_empty deadline then None else stoll deadline
    | None => None
    end in
  match from_access with
  | Some deadline => Some deadline
  | None =>
      match ip_deadline_ms (dr_packet request) with
      | Some deadline_ms => if 0 <? deadline_ms then Some (created_at_ms + deadline_ms) else None
      | None => None
      end
  end.

Definition project_agent_request (dispatch_deadline_ms created_at_ms : Z)
    (request : RuntimeDispatchRequest) (ids : TraceIdentityBundle) : AgentRequest :=
  let deadline_at := request_deadline request created_at_ms in
  {| ar_request_id := Some (tib_request_id ids);
     ar_session_id := Some (tib_session_id ids);
     ar_trace_id := Some (tib_trace_id ids);
     ar_user_input := Some (ip_payload (dr_packet request));
     ar_request_channel := Some (map_request_channel (ip_entry_type (dr_packet request)));
     ar_created_at := Some created_at_ms;
     ar_goal_hint := context_value request "goal_hint";
     ar_domain_context := context_value request "domain_context";
     ar_constraint_set := context_value request "constraint_set";
     ar_approval_policy_hint := context_value request "approval_policy_hint";
     ar_runtime_budget := None;
     ar_timeout_ms :=
       match deadline_at with
       | Some _ => None
       | None => if 0 <? dispatch_deadline_ms then Some (u32 dispatch_deadline_ms) else None
       end;
     ar_deadline_at := deadline_at;
     ar_priority := None;
     ar_idempotency_key := context_value request "idempotency_key";
     ar_locale := context_value request "locale";
     ar_client_capabilities :=
       if is_empty (dr_client_capability_view request) then None
       else Some (dr_client_capability_view request);
     ar_tags := None |}.

Definition build_publish_context (request : RuntimeDispatchRequest) (ids : TraceIdentityBundle)
    : PublishEnvelope :=
  {| pe_request_id := tib_request_id ids;
     pe_result_id := "pending-result:" +:+ tib_request_id ids;
     pe_session_id := tib_session_id ids; pe_trace_id := tib_trace_id ids;
     pe_channel_ref := ip_entry_type (dr_packet request) +:+ ("://" +:+
       ip_protocol_kind (dr_packet request));
     pe_protocol_kind := ip_protocol_kind (dr_packet request); pe_agent_result := None;
     pe_protocol_status_hint := "202 Accepted"; pe_protocol_metadata := "normalizer_seed";
     pe_is_final := false; pe_payload := ""; pe_receipt := None |}.

Definition with_agent_request (agent_request : AgentRequest)
    (request_context : gmap string string) (request : RuntimeDispatchRequest)
    : RuntimeDispatchRequest :=
  {| dr_packet := dr_packet request; dr_subject_identity := dr_subject_identity request;
     dr_decision_proof := dr_decision_proof request; dr_agent_request := agent_request;
     dr_client_capability_view := dr_client_capability_view request;
     dr_async_allowed := dr_async_allowed request;
     dr_stream_requested := dr_stream_requested request;
     dr_request_context := request_context; dr_access_deadline := dr_access_deadline request |}.

Record RequestNormalizationOutput := {
  rno_normalized : bool;
  rno_runtime_request : RuntimeDispatchRequest;
  rno_publish_context : option PublishEnvelope;
  rno_agent_request : AgentRequest;
  rno_error : option AccessError;
}.

Definition normalize (dispatch_deadline_ms now_ms : Z) (request : RuntimeDispatchRequest)
    : RequestNormalizationOutput :=
  let packet := dr_packet request in
  let reject detail reason :=
    {| rno_normalized := false; rno_runtime_request := request; rno_publish_context := None;
       rno_agent_request := empty_agent_request;
       rno_error := Some (validation_failed AccessErrorCode.ValidationRejected detail reason) |} in
  if is_empty (ip_packet_id packet) || is_empty (ip_entry_type packet)
     || is_empty (ip_protocol_kind packet)
  then reject "request normalizer requires packet_id/entry_type/protocol_kind"
         "normalizer_missing_packet_metadata" else
  if is_empty (si_actor_ref (dr_subject_identity request))
  then reject "request normalizer requires non-empty actor_ref"
         "normalizer_missing_subject_actor_ref" else
  let ids := ensure_trace_ids request in
  let agent_request := project_agent_request dispatch_deadline_ms now_ms request ids in
  let context :=
    <["trace_id" := tib_trace_id ids]> (<["session_id" := tib_session_id ids]>
      (<["request_id" := tib_request_id ids]> (dr_request_context request))) in
  let context :=
    match context_value request "constraint_set" with
    | Some constraint_set => <["constraint_set" := constraint_set]> context
    | None => context
    end in
  {| rno_normalized := true;
     rno_runtime_request :=
       with_agent_request agent_request (<["normalizer_ready" := "true"]> context) request;
     rno_publish_context := Some (build_publish_context request ids);
     rno_agent_request := agent_request; rno_error := None |}.

(** ** What the validator accepts *)

(** A header the validator lets through: a short name of plain characters, and a value that
    does not end the line it may be written on. *)
Record header_ok (key value : string) : Prop := {
  ho_key : key <> "";
  ho_sizes : text_size key <= 128 /\ text_size value <= 4096;
  ho_value : contains_newline_or_cr value = false;
  ho_chars : all_chars is_header_key_char key = true;
}.

Definition within_limit (limit size : Z) : Prop := 0 < limit -> size <= limit.

Record packet_ok (publish_view : AccessPublishView) (allowed_protocols : list string)
    (request : RuntimeDispatchRequest) : Prop := {
  po_metadata : ip_packet_id (dr_packet request) <> "" /\ ip_entry_type (dr_packet request) <> "" /\
                ip_protocol_kind (dr_packet request) <> "";
  po_actor : si_actor_ref (dr_subject_identity request) <> "";
  po_protocol : allowed_protocols = [] \/ ip_protocol_kind (dr_packet request) ∈ allowed_protocols;
  po_payload : within_limit (apv_max_payload_bytes publish_view)
                 (text_size (ip_payload (dr_packet request)));
  po_user_input user_input : dr_request_context request !! "user_input" = Some user_input ->
    within_limit (apv_max_user_input_bytes publish_view) (text_size user_input);
  po_headers key value : dr_request_context request !! key = Some value -> header_ok key value;
}.

Lemma has_char_false ch s :
  has_char ch s = false <-> all_chars (fun c => negb (bool_decide (c = ch))) s = true.
Proof. unfold has_char. by rewrite negb_false_iff. Qed.

(** A name of header characters holds no line end, so the test for one decides only
    about the value. *)
Lemma header_key_one_line key :
  all_chars is_header_key_char key = true -> contains_newline_or_cr key = false.
Proof.
  intros H. unfold contains_newline_or_cr. rewrite orb_false_iff, !has_char_false.
  split; eapply all_chars_impl; [|exact H| |exact H]; intros ch Hch; rewrite negb_true_iff;
    apply bool_decide_eq_false; intros ->; done.
Qed.

Lemma validate_header_none key value : validate_header key value = None <-> header_ok key value.
Proof.
  unfold validate_header. destruct (is_empty key) eqn:Hk.
  { apply is_empty_true in Hk. split; [done|]. by intros []. }
  apply is_empty_false in Hk. destruct (_ || _) eqn:Hs.
  { split; [done|]. intros [_ [??] _ _]. apply orb_true_iff in Hs. rewrite !Z.ltb_lt in Hs. lia. }
  apply orb_false_iff in Hs as [Hs1 Hs2]. apply Z.ltb_ge in Hs1, Hs2.
  destruct (contains_newline_or_cr key || contains_newline_or_cr value) eqn:Hn.
  { split; [done|]. intros [_ _ Hv Hc]. rewrite (header_key_one_line _ Hc), Hv in Hn. done. }
  apply orb_false_iff in Hn as [_ Hn].
  destruct (all_chars is_header_key_char key) eqn:Hc; cbn [negb].
  - split; [by constructor|done].
  - split; [done|]. intros [_ _ _ H]. congruence.
Qed.

Lemma validate_headers_none headers :
  validate_headers headers = None <-> forall key value, (key, value) ∈ headers -> header_ok key value.
Proof.
  induction headers as [|[key value] rest IH]; cbn [validate_headers].
  - split; [|done]. intros _ key value H. by apply not_elem_of_nil in H.
  - destruct (validate_header key value) eqn:E.
    + split; [done|]. intros H. specialize (H key value ltac:(left)).
      apply validate_header_none in H. congruence.
    + apply validate_header_none in E. rewrite IH. setoid_rewrite elem_of_cons. naive_solver.
Qed.

Lemma limit_test limit size :
  (0 <? limit) && (limit <? size) = false <-> within_limit limit size.
Proof. unfold within_limit. rewrite andb_false_iff, !Z.ltb_ge. lia. Qed.

Lemma payload_limits_none publish_view request :
  validate_payload_limits publish_view request = None <->
  within_limit (apv_max_payload_bytes publish_view) (text_size (ip_payload (dr_packet request))) /\
  (forall user_input, dr_request_context request !! "user_input" = Some user_input ->
     within_limit (apv_max_user_input_bytes publish_view) (text_size user_input)).
Proof.
  unfold validate_payload_limits. rewrite <-limit_test.
  destruct (_ && _); [by split; [|intros [? _]]|].
  destruct (dr_request_context request !! "user_input") as [user_input|]; [|by split; [split|]].
  destruct (_ && _) eqn:E.
  - split; [done|]. intros [_ H]. specialize (H _ eq_refl). apply limit_test in H. congruence.
  - apply limit_test in E. split; [|done]. intros _. split; [done|]. by intros ? [= <-].
Qed.

Lemma allowed_protocol allowed_protocols protocol_kind :
  protocol_kind <> "" ->
  is_allowed_protocol allowed_protocols protocol_kind = true <->
  allowed_protocols = [] \/ protocol_kind ∈ allowed_protocols.
Proof.
  intros H. unfold is_allowed_protocol. rewrite (proj2 (is_empty_false _) H).
  destruct (bool_decide (allowed_protocols = [])) eqn:E.
  - apply bool_decide_eq_true in E. naive_solver.
  - apply bool_decide_eq_false in E. rewrite bool_decide_eq_true. naive_solver.
Qed.

Lemma metadata_test request :
  is_empty (ip_packet_id (dr_packet request)) || is_empty (ip_entry_type (dr_packet request))
  || is_empty (ip_protocol_kind (dr_packet request)) = false <->
  ip_packet_id (dr_packet request) <> "" /\ ip_entry_type (dr_packet request) <> "" /\
  ip_protocol_kind (dr_packet request) <> "".
Proof. rewrite !orb_false_iff, !is_empty_false. tauto. Qed.

Lemma headers_of_map (headers : gmap string string) :
  validate_headers (in_key_order headers) = None <->
  forall key value, headers !! key = Some value -> header_ok key value.
Proof.
  rewrite validate_headers_none. split; intros H key value Hin; apply H.
  - by rewrite in_key_order_perm, elem_of_map_to_list.
  - by rewrite in_key_order_perm, elem_of_map_to_list in Hin.
Qed.

(** The validator either accepts, with no error, or names one. *)
Lemma validate_packet_cases publish_view allowed_protocols request :
  (validate_packet publish_view allowed_protocols request =
     {| rvr_accepted := true; rvr_error := None |} /\
   packet_ok publish_view allowed_protocols request) \/
  (exists error, validate_packet publish_view allowed_protocols request =
     {| rvr_accepted := false; rvr_error := Some error |} /\
   ~ packet_ok publish_view allowed_protocols request).
Proof.
  unfold validate_packet. destruct (is_empty _ || _ || _) eqn:Hm.
  { right. eexists. split; [done|]. intros [H _ _ _ _ _]. apply metadata_test in H. congruence. }
  apply metadata_test in Hm. destruct (is_empty (si_actor_ref _)) eqn:Ha.
  { right. eexists. split; [done|]. intros []. by apply is_empty_true in Ha. }
  apply is_empty_false in Ha.
  pose proof (allowed_protocol allowed_protocols (ip_protocol_kind (dr_packet request)) ltac:(tauto)) as Hp.
  destruct (is_allowed_protocol _ _); cbn [negb].
  2: { right. eexists. split; [done|]. intros []. by apply Hp in po_protocol0. }
  pose proof (payload_limits_none publish_view request) as Hl.
  destruct (validate_payload_limits publish_view request).
  { right. eexists. split; [done|]. intros []. by discriminate (proj2 Hl ltac:(done)). }
  pose proof (headers_of_map (dr_request_context request)) as Hh.
  destruct (validate_headers _).
  { right. eexists. split; [done|]. intros []. by discriminate (proj2 Hh ltac:(done)). }
  left. split; [done|]. apply proj1 in Hl, Hh. specialize (Hl eq_refl). destruct Hl, Hp.
  constructor; naive_solver.
Qed.

(** ** What the normalizer makes *)

Definition entry_kinds : list string := ["cli"; "gateway"; "daemon"; "simulator"].

(** The public request the runtime's guard admits. *)
Record dispatchable (dispatch_deadline_ms now_ms : Z) (request : RuntimeDispatchRequest) : Prop := {
  dsp_input : ip_payload (dr_packet request) <> "";
  dsp_entry : ip_entry_type (dr_packet request) ∈ entry_kinds;
  dsp_now : 0 < now_ms;
  dsp_deadline t : request_deadline request now_ms = Some t -> 0 < t /\ now_ms <= t;
  dsp_timeout : request_deadline request now_ms = None -> 0 < dispatch_deadline_ms ->
                u32 dispatch_deadline_ms <> 0;
}.

Lemma context_value_some request key value :
  context_value request key = Some value <->
  dr_request_context request !! key = Some value /\ value <> "".
Proof.
  unfold context_value. destruct (dr_request_context request !! key) as [v|]; [|naive_solver].
  destruct (is_empty v) eqn:E; [apply is_empty_true in E|apply is_empty_false in E]; naive_solver.
Qed.

Lemma context_value_not_empty request key : context_value request key <> Some "".
Proof. rewrite context_value_some. naive_solver. Qed.

Lemma stable_id_not_empty prefix request ordinal :
  prefix <> "" -> generate_stable_id prefix request ordinal <> "".
Proof. by destruct prefix. Qed.

Lemma context_or_not_empty request key fallback :
  fallback <> "" -> non_empty (Some (default fallback (context_value request key))).
Proof.
  intros H. unfold non_empty. eexists. split; [done|].
  destruct (context_value request key) eqn:E; [|done]. by apply context_value_some in E as [_ ?].
Qed.

Lemma map_request_channel_known entry_type :
  (exists channel, Some (map_request_channel entry_type) = Some channel /\
     channel <> RequestChannel.Unspecified /\ forall n, channel <> RequestChannel.Other n)
  <-> entry_type ∈ entry_kinds.
Proof.
  unfold map_request_channel, entry_kinds. rewrite !elem_of_cons, elem_of_nil.
  repeat case_bool_decide; naive_solver.
Qed.

Lemma projected_agent_request dispatch_deadline_ms now_ms request :
  agent_request_ok (project_agent_request dispatch_deadline_ms now_ms request
                      (ensure_trace_ids request)) <->
  dispatchable dispatch_deadline_ms now_ms request.
Proof.
  split.
  - intros [_ Hin Hch (t & [= <-] & Hnow) Hd _ [Ht _] _ _]. constructor; try done.
    + destruct Hin as (v & [= <-] & ?). done.
    + by apply map_request_channel_known.
    + intros t Et. destruct (Hd _ Et) as [? Hc]. split; [done|]. by apply Hc.
    + intros En Hpos E0. apply Ht. simpl. rewrite En, (proj2 (Z.ltb_lt _ _)) by done. by rewrite E0.
  - intros [Hin Hen Hnow Hd Ht]. constructor; simpl.
    + split_and!; apply context_or_not_empty; by apply stable_id_not_empty.
    + by eexists.
    + by apply map_request_channel_known.
    + by eexists.
    + intros t Et. destruct (Hd t Et). split; [done|]. by intros ? [= <-].
    + split_and!; try apply context_value_not_empty.
      destruct (is_empty (dr_client_capability_view request)) eqn:E; [done|].
      apply is_empty_false in E. congruence.
    + split; [|done]. destruct (request_deadline request now_ms); [done|].
      destruct (0 <? dispatch_deadline_ms) eqn:E; [|done]. apply Z.ltb_lt in E.
      intros [= E0]. by apply Ht.
    + intros l H. done.
    + reflexivity.
Qed.

(** What is kept of a request that is normalized: everything but the public request and the
    identifiers in the context. *)
Lemma normalize_accepts dispatch_deadline_ms now_ms request :
  ip_packet_id (dr_packet request) <> "" -> ip_entry_type (dr_packet request) <> "" ->
  ip_protocol_kind (dr_packet request) <> "" -> si_actor_ref (dr_subject_identity request) <> "" ->
  let output := normalize dispatch_deadline_ms now_ms request in
  rno_normalized output = true /\ rno_error output = None /\
  rno_agent_request output =
    project_agent_request dispatch_deadline_ms now_ms request (ensure_trace_ids request) /\
  exists context,
    rno_runtime_request output = with_agent_request (rno_agent_request output) context request /\
    context !! "normalizer_ready" = Some "true" /\
    (forall key, key ∉ ["normalizer_ready"; "trace_id"; "session_id"; "request_id"] ->
       context !! key = dr_request_context request !! key).
Proof.
  intros H1 H2 H3 H4. unfold normalize. rewrite (proj2 (metadata_test request)) by tauto.
  rewrite (proj2 (is_empty_false _) H4). cbv zeta. split_and!; [done..|].
  eexists. split_and!; [done|by rewrite lookup_insert_eq|].
  intros key Hkey. rewrite !not_elem_of_cons in Hkey. destruct Hkey as (? & ? & ? & ? & _).
  rewrite lookup_insert_ne by done.
  destruct (context_value request "constraint_set") eqn:E; [apply context_value_some in E as [E _]|].
  - destruct (decide (key = "constraint_set")) as [->|]; [by rewrite lookup_insert_eq|].
    by rewrite !lookup_insert_ne by done.
  - by rewrite !lookup_insert_ne by done.
Qed.

Lemma validated_normalizes publish_view allowed_protocols dispatch_deadline_ms now_ms request :
  packet_ok publish_view allowed_protocols request ->
  rno_normalized (normalize dispatch_deadline_ms now_ms request) = true /\
  rno_error (normalize dispatch_deadline_ms now_ms request) = None.
Proof.
  intros [(? & ? & ?) ? _ _ _ _].
  by destruct (normalize_accepts dispatch_deadline_ms now_ms request) as (? & ? & _).
Qed.

(** The validator accepts exactly the well-formed packets, and names one error of every other.
    A packet it accepts is always normalized: the error the pipelines answer with when the
    normalizer fails is never given. The public request made of it passes the guard of the runtime
    exactly when it has input, a known entry, and a deadline that lies ahead. *)
Theorem request_checks_exact publish_view allowed_protocols dispatch_deadline_ms now_ms request :
  let validated := validate_packet publish_view allowed_protocols request in
  let output := normalize dispatch_deadline_ms now_ms request in
  (rvr_accepted validated = true <-> packet_ok publish_view allowed_protocols request) /\
  (rvr_error validated = None <-> rvr_accepted validated = true) /\
  (rvr_accepted validated = true ->
   rno_normalized output = true /\ rno_error output = None /\
   (agent_request_ok (dr_agent_request (rno_runtime_request output)) <->
    dispatchable dispatch_deadline_ms now_ms request)).
Proof.
  cbv zeta. destruct (validate_packet_cases publish_view allowed_protocols request)
    as [[-> Hok]|(error & -> & Hno)]; simpl; (split; [done|split; [done|]]); [|done].
  intros _. destruct Hok as [(? & ? & ?) ? _ _ _ _].
  destruct (normalize_accepts dispatch_deadline_ms now_ms request) as (? & ? & Ha & context & -> & _);
    [done..|]. split_and!; [done..|]. simpl. rewrite Ha. apply projected_agent_request.
Qed.
