(* ===== verification/RuntimeBridge.v ===== *)
(** * The bridge to the runtime, and the publisher of results

    access/src/RuntimeBridge.cpp and ResultPublisher.cpp. The backends (the runtime behind
    the bridge, the channel behind the publisher) are arguments; the runtime's answer to a
    dispatch is one too, since it comes after other calls have run. *)

From S2P Require Import Prelude Text CheckpointContracts RecoveryContracts ToolContracts AgentContracts AccessTypes RequestChecks.

(** ** The bridge *)

Definition filled (value : option string) : option string :=
  match value with
  | Some text => if is_empty text then None else Some text
  | None => None
  end.

Definition agent_request_value (request : RuntimeDispatchRequest) (key : string) : option string :=
  let agent_request := dr_agent_request request in
  if bool_decide (key = "request_id") then filled (ar_request_id agent_request) else
  if bool_decide (key = "session_id") then filled (ar_session_id agent_request) else
  if bool_decide (key = "trace_id") then filled (ar_trace_id agent_request) else
  if bool_decide (key = "idempotency_key") then filled (ar_idempotency_key agent_request) else
  None.

Definition bridge_context_value (request : RuntimeDispatchRequest) (key : string) : option string :=
  match agent_request_value request key with
  | Some value => Some value
  | None => filled (dr_request_context request !! key)
  end.

(** [RuntimeDispatchResult{}] is rejected. *)
Definition rejected_dispatch (error_ref : string) (context : gmap string string)
    : RuntimeDispatchResult :=
  {| ds_disposition := AccessDisposition.Rejected; ds_publish_envelope := None;
     ds_receipt_ref := None; ds_subscription_ref := None; ds_error_ref := Some error_ref;
     ds_response_context := context |}.

Definition map_runtime_reject (error_code : AccessErrorCode) (reason : string)
    (detail : option string) : RuntimeDispatchResult :=
  let context := {["error_code" := to_string (access_error_code_value error_code)]} in
  rejected_dispatch reason
    match detail with
    | Some detail => <["error_detail" := detail]> context
    | None => context
    end.

Definition insert_if (key : string) (value : option string) (context : gmap string string)
    : gmap string string :=
  match value with Some value => <[key := value]> context | None => context end.

Definition map_runtime_result (request : RuntimeDispatchRequest)
    (backend_result : RuntimeDispatchResult) : RuntimeDispatchResult :=
  {| ds_disposition := ds_disposition backend_result;
     ds_publish_envelope := ds_publish_envelope backend_result;
     ds_receipt_ref :=
       if bool_decide (ds_disposition backend_result = AccessDisposition.AcceptedAsync)
          && bool_decide (ds_receipt_ref backend_result = None)
       then Some ("receipt:" +:+ default (ip_packet_id (dr_packet request))
                                   (agent_request_value request "request_id"))
       else ds_receipt_ref backend_result;
     ds_subscription_ref := ds_subscription_ref backend_result;
     ds_error_ref := ds_error_ref backend_result;
     ds_response_context :=
       insert_if "trace_id" (agent_request_value request "trace_id")
         (insert_if "session_id" (agent_request_value request "session_id")
            (insert_if "request_id" (agent_request_value request "request_id")
               (ds_response_context backend_result))) |}.

(** What [dispatch] answers without asking the backend; [None] where it asks. *)
Definition dispatch_refusal (has_backend : bool) (request : RuntimeDispatchRequest)
    : option RuntimeDispatchResult :=
  if bool_decide (bridge_context_value request "normalizer_ready" <> Some "true")
  then Some (map_runtime_reject AccessErrorCode.ValidationRejected
               "runtime bridge requires normalizer_ready=true"
               (Some "normalizer gate is not satisfied")) else
  if negb (bool_decide (adp_decision (dr_decision_proof request) = "Allow"))
  then Some (map_runtime_reject AccessErrorCode.AuthorizationDenied
               "runtime bridge only dispatches Allow decision requests"
               (Some "decision_proof is not allow")) else
  match validate_agent_request_field_rules (dr_agent_request request) with
  | None => None
  | Some guard =>
      if negb (gr_ok guard)
      then Some (map_runtime_reject AccessErrorCode.ValidationRejected
                   "runtime bridge requires valid public AgentRequest handoff"
                   (Some (if is_empty (gr_reason guard) then "agent_request field guard failed"
                          else gr_reason guard))) else
      if negb has_backend
      then Some (map_runtime_reject AccessErrorCode.RuntimeBridgeUnavailable
                   "runtime bridge backend is not configured" (Some "dispatch backend is empty"))
      else None
  end.

Definition dispatch (dispatch_backend : option (RuntimeDispatchRequest -> RuntimeDispatchResult))
    (request : RuntimeDispatchRequest) : RuntimeDispatchResult :=
  match dispatch_refusal (bool_decide (is_Some dispatch_backend)) request with
  | Some refusal => refusal
  | None =>
      match dispatch_backend with
      | Some backend => map_runtime_result request (backend request)
      | None => rejected_dispatch "" ∅
      end
  end.

Definition cancel (cancel_backend : option (string -> string -> bool)) (request_id actor_ref : string)
    : bool :=
  match cancel_backend with
  | None => false
  | Some cancel_backend =>
      if is_empty request_id || is_empty actor_ref then false else cancel_backend request_id actor_ref
  end.

(** ** The publisher *)

Definition publisher_context_value (request : RuntimeDispatchRequest) (key : string) : option string :=
  filled (dr_request_context request !! key).

Definition build_envelope (request : RuntimeDispatchRequest) (agent_result : AgentResult)
    : PublishEnvelope :=
  let packet := dr_packet request in
  let request_id := default (ip_packet_id packet) (publisher_context_value request "request_id") in
  let projection := map_agent_result_to_protocol agent_result in
  {| pe_request_id := request_id;
     pe_result_id := default ("result:" +:+ request_id) (ag_result_id agent_result);
     pe_session_id := default ("session:" +:+ request_id) (publisher_context_value request "session_id");
     pe_trace_id := default ("trace:" +:+ request_id) (publisher_context_value request "trace_id");
     pe_channel_ref := ip_entry_type packet +:+ ("://" +:+ ip_protocol_kind packet);
     pe_protocol_kind := ip_protocol_kind packet; pe_agent_result := Some agent_result;
     pe_protocol_status_hint := to_string (apm_http_status projection);
     pe_protocol_metadata := apm_grpc_status projection;
     pe_is_final := bool_decide (ag_status agent_result = Some AgentResultStatus.Completed)
                    || bool_decide (ag_task_completed agent_result = Some true);
     pe_payload := default "" (ag_response_text agent_result); pe_receipt := None |}.

Record PublishAttemptResult := {
  par_published : bool;
  par_envelope : PublishEnvelope;
  par_error : option AccessError;
}.

Definition publish (emit_backend : option (PublishEnvelope -> bool))
    (request : RuntimeDispatchRequest) (agent_result : AgentResult) : PublishAttemptResult :=
  let envelope := build_envelope request agent_result in
  let published := match emit_backend with Some emit => emit envelope | None => false end in
  {| par_published := published; par_envelope := envelope;
     par_error :=
       if published then None else
       Some (make_access_error AccessErrorCode.PublishChannelUnavailable
               "result publisher failed to emit publish envelope" None
               "publish_channel_unavailable") |}.

(** ** What the bridge lets through *)

Lemma filled_some value text : filled value = Some text <-> value = Some text /\ text <> "".
Proof.
  destruct value as [t|]; [|naive_solver]. simpl.
  destruct (is_empty t) eqn:E; [apply is_empty_true in E|apply is_empty_false in E]; naive_solver.
Qed.

Lemma normalizer_ready_value request :
  bridge_context_value request "normalizer_ready" = Some "true" <->
  dr_request_context request !! "normalizer_ready" = Some "true".
Proof.
  change (bridge_context_value request "normalizer_ready")
    with (filled (dr_request_context request !! "normalizer_ready")).
  rewrite filled_some. naive_solver.
Qed.

(** The backend is asked exactly where the request is normalized, allowed and well-formed. *)
Lemma dispatch_asks request :
  dispatch_refusal true request = None <->
  dr_request_context request !! "normalizer_ready" = Some "true" /\
  adp_decision (dr_decision_proof request) = "Allow" /\
  agent_request_ok (dr_agent_request request).
Proof.
  unfold dispatch_refusal. rewrite <-normalizer_ready_value, <-agent_request_guard.
  destruct (decide (bridge_context_value request "normalizer_ready" = Some "true")) as [Hr|Hr].
  2: { rewrite bool_decide_true by done. naive_solver. }
  rewrite bool_decide_false by (intros H; by apply H).
  destruct (bool_decide (adp_decision (dr_decision_proof request) = "Allow")) eqn:Ha; cbn [negb].
  2: { apply bool_decide_eq_false in Ha. naive_solver. }
  apply bool_decide_eq_true in Ha.
  destruct (agent_request_guard_total (dr_agent_request request)) as [guard Hg]. rewrite Hg.
  destruct (gr_ok guard) eqn:Hok; cbn [negb].
  - split; [|done]. intros _. split_and!; [done..|]. by exists guard.
  - split; [done|]. intros (_ & _ & g & [= <-] & Hg'). congruence.
Qed.

Lemma refusal_rejected has_backend request refusal :
  dispatch_refusal has_backend request = Some refusal ->
  ds_disposition refusal = AccessDisposition.Rejected /\ ds_receipt_ref refusal = None /\
  ds_publish_envelope refusal = None.
Proof. unfold dispatch_refusal. intros H. by repeat case_match; simplify_eq/=. Qed.

(** An answer that waits for the result always comes with a receipt. *)
Lemma mapped_receipt request result :
  ds_disposition (map_runtime_result request result) = AccessDisposition.AcceptedAsync ->
  is_Some (ds_receipt_ref (map_runtime_result request result)).
Proof.
  simpl. intros ->. simpl. destruct (ds_receipt_ref result); by eexists.
Qed.

Lemma mapped_disposition request result :
  ds_disposition (map_runtime_result request result) = ds_disposition result.
Proof. done. Qed.

(** The answer carries the identifiers of the request, whatever the runtime put there. *)
Lemma mapped_identifiers request result key value :
  key ∈ ["request_id"; "session_id"; "trace_id"] ->
  agent_request_value request key = Some value ->
  ds_response_context (map_runtime_result request result) !! key = Some value.
Proof.
  rewrite !elem_of_cons, elem_of_nil. intros Hkey H.
  destruct Hkey as [->|[->|[->|[]]]]; cbn [map_runtime_result ds_response_context]; rewrite H;
    cbn [insert_if].
  - unfold insert_if. destruct (agent_request_value request "trace_id"),
      (agent_request_value request "session_id"); by simplify_map_eq.
  - unfold insert_if. destruct (agent_request_value request "trace_id"); by simplify_map_eq.
  - by simplify_map_eq.
Qed.

(** What is published says of the result what the protocols say of it. *)
Lemma publish_exact emit_backend request agent_result :
  let attempt := publish emit_backend request agent_result in
  pe_agent_result (par_envelope attempt) = Some agent_result /\
  pe_protocol_status_hint (par_envelope attempt) =
    to_string (apm_http_status (map_agent_result_to_protocol agent_result)) /\
  (par_error attempt = None <-> par_published attempt = true) /\
  (par_published attempt = true <-> exists emit, emit_backend = Some emit /\ emit (par_envelope attempt) = true).
Proof.
  cbv zeta. simpl. destruct emit_backend as [emit|]; simpl; [|naive_solver].
  destruct (emit (build_envelope request agent_result)) eqn:E; naive_solver.
Qed.
