(* ===== verification/SubmitPipeline.v ===== *)
(** * The submit pipeline

    access/src/AccessGatewayFactory.cpp, what the pipelines of the daemon and of the gateway
    share: the checks a packet passes on its way to the runtime, and what becomes of the
    runtime's answer. The pipelines run on many threads; what their calls share is the
    admission controller and the registry of asynchronous tasks, each behind its own lock. A
    call touches them three times, and is between the touches a thread of its own: [Begin] up
    to the dispatch, [Complete] when the runtime has answered, [Attach] for the receipt. Clocks
    (the steady one in nanoseconds, the wall clock in milliseconds) are arguments. *)

From S2P Require Import Prelude Text CheckpointContracts RecoveryContracts ToolContracts AgentContracts AccessTypes Admission TaskRegistry Identity PolicyRules AccessPolicy RequestChecks RuntimeBridge.

(** ** Answers *)

Definition make_rejected_result (error_code : AccessErrorCode) (error_ref : string)
    : RuntimeDispatchResult :=
  rejected_dispatch error_ref {["error_code" := to_string (access_error_code_value error_code)]}.

Definition make_replay_result (replay_receipt_ref : option string) : RuntimeDispatchResult :=
  {| ds_disposition := AccessDisposition.AcceptedAsync; ds_publish_envelope := None;
     ds_receipt_ref := Some (default "idempotency-replay" replay_receipt_ref);
     ds_subscription_ref := None; ds_error_ref := None; ds_response_context := ∅ |}.

Definition request_context_or_default (request : RuntimeDispatchRequest) (key fallback : string)
    : string :=
  let agent_request := dr_agent_request request in
  let agent_value :=
    if bool_decide (key = "request_id") then filled (ar_request_id agent_request) else
    if bool_decide (key = "session_id") then filled (ar_session_id agent_request) else
    if bool_decide (key = "trace_id") then filled (ar_trace_id agent_request) else
    None in
  match agent_value with
  | Some value => value
  | None => default fallback (filled (dr_request_context request !! key))
  end.

(** ** Before the dispatch *)

Definition authentication_refusal (outcome : AuthenticationOutcome) : option RuntimeDispatchResult :=
  if auo_authenticated outcome then None else
  if auth_requires_challenge outcome
  then match auo_challenge outcome with
       | Some challenge =>
           Some (make_rejected_result AccessErrorCode.AuthenticationChallengeRequired
                   (ach_reason_code challenge))
       | None => None
       end
  else Some (make_rejected_result AccessErrorCode.AuthenticationFailed
               (default "authentication_failed" (auo_failure_reason outcome))).

Definition policy_refusal (policy_result : AccessPolicyEvaluationResult)
    : option RuntimeDispatchResult :=
  if apr_requires_confirmation policy_result
  then Some (make_rejected_result AccessErrorCode.ConfirmationRequired
               (adp_reason_code (apr_decision_proof policy_result))) else
  if negb (apr_allowed policy_result)
  then Some (make_rejected_result AccessErrorCode.AuthorizationDenied
               (default "authorization_denied" (apr_reject_reason policy_result)))
  else None.

(** The headers whose key and value are not empty, over what the context holds. *)
Definition project_packet_headers_to_request_context (packet : InboundPacket)
    (context : gmap string string) : gmap string string :=
  filter (fun kv => kv.1 <> "" /\ kv.2 <> "") (ip_headers packet) ∪ context.

Definition build_request_context (packet : InboundPacket) : gmap string string :=
  let context :=
    project_packet_headers_to_request_context packet
      (insert_if "session_id" (filled (ip_session_hint packet))
         (insert_if "trace_id" (filled (ip_trace_id packet))
            {["request_id" := ip_packet_id packet]})) in
  match context !! "idempotency_key" with
  | Some _ => context
  | None => <["idempotency_key" := ip_packet_id packet]> context
  end.

Definition build_runtime_request (packet : InboundPacket) (subject : SubjectIdentity)
    (decision_proof : AccessDecisionProof) : RuntimeDispatchRequest :=
  {| dr_packet := packet; dr_subject_identity := subject; dr_decision_proof := decision_proof;
     dr_agent_request := empty_agent_request; dr_client_capability_view := "";
     dr_async_allowed := ip_async_preferred packet;
     dr_stream_requested := ip_stream_requested packet;
     dr_request_context := build_request_context packet; dr_access_deadline := None |}.

(** What the pipelines are built from. The backends are [runtime_dispatch_backend], without
    which no pipeline is built and whose answer is an argument of [Complete], and
    [publish_backend]. *)
Record PipelineOptions := {
  po_auth_view : AccessAuthView;
  po_publish_view : AccessPublishView;
  po_allowed_protocols : list string;
  po_dispatch_deadline_ms : Z;
  po_policy_manager : option (PolicyQueryContext -> PolicyDecisionRef);
  po_policy_backend_available : bool;
  po_allow_submit : bool;
  po_snapshot_fingerprint : option SnapshotVersionFingerprint;
  po_publish_backend : option (PublishEnvelope -> bool);
}.

(** [PolicyBackendSnapshot{}] with the two options of the pipeline. *)
Definition pipeline_backend (options : PipelineOptions) : PolicyBackendSnapshot :=
  {| pbs_backend_available := po_policy_backend_available options;
     pbs_allow_submit := po_allow_submit options; pbs_allow_task_query := true;
     pbs_allow_diagnostics := false; pbs_allow_override := false;
     pbs_require_confirmation_for_override := false;
     pbs_decision_ref := "policy://access/default" |}.

(** The security policy where there is one, the options otherwise. *)
Definition pipeline_evaluator (options : PipelineOptions) : AccessPolicyEvaluator :=
  match po_policy_manager options with
  | Some policy_evaluate => infra_evaluator policy_evaluate
  | None => snapshot_evaluator (pipeline_backend options)
  end.

Definition policy_input_of (options : PipelineOptions) (outcome : AuthenticationOutcome)
    (packet : InboundPacket) : AccessPolicyEvaluationInput :=
  {| api_authentication := outcome; api_packet := packet;
     api_snapshot_fingerprint := po_snapshot_fingerprint options |}.

Inductive Clearance :=
| Refused (result : RuntimeDispatchResult)
| Cleared (outcome : AuthenticationOutcome) (policy_result : AccessPolicyEvaluationResult)
| Fault.

(** Authentication and policy. [Fault] stands for a dereference of an empty field. *)
Definition clear_packet (options : PipelineOptions)
    (authenticated : option AuthenticationOutcome) (packet : InboundPacket) : Clearance :=
  match authenticated with
  | None => Fault
  | Some outcome =>
      match authentication_refusal outcome with
      | Some refusal => Refused refusal
      | None =>
          let policy_result :=
            evaluate_submit (Some (pipeline_evaluator options))
              (policy_input_of options outcome packet) in
          match policy_refusal policy_result with
          | Some refusal => Refused refusal
          | None => Cleared outcome policy_result
          end
      end
  end.

Definition error_answer (error : option AccessError) (detail : string) : RuntimeDispatchResult :=
  let error := default (make_access_error AccessErrorCode.ValidationRejected detail None "") error in
  make_rejected_result (aer_code error) (aer_reason error).

Definition admission_answer (admission : AccessAdmissionResult) : RuntimeDispatchResult :=
  if aar_replay_hit admission then make_replay_result (aar_replay_receipt_ref admission) else
  make_rejected_result
    (if aar_conflict_hit admission then AccessErrorCode.IdempotencyConflict
     else AccessErrorCode.AdmissionRejected)
    (default "admission_rejected" (aar_reject_reason admission)).

(** The call is answered, or holds a ticket and stands before the dispatch. *)
Inductive Standing :=
| Answered (result : RuntimeDispatchResult)
| Dispatching (ticket_ref : option string) (request : RuntimeDispatchRequest).

Definition release_if (ticket_ref : option string) (c : AdmissionController) : AdmissionController :=
  match ticket_ref with Some ticket_ref => release_ticket c ticket_ref | None => c end.

(** Validation, admission and normalization. *)
Definition begin_submission (options : PipelineOptions) (c : AdmissionController)
    (request : RuntimeDispatchRequest) (now now_ms : Z) : AdmissionController * Standing :=
  let validated := validate_packet (po_publish_view options) (po_allowed_protocols options) request in
  if negb (rvr_accepted validated)
  then (c, Answered (error_answer (rvr_error validated) "request validator rejected packet")) else
  let '(c, admission) := admit_request c request now in
  if negb (aar_admitted admission) then (c, Answered (admission_answer admission)) else
  let normalized := normalize (po_dispatch_deadline_ms options) now_ms request in
  if negb (rno_normalized normalized) || bool_decide (is_Some (rno_error normalized))
  then (release_if (aar_ticket_ref admission) c,
        Answered (error_answer (rno_error normalized) "request normalizer rejected packet"))
  else (c, Dispatching (aar_ticket_ref admission) (rno_runtime_request normalized)).

(** ** After the dispatch *)

Definition complete_if (ticket_ref : option string) (result : RuntimeDispatchResult)
    (c : AdmissionController) : AdmissionController :=
  match ticket_ref with Some ticket_ref => record_completion c ticket_ref result | None => c end.

(** [PublishEnvelope{}] is final. *)
Definition empty_envelope : PublishEnvelope :=
  {| pe_request_id := ""; pe_result_id := ""; pe_session_id := ""; pe_trace_id := "";
     pe_channel_ref := ""; pe_protocol_kind := ""; pe_agent_result := None;
     pe_protocol_status_hint := ""; pe_protocol_metadata := ""; pe_is_final := true;
     pe_payload := ""; pe_receipt := None |}.

Definition with_envelope (envelope : option PublishEnvelope) (receipt_ref : option string)
    (result : RuntimeDispatchResult) : RuntimeDispatchResult :=
  {| ds_disposition := ds_disposition result; ds_publish_envelope := envelope;
     ds_receipt_ref := receipt_ref; ds_subscription_ref := ds_subscription_ref result;
     ds_error_ref := ds_error_ref result; ds_response_context := ds_response_context result |}.

Definition receipt_envelope (request : RuntimeDispatchRequest) (receipt : AsyncTaskReceipt)
    (envelope : PublishEnvelope) : PublishEnvelope :=
  let packet := dr_packet request in
  let request_id := request_context_or_default request "request_id" (ip_packet_id packet) in
  {| pe_request_id := request_id; pe_result_id := atr_receipt_id receipt;
     pe_session_id := request_context_or_default request "session_id" ("session:" +:+ request_id);
     pe_trace_id := request_context_or_default request "trace_id" ("trace:" +:+ request_id);
     pe_channel_ref := ip_entry_type packet +:+ ("://" +:+ ip_protocol_kind packet);
     pe_protocol_kind := ip_protocol_kind packet; pe_agent_result := pe_agent_result envelope;
     pe_protocol_status_hint := "202"; pe_protocol_metadata := pe_protocol_metadata envelope;
     pe_is_final := pe_is_final envelope; pe_payload := "accepted_async";
     pe_receipt := Some receipt |}.

(** [None] where the arithmetic of the registry overflows; [Some (_, None)] for the answer
    [false]. *)
Definition attach_async_receipt (r : AsyncTaskRegistry) (request : RuntimeDispatchRequest)
    (result : RuntimeDispatchResult) (unix_now now : Z)
    : option (AsyncTaskRegistry * option RuntimeDispatchResult) :=
  if negb (bool_decide (ds_disposition result = AccessDisposition.AcceptedAsync))
  then Some (r, Some result) else
  if negb (enabled r) then Some (r, None) else
  match register_async_accept r request result unix_now now with
  | None => None
  | Some (r, None) => Some (r, None)
  | Some (r, Some receipt) =>
      Some (r, Some (with_envelope
        (Some (receipt_envelope request receipt (default empty_envelope (ds_publish_envelope result))))
        (Some (atr_receipt_id receipt)) result))
  end.

Definition publish_rejection (options : PipelineOptions) (request : RuntimeDispatchRequest)
    (result : RuntimeDispatchResult) : RuntimeDispatchResult :=
  let agent_result :=
    match ds_publish_envelope result with
    | Some envelope => pe_agent_result envelope
    | None => None
    end in
  match ds_disposition result, agent_result with
  | AccessDisposition.Rejected, Some agent_result =>
      with_envelope (Some (par_envelope (publish (po_publish_backend options) request agent_result)))
        (ds_receipt_ref result) result
  | _, _ => result
  end.

Definition finish_submission (options : PipelineOptions) (r : AsyncTaskRegistry)
    (request : RuntimeDispatchRequest) (result : RuntimeDispatchResult) (unix_now now : Z)
    : option (AsyncTaskRegistry * RuntimeDispatchResult) :=
  match attach_async_receipt r request result unix_now now with
  | None => None
  | Some (r, None) =>
      Some (r, make_rejected_result AccessErrorCode.InternalError "ownership_secret_unavailable")
  | Some (r, Some result) => Some (r, publish_rejection options request result)
  end.

(** ** Runs

    The touches of all calls in the order of the locks. A call is known by its number. *)

Record SubmitState := {
  ss_admission : AdmissionController;
  ss_registry : AsyncTaskRegistry;
  ss_calls : nat;
  ss_dispatching : gmap nat (option string * RuntimeDispatchRequest);
  ss_completing : gmap nat (RuntimeDispatchRequest * RuntimeDispatchResult);
}.

Definition new_submit_state (config : AccessAdmissionView) (registry : AsyncTaskRegistry)
    : SubmitState :=
  {| ss_admission := new_admission_controller config; ss_registry := registry; ss_calls := 0;
     ss_dispatching := ∅; ss_completing := ∅ |}.

Inductive submit_op :=
| Begin (request : RuntimeDispatchRequest) (now now_ms : Z)
| Complete_call (call : nat) (runtime_result : RuntimeDispatchResult)
| Attach (call : nat) (unix_now now : Z)
| Registry (op : registry_op).

(** The state after the touch and what the call answers, if it answers; [None] for a touch
    that no call is about to make, and where the registry's arithmetic overflows. *)
Definition submit_call (options : PipelineOptions) (s : SubmitState) (op : submit_op)
    : option (SubmitState * option RuntimeDispatchResult) :=
  match op with
  | Begin request now now_ms =>
      let '(c, standing) := begin_submission options (ss_admission s) request now now_ms in
      let s' dispatching :=
        {| ss_admission := c; ss_registry := ss_registry s; ss_calls := S (ss_calls s);
           ss_dispatching := dispatching; ss_completing := ss_completing s |} in
      match standing with
      | Answered result => Some (s' (ss_dispatching s), Some result)
      | Dispatching ticket_ref runtime_request =>
          Some (s' (<[ss_calls s := (ticket_ref, runtime_request)]> (ss_dispatching s)), None)
      end
  | Complete_call call runtime_result =>
      match ss_dispatching s !! call with
      | None => None
      | Some (ticket_ref, request) =>
          let result :=
            match dispatch_refusal true request with
            | Some refusal => refusal
            | None => map_runtime_result request runtime_result
            end in
          Some ({| ss_admission := complete_if ticket_ref result (ss_admission s);
                   ss_registry := ss_registry s; ss_calls := ss_calls s;
                   ss_dispatching := delete call (ss_dispatching s);
                   ss_completing := <[call := (request, result)]> (ss_completing s) |}, None)
      end
  | Attach call unix_now now =>
      match ss_completing s !! call with
      | None => None
      | Some (request, result) =>
          match finish_submission options (ss_registry s) request result unix_now now with
          | None => None
          | Some (r, answer) =>
              Some ({| ss_admission := ss_admission s; ss_registry := r; ss_calls := ss_calls s;
                       ss_dispatching := ss_dispatching s;
                       ss_completing := delete call (ss_completing s) |}, Some answer)
          end
      end
  | Registry op =>
      match registry_call (ss_registry s) op with
      | None => None
      | Some r =>
          Some ({| ss_admission := ss_admission s; ss_registry := r; ss_calls := ss_calls s;
                   ss_dispatching := ss_dispatching s; ss_completing := ss_completing s |}, None)
      end
  end.

Fixpoint submit_run (options : PipelineOptions) (s : SubmitState) (ops : list submit_op)
    : option SubmitState :=
  match ops with
  | [] => Some s
  | op :: ops =>
      match submit_call options s op with
      | Some (s', _) => submit_run options s' ops
      | None => None
      end
  end.

(** The request the runtime is asked to carry out once [Begin] has run. *)
Definition asked (s : SubmitState) (call : nat) : option RuntimeDispatchRequest :=
  match ss_dispatching s !! call with
  | Some (_, request) =>
      match dispatch_refusal true request with Some _ => None | None => Some request end
  | None => None
  end.

(** ** A call, case by case *)

(** A request that validation and admission let through is always dispatched: the
    normalizer does not fail, so no ticket is ever released. *)
Lemma begin_cases options c request now now_ms :
  let adm := admit_request c request now in
  (~ packet_ok (po_publish_view options) (po_allowed_protocols options) request /\
   exists answer, begin_submission options c request now now_ms = (c, Answered answer) /\
     ds_disposition answer = AccessDisposition.Rejected) \/
  (packet_ok (po_publish_view options) (po_allowed_protocols options) request /\
   aar_admitted (snd adm) = false /\
   begin_submission options c request now now_ms =
     (fst adm, Answered (admission_answer (snd adm)))) \/
  (packet_ok (po_publish_view options) (po_allowed_protocols options) request /\
   aar_admitted (snd adm) = true /\
   begin_submission options c request now now_ms =
     (fst adm, Dispatching (Some (next_ticket c))
        (rno_runtime_request (normalize (po_dispatch_deadline_ms options) now_ms request)))).
Proof.
  cbv zeta. unfold begin_submission.
  destruct (validate_packet_cases (po_publish_view options) (po_allowed_protocols options) request)
    as [[-> Hok]|(error & -> & Hno)]; cbn [rvr_accepted rvr_error negb];
    [|left; split; [done|]; by eexists].
  right. pose proof (admitted_state c request now) as Hst.
  destruct (admit_request c request now) as [c' adm]. simpl in Hst. simpl.
  destruct (aar_admitted adm); [right|by left].
  destruct (Hst eq_refl) as (_ & _ & Ht & _).
  destruct (validated_normalizes _ _ (po_dispatch_deadline_ms options) now_ms _ Hok) as [-> ->].
  cbn [negb orb]. rewrite bool_decide_false by (by intros [? ?]). by rewrite Ht.
Qed.

(** What the runtime would be handed. *)
Definition handed_over (options : PipelineOptions) (request : RuntimeDispatchRequest) (now_ms : Z)
    : RuntimeDispatchRequest :=
  rno_runtime_request (normalize (po_dispatch_deadline_ms options) now_ms request).

Lemma handed_over_keeps options request now_ms :
  packet_ok (po_publish_view options) (po_allowed_protocols options) request ->
  dr_packet (handed_over options request now_ms) = dr_packet request /\
  dr_subject_identity (handed_over options request now_ms) = dr_subject_identity request /\
  dr_decision_proof (handed_over options request now_ms) = dr_decision_proof request /\
  (dispatch_refusal true (handed_over options request now_ms) = None <->
   adp_decision (dr_decision_proof request) = "Allow" /\
   dispatchable (po_dispatch_deadline_ms options) now_ms request).
Proof.
  intros [(? & ? & ?) ? _ _ _ _]. unfold handed_over.
  destruct (normalize_accepts (po_dispatch_deadline_ms options) now_ms request)
    as (_ & _ & Ha & context & -> & Hready & _); [done..|].
  split_and!; [done..|]. rewrite dispatch_asks. simpl. rewrite Ha, projected_agent_request. tauto.
Qed.

(** *** The calls as calls of the admission controller *)

Definition admission_ops (options : PipelineOptions) (s : SubmitState) (op : submit_op)
    : list admission_op :=
  match op with
  | Begin request now _ =>
      if rvr_accepted (validate_packet (po_publish_view options) (po_allowed_protocols options) request)
      then [Admit request now] else []
  | Complete_call call runtime_result =>
      match ss_dispatching s !! call with
      | Some (Some ticket_ref, request) =>
          [Complete ticket_ref
             match dispatch_refusal true request with
             | Some refusal => refusal
             | None => map_runtime_result request runtime_result
             end]
      | _ => []
      end
  | _ => []
  end.

Fixpoint run_admission_ops (options : PipelineOptions) (s : SubmitState) (ops : list submit_op)
    : list admission_op :=
  match ops with
  | [] => []
  | op :: ops =>
      admission_ops options s op ++
      match submit_call options s op with
      | Some (s', _) => run_admission_ops options s' ops
      | None => []
      end
  end.

Lemma begin_call options s request now now_ms :
  exists s' answer, submit_call options s (Begin request now now_ms) = Some (s', answer) /\
    ss_admission s' = fst (begin_submission options (ss_admission s) request now now_ms) /\
    ss_calls s' = S (ss_calls s) /\ ss_registry s' = ss_registry s /\
    match snd (begin_submission options (ss_admission s) request now now_ms) with
    | Answered result => answer = Some result /\ ss_dispatching s' = ss_dispatching s
    | Dispatching ticket_ref runtime_request =>
        answer = None /\
        ss_dispatching s' = <[ss_calls s := (ticket_ref, runtime_request)]> (ss_dispatching s)
    end.
Proof.
  simpl. destruct (begin_submission options (ss_admission s) request now now_ms)
    as [c [result|ticket_ref runtime_request]]; by do 2 eexists.
Qed.

Lemma submit_call_admission options s op s' answer :
  submit_call options s op = Some (s', answer) ->
  ss_admission s' = admission_run (ss_admission s) (admission_ops options s op).
Proof.
  intros H. destruct op as [request now now_ms|call result|call unix_now now|op].
  - destruct (begin_call options s request now now_ms) as (s1 & a & E & Ea & _).
    assert (s1 = s') as -> by congruence. rewrite Ea. cbn [admission_ops].
    destruct (validate_packet_cases (po_publish_view options) (po_allowed_protocols options) request)
      as [[-> Hok]|(error & Hv & Hno)].
    + destruct (begin_cases options (ss_admission s) request now now_ms)
        as [[? _]|[(_ & _ & ->)|(_ & _ & ->)]]; done.
    + rewrite Hv. destruct (begin_cases options (ss_admission s) request now now_ms)
        as [(_ & a' & -> & _)|[(? & _)|(? & _)]]; done.
  - simpl in H. simpl. destruct (ss_dispatching s !! call) as [[[t|] request]|]; by simplify_eq/=.
  - simpl in H. repeat case_match; by simplify_eq/=.
  - simpl in H. repeat case_match; by simplify_eq/=.
Qed.

Lemma admission_run_app c l1 l2 :
  admission_run c (l1 ++ l2) = admission_run (admission_run c l1) l2.
Proof. apply fold_left_app. Qed.

Lemma run_admission options s ops s' :
  submit_run options s ops = Some s' ->
  ss_admission s' = admission_run (ss_admission s) (run_admission_ops options s ops).
Proof.
  revert s. induction ops as [|op ops IH]; simpl; [naive_solver|]. intros s H.
  destruct (submit_call options s op) as [[s1 a]|] eqn:E; [|done].
  rewrite admission_run_app, <-(submit_call_admission _ _ _ _ _ E). by apply IH.
Qed.

Definition begun_until (until : Z) (op : submit_op) : Prop :=
  match op with Begin _ now _ => now <= until | _ => True end.

(** Only a release disturbs a record, and the pipelines release nothing. *)
Lemma run_undisturbed options signature until s ops s' :
  submit_run options s ops = Some s' -> Forall (begun_until until) ops ->
  undisturbed signature until (ss_admission s) (run_admission_ops options s ops).
Proof.
  intros Hrun Hops. revert s Hrun. induction Hops as [|op ops Hop Hops IH]; simpl; [done|].
  intros s Hrun. destruct (submit_call options s op) as [[s1 a]|] eqn:E; [|done].
  specialize (IH s1 Hrun). rewrite (submit_call_admission _ _ _ _ _ E) in IH.
  destruct op as [request now now_ms|call result|call unix_now now|op]; simpl in *; try done.
  - by destruct (rvr_accepted _).
  - by destruct (ss_dispatching s !! call) as [[[t|] request]|].
Qed.

(** ** One dispatch per window *)

Lemma begin_dispatched options s request now now_ms s1 :
  submit_call options s (Begin request now now_ms) = Some (s1, None) ->
  packet_ok (po_publish_view options) (po_allowed_protocols options) request /\
  aar_admitted (snd (admit_request (ss_admission s) request now)) = true /\
  ss_admission s1 = fst (admit_request (ss_admission s) request now) /\
  ss_dispatching s1 = <[ss_calls s :=
    (Some (next_ticket (ss_admission s)), handed_over options request now_ms)]> (ss_dispatching s).
Proof.
  intros H. destruct (begin_call options s request now now_ms) as (s' & a & E & Ha & _ & _ & Hd).
  assert (s' = s1 /\ a = None) as [-> ->] by (split; congruence). rewrite Ha.
  destruct (begin_cases options (ss_admission s) request now now_ms)
    as [(_ & answer & Hb & _)|[(_ & _ & Hb)|(Hok & Hadm & Hb)]]; rewrite Hb in Hd |- *; simpl in Hd;
    [by destruct Hd..|]. by destruct Hd.
Qed.

Lemma begin_refused options s request now now_ms answer :
  packet_ok (po_publish_view options) (po_allowed_protocols options) request ->
  snd (admit_request (ss_admission s) request now) = answer -> aar_admitted answer = false ->
  exists s', submit_call options s (Begin request now now_ms) = Some (s', Some (admission_answer answer)) /\
    ss_dispatching s' = ss_dispatching s.
Proof.
  intros Hok Hadm Hno. destruct (begin_call options s request now now_ms) as (s' & a & E & _ & _ & _ & Hd).
  destruct (begin_cases options (ss_admission s) request now now_ms)
    as [[? _]|[(_ & _ & Hb)|(_ & ? & _)]]; [done| |congruence].
  rewrite Hb in Hd. simpl in Hd. destruct Hd as [-> Hd]. rewrite Hadm in E. by exists s'.
Qed.

(** C8. Once a request is dispatched, no request of its signature is dispatched until the window
    is over, whatever happens in between: while the first is under way a repeated one is a
    conflict, and afterwards it is answered at once with the receipt of the last completion. *)
Theorem dispatched_once options s request t0 m0 s1 ops s2 request' now now_ms :
  submit_call options s (Begin request t0 m0) = Some (s1, None) ->
  submit_run options s1 ops = Some s2 ->
  Forall (begun_until (expiry (ss_admission s) t0)) ops ->
  build_idempotency_signature request' = build_idempotency_signature request ->
  now <= expiry (ss_admission s) t0 ->
  exists s3 answer,
    submit_call options s2 (Begin request' now now_ms) = Some (s3, Some answer) /\
    ss_dispatching s3 = ss_dispatching s2 /\
    (packet_ok (po_publish_view options) (po_allowed_protocols options) request' ->
     answer =
       if has_room (ss_admission s2) then
         match last_receipt (build_idempotency_signature request) None (ss_admission s1)
                 (run_admission_ops options s1 ops) with
         | None => make_rejected_result AccessErrorCode.IdempotencyConflict "idempotency_conflict"
         | Some receipt => make_replay_result (Some receipt)
         end
       else make_rejected_result AccessErrorCode.AdmissionRejected "concurrency_limit_exceeded").
Proof.
  intros Hbegin Hrun Hops Hsig Hnow. apply begin_dispatched in Hbegin as (_ & Hadm & Es1 & _).
  destruct (admitted_state _ _ _ Hadm) as (_ & Hne & _ & _ & _ & Hst). rewrite <-Es1 in Hst.
  apply (stands_run _ _ _ _ _ (run_admission_ops options s1 ops)) in Hst;
    [|by eapply run_undisturbed]. rewrite <-(run_admission _ _ _ _ Hrun) in Hst.
  pose proof (stands_answers _ _ _ _ _ _ (stands_pruned _ _ _ _ _ _ Hst Hnow) Hnow) as Hans.
  set (receipt := last_receipt _ _ _ _) in *.
  assert (snd (admit_request (ss_admission s2) request' now) =
    if has_room (ss_admission s2) then standing_answer (next_ticket (ss_admission s)) receipt
    else rejected_admission "concurrency_limit_exceeded") as Ha.
  { destruct (has_room (ss_admission s2)) eqn:Hroom.
    - apply answered; rewrite ?Hsig; done.
    - destruct (admit_cases (ss_admission s2) request' now)
        as [[_ ->]|[(? & _)|[(? & _)|(? & _)]]]; [done|congruence..]. }
  destruct (begin_call options s2 request' now now_ms) as (s3 & a & E & _ & _ & _ & Hd).
  destruct (validate_packet_cases (po_publish_view options) (po_allowed_protocols options) request')
    as [[_ Hok]|(_ & _ & Hno)].
  - assert (aar_admitted (snd (admit_request (ss_admission s2) request' now)) = false) as Hna
      by (rewrite Ha; by destruct (has_room _), receipt).
    destruct (begin_refused options s2 request' now now_ms _ Hok eq_refl Hna) as (s' & E' & Hd').
    exists s'. eexists. split_and!; [exact E'|done|]. intros _. rewrite Ha.
    by destruct (has_room _), receipt.
  - destruct (begin_cases options (ss_admission s2) request' now now_ms)
      as [(_ & answer & Hb & _)|[(? & _)|(? & _)]]; [|done..].
    rewrite Hb in Hd. destruct Hd as [-> Hd]. by exists s3, answer.
Qed.

(** ** Tickets *)

(** The tickets in flight are those of the calls that wait for the runtime, and no call
    with a number to come waits. *)
Definition submit_inv (config : AccessAdmissionView) (n : Z) (s : SubmitState) : Prop :=
  admission_inv config n (ss_admission s) /\
  (fst <$> (map_to_list (ss_dispatching s)).*2) ≡ₚ
    (Some <$> (map_to_list (ac_inflight_tickets (ss_admission s))).*1) /\
  forall call, (ss_calls s <= call)%nat ->
    ss_dispatching s !! call = None /\ ss_completing s !! call = None.

Lemma completion_tickets c ticket_ref result :
  is_Some (ac_inflight_tickets c !! ticket_ref) ->
  ac_inflight_tickets (record_completion c ticket_ref result) = delete ticket_ref (ac_inflight_tickets c).
Proof.
  intros [t Ht]. unfold record_completion. rewrite Ht.
  by destruct (ac_idempotency_records c !! ift_signature t).
Qed.

Lemma waiting_ticket config n s call ticket_ref request :
  submit_inv config n s -> ss_dispatching s !! call = Some (ticket_ref, request) ->
  exists ref, ticket_ref = Some ref /\ is_Some (ac_inflight_tickets (ss_admission s) !! ref).
Proof.
  intros (_ & Hp & _) Hc.
  assert (ticket_ref ∈ (fst <$> (map_to_list (ss_dispatching s)).*2)) as Hin.
  { apply list_elem_of_fmap. exists (ticket_ref, request). split; [done|].
    apply list_elem_of_fmap. exists (call, (ticket_ref, request)). split; [done|].
    by apply elem_of_map_to_list. }
  rewrite Hp in Hin. apply list_elem_of_fmap in Hin as (ref & -> & Hin).
  apply list_elem_of_fmap in Hin as ([ref' t] & -> & Hin). apply elem_of_map_to_list in Hin.
  exists ref'. split; [done|by eexists].
Qed.

Lemma submit_inv_step options config n s op s' answer :
  submit_inv config n s -> n < 2 ^ 64 - 1 ->
  submit_call options s op = Some (s', answer) -> submit_inv config (n + 1) s'.
Proof.
  intros Hinv Hlt H. pose proof Hinv as (Ha & Hp & Hf).
  destruct op as [request now now_ms|call result|call unix_now now|op].
  - destruct (begin_call options s request now now_ms) as (s1 & a & E & Ea & Ec & _ & Hd).
    assert (ss_completing s1 = ss_completing s) as Ek.
    { simpl in E. destruct (begin_submission _ _ _ _ _) as [c standing] eqn:Eb.
      clear Ea Hd. by destruct standing; simplify_eq/=. }
    assert (s1 = s') as -> by congruence. unfold submit_inv. rewrite Ea, Ec, Ek. clear E H.
    destruct (begin_cases options (ss_admission s) request now now_ms)
      as [(_ & b & Hb & _)|[(_ & Hna & Hb)|(_ & Hadm & Hb)]]; rewrite Hb in Hd |- *; simpl in Hd |- *.
    + destruct Hd as [_ ->]. split_and!; [by apply admission_inv_mono|done|].
      intros k Hk. apply Hf. lia.
    + destruct Hd as [_ ->]. split_and!.
      * by apply (admission_inv_step _ _ _ (Admit request now)).
      * rewrite Hp. destruct (admit_cases (ss_admission s) request now)
          as [[_ ->]|[(_ & _ & ->)|[(_ & _ & b & _ & _ & ->)|(_ & _ & _ & c' & r & E & Hr & _)]]];
          [done..|]. rewrite E in Hna. simpl in Hna. congruence.
      * intros k Hk. apply Hf. lia.
    + destruct Hd as [_ ->]. destruct (admitted_state _ _ _ Hadm) as (_ & _ & _ & _ & Hin & _).
      split_and!.
      * by apply (admission_inv_step _ _ _ (Admit request now)).
      * destruct (Hf (ss_calls s) ltac:(lia)) as [Hfresh _].
        pose proof (next_ticket_fresh _ _ _ Ha Hlt) as Hft.
        rewrite map_to_list_insert by done. rewrite Hin, map_to_list_insert by done.
        rewrite !fmap_cons. simpl. by f_equiv.
      * intros k Hk. rewrite lookup_insert_ne by lia. apply Hf. lia.
  - simpl in H. destruct (ss_dispatching s !! call) as [[ticket_ref request]|] eqn:Ec; [|done].
    simplify_eq/=. destruct (waiting_ticket _ _ _ _ _ _ Hinv Ec) as (ref & -> & [t Ht]).
    unfold submit_inv. simpl. split_and!.
    + by apply (admission_inv_step _ _ _ (Complete ref _)).
    + rewrite completion_tickets by by eexists.
      rewrite <-(map_to_list_delete _ _ _ Ec), <-(map_to_list_delete _ _ _ Ht), !fmap_cons in Hp.
      simpl in Hp. by apply Permutation_cons_inv in Hp.
    + intros k Hk. destruct (Hf k Hk) as [H1 H2]. split.
      * rewrite lookup_delete_ne; [done|]. intros ->. congruence.
      * rewrite lookup_insert_ne; [done|]. intros ->. congruence.
  - simpl in H. destruct (ss_completing s !! call) as [[request result]|] eqn:Ec; [|done].
    destruct (finish_submission _ _ _ _ _ _) as [[r a]|]; simplify_eq/=. unfold submit_inv. simpl.
    split_and!; [by apply admission_inv_mono|done|]. intros k Hk. destruct (Hf k Hk).
    split; [done|]. rewrite lookup_delete_ne; [done|]. intros ->. congruence.
  - simpl in H. destruct (registry_call _ _) as [r|]; simplify_eq/=. unfold submit_inv. simpl.
    split_and!; [by apply admission_inv_mono|done..].
Qed.

Lemma submit_inv_new config registry : submit_inv config 0 (new_submit_state config registry).
Proof.
  unfold submit_inv. simpl. rewrite !map_to_list_empty. split_and!; [|done..].
  unfold admission_inv. simpl. split_and!; [done|lia|lia|rewrite map_size_empty; lia|].
  intros ref [t Ht]. by rewrite lookup_empty in Ht.
Qed.

Lemma submit_inv_run options config n s ops s' :
  submit_inv config n s -> n + Z.of_nat (length ops) < 2 ^ 64 ->
  submit_run options s ops = Some s' -> submit_inv config (n + Z.of_nat (length ops)) s'.
Proof.
  revert n s. induction ops as [|op ops IH]; intros n s Hinv Hlt Hrun; simpl in *.
  - simplify_eq. by rewrite Z.add_0_r.
  - destruct (submit_call options s op) as [[s1 a]|] eqn:E; [|done].
    replace (n + Z.of_nat (S (length ops))) with (n + 1 + Z.of_nat (length ops)) by lia.
    eapply IH; [|lia|done]. eapply submit_inv_step; [done|lia|done].
Qed.

Lemma waiting_within config n s :
  submit_inv config n s ->
  Z.of_nat (size (ss_dispatching s)) <= Z.max 0 (aav_max_inflight_requests config).
Proof.
  intros ((_ & _ & Hsize & _) & Hp & _). apply Permutation_length in Hp.
  rewrite !length_fmap, !length_map_to_list in Hp. lia.
Qed.

(** C36. The tickets that bound the load are given back: in every run of fewer than 2{^64} touches
    those in flight are exactly the ones of the calls that wait for the runtime, which are never
    more than the configured limit; a call that waits can always be completed, with any answer of
    the runtime, and then one ticket less is in flight. *)
Theorem calls_hold_tickets options config registry ops s :
  Z.of_nat (length ops) < 2 ^ 64 ->
  submit_run options (new_submit_state config registry) ops = Some s ->
  (fst <$> (map_to_list (ss_dispatching s)).*2) ≡ₚ
    (Some <$> (map_to_list (ac_inflight_tickets (ss_admission s))).*1) /\
  Z.of_nat (size (ss_dispatching s)) <= Z.max 0 (aav_max_inflight_requests config) /\
  forall call result, is_Some (ss_dispatching s !! call) ->
    exists s', submit_call options s (Complete_call call result) = Some (s', None) /\
      ss_dispatching s' = delete call (ss_dispatching s) /\
      S (size (ac_inflight_tickets (ss_admission s'))) = size (ac_inflight_tickets (ss_admission s)).
Proof.
  intros Hlt Hrun.
  pose proof (submit_inv_run _ _ _ _ _ _ (submit_inv_new config registry) Hlt Hrun) as Hinv.
  split_and!; [by destruct Hinv as (_ & ? & _)|by eapply waiting_within|].
  intros call result [[ticket_ref request] Hc]. simpl. rewrite Hc.
  destruct (waiting_ticket _ _ _ _ _ _ Hinv Hc) as (ref & -> & Hs). eexists. split; [done|].
  split; [done|]. simpl. rewrite completion_tickets by done. rewrite map_size_delete.
  destruct Hs as [t Ht]. rewrite Ht. simpl.
  assert (size (ac_inflight_tickets (ss_admission s)) <> 0%nat); [|lia].
  intros E%map_size_empty_iff. rewrite E, lookup_empty in Ht. done.
Qed.

(** ** The gateway *)

Inductive gateway_op :=
| Packet (packet : InboundPacket) (now now_ms : Z)
| Completes (call : nat) (runtime_result : RuntimeDispatchResult)
| Attaches (call : nat) (unix_now now : Z).

Definition gateway_clear (options : PipelineOptions) (packet : InboundPacket) : Clearance :=
  clear_packet options (authenticate_gateway_packet (po_auth_view options) packet) packet.

Definition cleared_request (packet : InboundPacket) (outcome : AuthenticationOutcome)
    (policy_result : AccessPolicyEvaluationResult) : RuntimeDispatchRequest :=
  build_runtime_request packet (auo_subject_identity outcome) (apr_decision_proof policy_result).

Definition gateway_call (options : PipelineOptions) (s : SubmitState) (op : gateway_op)
    : option (SubmitState * option RuntimeDispatchResult) :=
  match op with
  | Packet packet now now_ms =>
      match gateway_clear options packet with
      | Refused refusal => Some (s, Some refusal)
      | Cleared outcome policy_result =>
          submit_call options s (Begin (cleared_request packet outcome policy_result) now now_ms)
      | Fault => None
      end
  | Completes call runtime_result => submit_call options s (Complete_call call runtime_result)
  | Attaches call unix_now now => submit_call options s (Attach call unix_now now)
  end.

(** A packet goes on exactly where it is authenticated and the policy allows it. *)
Lemma clear_cases options authenticated packet outcome :
  authenticated = Some outcome ->
  (auo_authenticated outcome = true -> auo_rejected outcome = false) ->
  (auo_authenticated outcome = false ->
     auo_rejected outcome = true \/ auth_requires_challenge outcome = true) ->
  let policy_result :=
    evaluate_submit (Some (pipeline_evaluator options)) (policy_input_of options outcome packet) in
  (auo_authenticated outcome = true /\ apr_allowed policy_result = true /\
   adp_decision (apr_decision_proof policy_result) = "Allow" /\
   clear_packet options authenticated packet = Cleared outcome policy_result) \/
  (~ (auo_authenticated outcome = true /\ apr_allowed policy_result = true) /\
   exists refusal, clear_packet options authenticated packet = Refused refusal /\
     ds_disposition refusal = AccessDisposition.Rejected).
Proof.
  intros -> Hyes Hno policy_result. unfold clear_packet, authentication_refusal.
  destruct (auo_authenticated outcome) eqn:Ea.
  - assert (result_exclusive policy_result) as Hex.
    { destruct (evaluate_operation_cases (Some (pipeline_evaluator options))
        (policy_input_of options outcome packet) Submit) as [(reason & E & _)|(ev & query & _ & _ & _ & E)];
        subst policy_result; change (evaluate_submit ?ev ?input) with (evaluate_operation ev input Submit);
        rewrite E; [apply deny_exclusive|apply evaluate_exclusive]. }
    fold policy_result. unfold policy_refusal, result_exclusive in *.
    destruct (apr_requires_confirmation policy_result), (apr_allowed policy_result) eqn:El; try done.
    + right. split; [by intros []|]. by eexists.
    + left. cbn [negb]. by destruct Hex.
    + right. split; [by intros []|]. by eexists.
  - right. split; [by intros []|]. destruct (auth_requires_challenge outcome) eqn:Ec; [|by eexists].
    unfold auth_requires_challenge in Ec. rewrite Ea in Ec.
    destruct (auo_challenge outcome); [by eexists|]. by rewrite andb_false_r in Ec.
Qed.

Lemma packet_authenticated peer_metadata challenge view packet :
  exists outcome, authenticate_packet peer_metadata challenge view packet = Some outcome /\
    (auo_authenticated outcome = true -> auo_rejected outcome = false) /\
    (auo_authenticated outcome = false ->
       auo_rejected outcome = true \/ auth_requires_challenge outcome = true).
Proof.
  unfold authenticate_packet.
  destruct (authenticate_verdict packet peer_metadata
    {| rv_trusted_local_subjects := auv_trusted_local_subjects view;
       rv_strict_auth_required := auv_strict_auth_required view;
       rv_allow_remote_challenge := challenge |} view) as (_ & outcome & E & Hv & _).
  exists outcome. split; [done|]. unfold one_verdict in Hv.
  destruct Hv as [Hv|[Hv|Hv]]; injection Hv as E1 E2 E3; rewrite E1, E2, E3; naive_solver.
Qed.

(** The request that is dispatched for a packet, if one is. *)
Record dispatch_of (options : PipelineOptions) (s : SubmitState) (packet : InboundPacket)
    (outcome : AuthenticationOutcome) (now now_ms : Z) (request : RuntimeDispatchRequest) : Prop := {
  do_authenticated : auo_authenticated outcome = true;
  do_allowed : apr_allowed (evaluate_submit (Some (pipeline_evaluator options))
                              (policy_input_of options outcome packet)) = true;
  do_valid : packet_ok (po_publish_view options) (po_allowed_protocols options) request;
  do_admitted : aar_admitted (snd (admit_request (ss_admission s) request now)) = true;
  do_dispatchable : dispatchable (po_dispatch_deadline_ms options) now_ms request;
  do_request : request = cleared_request packet outcome
                 (evaluate_submit (Some (pipeline_evaluator options))
                    (policy_input_of options outcome packet));
}.

(** It is the packet as it came, in the name of the authenticated subject, with the
    policy's proof that it is allowed, and the runtime's guard admits it. *)
Record dispatched_as (packet : InboundPacket) (outcome : AuthenticationOutcome)
    (request : RuntimeDispatchRequest) : Prop := {
  da_packet : dr_packet request = packet;
  da_subject : dr_subject_identity request = auo_subject_identity outcome;
  da_allowed : adp_decision (dr_decision_proof request) = "Allow";
  da_guard : agent_request_ok (dr_agent_request request);
}.

(** The begin of a call asks the runtime exactly where validation and admission let the request
    through, it is allowed, and the runtime's guard admits it. *)
Lemma begin_asks options s request now now_ms :
  ss_dispatching s !! ss_calls s = None ->
  exists s' answer, submit_call options s (Begin request now now_ms) = Some (s', answer) /\
    forall request', asked s' (ss_calls s) = Some request' <->
      request' = handed_over options request now_ms /\
      packet_ok (po_publish_view options) (po_allowed_protocols options) request /\
      aar_admitted (snd (admit_request (ss_admission s) request now)) = true /\
      adp_decision (dr_decision_proof request) = "Allow" /\
      dispatchable (po_dispatch_deadline_ms options) now_ms request.
Proof.
  intros Hfresh. destruct (begin_call options s request now now_ms) as (s' & a & E & _ & _ & _ & Hd).
  exists s', a. split; [done|]. intros request'. unfold asked.
  destruct (begin_cases options (ss_admission s) request now now_ms)
    as [(Hno & b & Hb & _)|[(_ & Hno & Hb)|(Hok & Hadm & Hb)]]; rewrite Hb in Hd; simpl in Hd;
    destruct Hd as [_ Hd]; rewrite Hd.
  - rewrite Hfresh. naive_solver.
  - rewrite Hfresh. split; [done|]. intros (_ & _ & ? & _). congruence.
  - rewrite lookup_insert_eq. fold (handed_over options request now_ms).
    destruct (handed_over_keeps options request now_ms Hok) as (_ & _ & _ & Hr).
    destruct (dispatch_refusal true _) as [refusal|].
    + split; [done|]. intros (_ & _ & _ & H1 & H2). by discriminate (proj2 Hr (conj H1 H2)).
    + split; [|by intros (-> & _)]. intros [= <-]. by destruct (proj1 Hr eq_refl).
Qed.

Lemma gateway_keeps_inv options config n s op s' answer :
  submit_inv config n s -> n < 2 ^ 64 - 1 ->
  gateway_call options s op = Some (s', answer) -> submit_inv config (n + 1) s'.
Proof.
  intros Hinv Hlt. destruct op as [packet now now_ms|call result|call unix_now now]; cbn [gateway_call].
  - destruct (gateway_clear options packet); [| |done].
    + intros [= <- <-]. destruct Hinv as (? & ? & ?). split_and!; [by apply admission_inv_mono|done..].
    + by eapply submit_inv_step.
  - by eapply submit_inv_step.
  - by eapply submit_inv_step.
Qed.

Fixpoint gateway_run (options : PipelineOptions) (s : SubmitState) (ops : list gateway_op)
    : option SubmitState :=
  match ops with
  | [] => Some s
  | op :: ops =>
      match gateway_call options s op with
      | Some (s', _) => gateway_run options s' ops
      | None => None
      end
  end.

Lemma gateway_run_inv options config n s ops s' :
  submit_inv config n s -> n + Z.of_nat (length ops) < 2 ^ 64 ->
  gateway_run options s ops = Some s' -> submit_inv config (n + Z.of_nat (length ops)) s'.
Proof.
  revert n s. induction ops as [|op ops IH]; intros n s Hinv Hlt Hrun; simpl in Hlt.
  - simpl in *. simplify_eq. by rewrite Z.add_0_r.
  - cbn [gateway_run] in Hrun. destruct (gateway_call options s op) as [[s1 a]|] eqn:E; [|done].
    replace (n + Z.of_nat (length (op :: ops))) with (n + 1 + Z.of_nat (length ops)) by (simpl; lia).
    eapply IH; [|lia|done]. eapply gateway_keeps_inv; [done|lia|done].
Qed.

(** A packet that was authenticated is answered or goes on, and the runtime is asked to carry
    it out exactly where it is allowed, valid, admitted and fit for the runtime's guard. *)
Lemma cleared_asks_exactly options s packet authenticated outcome now now_ms :
  ss_dispatching s !! ss_calls s = None -> authenticated = Some outcome ->
  (auo_authenticated outcome = true -> auo_rejected outcome = false) ->
  (auo_authenticated outcome = false ->
     auo_rejected outcome = true \/ auth_requires_challenge outcome = true) ->
  exists s' answer,
    match clear_packet options authenticated packet with
    | Refused refusal => Some (s, Some refusal)
    | Cleared outcome policy_result =>
        submit_call options s (Begin (cleared_request packet outcome policy_result) now now_ms)
    | Fault => None
    end = Some (s', answer) /\
    forall request, asked s' (ss_calls s) = Some request <->
      exists cleared, dispatch_of options s packet outcome now now_ms cleared /\
        request = handed_over options cleared now_ms.
Proof.
  intros Hfresh Ho Hyes Hno.
  destruct (clear_cases options _ packet outcome Ho Hyes Hno)
    as [(Ha & Hal & Hde & ->)|(Hne & refusal & -> & _)].
  - set (cleared := cleared_request packet outcome _).
    destruct (begin_asks options s cleared now now_ms Hfresh) as (s' & a & E & Hasks).
    exists s', a. split; [exact E|]. intros request. rewrite Hasks. split.
    + intros (-> & ? & ? & _ & ?). by exists cleared.
    + intros (c & [_ _ Hv Had Hd ->] & ->). done.
  - exists s, (Some refusal). split; [done|]. intros request. unfold asked. rewrite Hfresh.
    split; [done|]. intros (r & [? ? _ _ _ _] & _). tauto.
Qed.

(** The request built of a packet carries its payload as the input, by the channel of its
    entry, in the name of the authenticated subject, with the policy's proof. *)
Lemma handed_over_packet options s packet outcome now now_ms cleared :
  (auo_authenticated outcome = true -> auo_rejected outcome = false) ->
  dispatch_of options s packet outcome now now_ms cleared ->
  dispatched_as packet outcome (handed_over options cleared now_ms) /\
  dr_decision_proof (handed_over options cleared now_ms) =
    apr_decision_proof (evaluate_submit (Some (pipeline_evaluator options))
                          (policy_input_of options outcome packet)) /\
  ar_user_input (dr_agent_request (handed_over options cleared now_ms)) =
    Some (ip_payload packet) /\
  ar_request_channel (dr_agent_request (handed_over options cleared now_ms)) =
    Some (map_request_channel (ip_entry_type packet)).
Proof.
  intros Hyes [Ha Hal Hv _ Hd Hc].
  destruct (handed_over_keeps options cleared now_ms Hv) as (Hp & Hs & Hde & Hr).
  assert (adp_decision (dr_decision_proof cleared) = "Allow") as Hallow.
  { destruct (clear_cases options (Some outcome) packet outcome eq_refl Hyes) as [(_ & _ & Hw & _)|[Hn _]].
    - congruence.
    - by rewrite Hc.
    - tauto. }
  assert (dispatch_refusal true (handed_over options cleared now_ms) = None) as Hnone by tauto.
  apply dispatch_asks in Hnone as (_ & _ & Hguard). split_and!.
  - split; rewrite ?Hp, ?Hs, ?Hde; first [done|by rewrite Hc].
  - by rewrite Hde, Hc.
  - destruct Hv as [(? & ? & ?) ? _ _ _ _].
    destruct (normalize_accepts (po_dispatch_deadline_ms options) now_ms cleared)
      as (_ & _ & E & context & Er & _); [done..|].
    unfold handed_over. rewrite Er. simpl. rewrite E. simpl. by rewrite Hc.
  - destruct Hv as [(? & ? & ?) ? _ _ _ _].
    destruct (normalize_accepts (po_dispatch_deadline_ms options) now_ms cleared)
      as (_ & _ & E & context & Er & _); [done..|].
    unfold handed_over. rewrite Er. simpl. rewrite E. simpl. by rewrite Hc.
Qed.

Lemma cleared_asks options s packet authenticated outcome now now_ms :
  ss_dispatching s !! ss_calls s = None -> authenticated = Some outcome ->
  (auo_authenticated outcome = true -> auo_rejected outcome = false) ->
  (auo_authenticated outcome = false ->
     auo_rejected outcome = true \/ auth_requires_challenge outcome = true) ->
  exists s' answer,
    match clear_packet options authenticated packet with
    | Refused refusal => Some (s, Some refusal)
    | Cleared outcome policy_result =>
        submit_call options s (Begin (cleared_request packet outcome policy_result) now now_ms)
    | Fault => None
    end = Some (s', answer) /\
    (is_Some (asked s' (ss_calls s)) <->
     exists request, dispatch_of options s packet outcome now now_ms request) /\
    forall request, asked s' (ss_calls s) = Some request ->
      dispatched_as packet outcome request.
Proof.
  intros Hfresh Ho Hyes Hno.
  destruct (cleared_asks_exactly options s packet authenticated outcome now now_ms Hfresh Ho Hyes Hno)
    as (s' & answer & E & Hasks).
  exists s', answer. split_and!; [exact E| |].
  - split; [intros [r (c & Hd & _)%Hasks]; by exists c|].
    intros [c Hd]. eexists. apply Hasks. by exists c.
  - intros r (c & Hd & ->)%Hasks. by apply (handed_over_packet _ _ _ _ _ _ _ Hyes) in Hd as (? & _).
Qed.

(** C2. In every run, each packet of the gateway's pipeline is answered or goes on, and the
    runtime is asked to carry a request out exactly when the packet is authenticated, allowed,
    valid, admitted and fit for the runtime's guard; that request is the one the pipeline
    builds of the packet and normalizes: the packet as it came, its payload as the input, by
    the channel of its entry, in the name of the authenticated subject, with the policy's proof
    that it is allowed. (The pipeline is only built where there is a backend of the runtime.) *)
Theorem gateway_asks_exact options config registry ops s packet now now_ms :
  Z.of_nat (length ops) < 2 ^ 64 ->
  gateway_run options (new_submit_state config registry) ops = Some s ->
  exists outcome s' answer,
    authenticate_gateway_packet (po_auth_view options) packet = Some outcome /\
    gateway_call options s (Packet packet now now_ms) = Some (s', answer) /\
    forall request,
      (asked s' (ss_calls s) = Some request <->
       exists cleared, dispatch_of options s packet outcome now now_ms cleared /\
         request = handed_over options cleared now_ms) /\
      (asked s' (ss_calls s) = Some request ->
       dispatched_as packet outcome request /\
       dr_decision_proof request =
         apr_decision_proof (evaluate_submit (Some (pipeline_evaluator options))
                               (policy_input_of options outcome packet)) /\
       ar_user_input (dr_agent_request request) = Some (ip_payload packet) /\
       ar_request_channel (dr_agent_request request) =
         Some (map_request_channel (ip_entry_type packet))).
Proof.
  intros Hlt Hrun.
  destruct (gateway_run_inv _ _ _ _ _ _ (submit_inv_new config registry) Hlt Hrun) as (_ & _ & Hf).
  destruct (Hf (ss_calls s) ltac:(lia)) as [Hfresh _].
  destruct (packet_authenticated (parse_gateway_peer_metadata packet) true (po_auth_view options) packet)
    as (outcome & Ho & Hyes & Hno).
  destruct (cleared_asks_exactly options s packet _ outcome now now_ms Hfresh Ho Hyes Hno)
    as (s' & answer & E & Hasks).
  exists outcome, s', answer. split_and!; [done..|]. intros request. split; [done|].
  intros (c & Hd & ->)%Hasks. by eapply handed_over_packet.
Qed.

(** ** Examples *)

Definition sample_publish_view : AccessPublishView :=
  {| apv_result_replay_ttl_ms := 60000; apv_stream_heartbeat_ms := 1000;
     apv_slow_consumer_max_buffer := 16; apv_drain_timeout_ms := 1000;
     apv_max_payload_bytes := 65536; apv_max_user_input_bytes := 65536;
     apv_cors_allowed_origins := [] |}.

Definition sample_admission_view : AccessAdmissionView :=
  {| aav_idempotency_window_ms := 60000; aav_max_inflight_requests := 4;
     aav_dispatch_deadline_ms := 30000; aav_default_deny := true |}.

Definition sample_options : PipelineOptions :=
  {| po_auth_view := sample_auth_view; po_publish_view := sample_publish_view;
     po_allowed_protocols := ["http_unary"]; po_dispatch_deadline_ms := 30000;
     po_policy_manager := None; po_policy_backend_available := true; po_allow_submit := true;
     po_snapshot_fingerprint := None; po_publish_backend := None |}.

Definition sample_start : SubmitState := new_submit_state sample_admission_view sample_empty.

Definition sample_gateway_packet : InboundPacket := packet_from "gateway" "jwt:ann".

Definition sample_cleared : RuntimeDispatchRequest :=
  build_runtime_request sample_gateway_packet (remote_subject Jwt "ann")
    (apr_decision_proof (make_allowed_result "policy://access/default")).

(** One call that the runtime carries out at once. *)
Definition sample_ops : list submit_op :=
  [Begin sample_cleared 10 5; Complete_call 0 sample_completion; Attach 0 5 20].

Definition sample_end : SubmitState :=
  default sample_start (submit_run sample_options sample_start sample_ops).

Definition answer_of (result : option (SubmitState * option RuntimeDispatchResult))
    : option (AccessDisposition * option string) :=
  match result with
  | Some (_, Some answer) => Some (ds_disposition answer, ds_receipt_ref answer)
  | _ => None
  end.

(** The request is carried out once and its caller has the result; repeated, it is answered as
    one that is still to be carried out, with a receipt under which nothing is registered. *)
Example replay_forgets_the_result :
  submit_run sample_options sample_start sample_ops = Some sample_end /\
  answer_of (submit_call sample_options sample_end (Begin sample_cleared 30 6)) =
    Some (AccessDisposition.AcceptedAsync, Some "receipt-for-ticket-1") /\
  reg_receipts (ss_registry sample_end) !! "receipt-for-ticket-1" = None.
Proof. by vm_compute. Qed.

(** A request the runtime's guard refuses is replayed as accepted, too. *)
Example replay_of_a_refusal :
  let request :=
    build_runtime_request
      {| ip_packet_id := "p2"; ip_entry_type := "gateway"; ip_protocol_kind := "http_unary";
         ip_peer_ref := "jwt:ann"; ip_payload := ""; ip_headers := ∅; ip_trace_id := None;
         ip_session_hint := None; ip_deadline_ms := None; ip_async_preferred := false;
         ip_stream_requested := false |} (remote_subject Jwt "ann")
      (apr_decision_proof (make_allowed_result "policy://access/default")) in
  let first := submit_run sample_options sample_start [Begin request 10 5; Complete_call 0 sample_completion] in
  ((fun s => bool_decide (is_Some (asked s 0))) <$> first) = Some false /\
  answer_of (match first with
             | Some s => submit_call sample_options s (Attach 0 5 20)
             | None => None end) = Some (AccessDisposition.Rejected, None) /\
  answer_of (match first with
             | Some s => submit_call sample_options s (Begin request 30 6)
             | None => None end) = Some (AccessDisposition.AcceptedAsync, Some "receipt-for-ticket-1").
Proof. by vm_compute. Qed.

Lemma dispatched_once_witness :
  exists s3 answer,
    submit_call sample_options sample_end (Begin sample_cleared 30 6) = Some (s3, Some answer) /\
    ds_disposition answer = AccessDisposition.AcceptedAsync.
Proof.
  destruct (dispatched_once sample_options sample_start sample_cleared 10 5
    (default sample_start (fst <$> submit_call sample_options sample_start (Begin sample_cleared 10 5)))
    [Complete_call 0 sample_completion; Attach 0 5 20] sample_end sample_cleared 30 6)
    as (s3 & answer & E & _ & Ha).
  - vm_compute. reflexivity.
  - vm_compute. reflexivity.
  - by repeat constructor.
  - reflexivity.
  - vm_compute. discriminate.
  - exists s3, answer. split; [exact E|]. rewrite Ha.
    + vm_compute. reflexivity.
    + destruct (validate_packet_cases (po_publish_view sample_options)
        (po_allowed_protocols sample_options) sample_cleared) as [[_ H]|(e & H & _)]; [exact H|].
      vm_compute in H. discriminate.
Defined.

Lemma calls_hold_tickets_witness :
  Z.of_nat (size (ss_dispatching
    (default sample_start (submit_run sample_options sample_start [Begin sample_cleared 10 5])))) <= 4.
Proof.
  destruct (calls_hold_tickets sample_options sample_admission_view sample_empty
    [Begin sample_cleared 10 5]
    (default sample_start (submit_run sample_options sample_start [Begin sample_cleared 10 5])))
    as (_ & H & _).
  - reflexivity.
  - vm_compute. reflexivity.
  - exact H.
Defined.

Lemma gateway_asks_exact_witness :
  is_Some (asked (default sample_start
    (fst <$> gateway_call sample_options sample_start (Packet sample_gateway_packet 10 5))) 0).
Proof.
  destruct (gateway_asks_exact sample_options sample_admission_view sample_empty [] sample_start
    sample_gateway_packet 10 5) as (outcome & s' & answer & Ho & E & Hasks).
  - reflexivity.
  - reflexivity.
  - vm_compute. by eexists.
Defined.
