(* ===== verification/DaemonPayloads.v ===== *)
(** * What a daemon command carries

    The texts between the client and the daemon: apps/cli/src/CliRequestBuilder.h writes them,
    access/src/AccessGatewayFactory.cpp reads them. A payload is a list of [key=value] items,
    separated by semicolons; the values of a knowledge command are percent-encoded, those
    of status and cancel are written as they are. *)

From S2P Require Import Prelude Text.

(** ** Percent-encoding *)

Definition upper_hex_digit (index : Z) : Ascii.ascii :=
  default "0"%char (String.get (Z.to_nat index) "0123456789ABCDEF").

Definition is_unreserved_payload_character (ch : Ascii.ascii) : bool :=
  is_alnum ch || bool_decide (ch = "-"%char) || bool_decide (ch = "_"%char)
  || bool_decide (ch = "."%char) || bool_decide (ch = "~"%char) || bool_decide (ch = " "%char).

Fixpoint percent_encode_payload_value (value : string) : string :=
  match value with
  | EmptyString => EmptyString
  | String ch rest =>
      if is_unreserved_payload_character ch then String ch (percent_encode_payload_value rest)
      else String "%" (String (upper_hex_digit (Z.land (Z.shiftr (char_code ch) 4) 15))
             (String (upper_hex_digit (Z.land (char_code ch) 15))
                (percent_encode_payload_value rest)))
  end.

Definition decode_hex_digit (digit : Ascii.ascii) : option Z :=
  let c := char_code digit in
  if (48 <=? c) && (c <=? 57) then Some (c - 48) else
  if (97 <=? c) && (c <=? 102) then Some (c - 97 + 10) else
  if (65 <=? c) && (c <=? 70) then Some (c - 65 + 10) else
  None.

Fixpoint percent_decode_payload_value (value : string) : option string :=
  match value with
  | EmptyString => Some EmptyString
  | String ch rest =>
      if negb (bool_decide (ch = "%"%char))
      then String ch <$> percent_decode_payload_value rest
      else
      match rest with
      | String h (String l rest) =>
          match decode_hex_digit h, decode_hex_digit l with
          | Some high, Some low =>
              String (char_of_code (Z.lor (Z.shiftl high 4) low)) <$> percent_decode_payload_value rest
          | _, _ => None
          end
      | _ => None
      end
  end.

(** ** Items *)

Definition semicolon : Ascii.ascii := ";"%char.

(** The items between the semicolons, the empty ones too. *)
Fixpoint payload_items (payload : string) : list string :=
  match payload with
  | EmptyString => [EmptyString]
  | String ch rest =>
      if bool_decide (ch = semicolon) then EmptyString :: payload_items rest
      else match payload_items rest with
           | [] => [String ch EmptyString]
           | item :: items => String ch item :: items
           end
  end.

(** The loop of the readers: an empty item is skipped, one without a key ends it. *)
Fixpoint fold_items {A} (read : A -> string -> string -> option A) (parsed : A)
    (items : list string) : option A :=
  match items with
  | [] => Some parsed
  | item :: items =>
      if is_empty item then fold_items read parsed items else
      match split_equals item with
      | None => None
      | Some (key, value) =>
          if is_empty key then None else
          match read parsed key value with
          | Some parsed => fold_items read parsed items
          | None => None
          end
      end
  end.

(** ** Status and cancel *)

Record DaemonStatusQueryPayload := {
  sqp_receipt_ref : string;
  sqp_actor_ref : string;
  sqp_ownership_token : string;
}.

Definition read_status_item (parsed : DaemonStatusQueryPayload) (key value : string)
    : option DaemonStatusQueryPayload :=
  if bool_decide (key = "receipt_ref")
  then Some {| sqp_receipt_ref := value; sqp_actor_ref := sqp_actor_ref parsed;
               sqp_ownership_token := sqp_ownership_token parsed |} else
  if bool_decide (key = "actor_ref")
  then Some {| sqp_receipt_ref := sqp_receipt_ref parsed; sqp_actor_ref := value;
               sqp_ownership_token := sqp_ownership_token parsed |} else
  if bool_decide (key = "ownership_token")
  then Some {| sqp_receipt_ref := sqp_receipt_ref parsed; sqp_actor_ref := sqp_actor_ref parsed;
               sqp_ownership_token := value |} else
  Some parsed.

Definition parse_status_query_payload (payload : string) : option DaemonStatusQueryPayload :=
  if is_empty payload then None else
  match fold_items read_status_item
          {| sqp_receipt_ref := ""; sqp_actor_ref := ""; sqp_ownership_token := "" |}
          (payload_items payload) with
  | None => None
  | Some parsed =>
      if is_empty (sqp_receipt_ref parsed) || is_empty (sqp_ownership_token parsed) then None
      else Some parsed
  end.

Module CliSelectorKind.
Inductive CliSelectorKind := None | Receipt | RequestId.
#[global] Instance CliSelectorKind_eq_dec : EqDecision CliSelectorKind.
Proof. solve_decision. Defined.
End CliSelectorKind.
Abbreviation CliSelectorKind := CliSelectorKind.CliSelectorKind.

Module CliKnowledgeCommandKind.
Inductive CliKnowledgeCommandKind := None | Health | Retrieve | Refresh.
End CliKnowledgeCommandKind.
Abbreviation CliKnowledgeCommandKind := CliKnowledgeCommandKind.CliKnowledgeCommandKind.

(** The fields of a parsed command that go into a payload or the request id. *)
Record CliCommand := {
  cc_name : string;
  cc_payload : option string;
  cc_receipt_ref : option string;
  cc_selector_kind : CliSelectorKind;
  cc_selector_value : option string;
  cc_ownership_token : option string;
  cc_request_id : option string;
  cc_actor_ref : option string;
  cc_diag_command : option string;
  cc_knowledge_command : CliKnowledgeCommandKind;
  cc_knowledge_query_text : option string;
  cc_knowledge_preferred_mode : option string;
  cc_knowledge_query_kind : option string;
  cc_knowledge_allowed_corpora : list string;
  cc_knowledge_domain_tags : list string;
  cc_knowledge_required_tags : list string;
  cc_knowledge_required_language : option string;
  cc_knowledge_refresh_changed_sources : list string;
  cc_session_hint : option string;
  cc_trace_id : option string;
  cc_timeout_ms : option Z;
  cc_async : bool;
  cc_json_output : bool;
}.

Definition make_request_id (command : CliCommand) : string :=
  match cc_request_id command with
  | Some request_id =>
      if bool_decide (cc_name command = "run") && negb (is_empty request_id) then request_id
      else "cli-" +:+ cc_name command
  | None => "cli-" +:+ cc_name command
  end.

Definition or_text (value : option string) : string := default "" value.

(** The payload of a status or cancel command. *)
Definition build_status_like_frame (command : CliCommand) : option string :=
  if bool_decide (cc_selector_kind command = CliSelectorKind.RequestId)
  then match cc_selector_value command with
       | Some value => if is_empty value then None else Some ("request_id=" +:+ value)
       | None => None
       end
  else
  let receipt_ref := default (or_text (cc_receipt_ref command)) (cc_selector_value command) in
  let ownership_token := or_text (cc_ownership_token command) in
  if is_empty receipt_ref || is_empty ownership_token then None else
  let actor :=
    match cc_actor_ref command with
    | Some actor_ref => if is_empty actor_ref then "" else ";actor_ref=" +:+ actor_ref
    | None => ""
    end in
  Some ("receipt_ref=" +:+ (receipt_ref +:+ (actor +:+ (";ownership_token=" +:+ ownership_token)))).

(** ** Diagnostics *)

Definition canonical_diag_command (command_name : string) : string :=
  if bool_decide (command_name = "health") then "health.snapshot" else
  if bool_decide (command_name = "queue") then "queue.stats" else
  if bool_decide (command_name = "threads") then "thread.dump" else
  command_name.

Definition build_diag_payload (command : CliCommand) : option string :=
  match cc_diag_command command with
  | Some name => if is_empty name then None else Some ("command_name=" +:+ canonical_diag_command name)
  | None => None
  end.

Definition parse_diag_payload (payload : string) : option string :=
  if is_empty payload then None else
  match strip_prefix "command_name=" payload with
  | Some command_name => if is_empty command_name then None else Some command_name
  | None => None
  end.

(** ** Knowledge *)

Inductive RetrievalMode := LexicalOnly | DenseOnly | Hybrid.

Inductive KnowledgeQueryKind :=
| FactLookup | ProcedureLookup | DiagnosticContext | PolicyEvidence | MultiHop.

Record DaemonKnowledgePayload := {
  kp_operation : string;
  kp_query_text : string;
  kp_preferred_mode : option RetrievalMode;
  kp_query_kind : option KnowledgeQueryKind;
  kp_allowed_corpora : list string;
  kp_domain_tags : list string;
  kp_required_tags : list string;
  kp_required_language : option string;
  kp_changed_sources : list string;
}.

Definition empty_knowledge_payload : DaemonKnowledgePayload :=
  {| kp_operation := ""; kp_query_text := ""; kp_preferred_mode := None; kp_query_kind := None;
     kp_allowed_corpora := []; kp_domain_tags := []; kp_required_tags := [];
     kp_required_language := None; kp_changed_sources := [] |}.

Definition lower_char (ch : Ascii.ascii) : Ascii.ascii :=
  let c := char_code ch in
  if (65 <=? c) && (c <=? 90) then char_of_code (c + 32) else ch.

(** The loop, with what it has put out and whether a separator came last; [None] for the
    early return. *)
Fixpoint canonicalize_loop (canonical : string) (previous_was_separator : bool) (value : string)
    : option string :=
  match value with
  | EmptyString => Some canonical
  | String ch rest =>
      if is_alnum ch
      then canonicalize_loop (canonical +:+ String (lower_char ch) "") false rest else
      if bool_decide (ch = "-"%char) || bool_decide (ch = "_"%char) || is_space ch
      then if negb (is_empty canonical) && negb previous_was_separator
           then canonicalize_loop (canonical +:+ "_") true rest
           else canonicalize_loop canonical previous_was_separator rest
      else None
  end.

Fixpoint drop_trailing_underscores (s : string) : string :=
  match s with
  | EmptyString => EmptyString
  | String ch rest =>
      let rest := drop_trailing_underscores rest in
      if bool_decide (ch = "_"%char) && is_empty rest then EmptyString else String ch rest
  end.

Definition canonicalize_keyword_token (value : string) : string :=
  match canonicalize_loop "" false value with
  | Some canonical => drop_trailing_underscores canonical
  | None => ""
  end.

Definition parse_retrieval_mode_value (value : string) : option RetrievalMode :=
  let canonical := canonicalize_keyword_token value in
  if bool_decide (canonical = "lexical_only") then Some LexicalOnly else
  if bool_decide (canonical = "dense_only") then Some DenseOnly else
  if bool_decide (canonical = "hybrid") then Some Hybrid else
  None.

Definition parse_query_kind_value (value : string) : option KnowledgeQueryKind :=
  let canonical := canonicalize_keyword_token value in
  if bool_decide (canonical = "fact_lookup") then Some FactLookup else
  if bool_decide (canonical = "procedure_lookup") then Some ProcedureLookup else
  if bool_decide (canonical = "diagnostic_context") then Some DiagnosticContext else
  if bool_decide (canonical = "policy_evidence") then Some PolicyEvidence else
  if bool_decide (canonical = "multi_hop") then Some MultiHop else
  None.

Definition has_retrieve_query_surface (payload : DaemonKnowledgePayload) : bool :=
  bool_decide (is_Some (kp_preferred_mode payload)) || bool_decide (is_Some (kp_query_kind payload))
  || bool_decide (is_Some (kp_required_language payload))
  || negb (bool_decide (kp_allowed_corpora payload = []))
  || negb (bool_decide (kp_domain_tags payload = []))
  || negb (bool_decide (kp_required_tags payload = [])).

Definition with_texts (operation query_text : string) (p : DaemonKnowledgePayload)
    : DaemonKnowledgePayload :=
  {| kp_operation := operation; kp_query_text := query_text;
     kp_preferred_mode := kp_preferred_mode p; kp_query_kind := kp_query_kind p;
     kp_allowed_corpora := kp_allowed_corpora p; kp_domain_tags := kp_domain_tags p;
     kp_required_tags := kp_required_tags p; kp_required_language := kp_required_language p;
     kp_changed_sources := kp_changed_sources p |}.

Definition with_choices (mode : option RetrievalMode) (kind : option KnowledgeQueryKind)
    (language : option string) (p : DaemonKnowledgePayload) : DaemonKnowledgePayload :=
  {| kp_operation := kp_operation p; kp_query_text := kp_query_text p;
     kp_preferred_mode := mode; kp_query_kind := kind;
     kp_allowed_corpora := kp_allowed_corpora p; kp_domain_tags := kp_domain_tags p;
     kp_required_tags := kp_required_tags p; kp_required_language := language;
     kp_changed_sources := kp_changed_sources p |}.

Definition with_lists (corpora domain_tags required_tags sources : list string)
    (p : DaemonKnowledgePayload) : DaemonKnowledgePayload :=
  {| kp_operation := kp_operation p; kp_query_text := kp_query_text p;
     kp_preferred_mode := kp_preferred_mode p; kp_query_kind := kp_query_kind p;
     kp_allowed_corpora := corpora; kp_domain_tags := domain_tags; kp_required_tags := required_tags;
     kp_required_language := kp_required_language p; kp_changed_sources := sources |}.

Definition read_knowledge_value (p : DaemonKnowledgePayload) (key value : string)
    : option DaemonKnowledgePayload :=
  if bool_decide (key = "operation")
  then if negb (is_empty (kp_operation p)) then None
       else Some (with_texts value (kp_query_text p) p) else
  if bool_decide (key = "query_text")
  then if negb (is_empty (kp_query_text p)) then None
       else Some (with_texts (kp_operation p) value p) else
  if bool_decide (key = "preferred_mode")
  then match kp_preferred_mode p, parse_retrieval_mode_value value with
       | None, Some mode => Some (with_choices (Some mode) (kp_query_kind p) (kp_required_language p) p)
       | _, _ => None
       end else
  if bool_decide (key = "query_kind")
  then match kp_query_kind p, parse_query_kind_value value with
       | None, Some kind => Some (with_choices (kp_preferred_mode p) (Some kind) (kp_required_language p) p)
       | _, _ => None
       end else
  if bool_decide (key = "allowed_corpus")
  then if is_empty value then None
       else Some (with_lists (kp_allowed_corpora p ++ [value]) (kp_domain_tags p)
                    (kp_required_tags p) (kp_changed_sources p) p) else
  if bool_decide (key = "domain_tag")
  then if is_empty value then None
       else Some (with_lists (kp_allowed_corpora p) (kp_domain_tags p ++ [value])
                    (kp_required_tags p) (kp_changed_sources p) p) else
  if bool_decide (key = "required_tag")
  then if is_empty value then None
       else Some (with_lists (kp_allowed_corpora p) (kp_domain_tags p)
                    (kp_required_tags p ++ [value]) (kp_changed_sources p) p) else
  if bool_decide (key = "required_language")
  then if bool_decide (is_Some (kp_required_language p)) || is_empty (canonicalize_keyword_token value)
       then None
       else Some (with_choices (kp_preferred_mode p) (kp_query_kind p) (Some value) p) else
  if bool_decide (key = "changed_source")
  then if is_empty value then None
       else Some (with_lists (kp_allowed_corpora p) (kp_domain_tags p)
                    (kp_required_tags p) (kp_changed_sources p ++ [value]) p) else
  Some p.

Definition read_knowledge_item (p : DaemonKnowledgePayload) (key raw_value : string)
    : option DaemonKnowledgePayload :=
  match percent_decode_payload_value raw_value with
  | Some value => read_knowledge_value p key value
  | None => None
  end.

Definition knowledge_payload_consistent (p : DaemonKnowledgePayload) : bool :=
  let is_retrieve := bool_decide (kp_operation p = "retrieve") in
  (bool_decide (kp_operation p = "health") || is_retrieve || bool_decide (kp_operation p = "refresh"))
  && negb (is_retrieve && is_empty (kp_query_text p))
  && negb (negb is_retrieve && negb (is_empty (kp_query_text p)))
  && negb (negb is_retrieve && has_retrieve_query_surface p)
  && negb (negb (bool_decide (kp_operation p = "refresh"))
           && negb (bool_decide (kp_changed_sources p = []))).

Definition parse_knowledge_payload (payload : string) : option DaemonKnowledgePayload :=
  if is_empty payload then None else
  match fold_items read_knowledge_item empty_knowledge_payload (payload_items payload) with
  | None => None
  | Some parsed => if knowledge_payload_consistent parsed then Some parsed else None
  end.

Definition knowledge_operation_name (command_kind : CliKnowledgeCommandKind) : string :=
  match command_kind with
  | CliKnowledgeCommandKind.Health => "health"
  | CliKnowledgeCommandKind.Retrieve => "retrieve"
  | CliKnowledgeCommandKind.Refresh => "refresh"
  | CliKnowledgeCommandKind.None => ""
  end.

Definition append_payload_item (payload key value : string) : string :=
  payload +:+ (";" +:+ (key +:+ ("=" +:+ percent_encode_payload_value value))).

Definition append_optional_item (payload key : string) (value : option string) : string :=
  match value with Some value => append_payload_item payload key value | None => payload end.

Definition append_items (payload key : string) (values : list string) : string :=
  fold_left (fun payload value => append_payload_item payload key value) values payload.

(** The payload of a knowledge command. *)
Definition build_knowledge_frame (command : CliCommand) : option string :=
  let operation := knowledge_operation_name (cc_knowledge_command command) in
  if is_empty operation then None else
  let payload := "operation=" +:+ operation in
  match cc_knowledge_command command with
  | CliKnowledgeCommandKind.Retrieve =>
      match cc_knowledge_query_text command with
      | None => None
      | Some query_text =>
          if is_empty query_text then None else
          let payload := append_payload_item payload "query_text" query_text in
          let payload := append_optional_item payload "preferred_mode" (cc_knowledge_preferred_mode command) in
          let payload := append_optional_item payload "query_kind" (cc_knowledge_query_kind command) in
          let payload := append_optional_item payload "required_language" (cc_knowledge_required_language command) in
          let payload := append_items payload "allowed_corpus" (cc_knowledge_allowed_corpora command) in
          let payload := append_items payload "domain_tag" (cc_knowledge_domain_tags command) in
          Some (append_items payload "required_tag" (cc_knowledge_required_tags command))
      end
  | CliKnowledgeCommandKind.Refresh =>
      Some (append_items payload "changed_source" (cc_knowledge_refresh_changed_sources command))
  | _ => Some payload
  end.

(** ** The encoding *)

Lemma upper_hex_value i : 0 <= i < 16 -> decode_hex_digit (upper_hex_digit i) = Some i.
Proof.
  intros Hi. assert (forallb (fun i => bool_decide (decode_hex_digit (upper_hex_digit i) = Some i))
    (Z.of_nat <$> seq 0 16) = true) as H by reflexivity.
  rewrite forallb_forall in H. specialize (H i). apply bool_decide_eq_true in H; [done|].
  apply list_elem_of_In, list_elem_of_fmap. exists (Z.to_nat i). rewrite elem_of_seq. lia.
Qed.

Lemma percent_roundtrip value :
  percent_decode_payload_value (percent_encode_payload_value value) = Some value.
Proof.
  induction value as [|ch rest IH]; [done|]. cbn [percent_encode_payload_value].
  destruct (is_unreserved_payload_character ch) eqn:Hu; cbn [percent_decode_payload_value].
  - rewrite bool_decide_false by (by intros ->). cbn [negb]. by rewrite IH.
  - rewrite bool_decide_true by done. cbn [negb].
    destruct (nibble_bounds (char_code ch) (char_code_bounds ch)) as (Hh & Hl & Hr).
    rewrite !upper_hex_value by done. by rewrite Hr, char_of_code_code, IH.
Qed.

Definition not_semicolon (ch : Ascii.ascii) : bool := negb (bool_decide (ch = semicolon)).

Lemma upper_hex_not_semicolon i : 0 <= i < 16 -> not_semicolon (upper_hex_digit i) = true.
Proof.
  intros Hi. pose proof (upper_hex_value i Hi) as H. unfold not_semicolon.
  apply negb_true_iff, bool_decide_eq_false. intros E. rewrite E in H. by vm_compute in H.
Qed.

Lemma encoded_not_semicolon value : all_chars not_semicolon (percent_encode_payload_value value) = true.
Proof.
  induction value as [|ch rest IH]; [done|]. cbn [percent_encode_payload_value].
  destruct (is_unreserved_payload_character ch) eqn:Hu; cbn [all_chars].
  - rewrite IH, andb_true_r. unfold not_semicolon. apply negb_true_iff, bool_decide_eq_false.
    intros ->. by vm_compute in Hu.
  - destruct (nibble_bounds (char_code ch) (char_code_bounds ch)) as (Hh & Hl & _).
    rewrite !upper_hex_not_semicolon, IH by done. done.
Qed.

(** ** Lists of items *)

Lemma payload_items_one item : all_chars not_semicolon item = true -> payload_items item = [item].
Proof.
  induction item as [|ch rest IH]; simpl; [done|]. intros [Hch H]%andb_true_iff.
  unfold not_semicolon in Hch. apply negb_true_iff in Hch. by rewrite Hch, IH.
Qed.

Lemma payload_items_append payload item :
  all_chars not_semicolon item = true ->
  payload_items (payload +:+ String semicolon item) = payload_items payload ++ [item].
Proof.
  intros Hi. induction payload as [|ch rest IH].
  - simpl. by rewrite payload_items_one.
  - rewrite string_cons_app. cbn [payload_items]. rewrite IH.
    destruct (bool_decide (ch = semicolon)); [done|].
    destruct (payload_items rest) eqn:E; [|done]. exfalso. clear -E.
    destruct rest; simpl in E; [done|]. repeat case_match; done.
Qed.

Fixpoint fold_pairs {A} (read : A -> string -> string -> option A) (parsed : A)
    (pairs : list (string * string)) : option A :=
  match pairs with
  | [] => Some parsed
  | (key, value) :: pairs =>
      match read parsed key value with
      | Some parsed => fold_pairs read parsed pairs
      | None => None
      end
  end.

Definition item_text (pair : string * string) : string := pair.1 +:+ String equals_sign pair.2.

Definition key_ok (key : string) : Prop := key <> "" /\ all_chars not_equals key = true.

Lemma fold_items_pairs {A} (read : A -> string -> string -> option A) parsed pairs :
  Forall (fun pair => key_ok pair.1) pairs ->
  fold_items read parsed (item_text <$> pairs) = fold_pairs read parsed pairs.
Proof.
  intros H. revert parsed. induction H as [|[key value] pairs [Hne Heq] _ IH]; intros parsed; [done|].
  simpl fst in Hne, Heq. rewrite fmap_cons.
  change (item_text (key, value)) with (key +:+ String equals_sign value).
  cbn [fold_items fold_pairs]. rewrite split_equals_app by done.
  rewrite (proj2 (is_empty_false (key +:+ String equals_sign value))) by by destruct key. rewrite (proj2 (is_empty_false _) Hne).
  destruct (read parsed key value); [apply IH|done].
Qed.

Lemma fold_pairs_app {A} (read : A -> string -> string -> option A) parsed l1 l2 :
  fold_pairs read parsed (l1 ++ l2) =
  match fold_pairs read parsed l1 with Some parsed => fold_pairs read parsed l2 | None => None end.
Proof.
  revert parsed. induction l1 as [|[key value] l1 IH]; intros parsed; [done|]. simpl.
  destruct (read parsed key value); [apply IH|done].
Qed.

(** ** Status and cancel, as they are written and read *)

(** The writer does not encode, so a value arrives as long as it holds no semicolon. *)
Lemma status_items_roundtrip receipt_ref actor_ref token :
  all_chars not_semicolon receipt_ref = true -> all_chars not_semicolon actor_ref = true ->
  all_chars not_semicolon token = true -> receipt_ref <> "" -> token <> "" ->
  parse_status_query_payload ("receipt_ref=" +:+ (receipt_ref +:+
    ((if is_empty actor_ref then "" else ";actor_ref=" +:+ actor_ref) +:+ (";ownership_token=" +:+ token))))
  = Some {| sqp_receipt_ref := receipt_ref; sqp_actor_ref := actor_ref; sqp_ownership_token := token |}.
Proof.
  intros Hr Ha Ht Hrn Htn. unfold parse_status_query_payload. cbn [is_empty].
  set (pairs := [("receipt_ref", receipt_ref)] ++
    (if is_empty actor_ref then [] else [("actor_ref", actor_ref)]) ++ [("ownership_token", token)]).
  assert (payload_items ("receipt_ref=" +:+ (receipt_ref +:+
    ((if is_empty actor_ref then "" else ";actor_ref=" +:+ actor_ref) +:+ (";ownership_token=" +:+ token))))
    = item_text <$> pairs) as ->.
  { change (";ownership_token=" +:+ token) with (String semicolon ("ownership_token=" +:+ token)).
    rewrite <-!string_app_assoc. rewrite payload_items_append by by rewrite all_chars_app, Ht.
    unfold pairs. rewrite !fmap_app, app_assoc. f_equal.
    destruct (is_empty actor_ref) eqn:E.
    - rewrite string_app_nil_r. rewrite payload_items_one by by rewrite all_chars_app, Hr. done.
    - change (";actor_ref=" +:+ actor_ref) with (String semicolon ("actor_ref=" +:+ actor_ref)).
      rewrite payload_items_append by by rewrite all_chars_app, Ha.
      by rewrite payload_items_one by by rewrite all_chars_app, Hr. }
  rewrite fold_items_pairs.
  2: { unfold pairs. destruct (is_empty actor_ref); repeat constructor; done. }
  unfold pairs. destruct (is_empty actor_ref) eqn:E.
  - apply is_empty_true in E as ->. simpl.
    by rewrite (proj2 (is_empty_false _) Hrn), (proj2 (is_empty_false _) Htn).
  - simpl. by rewrite (proj2 (is_empty_false _) Hrn), (proj2 (is_empty_false _) Htn).
Qed.

(** What a client asks for by receipt arrives as it was written, unless a semicolon splits it.
    What it asks for by request id never does: the reader knows no such item. *)
Theorem status_command_received command payload :
  build_status_like_frame command = Some payload ->
  (cc_selector_kind command <> CliSelectorKind.RequestId ->
   let receipt_ref := default (or_text (cc_receipt_ref command)) (cc_selector_value command) in
   let actor_ref := or_text (cc_actor_ref command) in
   let token := or_text (cc_ownership_token command) in
   all_chars not_semicolon (receipt_ref +:+ (actor_ref +:+ token)) = true ->
   parse_status_query_payload payload =
     Some {| sqp_receipt_ref := receipt_ref; sqp_actor_ref := actor_ref;
             sqp_ownership_token := token |}) /\
  (cc_selector_kind command = CliSelectorKind.RequestId ->
   all_chars not_semicolon (or_text (cc_selector_value command)) = true ->
   parse_status_query_payload payload = None).
Proof.
  unfold build_status_like_frame. intros H. split.
  - intros Hk. rewrite bool_decide_false in H by done. cbv zeta in H |- *.
    set (receipt_ref := default _ (cc_selector_value command)) in *.
    set (token := or_text (cc_ownership_token command)) in *. rewrite !all_chars_app, !andb_true_iff. intros (Hr & Ha & Ht).
    destruct (is_empty receipt_ref || is_empty token) eqn:E; [done|].
    apply orb_false_iff in E as [E1 E2]. apply is_empty_false in E1, E2.
    rewrite <-(status_items_roundtrip receipt_ref (or_text (cc_actor_ref command)) token) by done.
    injection H as <-. by destruct (cc_actor_ref command).
  - intros Hk Hv. rewrite bool_decide_true in H by done.
    destruct (cc_selector_value command) as [value|]; [|done].
    destruct (is_empty value); [done|]. injection H as <-. simpl in Hv.
    unfold parse_status_query_payload. cbn [is_empty].
    rewrite payload_items_one by by rewrite all_chars_app, Hv. by vm_compute.
Qed.

(** ** Knowledge, as it is written and read *)

Definition all_filled (values : list string) : bool := forallb (fun value => negb (is_empty value)) values.

(** A choice that was not made, or was made and is understood. *)
Definition read_choice {A} (read : string -> option A) (choice : option string) : option (option A) :=
  match choice with
  | None => Some None
  | Some text => match read text with Some a => Some (Some a) | None => None end
  end.

Definition read_language (text : string) : option string :=
  if is_empty (canonicalize_keyword_token text) then None else Some text.

(** What the daemon is meant to understand of a command. *)
Definition knowledge_meant (command : CliCommand) : option DaemonKnowledgePayload :=
  let operation := knowledge_operation_name (cc_knowledge_command command) in
  match cc_knowledge_command command with
  | CliKnowledgeCommandKind.None => None
  | CliKnowledgeCommandKind.Health => Some (with_texts operation "" empty_knowledge_payload)
  | CliKnowledgeCommandKind.Refresh =>
      if all_filled (cc_knowledge_refresh_changed_sources command)
      then Some (with_lists [] [] [] (cc_knowledge_refresh_changed_sources command)
                   (with_texts operation "" empty_knowledge_payload))
      else None
  | CliKnowledgeCommandKind.Retrieve =>
      match read_choice parse_retrieval_mode_value (cc_knowledge_preferred_mode command),
            read_choice parse_query_kind_value (cc_knowledge_query_kind command),
            read_choice read_language (cc_knowledge_required_language command) with
      | Some mode, Some kind, Some language =>
          if all_filled (cc_knowledge_allowed_corpora command)
             && all_filled (cc_knowledge_domain_tags command)
             && all_filled (cc_knowledge_required_tags command)
          then Some (with_lists (cc_knowledge_allowed_corpora command) (cc_knowledge_domain_tags command)
                       (cc_knowledge_required_tags command) []
                       (with_choices mode kind language
                          (with_texts operation (or_text (cc_knowledge_query_text command))
                             empty_knowledge_payload)))
          else None
      | _, _, _ => None
      end
  end.

(** *** The items of a command *)

Definition optional_pair (key : string) (value : option string) : list (string * string) :=
  match value with Some value => [(key, percent_encode_payload_value value)] | None => [] end.

Definition pairs_of (key : string) (values : list string) : list (string * string) :=
  (fun value => (key, percent_encode_payload_value value)) <$> values.

Definition key_sendable (key : string) : Prop := key_ok key /\ all_chars not_semicolon key = true.

Lemma items_append_item payload pairs key value :
  key_sendable key -> payload_items payload = item_text <$> pairs ->
  payload_items (append_payload_item payload key value) =
    item_text <$> (pairs ++ [(key, percent_encode_payload_value value)]).
Proof.
  intros [_ Hk] E. unfold append_payload_item.
  change (";" +:+ (key +:+ ("=" +:+ percent_encode_payload_value value)))
    with (String semicolon (key +:+ String equals_sign (percent_encode_payload_value value))).
  rewrite payload_items_append, E, fmap_app; [done|].
  rewrite all_chars_app, Hk. simpl. apply encoded_not_semicolon.
Qed.

Lemma items_append_optional payload pairs key value :
  key_sendable key -> payload_items payload = item_text <$> pairs ->
  payload_items (append_optional_item payload key value) = item_text <$> (pairs ++ optional_pair key value).
Proof.
  intros Hk E. destruct value; simpl; [by apply items_append_item|by rewrite app_nil_r].
Qed.

Lemma items_append_list payload pairs key values :
  key_sendable key -> payload_items payload = item_text <$> pairs ->
  payload_items (append_items payload key values) = item_text <$> (pairs ++ pairs_of key values).
Proof.
  intros Hk. revert payload pairs. induction values as [|value values IH]; intros payload pairs E.
  - simpl. by rewrite app_nil_r.
  - unfold append_items. cbn [fold_left]. fold (append_items (append_payload_item payload key value) key values).
    rewrite (IH _ (pairs ++ [(key, percent_encode_payload_value value)])).
    + by rewrite <-app_assoc.
    + by apply items_append_item.
Qed.

Lemma pairs_of_keys key values (P : string -> Prop) : P key -> Forall (fun pair => P pair.1) (pairs_of key values).
Proof. intros H. apply Forall_fmap, Forall_true. done. Qed.

Lemma optional_pair_keys key value (P : string -> Prop) : P key -> Forall (fun pair => P pair.1) (optional_pair key value).
Proof. intros H. destruct value; by repeat constructor. Qed.

(** *** Reading them *)

(** A list of one key grows by the values, as long as none is empty. *)
Lemma read_list p key values grow :
  (forall p value, read_knowledge_item p key (percent_encode_payload_value value) =
     if is_empty value then None else Some (grow p [value])) ->
  (forall p l1 l2, grow (grow p l1) l2 = grow p (l1 ++ l2)) -> (forall p, grow p [] = p) ->
  fold_pairs read_knowledge_item p (pairs_of key values) =
    if all_filled values then Some (grow p values) else None.
Proof.
  intros Hread Hgrow Hnil. revert p. induction values as [|value values IH]; intros p.
  - simpl. by rewrite Hnil.
  - unfold pairs_of. cbn [fmap list_fmap fold_pairs all_filled forallb]. rewrite Hread.
    destruct (is_empty value); [done|]. cbn [negb andb]. fold (pairs_of key values). rewrite IH.
    fold (all_filled values). by rewrite Hgrow.
Qed.


Lemma read_encoded p key value :
  read_knowledge_item p key (percent_encode_payload_value value) = read_knowledge_value p key value.
Proof. unfold read_knowledge_item. by rewrite percent_roundtrip. Qed.

Ltac read_value :=
  rewrite read_encoded; unfold read_knowledge_value;
  repeat (rewrite bool_decide_false by done); rewrite ?bool_decide_true by done; cbn.

Lemma read_mode p choice :
  kp_preferred_mode p = None ->
  fold_pairs read_knowledge_item p (optional_pair "preferred_mode" choice) =
  match read_choice parse_retrieval_mode_value choice with
  | Some mode => Some (with_choices mode (kp_query_kind p) (kp_required_language p) p)
  | None => None
  end.
Proof.
  intros H. destruct p; simpl in H; subst. destruct choice as [text|]; simpl; [read_value|done].
  - by destruct (parse_retrieval_mode_value text).
Qed.

Lemma read_kind p choice :
  kp_query_kind p = None ->
  fold_pairs read_knowledge_item p (optional_pair "query_kind" choice) =
  match read_choice parse_query_kind_value choice with
  | Some kind => Some (with_choices (kp_preferred_mode p) kind (kp_required_language p) p)
  | None => None
  end.
Proof.
  intros H. destruct p; simpl in H; subst. destruct choice as [text|]; simpl; [read_value|done].
  - by destruct (parse_query_kind_value text).
Qed.

Lemma read_required_language p choice :
  kp_required_language p = None ->
  fold_pairs read_knowledge_item p (optional_pair "required_language" choice) =
  match read_choice read_language choice with
  | Some language => Some (with_choices (kp_preferred_mode p) (kp_query_kind p) language p)
  | None => None
  end.
Proof.
  intros H. destruct p; simpl in H; subst. destruct choice as [text|]; simpl; [read_value|done].
  - unfold read_language.
    by destruct (is_empty (canonicalize_keyword_token text)).
Qed.

Ltac grow_list :=
  intros; repeat match goal with p : DaemonKnowledgePayload |- _ => destruct p end;
  try read_value; unfold with_lists; simpl; rewrite ?app_nil_r, ?app_assoc; try done.

Lemma read_corpora p values :
  fold_pairs read_knowledge_item p (pairs_of "allowed_corpus" values) =
  if all_filled values then Some (with_lists (kp_allowed_corpora p ++ values) (kp_domain_tags p)
                                    (kp_required_tags p) (kp_changed_sources p) p) else None.
Proof.
  apply (read_list p _ values (fun p l => with_lists (kp_allowed_corpora p ++ l) (kp_domain_tags p)
    (kp_required_tags p) (kp_changed_sources p) p)); grow_list.
Qed.

Lemma read_domain_tags p values :
  fold_pairs read_knowledge_item p (pairs_of "domain_tag" values) =
  if all_filled values then Some (with_lists (kp_allowed_corpora p) (kp_domain_tags p ++ values)
                                    (kp_required_tags p) (kp_changed_sources p) p) else None.
Proof.
  apply (read_list p _ values (fun p l => with_lists (kp_allowed_corpora p) (kp_domain_tags p ++ l)
    (kp_required_tags p) (kp_changed_sources p) p)); grow_list.
Qed.

Lemma read_required_tags p values :
  fold_pairs read_knowledge_item p (pairs_of "required_tag" values) =
  if all_filled values then Some (with_lists (kp_allowed_corpora p) (kp_domain_tags p)
                                    (kp_required_tags p ++ values) (kp_changed_sources p) p) else None.
Proof.
  apply (read_list p _ values (fun p l => with_lists (kp_allowed_corpora p) (kp_domain_tags p)
    (kp_required_tags p ++ l) (kp_changed_sources p) p)); grow_list.
Qed.

Lemma read_changed_sources p values :
  fold_pairs read_knowledge_item p (pairs_of "changed_source" values) =
  if all_filled values then Some (with_lists (kp_allowed_corpora p) (kp_domain_tags p)
                                    (kp_required_tags p) (kp_changed_sources p ++ values) p) else None.
Proof.
  apply (read_list p _ values (fun p l => with_lists (kp_allowed_corpora p) (kp_domain_tags p)
    (kp_required_tags p) (kp_changed_sources p ++ l) p)); grow_list.
Qed.

(** *** The commands *)

Definition retrieve_pairs (command : CliCommand) (query_text : string) : list (string * string) :=
  ((((((([("operation", "retrieve")] ++ [("query_text", percent_encode_payload_value query_text)])
    ++ optional_pair "preferred_mode" (cc_knowledge_preferred_mode command))
    ++ optional_pair "query_kind" (cc_knowledge_query_kind command))
    ++ optional_pair "required_language" (cc_knowledge_required_language command))
    ++ pairs_of "allowed_corpus" (cc_knowledge_allowed_corpora command))
    ++ pairs_of "domain_tag" (cc_knowledge_domain_tags command))
    ++ pairs_of "required_tag" (cc_knowledge_required_tags command)).

Lemma parse_pairs payload pairs :
  payload <> "" -> payload_items payload = item_text <$> pairs ->
  Forall (fun pair => key_ok pair.1) pairs ->
  parse_knowledge_payload payload =
  match fold_pairs read_knowledge_item empty_knowledge_payload pairs with
  | Some parsed => if knowledge_payload_consistent parsed then Some parsed else None
  | None => None
  end.
Proof.
  intros Hne Hi Hk. unfold parse_knowledge_payload. rewrite (proj2 (is_empty_false _) Hne), Hi.
  by rewrite fold_items_pairs.
Qed.

Lemma append_items_not_empty payload key values : payload <> "" -> append_items payload key values <> "".
Proof.
  revert payload. induction values as [|value values IH]; intros payload H; [done|].
  apply IH. by destruct payload.
Qed.

Lemma append_optional_not_empty payload key value : payload <> "" -> append_optional_item payload key value <> "".
Proof. intros H. destruct value; [|done]. by destruct payload. Qed.

Lemma retrieve_read command query_text :
  query_text <> "" -> cc_knowledge_command command = CliKnowledgeCommandKind.Retrieve ->
  cc_knowledge_query_text command = Some query_text ->
  match fold_pairs read_knowledge_item empty_knowledge_payload (retrieve_pairs command query_text) with
  | Some parsed => if knowledge_payload_consistent parsed then Some parsed else None
  | None => None
  end = knowledge_meant command.
Proof.
  intros Hq Hc Ht. unfold retrieve_pairs. rewrite !fold_pairs_app. cbn [fold_pairs].
  unfold knowledge_meant. rewrite Hc, Ht.
  change (read_knowledge_item empty_knowledge_payload "operation" "retrieve")
    with (Some (with_texts "retrieve" "" empty_knowledge_payload)).
  cbv iota beta. rewrite read_encoded.
  change (read_knowledge_value _ "query_text" query_text)
    with (Some (with_texts "retrieve" query_text (with_texts "retrieve" "" empty_knowledge_payload))).
  cbv iota beta. rewrite read_mode by done.
  destruct (read_choice parse_retrieval_mode_value _) as [mode|]; [|done].
  rewrite read_kind by done. destruct (read_choice parse_query_kind_value _) as [kind|]; [|done].
  rewrite read_required_language by done. destruct (read_choice read_language _) as [language|]; [|done].
  rewrite read_corpora. destruct (all_filled (cc_knowledge_allowed_corpora command)); [|done].
  rewrite read_domain_tags. destruct (all_filled (cc_knowledge_domain_tags command)); [|done].
  rewrite read_required_tags. destruct (all_filled (cc_knowledge_required_tags command)); [|done].
  unfold knowledge_payload_consistent. simpl. by rewrite (proj2 (is_empty_false _) Hq).
Qed.

(** The daemon understands every knowledge command as the client meant it, whatever characters
    its texts are made of; it refuses one whose choices are unknown or whose lists hold an
    empty text. *)
Theorem knowledge_command_received command payload :
  build_knowledge_frame command = Some payload ->
  parse_knowledge_payload payload = knowledge_meant command.
Proof.
  unfold build_knowledge_frame. destruct (cc_knowledge_command command) eqn:Hc; cbn [knowledge_operation_name is_empty].
  - done.
  - intros [= <-]. unfold knowledge_meant. rewrite Hc. by vm_compute.
  - destruct (cc_knowledge_query_text command) as [query_text|] eqn:Hq; [|done].
    destruct (is_empty query_text) eqn:He; [done|]. apply is_empty_false in He. intros [= <-].
    rewrite <-(retrieve_read command query_text He Hc Hq). apply parse_pairs.
    + repeat apply append_items_not_empty. by repeat apply append_optional_not_empty.
    + repeat (apply items_append_list; [done|]). repeat (apply items_append_optional; [done|]).
      by apply items_append_item.
    + unfold retrieve_pairs. rewrite !Forall_app.
      split_and!; try (by apply pairs_of_keys); try (by apply optional_pair_keys); by repeat constructor.
  - intros [= <-]. unfold knowledge_meant. rewrite Hc.
    rewrite (parse_pairs _ ([("operation", "refresh")] ++
      pairs_of "changed_source" (cc_knowledge_refresh_changed_sources command))).
    + rewrite fold_pairs_app. cbn [fold_pairs].
      change (read_knowledge_item empty_knowledge_payload "operation" "refresh")
        with (Some (with_texts "refresh" "" empty_knowledge_payload)). cbv iota beta.
      rewrite read_changed_sources. by destruct (all_filled _).
    + by apply append_items_not_empty.
    + by apply items_append_list.
    + apply Forall_app. split; [by repeat constructor|by apply pairs_of_keys].
Qed.

(** ** Examples *)

Definition sample_command : CliCommand :=
  {| cc_name := "knowledge"; cc_payload := None; cc_receipt_ref := None;
     cc_selector_kind := CliSelectorKind.None; cc_selector_value := None;
     cc_ownership_token := None; cc_request_id := None; cc_actor_ref := None;
     cc_diag_command := None; cc_knowledge_command := CliKnowledgeCommandKind.Retrieve;
     cc_knowledge_query_text := Some "what; is=100%?"; cc_knowledge_preferred_mode := Some "Lexical-Only";
     cc_knowledge_query_kind := None; cc_knowledge_allowed_corpora := ["docs"; "code;base"];
     cc_knowledge_domain_tags := []; cc_knowledge_required_tags := ["v1"];
     cc_knowledge_required_language := Some "en"; cc_knowledge_refresh_changed_sources := [];
     cc_session_hint := None; cc_trace_id := None; cc_timeout_ms := None; cc_async := false;
     cc_json_output := false |}.

Definition sample_status (kind : CliSelectorKind) : CliCommand :=
  {| cc_name := "status"; cc_payload := None; cc_receipt_ref := None;
     cc_selector_kind := kind; cc_selector_value := Some "req-1";
     cc_ownership_token := Some "v1.token"; cc_request_id := None; cc_actor_ref := None;
     cc_diag_command := None; cc_knowledge_command := CliKnowledgeCommandKind.None;
     cc_knowledge_query_text := None; cc_knowledge_preferred_mode := None;
     cc_knowledge_query_kind := None; cc_knowledge_allowed_corpora := [];
     cc_knowledge_domain_tags := []; cc_knowledge_required_tags := [];
     cc_knowledge_required_language := None; cc_knowledge_refresh_changed_sources := [];
     cc_session_hint := None; cc_trace_id := None; cc_timeout_ms := None; cc_async := false;
     cc_json_output := false |}.

Lemma status_command_received_witness :
  parse_status_query_payload (or_text (build_status_like_frame (sample_status CliSelectorKind.Receipt)))
    = Some {| sqp_receipt_ref := "req-1"; sqp_actor_ref := ""; sqp_ownership_token := "v1.token" |} /\
  parse_status_query_payload (or_text (build_status_like_frame (sample_status CliSelectorKind.RequestId)))
    = None.
Proof.
  split.
  - apply (status_command_received (sample_status CliSelectorKind.Receipt)
      "receipt_ref=req-1;ownership_token=v1.token"); [reflexivity|discriminate|reflexivity].
  - apply (status_command_received (sample_status CliSelectorKind.RequestId) "request_id=req-1");
      reflexivity.
Defined.

Lemma knowledge_command_received_witness :
  parse_knowledge_payload (or_text (build_knowledge_frame sample_command))
    = knowledge_meant sample_command /\ knowledge_meant sample_command <> None.
Proof.
  split; [|by vm_compute].
  apply (knowledge_command_received sample_command). by vm_compute.
Defined.
