(* ===== verification/DaemonCommands.v ===== *)
(** * The commands of the daemon

    access/src/daemon/{DaemonTaskQueryHandler,DaemonHealthService,DaemonDiagnosticsHandler}.cpp
    and the answers access/src/AccessGatewayFactory.cpp makes of what they say. The services of
    diagnostics and knowledge are behind interfaces: what is used of them is a function. *)

From S2P Require Import Prelude ErrorCodes CheckpointContracts Text RecoveryContracts AgentContracts AccessTypes TaskRegistry RuntimeBridge SubmitPipeline DaemonPayloads.

(** ** Status and cancel *)

Record DaemonTaskOwner := {
  dto_actor_ref : string;
  dto_ownership_token : string;
}.

Module DaemonTaskQueryStatus.
Inductive DaemonTaskQueryStatus :=
| Active | Completed | Cancelled | Missing | Expired | OwnerMismatch | CancelForwardFailed.
#[global] Instance DaemonTaskQueryStatus_eq_dec : EqDecision DaemonTaskQueryStatus.
Proof. solve_decision. Defined.
End DaemonTaskQueryStatus.
Abbreviation DaemonTaskQueryStatus := DaemonTaskQueryStatus.DaemonTaskQueryStatus.

Record DaemonTaskQueryResult := {
  tqr_status : DaemonTaskQueryStatus;
  tqr_task_status : string;
  tqr_receipt_ref : string;
  tqr_request_id : string;
}.

Definition query_result (status : DaemonTaskQueryStatus) (task_status receipt_ref request_id : string)
    : DaemonTaskQueryResult :=
  {| tqr_status := status; tqr_task_status := task_status; tqr_receipt_ref := receipt_ref;
     tqr_request_id := request_id |}.

(** The instants the three operations of the registry read, in their order. *)
Record RegistryInstants := {
  rin_query : Z;
  rin_prune : Z;
  rin_now : Z;
  rin_unix : Z;
  rin_mark_prune : Z;
  rin_mark : Z;
}.

(** [None] where the code would dereference a receipt that is not there. *)
Definition handle_status (r : AsyncTaskRegistry) (id : string) (owner : DaemonTaskOwner)
    (at_ : RegistryInstants) : AsyncTaskRegistry * option DaemonTaskQueryResult :=
  let '(r, (status, receipt)) := query_receipt r id (rin_query at_) in
  match status with
  | QueryStatus.NotFound =>
      (r, Some (query_result DaemonTaskQueryStatus.Missing "missing" id ""))
  | QueryStatus.Expired =>
      (r, Some (query_result DaemonTaskQueryStatus.Expired "expired" id ""))
  | QueryStatus.Found =>
      let '(r, owned) :=
        validate_ownership r id (dto_actor_ref owner) (dto_ownership_token owner)
          (rin_prune at_) (rin_now at_) (rin_unix at_) in
      if negb owned
      then (r, Some (query_result DaemonTaskQueryStatus.OwnerMismatch "mismatch" id "")) else
      match receipt with
      | None => (r, None)
      | Some receipt =>
          let registry_status := default "pending" (atr_initial_status receipt) in
          (r, Some
            (if bool_decide (registry_status = "completed")
             then query_result DaemonTaskQueryStatus.Completed "completed" id (atr_request_id receipt) else
             if bool_decide (registry_status = "cancelled")
             then query_result DaemonTaskQueryStatus.Cancelled "cancelled" id (atr_request_id receipt) else
             query_result DaemonTaskQueryStatus.Active "active" id (atr_request_id receipt)))
      end
  end.

Definition cancel_failed (id request_id : string) : DaemonTaskQueryResult :=
  query_result DaemonTaskQueryStatus.CancelForwardFailed "cancel_forward_failed" id request_id.

Definition handle_cancel (r : AsyncTaskRegistry) (id : string) (owner : DaemonTaskOwner)
    (cancel_backend : string -> string -> bool) (at_ : RegistryInstants)
    : AsyncTaskRegistry * option DaemonTaskQueryResult :=
  let '(r, answer) := handle_status r id owner at_ in
  match answer with
  | None => (r, None)
  | Some status_result =>
      match tqr_status status_result with
      | DaemonTaskQueryStatus.Missing | DaemonTaskQueryStatus.Expired
      | DaemonTaskQueryStatus.OwnerMismatch | DaemonTaskQueryStatus.Cancelled =>
          (r, Some status_result)
      | _ =>
          let request_id := tqr_request_id status_result in
          if is_empty request_id then (r, Some (cancel_failed id request_id)) else
          if negb (cancel_backend request_id (dto_actor_ref owner))
          then (r, Some (cancel_failed id request_id)) else
          let '(r, marked) := mark_completed r id "cancelled" (rin_mark_prune at_) (rin_mark at_) in
          (r, Some (if marked
                    then query_result DaemonTaskQueryStatus.Cancelled "cancelled" id request_id
                    else query_result DaemonTaskQueryStatus.Expired "expired" id request_id))
      end
  end.

(** ** Answers *)

(** An AgentResult of the three fields the daemon's own answers fill. *)
Definition response_result (request_id text : string) (completed : bool) : AgentResult :=
  {| ag_result_id := None; ag_status := None; ag_result_code := None;
     ag_response_text := Some text; ag_task_completed := Some completed; ag_created_at := None;
     ag_request_id := Some request_id; ag_trace_id := None; ag_structured_payload := None;
     ag_error_info := None; ag_checkpoint_ref := None; ag_goal_id := None; ag_tags := None |}.

Definition reply_envelope (request_id result_id protocol_kind hint payload : string)
    (agent_result : option AgentResult) : PublishEnvelope :=
  {| pe_request_id := request_id; pe_result_id := result_id; pe_session_id := "";
     pe_trace_id := ""; pe_channel_ref := ""; pe_protocol_kind := protocol_kind;
     pe_agent_result := agent_result; pe_protocol_status_hint := hint; pe_protocol_metadata := "";
     pe_is_final := true; pe_payload := payload; pe_receipt := None |}.

Definition completed_reply (envelope : PublishEnvelope) : RuntimeDispatchResult :=
  {| ds_disposition := AccessDisposition.Completed; ds_publish_envelope := Some envelope;
     ds_receipt_ref := None; ds_subscription_ref := None; ds_error_ref := None;
     ds_response_context := ∅ |}.

Definition rejected_reply (error_ref : string) (envelope : PublishEnvelope) : RuntimeDispatchResult :=
  {| ds_disposition := AccessDisposition.Rejected; ds_publish_envelope := Some envelope;
     ds_receipt_ref := None; ds_subscription_ref := None; ds_error_ref := Some error_ref;
     ds_response_context := ∅ |}.

Definition task_reply (result : DaemonTaskQueryResult) (request_id : string) (completed : bool)
    : RuntimeDispatchResult :=
  completed_reply (reply_envelope request_id (tqr_receipt_ref result) "ipc_uds" "200"
    (tqr_task_status result) (Some (response_result request_id (tqr_task_status result) completed))).

Definition task_rejection (result : DaemonTaskQueryResult) (request_id error_ref hint : string)
    : RuntimeDispatchResult :=
  rejected_reply error_ref
    (reply_envelope request_id (tqr_receipt_ref result) "ipc_uds" hint error_ref None).

Definition make_status_dispatch_result (result : DaemonTaskQueryResult) (request_id : string)
    : RuntimeDispatchResult :=
  match tqr_status result with
  | DaemonTaskQueryStatus.Active => task_reply result request_id false
  | DaemonTaskQueryStatus.Completed | DaemonTaskQueryStatus.Cancelled => task_reply result request_id true
  | DaemonTaskQueryStatus.Missing => task_rejection result request_id "status_missing" "404"
  | DaemonTaskQueryStatus.Expired => task_rejection result request_id "status_expired" "410"
  | DaemonTaskQueryStatus.OwnerMismatch => task_rejection result request_id "status_owner_mismatch" "403"
  | DaemonTaskQueryStatus.CancelForwardFailed =>
      task_rejection result request_id "status_cancel_forward_failed" "503"
  end.

Definition make_cancel_dispatch_result (result : DaemonTaskQueryResult) (request_id : string)
    : RuntimeDispatchResult :=
  match tqr_status result with
  | DaemonTaskQueryStatus.Cancelled => task_reply result request_id true
  | DaemonTaskQueryStatus.Missing => task_rejection result request_id "cancel_missing" "404"
  | DaemonTaskQueryStatus.Expired => task_rejection result request_id "cancel_expired" "410"
  | DaemonTaskQueryStatus.OwnerMismatch => task_rejection result request_id "cancel_owner_mismatch" "403"
  | DaemonTaskQueryStatus.CancelForwardFailed => task_rejection result request_id "cancel_forward_failed" "503"
  | DaemonTaskQueryStatus.Active | DaemonTaskQueryStatus.Completed =>
      task_rejection result request_id "cancel_unexpected_state" "409"
  end.

(** ** Health *)

Module DaemonReadinessState.
Inductive DaemonReadinessState := NotReady | Ready | Degraded.
#[global] Instance DaemonReadinessState_eq_dec : EqDecision DaemonReadinessState.
Proof. solve_decision. Defined.
End DaemonReadinessState.
Abbreviation DaemonReadinessState := DaemonReadinessState.DaemonReadinessState.

Definition to_readiness_string (state : DaemonReadinessState) : string :=
  match state with
  | DaemonReadinessState.Ready => "READY"
  | DaemonReadinessState.Degraded => "DEGRADED"
  | DaemonReadinessState.NotReady => "NOT_READY"
  end.

Record DaemonHealthInput := {
  dhi_lifecycle_ready : bool;
  dhi_listener_ready : bool;
  dhi_gateway_ready : bool;
  dhi_bridge_reachable : bool;
  dhi_diagnostics_enabled : bool;
  dhi_runtime_readiness_label : string;
  dhi_degraded_reasons : list string;
}.

Definition resolve_readiness_state (input : DaemonHealthInput) : DaemonReadinessState :=
  if negb (dhi_lifecycle_ready input) || negb (dhi_listener_ready input)
     || negb (dhi_gateway_ready input) || negb (dhi_bridge_reachable input)
  then DaemonReadinessState.NotReady else
  if negb (bool_decide (dhi_degraded_reasons input = [])) then DaemonReadinessState.Degraded
  else DaemonReadinessState.Ready.

(** What a daemon is built with, as far as its health goes. *)
Record DaemonFacts := {
  df_daemon_version : string;
  df_profile_id : string;
  df_listener_ready : bool;
  df_gateway_ready : bool;
  df_bridge_reachable : bool;
  df_diagnostics_enabled : bool;
  df_runtime_readiness_label : string;
  df_runtime_degraded_reasons : list string;
}.

(** The input that ping and readiness make; the dispatch backend is there, or the
    pipeline would not be. *)
Definition health_input (facts : DaemonFacts) : DaemonHealthInput :=
  let label := df_runtime_readiness_label facts in
  let stub := bool_decide (label = "stub-ready") in
  let bridge_reachable := df_bridge_reachable facts && negb stub in
  {| dhi_lifecycle_ready := true; dhi_listener_ready := df_listener_ready facts;
     dhi_gateway_ready := df_gateway_ready facts; dhi_bridge_reachable := bridge_reachable;
     dhi_diagnostics_enabled := df_diagnostics_enabled facts;
     dhi_runtime_readiness_label := label;
     dhi_degraded_reasons :=
       (if stub then ["runtime_entrypoint_stub_ready"] else
        if bool_decide (label = "degraded-ready")
        then "runtime_entrypoint_degraded_ready" :: df_runtime_degraded_reasons facts else [])
       ++ (if negb bridge_reachable then ["runtime_bridge_unreachable"] else []) |}.

Definition quoted_text (text : string) : string := String "034" (text +:+ String "034" "").

(** A member of a JSON object; its texts are written as they are. *)
Definition raw_member (key value : string) : string := quoted_text key +:+ (":" +:+ value).

Definition make_ping_dispatch_result (facts : DaemonFacts) (packet : InboundPacket)
    : RuntimeDispatchResult :=
  let summary := to_readiness_string (resolve_readiness_state (health_input facts)) in
  let payload :=
    "{" +:+ (raw_member "daemon_version" (quoted_text (df_daemon_version facts)) +:+ ("," +:+
      (raw_member "schema_version" (quoted_text "1") +:+ ("," +:+
      (raw_member "profile_id" (quoted_text (df_profile_id facts)) +:+ ("," +:+
      (raw_member "request_id" (quoted_text (ip_packet_id packet)) +:+ ("," +:+
      (raw_member "readiness" (quoted_text summary) +:+ "}"))))))))) in
  completed_reply (reply_envelope (ip_packet_id packet) (ip_packet_id packet)
    (ip_protocol_kind packet) "200" payload (Some (response_result (ip_packet_id packet) payload true))).

Definition bool_json (value : bool) : string := if value then "true" else "false".

Fixpoint joined_with (separator : string) (values : list string) : string :=
  match values with
  | [] => ""
  | [value] => value
  | value :: values => value +:+ (separator +:+ joined_with separator values)
  end.

Definition make_readiness_dispatch_result (facts : DaemonFacts) (packet : InboundPacket)
    : RuntimeDispatchResult :=
  let input := health_input facts in
  let state := resolve_readiness_state input in
  let payload :=
    "{" +:+ (raw_member "state" (quoted_text (to_readiness_string state)) +:+ ("," +:+
      (raw_member "lifecycle_ready" (bool_json (dhi_lifecycle_ready input)) +:+ ("," +:+
      (raw_member "listener_ready" (bool_json (dhi_listener_ready input)) +:+ ("," +:+
      (raw_member "gateway_ready" (bool_json (dhi_gateway_ready input)) +:+ ("," +:+
      (raw_member "bridge_reachable" (bool_json (dhi_bridge_reachable input)) +:+ ("," +:+
      (raw_member "runtime_readiness" (quoted_text (dhi_runtime_readiness_label input)) +:+ ("," +:+
      (raw_member "degraded_reasons" (quoted_text (joined_with "," (dhi_degraded_reasons input)))
       +:+ "}"))))))))))))) in
  let envelope hint :=
    reply_envelope (ip_packet_id packet) (ip_packet_id packet) (ip_protocol_kind packet) hint payload
      (Some (response_result (ip_packet_id packet) payload true)) in
  match state with
  | DaemonReadinessState.NotReady => rejected_reply "daemon_not_ready" (envelope "503")
  | _ => completed_reply (envelope "200")
  end.

(** ** Diagnostics *)

Definition is_read_only_diag_command (command_name : string) : bool :=
  bool_decide (command_name ∈ ["health.snapshot"; "queue.stats"; "thread.dump"]).

Record DiagnosticsCommand := {
  dgc_command_id : string;
  dgc_command_name : string;
  dgc_request_scope : string;
  dgc_timeout_ms : Z;
  dgc_actor_ref : string;
}.

(** What is read of the answer of the service. *)
Record DiagnosticsAnswer := {
  dga_ok : bool;
  dga_snapshot_id : string;
  dga_summary : string;
}.

Definition make_rejected_diag_result (request_id error_ref hint : string) : RuntimeDispatchResult :=
  rejected_reply error_ref (reply_envelope request_id request_id "ipc_uds" hint error_ref None).

Definition handle_diag (diagnostics_enabled : bool)
    (execute : option (DiagnosticsCommand -> DiagnosticsAnswer))
    (command_name request_id actor_ref : string) : RuntimeDispatchResult :=
  if negb diagnostics_enabled then make_rejected_diag_result request_id "diag_disabled" "403" else
  if negb (is_read_only_diag_command command_name)
  then make_rejected_diag_result request_id "diag_command_not_allowed" "403" else
  match execute with
  | None => make_rejected_diag_result request_id "diag_service_unavailable" "503"
  | Some execute =>
      let answer :=
        execute {| dgc_command_id := request_id; dgc_command_name := command_name;
                   dgc_request_scope := "runtime"; dgc_timeout_ms := 1000;
                   dgc_actor_ref := actor_ref |} in
      if negb (dga_ok answer) then make_rejected_diag_result request_id "diag_execution_failed" "503"
      else completed_reply (reply_envelope request_id (dga_snapshot_id answer) "ipc_uds" "200"
             (dga_summary answer) (Some (response_result request_id (dga_summary answer) true)))
  end.

(** ** Knowledge *)

Definition escape_json_char (ch : Ascii.ascii) : string :=
  let c := char_code ch in
  if c =? 34 then String "092" (String "034" "") else
  if c =? 92 then String "092" (String "092" "") else
  if c =? 8 then String "092" "b" else
  if c =? 12 then String "092" "f" else
  if c =? 10 then String "092" "n" else
  if c =? 13 then String "092" "r" else
  if c =? 9 then String "092" "t" else
  if c <? 32 then
    String "092" ("u00" +:+ String (hex_digit (Z.land (Z.shiftr c 4) 15))
                              (String (hex_digit (Z.land c 15)) "")) else
  String ch "".

Fixpoint escape_json_string (input : string) : string :=
  match input with
  | EmptyString => EmptyString
  | String ch rest => escape_json_char ch +:+ escape_json_string rest
  end.

Definition json_string (input : string) : string := quoted_text (escape_json_string input).

Definition json_array (values : list string) : string :=
  "[" +:+ (joined_with "," (json_string <$> values) +:+ "]").

Module HealthState.
Inductive HealthState := Unknown | Healthy | Degraded | Unhealthy.
End HealthState.
Abbreviation HealthState := HealthState.HealthState.

Module FreshnessState.
Inductive FreshnessState := Fresh | StaleAllowed | StaleRejected | Unknown.
End FreshnessState.
Abbreviation FreshnessState := FreshnessState.FreshnessState.

Module RefreshStatus.
Inductive RefreshStatus := Accepted | Busy | Completed | Failed.
#[global] Instance RefreshStatus_eq_dec : EqDecision RefreshStatus.
Proof. solve_decision. Defined.
End RefreshStatus.
Abbreviation RefreshStatus := RefreshStatus.RefreshStatus.

Definition health_state_name (state : HealthState) : string :=
  match state with
  | HealthState.Unknown => "unknown"
  | HealthState.Healthy => "healthy"
  | HealthState.Degraded => "degraded"
  | HealthState.Unhealthy => "unhealthy"
  end.

Definition freshness_state_name (state : FreshnessState) : string :=
  match state with
  | FreshnessState.Fresh => "fresh"
  | FreshnessState.StaleAllowed => "stale_allowed"
  | FreshnessState.StaleRejected => "stale_rejected"
  | FreshnessState.Unknown => "unknown"
  end.

Definition refresh_status_name (status : RefreshStatus) : string :=
  match status with
  | RefreshStatus.Accepted => "accepted"
  | RefreshStatus.Busy => "busy"
  | RefreshStatus.Completed => "completed"
  | RefreshStatus.Failed => "failed"
  end.

Definition retrieval_mode_name (mode : RetrievalMode) : string :=
  match mode with
  | LexicalOnly => "lexical_only"
  | DenseOnly => "dense_only"
  | Hybrid => "hybrid"
  end.

Record KnowledgeHealthSnapshot := {
  khs_state : HealthState;
  khs_active_snapshot_id : string;
  khs_freshness_state : FreshnessState;
  khs_vector_backend_available : bool;
  khs_last_known_good_available : bool;
  khs_degraded_return_count : Z;
  khs_refresh_in_flight : bool;
  khs_last_refresh_status : option RefreshStatus;
  khs_reason_codes : list string;
}.

Record RefreshResult := {
  krr_status : RefreshStatus;
  krr_refresh_id : string;
  krr_error : option ErrorInfo;
}.

(** A slice of evidence, as far as it is answered: its snippet and its citation. *)
Record EvidenceBundle := {
  evb_slices : list (string * string);
  evb_degraded : bool;
}.

Record KnowledgeRetrieveResult := {
  kvr_ok : bool;
  kvr_mode : RetrievalMode;
  kvr_evidence : option EvidenceBundle;
  kvr_reason_codes : list string;
  kvr_warning_count : Z;
  kvr_warning_summary : list string;
  kvr_corpus_summary : list string;
  kvr_vector_backend_ready : bool;
  kvr_sparse_hit_count : Z;
  kvr_dense_hit_count : Z;
  kvr_error : option ErrorInfo;
}.

(** The fields of a query that the daemon sets. *)
Record KnowledgeQuery := {
  kq_request_id : string;
  kq_query_text : string;
  kq_preferred_mode : option RetrievalMode;
  kq_query_kind : KnowledgeQueryKind;
  kq_domain_tags : list string;
  kq_allowed_corpora : list string;
  kq_required_tags : list string;
  kq_required_language : option string;
  kq_top_k : Z;
  kq_max_context_projection_items : Z;
  kq_allow_stale : bool;
}.

(** [IKnowledgeService] *)
Record KnowledgeService := {
  kns_health_snapshot : KnowledgeHealthSnapshot;
  kns_request_refresh : list string -> RefreshResult;
  kns_retrieve : KnowledgeQuery -> KnowledgeRetrieveResult;
}.

Definition object_text (members : list (string * string)) : string :=
  "{" +:+ (joined_with "," ((fun member => raw_member member.1 member.2) <$> members) +:+ "}").

Definition format_knowledge_health_payload (snapshot : KnowledgeHealthSnapshot) : string :=
  object_text
    [("operation", quoted_text "health");
     ("state", json_string (health_state_name (khs_state snapshot)));
     ("active_snapshot_id", json_string (khs_active_snapshot_id snapshot));
     ("freshness_state", json_string (freshness_state_name (khs_freshness_state snapshot)));
     ("vector_backend_available", bool_json (khs_vector_backend_available snapshot));
     ("last_known_good_available", bool_json (khs_last_known_good_available snapshot));
     ("degraded_return_count", to_string (khs_degraded_return_count snapshot));
     ("refresh_in_flight", bool_json (khs_refresh_in_flight snapshot));
     ("last_refresh_status",
       match khs_last_refresh_status snapshot with
       | Some status => json_string (refresh_status_name status)
       | None => "null"
       end);
     ("reason_codes", json_array (khs_reason_codes snapshot))].

Definition error_member (error : option ErrorInfo) : list (string * string) :=
  match error with
  | Some error => [("error_ref", json_string (esr_ref_id (ei_source_ref error)))]
  | None => []
  end.

Definition format_knowledge_refresh_payload (refresh_result : RefreshResult) : string :=
  object_text
    ([("operation", quoted_text "refresh");
      ("status", json_string (refresh_status_name (krr_status refresh_result)));
      ("refresh_id", json_string (krr_refresh_id refresh_result))]
     ++ error_member (krr_error refresh_result)).

Definition format_knowledge_retrieve_payload (result : KnowledgeRetrieveResult) : string :=
  let slices := match kvr_evidence result with Some evidence => evb_slices evidence | None => [] end in
  let degraded := match kvr_evidence result with Some evidence => evb_degraded evidence | None => false end in
  let first := default ("", "") (head slices) in
  object_text
    ([("operation", quoted_text "retrieve");
      ("ok", bool_json (kvr_ok result));
      ("mode", json_string (retrieval_mode_name (kvr_mode result)));
      ("degraded", bool_json degraded);
      ("reason_codes", json_array (kvr_reason_codes result));
      ("warning_count", to_string (kvr_warning_count result));
      ("warning_summary", json_array (kvr_warning_summary result));
      ("corpus_summary", json_array (kvr_corpus_summary result));
      ("selected_corpora", json_array (kvr_corpus_summary result));
      ("vector_backend_ready", bool_json (kvr_vector_backend_ready result));
      ("sparse_hit_count", to_string (kvr_sparse_hit_count result));
      ("dense_hit_count", to_string (kvr_dense_hit_count result));
      ("slice_count", to_string (Z.of_nat (length slices)));
      ("first_citation", json_string first.2);
      ("first_snippet", json_string first.1)]
     ++ error_member (kvr_error result)).

Definition make_knowledge_response (packet : InboundPacket) (payload : string) : RuntimeDispatchResult :=
  completed_reply (reply_envelope (ip_packet_id packet) (ip_packet_id packet)
    (ip_protocol_kind packet) "200" payload (Some (response_result (ip_packet_id packet) payload true))).

(** The error's reference if it has one, the given one otherwise. *)
Definition failure_ref (error : option ErrorInfo) (fallback : string) : string :=
  match error with
  | Some error => if is_empty (esr_ref_id (ei_source_ref error)) then fallback else esr_ref_id (ei_source_ref error)
  | None => fallback
  end.

Definition knowledge_query (packet : InboundPacket) (payload : DaemonKnowledgePayload) : KnowledgeQuery :=
  {| kq_request_id := if is_empty (ip_packet_id packet) then "knowledge-retrieve" else ip_packet_id packet;
     kq_query_text := kp_query_text payload; kq_preferred_mode := kp_preferred_mode payload;
     kq_query_kind := default FactLookup (kp_query_kind payload);
     kq_domain_tags := kp_domain_tags payload; kq_allowed_corpora := kp_allowed_corpora payload;
     kq_required_tags := kp_required_tags payload;
     kq_required_language := kp_required_language payload; kq_top_k := 3;
     kq_max_context_projection_items := 3; kq_allow_stale := false |}.

Definition make_knowledge_dispatch_result (packet : InboundPacket) (payload : DaemonKnowledgePayload)
    (knowledge_service : option KnowledgeService) : RuntimeDispatchResult :=
  match knowledge_service with
  | None => make_rejected_result AccessErrorCode.RuntimeDispatchFailed "knowledge_unavailable"
  | Some service =>
      if bool_decide (kp_operation payload = "health")
      then make_knowledge_response packet (format_knowledge_health_payload (kns_health_snapshot service)) else
      if bool_decide (kp_operation payload = "refresh")
      then
        let refresh_result := kns_request_refresh service (kp_changed_sources payload) in
        match krr_status refresh_result with
        | RefreshStatus.Accepted =>
            make_knowledge_response packet (format_knowledge_refresh_payload refresh_result)
        | RefreshStatus.Busy =>
            make_rejected_result AccessErrorCode.RuntimeDispatchFailed "knowledge_refresh_busy"
        | _ =>
            make_rejected_result AccessErrorCode.RuntimeDispatchFailed
              (failure_ref (krr_error refresh_result) "knowledge_refresh_failed")
        end
      else
        let retrieve_result := kns_retrieve service (knowledge_query packet payload) in
        if kvr_ok retrieve_result
        then make_knowledge_response packet (format_knowledge_retrieve_payload retrieve_result)
        else make_rejected_result AccessErrorCode.RuntimeDispatchFailed
               (failure_ref (kvr_error retrieve_result) "knowledge_retrieve_failed")
  end.


(** ** Who is told about a task *)

Definition is_owner (r : AsyncTaskRegistry) (id : string) (owner : DaemonTaskOwner)
    (at_ : RegistryInstants) : bool :=
  snd (validate_ownership r id (dto_actor_ref owner) (dto_ownership_token owner)
         (rin_prune at_) (rin_now at_) (rin_unix at_)).

(** The receipt is there when it is looked for, and the caller owns it. *)
Definition owned_task (r : AsyncTaskRegistry) (id : string) (owner : DaemonTaskOwner)
    (at_ : RegistryInstants) (stored : StoredReceipt) : Prop :=
  reg_receipts r !! id = Some stored /\ rin_query at_ < atr_expires_at (sre_receipt stored) /\
  is_owner r id owner at_ = true.

Definition task_state (status : option string) : DaemonTaskQueryStatus :=
  let registry_status := default "pending" status in
  if bool_decide (registry_status = "completed") then DaemonTaskQueryStatus.Completed else
  if bool_decide (registry_status = "cancelled") then DaemonTaskQueryStatus.Cancelled else
  DaemonTaskQueryStatus.Active.

Definition refusals : list DaemonTaskQueryStatus :=
  [DaemonTaskQueryStatus.Missing; DaemonTaskQueryStatus.Expired; DaemonTaskQueryStatus.OwnerMismatch].

Lemma task_state_settled status : DaemonTaskQueryStatus.CancelForwardFailed = task_state status -> False.
Proof. unfold task_state. by repeat case_bool_decide. Qed.

Lemma handle_status_cases r id owner at_ :
  exists result, snd (handle_status r id owner at_) = Some result /\
    tqr_receipt_ref result = id /\
    ((exists stored, owned_task r id owner at_ stored /\
        tqr_request_id result = atr_request_id (sre_receipt stored) /\
        tqr_status result = task_state (atr_initial_status (sre_receipt stored))) \/
     (forall stored, ~ owned_task r id owner at_ stored) /\
     tqr_request_id result = "" /\ tqr_status result ∈ refusals).
Proof.
  unfold handle_status, query_receipt, owned_task, is_owner, refusals.
  destruct (reg_receipts r !! id) as [stored|] eqn:Es.
  2: { eexists. split_and!; [done..|]. right. split_and!; [naive_solver|done|left]. }
  destruct (Z.leb_spec (atr_expires_at (sre_receipt stored)) (rin_query at_)).
  { eexists. split_and!; [done..|]. right.
    split_and!; [|done|right; left]. intros s (? & ? & _). simplify_eq. lia. }
  destruct (validate_ownership _ _ _ _ _ _ _) as [r2 owned]. cbn [snd].
  destruct owned; cbn [negb].
  - eexists. split; [done|]. split; [by repeat case_bool_decide|]. left. exists stored.
    split_and!; [done..| |]; unfold task_state; by repeat case_bool_decide.
  - eexists. split_and!; [done..|]. right. split_and!; [naive_solver|done|right; right; left].
Qed.

Lemma cancel_total r id owner cancel_backend at_ :
  exists result, snd (handle_cancel r id owner cancel_backend at_) = Some result.
Proof.
  destruct (handle_status_cases r id owner at_) as (status & Es & _). unfold handle_cancel.
  destruct (handle_status r id owner at_) as [r1 answer]. simpl in Es. subst answer.
  destruct (tqr_status status); try (by eexists); destruct (is_empty _); try (by eexists);
    destruct (negb _); try (by eexists); destruct (mark_completed _ _ _ _ _); by eexists.
Qed.

(** The request whose cancellation is passed on. *)
Definition cancellable (r : AsyncTaskRegistry) (id : string) (owner : DaemonTaskOwner)
    (at_ : RegistryInstants) : option string :=
  match snd (handle_status r id owner at_) with
  | Some result =>
      match tqr_status result with
      | DaemonTaskQueryStatus.Active | DaemonTaskQueryStatus.Completed =>
          if is_empty (tqr_request_id result) then None else Some (tqr_request_id result)
      | _ => None
      end
  | None => None
  end.

(** A cancellation is passed on only for the owner of the receipt, and then as one of the
    request the receipt was given for; where it is not, the runtime is not asked. It is answered as
    cancelled where the runtime agreed and the receipt is not over meanwhile, and from then on its
    status says so. *)
Theorem cancel_for_the_owner r id owner cancel_backend at_ :
  exists result, snd (handle_cancel r id owner cancel_backend at_) = Some result /\
    match cancellable r id owner at_ with
    | None =>
        (forall backend, handle_cancel r id owner backend at_ = handle_cancel r id owner cancel_backend at_) /\
        fst (handle_cancel r id owner cancel_backend at_) = fst (handle_status r id owner at_)
    | Some request_id =>
        (exists stored, owned_task r id owner at_ stored /\
           request_id = atr_request_id (sre_receipt stored)) /\
        (if cancel_backend request_id (dto_actor_ref owner)
         then tqr_status result <> DaemonTaskQueryStatus.CancelForwardFailed /\
              (tqr_status result = DaemonTaskQueryStatus.Cancelled ->
               exists stored, reg_receipts (fst (handle_cancel r id owner cancel_backend at_)) !! id = Some stored /\
                 task_state (atr_initial_status (sre_receipt stored)) = DaemonTaskQueryStatus.Cancelled)
         else tqr_status result = DaemonTaskQueryStatus.CancelForwardFailed /\
              fst (handle_cancel r id owner cancel_backend at_) = fst (handle_status r id owner at_))
    end.
Proof.
  destruct (handle_status_cases r id owner at_) as (status & Es & _ & Hcases).
  unfold handle_cancel, cancellable. destruct (handle_status r id owner at_) as [r1 answer] eqn:Eh.
  simpl in Es. subst answer. cbn [fst snd].
  destruct Hcases as [(stored & Hown & Hid & Hst)|(_ & Hid & Hst)].
  - destruct (is_empty (tqr_request_id status)) eqn:Hem.
    { destruct (tqr_status status); eexists; by split_and!. }
    destruct (cancel_backend (tqr_request_id status) (dto_actor_ref owner)) eqn:Eb.
    + destruct (mark_completed r1 id "cancelled" _ _) as [r2 marked] eqn:Em.
      assert (marked = true -> exists stored', reg_receipts r2 !! id = Some stored' /\
        task_state (atr_initial_status (sre_receipt stored')) = DaemonTaskQueryStatus.Cancelled) as Hm.
      { intros ->. unfold mark_completed in Em.
        destruct (reg_receipts (prune_expired_locked _ r1) !! id) as [s|]; [|done].
        destruct (_ <=? _); [done|]. simplify_eq/=. eexists (with_status "cancelled" s).
        split; [apply lookup_insert_eq|done]. }
      destruct (tqr_status status); cbn [fst snd negb]; eexists; split;
        try done; try (split; [by intros|done]); try (by apply task_state_settled in Hst); (split; [by exists stored|]);
        rewrite Eb; destruct marked; (split; [done|]); intros ?; try done; by apply Hm.
    + destruct (tqr_status status); cbn [fst snd negb]; eexists; split;
        try done; try (split; [by intros|done]); try (by apply task_state_settled in Hst); (split; [by exists stored|]); by rewrite ?Eb.
  - unfold refusals in Hst. rewrite !elem_of_cons, elem_of_nil in Hst.
    destruct Hst as [->|[->|[->|[]]]]; eexists; by split_and!.
Qed.
