(* ===== verification/DaemonPipeline.v ===== *)
(** * The submit pipeline of the daemon

    access/src/AccessGatewayFactory.cpp, [build_daemon_submit_pipeline]: which command a packet
    is, what of it is answered before the caller is known, and what goes on to the runtime.
    The id of a packet is the name of its command, or the id of the request it submits. *)

From S2P Require Import Prelude ErrorCodes Text RecoveryContracts AgentContracts AccessTypes Admission TaskRegistry Identity PolicyRules AccessPolicy RequestChecks RuntimeBridge SubmitPipeline DaemonPayloads DaemonCommands.

Record DaemonServices := {
  dsv_facts : DaemonFacts;
  dsv_diagnostics : option (DiagnosticsCommand -> DiagnosticsAnswer);
  dsv_knowledge : option KnowledgeService;
  dsv_cancel : option (string -> string -> bool);
}.

Definition with_registry (r : AsyncTaskRegistry) (s : SubmitState) : SubmitState :=
  {| ss_admission := ss_admission s; ss_registry := r; ss_calls := ss_calls s;
     ss_dispatching := ss_dispatching s; ss_completing := ss_completing s |}.

Definition validation_answer (error_ref : string) : RuntimeDispatchResult :=
  make_rejected_result AccessErrorCode.ValidationRejected error_ref.

(** The evaluator diagnostics are asked of: without a security policy, one that allows them. *)
Definition diagnostics_evaluator (options : PipelineOptions) : AccessPolicyEvaluator :=
  match po_policy_manager options with
  | Some policy_evaluate => infra_evaluator policy_evaluate
  | None =>
      snapshot_evaluator
        {| pbs_backend_available := po_policy_backend_available options;
           pbs_allow_submit := false; pbs_allow_task_query := true; pbs_allow_diagnostics := true;
           pbs_allow_override := false; pbs_require_confirmation_for_override := false;
           pbs_decision_ref := "policy://access/default" |}
  end.

Definition status_command (s : SubmitState) (packet : InboundPacket) (at_ : RegistryInstants)
    : option (SubmitState * option RuntimeDispatchResult) :=
  match parse_status_query_payload (ip_payload packet) with
  | None => Some (s, Some (validation_answer "status_query_payload_invalid"))
  | Some payload =>
      let '(r, result) :=
        handle_status (ss_registry s) (sqp_receipt_ref payload)
          {| dto_actor_ref := sqp_actor_ref payload;
             dto_ownership_token := sqp_ownership_token payload |} at_ in
      match result with
      | Some result => Some (with_registry r s, Some (make_status_dispatch_result result (ip_packet_id packet)))
      | None => None
      end
  end.

Definition cancel_command (services : DaemonServices) (s : SubmitState) (packet : InboundPacket)
    (actor_ref : string) (at_ : RegistryInstants)
    : option (SubmitState * option RuntimeDispatchResult) :=
  match parse_status_query_payload (ip_payload packet) with
  | None => Some (s, Some (validation_answer "cancel_query_payload_invalid"))
  | Some payload =>
      let '(r, result) :=
        handle_cancel (ss_registry s) (sqp_receipt_ref payload)
          {| dto_actor_ref := actor_ref; dto_ownership_token := sqp_ownership_token payload |}
          (cancel (dsv_cancel services)) at_ in
      match result with
      | Some result => Some (with_registry r s, Some (make_cancel_dispatch_result result (ip_packet_id packet)))
      | None => None
      end
  end.

Definition knowledge_command (services : DaemonServices) (packet : InboundPacket)
    : RuntimeDispatchResult :=
  match parse_knowledge_payload (ip_payload packet) with
  | None => validation_answer "knowledge_payload_invalid"
  | Some payload => make_knowledge_dispatch_result packet payload (dsv_knowledge services)
  end.

Definition diag_command (options : PipelineOptions) (services : DaemonServices)
    (packet : InboundPacket) (outcome : AuthenticationOutcome) : RuntimeDispatchResult :=
  match parse_diag_payload (ip_payload packet) with
  | None => validation_answer "diag_command_invalid"
  | Some command_name =>
      let policy_result :=
        evaluate_diagnostics_request (Some (diagnostics_evaluator options))
          (policy_input_of options outcome packet) command_name in
      if negb (apr_allowed policy_result)
      then make_rejected_result AccessErrorCode.AuthorizationDenied
             (default "diag_command_denied" (apr_reject_reason policy_result))
      else handle_diag (df_diagnostics_enabled (dsv_facts services)) (dsv_diagnostics services)
             command_name (ip_packet_id packet) (si_actor_ref (auo_subject_identity outcome))
  end.

(** What the daemon answers whoever asks. *)
Inductive OpenCommand := Ping | Readiness | Status | Unknown.

Definition open_command (packet_id : string) : option OpenCommand :=
  if bool_decide (packet_id = "ping") then Some Ping else
  if bool_decide (packet_id = "readiness") then Some Readiness else
  if bool_decide (packet_id = "status") then Some Status else
  if bool_decide (packet_id = "unknown") || bool_decide (packet_id = "unknown_command")
  then Some Unknown else None.

Definition answer_open_command (services : DaemonServices) (s : SubmitState) (packet : InboundPacket)
    (at_ : RegistryInstants) (command : OpenCommand)
    : option (SubmitState * option RuntimeDispatchResult) :=
  match command with
  | Ping => Some (s, Some (make_ping_dispatch_result (dsv_facts services) packet))
  | Readiness => Some (s, Some (make_readiness_dispatch_result (dsv_facts services) packet))
  | Status => status_command s packet at_
  | Unknown => Some (s, Some (validation_answer "unknown_command"))
  end.

Definition daemon_clear (options : PipelineOptions) (packet : InboundPacket) : Clearance :=
  clear_packet options (authenticate_daemon_packet (po_auth_view options) packet) packet.

Inductive daemon_op :=
| Arrives (packet : InboundPacket) (now now_ms : Z) (at_ : RegistryInstants)
| Runtime_answers (call : nat) (runtime_result : RuntimeDispatchResult)
| Receipt (call : nat) (unix_now now : Z).

Definition daemon_call (options : PipelineOptions) (services : DaemonServices) (s : SubmitState)
    (op : daemon_op) : option (SubmitState * option RuntimeDispatchResult) :=
  match op with
  | Arrives packet now now_ms at_ =>
      match open_command (ip_packet_id packet) with
      | Some command => answer_open_command services s packet at_ command
      | None =>
          match daemon_clear options packet with
          | Fault => None
          | Refused refusal => Some (s, Some refusal)
          | Cleared outcome policy_result =>
              if bool_decide (ip_packet_id packet = "knowledge")
              then Some (s, Some (knowledge_command services packet)) else
              if bool_decide (ip_packet_id packet = "diag")
                 || bool_decide (ip_packet_id packet = "diagnostics")
              then Some (s, Some (diag_command options services packet outcome)) else
              if bool_decide (ip_packet_id packet = "cancel")
              then cancel_command services s packet (si_actor_ref (auo_subject_identity outcome)) at_ else
              submit_call options s (Begin (cleared_request packet outcome policy_result) now now_ms)
          end
      end
  | Runtime_answers call runtime_result => submit_call options s (Complete_call call runtime_result)
  | Receipt call unix_now now => submit_call options s (Attach call unix_now now)
  end.

Fixpoint daemon_run (options : PipelineOptions) (services : DaemonServices) (s : SubmitState)
    (ops : list daemon_op) : option SubmitState :=
  match ops with
  | [] => Some s
  | op :: ops =>
      match daemon_call options services s op with
      | Some (s', _) => daemon_run options services s' ops
      | None => None
      end
  end.

(** ** The registry under the commands *)

Definition read_receipts (r r' : AsyncTaskRegistry) : Prop :=
  forall id stored, reg_receipts r' !! id = Some stored -> reg_receipts r !! id = Some stored.

Lemma read_receipts_refl r : read_receipts r r.
Proof. by intros id stored. Qed.

#[local] Hint Resolve read_receipts_refl : core.

Lemma pruned_reads now r : read_receipts r (prune_expired_locked now r).
Proof.
  intros id stored. rewrite prune_lookup_receipt. destruct (reg_receipts r !! id); [|done].
  by case_bool_decide.
Qed.

Lemma read_receipts_trans r1 r2 r3 : read_receipts r1 r2 -> read_receipts r2 r3 -> read_receipts r1 r3.
Proof. intros H1 H2 id stored H. by apply H1, H2. Qed.

Lemma deleted_reads id r : read_receipts r (with_receipts (delete id (reg_receipts r)) r).
Proof. intros id' stored. simpl. rewrite lookup_delete_Some. naive_solver. Qed.

Lemma query_reads r id now : read_receipts r (fst (query_receipt r id now)).
Proof.
  unfold query_receipt. destruct (reg_receipts r !! id) as [s|]; [|done].
  destruct (_ <=? _); [apply deleted_reads|done].
Qed.

Lemma validate_reads r id actor token prune_now now unix_now :
  read_receipts r (fst (validate_ownership r id actor token prune_now now unix_now)).
Proof.
  unfold validate_ownership. destruct (negb _); [done|].
  pose proof (pruned_reads prune_now r) as Hp.
  destruct (reg_receipts (prune_expired_locked prune_now r) !! id) as [s|]; [|done].
  destruct (_ <=? _); [eapply read_receipts_trans; [done|apply deleted_reads]|].
  by destruct (negb _).
Qed.

Lemma status_reads r id owner at_ : read_receipts r (fst (handle_status r id owner at_)).
Proof.
  unfold handle_status. pose proof (query_reads r id (rin_query at_)) as Hq.
  destruct (query_receipt r id (rin_query at_)) as [r1 [status receipt]]. simpl in Hq.
  destruct status; try done.
  pose proof (validate_reads r1 id (dto_actor_ref owner) (dto_ownership_token owner)
    (rin_prune at_) (rin_now at_) (rin_unix at_)) as Hv.
  destruct (validate_ownership _ _ _ _ _ _ _) as [r2 owned]. simpl in Hv.
  destruct (negb owned); [by eapply read_receipts_trans|].
  destruct receipt; by eapply read_receipts_trans.
Qed.

(** Every receipt waits, or was cancelled. *)
Definition pending_or_cancelled (r : AsyncTaskRegistry) : Prop :=
  forall id stored, reg_receipts r !! id = Some stored ->
    atr_initial_status (sre_receipt stored) ∈ [Some "pending"; Some "cancelled"].

Lemma reads_pending r r' : read_receipts r r' -> pending_or_cancelled r -> pending_or_cancelled r'.
Proof. intros Hr Hp id stored H. by eapply Hp, Hr. Qed.

Lemma marked_pending r id prune_now now :
  pending_or_cancelled r -> pending_or_cancelled (fst (mark_completed r id "cancelled" prune_now now)).
Proof.
  intros Hp. unfold mark_completed. apply (reads_pending _ _ (pruned_reads prune_now r)) in Hp.
  destruct (reg_receipts (prune_expired_locked prune_now r) !! id) as [s|]; [|done].
  destruct (_ <=? _); [by apply (reads_pending _ _ (deleted_reads id _))|].
  intros id' stored. simpl. rewrite lookup_insert_Some. intros [[_ <-]|[_ H]]; [right; left|by eapply Hp].
Qed.

Lemma cancel_pending r id owner backend at_ :
  pending_or_cancelled r -> pending_or_cancelled (fst (handle_cancel r id owner backend at_)).
Proof.
  intros Hp. apply (reads_pending _ _ (status_reads r id owner at_)) in Hp. unfold handle_cancel.
  destruct (handle_status r id owner at_) as [r1 [result|]]; [|done]. simpl in Hp.
  destruct (tqr_status result); simpl; try done;
    (destruct (is_empty _); [done|]; destruct (negb _); [done|];
     pose proof (marked_pending r1 id (rin_mark_prune at_) (rin_mark at_) Hp) as Hm;
     by destruct (mark_completed _ _ _ _ _)).
Qed.

Lemma registered_pending r request result unix_now now r' receipt :
  pending_or_cancelled r ->
  register_async_accept r request result unix_now now = Some (r', receipt) -> pending_or_cancelled r'.
Proof.
  unfold register_async_accept. intros Hp H. destruct (negb _); [by simplify_eq|].
  destruct (negb _); [by simplify_eq|]. destruct (negb _); [done|]. simplify_eq.
  intros id stored. simpl. rewrite lookup_insert_Some. intros [[_ <-]|[_ H]]; [left|by eapply Hp].
Qed.

Lemma submit_pending options s op s' answer :
  match op with Registry _ => False | _ => True end ->
  pending_or_cancelled (ss_registry s) -> submit_call options s op = Some (s', answer) ->
  pending_or_cancelled (ss_registry s').
Proof.
  intros Hop Hp H. destruct op as [request now now_ms|call result|call unix_now now|op]; [| | |done].
  - destruct (begin_call options s request now now_ms) as (s1 & a & E & _ & _ & Er & _).
    assert (s1 = s') as -> by congruence. by rewrite Er.
  - simpl in H. destruct (ss_dispatching s !! call) as [[t request]|]; by simplify_eq/=.
  - simpl in H. destruct (ss_completing s !! call) as [[request result]|]; [|done].
    unfold finish_submission, attach_async_receipt in H.
    destruct (negb _); [by simplify_eq/=|]. destruct (negb _); [by simplify_eq/=|].
    destruct (register_async_accept _ _ _ _ _) as [[r [receipt|]]|] eqn:E; simplify_eq/=;
      by eapply registered_pending.
Qed.

Lemma status_command_state s packet at_ s' answer :
  status_command s packet at_ = Some (s', answer) ->
  exists r, s' = with_registry r s /\ read_receipts (ss_registry s) r.
Proof.
  unfold status_command. destruct (parse_status_query_payload (ip_payload packet)) as [payload|].
  2: { intros [= <- _]. exists (ss_registry s). split; [by destruct s|done]. }
  pose proof (status_reads (ss_registry s) (sqp_receipt_ref payload)
    {| dto_actor_ref := sqp_actor_ref payload; dto_ownership_token := sqp_ownership_token payload |}
    at_) as Hr.
  destruct (handle_status _ _ _ _) as [r [result|]]; [|done]. intros [= <- _]. by exists r.
Qed.

Lemma cancel_command_state services s packet actor at_ s' answer :
  cancel_command services s packet actor at_ = Some (s', answer) ->
  exists r, s' = with_registry r s /\
    (pending_or_cancelled (ss_registry s) -> pending_or_cancelled r).
Proof.
  unfold cancel_command. destruct (parse_status_query_payload (ip_payload packet)) as [payload|].
  2: { intros [= <- _]. exists (ss_registry s). split; [by destruct s|done]. }
  pose proof (cancel_pending (ss_registry s) (sqp_receipt_ref payload)
    {| dto_actor_ref := actor; dto_ownership_token := sqp_ownership_token payload |}
    (cancel (dsv_cancel services)) at_) as Hr.
  destruct (handle_cancel _ _ _ _ _) as [r [result|]]; [|done]. intros [= <- _]. by exists r.
Qed.

Lemma daemon_inv_step options services config n s op s' answer :
  submit_inv config n s -> n < 2 ^ 64 - 1 -> pending_or_cancelled (ss_registry s) ->
  daemon_call options services s op = Some (s', answer) ->
  submit_inv config (n + 1) s' /\ pending_or_cancelled (ss_registry s').
Proof.
  intros Hinv Hlt Hp H.
  assert (forall r, submit_inv config (n + 1) (with_registry r s)) as Hreg.
  { intros r. destruct Hinv as (? & ? & ?). split_and!; [by apply admission_inv_mono|done..]. }
  assert (submit_inv config (n + 1) s) as Hs by (specialize (Hreg (ss_registry s)); by destruct s).
  assert (forall op, match op with Registry _ => False | _ => True end ->
    submit_call options s op = Some (s', answer) ->
    submit_inv config (n + 1) s' /\ pending_or_cancelled (ss_registry s')) as Hcall.
  { intros op' Hop Hc. split; [by eapply submit_inv_step|by eapply submit_pending]. }
  destruct op as [packet now now_ms at_|call result|call unix_now now];
    [|by eapply (Hcall (Complete_call _ _))|by eapply (Hcall (Attach _ _ _))].
  cbn [daemon_call] in H. destruct (open_command (ip_packet_id packet)) as [command|].
  - destruct command; cbn [answer_open_command] in H; try (by injection H as <- _).
    apply status_command_state in H as (r & -> & Hr). split; [apply Hreg|by eapply reads_pending].
  - destruct (daemon_clear options packet) as [refusal|outcome policy_result|]; [by injection H as <- _| |done].
    case_bool_decide; [by injection H as <- _|]. destruct (_ || _); [by injection H as <- _|].
    case_bool_decide.
    + apply cancel_command_state in H as (r & -> & Hr). split; [apply Hreg|by apply Hr].
    + by apply (Hcall (Begin (cleared_request packet outcome policy_result) now now_ms)).
Qed.

Lemma daemon_inv_run options services config n s ops s' :
  submit_inv config n s -> n + Z.of_nat (length ops) < 2 ^ 64 -> pending_or_cancelled (ss_registry s) ->
  daemon_run options services s ops = Some s' ->
  submit_inv config (n + Z.of_nat (length ops)) s' /\ pending_or_cancelled (ss_registry s').
Proof.
  revert n s. induction ops as [|op ops IH]; intros n s Hinv Hlt Hp Hrun; simpl in Hlt.
  - simpl in *. simplify_eq. by rewrite Z.add_0_r.
  - cbn [daemon_run] in Hrun. destruct (daemon_call options services s op) as [[s1 a]|] eqn:E; [|done].
    destruct (daemon_inv_step _ _ _ _ _ _ _ _ Hinv ltac:(lia) Hp E) as [Hinv1 Hp1].
    replace (n + Z.of_nat (length (op :: ops))) with (n + 1 + Z.of_nat (length ops)) by (simpl; lia).
    by eapply IH; [| |exact Hp1|]; [exact Hinv1|lia|].
Qed.

(** ** Theorems *)

Definition command_names : list string :=
  ["ping"; "readiness"; "status"; "unknown"; "unknown_command"; "knowledge"; "diag"; "diagnostics";
   "cancel"].

Definition open_names : list string := ["ping"; "readiness"; "status"; "unknown"; "unknown_command"].

Definition closed_names : list string := ["knowledge"; "diag"; "diagnostics"; "cancel"].

Lemma open_command_none packet_id : open_command packet_id = None <-> (packet_id ∉ open_names).
Proof.
  unfold open_command, open_names. rewrite !not_elem_of_cons.
  pose proof (not_elem_of_nil packet_id).
  repeat case_bool_decide; simpl; naive_solver.
Qed.

(** What is answered before the caller is known: the state stays but for receipts whose time
    is over, and the answer is the same whoever the caller is. *)
Lemma open_answered services s packet at_ command :
  exists s' answer, answer_open_command services s packet at_ command = Some (s', Some answer) /\
    exists r, s' = with_registry r s /\ read_receipts (ss_registry s) r.
Proof.
  assert (forall answer : RuntimeDispatchResult, exists s' answer', Some (s, Some answer) = Some (s', Some answer') /\
    exists r, s' = with_registry r s /\ read_receipts (ss_registry s) r) as Hsame.
  { intros answer. exists s, answer. split; [done|]. exists (ss_registry s). by destruct s. }
  destruct command; cbn [answer_open_command]; try apply Hsame.
  destruct (status_command s packet at_) as [[s' [answer|]]|] eqn:E.
  - exists s', answer. split; [done|]. by eapply status_command_state.
  - exfalso. revert E. unfold status_command. repeat case_match; naive_solver.
  - exfalso. revert E. unfold status_command. destruct (parse_status_query_payload _) as [d|]; [|done].
    destruct (handle_status_cases (ss_registry s) (sqp_receipt_ref d)
      {| dto_actor_ref := sqp_actor_ref d; dto_ownership_token := sqp_ownership_token d |} at_)
      as (result & Er & _).
    destruct (handle_status _ _ _ _) as [r o]. simpl in Er. by rewrite Er.
Qed.

Lemma cancel_answered services s packet actor at_ :
  exists s' answer, cancel_command services s packet actor at_ = Some (s', Some answer) /\
    exists r, s' = with_registry r s.
Proof.
  unfold cancel_command. destruct (parse_status_query_payload _) as [d|].
  2: { do 2 eexists. split; [done|]. exists (ss_registry s). by destruct s. }
  destruct (cancel_total (ss_registry s) (sqp_receipt_ref d)
    {| dto_actor_ref := actor; dto_ownership_token := sqp_ownership_token d |}
    (cancel (dsv_cancel services)) at_) as (result & Er).
  destruct (handle_cancel _ _ _ _ _) as [r o]. simpl in Er. rewrite Er. do 2 eexists. by split; [|eexists].
Qed.

(** The packet by its name: a command answered openly, one answered for a cleared caller,
    or a request. *)
Lemma daemon_call_cases options services s packet now now_ms at_ :
  let cleared outcome policy_result :=
    submit_call options s (Begin (cleared_request packet outcome policy_result) now now_ms) in
  (exists command, open_command (ip_packet_id packet) = Some command /\
     (ip_packet_id packet ∈ command_names) /\
     daemon_call options services s (Arrives packet now now_ms at_) =
       answer_open_command services s packet at_ command) \/
  (open_command (ip_packet_id packet) = None /\
   match daemon_clear options packet with
   | Refused refusal =>
       daemon_call options services s (Arrives packet now now_ms at_) = Some (s, Some refusal)
   | Cleared outcome policy_result =>
       if bool_decide (ip_packet_id packet ∈ command_names)
       then exists answer r, daemon_call options services s (Arrives packet now now_ms at_) =
              Some (with_registry r s, Some answer)
       else daemon_call options services s (Arrives packet now now_ms at_) = cleared outcome policy_result
   | Fault => True
   end).
Proof.
  cbv zeta. cbn [daemon_call]. destruct (open_command (ip_packet_id packet)) as [command|] eqn:Ho.
  - left. exists command. split_and!; [done| |done].
    destruct (decide (ip_packet_id packet ∈ open_names)) as [Hin|Hin].
    + unfold open_names, command_names in *. rewrite !elem_of_cons in *. pose proof (not_elem_of_nil (ip_packet_id packet)). tauto.
    + apply open_command_none in Hin. congruence.
  - right. split; [done|]. destruct (daemon_clear options packet) as [refusal|outcome policy_result|]; [done| |done].
    apply open_command_none in Ho. unfold open_names in Ho. rewrite !not_elem_of_cons in Ho.
    assert (forall answer : RuntimeDispatchResult, exists answer' r, Some (s, Some answer) = Some (with_registry r s, Some answer')) as Hsame.
    { intros answer. exists answer, (ss_registry s). by destruct s. }
    destruct (cancel_answered services s packet (si_actor_ref (auo_subject_identity outcome)) at_)
      as (s' & answer & Ec & r & ->).
    unfold command_names.
    destruct (decide (ip_packet_id packet = "knowledge")) as [->|H1]; [apply Hsame|].
    destruct (decide (ip_packet_id packet = "diag")) as [->|H2]; [apply Hsame|].
    destruct (decide (ip_packet_id packet = "diagnostics")) as [->|H3]; [apply Hsame|].
    destruct (decide (ip_packet_id packet = "cancel")) as [E|H4].
    + rewrite E in *. simpl. rewrite Ec. by exists answer, r.
    + rewrite !(bool_decide_false (ip_packet_id packet = _)) by done. cbn [orb].
      rewrite bool_decide_false; [done|]. rewrite !not_elem_of_cons.
      pose proof (not_elem_of_nil (ip_packet_id packet)). tauto.
Qed.

Lemma daemon_reachable options services config registry ops s :
  Z.of_nat (length ops) < 2 ^ 64 -> reg_receipts registry = ∅ ->
  daemon_run options services (new_submit_state config registry) ops = Some s ->
  ss_dispatching s !! ss_calls s = None /\ pending_or_cancelled (ss_registry s).
Proof.
  intros Hlt Hempty Hrun.
  destruct (daemon_inv_run _ _ _ _ _ _ _ (submit_inv_new config registry) Hlt
    ltac:(intros id stored; simpl; by rewrite Hempty, lookup_empty) Hrun) as [(_ & _ & Hf) Hp].
  split; [apply Hf; lia|done].
Qed.


(** C5. In every run, each packet of the daemon's is answered or goes on; the runtime is asked to
    carry it out exactly when its id is no command and it is authenticated, allowed, valid,
    admitted and fit for the runtime's guard, and then in the name of the local user the
    packet is of. *)
Theorem daemon_asks_exact options services config registry ops s packet now now_ms at_ :
  Z.of_nat (length ops) < 2 ^ 64 -> reg_receipts registry = ∅ ->
  daemon_run options services (new_submit_state config registry) ops = Some s ->
  exists outcome s' answer,
    authenticate_daemon_packet (po_auth_view options) packet = Some outcome /\
    daemon_call options services s (Arrives packet now now_ms at_) = Some (s', answer) /\
    (is_Some (asked s' (ss_calls s)) <->
     (ip_packet_id packet ∉ command_names) /\
     exists request, dispatch_of options s packet outcome now now_ms request) /\
    forall request, asked s' (ss_calls s) = Some request -> dispatched_as packet outcome request.
Proof.
  intros Hlt Hempty Hrun.
  destruct (daemon_reachable _ _ _ _ _ _ Hlt Hempty Hrun) as [Hfresh _].
  destruct (packet_authenticated (local_peer_metadata (parse_local_peer_fact packet)) false
    (po_auth_view options) packet) as (outcome & Ho & Hyes & Hno). exists outcome.
  destruct (cleared_asks options s packet _ outcome now now_ms Hfresh Ho Hyes Hno)
    as (s0 & a0 & E0 & Hasks & Has).
  assert (forall r, asked (with_registry r s) (ss_calls s) = None) as Hnone
    by (intros r; unfold asked; simpl; by rewrite Hfresh).
  assert (forall r answer, ip_packet_id packet ∈ command_names \/
      (forall request, ~ dispatch_of options s packet outcome now now_ms request) ->
    daemon_call options services s (Arrives packet now now_ms at_) = Some (with_registry r s, answer) ->
    exists s' answer, authenticate_daemon_packet (po_auth_view options) packet = Some outcome /\
      daemon_call options services s (Arrives packet now now_ms at_) = Some (s', answer) /\
      (is_Some (asked s' (ss_calls s)) <-> (ip_packet_id packet ∉ command_names) /\
       exists request, dispatch_of options s packet outcome now now_ms request) /\
      forall request, asked s' (ss_calls s) = Some request -> dispatched_as packet outcome request)
    as Hanswered.
  { intros r answer Hwhy E. exists (with_registry r s), answer. rewrite Hnone.
    split_and!; [exact Ho|done| |done]. split; [by intros [? ?]|]. naive_solver. }
  destruct (daemon_call_cases options services s packet now now_ms at_)
    as [(command & _ & Hin & E)|[_ Hcase]].
  - destruct (open_answered services s packet at_ command) as (s' & answer & E' & r & -> & _).
    rewrite E' in E. apply (Hanswered r (Some answer)); [by left|done].
  - unfold daemon_clear, authenticate_daemon_packet in Hcase. rewrite Ho in E0, Hcase.
    destruct (clear_packet options (Some outcome) packet) as [refusal|outcome' policy_result|] eqn:Ec; [| |done].
    + injection E0 as <- <-. assert (with_registry (ss_registry s) s = s) as Es by by destruct s.
      rewrite <-Es in Hcase at 2. apply (Hanswered _ _) in Hcase; [done|]. right. intros request Hd.
      rewrite <-Es in Hasks at 1. rewrite Hnone in Hasks. by destruct (proj2 Hasks (ex_intro _ _ Hd)).
    + destruct (decide (ip_packet_id packet ∈ command_names)) as [Hin|Hin].
      * rewrite bool_decide_true in Hcase by done. destruct Hcase as (answer & r & E).
        apply (Hanswered r (Some answer)); [by left|done].
      * rewrite bool_decide_false in Hcase by done.
        assert (outcome' = outcome) as ->.
        { unfold clear_packet in Ec. repeat case_match; by simplify_eq. }
        exists s0, a0. rewrite Hcase. split_and!; [done|exact E0| |done]. rewrite Hasks. tauto.
Qed.

(** The packet, sent by somebody else. *)
Definition from_peer (peer_ref : string) (packet : InboundPacket) : InboundPacket :=
  {| ip_packet_id := ip_packet_id packet; ip_entry_type := ip_entry_type packet;
     ip_protocol_kind := ip_protocol_kind packet; ip_peer_ref := peer_ref;
     ip_payload := ip_payload packet; ip_headers := ip_headers packet;
     ip_trace_id := ip_trace_id packet; ip_session_hint := ip_session_hint packet;
     ip_deadline_ms := ip_deadline_ms packet; ip_async_preferred := ip_async_preferred packet;
     ip_stream_requested := ip_stream_requested packet |}.

(** What somebody can do who is not a trusted local user: the open commands are answered alike
    to everyone, and change nothing but to forget receipts whose time is over; every other
    packet is rejected and changes nothing. *)
Theorem daemon_untrusted_caller options services s packet now now_ms at_ :
  (forall outcome, authenticate_daemon_packet (po_auth_view options) packet = Some outcome ->
     auo_authenticated outcome = false) ->
  exists s' answer,
    daemon_call options services s (Arrives packet now now_ms at_) = Some (s', Some answer) /\
    (ip_packet_id packet ∈ open_names ->
     (forall peer_ref, daemon_call options services s (Arrives (from_peer peer_ref packet) now now_ms at_) =
                       Some (s', Some answer)) /\
     exists r, s' = with_registry r s /\ read_receipts (ss_registry s) r) /\
    ((ip_packet_id packet ∉ open_names) -> s' = s /\ ds_disposition answer = AccessDisposition.Rejected).
Proof.
  intros Hun.
  destruct (packet_authenticated (local_peer_metadata (parse_local_peer_fact packet)) false
    (po_auth_view options) packet) as (outcome & Ho & Hyes & Hno).
  destruct (daemon_call_cases options services s packet now now_ms at_)
    as [(command & Hopen & _ & ->)|[Hopen Hcase]].
  - destruct (open_answered services s packet at_ command) as (s' & answer & E & Hr).
    exists s', answer. split_and!; [done| |].
    + intros _. split; [|done]. intros peer_ref. cbn [daemon_call from_peer ip_packet_id]. rewrite Hopen.
      rewrite <-E. by destruct command.
    + intros Hni. apply open_command_none in Hni. congruence.
  - apply open_command_none in Hopen. unfold daemon_clear in Hcase.
    destruct (clear_cases options _ packet outcome Ho Hyes Hno)
      as [(Ha & _)|(_ & refusal & Ec & Hrej)].
    + specialize (Hun _ Ho). congruence.
    + change (authenticate_packet _ false _ packet)
        with (authenticate_daemon_packet (po_auth_view options) packet) in Ec.
      rewrite Ec in Hcase. exists s, refusal. by split_and!.
Qed.

(** The asynchronous tasks of a daemon: in every run, none is ever reported as completed. What
    becomes of a task is written nowhere, so it stays active until it is cancelled or its receipt
    is over. *)
Theorem daemon_tasks_stay_active options services config registry ops s id owner at_ result :
  Z.of_nat (length ops) < 2 ^ 64 -> reg_receipts registry = ∅ ->
  daemon_run options services (new_submit_state config registry) ops = Some s ->
  snd (handle_status (ss_registry s) id owner at_) = Some result ->
  tqr_status result <> DaemonTaskQueryStatus.Completed /\
  ds_disposition (make_status_dispatch_result result "status") =
    if bool_decide (tqr_status result ∈ [DaemonTaskQueryStatus.Active; DaemonTaskQueryStatus.Cancelled])
    then AccessDisposition.Completed else AccessDisposition.Rejected.
Proof.
  intros Hlt Hempty Hrun Hst.
  destruct (daemon_reachable _ _ _ _ _ _ Hlt Hempty Hrun) as [_ Hp].
  destruct (handle_status_cases (ss_registry s) id owner at_) as (r & Er & _ & Hcases).
  assert (r = result) as -> by congruence.
  assert (tqr_status result <> DaemonTaskQueryStatus.Completed) as Hne.
  { destruct Hcases as [(stored & (Hs & _) & _ & ->)|(_ & _ & Hr)].
    - specialize (Hp id stored Hs). rewrite !elem_of_cons in Hp.
      destruct Hp as [->|[->|Hn]]; [done..|by apply not_elem_of_nil in Hn].
    - unfold refusals in Hr. rewrite !elem_of_cons in Hr.
      destruct Hr as [->|[->|[->|Hn]]]; [done..|by apply not_elem_of_nil in Hn]. }
  split; [done|]. unfold make_status_dispatch_result. by destruct (tqr_status result).
Qed.

(** ** Examples *)

Definition sample_services : DaemonServices :=
  {| dsv_facts :=
       {| df_daemon_version := "1"; df_profile_id := "default"; df_listener_ready := true;
          df_gateway_ready := true; df_bridge_reachable := true; df_diagnostics_enabled := true;
          df_runtime_readiness_label := "default-ready"; df_runtime_degraded_reasons := [] |};
     dsv_diagnostics := None; dsv_knowledge := None; dsv_cancel := None |}.

Definition daemon_options : PipelineOptions :=
  {| po_auth_view := sample_auth_view; po_publish_view := sample_publish_view;
     po_allowed_protocols := ["ipc_uds"]; po_dispatch_deadline_ms := 30000;
     po_policy_manager := None; po_policy_backend_available := true; po_allow_submit := true;
     po_snapshot_fingerprint := None; po_publish_backend := None |}.

(** What the daemon decodes of a [run] of the client without a request id. *)
Definition run_command : CliCommand :=
  {| cc_name := "run"; cc_payload := Some "first"; cc_receipt_ref := None;
     cc_selector_kind := CliSelectorKind.None; cc_selector_value := None;
     cc_ownership_token := None; cc_request_id := None; cc_actor_ref := None;
     cc_diag_command := None; cc_knowledge_command := CliKnowledgeCommandKind.None;
     cc_knowledge_query_text := None; cc_knowledge_preferred_mode := None;
     cc_knowledge_query_kind := None; cc_knowledge_allowed_corpora := [];
     cc_knowledge_domain_tags := []; cc_knowledge_required_tags := [];
     cc_knowledge_required_language := None; cc_knowledge_refresh_changed_sources := [];
     cc_session_hint := None; cc_trace_id := None; cc_timeout_ms := None; cc_async := false;
     cc_json_output := false |}.

Definition daemon_packet (packet_id peer_ref payload : string) : InboundPacket :=
  {| ip_packet_id := packet_id; ip_entry_type := "daemon"; ip_protocol_kind := "ipc_uds";
     ip_peer_ref := peer_ref; ip_payload := payload; ip_headers := ∅; ip_trace_id := None;
     ip_session_hint := None; ip_deadline_ms := None; ip_async_preferred := false;
     ip_stream_requested := false |}.

Definition run_packet (payload : string) : InboundPacket :=
  daemon_packet (make_request_id run_command) "local_trusted:1000" payload.

Definition sample_instants : RegistryInstants :=
  {| rin_query := 1; rin_prune := 1; rin_now := 1; rin_unix := 1; rin_mark_prune := 1; rin_mark := 1 |}.

Definition after_first_run : SubmitState :=
  default sample_start (daemon_run daemon_options sample_services sample_start
    [Arrives (run_packet "first") 10 5 sample_instants; Runtime_answers 0 sample_completion;
     Receipt 0 5 20]).

(** Two runs of the client carry the same request id, so the second, whatever it asks, is taken
    for a repetition of the first: it is not carried out, and its caller is told that it will be. *)
Example second_run_is_not_carried_out :
  bool_decide (is_Some (asked (default sample_start (fst <$>
    daemon_call daemon_options sample_services sample_start
      (Arrives (run_packet "first") 10 5 sample_instants))) 0)) = true /\
  answer_of (daemon_call daemon_options sample_services after_first_run
    (Arrives (run_packet "second") 30 6 sample_instants))
  = Some (AccessDisposition.AcceptedAsync, Some "receipt-for-ticket-1").
Proof. by vm_compute. Qed.

(** A request is taken for the command its id names. *)
Example request_named_status :
  let packet := daemon_packet "status" "local_trusted:1000" "summarise the logs" in
  fst <$> daemon_call daemon_options sample_services sample_start (Arrives packet 10 5 sample_instants)
  = Some sample_start.
Proof. by vm_compute. Qed.

Lemma daemon_asks_exact_witness :
  exists outcome s' answer,
    authenticate_daemon_packet sample_auth_view (run_packet "first") = Some outcome /\
    daemon_call daemon_options sample_services sample_start
      (Arrives (run_packet "first") 10 5 sample_instants) = Some (s', answer) /\
    forall request, asked s' 0 = Some request -> dispatched_as (run_packet "first") outcome request.
Proof.
  destruct (daemon_asks_exact daemon_options sample_services sample_admission_view sample_empty []
    sample_start (run_packet "first") 10 5 sample_instants) as (outcome & s' & answer & Ho & E & _ & H).
  - reflexivity.
  - reflexivity.
  - reflexivity.
  - exists outcome, s', answer. split_and!; [exact Ho|exact E|exact H].
Defined.

Lemma daemon_untrusted_caller_witness :
  exists s' answer,
    daemon_call daemon_options sample_services sample_start
      (Arrives (daemon_packet "p1" "untrusted" "do it") 10 5 sample_instants) = Some (s', Some answer) /\
    ds_disposition answer = AccessDisposition.Rejected.
Proof.
  destruct (daemon_untrusted_caller daemon_options sample_services sample_start
    (daemon_packet "p1" "untrusted" "do it") 10 5 sample_instants) as (s' & answer & E & _ & H).
  - intros outcome Ho. vm_compute in Ho. injection Ho as <-. reflexivity.
  - exists s', answer. split; [exact E|]. apply H, (bool_decide_eq_false_1 _). reflexivity.
Defined.

Lemma daemon_tasks_stay_active_witness :
  exists result, snd (handle_status sample_empty "r1" {| dto_actor_ref := ""; dto_ownership_token := "" |}
    sample_instants) = Some result /\ tqr_status result <> DaemonTaskQueryStatus.Completed.
Proof.
  eexists. split; [reflexivity|].
  apply (daemon_tasks_stay_active daemon_options sample_services sample_admission_view sample_empty []
    sample_start "r1" {| dto_actor_ref := ""; dto_ownership_token := "" |} sample_instants); reflexivity.
Defined.
