(* ===== verification/GatewayLifecycle.v ===== *)
(** * The life of the access gateway

    access/src/AccessGateway.cpp: [init], [submit] and [shutdown] on an atomic state and a
    counter behind a mutex. A call of one of them is several steps, and those of different
    threads interleave: between reading the state and acting on it, other threads run. *)

From S2P Require Import Prelude Text AgentContracts AccessTypes RuntimeBridge SubmitPipeline.

(** ** Answers *)

(** [result.response_context[key] = value] where the key is not there yet and the value is
    not empty. *)
Definition anchor (key : string) (value : option string) (context : gmap string string)
    : gmap string string :=
  match context !! key, filled value with
  | None, Some value => <[key := value]> context
  | _, _ => context
  end.

Definition enrich_response_trace_anchors (result : RuntimeDispatchResult) (packet : InboundPacket)
    : RuntimeDispatchResult :=
  {| ds_disposition := ds_disposition result; ds_publish_envelope := ds_publish_envelope result;
     ds_receipt_ref := ds_receipt_ref result; ds_subscription_ref := ds_subscription_ref result;
     ds_error_ref := ds_error_ref result;
     ds_response_context :=
       anchor "trace_id" (ip_trace_id packet)
         (anchor "session_id" (ip_session_hint packet)
            (anchor "request_id" (Some (ip_packet_id packet)) (ds_response_context result))) |}.

Definition make_shutting_down_result : RuntimeDispatchResult :=
  make_rejected_result AccessErrorCode.ShuttingDown "gateway_not_ready_or_shutting_down".

Definition run_submit_pipeline (submit_pipeline : option (InboundPacket -> RuntimeDispatchResult))
    (packet : InboundPacket) : RuntimeDispatchResult :=
  match submit_pipeline with
  | None => make_rejected_result AccessErrorCode.ValidationRejected "submit_pipeline_not_configured"
  | Some submit_pipeline => submit_pipeline packet
  end.

(** What a call of [submit] answers, from the state it reads. *)
Definition submit_answer (submit_pipeline : option (InboundPacket -> RuntimeDispatchResult))
    (state : AccessGatewayState) (packet : InboundPacket) : RuntimeDispatchResult :=
  enrich_response_trace_anchors
    (if negb (bool_decide (state = AccessGatewayState.Ready)) then make_shutting_down_result
     else run_submit_pipeline submit_pipeline packet) packet.

Definition publish_result (publish_backend : option (PublishEnvelope -> bool))
    (state : AccessGatewayState) (envelope : PublishEnvelope) : bool :=
  if negb (bool_decide (state = AccessGatewayState.Ready))
     && negb (bool_decide (state = AccessGatewayState.Draining))
  then false else
  match publish_backend with
  | Some publish => publish envelope
  | None => false
  end.

(** ** Steps

    Besides the state and the counter: how many threads are between the steps of a call. *)

Record AccessGateway := {
  gw_state : AccessGatewayState;
  gw_inflight_requests : nat;
  gw_initializing : nat;
  gw_passed : nat;
  gw_shutdown_checked : nat;
  gw_draining : nat;
  gw_drained : nat;
  gw_abandoned : list nat;
}.

Definition new_gateway : AccessGateway :=
  {| gw_state := AccessGatewayState.Uninitialized; gw_inflight_requests := 0;
     gw_initializing := 0; gw_passed := 0; gw_shutdown_checked := 0; gw_draining := 0;
     gw_drained := 0; gw_abandoned := [] |}.

Inductive gateway_step :=
| InitExchange             (* compare_exchange_strong of init *)
| InitStore                (* its store *)
| SubmitRead               (* state() of submit *)
| SubmitEnter              (* the InflightGuard *)
| SubmitLeave              (* its destructor *)
| ShutdownRead             (* state() of shutdown *)
| ShutdownDrain            (* store of Draining *)
| ShutdownWait             (* wait_for returns, drained or after the timeout *)
| ShutdownStore.           (* store of ShutDown *)

Definition step_gateway (has_pipeline : bool) (g : AccessGateway) (step : gateway_step)
    : option AccessGateway :=
  let set state inflight initializing passed checked draining drained abandoned :=
    Some {| gw_state := state; gw_inflight_requests := inflight; gw_initializing := initializing;
            gw_passed := passed; gw_shutdown_checked := checked; gw_draining := draining;
            gw_drained := drained; gw_abandoned := abandoned |} in
  let '(state, inflight, initializing, passed) :=
    (gw_state g, gw_inflight_requests g, gw_initializing g, gw_passed g) in
  let '(checked, draining, drained, abandoned) :=
    (gw_shutdown_checked g, gw_draining g, gw_drained g, gw_abandoned g) in
  match step with
  | InitExchange =>
      if bool_decide (state = AccessGatewayState.Uninitialized)
      then set AccessGatewayState.Initializing inflight (S initializing) passed checked draining drained abandoned
      else Some g
  | InitStore =>
      match initializing with
      | O => None
      | S initializing =>
          set (if has_pipeline then AccessGatewayState.Ready else AccessGatewayState.Uninitialized)
            inflight initializing passed checked draining drained abandoned
      end
  | SubmitRead =>
      if bool_decide (state = AccessGatewayState.Ready)
      then set state inflight initializing (S passed) checked draining drained abandoned
      else Some g
  | SubmitEnter =>
      match passed with
      | O => None
      | S passed => set state (S inflight) initializing passed checked draining drained abandoned
      end
  | SubmitLeave =>
      match inflight with
      | O => None
      | S inflight => set state inflight initializing passed checked draining drained abandoned
      end
  | ShutdownRead =>
      if bool_decide (state = AccessGatewayState.ShutDown) then Some g
      else set state inflight initializing passed (S checked) draining drained abandoned
  | ShutdownDrain =>
      match checked with
      | O => None
      | S checked => set AccessGatewayState.Draining inflight initializing passed checked (S draining) drained abandoned
      end
  | ShutdownWait =>
      match draining with
      | O => None
      | S draining =>
          set state inflight initializing passed checked draining (S drained)
            (if bool_decide (inflight = 0%nat) then abandoned else inflight :: abandoned)
      end
  | ShutdownStore =>
      match drained with
      | O => None
      | S drained => set AccessGatewayState.ShutDown inflight initializing passed checked draining drained abandoned
      end
  end.

Fixpoint run_gateway (has_pipeline : bool) (g : AccessGateway) (steps : list gateway_step)
    : option AccessGateway :=
  match steps with
  | [] => Some g
  | step :: steps =>
      match step_gateway has_pipeline g step with
      | Some g => run_gateway has_pipeline g steps
      | None => None
      end
  end.

(** ** Closing *)

Definition closing (g : AccessGateway) : Prop :=
  gw_state g = AccessGatewayState.Draining \/ gw_state g = AccessGatewayState.ShutDown.

(** No thread is inside [init]. *)
Definition settled (g : AccessGateway) : Prop := gw_initializing g = 0%nat.

(** The requests that are carried out or are about to be. *)
Definition busy (g : AccessGateway) : nat := (gw_passed g + gw_inflight_requests g)%nat.

Lemma closing_step has_pipeline g step g' :
  closing g -> settled g -> step_gateway has_pipeline g step = Some g' ->
  closing g' /\ settled g' /\ (busy g' <= busy g)%nat.
Proof.
  unfold closing, settled, busy. intros Hc Hs H. destruct g; simpl in *.
  destruct step; unfold step_gateway in H; simpl in H; repeat case_bool_decide; repeat case_match;
    simplify_eq/=; split_and!; try lia; intuition congruence.
Qed.

Lemma closing_run has_pipeline g steps g' :
  closing g -> settled g -> run_gateway has_pipeline g steps = Some g' ->
  closing g' /\ settled g' /\ (busy g' <= busy g)%nat.
Proof.
  revert g. induction steps as [|step steps IH]; intros g Hc Hs H; simpl in H.
  - injection H as <-. split_and!; [done..|lia].
  - destruct (step_gateway has_pipeline g step) as [g1|] eqn:E; [|done].
    destruct (closing_step _ _ _ _ Hc Hs E) as (Hc1 & Hs1 & Hle).
    destruct (IH _ Hc1 Hs1 H) as (? & ? & ?). split_and!; [done..|lia].
Qed.

(** Once a gateway that is past its initialization begins to close, it is never open again,
    whatever the threads do: every later call of [submit] is answered that the gateway is not
    ready, and the requests that are carried out, or have passed the test and are about to be,
    only become fewer. *)
Theorem closing_is_final has_pipeline g g1 steps g2 submit_pipeline packet :
  settled g -> step_gateway has_pipeline g ShutdownDrain = Some g1 ->
  run_gateway has_pipeline g1 steps = Some g2 ->
  (busy g2 <= busy g)%nat /\
  step_gateway has_pipeline g2 SubmitRead = Some g2 /\
  submit_answer submit_pipeline (gw_state g2) packet =
    enrich_response_trace_anchors make_shutting_down_result packet.
Proof.
  intros Hs Hd Hrun.
  assert (closing g1 /\ settled g1 /\ busy g1 = busy g) as (Hc1 & Hs1 & Hb1).
  { destruct g as [state inflight initializing passed checked draining drained abandoned].
    unfold step_gateway in Hd. simpl in Hd. destruct checked; [done|]. injection Hd as <-. split_and!; [by left|done..]. }
  destruct (closing_run _ _ _ _ Hc1 Hs1 Hrun) as (Hc & _ & Hle). split; [lia|].
  assert (bool_decide (gw_state g2 = AccessGatewayState.Ready) = false) as Hn.
  { apply bool_decide_eq_false. by destruct Hc as [-> | ->]. }
  unfold submit_answer. split; [|by rewrite Hn]. destruct g2. unfold step_gateway. simpl in *. by rewrite Hn.
Qed.

Lemma anchored_keeps key value context k v :
  context !! k = Some v -> anchor key value context !! k = Some v.
Proof.
  intros H. unfold anchor. destruct (context !! key) eqn:E; [done|].
  destruct (filled value); [|done]. rewrite lookup_insert_ne; [done|]. intros ->. congruence.
Qed.

(** Every answer names a request: the one the pipeline says, or that of the packet. *)
Lemma answer_names_request result packet :
  ip_packet_id packet <> "" ->
  ds_response_context (enrich_response_trace_anchors result packet) !! "request_id" =
  Some (default (ip_packet_id packet) (ds_response_context result !! "request_id")).
Proof.
  intros H. simpl. do 2 apply anchored_keeps. unfold anchor.
  destruct (ds_response_context result !! "request_id") eqn:E; [done|].
  simpl. rewrite (proj2 (is_empty_false _) H). by rewrite lookup_insert_eq.
Qed.

(** ** What the steps allow all the same *)

(** A request that has passed the test is carried out after the gateway has shut down, and the
    shutdown saw nothing to wait for. *)
Example carried_out_after_shutdown :
  (fun g => (gw_state g, gw_inflight_requests g, gw_abandoned g)) <$>
    run_gateway true new_gateway
      [InitExchange; InitStore; SubmitRead; ShutdownRead; ShutdownDrain; ShutdownWait; ShutdownStore;
       SubmitEnter]
  = Some (AccessGatewayState.ShutDown, 1%nat, []).
Proof. reflexivity. Qed.

(** A shutdown during the initialization is undone by it. *)
Example initialized_after_shutdown :
  gw_state <$> run_gateway true new_gateway
    [InitExchange; ShutdownRead; ShutdownDrain; ShutdownWait; ShutdownStore; InitStore]
  = Some AccessGatewayState.Ready.
Proof. reflexivity. Qed.

Definition state_after (g : AccessGateway) (steps : list gateway_step) : AccessGateway :=
  default new_gateway (run_gateway true g steps).

Definition before_drain : AccessGateway :=
  state_after new_gateway [InitExchange; InitStore; SubmitRead; SubmitEnter; ShutdownRead].

Lemma closing_is_final_witness :
  let g1 := state_after before_drain [ShutdownDrain] in
  let g2 := state_after g1 [SubmitLeave; ShutdownWait; ShutdownStore] in
  step_gateway true g2 SubmitRead = Some g2.
Proof.
  intros g1 g2.
  apply (closing_is_final true before_drain g1 [SubmitLeave; ShutdownWait; ShutdownStore] g2 None
    (sample_packet "p1")).
  - vm_compute. reflexivity.
  - vm_compute. reflexivity.
  - vm_compute. reflexivity.
Defined.
