(* ===== verification/FrameJson.v ===== *)
(** * The JSON of the daemon's frames

    access/src/daemon/DaemonFrameCodec.cpp, its [JsonReader], [is_valid_utf8] and the texts it
    writes. A cursor into the input is the rest of the input. The reader calls itself for a
    value inside an object; it takes as fuel one more than the length of the text, which is
    enough: every call has read something before it calls again. *)

From S2P Require Import Prelude Text DaemonPayloads DaemonCommands.

(** ** Values *)

Inductive JsonValue :=
| JString (string_value : string)
| JBool (bool_value : bool)
| JInteger (integer_value : Z)
| JObject (object_value : list (string * JsonValue)).

(** ** The reader *)

Definition is_json_space (ch : Ascii.ascii) : bool :=
  let c := char_code ch in (c =? 32) || (c =? 9) || (c =? 10) || (c =? 13).

Fixpoint skip_whitespace (text : string) : string :=
  match text with
  | String ch rest => if is_json_space ch then skip_whitespace rest else text
  | EmptyString => EmptyString
  end.

Definition consume_char (expected : Ascii.ascii) (text : string) : option string :=
  match text with
  | String ch rest => if bool_decide (ch = expected) then Some rest else None
  | EmptyString => None
  end.

Definition append_utf8 (code_point : Z) : string :=
  if code_point <=? 127 then String (char_of_code code_point) "" else
  if code_point <=? 2047
  then String (char_of_code (Z.lor 192 (Z.land (Z.shiftr code_point 6) 31)))
         (String (char_of_code (Z.lor 128 (Z.land code_point 63))) "") else
  String (char_of_code (Z.lor 224 (Z.land (Z.shiftr code_point 12) 15)))
    (String (char_of_code (Z.lor 128 (Z.land (Z.shiftr code_point 6) 63)))
       (String (char_of_code (Z.lor 128 (Z.land code_point 63))) "")).

(** The code point of the four digits of an escape. *)
Definition unicode_escape (a b c d : Ascii.ascii) : option Z :=
  match decode_hex_digit a, decode_hex_digit b, decode_hex_digit c, decode_hex_digit d with
  | Some a, Some b, Some c, Some d =>
      let code_point := Z.lor (Z.shiftl (Z.lor (Z.shiftl (Z.lor (Z.shiftl a 4) b) 4) c) 4) d in
      if (55296 <=? code_point) && (code_point <=? 57343) then None else Some code_point
  | _, _, _, _ => None
  end.

Definition plain_escape (escaped : Ascii.ascii) : option Ascii.ascii :=
  let c := char_code escaped in
  if (c =? 34) || (c =? 92) || (c =? 47) then Some escaped else
  if c =? 98 then Some "008"%char else
  if c =? 102 then Some "012"%char else
  if c =? 110 then Some "010"%char else
  if c =? 114 then Some "013"%char else
  if c =? 116 then Some "009"%char else
  None.

Definition prepend (prefix : string) (body : option (string * string)) : option (string * string) :=
  match body with Some (text, rest) => Some (prefix +:+ text, rest) | None => None end.

(** The loop of [parse_string], after the opening quotation mark. *)
Fixpoint parse_string_body (text : string) : option (string * string) :=
  match text with
  | EmptyString => None
  | String current rest =>
      if char_code current =? 34 then Some ("", rest) else
      if char_code current =? 92 then
        match rest with
        | EmptyString => None
        | String escaped rest =>
            if char_code escaped =? 117 then
              match rest with
              | String a (String b (String c (String d rest))) =>
                  match unicode_escape a b c d with
                  | Some code_point => prepend (append_utf8 code_point) (parse_string_body rest)
                  | None => None
                  end
              | _ => None
              end
            else
              match plain_escape escaped with
              | Some ch => prepend (String ch "") (parse_string_body rest)
              | None => None
              end
        end
      else if char_code current <? 32 then None
      else prepend (String current "") (parse_string_body rest)
  end.

Definition parse_string (text : string) : option (string * string) :=
  match consume_char "034" text with
  | Some rest => parse_string_body rest
  | None => None
  end.

(** What is left of the text after its leading digits. *)
Fixpoint skip_digits (text : string) : string :=
  match text with
  | String ch rest => if is_digit ch then skip_digits rest else text
  | EmptyString => EmptyString
  end.

Definition starts_digit (text : string) : bool :=
  match text with String ch _ => is_digit ch | EmptyString => false end.

(** The digits of an integer, without a leading zero, as an [int]. *)
Definition parse_integer (text : string) : option (Z * string) :=
  let negative := match text with String ch _ => bool_decide (ch = "-"%char) | EmptyString => false end in
  let body := if negative then match text with String _ rest => rest | EmptyString => "" end else text in
  if negb (starts_digit body) then None else
  let zero := match body with String ch _ => bool_decide (ch = "0"%char) | EmptyString => false end in
  let rest := if zero then match body with String _ rest => rest | EmptyString => "" end
              else skip_digits body in
  if zero && starts_digit rest then None else
  let magnitude := if zero then 0 else digits_value 0 body in
  let value := if negative then - magnitude else magnitude in
  if (- 2 ^ 31 <=? value) && (value <? 2 ^ 31) then Some (value, rest) else None.

Fixpoint member_of {A} (key : string) (members : list (string * A)) : option A :=
  match members with
  | [] => None
  | (k, value) :: members => if bool_decide (k = key) then Some value else member_of key members
  end.

Fixpoint parse_value (fuel : nat) (text : string) : option (JsonValue * string) :=
  match fuel with
  | O => None
  | S fuel =>
      let text := skip_whitespace text in
      match text with
      | EmptyString => None
      | String current rest =>
          if char_code current =? 34 then
            match parse_string_body rest with
            | Some (value, rest) => Some (JString value, rest)
            | None => None
            end else
          if char_code current =? 123 then
            match parse_object fuel rest with
            | Some (members, rest) => Some (JObject members, rest)
            | None => None
            end else
          match strip_prefix "true" text with
          | Some rest => Some (JBool true, rest)
          | None =>
          match strip_prefix "false" text with
          | Some rest => Some (JBool false, rest)
          | None =>
              if (char_code current =? 45) || is_digit current then
                match parse_integer text with
                | Some (value, rest) => Some (JInteger value, rest)
                | None => None
                end
              else None
          end end
      end
  end
(** After the opening brace. *)
with parse_object (fuel : nat) (text : string) : option (list (string * JsonValue) * string) :=
  match fuel with
  | O => None
  | S fuel =>
      let text := skip_whitespace text in
      match consume_char "}" text with
      | Some rest => Some ([], rest)
      | None => parse_members fuel [] text
      end
  end
(** The loop over the members; [out] holds those already read. *)
with parse_members (fuel : nat) (out : list (string * JsonValue)) (text : string)
    : option (list (string * JsonValue) * string) :=
  match fuel with
  | O => None
  | S fuel =>
      match parse_string text with
      | None => None
      | Some (key, text) =>
          match consume_char ":" (skip_whitespace text) with
          | None => None
          | Some text =>
              match parse_value fuel text with
              | None => None
              | Some (value, text) =>
                  match member_of key out with
                  | Some _ => None
                  | None =>
                      let out := out ++ [(key, value)] in
                      let text := skip_whitespace text in
                      match consume_char "}" text with
                      | Some rest => Some (out, rest)
                      | None =>
                          match consume_char "," text with
                          | Some rest => parse_members fuel out (skip_whitespace rest)
                          | None => None
                          end
                      end
                  end
              end
          end
      end
  end.

(** Three calls may stand between two characters read. *)
Definition reader_fuel (text : string) : nat := (3 * String.length text + 3)%nat.

(** [parse_root_object]: an object, and nothing after it. *)
Definition parse_root_object (input : string) : option (list (string * JsonValue)) :=
  match consume_char "{" (skip_whitespace input) with
  | None => None
  | Some text =>
      match parse_object (reader_fuel text) text with
      | Some (members, rest) => if is_empty (skip_whitespace rest) then Some members else None
      | None => None
      end
  end.

(** ** UTF-8 *)

Definition continuation (byte : Ascii.ascii) : option Z :=
  let c := char_code byte in
  if Z.land c 192 =? 128 then Some (Z.land c 63) else None.

Definition code_point_ok (width code_point : Z) : bool :=
  negb (((width =? 2) && (code_point <? 128)) || ((width =? 3) && (code_point <? 2048))
        || ((width =? 4) && (code_point <? 65536)) || (1114111 <? code_point)
        || ((55296 <=? code_point) && (code_point <=? 57343))).

Fixpoint is_valid_utf8 (input : string) : bool :=
  match input with
  | EmptyString => true
  | String ch rest =>
      let lead := char_code ch in
      if lead <=? 127 then is_valid_utf8 rest else
      if Z.land lead 224 =? 192 then
        if Z.land lead 31 =? 0 then false else
        match rest with
        | String b1 rest =>
            match continuation b1 with
            | Some c1 => code_point_ok 2 (Z.lor (Z.shiftl (Z.land lead 31) 6) c1) && is_valid_utf8 rest
            | None => false
            end
        | _ => false
        end else
      if Z.land lead 240 =? 224 then
        match rest with
        | String b1 (String b2 rest) =>
            match continuation b1, continuation b2 with
            | Some c1, Some c2 =>
                code_point_ok 3 (Z.lor (Z.shiftl (Z.lor (Z.shiftl (Z.land lead 15) 6) c1) 6) c2)
                && is_valid_utf8 rest
            | _, _ => false
            end
        | _ => false
        end else
      if Z.land lead 248 =? 240 then
        match rest with
        | String b1 (String b2 (String b3 rest)) =>
            match continuation b1, continuation b2, continuation b3 with
            | Some c1, Some c2, Some c3 =>
                code_point_ok 4
                  (Z.lor (Z.shiftl (Z.lor (Z.shiftl (Z.lor (Z.shiftl (Z.land lead 7) 6) c1) 6) c2) 6) c3)
                && is_valid_utf8 rest
            | _, _, _ => false
            end
        | _ => false
        end else
      false
  end.

(** ** Lengths *)

Lemma skip_whitespace_length text : (String.length (skip_whitespace text) <= String.length text)%nat.
Proof. induction text as [|ch rest IH]; simpl; [done|]. destruct (is_json_space ch); simpl; lia. Qed.

Lemma consume_length ch text rest :
  consume_char ch text = Some rest -> String.length text = S (String.length rest).
Proof. destruct text as [|c text]; simpl; [done|]. case_bool_decide; [|done]. by intros [= <-]. Qed.

Lemma prepend_some prefix body text rest :
  prepend prefix body = Some (text, rest) -> exists text', body = Some (text', rest).
Proof. destruct body as [[t r]|]; [|done]. intros [= _ <-]. by eexists. Qed.

Lemma text_body_length text value rest :
  parse_string_body text = Some (value, rest) -> (String.length rest < String.length text)%nat.
Proof.
  revert value. remember (String.length text) as n eqn:En. revert text En.
  induction (lt_wf n) as [n _ IH]. intros text -> value. destruct text as [|ch text]; [done|].
  assert (forall text' prefix, (String.length text' <= String.length text)%nat ->
    prepend prefix (parse_string_body text') = Some (value, rest) ->
    (String.length rest < String.length (String ch text))%nat) as Hput.
  { intros text' prefix Hle [value' H]%prepend_some. simpl in *.
    assert (String.length rest < String.length text')%nat; [|lia].
    eapply (IH (String.length text')); [lia|done|exact H]. }
  cbn [parse_string_body]. destruct (_ =? 34); [intros [= _ <-]; simpl; lia|].
  destruct (_ =? 92).
  - destruct text as [|e text]; [done|]. destruct (_ =? 117).
    + destruct text as [|a [|b [|c [|d text]]]]; try done.
      destruct (unicode_escape a b c d); [|done]. apply Hput. simpl. lia.
    + destruct (plain_escape e); [|done]. apply Hput. simpl. lia.
  - destruct (_ <? 32); [done|]. by apply Hput.
Qed.

Lemma parse_string_length text value rest :
  parse_string text = Some (value, rest) -> (String.length rest + 2 <= String.length text)%nat.
Proof.
  unfold parse_string. destruct (consume_char "034" text) as [r|] eqn:E; [|done].
  apply consume_length in E. intros H%text_body_length. lia.
Qed.

Lemma strip_prefix_length prefix text rest :
  strip_prefix prefix text = Some rest -> String.length text = (String.length prefix + String.length rest)%nat.
Proof. intros ->%strip_prefix_some. by rewrite string_length_app. Qed.

Lemma skip_digits_length text : (String.length (skip_digits text) <= String.length text)%nat.
Proof. induction text as [|ch rest IH]; simpl; [done|]. destruct (is_digit ch); simpl; lia. Qed.

Lemma parse_integer_length text value rest :
  parse_integer text = Some (value, rest) -> (String.length rest < String.length text)%nat.
Proof.
  unfold parse_integer. set (negative := match text with String _ _ => _ | EmptyString => _ end).
  set (body := if negative then _ else text).
  assert (String.length body <= String.length text)%nat as Hb.
  { subst body. destruct negative; [|done]. destruct text; simpl; lia. }
  destruct body as [|ch body]; [done|]. destruct (starts_digit (String ch body)) eqn:Ed; [|done].
  cbn [negb]. simpl in Ed. case_bool_decide; cbn [andb].
  - destruct (starts_digit body); [done|]. destruct (_ && _); [|done]. intros [= _ <-]. simpl in Hb. lia.
  - destruct (_ && _); [|done]. intros [= _ <-]. cbn [skip_digits]. rewrite Ed.
    pose proof (skip_digits_length body). simpl in Hb. lia.
Qed.

(** What a reader leaves is shorter than what it was given. *)
Lemma reader_length n :
  (forall text value rest, parse_value n text = Some (value, rest) ->
     (String.length rest < String.length text)%nat) /\
  (forall text members rest, parse_object n text = Some (members, rest) ->
     (String.length rest < String.length text)%nat) /\
  (forall out text members rest, parse_members n out text = Some (members, rest) ->
     (String.length rest < String.length text)%nat).
Proof.
  induction n as [|n (IHv & IHo & IHm)]; [by split_and!|]. split_and!.
  - intros text value rest H. cbn [parse_value] in H. pose proof (skip_whitespace_length text) as Hs.
    destruct (skip_whitespace text) as [|ch text'] eqn:E; [done|]. simpl in Hs.
    destruct (_ =? 34).
    { destruct (parse_string_body text') as [[v r]|] eqn:Ep; [|done]. simplify_eq.
      apply text_body_length in Ep. lia. }
    destruct (_ =? 123).
    { destruct (parse_object n text') as [[v r]|] eqn:Ep; [|done]. simplify_eq.
      apply IHo in Ep. lia. }
    destruct (strip_prefix "true" _) as [r|] eqn:E1.
    { simplify_eq. apply strip_prefix_length in E1. simpl in E1. lia. }
    destruct (strip_prefix "false" _) as [r|] eqn:E2.
    { simplify_eq. apply strip_prefix_length in E2. simpl in E2. lia. }
    destruct (_ || _); [|done]. destruct (parse_integer _) as [[v r]|] eqn:Ep; [|done]. simplify_eq.
    apply parse_integer_length in Ep. simpl in Ep. lia.
  - intros text members rest H. cbn [parse_object] in H. pose proof (skip_whitespace_length text) as Hs.
    destruct (consume_char "}" (skip_whitespace text)) as [r|] eqn:E.
    + simplify_eq. apply consume_length in E. lia.
    + apply IHm in H. lia.
  - intros out text members rest H. cbn [parse_members] in H.
    destruct (parse_string text) as [[key t1]|] eqn:E1; [|done]. apply parse_string_length in E1.
    pose proof (skip_whitespace_length t1) as Hs1.
    destruct (consume_char ":" (skip_whitespace t1)) as [t2|] eqn:E2; [|done]. apply consume_length in E2.
    destruct (parse_value n t2) as [[value t3]|] eqn:E3; [|done]. apply IHv in E3.
    destruct (member_of key out); [done|]. pose proof (skip_whitespace_length t3) as Hs3.
    destruct (consume_char "}" (skip_whitespace t3)) as [r|] eqn:E4.
    { simplify_eq. apply consume_length in E4. lia. }
    destruct (consume_char "," (skip_whitespace t3)) as [t4|] eqn:E5; [|done]. apply consume_length in E5.
    pose proof (skip_whitespace_length t4). apply IHm in H. lia.
Qed.

(** *** The fuel *)

Definition enough (extra : nat) (n : nat) (text : string) : Prop :=
  (2 * String.length text + extra <= n)%nat.

Lemma reader_fuel_irrelevant n :
  (forall m text, enough 1 n text -> (n <= m)%nat -> parse_value n text = parse_value m text) /\
  (forall m text, enough 2 n text -> (n <= m)%nat -> parse_object n text = parse_object m text) /\
  (forall m out text, enough 1 n text -> (n <= m)%nat -> parse_members n out text = parse_members m out text).
Proof.
  unfold enough. induction n as [|n (IHv & IHo & IHm)]; [split_and!; intros; lia|]. split_and!.
  - intros m text Hn Hm. destruct m as [|m]; [lia|]. cbn [parse_value].
    pose proof (skip_whitespace_length text) as Hs.
    destruct (skip_whitespace text) as [|ch text'] eqn:E; [done|]. simpl in Hs.
    rewrite (IHo m text') by lia. done.
  - intros m text Hn Hm. destruct m as [|m]; [lia|]. cbn [parse_object].
    pose proof (skip_whitespace_length text) as Hs. rewrite (IHm m) by lia. done.
  - intros m out text Hn Hm. destruct m as [|m]; [lia|]. cbn [parse_members].
    destruct (parse_string text) as [[key t1]|] eqn:E1; [|done]. apply parse_string_length in E1.
    pose proof (skip_whitespace_length t1) as Hs1.
    destruct (consume_char ":" (skip_whitespace t1)) as [t2|] eqn:E2; [|done]. apply consume_length in E2.
    rewrite <-(IHv m t2) by lia. destruct (parse_value n t2) as [[value t3]|] eqn:E3; [|done].
    apply (proj1 (reader_length n)) in E3.
    destruct (member_of key out); [done|]. pose proof (skip_whitespace_length t3) as Hs3.
    destruct (consume_char "}" (skip_whitespace t3)) as [r|] eqn:E4; [done|].
    destruct (consume_char "," (skip_whitespace t3)) as [t4|] eqn:E5; [|done]. apply consume_length in E5.
    pose proof (skip_whitespace_length t4). apply IHm; lia.
Qed.

(** The fuel the reader is given is enough: with more it reads the same. *)
Theorem reader_fuel_enough text m :
  (reader_fuel text <= m)%nat -> parse_object (reader_fuel text) text = parse_object m text.
Proof.
  intros Hm. destruct (reader_fuel_irrelevant (reader_fuel text)) as (_ & H & _). apply H; [|done].
  unfold enough, reader_fuel. lia.
Qed.

(** ** What the writers write *)

Fixpoint print_value (value : JsonValue) : string :=
  match value with
  | JString text => json_string text
  | JBool b => bool_json b
  | JInteger n => to_string n
  | JObject members =>
      "{" +:+ ((fix print_members (members : list (string * JsonValue)) : string :=
        match members with
        | [] => ""
        | [(key, value)] => json_string key +:+ (":" +:+ print_value value)
        | (key, value) :: members =>
            json_string key +:+ (":" +:+ (print_value value +:+ ("," +:+ print_members members)))
        end) members +:+ "}")
  end.

Fixpoint print_members (members : list (string * JsonValue)) : string :=
  match members with
  | [] => ""
  | [(key, value)] => json_string key +:+ (":" +:+ print_value value)
  | (key, value) :: members =>
      json_string key +:+ (":" +:+ (print_value value +:+ ("," +:+ print_members members)))
  end.

Lemma print_object members : print_value (JObject members) = "{" +:+ (print_members members +:+ "}").
Proof. reflexivity. Qed.

(** Integers that are [int]s, and no key twice. *)
Fixpoint json_ok (value : JsonValue) : Prop :=
  match value with
  | JString _ | JBool _ => True
  | JInteger n => in_s32 n
  | JObject members =>
      NoDup members.*1 /\
      (fix all_ok (members : list (string * JsonValue)) : Prop :=
         match members with
         | [] => True
         | (_, value) :: members => json_ok value /\ all_ok members
         end) members
  end.

Lemma json_ok_object members :
  json_ok (JObject members) <-> NoDup members.*1 /\ Forall (fun member => json_ok member.2) members.
Proof.
  cbn [json_ok]. f_equiv. induction members as [|[key value] members IH]; [done|].
  rewrite Forall_cons. simpl. by rewrite IH.
Qed.

Lemma JsonValue_induction (P : JsonValue -> Prop) :
  (forall text, P (JString text)) -> (forall b, P (JBool b)) -> (forall n, P (JInteger n)) ->
  (forall members, Forall (fun member => P member.2) members -> P (JObject members)) ->
  forall value, P value.
Proof.
  intros Hs Hb Hi Ho. fix IH 1. intros [text|b|n|members]; [apply Hs|apply Hb|apply Hi|].
  apply Ho. induction members as [|[key value] members IHm]; constructor; [apply IH|exact IHm].
Qed.

(** *** Texts *)

Lemma read_escaped_char ch tail :
  parse_string_body (escape_json_char ch +:+ tail) = prepend (String ch "") (parse_string_body tail).
Proof. destruct ch as [[] [] [] [] [] [] [] []]; reflexivity. Qed.

Lemma read_escaped text tail :
  parse_string_body (escape_json_string text +:+ String "034" tail) = Some (text, tail).
Proof.
  induction text as [|ch text IH]; [done|]. cbn [escape_json_string].
  rewrite string_app_assoc, read_escaped_char, IH. done.
Qed.

Lemma read_json_string text tail : parse_string (json_string text +:+ tail) = Some (text, tail).
Proof.
  unfold json_string, quoted_text, parse_string. rewrite string_cons_app, string_app_assoc.
  cbn [consume_char]. rewrite bool_decide_true by done.
  change (String "034" "" +:+ tail) with (String "034" tail). apply read_escaped.
Qed.

(** *** Integers *)

Lemma digits_leading fuel n acc :
  (0 < fuel)%nat -> 0 < n < 10 ^ Z.of_nat fuel ->
  exists ch rest, digits fuel n acc = String ch rest /\ is_digit ch = true /\ ch <> "0"%char.
Proof.
  revert n acc. induction fuel as [|fuel IH]; intros n acc Hf Hn; [lia|]. cbn [digits].
  pose proof (Z.mod_pos_bound n 10 ltac:(lia)) as Hmod.
  destruct (Z.eqb_spec (n / 10) 0) as [E|E].
  - eexists _, _. split; [done|]. split; [apply digit_char_digit; lia|].
    intros H. apply (f_equal char_code) in H. rewrite digit_char_code in H by lia.
    change (char_code "0") with 48 in H. pose proof (Z.div_mod n 10 ltac:(lia)). lia.
  - destruct fuel as [|fuel].
    + exfalso. apply E. apply Z.div_small. lia.
    + apply IH; [lia|]. pose proof (Z.div_pos n 10 ltac:(lia) ltac:(lia)).
      split; [lia|]. apply Z.div_lt_upper_bound; [lia|].
      replace (Z.of_nat (S (S fuel))) with (1 + Z.of_nat (S fuel)) in Hn by lia.
      rewrite Z.pow_add_r in Hn by lia. lia.
Qed.

Lemma skip_digits_all digits_text tail :
  all_chars is_digit digits_text = true -> starts_digit tail = false ->
  skip_digits (digits_text +:+ tail) = tail.
Proof.
  intros Hd Ht. induction digits_text as [|ch rest IH].
  - destruct tail as [|c tail]; [done|]. simpl in Ht. rewrite string_nil_app. simpl. by rewrite Ht.
  - simpl in Hd. apply andb_true_iff in Hd as [Hch Hd]. rewrite string_cons_app. simpl. rewrite Hch. auto.
Qed.

Lemma digits_value_app acc digits_text tail :
  all_chars is_digit digits_text = true -> starts_digit tail = false ->
  digits_value acc (digits_text +:+ tail) = digits_value acc digits_text.
Proof.
  intros Hd Ht. revert acc. induction digits_text as [|ch rest IH]; intros acc.
  - destruct tail as [|c tail]; [done|]. simpl in Ht. rewrite string_nil_app. simpl. by rewrite Ht.
  - simpl in Hd. apply andb_true_iff in Hd as [Hch Hd]. rewrite string_cons_app. simpl. rewrite Hch. auto.
Qed.

(** The reader of integers after the sign. *)
Lemma read_digits (n : Z) tail :
  0 < n < 2 ^ 32 -> starts_digit tail = false ->
  exists ch rest, digits 20 n "" = String ch rest /\ is_digit ch = true /\ ch <> "0"%char /\ ch <> "-"%char /\
    skip_digits (digits 20 n "" +:+ tail) = tail /\ digits_value 0 (digits 20 n "" +:+ tail) = n.
Proof.
  intros Hn Ht. destruct (digits_leading 20 n "" ltac:(lia) ltac:(lia)) as (ch & rest & E & Hd & H0).
  assert (all_chars is_digit (digits 20 n "") = true) as Hall by by rewrite digits_class.
  exists ch, rest. split_and!; [done..| | |].
  - by destruct (digit_code_case ch Hd).
  - by apply skip_digits_all.
  - rewrite digits_value_app by done. by rewrite digits_value_digits by lia.
Qed.

Lemma read_integer n tail :
  in_s32 n -> starts_digit tail = false -> parse_integer (to_string n +:+ tail) = Some (n, tail).
Proof.
  unfold in_s32. intros Hn Ht. unfold to_string. destruct (Z.ltb_spec n 0) as [Hneg|Hpos].
  - destruct (read_digits (- n) tail ltac:(lia) Ht) as (ch & rest & E & Hd & H0 & Hm & Hs & Hv).
    rewrite string_cons_app. rewrite E in *. rewrite string_cons_app in *. unfold parse_integer.
    rewrite bool_decide_true by done. cbn [starts_digit]. rewrite Hd. cbn [negb].
    rewrite bool_decide_false by done. cbn [andb]. rewrite Hs, Hv.
    replace (- - n) with n by lia. rewrite (proj2 (Z.leb_le _ _)), (proj2 (Z.ltb_lt _ _)) by lia. done.
  - destruct (Z.eqb_spec n 0) as [->|Hne].
    + change (digits 20 0 "") with "0". rewrite string_cons_app, string_nil_app. unfold parse_integer.
      rewrite bool_decide_false by done. cbn [starts_digit]. change (is_digit "0") with true. cbn [negb].
      rewrite bool_decide_true by done. by rewrite Ht.
    + destruct (read_digits n tail ltac:(lia) Ht) as (ch & rest & E & Hd & H0 & Hm & Hs & Hv).
      rewrite E in *. rewrite string_cons_app in *. unfold parse_integer.
      rewrite bool_decide_false by done. cbn [starts_digit]. rewrite Hd. cbn [negb].
      rewrite bool_decide_false by done. cbn [andb]. rewrite Hs, Hv.
      rewrite (proj2 (Z.leb_le _ _)), (proj2 (Z.ltb_lt _ _)) by lia. done.
Qed.

(** *** Values *)

(** What comes after a value: the end of its object, or the next member. *)
Definition closing_tail (tail : string) : Prop :=
  exists ch rest, tail = String ch rest /\ (ch = ","%char \/ ch = "}"%char).

Lemma closing_not_digit tail : closing_tail tail -> starts_digit tail = false.
Proof. by intros (ch & rest & -> & [-> | ->]). Qed.

Definition reads (value : JsonValue) : Prop :=
  forall n tail, closing_tail tail -> enough 1 n (print_value value +:+ tail) ->
    parse_value n (print_value value +:+ tail) = Some (value, tail).

Lemma skip_none ch rest : is_json_space ch = false -> skip_whitespace (String ch rest) = String ch rest.
Proof. intros H. simpl. by rewrite H. Qed.

Lemma member_of_none {A} key (members : list (string * A)) :
  member_of key members = None <-> (key ∉ members.*1).
Proof.
  induction members as [|[k v] members IH]; simpl.
  - split; [intros _; apply not_elem_of_nil|done].
  - rewrite not_elem_of_cons. case_bool_decide as E; [split; [done|by intros []]|].
    rewrite IH. naive_solver.
Qed.

Lemma read_members members :
  Forall (fun member => reads member.2) members -> members <> [] ->
  forall out n tail, NoDup (out.*1 ++ members.*1) ->
    enough 1 n (print_members members +:+ String "}" tail) ->
    parse_members n out (print_members members +:+ String "}" tail) = Some (out ++ members, tail).
Proof.
  intros Hall Hne. induction Hall as [|[key value] members Hv Hall IH]; [done|].
  intros out n tail Hnd Hn. simpl in Hv. destruct n as [|n]; [unfold enough in Hn; lia|].
  assert (member_of key out = None) as Hmem.
  { apply member_of_none. simpl in Hnd. apply NoDup_app in Hnd as (_ & Hd & _).
    intros Hin. apply (Hd _ Hin). left. }
  cbn [parse_members]. destruct members as [|m members].
  - cbn [print_members] in *. rewrite !string_app_assoc in Hn |- *. rewrite read_json_string.
    change (":" +:+ (print_value value +:+ String "}" tail))
      with (String ":" (print_value value +:+ String "}" tail)) in Hn |- *.
    rewrite skip_none by done. cbn [consume_char]. rewrite bool_decide_true by done.
    rewrite Hv.
    + rewrite Hmem, skip_none by done. cbn [consume_char]. by rewrite bool_decide_true by done.
    + eexists _, _. split; [done|by right].
    + unfold enough in *. rewrite string_length_app in Hn. simpl in Hn. lia.
  - assert (print_members ((key, value) :: m :: members) +:+ String "}" tail =
      json_string key +:+ String ":" (print_value value +:+ String "," (print_members (m :: members) +:+ String "}" tail)))
      as E.
    { cbn [print_members]. rewrite !string_app_assoc. do 2 f_equal. }
    rewrite E in Hn |- *. rewrite read_json_string. rewrite skip_none by done. cbn [consume_char].
    rewrite bool_decide_true by done. rewrite Hv.
    + rewrite Hmem, (skip_none ",") by done. cbn [consume_char].
      rewrite bool_decide_false, bool_decide_true by done.
      assert (exists t, print_members (m :: members) +:+ String "}" tail = String "034" t) as [t Et].
      { destruct m as [k v]. destruct members; cbn [print_members]; unfold json_string, quoted_text;
          rewrite !string_cons_app; by eexists. }
      rewrite Et, skip_none, <-Et by done. rewrite IH.
      * by rewrite <-app_assoc.
      * done.
      * by rewrite fmap_app, <-app_assoc.
      * unfold enough in *. clear - Hn. revert Hn.
        generalize (print_members (m :: members) +:+ String "}" tail). intros rest.
        rewrite !string_length_app. cbn [String.length]. rewrite string_length_app.
        cbn [String.length]. lia.
    + eexists _, _. split; [done|by left].
    + unfold enough in *. clear - Hn. revert Hn. rewrite (string_length_app (json_string key)).
      cbn [String.length]. lia.
Qed.

Lemma read_object members n tail :
  Forall (fun member => reads member.2) members -> NoDup members.*1 ->
  enough 2 n (print_members members +:+ String "}" tail) ->
  parse_object n (print_members members +:+ String "}" tail) = Some (members, tail).
Proof.
  intros Hall Hnd Hn. destruct n as [|n]; [unfold enough in Hn; lia|]. cbn [parse_object].
  destruct members as [|m members].
  - change (print_members [] +:+ String "}" tail) with (String "}" tail). rewrite skip_none by done.
    cbn [consume_char]. by rewrite bool_decide_true by done.
  - assert (exists t, print_members (m :: members) +:+ String "}" tail = String "034" t) as [t Et].
    { destruct m as [k v]. destruct members; cbn [print_members]; unfold json_string, quoted_text;
        rewrite !string_cons_app; by eexists. }
    rewrite Et, skip_none by done. cbn [consume_char]. rewrite bool_decide_false, <-Et by done.
    rewrite read_members; [done|done|done|done|]. unfold enough in *. lia.
Qed.

Lemma string_head a s b t : String a s = String b t -> a = b.
Proof. by injection 1. Qed.

Lemma print_starts value :
  exists ch rest, print_value value = String ch rest /\ is_json_space ch = false.
Proof.
  destruct value as [text|b|n|members].
  - by eexists _, _.
  - destruct b; by eexists _, _.
  - cbn [print_value]. unfold to_string. destruct (n <? 0); [by eexists _, _|].
    destruct (digits_first_digit 20 n "" ltac:(lia)) as (ch & rest & E & Hd). exists ch, rest.
    split; [done|]. apply digit_not_space in Hd. unfold is_space, is_json_space in *.
    apply orb_false_iff in Hd as [H1 H2]. apply andb_false_iff in H2.
    rewrite !Z.leb_gt in H2. apply Z.eqb_neq in H1. rewrite !orb_false_iff, !Z.eqb_neq. lia.
  - rewrite print_object. by eexists _, _.
Qed.

(** The reader reads back every value the writers write, whatever follows it in its object. *)
Lemma value_roundtrip value : json_ok value -> reads value.
Proof.
  induction value as [text|b|n|members IH] using JsonValue_induction; intros Hok fuel tail Ht Hn.
  - destruct fuel as [|fuel]; [unfold enough in Hn; lia|]. cbn [print_value parse_value].
    unfold json_string, quoted_text. rewrite string_cons_app, skip_none by done.
    rewrite string_app_assoc. change (char_code "034" =? 34) with true. cbv iota.
    change (String "034" "" +:+ tail) with (String "034" tail). by rewrite read_escaped.
  - destruct fuel as [|fuel]; [unfold enough in Hn; lia|]. by destruct b.
  - destruct fuel as [|fuel]; [unfold enough in Hn; lia|].
    pose proof (read_integer n tail Hok (closing_not_digit _ Ht)) as Hi.
    destruct (print_starts (JInteger n)) as (ch & rest & E & Hsp). cbn [print_value] in *.
    assert (ch = "-"%char \/ is_digit ch = true) as Hch.
    { revert E. unfold to_string. destruct (n <? 0).
      - intros <-%string_head. by left.
      - destruct (digits_first_digit 20 n "" ltac:(lia)) as (c & r & -> & ?). intros <-%string_head. by right. }
    rewrite E in *. rewrite string_cons_app in *. cbn [parse_value]. rewrite skip_none by done.
    destruct Hch as [->|Hd].
    + cbn [strip_prefix]. simpl. by rewrite Hi.
    + assert (48 <= char_code ch <= 57) as Hc
        by (unfold is_digit in Hd; rewrite andb_true_iff, !Z.leb_le in Hd; lia).
      rewrite !(proj2 (Z.eqb_neq _ _)) by lia. cbn [strip_prefix].
      rewrite (bool_decide_false ("t"%char = ch)) by (intros <-; change (char_code "t") with 116 in Hc; lia).
      rewrite (bool_decide_false ("f"%char = ch)) by (intros <-; change (char_code "f") with 102 in Hc; lia).
      rewrite Hd, Hi. done.
  - destruct fuel as [|fuel]; [unfold enough in Hn; lia|].
    apply json_ok_object in Hok as [Hnd Hall]. rewrite print_object in Hn |- *.
    assert (Forall (fun member => reads member.2) members) as Hreads.
    { rewrite Forall_forall in *. intros m Hm. by apply IH, Hall. }
    change (("{" +:+ (print_members members +:+ "}")) +:+ tail)
      with (String "{" ((print_members members +:+ "}") +:+ tail)) in Hn |- *.
    rewrite string_app_assoc in Hn |- *. change ("}" +:+ tail) with (String "}" tail) in Hn |- *.
    cbn [parse_value]. rewrite skip_none by done.
    change (char_code "{" =? 34) with false. change (char_code "{" =? 123) with true. cbv iota.
    rewrite read_object; [done|done|done|]. unfold enough in *. cbn [String.length] in Hn. lia.
Qed.

Lemma root_roundtrip members :
  json_ok (JObject members) -> parse_root_object (print_value (JObject members)) = Some members.
Proof.
  intros Hok. apply json_ok_object in Hok as [Hnd Hall]. rewrite print_object.
  unfold parse_root_object. change ("{" +:+ (print_members members +:+ "}"))
    with (String "{" (print_members members +:+ String "}" "")).
  rewrite skip_none by done. cbn [consume_char]. rewrite bool_decide_true by done.
  rewrite read_object; [done| |done|unfold enough, reader_fuel; lia].
  rewrite Forall_forall in *. intros m Hm. by apply value_roundtrip, Hall.
Qed.

(** ** UTF-8 of written texts *)

(** The next continuation byte, and what follows it. *)
Definition next_continuation (text : string) : option (Z * string) :=
  match text with
  | String byte rest => match continuation byte with Some c => Some (c, rest) | None => None end
  | EmptyString => None
  end.

Lemma next_continuation_length text c rest :
  next_continuation text = Some (c, rest) -> (String.length rest < String.length text)%nat.
Proof.
  destruct text as [|byte text]; [done|]. simpl. destruct (continuation byte); [|done].
  intros [= _ <-]. lia.
Qed.

Definition valid_after (width code_point : Z) (text : string) : bool :=
  code_point_ok width code_point && is_valid_utf8 text.

(** One character of the check. *)
Lemma valid_step ch rest :
  is_valid_utf8 (String ch rest) =
  let lead := char_code ch in
  if lead <=? 127 then is_valid_utf8 rest else
  if Z.land lead 224 =? 192 then
    if Z.land lead 31 =? 0 then false else
    match next_continuation rest with
    | Some (c1, rest) => valid_after 2 (Z.lor (Z.shiftl (Z.land lead 31) 6) c1) rest
    | None => false
    end else
  if Z.land lead 240 =? 224 then
    match next_continuation rest with
    | Some (c1, rest) =>
        match next_continuation rest with
        | Some (c2, rest) => valid_after 3 (Z.lor (Z.shiftl (Z.lor (Z.shiftl (Z.land lead 15) 6) c1) 6) c2) rest
        | None => false
        end
    | None => false
    end else
  if Z.land lead 248 =? 240 then
    match next_continuation rest with
    | Some (c1, rest) =>
        match next_continuation rest with
        | Some (c2, rest) =>
            match next_continuation rest with
            | Some (c3, rest) =>
                valid_after 4 (Z.lor (Z.shiftl (Z.lor (Z.shiftl (Z.lor (Z.shiftl (Z.land lead 7) 6) c1) 6) c2) 6) c3) rest
            | None => false
            end
        | None => false
        end
    | None => false
    end else
  false.
Proof.
  cbv zeta. cbn [is_valid_utf8]. destruct (_ <=? 127); [done|].
  destruct (_ =? 192). { destruct (_ =? 0); [done|]. destruct rest as [|b1 rest]; [done|]. cbn [next_continuation]. by destruct (continuation b1). }
  destruct (_ =? 224).
  { destruct rest as [|b1 rest]; [done|]. cbn [next_continuation]. destruct (continuation b1); [|by destruct rest].
    destruct rest as [|b2 rest]; [done|]. cbn [next_continuation]. by destruct (continuation b2). }
  destruct (_ =? 240); [|done].
  destruct rest as [|b1 rest]; [done|]. cbn [next_continuation].
  destruct (continuation b1); [|by destruct rest as [|? []]].
  destruct rest as [|b2 rest]; [done|]. cbn [next_continuation]. destruct (continuation b2); [|by destruct rest].
  destruct rest as [|b3 rest]; [done|]. cbn [next_continuation]. by destruct (continuation b3).
Qed.

Lemma escape_continuation ch :
  match continuation ch with
  | Some _ => escape_json_char ch = String ch ""
  | None => exists c r, escape_json_char ch = String c r /\ continuation c = None
  end.
Proof. destruct ch as [[] [] [] [] [] [] [] []]; first [reflexivity | by eexists _, _]. Qed.

Lemma escape_ascii ch text :
  char_code ch <= 127 -> is_valid_utf8 (escape_json_char ch +:+ text) = is_valid_utf8 text.
Proof. destruct ch as [[] [] [] [] [] [] [] []]; intros H; first [reflexivity | by exfalso; apply H]. Qed.

Lemma escape_high ch : 127 < char_code ch -> escape_json_char ch = String ch "".
Proof. destruct ch as [[] [] [] [] [] [] [] []]; intros H; first [reflexivity | discriminate H]. Qed.

Lemma next_continuation_escaped s t :
  next_continuation (escape_json_string s +:+ String "034" t) =
  match next_continuation s with
  | Some (c, rest) => Some (c, escape_json_string rest +:+ String "034" t)
  | None => None
  end.
Proof.
  destruct s as [|ch s]; [done|]. cbn [escape_json_string next_continuation].
  pose proof (escape_continuation ch) as H. destruct (continuation ch) as [c|] eqn:E.
  - rewrite H, !string_cons_app. simpl. by rewrite E.
  - destruct H as (c & r & -> & Hc). rewrite !string_cons_app. simpl. by rewrite Hc.
Qed.

(** A written text is well-formed exactly when the text is, whatever follows it. *)
Lemma valid_escaped s t :
  is_valid_utf8 (escape_json_string s +:+ String "034" t) = is_valid_utf8 s && is_valid_utf8 t.
Proof.
  remember (String.length s) as n eqn:En. revert s En.
  induction (lt_wf n) as [n _ IH]. intros s ->. destruct s as [|ch s]; [done|].
  assert (forall w cp rest, (String.length rest <= String.length s)%nat ->
    valid_after w cp (escape_json_string rest +:+ String "034" t) =
    valid_after w cp rest && is_valid_utf8 t) as Hafter.
  { intros w cp rest Hr. unfold valid_after. rewrite (IH (String.length rest)); [|simpl; lia|done].
    by rewrite andb_assoc. }
  cbn [escape_json_string]. rewrite string_app_assoc, (valid_step ch s). cbv zeta.
  destruct (Z.leb_spec (char_code ch) 127) as [Hle|Hgt].
  { rewrite escape_ascii by done. apply (IH (String.length s)); [simpl; lia|done]. }
  rewrite escape_high, string_cons_app, string_nil_app, valid_step by done.
  cbv zeta. rewrite (proj2 (Z.leb_gt _ _)) by done.
  destruct (_ =? 192).
  { destruct (_ =? 0); [done|]. rewrite next_continuation_escaped.
    destruct (next_continuation s) as [[c1 r1]|] eqn:E1; [|done]. apply next_continuation_length in E1.
    apply Hafter. lia. }
  destruct (_ =? 224).
  { rewrite next_continuation_escaped. destruct (next_continuation s) as [[c1 r1]|] eqn:E1; [|done].
    rewrite next_continuation_escaped. destruct (next_continuation r1) as [[c2 r2]|] eqn:E2; [|done].
    apply next_continuation_length in E1, E2. apply Hafter. lia. }
  destruct (_ =? 240); [|done].
  rewrite next_continuation_escaped. destruct (next_continuation s) as [[c1 r1]|] eqn:E1; [|done].
  rewrite next_continuation_escaped. destruct (next_continuation r1) as [[c2 r2]|] eqn:E2; [|done].
  rewrite next_continuation_escaped. destruct (next_continuation r2) as [[c3 r3]|] eqn:E3; [|done].
  apply next_continuation_length in E1, E2, E3. apply Hafter. lia.
Qed.

Lemma valid_json_string s t :
  is_valid_utf8 (json_string s +:+ t) = is_valid_utf8 s && is_valid_utf8 t.
Proof.
  unfold json_string, quoted_text. rewrite string_cons_app, string_app_assoc. exact (valid_escaped s t).
Qed.

(** Seven-bit texts. *)
Definition is_ascii (ch : Ascii.ascii) : bool := char_code ch <=? 127.

Lemma valid_ascii s t : all_chars is_ascii s = true -> is_valid_utf8 (s +:+ t) = is_valid_utf8 t.
Proof.
  induction s as [|ch s IH]; [done|]. cbn [all_chars]. intros [Hc Hs]%andb_true_iff.
  unfold is_ascii in Hc. rewrite string_cons_app, valid_step. cbv zeta. rewrite Hc. auto.
Qed.

Fixpoint texts_valid (value : JsonValue) : bool :=
  match value with
  | JString text => is_valid_utf8 text
  | JBool _ | JInteger _ => true
  | JObject members =>
      (fix all_valid (members : list (string * JsonValue)) : bool :=
         match members with
         | [] => true
         | (key, value) :: members => is_valid_utf8 key && texts_valid value && all_valid members
         end) members
  end.

Definition member_texts_valid (member : string * JsonValue) : bool :=
  is_valid_utf8 member.1 && texts_valid member.2.

Lemma texts_valid_object members : texts_valid (JObject members) = forallb member_texts_valid members.
Proof. cbn [texts_valid]. induction members as [|[key value] members IH]; [done|]. simpl. by rewrite IH. Qed.

Lemma digit_ascii ch : is_digit ch = true -> is_ascii ch = true.
Proof. unfold is_digit, is_ascii. rewrite andb_true_iff, !Z.leb_le. lia. Qed.

Lemma to_string_ascii n : all_chars is_ascii (to_string n) = true.
Proof.
  unfold to_string. assert (forall m, all_chars is_ascii (digits 20 m "") = true) as H.
  { intros m. rewrite digits_class by (exact digit_ascii). done. }
  destruct (n <? 0); [|done]. cbn [all_chars]. by rewrite H.
Qed.

Definition prints_valid (value : JsonValue) : Prop :=
  forall t, is_valid_utf8 (print_value value +:+ t) = texts_valid value && is_valid_utf8 t.

Lemma print_members_valid members t :
  Forall (fun member => prints_valid member.2) members ->
  is_valid_utf8 (print_members members +:+ t) = forallb member_texts_valid members && is_valid_utf8 t.
Proof.
  intros Hall. induction Hall as [|[key value] members Hv Hall IH]; [done|]. simpl in Hv.
  cbn [print_members forallb]. unfold member_texts_valid at 1. cbn [fst snd].
  destruct members as [|m members].
  - rewrite !string_app_assoc, valid_json_string. rewrite (valid_ascii ":") by done. rewrite Hv.
    by rewrite andb_true_r, andb_assoc.
  - rewrite !string_app_assoc, valid_json_string. rewrite (valid_ascii ":") by done. rewrite Hv.
    rewrite (valid_ascii ",") by done. rewrite IH. by rewrite !andb_assoc.
Qed.

(** What is written is well-formed exactly when its texts are. *)
Lemma print_value_valid value : prints_valid value.
Proof.
  induction value as [text|b|n|members IH] using JsonValue_induction; intros t.
  - apply valid_json_string.
  - by destruct b.
  - apply (valid_ascii (to_string n)), to_string_ascii.
  - rewrite print_object, texts_valid_object, !string_app_assoc, (valid_ascii "{") by done.
    rewrite print_members_valid by done. by rewrite (valid_ascii "}").
Qed.

Lemma escape_length s : (String.length s <= String.length (escape_json_string s))%nat.
Proof.
  induction s as [|ch s IH]; [done|]. cbn [escape_json_string]. rewrite string_length_app.
  assert (1 <= String.length (escape_json_char ch))%nat; [|simpl; lia].
  by destruct ch as [[] [] [] [] [] [] [] []]; apply Nat.leb_le.
Qed.

Lemma print_member_length key value members :
  In (key, value) members -> (String.length (print_value value) <= String.length (print_members members))%nat.
Proof.
  induction members as [|[k v] members IH]; [done|]. intros [[= -> ->]|Hin]; cbn [print_members];
    destruct members; rewrite ?string_length_app; try done; try lia.
  specialize (IH Hin). lia.
Qed.

(** A list of members, written one after the other. *)
Lemma print_members_joined members :
  print_members members =
  joined_with "," ((fun '(key, value) => json_string key +:+ (":" +:+ print_value value)) <$> members).
Proof.
  induction members as [|[key value] members IH]; [done|]. destruct members as [|m members]; [done|].
  trans (json_string key +:+ (":" +:+ (print_value value +:+ ("," +:+ print_members (m :: members))))); [done|].
  rewrite IH. cbn [fmap list_fmap joined_with]. by rewrite !string_app_assoc.
Qed.
