(* ===== verification/FrameCodec.v ===== *)
(** * The frames of the daemon

    access/include/daemon/DaemonProtocolTypes.h, access/src/daemon/DaemonFrameCodec.cpp and
    access/src/daemon/DaemonProtocolAdapter.cpp: the frame a client sends, the frame it gets
    back, both as text, and what of them becomes an inbound packet or comes from a publish
    envelope. Of a frame that does not decode only the error is kept: nobody reads the rest. *)

From S2P Require Import Prelude Text AgentContracts AccessTypes DaemonCommands FrameJson.

(** ** Frames *)

Definition kDaemonProtocolSchemaVersion : string := "1".

Module DaemonCommandKind.
Inductive DaemonCommandKind :=
  Unknown | Ping | Run | Status | Cancel | Readiness | Diagnostics | Knowledge.
End DaemonCommandKind.
Abbreviation DaemonCommandKind := DaemonCommandKind.DaemonCommandKind.
#[export] Instance DaemonCommandKind_eq_dec : EqDecision DaemonCommandKind.
Proof. solve_decision. Defined.

Module DaemonAsyncPreference.
Inductive DaemonAsyncPreference := PreferSync | PreferAsync.
End DaemonAsyncPreference.
Abbreviation DaemonAsyncPreference := DaemonAsyncPreference.DaemonAsyncPreference.
#[export] Instance DaemonAsyncPreference_eq_dec : EqDecision DaemonAsyncPreference.
Proof. solve_decision. Defined.

Module DaemonOutputMode.
Inductive DaemonOutputMode := Human | Json.
End DaemonOutputMode.
Abbreviation DaemonOutputMode := DaemonOutputMode.DaemonOutputMode.

Module UdsResponseDisposition.
Inductive UdsResponseDisposition := Rejected | Completed | AcceptedAsync | NotReady.
End UdsResponseDisposition.
Abbreviation UdsResponseDisposition := UdsResponseDisposition.UdsResponseDisposition.
#[export] Instance UdsResponseDisposition_eq_dec : EqDecision UdsResponseDisposition.
Proof. solve_decision. Defined.

Module DaemonFrameDecodeError.
Inductive DaemonFrameDecodeError :=
  EmptyPayload | MissingSchemaVersion | UnsupportedSchemaVersion | MissingCommand
| UnknownCommand | PayloadTooLarge | MalformedEnvelope.
End DaemonFrameDecodeError.
Abbreviation DaemonFrameDecodeError := DaemonFrameDecodeError.DaemonFrameDecodeError.

Definition classify_daemon_command (command : string) : DaemonCommandKind :=
  if bool_decide (command = "ping") then DaemonCommandKind.Ping else
  if bool_decide (command = "run") || bool_decide (command = "submit") then DaemonCommandKind.Run else
  if bool_decide (command = "status") then DaemonCommandKind.Status else
  if bool_decide (command = "cancel") then DaemonCommandKind.Cancel else
  if bool_decide (command = "readiness") then DaemonCommandKind.Readiness else
  if bool_decide (command = "diag") || bool_decide (command = "diagnostics")
  then DaemonCommandKind.Diagnostics else
  if bool_decide (command = "knowledge") then DaemonCommandKind.Knowledge else
  DaemonCommandKind.Unknown.

Definition is_known_daemon_command (command : DaemonCommandKind) : bool :=
  bool_decide (command <> DaemonCommandKind.Unknown).

Record UdsRequestFrame := {
  urq_schema_version : string;
  urq_request_id : string;
  urq_trace_id : string;
  urq_session_hint : option string;
  urq_idempotency_key : option string;
  urq_command : string;
  urq_args : gmap string string;
  urq_payload : string;
  urq_async_preference : DaemonAsyncPreference;
  urq_output_mode : DaemonOutputMode;
  urq_deadline_ms : option Z;
}.

Record UdsResponseFrame := {
  urs_schema_version : string;
  urs_request_id : string;
  urs_trace_id : string;
  urs_session_id : option string;
  urs_disposition : UdsResponseDisposition;
  urs_exit_code_hint : option Z;
  urs_receipt_ref : option string;
  urs_agent_result : option AgentResult;
  urs_error_ref : option string;
}.

(** ** Fields *)

Definition string_field (object : list (string * JsonValue)) (key : string) : option string :=
  match member_of key object with Some (JString value) => Some value | _ => None end.

Definition bool_field (object : list (string * JsonValue)) (key : string) : option bool :=
  match member_of key object with Some (JBool value) => Some value | _ => None end.

Definition integer_field (object : list (string * JsonValue)) (key : string) : option Z :=
  match member_of key object with Some (JInteger value) => Some value | _ => None end.

Definition request_fields : list string :=
  ["schema_version"; "request_id"; "trace_id"; "session_hint"; "idempotency_key"; "command";
   "args"; "payload"; "async_preference"; "output_mode"; "deadline_ms"].

Definition has_only_known_request_fields (object : list (string * JsonValue)) : bool :=
  forallb (fun member => bool_decide (member.1 ∈ request_fields)) object.

Definition agent_result_fields : list string :=
  ["result_id"; "response_text"; "request_id"; "trace_id"; "task_completed"].

Definition has_only_known_agent_result_fields (object : list (string * JsonValue)) : bool :=
  forallb (fun member => bool_decide (member.1 ∈ agent_result_fields)) object.

Definition response_fields : list string :=
  ["schema_version"; "request_id"; "trace_id"; "session_id"; "disposition"; "exit_code_hint";
   "receipt_ref"; "error_ref"; "agent_result"].

Definition has_only_known_response_fields (object : list (string * JsonValue)) : bool :=
  forallb (fun '(key, value) =>
    bool_decide (key ∈ response_fields) &&
    (negb (bool_decide (key = "agent_result")) ||
     match value with JObject members => has_only_known_agent_result_fields members | _ => false end))
    object.

(** The arguments: an object of texts; its keys are distinct already. *)
Fixpoint string_members (members : list (string * JsonValue)) : option (gmap string string) :=
  match members with
  | [] => Some ∅
  | (key, JString value) :: members => insert key value <$> string_members members
  | _ => None
  end.

Definition parse_args_field (object : list (string * JsonValue)) : option (gmap string string) :=
  match member_of "args" object with
  | None => Some ∅
  | Some (JObject members) => string_members members
  | Some _ => None
  end.

Definition disposition_name (disposition : UdsResponseDisposition) : string :=
  match disposition with
  | UdsResponseDisposition.Rejected => "rejected"
  | UdsResponseDisposition.Completed => "completed"
  | UdsResponseDisposition.AcceptedAsync => "accepted_async"
  | UdsResponseDisposition.NotReady => "not_ready"
  end.

Definition disposition_from_name (disposition : string) : option UdsResponseDisposition :=
  if bool_decide (disposition = "rejected") then Some UdsResponseDisposition.Rejected else
  if bool_decide (disposition = "completed") then Some UdsResponseDisposition.Completed else
  if bool_decide (disposition = "accepted_async") then Some UdsResponseDisposition.AcceptedAsync else
  if bool_decide (disposition = "not_ready") then Some UdsResponseDisposition.NotReady else
  None.

Definition output_mode_name (output_mode : DaemonOutputMode) : string :=
  match output_mode with DaemonOutputMode.Human => "human" | DaemonOutputMode.Json => "json" end.

Definition output_mode_from_name (output_mode : string) : option DaemonOutputMode :=
  if bool_decide (output_mode = "human") then Some DaemonOutputMode.Human else
  if bool_decide (output_mode = "json") then Some DaemonOutputMode.Json else
  None.

(** ** Decoding *)

(** What both decoders do before they look at the fields. *)
Definition decode_envelope (only_known : list (string * JsonValue) -> bool)
    (payload : string) (max_payload_bytes : Z)
    : DaemonFrameDecodeError + list (string * JsonValue) :=
  if is_empty payload then inl DaemonFrameDecodeError.EmptyPayload else
  if max_payload_bytes <? Z.of_nat (String.length payload)
  then inl DaemonFrameDecodeError.PayloadTooLarge else
  if negb (is_valid_utf8 payload) then inl DaemonFrameDecodeError.MalformedEnvelope else
  match parse_root_object payload with
  | None => inl DaemonFrameDecodeError.MalformedEnvelope
  | Some root =>
      if negb (only_known root) then inl DaemonFrameDecodeError.MalformedEnvelope else
      match string_field root "schema_version" with
      | None => inl DaemonFrameDecodeError.MissingSchemaVersion
      | Some schema_version =>
          if bool_decide (schema_version = kDaemonProtocolSchemaVersion) then inr root
          else inl DaemonFrameDecodeError.UnsupportedSchemaVersion
      end
  end.

Definition decode_request_frame (payload : string) (max_payload_bytes : Z)
    : DaemonFrameDecodeError + UdsRequestFrame :=
  match decode_envelope has_only_known_request_fields payload max_payload_bytes with
  | inl error => inl error
  | inr root =>
      let command := default "" (string_field root "command") in
      if is_empty command then inl DaemonFrameDecodeError.MissingCommand else
      if negb (is_known_daemon_command (classify_daemon_command command))
      then inl DaemonFrameDecodeError.UnknownCommand else
      match parse_args_field root with
      | None => inl DaemonFrameDecodeError.MalformedEnvelope
      | Some args =>
          let payload := default "" (string_field root "payload") in
          if max_payload_bytes <? Z.of_nat (String.length payload)
          then inl DaemonFrameDecodeError.PayloadTooLarge else
          match match string_field root "output_mode" with
                | Some name => output_mode_from_name name
                | None => Some DaemonOutputMode.Human
                end with
          | None => inl DaemonFrameDecodeError.MalformedEnvelope
          | Some output_mode =>
              inr {| urq_schema_version := kDaemonProtocolSchemaVersion;
                     urq_request_id := default "" (string_field root "request_id");
                     urq_trace_id := default "" (string_field root "trace_id");
                     urq_session_hint := string_field root "session_hint";
                     urq_idempotency_key := string_field root "idempotency_key";
                     urq_command := command;
                     urq_args := args;
                     urq_payload := payload;
                     urq_async_preference :=
                       if bool_decide (bool_field root "async_preference" = Some true)
                       then DaemonAsyncPreference.PreferAsync else DaemonAsyncPreference.PreferSync;
                     urq_output_mode := output_mode;
                     urq_deadline_ms := integer_field root "deadline_ms" |}
          end
      end
  end.

Definition read_agent_result (object : list (string * JsonValue)) : AgentResult :=
  {| ag_result_id := string_field object "result_id"; ag_status := None; ag_result_code := None;
     ag_response_text := string_field object "response_text";
     ag_task_completed := bool_field object "task_completed"; ag_created_at := None;
     ag_request_id := string_field object "request_id"; ag_trace_id := string_field object "trace_id";
     ag_structured_payload := None; ag_error_info := None; ag_checkpoint_ref := None;
     ag_goal_id := None; ag_tags := None |}.

Definition decode_response_frame (payload : string) (max_payload_bytes : Z)
    : DaemonFrameDecodeError + UdsResponseFrame :=
  match decode_envelope has_only_known_response_fields payload max_payload_bytes with
  | inl error => inl error
  | inr root =>
      let disposition := default "" (string_field root "disposition") in
      if is_empty disposition then inl DaemonFrameDecodeError.MalformedEnvelope else
      match disposition_from_name disposition with
      | None => inl DaemonFrameDecodeError.MalformedEnvelope
      | Some disposition =>
          inr {| urs_schema_version := kDaemonProtocolSchemaVersion;
                 urs_request_id := default "" (string_field root "request_id");
                 urs_trace_id := default "" (string_field root "trace_id");
                 urs_session_id := string_field root "session_id";
                 urs_disposition := disposition;
                 urs_exit_code_hint := integer_field root "exit_code_hint";
                 urs_receipt_ref := string_field root "receipt_ref";
                 urs_agent_result :=
                   match member_of "agent_result" root with
                   | Some (JObject members) => Some (read_agent_result members)
                   | Some _ => Some (read_agent_result [])
                   | None => None
                   end;
                 urs_error_ref := string_field root "error_ref" |}
      end
  end.

(** ** Encoding *)

(** [,"key":] and a text. *)
Definition text_part (key value : string) : string :=
  "," +:+ raw_member key (json_string value).

Definition optional_text_part (key : string) (value : option string) : string :=
  match value with Some value => text_part key value | None => "" end.

Definition optional_integer_part (key : string) (value : option Z) : string :=
  match value with Some value => "," +:+ raw_member key (to_string value) | None => "" end.

(** Its text ends before the arguments, and goes on after them. *)
Definition encode_request_frame (frame : UdsRequestFrame) : string :=
  "{" +:+ (raw_member "schema_version" (json_string (urq_schema_version frame)) +:+
  (text_part "request_id" (urq_request_id frame) +:+
  (text_part "trace_id" (urq_trace_id frame) +:+
  (optional_text_part "session_hint" (urq_session_hint frame) +:+
  (optional_text_part "idempotency_key" (urq_idempotency_key frame) +:+
  (text_part "command" (urq_command frame) +:+
  ("," +:+ (raw_member "args"
     ("{" +:+ (joined_with "," ((fun '(key, value) => json_string key +:+ (":" +:+ json_string value))
                                  <$> in_key_order (urq_args frame)) +:+ "}")) +:+
  (text_part "payload" (urq_payload frame) +:+
  ("," +:+ (raw_member "async_preference"
     (bool_json (bool_decide (urq_async_preference frame = DaemonAsyncPreference.PreferAsync))) +:+
  (text_part "output_mode" (output_mode_name (urq_output_mode frame)) +:+
  (optional_integer_part "deadline_ms" (urq_deadline_ms frame) +:+ "}"))))))))))))).

(** The parts of an agent result that are there. *)
Definition agent_result_members (result : AgentResult) : list string :=
  let text key value := match value with Some value => [raw_member key (json_string value)] | None => [] end in
  text "result_id" (ag_result_id result) ++ text "response_text" (ag_response_text result) ++
  text "request_id" (ag_request_id result) ++ text "trace_id" (ag_trace_id result) ++
  match ag_task_completed result with
  | Some completed => [raw_member "task_completed" (bool_json completed)]
  | None => []
  end.

Definition encode_response_frame (frame : UdsResponseFrame) : string :=
  "{" +:+ (raw_member "schema_version" (json_string (urs_schema_version frame)) +:+
  (text_part "request_id" (urs_request_id frame) +:+
  (text_part "trace_id" (urs_trace_id frame) +:+
  (text_part "disposition" (disposition_name (urs_disposition frame)) +:+
  (optional_text_part "session_id" (urs_session_id frame) +:+
  (optional_integer_part "exit_code_hint" (urs_exit_code_hint frame) +:+
  (optional_text_part "receipt_ref" (urs_receipt_ref frame) +:+
  (optional_text_part "error_ref" (urs_error_ref frame) +:+
  (match urs_agent_result frame with
   | Some result =>
       "," +:+ raw_member "agent_result"
                 ("{" +:+ (joined_with "," (agent_result_members result) +:+ "}"))
   | None => ""
   end +:+ "}"))))))))).

(** ** What is written is read *)

Lemma decode_printed only_known members max_payload_bytes :
  json_ok (JObject members) ->
  decode_envelope only_known (print_value (JObject members)) max_payload_bytes =
  if max_payload_bytes <? Z.of_nat (String.length (print_value (JObject members)))
  then inl DaemonFrameDecodeError.PayloadTooLarge else
  if negb (forallb member_texts_valid members) then inl DaemonFrameDecodeError.MalformedEnvelope else
  if negb (only_known members) then inl DaemonFrameDecodeError.MalformedEnvelope else
  match string_field members "schema_version" with
  | None => inl DaemonFrameDecodeError.MissingSchemaVersion
  | Some schema_version =>
      if bool_decide (schema_version = kDaemonProtocolSchemaVersion) then inr members
      else inl DaemonFrameDecodeError.UnsupportedSchemaVersion
  end.
Proof.
  intros Hok. unfold decode_envelope. rewrite (root_roundtrip members) by done.
  pose proof (print_value_valid (JObject members) "") as Hv.
  rewrite string_app_nil_r, texts_valid_object, andb_true_r in Hv. by rewrite Hv.
Qed.

Definition optional_text (key : string) (value : option string) : list (string * JsonValue) :=
  match value with Some value => [(key, JString value)] | None => [] end.

Definition optional_integer (key : string) (value : option Z) : list (string * JsonValue) :=
  match value with Some value => [(key, JInteger value)] | None => [] end.

Definition text_member (member : string * string) : string * JsonValue := (member.1, JString member.2).

Definition args_members (args : gmap string string) : list (string * JsonValue) :=
  text_member <$> in_key_order args.

Definition request_members (frame : UdsRequestFrame) : list (string * JsonValue) :=
  [("schema_version", JString (urq_schema_version frame)); ("request_id", JString (urq_request_id frame));
   ("trace_id", JString (urq_trace_id frame))]
  ++ optional_text "session_hint" (urq_session_hint frame)
  ++ optional_text "idempotency_key" (urq_idempotency_key frame)
  ++ [("command", JString (urq_command frame)); ("args", JObject (args_members (urq_args frame)));
      ("payload", JString (urq_payload frame));
      ("async_preference", JBool (bool_decide (urq_async_preference frame = DaemonAsyncPreference.PreferAsync)));
      ("output_mode", JString (output_mode_name (urq_output_mode frame)))]
  ++ optional_integer "deadline_ms" (urq_deadline_ms frame).

(** *** The arguments *)

Lemma print_args args :
  print_members (args_members args) =
  joined_with "," ((fun '(key, value) => json_string key +:+ (":" +:+ json_string value)) <$> in_key_order args).
Proof.
  rewrite print_members_joined. unfold args_members. f_equal.
  rewrite <-list_fmap_compose. apply list_fmap_ext. by intros i [key value] ?.
Qed.

Lemma args_keys args : NoDup (args_members args).*1.
Proof.
  unfold args_members. rewrite <-list_fmap_compose.
  rewrite (list_fmap_ext _ fst) by (by intros i []).
  rewrite (in_key_order_perm args). apply NoDup_fst_map_to_list.
Qed.

Lemma args_ok args : json_ok (JObject (args_members args)).
Proof.
  apply json_ok_object. split; [apply args_keys|]. apply Forall_forall.
  intros member (pair & -> & _)%list_elem_of_fmap. done.
Qed.

Lemma args_read args : string_members (args_members args) = Some args.
Proof.
  assert (forall l, string_members (text_member <$> l) = Some (list_to_map l)) as H.
  { induction l as [|[key value] l IH]; [done|]. cbn [fmap list_fmap text_member string_members fst snd] in *.
    by rewrite IH. }
  unfold args_members. rewrite H. f_equal. rewrite <-(list_to_map_to_list args) at 2.
  apply list_to_map_proper; [|apply in_key_order_perm].
  rewrite (in_key_order_perm args). apply NoDup_fst_map_to_list.
Qed.

(** *** Requests *)

Lemma encode_request_prints frame :
  encode_request_frame frame = print_value (JObject (request_members frame)).
Proof.
  rewrite print_object. unfold encode_request_frame, request_members. rewrite <-print_args.
  destruct (urq_session_hint frame), (urq_idempotency_key frame), (urq_deadline_ms frame);
    cbn [optional_text optional_integer app print_members optional_text_part optional_integer_part];
    unfold text_part, raw_member; rewrite ?print_object, ?string_app_assoc, ?string_nil_app; reflexivity.
Qed.

Definition deadline_ok (deadline : option Z) : Prop :=
  match deadline with Some deadline => in_s32 deadline | None => True end.

Lemma request_members_ok frame : deadline_ok (urq_deadline_ms frame) -> json_ok (JObject (request_members frame)).
Proof.
  intros Hd. apply json_ok_object. pose proof (args_ok (urq_args frame)) as Hargs.
  unfold request_members. destruct (urq_session_hint frame), (urq_idempotency_key frame), (urq_deadline_ms frame);
    cbn [optional_text optional_integer app fmap list_fmap fst];
    (split; [apply (bool_decide_unpack _); by vm_compute|]); repeat (constructor; [done|]); constructor.
Qed.

(** The texts of a frame, which have to be UTF-8. *)
Definition request_texts (frame : UdsRequestFrame) : list string :=
  [urq_schema_version frame; urq_request_id frame; urq_trace_id frame;
   default "" (urq_session_hint frame); default "" (urq_idempotency_key frame);
   urq_command frame; urq_payload frame] ++
  ((in_key_order (urq_args frame)).*1 ++ (in_key_order (urq_args frame)).*2).

Lemma args_texts args :
  texts_valid (JObject (args_members args)) =
  forallb is_valid_utf8 ((in_key_order args).*1 ++ (in_key_order args).*2).
Proof.
  rewrite texts_valid_object. unfold args_members. induction (in_key_order args) as [|[key value] l IH]; [done|].
  cbn [fmap list_fmap forallb app text_member fst snd] in *. rewrite IH, !forallb_app. cbn [forallb].
  unfold member_texts_valid, text_member. cbn [fst snd texts_valid].
  by destruct (is_valid_utf8 key), (is_valid_utf8 value), (forallb _ l.*1).
Qed.

Lemma request_members_texts frame :
  forallb member_texts_valid (request_members frame) = forallb is_valid_utf8 (request_texts frame).
Proof.
  unfold request_members, request_texts. rewrite !forallb_app.
  assert (forall key value, is_valid_utf8 key = true ->
    forallb member_texts_valid (optional_text key value) = is_valid_utf8 (default "" value)) as Ho.
  { intros key [value|] Hk; [|done]. cbn [optional_text forallb]. unfold member_texts_valid. cbn [fst snd].
    by rewrite Hk, andb_true_r. }
  assert (forall key value, is_valid_utf8 key = true ->
    forallb member_texts_valid (optional_integer key value) = true) as Hi.
  { intros key [value|] Hk; [|done]. cbn [optional_integer forallb]. unfold member_texts_valid. cbn [fst snd].
    by rewrite Hk. }
  rewrite !Ho, Hi by reflexivity. cbn [forallb]. unfold member_texts_valid. cbn [fst snd].
  change (is_valid_utf8 "schema_version") with true. change (is_valid_utf8 "request_id") with true.
  change (is_valid_utf8 "trace_id") with true. change (is_valid_utf8 "command") with true.
  change (is_valid_utf8 "args") with true. change (is_valid_utf8 "payload") with true.
  change (is_valid_utf8 "async_preference") with true. change (is_valid_utf8 "output_mode") with true.
  rewrite args_texts. rewrite !forallb_app. cbn [texts_valid].
  assert (is_valid_utf8 (output_mode_name (urq_output_mode frame)) = true) as -> by by destruct (urq_output_mode frame).
  rewrite !andb_true_l, !andb_true_r. 
  repeat match goal with |- context [is_valid_utf8 ?t] => generalize (is_valid_utf8 t); intros end.
  repeat match goal with |- context [forallb is_valid_utf8 ?t] => generalize (forallb is_valid_utf8 t); intros end.
  repeat match goal with b : bool |- _ => destruct b end; reflexivity.
Qed.

Lemma request_fields_known frame : has_only_known_request_fields (request_members frame) = true.
Proof.
  unfold has_only_known_request_fields, request_members.
  by destruct (urq_session_hint frame), (urq_idempotency_key frame), (urq_deadline_ms frame).
Qed.

Lemma request_lookups frame :
  let root := request_members frame in
  string_field root "schema_version" = Some (urq_schema_version frame) /\
  string_field root "request_id" = Some (urq_request_id frame) /\
  string_field root "trace_id" = Some (urq_trace_id frame) /\
  string_field root "session_hint" = urq_session_hint frame /\
  string_field root "idempotency_key" = urq_idempotency_key frame /\
  string_field root "command" = Some (urq_command frame) /\
  parse_args_field root = Some (urq_args frame) /\
  string_field root "payload" = Some (urq_payload frame) /\
  bool_field root "async_preference" =
    Some (bool_decide (urq_async_preference frame = DaemonAsyncPreference.PreferAsync)) /\
  string_field root "output_mode" = Some (output_mode_name (urq_output_mode frame)) /\
  integer_field root "deadline_ms" = urq_deadline_ms frame.
Proof.
  cbv zeta. unfold request_members.
  destruct (urq_session_hint frame), (urq_idempotency_key frame), (urq_deadline_ms frame);
    (split_and!; try reflexivity); apply args_read.
Qed.

(** What the daemon makes of a frame a client wrote. *)
Definition received_request (frame : UdsRequestFrame) (max_payload_bytes : Z)
    : DaemonFrameDecodeError + UdsRequestFrame :=
  if max_payload_bytes <? Z.of_nat (String.length (encode_request_frame frame))
  then inl DaemonFrameDecodeError.PayloadTooLarge else
  if negb (forallb is_valid_utf8 (request_texts frame)) then inl DaemonFrameDecodeError.MalformedEnvelope else
  if negb (bool_decide (urq_schema_version frame = kDaemonProtocolSchemaVersion))
  then inl DaemonFrameDecodeError.UnsupportedSchemaVersion else
  if is_empty (urq_command frame) then inl DaemonFrameDecodeError.MissingCommand else
  if negb (is_known_daemon_command (classify_daemon_command (urq_command frame)))
  then inl DaemonFrameDecodeError.UnknownCommand else
  inr frame.

Lemma print_payload_length members key payload :
  In (key, JString payload) members ->
  (String.length payload <= String.length (print_value (JObject members)))%nat.
Proof.
  intros Hin. apply print_member_length in Hin. rewrite print_object. cbn [print_value] in Hin.
  unfold json_string, quoted_text in Hin. cbn [String.length] in Hin. rewrite string_length_app in Hin.
  pose proof (escape_length payload). rewrite !string_length_app. lia.
Qed.

Lemma output_mode_read mode : output_mode_from_name (output_mode_name mode) = Some mode.
Proof. by destruct mode. Qed.

Lemma async_read preference :
  (if bool_decide (Some (bool_decide (preference = DaemonAsyncPreference.PreferAsync)) = Some true)
   then DaemonAsyncPreference.PreferAsync else DaemonAsyncPreference.PreferSync) = preference.
Proof. by destruct preference. Qed.

(** Every request frame a client writes arrives as it was: the daemon's decoder reads from
    the written text the frame itself, all its texts, arguments, flags and its deadline --
    whatever characters they hold -- or reports the first of these: the text is longer than the limit;
    one of the texts is not UTF-8; the schema version is not the daemon's; there is no command,
    or one the daemon does not know. *)
Theorem request_frame_received frame max_payload_bytes :
  deadline_ok (urq_deadline_ms frame) ->
  decode_request_frame (encode_request_frame frame) max_payload_bytes =
  received_request frame max_payload_bytes.
Proof.
  intros Hd. unfold decode_request_frame, received_request. rewrite encode_request_prints.
  rewrite decode_printed by by apply request_members_ok. rewrite request_members_texts, request_fields_known.
  destruct (request_lookups frame) as (-> & Hfields).
  destruct (Z.ltb_spec max_payload_bytes (Z.of_nat (String.length (print_value (JObject (request_members frame))))))
    as [|Hlen]; [done|].
  destruct (forallb is_valid_utf8 _); [|done]. cbn [negb default].
  destruct (bool_decide_reflect (urq_schema_version frame = kDaemonProtocolSchemaVersion)) as [Es|]; [|done].
  destruct Hfields as (-> & -> & -> & -> & -> & -> & -> & -> & -> & ->). cbn [negb default].
  destruct (is_empty _); [done|]. destruct (is_known_daemon_command _); [|done]. cbn [negb]. unfold id.
  assert (In ("payload", JString (urq_payload frame)) (request_members frame)) as Hin.
  { unfold request_members. rewrite !in_app_iff. do 3 right. left. simpl. tauto. }
  apply print_payload_length in Hin. rewrite (proj2 (Z.ltb_ge _ _)) by lia.
  rewrite output_mode_read, async_read, <-Es. by destruct frame.
Qed.

(** *** Responses *)

Definition optional_bool (key : string) (value : option bool) : list (string * JsonValue) :=
  match value with Some value => [(key, JBool value)] | None => [] end.

Definition result_members (result : AgentResult) : list (string * JsonValue) :=
  optional_text "result_id" (ag_result_id result) ++ optional_text "response_text" (ag_response_text result)
  ++ optional_text "request_id" (ag_request_id result) ++ optional_text "trace_id" (ag_trace_id result)
  ++ optional_bool "task_completed" (ag_task_completed result).

Definition optional_result (result : option AgentResult) : list (string * JsonValue) :=
  match result with Some result => [("agent_result", JObject (result_members result))] | None => [] end.

Definition response_members (frame : UdsResponseFrame) : list (string * JsonValue) :=
  [("schema_version", JString (urs_schema_version frame)); ("request_id", JString (urs_request_id frame));
   ("trace_id", JString (urs_trace_id frame)); ("disposition", JString (disposition_name (urs_disposition frame)))]
  ++ optional_text "session_id" (urs_session_id frame)
  ++ optional_integer "exit_code_hint" (urs_exit_code_hint frame)
  ++ optional_text "receipt_ref" (urs_receipt_ref frame)
  ++ optional_text "error_ref" (urs_error_ref frame)
  ++ optional_result (urs_agent_result frame).

Lemma print_result result :
  print_members (result_members result) = joined_with "," (agent_result_members result).
Proof.
  rewrite print_members_joined. unfold result_members, agent_result_members. f_equal.
  by destruct (ag_result_id result), (ag_response_text result), (ag_request_id result),
    (ag_trace_id result), (ag_task_completed result).
Qed.

Lemma encode_response_prints frame :
  encode_response_frame frame = print_value (JObject (response_members frame)).
Proof.
  rewrite print_object. unfold encode_response_frame, response_members.
  destruct (urs_agent_result frame) as [result|]; [rewrite <-(print_result result)|];
  destruct (urs_session_id frame), (urs_exit_code_hint frame), (urs_receipt_ref frame), (urs_error_ref frame);
    cbn [optional_text optional_integer optional_result app print_members optional_text_part optional_integer_part];
    unfold text_part, raw_member; rewrite ?print_object, ?string_app_assoc, ?string_nil_app; reflexivity.
Qed.

Lemma result_members_ok result : json_ok (JObject (result_members result)).
Proof.
  apply json_ok_object. unfold result_members.
  destruct (ag_result_id result), (ag_response_text result), (ag_request_id result),
    (ag_trace_id result), (ag_task_completed result); cbn [optional_text optional_bool app fmap list_fmap fst];
    (split; [apply (bool_decide_unpack _); by vm_compute|]); repeat (constructor; [done|]); constructor.
Qed.

Lemma response_members_ok frame :
  deadline_ok (urs_exit_code_hint frame) -> json_ok (JObject (response_members frame)).
Proof.
  intros Hd. apply json_ok_object. unfold response_members.
  destruct (urs_agent_result frame) as [result|]; [pose proof (result_members_ok result)|];
  destruct (urs_session_id frame), (urs_exit_code_hint frame), (urs_receipt_ref frame), (urs_error_ref frame);
    cbn [optional_text optional_integer optional_result app fmap list_fmap fst];
    (split; [apply (bool_decide_unpack _); by vm_compute|]); repeat (constructor; [done|]); constructor.
Qed.

Definition result_texts (result : AgentResult) : list string :=
  [default "" (ag_result_id result); default "" (ag_response_text result);
   default "" (ag_request_id result); default "" (ag_trace_id result)].

Definition response_texts (frame : UdsResponseFrame) : list string :=
  [urs_schema_version frame; urs_request_id frame; urs_trace_id frame;
   default "" (urs_session_id frame); default "" (urs_receipt_ref frame); default "" (urs_error_ref frame)]
  ++ match urs_agent_result frame with Some result => result_texts result | None => [] end.

Lemma optional_texts key value :
  is_valid_utf8 key = true ->
  forallb member_texts_valid (optional_text key value) = is_valid_utf8 (default "" value).
Proof.
  intros Hk. destruct value as [value|]; [|done]. cbn [optional_text forallb]. unfold member_texts_valid.
  cbn [fst snd]. by rewrite Hk, andb_true_r.
Qed.

Lemma result_members_texts result :
  forallb member_texts_valid (result_members result) = forallb is_valid_utf8 (result_texts result).
Proof.
  unfold result_members, result_texts. rewrite !forallb_app, !optional_texts by done.
  assert (forallb member_texts_valid (optional_bool "task_completed" (ag_task_completed result)) = true) as ->
    by by destruct (ag_task_completed result).
  done.
Qed.

Lemma response_members_texts frame :
  forallb member_texts_valid (response_members frame) = forallb is_valid_utf8 (response_texts frame).
Proof.
  unfold response_members, response_texts. rewrite !forallb_app, !optional_texts by done.
  assert (forallb member_texts_valid (optional_integer "exit_code_hint" (urs_exit_code_hint frame)) = true) as ->
    by by destruct (urs_exit_code_hint frame).
  assert (forallb member_texts_valid (optional_result (urs_agent_result frame)) =
    forallb is_valid_utf8 match urs_agent_result frame with Some result => result_texts result | None => [] end) as ->.
  { destruct (urs_agent_result frame) as [result|]; [|done]. cbn [optional_result forallb].
    unfold member_texts_valid at 1. cbn [fst snd]. rewrite texts_valid_object, result_members_texts.
    by rewrite andb_true_r. }
  cbn [forallb]. unfold member_texts_valid. cbn [fst snd texts_valid].
  assert (is_valid_utf8 (disposition_name (urs_disposition frame)) = true) as -> by by destruct (urs_disposition frame).
  change (is_valid_utf8 "schema_version") with true. change (is_valid_utf8 "request_id") with true.
  change (is_valid_utf8 "trace_id") with true. change (is_valid_utf8 "disposition") with true.
  rewrite !andb_true_l, !andb_true_r, !andb_assoc. done.
Qed.

Lemma result_fields_known result : has_only_known_agent_result_fields (result_members result) = true.
Proof.
  unfold result_members. by destruct (ag_result_id result), (ag_response_text result), (ag_request_id result),
    (ag_trace_id result), (ag_task_completed result).
Qed.

Lemma response_fields_known frame : has_only_known_response_fields (response_members frame) = true.
Proof.
  unfold response_members.
  destruct (urs_agent_result frame) as [result|]; [pose proof (result_fields_known result) as Hr|];
    destruct (urs_session_id frame), (urs_exit_code_hint frame), (urs_receipt_ref frame), (urs_error_ref frame);
    cbn [optional_text optional_integer optional_result app]; unfold has_only_known_response_fields;
    cbn [forallb]; try rewrite Hr; reflexivity.
Qed.

(** What of an agent's result a frame carries. *)
Definition carried_result (result : AgentResult) : AgentResult :=
  {| ag_result_id := ag_result_id result; ag_status := None; ag_result_code := None;
     ag_response_text := ag_response_text result; ag_task_completed := ag_task_completed result;
     ag_created_at := None; ag_request_id := ag_request_id result; ag_trace_id := ag_trace_id result;
     ag_structured_payload := None; ag_error_info := None; ag_checkpoint_ref := None;
     ag_goal_id := None; ag_tags := None |}.

Lemma result_read result : read_agent_result (result_members result) = carried_result result.
Proof.
  unfold read_agent_result, carried_result, result_members.
  by destruct (ag_result_id result), (ag_response_text result), (ag_request_id result),
    (ag_trace_id result), (ag_task_completed result).
Qed.

Definition carried_response (frame : UdsResponseFrame) : UdsResponseFrame :=
  {| urs_schema_version := urs_schema_version frame; urs_request_id := urs_request_id frame;
     urs_trace_id := urs_trace_id frame; urs_session_id := urs_session_id frame;
     urs_disposition := urs_disposition frame; urs_exit_code_hint := urs_exit_code_hint frame;
     urs_receipt_ref := urs_receipt_ref frame;
     urs_agent_result := carried_result <$> urs_agent_result frame; urs_error_ref := urs_error_ref frame |}.

Lemma response_lookups frame :
  let root := response_members frame in
  string_field root "schema_version" = Some (urs_schema_version frame) /\
  string_field root "disposition" = Some (disposition_name (urs_disposition frame)) /\
  string_field root "request_id" = Some (urs_request_id frame) /\
  string_field root "trace_id" = Some (urs_trace_id frame) /\
  string_field root "session_id" = urs_session_id frame /\
  integer_field root "exit_code_hint" = urs_exit_code_hint frame /\
  string_field root "receipt_ref" = urs_receipt_ref frame /\
  string_field root "error_ref" = urs_error_ref frame /\
  member_of "agent_result" root = (fun result => JObject (result_members result)) <$> urs_agent_result frame.
Proof.
  cbv zeta. unfold response_members.
  destruct (urs_agent_result frame), (urs_session_id frame), (urs_exit_code_hint frame),
    (urs_receipt_ref frame), (urs_error_ref frame); split_and!; reflexivity.
Qed.

(** Every response frame the daemon writes arrives: the client's decoder reads from the
    written text the frame itself -- of an agent's result, its id, its text, its request, its trace and
    whether the task is completed -- or reports the first of these: the text is longer than the
    limit; one of the texts is not UTF-8; the schema version is not the client's. *)
Theorem response_frame_received frame max_payload_bytes :
  deadline_ok (urs_exit_code_hint frame) ->
  decode_response_frame (encode_response_frame frame) max_payload_bytes =
  if max_payload_bytes <? Z.of_nat (String.length (encode_response_frame frame))
  then inl DaemonFrameDecodeError.PayloadTooLarge else
  if negb (forallb is_valid_utf8 (response_texts frame)) then inl DaemonFrameDecodeError.MalformedEnvelope else
  if bool_decide (urs_schema_version frame = kDaemonProtocolSchemaVersion)
  then inr (carried_response frame)
  else inl DaemonFrameDecodeError.UnsupportedSchemaVersion.
Proof.
  intros Hd. unfold decode_response_frame. rewrite encode_response_prints.
  rewrite decode_printed by by apply response_members_ok. rewrite response_members_texts, response_fields_known.
  destruct (response_lookups frame) as (-> & Hfields).
  destruct (_ <? _); [done|]. destruct (forallb is_valid_utf8 _); [|done]. cbn [negb].
  destruct (bool_decide_reflect (urs_schema_version frame = kDaemonProtocolSchemaVersion)) as [Es|]; [|done].
  destruct Hfields as (-> & -> & -> & -> & -> & -> & -> & ->). cbn [default]. unfold id.
  assert (disposition_from_name (disposition_name (urs_disposition frame)) = Some (urs_disposition frame)) as ->
    by by destruct (urs_disposition frame).
  assert (is_empty (disposition_name (urs_disposition frame)) = false) as -> by by destruct (urs_disposition frame).
  unfold carried_response. rewrite Es. destruct (urs_agent_result frame); [|done].
  cbn [fmap option_fmap option_map]. by rewrite result_read.
Qed.
