(* ===== verification/DaemonConnection.v ===== *)
(** * A connection of the daemon

    From the bytes a client sends to the bytes it gets back: the adapter
    (access/src/daemon/DaemonProtocolAdapter.cpp), the life of the daemon
    (apps/daemon/src/DaemonLifecycleController.cpp) and the queue of its connections
    (apps/daemon/src/DaemonBootstrap.cpp). The socket is the platform's: what its calls return
    is given. A payload of the terminal interface is handled by another adapter, whose verdict is given too. *)

From S2P Require Import Prelude Text AgentContracts AccessTypes Identity RuntimeBridge DaemonCommands FrameJson FrameCodec.

(** ** The adapter *)

(** [std::atoi]; of what does not fit, the low 32 bits of the saturated [long]. *)
Definition atoi (text : string) : Z :=
  match parse_number text with
  | Some (negative, magnitude) =>
      let value := if negative then - magnitude else magnitude in
      s32 (Z.max (- 2 ^ 63) (Z.min (2 ^ 63 - 1) value))
  | None => 0
  end.

Definition map_disposition (envelope : PublishEnvelope) : UdsResponseDisposition :=
  if is_empty (pe_protocol_status_hint envelope) then UdsResponseDisposition.Rejected else
  let status := atoi (pe_protocol_status_hint envelope) in
  if status =? 202 then UdsResponseDisposition.AcceptedAsync else
  if status =? 503 then UdsResponseDisposition.NotReady else
  if (200 <=? status) && (status <? 300) then UdsResponseDisposition.Completed else
  UdsResponseDisposition.Rejected.

(** The receipt's id, or else the result's. *)
Definition receipt_of (envelope : PublishEnvelope) : option string :=
  match atr_receipt_id <$> pe_receipt envelope with
  | Some receipt_id =>
      if negb (is_empty receipt_id) then Some receipt_id else filled (Some (pe_result_id envelope))
  | None => filled (Some (pe_result_id envelope))
  end.

Definition build_response_frame (envelope : PublishEnvelope) : UdsResponseFrame :=
  let disposition := map_disposition envelope in
  {| urs_schema_version := kDaemonProtocolSchemaVersion;
     urs_request_id := pe_request_id envelope; urs_trace_id := pe_trace_id envelope;
     urs_session_id := filled (Some (pe_session_id envelope));
     urs_disposition := disposition; urs_exit_code_hint := None;
     urs_receipt_ref :=
       if bool_decide (disposition = UdsResponseDisposition.AcceptedAsync) then receipt_of envelope else None;
     urs_agent_result := pe_agent_result envelope;
     urs_error_ref :=
       if bool_decide (disposition = UdsResponseDisposition.Rejected)
       then filled (Some (pe_payload envelope)) else None |}.

Definition kMaxDaemonFramePayloadBytes : Z := 1048576.

(** The commands that go by their name. *)
Definition named_command (kind : DaemonCommandKind) : bool :=
  bool_decide (kind <> DaemonCommandKind.Run /\ kind <> DaemonCommandKind.Unknown).

Definition status_like (kind : DaemonCommandKind) : bool :=
  bool_decide (kind = DaemonCommandKind.Status) || bool_decide (kind = DaemonCommandKind.Cancel).

(** The payload of a status or cancel frame that has none: made of its arguments. *)
Definition payload_of_args (args : gmap string string) (payload : string) : string :=
  match args !! "receipt_ref", args !! "ownership_token" with
  | Some receipt_ref, Some ownership_token =>
      "receipt_ref=" +:+ (receipt_ref +:+
        (match args !! "actor_ref" with Some actor_ref => ";actor_ref=" +:+ actor_ref | None => "" end +:+
           (";ownership_token=" +:+ ownership_token)))
  | _, _ => payload
  end.

(** [parse_uds_request_frame], of a frame that decodes. *)
Definition packet_of_frame (frame : UdsRequestFrame) : InboundPacket :=
  let kind := classify_daemon_command (urq_command frame) in
  {| ip_packet_id :=
       if named_command kind then urq_command frame
       else if negb (is_empty (urq_request_id frame)) then urq_request_id frame else urq_command frame;
     ip_entry_type := "daemon"; ip_protocol_kind := "ipc_uds";
     ip_peer_ref := default "" (urq_args frame !! "peer_ref");
     ip_payload :=
       if status_like kind && is_empty (urq_payload frame)
       then payload_of_args (urq_args frame) (urq_payload frame) else urq_payload frame;
     ip_headers := ∅;
     ip_trace_id := filled (Some (urq_trace_id frame));
     ip_session_hint := urq_session_hint frame; ip_deadline_ms := urq_deadline_ms frame;
     ip_async_preferred := bool_decide (urq_async_preference frame = DaemonAsyncPreference.PreferAsync);
     ip_stream_requested := false |}.

(** [decode]; [None] is the packet without an entry type. *)
Definition decode_packet (payload : string) : option InboundPacket :=
  match decode_request_frame payload kMaxDaemonFramePayloadBytes with
  | inl _ => None
  | inr frame => Some (packet_of_frame frame)
  end.

(** The text of an answer. *)
Definition response_text (envelope : PublishEnvelope) : string :=
  encode_response_frame (build_response_frame envelope).

(** ** The life of the daemon *)

Module DaemonLifecycleState.
Inductive DaemonLifecycleState := Stopped | Bootstrapping | Binding | Ready | Draining | Failed.
End DaemonLifecycleState.
Abbreviation DaemonLifecycleState := DaemonLifecycleState.DaemonLifecycleState.
#[export] Instance DaemonLifecycleState_eq_dec : EqDecision DaemonLifecycleState.
Proof. solve_decision. Defined.

Record DaemonLifecycleController := {
  dlc_state : DaemonLifecycleState;
  dlc_inflight_requests : Z;
}.

Definition with_state (state : DaemonLifecycleState) (c : DaemonLifecycleController)
    : DaemonLifecycleController :=
  {| dlc_state := state; dlc_inflight_requests := dlc_inflight_requests c |}.

(** [start], [mark_binding], [mark_ready]: from one state to the next. *)
Definition advance (from to : DaemonLifecycleState) (c : DaemonLifecycleController)
    : DaemonLifecycleController * bool :=
  if bool_decide (dlc_state c = from) then (with_state to c, true) else (c, false).

Definition start := advance DaemonLifecycleState.Stopped DaemonLifecycleState.Bootstrapping.
Definition mark_binding := advance DaemonLifecycleState.Bootstrapping DaemonLifecycleState.Binding.
Definition mark_ready := advance DaemonLifecycleState.Binding DaemonLifecycleState.Ready.

Definition mark_failed (c : DaemonLifecycleController) : DaemonLifecycleController * bool :=
  if bool_decide (dlc_state c = DaemonLifecycleState.Stopped)
     || bool_decide (dlc_state c = DaemonLifecycleState.Failed)
  then (c, false) else (with_state DaemonLifecycleState.Failed c, true).

Definition begin_request (c : DaemonLifecycleController) : DaemonLifecycleController * bool :=
  if bool_decide (dlc_state c = DaemonLifecycleState.Ready)
  then ({| dlc_state := dlc_state c; dlc_inflight_requests := u32 (dlc_inflight_requests c + 1) |}, true)
  else (c, false).

Definition finish_request (c : DaemonLifecycleController) : DaemonLifecycleController :=
  if dlc_inflight_requests c =? 0 then c
  else {| dlc_state := dlc_state c; dlc_inflight_requests := dlc_inflight_requests c - 1 |}.

Record DaemonShutdownResult := {
  dsr_drained : bool;
  dsr_timed_out : bool;
  dsr_abandoned_requests : Z;
}.

Definition drained_result : DaemonShutdownResult :=
  {| dsr_drained := true; dsr_timed_out := false; dsr_abandoned_requests := 0 |}.

(** [shutdown], up to its wait; without an answer it goes on to wait. *)
Definition shutdown_begin (c : DaemonLifecycleController)
    : DaemonLifecycleController * option DaemonShutdownResult :=
  if bool_decide (dlc_state c = DaemonLifecycleState.Stopped) then (c, Some drained_result) else
  let c := if bool_decide (dlc_state c = DaemonLifecycleState.Failed) then c
           else with_state DaemonLifecycleState.Draining c in
  if dlc_inflight_requests c =? 0
  then (with_state DaemonLifecycleState.Stopped c, Some drained_result) else (c, None).

(** After its wait, which ends when no request is left or when the time is up. *)
Definition shutdown_end (c : DaemonLifecycleController)
    : DaemonLifecycleController * DaemonShutdownResult :=
  (with_state DaemonLifecycleState.Stopped c,
   if dlc_inflight_requests c =? 0 then drained_result
   else {| dsr_drained := false; dsr_timed_out := true;
           dsr_abandoned_requests := dlc_inflight_requests c |}).

(** ** One connection *)

Inductive ConnectionHandlingDisposition := Completed | Dropped | FatalError.
#[export] Instance ConnectionHandlingDisposition_eq_dec : EqDecision ConnectionHandlingDisposition.
Proof. solve_decision. Defined.

(** What [receive] returns: an error; nothing, or the end of the channel; a payload. *)
Inductive Received := Receive_failed | Nothing_received | Payload (text : string).

(** What the platform and the terminal's adapter return during one connection. *)
Record Connection := {
  con_handle_valid : bool;
  con_received : Received;
  con_peer : LocalPeerUidFact;
  con_tui : option bool;
  con_sent : bool;
}.

(** The envelope sent for a dispatch result. *)
Definition reply_of (result : RuntimeDispatchResult) : PublishEnvelope :=
  match ds_publish_envelope result with
  | Some envelope => envelope
  | None =>
      let bare hint result_id payload :=
        {| pe_request_id := ""; pe_result_id := result_id; pe_session_id := ""; pe_trace_id := "";
           pe_channel_ref := ""; pe_protocol_kind := ""; pe_agent_result := None;
           pe_protocol_status_hint := hint; pe_protocol_metadata := ""; pe_is_final := true;
           pe_payload := payload; pe_receipt := None |} in
      if bool_decide (ds_disposition result = AccessDisposition.AcceptedAsync)
      then bare "202" (default "async-receipt" (ds_receipt_ref result)) ""
      else bare "400" "" (default "rejected" (ds_error_ref result))
  end.

(** The packet the gateway is asked, with the peer the socket names. *)
Definition with_peer_ref (peer_ref : string) (packet : InboundPacket) : InboundPacket :=
  {| ip_packet_id := ip_packet_id packet; ip_entry_type := ip_entry_type packet;
     ip_protocol_kind := ip_protocol_kind packet; ip_peer_ref := peer_ref;
     ip_payload := ip_payload packet; ip_headers := ip_headers packet;
     ip_trace_id := ip_trace_id packet; ip_session_hint := ip_session_hint packet;
     ip_deadline_ms := ip_deadline_ms packet; ip_async_preferred := ip_async_preferred packet;
     ip_stream_requested := ip_stream_requested packet |}.

Definition submitted_packet (peer : LocalPeerUidFact) (payload : string) : option InboundPacket :=
  match decode_packet payload with
  | Some packet => Some (with_peer_ref (resolve_daemon_peer_ref peer (ip_peer_ref packet)) packet)
  | None => None
  end.

(** [handle_connection]: what is sent, and how the connection ends. [begun] is what
    [begin_request] answered. *)
Definition handle_connection (gateway : InboundPacket -> RuntimeDispatchResult) (begun : bool)
    (c : Connection) : option string * ConnectionHandlingDisposition :=
  if negb (con_handle_valid c) then (None, FatalError) else
  if negb begun then (None, Dropped) else
  match con_received c with
  | Receive_failed => (None, FatalError)
  | Nothing_received => (None, Dropped)
  | Payload text =>
      if is_empty text then (None, Dropped) else
      match con_tui c with
      | Some answered => (None, if answered then Completed else FatalError)
      | None =>
          match submitted_packet (con_peer c) text with
          | None => (None, FatalError)
          | Some packet =>
              (Some (response_text (reply_of (gateway packet))),
               if con_sent c then Completed else FatalError)
          end
      end
  end.

(** ** The queue

    The accept loop puts connections into the queue, the workers take them out; a worker whose
    connection ends fatally stops the accept loop and itself. *)

(** A connection that is being handled: its worker has not asked the lifecycle yet, or was let
    in, or turned away. *)
Inductive Phase := Fresh | Let_in | Turned_away.
#[export] Instance Phase_eq_dec : EqDecision Phase.
Proof. solve_decision. Defined.

Record DaemonState := {
  dst_lifecycle : DaemonLifecycleController;
  dst_waiting : bool;
  dst_accept_stopped : bool;
  dst_stop_requested : bool;
  dst_failed : bool;
  dst_pending : list nat;
  dst_processing : list (nat * Phase);
  dst_workers : nat;
}.

(** [run], up to its accept loop. *)
Definition startup (gateway_ready bound : bool) (workers : nat) (c : DaemonLifecycleController)
    : DaemonState * bool :=
  let state c stopped :=
    {| dst_lifecycle := c; dst_waiting := false; dst_accept_stopped := stopped; dst_stop_requested := stopped;
       dst_failed := stopped; dst_pending := []; dst_processing := [];
       dst_workers := if stopped then 0%nat else workers |} in
  let fail c := (state (fst (mark_failed c)) true, false) in
  match start c with
  | (c, false) => (state c true, false)
  | (c, true) =>
      if negb gateway_ready then fail c else
      match mark_binding c with
      | (c, false) => fail c
      | (c, true) =>
          if negb bound then fail c else
          match mark_ready c with
          | (c, false) => fail c
          | (c, true) => (state c false, true)
          end
      end
  end.

Definition with_lifecycle (c : DaemonLifecycleController) (s : DaemonState) : DaemonState :=
  {| dst_lifecycle := c; dst_waiting := dst_waiting s; dst_accept_stopped := dst_accept_stopped s;
     dst_stop_requested := dst_stop_requested s; dst_failed := dst_failed s;
     dst_pending := dst_pending s; dst_processing := dst_processing s; dst_workers := dst_workers s |}.

Definition with_queues (pending : list nat) (processing : list (nat * Phase)) (s : DaemonState)
    : DaemonState :=
  {| dst_lifecycle := dst_lifecycle s; dst_waiting := dst_waiting s; dst_accept_stopped := dst_accept_stopped s;
     dst_stop_requested := dst_stop_requested s; dst_failed := dst_failed s;
     dst_pending := pending; dst_processing := processing; dst_workers := dst_workers s |}.

Definition no_longer_waiting (s : DaemonState) : DaemonState :=
  {| dst_lifecycle := dst_lifecycle s; dst_waiting := false; dst_accept_stopped := dst_accept_stopped s;
     dst_stop_requested := dst_stop_requested s; dst_failed := dst_failed s;
     dst_pending := dst_pending s; dst_processing := dst_processing s; dst_workers := dst_workers s |}.

(** [request_dispatch_stop] *)
Definition request_dispatch_stop (fatal_error : bool) (s : DaemonState) : DaemonState :=
  {| dst_lifecycle := dst_lifecycle s; dst_waiting := dst_waiting s; dst_accept_stopped := true; dst_stop_requested := true;
     dst_failed := dst_failed s || fatal_error; dst_pending := dst_pending s;
     dst_processing := dst_processing s; dst_workers := dst_workers s |}.

Definition worker_returns (s : DaemonState) : DaemonState :=
  {| dst_lifecycle := dst_lifecycle s; dst_waiting := dst_waiting s; dst_accept_stopped := dst_accept_stopped s;
     dst_stop_requested := dst_stop_requested s; dst_failed := dst_failed s;
     dst_pending := dst_pending s; dst_processing := dst_processing s;
     dst_workers := (dst_workers s - 1)%nat |}.

(** [stop]: the accept loop ends; the lifecycle begins to shut down. *)
Definition stop_begins (s : DaemonState) : DaemonState * option DaemonShutdownResult :=
  let '(c, result) := shutdown_begin (dst_lifecycle s) in
  ({| dst_lifecycle := c; dst_waiting := dst_waiting s || bool_decide (result = None);
      dst_accept_stopped := true; dst_stop_requested := dst_stop_requested s;
      dst_failed := dst_failed s; dst_pending := dst_pending s;
      dst_processing := dst_processing s; dst_workers := dst_workers s |}, result).

Inductive daemon_step :=
| Accepted (channel : nat)
| Taken
| Begun (channel : nat)
| Handled (channel : nat) (connection : Connection) (closed : bool)
(* [stop], before and after the wait of [shutdown] *)
| Stop_begins
| Stop_ends
(* [stop_dispatch_workers], once the accept loop has ended and the workers have joined *)
| Stop_workers
| Run_failed.

Fixpoint phase_of (channel : nat) (processing : list (nat * Phase)) : option Phase :=
  match processing with
  | [] => None
  | (c, phase) :: processing => if bool_decide (c = channel) then Some phase else phase_of channel processing
  end.

Fixpoint without (channel : nat) (processing : list (nat * Phase)) : list (nat * Phase) :=
  match processing with
  | [] => []
  | (c, phase) :: rest => if bool_decide (c = channel) then rest else (c, phase) :: without channel rest
  end.

(** Whether a connection in this phase can be done with: one without a valid handle does not
    ask the lifecycle. *)
Definition can_end (phase : Phase) (connection : Connection) : bool :=
  bool_decide (phase = Fresh) && negb (con_handle_valid connection)
  || negb (bool_decide (phase = Fresh)) && con_handle_valid connection.

Definition end_connection (gateway : InboundPacket -> RuntimeDispatchResult) (phase : Phase)
    (channel : nat) (connection : Connection) (closed : bool) (s : DaemonState) : DaemonState :=
  let begun := bool_decide (phase = Let_in) in
  let disposition := snd (handle_connection gateway begun connection) in
  let s := with_queues (dst_pending s) (without channel (dst_processing s))
             (with_lifecycle (if begun then finish_request (dst_lifecycle s) else dst_lifecycle s) s) in
  if bool_decide (disposition = FatalError) || negb closed
  then worker_returns (request_dispatch_stop true s) else s.

(** One step of one of the threads. *)
Definition step (gateway : InboundPacket -> RuntimeDispatchResult) (s : DaemonState) (op : daemon_step)
    : option DaemonState :=
  match op with
  | Accepted channel =>
      if dst_accept_stopped s then None else
      Some (if dst_stop_requested s || dst_failed s then s
            else with_queues (dst_pending s ++ [channel]) (dst_processing s) s)
  | Taken =>
      match dst_pending s with
      | channel :: pending =>
          if (length (dst_processing s) <? dst_workers s)%nat
          then Some (with_queues pending ((channel, Fresh) :: dst_processing s) s) else None
      | [] => None
      end
  | Begun channel =>
      match phase_of channel (dst_processing s) with
      | Some Fresh =>
          let '(c, begun) := begin_request (dst_lifecycle s) in
          let phase := if begun then Let_in else Turned_away in
          Some (with_lifecycle c
                  (with_queues (dst_pending s) ((channel, phase) :: without channel (dst_processing s)) s))
      | _ => None
      end
  | Handled channel connection closed =>
      match phase_of channel (dst_processing s) with
      | Some phase =>
          if can_end phase connection then Some (end_connection gateway phase channel connection closed s)
          else None
      | None => None
      end
  | Stop_begins => Some (fst (stop_begins s))
  | Stop_ends =>
      if dst_waiting s
      then Some (with_lifecycle (fst (shutdown_end (dst_lifecycle s))) (no_longer_waiting s)) else None
  | Stop_workers =>
      if dst_accept_stopped s && bool_decide (dst_processing s = [])
         && (bool_decide (dst_pending s = []) || (dst_workers s =? 0)%nat)
      then Some (with_queues [] [] (request_dispatch_stop false s)) else None
  | Run_failed =>
      if dst_accept_stopped s && dst_stop_requested s && bool_decide (dst_processing s = [])
      then Some (with_lifecycle (fst (mark_failed (dst_lifecycle s))) s) else None
  end.

Fixpoint steps (gateway : InboundPacket -> RuntimeDispatchResult) (s : DaemonState) (ops : list daemon_step)
    : option DaemonState :=
  match ops with
  | [] => Some s
  | op :: ops =>
      match step gateway s op with
      | Some s => steps gateway s ops
      | None => None
      end
  end.

(** The requests that are under way: their connection was let in and is not done. *)
Definition requests_under_way (s : DaemonState) : nat :=
  length (filter (fun entry => entry.2 = Let_in) (dst_processing s)).

(** ** Requests under way *)

Definition let_in_count (processing : list (nat * Phase)) : nat :=
  length (filter (fun entry => entry.2 = Let_in) processing).

Lemma let_in_cons channel phase processing :
  let_in_count ((channel, phase) :: processing) =
  ((if bool_decide (phase = Let_in) then 1 else 0) + let_in_count processing)%nat.
Proof. unfold let_in_count. rewrite filter_cons. simpl. case_decide; by case_bool_decide. Qed.

Lemma let_in_without channel phase processing :
  phase_of channel processing = Some phase ->
  let_in_count processing =
    ((if bool_decide (phase = Let_in) then 1 else 0) + let_in_count (without channel processing))%nat /\
  length processing = S (length (without channel processing)).
Proof.
  induction processing as [|[c p] processing IH]; [done|]. cbn [phase_of without].
  destruct (bool_decide (c = channel)).
  - intros [= ->]. by rewrite let_in_cons.
  - intros H. destruct (IH H) as [Hc Hl]. rewrite !let_in_cons, Hc. simpl. lia.
Qed.

(** The counter of the lifecycle counts the requests under way, and there are never more
    connections being handled than there were workers. *)
Definition counted (workers : nat) (s : DaemonState) : Prop :=
  dlc_inflight_requests (dst_lifecycle s) = Z.of_nat (requests_under_way s) /\
  (length (dst_processing s) <= workers)%nat /\ (dst_workers s <= workers)%nat.

Lemma let_in_length processing : (let_in_count processing <= length processing)%nat.
Proof. apply length_filter. Qed.

Lemma finish_counted c n : dlc_inflight_requests c = Z.of_nat (S n) ->
  dlc_inflight_requests (finish_request c) = Z.of_nat n.
Proof. unfold finish_request. intros ->. rewrite (proj2 (Z.eqb_neq _ _)) by lia. simpl. lia. Qed.

Lemma shutdown_begin_keeps c : dlc_inflight_requests (fst (shutdown_begin c)) = dlc_inflight_requests c.
Proof.
  unfold shutdown_begin. case_bool_decide; [done|]. cbn [with_state dlc_inflight_requests].
  repeat case_bool_decide; simpl; by destruct (_ =? 0).
Qed.

Lemma counted_end gateway workers phase channel connection closed s :
  phase_of channel (dst_processing s) = Some phase -> counted workers s ->
  counted workers (end_connection gateway phase channel connection closed s).
Proof.
  intros Hp (Hc & Hl & Hw). unfold counted, requests_under_way in *.
  destruct (let_in_without _ _ _ Hp) as [Hn Hlen]. unfold let_in_count in Hn.
  assert (counted workers (with_queues (dst_pending s) (without channel (dst_processing s))
    (with_lifecycle (if bool_decide (phase = Let_in) then finish_request (dst_lifecycle s) else dst_lifecycle s) s)))
    as (H1 & H2 & H3).
  { unfold counted, requests_under_way. simpl. split; [|lia].
    destruct (bool_decide (phase = Let_in)); [|rewrite Hc, Hn; done].
    apply finish_counted. by rewrite Hc, Hn. }
  unfold requests_under_way in H1. unfold end_connection. simpl in *.
  destruct (_ || _); simpl; (split; [done|lia]).
Qed.

Lemma counted_step gateway workers s op s' :
  Z.of_nat workers < 2 ^ 32 -> counted workers s -> step gateway s op = Some s' -> counted workers s'.
Proof.
  intros Hmax Hs. pose proof Hs as (Hc & Hl & Hw). unfold requests_under_way in Hc.
  destruct op as [channel| |channel|channel connection closed| | | |]; cbn [step].
  - destruct (dst_accept_stopped s); [done|]. intros [= <-]. by destruct (_ || _).
  - destruct (dst_pending s) as [|channel pending]; [done|].
    destruct (Nat.ltb_spec (length (dst_processing s)) (dst_workers s)); [|done]. intros [= <-].
    unfold counted, requests_under_way. cbn -[filter]. split; [|lia]. by rewrite filter_cons_False.
  - destruct (phase_of channel (dst_processing s)) as [[]|] eqn:Hp; try done.
    destruct (let_in_without _ _ _ Hp) as [Hn Hlen]. pose proof (let_in_length (without channel (dst_processing s))).
    unfold begin_request.
    destruct (bool_decide (dlc_state (dst_lifecycle s) = DaemonLifecycleState.Ready)); intros [= <-]; unfold counted, requests_under_way; cbn -[filter].
    + split; [|lia]. rewrite filter_cons_True by done. simpl. unfold let_in_count in *.
      rewrite Hc, Hn. unfold u32. rewrite Z.mod_small; simpl; lia.
    + split; [|lia]. rewrite filter_cons_False by done. rewrite Hc. f_equal. exact Hn.
  - destruct (phase_of channel (dst_processing s)) as [phase|] eqn:Hp; [|done].
    destruct (can_end phase connection); [|done]. intros [= <-]. by apply counted_end.
  - intros [= <-]. unfold stop_begins. pose proof (shutdown_begin_keeps (dst_lifecycle s)) as Hk.
    destruct (shutdown_begin _) as [c result]. simpl in Hk. unfold counted, requests_under_way. simpl.
    by rewrite Hk.
  - destruct (dst_waiting s); [|done]. by intros [= <-].
  - destruct (_ && _ && _) eqn:E; [|done]. intros [= <-].
    apply andb_true_iff in E as [E _]. apply andb_true_iff in E as [_ E].
    apply bool_decide_eq_true in E. unfold counted, requests_under_way in *. simpl. rewrite E in Hc. simpl in Hc.
    split; [done|lia].
  - destruct (_ && _ && _); [|done]. intros [= <-]. unfold counted, requests_under_way, mark_failed. simpl.
    by destruct (_ || _).
Qed.

Lemma startup_counted ready bound workers c s :
  startup ready bound workers c = (s, true) -> dlc_inflight_requests c = 0 -> counted workers s.
Proof.
  unfold startup, start, mark_binding, mark_ready, advance. intros H Hc.
  repeat (case_bool_decide; [|simplify_eq]). destruct ready, bound; simplify_eq/=.
  unfold counted, requests_under_way. simpl. rewrite Hc. lia.
Qed.

Lemma counted_steps gateway workers ops : forall s s',
  Z.of_nat workers < 2 ^ 32 -> counted workers s -> steps gateway s ops = Some s' -> counted workers s'.
Proof.
  induction ops as [|op ops IH]; intros s s' Hmax Hs; cbn [steps]; [by intros [= <-]|].
  destruct (step gateway s op) as [s1|] eqn:E; [|done]. apply IH; [done|]. by eapply counted_step.
Qed.

(** *** Shutting down *)

Lemma not_ready_step gateway s op s' :
  dlc_state (dst_lifecycle s) <> DaemonLifecycleState.Ready -> step gateway s op = Some s' ->
  dlc_state (dst_lifecycle s') <> DaemonLifecycleState.Ready /\
  (requests_under_way s' <= requests_under_way s)%nat.
Proof.
  intros Hs. destruct op as [channel| |channel|channel connection closed| | | |]; cbn [step].
  - destruct (dst_accept_stopped s); [done|]. intros [= <-]. by destruct (_ || _).
  - destruct (dst_pending s) as [|channel pending]; [done|]. destruct (_ <? _)%nat; [|done]. by intros [= <-].
  - destruct (phase_of channel (dst_processing s)) as [[]|] eqn:Hp; try done.
    destruct (let_in_without _ _ _ Hp) as [Hn _]. unfold begin_request. rewrite bool_decide_false by done.
    intros [= <-]. split; [done|]. unfold requests_under_way. cbn -[filter].
    rewrite filter_cons_False by done. apply Nat.eq_le_incl. symmetry. exact Hn.
  - destruct (phase_of channel (dst_processing s)) as [phase|] eqn:Hp; [|done].
    destruct (can_end phase connection); [|done]. intros [= <-].
    destruct (let_in_without _ _ _ Hp) as [Hn _]. unfold let_in_count in Hn.
    assert (forall c, dlc_state (finish_request c) = dlc_state c) as Hf
      by (intros c; unfold finish_request; by destruct (_ =? 0)).
    unfold end_connection. destruct (_ || negb closed); simpl; unfold requests_under_way; simpl;
      (split; [destruct (bool_decide (phase = Let_in)); by rewrite ?Hf|lia]).
  - intros [= <-]. unfold stop_begins. destruct (shutdown_begin _) as [c result] eqn:E. split; [|done]. simpl.
    unfold shutdown_begin in E. revert E. case_bool_decide; [intros [= <- _]; congruence|].
    case_bool_decide; destruct (_ =? 0); intros [= <- _]; done.
  - destruct (dst_waiting s); [|done]. by intros [= <-].
  - destruct (_ && _ && _); [|done]. intros [= <-]. split; [done|]. unfold requests_under_way. simpl. lia.
  - destruct (_ && _ && _); [|done]. intros [= <-]. split; [|done]. unfold mark_failed. simpl. by destruct (_ || _).
Qed.

Lemma not_ready_steps gateway ops : forall s s',
  dlc_state (dst_lifecycle s) <> DaemonLifecycleState.Ready -> steps gateway s ops = Some s' ->
  (requests_under_way s' <= requests_under_way s)%nat.
Proof.
  induction ops as [|op ops IH]; intros s s' Hs; cbn [steps]; [by intros [= <-]|].
  destruct (step gateway s op) as [s1|] eqn:E; [|done]. intros H.
  destruct (not_ready_step _ _ _ _ Hs E) as [Hs1 Hle]. pose proof (IH _ _ Hs1 H). lia.
Qed.

Lemma stop_begins_not_ready s :
  dlc_state (dst_lifecycle (fst (stop_begins s))) <> DaemonLifecycleState.Ready /\
  requests_under_way (fst (stop_begins s)) = requests_under_way s.
Proof.
  unfold stop_begins, shutdown_begin. case_bool_decide as E; [simpl; by rewrite E|].
  case_bool_decide as E2; destruct (_ =? 0); simpl; by rewrite ?E2.
Qed.

(** C27. Shutting the daemon down waits for every request it let in and lets no other in. At any
    point of any interleaving of its threads: a shutdown that is begun now is done at once
    exactly when no request is under way (or the daemon had stopped already); one that ends now is drained when none is, and
    otherwise reports how many it gives up; and however the threads go on after a shutdown has
    begun, there are never more requests under way than there were. *)
Theorem shutdown_counts_requests gateway ready bound workers c s ops s' :
  startup ready bound workers c = (s, true) -> dlc_inflight_requests c = 0 -> Z.of_nat workers < 2 ^ 32 ->
  steps gateway s ops = Some s' ->
  (snd (stop_begins s') = Some drained_result <->
   requests_under_way s' = 0%nat \/ dlc_state (dst_lifecycle s') = DaemonLifecycleState.Stopped) /\
  snd (shutdown_end (dst_lifecycle s')) =
    (if (requests_under_way s' =? 0)%nat then drained_result
     else {| dsr_drained := false; dsr_timed_out := true;
             dsr_abandoned_requests := Z.of_nat (requests_under_way s') |}) /\
  (forall later s'', steps gateway s' (Stop_begins :: later) = Some s'' ->
     (requests_under_way s'' <= requests_under_way s')%nat).
Proof.
  intros Hstart H0 Hmax Hrun.
  destruct (counted_steps _ _ _ _ _ Hmax (startup_counted _ _ _ _ _ Hstart H0) Hrun) as [Hc _].
  split_and!.
  - unfold stop_begins, shutdown_begin. case_bool_decide as E; [simpl; tauto|].
    assert (forall c : DaemonLifecycleController,
      dlc_inflight_requests (if bool_decide (dlc_state (dst_lifecycle s') = DaemonLifecycleState.Failed)
        then dst_lifecycle s' else with_state DaemonLifecycleState.Draining (dst_lifecycle s'))
      = dlc_inflight_requests (dst_lifecycle s')) as -> by (intros _; by case_bool_decide); [|exact c].
    rewrite Hc. destruct (Z.eqb_spec (Z.of_nat (requests_under_way s')) 0) as [Hz|Hz]; simpl.
    + split; [intros _; left; lia|done].
    + split; [done|intros [?|?]; [lia|done]].
  - unfold shutdown_end. simpl. rewrite Hc.
    destruct (Z.eqb_spec (Z.of_nat (requests_under_way s')) 0), (Nat.eqb_spec (requests_under_way s') 0);
      try done; lia.
  - intros later s''. cbn [steps step]. destruct (stop_begins_not_ready s') as [Hnr <-].
    by apply not_ready_steps.
Qed.

(** *** Fatal connections *)

Definition out_of_service (s : DaemonState) : Prop :=
  dst_failed s = true /\ dst_accept_stopped s = true /\ dst_stop_requested s = true.

Lemma out_of_service_step gateway s op s' :
  out_of_service s -> step gateway s op = Some s' ->
  out_of_service s' /\ Forall (fun channel => channel ∈ dst_pending s) (dst_pending s').
Proof.
  intros (Hf & Ha & Hr). assert (forall l : list nat, Forall (fun channel => channel ∈ l) l) as Hall
    by (intros l; by apply Forall_forall).
  unfold out_of_service.
  destruct op as [channel| |channel|channel connection closed| | | |]; cbn [step].
  - by rewrite Ha.
  - destruct (dst_pending s) as [|channel pending]; [done|]. destruct (_ <? _)%nat; [|done]. intros [= <-].
    simpl. split; [done|]. apply Forall_forall. intros x Hx. by right.
  - destruct (phase_of channel (dst_processing s)) as [[]|]; try done.
    destruct (begin_request (dst_lifecycle s)) as [c begun]. intros [= <-]. simpl. auto.
  - destruct (phase_of channel (dst_processing s)) as [phase|]; [|done].
    destruct (can_end phase connection); [|done]. intros [= <-]. unfold end_connection.
    destruct (_ || negb closed); simpl; rewrite ?Hf; auto.
  - intros [= <-]. unfold stop_begins. destruct (shutdown_begin _). simpl. auto.
  - destruct (dst_waiting s); [|done]. intros [= <-]. simpl. auto.
  - destruct (_ && _ && _); [|done]. intros [= <-]. simpl. rewrite Hf. auto.
  - destruct (_ && _ && _); [|done]. intros [= <-]. simpl. auto.
Qed.

Lemma out_of_service_steps gateway ops : forall s s',
  out_of_service s -> steps gateway s ops = Some s' ->
  out_of_service s' /\ Forall (fun channel => channel ∈ dst_pending s) (dst_pending s').
Proof.
  induction ops as [|op ops IH]; intros s s' Hs; cbn [steps].
  - intros [= <-]. split; [done|]. by apply Forall_forall.
  - destruct (step gateway s op) as [s1|] eqn:E; [|done]. intros H.
    destruct (out_of_service_step _ _ _ _ Hs E) as [Hs1 H1]. destruct (IH _ _ Hs1 H) as [Hs' H2].
    split; [done|]. rewrite Forall_forall in *. auto.
Qed.

Lemma fatal_connection gateway s phase channel connection closed :
  snd (handle_connection gateway (bool_decide (phase = Let_in)) connection) = FatalError ->
  out_of_service (end_connection gateway phase channel connection closed s) /\
  dst_pending (end_connection gateway phase channel connection closed s) = dst_pending s.
Proof.
  intros H. unfold end_connection, out_of_service. rewrite H. simpl. by rewrite orb_true_r.
Qed.

(** C38. One frame that does not decode ends the service of the daemon. Once a connection that was
    let in has sent a text that is no request frame (nor one of the terminal interface), the
    daemon has failed: however its threads go on, it takes no connection any more, and what it
    still serves was in its queue before. *)
Theorem unreadable_frame_ends_service gateway s channel connection closed text ops s2 :
  con_received connection = Payload text -> text <> "" -> con_tui connection = None ->
  decode_packet text = None ->
  phase_of channel (dst_processing s) = Some Let_in ->
  steps gateway s (Handled channel connection closed :: ops) = Some s2 ->
  out_of_service s2 /\ (forall other, step gateway s2 (Accepted other) = None) /\
  (forall waiting, In waiting (dst_pending s2) -> In waiting (dst_pending s)).
Proof.
  intros Hr Hne Ht Hd Hp Hrun. cbn [steps step] in Hrun. rewrite Hp in Hrun.
  destruct (can_end Let_in connection) eqn:Hcan; [|done].
  assert (snd (handle_connection gateway (bool_decide (Let_in = Let_in)) connection) = FatalError) as Hfatal.
  { unfold handle_connection, submitted_packet. destruct (con_handle_valid connection); [|done].
    rewrite bool_decide_true, Hr, Ht, Hd by done. cbn [negb].
    destruct (is_empty text) eqn:E; [|done]. by apply is_empty_true in E. }
  destruct (fatal_connection gateway s Let_in channel connection closed Hfatal) as [Hout Hpend].
  destruct (out_of_service_steps _ _ _ _ Hout Hrun) as [Hs2 Hin]. split; [done|].
  rewrite Hpend, Forall_forall in Hin. split.
  - intros other. cbn [step]. destruct Hs2 as (_ & -> & _). done.
  - intros waiting. rewrite <-!list_elem_of_In. apply Hin.
Qed.

(** ** What a client gets to know *)

Definition with_token (token : string) (envelope : PublishEnvelope) : PublishEnvelope :=
  {| pe_request_id := pe_request_id envelope; pe_result_id := pe_result_id envelope;
     pe_session_id := pe_session_id envelope; pe_trace_id := pe_trace_id envelope;
     pe_channel_ref := pe_channel_ref envelope; pe_protocol_kind := pe_protocol_kind envelope;
     pe_agent_result := pe_agent_result envelope;
     pe_protocol_status_hint := pe_protocol_status_hint envelope;
     pe_protocol_metadata := pe_protocol_metadata envelope; pe_is_final := pe_is_final envelope;
     pe_payload := pe_payload envelope;
     pe_receipt :=
       (fun receipt =>
          {| atr_receipt_id := atr_receipt_id receipt; atr_request_id := atr_request_id receipt;
             atr_session_id := atr_session_id receipt; atr_actor_ref := atr_actor_ref receipt;
             atr_task_ref := atr_task_ref receipt; atr_expires_at := atr_expires_at receipt;
             atr_ownership_token := token; atr_initial_status := atr_initial_status receipt |})
        <$> pe_receipt envelope |}.

(** The token that status and cancel ask for is not sent: the answer is the same text whatever
    the receipt's token. *)
Lemma token_not_sent token envelope : response_text (with_token token envelope) = response_text envelope.
Proof. unfold response_text, build_response_frame, receipt_of. by destruct envelope as [??????????? []]. Qed.

(** ** Examples *)

Definition refusing_gateway (packet : InboundPacket) : RuntimeDispatchResult :=
  rejected_dispatch "policy_query_no_match" ∅.

Definition unknown_peer : LocalPeerUidFact :=
  {| lp_actor_ref := "actor://daemon/local"; lp_peer_uid := 0; lp_peer_gid := 0; lp_peer_pid := 0;
     lp_is_local_socket_peer := false; lp_eligible_for_local_trusted := false |}.

Definition connection_of (text : string) : Connection :=
  {| con_handle_valid := true; con_received := Payload text; con_peer := unknown_peer;
     con_tui := None; con_sent := true |}.

Definition fresh_controller : DaemonLifecycleController :=
  {| dlc_state := DaemonLifecycleState.Stopped; dlc_inflight_requests := 0 |}.

Definition serving : DaemonState := fst (startup true true 2 fresh_controller).

Definition two_requests : list daemon_step := [Accepted 1; Accepted 2; Taken; Taken; Begun 2; Begun 1].

Definition busy : DaemonState := default serving (steps refusing_gateway serving two_requests).

(** A connection whose client sends nothing until the deadline ends the service too. *)
Example silent_client_ends_service :
  let silent := {| con_handle_valid := true; con_received := Receive_failed; con_peer := unknown_peer;
                   con_tui := None; con_sent := true |} in
  dst_failed <$> step refusing_gateway busy (Handled 1 silent true) = Some true.
Proof. reflexivity. Qed.

Lemma shutdown_counts_requests_witness :
  snd (shutdown_end (dst_lifecycle busy)) =
    {| dsr_drained := false; dsr_timed_out := true; dsr_abandoned_requests := 2 |}.
Proof.
  apply (shutdown_counts_requests refusing_gateway true true 2 fresh_controller serving two_requests busy);
    reflexivity.
Defined.

Definition after_bad_frame : DaemonState :=
  default serving (steps refusing_gateway busy [Handled 1 (connection_of "{}") true]).

Lemma unreadable_frame_ends_service_witness : out_of_service after_bad_frame.
Proof.
  assert (decode_packet "{}" = None) as Hd by (vm_compute; reflexivity).
  assert (steps refusing_gateway busy [Handled 1 (connection_of "{}") true] = Some after_bad_frame) as Hrun
    by (vm_compute; reflexivity).
  exact (proj1 (unreadable_frame_ends_service refusing_gateway busy 1 (connection_of "{}") true "{}" []
    after_bad_frame eq_refl ltac:(discriminate) eq_refl Hd eq_refl Hrun)).
Defined.
