(* ===== verification/CliClient.v ===== *)
(** * The command line client

    apps/cli/src: the frame a command becomes (CliRequestBuilder.h), the exchange with the daemon
    (CliIpcClient.cpp), the exit code (CliExitDecision.cpp, CliAccessErrorProjection.h); and the
    exchange as a whole, from the command through the daemon's connection back to the client. *)

From S2P Require Import Prelude Text AgentContracts AccessTypes Identity RuntimeBridge SubmitPipeline GatewayLifecycle DaemonPayloads DaemonCommands FrameJson FrameCodec DaemonConnection.

(** ** The frame of a command *)

Definition make_trace_id (command : CliCommand) (request_id : string) : string :=
  match filled (cc_trace_id command) with
  | Some trace_id => trace_id
  | None => request_id +:+ "-trace"
  end.

(** The arguments of a status or cancel frame. *)
Definition status_like_args (command : CliCommand) : gmap string string :=
  if bool_decide (cc_selector_kind command = CliSelectorKind.RequestId)
  then {["request_id" := or_text (cc_selector_value command)]}
  else
    insert_if "actor_ref" (filled (cc_actor_ref command))
      (<["ownership_token" := or_text (cc_ownership_token command)]>
         {["receipt_ref" := default (or_text (cc_receipt_ref command)) (cc_selector_value command)]}).

(** The arguments of a knowledge frame. *)
Definition knowledge_args (command : CliCommand) : gmap string string :=
  let args := {["operation" := knowledge_operation_name (cc_knowledge_command command)]} in
  match cc_knowledge_command command with
  | CliKnowledgeCommandKind.Retrieve =>
      insert_if "required_language" (cc_knowledge_required_language command)
        (insert_if "query_kind" (cc_knowledge_query_kind command)
           (insert_if "preferred_mode" (cc_knowledge_preferred_mode command)
              (insert_if "query_text" (cc_knowledge_query_text command) args)))
  | _ => args
  end.

Definition frame_command (command : CliCommand) : string :=
  if bool_decide (cc_name command = "submit") then "run" else cc_name command.

(** The frame, but for its payload, arguments and key. *)
Definition base_frame (command : CliCommand) (payload : string) (args : gmap string string)
    (idempotency_key : option string) : UdsRequestFrame :=
  let request_id := make_request_id command in
  {| urq_schema_version := kDaemonProtocolSchemaVersion; urq_request_id := request_id;
     urq_trace_id := make_trace_id command request_id; urq_session_hint := cc_session_hint command;
     urq_idempotency_key := idempotency_key; urq_command := frame_command command;
     urq_args := args; urq_payload := payload;
     urq_async_preference :=
       if cc_async command then DaemonAsyncPreference.PreferAsync else DaemonAsyncPreference.PreferSync;
     urq_output_mode := if cc_json_output command then DaemonOutputMode.Json else DaemonOutputMode.Human;
     urq_deadline_ms := cc_timeout_ms command |}.

(** [CliRequestBuilder::build] *)
Definition build (command : CliCommand) : option UdsRequestFrame :=
  let named name := bool_decide (frame_command command = name) in
  if is_empty (cc_name command) || bool_decide (cc_name command = "help")
     || bool_decide (cc_name command = "version")
  then None else
  if named "ping" || named "readiness" then Some (base_frame command "" ∅ None) else
  if named "run"
  then (fun payload => base_frame command payload ∅ (Some (make_request_id command))) <$> cc_payload command else
  if named "status" || named "cancel"
  then (fun payload => base_frame command payload (status_like_args command) None)
         <$> build_status_like_frame command else
  if named "diag" then (fun payload => base_frame command payload ∅ None) <$> build_diag_payload command else
  if named "knowledge"
  then (fun payload => base_frame command payload (knowledge_args command) None)
         <$> build_knowledge_frame command else
  None.

(** ** The exchange *)

Record DaemonClientResponse := {
  dcr_transport_ok : bool;
  dcr_parse_ok : bool;
  dcr_peer_closed : bool;
  dcr_failure_reason : string;
  dcr_raw_response : string;
  dcr_request_id : string;
  dcr_trace_id : string;
  dcr_disposition : UdsResponseDisposition;
  dcr_session_id : option string;
  dcr_exit_code_hint : option Z;
  dcr_receipt_ref : option string;
  dcr_error_ref : option string;
  dcr_response_text : option string;
  dcr_task_completed : option bool;
}.

(** A response with nothing of a frame. *)
Definition no_frame (transport_ok peer_closed : bool) (raw_response failure_reason : string)
    : DaemonClientResponse :=
  {| dcr_transport_ok := transport_ok; dcr_parse_ok := false; dcr_peer_closed := peer_closed;
     dcr_failure_reason := failure_reason; dcr_raw_response := raw_response; dcr_request_id := "";
     dcr_trace_id := ""; dcr_disposition := UdsResponseDisposition.Rejected; dcr_session_id := None;
     dcr_exit_code_hint := None; dcr_receipt_ref := None; dcr_error_ref := None;
     dcr_response_text := None; dcr_task_completed := None |}.

Definition populate_response_fields (raw_response : string) (frame : UdsResponseFrame)
    : DaemonClientResponse :=
  {| dcr_transport_ok := true; dcr_parse_ok := true; dcr_peer_closed := false;
     dcr_failure_reason := ""; dcr_raw_response := raw_response;
     dcr_request_id := urs_request_id frame; dcr_trace_id := urs_trace_id frame;
     dcr_disposition := urs_disposition frame; dcr_session_id := urs_session_id frame;
     dcr_exit_code_hint := urs_exit_code_hint frame; dcr_receipt_ref := urs_receipt_ref frame;
     dcr_error_ref := urs_error_ref frame;
     dcr_response_text :=
       match urs_agent_result frame with Some result => ag_response_text result | None => None end;
     dcr_task_completed :=
       match urs_agent_result frame with Some result => ag_task_completed result | None => None end |}.

(** What comes back: an error of the platform, or a payload; the end of the channel is one with
    [peer_closed] set. *)
Inductive Answer := Transport_failed (detail : option string) (stage : string) | Received_data (data : string) (peer_closed : bool).

(** [send_request], once its configuration is valid; [answer] is what connecting, sending and
    receiving come to. *)
Definition send_request (answer : Answer) : DaemonClientResponse :=
  match answer with
  | Transport_failed detail stage => no_frame false false "" (default stage detail)
  | Received_data data peer_closed =>
      if peer_closed
      then no_frame true true data "daemon closed channel before returning a response" else
      if is_empty data then no_frame true false data "daemon returned an empty response frame" else
      match decode_response_frame data 1048576 with
      | inl _ => no_frame true false data "daemon returned an invalid response frame"
      | inr frame => populate_response_fields data frame
      end
  end.

(** [invoke] *)
Definition invoke (command : CliCommand) (daemon : string -> Answer) : DaemonClientResponse :=
  match build command with
  | None => no_frame false false "" "invalid cli daemon request"
  | Some frame => send_request (daemon (encode_request_frame frame))
  end.

(** platform/include/IIPC.h: what a channel takes where nothing else is configured, on the
    side of the client always, as it has no listener. *)
Definition kIpcMaxPayloadBytes : Z := 1048576.

(** [UnixIpcProvider::send]: a payload over the limit is refused before the first byte. The socket
    below takes what it is given here; a system whose buffer for one message is smaller than the
    limit would refuse more. *)
Definition ipc_send (payload : string) : bool :=
  negb (kIpcMaxPayloadBytes <? Z.of_nat (String.length payload)).

(** A daemon that is ready, answers in time, keeps the default limit of its channels, and
    whose sockets work: the connection is closed after the answer, or without one. *)
Definition daemon_answers (gateway : InboundPacket -> RuntimeDispatchResult) (peer : LocalPeerUidFact)
    (request : string) : Answer :=
  if negb (ipc_send request)
  then Transport_failed (Some "ipc payload exceeds max payload budget") "daemon send failed" else
  let connection sent :=
    {| con_handle_valid := true; con_received := Payload request; con_peer := peer; con_tui := None;
       con_sent := sent |} in
  match fst (handle_connection gateway true (connection true)) with
  | Some text => if ipc_send text then Received_data text false else Received_data "" true
  | None => Received_data "" true
  end.

(** ** Exit codes *)












(** ** The exchange as a whole *)

Lemma build_shape command frame :
  build command = Some frame ->
  urq_schema_version frame = kDaemonProtocolSchemaVersion /\ urq_deadline_ms frame = cc_timeout_ms command /\
  is_empty (urq_command frame) = false /\
  is_known_daemon_command (classify_daemon_command (urq_command frame)) = true.
Proof.
  assert (forall payload args key, base_frame command payload args key = frame ->
    In (frame_command command) ["ping"; "readiness"; "run"; "status"; "cancel"; "diag"; "knowledge"] ->
    urq_schema_version frame = kDaemonProtocolSchemaVersion /\ urq_deadline_ms frame = cc_timeout_ms command /\
    is_empty (urq_command frame) = false /\
    is_known_daemon_command (classify_daemon_command (urq_command frame)) = true) as Hshape.
  { intros payload args key <- Hin. cbn [base_frame urq_schema_version urq_deadline_ms urq_command].
    split; [done|]. split; [done|]. simpl in Hin.
    repeat (destruct Hin as [<-|Hin]; [by split|]). done. }
  unfold build. destruct (_ || _); [done|].
  destruct (_ || _) eqn:E1.
  { intros [= H]. eapply Hshape; [exact H|].
    apply orb_true_iff in E1 as [E|E]; apply bool_decide_eq_true in E; rewrite E; simpl; tauto. }
  clear E1. case_bool_decide as E2.
  { intros (payload & _ & H)%fmap_Some. eapply Hshape; [symmetry; exact H|]. rewrite E2. simpl. tauto. }
  destruct (_ || _) eqn:E3.
  { intros (payload & _ & H)%fmap_Some. eapply Hshape; [symmetry; exact H|].
    apply orb_true_iff in E3 as [E|E]; apply bool_decide_eq_true in E; rewrite E; simpl; tauto. }
  clear E3. case_bool_decide as E4.
  { intros (payload & _ & H)%fmap_Some. eapply Hshape; [symmetry; exact H|]. rewrite E4. simpl. tauto. }
  case_bool_decide as E5; [|done].
  intros (payload & _ & H)%fmap_Some. eapply Hshape; [symmetry; exact H|]. rewrite E5. simpl. tauto.
Qed.

(** A written frame that gets through: it is not too long, and its texts are UTF-8. *)
Definition fits (text : string) : bool := Z.of_nat (String.length text) <=? kMaxDaemonFramePayloadBytes.

Definition request_passes (frame : UdsRequestFrame) : bool :=
  fits (encode_request_frame frame) && forallb is_valid_utf8 (request_texts frame).

Definition response_passes (frame : UdsResponseFrame) : bool :=
  fits (encode_response_frame frame) && forallb is_valid_utf8 (response_texts frame).

Lemma ipc_send_fits text : ipc_send text = fits text.
Proof. unfold ipc_send, fits, kIpcMaxPayloadBytes, kMaxDaemonFramePayloadBytes. by rewrite Z.leb_antisym. Qed.

(** The packet the gateway is asked for a frame. *)
Definition asked_packet (peer : LocalPeerUidFact) (frame : UdsRequestFrame) : InboundPacket :=
  let packet := packet_of_frame frame in
  with_peer_ref (resolve_daemon_peer_ref peer (ip_peer_ref packet)) packet.

Lemma sent_request_decoded command frame :
  build command = Some frame -> deadline_ok (cc_timeout_ms command) ->
  decode_packet (encode_request_frame frame) =
    if request_passes frame then Some (packet_of_frame frame) else None.
Proof.
  intros (Es & Ed & Ee & Ek)%build_shape Hd. unfold decode_packet.
  rewrite request_frame_received by by rewrite Ed. unfold received_request, request_passes, fits.
  rewrite Es, Ee, Ek. rewrite Z.leb_antisym.
  destruct (_ <? _); [done|]. by destruct (forallb _ _).
Qed.

Lemma encoded_not_empty frame : is_empty (encode_request_frame frame) = false.
Proof. reflexivity. Qed.

(** What the client makes of an answer that is written. *)
Lemma answer_received reply :
  deadline_ok (urs_exit_code_hint reply) -> urs_schema_version reply = kDaemonProtocolSchemaVersion ->
  send_request (Received_data (encode_response_frame reply) false) =
  if response_passes reply
  then populate_response_fields (encode_response_frame reply) (carried_response reply)
  else no_frame true false (encode_response_frame reply) "daemon returned an invalid response frame".
Proof.
  intros Hd Hs. unfold send_request.
  assert (is_empty (encode_response_frame reply) = false) as -> by reflexivity.
  rewrite response_frame_received, Hs by done. unfold response_passes, fits, kMaxDaemonFramePayloadBytes.
  rewrite Z.leb_antisym. destruct (_ <? _); [done|]. by destruct (forallb _ _).
Qed.

(** What the client has of a channel that was closed, and of one that took no request. *)
Definition closed_channel : DaemonClientResponse :=
  no_frame true true "" "daemon closed channel before returning a response".

Definition unsent_request : DaemonClientResponse :=
  no_frame false false "" "ipc payload exceeds max payload budget".

(** What the client has of a command that is written. *)
Lemma daemon_answered command frame gateway peer :
  build command = Some frame -> deadline_ok (cc_timeout_ms command) ->
  let reply := response_text (reply_of (gateway (asked_packet peer frame))) in
  invoke command (daemon_answers gateway peer) =
  if negb (fits (encode_request_frame frame)) then unsent_request else
  if negb (forallb is_valid_utf8 (request_texts frame)) then closed_channel else
  if negb (fits reply) then closed_channel else
  send_request (Received_data reply false).
Proof.
  intros Eb Hd. cbv zeta. unfold invoke. rewrite Eb. unfold daemon_answers. rewrite ipc_send_fits.
  destruct (fits (encode_request_frame frame)) eqn:Ef; [|done]. cbn [negb].
  unfold handle_connection, submitted_packet.
  cbn [con_handle_valid con_received con_tui con_peer con_sent negb].
  rewrite encoded_not_empty, (sent_request_decoded command) by done. unfold request_passes.
  rewrite Ef. cbn [andb]. destruct (forallb is_valid_utf8 (request_texts frame)); [|done].
  cbn [negb fst]. rewrite ipc_send_fits. by destruct (fits (response_text _)).
Qed.

(** C3. A command of the client goes to the daemon and comes back, whatever the gateway answers. The
    gateway is asked exactly the packet of the command's frame, with the peer the socket names --
    the command's name or request id, its payload, trace, session hint, deadline and
    preference intact -- and the client gets exactly the response frame of the gateway's
    answer (of an agent's result, what frames carry). A request of more than 1 MiB is not sent,
    and one that is not UTF-8 ends as a channel closed without an answer; so does one whose answer
    is longer than 1 MiB, and an answer that is not UTF-8 ends as an invalid frame; a command
    without a frame is not sent. The daemon's channels have their default limit, and the sockets
    take what they are given. *)
Theorem invoke_exact command gateway peer :
  deadline_ok (cc_timeout_ms command) ->
  invoke command (daemon_answers gateway peer) =
  match build command with
  | None => no_frame false false "" "invalid cli daemon request"
  | Some frame =>
      if negb (fits (encode_request_frame frame)) then unsent_request else
      if negb (forallb is_valid_utf8 (request_texts frame)) then closed_channel else
      let reply := build_response_frame (reply_of (gateway (asked_packet peer frame))) in
      if negb (fits (encode_response_frame reply)) then closed_channel else
      if forallb is_valid_utf8 (response_texts reply)
      then populate_response_fields (encode_response_frame reply) (carried_response reply)
      else no_frame true false (encode_response_frame reply) "daemon returned an invalid response frame"
  end.
Proof.
  intros Hd. destruct (build command) as [frame|] eqn:Eb; [|unfold invoke; by rewrite Eb].
  rewrite (daemon_answered command frame) by done.
  destruct (fits (encode_request_frame frame)); [|done].
  destruct (forallb is_valid_utf8 (request_texts frame)); [|done]. cbn [negb]. unfold response_text.
  destruct (fits (encode_response_frame _)) eqn:Ef; [|done]. cbn [negb].
  rewrite answer_received by done. unfold response_passes. by rewrite Ef.
Qed.









(** ** Examples *)

Definition run_of (payload : string) : CliCommand :=
  {| cc_name := "run"; cc_payload := Some payload; cc_receipt_ref := None;
     cc_selector_kind := CliSelectorKind.None; cc_selector_value := None;
     cc_ownership_token := None; cc_request_id := Some "req-7"; cc_actor_ref := None;
     cc_diag_command := None; cc_knowledge_command := CliKnowledgeCommandKind.None;
     cc_knowledge_query_text := None; cc_knowledge_preferred_mode := None;
     cc_knowledge_query_kind := None; cc_knowledge_allowed_corpora := [];
     cc_knowledge_domain_tags := []; cc_knowledge_required_tags := [];
     cc_knowledge_required_language := None; cc_knowledge_refresh_changed_sources := [];
     cc_session_hint := None; cc_trace_id := None; cc_timeout_ms := Some 5000; cc_async := false;
     cc_json_output := true |}.

Definition echoing_gateway (packet : InboundPacket) : RuntimeDispatchResult :=
  completed_reply (reply_envelope (ip_packet_id packet) "result-1" "ipc_uds" "200" ""
    (Some (response_result (ip_packet_id packet) (ip_payload packet +:+ ip_peer_ref packet) true))).

Definition local_peer : LocalPeerUidFact :=
  {| lp_actor_ref := "actor://daemon/local"; lp_peer_uid := 1000; lp_peer_gid := 1000; lp_peer_pid := 7;
     lp_is_local_socket_peer := true; lp_eligible_for_local_trusted := true |}.

Definition echoed : DaemonClientResponse :=
  invoke (run_of "say hi") (daemon_answers echoing_gateway local_peer).

(** The task arrives, and what is said of it comes back. *)
Example echo_comes_back :
  (dcr_response_text echoed, dcr_request_id echoed, dcr_task_completed echoed) =
  (Some "say hilocal_trusted:1000", "req-7", Some true).
Proof. vm_compute. reflexivity. Qed.

Lemma invoke_exact_witness :
  dcr_parse_ok (invoke (run_of "hi") (daemon_answers echoing_gateway local_peer)) = true.
Proof. rewrite invoke_exact by (vm_compute; split; discriminate || reflexivity). vm_compute. reflexivity. Defined.


