(* ===== verification/MultiAgentContracts.v ===== *)
(** * Multi-agent contracts

    contracts/include/agent/{MultiAgentRequest,MultiAgentResult}.h with their guards,
    contracts/include/boundary/MultiAgentBoundaryGuards.h, and the graph of subtasks of
    contracts/include/task/{TaskDomainContracts,TaskDomainGuards}.h. [request_guard_spec],
    [result_guard_spec] and [graph_guard_spec] say what the guards admit. *)

From S2P Require Import Prelude CheckpointContracts RecoveryContracts Text ToolValidation.

(** ** Data *)

Module CollaborationMode.
Inductive CollaborationMode := Unspecified | Sequential | Concurrent | Handoff | Other (n : Z).
#[global] Instance CollaborationMode_eq_dec : EqDecision CollaborationMode.
Proof. solve_decision. Defined.
End CollaborationMode.
Abbreviation CollaborationMode := CollaborationMode.CollaborationMode.

(** [static_cast<int>(mode)] *)
Definition collaboration_mode_value (mode : CollaborationMode) : Z :=
  match mode with
  | CollaborationMode.Unspecified => 0
  | CollaborationMode.Sequential => 1
  | CollaborationMode.Concurrent => 2
  | CollaborationMode.Handoff => 3
  | CollaborationMode.Other n => unnamed_value 4 n
  end.

Record MultiAgentRequest := {
  mrq_parent_request_id : option string;
  mrq_parent_task_id : option string;
  mrq_goal_fragment : option string;
  mrq_plan_fragment : option string;
  mrq_collaboration_mode : option CollaborationMode;
  mrq_worker_budget_guard : option RuntimeBudget;
  mrq_permission_guard : option string;
  mrq_stop_conditions : option (list string);
}.

Record MultiAgentResult := {
  mrs_subtask_results : option (list string);
  mrs_merged_result : option string;
  mrs_recommended_next_action : option string;
  mrs_conflicts : option (list string);
  mrs_worker_trace_refs : option (list string);
  mrs_failure_summary : option string;
}.

Record SubTaskGraph := {
  stg_graph_id : option string;
  stg_root_task_id : option string;
  stg_task_ids : option (list string);
  stg_graph_revision : option Z;
}.

(** ** Strings

    The three headers define the same loops under names of their own; the test for
    visible content is the one of the recovery outcome's guard. *)

Definition has_visible (value : string) : bool :=
  recovery_outcome_string_has_non_whitespace_content value.

Definition multi_agent_request_optional_string_has_non_whitespace_content
    (value : option string) : bool :=
  match value with Some value => has_visible value | None => true end.

Definition trimmed_view (value : string) : string := trim_end (skip_spaces value).

(** ** Request guards *)

Definition validate_multi_agent_request_required_fields (request : MultiAgentRequest)
    : GuardResult :=
  if negb (has_non_empty_value (mrq_parent_request_id request))
  then guard_fail "parent_request_id is required and must be non-empty" else
  if negb (has_non_empty_value (mrq_parent_task_id request))
  then guard_fail "parent_task_id is required and must be non-empty" else
  if negb (has_non_empty_value (mrq_goal_fragment request))
  then guard_fail "goal_fragment is required and must be non-empty" else
  if negb (has_non_empty_value (mrq_plan_fragment request))
  then guard_fail "plan_fragment is required and must be non-empty" else
  if match mrq_collaboration_mode request with
     | Some mode => bool_decide (mode = CollaborationMode.Unspecified)
     | None => true
     end
  then guard_fail "collaboration_mode is required and must not be Unspecified" else
  guard_pass "all required multi-agent request fields present".

Definition validate_multi_agent_request_boundary (request : MultiAgentRequest)
    : option GuardResult :=
  let required_result := validate_multi_agent_request_required_fields request in
  if negb (gr_ok required_result) then Some required_result else
  let? mode := mrq_collaboration_mode request else None in
  let raw_mode := collaboration_mode_value mode in
  if (raw_mode <? collaboration_mode_value CollaborationMode.Unspecified)
     || (collaboration_mode_value CollaborationMode.Handoff <? raw_mode)
  then Some (guard_fail "collaboration_mode value is outside the known enum range") else
  if bool_decide (mrq_parent_request_id request = mrq_parent_task_id request)
  then Some (guard_fail ("parent_request_id must not equal parent_task_id because request " +:+
                         "and task anchors are layered separately")) else
  Some (guard_pass "multi-agent request boundary validation passed").

Definition validate_stop_conditions (stop_conditions : option (list string)) : GuardResult :=
  let? stop_conditions := stop_conditions else guard_pass "" in
  if bool_decide (stop_conditions = [])
  then guard_fail "stop_conditions must contain at least one item when present" else
  if existsb (fun stop_condition => negb (has_visible stop_condition)) stop_conditions
  then guard_fail "stop_conditions must not contain empty or whitespace-only items" else
  if has_duplicates stop_conditions
  then guard_fail "stop_conditions must not contain duplicate items" else
  guard_pass "".

Definition validate_handoff (request : MultiAgentRequest) (mode : CollaborationMode)
    : GuardResult :=
  if bool_decide (mode = CollaborationMode.Handoff) then
    if bool_decide (mrq_permission_guard request = None)
    then guard_fail "permission_guard is required when collaboration_mode is Handoff" else
    if bool_decide (mrq_stop_conditions request = None)
    then guard_fail "stop_conditions are required when collaboration_mode is Handoff" else
    guard_pass "multi-agent request field rules validation passed"
  else guard_pass "multi-agent request field rules validation passed".

Definition validate_multi_agent_request_field_rules (request : MultiAgentRequest)
    : option GuardResult :=
  let? boundary_result := validate_multi_agent_request_boundary request else None in
  if negb (gr_ok boundary_result) then Some boundary_result else
  let? parent_request_id := mrq_parent_request_id request else None in
  if negb (has_visible parent_request_id)
  then Some (guard_fail "parent_request_id must contain at least one non-whitespace character") else
  let? parent_task_id := mrq_parent_task_id request else None in
  if negb (has_visible parent_task_id)
  then Some (guard_fail "parent_task_id must contain at least one non-whitespace character") else
  let? goal_fragment := mrq_goal_fragment request else None in
  if negb (has_visible goal_fragment)
  then Some (guard_fail "goal_fragment must contain at least one non-whitespace character") else
  let? plan_fragment := mrq_plan_fragment request else None in
  if negb (has_visible plan_fragment)
  then Some (guard_fail "plan_fragment must contain at least one non-whitespace character") else
  if bool_decide (trimmed_view goal_fragment = trimmed_view plan_fragment)
  then Some (guard_fail ("goal_fragment and plan_fragment must remain distinct after " +:+
                         "trimming whitespace")) else
  if match mrq_worker_budget_guard request with
     | Some budget => negb (gr_ok (validate_runtime_budget budget))
     | None => false
     end
  then Some (guard_fail "worker_budget_guard must pass nested RuntimeBudget validation") else
  if negb (multi_agent_request_optional_string_has_non_whitespace_content
             (mrq_permission_guard request))
  then Some (guard_fail ("permission_guard must contain at least one non-whitespace " +:+
                         "character when present")) else
  let stop_result := validate_stop_conditions (mrq_stop_conditions request) in
  if negb (gr_ok stop_result) then Some stop_result else
  let? mode := mrq_collaboration_mode request else None in
  Some (validate_handoff request mode).

(** ** Result guards *)

Definition validate_multi_agent_result_required_fields (result : MultiAgentResult)
    : GuardResult :=
  if match mrs_subtask_results result with
     | Some results => bool_decide (results = [])
     | None => true
     end
  then guard_fail "subtask_results are required and must contain at least one item" else
  if negb (has_non_empty_value (mrs_merged_result result))
  then guard_fail "merged_result is required and must be non-empty" else
  if negb (has_non_empty_value (mrs_recommended_next_action result))
  then guard_fail "recommended_next_action is required and must be non-empty" else
  guard_pass "all required multi-agent result fields present".

(** The tests of an optional vector: [none] and [empty_item] are its two refusals. *)
Definition validate_optional_items (items : option (list string)) (none empty_item : string)
    : GuardResult :=
  let? items := items else guard_pass "" in
  if bool_decide (items = []) then guard_fail none else
  if existsb is_empty items then guard_fail empty_item else
  guard_pass "".

Definition validate_multi_agent_result_boundary (result : MultiAgentResult)
    : option GuardResult :=
  let required_result := validate_multi_agent_result_required_fields result in
  if negb (gr_ok required_result) then Some required_result else
  let? subtask_results := mrs_subtask_results result else None in
  if existsb is_empty subtask_results
  then Some (guard_fail "subtask_results must not contain empty items") else
  let conflicts_result := validate_optional_items (mrs_conflicts result)
    "conflicts must contain at least one item when present"
    "conflicts must not contain empty strings" in
  if negb (gr_ok conflicts_result) then Some conflicts_result else
  let refs_result := validate_optional_items (mrs_worker_trace_refs result)
    "worker_trace_refs must contain at least one item when present"
    "worker_trace_refs must not contain empty strings" in
  if negb (gr_ok refs_result) then Some refs_result else
  if present_but_empty (mrs_failure_summary result)
  then Some (guard_fail "failure_summary must be non-empty when present") else
  Some (guard_pass "multi-agent result boundary validation passed").

Definition multi_agent_result_has_duplicate_items (values : list string) : bool :=
  has_duplicates (trimmed_view <$> values).

(** [blank_item] and [duplicate] are the refusals of a vector that has such an item. *)
Definition validate_items (items : list string) (blank_item duplicate : string) : GuardResult :=
  if existsb (fun item => negb (has_visible item)) items then guard_fail blank_item else
  if multi_agent_result_has_duplicate_items items then guard_fail duplicate else
  guard_pass "".

Definition validate_multi_agent_result_field_rules (result : MultiAgentResult)
    : option GuardResult :=
  let? boundary_result := validate_multi_agent_result_boundary result else None in
  if negb (gr_ok boundary_result) then Some boundary_result else
  let? subtask_results := mrs_subtask_results result else None in
  let subtask_result := validate_items subtask_results
    "subtask_results must not contain empty or whitespace-only items"
    "subtask_results must not contain duplicate items" in
  if negb (gr_ok subtask_result) then Some subtask_result else
  let? merged_result := mrs_merged_result result else None in
  if negb (has_visible merged_result)
  then Some (guard_fail "merged_result must contain at least one non-whitespace character") else
  let? recommended_next_action := mrs_recommended_next_action result else None in
  if negb (has_visible recommended_next_action)
  then Some (guard_fail ("recommended_next_action must contain at least one non-whitespace " +:+
                         "character")) else
  if bool_decide (trimmed_view merged_result = trimmed_view recommended_next_action)
  then Some (guard_fail ("merged_result and recommended_next_action must remain distinct " +:+
                         "after trimming whitespace")) else
  let conflicts_result := validate_items (default [] (mrs_conflicts result))
    "conflicts must not contain empty or whitespace-only items"
    "conflicts must not contain duplicate items" in
  if negb (gr_ok conflicts_result) then Some conflicts_result else
  let refs_result := validate_items (default [] (mrs_worker_trace_refs result))
    "worker_trace_refs must not contain empty or whitespace-only items"
    "worker_trace_refs must not contain duplicate items" in
  if negb (gr_ok refs_result) then Some refs_result else
  if match mrs_failure_summary result with
     | Some summary => negb (has_visible summary)
     | None => false
     end
  then Some (guard_fail ("failure_summary must contain at least one non-whitespace " +:+
                         "character when present")) else
  Some (guard_pass "multi-agent result field rules validation passed").

(** ** Graph guards

    Their decision is always [AllowField]. *)

Definition validate_subtask_graph_required_fields (graph : SubTaskGraph) : GuardResult :=
  if negb (has_non_empty_value (stg_graph_id graph))
  then guard_fail "graph_id is required and must be non-empty" else
  if negb (has_non_empty_value (stg_root_task_id graph))
  then guard_fail "root_task_id is required and must be non-empty" else
  if match stg_task_ids graph with Some ids => bool_decide (ids = []) | None => true end
  then guard_fail "task_ids are required and must contain at least one item" else
  guard_pass "all required subtask graph fields present".

Definition validate_subtask_graph_field_rules (graph : SubTaskGraph) : option GuardResult :=
  let required_result := validate_subtask_graph_required_fields graph in
  if negb (gr_ok required_result) then Some required_result else
  let? graph_id := stg_graph_id graph else None in
  if negb (has_visible graph_id)
  then Some (guard_fail "graph_id must contain at least one non-whitespace character") else
  let? root_task_id := stg_root_task_id graph else None in
  if negb (has_visible root_task_id)
  then Some (guard_fail "root_task_id must contain at least one non-whitespace character") else
  let? task_ids := stg_task_ids graph else None in
  if existsb (fun task_id => negb (has_visible task_id)) task_ids
  then Some (guard_fail "task_ids must not contain empty or whitespace-only items") else
  if bool_decide (stg_graph_revision graph = Some 0)
  then Some (guard_fail "graph_revision must be greater than zero when present") else
  Some (guard_pass "subtask graph field rules validation passed").

(** ** Field names *)

Module MultiAgentBoundaryDecision.
Inductive MultiAgentBoundaryDecision :=
| AllowField | RejectRequestReuseAgentRequest | RejectResultReplaceAgentResult
| RejectWorkerTaskGlobalState.
End MultiAgentBoundaryDecision.
Abbreviation MultiAgentBoundaryDecision := MultiAgentBoundaryDecision.MultiAgentBoundaryDecision.

Record MultiAgentBoundaryResult := {
  mbr_allowed : bool;
  mbr_decision : MultiAgentBoundaryDecision;
  mbr_reason : string;
}.

Definition kMultiAgentRequestForbiddenFields : list string :=
  ["agent_request"; "agent_request_payload"].
Definition kMultiAgentResultForbiddenFields : list string :=
  ["agent_result"; "final_agent_response"].
Definition kWorkerTaskGlobalStateForbiddenFields : list string :=
  ["global_session_state"; "global_fsm_state"; "session_fsm_state"].

Definition evaluate_field_boundary (forbidden : list string)
    (decision : MultiAgentBoundaryDecision) (reason field_name : string)
    : MultiAgentBoundaryResult :=
  if existsb (fun forbidden_field => bool_decide (field_name = forbidden_field)) forbidden
  then {| mbr_allowed := false; mbr_decision := decision; mbr_reason := reason |}
  else {| mbr_allowed := true; mbr_decision := MultiAgentBoundaryDecision.AllowField;
          mbr_reason := "multi-agent boundary field is allowed by ADR-008" |}.

Definition evaluate_multi_agent_request_field_boundary : string -> MultiAgentBoundaryResult :=
  evaluate_field_boundary kMultiAgentRequestForbiddenFields
    MultiAgentBoundaryDecision.RejectRequestReuseAgentRequest
    "multi-agent request must not reuse agent-request semantics".
Definition evaluate_multi_agent_result_field_boundary : string -> MultiAgentBoundaryResult :=
  evaluate_field_boundary kMultiAgentResultForbiddenFields
    MultiAgentBoundaryDecision.RejectResultReplaceAgentResult
    "multi-agent result must not replace top-level agent result".
Definition evaluate_worker_task_field_boundary : string -> MultiAgentBoundaryResult :=
  evaluate_field_boundary kWorkerTaskGlobalStateForbiddenFields
    MultiAgentBoundaryDecision.RejectWorkerTaskGlobalState
    "worker task must not carry global session or fsm state".

Definition validate_multi_agent_request_forbidden_field (field_name : string) : GuardResult :=
  let result := evaluate_multi_agent_request_field_boundary field_name in
  {| gr_ok := mbr_allowed result; gr_reason := mbr_reason result |}.
Definition validate_multi_agent_result_forbidden_field (field_name : string) : GuardResult :=
  let result := evaluate_multi_agent_result_field_boundary field_name in
  {| gr_ok := mbr_allowed result; gr_reason := mbr_reason result |}.

(** ** What the guards admit *)

Lemma existsb_forall {A} (f : A -> bool) l :
  existsb f l = false <-> Forall (fun x => f x = false) l.
Proof.
  induction l as [|x l IH]; simpl; [by split; [constructor|]|].
  by rewrite orb_false_iff, Forall_cons, IH.
Qed.

Lemma all_visible l :
  existsb (fun item => negb (has_visible item)) l = false <->
  Forall (fun item => has_visible item = true) l.
Proof. rewrite existsb_forall. by setoid_rewrite negb_false_iff. Qed.

Lemma has_duplicates_spec l : has_duplicates l = false <-> NoDup l.
Proof.
  induction l as [|x l IH]; simpl; [by split; [constructor|]|].
  rewrite orb_false_iff, NoDup_cons, IH, existsb_forall.
  setoid_rewrite bool_decide_eq_false. rewrite Forall_forall. naive_solver.
Qed.

Lemma visible_non_empty s : has_visible s = true -> s <> "".
Proof. by intros H ->. Qed.

Lemma visible_app_l s t : has_visible s = true -> has_visible (s +:+ t) = true.
Proof.
  unfold has_visible. induction s as [|ch s IH]; [done|]. simpl.
  destruct (is_space ch); simpl; [|done]. apply IH.
Qed.

Definition visible_value (value : option string) : Prop :=
  exists text, value = Some text /\ has_visible text = true.

Lemma visible_value_non_empty value :
  visible_value value -> has_non_empty_value value = true.
Proof.
  intros (s & -> & H). apply has_non_empty_value_true. eauto using visible_non_empty.
Qed.

(** A list of stop conditions, conflicts or references, if there is one. *)
Definition items_ok (key : string -> string) (items : option (list string)) : Prop :=
  forall l, items = Some l ->
    l <> [] /\ Forall (fun item => has_visible item = true) l /\ NoDup (key <$> l).

Record request_ok (q : MultiAgentRequest) : Prop := {
  rqo_request_id : visible_value (mrq_parent_request_id q);
  rqo_task_id : visible_value (mrq_parent_task_id q);
  rqo_ids_differ : mrq_parent_request_id q <> mrq_parent_task_id q;
  rqo_goal : visible_value (mrq_goal_fragment q);
  rqo_plan : visible_value (mrq_plan_fragment q);
  rqo_plan_differs :
    trimmed_view <$> mrq_goal_fragment q <> trimmed_view <$> mrq_plan_fragment q;
  rqo_mode : exists mode, mrq_collaboration_mode q = Some mode /\
    mode ∈ [CollaborationMode.Sequential; CollaborationMode.Concurrent;
            CollaborationMode.Handoff];
  rqo_budget : forall budget, mrq_worker_budget_guard q = Some budget ->
    gr_ok (validate_runtime_budget budget) = true;
  rqo_permission : forall text, mrq_permission_guard q = Some text -> has_visible text = true;
  rqo_stop : items_ok id (mrq_stop_conditions q);
  rqo_handoff : mrq_collaboration_mode q = Some CollaborationMode.Handoff ->
    is_Some (mrq_permission_guard q) /\ is_Some (mrq_stop_conditions q);
}.

Lemma mode_in_range mode :
  mode <> CollaborationMode.Unspecified ->
  (collaboration_mode_value mode <? 0) || (3 <? collaboration_mode_value mode) = false <->
  mode ∈ [CollaborationMode.Sequential; CollaborationMode.Concurrent;
          CollaborationMode.Handoff].
Proof.
  intros Hne. rewrite orb_false_iff, Z.ltb_ge, Z.ltb_ge.
  destruct mode; simpl; unfold unnamed_value; try done; try (split; [set_solver|lia]).
  split; [destruct (Z.ltb_spec n 0); lia|set_solver].
Qed.

Lemma stop_conditions_ok items :
  gr_ok (validate_stop_conditions items) = true <-> items_ok id items.
Proof.
  unfold validate_stop_conditions, items_ok. destruct items as [l|]; [|naive_solver].
  rewrite !guard_test, guard_passed, all_visible, has_duplicates_spec, bool_decide_eq_false.
  split; [intros (? & ? & ? & _) ? [= <-]; by rewrite list_fmap_id|].
  intros H. destruct (H l eq_refl) as (? & ? & ?). by rewrite list_fmap_id in *.
Qed.

Lemma present_visible value :
  has_non_empty_value value = true ->
  exists text, value = Some text /\ text <> "".
Proof. apply has_non_empty_value_true. Qed.

Lemma required_request_fields q :
  gr_ok (validate_multi_agent_request_required_fields q) = true <->
  has_non_empty_value (mrq_parent_request_id q) = true /\
  has_non_empty_value (mrq_parent_task_id q) = true /\
  has_non_empty_value (mrq_goal_fragment q) = true /\
  has_non_empty_value (mrq_plan_fragment q) = true /\
  exists mode, mrq_collaboration_mode q = Some mode /\ mode <> CollaborationMode.Unspecified.
Proof.
  unfold validate_multi_agent_request_required_fields.
  rewrite !guard_test, !negb_false_iff, guard_passed.
  destruct (mrq_collaboration_mode q) as [mode|].
  - rewrite bool_decide_eq_false. naive_solver.
  - naive_solver.
Qed.

Lemma handoff_ok q mode :
  mrq_collaboration_mode q = Some mode ->
  gr_ok (validate_handoff q mode) = true <->
  (mrq_collaboration_mode q = Some CollaborationMode.Handoff ->
   is_Some (mrq_permission_guard q) /\ is_Some (mrq_stop_conditions q)).
Proof.
  intros Hm. unfold validate_handoff. rewrite Hm.
  destruct (decide (mode = CollaborationMode.Handoff)) as [->|E];
    [rewrite bool_decide_true by done|rewrite bool_decide_false by done; naive_solver].
  rewrite !guard_test, guard_passed, !bool_decide_eq_false, <- !not_eq_None_Some.
  split; [by intros (? & ? & _)|]. intros H. by destruct (H eq_refl).
Qed.

(** The guard of a request admits what [request_ok] says. *)
Lemma multi_agent_request_guard q :
  admitted (validate_multi_agent_request_field_rules q) <-> request_ok q.
Proof.
  unfold validate_multi_agent_request_field_rules, validate_multi_agent_request_boundary.
  rewrite admitted_inner, admitted_layer, required_request_fields. split.
  - intros [[(Hr & Ht & Hg & Hp & mode & Hm & Hne) Hb] H].
    apply present_visible in Hr as (r & Hr & _), Ht as (t & Ht & _), Hg as (g & Hg & _),
      Hp as (p & Hp & _).
    rewrite Hm in Hb. rewrite Hr, Ht, Hg, Hp, Hm in H. simpl in *.
    rewrite !admitted_test in Hb. destruct Hb as (Hrange & Hids & _).
    rewrite !admitted_test, admitted_layer, admitted_some, !negb_false_iff in H.
    destruct H as (Hvr & Hvt & Hvg & Hvp & Hd & Hbud & Hperm & Hstop & Hhand).
    apply bool_decide_eq_false in Hids, Hd. split.
    + by exists r.
    + by exists t.
    + done.
    + by exists g.
    + by exists p.
    + rewrite Hg, Hp. simpl. congruence.
    + exists mode. split; [done|]. by apply mode_in_range.
    + intros b E. rewrite E in Hbud. by apply negb_false_iff.
    + intros b E. by rewrite E in Hperm.
    + by apply stop_conditions_ok.
    + by apply (handoff_ok q mode Hm).
  - intros [(r & Hr & Hvr) (t & Ht & Hvt) Hids (g & Hg & Hvg) (p & Hp & Hvp) Hd
      (mode & Hm & Hmode) Hbud Hperm Hstop Hhand].
    assert (mode <> CollaborationMode.Unspecified) as Hne by (intros ->; set_solver).
    assert (forall s, has_visible s = true -> has_non_empty_value (Some s) = true) as Hv
      by (intros s Hs; apply visible_value_non_empty; by exists s).
    rewrite Hm, Hr, Ht, Hg, Hp. simpl. split.
    + split; [by split_and!; try apply Hv; try exists mode|].
      rewrite !admitted_test, admitted_some. split; [by apply mode_in_range|].
      split; [|done]. apply bool_decide_eq_false. congruence.
    + rewrite !admitted_test, admitted_layer, admitted_some, !negb_false_iff.
      split_and!; try done.
      * apply bool_decide_eq_false. rewrite Hg, Hp in Hd. simpl in Hd. congruence.
      * destruct (mrq_worker_budget_guard q) as [b|]; [|done].
        by rewrite (Hbud b eq_refl).
      * destruct (mrq_permission_guard q) as [b|]; [|done]. by apply Hperm.
      * by apply stop_conditions_ok.
      * by apply (handoff_ok q mode Hm).
Qed.

Lemma items_visible_ok l a b :
  gr_ok (validate_items l a b) = true <->
  Forall (fun item => has_visible item = true) l /\ NoDup (trimmed_view <$> l).
Proof.
  unfold validate_items, multi_agent_result_has_duplicate_items.
  rewrite !guard_test, guard_passed, all_visible, has_duplicates_spec. tauto.
Qed.

Lemma optional_items_ok items a b c d :
  gr_ok (validate_optional_items items a b) = true ->
  gr_ok (validate_items (default [] items) c d) = true <-> items_ok trimmed_view items.
Proof.
  unfold validate_optional_items, items_ok. rewrite items_visible_ok.
  destruct items as [l|]; simpl; [|intros _; split; [naive_solver|by repeat constructor]].
  rewrite !guard_test, bool_decide_eq_false. intros (Hl & _). split.
  - by intros [Hv Hd] ? [= <-].
  - intros H. by destruct (H l eq_refl) as (_ & ? & ?).
Qed.

Lemma visible_items_non_empty l :
  Forall (fun item => has_visible item = true) l -> existsb is_empty l = false.
Proof.
  intros H. rewrite existsb_forall. eapply Forall_impl; [exact H|]. intros s Hs.
  by apply is_empty_false, visible_non_empty.
Qed.

Lemma items_ok_optional key items a b :
  items_ok key items -> gr_ok (validate_optional_items items a b) = true.
Proof.
  unfold items_ok, validate_optional_items. destruct items as [l|]; [|done].
  intros H. destruct (H l eq_refl) as (Hl & Hv & _).
  rewrite !guard_test, guard_passed, bool_decide_eq_false. by auto using visible_items_non_empty.
Qed.

Record result_ok (r : MultiAgentResult) : Prop := {
  rso_subtasks : exists results, mrs_subtask_results r = Some results;
  rso_subtasks_ok : items_ok trimmed_view (mrs_subtask_results r);
  rso_merged : visible_value (mrs_merged_result r);
  rso_action : visible_value (mrs_recommended_next_action r);
  rso_action_differs :
    trimmed_view <$> mrs_merged_result r <> trimmed_view <$> mrs_recommended_next_action r;
  rso_conflicts : items_ok trimmed_view (mrs_conflicts r);
  rso_refs : items_ok trimmed_view (mrs_worker_trace_refs r);
  rso_summary : forall text, mrs_failure_summary r = Some text -> has_visible text = true;
}.

Lemma required_result_fields r :
  gr_ok (validate_multi_agent_result_required_fields r) = true <->
  (exists results, mrs_subtask_results r = Some results /\ results <> []) /\
  has_non_empty_value (mrs_merged_result r) = true /\
  has_non_empty_value (mrs_recommended_next_action r) = true.
Proof.
  unfold validate_multi_agent_result_required_fields.
  rewrite !guard_test, !negb_false_iff, guard_passed.
  destruct (mrs_subtask_results r) as [l|]; [rewrite bool_decide_eq_false|]; naive_solver.
Qed.

(** The guard of a result admits what [result_ok] says. *)
Lemma multi_agent_result_guard r :
  admitted (validate_multi_agent_result_field_rules r) <-> result_ok r.
Proof.
  unfold validate_multi_agent_result_field_rules, validate_multi_agent_result_boundary.
  rewrite admitted_inner, admitted_layer, required_result_fields. split.
  - intros [[((results & Hs & Hne) & Hm & Ha) Hb] H].
    apply present_visible in Hm as (m & Hm & _), Ha as (a & Ha & _).
    rewrite Hs in Hb. rewrite Hs, Hm, Ha in H. simpl in *.
    rewrite admitted_test, !admitted_layer, admitted_test in Hb.
    destruct Hb as (_ & Hc & Hr & _).
    rewrite admitted_layer, items_visible_ok, !admitted_test, !admitted_layer, admitted_test,
      !negb_false_iff, (optional_items_ok _ _ _ _ _ Hc), (optional_items_ok _ _ _ _ _ Hr) in H.
    destruct H as ([Hsv Hsd] & Hvm & Hva & Hd & Hco & Hro & Hsum & _). split; try done.
    + by exists results.
    + rewrite Hs. by intros ? [= <-].
    + by exists m.
    + by exists a.
    + rewrite Hm, Ha. simpl. apply bool_decide_eq_false in Hd. congruence.
    + intros text E. rewrite E in Hsum. by apply negb_false_iff.
  - intros [(results & Hs) Hso (m & Hm & Hvm) (a & Ha & Hva) Hd Hc Hr Hsum].
    rewrite Hs in *. destruct (Hso results eq_refl) as (Hne & Hsv & Hsd).
    rewrite Hm, Ha in *. simpl in *.
    assert (forall s, has_visible s = true -> has_non_empty_value (Some s) = true) as Hv
      by (intros s E; apply visible_value_non_empty; by exists s).
    pose proof (items_ok_optional _ _ "conflicts must contain at least one item when present"
      "conflicts must not contain empty strings" Hc) as Hco.
    pose proof (items_ok_optional _ _ "worker_trace_refs must contain at least one item when present"
      "worker_trace_refs must not contain empty strings" Hr) as Hro.
    split; [split|].
    + split_and!; [by exists results|by apply Hv|by apply Hv].
    + rewrite admitted_test, !admitted_layer, admitted_test, admitted_some.
      split_and!; try done.
      * by apply visible_items_non_empty.
      * apply present_but_empty_false. intros E. by apply Hsum in E.
    + rewrite admitted_layer, items_visible_ok, !admitted_test, !admitted_layer, admitted_test,
        admitted_some, !negb_false_iff, (optional_items_ok _ _ _ _ _ Hco), (optional_items_ok _ _ _ _ _ Hro).
      split_and!; try done.
      * apply bool_decide_eq_false. congruence.
      * destruct (mrs_failure_summary r) as [text|]; [|done]. by rewrite Hsum.
Qed.

(** The guard of a graph admits visible identifiers and a revision that is not zero. *)
Lemma subtask_graph_guard g :
  admitted (validate_subtask_graph_field_rules g) <->
  visible_value (stg_graph_id g) /\ visible_value (stg_root_task_id g) /\
  (exists ids, stg_task_ids g = Some ids /\ ids <> [] /\
     Forall (fun item => has_visible item = true) ids) /\
  stg_graph_revision g <> Some 0.
Proof.
  unfold validate_subtask_graph_field_rules, validate_subtask_graph_required_fields.
  rewrite admitted_layer, !guard_test, !negb_false_iff, guard_passed. split.
  - intros [(Hg & Hr & Hi & _) H].
    apply present_visible in Hg as (gid & Hg & _), Hr as (root & Hr & _).
    destruct (stg_task_ids g) as [ids|] eqn:E; [|done]. apply bool_decide_eq_false in Hi.
    rewrite Hg, Hr in H. simpl in H.
    rewrite !admitted_test, !negb_false_iff, bool_decide_eq_false, all_visible in H.
    destruct H as (Hvg & Hvr & Hv & Hrev & _).
    split_and!; [by exists gid|by exists root|by exists ids|done].
  - intros ((gid & Hg & Hvg) & (root & Hr & Hvr) & (ids & Hi & Hne & Hv) & Hrev).
    rewrite Hg, Hr, Hi. simpl.
    rewrite !admitted_test, !negb_false_iff, !bool_decide_eq_false, all_visible, admitted_some.
    split_and!; try done; by apply negb_true_iff, is_empty_false, visible_non_empty.
Qed.
