(* ===== verification/MultiAgent.v ===== *)
(** * Multi-agent coordination

    multi_agent/src/MultiAgentCoordinator.cpp and MultiAgentRuntimeFold.cpp: what the
    workers of a task did is gathered into one observation, the hints that undo it and,
    after a failure, a recovery request. The theorems follow that request through the
    recovery contract's guard and the recovery manager. *)

From S2P Require Import Prelude ErrorCodes CheckpointContracts Text Checkpoint CheckpointManager RecoveryContracts Recovery ToolContracts ToolValidation Workflow MultiAgentContracts.

(** ** Data *)

Record MultiAgentExecutionContext := {
  mac_runtime_instance_id : option string;
  mac_profile_id : option string;
  mac_trace_id : option string;
  mac_request_id : option string;
  mac_goal_id : option string;
  mac_policy_snapshot_ref : option string;
  mac_parent_checkpoint_ref : option string;
  mac_checkpoint : option Checkpoint;
  mac_runtime_budget_snapshot : option BudgetSnapshot;
  mac_retry_count : option Z;
  mac_latest_observation : option Observation;
  mac_tool_results : list ToolResult;
  mac_allowed_tool_domains : list string;
}.

Record MultiAgentExecutionReport := {
  mer_disabled : bool;
  mer_multi_agent_result : option MultiAgentResult;
  mer_graph_snapshot : option SubTaskGraph;
  mer_emitted_observations : list Observation;
  mer_compensation_hints : list ToolCompensationHint;
  mer_recovery_request : option RecoveryRequest;
  mer_audit_refs : list string;
}.

Record MultiAgentRuntimeFoldResult := {
  mfr_latest_observation : option Observation;
  mfr_compensation_hints : list ToolCompensationHint;
  mfr_recovery_request : option RecoveryRequest;
  mfr_audit_refs : list string;
}.

(** ** Parts of the report *)

Definition kMultiAgentFailureCode : Z := 18018.

Definition select_string (value : option string) (fallback : string) : string :=
  let? text := value else fallback in if is_empty text then fallback else text.

Definition build_worker_task_id (request : MultiAgentRequest) : string :=
  "worker:" +:+ select_string (mrq_parent_task_id request) "multi-agent-parent".

Definition build_graph_id (request : MultiAgentRequest) : string :=
  "graph:" +:+ select_string (mrq_parent_task_id request) "multi-agent-parent".

Definition collect_side_effects (context : MultiAgentExecutionContext) : list string :=
  mac_tool_results context ≫= fun tool_result =>
    base.filter (fun side_effect => is_empty side_effect = false)
      (default [] (tres_side_effects tool_result)).

(** The loop over the results, [index] counting from zero. *)
Fixpoint register_results (worker_task_id : string) (index : Z) (ledger : CompensationLedger)
    (tool_results : list ToolResult) : CompensationLedger :=
  match tool_results with
  | [] => ledger
  | tool_result :: rest =>
      register_results worker_task_id (index + 1)
        (register_result ledger (worker_task_id +:+ (":tool:" +:+ to_string (u64 (index + 1))))
           "multi_agent.loopback" tool_result (default false (tres_success tool_result)))
        rest
  end.

Definition build_compensation_hints (request : MultiAgentRequest)
    (context : MultiAgentExecutionContext) : list ToolCompensationHint :=
  build_hints (register_results (build_worker_task_id request) 0 [] (mac_tool_results context)).

(** The message of an error, if there is one that says something. *)
Definition message_of (error : option ErrorInfo) (fallback : string) : string :=
  let? error := error else fallback in
  if is_empty (ed_message (ei_details error)) then fallback else ed_message (ei_details error).

(** [!success.value_or(true)] *)
Definition reported_failed (success : option bool) : bool := negb (default true success).

Fixpoint failed_tool_summary (tool_results : list ToolResult) : option string :=
  match tool_results with
  | [] => None
  | tool_result :: rest =>
      if reported_failed (tres_success tool_result)
      then Some (message_of (tres_error tool_result) "multi_agent received a failed tool result")
      else failed_tool_summary rest
  end.

Definition build_failure_summary (context : MultiAgentExecutionContext) : option string :=
  match mac_latest_observation context with
  | Some observation =>
      if reported_failed (ob_success observation)
      then Some (message_of (ob_error observation)
                   "multi_agent received a failed upstream observation")
      else failed_tool_summary (mac_tool_results context)
  | None => failed_tool_summary (mac_tool_results context)
  end.

Definition build_error_info (worker_task_id message : string) (replay_safe : bool) : ErrorInfo :=
  {| ei_failure_type := Some ResultCodeCategory.Runtime;
     ei_retryable := Some replay_safe; ei_safe_to_replan := Some true;
     ei_details := {| ed_code := Some kMultiAgentFailureCode; ed_message := message;
                      ed_stage := "multi_agent.coordinate" |};
     ei_source_ref := {| esr_ref_type := "worker_task"; esr_ref_id := worker_task_id |} |}.

(** [a.has_value() ? a : b] *)
Definition or_else {A} (a b : option A) : option A :=
  match a with Some _ => a | None => b end.

Definition build_observation (request : MultiAgentRequest) (context : MultiAgentExecutionContext)
    (multi_agent_result : MultiAgentResult) (compensation_hints : list ToolCompensationHint)
    (failure_summary : option string) : Observation :=
  let worker_task_id := build_worker_task_id request in
  let side_effects := collect_side_effects context in
  {| ob_observation_id := Some ("observation:multi-agent:" +:+ worker_task_id);
     ob_source := Some ObservationSource.WorkerAgent;
     ob_success := Some (bool_decide (failure_summary = None));
     ob_payload := mrs_merged_result multi_agent_result;
     ob_created_at :=
       Some (match mac_latest_observation context with
             | Some observation => default 1 (ob_created_at observation)
             | None => 1
             end);
     ob_error :=
       (fun summary => build_error_info worker_task_id summary
                         (bool_decide (compensation_hints = []))) <$> failure_summary;
     ob_side_effects := if bool_decide (side_effects = []) then None else Some side_effects;
     ob_tool_call_id := None;
     ob_worker_task_id := Some worker_task_id;
     ob_request_id := or_else (mac_request_id context) (mrq_parent_request_id request);
     ob_goal_id := or_else (mac_goal_id context) (mrq_goal_fragment request);
     ob_duration_ms := None;
     ob_tags := Some ["multi_agent"; "loopback";
                      if bool_decide (failure_summary = None)
                      then "folded" else "recovery-advisory"] |}.

Definition map_recovery_action (recommended_next_action : string) : ReflectionDecisionKind :=
  if bool_decide (recommended_next_action = "abort_safe")
  then ReflectionDecisionKind.AbortSafe else
  if bool_decide (recommended_next_action = "replan")
  then ReflectionDecisionKind.Replan else
  if bool_decide (recommended_next_action = "continue")
  then ReflectionDecisionKind.Continue else
  ReflectionDecisionKind.RetryStep.

Definition build_recovery_request (request : MultiAgentRequest)
    (context : MultiAgentExecutionContext) (multi_agent_result : MultiAgentResult)
    (observation : Observation) (compensation_hints : list ToolCompensationHint)
    (failure_summary : option string) : option RecoveryRequest :=
  let? checkpoint := mac_checkpoint context else None in
  let? summary := failure_summary else None in
  let? action := mrs_recommended_next_action multi_agent_result else None in
  let compensation_pending := negb (bool_decide (compensation_hints = [])) in
  Some
    {| rq_reflection_decision := Some
         {| rd_request_id := or_else (mac_request_id context) (mrq_parent_request_id request);
            rd_decision_kind := Some (map_recovery_action action);
            rd_rationale := Some summary;
            rd_goal_id := or_else (mac_goal_id context) (mrq_goal_fragment request);
            rd_confidence := None;
            rd_relevant_observation_refs :=
              Some [default "observation:multi-agent-missing" (ob_observation_id observation)];
            rd_hint_ref := None;
            rd_created_at := ob_created_at observation;
            rd_tags := Some ["multi_agent"; "runtime-fold"] |};
       rq_error_info := ob_error observation;
       rq_latest_observation := Some observation;
       rq_checkpoint := Some checkpoint;
       rq_idempotency_and_side_effect_report := Some
         {| isr_replay_safe := Some (negb compensation_pending);
            isr_idempotency_key := Some ("multi-agent:" +:+
              select_string (ob_worker_task_id observation) "worker-task-missing");
            isr_side_effects_present := Some
              (match ob_side_effects observation with
               | Some side_effects => negb (bool_decide (side_effects = []))
               | None => false
               end);
            isr_non_replayable_reason :=
              if compensation_pending
              then Some "compensation hints pending before replay" else None |};
       rq_retry_count := mac_retry_count context;
       rq_runtime_budget_snapshot := mac_runtime_budget_snapshot context |}.

(** ** Coordination *)

Definition build_graph (request : MultiAgentRequest) : SubTaskGraph :=
  {| stg_graph_id := Some (build_graph_id request);
     stg_root_task_id := mrq_parent_task_id request;
     stg_task_ids := Some [build_worker_task_id request];
     stg_graph_revision := Some 1 |}.

(** NullMultiAgentCoordinator::coordinate *)
Definition coordinate_disabled (request : MultiAgentRequest) : MultiAgentExecutionReport :=
  {| mer_disabled := true;
     mer_multi_agent_result := Some
       {| mrs_subtask_results := Some ["multi_agent.disabled"];
          mrs_merged_result := or_else (mrq_goal_fragment request) (mrq_plan_fragment request);
          mrs_recommended_next_action := Some "continue_single_agent";
          mrs_conflicts := None; mrs_worker_trace_refs := None; mrs_failure_summary := None |};
     mer_graph_snapshot := Some (build_graph request);
     mer_emitted_observations := []; mer_compensation_hints := [];
     mer_recovery_request := None;
     mer_audit_refs :=
       ["multi_agent.disabled"; "multi_agent.graph." +:+ build_graph_id request] |}.

Definition recommended_action (compensation_hints : list ToolCompensationHint)
    (failure_summary : option string) : string :=
  if bool_decide (failure_summary = None) then "continue" else
  if bool_decide (compensation_hints = []) then "retry_step" else "abort_safe".

Definition build_result (request : MultiAgentRequest) (context : MultiAgentExecutionContext)
    (compensation_hints : list ToolCompensationHint) (failure_summary : option string)
    : MultiAgentResult :=
  {| mrs_subtask_results := Some
       [select_string (mrq_plan_fragment request)
          (select_string (mrq_goal_fragment request) "multi_agent.loopback")];
     mrs_merged_result := or_else (mrq_plan_fragment request) (mrq_goal_fragment request);
     mrs_recommended_next_action := Some (recommended_action compensation_hints failure_summary);
     mrs_conflicts :=
       if negb (bool_decide (failure_summary = None)) && negb (bool_decide (compensation_hints = []))
       then Some ["tool compensation pending"] else None;
     mrs_worker_trace_refs := (fun trace_id => ["trace:" +:+ trace_id]) <$> mac_trace_id context;
     mrs_failure_summary := failure_summary |}.

(** MultiAgentCoordinator::coordinate *)
Definition coordinate (request : MultiAgentRequest) (context : MultiAgentExecutionContext)
    : MultiAgentExecutionReport :=
  let compensation_hints := build_compensation_hints request context in
  let failure_summary := build_failure_summary context in
  let result := build_result request context compensation_hints failure_summary in
  let observation := build_observation request context result compensation_hints failure_summary in
  {| mer_disabled := false;
     mer_multi_agent_result := Some result;
     mer_graph_snapshot := Some (build_graph request);
     mer_emitted_observations := [observation];
     mer_compensation_hints := compensation_hints;
     mer_recovery_request :=
       build_recovery_request request context result observation compensation_hints failure_summary;
     mer_audit_refs :=
       ["multi_agent.enabled"; "multi_agent.graph." +:+ build_graph_id request;
        "multi_agent.worker." +:+ build_worker_task_id request] |}.

(** [create_multi_agent_coordinator(enabled)->coordinate(request, context)] *)
Definition create_multi_agent_coordinator (enabled : bool) (request : MultiAgentRequest)
    (context : MultiAgentExecutionContext) : MultiAgentExecutionReport :=
  if enabled then coordinate request context else coordinate_disabled request.

(** ** Fold *)

Definition build_fallback_observation (report : MultiAgentExecutionReport) : option Observation :=
  let? result := mer_multi_agent_result report else None in
  Some {| ob_observation_id := Some "observation:multi-agent:fallback";
          ob_source := Some ObservationSource.WorkerAgent;
          ob_success := Some (bool_decide (mrs_failure_summary result = None));
          ob_payload := mrs_merged_result result;
          ob_created_at := Some 1; ob_error := None; ob_side_effects := None;
          ob_tool_call_id := None; ob_worker_task_id := None; ob_request_id := None;
          ob_goal_id := None; ob_duration_ms := None;
          ob_tags := Some ["multi_agent"; if mer_disabled report then "disabled" else "enabled"] |}.

Definition fold_multi_agent_report_for_runtime (report : MultiAgentExecutionReport)
    : MultiAgentRuntimeFoldResult :=
  {| mfr_latest_observation :=
       match last (mer_emitted_observations report) with
       | Some observation => Some observation
       | None => build_fallback_observation report
       end;
     mfr_compensation_hints := mer_compensation_hints report;
     mfr_recovery_request := mer_recovery_request report;
     mfr_audit_refs := mer_audit_refs report |}.

(** ** Hints *)

Definition tool_step_id (worker_task_id : string) (index : Z) : string :=
  worker_task_id +:+ (":tool:" +:+ to_string (u64 (index + 1))).

(** The records of the results that had effects, in the order of the calls. *)
Fixpoint loopback_records (worker_task_id : string) (index : Z) (tool_results : list ToolResult)
    : CompensationLedger :=
  match tool_results with
  | [] => []
  | tool_result :: rest =>
      option_list (build_record (tool_step_id worker_task_id index) "multi_agent.loopback"
        tool_result (succeeded tool_result))
      ++ loopback_records worker_task_id (index + 1) rest
  end.

Lemma tool_step_id_inj worker i j :
  0 <= i < 2 ^ 64 - 1 -> 0 <= j < 2 ^ 64 - 1 -> tool_step_id worker i = tool_step_id worker j -> i = j.
Proof.
  unfold tool_step_id. intros Hi Hj H%string_app_inj%string_app_inj.
  rewrite !u64_id in H by (unfold in_u64; lia).
  apply to_string_inj in H; unfold in_u64; lia.
Qed.

Lemma build_record_fields step route result reversible record :
  build_record step route result reversible = Some record ->
  crec_step_id record = step /\ crec_reversible record = reversible /\
  crec_side_effects record <> [].
Proof.
  unfold build_record. intros H. destruct (tres_side_effects result) as [l|]; [|done].
  case_bool_decide; [done|]. by injection H as <-.
Qed.

(** No result replaces the record of another one. *)
Lemma register_results_exact worker tool_results : forall index ledger,
  0 <= index -> index + Z.of_nat (length tool_results) < 2 ^ 64 ->
  Forall (fun candidate => exists k, 0 <= k < index /\
    crec_step_id candidate = tool_step_id worker k) ledger ->
  register_results worker index ledger tool_results =
  ledger ++ loopback_records worker index tool_results.
Proof.
  induction tool_results as [|tool_result rest IH]; intros index ledger Hi Hlen Hl; simpl.
  { by rewrite app_nil_r. }
  cbn [length] in Hlen.
  assert (Forall (fun candidate => exists k, 0 <= k < index + 1 /\
    crec_step_id candidate = tool_step_id worker k) ledger) as Hl'.
  { eapply Forall_impl; [exact Hl|]. intros c (k & ? & ?). exists k. split; [lia|done]. }
  unfold register_result. fold (tool_step_id worker index).
  fold (succeeded tool_result).
  destruct (build_record _ _ tool_result _) as [record|] eqn:E; simpl.
  2: { by rewrite IH by (done || lia). }
  apply build_record_fields in E as (Hstep & _).
  rewrite replace_record_fresh.
  - simpl. rewrite IH; [by rewrite <- app_assoc|lia|lia|].
    apply Forall_app_last; [done|]. exists index. split; [lia|done].
  - eapply Forall_impl; [exact Hl|]. intros c (k & Hk & ->). rewrite Hstep.
    intros H%tool_step_id_inj; lia.
Qed.

(** The hint of one result: only what succeeded and had effects is undone. *)
Definition loopback_hint (worker_task_id : string) (index : Z) (tool_result : ToolResult)
    : option ToolCompensationHint :=
  if succeeded tool_result && negb (bool_decide (default [] (tres_side_effects tool_result) = []))
  then
    let capability_id := default (tool_step_id worker_task_id index) (tres_tool_name tool_result) in
    let target_id := default (tool_step_id worker_task_id index) (tres_tool_call_id tool_result) in
    Some {| tch_compensation_action := Some capability_id;
            tch_target_ref := Some (format_compensation_target_ref capability_id target_id);
            tch_reason_code := Some "workflow.compensation_available";
            tch_evidence_refs :=
              Some (collect_evidence_refs (tool_step_id worker_task_id index) tool_result) |}
  else None.

Fixpoint loopback_hints (worker_task_id : string) (index : Z) (tool_results : list ToolResult)
    : list ToolCompensationHint :=
  match tool_results with
  | [] => []
  | tool_result :: rest =>
      option_list (loopback_hint worker_task_id index tool_result)
      ++ loopback_hints worker_task_id (index + 1) rest
  end.

Definition record_hint (record : CompensationRecord) : list ToolCompensationHint :=
  if negb (crec_reversible record) || bool_decide (crec_side_effects record = []) then []
  else [build_hint record].

Lemma record_hint_loopback worker index tool_result :
  option_list (build_record (tool_step_id worker index) "multi_agent.loopback" tool_result
    (succeeded tool_result)) ≫= record_hint
  = option_list (loopback_hint worker index tool_result).
Proof.
  unfold build_record, loopback_hint. destruct (tres_side_effects tool_result) as [l|]; simpl;
    [|by rewrite andb_false_r].
  destruct (decide (l = [])) as [->|Hl]; [by rewrite andb_false_r|].
  rewrite bool_decide_false by done. simpl. unfold record_hint. simpl.
  rewrite bool_decide_false by done. by destruct (succeeded tool_result).
Qed.

Lemma records_hints worker tool_results : forall index,
  loopback_records worker index tool_results ≫= record_hint
  = loopback_hints worker index tool_results.
Proof.
  induction tool_results as [|tool_result rest IH]; intros index; [done|]. simpl.
  by rewrite bind_app, IH, record_hint_loopback.
Qed.

Lemma record_hint_short record : (length (record_hint record) <= 1)%nat.
Proof. unfold record_hint. destruct (_ || _); simpl; lia. Qed.

Lemma reverse_bind_short {A B} (f : A -> list B) l :
  (forall x, (length (f x) <= 1)%nat) -> reverse l ≫= f = reverse (l ≫= f).
Proof.
  intros Hf. induction l as [|x l IH]; [done|]. simpl.
  rewrite reverse_cons, bind_app, IH, reverse_app. simpl. rewrite app_nil_r. f_equal.
  specialize (Hf x). destruct (f x) as [|y [|]]; simpl in *; [done|done|lia].
Qed.

Lemma hints_of_results request context :
  Z.of_nat (length (mac_tool_results context)) < 2 ^ 64 ->
  build_compensation_hints request context =
  reverse (loopback_hints (build_worker_task_id request) 0 (mac_tool_results context)).
Proof.
  intros Hlen. unfold build_compensation_hints, build_hints.
  rewrite register_results_exact by (done || lia). simpl.
  rewrite <- records_hints. apply (reverse_bind_short record_hint), record_hint_short.
Qed.

(** A result that has to be undone before anything is repeated. *)
Definition to_be_undone (tool_result : ToolResult) : Prop :=
  succeeded tool_result = true /\ default [] (tres_side_effects tool_result) <> [].

Lemma no_hints_iff worker tool_results : forall index,
  loopback_hints worker index tool_results = [] <->
  Forall (fun tool_result => ~ to_be_undone tool_result) tool_results.
Proof.
  induction tool_results as [|tool_result rest IH]; intros index; [done|]. simpl.
  rewrite Forall_cons, <- (IH (index + 1)).
  unfold to_be_undone, loopback_hint.
  destruct (succeeded tool_result); simpl; [|naive_solver].
  case_bool_decide; simpl; naive_solver.
Qed.

Lemma no_worker_hints request context :
  Z.of_nat (length (mac_tool_results context)) < 2 ^ 64 ->
  build_compensation_hints request context = [] <->
  Forall (fun tool_result => ~ to_be_undone tool_result) (mac_tool_results context).
Proof.
  intros Hlen. rewrite hints_of_results by done.
  rewrite <- (no_hints_iff (build_worker_task_id request) _ 0).
  destruct (loopback_hints _ _ _) as [|hint hints]; [done|].
  rewrite reverse_cons. split; [by intros []%app_nil|done].
Qed.

(** The coordinator's hints undo the workers' calls last first: one hint for every
    result that succeeded and reported effects, which names the tool and the call, or the
    number of the call where the result does not; none for a result that failed, whatever
    effects it reports. *)
Theorem worker_hints_exact request context :
  Z.of_nat (length (mac_tool_results context)) < 2 ^ 64 ->
  build_compensation_hints request context =
    reverse (loopback_hints (build_worker_task_id request) 0 (mac_tool_results context)) /\
  (build_compensation_hints request context = [] <->
   Forall (fun tool_result => ~ to_be_undone tool_result) (mac_tool_results context)).
Proof. intros Hlen. split; [by apply hints_of_results|by apply no_worker_hints]. Qed.

(** ** The report *)

Lemma select_string_id value fallback text :
  value = Some text -> text <> "" -> select_string value fallback = text.
Proof. intros -> H. simpl. by rewrite (proj2 (is_empty_false _) H). Qed.

Lemma message_of_non_empty error fallback : fallback <> "" -> message_of error fallback <> "".
Proof.
  intros H. unfold message_of. destruct error as [e|]; [|done].
  destruct (is_empty _) eqn:E; [done|]. by apply is_empty_false.
Qed.

Lemma failed_tool_summary_non_empty tool_results summary :
  failed_tool_summary tool_results = Some summary -> summary <> "".
Proof.
  induction tool_results as [|tool_result rest IH]; simpl; [done|].
  destruct (reported_failed _); [intros [= <-]; by apply message_of_non_empty|done].
Qed.

Lemma failure_summary_non_empty context summary :
  build_failure_summary context = Some summary -> summary <> "".
Proof.
  unfold build_failure_summary.
  destruct (mac_latest_observation context) as [o|]; [|apply failed_tool_summary_non_empty].
  destruct (reported_failed _); [intros [= <-]; by apply message_of_non_empty|].
  apply failed_tool_summary_non_empty.
Qed.

Lemma recommended_action_visible hints summary :
  has_visible (recommended_action hints summary) = true.
Proof. unfold recommended_action. by repeat case_bool_decide. Qed.

Lemma single_item_ok text : has_visible text = true -> items_ok trimmed_view (Some [text]).
Proof.
  intros H l [= <-]. split; [done|]. split; [by constructor|]. simpl. apply NoDup_singleton.
Qed.

Lemma no_items_ok : items_ok trimmed_view None.
Proof. done. Qed.

Lemma build_result_ok request context hints summary plan :
  mrq_plan_fragment request = Some plan -> has_visible plan = true ->
  result_ok (build_result request context hints summary) <->
  trimmed_view plan <> trimmed_view (recommended_action hints summary) /\
  (forall text, summary = Some text -> has_visible text = true).
Proof.
  intros Hp Hv. unfold build_result.
  rewrite (select_string_id _ _ plan Hp (visible_non_empty _ Hv)), Hp. simpl. split.
  - intros [_ _ _ _ Hd _ _ Hs]. simpl in *. split; [congruence|done].
  - intros [Hd Hs]. split; simpl; try done.
    + by eexists.
    + by apply single_item_ok.
    + by exists plan.
    + eexists. split; [done|]. apply recommended_action_visible.
    + congruence.
    + destruct (_ && _); [by apply single_item_ok|done].
    + destruct (mac_trace_id context); [by apply single_item_ok|done].
Qed.

(** For a valid request the coordinator's graph is valid, and its result passes the
    guard of results exactly when the plan does not read like the action it recommends
    ([continue], [retry_step] or [abort_safe]) and the failure it reports, if any, says
    something visible. *)
Theorem coordination_result_valid request context :
  request_ok request ->
  let report := coordinate request context in
  (exists graph, mer_graph_snapshot report = Some graph /\
     admitted (validate_subtask_graph_field_rules graph)) /\
  (exists result action, mer_multi_agent_result report = Some result /\
     mrs_recommended_next_action result = Some action /\
     (admitted (validate_multi_agent_result_field_rules result) <->
      Some (trimmed_view action) <> trimmed_view <$> mrq_plan_fragment request /\
      (forall text, mrs_failure_summary result = Some text -> has_visible text = true))).
Proof.
  intros [_ (task & Ht & Hvt) _ _ (plan & Hp & Hvp) _ _ _ _ _ _]. simpl. split.
  - eexists. split; [done|]. apply subtask_graph_guard. unfold build_graph. simpl.
    split_and!; [eexists; split; [done|by apply visible_app_l]|by exists task| |done].
    eexists. split; [done|]. split; [done|]. constructor; [|constructor].
    by apply visible_app_l.
  - do 2 eexists. split; [done|]. split; [done|]. rewrite multi_agent_result_guard.
    rewrite (build_result_ok _ _ _ _ _ Hp Hvp), Hp. simpl.
    split; intros [Hd Hs]; (split; [congruence|done]).
Qed.

(** ** The recovery request *)

Definition reported_at (context : MultiAgentExecutionContext) : Z :=
  match mac_latest_observation context with
  | Some observation => default 1 (ob_created_at observation)
  | None => 1
  end.

(** What the recovery contract asks of the runtime's part of a request. *)
Record recovery_context_ok (request : MultiAgentRequest) (context : MultiAgentExecutionContext)
    (checkpoint : Checkpoint) : Prop := {
  rco_checkpoint : gr_ok (validate_checkpoint_field_rules checkpoint) = true;
  rco_open : cp_state checkpoint <> Some CheckpointState.Succeeded;
  rco_retry : forall a b, mac_retry_count context = Some a -> cp_retry_count checkpoint = Some b ->
    a = b;
  rco_budget : forall snapshot, mac_runtime_budget_snapshot context = Some snapshot ->
    gr_ok (validate_budget_snapshot snapshot) = true;
  rco_request_id : mac_request_id context <> Some "";
  rco_goal_id : mac_goal_id context <> Some "";
  rco_time : 0 < reported_at context;
  rco_same_request : forall id, cp_request_id checkpoint = Some id ->
    or_else (mac_request_id context) (mrq_parent_request_id request) = Some id;
  rco_same_goal : forall id, cp_goal_id checkpoint = Some id ->
    or_else (mac_goal_id context) (mrq_goal_fragment request) = Some id;
}.

Lemma or_else_value a b text :
  b = Some text -> text <> "" ->
  exists value, or_else a b = Some value /\ (value <> "" <-> a <> Some "").
Proof.
  intros -> H. destruct a as [value|]; simpl.
  - exists value. split; [done|]. naive_solver.
  - by exists text.
Qed.

Lemma identifiers_align_same value other :
  identifiers_align (Some value) (Some value) other = true <->
  forall id, other = Some id -> Some value = Some id.
Proof.
  unfold identifiers_align. simpl. rewrite bool_decide_true by done.
  destruct other as [id|]; simpl; [|naive_solver].
  destruct (decide (value = id)) as [->|Hne];
    [rewrite !bool_decide_true by done; naive_solver|].
  rewrite !bool_decide_false by done. split; [done|]. intros H. by injection (H id eq_refl).
Qed.

Lemma retry_conflicts_iff q cp :
  retry_count_conflicts q cp = false <->
  forall a b, rq_retry_count q = Some a -> cp_retry_count cp = Some b -> a = b.
Proof.
  unfold retry_count_conflicts. destruct (rq_retry_count q) as [a|], (cp_retry_count cp) as [b|];
    try naive_solver.
  rewrite negb_false_iff, Z.eqb_eq. naive_solver.
Qed.

Lemma present_and_non_positive_some v : present_and_non_positive (Some v) = false <-> 0 < v.
Proof. simpl. rewrite Z.leb_gt. done. Qed.

Section Worker.
  Context (request : MultiAgentRequest) (context : MultiAgentExecutionContext).
  Context (checkpoint : Checkpoint) (summary : string).
  Context (Hrequest : request_ok request).
  Context (Hcheckpoint : mac_checkpoint context = Some checkpoint).
  Context (Hsummary : build_failure_summary context = Some summary).

Definition worker_hints : list ToolCompensationHint := build_compensation_hints request context.

Definition worker_observation : Observation :=
  build_observation request context
    (build_result request context worker_hints (build_failure_summary context)) worker_hints
    (build_failure_summary context).

Definition worker_error : ErrorInfo :=
  build_error_info (build_worker_task_id request) summary (bool_decide (worker_hints = [])).

(** The failure as a decision: to repeat what left nothing to undo, to abort the rest. *)
Definition worker_decision : ReflectionDecision :=
  {| rd_request_id := or_else (mac_request_id context) (mrq_parent_request_id request);
     rd_decision_kind := Some
       (if bool_decide (worker_hints = []) then ReflectionDecisionKind.RetryStep
        else ReflectionDecisionKind.AbortSafe);
     rd_rationale := Some summary;
     rd_goal_id := or_else (mac_goal_id context) (mrq_goal_fragment request);
     rd_confidence := None;
     rd_relevant_observation_refs :=
       Some ["observation:multi-agent:" +:+ build_worker_task_id request];
     rd_hint_ref := None;
     rd_created_at := Some (reported_at context);
     rd_tags := Some ["multi_agent"; "runtime-fold"] |}.

Definition worker_report : IdempotencyAndSideEffectReport :=
  {| isr_replay_safe := Some (bool_decide (worker_hints = []));
     isr_idempotency_key := Some ("multi-agent:" +:+ build_worker_task_id request);
     isr_side_effects_present := Some (negb (bool_decide (collect_side_effects context = [])));
     isr_non_replayable_reason :=
       if bool_decide (worker_hints = []) then None
       else Some "compensation hints pending before replay" |}.

Definition worker_request : RecoveryRequest :=
  {| rq_reflection_decision := Some worker_decision;
     rq_error_info := Some worker_error;
     rq_latest_observation := Some worker_observation;
     rq_checkpoint := Some checkpoint;
     rq_idempotency_and_side_effect_report := Some worker_report;
     rq_retry_count := mac_retry_count context;
     rq_runtime_budget_snapshot := mac_runtime_budget_snapshot context |}.

Lemma recovery_request_built :
  mer_recovery_request (coordinate request context) = Some worker_request.
Proof using Hcheckpoint Hsummary.
  simpl. unfold build_recovery_request. rewrite Hcheckpoint, Hsummary. simpl. f_equal.
  unfold worker_request, worker_observation, worker_error, worker_decision, worker_report,
    worker_hints.
  rewrite Hsummary. unfold recommended_action. rewrite bool_decide_false by done.
  destruct (decide (build_compensation_hints request context = [])) as [E|E];
    [rewrite !(bool_decide_true (build_compensation_hints _ _ = [])) by done
    |rewrite !(bool_decide_false (build_compensation_hints _ _ = [])) by done]; simpl;
    (destruct (decide (collect_side_effects context = [])) as [E'|E'];
      [rewrite !(bool_decide_true (collect_side_effects _ = [])) by done
      |rewrite !(bool_decide_false (collect_side_effects _ = [])) by done]); done.
Qed.

Lemma worker_decision_ok :
  admitted (validate_reflection_decision_field_rules worker_decision) <->
  mac_request_id context <> Some "" /\ mac_goal_id context <> Some "" /\ 0 < reported_at context.
Proof using Hrequest Hsummary.
  destruct Hrequest as [(r & Hr & Hvr) _ _ (g & Hg & Hvg) _ _ _ _ _ _ _].
  destruct (or_else_value (mac_request_id context) _ r Hr) as (rid & Erid & Hrid);
    [by apply visible_non_empty|].
  destruct (or_else_value (mac_goal_id context) _ g Hg) as (gid & Egid & Hgid);
    [by apply visible_non_empty|].
  unfold validate_reflection_decision_field_rules, validate_reflection_decision_boundary,
    validate_reflection_decision_required_fields, decision_kind_missing, worker_decision.
  cbn [rd_request_id rd_decision_kind rd_rationale rd_goal_id rd_confidence
    rd_relevant_observation_refs rd_hint_ref rd_created_at rd_tags].
  rewrite Erid, Egid, admitted_inner, admitted_layer, !guard_test, !admitted_test,
    present_and_non_positive_some, admitted_layer, !admitted_test, !admitted_some.
  cbn [has_non_empty_value present_but_empty].
  rewrite !negb_false_iff, !negb_true_iff, !is_empty_false, <- Hrid, <- Hgid.
  pose proof (failure_summary_non_empty _ _ Hsummary) as Hs.
  destruct (bool_decide (worker_hints = [])); simpl; tauto.
Qed.

Lemma worker_payload :
  exists plan, ob_payload worker_observation = Some plan /\ plan <> "".
Proof using Hrequest.
  destruct Hrequest as [_ _ _ _ (p & Hp & Hv) _ _ _ _ _ _]. exists p. simpl. rewrite Hp.
  split; [done|by apply visible_non_empty].
Qed.

Lemma worker_observation_ok :
  admitted (validate_observation_boundary worker_observation) <-> 0 < reported_at context.
Proof using Hrequest Hsummary.
  destruct worker_payload as (p & Hp & Hne).
  unfold validate_observation_boundary, validate_observation_required_fields, source_missing.
  rewrite Hp. unfold worker_observation, build_observation. rewrite Hsummary. simpl.
  rewrite admitted_layer, !guard_test, !negb_false_iff, negb_true_iff, is_empty_false, guard_passed,
    admitted_some, Z.leb_gt.
  unfold reported_at. simpl. tauto.
Qed.

Lemma worker_correlation_ok :
  gr_ok (validate_observation_source_correlation worker_observation) = true <->
  mac_request_id context <> Some "" /\ mac_goal_id context <> Some "".
Proof using Hrequest.
  destruct Hrequest as [(r & Hr & Hvr) _ _ (g & Hg & Hvg) _ _ _ _ _ _ _].
  destruct (or_else_value (mac_request_id context) _ r Hr) as (rid & Erid & Hrid);
    [by apply visible_non_empty|].
  destruct (or_else_value (mac_goal_id context) _ g Hg) as (gid & Egid & Hgid);
    [by apply visible_non_empty|].
  unfold validate_observation_source_correlation, worker_observation, build_observation. simpl.
  rewrite Erid, Egid, !guard_test. simpl. rewrite !is_empty_false, <- Hrid, <- Hgid. tauto.
Qed.

Lemma worker_error_ok : gr_ok (validate_error_info_required_fields worker_error) = true.
Proof using Hsummary.
  unfold validate_error_info_required_fields, worker_error, build_error_info. simpl.
  by rewrite (proj2 (is_empty_false _) (failure_summary_non_empty _ _ Hsummary)).
Qed.

Lemma worker_source_ok : admitted (validate_error_source worker_error worker_observation).
Proof using.
  unfold validate_error_source. simpl. rewrite bool_decide_true by done. by apply admitted_some.
Qed.

Lemma worker_report_ok :
  gr_ok (validate_idempotency_and_side_effect_report_required_fields worker_report) = true /\
  admitted (validate_idempotency_and_side_effect_report_field_rules worker_report).
Proof using.
  unfold validate_idempotency_and_side_effect_report_field_rules,
    validate_idempotency_and_side_effect_report_required_fields, worker_report. simpl.
  destruct (bool_decide (worker_hints = [])), (bool_decide (collect_side_effects context = []));
    simpl; by rewrite admitted_some.
Qed.

Lemma worker_request_evidence :
  evidence worker_request worker_decision worker_error worker_observation checkpoint worker_report
  <->
  mac_request_id context <> Some "" /\ mac_goal_id context <> Some "" /\
  0 < reported_at context /\ gr_ok (validate_checkpoint_field_rules checkpoint) = true.
Proof using Hrequest Hsummary.
  split.
  - intros [_ Hd _ _ _ _ _ Hcp _ _]. apply worker_decision_ok in Hd. tauto.
  - intros (Hr & Hg & Ht & Hcp). split; try done.
    + by apply worker_decision_ok.
    + apply worker_error_ok.
    + by apply worker_observation_ok.
    + apply worker_report_ok.
Qed.

Lemma worker_admissible :
  admissible worker_request worker_decision worker_error worker_observation checkpoint worker_report
  <-> recovery_context_ok request context checkpoint.
Proof using Hrequest Hsummary.
  assert (forall d other, d = ob_request_id worker_observation ->
    identifiers_align d (ob_request_id worker_observation) other = true <->
    forall id, other = Some id -> ob_request_id worker_observation = Some id) as Hrid.
  { intros d other ->. destruct Hrequest as [(r & Hr & _) _ _ _ _ _ _ _ _ _ _]. simpl.
    destruct (or_else (mac_request_id context) (mrq_parent_request_id request)) eqn:Eo;
      [apply identifiers_align_same|]. rewrite Hr in Eo. by destruct (mac_request_id context). }
  assert (forall d other, d = ob_goal_id worker_observation ->
    identifiers_align d (ob_goal_id worker_observation) other = true <->
    forall id, other = Some id -> ob_goal_id worker_observation = Some id) as Hgid.
  { intros d other ->. destruct Hrequest as [_ _ _ (g & Hg & _) _ _ _ _ _ _ _]. simpl.
    destruct (or_else (mac_goal_id context) (mrq_goal_fragment request)) eqn:Eo;
      [apply identifiers_align_same|]. rewrite Hg in Eo. by destruct (mac_goal_id context). }
  split.
  - intros [Hev _ _ Hst Hrc Hbud _ Hr Hg _ _].
    apply worker_request_evidence in Hev as (H1 & H2 & H3 & H4).
    rewrite (Hrid (rd_request_id worker_decision)) in Hr by done.
    rewrite (Hgid (rd_goal_id worker_decision)) in Hg by done. rewrite retry_conflicts_iff in Hrc.
    by split.
  - intros [H4 Hst Hrc Hbud H1 H2 H3 Hr Hg]. split; try done.
    + by apply worker_request_evidence.
    + simpl. by rewrite Hsummary.
    + simpl. by rewrite Hsummary.
    + by apply retry_conflicts_iff.
    + by apply worker_correlation_ok.
    + by apply Hrid.
    + by apply Hgid.
    + apply worker_source_ok.
    + apply worker_report_ok.
Qed.

End Worker.

(** C24. After a failed round the coordinator asks for recovery exactly when the runtime
    gave it a checkpoint, and the recovery manager answers the request: it lets the agent
    repeat the step exactly when the runtime's part of the request is in order, the budget
    is not exhausted, the checkpoint can be resumed and no call that succeeded reported
    effects; it escalates when the budget is exhausted or there is something to undo; and
    it rejects what is left. The effects that failed calls report play no part. *)
Theorem worker_failure_recovered request context m :
  request_ok request ->
  Z.of_nat (length (mac_tool_results context)) < 2 ^ 64 ->
  match mer_recovery_request (coordinate request context) with
  | None => build_failure_summary context = None \/ mac_checkpoint context = None
  | Some q =>
      is_Some (build_failure_summary context) /\
      exists checkpoint m' plan,
        mac_checkpoint context = Some checkpoint /\ evaluate m q = Some (m', plan) /\
        (executable plan = true <->
         recovery_context_ok request context checkpoint /\ budget_exhausted q = false /\
         rpd_resumable (make_resume_plan checkpoint) = true /\
         Forall (fun tool_result => ~ to_be_undone tool_result) (mac_tool_results context)) /\
        (escalated plan = true <->
         recovery_context_ok request context checkpoint /\
         (budget_exhausted q = true \/
          ~ Forall (fun tool_result => ~ to_be_undone tool_result) (mac_tool_results context)))
  end.
Proof.
  intros Hreq Hlen.
  assert (build_compensation_hints request context = [] <->
    Forall (fun tool_result => ~ to_be_undone tool_result) (mac_tool_results context)) as Hnone
    by (by apply no_worker_hints).
  destruct (mac_checkpoint context) as [cp|] eqn:Hcp.
  2: { simpl. unfold build_recovery_request. rewrite Hcp. by right. }
  destruct (build_failure_summary context) as [summary|] eqn:Hs.
  2: { simpl. unfold build_recovery_request. rewrite Hcp, Hs. by left. }
  rewrite (recovery_request_built _ _ _ _ Hcp Hs). split; [by eexists|].
  pose proof (worker_admissible request context cp summary Hreq Hs) as Hadm.
  set (q := worker_request request context cp summary) in *.
  destruct (evaluate_spec m q) as (m' & plan & He & Hev). exists cp, m', plan.
  split; [done|]. split; [done|]. destruct (evaluation_verdict _ _ _ _ Hev) as [Hx Hy].
  rewrite Hx, Hy. unfold admissible_action, escalating. rewrite <- Hnone.
  fold (worker_hints request context). split; split.
  - intros (d & e & o & cp' & r & kind & Had & Hb & Hk & Hkind).
    destruct (evidence_unique _ _ _ _ _ _ (ad_evidence _ _ _ _ _ _ Had))
      as ([= <-] & [= <-] & [= <-] & [= <-] & [= <-]).
    split; [by apply Hadm|]. split; [done|]. injection Hk as <-. unfold replayable in Hkind. simpl in Hkind.
    destruct (bool_decide (worker_hints request context = [])) eqn:E.
    + apply bool_decide_eq_true in E. by destruct Hkind as [?|(_ & _ & _ & ?)].
    + by destruct Hkind as [?|([?|?] & _)].
  - intros (Hok & Hb & Hres & Hh). do 6 eexists. split; [by apply Hadm|]. split; [done|].
    split; [done|]. right. unfold replayable. simpl. rewrite bool_decide_true by done.
    split_and!; [by right|done|done|done].
  - intros (d & e & o & cp' & r & Had & H).
    destruct (evidence_unique _ _ _ _ _ _ (ad_evidence _ _ _ _ _ _ Had))
      as ([= <-] & [= <-] & [= <-] & [= <-] & [= <-]).
    split; [by apply Hadm|]. destruct H as [?|[= H]]; [by left|right].
    by destruct (bool_decide_reflect (worker_hints request context = [])).
  - intros (Hok & H). do 5 eexists. split; [by apply Hadm|].
    destruct H as [?|H]; [by left|right]. simpl. by rewrite bool_decide_false.
Qed.

(** ** Fold *)

(** Folding the coordinator's report loses nothing the runtime acts on. *)
Lemma fold_of_coordination request context :
  let report := coordinate request context in
  let folded := fold_multi_agent_report_for_runtime report in
  mer_emitted_observations report = option_list (mfr_latest_observation folded) /\
  mfr_compensation_hints folded = mer_compensation_hints report /\
  mfr_recovery_request folded = mer_recovery_request report.
Proof. done. Qed.

(** ** Witnesses *)

Definition sample_worker_request : MultiAgentRequest :=
  {| mrq_parent_request_id := Some "req-7"; mrq_parent_task_id := Some "task-1";
     mrq_goal_fragment := Some "publish the report";
     mrq_plan_fragment := Some "render, then upload";
     mrq_collaboration_mode := Some CollaborationMode.Sequential;
     mrq_worker_budget_guard := None; mrq_permission_guard := None;
     mrq_stop_conditions := None |}.

(** The upload failed after it had written a file. *)
Definition failed_upload : ToolResult :=
  {| tres_request_id := Some "req-7"; tres_tool_call_id := Some "call-1";
     tres_tool_name := Some "upload"; tres_success := Some false; tres_payload := None;
     tres_error := None; tres_side_effects := Some ["file:/srv/report.html"];
     tres_completed_at := None; tres_duration_ms := None; tres_goal_id := None;
     tres_worker_task_id := None; tres_tags := None |}.

Definition sample_worker_context : MultiAgentExecutionContext :=
  {| mac_runtime_instance_id := None; mac_profile_id := None; mac_trace_id := Some "t";
     mac_request_id := None; mac_goal_id := None; mac_policy_snapshot_ref := None;
     mac_parent_checkpoint_ref := None; mac_checkpoint := Some sample_checkpoint;
     mac_runtime_budget_snapshot := None; mac_retry_count := None;
     mac_latest_observation := None; mac_tool_results := [failed_upload];
     mac_allowed_tool_domains := [] |}.

Lemma sample_worker_request_ok : request_ok sample_worker_request.
Proof.
  apply multi_agent_request_guard. eexists. split; [vm_compute; reflexivity|reflexivity].
Qed.

Lemma worker_hints_exact_witness :
  build_compensation_hints sample_worker_request sample_worker_context = [].
Proof.
  apply (proj2 (worker_hints_exact sample_worker_request sample_worker_context ltac:(simpl; lia))).
  repeat constructor. by intros [? _].
Defined.

Lemma coordination_result_valid_witness :
  exists result, mer_multi_agent_result (coordinate sample_worker_request sample_worker_context)
    = Some result /\ admitted (validate_multi_agent_result_field_rules result).
Proof.
  destruct (coordination_result_valid sample_worker_request sample_worker_context
    sample_worker_request_ok) as [_ (result & action & Hr & Ha & H)].
  exists result. split; [exact Hr|]. injection Hr as <-. injection Ha as <-. apply H.
  split; [vm_compute; congruence|]. intros text [= <-]. reflexivity.
Defined.

(** The failed upload is repeated, whose file is there already. *)
Lemma worker_failure_recovered_witness :
  exists q report m' plan,
    mer_recovery_request (coordinate sample_worker_request sample_worker_context) = Some q /\
    rq_idempotency_and_side_effect_report q = Some report /\
    isr_side_effects_present report = Some true /\
    evaluate new_recovery_manager q = Some (m', plan) /\ executable plan = true /\
    rep_planned_action plan = "retry_step".
Proof.
  pose proof (worker_failure_recovered sample_worker_request sample_worker_context
    new_recovery_manager sample_worker_request_ok ltac:(simpl; lia)) as H.
  destruct (mer_recovery_request (coordinate sample_worker_request sample_worker_context))
    as [q|] eqn:Eq; [|destruct H as [H|H]; vm_compute in H; congruence].
  destruct H as (_ & cp & m' & plan & _ & He & Hx & _).
  assert (exists report, rq_idempotency_and_side_effect_report q = Some report /\
    isr_side_effects_present report = Some true) as (report & Hr & Hp).
  { vm_compute in Eq. injection Eq as <-. eexists. split; reflexivity. }
  exists q, report, m', plan. split; [reflexivity|]. split; [exact Hr|]. split; [exact Hp|].
  split; [exact He|].
  assert (exists p, evaluate new_recovery_manager q = Some p /\
    executable (snd p) = true /\ rep_planned_action (snd p) = "retry_step") as (p & He' & H1 & H2).
  { vm_compute in Eq. injection Eq as <-. eexists. split; [vm_compute; reflexivity|].
    split; reflexivity. }
  rewrite He in He'. injection He' as <-. split; [exact H1|exact H2].
Defined.
