(* ===== verification/WorkingMemory.v ===== *)
(** * Working memory

    memory/src/working/WorkingMemoryBoard.cpp: slots of short-lived data by session and
    key, which expire after their time to live and of which a session keeps a limited
    number. Each method holds the board's lock; the clock is an argument of each. *)

From S2P Require Import Prelude Text Ordering.

(** ** Data *)

Record WorkingMemorySlot := {
  wms_key : string;
  wms_value : string;
  wms_updated_at : Z;
  wms_ttl_ms : Z;
  wms_source : string;
}.

Record WorkingMemorySnapshot := {
  wsn_session_id : string;
  wsn_slots : list WorkingMemorySlot;
  wsn_open_questions : list string;
  wsn_ephemeral_facts : list string;
  wsn_snapshot_at : Z;
}.

Record SessionWorkingMemoryState := {
  sws_slots : list WorkingMemorySlot;
  sws_open_questions : list string;
  sws_ephemeral_facts : list string;
}.

(** [SessionWorkingMemoryState{}] *)
Definition empty_session_state : SessionWorkingMemoryState :=
  {| sws_slots := []; sws_open_questions := []; sws_ephemeral_facts := [] |}.

Definition set_slots (state : SessionWorkingMemoryState) (slots : list WorkingMemorySlot)
    : SessionWorkingMemoryState :=
  {| sws_slots := slots; sws_open_questions := sws_open_questions state;
     sws_ephemeral_facts := sws_ephemeral_facts state |}.

Record WorkingMemoryBoard := {
  wmb_max_slots_per_session : nat;
  wmb_sessions : gmap string SessionWorkingMemoryState;
}.

(** [create_working_memory_board(max_slots_per_session)] *)
Definition create_working_memory_board (max_slots_per_session : nat) : WorkingMemoryBoard :=
  {| wmb_max_slots_per_session := Nat.max 1 max_slots_per_session; wmb_sessions := ∅ |}.

Definition set_session (board : WorkingMemoryBoard) (session_id : string)
    (state : SessionWorkingMemoryState) : WorkingMemoryBoard :=
  {| wmb_max_slots_per_session := wmb_max_slots_per_session board;
     wmb_sessions := <[session_id := state]> (wmb_sessions board) |}.

Definition erase_session (board : WorkingMemoryBoard) (session_id : string)
    : WorkingMemoryBoard :=
  {| wmb_max_slots_per_session := wmb_max_slots_per_session board;
     wmb_sessions := delete session_id (wmb_sessions board) |}.

(** ** Slots *)

(** The difference of two [int64_t]s; the times are not negative. *)
Definition is_expired (slot : WorkingMemorySlot) (now_ms : Z) : bool :=
  if (wms_ttl_ms slot <=? 0) || (wms_updated_at slot <=? 0) then false else
  wms_ttl_ms slot <=? now_ms - wms_updated_at slot.

Definition evict_expired_locked (slots : list WorkingMemorySlot) (now_ms : Z)
    : list WorkingMemorySlot :=
  base.filter (fun slot => is_expired slot now_ms = false) slots.

(** The order of [trim_slots_locked]: slots with a time to live first, then the older,
    then the smaller key. *)
Definition slot_order : WorkingMemorySlot -> WorkingMemorySlot -> comparison :=
  then_by (by_number (fun slot => if 0 <? wms_ttl_ms slot then 0 else 1))
    (then_by (by_number wms_updated_at) (by_text wms_key)).

(** [std::min_element]: the position of the first slot that none comes before;
    [best] is the slot at [position], the smallest of those before [index]. *)
Fixpoint min_element (position : nat) (best : WorkingMemorySlot) (index : nat)
    (slots : list WorkingMemorySlot) : nat :=
  match slots with
  | [] => position
  | slot :: slots =>
      if less slot_order slot best then min_element index slot (S index) slots
      else min_element position best (S index) slots
  end.

Definition erase_min (slots : list WorkingMemorySlot) : list WorkingMemorySlot :=
  match slots with
  | [] => []
  | slot :: rest => delete (min_element 0 slot 1 rest) slots
  end.

(** The loop of [trim_slots_locked]; every turn drops one slot. *)
Fixpoint trim_loop (turns : nat) (max_slots : nat) (slots : list WorkingMemorySlot)
    : list WorkingMemorySlot :=
  match turns with
  | O => slots
  | S turns =>
      if (max_slots <? length slots)%nat then trim_loop turns max_slots (erase_min slots)
      else slots
  end.

Definition trim_slots_locked (max_slots : nat) (slots : list WorkingMemorySlot)
    : list WorkingMemorySlot :=
  trim_loop (length slots) max_slots slots.

(** The slot with the same key is replaced in place, a new one goes to the end. *)
Fixpoint put_slot (slots : list WorkingMemorySlot) (slot : WorkingMemorySlot)
    : list WorkingMemorySlot :=
  match slots with
  | [] => [slot]
  | candidate :: slots =>
      if bool_decide (wms_key candidate = wms_key slot) then slot :: slots
      else candidate :: put_slot slots slot
  end.

Definition stamp_slot (slot : WorkingMemorySlot) (now_ms : Z) : WorkingMemorySlot :=
  if wms_updated_at slot <=? 0
  then {| wms_key := wms_key slot; wms_value := wms_value slot; wms_updated_at := now_ms;
          wms_ttl_ms := wms_ttl_ms slot; wms_source := wms_source slot |}
  else slot.

(** ** Operations *)

(** The clock is read twice: to stamp the slot and to evict. *)
Definition set_slot (board : WorkingMemoryBoard) (session_id : string)
    (slot : WorkingMemorySlot) (stamp_ms now_ms : Z) : WorkingMemoryBoard :=
  if is_empty session_id || is_empty (wms_key slot) then board else
  let state := default empty_session_state (wmb_sessions board !! session_id) in
  let slots := put_slot (sws_slots state) (stamp_slot slot stamp_ms) in
  let slots := evict_expired_locked slots now_ms in
  set_session board session_id
    (set_slots state (trim_slots_locked (wmb_max_slots_per_session board) slots)).

Definition find_slot (slots : list WorkingMemorySlot) (key : string)
    : option WorkingMemorySlot :=
  snd <$> list_find (fun candidate => wms_key candidate = key) slots.

Definition get_slot (board : WorkingMemoryBoard) (session_id key : string) (now_ms : Z)
    : option WorkingMemorySlot :=
  let? state := wmb_sessions board !! session_id else None in
  let? slot := find_slot (sws_slots state) key else None in
  if is_expired slot now_ms then None else Some slot.

Definition session_is_empty (state : SessionWorkingMemoryState) : bool :=
  bool_decide (sws_slots state = []) && bool_decide (sws_open_questions state = [])
  && bool_decide (sws_ephemeral_facts state = []).

(** The session with its new state, or none if nothing is left in it. *)
Definition erase_session_if_empty_locked (board : WorkingMemoryBoard) (session_id : string)
    (state : SessionWorkingMemoryState) : WorkingMemoryBoard :=
  if session_is_empty state then erase_session board session_id
  else set_session board session_id state.

Definition remove_slot (board : WorkingMemoryBoard) (session_id key : string)
    : WorkingMemoryBoard :=
  let? state := wmb_sessions board !! session_id else board in
  erase_session_if_empty_locked board session_id
    (set_slots state (base.filter (fun slot => wms_key slot <> key) (sws_slots state))).

Definition clear_session (board : WorkingMemoryBoard) (session_id : string)
    : WorkingMemoryBoard :=
  erase_session board session_id.

(** What has expired is dropped from the board, too. *)
Definition export_snapshot (board : WorkingMemoryBoard) (session_id : string) (now_ms : Z)
    : WorkingMemoryBoard * WorkingMemorySnapshot :=
  let? state := wmb_sessions board !! session_id
    else (board, {| wsn_session_id := session_id; wsn_slots := []; wsn_open_questions := [];
                    wsn_ephemeral_facts := []; wsn_snapshot_at := now_ms |}) in
  let slots := evict_expired_locked (sws_slots state) now_ms in
  (set_session board session_id (set_slots state slots),
   {| wsn_session_id := session_id; wsn_slots := slots;
      wsn_open_questions := sws_open_questions state;
      wsn_ephemeral_facts := sws_ephemeral_facts state; wsn_snapshot_at := now_ms |}).

(** The loop over the slots of a snapshot. *)
Definition restore_slots (slots : list WorkingMemorySlot) (now_ms : Z)
    : list WorkingMemorySlot :=
  foldl (fun slots slot =>
           if is_empty (wms_key slot) then slots else put_slot slots (stamp_slot slot now_ms))
    [] slots.

Definition restore_snapshot (board : WorkingMemoryBoard) (snapshot : WorkingMemorySnapshot)
    (now_ms : Z) : WorkingMemoryBoard :=
  if is_empty (wsn_session_id snapshot) then board else
  let slots := evict_expired_locked (restore_slots (wsn_slots snapshot) now_ms) now_ms in
  erase_session_if_empty_locked board (wsn_session_id snapshot)
    {| sws_slots := trim_slots_locked (wmb_max_slots_per_session board) slots;
       sws_open_questions := wsn_open_questions snapshot;
       sws_ephemeral_facts := wsn_ephemeral_facts snapshot |}.

Definition evict_expired (board : WorkingMemoryBoard) (session_id : string) (now_ms : Z)
    : WorkingMemoryBoard :=
  let? state := wmb_sessions board !! session_id else board in
  erase_session_if_empty_locked board session_id
    (set_slots state (evict_expired_locked (sws_slots state) now_ms)).

(** ** Runs *)

Inductive board_op :=
| SetSlot (session_id : string) (slot : WorkingMemorySlot) (stamp_ms now_ms : Z)
| RemoveSlot (session_id key : string)
| ClearSession (session_id : string)
| ExportSnapshot (session_id : string) (now_ms : Z)
| RestoreSnapshot (snapshot : WorkingMemorySnapshot) (now_ms : Z)
| EvictExpired (session_id : string) (now_ms : Z).

Definition apply_op (board : WorkingMemoryBoard) (op : board_op) : WorkingMemoryBoard :=
  match op with
  | SetSlot session_id slot stamp_ms now_ms => set_slot board session_id slot stamp_ms now_ms
  | RemoveSlot session_id key => remove_slot board session_id key
  | ClearSession session_id => clear_session board session_id
  | ExportSnapshot session_id now_ms => fst (export_snapshot board session_id now_ms)
  | RestoreSnapshot snapshot now_ms => restore_snapshot board snapshot now_ms
  | EvictExpired session_id now_ms => evict_expired board session_id now_ms
  end.

(** The clock is after the epoch whenever it is read to stamp a slot. *)
Definition op_ok (op : board_op) : Prop :=
  match op with
  | SetSlot _ _ stamp_ms _ => 0 < stamp_ms
  | RestoreSnapshot _ now_ms => 0 < now_ms
  | _ => True
  end.

(** ** The order of slots *)

#[export] Instance slot_order_ordering : Ordering slot_order.
Proof. apply _. Qed.

(** Among slots with different keys the order is strict. *)
Lemma slot_order_eq x y : slot_order x y = Eq -> wms_key x = wms_key y.
Proof.
  unfold slot_order, then_by. destruct (by_number _ x y); [|done|done].
  destruct (by_number _ x y); [|done|done]. apply String.compare_eq_iff.
Qed.

Lemma min_element_spec slots : forall position best before,
  before !! position = Some best ->
  (forall x, x ∈ before -> not_after slot_order best x) ->
  exists x, (before ++ slots) !! min_element position best (length before) slots = Some x /\
    forall y, y ∈ before ++ slots -> not_after slot_order x y.
Proof.
  induction slots as [|slot slots IH]; intros position best before Hp Hbest; simpl.
  { exists best. rewrite app_nil_r. done. }
  replace (S (length before)) with (length (before ++ [slot])) by (rewrite length_app; simpl; lia).
  replace (before ++ slot :: slots) with ((before ++ [slot]) ++ slots) by (by rewrite <- app_assoc).
  unfold less. destruct (slot_order slot best) eqn:E.
  - apply IH; [by apply lookup_app_l_Some|]. intros x [Hx|Hx]%elem_of_app; [by apply Hbest|].
    apply list_elem_of_singleton in Hx as ->. unfold not_after. congruence.
  - apply IH; [by apply list_lookup_middle|].
    intros x [Hx|Hx]%elem_of_app; unfold not_after.
    + intros Hlt. apply (Hbest x Hx). by apply (ordering_lt x slot best).
    + apply list_elem_of_singleton in Hx as ->. apply (not_after_refl slot_order).
  - apply IH; [by apply lookup_app_l_Some|]. intros x [Hx|Hx]%elem_of_app; [by apply Hbest|].
    apply list_elem_of_singleton in Hx as ->. unfold not_after. congruence.
Qed.

(** Erasing drops a slot that comes after none of the others. *)
Lemma erase_min_spec slots :
  slots <> [] ->
  exists before x after, slots = before ++ x :: after /\ erase_min slots = before ++ after /\
    forall y, y ∈ slots -> not_after slot_order x y.
Proof.
  destruct slots as [|slot rest]; [done|]. intros _.
  destruct (min_element_spec rest 0 slot [slot]) as (x & Hx & Hmin); [done| |].
  { intros y ->%list_elem_of_singleton. apply (not_after_refl slot_order). }
  simpl in Hx. cbn [erase_min]. set (i := min_element 0 slot 1 rest) in *.
  exists (take i (slot :: rest)), x, (drop (S i) (slot :: rest)).
  split; [by rewrite take_drop_middle|]. split; [by rewrite delete_take_drop|done].
Qed.

(** What is dropped comes, in the order, after nothing that is kept. *)
Definition trims (slots kept : list WorkingMemorySlot) : Prop :=
  sublist kept slots /\
  exists dropped, slots ≡ₚ dropped ++ kept /\
    forall x y, x ∈ dropped -> y ∈ kept -> not_after slot_order x y.

Lemma trim_loop_spec turns max_slots : forall slots,
  (length slots <= turns)%nat ->
  trims slots (trim_loop turns max_slots slots) /\
  length (trim_loop turns max_slots slots) = Nat.min max_slots (length slots).
Proof.
  assert (forall slots, trims slots slots) as Hrefl.
  { intros slots. split; [done|]. exists []. split; [done|]. intros x y Hx. by apply not_elem_of_nil in Hx. }
  induction turns as [|turns IH]; intros slots Hlen; simpl.
  { split; [apply Hrefl|lia]. }
  destruct (Nat.ltb_spec max_slots (length slots)) as [Hlt|Hge]; [|split; [apply Hrefl|lia]].
  destruct (erase_min_spec slots) as (before & x & after & Hs & -> & Hmin);
    [intros ->; simpl in Hlt; lia|].
  assert (length slots = S (length (before ++ after))) as Hl
    by (rewrite Hs, !length_app; simpl; lia).
  destruct (IH (before ++ after)) as [[Hsub (dropped & Hp & Hd)] Hlen']; [lia|].
  set (kept := trim_loop turns max_slots (before ++ after)) in *. split.
  - split; [etrans; [exact Hsub|]; rewrite Hs; apply sublist_app; [done|by constructor]|].
    exists (x :: dropped). split.
    { rewrite Hs, <- Permutation_middle, Hp. done. }
    intros u v [->|Hu]%elem_of_cons Hv; [|by apply Hd].
    apply Hmin. rewrite Hs. apply (elem_of_sublist _ _ _ Hv).
    etrans; [exact Hsub|]. apply sublist_app; [done|by constructor].
  - rewrite Hlen'. lia.
Qed.

Lemma trim_slots_spec max_slots slots :
  trims slots (trim_slots_locked max_slots slots) /\
  length (trim_slots_locked max_slots slots) = Nat.min max_slots (length slots).
Proof. by apply trim_loop_spec. Qed.

Lemma trim_slots_short max_slots slots :
  (length slots <= max_slots)%nat -> trim_slots_locked max_slots slots = slots.
Proof.
  intros H. unfold trim_slots_locked. destruct (length slots) eqn:E; simpl; [done|].
  rewrite E. by rewrite (proj2 (Nat.ltb_ge _ _)) by lia.
Qed.

(** ** Invariant *)

(** The slots of a session: one for each key, every one stamped. *)
Record slots_ok (slots : list WorkingMemorySlot) : Prop := {
  so_keys : NoDup (wms_key <$> slots);
  so_slots : Forall (fun slot => wms_key slot <> "" /\ 0 < wms_updated_at slot) slots;
}.

Record board_ok (board : WorkingMemoryBoard) : Prop := {
  bo_max : (1 <= wmb_max_slots_per_session board)%nat;
  bo_sessions : forall session_id state, wmb_sessions board !! session_id = Some state ->
    slots_ok (sws_slots state) /\
    (length (sws_slots state) <= wmb_max_slots_per_session board)%nat;
}.

Lemma slots_ok_sublist slots kept : sublist kept slots -> slots_ok slots -> slots_ok kept.
Proof.
  intros Hsub [Hk Hs]. split.
  - eapply sublist_NoDup; [exact Hk|]. by apply sublist_fmap.
  - rewrite Forall_forall in *. intros x Hx. apply Hs. by eapply elem_of_sublist.
Qed.

Lemma evict_sublist slots now : sublist (evict_expired_locked slots now) slots.
Proof. apply sublist_filter. Qed.

Lemma trim_sublist max_slots slots : sublist (trim_slots_locked max_slots slots) slots.
Proof. apply trim_slots_spec. Qed.

Lemma trim_length max_slots slots :
  (length (trim_slots_locked max_slots slots) <= max_slots)%nat.
Proof. destruct (trim_slots_spec max_slots slots) as [_ ->]. lia. Qed.

Lemma put_slot_elem slots slot x :
  x ∈ put_slot slots slot -> x = slot \/ x ∈ slots.
Proof.
  induction slots as [|c slots IH]; simpl; [set_solver|].
  case_bool_decide; set_solver.
Qed.

Lemma put_slot_keys slots slot :
  wms_key slot ∈ wms_key <$> slots -> wms_key <$> put_slot slots slot = wms_key <$> slots.
Proof.
  induction slots as [|c slots IH]; [by intros ?%not_elem_of_nil|]. intros Hin. cbn [put_slot].
  destruct (decide (wms_key c = wms_key slot)) as [E|E].
  - rewrite bool_decide_true by done. csimpl. by rewrite E.
  - rewrite bool_decide_false by done. csimpl. f_equal. apply IH.
    by apply elem_of_cons in Hin as [?|?].
Qed.

Lemma put_slot_new slots slot :
  wms_key slot ∉ wms_key <$> slots -> put_slot slots slot = slots ++ [slot].
Proof.
  induction slots as [|c slots IH]; [done|]. csimpl. rewrite not_elem_of_cons. intros [Hne Hin].
  rewrite bool_decide_false by done. by rewrite IH.
Qed.

Lemma put_slot_ok slots slot :
  slots_ok slots -> wms_key slot <> "" -> 0 < wms_updated_at slot -> slots_ok (put_slot slots slot).
Proof.
  intros [Hk Hs] Hkey Ht. split.
  - destruct (decide (wms_key slot ∈ wms_key <$> slots)) as [Hin|Hin].
    { by rewrite put_slot_keys. }
    rewrite put_slot_new, fmap_app by done. apply NoDup_app. split; [done|]. split; [|apply NoDup_singleton].
    by intros x Hx ->%list_elem_of_singleton.
  - rewrite Forall_forall in *. intros x [->|Hx]%put_slot_elem; [done|by apply Hs].
Qed.

Lemma stamp_slot_key slot now : wms_key (stamp_slot slot now) = wms_key slot.
Proof. unfold stamp_slot. by destruct (_ <=? _). Qed.

Lemma stamp_slot_time slot now : 0 < now -> 0 < wms_updated_at (stamp_slot slot now).
Proof. intros H. unfold stamp_slot. destruct (Z.leb_spec (wms_updated_at slot) 0); simpl; lia. Qed.

Lemma stamp_slot_id slot now : 0 < wms_updated_at slot -> stamp_slot slot now = slot.
Proof. intros H. unfold stamp_slot. by rewrite (proj2 (Z.leb_gt _ _)). Qed.

Lemma restore_slots_ok slots now : 0 < now -> slots_ok (restore_slots slots now).
Proof.
  intros Hnow. unfold restore_slots.
  assert (slots_ok []) as Hnil by (split; constructor). revert Hnil.
  generalize (@nil WorkingMemorySlot) as acc.
  induction slots as [|slot slots IH]; intros acc Hacc; [done|]. simpl. apply IH.
  destruct (is_empty (wms_key slot)) eqn:E; [done|].
  apply put_slot_ok; [done|rewrite stamp_slot_key; by apply is_empty_false|].
  by apply stamp_slot_time.
Qed.

(** The slots of a session, none for a session the board does not know. *)
Definition session_slots (board : WorkingMemoryBoard) (session_id : string)
    : list WorkingMemorySlot :=
  from_option sws_slots [] (wmb_sessions board !! session_id).

Lemma session_slots_ok board session_id :
  board_ok board ->
  slots_ok (session_slots board session_id) /\
  (length (session_slots board session_id) <= wmb_max_slots_per_session board)%nat.
Proof.
  intros H. unfold session_slots. destruct (wmb_sessions board !! session_id) as [state|] eqn:E.
  - by apply (bo_sessions _ H _ _ E).
  - simpl. split; [split; constructor|lia].
Qed.

Lemma set_session_ok board session_id state :
  board_ok board -> slots_ok (sws_slots state) ->
  (length (sws_slots state) <= wmb_max_slots_per_session board)%nat ->
  board_ok (set_session board session_id state).
Proof.
  intros [Hm Hs] Hok Hl. split; simpl; [done|]. intros sid s.
  destruct (decide (sid = session_id)) as [->|Hne].
  - rewrite lookup_insert_eq. by intros [= <-].
  - rewrite lookup_insert_ne by done. apply Hs.
Qed.

Lemma erase_session_ok board session_id :
  board_ok board -> board_ok (erase_session board session_id).
Proof. intros [Hm Hs]. split; simpl; [done|]. intros sid s [_ H]%lookup_delete_Some. by apply Hs in H. Qed.

Lemma erase_if_empty_ok board session_id state :
  board_ok board -> slots_ok (sws_slots state) ->
  (length (sws_slots state) <= wmb_max_slots_per_session board)%nat ->
  board_ok (erase_session_if_empty_locked board session_id state).
Proof.
  intros. unfold erase_session_if_empty_locked.
  destruct (session_is_empty state); auto using erase_session_ok, set_session_ok.
Qed.

Lemma sublist_state_ok board session_id state kept :
  board_ok board -> wmb_sessions board !! session_id = Some state ->
  sublist kept (sws_slots state) ->
  slots_ok kept /\ (length kept <= wmb_max_slots_per_session board)%nat.
Proof.
  intros Hb Hl Hsub. destruct (bo_sessions _ Hb _ _ Hl) as [Hok Hlen].
  split; [by eapply slots_ok_sublist|]. apply sublist_length in Hsub. lia.
Qed.

Lemma apply_op_ok board op : board_ok board -> op_ok op -> board_ok (apply_op board op).
Proof.
  intros Hb Hop. destruct op as [sid slot st now|sid key|sid|sid now|snap now|sid now]; simpl in *.
  - unfold set_slot. destruct (is_empty sid || is_empty (wms_key slot)) eqn:E; [done|].
    apply orb_false_iff in E as [_ Hk%is_empty_false].
    apply set_session_ok; [done| |apply trim_length]. simpl.
    eapply slots_ok_sublist; [apply trim_sublist|].
    eapply slots_ok_sublist; [apply evict_sublist|].
    apply put_slot_ok; [|by rewrite stamp_slot_key|by apply stamp_slot_time].
    destruct (session_slots_ok board sid Hb) as [Hok _]. unfold session_slots in Hok.
    destruct (wmb_sessions board !! sid); [done|]. split; constructor.
  - unfold remove_slot. destruct (wmb_sessions board !! sid) as [state|] eqn:E; [|done].
    apply erase_if_empty_ok; [done|..]; eapply (sublist_state_ok _ _ _ _ Hb E), sublist_filter.
  - by apply erase_session_ok.
  - unfold export_snapshot. destruct (wmb_sessions board !! sid) as [state|] eqn:E; [|done].
    apply set_session_ok; [done|..]; eapply (sublist_state_ok _ _ _ _ Hb E), evict_sublist.
  - unfold restore_snapshot. destruct (is_empty _); [done|].
    apply erase_if_empty_ok; [done| |apply trim_length]. simpl.
    eapply slots_ok_sublist; [apply trim_sublist|].
    eapply slots_ok_sublist; [apply evict_sublist|]. by apply restore_slots_ok.
  - unfold evict_expired. destruct (wmb_sessions board !! sid) as [state|] eqn:E; [|done].
    apply erase_if_empty_ok; [done|..]; eapply (sublist_state_ok _ _ _ _ Hb E), evict_sublist.
Qed.

Lemma new_board_ok max_slots : board_ok (create_working_memory_board max_slots).
Proof. split; simpl; [lia|]. intros sid s. by rewrite lookup_empty. Qed.

Lemma apply_op_max board op :
  wmb_max_slots_per_session (apply_op board op) = wmb_max_slots_per_session board.
Proof.
  destruct op; simpl; unfold set_slot, remove_slot, export_snapshot, restore_snapshot,
    evict_expired, erase_session_if_empty_locked; repeat case_match; done.
Qed.

(** In every run each session of the board keeps at most the configured number of
    slots, at least one, no two of a key and none without a key or a time. *)
Theorem board_bounded max_slots ops :
  Forall op_ok ops ->
  let board := foldl apply_op (create_working_memory_board max_slots) ops in
  board_ok board /\ wmb_max_slots_per_session board = Nat.max 1 max_slots.
Proof.
  intros H. generalize (new_board_ok max_slots).
  assert (wmb_max_slots_per_session (create_working_memory_board max_slots)
    = Nat.max 1 max_slots) as Hm by done. revert Hm.
  generalize (create_working_memory_board max_slots).
  induction H as [|op ops Hop _ IH]; intros board Hm Hb; [done|]. simpl.
  apply IH; [by rewrite apply_op_max|by apply apply_op_ok].
Qed.

(** ** Reads *)

#[export] Instance WorkingMemorySlot_eq_dec : EqDecision WorkingMemorySlot.
Proof. solve_decision. Defined.

Lemma find_slot_spec slots key slot :
  slots_ok slots -> find_slot slots key = Some slot <-> slot ∈ slots /\ wms_key slot = key.
Proof.
  intros [Hk _]. unfold find_slot. split.
  - intros (p & Hf & ->)%fmap_Some. destruct p as [i x].
    apply list_find_Some in Hf as (Hi & Hx & _). split; [by eapply list_elem_of_lookup_2|done].
  - intros [Hin Hkey]. destruct (list_find_elem_of (fun c => wms_key c = key) slots slot Hin Hkey)
      as [[i x] Hf]. rewrite Hf. simpl. f_equal.
    apply list_find_Some in Hf as (Hi & Hx & _). apply list_elem_of_lookup_1 in Hin as [j Hj].
    assert (i = j) as ->; [|congruence].
    apply (NoDup_lookup _ _ _ key Hk); rewrite list_lookup_fmap; [rewrite Hi|rewrite Hj]; simpl;
      congruence.
Qed.

Lemma find_slot_none slots key :
  slots_ok slots -> find_slot slots key = None <-> forall x, x ∈ slots -> wms_key x <> key.
Proof.
  intros Hok. split.
  - intros Hf x Hx Hkey. by rewrite (proj2 (find_slot_spec slots key x Hok)) in Hf.
  - intros H. destruct (find_slot slots key) as [x|] eqn:E; [|done].
    apply (find_slot_spec _ _ _ Hok) in E as [Hx Hkey]. by apply H in Hx.
Qed.

(** What a part of the slots says about a key. *)
Lemma find_slot_sublist slots kept key :
  slots_ok slots -> sublist kept slots ->
  find_slot kept key =
  (let? x := find_slot slots key else None in if bool_decide (x ∈ kept) then Some x else None).
Proof.
  intros Hok Hsub. assert (slots_ok kept) as Hok' by (by eapply slots_ok_sublist).
  assert (forall x, x ∈ kept -> x ∈ slots) as Hin by (intros; by eapply elem_of_sublist).
  destruct (find_slot slots key) as [x|] eqn:E.
  - apply (find_slot_spec _ _ _ Hok) in E as [Hx Hk]. case_bool_decide as Hkept.
    + by apply find_slot_spec.
    + apply find_slot_none; [done|]. intros y Hy Hky. apply Hkept.
      assert (find_slot slots key = Some x) as E1 by by apply find_slot_spec.
      assert (find_slot slots key = Some y) as E2 by (apply find_slot_spec; auto). congruence.
  - apply find_slot_none; [done|]. intros y Hy. apply (find_slot_none _ _ Hok); auto.
Qed.

Lemma find_put_slot slots slot key :
  slots_ok slots -> slots_ok (put_slot slots slot) ->
  find_slot (put_slot slots slot) key =
  if bool_decide (key = wms_key slot) then Some slot else find_slot slots key.
Proof.
  intros Hok Hok'.
  assert (slot ∈ put_slot slots slot) as Hin.
  { clear. induction slots as [|c slots IH]; cbn [put_slot]; [by left|].
    case_bool_decide; [by left|by right]. }
  case_bool_decide as E; [by apply find_slot_spec|].
  destruct (find_slot slots key) as [x|] eqn:Ef.
  - apply (find_slot_spec _ _ _ Hok) in Ef as [Hx Hk]. apply find_slot_spec; [done|].
    split; [|done]. assert (wms_key x <> wms_key slot) as Hne by congruence.
    clear -Hx Hne. induction slots as [|c slots IH]; [by apply not_elem_of_nil in Hx|].
    cbn [put_slot]. case_bool_decide as Ec.
    + apply elem_of_cons in Hx as [->|Hx]; [done|by right].
    + apply elem_of_cons in Hx as [->|Hx]; [by left|right; by apply IH].
  - apply find_slot_none; [done|]. intros y [->|Hy]%put_slot_elem; [congruence|].
    by apply (find_slot_none _ _ Hok).
Qed.

Lemma expired_later slot now later :
  now <= later -> is_expired slot now = true -> is_expired slot later = true.
Proof.
  unfold is_expired. destruct (_ || _); [done|]. intros Hle H%Z.leb_le. apply Z.leb_le. lia.
Qed.

Lemma get_slot_find board session_id key now :
  get_slot board session_id key now =
  (let? slot := find_slot (session_slots board session_id) key else None in
   if is_expired slot now then None else Some slot).
Proof. unfold get_slot, session_slots. by destruct (wmb_sessions board !! session_id). Qed.

Lemma session_slots_set board session_id state session_id' :
  session_slots (set_session board session_id state) session_id' =
  if bool_decide (session_id' = session_id) then sws_slots state
  else session_slots board session_id'.
Proof.
  unfold session_slots. simpl. destruct (decide (session_id' = session_id)) as [->|Hne].
  - by rewrite lookup_insert_eq, bool_decide_true.
  - by rewrite lookup_insert_ne, bool_decide_false.
Qed.

Lemma set_slot_slots board session_id slot stamp now :
  session_id <> "" -> wms_key slot <> "" ->
  set_slot board session_id slot stamp now =
  set_session board session_id
    (set_slots (default empty_session_state (wmb_sessions board !! session_id))
       (trim_slots_locked (wmb_max_slots_per_session board)
          (evict_expired_locked
             (put_slot (session_slots board session_id) (stamp_slot slot stamp)) now))).
Proof.
  intros Hs%is_empty_false Hk%is_empty_false. unfold set_slot, session_slots. rewrite Hs, Hk. simpl.
  by destruct (wmb_sessions board !! session_id).
Qed.

Lemma put_slot_length slots slot : (length (put_slot slots slot) <= S (length slots))%nat.
Proof. induction slots as [|c slots IH]; simpl; [lia|]. case_bool_decide; simpl; lia. Qed.

(** After [set_slot] the board reads like a map that was updated at the key, except
    that at most one slot is missing, and only when the session is over its limit: one that
    comes, by time to live, age and key, after none of the slots kept. It can be the
    slot just set. Other sessions read as before. *)
Theorem set_slot_exact board session_id slot stamp now :
  board_ok board -> session_id <> "" -> wms_key slot <> "" -> 0 < stamp ->
  let stored := stamp_slot slot stamp in
  let live := evict_expired_locked (put_slot (session_slots board session_id) stored) now in
  let board' := set_slot board session_id slot stamp now in
  exists dropped,
    (dropped = [] /\ (length live <= wmb_max_slots_per_session board)%nat \/
     (exists x, dropped = [x]) /\ length live = S (wmb_max_slots_per_session board)) /\
    (forall x y, x ∈ dropped -> y ∈ live -> not_after slot_order x y) /\
    (forall key later, now <= later ->
       get_slot board' session_id key later =
       (let? x := (if bool_decide (key = wms_key slot) then Some stored
                   else find_slot (session_slots board session_id) key) else None in
        if is_expired x later || bool_decide (x ∈ dropped) then None else Some x)) /\
    (forall session_id' key later, session_id' <> session_id ->
       get_slot board' session_id' key later = get_slot board session_id' key later).
Proof.
  intros Hb Hs Hk Ht stored live board'.
  destruct (session_slots_ok board session_id Hb) as [Hok Hlen].
  set (old := session_slots board session_id) in *.
  assert (wms_key stored = wms_key slot) as Hkey by apply stamp_slot_key.
  assert (slots_ok (put_slot old stored)) as Hput.
  { apply put_slot_ok; [done|by unfold stored; rewrite stamp_slot_key|by apply stamp_slot_time]. }
  assert (sublist live (put_slot old stored)) as Hlive by apply evict_sublist.
  assert (length live <= S (wmb_max_slots_per_session board))%nat as Hll.
  { apply sublist_length in Hlive. pose proof (put_slot_length old stored). lia. }
  destruct (trim_slots_spec (wmb_max_slots_per_session board) live) as [[Hsub (dropped & Hp & Hd)] Hkl].
  set (kept := trim_slots_locked (wmb_max_slots_per_session board) live) in *.
  assert (length live = length dropped + length kept)%nat as Hll' by (by rewrite Hp, length_app).
  assert (NoDup (dropped ++ kept)) as Hnd.
  { rewrite <- Hp. eapply NoDup_fmap_1. eapply sublist_NoDup; [apply (so_keys _ Hput)|].
    by apply sublist_fmap. }
  assert (board' = set_session board session_id
    (set_slots (default empty_session_state (wmb_sessions board !! session_id)) kept)) as Hboard
    by (by apply set_slot_slots).
  exists dropped. split_and!.
  - destruct dropped as [|x [|y l]]; simpl in *; [left|right|]; [split; [done|lia]| |lia].
    split; [by exists x|lia].
  - intros x y Hx Hy. rewrite Hp in Hy. apply elem_of_app in Hy as [Hy|Hy]; [|by apply Hd].
    destruct dropped as [|x' [|y' l]]; simpl in *; [by apply not_elem_of_nil in Hx| |lia].
    apply list_elem_of_singleton in Hx as ->, Hy as ->. apply (not_after_refl slot_order).
  - intros key later Hle. rewrite get_slot_find, Hboard, session_slots_set, bool_decide_true by done.
    simpl. rewrite (find_slot_sublist (put_slot old stored) kept) by (done || by etrans).
    rewrite find_put_slot, Hkey by done.
    destruct (if bool_decide (key = wms_key slot) then _ else _) as [x|] eqn:Ex; [|done].
    assert (x ∈ put_slot old stored) as Hx.
    { apply (find_slot_spec _ key x Hput). by rewrite find_put_slot, Hkey. }
    destruct (is_expired x later) eqn:Hexp.
    { destruct (bool_decide (x ∈ kept)); [by rewrite Hexp|done]. }
    cbn [orb].
    assert (x ∈ live) as Hxl.
    { apply list_elem_of_filter. split; [|done].
      destruct (is_expired x now) eqn:E; [|done]. by rewrite (expired_later _ _ _ Hle E) in Hexp. }
    rewrite Hp in Hxl. apply NoDup_app in Hnd as (_ & Hdisj & _).
    apply elem_of_app in Hxl as [Hxd|Hxk].
    + rewrite bool_decide_false, bool_decide_true by (done || by apply Hdisj). done.
    + rewrite bool_decide_true, bool_decide_false by (done || by intros ?%Hdisj).
      by rewrite Hexp.
  - intros sid key later Hne. rewrite !get_slot_find, Hboard, session_slots_set.
    by rewrite bool_decide_false.
Qed.

(** ** Snapshots *)

Lemma restore_slots_id slots now :
  slots_ok slots -> restore_slots slots now = slots.
Proof.
  unfold restore_slots.
  enough (forall acc, slots_ok (acc ++ slots) ->
    foldl (fun slots slot => if is_empty (wms_key slot) then slots
                             else put_slot slots (stamp_slot slot now)) acc slots = acc ++ slots)
    as H by (by apply (H [])).
  induction slots as [|slot slots IH]; intros acc Hok; simpl; [by rewrite app_nil_r|].
  pose proof (proj1 (Forall_app _ _ _) (so_slots _ Hok)) as [_ H].
  apply Forall_cons in H as [[Hk%is_empty_false Ht] _]. rewrite Hk, stamp_slot_id by done.
  rewrite put_slot_new; [rewrite IH; [by rewrite <- app_assoc|by rewrite <- app_assoc]|].
  intros Hin. pose proof (so_keys _ Hok) as Hnd. rewrite fmap_app in Hnd.
  apply NoDup_app in Hnd as (_ & Hdisj & _). apply (Hdisj _ Hin). by left.
Qed.

Lemma evict_find slots key now later :
  slots_ok slots -> now <= later ->
  (let? x := find_slot (evict_expired_locked slots now) key else None in
   if is_expired x later then None else Some x) =
  (let? x := find_slot slots key else None in if is_expired x later then None else Some x).
Proof.
  intros Hok Hle. rewrite (find_slot_sublist slots) by (done || apply evict_sublist).
  destruct (find_slot slots key) as [x|] eqn:E; [|done].
  apply (find_slot_spec _ _ _ Hok) in E as [Hx _]. case_bool_decide as Hin; [done|].
  destruct (is_expired x now) eqn:Ex; [by rewrite (expired_later _ _ _ Hle Ex)|].
  exfalso. apply Hin. by apply list_elem_of_filter.
Qed.

(** A session that is exported and restored, on a board with at least the same limit,
    answers every later read as the board it was exported from does. *)
Theorem restore_after_export board board' session_id key now now' later :
  board_ok board -> session_id <> "" ->
  (wmb_max_slots_per_session board <= wmb_max_slots_per_session board')%nat ->
  now <= now' -> now' <= later ->
  get_slot (restore_snapshot board' (snd (export_snapshot board session_id now)) now')
    session_id key later
  = get_slot board session_id key later.
Proof.
  intros Hb Hs Hm H1 H2. destruct (session_slots_ok board session_id Hb) as [Hok Hlen].
  assert (exists questions facts, snd (export_snapshot board session_id now) =
    {| wsn_session_id := session_id;
       wsn_slots := evict_expired_locked (session_slots board session_id) now;
       wsn_open_questions := questions; wsn_ephemeral_facts := facts; wsn_snapshot_at := now |})
    as (questions & facts & ->).
  { unfold export_snapshot, session_slots. destruct (wmb_sessions board !! session_id);
      by do 2 eexists. }
  set (slots := session_slots board session_id) in *.
  assert (slots_ok (evict_expired_locked slots now)) as Hev
    by (eapply slots_ok_sublist; [apply evict_sublist|done]).
  unfold restore_snapshot. simpl. rewrite (proj2 (is_empty_false _) Hs).
  rewrite restore_slots_id, trim_slots_short by
    (done || (pose proof (sublist_length _ _ (evict_sublist slots now));
              pose proof (sublist_length _ _ (evict_sublist (evict_expired_locked slots now) now'));
              lia)).
  rewrite !get_slot_find. fold slots. rewrite <- (evict_find slots key now later) by (done || lia).
  rewrite <- (evict_find (evict_expired_locked slots now) key now' later) by (done || lia).
  unfold erase_session_if_empty_locked, session_is_empty. simpl.
  case_bool_decide as E; cbn [andb]; [|by rewrite session_slots_set, bool_decide_true].
  rewrite E. destruct (bool_decide (questions = []) && bool_decide (facts = [])).
  - unfold session_slots. simpl. by rewrite lookup_delete_eq.
  - by rewrite session_slots_set, bool_decide_true.
Qed.

(** ** Witnesses *)

Definition sample_slot (key : string) (ttl_ms : Z) : WorkingMemorySlot :=
  {| wms_key := key; wms_value := "v"; wms_updated_at := 0; wms_ttl_ms := ttl_ms;
     wms_source := "test" |}.

Definition sample_board : WorkingMemoryBoard :=
  set_slot (create_working_memory_board 1) "s-1" (sample_slot "goal" 0) 10 10.

Lemma sample_board_ok : board_ok sample_board.
Proof. apply (apply_op_ok _ (SetSlot "s-1" (sample_slot "goal" 0) 10 10)); [apply new_board_ok|simpl; lia]. Qed.

(** A slot with a time to live does not get into a session full of slots without one. *)
Example short_lived_slot_lost :
  get_slot (set_slot sample_board "s-1" (sample_slot "hint" 1000) 20 20) "s-1" "hint" 20 = None.
Proof. vm_compute. reflexivity. Qed.

Lemma board_bounded_witness :
  board_ok (foldl apply_op (create_working_memory_board 0)
    [SetSlot "s-1" (sample_slot "goal" 0) 10 10; SetSlot "s-1" (sample_slot "hint" 5) 11 11;
     EvictExpired "s-1" 20]).
Proof.
  apply (board_bounded 0 [SetSlot "s-1" (sample_slot "goal" 0) 10 10;
    SetSlot "s-1" (sample_slot "hint" 5) 11 11; EvictExpired "s-1" 20]).
  repeat constructor.
Defined.

Lemma set_slot_exact_witness :
  exists dropped : list WorkingMemorySlot, length dropped = 1%nat /\
    get_slot (set_slot sample_board "s-1" (sample_slot "hint" 1000) 20 20) "s-2" "goal" 30 = None.
Proof.
  destruct (set_slot_exact sample_board "s-1" (sample_slot "hint" 1000) 20 20 sample_board_ok)
    as (dropped & [[_ H]|[[x ->] _]] & _ & _ & Hother); [done|done|lia| |].
  - vm_compute in H. lia.
  - exists [x]. split; [reflexivity|]. rewrite Hother by done. vm_compute. reflexivity.
Defined.

Lemma restore_after_export_witness :
  get_slot (restore_snapshot (create_working_memory_board 4)
              (snd (export_snapshot sample_board "s-1" 11)) 12) "s-1" "goal" 13
  = get_slot sample_board "s-1" "goal" 13.
Proof. apply restore_after_export; [apply sample_board_ok|done|simpl; lia|lia|lia]. Defined.
