(* ===== verification/MemoryContracts.v ===== *)
(** * Memory contracts

    contracts/include/memory/{Session,Turn,SummaryMemory,MemoryFact,ExperienceMemory}.h:
    the records the memory keeps, with their guards, and the names of fields they must
    not have. [turn_guard_spec] and its likes say what the guards admit. *)

From S2P Require Import Prelude CheckpointContracts RecoveryContracts.

(** ** Data *)

Record Session := {
  ses_session_id : option string;
  ses_turn_ids : option (list string);
  ses_user_id : option string;
  ses_latest_summary_memory_ref : option string;
  ses_metadata_digest : option string;
  ses_created_at : option Z;
  ses_last_active_at : option Z;
  ses_tags : option (list string);
}.

Record Turn := {
  tn_turn_id : option string;
  tn_session_id : option string;
  tn_user_input : option string;
  tn_agent_response : option string;
  tn_tool_call_refs : option (list string);
  tn_observation_refs : option (list string);
  tn_summary_memory_ref : option string;
  tn_created_at : option Z;
  tn_tags : option (list string);
}.

Record SummaryMemory := {
  sm_summary_id : option string;
  sm_session_id : option string;
  sm_summary_text : option string;
  sm_source_turn_ids : option (list string);
  sm_decisions_made : option (list string);
  sm_confirmed_facts : option (list string);
  sm_tool_outcomes : option (list string);
  sm_created_at : option Z;
  sm_tags : option (list string);
}.

Record MemoryFact := {
  mf_fact_id : option string;
  mf_session_id : option string;
  mf_fact_text : option string;
  mf_source_turn_ids : option (list string);
  mf_confidence_score : option Z;
  mf_created_at : option Z;
  mf_fact_type : option string;
  mf_source_observation_refs : option (list string);
  mf_valid_until : option Z;
  mf_superseded_by_fact_id : option string;
  mf_evidence_digest : option string;
  mf_tags : option (list string);
}.

Record ExperienceMemory := {
  xm_experience_id : option string;
  xm_session_id : option string;
  xm_lesson_summary : option string;
  xm_trigger_condition : option string;
  xm_recommended_action : option string;
  xm_created_at : option Z;
  xm_source_fact_ids : option (list string);
  xm_source_turn_ids : option (list string);
  xm_effectiveness_score : option Z;
  xm_applicable_domains : option (list string);
  xm_risk_notes : option string;
  xm_expires_at : option Z;
  xm_superseded_by_experience_id : option string;
  xm_tags : option (list string);
}.

(** ** Vectors of strings

    The nested loops over a vector: each item is tested for being empty, then against
    those behind it. *)

Fixpoint validate_string_items (empty_item duplicate : string) (items : list string)
    : GuardResult :=
  match items with
  | [] => guard_pass "vector validation passed"
  | item :: rest =>
      if is_empty item then guard_fail empty_item else
      if existsb (fun probe => bool_decide (item = probe)) rest then guard_fail duplicate else
      validate_string_items empty_item duplicate rest
  end.

Definition validate_optional_string_vector (values : option (list string))
    (none empty_item duplicate : string) : GuardResult :=
  let? values := values else guard_pass "optional vector absent" in
  if bool_decide (values = []) then guard_fail none else
  validate_string_items empty_item duplicate values.

(** ** Turn *)

Definition validate_turn_required_fields (turn : Turn) : GuardResult :=
  if negb (has_non_empty_value (tn_turn_id turn))
  then guard_fail "turn_id is required and must be non-empty" else
  if negb (has_non_empty_value (tn_session_id turn))
  then guard_fail "session_id is required and must be non-empty" else
  if negb (has_non_empty_value (tn_user_input turn))
  then guard_fail "user_input is required and must be non-empty" else
  if missing_or_non_positive (tn_created_at turn)
  then guard_fail "created_at is required and must be a positive timestamp" else
  guard_pass "all required turn fields present".

Definition validate_turn_boundary (turn : Turn) : GuardResult :=
  let required_result := validate_turn_required_fields turn in
  if negb (gr_ok required_result) then required_result else
  if present_but_empty (tn_summary_memory_ref turn)
  then guard_fail "summary_memory_ref must be non-empty when present" else
  guard_pass "turn boundary validation passed".

Definition validate_turn_field_rules (turn : Turn) : GuardResult :=
  let boundary_result := validate_turn_boundary turn in
  if negb (gr_ok boundary_result) then boundary_result else
  if present_but_empty (tn_agent_response turn)
  then guard_fail "agent_response must be non-empty when present" else
  let tool_calls_result := validate_optional_string_vector (tn_tool_call_refs turn)
    "tool_call_refs must contain at least one item when present"
    "tool_call_refs must not contain empty strings"
    "tool_call_refs must not contain duplicate items" in
  if negb (gr_ok tool_calls_result) then tool_calls_result else
  let observations_result := validate_optional_string_vector (tn_observation_refs turn)
    "observation_refs must contain at least one item when present"
    "observation_refs must not contain empty strings"
    "observation_refs must not contain duplicate items" in
  if negb (gr_ok observations_result) then observations_result else
  let tags_result := validate_optional_string_vector (tn_tags turn)
    "tags must contain at least one item when present"
    "tags must not contain empty strings" "tags must not contain duplicate items" in
  if negb (gr_ok tags_result) then tags_result else
  guard_pass "turn field rules validation passed".

(** ** Session *)

Definition validate_session_required_fields (session : Session) : GuardResult :=
  if negb (has_non_empty_value (ses_session_id session))
  then guard_fail "session_id is required and must be non-empty" else
  if bool_decide (ses_turn_ids session = None)
  then guard_fail "turn_ids is required (use an empty vector for a new session)" else
  if missing_or_non_positive (ses_created_at session)
  then guard_fail "created_at is required and must be a positive timestamp" else
  guard_pass "all required session fields present".

(** [a.has_value() && *a < b] *)
Definition present_and_before (value : option Z) (bound : Z) : bool :=
  match value with Some v => v <? bound | None => false end.

Definition validate_session_boundary (session : Session) : option GuardResult :=
  let required_result := validate_session_required_fields session in
  if negb (gr_ok required_result) then Some required_result else
  let? created_at := ses_created_at session else None in
  if present_and_before (ses_last_active_at session) created_at
  then Some (guard_fail "last_active_at must not be earlier than created_at") else
  if present_but_empty (ses_latest_summary_memory_ref session)
  then Some (guard_fail "latest_summary_memory_ref must be non-empty when present") else
  Some (guard_pass "session boundary validation passed").

(** The turn ids are tested for empty ones first, then for duplicates. *)
Definition validate_session_field_rules (session : Session) : option GuardResult :=
  let? boundary_result := validate_session_boundary session else None in
  if negb (gr_ok boundary_result) then Some boundary_result else
  let? turn_ids := ses_turn_ids session else None in
  if existsb is_empty turn_ids
  then Some (guard_fail "turn_ids must not contain empty strings") else
  if has_duplicates turn_ids
  then Some (guard_fail "turn_ids must not contain duplicate items") else
  if present_but_empty (ses_user_id session)
  then Some (guard_fail "user_id must be non-empty when present") else
  if present_but_empty (ses_metadata_digest session)
  then Some (guard_fail "metadata_digest must be non-empty when present") else
  let tags_result := validate_optional_string_vector (ses_tags session)
    "tags must contain at least one item when present"
    "tags must not contain empty strings" "tags must not contain duplicate items" in
  if negb (gr_ok tags_result) then Some tags_result else
  Some (guard_pass "session field rules validation passed").

(** ** Summary *)

Definition validate_summary_memory_required_fields (memory : SummaryMemory) : GuardResult :=
  if negb (has_non_empty_value (sm_summary_id memory))
  then guard_fail "summary_id is required and must be non-empty" else
  if negb (has_non_empty_value (sm_session_id memory))
  then guard_fail "session_id is required and must be non-empty" else
  if negb (has_non_empty_value (sm_summary_text memory))
  then guard_fail "summary_text is required and must be non-empty" else
  if missing_or_non_positive (sm_created_at memory)
  then guard_fail "created_at is required and must be a positive timestamp" else
  guard_pass "all required summary memory fields present".

Definition validate_summary_memory_boundary (memory : SummaryMemory) : GuardResult :=
  let required_result := validate_summary_memory_required_fields memory in
  if negb (gr_ok required_result) then required_result else
  guard_pass "summary memory boundary validation passed".

(** Each of the vectors, under its field's name. *)
Fixpoint validate_vectors (empty_item : string)
    (vectors : list (string * option (list string))) (passed : GuardResult) : GuardResult :=
  match vectors with
  | [] => passed
  | (name, values) :: vectors =>
      let result := validate_optional_string_vector values
        (name +:+ " must contain at least one item when present") empty_item
        (name +:+ " must not contain duplicate items") in
      if negb (gr_ok result) then result else validate_vectors empty_item vectors passed
  end.

Definition validate_summary_memory_field_rules (memory : SummaryMemory) : GuardResult :=
  let boundary_result := validate_summary_memory_boundary memory in
  if negb (gr_ok boundary_result) then boundary_result else
  validate_vectors "summary memory vectors must not contain empty strings"
    [("source_turn_ids", sm_source_turn_ids memory); ("decisions_made", sm_decisions_made memory);
     ("confirmed_facts", sm_confirmed_facts memory); ("tool_outcomes", sm_tool_outcomes memory);
     ("tags", sm_tags memory)]
    (guard_pass "summary memory field rules validation passed").

(** ** Fact *)

Definition validate_memory_fact_required_fields (fact : MemoryFact) : GuardResult :=
  if negb (has_non_empty_value (mf_fact_id fact))
  then guard_fail "fact_id is required and must be non-empty" else
  if negb (has_non_empty_value (mf_session_id fact))
  then guard_fail "session_id is required and must be non-empty" else
  if negb (has_non_empty_value (mf_fact_text fact))
  then guard_fail "fact_text is required and must be non-empty" else
  if match mf_source_turn_ids fact with Some ids => bool_decide (ids = []) | None => true end
  then guard_fail "source_turn_ids is required and must contain at least one item" else
  if match mf_confidence_score fact with Some score => 100 <? score | None => true end
  then guard_fail "confidence_score is required and must be in [0, 100]" else
  if missing_or_non_positive (mf_created_at fact)
  then guard_fail "created_at is required and must be a positive timestamp" else
  guard_pass "all required memory fact fields present".

(** [a.has_value() && *a <= b] *)
Definition present_and_not_after (value : option Z) (bound : Z) : bool :=
  match value with Some v => v <=? bound | None => false end.

Definition validate_memory_fact_boundary (fact : MemoryFact) : option GuardResult :=
  let required_result := validate_memory_fact_required_fields fact in
  if negb (gr_ok required_result) then Some required_result else
  let? created_at := mf_created_at fact else None in
  if present_and_not_after (mf_valid_until fact) created_at
  then Some (guard_fail "valid_until must be later than created_at when present") else
  if present_but_empty (mf_superseded_by_fact_id fact)
  then Some (guard_fail "superseded_by_fact_id must be non-empty when present") else
  Some (guard_pass "memory fact boundary validation passed").

Definition validate_memory_fact_field_rules (fact : MemoryFact) : option GuardResult :=
  let? boundary_result := validate_memory_fact_boundary fact else None in
  if negb (gr_ok boundary_result) then Some boundary_result else
  let empty_item := "memory fact vectors must not contain empty strings" in
  let missing := "source_turn_ids is required and must contain at least one item" in
  let source_turns_result :=
    let? ids := mf_source_turn_ids fact else guard_fail missing in
    validate_optional_string_vector (Some ids) missing empty_item
      "source_turn_ids must not contain duplicate items" in
  if negb (gr_ok source_turns_result) then Some source_turns_result else
  let vectors_result := validate_vectors empty_item
    [("source_observation_refs", mf_source_observation_refs fact); ("tags", mf_tags fact)]
    (guard_pass "") in
  if negb (gr_ok vectors_result) then Some vectors_result else
  if present_but_empty (mf_fact_type fact)
  then Some (guard_fail "fact_type must be non-empty when present") else
  if present_but_empty (mf_evidence_digest fact)
  then Some (guard_fail "evidence_digest must be non-empty when present") else
  Some (guard_pass "memory fact field rules validation passed").

(** ** Experience *)

Definition validate_experience_memory_required_fields (experience : ExperienceMemory)
    : GuardResult :=
  if negb (has_non_empty_value (xm_experience_id experience))
  then guard_fail "experience_id is required and must be non-empty" else
  if negb (has_non_empty_value (xm_session_id experience))
  then guard_fail "session_id is required and must be non-empty" else
  if negb (has_non_empty_value (xm_lesson_summary experience))
  then guard_fail "lesson_summary is required and must be non-empty" else
  if negb (has_non_empty_value (xm_trigger_condition experience))
  then guard_fail "trigger_condition is required and must be non-empty" else
  if negb (has_non_empty_value (xm_recommended_action experience))
  then guard_fail "recommended_action is required and must be non-empty" else
  if missing_or_non_positive (xm_created_at experience)
  then guard_fail "created_at is required and must be a positive timestamp" else
  guard_pass "all required experience memory fields present".

Definition validate_experience_memory_boundary (experience : ExperienceMemory)
    : option GuardResult :=
  let required_result := validate_experience_memory_required_fields experience in
  if negb (gr_ok required_result) then Some required_result else
  let? created_at := xm_created_at experience else None in
  if present_and_not_after (xm_expires_at experience) created_at
  then Some (guard_fail "expires_at must be later than created_at when present") else
  if match xm_effectiveness_score experience with Some score => 100 <? score | None => false end
  then Some (guard_fail "effectiveness_score must be in [0, 100] when present") else
  if present_but_empty (xm_superseded_by_experience_id experience)
  then Some (guard_fail "superseded_by_experience_id must be non-empty when present") else
  Some (guard_pass "experience memory boundary validation passed").

Definition validate_experience_memory_field_rules (experience : ExperienceMemory)
    : option GuardResult :=
  let? boundary_result := validate_experience_memory_boundary experience else None in
  if negb (gr_ok boundary_result) then Some boundary_result else
  let vectors_result :=
    validate_vectors "experience memory vectors must not contain empty strings"
      [("source_fact_ids", xm_source_fact_ids experience);
       ("source_turn_ids", xm_source_turn_ids experience);
       ("applicable_domains", xm_applicable_domains experience); ("tags", xm_tags experience)]
      (guard_pass "") in
  if negb (gr_ok vectors_result) then Some vectors_result else
  if present_but_empty (xm_risk_notes experience)
  then Some (guard_fail "risk_notes must be non-empty when present") else
  Some (guard_pass "experience memory field rules validation passed").

(** ** Field names

    A record's forbidden names come in three groups, each with the decision and the
    reason it is refused with. *)

Module MemoryBoundaryDecision.
Inductive MemoryBoundaryDecision :=
| AllowField | RejectCheckpointField | RejectSessionContextField | RejectExecutionRecordField
| RejectRuntimeControlField | RejectProviderPayloadField | RejectPromptProviderField.
End MemoryBoundaryDecision.
Abbreviation MemoryBoundaryDecision := MemoryBoundaryDecision.MemoryBoundaryDecision.

Record MemoryFieldBoundaryResult := {
  mfb_allowed : bool;
  mfb_decision : MemoryBoundaryDecision;
  mfb_reason : string;
}.

Fixpoint evaluate_boundary (groups : list (list string * MemoryBoundaryDecision * string))
    (allowed_reason field_name : string) : MemoryFieldBoundaryResult :=
  match groups with
  | [] => {| mfb_allowed := true; mfb_decision := MemoryBoundaryDecision.AllowField;
             mfb_reason := allowed_reason |}
  | (forbidden, decision, reason) :: groups =>
      if existsb (fun forbidden_field => bool_decide (field_name = forbidden_field)) forbidden
      then {| mfb_allowed := false; mfb_decision := decision; mfb_reason := reason |}
      else evaluate_boundary groups allowed_reason field_name
  end.

Definition kTurnCheckpointForbiddenFields : list string :=
  ["checkpoint_id"; "state"; "pending_action"; "working_memory_snapshot"; "retry_count"].
Definition kTurnSessionContextForbiddenFields : list string :=
  ["current_goal_summary"; "recent_history"; "policy_digest"; "token_budget_report";
   "belief_state_summary"].
Definition kTurnExecutionRecordForbiddenFields : list string :=
  ["payload"; "error"; "side_effects"; "provider_payload"].

Definition evaluate_turn_field_boundary : string -> MemoryFieldBoundaryResult :=
  evaluate_boundary
    [(kTurnCheckpointForbiddenFields, MemoryBoundaryDecision.RejectCheckpointField,
      "turn must not contain checkpoint or recovery fields");
     (kTurnSessionContextForbiddenFields, MemoryBoundaryDecision.RejectSessionContextField,
      "turn must not contain session-context or context-packet assembly fields");
     (kTurnExecutionRecordForbiddenFields, MemoryBoundaryDecision.RejectExecutionRecordField,
      "turn must not contain raw execution payload fields")]
    "turn field is allowed by WP05-T006".

Definition kSummaryMemorySessionContextForbiddenFields : list string :=
  ["current_goal_summary"; "recent_history"; "policy_digest"; "token_budget_report";
   "belief_state_summary"].
Definition kSummaryMemoryCheckpointForbiddenFields : list string :=
  ["checkpoint_id"; "state"; "pending_action"; "working_memory_snapshot"; "retry_count"].
Definition kSummaryMemoryExecutionRecordForbiddenFields : list string :=
  ["payload"; "error"; "side_effects"; "provider_payload"].

Definition evaluate_summary_memory_field_boundary : string -> MemoryFieldBoundaryResult :=
  evaluate_boundary
    [(kSummaryMemorySessionContextForbiddenFields,
      MemoryBoundaryDecision.RejectSessionContextField,
      "summary memory must not contain session-context or context-packet assembly fields");
     (kSummaryMemoryCheckpointForbiddenFields, MemoryBoundaryDecision.RejectCheckpointField,
      "summary memory must not contain checkpoint or recovery fields");
     (kSummaryMemoryExecutionRecordForbiddenFields,
      MemoryBoundaryDecision.RejectExecutionRecordField,
      "summary memory must not contain raw execution payload fields")]
    "summary memory field is allowed by WP05-T006".

Definition kSessionSessionContextForbiddenFields : list string :=
  ["active_goal"; "skill_profile"; "planner_state"; "visible_tools"; "policy_digest"].
Definition kSessionRuntimeControlForbiddenFields : list string :=
  ["fsm_state"; "retry_after_ms"; "scheduler_slot"; "recovery_action"].
Definition kSessionCheckpointForbiddenFields : list string :=
  ["checkpoint_id"; "pending_action"; "working_memory_snapshot"; "retry_count"].

Definition evaluate_session_field_boundary : string -> MemoryFieldBoundaryResult :=
  evaluate_boundary
    [(kSessionSessionContextForbiddenFields, MemoryBoundaryDecision.RejectSessionContextField,
      "session must not contain SessionContext-owned fields");
     (kSessionRuntimeControlForbiddenFields, MemoryBoundaryDecision.RejectRuntimeControlField,
      "session must not contain runtime control or FSM fields");
     (kSessionCheckpointForbiddenFields, MemoryBoundaryDecision.RejectCheckpointField,
      "session must not contain checkpoint or recovery fields")]
    "session field is allowed by WP05-T006".

Definition kMemoryFactSessionContextForbiddenFields : list string :=
  ["recent_history"; "current_goal_summary"; "policy_digest"; "belief_state_summary"].
Definition kMemoryFactRuntimeControlForbiddenFields : list string :=
  ["fsm_state"; "retry_count"; "pending_action"; "scheduler_slot"].
Definition kMemoryFactProviderPayloadForbiddenFields : list string :=
  ["provider_payload"; "rendered_prompt"; "raw_embedding"; "token_logprobs"].

Definition evaluate_memory_fact_field_boundary : string -> MemoryFieldBoundaryResult :=
  evaluate_boundary
    [(kMemoryFactSessionContextForbiddenFields, MemoryBoundaryDecision.RejectSessionContextField,
      "memory fact must not contain SessionContext/ContextPacket fields");
     (kMemoryFactRuntimeControlForbiddenFields, MemoryBoundaryDecision.RejectRuntimeControlField,
      "memory fact must not contain runtime control fields");
     (kMemoryFactProviderPayloadForbiddenFields,
      MemoryBoundaryDecision.RejectProviderPayloadField,
      "memory fact must not contain provider payload fields")]
    "memory fact field is allowed by WP05-T007".

Definition kExperienceMemoryRuntimeControlForbiddenFields : list string :=
  ["fsm_state"; "retry_after_ms"; "recovery_action"; "scheduler_slot"].
Definition kExperienceMemoryPromptProviderForbiddenFields : list string :=
  ["rendered_prompt"; "provider_payload"; "model_route"; "temperature"].
Definition kExperienceMemoryCheckpointForbiddenFields : list string :=
  ["checkpoint_id"; "pending_action"; "working_memory_snapshot"; "retry_count"].

Definition evaluate_experience_memory_field_boundary : string -> MemoryFieldBoundaryResult :=
  evaluate_boundary
    [(kExperienceMemoryRuntimeControlForbiddenFields,
      MemoryBoundaryDecision.RejectRuntimeControlField,
      "experience memory must not contain runtime control fields");
     (kExperienceMemoryPromptProviderForbiddenFields,
      MemoryBoundaryDecision.RejectPromptProviderField,
      "experience memory must not contain prompt/provider fields");
     (kExperienceMemoryCheckpointForbiddenFields, MemoryBoundaryDecision.RejectCheckpointField,
      "experience memory must not contain checkpoint fields")]
    "experience memory field is allowed by WP05-T007".

(** [validate_turn_forbidden_field], [validate_summary_memory_forbidden_field] and
    [validate_session_forbidden_field] hand on one of these. *)
Definition validate_forbidden_field (evaluate : string -> MemoryFieldBoundaryResult)
    (field_name : string) : GuardResult :=
  let result := evaluate field_name in
  {| gr_ok := mfb_allowed result; gr_reason := mfb_reason result |}.

(** ** What the guards admit *)

(** A vector that is absent, or has items, none empty and no two equal. *)
Definition items_distinct (values : option (list string)) : Prop :=
  forall items, values = Some items -> items <> [] /\ Forall (fun s => s <> "") items /\ NoDup items.

Definition positive_time (value : option Z) : Prop := exists t, value = Some t /\ 0 < t.

Lemma no_equal_item (item : string) rest :
  existsb (fun probe => bool_decide (item = probe)) rest = false <-> item ∉ rest.
Proof.
  induction rest as [|probe rest IH]; simpl; [by split; [intros _; apply not_elem_of_nil|]|].
  rewrite orb_false_iff, bool_decide_eq_false, IH, not_elem_of_cons. done.
Qed.

Lemma string_items_ok a b items :
  gr_ok (validate_string_items a b items) = true <->
  Forall (fun s => s <> "") items /\ NoDup items.
Proof.
  induction items as [|item rest IH]; simpl; [by repeat constructor|].
  rewrite !guard_test, IH, Forall_cons, NoDup_cons, no_equal_item, is_empty_false. tauto.
Qed.

Lemma string_vector_ok values a b c :
  gr_ok (validate_optional_string_vector values a b c) = true <-> items_distinct values.
Proof.
  unfold validate_optional_string_vector, items_distinct. destruct values as [items|].
  - rewrite guard_test, string_items_ok, bool_decide_eq_false. naive_solver.
  - naive_solver.
Qed.

Lemma vectors_ok empty_item vectors passed :
  gr_ok (validate_vectors empty_item vectors passed) = true <->
  Forall (fun '(_, values) => items_distinct values) vectors /\ gr_ok passed = true.
Proof.
  induction vectors as [|[name values] vectors IH]; cbn [validate_vectors].
  { split; [by intros ?|tauto]. }
  rewrite guard_layer, string_vector_ok, IH, Forall_cons. tauto.
Qed.

Lemma missing_or_non_positive_time value :
  missing_or_non_positive value = false <-> positive_time value.
Proof.
  unfold missing_or_non_positive, positive_time. destruct value as [t|];
    [rewrite Z.leb_gt|]; naive_solver.
Qed.

Lemma turn_guard_spec turn :
  gr_ok (validate_turn_field_rules turn) = true <->
  has_non_empty_value (tn_turn_id turn) = true /\
  has_non_empty_value (tn_session_id turn) = true /\
  has_non_empty_value (tn_user_input turn) = true /\ positive_time (tn_created_at turn) /\
  tn_summary_memory_ref turn <> Some "" /\ tn_agent_response turn <> Some "" /\
  items_distinct (tn_tool_call_refs turn) /\ items_distinct (tn_observation_refs turn) /\
  items_distinct (tn_tags turn).
Proof.
  unfold validate_turn_field_rules, validate_turn_boundary, validate_turn_required_fields.
  rewrite !guard_layer, !guard_test, !guard_layer, !negb_false_iff, !string_vector_ok,
    !present_but_empty_false, missing_or_non_positive_time, guard_passed. tauto.
Qed.

Lemma summary_guard_spec memory :
  gr_ok (validate_summary_memory_field_rules memory) = true <->
  has_non_empty_value (sm_summary_id memory) = true /\
  has_non_empty_value (sm_session_id memory) = true /\
  has_non_empty_value (sm_summary_text memory) = true /\ positive_time (sm_created_at memory) /\
  items_distinct (sm_source_turn_ids memory) /\ items_distinct (sm_decisions_made memory) /\
  items_distinct (sm_confirmed_facts memory) /\ items_distinct (sm_tool_outcomes memory) /\
  items_distinct (sm_tags memory).
Proof.
  unfold validate_summary_memory_field_rules, validate_summary_memory_boundary,
    validate_summary_memory_required_fields.
  rewrite !guard_layer, !guard_test, !negb_false_iff, vectors_ok, missing_or_non_positive_time,
    !guard_passed, !Forall_cons, Forall_nil. tauto.
Qed.

Lemma present_and_not_after_false value bound :
  present_and_not_after value bound = false <-> forall v, value = Some v -> bound < v.
Proof.
  unfold present_and_not_after. destruct value as [v|]; [rewrite Z.leb_gt|]; naive_solver.
Qed.

Lemma fact_required_spec fact :
  gr_ok (validate_memory_fact_required_fields fact) = true <->
  has_non_empty_value (mf_fact_id fact) = true /\
  has_non_empty_value (mf_session_id fact) = true /\
  has_non_empty_value (mf_fact_text fact) = true /\
  (exists ids, mf_source_turn_ids fact = Some ids /\ ids <> []) /\
  (exists score, mf_confidence_score fact = Some score /\ score <= 100) /\
  positive_time (mf_created_at fact).
Proof.
  unfold validate_memory_fact_required_fields.
  rewrite !guard_test, !negb_false_iff, missing_or_non_positive_time, guard_passed.
  destruct (mf_source_turn_ids fact) as [ids|]; [rewrite bool_decide_eq_false|];
    (destruct (mf_confidence_score fact) as [score|]; [rewrite Z.ltb_ge|]); naive_solver.
Qed.

Record fact_ok (fact : MemoryFact) : Prop := {
  fo_fact_id : has_non_empty_value (mf_fact_id fact) = true;
  fo_session_id : has_non_empty_value (mf_session_id fact) = true;
  fo_fact_text : has_non_empty_value (mf_fact_text fact) = true;
  fo_source_turn_ids : is_Some (mf_source_turn_ids fact) /\ items_distinct (mf_source_turn_ids fact);
  fo_confidence : exists score, mf_confidence_score fact = Some score /\ score <= 100;
  fo_created_at : positive_time (mf_created_at fact);
  fo_valid_until : forall t u, mf_created_at fact = Some t -> mf_valid_until fact = Some u -> t < u;
  fo_superseded_by : mf_superseded_by_fact_id fact <> Some "";
  fo_observation_refs : items_distinct (mf_source_observation_refs fact);
  fo_tags : items_distinct (mf_tags fact);
  fo_fact_type : mf_fact_type fact <> Some "";
  fo_digest : mf_evidence_digest fact <> Some "";
}.

Lemma fact_guard_spec fact :
  admitted (validate_memory_fact_field_rules fact) <-> fact_ok fact.
Proof.
  unfold validate_memory_fact_field_rules, validate_memory_fact_boundary.
  rewrite admitted_inner, admitted_layer, fact_required_spec, !admitted_layer, !admitted_test,
    vectors_ok, !present_but_empty_false, !Forall_cons. split.
  - intros [[(Hi & Hs & Ht & (ids & Hids & _) & Hc & (t & Htime & Hpos)) Hb]
      (Hsrc & [(Hobs & Htags & _) _] & Htype & Hdig & _)].
    rewrite Hids in Hsrc. rewrite string_vector_ok in Hsrc.
    rewrite Htime in Hb. simpl in Hb.
    rewrite !admitted_test, present_and_not_after_false, present_but_empty_false in Hb.
    destruct Hb as (Huntil & Hsup & _).
    split; try done; [by rewrite Hids; split|by exists t|].
    intros t' u Ht' Hu. assert (t' = t) as -> by congruence. by apply Huntil.
  - intros [Hi Hs Ht [[ids Hids] Hsrc] Hc (t & Htime & Hpos) Huntil Hsup Hobs Htags Htype Hdig].
    rewrite Hids in *. rewrite Htime in *.
    destruct (Hsrc ids eq_refl) as (Hne & _).
    rewrite !admitted_test, present_and_not_after_false, present_but_empty_false, admitted_some,
      string_vector_ok, admitted_some.
    split_and!; try done; [by exists ids|by exists t|].
    intros u Hu. by apply (Huntil t u).
Qed.

(** ** No guard dereferences an empty field *)

Lemma positive_time_is_some value : positive_time value -> is_Some value.
Proof. intros (t & -> & _). by eexists. Qed.

Lemma fact_field_rules_total fact : is_Some (validate_memory_fact_field_rules fact).
Proof.
  unfold validate_memory_fact_field_rules. apply total_deref.
  - unfold validate_memory_fact_boundary. apply total_test.
    intros (_ & _ & _ & _ & _ & Ht)%negb_false_iff%fact_required_spec.
    apply total_deref; [by apply positive_time_is_some|]. intros t _.
    repeat (apply total_test; intros _). by eexists.
  - intros result _. repeat (apply total_test; intros _). by eexists.
Qed.

Lemma experience_field_rules_total experience :
  is_Some (validate_experience_memory_field_rules experience).
Proof.
  unfold validate_experience_memory_field_rules. apply total_deref.
  - unfold validate_experience_memory_boundary. apply total_test. intros H%negb_false_iff.
    unfold validate_experience_memory_required_fields in H.
    rewrite !guard_test, missing_or_non_positive_time in H.
    destruct H as (_ & _ & _ & _ & _ & Ht & _).
    apply total_deref; [by apply positive_time_is_some|]. intros t _.
    repeat (apply total_test; intros _). by eexists.
  - intros result _. repeat (apply total_test; intros _). by eexists.
Qed.

Lemma session_required_fields session :
  gr_ok (validate_session_required_fields session) = true ->
  is_Some (ses_turn_ids session) /\ is_Some (ses_created_at session).
Proof.
  unfold validate_session_required_fields.
  rewrite !guard_test, missing_or_non_positive_time, bool_decide_eq_false.
  intros (_ & Hids & Ht & _). split; [by apply not_eq_None_Some|by apply positive_time_is_some].
Qed.

Lemma session_field_rules_total session : is_Some (validate_session_field_rules session).
Proof.
  unfold validate_session_field_rules. apply total_deref.
  - unfold validate_session_boundary. apply total_test.
    intros [_ Ht]%negb_false_iff%session_required_fields.
    apply total_deref; [done|]. intros t _. repeat (apply total_test; intros _). by eexists.
  - intros result Hr. apply total_test. intros Hok%negb_false_iff.
    assert (gr_ok (validate_session_required_fields session) = true) as H.
    { destruct (gr_ok (validate_session_required_fields session)) eqn:E; [done|].
      unfold validate_session_boundary in Hr. rewrite E in Hr. injection Hr as <-. congruence. }
    apply session_required_fields in H as [Hids _].
    apply total_deref; [done|]. intros ids _. repeat (apply total_test; intros _). by eexists.
Qed.
