(* ===== verification/MemoryConflict.v ===== *)
(** * Memory conflicts

    memory/src/conflict/MemoryConflictResolver.cpp: a fact to be remembered is compared
    with the session's related facts, and is accepted, rejected, or takes the place of
    some. The store's query and the embedding adapter are arguments; [None] is an
    exception. *)

From S2P Require Import Prelude Text Doubles RecoveryContracts MemoryContracts.

(** ** Data *)

Record FactCandidate := {
  fc_fact : MemoryFact;
  fc_extraction_source : string;
}.

Module ConflictAction.
Inductive ConflictAction := Accept | Supersede | Reject | Coexist.
#[global] Instance ConflictAction_eq_dec : EqDecision ConflictAction.
Proof. solve_decision. Defined.
End ConflictAction.
Abbreviation ConflictAction := ConflictAction.ConflictAction.

Record ConflictRecord := {
  crc_new_fact_id : string;
  crc_existing_fact_id : string;
  crc_action : ConflictAction;
  crc_reason : string;
  crc_confidence_delta : Z;
}.

Record ConflictResolutionPlan := {
  cpl_action : ConflictAction;
  cpl_conflict_records : list ConflictRecord;
  cpl_supersede_target_id : option string;
  cpl_warnings : list string;
  cpl_degraded : bool;
}.

(** [ConflictResolutionPlan{}] *)
Definition empty_resolution_plan : ConflictResolutionPlan :=
  {| cpl_action := ConflictAction.Accept; cpl_conflict_records := [];
     cpl_supersede_target_id := None; cpl_warnings := []; cpl_degraded := false |}.

Record FactQuery := {
  fq_session_id : option string;
  fq_user_id : option string;
  fq_fact_type : option string;
  fq_min_confidence : option Z;
  fq_exclude_superseded : bool;
  fq_limit : Z;
}.

(** ** Texts *)

Definition kNoiseTokens : list string :=
  ["a"; "an"; "the"; "is"; "are"; "was"; "were"; "to"; "of"; "and"; "or"].

Definition kNegationMarkers : list string :=
  ["not"; "never"; "no "; "disabled"; "不"; "未"; "无"; "禁止"].

Definition kPolarityPairs : list (string * string) :=
  [("enabled", "disabled"); ("allow", "deny"); ("online", "offline"); ("success", "failed");
   ("true", "false"); ("on", "off"); ("启用", "禁用"); ("开启", "关闭"); ("允许", "拒绝")].

(** [tolower] of the bytes below 128, in the C locale. *)
Definition ascii_lower (text : string) : string := lowercase_copy text.

Definition is_token_char (ch : Ascii.ascii) : bool :=
  (128 <=? char_code ch) || is_alnum ch || bool_decide (ch = "_"%char).

(** The loop, with the token it is in. *)
Fixpoint tokenize_loop (current text : string) : list string :=
  match text with
  | EmptyString => if is_empty current then [] else [current]
  | String ch rest =>
      if is_token_char ch then tokenize_loop (current +:+ String ch "") rest else
      (if is_empty current then [] else [current]) ++ tokenize_loop "" rest
  end.

Definition tokenize (text : string) : list string := tokenize_loop "" (ascii_lower text).

Definition is_noise_token (token : string) : bool := bool_decide (token ∈ kNoiseTokens).

Definition has_negation_marker (text : string) : bool :=
  existsb (contains_text text) kNegationMarkers.

Definition is_polarity_token (token : string) : bool :=
  existsb (fun '(first, second) => bool_decide (token = first) || bool_decide (token = second))
    kPolarityPairs.

Definition build_anchor_token_set (text : string) : gset string :=
  list_to_set (base.filter (fun token => is_noise_token token = false /\
                                         is_polarity_token token = false) (tokenize text)).

Definition shared_anchor_count (existing_text candidate_text : string) : Z :=
  Z.of_nat (size (build_anchor_token_set existing_text ∩ build_anchor_token_set candidate_text)).

(** [flush_digits]: [None] when [stoll] throws, [Some None] for a second number, and
    otherwise the number so far. *)
Definition flush_digits (value : option Z) (digits : string) : option (option (option Z)) :=
  if is_empty digits then Some (Some value) else
  match value with
  | Some _ => Some None
  | None => let? number := stoll digits else None in Some (Some (Some number))
  end.

(** The loop over the characters; the digits are those of the number it is in. *)
Fixpoint extract_loop (value : option Z) (digits text : string) : option (option Z) :=
  match text with
  | EmptyString =>
      let? flushed := flush_digits value digits else None in
      Some (let? value := flushed else None in value)
  | String ch rest =>
      if is_digit ch then extract_loop value (digits +:+ String ch "") rest else
      let? flushed := flush_digits value digits else None in
      match flushed with
      | None => Some None
      | Some value => extract_loop value "" rest
      end
  end.

(** [None]: [stoll] throws, the number does not fit 64 bits. *)
Definition extract_single_number (text : string) : option (option Z) := extract_loop None "" text.

Definition has_polarity_conflict (existing_text candidate_text : string) : bool :=
  existsb (fun '(first, second) =>
             (contains_text existing_text first && contains_text candidate_text second)
             || (contains_text existing_text second && contains_text candidate_text first))
    kPolarityPairs.

(** A [uint32_t] cast to [int]. *)
Definition confidence_or_zero (fact : MemoryFact) : Z :=
  match mf_confidence_score fact with Some score => s32 score | None => 0 end.

Definition append_warning_once (warnings : list string) (warning : string) : list string :=
  if bool_decide (warning ∈ warnings) then warnings else warnings ++ [warning].

(** ** Similarity

    In [double]s, rounded to nearest; [static_cast<double>] of a [float] is exact. *)

Definition double_of_float (f : spec_float) : spec_float :=
  match f with
  | S754_finite s m e => binary_normalize 53 1024 (if s then Z.neg m else Z.pos m) e s
  | _ => f
  end.

Definition add_product (sum x y : spec_float) : spec_float :=
  double_add sum (double_mul (double_of_float x) (double_of_float y)).

(** [dot_product], [lhs_norm_squared] and [rhs_norm_squared], item by item. *)
Fixpoint similarity_sums (sums : spec_float * spec_float * spec_float)
    (lhs rhs : list spec_float) : spec_float * spec_float * spec_float :=
  match lhs, rhs with
  | x :: lhs, y :: rhs =>
      let '(dot, l, r) := sums in
      similarity_sums (add_product dot x y, add_product l x x, add_product r y y) lhs rhs
  | _, _ => sums
  end.

Definition cosine_similarity (lhs rhs : list spec_float) : option spec_float :=
  if bool_decide (lhs = []) || bool_decide (rhs = []) || negb (length lhs =? length rhs)%nat
  then None else
  let '(dot, l, r) := similarity_sums (float_zero, float_zero, float_zero) lhs rhs in
  if SFleb l float_zero || SFleb r float_zero then None else
  Some (double_div dot (double_mul (double_sqrt l) (double_sqrt r))).

(** ** Comparing two facts *)

(** The tests both comparisons share: the texts in lower case, if the types do not differ
    and the texts share an anchor. *)
Definition comparable_texts (existing : MemoryFact) (candidate : FactCandidate)
    : option (string * string) :=
  let? existing_text := mf_fact_text existing else None in
  let? candidate_text := mf_fact_text (fc_fact candidate) else None in
  if match mf_fact_type existing, mf_fact_type (fc_fact candidate) with
     | Some a, Some b => negb (bool_decide (a = b))
     | _, _ => false
     end then None else
  let existing_text := ascii_lower existing_text in
  let candidate_text := ascii_lower candidate_text in
  if shared_anchor_count existing_text candidate_text =? 0 then None else
  Some (existing_text, candidate_text).

(** Polarity, negation, then numbers; [None]: an exception. *)
Definition texts_conflict (existing_text candidate_text : string) : option bool :=
  if has_polarity_conflict existing_text candidate_text then Some true else
  if negb (Bool.eqb (has_negation_marker existing_text) (has_negation_marker candidate_text))
  then Some true else
  let? existing_number := extract_single_number existing_text else None in
  let? candidate_number := extract_single_number candidate_text else None in
  match existing_number, candidate_number with
  | Some a, Some b => Some (negb (a =? b))
  | _, _ => Some false
  end.

Definition is_semantically_conflicting (existing : MemoryFact) (candidate : FactCandidate)
    : option bool :=
  match comparable_texts existing candidate with
  | Some (existing_text, candidate_text) => texts_conflict existing_text candidate_text
  | None => Some false
  end.

Definition is_embedding_assist_candidate (existing : MemoryFact) (candidate : FactCandidate)
    : option bool :=
  match comparable_texts existing candidate with
  | Some (existing_text, candidate_text) => negb <$> texts_conflict existing_text candidate_text
  | None => Some false
  end.

Definition determine_action (existing : MemoryFact) (candidate : FactCandidate)
    : ConflictAction :=
  if confidence_or_zero existing <? confidence_or_zero (fc_fact candidate)
  then ConflictAction.Supersede else ConflictAction.Reject.

Definition build_reason (action : ConflictAction) (confidence_delta : Z)
    (semantic_conflict : bool) : string :=
  match action with
  | ConflictAction.Supersede =>
      if semantic_conflict then "higher-confidence conflicting fact supersedes existing fact"
      else "higher-confidence related fact replaces an older entry"
  | ConflictAction.Reject =>
      if confidence_delta <=? 0 then "existing conflicting fact has equal or higher confidence"
      else "candidate fact rejected by conflict policy"
  | ConflictAction.Coexist => "related fact is compatible or conflict is inconclusive"
  | ConflictAction.Accept => "no related conflicting fact detected"
  end.

(** ** Resolution *)

Definition contains_relation (a b : string) : bool := contains_text a b || contains_text b a.

Definition is_related (fact_type : option string) (fact_text : string) (fact : MemoryFact)
    : bool :=
  match mf_fact_text fact with
  | Some text =>
      negb (is_empty text) &&
      ((bool_decide (is_Some fact_type) && bool_decide (mf_fact_type fact = fact_type))
       || (0 <? shared_anchor_count text fact_text) || contains_relation text fact_text)
  | None => false
  end.

Section Resolver.
  Context (query_facts : FactQuery -> option (list MemoryFact)).
  Context (embed : option (string -> option (list spec_float))).
  Context (embedding_similarity_threshold : spec_float).

Definition find_related_facts (session_id : string) (fact_type : option string)
    (fact_text : string) : option (list MemoryFact) :=
  let? facts := query_facts
    {| fq_session_id := Some session_id; fq_user_id := None; fq_fact_type := None;
       fq_min_confidence := Some 0; fq_exclude_superseded := true; fq_limit := 16 |}
    else None in
  Some (base.filter (fun fact => is_related fact_type fact_text fact = true) facts).

(** [None]: one of the two texts could not be embedded. *)
Definition compute_embedding_similarity (embed : string -> option (list spec_float))
    (existing : MemoryFact) (candidate : FactCandidate) : option (option spec_float) :=
  match mf_fact_text existing, mf_fact_text (fc_fact candidate) with
  | Some existing_text, Some candidate_text =>
      let? existing_embedding := embed existing_text else None in
      let? candidate_embedding := embed candidate_text else None in
      Some (cosine_similarity existing_embedding candidate_embedding)
  | _, _ => Some None
  end.

(** The similarity is enough, and the candidate the surer of the two. *)
Definition similar_enough (similarity : option spec_float) (existing : MemoryFact)
    (candidate : FactCandidate) : bool :=
  match similarity with
  | Some similarity =>
      SFleb embedding_similarity_threshold similarity &&
      (confidence_or_zero existing <? confidence_or_zero (fc_fact candidate))
  | None => false
  end.

(** What is decided about one related fact, and whether its embedding failed. *)
Definition decide_action (existing : MemoryFact) (candidate : FactCandidate)
    (semantic_conflict : bool) : option (ConflictAction * bool) :=
  if semantic_conflict then Some (determine_action existing candidate, false) else
  match embed with
  | None => Some (ConflictAction.Coexist, false)
  | Some embed =>
      let? assist := is_embedding_assist_candidate existing candidate else None in
      if negb assist then Some (ConflictAction.Coexist, false) else
      match compute_embedding_similarity embed existing candidate with
      | None => Some (ConflictAction.Coexist, true)
      | Some similarity =>
          Some (if similar_enough similarity existing candidate
                then ConflictAction.Supersede else ConflictAction.Coexist, false)
      end
  end.

(** The plan so far with the flags of the loop. *)
Record ResolveState := {
  rst_plan : ConflictResolutionPlan;
  rst_saw_reject : bool;
  rst_saw_supersede : bool;
  rst_saw_coexist : bool;
  rst_highest_superseded_confidence : Z;
}.

Definition initial_resolve_state : ResolveState :=
  {| rst_plan := empty_resolution_plan; rst_saw_reject := false; rst_saw_supersede := false;
     rst_saw_coexist := false; rst_highest_superseded_confidence := -1 |}.

(** [confidence_delta] is a difference of [int]s; the scores the guards admit are at
    most 100. *)
Definition resolve_step (candidate : FactCandidate) (st : ResolveState) (existing : MemoryFact)
    : option ResolveState :=
  let? semantic_conflict := is_semantically_conflicting existing candidate else None in
  let? decided := decide_action existing candidate semantic_conflict else None in
  let '(action, embedding_failed) := decided in
  let plan := rst_plan st in
  let confidence_delta :=
    confidence_or_zero (fc_fact candidate) - confidence_or_zero existing in
  let supersedes := bool_decide (action = ConflictAction.Supersede) in
  let higher := rst_highest_superseded_confidence st <? confidence_or_zero existing in
  Some
    {| rst_plan :=
         {| cpl_action := cpl_action plan;
            cpl_conflict_records := cpl_conflict_records plan ++
              [{| crc_new_fact_id := default "" (mf_fact_id (fc_fact candidate));
                  crc_existing_fact_id := default "" (mf_fact_id existing);
                  crc_action := action;
                  crc_reason := build_reason action confidence_delta semantic_conflict;
                  crc_confidence_delta := confidence_delta |}];
            cpl_supersede_target_id :=
              if supersedes && higher then mf_fact_id existing else cpl_supersede_target_id plan;
            cpl_warnings :=
              if embedding_failed
              then append_warning_once (cpl_warnings plan) "conflict_embedding_similarity_skipped"
              else cpl_warnings plan;
            cpl_degraded := cpl_degraded plan || embedding_failed |};
       rst_saw_reject := rst_saw_reject st || bool_decide (action = ConflictAction.Reject);
       rst_saw_supersede := rst_saw_supersede st || supersedes;
       rst_saw_coexist := rst_saw_coexist st || bool_decide (action = ConflictAction.Coexist);
       rst_highest_superseded_confidence :=
         if supersedes && higher then confidence_or_zero existing
         else rst_highest_superseded_confidence st |}.

Fixpoint resolve_loop (candidate : FactCandidate) (st : ResolveState)
    (related_facts : list MemoryFact) : option ResolveState :=
  match related_facts with
  | [] => Some st
  | existing :: related_facts =>
      let? st := resolve_step candidate st existing else None in
      resolve_loop candidate st related_facts
  end.

Definition set_action (plan : ConflictResolutionPlan) (action : ConflictAction)
    : ConflictResolutionPlan :=
  {| cpl_action := action; cpl_conflict_records := cpl_conflict_records plan;
     cpl_supersede_target_id := cpl_supersede_target_id plan;
     cpl_warnings := cpl_warnings plan; cpl_degraded := cpl_degraded plan |}.

Definition settle (st : ResolveState) : ConflictResolutionPlan :=
  if rst_saw_reject st then set_action (rst_plan st) ConflictAction.Reject else
  if rst_saw_supersede st then set_action (rst_plan st) ConflictAction.Supersede else
  if rst_saw_coexist st then set_action (rst_plan st) ConflictAction.Coexist else
  rst_plan st.

(** A failed query is caught; a comparison that throws is not ([None]). *)
Definition resolve (candidate : FactCandidate) (session_id : string)
    : option ConflictResolutionPlan :=
  match mf_fact_text (fc_fact candidate) with
  | None => Some empty_resolution_plan
  | Some fact_text =>
      if is_empty session_id || is_empty fact_text then Some empty_resolution_plan else
      match find_related_facts session_id (mf_fact_type (fc_fact candidate)) fact_text with
      | None =>
          Some {| cpl_action := ConflictAction.Accept; cpl_conflict_records := [];
                  cpl_supersede_target_id := None; cpl_warnings := ["conflict_check_skipped"];
                  cpl_degraded := true |}
      | Some related_facts =>
          let? st := resolve_loop candidate initial_resolve_state related_facts else None in
          Some (settle st)
      end
  end.

End Resolver.

(** ** Numbers *)

(** The maximal runs of digits; [current] is the run the text continues. *)
Fixpoint digit_runs (current text : string) : list string :=
  match text with
  | EmptyString => if is_empty current then [] else [current]
  | String ch rest =>
      if is_digit ch then digit_runs (current +:+ String ch "") rest else
      (if is_empty current then [] else [current]) ++ digit_runs "" rest
  end.

(** A number is read from a text with one run of digits; with more the first is read,
    too, and dropped. *)
Definition single_number (value : option Z) (runs : list string) : option (option Z) :=
  match value, runs with
  | value, [] => Some value
  | None, [digits] => Some <$> stoll digits
  | None, digits :: _ => (fun _ => None) <$> stoll digits
  | Some _, _ :: _ => Some None
  end.

Lemma extract_loop_exact text : forall value digits,
  extract_loop value digits text = single_number value (digit_runs digits text).
Proof.
  induction text as [|ch rest IH]; intros value digits; cbn [extract_loop digit_runs].
  - unfold flush_digits. destruct (is_empty digits); [by destruct value|].
    destruct value; [done|]. simpl. by destruct (stoll digits).
  - destruct (is_digit ch); [apply IH|]. unfold flush_digits.
    destruct (is_empty digits); [apply IH|]. destruct value as [n|]; [done|].
    simpl. destruct (stoll digits) as [n|]; simpl; [|by destruct (digit_runs "" rest)].
    rewrite IH. by destruct (digit_runs "" rest).
Qed.

Lemma extract_single_number_exact text :
  extract_single_number text = single_number None (digit_runs "" text).
Proof. apply extract_loop_exact. Qed.

(** [stoll] throws for the first number of the text. *)
Definition number_too_long (text : string) : Prop :=
  exists digits runs, digit_runs "" text = digits :: runs /\ stoll digits = None.

Lemma extract_throws text : extract_single_number text = None <-> number_too_long text.
Proof.
  rewrite extract_single_number_exact. unfold number_too_long, single_number. split.
  - destruct (digit_runs "" text) as [|digits [|]]; [done| |];
      (destruct (stoll digits) eqn:E; [done|]); eauto.
  - intros (digits & runs & -> & E). destruct runs; by rewrite E.
Qed.

(** ** Resolution *)

Section Resolution.
  Context (embed : option (string -> option (list spec_float))).
  Context (threshold : spec_float) (candidate : FactCandidate).

(** The record of one related fact. *)
Definition judged (existing : MemoryFact) (record : ConflictRecord) : Prop :=
  exists semantic_conflict action embedding_failed,
    is_semantically_conflicting existing candidate = Some semantic_conflict /\
    decide_action embed threshold existing candidate semantic_conflict
      = Some (action, embedding_failed) /\
    record =
      {| crc_new_fact_id := default "" (mf_fact_id (fc_fact candidate));
         crc_existing_fact_id := default "" (mf_fact_id existing);
         crc_action := action;
         crc_reason := build_reason action
           (confidence_or_zero (fc_fact candidate) - confidence_or_zero existing)
           semantic_conflict;
         crc_confidence_delta :=
           confidence_or_zero (fc_fact candidate) - confidence_or_zero existing |}.

Definition has_action (action : ConflictAction) (record : ConflictRecord) : bool :=
  bool_decide (crc_action record = action).

Lemma decide_action_some existing semantic_conflict :
  is_semantically_conflicting existing candidate = Some semantic_conflict ->
  exists decided, decide_action embed threshold existing candidate semantic_conflict = Some decided.
Proof.
  unfold is_semantically_conflicting, decide_action, is_embedding_assist_candidate. intros H.
  destruct semantic_conflict; [by eexists|]. destruct embed as [e|]; [|by eexists].
  destruct (comparable_texts existing candidate) as [[a b]|]; [|by eexists].
  rewrite H. simpl. destruct (compute_embedding_similarity e existing candidate); by eexists.
Qed.

(** What the action of a record says of the two confidences. *)
Lemma judged_confidence existing record :
  judged existing record ->
  match crc_action record with
  | ConflictAction.Accept => False
  | ConflictAction.Supersede =>
      confidence_or_zero existing < confidence_or_zero (fc_fact candidate)
  | ConflictAction.Reject =>
      is_semantically_conflicting existing candidate = Some true /\
      confidence_or_zero (fc_fact candidate) <= confidence_or_zero existing
  | ConflictAction.Coexist => is_semantically_conflicting existing candidate = Some false
  end.
Proof.
  intros (sem & action & failed & Hsem & Hd & ->). simpl. unfold decide_action in Hd.
  destruct sem.
  - injection Hd as <- <-. unfold determine_action.
    destruct (Z.ltb_spec (confidence_or_zero existing) (confidence_or_zero (fc_fact candidate)));
      [done|split; [done|lia]].
  - destruct embed as [e|]; [|by injection Hd as <- <-].
    destruct (is_embedding_assist_candidate existing candidate) as [[]|]; [|by injection Hd as <- <-|done].
    simpl in Hd. destruct (compute_embedding_similarity _ _ _) as [s|]; [|by injection Hd as <- <-].
    injection Hd as <- <-. unfold similar_enough. destruct s as [s|]; [|done].
    destruct (SFleb threshold s); [|done]. simpl.
    by destruct (Z.ltb_spec (confidence_or_zero existing) (confidence_or_zero (fc_fact candidate))).
Qed.

Lemma resolve_loop_spec related_facts : forall st,
  match resolve_loop embed threshold candidate st related_facts with
  | None => exists existing, existing ∈ related_facts /\
      is_semantically_conflicting existing candidate = None
  | Some st' => exists records,
      Forall2 judged related_facts records /\
      cpl_conflict_records (rst_plan st') = cpl_conflict_records (rst_plan st) ++ records /\
      cpl_action (rst_plan st') = cpl_action (rst_plan st) /\
      rst_saw_reject st' = rst_saw_reject st || existsb (has_action ConflictAction.Reject) records /\
      rst_saw_supersede st' =
        rst_saw_supersede st || existsb (has_action ConflictAction.Supersede) records /\
      rst_saw_coexist st' =
        rst_saw_coexist st || existsb (has_action ConflictAction.Coexist) records
  end.
Proof.
  induction related_facts as [|existing related_facts IH]; intros st; cbn [resolve_loop].
  { exists []. simpl. by rewrite app_nil_r, !orb_false_r. }
  unfold resolve_step.
  destruct (is_semantically_conflicting existing candidate) as [sem|] eqn:Hsem.
  2: { exists existing. split; [by left|done]. }
  destruct (decide_action_some existing sem Hsem) as [[action failed] Hd]. rewrite Hd.
  match goal with |- context [resolve_loop _ _ _ ?s _] => specialize (IH s) end.
  destruct (resolve_loop _ _ _ _ _) as [st'|].
  2: { destruct IH as (e & He & Hn). exists e. split; [by right|done]. }
  destruct IH as (records & Hj & Hr & Ha & H1 & H2 & H3). simpl in *.
  eexists (_ :: records). rewrite Hr, Ha, H1, H2, H3, <- app_assoc, <- !orb_assoc.
  split; [constructor; [by exists sem, action, failed|done]|]. done.
Qed.

End Resolution.

(** The related facts of a session, as the query returns them. *)
Definition related_facts_of (query_facts : FactQuery -> option (list MemoryFact))
    (candidate : FactCandidate) (session_id : string) : option (list MemoryFact) :=
  let? fact_text := mf_fact_text (fc_fact candidate) else Some [] in
  if is_empty session_id || is_empty fact_text then Some [] else
  find_related_facts query_facts session_id (mf_fact_type (fc_fact candidate)) fact_text.

(** C15. The resolver compares the candidate with every related fact of the session, in
    the order of the query, and puts down what it decides about each. It rejects the
    candidate exactly when a fact that contradicts it is at least as sure, supersedes
    exactly when no fact rejects it and some less sure one is to go, lets it coexist when
    it only found compatible ones, and accepts it when none is related or the query
    failed. Only a fact less sure than the candidate is ever superseded. The one way not
    to return is a comparison that throws. *)
Theorem resolution_exact query_facts embed threshold candidate session_id :
  match resolve query_facts embed threshold candidate session_id with
  | None => exists related_facts existing,
      related_facts_of query_facts candidate session_id = Some related_facts /\
      existing ∈ related_facts /\ is_semantically_conflicting existing candidate = None
  | Some plan =>
      let related_facts := default [] (related_facts_of query_facts candidate session_id) in
      let records := cpl_conflict_records plan in
      let decided action := exists record, record ∈ records /\ crc_action record = action in
      Forall2 (judged embed threshold candidate) related_facts records /\
      (cpl_action plan = ConflictAction.Reject <-> decided ConflictAction.Reject) /\
      (cpl_action plan = ConflictAction.Supersede <->
       decided ConflictAction.Supersede /\ ~ decided ConflictAction.Reject) /\
      (cpl_action plan = ConflictAction.Accept <-> records = []) /\
      (forall existing record, existing ∈ related_facts -> judged embed threshold candidate existing record ->
         crc_action record = ConflictAction.Supersede ->
         confidence_or_zero existing < confidence_or_zero (fc_fact candidate))
  end.
Proof.
  assert (forall existing record, judged embed threshold candidate existing record ->
    crc_action record = ConflictAction.Supersede ->
    confidence_or_zero existing < confidence_or_zero (fc_fact candidate)) as Hsure.
  { intros existing record H%judged_confidence E. by rewrite E in H. }
  unfold resolve, related_facts_of.
  assert (forall plan : ConflictResolutionPlan, cpl_conflict_records plan = [] ->
    cpl_action plan = ConflictAction.Accept ->
    let records := cpl_conflict_records plan in
    let decided action := exists record, record ∈ records /\ crc_action record = action in
    Forall2 (judged embed threshold candidate) [] records /\
    (cpl_action plan = ConflictAction.Reject <-> decided ConflictAction.Reject) /\
    (cpl_action plan = ConflictAction.Supersede <->
     decided ConflictAction.Supersede /\ ~ decided ConflictAction.Reject) /\
    (cpl_action plan = ConflictAction.Accept <-> records = [])) as Hempty.
  { intros plan -> ->. simpl. split; [constructor|].
    split; [split; [done|by intros (r & ?%not_elem_of_nil & _)]|].
    split; [split; [done|by intros [(r & ?%not_elem_of_nil & _) _]]|done]. }
  assert (forall P Q R S T : Prop, P /\ Q /\ R /\ S -> T -> P /\ Q /\ R /\ S /\ T) as Hand by tauto.
  destruct (mf_fact_text (fc_fact candidate)) as [text|]; [|by apply Hand; [by apply Hempty|eauto]].
  destruct (is_empty session_id || is_empty text); [by apply Hand; [by apply Hempty|eauto]|].
  destruct (find_related_facts _ _ _ _) as [related|]; [|by apply Hand; [by apply Hempty|eauto]].
  pose proof (resolve_loop_spec embed threshold candidate related initial_resolve_state) as H.
  destruct (resolve_loop _ _ _ _ _) as [st|].
  2: { destruct H as (e & He & Hn). by exists related, e. }
  destruct H as (records & Hj & Hr & Ha & H1 & H2 & H3). simpl in Hr, Ha, H1, H2, H3.
  assert (forall a, existsb (has_action a) records = true <->
    exists record, record ∈ records /\ crc_action record = a) as Hex.
  { intros a. rewrite existsb_exists. unfold has_action. setoid_rewrite bool_decide_eq_true.
    by setoid_rewrite <- list_elem_of_In. }
  assert (cpl_conflict_records (settle st) = records) as Hrec
    by (unfold settle; by repeat case_match).
  assert (records <> [] ->
    existsb (has_action ConflictAction.Reject) records || existsb (has_action ConflictAction.Supersede) records
    || existsb (has_action ConflictAction.Coexist) records = true) as Hsome.
  { intros Hne. destruct Hj as [|e r related' records' Hj1 _]; [done|].
    apply judged_confidence in Hj1. simpl. unfold has_action.
    destruct (crc_action r); [done|..]; simpl; by rewrite ?orb_true_r. }
  simpl. rewrite Hrec. apply Hand; [|eauto]. split; [done|].
  rewrite <- !Hex. unfold settle. rewrite H1, H2, H3.
  destruct (existsb (has_action ConflictAction.Reject) records) eqn:E1; simpl in *.
  - split; [done|]. split; [split; [done|by intros [_ ?]]|]. split; [done|]. intros ->. done.
  - destruct (existsb (has_action ConflictAction.Supersede) records) eqn:E2; simpl in *.
    { split; [done|]. split; [done|]. split; [done|]. by intros ->. }
    destruct (existsb (has_action ConflictAction.Coexist) records) eqn:E3; simpl in *.
    { split; [done|]. split; [by split; [|intros [? _]]|]. split; [done|]. by intros ->. }
    rewrite Ha. split; [done|]. split; [by split; [|intros [? _]]|]. split; [|done].
    intros _. destruct records; [done|]. by specialize (Hsome ltac:(done)).
Qed.

(** ** Examples *)

Definition sample_fact (id text : string) (confidence : Z) : MemoryFact :=
  {| mf_fact_id := Some id; mf_session_id := Some "s-1"; mf_fact_text := Some text;
     mf_source_turn_ids := Some ["turn-1"]; mf_confidence_score := Some confidence;
     mf_created_at := Some 1700000000000; mf_fact_type := None;
     mf_source_observation_refs := None; mf_valid_until := None;
     mf_superseded_by_fact_id := None; mf_evidence_digest := None; mf_tags := None |}.

Definition sample_candidate (id text : string) (confidence : Z) : FactCandidate :=
  {| fc_fact := sample_fact id text confidence; fc_extraction_source := "test" |}.

(** The action about a candidate, against one known fact; no embedding. *)
Definition action_against (existing : MemoryFact) (candidate : FactCandidate)
    : option ConflictAction :=
  cpl_action <$> resolve (fun _ => Some [existing]) None float_one candidate "s-1".

Example contradiction_superseded :
  action_against (sample_fact "f-1" "the backup job is enabled" 60)
    (sample_candidate "f-2" "the backup job is disabled" 80) = Some ConflictAction.Supersede.
Proof. vm_compute. reflexivity. Qed.

(** The pair on/off is found inside other words. *)
Example polarity_inside_words :
  action_against (sample_fact "f-1" "the configuration file is json" 60)
    (sample_candidate "f-2" "the office file is json" 50) = Some ConflictAction.Reject.
Proof. vm_compute. reflexivity. Qed.

(** A note is taken for a negation. *)
Example negation_inside_words :
  action_against (sample_fact "f-1" "user keeps a notebook" 60)
    (sample_candidate "f-2" "user keeps a diary" 50) = Some ConflictAction.Reject.
Proof. vm_compute. reflexivity. Qed.

(** A number of twenty digits in one of the two texts throws. *)
Example long_number_throws :
  action_against (sample_fact "f-1" "order 12345678901234567890 shipped" 60)
    (sample_candidate "f-2" "order shipped today" 50) = None.
Proof. vm_compute. reflexivity. Qed.
