(* ===== verification/MemoryRows.v ===== *)
(** * Rows of the memory store

    memory/src/store/sqlite/RowMappers.cpp and the bindings of SqliteMemoryStore.cpp: how
    the records of the memory are written into the columns of a row, and read back. Lists
    of strings are kept as JSON arrays, which the mappers write and read themselves.
    [stored_rows_roundtrip] says what comes back. *)

From S2P Require Import Prelude Text CheckpointContracts RecoveryContracts MemoryContracts.

(** ** Columns *)

Inductive SqlValue :=
| SqlNull
| SqlInt (n : Z)
| SqlText (s : string).

#[global] Instance SqlValue_eq_dec : EqDecision SqlValue.
Proof. solve_decision. Defined.

Definition SqlRow : Type := list SqlValue.

Definition nul : Ascii.ascii := "000"%char.
Definition quote : Ascii.ascii := "034"%char.
Definition backslash : Ascii.ascii := "\"%char.
Definition carriage_return : Ascii.ascii := "013"%char.
Definition tab : Ascii.ascii := "009"%char.

(** What a [const char*] without a length holds: the text up to its first NUL. *)
Fixpoint c_str (s : string) : string :=
  match s with
  | "" => ""
  | String ch s => if bool_decide (ch = nul) then "" else String ch (c_str s)
  end%string.

(** [sqlite3_bind_text(statement, i, s.c_str(), -1, ...)] *)
Definition bind_text (s : string) : SqlValue := SqlText (c_str s).

Definition bind_optional_text (value : option string) : SqlValue :=
  match value with Some s => bind_text s | None => SqlNull end.

Definition bind_optional_int64 (value : option Z) : SqlValue :=
  match value with Some n => SqlInt n | None => SqlNull end.

(** ** Lists of strings *)

Definition escape_json_char (ch : Ascii.ascii) : string :=
  if bool_decide (ch = backslash) then String backslash (String backslash "") else
  if bool_decide (ch = quote) then String backslash (String quote "") else
  if bool_decide (ch = newline) then String backslash "n" else
  if bool_decide (ch = carriage_return) then String backslash "r" else
  if bool_decide (ch = tab) then String backslash "t" else
  String ch "".

Fixpoint escape_json_string (value : string) : string :=
  match value with
  | "" => ""
  | String ch value => escape_json_char ch +:+ escape_json_string value
  end%string.

Definition quoted (value : string) : string :=
  String quote (escape_json_string value +:+ String quote "").

(** The loop over the values: all but the first come after a comma. *)
Fixpoint encode_items (values : list string) : string :=
  match values with
  | [] => ""
  | value :: values => "," +:+ quoted value +:+ encode_items values
  end.

Definition encode_string_array (values : option (list string)) : string :=
  match values with
  | None | Some [] => "[]"
  | Some (value :: values) => "[" +:+ quoted value +:+ encode_items values +:+ "]"
  end.

(** The character that stands for an escaped one. *)
Definition unescape_json_char (ch : Ascii.ascii) : Ascii.ascii :=
  if bool_decide (ch = "n"%char) then newline else
  if bool_decide (ch = "r"%char) then carriage_return else
  if bool_decide (ch = "t"%char) then tab else ch.

(** The state of the reader: outside a string, in one, or behind a backslash. *)
Fixpoint decode_loop (in_string escaping : bool) (current : string) (value : string)
    : list string :=
  match value with
  | "" => []
  | String ch value =>
      if negb in_string then
        if bool_decide (ch = quote) then decode_loop true escaping "" value
        else decode_loop false escaping current value
      else if escaping then
        decode_loop true false (current +:+ String (unescape_json_char ch) "") value
      else if bool_decide (ch = backslash) then decode_loop true true current value
      else if bool_decide (ch = quote) then current :: decode_loop false false current value
      else decode_loop true false (current +:+ String ch "") value
  end%string.

Definition decode_string_array (value : string) : list string :=
  if (String.length value <? 2)%nat || bool_decide (value = "[]") then []
  else decode_loop false false "" value.

Definition quoted_text : string := String quote "".
Example decode_escaped :
  decode_string_array (encode_string_array (Some ["a,b"; ""; quoted_text; String newline "\"])) =
  ["a,b"; ""; quoted_text; String newline "\"].
Proof. vm_compute. reflexivity. Qed.

(** ** Tokens of a list

    What has no column of its own is kept as tokens of a list. *)

Definition encode_fact_validity_ref (fact : MemoryFact) : option string :=
  let tokens :=
    match mf_valid_until fact with
    | Some valid_until => ["valid_until:" +:+ to_string valid_until]
    | None => []
    end
    ++ ((fun ref => "obs:" +:+ ref) <$> default [] (mf_source_observation_refs fact)) in
  if bool_decide (tokens = []) then None else Some (encode_string_array (Some tokens)).

Definition encode_experience_risk_notes_json (experience : ExperienceMemory) : string :=
  let tokens :=
    match xm_risk_notes experience with
    | Some notes => ["risk:" +:+ notes]
    | None => []
    end
    ++ ((fun id => "fact:" +:+ id) <$> default [] (xm_source_fact_ids experience)) in
  encode_string_array (if bool_decide (tokens = []) then None else Some tokens).

(** The tokens of a column; [None] where there are none. *)
Definition decode_optional_tokens (encoded_value : option string) : option (list string) :=
  let? encoded_value := encoded_value else None in
  if is_empty encoded_value then None else
  let decoded_values := decode_string_array encoded_value in
  if bool_decide (decoded_values = []) then None else Some decoded_values.

(** The texts behind a prefix, in order. *)
Definition tokens_behind (prefix : string) (tokens : list string) : list string :=
  omap (strip_prefix prefix) tokens.

Definition non_empty_list {A} (values : list A) : option (list A) :=
  match values with [] => None | _ => Some values end.

(** The last [valid_until] token counts; each is read by [std::stoll], which throws
    ([None]) at what is no number. *)
Fixpoint read_valid_until (valid_until : option Z) (tokens : list string)
    : option (option Z) :=
  match tokens with
  | [] => Some valid_until
  | token :: tokens =>
      match strip_prefix "valid_until:" token with
      | Some text =>
          let? n := stoll text else None in
          read_valid_until (Some n) tokens
      | None => read_valid_until valid_until tokens
      end
  end.

(** ** Writing

    The values bound to the parameters of an insertion, in the order of the columns. *)

Definition session_row (session : Session) : SqlRow :=
  [bind_optional_text (ses_session_id session); bind_optional_text (ses_user_id session);
   bind_optional_text (ses_latest_summary_memory_ref session);
   bind_optional_text (ses_metadata_digest session);
   bind_text (encode_string_array (ses_turn_ids session));
   bind_optional_int64 (ses_created_at session);
   bind_optional_int64 (ses_last_active_at session);
   bind_text (encode_string_array (ses_tags session))].

Definition turn_row (turn : Turn) : SqlRow :=
  [bind_optional_text (tn_turn_id turn); bind_optional_text (tn_session_id turn);
   bind_optional_text (tn_user_input turn); bind_optional_text (tn_agent_response turn);
   bind_text (encode_string_array (tn_tool_call_refs turn));
   bind_text (encode_string_array (tn_observation_refs turn));
   bind_optional_text (tn_summary_memory_ref turn); bind_optional_int64 (tn_created_at turn);
   bind_text (encode_string_array (tn_tags turn))].

Definition summary_row (summary : SummaryMemory) : SqlRow :=
  [bind_optional_text (sm_summary_id summary); bind_optional_text (sm_session_id summary);
   bind_optional_text (sm_summary_text summary);
   bind_text (encode_string_array (sm_source_turn_ids summary));
   bind_text (encode_string_array (sm_decisions_made summary));
   bind_text (encode_string_array (sm_confirmed_facts summary));
   bind_text (encode_string_array (sm_tool_outcomes summary));
   bind_optional_int64 (sm_created_at summary);
   bind_text (encode_string_array (sm_tags summary))].

(** The owner is that of the fact's session, and the fact counts as used once, when it
    was made; [now] is the clock's reading otherwise. *)
Definition fact_row (fact : MemoryFact) (user_id : option string) (now : Z) : SqlRow :=
  [bind_optional_text (mf_fact_id fact); bind_optional_text (mf_session_id fact);
   bind_optional_text user_id; bind_optional_text (mf_fact_text fact);
   bind_text (encode_string_array (mf_source_turn_ids fact));
   SqlInt (default 0 (mf_confidence_score fact)); bind_text (default "" (mf_fact_type fact));
   bind_optional_text (encode_fact_validity_ref fact);
   bind_optional_text (mf_evidence_digest fact);
   bind_optional_text (mf_superseded_by_fact_id fact);
   bind_optional_int64 (mf_created_at fact);
   bind_text (encode_string_array (mf_tags fact));
   SqlInt (default now (mf_created_at fact)); SqlInt 1].

Definition experience_row (experience : ExperienceMemory) (user_id : option string) (now : Z)
    : SqlRow :=
  [bind_optional_text (xm_experience_id experience);
   bind_optional_text (xm_session_id experience); bind_optional_text user_id;
   bind_optional_text (xm_lesson_summary experience);
   bind_optional_text (xm_trigger_condition experience);
   bind_optional_text (xm_recommended_action experience);
   bind_text (encode_string_array (xm_source_turn_ids experience));
   SqlInt (default 0 (xm_effectiveness_score experience));
   bind_text (encode_string_array (xm_applicable_domains experience));
   bind_text (encode_experience_risk_notes_json experience);
   bind_optional_int64 (xm_expires_at experience);
   bind_optional_text (xm_superseded_by_experience_id experience);
   bind_optional_int64 (xm_created_at experience);
   bind_text (encode_string_array (xm_tags experience));
   SqlInt (default now (xm_created_at experience)); SqlInt 1].

(** memory/include/IProgrammaticMemoryStore.h *)
Record ProgrammaticMemoryRecord := {
  pmr_asset_ref : string;
  pmr_session_id : string;
  pmr_source_turn_id : string;
  pmr_content_digest : string;
  pmr_lease_expires_at : Z;
  pmr_tags : list string;
}.

Definition has_consistent_values (record : ProgrammaticMemoryRecord) : bool :=
  negb (is_empty (pmr_asset_ref record)) && negb (is_empty (pmr_session_id record))
  && negb (is_empty (pmr_source_turn_id record))
  && negb (is_empty (pmr_content_digest record)) && (0 <? pmr_lease_expires_at record).

Definition asset_row (record : ProgrammaticMemoryRecord) (now_millis : Z) : SqlRow :=
  [bind_text (pmr_asset_ref record); bind_text (pmr_session_id record);
   bind_text (pmr_source_turn_id record); bind_text (pmr_content_digest record);
   SqlInt (pmr_lease_expires_at record); bind_text (encode_string_array (Some (pmr_tags record)));
   SqlInt now_millis; SqlInt now_millis].

(** ** Reading

    A column of the wrong type is converted by SQLite, which is left open. *)

Section Reading.
  Context (text_of_int : Z -> string) (int_of_text : string -> Z).

Definition column_text (row : SqlRow) (column_index : nat) : option string :=
  match row !! column_index with
  | Some (SqlText s) => Some s
  | Some (SqlInt n) => Some (text_of_int n)
  | Some SqlNull | None => None
  end.

Definition column_int64 (row : SqlRow) (column_index : nat) : option Z :=
  match row !! column_index with
  | Some (SqlInt n) => Some n
  | Some (SqlText s) => Some (int_of_text s)
  | Some SqlNull | None => None
  end.

(** A column of strings that must not be empty to count. *)
Definition column_strings (row : SqlRow) (column_index : nat) : option (list string) :=
  let? text := column_text row column_index else None in
  non_empty_list (decode_string_array text).

(** [decode_string_array(column_text(statement, i).value_or("[]"))] *)
Definition column_list (row : SqlRow) (column_index : nat) : list string :=
  decode_string_array (default "[]" (column_text row column_index)).

Definition map_row_to_session (row : SqlRow) : Session :=
  {| ses_session_id := column_text row 0; ses_turn_ids := Some (column_list row 4);
     ses_user_id := column_text row 1; ses_latest_summary_memory_ref := column_text row 2;
     ses_metadata_digest := column_text row 3; ses_created_at := column_int64 row 5;
     ses_last_active_at := column_int64 row 6; ses_tags := column_strings row 7 |}.

Definition map_row_to_turn (row : SqlRow) : Turn :=
  {| tn_turn_id := column_text row 0; tn_session_id := column_text row 1;
     tn_user_input := column_text row 2; tn_agent_response := column_text row 3;
     tn_tool_call_refs := column_strings row 4; tn_observation_refs := column_strings row 5;
     tn_summary_memory_ref := column_text row 6; tn_created_at := column_int64 row 7;
     tn_tags := column_strings row 8 |}.

Definition map_row_to_summary (row : SqlRow) : SummaryMemory :=
  {| sm_summary_id := column_text row 0; sm_session_id := column_text row 1;
     sm_summary_text := column_text row 2; sm_source_turn_ids := column_strings row 3;
     sm_decisions_made := column_strings row 4; sm_confirmed_facts := column_strings row 5;
     sm_tool_outcomes := column_strings row 6; sm_created_at := column_int64 row 7;
     sm_tags := column_strings row 8 |}.

(** [None]: a number is not one. *)
Definition map_row_to_fact (row : SqlRow) : option MemoryFact :=
  let tokens := default [] (decode_optional_tokens (column_text row 7)) in
  let? valid_until := read_valid_until None tokens else None in
  Some
    {| mf_fact_id := column_text row 0; mf_session_id := column_text row 1;
       mf_fact_text := column_text row 3; mf_source_turn_ids := Some (column_list row 4);
       mf_confidence_score := u32 <$> column_int64 row 5;
       mf_created_at := column_int64 row 10; mf_fact_type := column_text row 6;
       mf_source_observation_refs := non_empty_list (tokens_behind "obs:" tokens);
       mf_valid_until := valid_until; mf_superseded_by_fact_id := column_text row 9;
       mf_evidence_digest := column_text row 8; mf_tags := column_strings row 11 |}.

Definition map_row_to_experience (row : SqlRow) : ExperienceMemory :=
  let tokens := default [] (decode_optional_tokens (column_text row 9)) in
  {| xm_experience_id := column_text row 0; xm_session_id := column_text row 1;
     xm_lesson_summary := column_text row 3; xm_trigger_condition := column_text row 4;
     xm_recommended_action := column_text row 5; xm_created_at := column_int64 row 12;
     xm_source_fact_ids := non_empty_list (tokens_behind "fact:" tokens);
     xm_source_turn_ids := column_strings row 6;
     xm_effectiveness_score :=
       let? score := column_int64 row 7 else None in
       if 0 <? score then Some (u32 score) else None;
     xm_applicable_domains := column_strings row 8;
     xm_risk_notes := last (tokens_behind "risk:" tokens);
     xm_expires_at := column_int64 row 10;
     xm_superseded_by_experience_id := column_text row 11;
     xm_tags := column_strings row 13 |}.

Definition map_row_to_programmatic_asset (row : SqlRow) : ProgrammaticMemoryRecord :=
  {| pmr_asset_ref := default "" (column_text row 0);
     pmr_session_id := default "" (column_text row 1);
     pmr_source_turn_id := default "" (column_text row 2);
     pmr_content_digest := default "" (column_text row 3);
     pmr_lease_expires_at := default 0 (column_int64 row 4);
     pmr_tags := column_list row 5 |}.

End Reading.

(** ** A list is read back as it was written *)

Lemma unescape_json_escape ch current rest :
  decode_loop true false current (escape_json_char ch +:+ rest) =
  decode_loop true false (current +:+ String ch "") rest.
Proof.
  unfold escape_json_char.
  destruct (decide (ch = backslash)) as [->|H1]; [by vm_compute|].
  rewrite bool_decide_false by done.
  destruct (decide (ch = quote)) as [->|H2]; [by vm_compute|].
  rewrite bool_decide_false by done.
  destruct (decide (ch = newline)) as [->|H3]; [by vm_compute|].
  rewrite bool_decide_false by done.
  destruct (decide (ch = carriage_return)) as [->|H4]; [by vm_compute|].
  rewrite bool_decide_false by done.
  destruct (decide (ch = tab)) as [->|H5]; [by vm_compute|].
  rewrite bool_decide_false by done.
  rewrite string_cons_app, string_nil_app. cbn [decode_loop negb].
  by rewrite !bool_decide_false by done.
Qed.

Lemma decode_escaped_string value current rest :
  decode_loop true false current (escape_json_string value +:+ String quote rest) =
  (current +:+ value) :: decode_loop false false (current +:+ value) rest.
Proof.
  revert current. induction value as [|ch value IH]; intros current; cbn [escape_json_string].
  - rewrite string_nil_app, string_app_nil_r. reflexivity.
  - rewrite string_app_assoc, unescape_json_escape, IH, string_app_assoc. reflexivity.
Qed.

Lemma decode_quoted value current rest :
  decode_loop false false current (quoted value +:+ rest) =
  value :: decode_loop false false value rest.
Proof.
  unfold quoted. rewrite string_cons_app. cbn [decode_loop negb].
  rewrite bool_decide_true by done.
  by rewrite string_app_assoc, string_cons_app, string_nil_app, decode_escaped_string.
Qed.

Lemma decode_outside ch value current :
  ch <> quote ->
  decode_loop false false current (String ch "" +:+ value) = decode_loop false false current value.
Proof.
  intros H. rewrite string_cons_app, string_nil_app. cbn [decode_loop negb].
  by rewrite bool_decide_false.
Qed.

Lemma decode_items values current :
  decode_loop false false current (encode_items values +:+ "]") = values.
Proof.
  revert current. induction values as [|value values IH]; intros current; [reflexivity|].
  cbn [encode_items]. rewrite !string_app_assoc, decode_outside by done.
  by rewrite decode_quoted, IH.
Qed.

Lemma string_array_roundtrip values :
  decode_string_array (encode_string_array values) = default [] values.
Proof.
  destruct values as [[|value values]|]; [done| |done].
  unfold decode_string_array, encode_string_array. simpl default.
  rewrite bool_decide_false, orb_false_r by (unfold quoted; discriminate).
  replace (_ <? 2)%nat with false by (unfold quoted; done).
  by rewrite decode_outside, decode_quoted, decode_items by done.
Qed.

(** ** Texts without NUL *)

Definition not_nul (ch : Ascii.ascii) : bool := negb (bool_decide (ch = nul)).

Definition no_nul (s : string) : bool := all_chars not_nul s.

Lemma c_str_id s : no_nul s = true -> c_str s = s.
Proof.
  induction s as [|ch s IH]; [done|]. unfold no_nul. cbn [all_chars].
  intros [Hch Hs]%andb_true_iff. cbn [c_str]. unfold not_nul in Hch.
  destruct (bool_decide (ch = nul)); [done|]. by rewrite (IH Hs).
Qed.

Lemma escaped_char_no_nul ch : not_nul ch = true -> no_nul (escape_json_char ch) = true.
Proof.
  intros H. unfold escape_json_char. repeat (case_bool_decide; [done|]).
  unfold no_nul. cbn [all_chars]. by rewrite H.
Qed.

Lemma quoted_no_nul value : no_nul value = true -> no_nul (quoted value) = true.
Proof.
  intros H. unfold quoted, no_nul. cbn [all_chars]. rewrite all_chars_app.
  rewrite andb_true_iff. split; [done|]. rewrite andb_true_iff. split; [|done].
  induction value as [|ch value IH]; [done|]. cbn [escape_json_string].
  apply andb_true_iff in H as [Hch Hv]. rewrite all_chars_app, andb_true_iff.
  split; [by apply escaped_char_no_nul|by apply IH].
Qed.

Lemma items_no_nul values :
  forallb no_nul values = true -> no_nul (encode_items values +:+ "]") = true.
Proof.
  induction values as [|value values IH]; [done|]. cbn [forallb encode_items].
  intros [Hv Hvs]%andb_true_iff. rewrite !string_app_assoc.
  unfold no_nul. rewrite !all_chars_app. rewrite !andb_true_iff. split; [done|].
  split; [by apply quoted_no_nul|].
  specialize (IH Hvs). unfold no_nul in IH. by rewrite all_chars_app, andb_true_iff in IH.
Qed.

Lemma string_array_no_nul values :
  forallb no_nul (default [] values) = true -> no_nul (encode_string_array values) = true.
Proof.
  destruct values as [[|value values]|]; [done| |done]. simpl default. cbn [forallb].
  intros [Hv Hvs]%andb_true_iff. unfold encode_string_array, no_nul.
  rewrite !all_chars_app, !andb_true_iff. split; [done|]. split; [by apply quoted_no_nul|].
  pose proof (items_no_nul values Hvs) as H. unfold no_nul in H.
  by rewrite all_chars_app, andb_true_iff in H.
Qed.

(** ** What can be stored

    Texts without NUL, and no optional list that is there but empty: the guards of the
    records refuse such lists. *)

Definition clean (value : option string) : Prop := forall s, value = Some s -> no_nul s = true.
Definition clean_list (values : option (list string)) : Prop :=
  forallb no_nul (default [] values) = true.

Record storable (texts : list (option string)) (required optional : list (option (list string)))
    : Prop := {
  st_texts : Forall clean texts;
  st_required : Forall clean_list required;
  st_optional : Forall (fun values => clean_list values /\ values <> Some []) optional;
}.

Definition session_storable (session : Session) : Prop :=
  storable [ses_session_id session; ses_user_id session; ses_latest_summary_memory_ref session;
            ses_metadata_digest session] [ses_turn_ids session] [ses_tags session] /\
  is_Some (ses_turn_ids session).

Definition turn_storable (turn : Turn) : Prop :=
  storable [tn_turn_id turn; tn_session_id turn; tn_user_input turn; tn_agent_response turn;
            tn_summary_memory_ref turn] []
           [tn_tool_call_refs turn; tn_observation_refs turn; tn_tags turn].

Definition summary_storable (summary : SummaryMemory) : Prop :=
  storable [sm_summary_id summary; sm_session_id summary; sm_summary_text summary] []
           [sm_source_turn_ids summary; sm_decisions_made summary; sm_confirmed_facts summary;
            sm_tool_outcomes summary; sm_tags summary].

Definition fact_storable (fact : MemoryFact) : Prop :=
  storable [mf_fact_id fact; mf_session_id fact; mf_fact_text fact; mf_fact_type fact;
            mf_superseded_by_fact_id fact; mf_evidence_digest fact] [mf_source_turn_ids fact]
           [mf_source_observation_refs fact; mf_tags fact] /\
  is_Some (mf_source_turn_ids fact) /\
  (exists score, mf_confidence_score fact = Some score /\ in_u32 score) /\
  (forall t, mf_valid_until fact = Some t -> in_s64 t).

Definition experience_storable (experience : ExperienceMemory) : Prop :=
  storable [xm_experience_id experience; xm_session_id experience;
            xm_lesson_summary experience; xm_trigger_condition experience;
            xm_recommended_action experience; xm_risk_notes experience;
            xm_superseded_by_experience_id experience] []
           [xm_source_turn_ids experience; xm_applicable_domains experience;
            xm_source_fact_ids experience; xm_tags experience] /\
  (forall score, xm_effectiveness_score experience = Some score -> in_u32 score).

(** ** Columns are read back *)

Section Columns.
  Context (text_of_int : Z -> string) (int_of_text : string -> Z).

Lemma bound_text row i value :
  row !! i = Some (bind_optional_text value) -> clean value ->
  column_text text_of_int row i = value.
Proof.
  unfold column_text. intros -> H. destruct value as [s|]; [|done].
  simpl. f_equal. apply c_str_id. by apply H.
Qed.

Lemma bound_int64 row i value :
  row !! i = Some (bind_optional_int64 value) -> column_int64 int_of_text row i = value.
Proof. unfold column_int64. intros ->. by destruct value. Qed.

Lemma bound_list_text row i values :
  row !! i = Some (bind_text (encode_string_array values)) -> clean_list values ->
  column_text text_of_int row i = Some (encode_string_array values).
Proof.
  intros Hrow H. apply (bound_text row i (Some _)); [done|].
  intros s [= <-]. by apply string_array_no_nul.
Qed.

Lemma bound_list row i values :
  row !! i = Some (bind_text (encode_string_array values)) -> clean_list values ->
  column_list text_of_int row i = default [] values.
Proof.
  intros Hrow H. unfold column_list. rewrite (bound_list_text row i values) by done.
  apply string_array_roundtrip.
Qed.

Lemma bound_strings row i values :
  row !! i = Some (bind_text (encode_string_array values)) ->
  clean_list values /\ values <> Some [] -> column_strings text_of_int row i = values.
Proof.
  intros Hrow [H Hne]. unfold column_strings. rewrite (bound_list_text row i values) by done.
  rewrite string_array_roundtrip. by destruct values as [[|]|].
Qed.

End Columns.

Lemma decode_tokens tokens :
  default [] (decode_optional_tokens (Some (encode_string_array tokens))) = default [] tokens.
Proof.
  unfold decode_optional_tokens. rewrite string_array_roundtrip.
  destruct (is_empty _) eqn:E.
  - by destruct tokens as [[|]|].
  - case_bool_decide as H; [by rewrite H|done].
Qed.

Lemma tokens_behind_app prefix xs ys :
  tokens_behind prefix (xs ++ ys) = tokens_behind prefix xs ++ tokens_behind prefix ys.
Proof. apply omap_app. Qed.

Lemma tokens_behind_own prefix values :
  tokens_behind prefix ((fun v => prefix +:+ v) <$> values) = values.
Proof.
  induction values as [|v values IH]; [done|].
  unfold tokens_behind in *. cbn. by rewrite strip_prefix_app, IH.
Qed.

Lemma tokens_behind_other prefix prefix' values :
  (forall v, strip_prefix prefix (prefix' +:+ v) = None) ->
  tokens_behind prefix ((fun v => prefix' +:+ v) <$> values) = [].
Proof.
  intros H. induction values as [|v values IH]; [done|].
  unfold tokens_behind in *. cbn. by rewrite H.
Qed.

Lemma non_empty_default {A} (values : option (list A)) :
  values <> Some [] -> non_empty_list (default [] values) = values.
Proof. by destruct values as [[|]|]. Qed.

Lemma read_valid_until_observations valid_until refs :
  read_valid_until valid_until ((fun ref => "obs:" +:+ ref) <$> refs) = Some valid_until.
Proof. by induction refs. Qed.

Lemma clean_prefixed prefix values :
  no_nul prefix = true -> forallb no_nul values = true ->
  forallb no_nul ((fun v => prefix +:+ v) <$> values) = true.
Proof.
  intros Hp. induction values as [|v values IH]; [done|]. cbn.
  intros [Hv Hvs]%andb_true_iff. rewrite andb_true_iff. split; [|by apply IH].
  unfold no_nul in *. by rewrite all_chars_app, Hp, Hv.
Qed.

Lemma to_string_no_nul n : no_nul (to_string n) = true.
Proof.
  apply (all_chars_impl is_word); [|apply to_string_word].
  intros ch H. unfold not_nul. case_bool_decide as E; [by rewrite E in H|done].
Qed.

(** The column of tokens a fact is written with, and what is read from it. *)
Lemma fact_tokens text_of_int fact row i :
  row !! i = Some (bind_optional_text (encode_fact_validity_ref fact)) ->
  clean_list (mf_source_observation_refs fact) ->
  default [] (decode_optional_tokens (column_text text_of_int row i)) =
  match mf_valid_until fact with
  | Some valid_until => ["valid_until:" +:+ to_string valid_until]
  | None => []
  end ++ ((fun ref => "obs:" +:+ ref) <$> default [] (mf_source_observation_refs fact)).
Proof.
  intros Hrow Hrefs. rewrite (bound_text _ _ _ _ Hrow).
  - unfold encode_fact_validity_ref. case_bool_decide as E; [by rewrite E|].
    apply (decode_tokens (Some _)).
  - unfold encode_fact_validity_ref. intros s. case_bool_decide as E; [done|].
    intros [= <-]. apply (string_array_no_nul (Some _)). simpl default. rewrite forallb_app, andb_true_iff.
    split; [|by apply clean_prefixed].
    destruct (mf_valid_until fact) as [t|]; [|done].
    cbn [forallb]. rewrite andb_true_r. apply to_string_no_nul.
Qed.

Lemma experience_tokens text_of_int experience row i :
  row !! i = Some (bind_text (encode_experience_risk_notes_json experience)) ->
  clean (xm_risk_notes experience) -> clean_list (xm_source_fact_ids experience) ->
  default [] (decode_optional_tokens (column_text text_of_int row i)) =
  match xm_risk_notes experience with Some notes => ["risk:" +:+ notes] | None => [] end
  ++ ((fun id => "fact:" +:+ id) <$> default [] (xm_source_fact_ids experience)).
Proof.
  intros Hrow Hnotes Hids. unfold encode_experience_risk_notes_json in Hrow.
  rewrite (bound_list_text _ _ _ _ Hrow), decode_tokens; [by case_bool_decide|].
  unfold clean_list. case_bool_decide as E; [done|]. simpl default.
  rewrite forallb_app, andb_true_iff. split; [|by apply clean_prefixed].
  destruct (xm_risk_notes experience) as [notes|]; [|done]. cbn [forallb].
  rewrite andb_true_r. by apply (Hnotes notes).
Qed.

(** ** Rows are read back *)

Ltac split_storable :=
  repeat match goal with H : Forall _ (_ :: _) |- _ => apply Forall_cons in H as [? ?] end.

Ltac read_columns :=
  repeat match goal with
  | |- context [column_text ?f ?row ?i] => erewrite (bound_text f row i) by done
  | |- context [column_strings ?f ?row ?i] => erewrite (bound_strings f row i) by done
  | |- context [column_list ?f ?row ?i] => erewrite (bound_list f row i) by done
  | |- context [column_int64 ?f ?row ?i] => erewrite (bound_int64 f row i) by done
  end.

Section Rows.
  Context (text_of_int : Z -> string) (int_of_text : string -> Z).

Lemma session_roundtrip session :
  session_storable session ->
  map_row_to_session text_of_int int_of_text (session_row session) = session.
Proof.
  intros [[Ht Hr Ho] [ids Hids]]. split_storable.
  unfold map_row_to_session. read_columns. rewrite Hids. simpl. rewrite <- Hids.
  by destruct session.
Qed.

Lemma turn_roundtrip turn :
  turn_storable turn -> map_row_to_turn text_of_int int_of_text (turn_row turn) = turn.
Proof.
  intros [Ht _ Ho]. split_storable.
  unfold map_row_to_turn. read_columns. by destruct turn.
Qed.

Lemma summary_roundtrip summary :
  summary_storable summary ->
  map_row_to_summary text_of_int int_of_text (summary_row summary) = summary.
Proof.
  intros [Ht _ Ho]. split_storable.
  unfold map_row_to_summary. read_columns. by destruct summary.
Qed.

(** A fact as it comes back: one without a type has the empty type. *)
Definition stored_fact (fact : MemoryFact) : MemoryFact :=
  {| mf_fact_id := mf_fact_id fact; mf_session_id := mf_session_id fact;
     mf_fact_text := mf_fact_text fact; mf_source_turn_ids := mf_source_turn_ids fact;
     mf_confidence_score := mf_confidence_score fact; mf_created_at := mf_created_at fact;
     mf_fact_type := Some (default "" (mf_fact_type fact));
     mf_source_observation_refs := mf_source_observation_refs fact;
     mf_valid_until := mf_valid_until fact;
     mf_superseded_by_fact_id := mf_superseded_by_fact_id fact;
     mf_evidence_digest := mf_evidence_digest fact; mf_tags := mf_tags fact |}.

Lemma fact_roundtrip fact user_id now :
  fact_storable fact ->
  map_row_to_fact text_of_int int_of_text (fact_row fact user_id now) = Some (stored_fact fact).
Proof.
  intros ([Ht Hr Ho] & [ids Hids] & (score & Hscore & Hrange) & Huntil).
  split_storable.
  unfold map_row_to_fact. rewrite (fact_tokens _ fact (fact_row fact user_id now) 7 eq_refl) by tauto.
  assert (read_valid_until None
    (match mf_valid_until fact with
     | Some t => ["valid_until:" +:+ to_string t] | None => [] end ++
     ((fun ref => "obs:" +:+ ref) <$> default [] (mf_source_observation_refs fact)))
    = Some (mf_valid_until fact)) as ->.
  { destruct (mf_valid_until fact) as [t|]; [|apply read_valid_until_observations].
    cbn [app read_valid_until]. rewrite strip_prefix_app, stoll_to_string by auto.
    apply read_valid_until_observations. }
  rewrite tokens_behind_app, tokens_behind_own.
  replace (tokens_behind "obs:" (match mf_valid_until fact with
     | Some t => ["valid_until:" +:+ to_string t] | None => [] end)) with (@nil string)
    by (by destruct (mf_valid_until fact)).
  rewrite app_nil_l, non_empty_default by tauto. read_columns.
  rewrite (bound_text _ (fact_row fact user_id now) 6 (Some (default "" (mf_fact_type fact))) eq_refl).
  2: { intros s [= <-]. destruct (mf_fact_type fact) as [t|] eqn:E; [|done].
    match goal with H : clean (Some t) |- _ => by apply H end. }
  unfold stored_fact, column_int64. simpl. rewrite Hscore, Hids. simpl.
  by rewrite u32_id.
Qed.

(** An experience as it comes back: one of no effect has no score. *)
Definition stored_experience (experience : ExperienceMemory) : ExperienceMemory :=
  {| xm_experience_id := xm_experience_id experience;
     xm_session_id := xm_session_id experience;
     xm_lesson_summary := xm_lesson_summary experience;
     xm_trigger_condition := xm_trigger_condition experience;
     xm_recommended_action := xm_recommended_action experience;
     xm_created_at := xm_created_at experience;
     xm_source_fact_ids := xm_source_fact_ids experience;
     xm_source_turn_ids := xm_source_turn_ids experience;
     xm_effectiveness_score :=
       if bool_decide (xm_effectiveness_score experience = Some 0) then None
       else xm_effectiveness_score experience;
     xm_applicable_domains := xm_applicable_domains experience;
     xm_risk_notes := xm_risk_notes experience; xm_expires_at := xm_expires_at experience;
     xm_superseded_by_experience_id := xm_superseded_by_experience_id experience;
     xm_tags := xm_tags experience |}.

Lemma experience_roundtrip experience user_id now :
  experience_storable experience ->
  map_row_to_experience text_of_int int_of_text (experience_row experience user_id now) =
  stored_experience experience.
Proof.
  intros ([Ht _ Ho] & Hscore). split_storable.
  unfold map_row_to_experience.
  rewrite (experience_tokens _ experience (experience_row experience user_id now) 9 eq_refl) by tauto.
  rewrite !tokens_behind_app, tokens_behind_own, (tokens_behind_other "risk:"), app_nil_r
    by done.
  replace (tokens_behind "fact:" (match xm_risk_notes experience with
     | Some notes => ["risk:" +:+ notes] | None => [] end)) with (@nil string)
    by (by destruct (xm_risk_notes experience)).
  rewrite app_nil_l, non_empty_default by tauto. read_columns.
  unfold stored_experience. f_equal.
  - unfold column_int64. simpl.
    destruct (xm_effectiveness_score experience) as [score|] eqn:E; simpl; [|done].
    specialize (Hscore score eq_refl). destruct (Z.ltb_spec 0 score).
    + rewrite u32_id by done. by rewrite bool_decide_false by (intros [=]; lia).
    + rewrite bool_decide_true; [done|]. unfold in_u32 in Hscore. f_equal. lia.
  - destruct (xm_risk_notes experience) as [notes|]; [|done].
    unfold tokens_behind. cbn [omap list_omap]. by rewrite strip_prefix_app.
Qed.

End Rows.

Definition asset_storable (record : ProgrammaticMemoryRecord) : Prop :=
  storable [Some (pmr_asset_ref record); Some (pmr_session_id record);
            Some (pmr_source_turn_id record); Some (pmr_content_digest record)]
           [Some (pmr_tags record)] [].

Lemma asset_roundtrip text_of_int int_of_text record now :
  asset_storable record ->
  map_row_to_programmatic_asset text_of_int int_of_text (asset_row record now) = record.
Proof.
  intros [Ht Hr _]. split_storable.
  unfold map_row_to_programmatic_asset.
  rewrite (bound_text _ (asset_row record now) 0 (Some (pmr_asset_ref record)) eq_refl) by done.
  rewrite (bound_text _ (asset_row record now) 1 (Some (pmr_session_id record)) eq_refl) by done.
  rewrite (bound_text _ (asset_row record now) 2 (Some (pmr_source_turn_id record)) eq_refl) by done.
  rewrite (bound_text _ (asset_row record now) 3 (Some (pmr_content_digest record)) eq_refl) by done.
  rewrite (bound_list _ (asset_row record now) 5 (Some _) eq_refl) by done.
  by destruct record.
Qed.

(** C19. The rows of six records are read back, for records that can be stored: no text, in
    a list or on its own, has a NUL (it would be cut there, [text_cut_at_nul]); no optional list
    is there but empty (it would come back absent; the guards refuse such lists); the turn ids of
    a session are there; and a fact has its source turns and a confidence score, the scores fit 32
    bits and the end of a fact's validity 64. Then a session, a turn, a summary and an asset come
    back as they were, a fact with the empty type where it had none, and an experience without
    a score where its score was 0; everything else of the two is kept, the tokens without a
    column of their own included. *)
Theorem stored_rows_roundtrip text_of_int int_of_text :
  (forall session, session_storable session ->
     map_row_to_session text_of_int int_of_text (session_row session) = session) /\
  (forall turn, turn_storable turn ->
     map_row_to_turn text_of_int int_of_text (turn_row turn) = turn) /\
  (forall summary, summary_storable summary ->
     map_row_to_summary text_of_int int_of_text (summary_row summary) = summary) /\
  (forall fact user_id now, fact_storable fact ->
     map_row_to_fact text_of_int int_of_text (fact_row fact user_id now) =
     Some (stored_fact fact)) /\
  (forall experience user_id now, experience_storable experience ->
     map_row_to_experience text_of_int int_of_text (experience_row experience user_id now) =
     stored_experience experience) /\
  (forall record now, asset_storable record ->
     map_row_to_programmatic_asset text_of_int int_of_text (asset_row record now) = record).
Proof.
  split_and!; intros.
  - by apply session_roundtrip.
  - by apply turn_roundtrip.
  - by apply summary_roundtrip.
  - by apply fact_roundtrip.
  - by apply experience_roundtrip.
  - by apply asset_roundtrip.
Qed.

Lemma clean_text s : no_nul s = true -> clean (Some s).
Proof. by intros H t [= <-]. Qed.

Lemma clean_none : clean None.
Proof. done. Qed.

Ltac check_storable :=
  split; repeat first [apply Forall_nil_2 | apply Forall_cons_2];
    first [by apply clean_text | apply clean_none | done].

Definition sample_stored_turn : Turn :=
  {| tn_turn_id := Some "t1"; tn_session_id := Some "s1"; tn_user_input := Some "hello";
     tn_agent_response := None; tn_tool_call_refs := Some [quoted_text; "a,b"];
     tn_observation_refs := None; tn_summary_memory_ref := None; tn_created_at := Some 5;
     tn_tags := None |}.

Definition sample_stored_fact : MemoryFact :=
  {| mf_fact_id := Some "f1"; mf_session_id := Some "s1"; mf_fact_text := Some "the disk is full";
     mf_source_turn_ids := Some ["t1"]; mf_confidence_score := Some 90;
     mf_created_at := Some 5; mf_fact_type := None;
     mf_source_observation_refs := Some ["o1"; "valid_until:x"]; mf_valid_until := Some 77;
     mf_superseded_by_fact_id := None; mf_evidence_digest := None; mf_tags := None |}.

Lemma stored_rows_roundtrip_witness :
  map_row_to_turn to_string (fun _ => 0) (turn_row sample_stored_turn) = sample_stored_turn /\
  map_row_to_fact to_string (fun _ => 0) (fact_row sample_stored_fact None 9) =
  Some (stored_fact sample_stored_fact).
Proof.
  split.
  - apply (stored_rows_roundtrip to_string (fun _ => 0)).
    check_storable.
  - apply (stored_rows_roundtrip to_string (fun _ => 0)). split_and!.
    + check_storable.
    + by eexists.
    + by exists 90.
    + by intros t [= <-].
Defined.

(** A text is cut at its first NUL. *)
Example text_cut_at_nul :
  column_text to_string [bind_text ("ab" +:+ String nul "cd")] 0 = Some "ab".
Proof. vm_compute. reflexivity. Qed.
