(* ===== verification/MemoryStore.v ===== *)
(** * The memory store

    memory/src/store/sqlite/SqliteMemoryStore.cpp: its transactions and the writes of a
    writeback, with memory/include/store/StoreResult.h and error/MemoryError.h. SQLite is
    the class [Sqlite]; what it documents of transactions is [SqliteLaws]. *)

From S2P Require Import Prelude Text ErrorCodes CheckpointContracts RecoveryContracts MemoryContracts MemoryConflict MemoryRows.

(** ** Errors *)

Module MemoryError.
Inductive MemoryError :=
| StorageBusy | SchemaMismatch | ValidationRejected | StorageUnavailable | ConfigInvalid.
End MemoryError.
Abbreviation MemoryError := MemoryError.MemoryError.

(** [map_memory_error(error).result_code] *)
Definition memory_error_code (error : MemoryError) : ResultCode :=
  match error with
  | MemoryError.StorageBusy | MemoryError.StorageUnavailable =>
      ResultCode.RuntimeRetryExhausted
  | MemoryError.SchemaMismatch | MemoryError.ValidationRejected
  | MemoryError.ConfigInvalid => ResultCode.ValidationFieldMissing
  end.

(** [map_memory_error(error).retryable] *)
Definition memory_error_retryable (error : MemoryError) : bool :=
  match error with MemoryError.StorageBusy => true | _ => false end.

Inductive SqliteStatus :=
| SQLITE_OK | SQLITE_DONE | SQLITE_ROW | SQLITE_BUSY | SQLITE_LOCKED | SQLITE_CANTOPEN
| SQLITE_IOERR | SQLITE_FULL | SQLITE_READONLY | SQLITE_MISUSE
| SQLITE_OTHER (code : Z).

#[global] Instance SqliteStatus_eq_dec : EqDecision SqliteStatus.
Proof. solve_decision. Defined.

Definition map_sqlite_result (sqlite_status : SqliteStatus) : option ResultCode :=
  match sqlite_status with
  | SQLITE_OK | SQLITE_DONE | SQLITE_ROW => None
  | SQLITE_BUSY | SQLITE_LOCKED => Some (memory_error_code MemoryError.StorageBusy)
  | SQLITE_CANTOPEN | SQLITE_IOERR | SQLITE_FULL | SQLITE_READONLY =>
      Some (memory_error_code MemoryError.StorageUnavailable)
  | SQLITE_MISUSE => Some (memory_error_code MemoryError.ConfigInvalid)
  | SQLITE_OTHER _ => Some (memory_error_code MemoryError.SchemaMismatch)
  end.

Record StoreResult := {
  sto_ok : bool;
  sto_result_code : option ResultCode;
  sto_persisted_id : option string;
  sto_error_message : option string;
}.

Definition store_success (persisted_id : option string) : StoreResult :=
  {| sto_ok := true; sto_result_code := None; sto_persisted_id := persisted_id;
     sto_error_message := None |}.

Definition store_failure (result_code : ResultCode) (error_message : string) : StoreResult :=
  {| sto_ok := false; sto_result_code := Some result_code; sto_persisted_id := None;
     sto_error_message := Some error_message |}.

(** ** Statements

    The texts of SQL the store runs on its writer connection. *)

Inductive Sql :=
| BeginImmediate | Commit | Rollback
| InsertSession | InsertTurn | UpdateSessionTurns | UpdateSessionActive
| UpsertSummary | UpdateLatestSummary | InsertFact | SupersedeFact | InsertExperience
| UpsertProgrammaticAsset
| AssignSummaryParent (summary_ids : nat).

#[global] Instance Sql_eq_dec : EqDecision Sql.
Proof. solve_decision. Defined.

(** A statement and what is bound to its parameters. *)
Record Statement := { stm_sql : Sql; stm_row : SqlRow }.

#[global] Instance Statement_eq_dec : EqDecision Statement.
Proof. solve_decision. Defined.

Definition command (sql : Sql) : Statement := {| stm_sql := sql; stm_row := [] |}.

(** The statements that change data. *)
Definition is_write (statement : Statement) : bool :=
  match stm_sql statement with BeginImmediate | Commit | Rollback => false | _ => true end.

(** What the store asks of SQLite, as seen from the writer connection: to compile a
    statement ([sqlite3_prepare_v2() == SQLITE_OK]), to run one, how many rows the last
    one changed, and the two queries of one column that writes make before they write.
    The queries of the session and of the facts are those of the reader connections; the
    last two are the conversions of columns. *)
Class Sqlite (Db : Type) := {
  sqlite_prepare : Db -> Sql -> bool;
  sqlite_step : Db -> Statement -> SqliteStatus * Db;
  sqlite_changes : Db -> Z;
  select_session_turns : Db -> SqlValue -> option string;
  select_session_user : Db -> SqlValue -> option string;
  reader_session_id : Db -> SqlValue -> option string;
  reader_facts : Db -> FactQuery -> list SqlRow;
  sqlite_text_of_int : Z -> string;
  sqlite_int_of_text : string -> Z;
}.

(** What SQLite documents of transactions. [committed] is what a new connection reads,
    [pending] what the open transaction of the writer has made of it; [apply] is what a
    statement that succeeds does to the data. A statement that fails changes nothing, but
    it may end the transaction. *)
Class SqliteLaws (Db : Type) `{Sqlite Db} (Content : Type) := {
  committed : Db -> Content;
  pending : Db -> option Content;
  apply : Statement -> Content -> Content;
  turns_of : Content -> SqlValue -> option string;
  session_of : Content -> SqlValue -> option string;
  begin_law db : pending db = None ->
    let (status, db') := sqlite_step db (command BeginImmediate) in
    committed db' = committed db /\
    pending db' = match map_sqlite_result status with None => Some (committed db) | _ => None end;
  commit_law db :
    let (status, db') := sqlite_step db (command Commit) in
    match map_sqlite_result status, pending db with
    | None, Some c => committed db' = c /\ pending db' = None
    | None, None => False
    | Some _, _ => committed db' = committed db /\ (pending db' = pending db \/ pending db' = None)
    end;
  rollback_law db :
    let db' := (sqlite_step db (command Rollback)).2 in
    committed db' = committed db /\ pending db' = None;
  write_law db statement : is_write statement = true ->
    let (status, db') := sqlite_step db statement in
    match map_sqlite_result status, pending db with
    | None, Some c => committed db' = committed db /\ pending db' = Some (apply statement c)
    | None, None => committed db' = apply statement (committed db) /\ pending db' = None
    | Some _, _ => committed db' = committed db /\ (pending db' = pending db \/ pending db' = None)
    end;
  turns_law db session_id :
    select_session_turns db session_id = turns_of (default (committed db) (pending db)) session_id;
  session_law db session_id :
    reader_session_id db session_id = session_of (committed db) session_id;
}.

(** ** Levels of summaries

    memory/include/writeback/HierarchicalSummaryRequest.h *)

Module HierarchicalSummaryLevel.
Inductive HierarchicalSummaryLevel := Dialog | Topic | Profile.
#[global] Instance HierarchicalSummaryLevel_eq_dec : EqDecision HierarchicalSummaryLevel.
Proof. solve_decision. Defined.
End HierarchicalSummaryLevel.
Abbreviation HierarchicalSummaryLevel := HierarchicalSummaryLevel.HierarchicalSummaryLevel.

Definition summary_level_name (level : HierarchicalSummaryLevel) : string :=
  match level with
  | HierarchicalSummaryLevel.Dialog => "dialog"
  | HierarchicalSummaryLevel.Topic => "topic"
  | HierarchicalSummaryLevel.Profile => "profile"
  end.

Definition summary_level_tag (level : HierarchicalSummaryLevel) : string :=
  "summary_level:" +:+ summary_level_name level.

Definition level_of_tag (tag : string) : option HierarchicalSummaryLevel :=
  if bool_decide (tag = summary_level_tag HierarchicalSummaryLevel.Dialog)
  then Some HierarchicalSummaryLevel.Dialog else
  if bool_decide (tag = summary_level_tag HierarchicalSummaryLevel.Topic)
  then Some HierarchicalSummaryLevel.Topic else
  if bool_decide (tag = summary_level_tag HierarchicalSummaryLevel.Profile)
  then Some HierarchicalSummaryLevel.Profile else None.

(** The first tag that names a level. *)
Definition extract_summary_level (summary : SummaryMemory) : option HierarchicalSummaryLevel :=
  let? tags := sm_tags summary else None in
  head (omap level_of_tag tags).

Definition summary_matches_level (summary : SummaryMemory) (level : HierarchicalSummaryLevel)
    : bool :=
  match extract_summary_level summary with
  | None => bool_decide (level = HierarchicalSummaryLevel.Dialog)
  | Some actual_level => bool_decide (actual_level = level)
  end.

(** ** Writes

    Each on an open connection; [with_writer] is the test that there is one. *)

(** The guards of sessions, facts and experiences never dereference an empty field
    ([session_field_rules_total] and its likes), so that the default is not taken. *)
Definition guard_of (result : option GuardResult) : GuardResult :=
  default (guard_fail "") result.

Section Store.
  Context {Db : Type} `{Sqlite Db}.

Definition run_statement (db : Db) (statement : Statement) (prepare_error step_error : string)
    (persisted_id : option string) : StoreResult * Db :=
  if negb (sqlite_prepare db (stm_sql statement))
  then (store_failure ResultCode.RuntimeRetryExhausted prepare_error, db) else
  let (step_status, db) := sqlite_step db statement in
  match map_sqlite_result step_status with
  | Some result => (store_failure result step_error, db)
  | None => (store_success persisted_id, db)
  end.

Definition create_session (db : Db) (session : Session) : StoreResult * Db :=
  let validation := guard_of (validate_session_field_rules session) in
  if negb (gr_ok validation)
  then (store_failure ResultCode.ValidationFieldMissing (gr_reason validation), db) else
  run_statement db {| stm_sql := InsertSession; stm_row := session_row session |}
    "failed to prepare session insert" "failed to insert session" (ses_session_id session).

(** The session's list of turns, as the turn that is appended leaves it. *)
Definition turns_update (turn_ids_json : option string) (turn : Turn) : Statement :=
  let turn_ids := decode_string_array (default "[]" turn_ids_json) in
  let turn_ids := turn_ids ++ option_list (tn_turn_id turn) in
  {| stm_sql := UpdateSessionTurns;
     stm_row := [bind_text (encode_string_array (Some turn_ids));
                 bind_optional_int64 (tn_created_at turn);
                 bind_optional_text (tn_session_id turn)] |}.

Definition append_turn (db : Db) (turn : Turn) : StoreResult * Db :=
  let validation := validate_turn_field_rules turn in
  if negb (gr_ok validation)
  then (store_failure ResultCode.ValidationFieldMissing (gr_reason validation), db) else
  let (inserted, db) :=
    run_statement db {| stm_sql := InsertTurn; stm_row := turn_row turn |}
      "failed to prepare turn insert" "failed to insert turn" None in
  if negb (sto_ok inserted) then (inserted, db) else
  let turn_ids_json := select_session_turns db (bind_optional_text (tn_session_id turn)) in
  run_statement db (turns_update turn_ids_json turn) "failed to prepare session turn update"
    "failed to update session turn index" (tn_turn_id turn).

(** An update that has changed no row is a failure. *)
Definition require_change (result : StoreResult) (db : Db) (not_found : string)
    : StoreResult * Db :=
  if sto_ok result && (sqlite_changes db =? 0)
  then (store_failure ResultCode.ValidationFieldMissing not_found, db)
  else (result, db).

Definition update_session_active (db : Db) (session_id : string) (last_active_at : Z)
    : StoreResult * Db :=
  let (result, db) :=
    run_statement db {| stm_sql := UpdateSessionActive;
                        stm_row := [SqlInt last_active_at; bind_text session_id] |}
      "failed to prepare session activity update" "failed to update session activity"
      (Some session_id) in
  require_change result db "session not found".

(** A summary of a dialog becomes its session's latest, if that can be written. *)
Definition upsert_summary (db : Db) (summary : SummaryMemory) : StoreResult * Db :=
  let validation := validate_summary_memory_field_rules summary in
  if negb (gr_ok validation)
  then (store_failure ResultCode.ValidationFieldMissing (gr_reason validation), db) else
  let (result, db) :=
    run_statement db {| stm_sql := UpsertSummary; stm_row := summary_row summary |}
      "failed to prepare summary upsert" "failed to upsert summary" (sm_summary_id summary) in
  if negb (sto_ok result) then (result, db) else
  if bool_decide (is_Some (sm_session_id summary)) && bool_decide (is_Some (sm_summary_id summary))
     && summary_matches_level summary HierarchicalSummaryLevel.Dialog
     && sqlite_prepare db UpdateLatestSummary
  then (result, (sqlite_step db
         {| stm_sql := UpdateLatestSummary;
            stm_row := [bind_optional_text (sm_summary_id summary);
                        bind_optional_text (sm_session_id summary)] |}).2)
  else (result, db).

Definition upsert_programmatic_asset (db : Db) (record : ProgrammaticMemoryRecord)
    (now_millis : Z) : StoreResult * Db :=
  if negb (has_consistent_values record)
  then (store_failure ResultCode.ValidationFieldMissing
          "programmatic asset record is inconsistent", db) else
  run_statement db {| stm_sql := UpsertProgrammaticAsset; stm_row := asset_row record now_millis |}
    "failed to prepare programmatic asset upsert" "failed to upsert programmatic asset"
    (Some (pmr_asset_ref record)).

Definition assign_summary_parent (db : Db) (summary_ids : list string)
    (parent_summary_id : string) : StoreResult * Db :=
  if bool_decide (summary_ids = []) then (store_success (Some parent_summary_id), db) else
  run_statement db {| stm_sql := AssignSummaryParent (length summary_ids);
                      stm_row := bind_text parent_summary_id :: (bind_text <$> summary_ids) |}
    "failed to prepare summary parent assignment" "failed to assign summary parent"
    (Some parent_summary_id).

(** [resolve_session_user_id(writer_connection_, session_id)] *)
Definition resolve_session_user_id (db : Db) (session_id : option string) : option string :=
  let? session_id := session_id else None in
  select_session_user db (bind_text session_id).

Definition insert_fact (db : Db) (fact : MemoryFact) (now_millis : Z) : StoreResult * Db :=
  let validation := guard_of (validate_memory_fact_field_rules fact) in
  if negb (gr_ok validation)
  then (store_failure ResultCode.ValidationFieldMissing (gr_reason validation), db) else
  run_statement db
    {| stm_sql := InsertFact;
       stm_row := fact_row fact (resolve_session_user_id db (mf_session_id fact)) now_millis |}
    "failed to prepare fact insert" "failed to insert fact" (mf_fact_id fact).

Definition supersede_fact (db : Db) (old_fact_id new_fact_id : string) : StoreResult * Db :=
  let (result, db) :=
    run_statement db {| stm_sql := SupersedeFact;
                        stm_row := [bind_text new_fact_id; bind_text old_fact_id] |}
      "failed to prepare fact supersede update" "failed to update superseded fact"
      (Some old_fact_id) in
  require_change result db "old fact not found".

Definition insert_experience (db : Db) (experience : ExperienceMemory) (now_millis : Z)
    : StoreResult * Db :=
  let validation := guard_of (validate_experience_memory_field_rules experience) in
  if negb (gr_ok validation)
  then (store_failure ResultCode.ValidationFieldMissing (gr_reason validation), db) else
  run_statement db
    {| stm_sql := InsertExperience;
       stm_row := experience_row experience
         (resolve_session_user_id db (xm_session_id experience)) now_millis |}
    "failed to prepare experience insert" "failed to insert experience"
    (xm_experience_id experience).

(** ** Transactions *)

Record SqliteStoreTransaction := {
  txn_begin_error : option ResultCode;
  txn_active : bool;
}.

(** A store whose writer connection may be missing. *)
Definition SqliteMemoryStore : Type := option Db.

(** [if (writer_connection_ == nullptr) return failure(...)] *)
Definition with_writer (store : SqliteMemoryStore) (write : Db -> StoreResult * Db)
    : StoreResult * SqliteMemoryStore :=
  match store with
  | None => (store_failure ResultCode.RuntimeRetryExhausted "sqlite store is not open", store)
  | Some db => let (result, db) := write db in (result, Some db)
  end.

Definition exec_sql (db : Db) (sql : Sql) : option ResultCode * Db :=
  let (sqlite_status, db) := sqlite_step db (command sql) in
  (map_sqlite_result sqlite_status, db).

Definition new_transaction (begin_error : option ResultCode) : SqliteStoreTransaction :=
  {| txn_begin_error := begin_error; txn_active := bool_decide (begin_error = None) |}.

Definition begin_immediate (store : SqliteMemoryStore)
    : SqliteStoreTransaction * SqliteMemoryStore :=
  match store with
  | None => (new_transaction (Some ResultCode.RuntimeRetryExhausted), store)
  | Some db =>
      let (begin_result, db) := exec_sql db BeginImmediate in
      (new_transaction begin_result, Some db)
  end.

(** An active transaction has a connection. *)
Definition txn_commit (txn : SqliteStoreTransaction) (store : SqliteMemoryStore)
    : option ResultCode * SqliteStoreTransaction * SqliteMemoryStore :=
  match txn_begin_error txn, store with
  | Some begin_error, _ => (Some begin_error, txn, store)
  | None, Some db =>
      if negb (txn_active txn) then (None, txn, store) else
      let (commit_result, db) := exec_sql db Commit in
      (commit_result,
       {| txn_begin_error := None; txn_active := bool_decide (commit_result <> None) |}, Some db)
  | None, None => (None, txn, store)
  end.

(** Also what the destructor does. *)
Definition txn_rollback (txn : SqliteStoreTransaction) (store : SqliteMemoryStore)
    : SqliteMemoryStore :=
  if negb (txn_active txn) then store else
  let? db := store else None in
  Some (exec_sql db Rollback).2.

(** ** Queries *)

(** [load_session_bundle(...).session.session_id]; without a connection there is none. *)
Definition load_session_id (store : SqliteMemoryStore) (session_id : string) : option string :=
  let? db := store else None in
  reader_session_id db (bind_text session_id).

(** The facts of [query_facts], without the scores that go with them; [None]: a row that
    does not map. *)
Definition query_facts (store : SqliteMemoryStore) (query : FactQuery)
    : option (list MemoryFact) :=
  let? db := store else Some [] in
  mapM (map_row_to_fact sqlite_text_of_int sqlite_int_of_text) (reader_facts db query).

End Store.

Arguments SqliteMemoryStore : clear implicits.

(** ** What the writes do

    In terms of what the database documents of its transactions. *)

Section Laws.
  Context {Db Content : Type} `{SqliteLaws Db Content}.

(** The data, and the data of the open transaction, after a statement that failed. *)
Definition kept (db db' : Db) : Prop :=
  committed db' = committed db /\ (pending db' = pending db \/ pending db' = None).

Lemma kept_refl db : kept db db.
Proof. split; auto. Qed.

Lemma kept_trans db1 db2 db3 : kept db1 db2 -> kept db2 db3 -> kept db1 db3.
Proof. intros [E1 H1] [E2 H2]. split; [congruence|]. destruct H2 as [->|]; auto. Qed.

Lemma write_step db statement status db' :
  is_write statement = true -> sqlite_step db statement = (status, db') ->
  match map_sqlite_result status, pending db with
  | None, Some c => committed db' = committed db /\ pending db' = Some (apply statement c)
  | None, None => committed db' = apply statement (committed db) /\ pending db' = None
  | Some _, _ => kept db db'
  end.
Proof. intros Hw E. pose proof (write_law db statement Hw) as L. by rewrite E in L. Qed.

Lemma run_statement_spec db statement prepare_error step_error id :
  is_write statement = true ->
  let (result, db') := run_statement db statement prepare_error step_error id in
  if sto_ok result then
    result = store_success id /\
    match pending db with
    | Some c => committed db' = committed db /\ pending db' = Some (apply statement c)
    | None => committed db' = apply statement (committed db) /\ pending db' = None
    end
  else kept db db'.
Proof.
  intros Hw. unfold run_statement. destruct (sqlite_prepare _ _); simpl; [|apply kept_refl].
  destruct (sqlite_step db statement) as [status db'] eqn:E. apply write_step in E; [|done].
  destruct (map_sqlite_result status); simpl; [done|]. split; [done|]. by destruct (pending db).
Qed.

(** In a transaction, a write that succeeds does [effect] to its data, and one that fails
    leaves what is committed alone. *)
Definition writes (write : Db -> StoreResult * Db) (effect : Content -> Content) : Prop :=
  forall db c, pending db = Some c ->
  let (result, db') := write db in
  committed db' = committed db /\ (sto_ok result = true -> pending db' = Some (effect c)).

Lemma run_statement_writes statement prepare_error step_error id :
  is_write statement = true ->
  writes (fun db => run_statement db statement prepare_error step_error id) (apply statement).
Proof.
  intros Hw db c Hc.
  pose proof (run_statement_spec db statement prepare_error step_error id Hw) as S.
  destruct (run_statement _ _ _ _ _) as [result db'].
  destruct (sto_ok result); [|by destruct S].
  rewrite Hc in S. tauto.
Qed.

Lemma create_session_writes session :
  writes (fun db => create_session db session)
    (apply {| stm_sql := InsertSession; stm_row := session_row session |}).
Proof.
  unfold create_session. intros db c Hc. destruct (negb _); [done|].
  by apply run_statement_writes.
Qed.

(** The turn is in its table and at the end of its session's list. *)
Definition append_turn_effect (turn : Turn) (c : Content) : Content :=
  let c := apply {| stm_sql := InsertTurn; stm_row := turn_row turn |} c in
  apply (turns_update (turns_of c (bind_optional_text (tn_session_id turn))) turn) c.

Lemma append_turn_writes turn :
  writes (fun db => append_turn db turn) (append_turn_effect turn).
Proof.
  unfold append_turn. intros db c Hc. destruct (negb _); [done|].
  pose proof (run_statement_writes {| stm_sql := InsertTurn; stm_row := turn_row turn |}
    "failed to prepare turn insert" "failed to insert turn" None eq_refl db c Hc) as S; cbv beta in S.
  destruct (run_statement _ _ _ _ _) as [result db1]. destruct S as [Hdb1 Hok].
  destruct (sto_ok result) eqn:Er; simpl; [|by rewrite Er].
  specialize (Hok eq_refl). rewrite turns_law, Hok. simpl default.
  pose proof (run_statement_writes
    (turns_update (turns_of (apply {| stm_sql := InsertTurn; stm_row := turn_row turn |} c)
      (bind_optional_text (tn_session_id turn))) turn)
    "failed to prepare session turn update" "failed to update session turn index"
    (tn_turn_id turn) eq_refl db1 _ Hok) as S; cbv beta in S.
  destruct (run_statement _ _ _ _ _) as [result2 db2]. rewrite <- Hdb1. exact S.
Qed.

Definition update_active_statement (session_id : string) (last_active_at : Z) : Statement :=
  {| stm_sql := UpdateSessionActive; stm_row := [SqlInt last_active_at; bind_text session_id] |}.

Lemma update_session_active_writes session_id last_active_at :
  writes (fun db => update_session_active db session_id last_active_at)
    (apply (update_active_statement session_id last_active_at)).
Proof.
  unfold update_session_active, require_change. intros db c Hc.
  pose proof (run_statement_writes (update_active_statement session_id last_active_at)
    "failed to prepare session activity update" "failed to update session activity"
    (Some session_id) eq_refl db c Hc) as S; cbv beta in S.
  unfold update_active_statement in *. destruct (run_statement _ _ _ _ _) as [result db1].
  destruct (sto_ok result && _); [by destruct S|exact S].
Qed.

(** The statement that makes a summary its session's latest, where it is one of a dialog. *)
Definition latest_statements (summary : SummaryMemory) : list Statement :=
  if bool_decide (is_Some (sm_session_id summary)) && bool_decide (is_Some (sm_summary_id summary))
     && summary_matches_level summary HierarchicalSummaryLevel.Dialog
  then [{| stm_sql := UpdateLatestSummary;
           stm_row := [bind_optional_text (sm_summary_id summary);
                       bind_optional_text (sm_session_id summary)] |}]
  else [].

(** An upsert that succeeds may still have failed to make the summary the latest; at the
    worst that has ended the transaction. *)
Lemma upsert_summary_writes summary db c :
  pending db = Some c ->
  let (result, db') := upsert_summary db summary in
  committed db' = committed db /\
  (sto_ok result = true -> pending db' = None \/
   exists c', pending db' = Some c' /\
   let upserted := apply {| stm_sql := UpsertSummary; stm_row := summary_row summary |} c in
   (c' = upserted \/ exists statement, statement ∈ latest_statements summary /\
                                       c' = apply statement upserted)).
Proof.
  unfold upsert_summary, latest_statements. intros Hc. destruct (negb (gr_ok _)); [done|].
  pose proof (run_statement_writes {| stm_sql := UpsertSummary; stm_row := summary_row summary |}
    "failed to prepare summary upsert" "failed to upsert summary" (sm_summary_id summary)
    eq_refl db c Hc) as S; cbv beta in S.
  destruct (run_statement _ _ _ _ _) as [result db1]. destruct S as [Hdb1 Hok].
  destruct (sto_ok result) eqn:Er; simpl; [|by rewrite Er].
  specialize (Hok eq_refl).
  destruct (bool_decide _ && _ && _); simpl; [|by rewrite Er; eauto 6].
  destruct (sqlite_prepare db1 UpdateLatestSummary); [|by rewrite Er; eauto 6].
  destruct (sqlite_step db1 _) as [status db2] eqn:E. simpl.
  apply write_step in E; [|done]. rewrite Hok in E.
  destruct (map_sqlite_result status).
  - destruct E as [E1 E2]. split; [congruence|]. intros _. rewrite Hok in E2.
    destruct E2 as [E2|E2]; [|by left]. right. eexists. split; [done|]. by left.
  - destruct E as [E1 E2]. split; [congruence|]. intros _. right. eexists. split; [done|].
    right. eexists. by split; [apply list_elem_of_singleton|].
Qed.

End Laws.

(** A fact without a type is compared with any other; once stored it has the empty type,
    and no fact with a type contradicts it any more. *)
Example stored_fact_loses_conflicts :
  let fact kind text :=
    {| mf_fact_id := Some "f1"; mf_session_id := Some "s1"; mf_fact_text := Some text;
       mf_source_turn_ids := Some ["t1"]; mf_confidence_score := Some 50;
       mf_created_at := Some 5; mf_fact_type := kind; mf_source_observation_refs := None;
       mf_valid_until := None; mf_superseded_by_fact_id := None; mf_evidence_digest := None;
       mf_tags := None |} in
  let existing := fact None "the disk cache is enabled" in
  let candidate :=
    {| fc_fact := fact (Some "state") "the disk cache is disabled"; fc_extraction_source := "" |} in
  is_semantically_conflicting existing candidate = Some true /\
  (map_row_to_fact to_string (fun _ => 0) (fact_row existing None 9) ≫=
   fun stored => is_semantically_conflicting stored candidate) = Some false.
Proof. vm_compute. auto. Qed.
