(* ===== verification/Writeback.v ===== *)
(** * Writeback

    memory/src/writeback/WritebackCoordinator.cpp, with
    memory/include/writeback/MemoryWritebackRequest.h and WritebackResult.h: what a turn
    leaves in the memory. The turn is written in one transaction, with up to three
    attempts; facts, experiences and assets in another, behind it; then the vector index
    and the working board follow. *)

From Stdlib Require Import SpecFloat.
From S2P Require Import Prelude Text ErrorCodes CheckpointContracts RecoveryContracts WorkingMemory MemoryContracts MemoryConflict MemoryRows MemoryStore.

(** ** Data *)

Record ExperienceCandidate := {
  ec_experience : ExperienceMemory;
  ec_extraction_source : string;
}.

Record ProgrammaticMemoryCandidate := {
  pmc_record : ProgrammaticMemoryRecord;
  pmc_extraction_source : string;
}.

(** contracts/include/checkpoint/ReflectionLessonProjection.h *)
Record ReflectionLessonProjection := {
  rlp_lesson_summary : option string;
  rlp_trigger_condition : option string;
  rlp_recommended_action : option string;
  rlp_effectiveness_score : option Z;
  rlp_applicable_domains : option (list string);
  rlp_tags : option (list string);
}.

Definition kReflectionLessonExperienceKind : string := "self_reflection".

Record MemoryWritebackRequest := {
  mwr_request_id : string;
  mwr_session_id : string;
  mwr_trace_id : string;
  mwr_turn : Turn;
  mwr_summary_candidate : option SummaryMemory;
  mwr_fact_candidates : list FactCandidate;
  mwr_experience_candidates : list ExperienceCandidate;
  mwr_programmatic_candidates : list ProgrammaticMemoryCandidate;
  mwr_reflection_lesson : option ReflectionLessonProjection;
  mwr_side_effect_report_ref : option string;
}.

Record WritebackResult := {
  wbr_result_code : option ResultCode;
  wbr_persisted_turn_id : option string;
  wbr_summary_id : option string;
  wbr_fact_ids : list string;
  wbr_experience_ids : list string;
  wbr_conflicts : list ConflictRecord;
  wbr_warnings : list string;
  wbr_degraded : bool;
  wbr_partial : bool;
  wbr_retryable_storage_failure : bool;
}.

(** A new [WritebackResult]. *)
Definition empty_result : WritebackResult :=
  {| wbr_result_code := None; wbr_persisted_turn_id := None; wbr_summary_id := None;
     wbr_fact_ids := []; wbr_experience_ids := []; wbr_conflicts := []; wbr_warnings := [];
     wbr_degraded := false; wbr_partial := false; wbr_retryable_storage_failure := false |}.

(** [append_warning_once(result.warnings, warning)] *)
Definition warn (result : WritebackResult) (warning : string) : WritebackResult :=
  {| wbr_result_code := wbr_result_code result;
     wbr_persisted_turn_id := wbr_persisted_turn_id result;
     wbr_summary_id := wbr_summary_id result; wbr_fact_ids := wbr_fact_ids result;
     wbr_experience_ids := wbr_experience_ids result; wbr_conflicts := wbr_conflicts result;
     wbr_warnings := append_warning_once (wbr_warnings result) warning;
     wbr_degraded := wbr_degraded result; wbr_partial := wbr_partial result;
     wbr_retryable_storage_failure := wbr_retryable_storage_failure result |}.

Definition warn_all (result : WritebackResult) (warnings : list string) : WritebackResult :=
  foldl warn result warnings.

(** [result.partial = result.partial || partial] *)
Definition or_partial (result : WritebackResult) (partial : bool) : WritebackResult :=
  {| wbr_result_code := wbr_result_code result;
     wbr_persisted_turn_id := wbr_persisted_turn_id result;
     wbr_summary_id := wbr_summary_id result; wbr_fact_ids := wbr_fact_ids result;
     wbr_experience_ids := wbr_experience_ids result; wbr_conflicts := wbr_conflicts result;
     wbr_warnings := wbr_warnings result; wbr_degraded := wbr_degraded result;
     wbr_partial := wbr_partial result || partial;
     wbr_retryable_storage_failure := wbr_retryable_storage_failure result |}.

Definition or_degraded (result : WritebackResult) (degraded : bool) : WritebackResult :=
  {| wbr_result_code := wbr_result_code result;
     wbr_persisted_turn_id := wbr_persisted_turn_id result;
     wbr_summary_id := wbr_summary_id result; wbr_fact_ids := wbr_fact_ids result;
     wbr_experience_ids := wbr_experience_ids result; wbr_conflicts := wbr_conflicts result;
     wbr_warnings := wbr_warnings result; wbr_degraded := wbr_degraded result || degraded;
     wbr_partial := wbr_partial result;
     wbr_retryable_storage_failure := wbr_retryable_storage_failure result |}.

(** What is written and found out beside the turn. *)
Definition add_derived (result : WritebackResult) (fact_ids experience_ids : list string)
    (conflicts : list ConflictRecord) : WritebackResult :=
  {| wbr_result_code := wbr_result_code result;
     wbr_persisted_turn_id := wbr_persisted_turn_id result;
     wbr_summary_id := wbr_summary_id result;
     wbr_fact_ids := wbr_fact_ids result ++ fact_ids;
     wbr_experience_ids := wbr_experience_ids result ++ experience_ids;
     wbr_conflicts := wbr_conflicts result ++ conflicts;
     wbr_warnings := wbr_warnings result; wbr_degraded := wbr_degraded result;
     wbr_partial := wbr_partial result;
     wbr_retryable_storage_failure := wbr_retryable_storage_failure result |}.

Definition is_retryable (result_code : option ResultCode) : bool :=
  bool_decide (result_code = Some ResultCode.RuntimeRetryExhausted).

Definition failed_result (code : ResultCode) (retryable : bool) (warnings : list string)
    : WritebackResult :=
  {| wbr_result_code := Some code; wbr_persisted_turn_id := None; wbr_summary_id := None;
     wbr_fact_ids := []; wbr_experience_ids := []; wbr_conflicts := [];
     wbr_warnings := warnings; wbr_degraded := true; wbr_partial := false;
     wbr_retryable_storage_failure := retryable |}.

Definition make_invalid_result (warning_key : string) : WritebackResult :=
  failed_result ResultCode.ValidationFieldMissing false [warning_key].

Definition make_core_failure_result (code : option ResultCode) (warning_key : string)
    : WritebackResult :=
  failed_result (default ResultCode.RuntimeRetryExhausted code) (is_retryable code)
    (if is_retryable code
     then append_warning_once [warning_key] "retryable_storage_failure" else [warning_key]).

(** ** Clock

    Every place that reads the clock has a reading of its own. *)

Inductive Reading :=
| TurnTime | SummaryTime | FactTime (index : nat) | ExperienceTime (index : nat)
| LessonTime | SessionTime | ActiveTime
| FactRowTime (index : nat) | ExperienceRowTime (index : nat) | AssetRowTime (index : nat)
| BoardTime | SlotStampTime (key : string) | SlotEvictTime (key : string).

Definition Clock : Type := Reading -> Z.

(** ** Generated ids *)

(** [sanitized], the last character first. *)
Fixpoint sanitize_loop (sanitized : list Ascii.ascii) (value : string) : list Ascii.ascii :=
  match value with
  | "" => sanitized
  | String ch value =>
      if is_alnum ch then sanitize_loop (to_lower ch :: sanitized) value else
      match sanitized with
      | [] => sanitize_loop sanitized value
      | back :: _ =>
          if bool_decide (back = "-"%char) then sanitize_loop sanitized value
          else sanitize_loop ("-"%char :: sanitized) value
      end
  end%string.

Fixpoint drop_dashes (sanitized : list Ascii.ascii) : list Ascii.ascii :=
  match sanitized with
  | back :: rest => if bool_decide (back = "-"%char) then drop_dashes rest else sanitized
  | [] => []
  end.

Definition sanitize_id_component (value : string) : string :=
  let sanitized := String.string_of_list_ascii (rev (drop_dashes (sanitize_loop [] value))) in
  if is_empty sanitized then "memory" else sanitized.

(** [index] is [None] for the default of -1. *)
Definition build_generated_id (prefix session_id turn_id : string) (index : option nat)
    : string :=
  prefix +:+ "-" +:+ sanitize_id_component session_id +:+ "-" +:+ sanitize_id_component turn_id
  +:+ match index with
      | Some index => "-" +:+ to_string (Z.of_nat index)
      | None => ""
      end.

(** Ids of different sessions and turns can be the same: what is no ASCII letter or digit
    is dropped, and case is. *)
Example generated_ids_collide :
  build_generated_id "summary" "会话一" "轮次一" None = build_generated_id "summary" "会话二" "轮次二" None /\
  build_generated_id "fact" "a_b" "T1" (Some 0%nat) = build_generated_id "fact" "a/b" "t1" (Some 0%nat) /\
  build_generated_id "summary" "a" "b-c" None = build_generated_id "summary" "a-b" "c" None.
Proof. vm_compute. auto. Qed.

(** ** What is to be written *)

(** [!value.has_value() || value->empty()] *)
Definition or_text (value : option string) (replacement : string) : option string :=
  if has_non_empty_value value then value else Some replacement.

Definition or_list (values : option (list string)) (replacement : list string)
    : option (list string) :=
  match values with
  | None | Some [] => Some replacement
  | Some _ => values
  end.

(** [!time.has_value() || *time <= 0] *)
Definition or_time (time : option Z) (replacement : Z) : option Z :=
  match time with
  | Some t => if t <=? 0 then Some replacement else time
  | None => Some replacement
  end.

Section Normalization.
  Context (clock : Clock) (request : MemoryWritebackRequest).

(** The source's ids, [request.turn.turn_id.value_or("turn")]. *)
Definition source_turn_id : string := default "turn" (tn_turn_id (mwr_turn request)).

(** [request.turn.created_at.value_or(current_time_millis())], before the turn's own time
    is normalized. *)
Definition source_time (reading : Reading) : Z :=
  default (clock reading) (tn_created_at (mwr_turn request)).

Definition normalize_turn : Turn :=
  let turn := mwr_turn request in
  {| tn_turn_id := tn_turn_id turn;
     tn_session_id := or_text (tn_session_id turn) (mwr_session_id request);
     tn_user_input := tn_user_input turn; tn_agent_response := tn_agent_response turn;
     tn_tool_call_refs := tn_tool_call_refs turn;
     tn_observation_refs := tn_observation_refs turn;
     tn_summary_memory_ref := tn_summary_memory_ref turn;
     tn_created_at := or_time (tn_created_at turn) (clock TurnTime); tn_tags := tn_tags turn |}.

Definition normalize_summary_candidate : option SummaryMemory :=
  let? summary := mwr_summary_candidate request else None in
  Some
    {| sm_summary_id := or_text (sm_summary_id summary)
         (build_generated_id "summary" (mwr_session_id request) source_turn_id None);
       sm_session_id := or_text (sm_session_id summary) (mwr_session_id request);
       sm_summary_text := sm_summary_text summary;
       sm_source_turn_ids := or_list (sm_source_turn_ids summary) [source_turn_id];
       sm_decisions_made := sm_decisions_made summary;
       sm_confirmed_facts := sm_confirmed_facts summary;
       sm_tool_outcomes := sm_tool_outcomes summary;
       sm_created_at := or_time (sm_created_at summary) (source_time SummaryTime);
       sm_tags := sm_tags summary |}.

Definition normalize_fact_candidate (candidate : FactCandidate) (index : nat)
    : FactCandidate :=
  let fact := fc_fact candidate in
  {| fc_fact :=
       {| mf_fact_id := or_text (mf_fact_id fact)
            (build_generated_id "fact" (mwr_session_id request) source_turn_id (Some index));
          mf_session_id := or_text (mf_session_id fact) (mwr_session_id request);
          mf_fact_text := mf_fact_text fact;
          mf_source_turn_ids := or_list (mf_source_turn_ids fact) [source_turn_id];
          mf_confidence_score := mf_confidence_score fact;
          mf_created_at := or_time (mf_created_at fact) (source_time (FactTime index));
          mf_fact_type := mf_fact_type fact;
          mf_source_observation_refs := mf_source_observation_refs fact;
          mf_valid_until := mf_valid_until fact;
          mf_superseded_by_fact_id := mf_superseded_by_fact_id fact;
          mf_evidence_digest := mf_evidence_digest fact; mf_tags := mf_tags fact |};
     fc_extraction_source := fc_extraction_source candidate |}.

Definition normalize_experience_candidate (candidate : ExperienceCandidate) (index : nat)
    (reading : Reading) : ExperienceCandidate :=
  let experience := ec_experience candidate in
  {| ec_experience :=
       {| xm_experience_id := or_text (xm_experience_id experience)
            (build_generated_id "experience" (mwr_session_id request) source_turn_id (Some index));
          xm_session_id := or_text (xm_session_id experience) (mwr_session_id request);
          xm_lesson_summary := xm_lesson_summary experience;
          xm_trigger_condition := xm_trigger_condition experience;
          xm_recommended_action := xm_recommended_action experience;
          xm_created_at := or_time (xm_created_at experience) (source_time reading);
          xm_source_fact_ids := xm_source_fact_ids experience;
          xm_source_turn_ids := or_list (xm_source_turn_ids experience) [source_turn_id];
          xm_effectiveness_score := xm_effectiveness_score experience;
          xm_applicable_domains := xm_applicable_domains experience;
          xm_risk_notes := xm_risk_notes experience; xm_expires_at := xm_expires_at experience;
          xm_superseded_by_experience_id := xm_superseded_by_experience_id experience;
          xm_tags := xm_tags experience |};
     ec_extraction_source := ec_extraction_source candidate |}.

Definition append_unique_string (values : list string) (value : string) : list string :=
  if is_empty value then values else append_warning_once values value.

Definition make_reflection_experience_candidate (lesson : ReflectionLessonProjection)
    (index : nat) : ExperienceCandidate :=
  let tags := default [] (rlp_tags lesson) in
  let tags := append_unique_string tags "reflection" in
  let tags := append_unique_string tags "stage:reflection" in
  let tags :=
    append_unique_string tags ("experience_kind:" +:+ kReflectionLessonExperienceKind) in
  normalize_experience_candidate
    {| ec_experience :=
         {| xm_experience_id := None; xm_session_id := None;
            xm_lesson_summary := rlp_lesson_summary lesson;
            xm_trigger_condition :=
              or_text (rlp_trigger_condition lesson) "reflection follow-up required";
            xm_recommended_action :=
              or_text (rlp_recommended_action lesson) "apply the latest reflection guidance";
            xm_created_at := None; xm_source_fact_ids := None; xm_source_turn_ids := None;
            xm_effectiveness_score := rlp_effectiveness_score lesson;
            xm_applicable_domains := rlp_applicable_domains lesson; xm_risk_notes := None;
            xm_expires_at := None; xm_superseded_by_experience_id := None;
            xm_tags := Some tags |};
       ec_extraction_source := "runtime.cognition.reflection_lesson" |} index LessonTime.

Definition rejected (prep_result : WritebackResult) (warning : string) : WritebackResult :=
  warn (warn (or_partial prep_result true) warning) "partial_writeback_warning".

(** The candidates that pass their guard, and what is said about the others. *)
Definition accept_candidate {A} (ok : A -> bool) (warning : string) (prepared : list A * WritebackResult)
    (candidate : A) : list A * WritebackResult :=
  if ok candidate then (prepared.1 ++ [candidate], prepared.2)
  else (prepared.1, rejected prepared.2 warning).

Definition fact_admitted (candidate : FactCandidate) : bool :=
  gr_ok (guard_of (validate_memory_fact_field_rules (fc_fact candidate))).

Definition experience_admitted (candidate : ExperienceCandidate) : bool :=
  gr_ok (guard_of (validate_experience_memory_field_rules (ec_experience candidate))).

(** The request as it is written, and the partial result; its turn has passed its guard. *)
Definition prepare_request : MemoryWritebackRequest * WritebackResult :=
  let (summary_candidate, prep_result) :=
    match normalize_summary_candidate with
    | Some summary =>
        if negb (gr_ok (validate_summary_memory_field_rules summary))
        then (None, rejected empty_result "summary_candidate_rejected")
        else (Some summary, empty_result)
    | None => (None, empty_result)
    end in
  let (fact_candidates, prep_result) :=
    foldl (accept_candidate fact_admitted "fact_candidate_rejected") ([], prep_result)
      (imap (fun index candidate => normalize_fact_candidate candidate index)
         (mwr_fact_candidates request)) in
  let (experience_candidates, prep_result) :=
    foldl (accept_candidate experience_admitted "experience_candidate_rejected") ([], prep_result)
      (imap (fun index candidate =>
               normalize_experience_candidate candidate index (ExperienceTime index))
         (mwr_experience_candidates request)) in
  let (experience_candidates, prep_result) :=
    foldl (accept_candidate experience_admitted "reflection_lesson_rejected")
      (experience_candidates, prep_result)
      ((fun lesson => make_reflection_experience_candidate lesson
          (length (mwr_experience_candidates request)))
         <$> option_list (mwr_reflection_lesson request)) in
  ({| mwr_request_id := mwr_request_id request; mwr_session_id := mwr_session_id request;
      mwr_trace_id := mwr_trace_id request; mwr_turn := normalize_turn;
      mwr_summary_candidate := summary_candidate; mwr_fact_candidates := fact_candidates;
      mwr_experience_candidates := experience_candidates;
      mwr_programmatic_candidates := mwr_programmatic_candidates request;
      mwr_reflection_lesson := mwr_reflection_lesson request;
      mwr_side_effect_report_ref := mwr_side_effect_report_ref request |}, prep_result).

End Normalization.

(** ** The turn's transaction *)

(** [build_session_record(request)] *)
Definition build_session_record (clock : Clock) (request : MemoryWritebackRequest) : Session :=
  let created_at := source_time clock request SessionTime in
  {| ses_session_id := Some (mwr_session_id request); ses_turn_ids := Some [];
     ses_user_id := None; ses_latest_summary_memory_ref := None; ses_metadata_digest := None;
     ses_created_at := Some created_at; ses_last_active_at := Some created_at;
     ses_tags := None |}.

Section Coordinator.
  Context {Db : Type} `{Sqlite Db}.
  (** [hierarchy_coordinator_->promote_from_summary], its warnings and what it writes *)
  Context (promote_from_summary :
    option (SummaryMemory -> SqliteMemoryStore Db -> list string * SqliteMemoryStore Db)).

(** The writes of an attempt, in order. *)
Definition core_writes (clock : Clock) (request : MemoryWritebackRequest)
    (session_missing : bool) : list (Db -> StoreResult * Db) :=
  (if session_missing
   then [fun db => create_session db (build_session_record clock request)] else [])
  ++ [fun db => append_turn db (mwr_turn request);
      fun db => update_session_active db (mwr_session_id request)
                  (source_time clock request ActiveTime)]
  ++ match mwr_summary_candidate request with
     | Some summary => [fun db => upsert_summary db summary]
     | None => []
     end.

(** The first failure of a sequence of writes, which are then given up. *)
Fixpoint run_writes (writes : list (Db -> StoreResult * Db)) (store : SqliteMemoryStore Db)
    : option StoreResult * SqliteMemoryStore Db :=
  match writes with
  | [] => (None, store)
  | write :: writes =>
      let (result, store) := with_writer store write in
      if sto_ok result then run_writes writes store else (Some result, store)
  end.

(** One attempt: [None] where the turn is committed, or the code of the failure. *)
Definition core_attempt (clock : Clock) (request : MemoryWritebackRequest)
    (store : SqliteMemoryStore Db) : option (option ResultCode) * SqliteMemoryStore Db :=
  let (transaction, store) := begin_immediate store in
  let session_missing :=
    negb (has_non_empty_value (load_session_id store (mwr_session_id request))) in
  let (failure, store) := run_writes (core_writes clock request session_missing) store in
  match failure with
  | Some failure => (Some (sto_result_code failure), txn_rollback transaction store)
  | None =>
      match txn_commit transaction store with
      | (None, _, store) => (None, store)
      | (Some code, transaction, store) => (Some (Some code), txn_rollback transaction store)
      end
  end.

(** The attempts that are left; a retryable failure of all but the last is retried. *)
Fixpoint core_attempts (attempts : nat) (clock : Clock) (request : MemoryWritebackRequest)
    (store : SqliteMemoryStore Db) : option (option ResultCode) * SqliteMemoryStore Db :=
  match attempts with
  | O => (Some (Some ResultCode.RuntimeRetryExhausted), store)
  | S attempts =>
      match core_attempt clock request store with
      | (None, store) => (None, store)
      | (Some code, store) =>
          if is_retryable code && (0 <? attempts)%nat
          then core_attempts attempts clock request store else (Some code, store)
      end
  end.

Definition kMaxCoreTransactionAttempts : nat := 3.

Definition persist_core_transaction (clock : Clock) (request : MemoryWritebackRequest)
    (store : SqliteMemoryStore Db) : WritebackResult * SqliteMemoryStore Db :=
  match core_attempts kMaxCoreTransactionAttempts clock request store with
  | (Some code, store) =>
      (make_core_failure_result code "writeback_core_transaction_failed", store)
  | (None, store) =>
      let summary_id :=
        let? summary := mwr_summary_candidate request else None in sm_summary_id summary in
      let result :=
        {| wbr_result_code := None; wbr_persisted_turn_id := tn_turn_id (mwr_turn request);
           wbr_summary_id := summary_id; wbr_fact_ids := []; wbr_experience_ids := [];
           wbr_conflicts := []; wbr_warnings := []; wbr_degraded := false;
           wbr_partial := false; wbr_retryable_storage_failure := false |} in
      match mwr_summary_candidate request, promote_from_summary with
      | Some summary, Some promote =>
          let (warnings, store) := promote summary store in
          (or_degraded (warn_all result warnings) (bool_decide (warnings <> [])), store)
      | _, _ => (result, store)
      end
  end.

(** ** Facts, experiences and assets *)

Context (resolver : option (option (string -> option (list spec_float)) * spec_float)).

Definition resolution_plan (store : SqliteMemoryStore Db) (candidate : FactCandidate)
    (session_id : string) : option ConflictResolutionPlan :=
  match resolver with
  | Some (embed, threshold) => resolve (query_facts store) embed threshold candidate session_id
  | None => Some empty_resolution_plan
  end.

Definition partial_failure (result : WritebackResult) (warning : string) : WritebackResult :=
  warn (warn (or_partial result true) "partial_writeback_warning") warning.

(** What the plan says, before the fact is written. *)
Definition add_plan (result : WritebackResult) (plan : ConflictResolutionPlan)
    : WritebackResult :=
  let result := warn_all (or_degraded result (cpl_degraded plan)) (cpl_warnings plan) in
  if bool_decide (cpl_conflict_records plan = []) then result else
  add_derived (warn result "conflict_recorded_warning") [] [] (cpl_conflict_records plan).

(** The facts that the new one takes the place of. *)
Fixpoint supersede_all (new_fact_id : string) (records : list ConflictRecord)
    (result : WritebackResult) (store : SqliteMemoryStore Db)
    : WritebackResult * SqliteMemoryStore Db :=
  match records with
  | [] => (result, store)
  | record :: records =>
      if bool_decide (crc_action record <> ConflictAction.Supersede)
         || is_empty (crc_existing_fact_id record)
      then supersede_all new_fact_id records result store else
      let (superseded, store) :=
        with_writer store (fun db => supersede_fact db (crc_existing_fact_id record) new_fact_id) in
      supersede_all new_fact_id records
        (if sto_ok superseded then result else partial_failure result "fact_supersede_failed")
        store
  end.

(** One candidate; [None] where the resolver throws. *)
Definition persist_fact (clock : Clock) (index : nat) (session_id : string)
    (candidate : FactCandidate) (result : WritebackResult) (store : SqliteMemoryStore Db)
    : option WritebackResult * SqliteMemoryStore Db :=
  let fact := fc_fact candidate in
  match resolution_plan store candidate session_id with
  | None => (None, store)
  | Some plan =>
      let result := add_plan result plan in
      if bool_decide (cpl_action plan = ConflictAction.Reject) then (Some result, store) else
      let (inserted, store) :=
        with_writer store (fun db => insert_fact db fact (clock (FactRowTime index))) in
      if negb (sto_ok inserted)
      then (Some (partial_failure result "fact_write_failed"), store) else
      let fact_id := default "" (mf_fact_id fact) in
      let result := add_derived result [default fact_id (sto_persisted_id inserted)] [] [] in
      if bool_decide (cpl_action plan = ConflictAction.Supersede) then
        let new_fact_id := default (default "" (sto_persisted_id inserted)) (mf_fact_id fact) in
        let (result, store) :=
          supersede_all new_fact_id (cpl_conflict_records plan) result store in
        (Some result, store)
      else (Some result, store)
  end.

Fixpoint persist_facts (clock : Clock) (index : nat) (session_id : string)
    (candidates : list FactCandidate) (result : WritebackResult) (store : SqliteMemoryStore Db)
    : option WritebackResult * SqliteMemoryStore Db :=
  match candidates with
  | [] => (Some result, store)
  | candidate :: candidates =>
      match persist_fact clock index session_id candidate result store with
      | (None, store) => (None, store)
      | (Some result, store) =>
          persist_facts clock (S index) session_id candidates result store
      end
  end.

Fixpoint persist_experiences (clock : Clock) (index : nat)
    (candidates : list ExperienceCandidate) (result : WritebackResult)
    (store : SqliteMemoryStore Db) : WritebackResult * SqliteMemoryStore Db :=
  match candidates with
  | [] => (result, store)
  | candidate :: candidates =>
      let experience := ec_experience candidate in
      let (inserted, store) :=
        with_writer store
          (fun db => insert_experience db experience (clock (ExperienceRowTime index))) in
      let result :=
        if sto_ok inserted
        then add_derived result []
               [default (default "" (xm_experience_id experience)) (sto_persisted_id inserted)] []
        else partial_failure result "experience_write_failed" in
      persist_experiences clock (S index) candidates result store
  end.

Fixpoint persist_assets (clock : Clock) (index : nat)
    (candidates : list ProgrammaticMemoryCandidate) (result : WritebackResult)
    (store : SqliteMemoryStore Db) : WritebackResult * SqliteMemoryStore Db :=
  match candidates with
  | [] => (result, store)
  | candidate :: candidates =>
      let (upserted, store) :=
        with_writer store
          (fun db => upsert_programmatic_asset db (pmc_record candidate)
                       (clock (AssetRowTime index))) in
      let result :=
        if sto_ok upserted then result
        else partial_failure result "programmatic_asset_write_failed" in
      persist_assets clock (S index) candidates result store
  end.

(** At the end, and where an exception passes, the transaction is destroyed: what it has
    not committed is rolled back. *)
Definition persist_derived_data (clock : Clock) (request : MemoryWritebackRequest)
    (result : WritebackResult) (store : SqliteMemoryStore Db)
    : option WritebackResult * SqliteMemoryStore Db :=
  let result :=
    if bool_decide (is_Some resolver) then result else warn result "conflict_resolver_unwired" in
  if bool_decide (mwr_fact_candidates request = [])
     && bool_decide (mwr_experience_candidates request = [])
     && bool_decide (mwr_programmatic_candidates request = [])
  then (Some result, store) else
  let (derived_txn, store) := begin_immediate store in
  match persist_facts clock 0 (mwr_session_id request) (mwr_fact_candidates request)
          result store with
  | (None, store) => (None, txn_rollback derived_txn store)
  | (Some result, store) =>
      let (result, store) :=
        persist_experiences clock 0 (mwr_experience_candidates request) result store in
      let (result, store) :=
        persist_assets clock 0 (mwr_programmatic_candidates request) result store in
      match txn_commit derived_txn store with
      | (None, _, store) => (Some result, store)
      | (Some _, derived_txn, store) =>
          (Some (warn (or_partial result true) "derived_data_commit_failed"),
           txn_rollback derived_txn store)
      end
  end.

(** ** Vector index and working board *)

Record VectorDocument := {
  vdc_doc_id : string;
  vdc_doc_type : string;
  vdc_text : string;
}.

(** [vector_index_], where it is there and available: what it answers and becomes. *)
Context {Vec : Type} (is_available : Vec -> bool) (upsert : Vec -> VectorDocument -> bool * Vec).

Definition build_turn_vector_text (turn : Turn) : string :=
  let text := default "" (tn_user_input turn) in
  match tn_agent_response turn with
  | Some agent_response =>
      if is_empty agent_response then text else
      (if is_empty text then text else text +:+ String newline "") +:+ agent_response
  | None => text
  end.

Definition index_document (indexed : WritebackResult * Vec) (doc : VectorDocument)
    : WritebackResult * Vec :=
  let (ok, vec) := upsert indexed.2 doc in
  (if ok then indexed.1 else warn indexed.1 "vector_sidecar_failed", vec).

Definition turn_document (request : MemoryWritebackRequest) : VectorDocument :=
  {| vdc_doc_id := source_turn_id request; vdc_doc_type := "turn";
     vdc_text := build_turn_vector_text (mwr_turn request) |}.

Definition fact_document (candidate : FactCandidate) : VectorDocument :=
  {| vdc_doc_id := default "fact" (mf_fact_id (fc_fact candidate)); vdc_doc_type := "fact";
     vdc_text := default "" (mf_fact_text (fc_fact candidate)) |}.

(** The candidates whose id is reported as written. *)
Definition reported (result : WritebackResult) (candidate : FactCandidate) : bool :=
  bool_decide (default "" (mf_fact_id (fc_fact candidate)) ∈ wbr_fact_ids result).

Definition persist_vector_sidecar (request : MemoryWritebackRequest) (result : WritebackResult)
    (vector_index : option Vec) : WritebackResult * option Vec :=
  match vector_index with
  | None => (result, vector_index)
  | Some vec =>
      if negb (is_available vec) then (result, vector_index) else
      let (result, vec) :=
        foldl index_document (result, vec)
          (turn_document request
           :: (fact_document <$> base.filter (fun candidate => reported result candidate = true) (mwr_fact_candidates request))) in
      (result, Some vec)
  end.

Definition board_slot (key value : string) (updated_at : Z) : WorkingMemorySlot :=
  {| wms_key := key; wms_value := value; wms_updated_at := updated_at; wms_ttl_ms := 0;
     wms_source := "writeback" |}.

(** The slots that are set, in order. *)
Definition board_slots (clock : Clock) (request : MemoryWritebackRequest)
    (result : WritebackResult) : list WorkingMemorySlot :=
  let updated_at := source_time clock request BoardTime in
  let non_empty value := if has_non_empty_value value then value else None in
  let slot key (value : option string) :=
    option_list ((fun value => board_slot key value updated_at) <$> value) in
  slot "latest_turn_id" (wbr_persisted_turn_id result)
  ++ slot "latest_user_input" (tn_user_input (mwr_turn request))
  ++ slot "latest_agent_response" (non_empty (tn_agent_response (mwr_turn request)))
  ++ slot "latest_summary_id" (wbr_summary_id result)
  ++ slot "side_effect_report_ref" (non_empty (mwr_side_effect_report_ref request)).

Definition update_working_board (clock : Clock) (request : MemoryWritebackRequest)
    (result : WritebackResult) (board : WorkingMemoryBoard) : WorkingMemoryBoard :=
  foldl (fun board slot =>
           set_slot board (mwr_session_id request) slot
             (clock (SlotStampTime (wms_key slot))) (clock (SlotEvictTime (wms_key slot))))
    board (board_slots clock request result).

(** ** [WritebackCoordinator::persist] *)

Record MemoryState := {
  mst_store : SqliteMemoryStore Db;
  mst_vector : option Vec;
  mst_board : WorkingMemoryBoard;
}.

Definition with_store (state : MemoryState) (store : SqliteMemoryStore Db) : MemoryState :=
  {| mst_store := store; mst_vector := mst_vector state; mst_board := mst_board state |}.

(** [None]: the conflict resolver throws, after the turn is committed. *)
Definition persist (clock : Clock) (request : MemoryWritebackRequest) (state : MemoryState)
    : option WritebackResult * MemoryState :=
  if is_empty (mwr_session_id request)
  then (Some (make_invalid_result "writeback_session_id_missing"), state) else
  if negb (gr_ok (validate_turn_field_rules (normalize_turn clock request)))
  then (Some (make_invalid_result "writeback_turn_invalid"), state) else
  let (normalized_request, prep_result) := prepare_request clock request in
  let (result, store) := persist_core_transaction clock normalized_request (mst_store state) in
  let result :=
    warn_all (or_partial result (wbr_partial prep_result)) (wbr_warnings prep_result) in
  if bool_decide (is_Some (wbr_result_code result)) then (Some result, with_store state store) else
  match persist_derived_data clock normalized_request result store with
  | (None, store) => (None, with_store state store)
  | (Some result, store) =>
      let (result, vector_index) :=
        persist_vector_sidecar normalized_request result (mst_vector state) in
      (Some result,
       {| mst_store := store; mst_vector := vector_index;
          mst_board := update_working_board clock normalized_request result (mst_board state) |})
  end.

End Coordinator.

(** ** The turn is written once or not at all

    Where [BEGIN IMMEDIATE] fails, the code goes on, and the statements behind it run outside
    a transaction, each for itself. [attempts_begin] says that this does not happen. *)

(** Every transaction that the attempts begin does begin. *)
Fixpoint attempts_begin {Db : Type} `{Sqlite Db} (attempts : nat) (clock : Clock)
    (request : MemoryWritebackRequest) (store : SqliteMemoryStore Db) : bool :=
  match attempts with
  | O => true
  | S attempts =>
      bool_decide (txn_begin_error (begin_immediate store).1 = None)
      && match core_attempt clock request store with
         | (None, _) => true
         | (Some code, store) =>
             if is_retryable code && (0 <? attempts)%nat
             then attempts_begin attempts clock request store else true
         end
  end.

Section Atomicity.
  Context {Db Content : Type} `{SqliteLaws Db Content}.

Definition apply_all (statements : list Statement) (c : Content) : Content :=
  foldl (fun c statement => apply statement c) c statements.

Lemma apply_all_app xs ys c : apply_all (xs ++ ys) c = apply_all ys (apply_all xs c).
Proof. apply foldl_app. Qed.

(** The statements of a turn. *)
Definition is_core (statement : Statement) : Prop :=
  stm_sql statement ∈ [InsertSession; InsertTurn; UpdateSessionTurns; UpdateSessionActive;
                       UpsertSummary; UpdateLatestSummary].

(** Some statements of turns, one after the other, lead from [c] to [c']. *)
Definition partly (c c' : Content) : Prop :=
  exists statements, Forall is_core statements /\ c' = apply_all statements c.

Lemma partly_refl c : partly c c.
Proof. by exists []. Qed.

Lemma partly_trans c1 c2 c3 : partly c1 c2 -> partly c2 c3 -> partly c1 c3.
Proof.
  intros (xs & Hx & ->) (ys & Hy & ->). exists (xs ++ ys).
  split; [by apply Forall_app|]. by rewrite apply_all_app.
Qed.

(** What a write outside a transaction does. *)
Definition spreads (write : Db -> StoreResult * Db) : Prop :=
  forall db, pending db = None ->
  pending (write db).2 = None /\ partly (committed db) (committed (write db).2).

Lemma step_spreads statement db :
  is_core statement -> pending db = None ->
  pending (sqlite_step db statement).2 = None /\
  partly (committed db) (committed (sqlite_step db statement).2).
Proof.
  intros Hc Hnone.
  assert (is_write statement = true) as Hw.
  { unfold is_core in Hc. unfold is_write.
    repeat (apply elem_of_cons in Hc as [->|Hc]; [done|]). by apply not_elem_of_nil in Hc. }
  destruct (sqlite_step db statement) as [status db'] eqn:E. apply write_step in E; [|done].
  simpl. rewrite Hnone in E. destruct (map_sqlite_result status).
  - destruct E as [-> Hp]. split; [|apply partly_refl]. rewrite Hnone in Hp. by destruct Hp.
  - destruct E as [-> ->]. split; [done|]. exists [statement]. split; [by constructor|done].
Qed.

Lemma run_statement_spreads statement prepare_error step_error id :
  is_core statement ->
  spreads (fun db => run_statement db statement prepare_error step_error id).
Proof.
  intros Hc db Hnone. unfold run_statement.
  destruct (negb _); [by split; [|apply partly_refl]|].
  pose proof (step_spreads statement db Hc Hnone) as S.
  destruct (sqlite_step db statement) as [status db']. by destruct (map_sqlite_result status).
Qed.

Lemma spreads_then (write rest : Db -> StoreResult * Db) :
  spreads write -> spreads rest ->
  spreads (fun db => let (result, db') := write db in
                     if negb (sto_ok result) then (result, db') else rest db').
Proof.
  intros Hw Hr db Hnone. destruct (Hw db Hnone) as [Hn Hp]. destruct (write db) as [result db'].
  simpl in *. destruct (negb _); [done|]. destruct (Hr db' Hn) as [Hn' Hp'].
  split; [done|by eapply partly_trans].
Qed.

Ltac core_statement := unfold is_core; simpl; set_solver.

Lemma create_session_spreads session : spreads (fun db => create_session db session).
Proof.
  intros db Hnone. unfold create_session. destruct (negb _); [by split; [|apply partly_refl]|].
  apply (run_statement_spreads {| stm_sql := InsertSession; stm_row := session_row session |});
    [core_statement|done].
Qed.

Lemma append_turn_spreads turn : spreads (fun db => append_turn db turn).
Proof.
  intros db Hnone. unfold append_turn. destruct (negb _); [by split; [|apply partly_refl]|].
  pose proof (spreads_then
    (fun db => run_statement db {| stm_sql := InsertTurn; stm_row := turn_row turn |}
       "failed to prepare turn insert" "failed to insert turn" None)
    (fun db => run_statement db
       (turns_update (select_session_turns db (bind_optional_text (tn_session_id turn))) turn)
       "failed to prepare session turn update" "failed to update session turn index"
       (tn_turn_id turn))) as S.
  apply S; [apply run_statement_spreads; core_statement| |done].
  intros db' Hn. apply (run_statement_spreads (turns_update _ turn)); [core_statement|done].
Qed.

Lemma update_session_active_spreads session_id last_active_at :
  spreads (fun db => update_session_active db session_id last_active_at).
Proof.
  intros db Hnone. unfold update_session_active, require_change.
  pose proof (run_statement_spreads (update_active_statement session_id last_active_at)
    "failed to prepare session activity update" "failed to update session activity"
    (Some session_id) ltac:(core_statement) db Hnone) as S.
  unfold update_active_statement in S. destruct (run_statement _ _ _ _ _) as [result db'].
  by destruct (sto_ok result && _).
Qed.

Lemma upsert_summary_spreads summary : spreads (fun db => upsert_summary db summary).
Proof.
  intros db Hnone. unfold upsert_summary. destruct (negb _); [by split; [|apply partly_refl]|].
  pose proof (run_statement_spreads {| stm_sql := UpsertSummary; stm_row := summary_row summary |}
    "failed to prepare summary upsert" "failed to upsert summary" (sm_summary_id summary)
    ltac:(core_statement) db Hnone) as [Hn Hp].
  destruct (run_statement _ _ _ _ _) as [result db']. simpl in Hn, Hp.
  destruct (negb _); [done|]. destruct (_ && _); [|done]. simpl.
  destruct (step_spreads {| stm_sql := UpdateLatestSummary;
    stm_row := [bind_optional_text (sm_summary_id summary);
                bind_optional_text (sm_session_id summary)] |} db' ltac:(core_statement) Hn)
    as [Hn' Hp'].
  split; [done|by eapply partly_trans].
Qed.

Lemma run_writes_spreads writes db :
  Forall spreads writes -> pending db = None ->
  exists db', (run_writes writes (Some db)).2 = Some db' /\ pending db' = None /\
  partly (committed db) (committed db').
Proof.
  intros Hw. revert db. induction Hw as [|write rest Hwrite _ IH]; intros db Hnone.
  - exists db. split_and!; [done..|apply partly_refl].
  - cbn [run_writes with_writer]. destruct (Hwrite db Hnone) as [Hn Hp].
    destruct (write db) as [result db1]. simpl in Hn, Hp.
    destruct (sto_ok result); [|by exists db1].
    destruct (IH db1 Hn) as (db2 & E & Hn2 & Hp2). exists db2. split_and!; [done..|].
    by eapply partly_trans.
Qed.

Lemma core_writes_spread clock request missing :
  Forall spreads (core_writes clock request missing).
Proof.
  unfold core_writes. apply Forall_app. split.
  - destruct missing; [|by constructor]. constructor; [apply create_session_spreads|by constructor].
  - cbn [app]. constructor; [apply append_turn_spreads|].
    constructor; [apply update_session_active_spreads|].
    destruct (mwr_summary_candidate request); [|by constructor].
    constructor; [apply upsert_summary_spreads|by constructor].
Qed.

(** The data after the turn: its session if it is new, the turn, the session's time and
    the summary. *)
Definition session_missing (c : Content) (session_id : string) : bool :=
  negb (has_non_empty_value (session_of c (bind_text session_id))).

Definition core_content (clock : Clock) (request : MemoryWritebackRequest) (c : Content)
    : Content :=
  let session := build_session_record clock request in
  let c := if session_missing c (mwr_session_id request)
           then apply {| stm_sql := InsertSession; stm_row := session_row session |} c else c in
  let c := append_turn_effect (mwr_turn request) c in
  let c := apply (update_active_statement (mwr_session_id request)
                    (source_time clock request ActiveTime)) c in
  match mwr_summary_candidate request with
  | Some summary => apply {| stm_sql := UpsertSummary; stm_row := summary_row summary |} c
  | None => c
  end.

(** The turn is stored; its summary may not have become the session's latest. *)
Definition core_stored (clock : Clock) (request : MemoryWritebackRequest) (c c' : Content)
    : Prop :=
  c' = core_content clock request c \/
  exists summary statement, mwr_summary_candidate request = Some summary /\
    statement ∈ latest_statements summary /\ c' = apply statement (core_content clock request c).

(** The outcome of writes inside a transaction that started with [c]: what is committed
    stays as it was, and the transaction holds [stored], unless the database ended it. *)
Definition written (stored : Content -> Prop) (db : Db)
    (outcome : option StoreResult * SqliteMemoryStore Db) : Prop :=
  exists db', outcome.2 = Some db' /\ committed db' = committed db /\
  (outcome.1 = None -> pending db' = None \/ exists c', pending db' = Some c' /\ stored c').

Lemma run_writes_cons write effect rest stored db c :
  writes write effect -> pending db = Some c ->
  (forall db', committed db' = committed db -> pending db' = Some (effect c) ->
     written stored db' (run_writes rest (Some db'))) ->
  written stored db (run_writes (write :: rest) (Some db)).
Proof.
  intros Hw Hc Hrest. cbn [run_writes with_writer]. specialize (Hw db c Hc).
  destruct (write db) as [result db1]. destruct Hw as [Hdb1 Hok].
  destruct (sto_ok result); [|by exists db1].
  destruct (Hrest db1 Hdb1 (Hok eq_refl)) as (db2 & E1 & E2 & E3).
  exists db2. split; [done|]. split; [congruence|done].
Qed.

Lemma core_writes_written clock request missing db c :
  pending db = Some c -> missing = session_missing c (mwr_session_id request) ->
  written (core_stored clock request c) db (run_writes (core_writes clock request missing) (Some db)).
Proof.
  intros Hc ->. unfold core_writes, core_stored, core_content.
  set (session := build_session_record clock request).
  set (c0 := if session_missing c _ then _ else c).
  assert (forall db, pending db = Some c0 ->
    written (core_stored clock request c) db
      (run_writes (core_writes clock request false) (Some db))) as Hrest.
  { clear db Hc. intros db Hc. unfold core_writes, core_stored, core_content. fold session c0.
    cbn [app].
    eapply run_writes_cons; [apply append_turn_writes|done|]. intros db1 _ Hc1.
    eapply run_writes_cons; [apply update_session_active_writes|done|]. intros db2 _ Hc2.
    destruct (mwr_summary_candidate request) as [summary|].
    - cbn [run_writes with_writer].
      pose proof (upsert_summary_writes summary db2 _ Hc2) as S.
      destruct (upsert_summary db2 summary) as [result db3]. destruct S as [Hdb3 Hok].
      destruct (sto_ok result); [|by exists db3]. exists db3. split; [done|]. split; [done|].
      intros _. destruct (Hok eq_refl) as [?|(c' & Hc' & [->|(st & Hst & ->)])]; [by left|..];
        right; eexists; (split; [done|]); [by left|]. right. by exists summary, st.
    - exists db2. split; [done|]. split; [done|]. intros _. right. eexists. split; [done|]. by left. }
  unfold core_writes, core_stored, core_content in Hrest. fold session c0 in Hrest.
  cbn [app] in Hrest |- *. destruct (session_missing c (mwr_session_id request)) eqn:Em;
    cbn [app]; [|by apply Hrest].
  eapply run_writes_cons; [apply create_session_writes|done|]. intros db1 _ Hc1. by apply Hrest.
Qed.

Lemma rollback_ends begun db :
  (txn_active begun = false -> pending db = None) ->
  exists db', txn_rollback begun (Some db) = Some db' /\
  committed db' = committed db /\ pending db' = None.
Proof.
  intros Hnone. unfold txn_rollback, exec_sql.
  destruct (txn_active begun); simpl; [|by exists db; auto].
  pose proof (rollback_law db) as L. destruct (sqlite_step db (command Rollback)) as [status db'].
  simpl in *. by exists db'.
Qed.

Lemma begin_spec db :
  pending db = None ->
  exists code db', begin_immediate (Some db) = (new_transaction code, Some db') /\
  committed db' = committed db /\
  pending db' = match code with None => Some (committed db) | Some _ => None end.
Proof.
  intros Hnone. unfold begin_immediate, exec_sql. pose proof (begin_law db Hnone) as L.
  destruct (sqlite_step db (command BeginImmediate)) as [status db']. destruct L as [L1 L2].
  exists (map_sqlite_result status), db'. split; [done|]. split; [done|]. rewrite L2.
  by destruct (map_sqlite_result status).
Qed.

(** A commit: what the transaction holds becomes what is committed, or nothing does. *)
Lemma commit_spec db code :
  (code <> None -> pending db = None) ->
  let '(commit_result, txn, store) := txn_commit (new_transaction code) (Some db) in
  exists db', store = Some db' /\
  match commit_result with
  | None => code = None /\ pending db' = None /\ pending db = Some (committed db')
  | Some _ => committed db' = committed db /\ (txn_active txn = false -> pending db' = None)
  end.
Proof.
  intros Hnone. unfold txn_commit, new_transaction, exec_sql. simpl.
  destruct code as [code|]; simpl.
  { exists db. split; [done|]. split; [done|]. intros _. by apply Hnone. }
  pose proof (commit_law db) as L.
  destruct (sqlite_step db (command Commit)) as [status db']. exists db'. split; [done|].
  destruct (map_sqlite_result status); simpl; [by destruct L|].
  destruct (pending db) as [c|]; [|done]. destruct L as [<- L]. done.
Qed.

(** An attempt whose transaction does not begin: it fails, at the latest when it commits,
    and what it wrote until then stays. *)
Lemma unbegun_attempt clock request db :
  pending db = None -> txn_begin_error (begin_immediate (Some db)).1 <> None ->
  exists code db', core_attempt clock request (Some db) = (Some code, Some db') /\
  pending db' = None /\ partly (committed db) (committed db').
Proof.
  intros Hnone. unfold core_attempt.
  destruct (begin_spec db Hnone) as (code & db1 & -> & Hdb1 & Hn1). simpl.
  destruct code as [code|]; [|done]. intros _.
  match goal with |- context [core_writes _ _ ?m] => generalize m end. intros missing.
  destruct (run_writes_spreads _ db1 (core_writes_spread clock request missing) Hn1)
    as (db2 & E & Hn2 & Hp). rewrite Hdb1 in Hp.
  destruct (run_writes _ _) as [[failure|] store]; simpl in E; subst store; cbn; by eexists _, db2.
Qed.

Lemma begun_attempt clock request db :
  pending db = None -> txn_begin_error (begin_immediate (Some db)).1 = None ->
  exists db', (core_attempt clock request (Some db)).2 = Some db' /\ pending db' = None /\
  match (core_attempt clock request (Some db)).1 with
  | None => core_stored clock request (committed db) (committed db')
  | Some _ => committed db' = committed db
  end.
Proof.
  intros Hnone. unfold core_attempt.
  destruct (begin_spec db Hnone) as (code & db1 & -> & Hdb1 & Hcode). simpl. intros ->.
  unfold load_session_id. rewrite session_law, Hdb1.
  fold (session_missing (committed db) (mwr_session_id request)).
  destruct (core_writes_written clock request
    (session_missing (committed db) (mwr_session_id request)) db1 (committed db) Hcode eq_refl)
    as (db2 & E & Hdb2 & Hok).
  destruct (run_writes _ _) as [[failure|] store]; simpl in E; subst store.
  - destruct (rollback_ends (new_transaction None) db2) as (db3 & -> & Hdb3 & Hnone3);
      [done|]. exists db3. simpl. split; [done|]. split; [done|congruence].
  - pose proof (commit_spec db2 None ltac:(done)) as C.
    destruct (txn_commit _ _) as [[commit_result txn] store]. destruct C as (db3 & -> & C).
    destruct commit_result as [failed|].
    + destruct C as [Hdb3 Hact].
      destruct (rollback_ends txn db3 Hact) as (db4 & -> & Hdb4 & Hnone4).
      exists db4. simpl. split; [done|]. split; [done|congruence].
    + destruct C as (_ & Hnone3 & Hp). exists db3. simpl. split; [done|]. split; [done|].
      destruct (Hok eq_refl) as [?|(c' & Hc' & Hs)]; [congruence|].
      assert (c' = committed db3) as -> by congruence. done.
Qed.

(** What the attempts come to: an error, with nothing written where every transaction began;
    or the turn, stored behind what attempts without a transaction left. *)
Definition attempts_outcome (begun : bool) (clock : Clock) (request : MemoryWritebackRequest)
    (failed : bool) (c c' : Content) : Prop :=
  if failed then partly c c' /\ (begun = true -> c' = c)
  else exists c1, partly c c1 /\ (begun = true -> c1 = c) /\ core_stored clock request c1 c'.

Lemma core_attempts_spec attempts clock request db :
  pending db = None ->
  exists db', (core_attempts attempts clock request (Some db)).2 = Some db' /\
  pending db' = None /\
  attempts_outcome (attempts_begin attempts clock request (Some db)) clock request
    (bool_decide (is_Some (core_attempts attempts clock request (Some db)).1))
    (committed db) (committed db').
Proof.
  unfold attempts_outcome. revert db. induction attempts as [|attempts IH]; intros db Hnone.
  { exists db. split_and!; [done..|]. split; [apply partly_refl|done]. }
  cbn [core_attempts attempts_begin].
  destruct (txn_begin_error (begin_immediate (Some db)).1) as [begin_error|] eqn:Eb.
  - destruct (unbegun_attempt clock request db Hnone) as (code & db1 & -> & Hn1 & Hp1); [congruence|].
    rewrite (bool_decide_false (Some begin_error = None)) by done. cbn [andb].
    destruct (is_retryable code && _).
    + destruct (IH db1 Hn1) as (db2 & E & Hn2 & Hs). exists db2. split_and!; [done..|].
      case_bool_decide.
      * destruct Hs as [Hs _]. split; [by eapply partly_trans|done].
      * destruct Hs as (c1 & Hs & _ & Hst). exists c1. split_and!; [by eapply partly_trans|done..].
    + by exists db1.
  - destruct (begun_attempt clock request db Hnone Eb) as (db1 & E & Hn1 & Hs).
    rewrite (bool_decide_true (None = None)) by done. cbn [andb].
    destruct (core_attempt _ _ _) as [[code|] store]; simpl in E, Hs; subst store.
    + destruct (is_retryable code && _).
      * rewrite <- Hs. by apply IH.
      * exists db1. split_and!; [done..|]. rewrite Hs. split; [apply partly_refl|done].
    + exists db1. split_and!; [done..|]. exists (committed db). split_and!; [apply partly_refl|done..].
Qed.

(** ** What is derived from the turn *)

Definition is_derived (statement : Statement) : Prop :=
  stm_sql statement ∈ [InsertFact; SupersedeFact; InsertExperience; UpsertProgrammaticAsset].

(** What is committed, and what a transaction holds, came from [c] by writing facts,
    experiences and assets. A transaction is open only if [active]. *)
Definition derived_from (c : Content) (active : bool) (store : SqliteMemoryStore Db) : Prop :=
  exists db, store = Some db /\
  (exists statements, Forall is_derived statements /\ committed db = apply_all statements c) /\
  (forall p, pending db = Some p ->
     active = true /\ exists statements, Forall is_derived statements /\
                                         p = apply_all statements (committed db)).

Definition derives (write : Db -> StoreResult * Db) : Prop :=
  forall c active store, derived_from c active store ->
  derived_from c active (with_writer store write).2.

Lemma derived_kept c active db db' :
  kept db db' -> derived_from c active (Some db) -> derived_from c active (Some db').
Proof.
  intros [Hc Hp] (db0 & [= <-] & Hs & Hpend). exists db'. split; [done|].
  rewrite Hc. split; [done|]. intros p E. destruct Hp as [Hp|Hp]; rewrite Hp in E; [|done].
  by apply Hpend.
Qed.

Lemma run_statement_derives statement prepare_error step_error id c active db :
  is_derived statement -> derived_from c active (Some db) ->
  derived_from c active
    (Some (run_statement db statement prepare_error step_error id).2).
Proof.
  intros Hd Hdb.
  assert (is_write statement = true) as Hw.
  { unfold is_derived in Hd. unfold is_write.
    repeat (apply elem_of_cons in Hd as [->|Hd]; [done|]). by apply not_elem_of_nil in Hd. }
  pose proof (run_statement_spec db statement prepare_error step_error id Hw) as S.
  destruct (run_statement _ _ _ _ _) as [result db']. simpl.
  destruct (sto_ok result); [|by apply (derived_kept c active db)].
  destruct S as [_ S]. destruct Hdb as (db0 & [= <-] & (ss & Hss & Hc) & Hpend).
  exists db'. split; [done|].
  destruct (pending db) as [p|] eqn:Ep.
  - destruct S as [S1 S2]. rewrite S1, S2. split; [by exists ss|].
    intros p' [= <-]. destruct (Hpend p eq_refl) as (-> & more & Hmore & ->).
    split; [done|]. exists (more ++ [statement]).
    split; [by apply Forall_app_last|]. by rewrite apply_all_app.
  - destruct S as [S1 S2]. rewrite S1, S2. split; [|done].
    exists (ss ++ [statement]). split; [by apply Forall_app_last|].
    by rewrite apply_all_app, <- Hc.
Qed.

Ltac derived_write :=
  let db := fresh "db" in let Hdb := fresh "Hdb" in
  intros c active store (db & -> & Hdb);
  assert (derived_from c active (Some db)) as Hdb' by (exists db; done);
  cbn [with_writer].

Lemma insert_fact_derives fact now : derives (fun db => insert_fact db fact now).
Proof.
  derived_write. unfold insert_fact. destruct (negb _); [done|].
  pose proof (run_statement_derives {| stm_sql := InsertFact;
    stm_row := fact_row fact (resolve_session_user_id db (mf_session_id fact)) now |}
    "failed to prepare fact insert" "failed to insert fact" (mf_fact_id fact) c active db
    ltac:(unfold is_derived; simpl; set_solver) Hdb') as S.
  by destruct (run_statement _ _ _ _ _).
Qed.

Lemma supersede_fact_derives old_fact_id new_fact_id :
  derives (fun db => supersede_fact db old_fact_id new_fact_id).
Proof.
  derived_write. unfold supersede_fact, require_change.
  pose proof (run_statement_derives {| stm_sql := SupersedeFact;
    stm_row := [bind_text new_fact_id; bind_text old_fact_id] |}
    "failed to prepare fact supersede update" "failed to update superseded fact"
    (Some old_fact_id) c active db ltac:(unfold is_derived; simpl; set_solver) Hdb') as S.
  destruct (run_statement _ _ _ _ _) as [result db']. by destruct (_ && _).
Qed.

Lemma insert_experience_derives experience now :
  derives (fun db => insert_experience db experience now).
Proof.
  derived_write. unfold insert_experience. destruct (negb _); [done|].
  pose proof (run_statement_derives {| stm_sql := InsertExperience;
    stm_row := experience_row experience
      (resolve_session_user_id db (xm_session_id experience)) now |}
    "failed to prepare experience insert" "failed to insert experience"
    (xm_experience_id experience) c active db
    ltac:(unfold is_derived; simpl; set_solver) Hdb') as S.
  by destruct (run_statement _ _ _ _ _).
Qed.

Lemma upsert_asset_derives record now : derives (fun db => upsert_programmatic_asset db record now).
Proof.
  derived_write. unfold upsert_programmatic_asset. destruct (negb _); [done|].
  pose proof (run_statement_derives {| stm_sql := UpsertProgrammaticAsset;
    stm_row := asset_row record now |}
    "failed to prepare programmatic asset upsert" "failed to upsert programmatic asset"
    (Some (pmr_asset_ref record)) c active db
    ltac:(unfold is_derived; simpl; set_solver) Hdb') as S.
  by destruct (run_statement _ _ _ _ _).
Qed.

Lemma supersede_all_derives new_fact_id records result c active store :
  derived_from c active store ->
  derived_from c active (supersede_all new_fact_id records result store).2.
Proof.
  revert result store. induction records as [|record records IH]; intros result store Hs;
    cbn [supersede_all]; [done|].
  destruct (_ || _); [by apply IH|].
  pose proof (supersede_fact_derives (crc_existing_fact_id record) new_fact_id _ _ _ Hs) as S.
  destruct (with_writer _ _). by apply IH.
Qed.

Lemma persist_fact_derives resolver clock index session_id candidate result c active store :
  derived_from c active store ->
  derived_from c active (persist_fact resolver clock index session_id candidate result store).2.
Proof.
  intros Hs. unfold persist_fact. destruct (resolution_plan _ _ _ _) as [plan|]; [|done].
  case_bool_decide; [done|].
  pose proof (insert_fact_derives (fc_fact candidate) (clock (FactRowTime index)) _ _ _ Hs) as S.
  destruct (with_writer _ _) as [inserted store']. simpl in S.
  destruct (negb _); [done|]. case_bool_decide; [|done].
  match goal with |- context [supersede_all ?n ?rs ?r store'] =>
    pose proof (supersede_all_derives n rs r c active store' S) as S2 end.
  by destruct (supersede_all _ _ _ _).
Qed.

Lemma persist_facts_derives resolver clock index session_id candidates result c active store :
  derived_from c active store ->
  derived_from c active (persist_facts resolver clock index session_id candidates result store).2.
Proof.
  revert index result store.
  induction candidates as [|candidate candidates IH]; intros index result store Hs;
    cbn [persist_facts]; [done|].
  pose proof (persist_fact_derives resolver clock index session_id candidate result _ _ _ Hs) as S.
  destruct (persist_fact _ _ _ _ _ _ _) as [[result'|] store']; [by apply IH|done].
Qed.

Lemma persist_experiences_derives clock index candidates result c active store :
  derived_from c active store ->
  derived_from c active (persist_experiences clock index candidates result store).2.
Proof.
  revert index result store.
  induction candidates as [|candidate candidates IH]; intros index result store Hs;
    cbn [persist_experiences]; [done|].
  pose proof (insert_experience_derives (ec_experience candidate)
    (clock (ExperienceRowTime index)) _ _ _ Hs) as S.
  destruct (with_writer _ _). by apply IH.
Qed.

Lemma persist_assets_derives clock index candidates result c active store :
  derived_from c active store ->
  derived_from c active (persist_assets clock index candidates result store).2.
Proof.
  revert index result store.
  induction candidates as [|candidate candidates IH]; intros index result store Hs;
    cbn [persist_assets]; [done|].
  pose proof (upsert_asset_derives (pmc_record candidate) (clock (AssetRowTime index)) _ _ _ Hs) as S.
  destruct (with_writer _ _). by apply IH.
Qed.

Lemma persist_derived_spec resolver clock request result db :
  pending db = None ->
  exists db' statements,
    (persist_derived_data resolver clock request result (Some db)).2 = Some db' /\
    pending db' = None /\ Forall is_derived statements /\
    committed db' = apply_all statements (committed db).
Proof.
  intros Hnone. unfold persist_derived_data. destruct (_ && _ && _); [by exists db, []|].
  set (result0 := if bool_decide _ then result else _). clearbody result0.
  destruct (begin_spec db Hnone) as (code & db1 & -> & Hdb1 & Hcode).
  set (active := bool_decide (code = None)).
  assert (derived_from (committed db) active (Some db1)) as Hs.
  { exists db1. split; [done|]. split; [by exists []|]. intros p Hp. unfold active.
    destruct code as [code|]; [congruence|]. split; [done|]. exists [].
    split; [done|]. simpl. congruence. }
  assert (forall db2, derived_from (committed db) active (Some db2) ->
    exists db' statements, txn_rollback (new_transaction code) (Some db2) = Some db' /\
      pending db' = None /\ Forall is_derived statements /\
      committed db' = apply_all statements (committed db)) as Hend.
  { intros db2 (db0 & [= <-] & (ss & Hss & Hc) & Hp).
    destruct (rollback_ends (new_transaction code) db2) as (db3 & -> & Hc3 & Hn3).
    - simpl. fold active. intros Ha. destruct (pending db2) as [p|]; [|done].
      destruct (Hp p eq_refl). congruence.
    - exists db3, ss. repeat split; auto. congruence. }
  pose proof (persist_facts_derives resolver clock 0 (mwr_session_id request)
    (mwr_fact_candidates request) result0 _ _ _ Hs) as S1.
  destruct (persist_facts _ _ _ _ _ _ _) as [[result1|] store1]; simpl in S1.
  2: { pose proof S1 as (db2 & -> & _). by apply Hend. }
  pose proof (persist_experiences_derives clock 0 (mwr_experience_candidates request)
    result1 _ _ _ S1) as S2.
  destruct (persist_experiences _ _ _ _ _) as [result2 store2]. simpl in S2.
  pose proof (persist_assets_derives clock 0 (mwr_programmatic_candidates request)
    result2 _ _ _ S2) as S3.
  destruct (persist_assets _ _ _ _ _) as [result3 store3]. simpl in S3.
  destruct S3 as (db2 & -> & (ss & Hss & Hc) & Hp).
  assert (code <> None -> pending db2 = None) as Hidle.
  { intros Hne. destruct (pending db2) as [p|]; [|done]. destruct (Hp p eq_refl) as [Ha _].
    unfold active in Ha. by rewrite bool_decide_eq_true in Ha. }
  pose proof (commit_spec db2 code Hidle) as C.
  destruct (txn_commit _ _) as [[commit_result txn] store]. destruct C as (db3 & -> & C).
  destruct commit_result as [failed|].
  - destruct C as [Hc3 Hact]. destruct (rollback_ends txn db3 Hact) as (db4 & -> & Hc4 & Hn4).
    exists db4, ss. repeat split; auto. congruence.
  - destruct C as (-> & Hn3 & Hp3). destruct (Hp _ Hp3) as (_ & more & Hmore & Hc3).
    exists db3, (ss ++ more). repeat split; [done|by apply Forall_app|].
    by rewrite apply_all_app, <- Hc.
Qed.

(** ** What is reported of the turn stays *)

Definition turn_report (result : WritebackResult)
    : option ResultCode * option string * option string :=
  (wbr_result_code result, wbr_persisted_turn_id result, wbr_summary_id result).

Lemma warn_all_report warnings result : turn_report (warn_all result warnings) = turn_report result.
Proof.
  revert result. induction warnings as [|w ws IH]; intros result; [done|].
  unfold warn_all in *. simpl. by rewrite IH.
Qed.

Lemma add_plan_report result plan : turn_report (add_plan result plan) = turn_report result.
Proof.
  unfold add_plan.
  assert (turn_report (warn_all (or_degraded result (cpl_degraded plan)) (cpl_warnings plan)) =
    turn_report result) as <- by (by rewrite warn_all_report).
  by case_bool_decide.
Qed.

Lemma supersede_all_report new_fact_id records result (store : SqliteMemoryStore Db) :
  turn_report (supersede_all new_fact_id records result store).1 = turn_report result.
Proof.
  revert result store. induction records as [|record records IH]; intros result store;
    cbn [supersede_all]; [done|].
  destruct (_ || _); [by apply IH|]. destruct (with_writer _ _) as [superseded store'].
  rewrite IH. by destruct (sto_ok superseded).
Qed.

Lemma persist_fact_report resolver clock index session_id candidate result
    (store : SqliteMemoryStore Db) result' :
  (persist_fact resolver clock index session_id candidate result store).1 = Some result' ->
  turn_report result' = turn_report result.
Proof.
  unfold persist_fact. destruct (resolution_plan _ _ _ _) as [plan|]; [|done].
  case_bool_decide; [intros [= <-]; apply add_plan_report|].
  destruct (with_writer _ _) as [inserted store'].
  destruct (negb _); [intros [= <-]; apply (add_plan_report result plan)|].
  case_bool_decide; [|intros [= <-]; apply (add_plan_report result plan)].
  match goal with |- context [supersede_all ?n ?rs ?r store'] =>
    pose proof (supersede_all_report n rs r store') as S end.
  destruct (supersede_all _ _ _ _). intros [= <-]. simpl in S. rewrite S.
  apply (add_plan_report result plan).
Qed.

Lemma persist_facts_report resolver clock index session_id candidates result
    (store : SqliteMemoryStore Db) result' :
  (persist_facts resolver clock index session_id candidates result store).1 = Some result' ->
  turn_report result' = turn_report result.
Proof.
  revert index result store.
  induction candidates as [|candidate candidates IH]; intros index result store;
    cbn [persist_facts]; [by intros [= <-]|].
  pose proof (persist_fact_report resolver clock index session_id candidate result store) as S.
  destruct (persist_fact _ _ _ _ _ _ _) as [[result1|] store']; [|done].
  intros E. rewrite <- (S result1 eq_refl). by apply (IH _ _ _ E).
Qed.

Lemma persist_experiences_report clock index candidates result (store : SqliteMemoryStore Db) :
  turn_report (persist_experiences clock index candidates result store).1 = turn_report result.
Proof.
  revert index result store.
  induction candidates as [|candidate candidates IH]; intros index result store;
    cbn [persist_experiences]; [done|].
  destruct (with_writer _ _) as [inserted store']. rewrite IH. by destruct (sto_ok inserted).
Qed.

Lemma persist_assets_report clock index candidates result (store : SqliteMemoryStore Db) :
  turn_report (persist_assets clock index candidates result store).1 = turn_report result.
Proof.
  revert index result store.
  induction candidates as [|candidate candidates IH]; intros index result store;
    cbn [persist_assets]; [done|].
  destruct (with_writer _ _) as [upserted store']. rewrite IH. by destruct (sto_ok upserted).
Qed.

Lemma persist_derived_report resolver clock request result (store : SqliteMemoryStore Db) result' :
  (persist_derived_data resolver clock request result store).1 = Some result' ->
  turn_report result' = turn_report result.
Proof.
  unfold persist_derived_data.
  set (result0 := if bool_decide (is_Some resolver) then result else _).
  assert (turn_report result0 = turn_report result) as <- by (unfold result0; by case_bool_decide).
  clearbody result0. destruct (_ && _ && _); [by intros [= <-]|].
  destruct (begin_immediate store) as [txn store0].
  pose proof (persist_facts_report resolver clock 0 (mwr_session_id request)
    (mwr_fact_candidates request) result0 store0) as S1.
  destruct (persist_facts _ _ _ _ _ _ _) as [[result1|] store1]; [|done].
  rewrite <- (S1 result1 eq_refl).
  pose proof (persist_experiences_report clock 0 (mwr_experience_candidates request)
    result1 store1) as S2.
  destruct (persist_experiences _ _ _ _ _) as [result2 store2]. simpl in S2. rewrite <- S2.
  pose proof (persist_assets_report clock 0 (mwr_programmatic_candidates request)
    result2 store2) as S3.
  destruct (persist_assets _ _ _ _ _) as [result3 store3]. simpl in S3. rewrite <- S3.
  destruct (txn_commit _ _) as [[[failed|] txn'] store4]; by intros [= <-].
Qed.

(** What the promotion of summaries does to a database without a transaction. *)
Definition promotes
    (promote : option (SummaryMemory -> SqliteMemoryStore Db -> list string * SqliteMemoryStore Db))
    (relation : Content -> Content -> Prop) : Prop :=
  forall p summary db, promote = Some p -> pending db = None ->
  exists db', (p summary (Some db)).2 = Some db' /\ pending db' = None /\
              relation (committed db) (committed db').

Lemma core_transaction_spec promote relation clock request db :
  promotes promote relation -> pending db = None ->
  let begun := attempts_begin kMaxCoreTransactionAttempts clock request (Some db) in
  let (result, store) := persist_core_transaction promote clock request (Some db) in
  exists db', store = Some db' /\ pending db' = None /\
  if bool_decide (is_Some (wbr_result_code result))
  then partly (committed db) (committed db') /\ (begun = true -> committed db' = committed db)
  else wbr_result_code result = None /\ wbr_persisted_turn_id result = tn_turn_id (mwr_turn request) /\
    exists c1 c, partly (committed db) c1 /\ (begun = true -> c1 = committed db) /\
      core_stored clock request c1 c /\ (committed db' = c \/ relation c (committed db')).
Proof.
  intros Hp Hnone. cbv zeta. unfold persist_core_transaction.
  destruct (core_attempts_spec kMaxCoreTransactionAttempts clock request db Hnone)
    as (db1 & E & Hn1 & Hs).
  generalize dependent (attempts_begin kMaxCoreTransactionAttempts clock request (Some db)).
  intros begun Hs. unfold attempts_outcome in Hs.
  destruct (core_attempts _ _ _ _) as [[code|] store]; simpl in E, Hs; subst store.
  { by exists db1. }
  destruct Hs as (c1 & Hc1 & Hb & Hs).
  assert (exists c1 c, partly (committed db) c1 /\ (begun = true -> c1 = committed db) /\
      core_stored clock request c1 c /\ (committed db1 = c \/ relation c (committed db1))) as Hdone
    by (exists c1, (committed db1); by auto).
  destruct (mwr_summary_candidate request) as [summary|]; [|by exists db1].
  destruct promote as [p|]; [|by exists db1].
  destruct (Hp p summary db1 eq_refl Hn1) as (db2 & E & Hn2 & Hr).
  destruct (p summary (Some db1)) as [warnings store]. simpl in E. subst store.
  exists db2. split; [done|]. split; [done|].
  match goal with |- context [warn_all ?r warnings] =>
    pose proof (warn_all_report warnings r) as R end.
  injection R as R1 R2 _.
  simpl. rewrite R1. simpl. split; [done|]. split; [by rewrite R2|].
  exists c1, (committed db1). by auto.
Qed.

Lemma sidecar_report {Vec} is_available upsert request result (vector_index : option Vec) :
  turn_report (persist_vector_sidecar is_available upsert request result vector_index).1 =
  turn_report result.
Proof.
  unfold persist_vector_sidecar. destruct vector_index as [vec|]; [|done].
  destruct (negb _); [done|].
  generalize (turn_document request
    :: (fact_document <$> base.filter (fun candidate => reported result candidate = true)
          (mwr_fact_candidates request))) as docs. intros docs.
  assert (forall docs indexed,
    turn_report (foldl (index_document upsert) indexed docs).1 = turn_report indexed.1) as Hfold.
  { clear docs. induction docs as [|doc docs IH]; intros indexed; [done|]. simpl. rewrite IH.
    unfold index_document. by destruct (upsert indexed.2 doc) as [[] ?]. }
  specialize (Hfold docs (result, vec)). by destruct (foldl _ _ docs).
Qed.

(** C13. A writeback leaves no transaction open, whatever fails in it, over any store that keeps
    what SQLite documents of transactions. If it reports an error, the vector index and the
    board are as they were, and so is the store, provided that every transaction the writeback
    began did begin ([attempts_begin]); where one did not, the code goes on without it, and the
    store may hold some of the turn's statements. If it reports none, the turn is stored
    whole: its session if it was new, the turn and its place in the session, the session's
    time and the summary -- once, if every transaction began, and behind what the attempts
    without one left otherwise. What follows writes facts, experiences and assets only, which
    cannot undo the turn; if the conflict resolver throws there, the turn is stored all the
    same, though nobody is told, and index and board do not follow. *)
Theorem writeback_atomic {Vec : Type} promote relation resolver
    (is_available : Vec -> bool) upsert clock request db vector_index board :
  promotes promote relation -> pending db = None ->
  let (outcome, state) := persist promote resolver is_available upsert clock request
    {| mst_store := Some db; mst_vector := vector_index; mst_board := board |} in
  let normalized_request := (prepare_request clock request).1 in
  let begun := attempts_begin kMaxCoreTransactionAttempts clock normalized_request (Some db) in
  exists db', mst_store state = Some db' /\ pending db' = None /\
  match outcome with
  | Some result =>
      (is_Some (wbr_result_code result) ->
         partly (committed db) (committed db') /\
         (begun = true -> committed db' = committed db) /\
         mst_vector state = vector_index /\ mst_board state = board) /\
      (wbr_result_code result = None ->
         wbr_persisted_turn_id result = tn_turn_id (mwr_turn request))
  | None => mst_vector state = vector_index /\ mst_board state = board
  end /\
  ((exists result, outcome = Some result /\ is_Some (wbr_result_code result)) \/
   exists c1 c0 c statements, partly (committed db) c1 /\
     (begun = true -> c1 = committed db) /\ core_stored clock normalized_request c1 c0 /\
     (c = c0 \/ relation c0 c) /\ Forall is_derived statements /\
     committed db' = apply_all statements c).
Proof.
  intros Hpr Hnone. unfold persist.
  destruct (is_empty _);
    [exists db; split_and!; try done; [intros _; by split; [apply partly_refl|]|];
     left; eexists; split; [done|]; by eexists|].
  destruct (negb _);
    [exists db; split_and!; try done; [intros _; by split; [apply partly_refl|]|];
     left; eexists; split; [done|]; by eexists|].
  assert (tn_turn_id (mwr_turn (prepare_request clock request).1) = tn_turn_id (mwr_turn request)) as Hid.
  { unfold prepare_request. by repeat case_match. }
  destruct (prepare_request clock request) as [normalized prep]. cbn [fst mst_store mst_vector mst_board] in Hid |- *.
  pose proof (core_transaction_spec promote relation clock normalized db Hpr Hnone) as C.
  cbv zeta in C. revert C.
  generalize (attempts_begin kMaxCoreTransactionAttempts clock normalized (Some db)). intros begun C.
  destruct (persist_core_transaction _ _ _ _) as [result0 store]. destruct C as (db1 & -> & Hn1 & C).
  set (result := warn_all _ _).
  assert (turn_report result = turn_report result0) as R by (unfold result; by rewrite warn_all_report).
  injection R as R1 R2 _. rewrite R1. clearbody result.
  case_bool_decide as Hcode.
  { destruct C as [Hpartly Hbegun]. exists db1.
    split; [done|]. split; [done|]. split; [split|].
    - intros _. done.
    - rewrite R1. intros E. rewrite E in Hcode. by destruct Hcode.
    - left. eexists. by rewrite R1. }
  destruct C as (Hnocode & Hturn & c1 & c0 & Hc1 & Hb & Hc0 & Hcd).
  destruct (persist_derived_spec resolver clock normalized result db1 Hn1)
    as (db2 & ss & E & Hn2 & Hss & Hc2).
  assert (exists c1 c0 c statements, partly (committed db) c1 /\
     (begun = true -> c1 = committed db) /\ core_stored clock normalized c1 c0 /\
     (c = c0 \/ relation c0 c) /\ Forall is_derived statements /\
     committed db2 = apply_all statements c) as Hstored by (by exists c1, c0, (committed db1), ss).
  pose proof (persist_derived_report resolver clock normalized result (Some db1)) as D.
  destruct (persist_derived_data _ _ _ _ _) as [[result1|] store]; simpl in E; subst store.
  2: { exists db2. by split_and!; auto. }
  specialize (D result1 eq_refl).
  pose proof (sidecar_report is_available upsert normalized result1 vector_index) as V.
  destruct (persist_vector_sidecar _ _ _ _ _) as [result2 vec]. simpl in V.
  assert (turn_report result2 = turn_report result) as E by congruence.
  injection E as E1 E2 _. exists db2. simpl. rewrite E1, R1, Hnocode, E2, R2, Hturn, Hid.
  split_and!; auto. intros [? [=]].
Qed.

End Atomicity.

(** ** A database

    It keeps the log of its statements, refuses a row that is there already, and cannot
    begin while another holds its lock, which is given up at once, [log_busy] times;
    [log_commit_faults] are the fates of the next commits. *)

Record LogDb := {
  log_committed : list Statement;
  log_pending : option (list Statement);
  log_busy : nat;
  log_commit_faults : list bool;
}.

Definition empty_log (busy : nat) (commit_faults : list bool) : LogDb :=
  {| log_committed := []; log_pending := None; log_busy := busy;
     log_commit_faults := commit_faults |}.

Definition log_put (db : LogDb) (committed : list Statement) (pending : option (list Statement))
    : LogDb :=
  {| log_committed := committed; log_pending := pending; log_busy := log_busy db;
     log_commit_faults := log_commit_faults db |}.

Definition log_step (db : LogDb) (statement : Statement) : SqliteStatus * LogDb :=
  match stm_sql statement, log_pending db with
  | BeginImmediate, None =>
      match log_busy db with
      | S busy =>
          (SQLITE_BUSY, {| log_committed := log_committed db; log_pending := None;
                           log_busy := busy; log_commit_faults := log_commit_faults db |})
      | O => (SQLITE_OK, log_put db (log_committed db) (Some (log_committed db)))
      end
  | BeginImmediate, Some _ | Commit, None => (SQLITE_OTHER 1, db)
  | Commit, Some c =>
      let fails := default false (head (log_commit_faults db)) in
      (if fails then SQLITE_FULL else SQLITE_OK,
       {| log_committed := if fails then log_committed db else c;
          log_pending := if fails then Some c else None; log_busy := log_busy db;
          log_commit_faults := tail (log_commit_faults db) |})
  | Rollback, _ => (SQLITE_OK, log_put db (log_committed db) None)
  | _, pending =>
      let seen := default (log_committed db) pending in
      if bool_decide (statement ∈ seen) && bool_decide (stm_sql statement ∈ [InsertTurn; InsertFact])
      then (SQLITE_OTHER 19, db) else
      match pending with
      | Some c => (SQLITE_DONE, log_put db (log_committed db) (Some (c ++ [statement])))
      | None => (SQLITE_DONE, log_put db (log_committed db ++ [statement]) None)
      end
  end.

(** The sessions of a log. *)
Definition log_session (log : list Statement) (session_id : SqlValue) : option string :=
  if existsb (fun statement => bool_decide (stm_sql statement = InsertSession)
                && bool_decide (head (stm_row statement) = Some session_id)) log
  then Some "session" else None.

#[local] Instance LogSqlite : Sqlite LogDb := {
  sqlite_prepare _ _ := true;
  sqlite_step := log_step;
  sqlite_changes _ := 1;
  select_session_turns _ _ := None;
  select_session_user _ _ := None;
  reader_session_id db := log_session (log_committed db);
  reader_facts _ _ := [];
  sqlite_text_of_int := to_string;
  sqlite_int_of_text _ := 0;
}.

#[local] Program Instance LogLaws : @SqliteLaws LogDb LogSqlite (list Statement) := {
  committed := log_committed;
  pending := log_pending;
  apply statement log := log ++ [statement];
  turns_of _ _ := None;
  session_of := log_session;
}.
Next Obligation.
  intros db Hnone. cbn. unfold log_step. cbn. rewrite Hnone. by destruct (log_busy db).
Qed.
Next Obligation.
  intros db. cbn. unfold log_step. cbn.
  destruct (log_pending db) eqn:E; [|simpl; rewrite ?E; auto]. destruct (default false _); simpl; auto.
Qed.
Next Obligation. intros db. by destruct (log_pending db). Qed.
Next Obligation.
  intros db statement Hw. cbn. unfold log_step, is_write in *.
  destruct (stm_sql statement); try done;
    destruct (_ && _); simpl; auto; by destruct (log_pending db).
Qed.
Next Obligation. done. Qed.
Next Obligation. done. Qed.

Definition sample_clock : Clock := fun _ => 100.

Definition sample_turn : Turn :=
  {| tn_turn_id := Some "t1"; tn_session_id := None; tn_user_input := Some "hello";
     tn_agent_response := Some "hi"; tn_tool_call_refs := None; tn_observation_refs := None;
     tn_summary_memory_ref := None; tn_created_at := None; tn_tags := None |}.

Definition sample_writeback (facts : list FactCandidate) : MemoryWritebackRequest :=
  {| mwr_request_id := "r1"; mwr_session_id := "s1"; mwr_trace_id := "";
     mwr_turn := sample_turn; mwr_summary_candidate := None; mwr_fact_candidates := facts;
     mwr_experience_candidates := []; mwr_programmatic_candidates := [];
     mwr_reflection_lesson := None; mwr_side_effect_report_ref := None |}.

Definition sample_state (busy : nat) (commit_faults : list bool) : MemoryState :=
  {| mst_store := Some (empty_log busy commit_faults); mst_vector := Some (@nil VectorDocument);
     mst_board := create_working_memory_board 8 |}.

(** A vector index that takes everything. *)
Definition log_upsert (docs : list VectorDocument) (doc : VectorDocument)
    : bool * list VectorDocument := (true, docs ++ [doc]).

Definition run_writeback (facts : list FactCandidate) (busy : nat) (commit_faults : list bool) :=
  @persist LogDb LogSqlite None None (list VectorDocument) (fun _ => true) log_upsert
    sample_clock (sample_writeback facts) (sample_state busy commit_faults).

(** A first commit that fails, and a first attempt that is repeated. *)
Lemma writeback_atomic_witness :
  exists result db', run_writeback [] 0 [true] = (Some result, db') /\
  wbr_result_code result = None /\
  (wbr_result_code result = None -> wbr_persisted_turn_id result = Some "t1").
Proof.
  pose proof (@writeback_atomic LogDb (list Statement) LogSqlite LogLaws
    (list VectorDocument) None (fun _ _ => False) None
    (fun _ => true) log_upsert sample_clock (sample_writeback []) (empty_log 0 [true])
    (Some []) (create_working_memory_board 8)
    ltac:(intros p summary db E; discriminate) eq_refl) as W.
  fold (sample_state 0 [true]) in W. fold (run_writeback [] 0 [true]) in W.
  destruct (run_writeback [] 0 [true]) as [outcome state] eqn:E.
  destruct outcome as [result|].
  - destruct W as (db' & _ & _ & [_ H] & _). exists result, state. split; [done|].
    split; [|exact H]. apply (f_equal fst) in E. vm_compute in E. by injection E as <-.
  - apply (f_equal fst) in E. by vm_compute in E.
Defined.

Definition sample_new_fact : FactCandidate :=
  {| fc_fact :=
       {| mf_fact_id := Some "f1"; mf_session_id := None; mf_fact_text := Some "the disk is full";
          mf_source_turn_ids := None; mf_confidence_score := Some 90; mf_created_at := None;
          mf_fact_type := None; mf_source_observation_refs := None; mf_valid_until := None;
          mf_superseded_by_fact_id := None; mf_evidence_digest := None; mf_tags := None |};
     fc_extraction_source := "" |}.

(** What the store holds in the end, by the texts of the statements. *)
Definition stored_statements (outcome : option WritebackResult * MemoryState (Db := LogDb) (Vec := list VectorDocument))
    : list Sql :=
  match mst_store outcome.2 with Some db => stm_sql <$> log_committed db | None => [] end.

(** A transaction that cannot begin, whose lock is given up at once: the turn is written
    outside it, the commit reports the failure to begin, the second attempt finds the turn
    there, and the writeback fails for good. *)
Example failed_writeback_stores_turn :
  let outcome := run_writeback [] 1 [] in
  option_map wbr_result_code outcome.1 = Some (Some ResultCode.ValidationFieldMissing) /\
  stored_statements outcome =
    [InsertSession; InsertTurn; UpdateSessionTurns; UpdateSessionActive].
Proof. vm_compute. auto. Qed.

(** Where the facts' commit fails, the facts are gone, but they are reported by their ids
    and go into the vector index. *)
Example lost_facts_reported :
  let outcome := run_writeback [sample_new_fact] 0 [false; true] in
  option_map wbr_fact_ids outcome.1 = Some ["f1"] /\
  option_map wbr_warnings outcome.1 = Some ["conflict_resolver_unwired"; "derived_data_commit_failed"] /\
  option_map (map vdc_doc_id) (mst_vector outcome.2) = Some ["t1"; "f1"] /\
  stored_statements outcome =
    [InsertSession; InsertTurn; UpdateSessionTurns; UpdateSessionActive].
Proof. vm_compute. auto. Qed.
