(* ===== verification/ContextBudget.v ===== *)
(** * Context budget

    memory/src/context/BudgetAllocator.{h,cpp}: how the tokens of a context are divided
    among its slots, and which slots are trimmed, and by how much, when the candidates
    are estimated above the budget. The estimator of tokens is an argument, and so is
    [std::sort]. An overflow of [int] is [None]. *)

From stdpp Require Import sorting.
From Stdlib Require Import SpecFloat.
From S2P Require Import Prelude Text Ordering MemoryContracts WorkingMemory.

(** ** Data *)

Record SessionLoadBundle := {
  slb_session : Session;
  slb_recent_turns : list Turn;
  slb_total_turn_count : Z;
}.

Record VectorHit := {
  vh_doc_id : string;
  vh_doc_type : string;
  vh_score : spec_float;
  vh_text_snippet : string;
}.

Record CandidateSet := {
  cs_working_snapshot : WorkingMemorySnapshot;
  cs_session_bundle : SessionLoadBundle;
  cs_latest_summary : option SummaryMemory;
  cs_relevant_facts : list MemoryFact;
  cs_relevant_experiences : list ExperienceMemory;
  cs_external_evidence : list string;
  cs_vector_hits : list VectorHit;
  cs_warnings : list string;
  cs_estimated_total_tokens : Z;
}.

Record BudgetPolicy := {
  bp_total_token_budget : Z;
  bp_stage : string;
  bp_risk_level : Z;
  bp_latency_budget_ms : Z;
}.

Record SlotBudget := {
  sb_slot_name : string;
  sb_allocated_tokens : Z;
  sb_estimated_tokens : Z;
  sb_priority : Z;
}.

Record TrimAction := {
  ta_slot_name : string;
  ta_target_tokens : Z;
}.

Record BudgetPlan := {
  bpl_slot_budgets : list SlotBudget;
  bpl_trim_actions : list TrimAction;
  bpl_total_token_budget : Z;
  bpl_estimated_total_tokens : Z;
  bpl_over_budget : bool;
}.

Record SlotTemplate := {
  st_slot_name : string;
  st_basis_points : Z;
  st_priority : Z;
}.

(** ** Templates *)

Definition template (name : string) (basis_points priority : Z) : SlotTemplate :=
  {| st_slot_name := name; st_basis_points := basis_points; st_priority := priority |}.

Definition stage_templates (policy : BudgetPolicy) : list SlotTemplate :=
  let stage := lowercase_copy (bp_stage policy) in
  if bool_decide (stage = "reflection") then
    [template "user_turn" 6 100; template "current_goal_summary" 12 95;
     template "policy_digest" 12 95; template "latest_observation_digest_summary" 18 100;
     template "recent_history" 10 50; template "summary_memory" 18 85;
     template "belief_state_summary" 14 80; template "retrieval_evidence" 3 40;
     template "active_tools" 2 30] else
  if bool_decide (stage = "reasoning") then
    [template "user_turn" 8 100; template "current_goal_summary" 15 95;
     template "policy_digest" 10 90; template "latest_observation_digest_summary" 17 100;
     template "recent_history" 18 55; template "summary_memory" 10 70;
     template "belief_state_summary" 10 75; template "retrieval_evidence" 5 45;
     template "active_tools" 2 35] else
  [template "user_turn" 8 100; template "current_goal_summary" 18 95;
   template "policy_digest" 12 95; template "latest_observation_digest_summary" 7 85;
   template "recent_history" 18 50; template "summary_memory" 12 70;
   template "belief_state_summary" 12 75; template "retrieval_evidence" 6 40;
   template "active_tools" 2 30].

(** ** Estimates *)

Definition sum_of {A} (f : A -> Z) (l : list A) : Z := foldr (fun x total => f x + total) 0 l.

Section Allocator.
  Context (estimate_text_tokens : string -> Z).
  Context {sorting : StdSort}.

(** [add_optional_string_tokens] and [add_optional_string_vector_tokens]: what they add. *)
Definition optional_string_tokens (value : option string) : Z :=
  from_option estimate_text_tokens 0 value.
Definition optional_string_vector_tokens (values : option (list string)) : Z :=
  sum_of estimate_text_tokens (default [] values).

Definition estimate_user_turn_tokens (candidates : CandidateSet) : Z :=
  match slb_recent_turns (cs_session_bundle candidates) with
  | [] => 0
  | turn :: _ => estimate_text_tokens (default "" (tn_user_input turn))
  end.

(** The tokens of one turn besides its input. *)
Definition turn_tokens (turn : Turn) : Z :=
  optional_string_tokens (tn_agent_response turn)
  + optional_string_vector_tokens (tn_tool_call_refs turn)
  + optional_string_vector_tokens (tn_observation_refs turn).

(** The input of the first turn is a slot of its own. *)
Definition estimate_recent_history_tokens (candidates : CandidateSet) : Z :=
  match slb_recent_turns (cs_session_bundle candidates) with
  | [] => 0
  | turn :: rest =>
      turn_tokens turn
      + sum_of (fun turn => optional_string_tokens (tn_user_input turn) + turn_tokens turn) rest
  end.

Definition estimate_summary_tokens (candidates : CandidateSet) : Z :=
  let? summary := cs_latest_summary candidates else 0 in
  optional_string_tokens (sm_summary_text summary)
  + optional_string_vector_tokens (sm_decisions_made summary)
  + optional_string_vector_tokens (sm_confirmed_facts summary)
  + optional_string_vector_tokens (sm_tool_outcomes summary).

Definition estimate_belief_state_tokens (candidates : CandidateSet) : Z :=
  sum_of (fun fact => optional_string_tokens (mf_fact_text fact)
                      + optional_string_tokens (mf_fact_type fact)) (cs_relevant_facts candidates).

Definition estimate_retrieval_evidence_tokens (candidates : CandidateSet) : Z :=
  sum_of estimate_text_tokens (cs_external_evidence candidates)
  + sum_of (fun hit => estimate_text_tokens (vh_text_snippet hit)
                       + estimate_text_tokens (vh_doc_type hit)) (cs_vector_hits candidates).

Definition estimate_slot_tokens (candidates : CandidateSet) (slot_name : string) : Z :=
  if bool_decide (slot_name = "user_turn") then estimate_user_turn_tokens candidates else
  if bool_decide (slot_name = "recent_history")
  then estimate_recent_history_tokens candidates else
  if bool_decide (slot_name = "summary_memory") then estimate_summary_tokens candidates else
  if bool_decide (slot_name = "belief_state_summary")
  then estimate_belief_state_tokens candidates else
  if bool_decide (slot_name = "retrieval_evidence")
  then estimate_retrieval_evidence_tokens candidates else 0.

(** ** Allocation *)

Definition int_fits (z : Z) : bool := (- 2 ^ 31 <=? z) && (z <? 2 ^ 31).

Definition find_slot_budget (slot_budgets : list SlotBudget) (slot_name : string)
    : option SlotBudget :=
  snd <$> list_find (fun candidate => sb_slot_name candidate = slot_name) slot_budgets.

Definition add_tokens (tokens : Z) (slot : SlotBudget) : SlotBudget :=
  {| sb_slot_name := sb_slot_name slot;
     sb_allocated_tokens := sb_allocated_tokens slot + tokens;
     sb_estimated_tokens := sb_estimated_tokens slot; sb_priority := sb_priority slot |}.

(** The first slot of the name is changed in place. *)
Fixpoint update_slot (slot_name : string) (f : SlotBudget -> SlotBudget)
    (slot_budgets : list SlotBudget) : list SlotBudget :=
  match slot_budgets with
  | [] => []
  | slot :: rest =>
      if bool_decide (sb_slot_name slot = slot_name) then f slot :: rest
      else slot :: update_slot slot_name f rest
  end.

Definition transfer_budget (slot_budgets : list SlotBudget) (from to : string) (tokens : Z)
    : list SlotBudget :=
  if tokens <=? 0 then slot_budgets else
  match find_slot_budget slot_budgets from, find_slot_budget slot_budgets to with
  | Some from_slot, Some _ =>
      let transferred_tokens := Z.min tokens (sb_allocated_tokens from_slot) in
      update_slot to (add_tokens transferred_tokens)
        (update_slot from (add_tokens (- transferred_tokens)) slot_budgets)
  | _, _ => slot_budgets
  end.

Definition slot_of_template (candidates : CandidateSet) (total_budget : Z)
    (slot_template : SlotTemplate) : SlotBudget :=
  {| sb_slot_name := st_slot_name slot_template;
     sb_allocated_tokens := (total_budget * st_basis_points slot_template) `quot` 100;
     sb_estimated_tokens := estimate_slot_tokens candidates (st_slot_name slot_template);
     sb_priority := st_priority slot_template |}.

Definition shift_for_risk (policy : BudgetPolicy) (total_budget : Z)
    (slot_budgets : list SlotBudget) : list SlotBudget :=
  if 2 <=? bp_risk_level policy then
    let risk_shift := Z.max 1 (total_budget `quot` 20) in
    let slot_budgets := transfer_budget slot_budgets "recent_history" "policy_digest" risk_shift in
    transfer_budget slot_budgets "summary_memory" "latest_observation_digest_summary"
      (Z.max 1 (total_budget `quot` 33))
  else slot_budgets.

Definition shift_for_latency (policy : BudgetPolicy) (total_budget : Z)
    (slot_budgets : list SlotBudget) : list SlotBudget :=
  if (0 <? bp_latency_budget_ms policy) && (bp_latency_budget_ms policy <=? 200) then
    let slot_budgets := transfer_budget slot_budgets "retrieval_evidence" "current_goal_summary"
      (Z.max 1 (total_budget `quot` 33)) in
    transfer_budget slot_budgets "recent_history" "latest_observation_digest_summary"
      (Z.max 1 (total_budget `quot` 50))
  else slot_budgets.

(** [None]: the product of the budget with a template's points overflows. *)
Definition compute_slot_budgets (candidates : CandidateSet) (policy : BudgetPolicy)
    : option (list SlotBudget) :=
  let total_budget := Z.max 0 (bp_total_token_budget policy) in
  let templates := stage_templates policy in
  if negb (forallb (fun t => int_fits (total_budget * st_basis_points t)) templates) then None else
  Some (shift_for_latency policy total_budget
          (shift_for_risk policy total_budget
             (slot_of_template candidates total_budget <$> templates))).

(** ** Trimming *)

Definition trim_order : SlotBudget -> SlotBudget -> comparison :=
  then_by (by_number sb_priority)
    (then_by (descending (by_number sb_estimated_tokens)) (by_text sb_slot_name)).

(** The slot keeps at least what it was allocated, or needs. *)
Definition reducible_tokens (slot : SlotBudget) : Z :=
  sb_estimated_tokens slot - Z.min (sb_allocated_tokens slot) (sb_estimated_tokens slot).

(** The loop, while there is an excess. *)
Fixpoint trim_slots (excess_tokens : Z) (slots : list SlotBudget) : list TrimAction :=
  match slots with
  | [] => []
  | slot :: rest =>
      if excess_tokens <=? 0 then [] else
      if reducible_tokens slot <=? 0 then trim_slots excess_tokens rest else
      let trimmed_tokens := Z.min excess_tokens (reducible_tokens slot) in
      {| ta_slot_name := sb_slot_name slot;
         ta_target_tokens := sb_estimated_tokens slot - trimmed_tokens |}
        :: trim_slots (excess_tokens - trimmed_tokens) rest
  end.

Definition compute_trim_actions (slot_budgets : list SlotBudget)
    (total_token_budget total_estimated_tokens : Z) : list TrimAction :=
  let excess_tokens := Z.max 0 (total_estimated_tokens - total_token_budget) in
  if excess_tokens =? 0 then [] else trim_slots excess_tokens (std_sort trim_order slot_budgets).

(** What one action takes off the estimate. *)
Definition action_reduction (slot_budgets : list SlotBudget) (action : TrimAction) : Z :=
  match find_slot_budget slot_budgets (ta_slot_name action) with
  | Some slot => Z.max 0 (sb_estimated_tokens slot - ta_target_tokens action)
  | None => 0
  end.

Definition reduced_estimate (slot_budgets : list SlotBudget) (estimated_total_tokens : Z)
    (trim_actions : list TrimAction) : Z :=
  foldl (fun reduced action => reduced - action_reduction slot_budgets action)
    estimated_total_tokens trim_actions.

(** Estimates are not negative, so that all partial sums are in range if the total is. *)
Definition allocate (candidates : CandidateSet) (policy : BudgetPolicy) : option BudgetPlan :=
  let total_token_budget := Z.max 0 (bp_total_token_budget policy) in
  let? slot_budgets := compute_slot_budgets candidates policy else None in
  let estimated_total_tokens := sum_of sb_estimated_tokens slot_budgets in
  if negb (int_fits estimated_total_tokens) then None else
  let trim_actions :=
    compute_trim_actions slot_budgets total_token_budget estimated_total_tokens in
  Some {| bpl_slot_budgets := slot_budgets; bpl_trim_actions := trim_actions;
          bpl_total_token_budget := total_token_budget;
          bpl_estimated_total_tokens := estimated_total_tokens;
          bpl_over_budget :=
            total_token_budget <?
            reduced_estimate slot_budgets estimated_total_tokens trim_actions |}.

End Allocator.

(** ** Sums *)

Lemma sum_of_app {A} (f : A -> Z) l1 l2 : sum_of f (l1 ++ l2) = sum_of f l1 + sum_of f l2.
Proof. unfold sum_of. induction l1 as [|x l1 IH]; simpl; [done|]. rewrite IH. lia. Qed.

Lemma sum_of_cons {A} (f : A -> Z) x l : sum_of f (x :: l) = f x + sum_of f l.
Proof. done. Qed.

Lemma sum_of_perm {A} (f : A -> Z) l1 l2 : l1 ≡ₚ l2 -> sum_of f l1 = sum_of f l2.
Proof. unfold sum_of. induction 1; simpl; lia. Qed.

Lemma sum_of_ext {A} (f g : A -> Z) l :
  Forall (fun x => f x = g x) l -> sum_of f l = sum_of g l.
Proof. unfold sum_of. induction 1 as [|x l H _ IH]; simpl; [done|]. lia. Qed.

Lemma sum_of_le {A} (f g : A -> Z) l :
  Forall (fun x => f x <= g x) l -> sum_of f l <= sum_of g l.
Proof. unfold sum_of. induction 1 as [|x l H _ IH]; simpl; lia. Qed.

Lemma sum_of_sub {A} (f g : A -> Z) l :
  sum_of (fun x => f x - g x) l = sum_of f l - sum_of g l.
Proof. unfold sum_of. induction l as [|x l IH]; simpl; [done|]. lia. Qed.

(** ** Slots *)

(** Slots have names of their own, and no negative allocation. *)
Record slots_wf (slots : list SlotBudget) : Prop := {
  sw_names : NoDup (sb_slot_name <$> slots);
  sw_allocated : Forall (fun slot => 0 <= sb_allocated_tokens slot) slots;
}.

Lemma find_slot_budget_spec slots name slot :
  NoDup (sb_slot_name <$> slots) ->
  find_slot_budget slots name = Some slot <-> slot ∈ slots /\ sb_slot_name slot = name.
Proof.
  intros Hnd. unfold find_slot_budget. split.
  - intros (p & Hf & ->)%fmap_Some. destruct p as [i x].
    apply list_find_Some in Hf as (Hi & Hx & _). split; [by eapply list_elem_of_lookup_2|done].
  - intros [Hin Hname].
    destruct (list_find_elem_of (fun c => sb_slot_name c = name) slots slot Hin Hname) as [[i x] Hf].
    rewrite Hf. simpl. f_equal.
    apply list_find_Some in Hf as (Hi & Hx & _). apply list_elem_of_lookup_1 in Hin as [j Hj].
    assert (i = j) as ->; [|congruence].
    apply (NoDup_lookup _ _ _ name Hnd); rewrite list_lookup_fmap; [rewrite Hi|rewrite Hj]; simpl;
      congruence.
Qed.

Lemma add_tokens_name tokens slot : sb_slot_name (add_tokens tokens slot) = sb_slot_name slot.
Proof. done. Qed.

(** Changing allocations keeps names, estimates and priorities. *)
Definition same_shape (a b : list SlotBudget) : Prop :=
  sb_slot_name <$> a = sb_slot_name <$> b /\
  sb_estimated_tokens <$> a = sb_estimated_tokens <$> b /\ sb_priority <$> a = sb_priority <$> b.

Lemma update_slot_shape name tokens slots :
  same_shape (update_slot name (add_tokens tokens) slots) slots.
Proof.
  unfold same_shape. induction slots as [|slot rest IH]; [done|]. cbn [update_slot].
  destruct (decide (sb_slot_name slot = name)) as [E|E].
  - by rewrite bool_decide_true.
  - rewrite bool_decide_false by done. csimpl. destruct IH as (-> & -> & ->). done.
Qed.

Lemma update_slot_sum name tokens slots :
  name ∈ sb_slot_name <$> slots ->
  sum_of sb_allocated_tokens (update_slot name (add_tokens tokens) slots)
  = sum_of sb_allocated_tokens slots + tokens.
Proof.
  induction slots as [|slot rest IH]; [by intros ?%not_elem_of_nil|]. cbn [update_slot].
  intros Hin. destruct (decide (sb_slot_name slot = name)) as [E|E].
  - rewrite bool_decide_true by done. simpl. unfold sum_of in *. lia.
  - rewrite bool_decide_false by done. rewrite !sum_of_cons, IH; [lia|].
    csimpl in Hin. by apply elem_of_cons in Hin as [?|?].
Qed.

Lemma update_slot_elem name f slots x :
  x ∈ update_slot name f slots ->
  x ∈ slots \/ exists slot, find_slot_budget slots name = Some slot /\ x = f slot.
Proof.
  unfold find_slot_budget. induction slots as [|slot rest IH]; [by intros ?%not_elem_of_nil|].
  cbn [update_slot list_find]. destruct (decide (sb_slot_name slot = name)) as [E|E].
  - rewrite bool_decide_true by done. intros [->|H]%elem_of_cons; [right; by exists slot|].
    left. by right.
  - rewrite bool_decide_false by done. intros [->|H]%elem_of_cons; [left; by left|].
    destruct (IH H) as [?|(s & Hs & ->)]; [left; by right|]. right. exists s. split; [|done].
    by destruct (list_find (fun candidate => sb_slot_name candidate = name) rest) as [[i y]|].
Qed.

Lemma find_slot_budget_elem slots name slot :
  find_slot_budget slots name = Some slot -> slot ∈ slots /\ sb_slot_name slot = name.
Proof.
  unfold find_slot_budget. intros (p & Hf & ->)%fmap_Some. destruct p as [i x].
  apply list_find_Some in Hf as (Hi & Hx & _). split; [by eapply list_elem_of_lookup_2|done].
Qed.

(** A transfer moves tokens and makes none. *)
Lemma transfer_budget_spec slots from to tokens :
  slots_wf slots ->
  slots_wf (transfer_budget slots from to tokens) /\
  same_shape (transfer_budget slots from to tokens) slots /\
  sum_of sb_allocated_tokens (transfer_budget slots from to tokens)
    = sum_of sb_allocated_tokens slots.
Proof.
  intros Hwf. unfold transfer_budget.
  destruct (Z.leb_spec tokens 0) as [|Ht]; [done|].
  destruct (find_slot_budget slots from) as [from_slot|] eqn:Hf; [|done].
  destruct (find_slot_budget slots to) as [to_slot|] eqn:Hto; [|done].
  destruct Hwf as [Hn Ha]. rewrite Forall_forall in Ha.
  apply find_slot_budget_elem in Hf as [Hf Hfn]. apply find_slot_budget_elem in Hto as [Hto Htn].
  assert (find_slot_budget slots from = Some from_slot) as Hff by by apply find_slot_budget_spec.
  pose proof (Ha _ Hf) as Hpos.
  set (k := Z.min tokens (sb_allocated_tokens from_slot)).
  destruct (update_slot_shape from (- k) slots) as (H1 & H2 & H3).
  destruct (update_slot_shape to k (update_slot from (add_tokens (- k)) slots)) as (H4 & H5 & H6).
  assert (forall x, x ∈ update_slot from (add_tokens (- k)) slots -> 0 <= sb_allocated_tokens x)
    as Hpos1.
  { intros x [Hx|(s & Hs & ->)]%update_slot_elem; [by apply Ha|].
    rewrite Hff in Hs. injection Hs as <-. simpl. lia. }
  split_and!.
  - split; [by rewrite H4, H1|]. apply Forall_forall.
    intros x [Hx|(s & Hs & ->)]%update_slot_elem; [by apply Hpos1|].
    apply find_slot_budget_elem in Hs as [Hs _]. apply Hpos1 in Hs. simpl. lia.
  - split; [by rewrite H4|]. split; [by rewrite H5|by rewrite H6].
  - rewrite !update_slot_sum; [lia| |].
    + rewrite <- Hfn. by apply list_elem_of_fmap_2.
    + rewrite H1, <- Htn. by apply list_elem_of_fmap_2.
Qed.

(** What [compute_slot_budgets] returns: the template's slots, their allocations not
    above the budget together. *)
Record allocation (total : Z) (start slots : list SlotBudget) : Prop := {
  al_wf : slots_wf slots;
  al_shape : same_shape slots start;
  al_sum : sum_of sb_allocated_tokens slots = sum_of sb_allocated_tokens start;
}.

Lemma same_shape_trans a b c : same_shape a b -> same_shape b c -> same_shape a c.
Proof. unfold same_shape. intros (-> & -> & ->) (-> & -> & ->). done. Qed.

Lemma allocation_transfer total start slots from to tokens :
  allocation total start slots ->
  allocation total start (transfer_budget slots from to tokens).
Proof.
  intros [Hw Hsh Hs]. destruct (transfer_budget_spec slots from to tokens Hw) as (H1 & H2 & H3).
  split; [done|by eapply same_shape_trans|congruence].
Qed.

Lemma template_names policy : NoDup (st_slot_name <$> stage_templates policy).
Proof.
  unfold stage_templates.
  destruct (bool_decide _); [|destruct (bool_decide _)]; apply (bool_decide_unpack _);
    vm_compute; exact I.
Qed.

Lemma template_points policy :
  Forall (fun t => 0 <= st_basis_points t <= 18) (stage_templates policy) /\
  sum_of st_basis_points (stage_templates policy) = 95 /\
  exists t, t ∈ stage_templates policy /\ st_basis_points t = 18.
Proof.
  unfold stage_templates.
  destruct (bool_decide _); [|destruct (bool_decide _)];
    (split; [repeat constructor; simpl; lia|]); (split; [done|]).
  - exists (template "summary_memory" 18 85). split; [|done]. set_solver.
  - exists (template "recent_history" 18 55). split; [|done]. set_solver.
  - exists (template "recent_history" 18 50). split; [|done]. set_solver.
Qed.

Lemma start_names estimate candidates total (templates : list SlotTemplate) :
  sb_slot_name <$> (slot_of_template estimate candidates total <$> templates)
  = st_slot_name <$> templates.
Proof. rewrite <- list_fmap_compose. done. Qed.

Lemma start_sum estimate candidates total (templates : list SlotTemplate) :
  0 <= total -> Forall (fun t => 0 <= st_basis_points t <= 18) templates ->
  100 * sum_of sb_allocated_tokens (slot_of_template estimate candidates total <$> templates)
  <= total * sum_of st_basis_points templates.
Proof.
  intros Ht. unfold sum_of. induction 1 as [|t templates [Hp _] _ IH]; csimpl; [lia|].
  assert (100 * ((total * st_basis_points t) `quot` 100) <= total * st_basis_points t)
    by (apply Z.mul_quot_le; [nia|lia]).
  rewrite !Z.mul_add_distr_l. simpl. lia.
Qed.

Lemma compute_slot_budgets_spec estimate candidates policy slots :
  let total := Z.max 0 (bp_total_token_budget policy) in
  compute_slot_budgets estimate candidates policy = Some slots ->
  slots_wf slots /\ sum_of sb_allocated_tokens slots <= total /\
  sb_slot_name <$> slots = st_slot_name <$> stage_templates policy.
Proof.
  intros total. unfold compute_slot_budgets. fold total.
  destruct (forallb _ _) eqn:Hfit; [|done]. simpl. intros [= <-].
  set (start := slot_of_template estimate candidates total <$> stage_templates policy).
  assert (0 <= total) as Ht by lia. destruct (template_points policy) as (Hpos & Hsum & _).
  pose proof (start_sum estimate candidates total (stage_templates policy) Ht Hpos) as Hs.
  rewrite Hsum in Hs. fold start in Hs.
  assert (sb_slot_name <$> start = st_slot_name <$> stage_templates policy) as Hn
    by apply start_names.
  assert (allocation total start start) as H0.
  { split; [|done|done]. split; [rewrite Hn; apply template_names|].
    unfold start. apply Forall_fmap. eapply Forall_impl; [exact Hpos|]. intros t [H _]. simpl.
    apply Z.quot_pos; nia. }
  assert (allocation total start (shift_for_latency policy total (shift_for_risk policy total start)))
    as [Hw (Hnames & _ & _) Hal].
  { unfold shift_for_latency, shift_for_risk.
    destruct (_ && _), (2 <=? bp_risk_level policy);
      repeat apply allocation_transfer; exact H0. }
  split; [done|]. split; [rewrite Hal; lia|congruence].
Qed.

(** ** Trimming *)

#[export] Instance trim_order_ordering : Ordering trim_order.
Proof. apply _. Qed.

Lemma reducible_nonneg slot : 0 <= reducible_tokens slot.
Proof. unfold reducible_tokens. lia. Qed.

Lemma reducible_sum_nonneg slots : 0 <= sum_of reducible_tokens slots.
Proof.
  unfold sum_of. induction slots as [|slot slots IH]; simpl; [lia|].
  pose proof (reducible_nonneg slot). lia.
Qed.

Lemma trim_slots_reduction all slots : forall excess,
  NoDup (sb_slot_name <$> all) -> 0 <= excess -> slots ⊆ all ->
  sum_of (action_reduction all) (trim_slots excess slots)
  = Z.min excess (sum_of reducible_tokens slots).
Proof.
  induction slots as [|slot rest IH]; intros excess Hnd He Hin; cbn [trim_slots].
  { unfold sum_of. simpl. lia. }
  pose proof (reducible_nonneg slot) as Hr. pose proof (reducible_sum_nonneg rest) as Hrest.
  rewrite (sum_of_cons reducible_tokens).
  destruct (Z.leb_spec excess 0); [unfold sum_of at 1; simpl; lia|].
  assert (rest ⊆ all) as Hin' by (intros x Hx; apply Hin; by right).
  destruct (Z.leb_spec (reducible_tokens slot) 0).
  { rewrite IH by done. lia. }
  rewrite sum_of_cons, IH by (done || lia). unfold action_reduction at 1. simpl.
  rewrite (proj2 (find_slot_budget_spec all (sb_slot_name slot) slot Hnd))
    by (split; [apply Hin; by left|done]).
  lia.
Qed.

Lemma reduced_estimate_sum slots estimated actions :
  reduced_estimate slots estimated actions = estimated - sum_of (action_reduction slots) actions.
Proof.
  unfold reduced_estimate. revert estimated.
  induction actions as [|action actions IH]; intros estimated; [unfold sum_of; simpl; lia|].
  cbn [foldl]. rewrite IH, sum_of_cons. lia.
Qed.

(** The tokens a slot keeps by a list of actions. *)
Definition kept_tokens (actions : list TrimAction) (slot : SlotBudget) : Z :=
  match list_find (fun action => ta_slot_name action = sb_slot_name slot) actions with
  | Some (_, action) => ta_target_tokens action
  | None => sb_estimated_tokens slot
  end.

Lemma kept_tokens_cons action actions slot :
  kept_tokens (action :: actions) slot =
  if bool_decide (ta_slot_name action = sb_slot_name slot) then ta_target_tokens action
  else kept_tokens actions slot.
Proof.
  unfold kept_tokens. cbn [list_find].
  destruct (decide (ta_slot_name action = sb_slot_name slot)) as [E|E].
  - by rewrite bool_decide_true.
  - rewrite bool_decide_false by done.
    by destruct (list_find (fun a => ta_slot_name a = sb_slot_name slot) actions) as [[? ?]|].
Qed.

Lemma trim_slots_names excess slots :
  (ta_slot_name <$> trim_slots excess slots) ⊆ (sb_slot_name <$> slots).
Proof.
  revert excess. induction slots as [|slot rest IH]; intros excess; [done|]. cbn [trim_slots].
  destruct (excess <=? 0); [intros x Hx; by apply not_elem_of_nil in Hx|].
  destruct (reducible_tokens slot <=? 0); csimpl.
  - intros x Hx. right. by apply (IH excess).
  - intros x [->|Hx]%elem_of_cons; [by left|right; by eapply IH].
Qed.

Lemma kept_tokens_absent actions slot :
  sb_slot_name slot ∉ ta_slot_name <$> actions -> kept_tokens actions slot = sb_estimated_tokens slot.
Proof.
  induction actions as [|action actions IH]; [done|]. csimpl. rewrite not_elem_of_cons.
  intros [Hne Hin]. rewrite kept_tokens_cons, bool_decide_false by done. by apply IH.
Qed.

(** No slot is trimmed below its allocation, and none as long as one before it keeps
    more than it must. *)
Lemma trim_slots_order slots : forall excess,
  NoDup (sb_slot_name <$> slots) ->
  (forall slot, slot ∈ slots ->
     Z.min (sb_allocated_tokens slot) (sb_estimated_tokens slot)
       <= kept_tokens (trim_slots excess slots) slot <= sb_estimated_tokens slot) /\
  (forall before slot after, slots = before ++ slot :: after ->
     kept_tokens (trim_slots excess slots) slot < sb_estimated_tokens slot ->
     forall earlier, earlier ∈ before ->
       kept_tokens (trim_slots excess slots) earlier
       = Z.min (sb_allocated_tokens earlier) (sb_estimated_tokens earlier)).
Proof.
  induction slots as [|first rest IH]; intros excess Hnd.
  { split; [by intros slot ?%not_elem_of_nil|]. intros [] ? ?; done. }
  csimpl in Hnd. apply NoDup_cons in Hnd as [Hfirst Hnd].
  assert (forall slot, slot ∈ rest -> sb_slot_name first <> sb_slot_name slot) as Hne.
  { intros slot Hs E. apply Hfirst. rewrite E. by apply list_elem_of_fmap_2. }
  cbn [trim_slots]. destruct (Z.leb_spec excess 0) as [|He].
  { unfold kept_tokens. simpl. split; [intros; lia|intros; lia]. }
  destruct (Z.leb_spec (reducible_tokens first) 0) as [Hr|Hr].
  - destruct (IH excess Hnd) as [H1 H2].
    assert (kept_tokens (trim_slots excess rest) first = sb_estimated_tokens first) as Hk.
    { apply kept_tokens_absent. intros H. apply Hfirst. by apply trim_slots_names in H. }
    unfold reducible_tokens in Hr. split.
    + intros slot [->|Hs]%elem_of_cons; [lia|by apply H1].
    + intros [|b before] slot after [= <- ->] Hlt earlier Hin; [by apply not_elem_of_nil in Hin|].
      apply elem_of_cons in Hin as [->|Hin]; [lia|by eapply H2].
  - set (trimmed := Z.min excess (reducible_tokens first)).
    destruct (IH (excess - trimmed) Hnd) as [H1 H2]. unfold reducible_tokens in Hr, trimmed. split.
    + intros slot [->|Hs]%elem_of_cons; rewrite kept_tokens_cons; simpl.
      * rewrite bool_decide_true by done. lia.
      * rewrite bool_decide_false by (by apply Hne). by apply H1.
    + intros [|b before] slot after [= <- ->] Hlt earlier Hin; [by apply not_elem_of_nil in Hin|].
      assert (slot ∈ before ++ slot :: after) as Hslot by (apply elem_of_app; right; by left).
      rewrite kept_tokens_cons in Hlt. simpl in Hlt.
      rewrite bool_decide_false in Hlt by (by apply Hne).
      rewrite kept_tokens_cons. simpl. apply elem_of_cons in Hin as [->|Hin].
      * rewrite bool_decide_true by done.
        destruct (Z.le_gt_cases excess (reducible_tokens first)) as [Hle|Hgt];
          unfold reducible_tokens in *; [|lia].
        exfalso. replace (excess - trimmed) with 0 in Hlt by lia.
        revert Hlt. clear. destruct (before ++ slot :: after); unfold kept_tokens; simpl; lia.
      * rewrite bool_decide_false
          by (apply Hne; apply elem_of_app; by left).
        by eapply H2.
Qed.

(** ** Plans *)

Section Plans.
  Context (estimate : string -> Z).
  Context {sorting : StdSort}.

Lemma trim_actions_exact slots total :
  slots_wf slots -> sum_of sb_allocated_tokens slots <= total ->
  let estimated := sum_of sb_estimated_tokens slots in
  reduced_estimate slots estimated (compute_trim_actions slots total estimated)
  = Z.min estimated total.
Proof.
  intros [Hnd _] Hal estimated. rewrite reduced_estimate_sum. unfold compute_trim_actions.
  destruct (Z.eqb_spec (Z.max 0 (estimated - total)) 0) as [E|E].
  { unfold sum_of at 1. simpl. lia. }
  assert (std_sort trim_order slots ≡ₚ slots) as Hp by apply (std_sort_perm trim_order).
  rewrite trim_slots_reduction; [|done|lia|intros x; by rewrite Hp].
  rewrite (sum_of_perm _ _ _ Hp). unfold reducible_tokens. rewrite sum_of_sub. fold estimated.
  assert (sum_of (fun slot => Z.min (sb_allocated_tokens slot) (sb_estimated_tokens slot)) slots
    <= sum_of sb_allocated_tokens slots)
    by (apply sum_of_le, Forall_forall; intros; lia).
  lia.
Qed.

Lemma trim_actions_ordered slots total estimated :
  NoDup (sb_slot_name <$> slots) ->
  let kept := kept_tokens (compute_trim_actions slots total estimated) in
  (forall slot, slot ∈ slots ->
     Z.min (sb_allocated_tokens slot) (sb_estimated_tokens slot) <= kept slot
       <= sb_estimated_tokens slot) /\
  (forall slot earlier, slot ∈ slots -> earlier ∈ slots -> trim_order earlier slot = Lt ->
     kept slot < sb_estimated_tokens slot ->
     kept earlier = Z.min (sb_allocated_tokens earlier) (sb_estimated_tokens earlier)).
Proof.
  intros Hnd. unfold compute_trim_actions. destruct (Z.eqb_spec (Z.max 0 (estimated - total)) 0).
  { unfold kept_tokens. simpl. split; intros; lia. }
  set (excess := Z.max 0 (estimated - total)).
  assert (std_sort trim_order slots ≡ₚ slots) as Hp by apply (std_sort_perm trim_order).
  assert (NoDup (sb_slot_name <$> std_sort trim_order slots)) as Hnd' by (by rewrite Hp).
  destruct (trim_slots_order (std_sort trim_order slots) excess Hnd') as [H1 H2]. split.
  - intros slot Hs. apply H1. by rewrite Hp.
  - intros slot earlier Hs He Hlt Hkept. rewrite <- Hp in Hs, He.
    apply list_elem_of_split in Hs as (before & after & Hsplit).
    apply (H2 before slot after); [done|done|].
    pose proof (std_sort_sorted trim_order slots) as Hsorted. rewrite Hsplit in Hsorted, He.
    apply elem_of_app in He as [He|He]; [done|].
    assert (StronglySorted (not_after trim_order) (slot :: after)) as Hss.
    { clear -Hsorted. induction before as [|b before IH]; [done|].
      apply StronglySorted_inv in Hsorted as [? _]. by apply IH. }
    apply StronglySorted_inv in Hss as [_ Hall]. rewrite Forall_forall in Hall.
    apply elem_of_cons in He as [->|He].
    + pose proof (ordering_opp slot slot) as Hopp. rewrite Hlt in Hopp. done.
    + by apply Hall in He.
Qed.

(** C25. Whatever the stage, the risk, the latency and the estimates: the slots of a plan
    are those of its template, share no more than the budget and none has less than
    nothing; trimming brings the estimate to the budget exactly when it is above it, so
    that a plan is never over budget; no slot is cut below its allocation, and one is cut
    only when every slot that comes before it, by priority, size and name, is down to its. *)
Theorem context_fits candidates policy plan :
  allocate estimate candidates policy = Some plan ->
  let slots := bpl_slot_budgets plan in
  let kept := kept_tokens (bpl_trim_actions plan) in
  sb_slot_name <$> slots = st_slot_name <$> stage_templates policy /\
  sum_of sb_allocated_tokens slots <= bpl_total_token_budget plan /\
  Forall (fun slot => 0 <= sb_allocated_tokens slot) slots /\
  reduced_estimate slots (bpl_estimated_total_tokens plan) (bpl_trim_actions plan)
    = Z.min (bpl_estimated_total_tokens plan) (bpl_total_token_budget plan) /\
  bpl_over_budget plan = false /\
  (forall slot, slot ∈ slots ->
     Z.min (sb_allocated_tokens slot) (sb_estimated_tokens slot) <= kept slot
       <= sb_estimated_tokens slot) /\
  (forall slot earlier, slot ∈ slots -> earlier ∈ slots -> trim_order earlier slot = Lt ->
     kept slot < sb_estimated_tokens slot ->
     kept earlier = Z.min (sb_allocated_tokens earlier) (sb_estimated_tokens earlier)).
Proof.
  unfold allocate. intros H.
  destruct (compute_slot_budgets estimate candidates policy) as [slots|] eqn:Hc; [|done].
  apply compute_slot_budgets_spec in Hc as (Hwf & Hal & Hnames).
  destruct (int_fits _); [|done]. injection H as <-. simpl.
  pose proof (trim_actions_exact slots _ Hwf Hal) as Hr. cbv zeta in Hr.
  destruct (trim_actions_ordered slots (Z.max 0 (bp_total_token_budget policy))
    (sum_of sb_estimated_tokens slots) (sw_names _ Hwf)) as [H1 H2].
  split_and!; try done; [apply Hwf|]. rewrite Hr. apply Z.ltb_ge. lia.
Qed.

(** C40. The allocation overflows exactly from a budget of 2{^31} divided by the largest
    share, 18, on. *)
Theorem allocation_overflow candidates policy :
  compute_slot_budgets estimate candidates policy = None <->
  119304648 <= bp_total_token_budget policy.
Proof.
  unfold compute_slot_budgets. set (total := Z.max 0 (bp_total_token_budget policy)).
  destruct (template_points policy) as (Hpos & _ & t & Ht & H18).
  destruct (forallb _ _) eqn:E; simpl; (split; [try done|]).
  - intros Hge. rewrite forallb_forall in E. apply list_elem_of_In, E in Ht.
    unfold int_fits in Ht. rewrite H18 in Ht. reflect_tests. lia.
  - intros _. destruct (Z.le_gt_cases 119304648 (bp_total_token_budget policy)); [done|].
    exfalso. apply not_true_iff_false in E. apply E, forallb_forall. intros x Hx%list_elem_of_In.
    rewrite Forall_forall in Hpos. apply Hpos in Hx. unfold int_fits. reflect_tests. nia.
  - done.
Qed.

End Plans.

(** ** Witnesses *)

Definition sample_candidates : CandidateSet :=
  {| cs_working_snapshot := {| wsn_session_id := "s-1"; wsn_slots := []; wsn_open_questions := [];
                               wsn_ephemeral_facts := []; wsn_snapshot_at := 1 |};
     cs_session_bundle :=
       {| slb_session := {| ses_session_id := Some "s-1"; ses_turn_ids := None; ses_user_id := None;
                            ses_latest_summary_memory_ref := None; ses_metadata_digest := None;
                            ses_created_at := None; ses_last_active_at := None;
                            ses_tags := None |};
          slb_recent_turns := []; slb_total_turn_count := 0 |};
     cs_latest_summary := None; cs_relevant_facts := []; cs_relevant_experiences := [];
     cs_external_evidence := ["evidence one"; "evidence two"]; cs_vector_hits := [];
     cs_warnings := []; cs_estimated_total_tokens := 0 |}.

Definition sample_policy : BudgetPolicy :=
  {| bp_total_token_budget := 20; bp_stage := "Reasoning"; bp_risk_level := 2;
     bp_latency_budget_ms := 0 |}.

Lemma context_fits_witness :
  let _ := merging_sort in
  exists plan, allocate (fun text => Z.of_nat (String.length text)) sample_candidates sample_policy
    = Some plan /\ bpl_over_budget plan = false /\ bpl_estimated_total_tokens plan = 24.
Proof.
  intros sorting.
  destruct (allocate (fun text => Z.of_nat (String.length text)) sample_candidates sample_policy)
    as [plan|] eqn:E; [|vm_compute in E; congruence].
  exists plan. split; [reflexivity|].
  split; [exact (proj1 (proj2 (proj2 (proj2 (proj2 (context_fits _ _ _ _ E))))))|].
  vm_compute in E. injection E as <-. reflexivity.
Defined.
