(* ===== verification/SecretTypes.v ===== *)
(** * Secrets: the data

    infra/include/secret/SecretTypes.h, SecretErrors.h, SecureBuffer.h and the data of
    ISecretBackend.h. The result structs of the header that hold [ok], one payload, a
    result code and an error are instances of [SecretOutcome]. *)

From S2P Require Import Prelude Text ErrorCodes CheckpointContracts RecoveryContracts.

(** ** Enumerations *)

Module SecretAccessMode.
Inductive SecretAccessMode := Unspecified | MetadataOnly | Materialize | Rotate | Revoke.
#[global] Instance SecretAccessMode_eq_dec : EqDecision SecretAccessMode.
Proof. solve_decision. Defined.
End SecretAccessMode.
Abbreviation SecretAccessMode := SecretAccessMode.SecretAccessMode.

Module SecretClassification.
Inductive SecretClassification :=
| Unspecified | Credential | Token | Certificate | SensitiveConfig.
#[global] Instance SecretClassification_eq_dec : EqDecision SecretClassification.
Proof. solve_decision. Defined.
End SecretClassification.
Abbreviation SecretClassification := SecretClassification.SecretClassification.

Module SecretBackendType.
Inductive SecretBackendType := Unspecified | File | Kms | Mock.
#[global] Instance SecretBackendType_eq_dec : EqDecision SecretBackendType.
Proof. solve_decision. Defined.
End SecretBackendType.
Abbreviation SecretBackendType := SecretBackendType.SecretBackendType.

Module SecretLeaseState.
Inductive SecretLeaseState := Unspecified | Active | Released | Expired | Revoked | Stale.
#[global] Instance SecretLeaseState_eq_dec : EqDecision SecretLeaseState.
Proof. solve_decision. Defined.
End SecretLeaseState.
Abbreviation SecretLeaseState := SecretLeaseState.SecretLeaseState.

Module RotationStrategy.
Inductive RotationStrategy := Unspecified | InPlace | DualSlot.
#[global] Instance RotationStrategy_eq_dec : EqDecision RotationStrategy.
Proof. solve_decision. Defined.
End RotationStrategy.
Abbreviation RotationStrategy := RotationStrategy.RotationStrategy.

Module RotationValidationState.
Inductive RotationValidationState := Unspecified | Pending | Succeeded | Failed | RolledBack.
#[global] Instance RotationValidationState_eq_dec : EqDecision RotationValidationState.
Proof. solve_decision. Defined.
End RotationValidationState.
Abbreviation RotationValidationState := RotationValidationState.RotationValidationState.

Module SecretBackendState.
Inductive SecretBackendState := Unknown | Available | Degraded | Unavailable.
#[global] Instance SecretBackendState_eq_dec : EqDecision SecretBackendState.
Proof. solve_decision. Defined.
End SecretBackendState.
Abbreviation SecretBackendState := SecretBackendState.SecretBackendState.

(** ** Errors *)

Module SecretErrorCode.
Inductive SecretErrorCode :=
| NotFound | AccessDenied | BackendUnavailable | LeaseExpired | VersionStale
| MaterializeFailed | RotationValidationFailed | RotationRollbackFailed | AuditWriteFail.
End SecretErrorCode.
Abbreviation SecretErrorCode := SecretErrorCode.SecretErrorCode.

Definition secret_error_code_name (code : SecretErrorCode) : string :=
  match code with
  | SecretErrorCode.NotFound => "INF_E_SECRET_NOT_FOUND"
  | SecretErrorCode.AccessDenied => "INF_E_SECRET_ACCESS_DENIED"
  | SecretErrorCode.BackendUnavailable => "INF_E_SECRET_BACKEND_UNAVAILABLE"
  | SecretErrorCode.LeaseExpired => "INF_E_SECRET_LEASE_EXPIRED"
  | SecretErrorCode.VersionStale => "INF_E_SECRET_VERSION_STALE"
  | SecretErrorCode.MaterializeFailed => "INF_E_SECRET_MATERIALIZE_FAILED"
  | SecretErrorCode.RotationValidationFailed => "INF_E_SECRET_ROTATION_VALIDATION_FAILED"
  | SecretErrorCode.RotationRollbackFailed => "INF_E_SECRET_ROTATION_ROLLBACK_FAILED"
  | SecretErrorCode.AuditWriteFail => "INF_E_SECRET_AUDIT_WRITE_FAIL"
  end.

(** [map_secret_error_code(code).result_code] *)
Definition secret_result_code (code : SecretErrorCode) : ResultCode :=
  match code with
  | SecretErrorCode.NotFound => ResultCode.ValidationFieldMissing
  | SecretErrorCode.AccessDenied => ResultCode.PolicyDenied
  | SecretErrorCode.BackendUnavailable => ResultCode.ProviderTimeout
  | SecretErrorCode.LeaseExpired | SecretErrorCode.VersionStale
  | SecretErrorCode.RotationRollbackFailed => ResultCode.RuntimeRetryExhausted
  | SecretErrorCode.MaterializeFailed | SecretErrorCode.RotationValidationFailed
  | SecretErrorCode.AuditWriteFail => ResultCode.ToolExecutionFailed
  end.

(** [std::string(secret_error_code_name(error_code)) + ": " + message] *)
Definition secret_message (code : SecretErrorCode) (message : string) : string :=
  secret_error_code_name code +:+ ": " +:+ message.

Definition secret_error_info (result_code : ResultCode) (message stage source_ref : string)
    : ErrorInfo :=
  {| ei_failure_type := Some (classify_result_code result_code);
     ei_retryable := Some false;
     ei_safe_to_replan := Some false;
     ei_details := {| ed_code := Some (result_code_value result_code); ed_message := message;
                      ed_stage := stage |};
     ei_source_ref := {| esr_ref_type := "infra.secret"; esr_ref_id := source_ref |} |}.

(** [references_only_contract_error_types] of every result; [ok] is the flag that the
    result without an error needs. *)
Definition contract_error_types (ok : bool) (result_code : option ResultCode)
    (error_info : option ErrorInfo) : bool :=
  match error_info with
  | None => ok && bool_decide (result_code = None)
  | Some error_info =>
      let? result_code := result_code else false in
      bool_decide (ei_failure_type error_info = Some (classify_result_code result_code))
  end.

(** ** Queries, handles and leases *)

Record SecretQuery := {
  sq_secret_name : string;
  sq_version_hint : string;
  sq_purpose : string;
  sq_access_mode : SecretAccessMode;
}.

Definition query_valid (query : SecretQuery) : bool :=
  negb (is_empty (sq_secret_name query)) && negb (is_empty (sq_purpose query))
  && negb (bool_decide (sq_access_mode query = SecretAccessMode.Unspecified)).

Record SecretAccessContext := {
  sac_request_id : option string;
  sac_session_id : option string;
  sac_task_id : option string;
  sac_actor : string;
  sac_consumer_module : string;
  sac_permission_domain : string;
}.

Definition has_audit_anchor (context : SecretAccessContext) : bool :=
  has_non_empty_value (sac_request_id context) || has_non_empty_value (sac_task_id context).

Definition access_context_valid (context : SecretAccessContext) : bool :=
  has_audit_anchor context && negb (is_empty (sac_actor context))
  && negb (is_empty (sac_consumer_module context))
  && negb (is_empty (sac_permission_domain context))
  && negb (present_but_empty (sac_request_id context))
  && negb (present_but_empty (sac_session_id context))
  && negb (present_but_empty (sac_task_id context)).

Record SecretDescriptor := {
  sd_secret_name : string;
  sd_backend_type : SecretBackendType;
  sd_classification : SecretClassification;
  sd_rotation_policy_ref : string;
  sd_owner_ref : string;
}.

Definition empty_descriptor : SecretDescriptor :=
  {| sd_secret_name := ""; sd_backend_type := SecretBackendType.Unspecified;
     sd_classification := SecretClassification.Unspecified; sd_rotation_policy_ref := "";
     sd_owner_ref := "" |}.

Definition secret_descriptor_valid (descriptor : SecretDescriptor) : bool :=
  negb (is_empty (sd_secret_name descriptor))
  && negb (bool_decide (sd_backend_type descriptor = SecretBackendType.Unspecified))
  && negb (bool_decide (sd_classification descriptor = SecretClassification.Unspecified))
  && negb (is_empty (sd_rotation_policy_ref descriptor))
  && negb (is_empty (sd_owner_ref descriptor)).

Record SecretHandle := {
  sh_handle_id : string;
  sh_secret_name : string;
  sh_version : string;
  sh_backend_ref : string;
  sh_issued_at_ms : Z;
  sh_expires_at_ms : Z;
  sh_redaction_hint : string;
}.

Definition empty_handle : SecretHandle :=
  {| sh_handle_id := ""; sh_secret_name := ""; sh_version := ""; sh_backend_ref := "";
     sh_issued_at_ms := 0; sh_expires_at_ms := 0; sh_redaction_hint := "" |}.

Definition handle_valid (handle : SecretHandle) : bool :=
  negb (is_empty (sh_handle_id handle)) && negb (is_empty (sh_secret_name handle))
  && negb (is_empty (sh_version handle)) && negb (is_empty (sh_backend_ref handle))
  && (0 <? sh_issued_at_ms handle) && (sh_issued_at_ms handle <=? sh_expires_at_ms handle)
  && negb (is_empty (sh_redaction_hint handle)).

Record SecretLease := {
  sl_lease_id : string;
  sl_handle_id : string;
  sl_consumer_ref : string;
  sl_expires_at_ms : Z;
  sl_rotation_epoch : Z;
  sl_state : SecretLeaseState;
}.

Definition empty_lease : SecretLease :=
  {| sl_lease_id := ""; sl_handle_id := ""; sl_consumer_ref := ""; sl_expires_at_ms := 0;
     sl_rotation_epoch := 0; sl_state := SecretLeaseState.Unspecified |}.

Definition lease_valid (lease : SecretLease) : bool :=
  negb (is_empty (sl_lease_id lease)) && negb (is_empty (sl_handle_id lease))
  && negb (is_empty (sl_consumer_ref lease)) && (0 <? sl_expires_at_ms lease)
  && (0 <? sl_rotation_epoch lease)
  && negb (bool_decide (sl_state lease = SecretLeaseState.Unspecified)).

Definition set_lease_state (state : SecretLeaseState) (lease : SecretLease) : SecretLease :=
  {| sl_lease_id := sl_lease_id lease; sl_handle_id := sl_handle_id lease;
     sl_consumer_ref := sl_consumer_ref lease; sl_expires_at_ms := sl_expires_at_ms lease;
     sl_rotation_epoch := sl_rotation_epoch lease; sl_state := state |}.

(** ** The bytes of a secret *)

Record SecureBuffer := {
  sb_bytes : string;
  sb_zeroize_on_release : bool;
  sb_released : bool;
}.

Definition from_text_copy (plaintext : string) : SecureBuffer :=
  {| sb_bytes := plaintext; sb_zeroize_on_release := true; sb_released := false |}.

(** [bytes()], the empty span once released *)
Definition buffer_bytes (buffer : SecureBuffer) : string :=
  if sb_released buffer then "" else sb_bytes buffer.

Fixpoint zeros_like (bytes : string) : string :=
  match bytes with
  | EmptyString => ""
  | String _ rest => String "000"%char (zeros_like rest)
  end.

Definition is_zeroized (buffer : SecureBuffer) : bool :=
  all_chars (fun ch => bool_decide (ch = "000"%char)) (sb_bytes buffer).

Definition release_buffer (buffer : SecureBuffer) : SecureBuffer :=
  if sb_released buffer then buffer else
  {| sb_bytes := if sb_zeroize_on_release buffer then zeros_like (sb_bytes buffer)
                 else sb_bytes buffer;
     sb_zeroize_on_release := sb_zeroize_on_release buffer;
     sb_released := true |}.

(** ** Results *)

Record SecretOutcome (A : Type) := {
  so_ok : bool;
  so_payload : A;
  so_result_code : option ResultCode;
  so_error_info : option ErrorInfo;
}.
Arguments so_ok {A} _.
Arguments so_payload {A} _.
Arguments so_result_code {A} _.
Arguments so_error_info {A} _.

Definition outcome_success {A} (payload : A) : SecretOutcome A :=
  {| so_ok := true; so_payload := payload; so_result_code := None; so_error_info := None |}.

(** [failure]; [payload] is what the struct holds besides the error. *)
Definition outcome_failure {A} (payload : A) (result_code : ResultCode)
    (message stage source_ref : string) : SecretOutcome A :=
  {| so_ok := false; so_payload := payload; so_result_code := Some result_code;
     so_error_info := Some (secret_error_info result_code message stage source_ref) |}.

(** [is_valid]; [payload_ok] is what it asks of the payload of a success. *)
Definition outcome_valid {A} (payload_ok : A -> bool) (outcome : SecretOutcome A) : bool :=
  if so_ok outcome
  then payload_ok (so_payload outcome) && bool_decide (so_result_code outcome = None)
       && bool_decide (so_error_info outcome = None)
  else bool_decide (so_result_code outcome <> None)
       && bool_decide (so_error_info outcome <> None)
       && contract_error_types (so_ok outcome) (so_result_code outcome) (so_error_info outcome).

Definition SecretHandleResult := SecretOutcome SecretHandle.
Definition SecretInspectionResult := SecretOutcome SecretDescriptor.

(** The buffer, null in a failure, and the lease. *)
Definition SecretMaterializationResult := SecretOutcome (option SecureBuffer * SecretLease).

(** The secret's name and the id of the lease. *)
Definition SecretLifecycleResult := SecretOutcome (string * option string).

Definition materialization_failure (result_code : ResultCode) (message stage source_ref : string)
    : SecretMaterializationResult :=
  outcome_failure (None, empty_lease) result_code message stage source_ref.

Definition lifecycle_failure (secret_name : string) (result_code : ResultCode)
    (message stage source_ref : string) (lease_id : option string) : SecretLifecycleResult :=
  outcome_failure (secret_name, lease_id) result_code message stage source_ref.

Definition lifecycle_valid (result : SecretLifecycleResult) : bool :=
  negb (is_empty (so_payload result).1) && negb (present_but_empty (so_payload result).2)
  && outcome_valid (fun _ => true) result.

Record RotationRequest := {
  rrq_secret_name : string;
  rrq_requested_by : string;
  rrq_reason_code : string;
  rrq_strategy : RotationStrategy;
  rrq_validate_only : bool;
}.

Definition rotation_request_valid (request : RotationRequest) : bool :=
  negb (is_empty (rrq_secret_name request)) && negb (is_empty (rrq_requested_by request))
  && negb (is_empty (rrq_reason_code request))
  && negb (bool_decide (rrq_strategy request = RotationStrategy.Unspecified)).

Record RotationResult := {
  rot_rotated : bool;
  rot_secret_name : string;
  rot_previous_version : string;
  rot_current_version : string;
  rot_validation_state : RotationValidationState;
  rot_rollback_ready : bool;
  rot_evidence_ref : string;
  rot_result_code : option ResultCode;
  rot_error_info : option ErrorInfo;
}.

Definition rotation_success (secret_name previous_version current_version evidence_ref : string)
    (rollback_ready : bool) : RotationResult :=
  {| rot_rotated := true; rot_secret_name := secret_name;
     rot_previous_version := previous_version; rot_current_version := current_version;
     rot_validation_state := RotationValidationState.Succeeded;
     rot_rollback_ready := rollback_ready; rot_evidence_ref := evidence_ref;
     rot_result_code := None; rot_error_info := None |}.

Definition rotation_failure (secret_name previous_version current_version evidence_ref : string)
    (result_code : ResultCode) (message stage source_ref : string) (rollback_ready : bool)
    : RotationResult :=
  {| rot_rotated := false; rot_secret_name := secret_name;
     rot_previous_version := previous_version; rot_current_version := current_version;
     rot_validation_state := RotationValidationState.Failed;
     rot_rollback_ready := rollback_ready; rot_evidence_ref := evidence_ref;
     rot_result_code := Some result_code;
     rot_error_info := Some (secret_error_info result_code message stage source_ref) |}.

Definition rotation_result_valid (result : RotationResult) : bool :=
  if is_empty (rot_secret_name result)
     || bool_decide (rot_validation_state result = RotationValidationState.Unspecified)
     || is_empty (rot_evidence_ref result)
  then false else
  if rot_rotated result
  then negb (is_empty (rot_previous_version result))
       && negb (is_empty (rot_current_version result))
       && negb (bool_decide (rot_previous_version result = rot_current_version result))
       && bool_decide (rot_result_code result = None)
       && bool_decide (rot_error_info result = None)
  else bool_decide (rot_result_code result <> None)
       && bool_decide (rot_error_info result <> None)
       && contract_error_types (negb (rot_rotated result)) (rot_result_code result)
            (rot_error_info result).

(** ** What a backend keeps and is asked *)

Record SecretBackendRecord := {
  sbr_descriptor : SecretDescriptor;
  sbr_backend_ref : string;
  sbr_version : string;
  sbr_cipher_ref : string;
  sbr_encrypted_at_rest : bool;
}.

Definition empty_backend_record : SecretBackendRecord :=
  {| sbr_descriptor := empty_descriptor; sbr_backend_ref := ""; sbr_version := "";
     sbr_cipher_ref := ""; sbr_encrypted_at_rest := true |}.

Definition backend_record_valid (record : SecretBackendRecord) : bool :=
  secret_descriptor_valid (sbr_descriptor record) && negb (is_empty (sbr_backend_ref record))
  && negb (is_empty (sbr_version record)) && negb (is_empty (sbr_cipher_ref record)).

Definition SecretBackendFetchResult := SecretOutcome SecretBackendRecord.

Record SecretVersionPromotionRequest := {
  pmr_secret_name : string;
  pmr_previous_version : string;
  pmr_candidate_version : string;
  pmr_rotation_epoch : Z;
  pmr_validate_only : bool;
}.

Definition promotion_request_valid (request : SecretVersionPromotionRequest) : bool :=
  negb (is_empty (pmr_secret_name request)) && negb (is_empty (pmr_previous_version request))
  && negb (is_empty (pmr_candidate_version request))
  && negb (bool_decide (pmr_previous_version request = pmr_candidate_version request))
  && (0 <? pmr_rotation_epoch request).

Record SecretBackendStatus := {
  sbs_state : SecretBackendState;
  sbs_backend_ref : string;
  sbs_rate_limited : bool;
  sbs_read_only_fallback_ready : bool;
  sbs_last_error_code : option ResultCode;
  sbs_detail_ref : string;
}.

Definition make_status_detail_ref (backend_ref suffix : string) : string :=
  "status://secret/backend/" +:+ backend_ref +:+ "/" +:+ suffix.

(** ** Properties *)

(** The error of every failure is of the kind of its code. *)
Lemma outcome_failure_valid {A} payload_ok (payload : A) result_code message stage source_ref :
  outcome_valid payload_ok (outcome_failure payload result_code message stage source_ref) = true.
Proof. by destruct result_code. Qed.

Lemma zeros_like_zero bytes :
  all_chars (fun ch => bool_decide (ch = "000"%char)) (zeros_like bytes) = true.
Proof. by induction bytes. Qed.

(** A released buffer gives no byte away, and keeps none unless it was told not to zero
    them. *)
Lemma released_buffer buffer :
  buffer_bytes (release_buffer buffer) = "" /\
  (sb_zeroize_on_release buffer = true -> sb_released buffer = false ->
   is_zeroized (release_buffer buffer) = true).
Proof.
  destruct buffer as [bytes [] []]; split; try done. intros _ _. apply zeros_like_zero.
Qed.

Lemma access_context_consumer context :
  access_context_valid context = true -> sac_consumer_module context <> "".
Proof. unfold access_context_valid. intros H. reflect_tests. tauto. Qed.
