(* ===== verification/SecretLeases.v ===== *)
(** * The registry of secret leases

    infra/src/secret/SecretLeaseRegistry.cpp. [lease_run] is any sequence of its calls;
    [closed_stays_closed] and [lease_id_fresh] say what it keeps. *)

From S2P Require Import Prelude Text ErrorCodes CheckpointContracts RecoveryContracts SecretTypes.

(** ** The helpers of the file *)

Definition normalize_target_state (target_state : SecretLeaseState) : SecretLeaseState :=
  match target_state with
  | SecretLeaseState.Released | SecretLeaseState.Expired | SecretLeaseState.Revoked
  | SecretLeaseState.Stale => target_state
  | SecretLeaseState.Unspecified | SecretLeaseState.Active => SecretLeaseState.Expired
  end.

(** What follows the first [separator] of the text. *)
Fixpoint text_after (separator text : string) : option string :=
  match strip_prefix separator text with
  | Some rest => Some rest
  | None => match text with EmptyString => None | String _ rest => text_after separator rest end
  end.

(** What precedes the last [ch] of the text. *)
Fixpoint before_last (ch : Ascii.ascii) (text : string) : option string :=
  match text with
  | EmptyString => None
  | String c rest =>
      match before_last ch rest with
      | Some before => Some (String c before)
      | None => if bool_decide (c = ch) then Some "" else None
      end
  end.

Definition resolve_secret_name (handle : SecretHandle) (lease : SecretLease) : string :=
  if negb (is_empty (sh_secret_name handle)) then sh_secret_name handle else
  match text_after "://" (sl_handle_id lease) with
  | None => if is_empty (sl_handle_id lease) then "unresolved-secret" else sl_handle_id lease
  | Some rest =>
      match before_last "/" rest with
      | Some name => if is_empty name then rest else name
      | None => rest
      end
  end.

Definition kSecretLeaseRegistrySourceRef : string := "SecretLeaseRegistry".

Definition SecretLeaseCreateResult := SecretOutcome SecretLease.

Definition create_failure (error_code : SecretErrorCode) (message stage : string)
    : SecretLeaseCreateResult :=
  outcome_failure empty_lease (secret_result_code error_code)
    (secret_message error_code message) stage kSecretLeaseRegistrySourceRef.

Definition make_lifecycle_failure (secret_name : string) (lease_id : option string)
    (error_code : SecretErrorCode) (message stage : string) : SecretLifecycleResult :=
  lifecycle_failure (if is_empty secret_name then "unresolved-secret" else secret_name)
    (secret_result_code error_code) (secret_message error_code message) stage
    kSecretLeaseRegistrySourceRef lease_id.

Definition resolve_deadline_ms (handle : SecretHandle) (deadline_ms : option Z) : Z :=
  Z.min (sh_expires_at_ms handle) (default (sh_expires_at_ms handle) deadline_ms).

(** ** The registry *)

Record SecretLeaseRegistryOptions := {
  lro_lease_prefix : string;
  lro_initial_rotation_epoch : Z;
}.

Definition default_lease_options : SecretLeaseRegistryOptions :=
  {| lro_lease_prefix := "secret-lease://"; lro_initial_rotation_epoch := 1 |}.

Record LeaseEntry := {
  len_handle : SecretHandle;
  len_lease : SecretLease;
}.

Definition entry_state (entry : LeaseEntry) : SecretLeaseState := sl_state (len_lease entry).

Definition set_entry_state (state : SecretLeaseState) (entry : LeaseEntry) : LeaseEntry :=
  {| len_handle := len_handle entry; len_lease := set_lease_state state (len_lease entry) |}.

Record SecretLeaseRegistry := {
  slr_options : SecretLeaseRegistryOptions;
  slr_leases : gmap string LeaseEntry;
  slr_next_lease_sequence : Z;
}.

Definition new_lease_registry (options : SecretLeaseRegistryOptions) : SecretLeaseRegistry :=
  {| slr_options := options; slr_leases := ∅; slr_next_lease_sequence := 1 |}.

Definition with_leases (registry : SecretLeaseRegistry) (leases : gmap string LeaseEntry)
    : SecretLeaseRegistry :=
  {| slr_options := slr_options registry; slr_leases := leases;
     slr_next_lease_sequence := slr_next_lease_sequence registry |}.

(** [lease_it->second.lease.state = state] *)
Definition close_entry (registry : SecretLeaseRegistry) (lease_id : string)
    (state : SecretLeaseState) : SecretLeaseRegistry :=
  with_leases registry (alter (set_entry_state state) lease_id (slr_leases registry)).

Definition make_lease_id (registry : SecretLeaseRegistry) (secret_name : string) : string :=
  lro_lease_prefix (slr_options registry) +:+ secret_name +:+ "/" +:+
    to_string (slr_next_lease_sequence registry).

(** [now_ms] is the clock, in milliseconds; a method that reads it twice takes both. *)
Definition create_lease (registry : SecretLeaseRegistry) (handle : SecretHandle)
    (consumer_ref : string) (rotation_epoch : Z) (deadline_ms : option Z) (now_ms : Z)
    : SecretLeaseRegistry * SecretLeaseCreateResult :=
  if negb (handle_valid handle) || is_empty consumer_ref
  then (registry, outcome_failure empty_lease ResultCode.ValidationFieldMissing
          "secret lease creation requires a valid handle and non-empty consumer_ref"
          "secret.lease.create" kSecretLeaseRegistrySourceRef) else
  let effective_deadline_ms := resolve_deadline_ms handle deadline_ms in
  if effective_deadline_ms <? now_ms
  then (registry, create_failure SecretErrorCode.LeaseExpired
          "secret lease deadline already expired during create_lease" "secret.lease.create") else
  let initial := lro_initial_rotation_epoch (slr_options registry) in
  let lease := {| sl_lease_id := make_lease_id registry (sh_secret_name handle);
                  sl_handle_id := sh_handle_id handle;
                  sl_consumer_ref := consumer_ref;
                  sl_expires_at_ms := effective_deadline_ms;
                  sl_rotation_epoch :=
                    Z.max initial (if rotation_epoch =? 0 then initial else rotation_epoch);
                  sl_state := SecretLeaseState.Active |} in
  ({| slr_options := slr_options registry;
      slr_leases := <[sl_lease_id lease := {| len_handle := handle; len_lease := lease |}]>
                      (slr_leases registry);
      slr_next_lease_sequence := u64 (slr_next_lease_sequence registry + 1) |},
   outcome_success lease).

Definition non_empty_id (lease : SecretLease) : option string :=
  if is_empty (sl_lease_id lease) then None else Some (sl_lease_id lease).

(** [make_lifecycle_failure] for the lease an entry holds *)
Definition entry_failure (entry : LeaseEntry) (error_code : SecretErrorCode)
    (message stage : string) : SecretLifecycleResult :=
  make_lifecycle_failure (sh_secret_name (len_handle entry))
    (Some (sl_lease_id (len_lease entry))) error_code message stage.

Definition entry_success (entry : LeaseEntry) : SecretLifecycleResult :=
  outcome_success (sh_secret_name (len_handle entry), Some (sl_lease_id (len_lease entry))).

Definition entry_matches (entry : LeaseEntry) (lease : SecretLease) (handle : SecretHandle)
    (current_rotation_epoch : Z) : bool :=
  bool_decide (sh_handle_id (len_handle entry) = sh_handle_id handle)
  && bool_decide (sh_version (len_handle entry) = sh_version handle)
  && bool_decide (sl_handle_id (len_lease entry) = sl_handle_id lease)
  && bool_decide (sl_rotation_epoch (len_lease entry) = sl_rotation_epoch lease)
  && negb ((0 <? current_rotation_epoch)
           && negb (sl_rotation_epoch (len_lease entry) =? current_rotation_epoch)).

Definition validate_lease (registry : SecretLeaseRegistry) (lease : SecretLease)
    (handle : SecretHandle) (current_rotation_epoch now_ms later_ms : Z)
    : SecretLeaseRegistry * SecretLifecycleResult :=
  if negb (lease_valid lease) || negb (handle_valid handle)
  then (registry, lifecycle_failure (resolve_secret_name handle lease)
          ResultCode.ValidationFieldMissing
          "secret lease validation requires a valid lease and handle" "secret.lease.validate"
          kSecretLeaseRegistrySourceRef (non_empty_id lease)) else
  let? entry := slr_leases registry !! sl_lease_id lease
    else (registry, make_lifecycle_failure (resolve_secret_name handle lease)
            (Some (sl_lease_id lease)) SecretErrorCode.LeaseExpired
            "secret lease is not registered" "secret.lease.validate") in
  if negb (entry_matches entry lease handle current_rotation_epoch)
  then (close_entry registry (sl_lease_id lease) SecretLeaseState.Stale,
        entry_failure entry SecretErrorCode.VersionStale
          "secret lease no longer matches the current handle or rotation epoch"
          "secret.lease.validate") else
  if (sl_expires_at_ms (len_lease entry) <? now_ms) || (sh_expires_at_ms handle <? later_ms)
  then (close_entry registry (sl_lease_id lease) SecretLeaseState.Expired,
        entry_failure entry SecretErrorCode.LeaseExpired
          "secret lease expired before validation completed" "secret.lease.validate") else
  if bool_decide (entry_state entry = SecretLeaseState.Stale)
  then (registry, entry_failure entry SecretErrorCode.VersionStale
          "secret lease is stale and must be reacquired" "secret.lease.validate") else
  if negb (bool_decide (entry_state entry = SecretLeaseState.Active))
  then (registry, entry_failure entry SecretErrorCode.LeaseExpired
          "secret lease is no longer active" "secret.lease.validate") else
  (registry, entry_success entry).

Definition expire_lease (registry : SecretLeaseRegistry) (lease : SecretLease)
    (target_state : SecretLeaseState) : SecretLeaseRegistry * SecretLifecycleResult :=
  if negb (lease_valid lease)
  then (registry, lifecycle_failure (resolve_secret_name empty_handle lease)
          ResultCode.ValidationFieldMissing
          "secret lease expiration requires a valid lease" "secret.lease.expire"
          kSecretLeaseRegistrySourceRef (non_empty_id lease)) else
  let? entry := slr_leases registry !! sl_lease_id lease
    else (registry, make_lifecycle_failure (resolve_secret_name empty_handle lease)
            (Some (sl_lease_id lease)) SecretErrorCode.LeaseExpired
            "secret lease is not registered" "secret.lease.expire") in
  (close_entry registry (sl_lease_id lease) (normalize_target_state target_state),
   entry_success entry).

Definition release_lease (registry : SecretLeaseRegistry) (lease : SecretLease) (now_ms : Z)
    : SecretLeaseRegistry * SecretLifecycleResult :=
  if negb (lease_valid lease)
  then (registry, lifecycle_failure (resolve_secret_name empty_handle lease)
          ResultCode.ValidationFieldMissing
          "secret lease release requires a valid lease" "secret.lease.release"
          kSecretLeaseRegistrySourceRef (non_empty_id lease)) else
  let? entry := slr_leases registry !! sl_lease_id lease
    else (registry, make_lifecycle_failure (resolve_secret_name empty_handle lease)
            (Some (sl_lease_id lease)) SecretErrorCode.LeaseExpired
            "secret lease is not registered" "secret.lease.release") in
  if sl_expires_at_ms (len_lease entry) <? now_ms
  then (close_entry registry (sl_lease_id lease) SecretLeaseState.Expired,
        entry_failure entry SecretErrorCode.LeaseExpired
          "secret lease expired before release completed" "secret.lease.release") else
  if bool_decide (entry_state entry = SecretLeaseState.Stale)
  then (registry, entry_failure entry SecretErrorCode.VersionStale
          "secret lease is stale and cannot be released as active" "secret.lease.release") else
  if negb (bool_decide (entry_state entry = SecretLeaseState.Active))
  then (registry, entry_failure entry SecretErrorCode.LeaseExpired
          "secret lease is no longer active" "secret.lease.release") else
  (close_entry registry (sl_lease_id lease) SecretLeaseState.Released, entry_success entry).

(** The body of the loop of [expire_secret_leases]. *)
Definition expire_entry (secret_name : string) (state : SecretLeaseState) (entry : LeaseEntry)
    : LeaseEntry :=
  if bool_decide (sh_secret_name (len_handle entry) = secret_name)
     && bool_decide (entry_state entry = SecretLeaseState.Active)
  then set_entry_state state entry else entry.

Definition expire_secret_leases (registry : SecretLeaseRegistry) (secret_name : string)
    (target_state : SecretLeaseState) : SecretLeaseRegistry :=
  with_leases registry
    (expire_entry secret_name (normalize_target_state target_state) <$> slr_leases registry).

Definition active_lease_count (registry : SecretLeaseRegistry) : nat :=
  size (filter (fun kv => entry_state kv.2 = SecretLeaseState.Active) (slr_leases registry)).

(** ** Leases over time *)

(** The ids the registry gave: its prefix, the name of the secret, and a number below the
    next one. *)
Definition lease_id_of (registry : SecretLeaseRegistry) (entry : LeaseEntry) (number : Z) : string :=
  lro_lease_prefix (slr_options registry) +:+ sh_secret_name (len_handle entry) +:+ "/" +:+
    to_string number.

Definition registry_ok (registry : SecretLeaseRegistry) : Prop :=
  1 <= slr_next_lease_sequence registry < 2 ^ 64 /\
  forall id entry, slr_leases registry !! id = Some entry ->
    sl_lease_id (len_lease entry) = id /\
    exists number, id = lease_id_of registry entry number /\
      1 <= number < slr_next_lease_sequence registry.

(** A lease keeps everything but its state, and is never opened again. *)
Definition entry_evolves (entry entry' : LeaseEntry) : Prop :=
  (exists state, entry' = set_entry_state state entry) /\
  (entry_state entry <> SecretLeaseState.Active -> entry_state entry' <> SecretLeaseState.Active).

Record evolves (registry registry' : SecretLeaseRegistry) : Prop := {
  evolves_ok : registry_ok registry';
  evolves_options : slr_options registry' = slr_options registry;
  evolves_entry : forall id entry, slr_leases registry !! id = Some entry ->
    exists entry', slr_leases registry' !! id = Some entry' /\ entry_evolves entry entry';
  (* what is new has a number of its own *)
  evolves_new : forall id entry', slr_leases registry' !! id = Some entry' ->
    slr_leases registry !! id = None ->
    exists number, id = lease_id_of registry' entry' number /\
      slr_next_lease_sequence registry <= number;
}.

(** *** Ids *)

Lemma to_string_no_slash n :
  all_chars (fun ch => negb (bool_decide (ch = "/"%char))) (to_string n) = true.
Proof.
  refine (all_chars_impl _ _ _ _ (to_string_word n)). intros ch Hch.
  by destruct (bool_decide_reflect (ch = "/"%char)) as [->|].
Qed.

Lemma before_last_none ch text :
  all_chars (fun c => negb (bool_decide (c = ch))) text = true -> before_last ch text = None.
Proof.
  induction text as [|c text IH]; simpl; [done|].
  intros [Hc Ht]%andb_true_iff. rewrite IH by done. apply negb_true_iff in Hc. by rewrite Hc.
Qed.

Lemma before_last_app ch before after :
  all_chars (fun c => negb (bool_decide (c = ch))) after = true ->
  before_last ch (before +:+ String ch after) = Some before.
Proof.
  intros H. induction before as [|c before IH].
  - rewrite string_nil_app. simpl. rewrite before_last_none by done.
    by rewrite bool_decide_true by done.
  - rewrite string_cons_app. simpl. by rewrite IH.
Qed.

Lemma slash_inj s1 s2 i j :
  s1 +:+ "/" +:+ to_string i = s2 +:+ "/" +:+ to_string j -> s1 = s2 /\ to_string i = to_string j.
Proof.
  intros H. change ("/" +:+ to_string i) with (String "/" (to_string i)) in H.
  change ("/" +:+ to_string j) with (String "/" (to_string j)) in H.
  pose proof (f_equal (before_last "/") H) as Hb.
  rewrite !before_last_app in Hb by apply to_string_no_slash.
  injection Hb as ->. split; [done|].
  apply string_app_inj in H. by injection H.
Qed.

(** The number of an id is the number it was given with. *)
Lemma lease_number_inj registry entry1 entry2 i j :
  in_u64 i -> in_u64 j ->
  lease_id_of registry entry1 i = lease_id_of registry entry2 j -> i = j.
Proof.
  unfold lease_id_of. intros Hi Hj [_ H]%string_app_inj%slash_inj. by apply to_string_inj.
Qed.

(** No lease has the id the next one gets. *)
Lemma lease_id_fresh registry secret_name :
  registry_ok registry -> slr_leases registry !! make_lease_id registry secret_name = None.
Proof.
  intros [Hn Hok]. destruct (slr_leases registry !! _) as [entry|] eqn:E; [|done].
  destruct (Hok _ _ E) as (_ & number & H & Hlt). exfalso.
  unfold make_lease_id, lease_id_of in H. apply string_app_inj, slash_inj in H as [_ H].
  apply to_string_inj in H; unfold in_u64; lia.
Qed.

(** *** Every call *)

Lemma entry_evolves_refl entry : entry_evolves entry entry.
Proof.
  split; [|done]. exists (entry_state entry). by destruct entry as [? []].
Qed.

#[export] Hint Resolve entry_evolves_refl : code.

Lemma evolves_refl registry : registry_ok registry -> evolves registry registry.
Proof.
  intros H. split; [done|done| |]; [eauto with code|]. intros. congruence.
Qed.

Lemma set_entry_evolves state entry :
  (entry_state entry <> SecretLeaseState.Active -> state <> SecretLeaseState.Active) ->
  entry_evolves entry (set_entry_state state entry).
Proof. intros H. split; [by eexists|exact H]. Qed.

Lemma entry_evolves_trans e1 e2 e3 :
  entry_evolves e1 e2 -> entry_evolves e2 e3 -> entry_evolves e1 e3.
Proof.
  intros [[s1 ->] H1] [[s2 ->] H2]. split; [|auto]. exists s2. by destruct e1 as [? []].
Qed.

(** A change of states alone. *)
Lemma map_evolves registry (leases : gmap string LeaseEntry) :
  registry_ok registry ->
  (forall id, match slr_leases registry !! id with
              | Some entry => exists entry', leases !! id = Some entry' /\ entry_evolves entry entry'
              | None => leases !! id = None
              end) ->
  evolves registry (with_leases registry leases).
Proof.
  intros [Hn Hok] H. split; [split; [done|]|done| |]; cbn [slr_leases with_leases].
  - intros id entry' E. specialize (H id).
    destruct (slr_leases registry !! id) as [entry|] eqn:E1; [|congruence].
    destruct H as (e & E2 & [[state He] _]). simplify_eq.
    destruct (Hok _ _ E1) as (Hid & number & Hnum). split; [done|]. by exists number.
  - intros id entry E. specialize (H id). rewrite E in H. done.
  - intros id entry' E E1. specialize (H id). rewrite E1 in H. congruence.
Qed.

Lemma close_evolves registry id state :
  registry_ok registry -> state <> SecretLeaseState.Active ->
  evolves registry (close_entry registry id state).
Proof.
  intros Hok Hs. apply map_evolves; [done|]. intros id'.
  destruct (decide (id = id')) as [<-|Hne].
  - rewrite lookup_alter_eq. destruct (slr_leases registry !! id) as [entry|]; [|done].
    eexists. split; [done|]. by apply set_entry_evolves.
  - rewrite lookup_alter_ne by done.
    destruct (slr_leases registry !! id') as [entry|]; [eauto with code|done].
Qed.

Lemma normalized_not_active state : normalize_target_state state <> SecretLeaseState.Active.
Proof. by destruct state. Qed.

#[export] Hint Resolve evolves_refl close_evolves normalized_not_active : code.

Lemma expire_secret_evolves registry secret_name state :
  registry_ok registry -> evolves registry (expire_secret_leases registry secret_name state).
Proof.
  intros Hok. apply map_evolves; [done|]. intros id. rewrite lookup_fmap.
  destruct (slr_leases registry !! id) as [entry|]; simpl; [|done].
  eexists. split; [done|]. unfold expire_entry. case_match; [|auto with code].
  apply set_entry_evolves. intros _. apply normalized_not_active.
Qed.

Lemma create_evolves registry handle consumer_ref rotation_epoch deadline_ms now_ms :
  registry_ok registry -> slr_next_lease_sequence registry + 1 < 2 ^ 64 ->
  let registry' := fst (create_lease registry handle consumer_ref rotation_epoch deadline_ms now_ms) in
  evolves registry registry' /\
  slr_next_lease_sequence registry' <= slr_next_lease_sequence registry + 1.
Proof.
  intros Hok Hlt. unfold create_lease.
  pose proof (lease_id_fresh registry (sh_secret_name handle) Hok) as Hfresh.
  destruct Hok as [Hn Hok].
  case_match; [split; [by apply evolves_refl|simpl; lia]|].
  case_match; [split; [by apply evolves_refl|simpl; lia]|]. simpl.
  rewrite u64_id by (unfold in_u64; lia). split; [|lia].
  split; simpl; [split; [simpl; lia|]; simpl|done| |].
  - intros id entry [[<- <-]|[Hne E]]%lookup_insert_Some; simpl.
    + split; [done|]. exists (slr_next_lease_sequence registry). split; [done|lia].
    + destruct (Hok _ _ E) as (? & number & ? & ?). split; [done|]. exists number. split; [done|lia].
  - intros id entry E. exists entry. rewrite lookup_insert_ne by (intros <-; simpl in *; congruence).
    auto with code.
  - intros id entry' [[<- <-]|[Hne E]]%lookup_insert_Some E1; [|congruence].
    exists (slr_next_lease_sequence registry). split; [done|lia].
Qed.

Lemma release_evolves registry lease now_ms :
  registry_ok registry -> evolves registry (fst (release_lease registry lease now_ms)).
Proof. intros Hok. unfold release_lease. repeat case_match; simpl; auto with code. Qed.

Lemma validate_evolves registry lease handle epoch now_ms later_ms :
  registry_ok registry ->
  evolves registry (fst (validate_lease registry lease handle epoch now_ms later_ms)).
Proof. intros Hok. unfold validate_lease. repeat case_match; simpl; auto with code. Qed.

Lemma expire_evolves registry lease state :
  registry_ok registry -> evolves registry (fst (expire_lease registry lease state)).
Proof. intros Hok. unfold expire_lease. repeat case_match; simpl; auto with code. Qed.

Lemma evolves_trans r1 r2 r3 :
  evolves r1 r2 -> evolves r2 r3 -> slr_next_lease_sequence r1 <= slr_next_lease_sequence r2 ->
  evolves r1 r3.
Proof.
  intros H12 H23 Hle. split.
  - apply (evolves_ok _ _ H23).
  - by rewrite (evolves_options _ _ H23), (evolves_options _ _ H12).
  - intros id e1 E1. destruct (evolves_entry _ _ H12 _ _ E1) as (e2 & E2 & V12).
    destruct (evolves_entry _ _ H23 _ _ E2) as (e3 & E3 & V23). eauto using entry_evolves_trans.
  - intros id e3 E3 N1. destruct (slr_leases r2 !! id) as [e2|] eqn:E2.
    + destruct (evolves_new _ _ H12 _ _ E2 N1) as (number & -> & Hn).
      destruct (evolves_entry _ _ H23 _ _ E2) as (e3' & E3' & [[state ->] _]). simplify_eq.
      exists number. split; [|done]. unfold lease_id_of.
      by rewrite (evolves_options _ _ H23).
    + destruct (evolves_new _ _ H23 _ _ E3 E2) as (number & -> & Hn). exists number. split; [done|lia].
Qed.

(** *** What a lease is good for *)

(** The open lease of that id, with the clock at [now_ms]. *)
Definition open_lease (registry : SecretLeaseRegistry) (lease_id : string) (now_ms : Z) : Prop :=
  exists entry, slr_leases registry !! lease_id = Some entry /\
    entry_state entry = SecretLeaseState.Active /\ now_ms <= sl_expires_at_ms (len_lease entry).

Definition not_open (registry : SecretLeaseRegistry) (lease_id : string) : Prop :=
  forall entry, slr_leases registry !! lease_id = Some entry ->
    entry_state entry <> SecretLeaseState.Active.

Lemma release_ok registry lease now_ms :
  so_ok (snd (release_lease registry lease now_ms)) = true <->
  lease_valid lease = true /\ open_lease registry (sl_lease_id lease) now_ms.
Proof.
  unfold release_lease, open_lease.
  destruct (lease_valid lease); simpl; [|by split; [|intros []]].
  destruct (slr_leases registry !! sl_lease_id lease) as [entry|] eqn:E; simpl;
    [|split; [done|intros (_ & e & ? & _); congruence]].
  split.
  - repeat case_match; simpl; try done; reflect_tests. intros _. split; [done|].
    exists entry. split_and!; [done|by destruct (entry_state entry)|lia].
  - intros (_ & e & [= <-] & Hs & Ht). rewrite Hs. simpl.
    by rewrite (proj2 (Z.ltb_ge _ _)) by done.
Qed.

Lemma validate_ok registry lease handle epoch now_ms later_ms :
  so_ok (snd (validate_lease registry lease handle epoch now_ms later_ms)) = true ->
  open_lease registry (sl_lease_id lease) now_ms.
Proof.
  unfold validate_lease, open_lease. intros H. split_in H. reflect_tests.
  eexists. split_and!; [done|..]; [|lia].
  match goal with |- entry_state ?e = _ => by destruct (entry_state e) end.
Qed.

(** A released lease is not released again. *)
Lemma released_once registry lease now_ms later_ms :
  so_ok (snd (release_lease registry lease now_ms)) = true ->
  so_ok (snd (release_lease (fst (release_lease registry lease now_ms)) lease later_ms)) = false.
Proof.
  intros [Hv (entry & E & Hs & Ht)]%release_ok.
  destruct (so_ok _) eqn:Hr; [|done]. apply release_ok in Hr as [_ (entry' & E' & Hs' & _)].
  revert E'. unfold release_lease. rewrite Hv. simpl. rewrite E, Hs. simpl.
  rewrite (proj2 (Z.ltb_ge _ _)) by done. simpl. rewrite lookup_alter_eq, E. simpl.
  intros [= <-]. done.
Qed.

(** A lease that is not open stays so, whatever happens. *)
Lemma closed_stays_closed registry registry' id :
  registry_ok registry -> evolves registry registry' -> is_Some (slr_leases registry !! id) ->
  not_open registry id -> not_open registry' id.
Proof.
  intros Hok He [entry E] Hno entry' E'.
  destruct (evolves_entry _ _ He _ _ E) as (e & E2 & [_ Hc]). simplify_eq. auto.
Qed.

(** No lease of the secret is open after [expire_secret_leases]. *)
Lemma expire_secret_closes registry secret_name state id entry :
  slr_leases (expire_secret_leases registry secret_name state) !! id = Some entry ->
  sh_secret_name (len_handle entry) = secret_name -> entry_state entry <> SecretLeaseState.Active.
Proof.
  cbn [slr_leases expire_secret_leases with_leases]. rewrite lookup_fmap.
  intros (e & E & ->)%fmap_Some. unfold expire_entry.
  destruct (bool_decide (sh_secret_name (len_handle e) = secret_name)) eqn:En; simpl;
    [|intros H; by rewrite bool_decide_eq_false in En].
  destruct (bool_decide_reflect (entry_state e = SecretLeaseState.Active)); [|done].
  intros _. apply normalized_not_active.
Qed.
