(* ===== verification/SecretBackends.v ===== *)
(** * Secret backends

    ISecretBackend of infra/include/secret/ISecretBackend.h is the class [SecretBackend],
    with the laws its clients rely on in [SecretBackendLaws]. Its two implementations, of
    infra/src/secret/backends/, are instances: [MockSecretBackend] keeps records in memory,
    [FileSecretBackend] reads files. *)

From S2P Require Import Prelude Text ErrorCodes CheckpointContracts RecoveryContracts SecretTypes.

(** ** The interface

    [now_ms] is the clock. *)
Class SecretBackend (B : Type) := {
  fetch_record : B -> SecretQuery -> B * SecretBackendFetchResult;
  materialize_record :
    B -> SecretBackendRecord -> SecretAccessContext -> Z -> B * SecretMaterializationResult;
  promote_version : B -> SecretVersionPromotionRequest -> B * RotationResult;
  revoke_version : B -> string -> string -> B * SecretLifecycleResult;
  get_backend_status : B -> SecretBackendStatus;
}.

(** In a backend of sound records the version of a secret changes in [promote_version] and
    [revoke_version] alone, and there as their results say. *)
Class SecretBackendLaws (B : Type) `{SecretBackend B} := {
  backend_ok : B -> Prop;
  held_version : B -> string -> option string;
  fetch_ok backend query : backend_ok backend -> backend_ok (fetch_record backend query).1;
  fetch_keeps backend query :
    held_version (fetch_record backend query).1 = held_version backend;
  fetch_holds backend query :
    backend_ok backend -> so_ok (fetch_record backend query).2 = true ->
    let record := so_payload (fetch_record backend query).2 in
    held_version backend (sq_secret_name query) = Some (sbr_version record) /\
    sd_secret_name (sbr_descriptor record) = sq_secret_name query /\
    backend_record_valid record = true;
  materialize_ok backend record context now_ms :
    backend_ok backend -> backend_ok (materialize_record backend record context now_ms).1;
  materialize_keeps backend record context now_ms :
    held_version (materialize_record backend record context now_ms).1 = held_version backend;
  promote_ok backend request :
    backend_ok backend -> backend_ok (promote_version backend request).1;
  promote_refused backend request :
    rot_rotated (promote_version backend request).2 = false ->
    held_version (promote_version backend request).1 = held_version backend;
  promote_done backend request :
    rot_rotated (promote_version backend request).2 = true ->
    pmr_validate_only request = false ->
    forall name, held_version (promote_version backend request).1 name =
      if bool_decide (name = pmr_secret_name request)
      then Some (pmr_candidate_version request) else held_version backend name;
  revoke_ok backend secret_name version :
    backend_ok backend -> backend_ok (revoke_version backend secret_name version).1;
  revoke_refused backend secret_name version :
    so_ok (revoke_version backend secret_name version).2 = false ->
    held_version (revoke_version backend secret_name version).1 = held_version backend;
  revoke_others backend secret_name version name :
    name <> secret_name \/ held_version backend secret_name <> Some version ->
    held_version (revoke_version backend secret_name version).1 name = held_version backend name;
}.

(** The failures of both files, by the code of secrets. *)
Definition backend_fetch_failure (source_ref : string) (result_code : ResultCode) (message : string)
    : SecretBackendFetchResult :=
  outcome_failure empty_backend_record result_code message "secret.fetch_record" source_ref.

Definition make_fetch_failure (source_ref : string) (error_code : SecretErrorCode)
    (message : string) : SecretBackendFetchResult :=
  backend_fetch_failure source_ref (secret_result_code error_code)
    (secret_message error_code message).

Definition make_materialize_failure (source_ref : string) (error_code : SecretErrorCode)
    (message : string) : SecretMaterializationResult :=
  materialization_failure (secret_result_code error_code) (secret_message error_code message)
    "secret.materialize_record" source_ref.

Definition revoke_failure (source_ref secret_name : string) (error_code : SecretErrorCode)
    (message : string) : SecretLifecycleResult :=
  lifecycle_failure secret_name (secret_result_code error_code)
    (secret_message error_code message) "secret.revoke_version" source_ref None.

(** The lease in the result of [materialize_record]. *)
Definition backend_lease (scheme : string) (record : SecretBackendRecord)
    (context : SecretAccessContext) (lease_duration_ms rotation_epoch now_ms : Z) : SecretLease :=
  let ref := sd_secret_name (sbr_descriptor record) +:+ "/" +:+ sbr_version record in
  {| sl_lease_id := scheme +:+ "-lease://" +:+ ref;
     sl_handle_id := scheme +:+ "-handle://" +:+ ref;
     sl_consumer_ref := sac_consumer_module context;
     sl_expires_at_ms := now_ms + Z.max 1 lease_duration_ms;
     sl_rotation_epoch := Z.max 1 rotation_epoch;
     sl_state := SecretLeaseState.Active |}.

(** ** Records in memory *)

Record MockSecretBackendOptions := {
  mbo_backend_ref : string;
  mbo_available : bool;
  mbo_rate_limited : bool;
  mbo_read_only_fallback_ready : bool;
  mbo_lease_duration_ms : Z;
  mbo_rotation_epoch : Z;
}.

Record MockSecretRecord := {
  msr_record : SecretBackendRecord;
  msr_materialized_text : string;
  msr_allowed_permission_domains : list string;
}.

Definition mock_record_valid (record : MockSecretRecord) : bool :=
  backend_record_valid (msr_record record) && negb (is_empty (msr_materialized_text record)).

Record MockSecretBackend := {
  msb_options : MockSecretBackendOptions;
  msb_records : gmap string MockSecretRecord;
  msb_last_error_code : option ResultCode;
}.

Definition kMockSecretBackendSourceRef : string := "MockSecretBackend".

Definition permission_domain_allowed (secret_record : MockSecretRecord)
    (permission_domain : string) : bool :=
  bool_decide (msr_allowed_permission_domains secret_record = [])
  || bool_decide (permission_domain ∈ msr_allowed_permission_domains secret_record).

Definition set_mock_error (backend : MockSecretBackend) (last_error_code : option ResultCode)
    : MockSecretBackend :=
  {| msb_options := msb_options backend; msb_records := msb_records backend;
     msb_last_error_code := last_error_code |}.

(** [last_error_code_ = map_secret_error_code(code).result_code] *)
Definition mock_error (backend : MockSecretBackend) (code : SecretErrorCode) : MockSecretBackend :=
  set_mock_error backend (Some (secret_result_code code)).

Definition with_mock_records (backend : MockSecretBackend) (records : gmap string MockSecretRecord)
    : MockSecretBackend :=
  {| msb_options := msb_options backend; msb_records := records; msb_last_error_code := None |}.

Definition set_record_version (version cipher_ref : string) (record : SecretBackendRecord)
    : SecretBackendRecord :=
  {| sbr_descriptor := sbr_descriptor record; sbr_backend_ref := sbr_backend_ref record;
     sbr_version := version; sbr_cipher_ref := cipher_ref;
     sbr_encrypted_at_rest := sbr_encrypted_at_rest record |}.

Definition map_mock_record (f : SecretBackendRecord -> SecretBackendRecord)
    (record : MockSecretRecord) : MockSecretRecord :=
  {| msr_record := f (msr_record record);
     msr_materialized_text := msr_materialized_text record;
     msr_allowed_permission_domains := msr_allowed_permission_domains record |}.

(** The two defaults [upsert_secret] fills in. *)
Definition fill_record (backend_ref : string) (record : SecretBackendRecord) : SecretBackendRecord :=
  let descriptor := sbr_descriptor record in
  {| sbr_descriptor :=
       {| sd_secret_name := sd_secret_name descriptor;
          sd_backend_type :=
            if bool_decide (sd_backend_type descriptor = SecretBackendType.Unspecified)
            then SecretBackendType.Mock else sd_backend_type descriptor;
          sd_classification := sd_classification descriptor;
          sd_rotation_policy_ref := sd_rotation_policy_ref descriptor;
          sd_owner_ref := sd_owner_ref descriptor |};
     sbr_backend_ref :=
       if is_empty (sbr_backend_ref record) then backend_ref else sbr_backend_ref record;
     sbr_version := sbr_version record; sbr_cipher_ref := sbr_cipher_ref record;
     sbr_encrypted_at_rest := sbr_encrypted_at_rest record |}.

Definition upsert_secret (backend : MockSecretBackend) (secret_record : MockSecretRecord)
    : MockSecretBackend :=
  let secret_record :=
    map_mock_record (fill_record (mbo_backend_ref (msb_options backend))) secret_record in
  if negb (mock_record_valid secret_record) then backend else
  {| msb_options := msb_options backend;
     msb_records :=
       <[sd_secret_name (sbr_descriptor (msr_record secret_record)) := secret_record]>
         (msb_records backend);
     msb_last_error_code := msb_last_error_code backend |}.

Definition set_mock_options (backend : MockSecretBackend) (available rate_limited : bool)
    : MockSecretBackend :=
  let options := msb_options backend in
  {| msb_options :=
       {| mbo_backend_ref := mbo_backend_ref options; mbo_available := available;
          mbo_rate_limited := rate_limited;
          mbo_read_only_fallback_ready := mbo_read_only_fallback_ready options;
          mbo_lease_duration_ms := mbo_lease_duration_ms options;
          mbo_rotation_epoch := mbo_rotation_epoch options |};
     msb_records := msb_records backend;
     msb_last_error_code := msb_last_error_code backend |}.

Definition set_available (backend : MockSecretBackend) (available : bool) : MockSecretBackend :=
  set_mock_options backend available (mbo_rate_limited (msb_options backend)).

Definition set_rate_limited (backend : MockSecretBackend) (rate_limited : bool) : MockSecretBackend :=
  set_mock_options backend (mbo_available (msb_options backend)) rate_limited.

Definition clear_records (backend : MockSecretBackend) : MockSecretBackend := with_mock_records backend ∅.

Definition mock_fetch_record (backend : MockSecretBackend) (query : SecretQuery)
    : MockSecretBackend * SecretBackendFetchResult :=
  let fail := make_fetch_failure kMockSecretBackendSourceRef in
  if negb (mbo_available (msb_options backend))
  then (mock_error backend SecretErrorCode.BackendUnavailable,
        fail SecretErrorCode.BackendUnavailable
          "mock backend is unavailable for fetch_record") else
  if negb (query_valid query)
  then (set_mock_error backend (Some ResultCode.ValidationFieldMissing),
        backend_fetch_failure kMockSecretBackendSourceRef ResultCode.ValidationFieldMissing
          "secret query must satisfy the frozen secret contract") else
  let? held := msb_records backend !! sq_secret_name query
    else (mock_error backend SecretErrorCode.NotFound,
          fail SecretErrorCode.NotFound
            "mock backend does not contain the requested secret") in
  if negb (is_empty (sq_version_hint query))
     && negb (bool_decide (sbr_version (msr_record held) = sq_version_hint query))
  then (mock_error backend SecretErrorCode.NotFound,
        fail SecretErrorCode.NotFound
          "mock backend does not contain the requested secret version") else
  (set_mock_error backend None, outcome_success (msr_record held)).

Definition mock_materialize_record (backend : MockSecretBackend) (record : SecretBackendRecord)
    (access_context : SecretAccessContext) (now_ms : Z)
    : MockSecretBackend * SecretMaterializationResult :=
  let fail := make_materialize_failure kMockSecretBackendSourceRef in
  if negb (mbo_available (msb_options backend))
  then (mock_error backend SecretErrorCode.BackendUnavailable,
        fail SecretErrorCode.BackendUnavailable
          "mock backend is unavailable for materialize_record") else
  if negb (access_context_valid access_context)
  then (set_mock_error backend (Some ResultCode.ValidationFieldMissing),
        materialization_failure ResultCode.ValidationFieldMissing
          "secret access context must remain auditable before materialization"
          "secret.materialize_record" kMockSecretBackendSourceRef) else
  let? held := msb_records backend !! sd_secret_name (sbr_descriptor record)
    else (mock_error backend SecretErrorCode.NotFound,
          fail SecretErrorCode.NotFound "mock backend cannot materialize a missing secret") in
  if negb (bool_decide (sbr_version (msr_record held) = sbr_version record))
  then (mock_error backend SecretErrorCode.VersionStale,
        fail SecretErrorCode.VersionStale
          "mock backend detected a stale record version during materialization") else
  if negb (permission_domain_allowed held (sac_permission_domain access_context))
  then (mock_error backend SecretErrorCode.AccessDenied,
        fail SecretErrorCode.AccessDenied
          "mock backend denied materialization for the provided permission domain") else
  (set_mock_error backend None,
   outcome_success
     (Some (from_text_copy (msr_materialized_text held)),
      backend_lease "mock" (msr_record held) access_context
        (mbo_lease_duration_ms (msb_options backend))
        (mbo_rotation_epoch (msb_options backend)) now_ms)).

Definition mock_rotation_failure (request : SecretVersionPromotionRequest)
    (error_code : SecretErrorCode) (message : string) : RotationResult :=
  rotation_failure (pmr_secret_name request) (pmr_previous_version request)
    (pmr_candidate_version request) "audit://secret/mock/rotation/failure"
    (secret_result_code error_code) (secret_message error_code message)
    "secret.promote_version" kMockSecretBackendSourceRef true.

Definition mock_promote_version (backend : MockSecretBackend)
    (request : SecretVersionPromotionRequest) : MockSecretBackend * RotationResult :=
  if negb (mbo_available (msb_options backend))
  then (mock_error backend SecretErrorCode.BackendUnavailable,
        mock_rotation_failure request SecretErrorCode.BackendUnavailable
          "mock backend is unavailable for promote_version") else
  if negb (promotion_request_valid request)
  then (set_mock_error backend (Some ResultCode.ValidationFieldMissing),
        rotation_failure (pmr_secret_name request) (pmr_previous_version request)
          (pmr_candidate_version request) "audit://secret/mock/rotation/invalid_request"
          ResultCode.ValidationFieldMissing
          "promotion request must satisfy the frozen secret promotion contract"
          "secret.promote_version" kMockSecretBackendSourceRef false) else
  let? held := msb_records backend !! pmr_secret_name request
    else (mock_error backend SecretErrorCode.NotFound,
          mock_rotation_failure request SecretErrorCode.NotFound
            "mock backend cannot promote a missing secret") in
  if negb (bool_decide (sbr_version (msr_record held) = pmr_previous_version request))
  then (mock_error backend SecretErrorCode.VersionStale,
        mock_rotation_failure request SecretErrorCode.VersionStale
          "mock backend detected a stale previous version during promotion") else
  let cipher_ref := "cipher://mock/" +:+ pmr_secret_name request +:+ "/" +:+
                    pmr_candidate_version request in
  let records :=
    if pmr_validate_only request then msb_records backend
    else <[pmr_secret_name request :=
             map_mock_record (set_record_version (pmr_candidate_version request) cipher_ref) held]>
           (msb_records backend) in
  (with_mock_records backend records,
   rotation_success (pmr_secret_name request) (pmr_previous_version request)
     (pmr_candidate_version request)
     ("audit://secret/mock/promote/" +:+ pmr_secret_name request) true).

Definition mock_revoke_version (backend : MockSecretBackend) (secret_name version : string)
    : MockSecretBackend * SecretLifecycleResult :=
  let fail := revoke_failure kMockSecretBackendSourceRef secret_name in
  if negb (mbo_available (msb_options backend))
  then (mock_error backend SecretErrorCode.BackendUnavailable,
        fail SecretErrorCode.BackendUnavailable
          "mock backend is unavailable for revoke_version") else
  if is_empty secret_name || is_empty version
  then (set_mock_error backend (Some ResultCode.ValidationFieldMissing),
        lifecycle_failure secret_name ResultCode.ValidationFieldMissing
          "revoke_version requires a non-empty secret_name and version"
          "secret.revoke_version" kMockSecretBackendSourceRef None) else
  let? held := msb_records backend !! secret_name
    else (mock_error backend SecretErrorCode.NotFound,
          fail SecretErrorCode.NotFound "mock backend cannot revoke a missing secret") in
  if negb (bool_decide (sbr_version (msr_record held) = version))
  then (mock_error backend SecretErrorCode.VersionStale,
        fail SecretErrorCode.VersionStale
          "mock backend detected a stale version during revoke") else
  (with_mock_records backend (delete secret_name (msb_records backend)),
   outcome_success (secret_name, None)).

Definition mock_backend_status (backend : MockSecretBackend) : SecretBackendStatus :=
  let options := msb_options backend in
  {| sbs_state :=
       if negb (mbo_available options) then SecretBackendState.Unavailable
       else if mbo_rate_limited options then SecretBackendState.Degraded
       else SecretBackendState.Available;
     sbs_backend_ref := mbo_backend_ref options;
     sbs_rate_limited := mbo_rate_limited options;
     sbs_read_only_fallback_ready := mbo_read_only_fallback_ready options;
     sbs_last_error_code := msb_last_error_code backend;
     sbs_detail_ref :=
       make_status_detail_ref (mbo_backend_ref options)
         (if negb (mbo_available options) then "unavailable"
          else if mbo_rate_limited options then "degraded" else "available") |}.

#[global] Instance MockBackend : SecretBackend MockSecretBackend :=
  {| fetch_record := mock_fetch_record;
     materialize_record := mock_materialize_record;
     promote_version := mock_promote_version;
     revoke_version := mock_revoke_version;
     get_backend_status := mock_backend_status |}.

(** ** Secrets in files

    The tree under the root directory: a node by its path below the root, as a list of
    names, the root itself at the empty path. A regular file has its contents and whether
    this process may open it. *)
Inductive FileNode :=
| Directory
| Regular (contents : string) (readable : bool).

Abbreviation FileTree := (gmap (list string) FileNode).

Definition is_directory (tree : FileTree) (path : list string) : bool :=
  match tree !! path with Some Directory => true | _ => false end.

Definition path_is_regular_file_noexcept (tree : FileTree) (path : list string) : bool :=
  match tree !! path with Some (Regular _ _) => true | _ => false end.

Record FileSecretBackendOptions := {
  fbo_encrypt_at_rest : bool;
  fbo_backend_ref : string;
  fbo_lease_duration_ms : Z;
  fbo_rotation_epoch : Z;
}.

Record FileSecretBackend := {
  fsb_options : FileSecretBackendOptions;
  fsb_tree : FileTree;
  fsb_last_error_code : option ResultCode;
}.

Definition kFileSecretBackendSourceRef : string := "FileSecretBackend".

(** *** Names and paths *)

Definition is_name_char (ch : Ascii.ascii) : bool :=
  is_alnum ch || bool_decide (ch = "/"%char) || bool_decide (ch = "-"%char)
  || bool_decide (ch = "_"%char).

Definition is_secret_name_safe (secret_name : string) : bool :=
  if is_empty secret_name || value_starts_with secret_name "/" || contains_text secret_name ".."
  then false else all_chars is_name_char secret_name.

(** The texts [std::getline(stream, segment, '/')] yields. *)
Fixpoint segments (text : string) : list string :=
  match text with
  | EmptyString => []
  | String ch rest =>
      if bool_decide (ch = "/"%char) then "" :: segments rest
      else match segments rest with
           | [] => [String ch ""]
           | segment :: others => String ch segment :: others
           end
  end.

(** [replace_extension(".secret")]: the names have no dot of their own. *)
Fixpoint add_extension (path : list string) : list string :=
  match path with
  | [] => []
  | [name] => [name +:+ ".secret"]
  | name :: rest => name :: add_extension rest
  end.

Definition resolve_secret_path (secret_name : string) : option (list string) :=
  if negb (is_secret_name_safe secret_name) then None else
  let path := segments secret_name in
  if existsb (fun segment => is_empty segment || bool_decide (segment = ".")
                             || bool_decide (segment = "..")) path
  then None else Some (add_extension path).

Fixpoint generic_string (path : list string) : string :=
  match path with
  | [] => ""
  | [name] => name
  | name :: rest => name +:+ "/" +:+ generic_string rest
  end.

(** *** The fields of a file *)

Definition is_blank (ch : Ascii.ascii) : bool :=
  bool_decide (ch = " "%char) || bool_decide (ch = "009"%char)
  || bool_decide (ch = "013"%char) || bool_decide (ch = "010"%char).

Fixpoint trim_front (value : string) : string :=
  match value with
  | String ch rest => if is_blank ch then trim_front rest else value
  | EmptyString => ""
  end.

Fixpoint trim_back (value : string) : string :=
  match value with
  | EmptyString => ""
  | String ch rest =>
      let rest := trim_back rest in
      if is_empty rest && is_blank ch then "" else String ch rest
  end.

Definition trim_copy (value : string) : string := trim_back (trim_front value).

(** The loop of [parse_field_document]; the last value of a key stays. *)
Fixpoint parse_field_lines (lines : list string) (fields : gmap string string)
    : result (SecretErrorCode * string) (gmap string string) :=
  match lines with
  | [] => Ok fields
  | raw_line :: rest =>
      let trimmed := trim_copy raw_line in
      if is_empty trimmed || value_starts_with trimmed "#" then parse_field_lines rest fields else
      let? kv := split_equals trimmed
        else Err (SecretErrorCode.MaterializeFailed,
                  "secret file contains a malformed key=value line") in
      let key := trim_copy kv.1 in
      let value := trim_copy kv.2 in
      if is_empty key || is_empty value
      then Err (SecretErrorCode.MaterializeFailed, "secret file contains an empty key or value")
      else parse_field_lines rest (<[key := value]> fields)
  end.

Definition parse_field_document (tree : FileTree) (secret_path : list string)
    : result (SecretErrorCode * string) (gmap string string) :=
  match tree !! secret_path with
  | Some (Regular contents true) => parse_field_lines (getlines contents) ∅
  | _ => Err (SecretErrorCode.BackendUnavailable,
              "file backend could not open the requested secret file")
  end.

Definition parse_classification (classification : string) : SecretClassification :=
  if bool_decide (classification = "credential") then SecretClassification.Credential else
  if bool_decide (classification = "token") then SecretClassification.Token else
  if bool_decide (classification = "certificate") then SecretClassification.Certificate else
  if bool_decide (classification = "sensitive_config")
  then SecretClassification.SensitiveConfig else
  SecretClassification.Unspecified.

Definition build_secret_record (parsed : result (SecretErrorCode * string) (gmap string string))
    (secret_name : string) (options : FileSecretBackendOptions) (secret_path : list string)
    : option SecretBackendRecord :=
  match parsed with
  | Err _ => None
  | Ok fields =>
      let? classification := fields !! "classification" else None in
      let? rotation_policy := fields !! "rotation_policy" else None in
      let? owner := fields !! "owner" else None in
      let? version := fields !! "version" else None in
      let record :=
        {| sbr_descriptor :=
             {| sd_secret_name := secret_name; sd_backend_type := SecretBackendType.File;
                sd_classification := parse_classification classification;
                sd_rotation_policy_ref := rotation_policy; sd_owner_ref := owner |};
           sbr_backend_ref := fbo_backend_ref options;
           sbr_version := version;
           sbr_cipher_ref := "file://" +:+ generic_string secret_path;
           sbr_encrypted_at_rest := fbo_encrypt_at_rest options |} in
      if negb (backend_record_valid record) then None else Some record
  end.

(** The bytes; the digits are read as in [Text.hex_decode_pairs]. *)
Definition decode_materialized_secret
    (parsed : result (SecretErrorCode * string) (gmap string string)) (encrypt_at_rest : bool)
    : result (SecretErrorCode * string) string :=
  let* fields := parsed in
  if negb encrypt_at_rest
  then match fields !! "plaintext" with
       | None => Err (SecretErrorCode.MaterializeFailed,
                      "file backend requires plaintext when encrypt_at_rest is disabled")
       | Some plaintext => Ok plaintext
       end
  else
    let? ciphertext_hex := fields !! "ciphertext_hex"
      else Err (SecretErrorCode.MaterializeFailed,
                "file backend requires ciphertext_hex when encrypt_at_rest is enabled") in
    if Nat.odd (String.length ciphertext_hex)
    then Err (SecretErrorCode.MaterializeFailed,
              "ciphertext_hex must contain an even number of characters") else
    let? plaintext := hex_decode_pairs ciphertext_hex
      else Err (SecretErrorCode.MaterializeFailed,
                "ciphertext_hex contains a non-hexadecimal byte") in
    Ok plaintext.

(** *** The operations *)

Definition root_available (backend : FileSecretBackend) : bool := is_directory (fsb_tree backend) [].

Definition set_file_error (backend : FileSecretBackend) (last_error_code : option ResultCode)
    : FileSecretBackend :=
  {| fsb_options := fsb_options backend; fsb_tree := fsb_tree backend;
     fsb_last_error_code := last_error_code |}.

Definition file_error (backend : FileSecretBackend) (code : SecretErrorCode) : FileSecretBackend :=
  set_file_error backend (Some (secret_result_code code)).

(** [parsed.message.empty() ? ... : parsed.message] *)
Definition metadata_message (parsed : result (SecretErrorCode * string) (gmap string string))
    : string :=
  match parsed with
  | Err (_, message) => message
  | Ok _ => "file backend secret metadata is incomplete or invalid"
  end.

(** The file of a secret, where its path resolves to a regular file. *)
Definition find_secret_file (backend : FileSecretBackend) (secret_name : string)
    : option (list string) :=
  let? secret_path := resolve_secret_path secret_name else None in
  if path_is_regular_file_noexcept (fsb_tree backend) secret_path then Some secret_path else None.

Definition file_fetch_record (backend : FileSecretBackend) (query : SecretQuery)
    : FileSecretBackend * SecretBackendFetchResult :=
  let fail := make_fetch_failure kFileSecretBackendSourceRef in
  if negb (root_available backend)
  then (file_error backend SecretErrorCode.BackendUnavailable,
        fail SecretErrorCode.BackendUnavailable "file backend root_dir is unavailable") else
  if negb (query_valid query) || negb (is_secret_name_safe (sq_secret_name query))
  then (set_file_error backend (Some ResultCode.ValidationFieldMissing),
        backend_fetch_failure kFileSecretBackendSourceRef ResultCode.ValidationFieldMissing
          "file backend requires a safe secret_name and a valid query contract") else
  let? secret_path := find_secret_file backend (sq_secret_name query)
    else (file_error backend SecretErrorCode.NotFound,
          fail SecretErrorCode.NotFound
            "file backend could not find the requested secret path under root_dir") in
  let parsed := parse_field_document (fsb_tree backend) secret_path in
  let? record := build_secret_record parsed (sq_secret_name query) (fsb_options backend) secret_path
    else (file_error backend SecretErrorCode.MaterializeFailed,
          fail SecretErrorCode.MaterializeFailed (metadata_message parsed)) in
  if negb (is_empty (sq_version_hint query))
     && negb (bool_decide (sbr_version record = sq_version_hint query))
  then (file_error backend SecretErrorCode.NotFound,
        fail SecretErrorCode.NotFound
          "file backend could not find the requested secret version") else
  (set_file_error backend None, outcome_success record).

Definition file_materialize_record (backend : FileSecretBackend) (record : SecretBackendRecord)
    (access_context : SecretAccessContext) (now_ms : Z)
    : FileSecretBackend * SecretMaterializationResult :=
  let fail := make_materialize_failure kFileSecretBackendSourceRef in
  if negb (root_available backend)
  then (file_error backend SecretErrorCode.BackendUnavailable,
        fail SecretErrorCode.BackendUnavailable "file backend root_dir is unavailable") else
  if negb (access_context_valid access_context)
  then (set_file_error backend (Some ResultCode.ValidationFieldMissing),
        materialization_failure ResultCode.ValidationFieldMissing
          "file backend requires an auditable access context before materialization"
          "secret.materialize_record" kFileSecretBackendSourceRef) else
  let secret_name := sd_secret_name (sbr_descriptor record) in
  let? secret_path := find_secret_file backend secret_name
    else (file_error backend SecretErrorCode.NotFound,
          fail SecretErrorCode.NotFound
            "file backend cannot materialize a missing secret path") in
  let parsed := parse_field_document (fsb_tree backend) secret_path in
  let? current_record := build_secret_record parsed secret_name (fsb_options backend) secret_path
    else (file_error backend SecretErrorCode.MaterializeFailed,
          fail SecretErrorCode.MaterializeFailed (metadata_message parsed)) in
  if negb (bool_decide (sbr_version current_record = sbr_version record))
  then (file_error backend SecretErrorCode.VersionStale,
        fail SecretErrorCode.VersionStale
          "file backend detected a stale record version during materialization") else
  match decode_materialized_secret parsed (fbo_encrypt_at_rest (fsb_options backend)) with
  | Err (error_code, message) => (file_error backend error_code, fail error_code message)
  | Ok plaintext =>
      (set_file_error backend None,
       outcome_success
         (Some (from_text_copy plaintext),
          backend_lease "file" current_record access_context
            (fbo_lease_duration_ms (fsb_options backend))
            (fbo_rotation_epoch (fsb_options backend)) now_ms))
  end.

Definition file_rotation_failure (request : SecretVersionPromotionRequest)
    (result_code : ResultCode) (message : string) (rollback_ready : bool) : RotationResult :=
  rotation_failure (pmr_secret_name request) (pmr_previous_version request)
    (pmr_candidate_version request) "audit://secret/file/rotation/failure" result_code message
    "secret.promote_version" kFileSecretBackendSourceRef rollback_ready.

Definition file_promote_version (backend : FileSecretBackend)
    (request : SecretVersionPromotionRequest) : FileSecretBackend * RotationResult :=
  if negb (root_available backend)
  then (file_error backend SecretErrorCode.BackendUnavailable,
        file_rotation_failure request (secret_result_code SecretErrorCode.BackendUnavailable)
          "file backend root_dir is unavailable" true) else
  if negb (promotion_request_valid request)
  then (set_file_error backend (Some ResultCode.ValidationFieldMissing),
        file_rotation_failure request ResultCode.ValidationFieldMissing
          "file backend promotion request must satisfy the frozen promotion contract" false) else
  (backend, file_rotation_failure request ResultCode.ToolExecutionFailed
     "file backend rotation is intentionally deferred in the v1 skeleton" false).

Definition file_revoke_version (backend : FileSecretBackend) (secret_name version : string)
    : FileSecretBackend * SecretLifecycleResult :=
  let fail := revoke_failure kFileSecretBackendSourceRef secret_name in
  if negb (root_available backend)
  then (file_error backend SecretErrorCode.BackendUnavailable,
        fail SecretErrorCode.BackendUnavailable "file backend root_dir is unavailable") else
  if is_empty secret_name || is_empty version
  then (set_file_error backend (Some ResultCode.ValidationFieldMissing),
        lifecycle_failure secret_name ResultCode.ValidationFieldMissing
          "file backend revoke_version requires a non-empty secret_name and version"
          "secret.revoke_version" kFileSecretBackendSourceRef None) else
  (backend, fail SecretErrorCode.MaterializeFailed
     "file backend revoke is intentionally deferred in the v1 skeleton").

Definition file_backend_status (backend : FileSecretBackend) : SecretBackendStatus :=
  let available := root_available backend in
  {| sbs_state :=
       if available then SecretBackendState.Available else SecretBackendState.Unavailable;
     sbs_backend_ref := fbo_backend_ref (fsb_options backend);
     sbs_rate_limited := false;
     sbs_read_only_fallback_ready := false;
     sbs_last_error_code := fsb_last_error_code backend;
     sbs_detail_ref :=
       make_status_detail_ref (fbo_backend_ref (fsb_options backend))
         (if available then "available" else "unavailable") |}.

#[global] Instance FileBackend : SecretBackend FileSecretBackend :=
  {| fetch_record := file_fetch_record;
     materialize_record := file_materialize_record;
     promote_version := file_promote_version;
     revoke_version := file_revoke_version;
     get_backend_status := file_backend_status |}.

(** ** The laws *)

(** *** In memory *)

Definition mock_held_version (backend : MockSecretBackend) (name : string) : option string :=
  match msb_records backend !! name with
  | Some held => Some (sbr_version (msr_record held))
  | None => None
  end.

(** Every record is kept under its name, and is valid. *)
Definition mock_ok (backend : MockSecretBackend) : Prop :=
  forall name held, msb_records backend !! name = Some held ->
    sd_secret_name (sbr_descriptor (msr_record held)) = name /\
    backend_record_valid (msr_record held) = true.

Lemma mock_upsert_ok backend secret_record :
  mock_ok backend -> mock_ok (upsert_secret backend secret_record).
Proof.
  intros Hok. unfold upsert_secret. set (filled := map_mock_record _ _).
  destruct (mock_record_valid filled) eqn:Hv; [|done]. unfold mock_ok. cbn [negb msb_records].
  intros name held [[<- <-]|[_ E]]%lookup_insert_Some; [|by apply Hok].
  split; [done|]. unfold mock_record_valid in Hv. apply andb_true_iff in Hv. tauto.
Qed.

Lemma mock_fetch_records backend query :
  msb_records (mock_fetch_record backend query).1 = msb_records backend.
Proof. unfold mock_fetch_record. by repeat case_match. Qed.

Lemma mock_materialize_records backend record context now_ms :
  msb_records (mock_materialize_record backend record context now_ms).1 = msb_records backend.
Proof. unfold mock_materialize_record. by repeat case_match. Qed.

Lemma mock_fetch_holds backend query :
  mock_ok backend -> so_ok (mock_fetch_record backend query).2 = true ->
  let record := so_payload (mock_fetch_record backend query).2 in
  mock_held_version backend (sq_secret_name query) = Some (sbr_version record) /\
  sd_secret_name (sbr_descriptor record) = sq_secret_name query /\
  backend_record_valid record = true.
Proof.
  intros Hok. unfold mock_fetch_record, mock_held_version. intros H. split_in H. simpl.
  split; [done|]. by apply Hok.
Qed.

Lemma mock_promote_exact backend request :
  if rot_rotated (mock_promote_version backend request).2 then
    promotion_request_valid request = true /\
    exists held, msb_records backend !! pmr_secret_name request = Some held /\
      sbr_version (msr_record held) = pmr_previous_version request /\
      msb_records (mock_promote_version backend request).1 =
        if pmr_validate_only request then msb_records backend
        else <[pmr_secret_name request :=
                 map_mock_record (set_record_version (pmr_candidate_version request)
                   ("cipher://mock/" +:+ pmr_secret_name request +:+ "/" +:+
                    pmr_candidate_version request)) held]> (msb_records backend)
  else msb_records (mock_promote_version backend request).1 = msb_records backend.
Proof.
  unfold mock_promote_version. destruct (mbo_available _); simpl; [|done].
  destruct (promotion_request_valid request) eqn:Hv; simpl; [|done].
  destruct (msb_records backend !! _) as [held|] eqn:E; simpl; [|done].
  destruct (bool_decide_reflect (sbr_version (msr_record held) = pmr_previous_version request));
    simpl; [|done].
  split; [done|]. by exists held.
Qed.

Lemma renamed_record_valid record version cipher_ref :
  backend_record_valid record = true -> version <> "" -> cipher_ref <> "" ->
  backend_record_valid (set_record_version version cipher_ref record) = true.
Proof. unfold backend_record_valid. simpl. intros H Hv Hc. reflect_tests. naive_solver. Qed.

Lemma mock_promote_ok backend request :
  mock_ok backend -> mock_ok (mock_promote_version backend request).1.
Proof.
  intros Hok. pose proof (mock_promote_exact backend request) as H. unfold mock_ok.
  destruct (rot_rotated _); [|by rewrite H].
  destruct H as (Hv & held & E & Hp & ->). destruct (pmr_validate_only request); [done|].
  intros name record [[<- <-]|[Hne Er]]%lookup_insert_Some; [|by apply Hok].
  destruct (Hok _ _ E) as [Hn Hr]. split; [done|]. simpl.
  apply renamed_record_valid; [done| |done].
  unfold promotion_request_valid in Hv. reflect_tests. tauto.
Qed.

Lemma mock_revoke_exact backend secret_name version :
  msb_records (mock_revoke_version backend secret_name version).1 =
    if so_ok (mock_revoke_version backend secret_name version).2
    then delete secret_name (msb_records backend) else msb_records backend.
Proof. unfold mock_revoke_version. by repeat case_match. Qed.

Lemma mock_revoked_held backend secret_name version :
  so_ok (mock_revoke_version backend secret_name version).2 = true ->
  mock_held_version backend secret_name = Some version.
Proof.
  unfold mock_revoke_version, mock_held_version. intros H. split_in H. by reflect_tests; subst.
Qed.

Lemma mock_revoke_ok backend secret_name version :
  mock_ok backend -> mock_ok (mock_revoke_version backend secret_name version).1.
Proof.
  intros Hok name held. rewrite mock_revoke_exact. case_match; [|apply Hok].
  intros [_ E]%lookup_delete_Some. by apply Hok.
Qed.

#[global] Instance MockLaws : SecretBackendLaws MockSecretBackend.
Proof.
  refine {| backend_ok := mock_ok; held_version := mock_held_version |}; cbn.
  - intros b q Hok. unfold mock_ok. by rewrite mock_fetch_records.
  - intros b q. unfold mock_held_version. by rewrite mock_fetch_records.
  - apply mock_fetch_holds.
  - intros b r c n Hok. unfold mock_ok. by rewrite mock_materialize_records.
  - intros b r c n. unfold mock_held_version. by rewrite mock_materialize_records.
  - apply mock_promote_ok.
  - intros b r H. pose proof (mock_promote_exact b r) as He. rewrite H in He.
    unfold mock_held_version. by rewrite He.
  - intros b r H Hvo name. pose proof (mock_promote_exact b r) as He. rewrite H, Hvo in He.
    destruct He as (_ & held & E & _ & Her). unfold mock_held_version. rewrite Her.
    destruct (bool_decide_reflect (name = pmr_secret_name r)) as [->|Hne].
    + by rewrite lookup_insert_eq.
    + by rewrite lookup_insert_ne.
  - apply mock_revoke_ok.
  - intros b s v H. unfold mock_held_version. by rewrite mock_revoke_exact, H.
  - intros b s v name Hne. unfold mock_held_version. rewrite mock_revoke_exact.
    destruct (so_ok _) eqn:E; [|done]. apply mock_revoked_held in E.
    rewrite lookup_delete_ne; [done|]. intros ->. by destruct Hne.
Defined.

(** *** In files *)

(** What [build_secret_record] makes of the file of a secret. *)
Definition file_record (backend : FileSecretBackend) (name : string) : option SecretBackendRecord :=
  let? secret_path := find_secret_file backend name else None in
  build_secret_record (parse_field_document (fsb_tree backend) secret_path) name (fsb_options backend)
    secret_path.

Definition file_held_version (backend : FileSecretBackend) (name : string) : option string :=
  match file_record backend name with Some record => Some (sbr_version record) | None => None end.

Lemma build_secret_record_sound parsed name options path record :
  build_secret_record parsed name options path = Some record ->
  sd_secret_name (sbr_descriptor record) = name /\ backend_record_valid record = true.
Proof.
  unfold build_secret_record. intros H. split_in H. split; [done|]. by reflect_tests.
Qed.

Lemma file_fetch_holds backend query :
  so_ok (file_fetch_record backend query).2 = true ->
  let record := so_payload (file_fetch_record backend query).2 in
  file_held_version backend (sq_secret_name query) = Some (sbr_version record) /\
  sd_secret_name (sbr_descriptor record) = sq_secret_name query /\
  backend_record_valid record = true.
Proof.
  unfold file_fetch_record, file_held_version, file_record. intros H.
  destruct (negb (root_available backend)); [done|].
  destruct (negb (query_valid query) || _); [done|].
  destruct (find_secret_file backend _) as [path|]; [|done].
  destruct (build_secret_record _ _ _ _) as [record|] eqn:E; [|done].
  destruct (negb _ && _); [done|]. simpl. split; [done|]. by apply build_secret_record_sound in E.
Qed.

(** A call of the file backend changes nothing but the error it reports. *)
Definition same_files (backend backend' : FileSecretBackend) : Prop :=
  fsb_options backend' = fsb_options backend /\ fsb_tree backend' = fsb_tree backend.

Lemma same_files_held backend backend' :
  same_files backend backend' -> file_held_version backend' = file_held_version backend.
Proof.
  destruct backend, backend'. unfold same_files. simpl. intros [-> ->]. done.
Qed.

Lemma file_fetch_same backend query : same_files backend (file_fetch_record backend query).1.
Proof. unfold file_fetch_record. by repeat case_match. Qed.

Lemma file_materialize_same backend record context now_ms :
  same_files backend (file_materialize_record backend record context now_ms).1.
Proof. unfold file_materialize_record. by repeat case_match. Qed.

Lemma file_promote_same backend request :
  same_files backend (file_promote_version backend request).1 /\
  rot_rotated (file_promote_version backend request).2 = false.
Proof. unfold file_promote_version. by repeat case_match. Qed.

Lemma file_revoke_same backend secret_name version :
  same_files backend (file_revoke_version backend secret_name version).1.
Proof. unfold file_revoke_version. by repeat case_match. Qed.

#[global] Instance FileLaws : SecretBackendLaws FileSecretBackend.
Proof.
  refine {| backend_ok := fun _ => True; held_version := file_held_version |}; cbn; try done.
  - intros. apply same_files_held, file_fetch_same.
  - intros b q _. apply file_fetch_holds.
  - intros. apply same_files_held, file_materialize_same.
  - intros b r _. apply same_files_held, file_promote_same.
  - intros b r H. by rewrite (proj2 (file_promote_same b r)) in H.
  - intros b s v _. apply same_files_held, file_revoke_same.
  - intros b s v name _. by rewrite (same_files_held _ _ (file_revoke_same b s v)).
Defined.

(** *** Paths stay below the root *)

Definition plain_name (segment : string) : bool :=
  negb (is_empty segment) && negb (bool_decide (segment = ".")) && negb (bool_decide (segment = ".."))
  && all_chars (fun ch => negb (bool_decide (ch = "/"%char))) segment.

Lemma segments_no_slash text :
  Forall (fun s => all_chars (fun ch => negb (bool_decide (ch = "/"%char))) s = true) (segments text).
Proof.
  induction text as [|ch text IH]; simpl; [done|].
  destruct (bool_decide_reflect (ch = "/"%char)) as [->|Hne]; [by constructor|].
  destruct (segments text) as [|s l]; [|inversion IH; subst];
    constructor; try done; simpl; rewrite ?bool_decide_false by done; done.
Qed.

Lemma add_extension_forall (P : string -> Prop) path :
  (forall name, P name -> P (name +:+ ".secret")) -> Forall P path -> Forall P (add_extension path).
Proof.
  intros HP. induction 1 as [|name path Hn Hpath IH]; simpl; [done|].
  destruct path; constructor; auto.
Qed.

Lemma plain_name_extension name : plain_name name = true -> plain_name (name +:+ ".secret") = true.
Proof.
  unfold plain_name. rewrite all_chars_app. intros H. reflect_tests.
  destruct H as (((Hn & _) & _) & Hs). destruct name as [|c name]; [done|].
  rewrite string_cons_app. split_and!; try done; by destruct name as [|? []].
Qed.

(** The file of a secret lies below the root: its path has no empty name, no [.] and no
    [..], and no name contains a separator. *)
Lemma secret_path_confined secret_name path :
  resolve_secret_path secret_name = Some path ->
  path <> [] /\ Forall (fun name => plain_name name = true) path.
Proof.
  unfold resolve_secret_path. destruct (is_secret_name_safe secret_name) eqn:Hs; [|done]. simpl.
  destruct (existsb _ _) eqn:He; [done|]. intros [= <-]. split.
  - destruct secret_name as [|ch name]; [done|]. simpl.
    destruct (bool_decide _); [simpl; by destruct (segments name)|].
    destruct (segments name) as [|? []]; done.
  - apply add_extension_forall; [apply plain_name_extension|].
    apply Forall_forall. intros s Hin. pose proof (segments_no_slash secret_name) as Hsl.
    rewrite Forall_forall in Hsl. specialize (Hsl s Hin).
    apply not_true_iff_false in He. rewrite existsb_exists in He.
    unfold plain_name. rewrite Hsl. apply list_elem_of_In in Hin.
    destruct (is_empty s || bool_decide (s = ".") || bool_decide (s = "..")) eqn:E.
    + exfalso. apply He. by exists s.
    + apply orb_false_iff in E as [[-> ->]%orb_false_iff ->]. done.
Qed.

(** Two names may share a file: a separator at the end of a name is not seen. *)
Example trailing_separator_shares_file :
  resolve_secret_path "llm/token/" = resolve_secret_path "llm/token".
Proof. vm_compute. reflexivity. Qed.
