(* ===== verification/SecretRotation.v ===== *)
(** * The rotation of secrets

    infra/src/secret/SecretRotationCoordinator.cpp and SecretRotationValidator.h, over any
    backend. [rotation_atomic] says what a rotation leaves in a lawful backend. *)

From S2P Require Import Prelude Text ErrorCodes CheckpointContracts RecoveryContracts SecretTypes SecretBackends.

(** ** The validator *)

Record SecretRotationValidationContext := {
  rvc_secret_name : string;
  rvc_previous_version : string;
  rvc_candidate_version : string;
  rvc_strategy : RotationStrategy;
  rvc_requested_by : string;
  rvc_reason_code : string;
  rvc_validation_required : bool;
  rvc_dual_slot_enabled : bool;
  rvc_next_rotation_epoch : Z;
  rvc_grace_period_sec : Z;
}.

Definition validation_context_valid (context : SecretRotationValidationContext) : bool :=
  negb (is_empty (rvc_secret_name context)) && negb (is_empty (rvc_previous_version context))
  && negb (is_empty (rvc_candidate_version context))
  && negb (bool_decide (rvc_previous_version context = rvc_candidate_version context))
  && negb (bool_decide (rvc_strategy context = RotationStrategy.Unspecified))
  && negb (is_empty (rvc_requested_by context)) && negb (is_empty (rvc_reason_code context))
  && (0 <? rvc_next_rotation_epoch context) && (0 <=? rvc_grace_period_sec context).

Record SecretRotationValidationDecision := {
  rvd_accepted : bool;
  rvd_reason_code : string;
  rvd_evidence_ref : string;
  rvd_rollback_ready : bool;
  rvd_result_code : option ResultCode;
  rvd_error_info : option ErrorInfo;
}.

Definition decision_success (reason_code evidence_ref : string) (rollback_ready : bool)
    : SecretRotationValidationDecision :=
  {| rvd_accepted := true; rvd_reason_code := reason_code; rvd_evidence_ref := evidence_ref;
     rvd_rollback_ready := rollback_ready; rvd_result_code := None; rvd_error_info := None |}.

Definition decision_failure (result_code : ResultCode)
    (reason_code evidence_ref message stage source_ref : string) (rollback_ready : bool)
    : SecretRotationValidationDecision :=
  {| rvd_accepted := false; rvd_reason_code := reason_code; rvd_evidence_ref := evidence_ref;
     rvd_rollback_ready := rollback_ready; rvd_result_code := Some result_code;
     rvd_error_info := Some (secret_error_info result_code message stage source_ref) |}.

Definition decision_valid (decision : SecretRotationValidationDecision) : bool :=
  if is_empty (rvd_reason_code decision) || is_empty (rvd_evidence_ref decision) then false else
  if rvd_accepted decision
  then bool_decide (rvd_result_code decision = None)
       && bool_decide (rvd_error_info decision = None)
  else bool_decide (rvd_result_code decision <> None)
       && bool_decide (rvd_error_info decision <> None)
       && contract_error_types (rvd_accepted decision) (rvd_result_code decision)
            (rvd_error_info decision).

(** [ISecretRotationValidator::validate_candidate] *)
Definition SecretRotationValidator :=
  SecretRotationValidationContext -> SecretRotationValidationDecision.

Definition allow_all_validator (evidence_prefix : string) : SecretRotationValidator := fun context =>
  if negb (validation_context_valid context)
  then decision_failure ResultCode.ValidationFieldMissing "validation_context_invalid"
         (evidence_prefix +:+ "invalid_context")
         "secret rotation validator requires a valid validation context"
         "secret.rotate.validate" "AllowAllSecretRotationValidator" false
  else decision_success "validation_passed"
         (evidence_prefix +:+ rvc_secret_name context +:+ "/" +:+ rvc_candidate_version context)
         (bool_decide (rvc_strategy context = RotationStrategy.DualSlot)).

(** ** The coordinator *)

Record SecretRotationCoordinatorOptions := {
  rco_dual_slot_enabled : bool;
  rco_validation_required : bool;
  rco_grace_period_sec : Z;
  rco_initial_rotation_epoch : Z;
  rco_detail_ref_prefix : string;
  rco_evidence_ref_prefix : string;
}.

Definition default_rotation_options : SecretRotationCoordinatorOptions :=
  {| rco_dual_slot_enabled := true; rco_validation_required := true;
     rco_grace_period_sec := 600; rco_initial_rotation_epoch := 1;
     rco_detail_ref_prefix := "status://secret/rotation/";
     rco_evidence_ref_prefix := "audit://secret/rotation/" |}.

Record RotationState := {
  rts_previous_version : string;
  rts_current_version : string;
  rts_rotation_epoch : Z;
  rts_validation_state : RotationValidationState;
  rts_revoke_pending : bool;
  rts_rollback_ready : bool;
  rts_grace_deadline_ms : Z;
}.

Record SecretRotationCoordinator := {
  src_options : SecretRotationCoordinatorOptions;
  src_validator : SecretRotationValidator;
  src_rotation_states : gmap string RotationState;
  src_rollback_failures : Z;
  src_last_error_code : option ResultCode;
  src_last_detail_ref : string;
}.

Definition new_coordinator (options : SecretRotationCoordinatorOptions)
    (validator : SecretRotationValidator) : SecretRotationCoordinator :=
  {| src_options := options; src_validator := validator; src_rotation_states := ∅;
     src_rollback_failures := 0; src_last_error_code := None;
     src_last_detail_ref := rco_detail_ref_prefix options +:+ "idle" |}.

Definition with_rotation_status (coordinator : SecretRotationCoordinator)
    (last_error_code : option ResultCode) (detail_suffix : string) : SecretRotationCoordinator :=
  {| src_options := src_options coordinator; src_validator := src_validator coordinator;
     src_rotation_states := src_rotation_states coordinator;
     src_rollback_failures := src_rollback_failures coordinator;
     src_last_error_code := last_error_code;
     src_last_detail_ref :=
       rco_detail_ref_prefix (src_options coordinator) +:+ detail_suffix |}.

Definition record_success (coordinator : SecretRotationCoordinator) (detail_suffix : string)
    : SecretRotationCoordinator := with_rotation_status coordinator None detail_suffix.

Definition record_failure (coordinator : SecretRotationCoordinator) (result_code : ResultCode)
    (detail_suffix : string) : SecretRotationCoordinator :=
  with_rotation_status coordinator (Some result_code) detail_suffix.

(** [rotation_states_[secret_name] = state] *)
Definition set_rotation_state (coordinator : SecretRotationCoordinator) (secret_name : string)
    (state : RotationState) : SecretRotationCoordinator :=
  {| src_options := src_options coordinator; src_validator := src_validator coordinator;
     src_rotation_states := <[secret_name := state]> (src_rotation_states coordinator);
     src_rollback_failures := src_rollback_failures coordinator;
     src_last_error_code := src_last_error_code coordinator;
     src_last_detail_ref := src_last_detail_ref coordinator |}.

(** [++rollback_failures_] *)
Definition count_rollback_failure (coordinator : SecretRotationCoordinator)
    : SecretRotationCoordinator :=
  {| src_options := src_options coordinator; src_validator := src_validator coordinator;
     src_rotation_states := src_rotation_states coordinator;
     src_rollback_failures := u64 (src_rollback_failures coordinator + 1);
     src_last_error_code := src_last_error_code coordinator;
     src_last_detail_ref := src_last_detail_ref coordinator |}.

Definition is_numeric_version (version : string) : bool :=
  match version with
  | String "v" (String _ _ as rest) => all_chars is_digit rest
  | _ => false
  end.

(** [version.substr(1)] *)
Definition version_number (version : string) : string :=
  match version with String _ rest => rest | EmptyString => "" end.

(** [None] where [std::stoull] throws: a number of more than 64 bits. *)
Definition derive_candidate_version (current_version : string) : option string :=
  if is_numeric_version current_version
  then match stoull (version_number current_version) with
       | Some number => Some ("v" +:+ to_string (u64 (number + 1)))
       | None => None
       end
  else Some (current_version +:+ ".candidate").

Definition next_rotation_epoch_for (coordinator : SecretRotationCoordinator)
    (secret_name : string) : Z :=
  let initial := rco_initial_rotation_epoch (src_options coordinator) in
  match src_rotation_states coordinator !! secret_name with
  | Some state =>
      if rts_rotation_epoch state <? initial then u64 (initial + 1)
      else u64 (rts_rotation_epoch state + 1)
  | None => u64 (initial + 1)
  end.

Definition make_validation_context (coordinator : SecretRotationCoordinator)
    (request : RotationRequest) (previous_version candidate_version : string)
    : SecretRotationValidationContext :=
  let options := src_options coordinator in
  {| rvc_secret_name := rrq_secret_name request;
     rvc_previous_version := previous_version;
     rvc_candidate_version := candidate_version;
     rvc_strategy := rrq_strategy request;
     rvc_requested_by := rrq_requested_by request;
     rvc_reason_code := rrq_reason_code request;
     rvc_validation_required := rco_validation_required options;
     rvc_dual_slot_enabled := rco_dual_slot_enabled options;
     rvc_next_rotation_epoch := next_rotation_epoch_for coordinator (rrq_secret_name request);
     rvc_grace_period_sec := rco_grace_period_sec options |}.

Definition make_rotation_query (secret_name : string) : SecretQuery :=
  {| sq_secret_name := secret_name; sq_version_hint := ""; sq_purpose := "rotate";
     sq_access_mode := SecretAccessMode.Rotate |}.

Definition extract_error_message (error_info : option ErrorInfo) (fallback_message : string)
    : string :=
  match error_info with
  | None => fallback_message
  | Some error_info =>
      if is_empty (ed_message (ei_details error_info)) then fallback_message
      else ed_message (ei_details error_info)
  end.

Definition kSecretRotationCoordinatorSourceRef : string := "SecretRotationCoordinator".

Definition set_validation_state (state : RotationValidationState) (result : RotationResult)
    : RotationResult :=
  {| rot_rotated := rot_rotated result; rot_secret_name := rot_secret_name result;
     rot_previous_version := rot_previous_version result;
     rot_current_version := rot_current_version result;
     rot_validation_state := state; rot_rollback_ready := rot_rollback_ready result;
     rot_evidence_ref := rot_evidence_ref result; rot_result_code := rot_result_code result;
     rot_error_info := rot_error_info result |}.

Definition make_rotation_failure (secret_name previous_version candidate_version : string)
    (error_code : SecretErrorCode) (message stage evidence_ref : string)
    (validation_state : RotationValidationState) (rollback_ready : bool) : RotationResult :=
  set_validation_state validation_state
    (rotation_failure secret_name previous_version candidate_version evidence_ref
       (secret_result_code error_code) (secret_message error_code message) stage
       kSecretRotationCoordinatorSourceRef rollback_ready).

(** ** A rotation *)

Section Rotation.
Context {B : Type} `{SecretBackend B}.
Implicit Types (backend : B) (coordinator : SecretRotationCoordinator).

Definition rollback coordinator backend
    (secret_name previous_version candidate_version : string) (rotation_epoch : Z)
    (trigger_message : string) : B * SecretRotationCoordinator * RotationResult :=
  let options := src_options coordinator in
  let rollback_request :=
    {| pmr_secret_name := secret_name;
       pmr_previous_version := candidate_version;
       pmr_candidate_version := previous_version;
       pmr_rotation_epoch :=
         Z.max (u64 (rco_initial_rotation_epoch options + 1)) (u64 (rotation_epoch + 1));
       pmr_validate_only := false |} in
  let '(backend, rolled_back) := promote_version backend rollback_request in
  if negb (rot_rotated rolled_back)
  then
    let coordinator := set_rotation_state (count_rollback_failure coordinator) secret_name
      {| rts_previous_version := previous_version; rts_current_version := candidate_version;
         rts_rotation_epoch := rotation_epoch;
         rts_validation_state := RotationValidationState.Failed;
         rts_revoke_pending := false; rts_rollback_ready := false;
         rts_grace_deadline_ms := 0 |} in
    (backend,
     record_failure coordinator (secret_result_code SecretErrorCode.RotationRollbackFailed)
       "rollback_failed",
     make_rotation_failure secret_name previous_version candidate_version
       SecretErrorCode.RotationRollbackFailed trigger_message "secret.rotate.rollback"
       (rco_evidence_ref_prefix options +:+ "rollback_failed/" +:+ secret_name)
       RotationValidationState.Failed false)
  else
    let coordinator := set_rotation_state coordinator secret_name
      {| rts_previous_version := candidate_version; rts_current_version := previous_version;
         rts_rotation_epoch := pmr_rotation_epoch rollback_request;
         rts_validation_state := RotationValidationState.RolledBack;
         rts_revoke_pending := false; rts_rollback_ready := false;
         rts_grace_deadline_ms := 0 |} in
    (backend,
     record_failure coordinator (secret_result_code SecretErrorCode.RotationValidationFailed)
       "rolled_back",
     make_rotation_failure secret_name previous_version candidate_version
       SecretErrorCode.RotationValidationFailed trigger_message "secret.rotate.rollback"
       (rco_evidence_ref_prefix options +:+ "rolled_back/" +:+ secret_name)
       RotationValidationState.RolledBack false).

(** From the promotion on. *)
Definition promote_candidate coordinator backend (request : RotationRequest)
    (previous_version candidate_version : string) (now_ms : Z)
    : B * SecretRotationCoordinator * RotationResult :=
  let options := src_options coordinator in
  let secret_name := rrq_secret_name request in
  let rotation_epoch := next_rotation_epoch_for coordinator secret_name in
  let '(backend, promoted) := promote_version backend
    {| pmr_secret_name := secret_name; pmr_previous_version := previous_version;
       pmr_candidate_version := candidate_version; pmr_rotation_epoch := rotation_epoch;
       pmr_validate_only := false |} in
  if negb (rot_rotated promoted)
  then (backend,
        record_failure coordinator
          (default ResultCode.ToolExecutionFailed (rot_result_code promoted)) "promote_failed",
        promoted) else
  let state := fun revoke_pending grace_deadline_ms =>
    {| rts_previous_version := previous_version; rts_current_version := candidate_version;
       rts_rotation_epoch := rotation_epoch;
       rts_validation_state := RotationValidationState.Succeeded;
       rts_revoke_pending := revoke_pending; rts_rollback_ready := revoke_pending;
       rts_grace_deadline_ms := grace_deadline_ms |} in
  if bool_decide (rrq_strategy request = RotationStrategy.DualSlot)
     && (0 <? rco_grace_period_sec options)
  then (backend,
        record_success
          (set_rotation_state coordinator secret_name
             (state true (now_ms + rco_grace_period_sec options * 1000))) "grace_backlog",
        rotation_success secret_name previous_version candidate_version
          (rot_evidence_ref promoted) true) else
  let '(backend, revoked) := revoke_version backend secret_name previous_version in
  if negb (so_ok revoked)
  then rollback coordinator backend secret_name previous_version candidate_version
         rotation_epoch
         (extract_error_message (so_error_info revoked)
            "secret backend revoke failed after promote")
  else (backend,
        record_success (set_rotation_state coordinator secret_name (state false 0)) "ready",
        rotation_success secret_name previous_version candidate_version
          (rot_evidence_ref promoted) false).

(** What the coordinator asks before it promotes. *)
Definition validation_decision coordinator (request : RotationRequest)
    (context : SecretRotationValidationContext) : SecretRotationValidationDecision :=
  let options := src_options coordinator in
  if rco_validation_required options then src_validator coordinator context
  else decision_success "validation_skipped"
         (rco_evidence_ref_prefix options +:+ "validation/skipped/" +:+ rrq_secret_name request)
         (bool_decide (rrq_strategy request = RotationStrategy.DualSlot)).

(** The result is [None] where [rotate] ends by the exception of
    [derive_candidate_version]. *)
Definition rotate coordinator backend (request : RotationRequest) (now_ms : Z)
    : B * SecretRotationCoordinator * option RotationResult :=
  let options := src_options coordinator in
  let secret_name := rrq_secret_name request in
  let evidence := fun suffix => rco_evidence_ref_prefix options +:+ suffix in
  let fail := fun previous candidate suffix result_code message stage =>
    rotation_failure secret_name previous candidate (evidence suffix) result_code message stage
      kSecretRotationCoordinatorSourceRef false in
  if negb (rotation_request_valid request)
  then (backend, record_failure coordinator ResultCode.ValidationFieldMissing "invalid_request",
        Some (fail "" "" "invalid_request" ResultCode.ValidationFieldMissing
                "secret rotation coordinator requires a valid rotation request"
                "secret.rotate")) else
  if bool_decide (rrq_strategy request = RotationStrategy.DualSlot)
     && negb (rco_dual_slot_enabled options)
  then (backend,
        record_failure coordinator
          (secret_result_code SecretErrorCode.RotationValidationFailed) "dual_slot_disabled",
        Some (make_rotation_failure secret_name "" "" SecretErrorCode.RotationValidationFailed
                "dual-slot rotation is disabled by the current secret rotation options"
                "secret.rotate.validate" (evidence "validation/dual_slot_disabled")
                RotationValidationState.Failed false)) else
  let '(backend, fetched) := fetch_record backend (make_rotation_query secret_name) in
  if negb (so_ok fetched)
  then
    let result_code := default ResultCode.ProviderTimeout (so_result_code fetched) in
    (backend, record_failure coordinator result_code "fetch_failed",
     Some (fail "" "" ("fetch_failed/" +:+ secret_name) result_code
             (extract_error_message (so_error_info fetched)
                "secret backend fetch failed during rotate") "secret.rotate.fetch")) else
  let previous_version := sbr_version (so_payload fetched) in
  let? candidate_version := derive_candidate_version previous_version
    else (backend, coordinator, None) in
  let context := make_validation_context coordinator request previous_version candidate_version in
  if negb (validation_context_valid context)
  then (backend,
        record_failure coordinator ResultCode.ValidationFieldMissing "invalid_validation_context",
        Some (fail previous_version candidate_version
                ("validation/invalid_context/" +:+ secret_name)
                ResultCode.ValidationFieldMissing
                "secret rotation validation context is incomplete" "secret.rotate.validate")) else
  let validation := validation_decision coordinator request context in
  if negb (decision_valid validation)
  then (backend,
        record_failure coordinator
          (secret_result_code SecretErrorCode.RotationValidationFailed)
          "validator_contract_invalid",
        Some (make_rotation_failure secret_name previous_version candidate_version
                SecretErrorCode.RotationValidationFailed
                "rotation validator returned an invalid decision payload"
                "secret.rotate.validate" (evidence ("validation/invalid_payload/" +:+ secret_name))
                RotationValidationState.Failed false)) else
  if negb (rvd_accepted validation)
  then (backend,
        record_failure
          (set_rotation_state coordinator secret_name
             {| rts_previous_version := previous_version;
                rts_current_version := previous_version;
                rts_rotation_epoch := next_rotation_epoch_for coordinator secret_name;
                rts_validation_state := RotationValidationState.Failed;
                rts_revoke_pending := false;
                rts_rollback_ready := rvd_rollback_ready validation;
                rts_grace_deadline_ms := 0 |})
          (secret_result_code SecretErrorCode.RotationValidationFailed) "validation_failed",
        Some (make_rotation_failure secret_name previous_version candidate_version
                SecretErrorCode.RotationValidationFailed
                (rvd_reason_code validation +:+ ": " +:+
                 extract_error_message (rvd_error_info validation)
                   "rotation validator rejected the candidate version")
                "secret.rotate.validate" (rvd_evidence_ref validation)
                RotationValidationState.Failed (rvd_rollback_ready validation))) else
  if rrq_validate_only request
  then (backend, record_success coordinator "validate_only",
        Some (rotation_success secret_name previous_version candidate_version
                (rvd_evidence_ref validation) (rvd_rollback_ready validation))) else
  let '(backend, coordinator, result) :=
    promote_candidate coordinator backend request previous_version candidate_version now_ms in
  (backend, coordinator, Some result).
End Rotation.

Record SecretRotationCoordinatorStatus := {
  rcs_rotation_backlog : Z;
  rcs_rollback_failures : Z;
  rcs_degraded : bool;
  rcs_last_error_code : option ResultCode;
  rcs_detail_ref : string;
}.

Definition get_status (coordinator : SecretRotationCoordinator) : SecretRotationCoordinatorStatus :=
  let backlog := Z.of_nat (size (filter (fun kv => rts_revoke_pending kv.2 = true)
                                   (src_rotation_states coordinator))) in
  {| rcs_rotation_backlog := backlog;
     rcs_rollback_failures := src_rollback_failures coordinator;
     rcs_degraded := (0 <? backlog) || (0 <? src_rollback_failures coordinator)
       || bool_decide (src_last_error_code coordinator <> None);
     rcs_last_error_code := src_last_error_code coordinator;
     rcs_detail_ref :=
       if is_empty (src_last_detail_ref coordinator)
       then rco_detail_ref_prefix (src_options coordinator) +:+ "idle"
       else src_last_detail_ref coordinator |}.

(** ** Properties *)

Lemma app_not_self (s1 s2 : string) : s2 <> "" -> s1 +:+ s2 <> s1.
Proof.
  intros Hne H. apply (f_equal String.length) in H. rewrite string_length_app in H.
  destruct s2; [done|]. simpl in H. lia.
Qed.

(** The candidate is another version, also where the number wraps around. *)
Lemma candidate_differs version candidate :
  derive_candidate_version version = Some candidate -> version <> candidate /\ candidate <> "".
Proof.
  unfold derive_candidate_version. destruct (is_numeric_version version) eqn:Hv.
  - destruct (stoull (version_number version)) as [number|] eqn:En; [|done]. intros [= <-].
    split; [|done]. intros ->. cbn [version_number String.append] in En.
    change (stoull (to_string (u64 (number + 1))) = Some number) in En.
    rewrite stoull_to_string in En by apply u64_in. injection En as En.
    assert (in_u64 number) by (rewrite <- En; apply u64_in).
    unfold u64, in_u64 in *. Z.to_euclidean_division_equations. lia.
  - intros [= <-]. split; [|by destruct version].
    intros Heq. by apply (app_not_self version ".candidate").
Qed.

(** The epoch of a rotation is above that of the one before, below 2{^64}. *)
Lemma epoch_increases coordinator secret_name state :
  src_rotation_states coordinator !! secret_name = Some state ->
  0 <= rts_rotation_epoch state < 2 ^ 64 - 1 ->
  0 <= rco_initial_rotation_epoch (src_options coordinator) < 2 ^ 64 - 1 ->
  rts_rotation_epoch state < next_rotation_epoch_for coordinator secret_name.
Proof.
  intros E Hs Hi. unfold next_rotation_epoch_for. rewrite E.
  case_match; reflect_tests; rewrite u64_id; unfold in_u64; lia.
Qed.

Section Atomic.
Context {B : Type} `{SecretBackendLaws B}.
Implicit Types (backend : B) (coordinator : SecretRotationCoordinator).

(** What a rotation of [secret_name] to [candidate] may leave behind, by its result. *)
Definition rotation_left backend coordinator backend' coordinator' (secret_name : string)
    (result : RotationResult) : Prop :=
  if rot_rotated result then
    held_version backend secret_name = Some (rot_previous_version result) /\
    forall name, held_version backend' name =
      if bool_decide (name = secret_name) then Some (rot_current_version result)
      else held_version backend name
  else
    (forall name, held_version backend' name = held_version backend name) \/
    (* the rollback failed as well *)
    (src_rollback_failures coordinator' = u64 (src_rollback_failures coordinator + 1) /\
     rot_result_code result = Some ResultCode.RuntimeRetryExhausted /\
     forall name, held_version backend' name =
       if bool_decide (name = secret_name) then Some (rot_current_version result)
       else held_version backend name).

Lemma rollback_left coordinator backend secret_name previous candidate epoch message backend0 :
  held_version backend0 secret_name = Some previous ->
  (forall name, held_version backend name =
     if bool_decide (name = secret_name) then Some candidate else held_version backend0 name) ->
  let '(backend', coordinator', result) :=
    rollback coordinator backend secret_name previous candidate epoch message in
  rotation_left backend0 coordinator backend' coordinator' secret_name result.
Proof.
  intros Hp0 Hb. unfold rollback.
  set (request := {| pmr_secret_name := secret_name |}).
  destruct (promote_version backend request) as [backend' rolled_back] eqn:E.
  destruct (rot_rotated rolled_back) eqn:Hr; cbn.
  - left. intros name.
    pose proof (promote_done backend request) as Hd. rewrite E in Hd.
    rewrite (Hd Hr eq_refl). cbn.
    destruct (bool_decide_reflect (name = secret_name)) as [->|Hne]; [done|].
    by rewrite Hb, bool_decide_false.
  - right. split_and!; [done..|]. intros name.
    pose proof (promote_refused backend request) as Hd. rewrite E in Hd. cbn in Hd.
    by rewrite Hd.
Qed.

Lemma promote_candidate_left coordinator backend request previous candidate now_ms :
  previous <> candidate -> held_version backend (rrq_secret_name request) = Some previous ->
  let '(backend', coordinator', result) :=
    promote_candidate coordinator backend request previous candidate now_ms in
  rotation_left backend coordinator backend' coordinator' (rrq_secret_name request) result.
Proof.
  intros Hne Hheld. unfold promote_candidate.
  set (promotion := {| pmr_secret_name := rrq_secret_name request |}).
  pose proof (promote_refused backend promotion) as Hrefused.
  pose proof (promote_done backend promotion) as Hdone.
  destruct (promote_version backend promotion) as [promoted_backend promoted].
  destruct (rot_rotated promoted) eqn:Hr; cbn in *.
  2: { unfold rotation_left. rewrite Hr. left. intros name. by rewrite Hrefused. }
  specialize (Hdone Hr eq_refl).
  destruct (bool_decide _ && _); [cbn; by split|].
  pose proof (revoke_refused promoted_backend (rrq_secret_name request) previous) as Hno.
  pose proof (revoke_others promoted_backend (rrq_secret_name request) previous) as Hothers.
  destruct (revoke_version _ _ _) as [revoked_backend revoked]. cbn in *.
  destruct (so_ok revoked); cbn.
  - split; [done|]. intros name. rewrite Hothers, Hdone; [done|].
    right. rewrite Hdone, bool_decide_true by done. congruence.
  - apply rollback_left; [done|]. intros name. by rewrite Hno.
Qed.

(** C30. A rotation of a secret either ends with the backend at the version it reports, or
    leaves the backend as it was; where it fails otherwise, the rollback after a promotion
    failed as well, which the status counts. A rotation that only validates, and one that
    ends by an exception, changes nothing. *)
Theorem rotation_atomic coordinator backend request now_ms :
  backend_ok backend ->
  let '(backend', coordinator', result) := rotate coordinator backend request now_ms in
  match result with
  | None => forall name, held_version backend' name = held_version backend name
  | Some result =>
      if rrq_validate_only request
      then forall name, held_version backend' name = held_version backend name
      else rotation_left backend coordinator backend' coordinator' (rrq_secret_name request) result
  end.
Proof.
  intros Hok. unfold rotate.
  destruct (negb (rotation_request_valid request)).
  { cbn. destruct (rrq_validate_only request); [done|]. by left. }
  destruct (bool_decide _ && _).
  { cbn. destruct (rrq_validate_only request); [done|]. by left. }
  pose proof (fetch_keeps backend (make_rotation_query (rrq_secret_name request))) as Hkeep.
  pose proof (fetch_holds backend (make_rotation_query (rrq_secret_name request)) Hok) as Hheld.
  destruct (fetch_record _ _) as [fetched_backend fetched]. cbn in Hkeep, Hheld.
  assert (Hsame : forall name, held_version fetched_backend name = held_version backend name)
    by (intros; by rewrite Hkeep).
  destruct (so_ok fetched); cbn.
  2: { destruct (rrq_validate_only request); [done|]. by left. }
  destruct (Hheld eq_refl) as (Hv & _ & _). cbn in Hv.
  destruct (derive_candidate_version _) as [candidate|] eqn:Hc; cbn; [|done].
  apply candidate_differs in Hc as [Hne _].
  set (context := make_validation_context _ _ _ _).
  destruct (negb (validation_context_valid context)).
  { cbn. destruct (rrq_validate_only request); [done|]. by left. }
  destruct (negb (decision_valid _)).
  { cbn. destruct (rrq_validate_only request); [done|]. by left. }
  destruct (negb (rvd_accepted _)).
  { cbn. destruct (rrq_validate_only request); [done|]. by left. }
  destruct (rrq_validate_only request); [done|].
  rewrite <- Hsame in Hv.
  pose proof (promote_candidate_left coordinator fetched_backend request _ candidate now_ms Hne Hv)
    as Hleft.
  destruct (promote_candidate _ _ _ _ _ _) as [[backend' coordinator'] result].
  unfold rotation_left in *. destruct (rot_rotated result).
  - destruct Hleft as [Hp Hh]. split; [by rewrite <- Hsame|]. intros name. by rewrite Hh, Hsame.
  - destruct Hleft as [Hh|(Hf & Hcode & Hh)]; [left|right; split_and!; [done..|]];
      intros name; by rewrite Hh, Hsame.
Qed.
End Atomic.

(** ** In place

    An in-place rotation promotes the candidate and then revokes the version before it. The
    backend in memory revokes the version it holds only, which is the candidate by then: the
    rotation is rolled back. The backend in files promotes nothing. *)
Lemma memory_never_rotates_in_place (backend : MockSecretBackend) coordinator request now_ms result :
  mock_ok backend -> rrq_strategy request = RotationStrategy.InPlace ->
  rrq_validate_only request = false ->
  (rotate coordinator backend request now_ms).2 = Some result -> rot_rotated result = false.
Proof.
  intros Hok Hs Hvo. unfold rotate. rewrite Hs, Hvo.
  destruct (negb (rotation_request_valid request)); [by intros [= <-]|]. cbn [bool_decide].
  rewrite bool_decide_false by done. cbn [andb].
  destruct (fetch_record _ _) as [fetched_backend fetched] eqn:Ef.
  destruct (negb (so_ok fetched)); [by intros [= <-]|].
  destruct (derive_candidate_version _) as [candidate|] eqn:Hc; [|done].
  apply candidate_differs in Hc as [Hne _].
  destruct (negb (validation_context_valid _)); [by intros [= <-]|].
  destruct (negb (decision_valid _)); [by intros [= <-]|].
  destruct (negb (rvd_accepted _)); [by intros [= <-]|].
  unfold promote_candidate. rewrite Hs, bool_decide_false by done. cbn [andb].
  set (promotion := {| pmr_secret_name := rrq_secret_name request |}).
  pose proof (promote_done fetched_backend promotion) as Hdone.
  destruct (promote_version _ _) as [promoted_backend promoted].
  destruct (rot_rotated promoted) eqn:Hr; cbn [negb]; [|by intros [= <-]].
  pose proof (Hdone Hr eq_refl (rrq_secret_name request)) as Hheld. cbn in Hheld.
  rewrite bool_decide_true in Hheld by done.
  pose proof (mock_revoked_held promoted_backend (rrq_secret_name request)
    (sbr_version (so_payload fetched))) as Hrev.
  change mock_revoke_version with (revoke_version (B := MockSecretBackend)) in Hrev.
  destruct (revoke_version _ _ _) as [revoked_backend revoked]. cbn in Hrev.
  destruct (so_ok revoked); cbn [negb].
  { specialize (Hrev eq_refl). congruence. }
  unfold rollback. destruct (promote_version _ _) as [? rolled_back].
  destruct (negb (rot_rotated rolled_back)); by intros [= <-].
Qed.

Lemma files_never_rotate (backend : FileSecretBackend) coordinator request now_ms result :
  rrq_validate_only request = false ->
  (rotate coordinator backend request now_ms).2 = Some result -> rot_rotated result = false.
Proof.
  intros Hvo. unfold rotate. rewrite Hvo.
  destruct (negb (rotation_request_valid request)); [by intros [= <-]|].
  destruct (bool_decide _ && _); [by intros [= <-]|].
  destruct (fetch_record _ _) as [fetched_backend fetched] eqn:Ef.
  destruct (negb (so_ok fetched)); [by intros [= <-]|].
  destruct (derive_candidate_version _) as [candidate|] eqn:Hc; [|done].
  destruct (negb (validation_context_valid _)); [by intros [= <-]|].
  destruct (negb (decision_valid _)); [by intros [= <-]|].
  destruct (negb (rvd_accepted _)); [by intros [= <-]|].
  unfold promote_candidate. set (promotion := {| pmr_secret_name := rrq_secret_name request |}).
  pose proof (proj2 (file_promote_same fetched_backend promotion)) as Hno.
  change (file_promote_version fetched_backend promotion)
    with (promote_version fetched_backend promotion) in Hno.
  destruct (promote_version _ _) as [? promoted]. cbn in Hno. rewrite Hno. by intros [= <-].
Qed.

(** ** A sample *)

Definition sample_record : MockSecretRecord :=
  {| msr_record :=
       {| sbr_descriptor :=
            {| sd_secret_name := "llm/token"; sd_backend_type := SecretBackendType.Mock;
               sd_classification := SecretClassification.Token;
               sd_rotation_policy_ref := "rotation/manual"; sd_owner_ref := "llm-config" |};
          sbr_backend_ref := "mock.primary"; sbr_version := "v1"; sbr_cipher_ref := "cipher://1";
          sbr_encrypted_at_rest := true |};
     msr_materialized_text := "s3cret";
     msr_allowed_permission_domains := [] |}.

Definition sample_memory : MockSecretBackend :=
  upsert_secret
    {| msb_options :=
         {| mbo_backend_ref := "mock.primary"; mbo_available := true; mbo_rate_limited := false;
            mbo_read_only_fallback_ready := true; mbo_lease_duration_ms := 60000;
            mbo_rotation_epoch := 1 |};
       msb_records := ∅; msb_last_error_code := None |} sample_record.

Definition sample_coordinator : SecretRotationCoordinator :=
  new_coordinator default_rotation_options
    (allow_all_validator "audit://secret/rotation/validation/").

Definition sample_rotation (strategy : RotationStrategy) : RotationRequest :=
  {| rrq_secret_name := "llm/token"; rrq_requested_by := "operator";
     rrq_reason_code := "scheduled"; rrq_strategy := strategy; rrq_validate_only := false |}.

Lemma sample_memory_ok : mock_ok sample_memory.
Proof.
  apply mock_upsert_ok. intros name held H. cbn [msb_records] in H. by rewrite lookup_empty in H.
Qed.

Lemma rotation_atomic_witness :
  backend_ok sample_memory /\
  let '(backend', coordinator', result) :=
    rotate sample_coordinator sample_memory (sample_rotation RotationStrategy.DualSlot) 1000 in
  (exists rotated, result = Some rotated /\ rot_rotated rotated = true /\
     rotation_left sample_memory sample_coordinator backend' coordinator' "llm/token" rotated) /\
  held_version backend' "llm/token" = Some "v2" /\
  rcs_rotation_backlog (get_status coordinator') = 1.
Proof.
  pose proof (rotation_atomic sample_coordinator sample_memory
    (sample_rotation RotationStrategy.DualSlot) 1000 sample_memory_ok) as H.
  split; [exact sample_memory_ok|].
  destruct (rotate _ _ _ _) as [[backend' coordinator'] result] eqn:E.
  vm_compute in E. injection E as <- <- <-.
  split_and!; [eexists; split_and!; [reflexivity|reflexivity|exact H]|vm_compute; reflexivity..].
Defined.

(** In place, the same secret stays at its version, and the status is degraded. *)
Example in_place_rolled_back :
  let '(backend', coordinator', result) :=
    rotate sample_coordinator sample_memory (sample_rotation RotationStrategy.InPlace) 1000 in
  rot_validation_state <$> result = Some RotationValidationState.RolledBack /\
  held_version backend' "llm/token" = Some "v1" /\ rcs_degraded (get_status coordinator') = true.
Proof. vm_compute. done. Qed.

(** A rotation that only validates reports that the secret was rotated. *)
Example validate_only_reports_rotation :
  let '(backend', _, result) :=
    rotate sample_coordinator sample_memory
      {| rrq_secret_name := "llm/token"; rrq_requested_by := "operator";
         rrq_reason_code := "check"; rrq_strategy := RotationStrategy.DualSlot;
         rrq_validate_only := true |} 1000 in
  (rot_rotated <$> result, rot_current_version <$> result) = (Some true, Some "v2") /\
  held_version backend' "llm/token" = Some "v1".
Proof. vm_compute. done. Qed.
