(* ===== verification/SecretManager.v ===== *)
(** * The secret manager

    infra/src/secret/SecretManagerFacade.cpp: handles, leases, rotation and revocation over a
    backend. The clock is an argument, once for each time a call reads it. *)

From S2P Require Import Prelude Text ErrorCodes CheckpointContracts RecoveryContracts SecretTypes SecretLeases SecretBackends SecretRotation.

(** ** The facade *)

Record SecretManagerFacadeOptions := {
  smo_handle_ttl_ms : Z;
  smo_redaction_prefix : string;
  smo_dual_slot_enabled : bool;
  smo_rotation_validation_required : bool;
  smo_rotation_grace_period_sec : Z;
}.

Definition default_manager_options : SecretManagerFacadeOptions :=
  {| smo_handle_ttl_ms := 60000; smo_redaction_prefix := "redacted://secret/";
     smo_dual_slot_enabled := true; smo_rotation_validation_required := true;
     smo_rotation_grace_period_sec := 600 |}.

Record CachedSecretMetadata := {
  csm_descriptor : SecretDescriptor;
  csm_version : string;
  csm_backend_ref : string;
}.

Definition kSecretManagerFacadeSourceRef : string := "SecretManagerFacade".

Definition make_rotation_options (options : SecretManagerFacadeOptions)
    : SecretRotationCoordinatorOptions :=
  {| rco_dual_slot_enabled := smo_dual_slot_enabled options;
     rco_validation_required := smo_rotation_validation_required options;
     rco_grace_period_sec := smo_rotation_grace_period_sec options;
     rco_initial_rotation_epoch := rco_initial_rotation_epoch default_rotation_options;
     rco_detail_ref_prefix := rco_detail_ref_prefix default_rotation_options;
     rco_evidence_ref_prefix := rco_evidence_ref_prefix default_rotation_options |}.

Definition default_validator : SecretRotationValidator :=
  allow_all_validator "audit://secret/rotation/validation/".

Definition make_handle (record : SecretBackendRecord) (options : SecretManagerFacadeOptions)
    (issued_at_ms : Z) : SecretHandle :=
  let secret_name := sd_secret_name (sbr_descriptor record) in
  {| sh_handle_id := "secret-handle://" +:+ secret_name +:+ "/" +:+ sbr_version record;
     sh_secret_name := secret_name;
     sh_version := sbr_version record;
     sh_backend_ref := sbr_backend_ref record;
     sh_issued_at_ms := issued_at_ms;
     sh_expires_at_ms := issued_at_ms + Z.max 1 (smo_handle_ttl_ms options);
     sh_redaction_hint := smo_redaction_prefix options +:+ secret_name |}.

Definition make_query (secret_name purpose : string) (access_mode : SecretAccessMode) : SecretQuery :=
  {| sq_secret_name := secret_name; sq_version_hint := ""; sq_purpose := purpose;
     sq_access_mode := access_mode |}.

Definition cached_metadata (record : SecretBackendRecord) : CachedSecretMetadata :=
  {| csm_descriptor := sbr_descriptor record; csm_version := sbr_version record;
     csm_backend_ref := sbr_backend_ref record |}.

Lemma make_handle_valid record now_ms :
  backend_record_valid record = true -> 0 < now_ms ->
  handle_valid (make_handle record default_manager_options now_ms) = true.
Proof.
  intros Hr Hn. unfold backend_record_valid, secret_descriptor_valid in Hr.
  apply andb_true_iff in Hr as [[[[[[[H1 _]%andb_true_iff _]%andb_true_iff _]%andb_true_iff
    _]%andb_true_iff H2]%andb_true_iff H3]%andb_true_iff _].
  unfold handle_valid. cbn [sh_handle_id sh_secret_name sh_version sh_backend_ref sh_issued_at_ms
    sh_expires_at_ms sh_redaction_hint make_handle smo_handle_ttl_ms default_manager_options].
  rewrite H1, H2, H3, (proj2 (Z.ltb_lt _ _) Hn), (proj2 (Z.leb_le _ _)) by lia. done.
Qed.

Section Manager.
Context {B : Type} `{SecretBackend B}.

Record SecretManagerFacade := {
  smf_backend : option B;
  smf_options : SecretManagerFacadeOptions;
  smf_lease_registry : SecretLeaseRegistry;
  smf_rotation_coordinator : SecretRotationCoordinator;
  smf_cached_secrets : gmap string CachedSecretMetadata;
}.
Implicit Types manager : SecretManagerFacade.

Definition new_secret_manager (backend : option B) (options : SecretManagerFacadeOptions)
    : SecretManagerFacade :=
  {| smf_backend := backend; smf_options := options;
     smf_lease_registry := new_lease_registry default_lease_options;
     smf_rotation_coordinator := new_coordinator (make_rotation_options options) default_validator;
     smf_cached_secrets := ∅ |}.

Definition set_backend manager (backend : option B) : SecretManagerFacade :=
  {| smf_backend := backend; smf_options := smf_options manager;
     smf_lease_registry := smf_lease_registry manager;
     smf_rotation_coordinator := smf_rotation_coordinator manager;
     smf_cached_secrets := smf_cached_secrets manager |}.

Definition with_lease_registry manager (registry : SecretLeaseRegistry) : SecretManagerFacade :=
  {| smf_backend := smf_backend manager; smf_options := smf_options manager;
     smf_lease_registry := registry;
     smf_rotation_coordinator := smf_rotation_coordinator manager;
     smf_cached_secrets := smf_cached_secrets manager |}.

Definition with_coordinator manager (coordinator : SecretRotationCoordinator)
    : SecretManagerFacade :=
  {| smf_backend := smf_backend manager; smf_options := smf_options manager;
     smf_lease_registry := smf_lease_registry manager;
     smf_rotation_coordinator := coordinator;
     smf_cached_secrets := smf_cached_secrets manager |}.

Definition with_cache manager (cached_secrets : gmap string CachedSecretMetadata)
    : SecretManagerFacade :=
  {| smf_backend := smf_backend manager; smf_options := smf_options manager;
     smf_lease_registry := smf_lease_registry manager;
     smf_rotation_coordinator := smf_rotation_coordinator manager;
     smf_cached_secrets := cached_secrets |}.

Definition set_rotation_validator manager (validator : option SecretRotationValidator)
    : SecretManagerFacade :=
  let coordinator := smf_rotation_coordinator manager in
  with_coordinator manager
    {| src_options := src_options coordinator;
       src_validator := default default_validator validator;
       src_rotation_states := src_rotation_states coordinator;
       src_rollback_failures := src_rollback_failures coordinator;
       src_last_error_code := src_last_error_code coordinator;
       src_last_detail_ref := src_last_detail_ref coordinator |}.

Definition has_cached_descriptor manager (secret_name : string) : bool :=
  bool_decide (is_Some (smf_cached_secrets manager !! secret_name)).

(** The backend, where [backend_ready()]. *)
Definition ready_backend manager : option B :=
  let? backend := smf_backend manager else None in
  if bool_decide (sbs_state (get_backend_status backend) = SecretBackendState.Unavailable)
  then None else Some backend.

(** [cached_secrets_[record.descriptor.secret_name] = ...] *)
Definition cache_record manager (record : SecretBackendRecord) : SecretManagerFacade :=
  with_cache manager
    (<[sd_secret_name (sbr_descriptor record) := cached_metadata record]>
       (smf_cached_secrets manager)).

Definition get_secret manager (query : SecretQuery) (access_context : SecretAccessContext)
    (now_ms : Z) : SecretManagerFacade * SecretHandleResult :=
  let fail := fun result_code message =>
    outcome_failure empty_handle result_code message "secret.get_secret"
      kSecretManagerFacadeSourceRef in
  if negb (query_valid query) || negb (access_context_valid access_context)
  then (manager, fail ResultCode.ValidationFieldMissing
          "secret manager requires a valid query and access context before get_secret") else
  let? backend := ready_backend manager
    else (manager, fail (secret_result_code SecretErrorCode.BackendUnavailable)
            (secret_message SecretErrorCode.BackendUnavailable
               "secret backend is unavailable for get_secret")) in
  let '(backend, fetched) := fetch_record backend query in
  let manager := set_backend manager (Some backend) in
  if negb (so_ok fetched)
  then (manager, fail (default ResultCode.ProviderTimeout (so_result_code fetched))
          (extract_error_message (so_error_info fetched)
             "secret backend fetch failed during get_secret")) else
  (cache_record manager (so_payload fetched),
   outcome_success (make_handle (so_payload fetched) (smf_options manager) now_ms)).

Definition materialize manager (handle : SecretHandle) (access_context : SecretAccessContext)
    (now_ms backend_ms lease_ms : Z) : SecretManagerFacade * SecretMaterializationResult :=
  let fail := fun result_code message =>
    materialization_failure result_code message "secret.materialize"
      kSecretManagerFacadeSourceRef in
  let fail_as := fun error_code message =>
    fail (secret_result_code error_code) (secret_message error_code message) in
  if negb (handle_valid handle) || negb (access_context_valid access_context)
  then (manager, fail ResultCode.ValidationFieldMissing
          "secret manager requires a valid handle and access context before materialize") else
  let? backend := ready_backend manager
    else (manager, fail_as SecretErrorCode.BackendUnavailable
            "secret backend is unavailable for materialize") in
  if sh_expires_at_ms handle <? now_ms
  then (manager, fail_as SecretErrorCode.LeaseExpired
          "secret handle expired before materialize") else
  let '(backend, fetched) := fetch_record backend
    (make_query (sh_secret_name handle) "materialize" SecretAccessMode.Materialize) in
  let manager := set_backend manager (Some backend) in
  if negb (so_ok fetched)
  then (manager, fail (default ResultCode.ProviderTimeout (so_result_code fetched))
          (extract_error_message (so_error_info fetched)
             "secret backend fetch failed during materialize")) else
  if negb (bool_decide (sbr_version (so_payload fetched) = sh_version handle))
  then (manager, fail_as SecretErrorCode.VersionStale
          "secret handle version is stale and must be reacquired before materialize") else
  let '(backend, materialized) :=
    materialize_record backend (so_payload fetched) access_context backend_ms in
  let manager := set_backend manager (Some backend) in
  if negb (so_ok materialized)
  then (manager, fail (default ResultCode.ToolExecutionFailed (so_result_code materialized))
          (extract_error_message (so_error_info materialized)
             "secret backend materialization failed")) else
  let backend_lease := (so_payload materialized).2 in
  let '(registry, lease_result) :=
    create_lease (smf_lease_registry manager) handle (sac_consumer_module access_context)
      (sl_rotation_epoch backend_lease)
      (Some (Z.min (sh_expires_at_ms handle) (sl_expires_at_ms backend_lease))) lease_ms in
  let manager := with_lease_registry manager registry in
  if negb (so_ok lease_result)
  then (manager, fail (default ResultCode.RuntimeRetryExhausted (so_result_code lease_result))
          (extract_error_message (so_error_info lease_result)
             "secret lease registry rejected the materialized handle")) else
  (cache_record manager (so_payload fetched),
   outcome_success ((so_payload materialized).1, so_payload lease_result)).

Definition release manager (lease : SecretLease) (now_ms : Z)
    : SecretManagerFacade * SecretLifecycleResult :=
  let '(registry, result) := release_lease (smf_lease_registry manager) lease now_ms in
  (with_lease_registry manager registry, result).

Definition manager_rotation_failure (secret_name evidence_ref : string) (result_code : ResultCode)
    (message : string) : RotationResult :=
  rotation_failure secret_name "" "" evidence_ref result_code message "secret.rotate"
    kSecretManagerFacadeSourceRef false.

(** [None] where the coordinator's exception leaves [rotate]. *)
Definition rotate_secret manager (request : RotationRequest) (now_ms : Z)
    : SecretManagerFacade * option RotationResult :=
  let secret_name := rrq_secret_name request in
  if negb (rotation_request_valid request)
  then (manager, Some (manager_rotation_failure secret_name
          "audit://secret/rotate/invalid_request" ResultCode.ValidationFieldMissing
          "secret manager rotate requires a valid rotation request")) else
  let? backend := ready_backend manager
    else (manager, Some (manager_rotation_failure secret_name
            "audit://secret/rotate/backend_unavailable"
            (secret_result_code SecretErrorCode.BackendUnavailable)
            (secret_message SecretErrorCode.BackendUnavailable
               "secret backend is unavailable for rotate"))) in
  let '(backend, coordinator, rotation_result) :=
    rotate (smf_rotation_coordinator manager) backend request now_ms in
  let manager := with_coordinator (set_backend manager (Some backend)) coordinator in
  match rotation_result with
  | None => (manager, None)
  | Some rotation_result =>
      (with_cache manager (delete secret_name (smf_cached_secrets manager)), Some rotation_result)
  end.

Definition revoke manager (secret_name reason_code : string)
    : SecretManagerFacade * SecretLifecycleResult :=
  let fail := fun secret_name result_code message lease_id =>
    lifecycle_failure secret_name result_code message "secret.revoke"
      kSecretManagerFacadeSourceRef lease_id in
  if is_empty secret_name || is_empty reason_code
  then (manager, fail (if is_empty secret_name then "unresolved-secret" else secret_name)
          ResultCode.ValidationFieldMissing
          "secret manager revoke requires a non-empty secret_name and reason_code" None) else
  let? backend := ready_backend manager
    else (manager, fail secret_name (secret_result_code SecretErrorCode.BackendUnavailable)
            (secret_message SecretErrorCode.BackendUnavailable
               "secret backend is unavailable for revoke") None) in
  let '(backend, fetched) := fetch_record backend
    (make_query secret_name "revoke" SecretAccessMode.Revoke) in
  let manager := set_backend manager (Some backend) in
  if negb (so_ok fetched)
  then (manager, fail secret_name (default ResultCode.ProviderTimeout (so_result_code fetched))
          (extract_error_message (so_error_info fetched)
             "secret backend fetch failed during revoke") None) else
  let '(backend, revoked) :=
    revoke_version backend secret_name (sbr_version (so_payload fetched)) in
  let manager := set_backend manager (Some backend) in
  if negb (so_ok revoked)
  then (manager, fail secret_name (default ResultCode.ToolExecutionFailed (so_result_code revoked))
          (extract_error_message (so_error_info revoked)
             "secret backend revoke failed") (so_payload revoked).2) else
  (with_lease_registry (with_cache manager (delete secret_name (smf_cached_secrets manager)))
     (expire_secret_leases (smf_lease_registry manager) secret_name SecretLeaseState.Revoked),
   outcome_success (secret_name, None)).

Definition inspect manager (secret_name : string) : SecretManagerFacade * SecretInspectionResult :=
  let fail := fun result_code message =>
    outcome_failure empty_descriptor result_code message "secret.inspect"
      kSecretManagerFacadeSourceRef in
  if is_empty secret_name
  then (manager, fail ResultCode.ValidationFieldMissing
          "secret manager inspect requires a non-empty secret_name") else
  let? backend := ready_backend manager
    else (manager, fail (secret_result_code SecretErrorCode.BackendUnavailable)
            (secret_message SecretErrorCode.BackendUnavailable
               "secret backend is unavailable for inspect")) in
  let '(backend, fetched) := fetch_record backend
    (make_query secret_name "inspect" SecretAccessMode.MetadataOnly) in
  let manager := set_backend manager (Some backend) in
  if negb (so_ok fetched)
  then (manager, fail (default ResultCode.ProviderTimeout (so_result_code fetched))
          (extract_error_message (so_error_info fetched)
             "secret backend fetch failed during inspect")) else
  (manager, outcome_success (sbr_descriptor (so_payload fetched))).

(** ** Runs *)

Inductive SecretCall :=
| GetSecret (query : SecretQuery) (context : SecretAccessContext) (now_ms : Z)
| Materialize (handle : SecretHandle) (context : SecretAccessContext)
    (now_ms backend_ms lease_ms : Z)
| Release (lease : SecretLease) (now_ms : Z)
| RotateSecret (request : RotationRequest) (now_ms : Z)
| Revoke (secret_name reason_code : string)
| Inspect (secret_name : string)
| SetBackend (backend : option B)
| SetRotationValidator (validator : option SecretRotationValidator).

Definition secret_call manager (call : SecretCall) : SecretManagerFacade :=
  match call with
  | GetSecret query context now_ms => (get_secret manager query context now_ms).1
  | Materialize handle context now_ms backend_ms lease_ms =>
      (materialize manager handle context now_ms backend_ms lease_ms).1
  | Release lease now_ms => (release manager lease now_ms).1
  | RotateSecret request now_ms => (rotate_secret manager request now_ms).1
  | Revoke secret_name reason_code => (revoke manager secret_name reason_code).1
  | Inspect secret_name => (inspect manager secret_name).1
  | SetBackend backend => set_backend manager backend
  | SetRotationValidator validator => set_rotation_validator manager validator
  end.

Definition secret_run manager (calls : list SecretCall) : SecretManagerFacade :=
  foldl secret_call manager calls.

(** A manager that can still make [n] leases without a number coming twice. *)
Definition leases_left manager (n : nat) : Prop :=
  registry_ok (smf_lease_registry manager) /\
  slr_next_lease_sequence (smf_lease_registry manager) + Z.of_nat n < 2 ^ 64.

(** *** The registry in a run *)

Definition registry_step (registry registry' : SecretLeaseRegistry) : Prop :=
  evolves registry registry' /\
  slr_next_lease_sequence registry <= slr_next_lease_sequence registry' <=
    slr_next_lease_sequence registry + 1.

Lemma registry_step_refl registry : registry_ok registry -> registry_step registry registry.
Proof. split; [auto with code|lia]. Qed.

Lemma created_step registry handle consumer_ref epoch deadline_ms now_ms :
  registry_ok registry -> slr_next_lease_sequence registry + 1 < 2 ^ 64 ->
  registry_step registry (create_lease registry handle consumer_ref epoch deadline_ms now_ms).1.
Proof.
  intros Hok Hlt. destruct (create_evolves registry handle consumer_ref epoch deadline_ms now_ms)
    as [He Hn]; [done..|]. split; [exact He|split; [|exact Hn]].
  unfold create_lease. destruct Hok as [Hr _]. repeat case_match; cbn; try lia.
  all: rewrite u64_id; unfold in_u64; lia.
Qed.

Lemma materialize_registry manager handle context t1 t2 t3 :
  leases_left manager 1 ->
  registry_step (smf_lease_registry manager)
    (smf_lease_registry (materialize manager handle context t1 t2 t3).1).
Proof.
  intros [Hok Hlt]. unfold materialize.
  pose proof (fun e d => created_step (smf_lease_registry manager) handle
    (sac_consumer_module context) e d t3 Hok ltac:(lia)) as Hc.
  repeat case_match; cbn; try by apply registry_step_refl.
  all: match goal with E : create_lease _ _ _ ?e ?d _ = _ |- _ =>
         specialize (Hc e d); cbn in E; rewrite E in Hc; exact Hc end.
Qed.

Lemma release_registry manager lease now_ms :
  registry_ok (smf_lease_registry manager) ->
  registry_step (smf_lease_registry manager) (smf_lease_registry (release manager lease now_ms).1).
Proof.
  intros Hok. unfold release. pose proof (release_evolves _ lease now_ms Hok) as He.
  assert (slr_next_lease_sequence (release_lease (smf_lease_registry manager) lease now_ms).1 =
          slr_next_lease_sequence (smf_lease_registry manager)) as Hn
    by (unfold release_lease; by repeat case_match).
  destruct (release_lease _ _ _) as [registry result]. cbn in *. split; [done|lia].
Qed.

Lemma revoke_registry manager secret_name reason_code :
  registry_ok (smf_lease_registry manager) ->
  registry_step (smf_lease_registry manager)
    (smf_lease_registry (revoke manager secret_name reason_code).1).
Proof.
  intros Hok. unfold revoke.
  repeat case_match; cbn; try by apply registry_step_refl.
  split; [by apply expire_secret_evolves|cbn; lia].
Qed.

Lemma call_registry manager call :
  leases_left manager 1 ->
  registry_step (smf_lease_registry manager) (smf_lease_registry (secret_call manager call)).
Proof.
  intros Hl. pose proof (proj1 Hl) as Hok. destruct call; cbn [secret_call].
  - unfold get_secret. repeat case_match; by apply registry_step_refl.
  - by apply materialize_registry.
  - by apply release_registry.
  - unfold rotate_secret. repeat case_match; by apply registry_step_refl.
  - by apply revoke_registry.
  - unfold inspect. repeat case_match; by apply registry_step_refl.
  - by apply registry_step_refl.
  - by apply registry_step_refl.
Qed.

Lemma run_registry calls : forall manager,
  leases_left manager (length calls) ->
  evolves (smf_lease_registry manager) (smf_lease_registry (secret_run manager calls)) /\
  slr_next_lease_sequence (smf_lease_registry manager) <=
    slr_next_lease_sequence (smf_lease_registry (secret_run manager calls)) <=
    slr_next_lease_sequence (smf_lease_registry manager) + Z.of_nat (length calls).
Proof.
  induction calls as [|call calls IH]; intros manager [Hok Hlt].
  { split; [auto with code|cbn; lia]. }
  change (secret_run manager (call :: calls)) with (secret_run (secret_call manager call) calls).
  rewrite length_cons in *. destruct (call_registry manager call) as [He Hn]; [split; [done|lia]|].
  destruct (IH (secret_call manager call)) as [He' Hn'].
  { split; [apply (evolves_ok _ _ He)|lia]. }
  split; [|lia]. eapply evolves_trans; [exact He|exact He'|lia].
Qed.

Lemma run_leases_left manager calls n :
  leases_left manager (length calls + n) -> leases_left (secret_run manager calls) n.
Proof.
  intros [Hok Hlt]. destruct (run_registry calls manager) as [He Hn]; [split; [done|lia]|].
  split; [apply (evolves_ok _ _ He)|lia].
Qed.

Lemma secret_run_app manager calls1 calls2 :
  secret_run manager (calls1 ++ calls2) = secret_run (secret_run manager calls1) calls2.
Proof. apply foldl_app. Qed.

(** ** What a granted lease is *)

Lemma create_granted registry handle consumer_ref epoch deadline_ms now_ms :
  registry_ok registry ->
  let '(registry', result) := create_lease registry handle consumer_ref epoch deadline_ms now_ms in
  so_ok result = true ->
  slr_leases registry !! sl_lease_id (so_payload result) = None /\
  slr_leases registry' !! sl_lease_id (so_payload result) =
    Some {| len_handle := handle; len_lease := so_payload result |} /\
  sl_state (so_payload result) = SecretLeaseState.Active /\
  sl_consumer_ref (so_payload result) = consumer_ref /\
  sl_expires_at_ms (so_payload result) = resolve_deadline_ms handle deadline_ms /\
  now_ms <= sl_expires_at_ms (so_payload result).
Proof.
  intros Hok. pose proof (lease_id_fresh registry (sh_secret_name handle) Hok) as Hfresh.
  unfold create_lease.
  destruct (negb (handle_valid handle) || is_empty consumer_ref); [done|].
  destruct (resolve_deadline_ms handle deadline_ms <? now_ms) eqn:Hlt; [done|]. reflect_tests.
  intros _. cbn. split_and!; try done. by rewrite lookup_insert_eq.
Qed.

(** A secret is handed out under a valid handle that has not expired, to a caller with an
    access context, by the backend of the moment and at the version of the handle; the lease
    is new, open, the caller's own, and ends with the handle or before. *)
Lemma materialize_granted manager handle context t1 t2 t3 :
  registry_ok (smf_lease_registry manager) ->
  so_ok (materialize manager handle context t1 t2 t3).2 = true ->
  let lease := (so_payload (materialize manager handle context t1 t2 t3).2).2 in
  handle_valid handle = true /\ access_context_valid context = true /\
  t1 <= sh_expires_at_ms handle /\
  (exists backend, ready_backend manager = Some backend /\
     let '(fetching, fetched) := fetch_record backend
       (make_query (sh_secret_name handle) "materialize" SecretAccessMode.Materialize) in
     so_ok fetched = true /\ sbr_version (so_payload fetched) = sh_version handle /\
     let handed := (materialize_record fetching (so_payload fetched) context t2).2 in
     so_ok handed = true /\
     (so_payload (materialize manager handle context t1 t2 t3).2).1 = (so_payload handed).1) /\
  slr_leases (smf_lease_registry manager) !! sl_lease_id lease = None /\
  slr_leases (smf_lease_registry (materialize manager handle context t1 t2 t3).1)
    !! sl_lease_id lease = Some {| len_handle := handle; len_lease := lease |} /\
  sl_state lease = SecretLeaseState.Active /\
  sl_consumer_ref lease = sac_consumer_module context /\
  t3 <= sl_expires_at_ms lease <= sh_expires_at_ms handle.
Proof.
  intros Hok. unfold materialize.
  destruct (handle_valid handle), (access_context_valid context); try done. cbn [negb orb].
  destruct (ready_backend manager) as [backend|] eqn:Hb; [|done].
  destruct (sh_expires_at_ms handle <? t1) eqn:Ht; [done|]. reflect_tests.
  destruct (fetch_record backend _) as [fetching fetched] eqn:Hf.
  destruct (so_ok fetched) eqn:Hfo; [|done]. cbn [negb].
  destruct (bool_decide_reflect (sbr_version (so_payload fetched) = sh_version handle)); [|done].
  cbn [negb]. destruct (materialize_record fetching _ context t2) as [handing handed] eqn:Hm.
  destruct (so_ok handed) eqn:Hho; [|done]. cbn [negb smf_lease_registry set_backend].
  pose proof (create_granted (smf_lease_registry manager) handle (sac_consumer_module context)
    (sl_rotation_epoch (so_payload handed).2)
    (Some (Z.min (sh_expires_at_ms handle) (sl_expires_at_ms (so_payload handed).2))) t3 Hok)
    as Hc.
  destruct (create_lease _ _ _ _ _ _) as [registry result].
  destruct (so_ok result); [|done]. cbn [negb]. intros _.
  destruct (Hc eq_refl) as (Hnew & Hin & Hs & Hcr & He & Hle). cbn.
  unfold resolve_deadline_ms in He. cbn in He. split_and!; try done; [|lia].
  exists backend. split; [done|]. rewrite Hf. by rewrite Hm.
Qed.

(** And this is enough. *)
Lemma materialize_succeeds manager handle context t1 t2 t3 backend fetching fetched handed :
  handle_valid handle = true -> access_context_valid context = true ->
  ready_backend manager = Some backend -> t1 <= sh_expires_at_ms handle ->
  fetch_record backend
    (make_query (sh_secret_name handle) "materialize" SecretAccessMode.Materialize) =
    (fetching, fetched) ->
  so_ok fetched = true -> sbr_version (so_payload fetched) = sh_version handle ->
  (materialize_record fetching (so_payload fetched) context t2).2 = handed ->
  so_ok handed = true ->
  t3 <= sh_expires_at_ms handle -> t3 <= sl_expires_at_ms (so_payload handed).2 ->
  let granted := (materialize manager handle context t1 t2 t3).2 in
  so_ok granted = true /\ (so_payload granted).1 = (so_payload handed).1.
Proof.
  intros Hh Hc Hb Ht1 Hf Hfo Hv Hm Hho Ht3 Ht3'. unfold materialize. rewrite Hh, Hc, Hb, Hf.
  cbn [negb orb]. rewrite (proj2 (Z.ltb_ge _ _)) by done. rewrite Hfo. cbn [negb].
  rewrite bool_decide_true by done. cbn [negb].
  destruct (materialize_record fetching _ context t2) as [handing handed'] eqn:E.
  cbn [snd] in Hm. subst handed'. rewrite Hho. cbn [negb smf_lease_registry set_backend].
  pose proof (access_context_consumer context Hc) as Hne.
  unfold create_lease. rewrite Hh, (proj2 (is_empty_false _) Hne). cbn [negb orb].
  unfold resolve_deadline_ms. cbn [default]. rewrite (proj2 (Z.ltb_ge _ _)); [done|cbn; lia].
Qed.

Lemma get_secret_succeeds manager query context now_ms backend fetching fetched :
  query_valid query = true -> access_context_valid context = true ->
  ready_backend manager = Some backend -> fetch_record backend query = (fetching, fetched) ->
  so_ok fetched = true ->
  get_secret manager query context now_ms =
    (cache_record (set_backend manager (Some fetching)) (so_payload fetched),
     outcome_success (make_handle (so_payload fetched) (smf_options manager) now_ms)).
Proof. intros Hq Hc Hb Hf Hok. unfold get_secret. by rewrite Hq, Hc, Hb, Hf, Hok. Qed.

Lemma revoke_closes manager secret_name reason_code :
  so_ok (revoke manager secret_name reason_code).2 = true ->
  smf_lease_registry (revoke manager secret_name reason_code).1 =
    expire_secret_leases (smf_lease_registry manager) secret_name SecretLeaseState.Revoked.
Proof. unfold revoke. intros H1. split_in H1. Qed.

(** C26. A lease granted for a secret that is revoked later is refused from then on, whatever is
    called in between and afterwards: it can neither be released nor validated. The leases
    of other secrets are left as they are. *)
Theorem revoked_lease_refused manager handle context t1 t2 t3 before reason_code after :
  let granted := materialize manager handle context t1 t2 t3 in
  let lease := (so_payload granted.2).2 in
  let kept := secret_run granted.1 before in
  let revoked := revoke kept (sh_secret_name handle) reason_code in
  leases_left manager (2 + length before + length after) ->
  so_ok granted.2 = true -> so_ok revoked.2 = true ->
  (forall now_ms, so_ok (release (secret_run revoked.1 after) lease now_ms).2 = false) /\
  (forall other_handle epoch now_ms later_ms,
     so_ok (validate_lease (smf_lease_registry (secret_run revoked.1 after)) lease other_handle
              epoch now_ms later_ms).2 = false) /\
  (forall id entry, slr_leases (smf_lease_registry kept) !! id = Some entry ->
     sh_secret_name (len_handle entry) <> sh_secret_name handle ->
     slr_leases (smf_lease_registry revoked.1) !! id = Some entry).
Proof.
  intros granted lease kept revoked Hl Hg Hr.
  pose proof (materialize_granted manager handle context t1 t2 t3 (proj1 Hl) Hg)
    as (_ & _ & _ & _ & _ & Hin & _).
  assert (leases_left granted.1 (length before + S (length after))) as Hl1
    by (apply (run_leases_left manager [Materialize handle context t1 t2 t3]);
        destruct Hl; split; [done|cbn [length]; lia]).
  destruct (run_registry before granted.1) as [He _]; [destruct Hl1; split; [done|lia]|].
  apply run_leases_left in Hl1. fold kept in He, Hl1.
  destruct (evolves_entry _ _ He _ _ Hin) as (entry & Hentry & [[state ->] _]).
  pose proof (revoke_closes kept (sh_secret_name handle) reason_code Hr) as Hreg. fold revoked in Hreg.
  assert (leases_left revoked.1 (length after)) as Hl2
    by (apply (run_leases_left kept [Revoke (sh_secret_name handle) reason_code] (length after) Hl1)).
  destruct (run_registry after revoked.1 Hl2) as [He2 _].
  assert (not_open (smf_lease_registry (secret_run revoked.1 after)) (sl_lease_id lease)) as Hclosed.
  { apply (closed_stays_closed (smf_lease_registry revoked.1)); [apply Hl2|done|..]; rewrite Hreg.
    - cbn. rewrite lookup_fmap. fold granted lease in Hentry. rewrite Hentry. by eexists.
    - intros e E. pose proof E as E'. cbn in E'. rewrite lookup_fmap in E'.
      fold granted lease in Hentry. rewrite Hentry in E'. cbn in E'.
      apply (expire_secret_closes _ _ _ _ _ E).
      injection E' as <-. unfold expire_entry. by case_match. }
  split_and!.
  - intros now_ms. apply not_true_iff_false. intros Hrel. unfold release in Hrel.
    destruct (release_lease _ lease now_ms) as [registry result] eqn:E.
    assert (so_ok (release_lease (smf_lease_registry (secret_run revoked.1 after)) lease now_ms).2 = true)
      as [_ (e & Ee & Hs & _)]%release_ok by by rewrite E.
    by apply (Hclosed e).
  - intros other_handle epoch now_ms later_ms. apply not_true_iff_false.
    intros (e & Ee & Hs & _)%validate_ok. by apply (Hclosed e).
  - intros id e Ee Hne. rewrite Hreg. cbn. rewrite lookup_fmap, Ee. cbn. unfold expire_entry.
    by rewrite bool_decide_false.
Qed.
End Manager.

Section Lawful.
Context {B : Type} `{SecretBackendLaws B}.

(** No secret is handed out under a handle of another version than the backend holds. *)
Lemma materialize_at_held_version (manager : SecretManagerFacade) handle context t1 t2 t3 :
  registry_ok (smf_lease_registry manager) ->
  (forall backend, smf_backend manager = Some backend -> backend_ok backend) ->
  so_ok (materialize manager handle context t1 t2 t3).2 = true ->
  exists backend, smf_backend manager = Some backend /\
    held_version backend (sh_secret_name handle) = Some (sh_version handle).
Proof.
  intros Hreg Hback Hok.
  pose proof (materialize_granted manager handle context t1 t2 t3 Hreg Hok)
    as (_ & _ & _ & (backend & Hready & Hf) & _).
  assert (smf_backend manager = Some backend) as Hb.
  { unfold ready_backend in Hready. destruct (smf_backend manager); [|done].
    destruct (bool_decide _); [done|congruence]. }
  exists backend. split; [done|].
  pose proof (fetch_holds backend
    (make_query (sh_secret_name handle) "materialize" SecretAccessMode.Materialize)
    (Hback _ Hb)) as Hheld.
  destruct (fetch_record _ _) as [fetching fetched]. destruct Hf as (Hfo & <- & _).
  exact (proj1 (Hheld Hfo)).
Qed.
End Lawful.

(** ** A sample *)

Lemma new_lease_registry_ok options : registry_ok (new_lease_registry options).
Proof. split; [cbn; lia|]. intros id entry Hin. cbn in Hin. by rewrite lookup_empty in Hin. Qed.

Definition sample_manager : SecretManagerFacade (B := MockSecretBackend) :=
  new_secret_manager (Some sample_memory) default_manager_options.

Definition sample_context : SecretAccessContext :=
  {| sac_request_id := Some "req-1"; sac_session_id := None; sac_task_id := None;
     sac_actor := "agent"; sac_consumer_module := "llm"; sac_permission_domain := "llm.read" |}.

Definition sample_handle : SecretHandle :=
  so_payload (get_secret sample_manager (make_query "llm/token" "call" SecretAccessMode.Materialize)
                sample_context 1000).2.

Lemma revoked_lease_refused_witness :
  let granted := materialize sample_manager sample_handle sample_context 1001 1002 1003 in
  let kept := secret_run granted.1 [Inspect "llm/token"] in
  let revoked := revoke kept "llm/token" "leaked" in
  buffer_bytes <$> (so_payload granted.2).1 = Some "s3cret" /\
  so_ok (release granted.1 (so_payload granted.2).2 1004).2 = true /\
  so_ok revoked.2 = true /\
  so_ok (release (secret_run revoked.1 []) (so_payload granted.2).2 1004).2 = false.
Proof.
  intros granted kept revoked.
  split; [vm_compute; reflexivity|]. split; [vm_compute; reflexivity|].
  split; [vm_compute; reflexivity|].
  refine (proj1 (revoked_lease_refused sample_manager sample_handle sample_context 1001 1002 1003
    [Inspect "llm/token"] "leaked" [] _ _ _) 1004).
  - split; [exact (new_lease_registry_ok default_lease_options)|cbn; lia].
  - vm_compute. reflexivity.
  - vm_compute. reflexivity.
Defined.

(** After a rotation the handles given before are stale, but not the leases: a lease of the
    version before is still released. *)
Example rotation_keeps_leases :
  let granted := materialize sample_manager sample_handle sample_context 1001 1002 1003 in
  let rotated := rotate_secret granted.1 (sample_rotation RotationStrategy.DualSlot) 1004 in
  (rot_rotated <$> rotated.2) = Some true /\
  so_result_code (materialize rotated.1 sample_handle sample_context 1005 1006 1007).2 =
    Some ResultCode.RuntimeRetryExhausted /\
  so_ok (release rotated.1 (so_payload granted.2).2 1008).2 = true.
Proof. vm_compute. done. Qed.
