(* ===== verification/SecretImport.v ===== *)
(** * The import of secrets

    infra/src/secret/SecretBootstrapWriter.cpp, which writes the files that the backend in
    files reads. [imported_secret_read_back] takes a secret from its import to the caller of
    the manager. *)

From S2P Require Import Prelude Text ErrorCodes CheckpointContracts RecoveryContracts DurableStore SecretTypes SecretLeases SecretBackends SecretRotation SecretManager.

(** ** Data *)

Module SecretProvisioningState.
Inductive SecretProvisioningState := Missing | Configured | RuntimeVerified.
#[global] Instance SecretProvisioningState_eq_dec : EqDecision SecretProvisioningState.
Proof. solve_decision. Defined.
End SecretProvisioningState.
Abbreviation SecretProvisioningState := SecretProvisioningState.SecretProvisioningState.

Definition provisioning_state_name (state : SecretProvisioningState) : string :=
  match state with
  | SecretProvisioningState.Missing => "missing"
  | SecretProvisioningState.Configured => "configured"
  | SecretProvisioningState.RuntimeVerified => "runtime_verified"
  end.

Record SecretBootstrapWriterOptions := {
  bwo_root_dir : string;
  bwo_encrypt_at_rest : bool;
  bwo_backend_ref : string;
  bwo_rotation_policy_ref : string;
  bwo_owner_ref : string;
  bwo_initial_version : string;
}.

Record SecretBootstrapRequest := {
  bsr_provider_ref : string;
  bsr_secret : SecureBuffer;
  bsr_auth_profile_name : option string;
}.

Definition is_provider_char (ch : Ascii.ascii) : bool :=
  is_alnum ch || bool_decide (ch = "-"%char) || bool_decide (ch = "_"%char).

Definition is_provider_ref_safe (provider_ref : string) : bool :=
  negb (is_empty provider_ref) && all_chars is_provider_char provider_ref.

Definition bootstrap_request_valid (request : SecretBootstrapRequest) : bool :=
  is_provider_ref_safe (bsr_provider_ref request)
  && negb (sb_released (bsr_secret request))
  && negb (is_empty (buffer_bytes (bsr_secret request))).

Record SecretProvisioningResult := {
  spr_ok : bool;
  spr_auth_ref : string;
  spr_backend_root : string;
  spr_provisioning_state : SecretProvisioningState;
  spr_secret_name : string;
  spr_version : string;
  spr_error_message : string;
}.

Definition provisioning_success (auth_ref backend_root secret_name version : string)
    : SecretProvisioningResult :=
  {| spr_ok := true; spr_auth_ref := auth_ref; spr_backend_root := backend_root;
     spr_provisioning_state := SecretProvisioningState.Configured;
     spr_secret_name := secret_name; spr_version := version; spr_error_message := "" |}.

Definition provisioning_failure (backend_root error_message : string) : SecretProvisioningResult :=
  {| spr_ok := false; spr_auth_ref := ""; spr_backend_root := backend_root;
     spr_provisioning_state := SecretProvisioningState.Missing; spr_secret_name := "";
     spr_version := ""; spr_error_message := error_message |}.

Definition provisioning_valid (result : SecretProvisioningResult) : bool :=
  if spr_ok result
  then negb (is_empty (spr_auth_ref result)) && negb (is_empty (spr_backend_root result))
       && bool_decide (spr_provisioning_state result = SecretProvisioningState.Configured)
       && negb (is_empty (spr_secret_name result)) && negb (is_empty (spr_version result))
       && is_empty (spr_error_message result)
  else bool_decide (spr_provisioning_state result = SecretProvisioningState.Missing)
       && negb (is_empty (spr_backend_root result)) && negb (is_empty (spr_error_message result)).

(** ** What the operating system does

    Which of the calls of one import succeed: directories are made, modes and groups set,
    the temporary file removed, opened, flushed, renamed. A stream that is not good after
    the flush has stored [io_stored] bytes. Access for the reader group is refused by
    [chown] or by [fs::permissions]. *)
Module ReaderAccess.
Inductive ReaderAccess := Granted | GroupRefused | ModeRefused.
#[global] Instance ReaderAccess_eq_dec : EqDecision ReaderAccess.
Proof. solve_decision. Defined.
End ReaderAccess.
Abbreviation ReaderAccess := ReaderAccess.ReaderAccess.

Record ImportIo := {
  io_root_made : bool;
  io_root_mode : bool;
  io_root_access : ReaderAccess;
  io_llm_made : bool;
  io_providers_made : bool;
  io_providers_mode : bool;
  io_llm_access : ReaderAccess;
  io_providers_access : ReaderAccess;
  io_old_temp_removed : bool;
  io_temp_opened : bool;
  io_flushed : bool;
  io_stored : nat;
  io_temp_mode : bool;
  io_temp_access : ReaderAccess;
  io_renamed : bool;
  io_cleaned_up : bool;
  io_target_access : ReaderAccess;
}.

(** One directory of [fs::create_directories]; [None] when it reports an error. *)
Definition create_directory (made : bool) (tree : FileTree) (path : list string)
    : option FileTree :=
  match tree !! path with
  | Some Directory => Some tree
  | Some (Regular _ _) => None
  | None => if made then Some (<[path := Directory]> tree) else None
  end.

(** [fs::remove(path, error)], where it succeeds *)
Definition remove_file (removed : bool) (tree : FileTree) (path : list string) : FileTree :=
  if removed then delete path tree else tree.

(** [apply_runtime_reader_access]: the message where it fails. *)
Definition apply_runtime_reader_access (access : ReaderAccess) (path : string) : option string :=
  match access with
  | ReaderAccess.Granted => None
  | ReaderAccess.GroupRefused => Some ("unable to assign secret runtime reader group: " +:+ path)
  | ReaderAccess.ModeRefused =>
      Some ("unable to set secret runtime reader permissions: " +:+ path)
  end.

(** ** The writer *)

Definition make_secret_name (provider_ref : string) : string := "llm/providers/" +:+ provider_ref.

Definition make_auth_ref (provider_ref : string) : string :=
  "secret://llm/providers/" +:+ provider_ref.

(** The inner [None] is an exception of [std::stoull]. *)
Definition next_version (current_version fallback_version : string) : option string :=
  if is_empty current_version then Some fallback_version else
  if is_numeric_version current_version
  then match stoull (version_number current_version) with
       | Some numeric_value => Some ("v" +:+ to_string (u64 (numeric_value + 1)))
       | None => None
       end
  else Some (current_version +:+ ".next").

Definition backend_options (options : SecretBootstrapWriterOptions) : FileSecretBackendOptions :=
  {| fbo_encrypt_at_rest := bwo_encrypt_at_rest options;
     fbo_backend_ref := bwo_backend_ref options;
     fbo_lease_duration_ms := 60000; fbo_rotation_epoch := 1 |}.

Definition backend_over (options : SecretBootstrapWriterOptions) (tree : FileTree)
    : FileSecretBackend :=
  {| fsb_options := backend_options options; fsb_tree := tree; fsb_last_error_code := None |}.

Definition current_version_for_existing_secret (options : SecretBootstrapWriterOptions)
    (tree : FileTree) (secret_name : string) : option string :=
  let fetched := (fetch_record (backend_over options tree)
    (make_query secret_name "bootstrap_import" SecretAccessMode.Rotate)).2 in
  if negb (so_ok fetched) then None else Some (sbr_version (so_payload fetched)).

(** The fields of the document, in their order. *)
Definition document_fields (options : SecretBootstrapWriterOptions)
    (request : SecretBootstrapRequest) (secret_name version : string) : list (string * string) :=
  [("secret_name", secret_name); ("classification", "token");
   ("rotation_policy", bwo_rotation_policy_ref options); ("owner", bwo_owner_ref options);
   ("version", version)]
  ++ (if has_non_empty_value (bsr_auth_profile_name request)
      then [("auth_profile", default "" (bsr_auth_profile_name request))] else [])
  ++ [if bwo_encrypt_at_rest options
      then ("ciphertext_hex", hex_encode (buffer_bytes (bsr_secret request)))
      else ("plaintext", buffer_bytes (bsr_secret request))].

Definition path_string (root_dir : string) (path : list string) : string :=
  foldl path_append root_dir path.

Definition providers_path : list string := ["llm"; "providers"].
Definition target_path (provider_ref : string) : list string :=
  ["llm"; "providers"; provider_ref +:+ ".secret"].
Definition temp_path (provider_ref : string) : list string :=
  ["llm"; "providers"; provider_ref +:+ ".secret.tmp"].

(** The two directories and their access; the message where one of the calls fails. *)
Definition prepare_directories (root_dir : string) (io : ImportIo) (tree : FileTree)
    : FileTree * option string :=
  let made_message := fun path => Some ("unable to create secret directory: " +:+ path) in
  let mode_message := fun path => Some ("unable to set secret directory permissions: " +:+ path) in
  let providers := path_string root_dir providers_path in
  let? rooted := create_directory (io_root_made io) tree []
    else (tree, made_message root_dir) in
  if negb (io_root_mode io) then (rooted, mode_message root_dir) else
  match apply_runtime_reader_access (io_root_access io) root_dir with
  | Some message => (rooted, Some message)
  | None =>
  let? with_llm := create_directory (io_llm_made io) rooted ["llm"]
    else (rooted, made_message providers) in
  let? ready := create_directory (io_providers_made io) with_llm providers_path
    else (with_llm, made_message providers) in
  if negb (io_providers_mode io) then (ready, mode_message providers) else
  match apply_runtime_reader_access (io_llm_access io) (path_string root_dir ["llm"]) with
  | Some message => (ready, Some message)
  | None => (ready, apply_runtime_reader_access (io_providers_access io) providers)
  end
  end.

(** [write_secret_document] and [apply_runtime_reader_access] on the temporary file; the
    message where one of the calls fails. *)
Definition write_temporary (io : ImportIo) (tree : FileTree) (path : list string)
    (path_name document : string) : FileTree * option string :=
  if negb (io_temp_opened io) || is_directory tree path
  then (tree, Some ("unable to open temp secret file: " +:+ path_name)) else
  if negb (io_flushed io)
  then (<[path := Regular (String.substring 0 (io_stored io) document) true]> tree,
        Some ("unable to flush temp secret file: " +:+ path_name)) else
  let written := <[path := Regular document true]> tree in
  if negb (io_temp_mode io)
  then (written, Some ("unable to set secret file permissions: " +:+ path_name)) else
  (written, apply_runtime_reader_access (io_temp_access io) path_name).

(** The result is [None] where the exception of [next_version] leaves [import_secret]. *)
Definition import_secret (options : SecretBootstrapWriterOptions) (io : ImportIo)
    (tree : FileTree) (request : SecretBootstrapRequest)
    : FileTree * option SecretProvisioningResult :=
  let root_dir := bwo_root_dir options in
  let fail := fun message => Some (provisioning_failure root_dir message) in
  if negb (bootstrap_request_valid request)
  then (tree, fail "secret bootstrap request requires a safe provider_ref and non-empty secret bytes")
  else
  let '(tree, problem) := prepare_directories root_dir io tree in
  match problem with
  | Some message => (tree, fail message)
  | None =>
      let provider_ref := bsr_provider_ref request in
      let secret_name := make_secret_name provider_ref in
      let current_version :=
        default "" (current_version_for_existing_secret options tree secret_name) in
      let? version := next_version current_version (bwo_initial_version options)
        else (tree, None) in
      let document := render (document_fields options request secret_name version) in
      let temp := temp_path provider_ref in
      let target := target_path provider_ref in
      let tree := remove_file (io_old_temp_removed io) tree temp in
      let '(tree, problem) :=
        write_temporary io tree temp (path_string root_dir temp) document in
      match problem with
      | Some message => (remove_file (io_cleaned_up io) tree temp, fail message)
      | None =>
          if negb (io_renamed io) || is_directory tree target
          then (remove_file (io_cleaned_up io) tree temp,
                fail ("unable to promote temp secret file into canonical location: " +:+
                      path_string root_dir target)) else
          let tree := <[target := Regular document true]> (delete temp tree) in
          match apply_runtime_reader_access (io_target_access io) (path_string root_dir target) with
          | Some message => (tree, fail message)
          | None =>
              (tree, Some (provisioning_success (make_auth_ref provider_ref) root_dir secret_name
                             version))
          end
      end
  end.

(** ** Documents *)

(** A character of a key, or of a hex or a decimal number. *)
Definition is_key_char (ch : Ascii.ascii) : bool := is_word ch || bool_decide (ch = "_"%char).

(** A value that its line gives back: not empty, on one line, without blanks around it. *)
Definition value_ok (value : string) : Prop :=
  value <> "" /\ trim_copy value = value /\ all_chars not_newline value = true.

Definition field_fits (kv : string * string) : Prop :=
  kv.1 <> "" /\ all_chars is_key_char kv.1 = true /\ value_ok kv.2.

Lemma key_char_plain ch :
  is_key_char ch = true ->
  is_blank ch = false /\ not_newline ch = true /\ not_equals ch = true /\ ch <> "#"%char.
Proof.
  intros H. unfold is_blank, not_newline, not_equals.
  rewrite !bool_decide_false; [split_and!; [done..|by intros ->]|..]; by intros ->.
Qed.

Lemma key_not_newline ch : is_key_char ch = true -> not_newline ch = true.
Proof. intros H. apply key_char_plain in H. tauto. Qed.

Lemma key_not_equals ch : is_key_char ch = true -> not_equals ch = true.
Proof. intros H. apply key_char_plain in H. tauto. Qed.

Lemma word_key_char ch : is_word ch = true -> is_key_char ch = true.
Proof. unfold is_key_char. by intros ->. Qed.

Lemma trim_front_length value : (String.length (trim_front value) <= String.length value)%nat.
Proof. induction value as [|ch value IH]; simpl; [lia|]. case_match; simpl; lia. Qed.

Lemma trim_back_length value : (String.length (trim_back value) <= String.length value)%nat.
Proof. induction value as [|ch value IH]; simpl; [lia|]. case_match; simpl; lia. Qed.

(** A text that trimming leaves alone has no blank in front, nor behind. *)
Lemma trimmed_front value : trim_copy value = value -> trim_front value = value.
Proof.
  intros H. destruct value as [|ch value]; [done|]. simpl. destruct (is_blank ch) eqn:E; [|done].
  exfalso. apply (f_equal String.length) in H. unfold trim_copy in H. simpl in H. rewrite E in H.
  pose proof (trim_back_length (trim_front value)). pose proof (trim_front_length value). lia.
Qed.

Lemma trimmed_back value : trim_copy value = value -> trim_back value = value.
Proof. intros H. unfold trim_copy in H. by rewrite (trimmed_front _ H) in H. Qed.

Lemma trim_back_idemp value : trim_back (trim_back value) = trim_back value.
Proof.
  induction value as [|ch value IH]; simpl; [done|].
  destruct (is_empty (trim_back value) && is_blank ch) eqn:E; [done|]. simpl. by rewrite IH, E.
Qed.

Lemma trim_front_back value : trim_front value = value -> trim_front (trim_back value) = trim_back value.
Proof.
  destruct value as [|ch value]; [done|]. simpl. destruct (is_blank ch) eqn:E.
  - intros H. apply (f_equal String.length) in H. simpl in H. pose proof (trim_front_length value). lia.
  - intros _. rewrite andb_false_r. simpl. by rewrite E.
Qed.

Lemma trim_front_idemp value : trim_front (trim_front value) = trim_front value.
Proof.
  induction value as [|ch value IH]; simpl; [done|].
  destruct (is_blank ch) eqn:E; [done|]. simpl. by rewrite E.
Qed.

Lemma trim_copy_idemp value : trim_copy (trim_copy value) = trim_copy value.
Proof.
  unfold trim_copy. by rewrite trim_front_back, trim_back_idemp by apply trim_front_idemp.
Qed.

Lemma trim_back_app front value :
  trim_back value = value -> value <> "" -> trim_back (front +:+ value) = front +:+ value.
Proof.
  intros H Hne. induction front as [|ch front IH]; [done|].
  rewrite string_cons_app. simpl. rewrite IH.
  destruct (is_empty (front +:+ value)) eqn:E; [|done].
  apply is_empty_true in E. destruct front; [|done]. by rewrite string_nil_app in E.
Qed.

Lemma trim_word word : all_chars is_key_char word = true -> trim_copy word = word.
Proof.
  intros H. unfold trim_copy. assert (trim_front word = word) as ->.
  { destruct word as [|ch word]; [done|]. simpl in *. apply andb_true_iff in H as [Hch _].
    by rewrite (proj1 (key_char_plain _ Hch)). }
  induction word as [|ch word IH]; [done|]. simpl in *. apply andb_true_iff in H as [Hch H].
  by rewrite IH, (proj1 (key_char_plain _ Hch)), andb_false_r by done.
Qed.

Lemma word_value_ok word : word <> "" -> all_chars is_key_char word = true -> value_ok word.
Proof.
  intros Hne H. split_and!; [done|by apply trim_word|].
  exact (all_chars_impl _ _ _ key_not_newline H).
Qed.

Lemma trim_line key value :
  key <> "" -> all_chars is_key_char key = true -> value_ok value ->
  trim_copy (key +:+ String equals_sign value) = key +:+ String equals_sign value.
Proof.
  intros Hk Hw (Hne & Ht & _). unfold trim_copy.
  assert (trim_front (key +:+ String equals_sign value) = key +:+ String equals_sign value) as ->.
  { destruct key as [|ch key]; [done|]. rewrite string_cons_app. simpl.
    simpl in Hw. apply andb_true_iff in Hw as [Hch _]. by rewrite (proj1 (key_char_plain _ Hch)). }
  change (String equals_sign value) with ("=" +:+ value). rewrite <- string_app_assoc.
  apply trim_back_app; [by apply trimmed_back|done].
Qed.

Lemma word_not_comment key rest :
  key <> "" -> all_chars is_key_char key = true -> value_starts_with (key +:+ rest) "#" = false.
Proof.
  destruct key as [|ch key]; [done|]. rewrite string_cons_app. simpl.
  intros _ [Hch _]%andb_true_iff. unfold value_starts_with. simpl.
  rewrite (bool_decide_false ("#"%char = ch)); [done|]. intros <-. by apply key_char_plain in Hch as (_ & _ & _ & ?).
Qed.

(** The fields of a document are read back; the last value of a key stays. *)
Lemma parse_field_render (l : list (string * string)) : forall fields,
  Forall field_fits l ->
  parse_field_lines (getlines (render l)) fields =
    Ok (foldl (fun fields kv => <[kv.1 := kv.2]> fields) fields l).
Proof.
  induction l as [|[key value] l IH]; intros fields Hl; [done|].
  inversion Hl as [|? ? (Hk & Hw & Hv) Hl']; subst. cbn [fst snd] in *.
  pose proof Hv as (Hne & Ht & Hnl).
  cbn [render]. unfold render_field. cbn [fst snd].
  rewrite string_app_assoc. change ((String equals_sign value +:+ String newline "") +:+ render l)
    with (String equals_sign ((value +:+ String newline "") +:+ render l)).
  rewrite string_app_assoc. change (String newline "" +:+ render l) with (String newline (render l)).
  change (key +:+ String equals_sign (value +:+ String newline (render l)))
    with (key +:+ (String equals_sign value +:+ String newline (render l))).
  rewrite <- string_app_assoc. rewrite getlines_app.
  2: { rewrite all_chars_app. simpl. rewrite Hnl.
       by rewrite (all_chars_impl _ _ _ key_not_newline Hw). }
  cbn [parse_field_lines]. rewrite trim_line by done.
  rewrite (proj2 (is_empty_false _)) by (by destruct key).
  rewrite word_not_comment by done. cbn [orb].
  rewrite split_equals_app by exact (all_chars_impl _ _ _ key_not_equals Hw).
  cbn [fst snd]. rewrite (trim_word key Hw), Ht.
  rewrite (proj2 (is_empty_false key)), (proj2 (is_empty_false value)) by done. cbn [orb].
  by apply IH.
Qed.

(** What a document gives as a value is one. *)
Lemma getlines_one_line text : Forall (fun line => all_chars not_newline line = true) (getlines text).
Proof.
  induction text as [|ch text IH]; simpl; [done|].
  destruct (bool_decide_reflect (ch = newline)); [by constructor|].
  assert (not_newline ch = true) by (unfold not_newline; by rewrite bool_decide_false).
  destruct (getlines text); [|inversion IH; subst]; constructor; simpl; try done;
    by apply andb_true_iff.
Qed.

Lemma trim_front_chars p value : all_chars p value = true -> all_chars p (trim_front value) = true.
Proof.
  induction value as [|ch value IH]; simpl; [done|]. intros [Hch H]%andb_true_iff.
  case_match; [auto|]. simpl. by rewrite Hch, H.
Qed.

Lemma trim_back_chars p value : all_chars p value = true -> all_chars p (trim_back value) = true.
Proof.
  induction value as [|ch value IH]; simpl; [done|]. intros [Hch H]%andb_true_iff.
  case_match; [done|]. simpl. by rewrite Hch, IH.
Qed.

Lemma trim_copy_chars p value : all_chars p value = true -> all_chars p (trim_copy value) = true.
Proof. intros H. by apply trim_back_chars, trim_front_chars. Qed.

Lemma split_equals_chars p line key value :
  all_chars p line = true -> split_equals line = Some (key, value) -> all_chars p value = true.
Proof.
  revert key. induction line as [|ch line IH]; intros key; simpl; [done|].
  intros [Hch H]%andb_true_iff. case_match; [by intros [= _ <-]|].
  destruct (split_equals line) as [[key' value']|]; [|done]. intros [= _ <-]. by apply (IH key').
Qed.

Lemma parse_field_values lines : forall fields parsed,
  Forall (fun line => all_chars not_newline line = true) lines ->
  map_Forall (fun _ value => value_ok value) fields ->
  parse_field_lines lines fields = Ok parsed -> map_Forall (fun _ value => value_ok value) parsed.
Proof.
  induction lines as [|line lines IH]; intros fields parsed Hl Hf; simpl; [by intros [= <-]|].
  inversion Hl; subst. case_match; [by apply IH|].
  destruct (split_equals (trim_copy line)) as [[key value]|] eqn:E; [|done]. cbn [fst snd].
  destruct (is_empty (trim_copy key)) eqn:Ek; [done|].
  destruct (is_empty (trim_copy value)) eqn:Ev; [done|]. cbn [orb].
  apply IH; [done|]. apply map_Forall_insert_2; [|done]. reflect_tests.
  split_and!; [done|apply trim_copy_idemp|].
  apply trim_copy_chars. refine (split_equals_chars _ _ _ _ _ E). by apply trim_copy_chars.
Qed.

Lemma parsed_document_values tree path fields :
  parse_field_document tree path = Ok fields -> map_Forall (fun _ value => value_ok value) fields.
Proof.
  unfold parse_field_document. destruct (tree !! path) as [[|contents []]|]; try done.
  apply parse_field_values; [apply getlines_one_line|apply map_Forall_empty].
Qed.

(** *** Versions *)

Lemma file_version_ok backend name record :
  file_record backend name = Some record -> value_ok (sbr_version record).
Proof.
  unfold file_record. destruct (find_secret_file backend name) as [path|]; [|done].
  unfold build_secret_record. destruct (parse_field_document _ path) as [fields|] eqn:E; [|done].
  intros H. split_in H.
  match goal with Ev : fields !! "version" = Some _ |- _ =>
    exact (parsed_document_values _ _ _ E _ _ Ev) end.
Qed.

Lemma next_version_ok current fallback version :
  current = "" \/ value_ok current -> value_ok fallback ->
  next_version current fallback = Some version -> value_ok version.
Proof.
  intros Hc Hf. unfold next_version. destruct (is_empty current) eqn:E; [by intros [= <-]|].
  apply is_empty_false in E. destruct Hc as [->|(_ & Ht & Hn)]; [done|].
  destruct (is_numeric_version current).
  - destruct (stoull _) as [number|]; [|done]. intros [= <-]. apply word_value_ok; [done|].
    simpl. exact (all_chars_impl _ _ _ word_key_char (to_string_word _)).
  - intros [= <-]. split_and!; [by destruct current| |by rewrite all_chars_app, Hn].
    unfold trim_copy. assert (trim_front (current +:+ ".next") = current +:+ ".next") as ->.
    { apply trimmed_front in Ht. destruct current as [|ch current]; [done|].
      rewrite string_cons_app. simpl in *. destruct (is_blank ch); [|done].
      apply (f_equal String.length) in Ht. simpl in Ht.
      pose proof (trim_front_length current). lia. }
    by apply trim_back_app.
Qed.

(** A secret that is there gets another version. *)
Lemma next_version_differs current fallback version :
  current <> "" -> next_version current fallback = Some version -> version <> current.
Proof.
  intros Hne. unfold next_version. rewrite (proj2 (is_empty_false _) Hne). intros H.
  assert (derive_candidate_version current <> None) as Hsome
    by (unfold derive_candidate_version; destruct (is_numeric_version current); [|done];
        by destruct (stoull _)).
  destruct (derive_candidate_version current) as [candidate|] eqn:Ec; [|done].
  pose proof (candidate_differs _ _ Ec) as [Hd _].
  unfold derive_candidate_version in Ec. destruct (is_numeric_version current).
  - destruct (stoull _); [|done]. congruence.
  - injection H as <-. intros Heq. by apply (app_not_self current ".next").
Qed.

(** *** Paths *)

Lemma provider_char_plain ch :
  is_provider_char ch = true -> is_name_char ch = true /\ ch <> "."%char /\ ch <> "/"%char.
Proof.
  unfold is_provider_char, is_name_char. intros H.
  split_and!; [|by intros ->|by intros ->].
  apply orb_true_iff in H as [H|H]; [apply orb_true_iff in H as [H|H]|]; rewrite H;
    by rewrite ?orb_true_r.
Qed.

Lemma no_dot_no_dots text :
  all_chars (fun ch => negb (bool_decide (ch = "."%char))) text = true -> contains_text text ".." = false.
Proof.
  induction text as [|ch text IH]; simpl; [done|]. intros [Hch H]%andb_true_iff.
  rewrite IH, orb_false_r by done. unfold value_starts_with. simpl.
  apply negb_true_iff, bool_decide_eq_false in Hch.
  by rewrite (bool_decide_false ("."%char = ch)) by congruence.
Qed.

Lemma segments_plain text :
  text <> "" -> all_chars (fun ch => negb (bool_decide (ch = "/"%char))) text = true ->
  segments text = [text].
Proof.
  induction text as [|ch text IH]; [done|]. simpl. intros _ [Hch H]%andb_true_iff.
  apply negb_true_iff in Hch. rewrite Hch. destruct text; [done|]. by rewrite IH.
Qed.

Lemma segments_app word rest :
  all_chars (fun ch => negb (bool_decide (ch = "/"%char))) word = true ->
  segments (word +:+ String "/" rest) = word :: segments rest.
Proof.
  induction word as [|ch word IH]; [done|]. rewrite string_cons_app. simpl.
  intros [Hch H]%andb_true_iff. apply negb_true_iff in Hch. by rewrite Hch, IH.
Qed.

Lemma secret_file_path provider_ref :
  is_provider_ref_safe provider_ref = true ->
  is_secret_name_safe (make_secret_name provider_ref) = true /\
  resolve_secret_path (make_secret_name provider_ref) = Some (target_path provider_ref).
Proof.
  unfold is_provider_ref_safe. intros [Hne Hsafe]%andb_true_iff.
  apply negb_true_iff, is_empty_false in Hne.
  pose proof (all_chars_impl _ is_name_char _ (fun ch H => proj1 (provider_char_plain ch H)) Hsafe).
  assert (is_secret_name_safe (make_secret_name provider_ref) = true) as Hs.
  { unfold is_secret_name_safe, make_secret_name. rewrite no_dot_no_dots.
    2: { rewrite all_chars_app. simpl. refine (all_chars_impl _ _ _ _ Hsafe).
         intros ch Hch. apply provider_char_plain in Hch as (_ & Hd & _).
         by rewrite bool_decide_false. }
    change (is_empty ("llm/providers/" +:+ provider_ref)) with false.
    change (value_starts_with ("llm/providers/" +:+ provider_ref) "/") with false.
    cbn [orb]. rewrite all_chars_app. by rewrite H. }
  split; [done|]. unfold resolve_secret_path. rewrite Hs. cbn [negb].
  unfold make_secret_name.
  assert (segments ("llm/providers/" +:+ provider_ref) = ["llm"; "providers"; provider_ref]) as ->.
  { change ("llm/providers/" +:+ provider_ref)
      with ("llm" +:+ String "/" ("providers" +:+ String "/" provider_ref)).
    rewrite !segments_app, segments_plain; [done|done| |done|done].
    refine (all_chars_impl _ _ _ _ Hsafe). intros ch Hch.
    apply provider_char_plain in Hch as (_ & _ & Hsl). by rewrite bool_decide_false. }
  cbn [existsb]. rewrite (proj2 (is_empty_false provider_ref) Hne).
  rewrite (bool_decide_false (provider_ref = ".")), (bool_decide_false (provider_ref = ".."));
    [done|intros ->; done..].
Qed.

(** ** From the import to the caller *)

(** The options put into a document, each a value that its line gives back. *)
Definition import_options_ok (options : SecretBootstrapWriterOptions) : Prop :=
  bwo_encrypt_at_rest options = true /\ bwo_backend_ref options <> "" /\
  value_ok (bwo_rotation_policy_ref options) /\ value_ok (bwo_owner_ref options) /\
  value_ok (bwo_initial_version options).

Definition profile_name_ok (request : SecretBootstrapRequest) : Prop :=
  forall name, bsr_auth_profile_name request = Some name -> name = "" \/ value_ok name.

Lemma document_fits options request version :
  import_options_ok options -> profile_name_ok request -> bootstrap_request_valid request = true ->
  value_ok version ->
  Forall field_fits (document_fields options request (make_secret_name (bsr_provider_ref request))
    version).
Proof.
  intros (He & _ & Hp & Ho & _) Hprofile Hreq Hv. unfold document_fields. rewrite He.
  unfold bootstrap_request_valid, is_provider_ref_safe in Hreq.
  apply andb_true_iff in Hreq as [[[Hne Hsafe]%andb_true_iff _]%andb_true_iff Hb].
  apply negb_true_iff, is_empty_false in Hne. apply negb_true_iff, is_empty_false in Hb.
  assert (value_ok (make_secret_name (bsr_provider_ref request))) as Hn.
  { assert (forall ch, is_provider_char ch = true -> is_blank ch = false /\ not_newline ch = true) as Hpl.
    { intros ch H. unfold is_blank, not_newline.
      rewrite !bool_decide_false; [done|..]; by intros ->. }
    split_and!; [done| |].
    - unfold trim_copy, make_secret_name.
      change (trim_front ("llm/providers/" +:+ bsr_provider_ref request))
        with ("llm/providers/" +:+ bsr_provider_ref request).
      apply trim_back_app; [|done]. clear Hne. revert Hsafe.
      induction (bsr_provider_ref request) as [|ch ref IH]; [done|]. simpl.
      intros [Hch Hsafe]%andb_true_iff. rewrite IH by done.
      destruct (Hpl ch Hch) as [-> _]. by rewrite andb_false_r.
    - unfold make_secret_name. rewrite all_chars_app. simpl.
      exact (all_chars_impl _ _ _ (fun ch H => proj2 (Hpl ch H)) Hsafe). }
  repeat apply Forall_cons_2; cbn; try (by split).
  apply Forall_app; split.
  - unfold has_non_empty_value. destruct (bsr_auth_profile_name request) as [name|] eqn:E; [|done].
      destruct (Hprofile name E) as [->|Hok]; [done|].
      rewrite (proj2 (is_empty_false _) (proj1 Hok)). simpl. apply Forall_singleton. by split.
  - apply Forall_singleton. split_and!; [done..|]. apply word_value_ok; [|exact (all_chars_impl _ _ _ word_key_char (hex_encode_word _))].
      by destruct (buffer_bytes (bsr_secret request)).
Qed.

Definition document_map (options : SecretBootstrapWriterOptions) (request : SecretBootstrapRequest)
    (version : string) : gmap string string :=
  foldl (fun fields kv => <[kv.1 := kv.2]> fields) ∅
    (document_fields options request (make_secret_name (bsr_provider_ref request)) version).

Lemma document_lookups options request version :
  bwo_encrypt_at_rest options = true ->
  let fields := document_map options request version in
  fields !! "classification" = Some "token" /\
  fields !! "rotation_policy" = Some (bwo_rotation_policy_ref options) /\
  fields !! "owner" = Some (bwo_owner_ref options) /\
  fields !! "version" = Some version /\
  fields !! "ciphertext_hex" = Some (hex_encode (buffer_bytes (bsr_secret request))).
Proof.
  intros He. unfold document_map, document_fields. rewrite He.
  destruct (has_non_empty_value _); cbn [app foldl fst snd]; split_and!;
    repeat (rewrite lookup_insert_ne by done); by rewrite lookup_insert_eq.
Qed.

(** What the backend over the written tree makes of the document. *)
Definition imported_record (options : SecretBootstrapWriterOptions) (provider_ref version : string)
    : SecretBackendRecord :=
  {| sbr_descriptor :=
       {| sd_secret_name := make_secret_name provider_ref; sd_backend_type := SecretBackendType.File;
          sd_classification := SecretClassification.Token;
          sd_rotation_policy_ref := bwo_rotation_policy_ref options;
          sd_owner_ref := bwo_owner_ref options |};
     sbr_backend_ref := bwo_backend_ref options;
     sbr_version := version;
     sbr_cipher_ref := "file://" +:+ generic_string (target_path provider_ref);
     sbr_encrypted_at_rest := bwo_encrypt_at_rest options |}.

Section Written.
Variables (options : SecretBootstrapWriterOptions) (request : SecretBootstrapRequest).
Variables (version : string) (backend : FileSecretBackend).
Hypothesis Hoptions : import_options_ok options.
Hypothesis Hprofile : profile_name_ok request.
Hypothesis Hrequest : bootstrap_request_valid request = true.
Hypothesis Hversion : value_ok version.
Hypothesis Hbackend : fsb_options backend = backend_options options.
Hypothesis Hroot : root_available backend = true.
Hypothesis Hfile : fsb_tree backend !! target_path (bsr_provider_ref request) =
  Some (Regular (render (document_fields options request
                   (make_secret_name (bsr_provider_ref request)) version)) true).

Let name : string := make_secret_name (bsr_provider_ref request).
Let record : SecretBackendRecord := imported_record options (bsr_provider_ref request) version.

Lemma written_parsed :
  parse_field_document (fsb_tree backend) (target_path (bsr_provider_ref request)) =
    Ok (document_map options request version).
Proof.
  unfold parse_field_document. rewrite Hfile. apply parse_field_render. by apply document_fits.
Qed.

Lemma provider_safe : is_provider_ref_safe (bsr_provider_ref request) = true.
Proof. unfold bootstrap_request_valid in Hrequest. by apply andb_true_iff in Hrequest as [[? _]%andb_true_iff _]. Qed.

Lemma written_found : find_secret_file backend name = Some (target_path (bsr_provider_ref request)).
Proof.
  unfold find_secret_file, name. rewrite (proj2 (secret_file_path _ provider_safe)).
  unfold path_is_regular_file_noexcept. by rewrite Hfile.
Qed.

Lemma imported_record_valid : backend_record_valid record = true.
Proof.
  destruct Hoptions as (_ & Hb & (Hp & _) & (Ho & _) & _). destruct Hversion as (Hv & _).
  unfold backend_record_valid, secret_descriptor_valid. cbn.
  rewrite !(proj2 (is_empty_false _)); try done.
Qed.

Lemma written_built :
  build_secret_record (parse_field_document (fsb_tree backend) (target_path (bsr_provider_ref request))) name
    (fsb_options backend) (target_path (bsr_provider_ref request)) = Some record.
Proof.
  rewrite written_parsed, Hbackend. cbn [build_secret_record].
  destruct (document_lookups options request version) as (-> & -> & -> & -> & _); [apply Hoptions|].
  cbn [fbo_backend_ref fbo_encrypt_at_rest backend_options].
  pose proof imported_record_valid as Hvalid. unfold record, imported_record in *.
  change (parse_classification "token") with SecretClassification.Token. unfold name.
  by rewrite Hvalid.
Qed.

Lemma written_fetched purpose mode :
  purpose <> "" -> mode <> SecretAccessMode.Unspecified ->
  file_fetch_record backend (make_query name purpose mode) =
    (set_file_error backend None, outcome_success record).
Proof.
  intros Hp Hm. unfold file_fetch_record. rewrite Hroot. cbn [negb sq_secret_name make_query].
  assert (query_valid (make_query name purpose mode) = true) as ->.
  { unfold query_valid. cbn. rewrite (proj2 (is_empty_false purpose)), bool_decide_false by done. done. }
  pose proof (proj1 (secret_file_path _ provider_safe)) as Hs. fold name in Hs.
  rewrite Hs. cbn [negb orb].
  rewrite written_found, written_built. done.
Qed.

Lemma written_materialized context now_ms :
  access_context_valid context = true ->
  (file_materialize_record backend record context now_ms).2 =
    outcome_success (Some (from_text_copy (buffer_bytes (bsr_secret request))),
      backend_lease "file" record context 60000 1 now_ms).
Proof.
  intros Hc. unfold file_materialize_record. rewrite Hroot, Hc. cbn [negb].
  change (sd_secret_name (sbr_descriptor record)) with name.
  rewrite written_found, written_built. rewrite bool_decide_true by done. cbn [negb].
  rewrite written_parsed, Hbackend. cbn [fbo_encrypt_at_rest backend_options].
  destruct Hoptions as (He & _). rewrite He. unfold decode_materialized_secret. cbn [result_bind negb].
  destruct (document_lookups options request version He) as (_ & _ & _ & _ & ->).
  rewrite hex_encode_length, Nat.odd_mul. cbn [Nat.odd Nat.even negb andb].
  by rewrite hex_decode_pairs_encode.
Qed.

Lemma written_ready (manager : SecretManagerFacade) :
  smf_backend manager = Some backend -> ready_backend manager = Some backend.
Proof.
  intros Hb. unfold ready_backend. rewrite Hb.
  cbn [get_backend_status FileBackend sbs_state file_backend_status].
  by rewrite Hroot, bool_decide_false.
Qed.

Lemma written_got (manager : SecretManagerFacade) purpose context now_ms :
  smf_backend manager = Some backend -> purpose <> "" -> access_context_valid context = true ->
  get_secret manager (make_query name purpose SecretAccessMode.Materialize) context now_ms =
    (cache_record (set_backend manager (Some (set_file_error backend None))) record,
     outcome_success (make_handle record (smf_options manager) now_ms)).
Proof.
  intros Hb Hp Hc.
  apply (get_secret_succeeds _ _ _ _ backend (set_file_error backend None) (outcome_success record));
    [|done|by apply written_ready| |done].
  - unfold query_valid. cbn. by rewrite (proj2 (is_empty_false purpose)).
  - by apply written_fetched.
Qed.

Lemma written_granted (manager : SecretManagerFacade) context now_ms t1 t2 t3 :
  smf_backend manager = Some backend -> access_context_valid context = true ->
  0 < now_ms -> t1 <= now_ms + 60000 -> t3 <= now_ms + 60000 -> t3 <= t2 + 60000 ->
  let granted := (materialize manager (make_handle record default_manager_options now_ms)
                    context t1 t2 t3).2 in
  so_ok granted = true /\
  (so_payload granted).1 = Some (from_text_copy (buffer_bytes (bsr_secret request))).
Proof.
  intros Hb Hc Hnow Ht1 Ht3 Ht23.
  apply (materialize_succeeds manager _ context t1 t2 t3 backend (set_file_error backend None)
    (outcome_success record)
    (outcome_success (Some (from_text_copy (buffer_bytes (bsr_secret request))),
       backend_lease "file" record context 60000 1 t2))); try done.
  - apply make_handle_valid; [apply imported_record_valid|done].
  - by apply written_ready.
  - by apply written_fetched.
  - exact (written_materialized context t2 Hc).
Qed.
End Written.

(** *** The import *)

(** Making directories touches no file. *)
Lemma create_directory_files made tree path tree' :
  create_directory made tree path = Some tree' ->
  tree' !! path = Some Directory /\
  forall other, tree !! other <> None \/ other <> path -> tree' !! other = tree !! other.
Proof.
  unfold create_directory. destruct (tree !! path) as [[|contents readable]|] eqn:E; [|done|].
  - intros [= <-]. by split.
  - destruct made; [|done]. intros [= <-].
    rewrite lookup_insert_eq. split; [done|]. intros other Ho.
    destruct (decide (path = other)) as [->|Hne]; [|by rewrite lookup_insert_ne].
    by destruct Ho.
Qed.

Lemma prepared_files root_dir io tree tree' problem :
  prepare_directories root_dir io tree = (tree', problem) ->
  forall name, tree' !! target_path name = tree !! target_path name.
Proof.
  unfold prepare_directories. intros Ep name. revert Ep.
  destruct (create_directory (io_root_made io) tree []) as [rooted|] eqn:E1; [|by intros [= <- _]].
  apply create_directory_files in E1 as [_ O1]. rewrite <- (O1 (target_path name)) by (by right).
  destruct (negb (io_root_mode io)); [by intros [= <- _]|].
  destruct (apply_runtime_reader_access (io_root_access io) _); [by intros [= <- _]|].
  destruct (create_directory _ rooted ["llm"]) as [with_llm|] eqn:E2; [|by intros [= <- _]].
  apply create_directory_files in E2 as [_ O2]. rewrite <- (O2 (target_path name)) by (by right).
  destruct (create_directory _ with_llm providers_path) as [made|] eqn:E3; [|by intros [= <- _]].
  apply create_directory_files in E3 as [_ O3]. rewrite <- (O3 (target_path name)) by (by right).
  destruct (negb (io_providers_mode io)); [by intros [= <- _]|].
  destruct (apply_runtime_reader_access (io_llm_access io) _); by intros [= <- _].
Qed.

Lemma prepared_root root_dir io tree tree' :
  prepare_directories root_dir io tree = (tree', None) -> tree' !! [] = Some Directory.
Proof.
  unfold prepare_directories.
  destruct (create_directory (io_root_made io) tree []) as [rooted|] eqn:E1; [|done].
  destruct (negb (io_root_mode io)); [done|].
  destruct (apply_runtime_reader_access (io_root_access io) _); [done|].
  destruct (create_directory _ rooted ["llm"]) as [with_llm|] eqn:E2; [|done].
  destruct (create_directory _ with_llm providers_path) as [ready|] eqn:E3; [|done].
  destruct (negb (io_providers_mode io)); [done|].
  destruct (apply_runtime_reader_access (io_llm_access io) _); [done|]. intros [= <- _].
  apply create_directory_files in E1 as [H1 _], E2 as [_ O2], E3 as [_ O3].
  by rewrite O3, O2, H1 by (by right).
Qed.

(** The version that the writer finds is the one the backend holds. *)
Lemma existing_version options tree provider_ref :
  is_provider_ref_safe provider_ref = true -> is_directory tree [] = true ->
  current_version_for_existing_secret options tree (make_secret_name provider_ref) =
    file_held_version (backend_over options tree) (make_secret_name provider_ref).
Proof.
  intros Hsafe Hroot. unfold current_version_for_existing_secret, file_held_version, file_record.
  cbn [fetch_record FileBackend]. unfold file_fetch_record, root_available.
  cbn [fsb_tree backend_over fsb_options sq_secret_name make_query sq_version_hint]. rewrite Hroot.
  rewrite (proj1 (secret_file_path _ Hsafe)). cbn [negb orb].
  assert (query_valid (make_query (make_secret_name provider_ref) "bootstrap_import"
            SecretAccessMode.Rotate) = true) as -> by done.
  cbn [negb orb]. destruct (find_secret_file _ _) as [path|]; [|done].
  by destruct (build_secret_record _ _ _ _) as [record|].
Qed.

Lemma held_version_files options tree tree' provider_ref :
  is_provider_ref_safe provider_ref = true ->
  tree' !! target_path provider_ref = tree !! target_path provider_ref ->
  file_held_version (backend_over options tree') (make_secret_name provider_ref) =
    file_held_version (backend_over options tree) (make_secret_name provider_ref).
Proof.
  intros Hsafe H. unfold file_held_version, file_record, find_secret_file.
  rewrite (proj2 (secret_file_path _ Hsafe)). unfold path_is_regular_file_noexcept.
  cbn [fsb_tree backend_over fsb_options]. rewrite H.
  destruct (tree !! target_path provider_ref) as [[|]|] eqn:E; try done.
  unfold parse_field_document. by rewrite H, E.
Qed.

Lemma write_temporary_none io tree path path_name document tree' :
  write_temporary io tree path path_name document = (tree', None) ->
  tree' = <[path := Regular document true]> tree.
Proof.
  unfold write_temporary. repeat (case_match; try done). by intros [= <-].
Qed.

Lemma import_success options io tree request tree' result :
  import_secret options io tree request = (tree', Some result) -> spr_ok result = true ->
  bootstrap_request_valid request = true /\
  spr_secret_name result = make_secret_name (bsr_provider_ref request) /\
  spr_auth_ref result = make_auth_ref (bsr_provider_ref request) /\
  next_version
    (default "" (file_held_version (backend_over options tree) (spr_secret_name result)))
    (bwo_initial_version options) = Some (spr_version result) /\
  is_directory tree' [] = true /\
  tree' !! target_path (bsr_provider_ref request) =
    Some (Regular (render (document_fields options request (spr_secret_name result)
                     (spr_version result))) true).
Proof.
  unfold import_secret. destruct (bootstrap_request_valid request) eqn:Hv; [|by intros [= _ <-]].
  assert (is_provider_ref_safe (bsr_provider_ref request) = true) as Hsafe
    by (unfold bootstrap_request_valid in Hv;
        by apply andb_true_iff in Hv as [[? _]%andb_true_iff _]).
  cbn [negb]. destruct (prepare_directories _ io tree) as [ready [message|]] eqn:Ep;
    [by intros [= _ <-]|].
  pose proof (prepared_root _ _ _ _ Ep) as Hroot. pose proof (prepared_files _ _ _ _ _ Ep) as Hfiles.
  assert (is_directory ready [] = true) as Hdir by (unfold is_directory; by rewrite Hroot).
  rewrite (existing_version options ready _ Hsafe Hdir).
  rewrite (held_version_files options tree ready _ Hsafe (Hfiles _)).
  destruct (next_version _ _) as [version|] eqn:En; [|done].
  set (temp := temp_path (bsr_provider_ref request)).
  set (removed := remove_file _ ready temp).
  destruct (write_temporary io removed _ _ _) as [written [message|]] eqn:Ew; [by intros [= _ <-]|].
  apply write_temporary_none in Ew as ->.
  destruct (negb (io_renamed io) || _); [by intros [= _ <-]|].
  destruct (apply_runtime_reader_access _ _); [by intros [= _ <-]|].
  intros [= <- <-] _. cbn [spr_secret_name spr_version provisioning_success spr_auth_ref].
  split_and!; try done.
  - unfold is_directory. rewrite lookup_insert_ne by done. rewrite lookup_delete_ne by done.
    rewrite lookup_insert_ne by done.
    unfold removed, remove_file.
    destruct (io_old_temp_removed io); [rewrite lookup_delete_ne by done|]; by rewrite Hroot.
  - by rewrite lookup_insert_eq.
Qed.

(** C21. A secret that is imported in hexadecimal digits ([encrypt_at_rest]) is what the caller of
    the manager gets, byte for byte, under a handle of the version that the import reports, which
    differs from the version that was there before. The import needs options that name a backend
    and whose rotation policy, owner and first version are each one line without blanks at its
    ends, and a profile name that is absent, empty or such a line: a secret in the clear may come
    back shorter ([plaintext_loses_blanks]), and a profile name of two lines sets other fields
    ([profile_name_sets_version]). The caller needs an access context that is valid, and reads
    the clock within the 60 seconds of the handle and of the lease. *)
Theorem imported_secret_read_back options io tree request tree' result context now_ms t1 t2 t3 :
  import_options_ok options -> profile_name_ok request ->
  import_secret options io tree request = (tree', Some result) -> spr_ok result = true ->
  access_context_valid context = true ->
  0 < now_ms -> t1 <= now_ms + 60000 -> t3 <= now_ms + 60000 -> t3 <= t2 + 60000 ->
  let manager := new_secret_manager (Some (backend_over options tree')) default_manager_options in
  let got := get_secret manager
    (make_query (spr_secret_name result) "call" SecretAccessMode.Materialize) context now_ms in
  let granted := materialize got.1 (so_payload got.2) context t1 t2 t3 in
  so_ok got.2 = true /\ sh_version (so_payload got.2) = spr_version result /\
  held_version (backend_over options tree) (spr_secret_name result) <> Some (spr_version result) /\
  so_ok granted.2 = true /\
  option_map buffer_bytes (so_payload granted.2).1 = Some (buffer_bytes (bsr_secret request)).
Proof.
  intros Ho Hprofile Himport Hok Hc Hnow Ht1 Ht3 Ht23 manager got granted.
  apply import_success in Himport as (Hreq & Hname & _ & Hnext & Hroot & Hfile); [|done].
  set (provider_ref := bsr_provider_ref request) in *.
  assert (value_ok (spr_version result)) as Hversion.
  { refine (next_version_ok _ _ _ _ _ Hnext); [|apply Ho].
    unfold file_held_version. destruct (file_record _ _) as [record|] eqn:E; [|by left].
    right. by apply file_version_ok in E. }
  assert (root_available (backend_over options tree') = true) as Hra by done.
  rewrite Hname in Hfile, Hnext.
  pose proof (written_got options request (spr_version result) (backend_over options tree') Ho
    Hprofile Hreq Hversion eq_refl Hra Hfile manager "call" context now_ms eq_refl ltac:(done) Hc)
    as Hgot.
  fold provider_ref in Hgot. rewrite <- Hname in Hgot. fold got in Hgot. clearbody got. subst got.
  split; [done|]. split; [done|]. split.
  { rewrite Hname. cbn [held_version FileLaws]. intros Hheld. rewrite Hheld in Hnext. cbn in Hnext.
    apply next_version_differs in Hnext; [done|apply Hversion]. }
  destruct (written_granted options request (spr_version result)
    (set_file_error (backend_over options tree') None) Ho Hprofile Hreq Hversion eq_refl Hra Hfile
    (cache_record (set_backend manager (Some (set_file_error (backend_over options tree') None)))
       (imported_record options provider_ref (spr_version result)))
    context now_ms t1 t2 t3 eq_refl Hc Hnow Ht1 Ht3 Ht23) as [Hg Hp].
  split; [exact Hg|exact (f_equal (option_map buffer_bytes) Hp)].
Qed.

(** A failed import leaves the secret as it was, unless its last call is what failed. *)
Lemma failed_import_keeps options io tree request tree' result :
  import_secret options io tree request = (tree', Some result) -> spr_ok result = false ->
  tree' !! target_path (bsr_provider_ref request) = tree !! target_path (bsr_provider_ref request)
  \/ io_renamed io = true /\ io_target_access io <> ReaderAccess.Granted.
Proof.
  assert (forall ref, temp_path ref <> target_path ref) as Hne.
  { intros ref [= H]. apply string_app_inj in H. done. }
  unfold import_secret. destruct (negb (bootstrap_request_valid request)); [intros [= <- _]; by left|].
  destruct (prepare_directories _ io tree) as [ready problem] eqn:Ep.
  pose proof (prepared_files _ _ _ _ _ Ep) as Hready.
  destruct problem as [message|]; [intros [= <- _]; by left|].
  destruct (next_version _ _) as [version|]; [|done].
  set (ref := bsr_provider_ref request).
  assert (forall removed t, remove_file removed t (temp_path ref) !! target_path ref =
            t !! target_path ref) as Hremove.
  { intros [] t; [|done]. cbn. by rewrite lookup_delete_ne. }
  destruct (write_temporary io _ _ _ _) as [written [message|]] eqn:Ew.
  - intros [= <- _] _. left. rewrite Hremove.
    rewrite <- Hready, <- (Hremove (io_old_temp_removed io) ready). revert Ew. unfold write_temporary.
    destruct (negb (io_temp_opened io) || _); [by intros [= <- _]|].
    destruct (negb (io_flushed io)); [intros [= <- _]; by rewrite lookup_insert_ne|].
    destruct (negb (io_temp_mode io)); intros [= <- _]; by rewrite lookup_insert_ne.
  - apply write_temporary_none in Ew as ->.
    destruct (io_renamed io); cbn [negb orb].
    + destruct (is_directory _ _).
      * intros [= <- _] _. left. by rewrite Hremove, lookup_insert_ne, Hremove, Hready.
      * destruct (io_target_access io); [|by right..]. intros [= _ <-]. done.
    + intros [= <- _] _. left. by rewrite Hremove, lookup_insert_ne, Hremove, Hready.
Qed.

(** ** A sample *)

Definition sample_import_options : SecretBootstrapWriterOptions :=
  {| bwo_root_dir := "/var/lib/dasall/secrets"; bwo_encrypt_at_rest := true;
     bwo_backend_ref := "file.primary"; bwo_rotation_policy_ref := "rotation/manual";
     bwo_owner_ref := "llm-config"; bwo_initial_version := "v1" |}.

Definition all_granted : ImportIo :=
  {| io_root_made := true; io_root_mode := true; io_root_access := ReaderAccess.Granted;
     io_llm_made := true; io_providers_made := true; io_providers_mode := true;
     io_llm_access := ReaderAccess.Granted; io_providers_access := ReaderAccess.Granted;
     io_old_temp_removed := true; io_temp_opened := true; io_flushed := true; io_stored := 0;
     io_temp_mode := true; io_temp_access := ReaderAccess.Granted; io_renamed := true;
     io_cleaned_up := true; io_target_access := ReaderAccess.Granted |}.

Definition sample_import (secret : string) (auth_profile_name : option string)
    : SecretBootstrapRequest :=
  {| bsr_provider_ref := "deepseek"; bsr_secret := from_text_copy secret;
     bsr_auth_profile_name := auth_profile_name |}.

Definition two_lines : string := " key" +:+ String newline "=two ".

Definition imported : FileTree * option SecretProvisioningResult :=
  import_secret sample_import_options all_granted ∅ (sample_import two_lines (Some "default")).

Lemma imported_secret_read_back_witness :
  exists result, imported.2 = Some result /\ spr_ok result = true /\ spr_version result = "v1" /\
  let manager := new_secret_manager (Some (backend_over sample_import_options imported.1))
    default_manager_options in
  let got := get_secret manager
    (make_query (spr_secret_name result) "call" SecretAccessMode.Materialize) sample_context 1000 in
  let granted := materialize got.1 (so_payload got.2) sample_context 1001 1002 1003 in
  option_map buffer_bytes (so_payload granted.2).1 = Some two_lines.
Proof.
  destruct (imported.2) as [result|] eqn:E; [|vm_compute in E; discriminate E].
  exists result. split; [reflexivity|].
  assert (spr_ok result = true) as Hok by (vm_compute in E; injection E as <-; reflexivity).
  split; [exact Hok|]. split; [vm_compute in E; injection E as <-; reflexivity|].
  refine (proj2 (proj2 (proj2 (proj2 (imported_secret_read_back sample_import_options all_granted ∅
    (sample_import two_lines (Some "default")) imported.1 result sample_context 1000 1001 1002 1003
    _ _ _ Hok _ _ _ _ _))))).
  - repeat split; try discriminate; vm_compute; reflexivity.
  - intros name [= <-]. right. split; [discriminate|split; vm_compute; reflexivity].
  - rewrite <- E. unfold imported. destruct (import_secret _ _ _ _); reflexivity.
  - vm_compute. reflexivity.
  - lia.
  - lia.
  - lia.
  - lia.
Defined.

(** Without encryption the bytes are written as they are: blanks around them are lost, and a
    line break ends the field. *)
Example plaintext_loses_blanks :
  let options := {| bwo_root_dir := "/secrets"; bwo_encrypt_at_rest := false;
                    bwo_backend_ref := "file.primary"; bwo_rotation_policy_ref := "rotation/manual";
                    bwo_owner_ref := "llm-config"; bwo_initial_version := "v1" |} in
  let read := fun secret =>
    let tree := (import_secret options all_granted ∅ (sample_import secret None)).1 in
    let record := (fetch_record (backend_over options tree)
      (make_query "llm/providers/deepseek" "call" SecretAccessMode.Materialize)).2 in
    option_map buffer_bytes
      (so_payload (materialize_record (backend_over options tree) (so_payload record)
                     sample_context 1000).2).1 in
  read " key " = Some "key" /\ read two_lines = None.
Proof. vm_compute. done. Qed.

(** The name of the profile may hold a line break: the rest of it is a field of its own, here
    the version of the secret, which the import does not report. *)
Example profile_name_sets_version :
  let request := sample_import "key" (Some ("default" +:+ String newline "version=v7")) in
  let '(tree, result) := import_secret sample_import_options all_granted ∅ request in
  option_map spr_version result = Some "v1" /\
  file_held_version (backend_over sample_import_options tree) "llm/providers/deepseek" = Some "v7".
Proof. vm_compute. done. Qed.

(** An import that fails at its last call has replaced the secret. *)
Example failed_import_replaces :
  let io := {| io_root_made := true; io_root_mode := true; io_root_access := ReaderAccess.Granted;
     io_llm_made := true; io_providers_made := true; io_providers_mode := true;
     io_llm_access := ReaderAccess.Granted; io_providers_access := ReaderAccess.Granted;
     io_old_temp_removed := true; io_temp_opened := true; io_flushed := true; io_stored := 0;
     io_temp_mode := true; io_temp_access := ReaderAccess.Granted; io_renamed := true;
     io_cleaned_up := true; io_target_access := ReaderAccess.GroupRefused |} in
  let '(tree, result) := import_secret sample_import_options io ∅ (sample_import "key" None) in
  option_map spr_ok result = Some false /\
  file_held_version (backend_over sample_import_options tree) "llm/providers/deepseek" = Some "v1".
Proof. vm_compute. done. Qed.

