(* ===== verification/LlmConfig.v ===== *)
(** * The configuration and the catalog of models

    llm/include/LLMSubsystemConfig.h with llm/src/LLMSubsystemConfig.cpp, and the snapshot of
    llm/src/provider/ProviderCatalogRepository.h that the router reads. [adapter_config_exact]
    says which configurations of a provider become one of an adapter. *)

From stdpp Require Import sorting.
From S2P Require Import Prelude Text Ordering Doubles.

(** ** Helpers *)

Definition contains_value (values : list string) (needle : string) : bool :=
  bool_decide (needle ∈ values).

(** [std::adjacent_find(...) == end()] *)
Fixpoint no_equal_neighbours (values : list string) : bool :=
  match values with
  | x :: (y :: _) as rest => negb (bool_decide (x = y)) && no_equal_neighbours rest
  | _ => true
  end.

Definition is_reference_value (value : string) : bool :=
  value_starts_with value "secret://" || value_starts_with value "profile://"
  || value_starts_with value "header://".

Definition is_auth_reference_value (value : string) : bool :=
  value_starts_with value "secret://" || value_starts_with value "profile://".

(** [if (find(values, value) == end()) values.push_back(value);] *)
Definition append_new (values : list string) (value : string) : list string :=
  if contains_value values value then values else values ++ [value].

Definition append_unique_values (destination source : list string) : list string :=
  foldl append_new destination source.

(** ** Configuration *)

Record LLMStageRouteConfig := {
  lsr_route : string;
  lsr_fallback_route : option string;
  lsr_streaming_enabled : bool;
}.

Definition stage_route_consistent (c : LLMStageRouteConfig) : bool :=
  negb (is_empty (lsr_route c)) && negb (present_but_empty (lsr_fallback_route c)).

Record PromptAssetSourceConfig := {
  pas_baseline_root : string;
  pas_deployment_root : string;
  pas_snapshot_cache_root : string;
  pas_cache_ttl_ms : Z;
  pas_signature_required : bool;
}.

Definition prompt_sources_consistent (c : PromptAssetSourceConfig) : bool :=
  negb (is_empty (pas_baseline_root c))
  && (is_empty (pas_snapshot_cache_root c) || (0 <? pas_cache_ttl_ms c)).

Record PromptSelectorOverlay := {
  pso_active_scene : string;
  pso_active_persona : string;
  pso_default_prompt_bundle : string;
}.

Record ProviderCatalogSourceConfig := {
  pcs_baseline_root : string;
  pcs_deployment_root : string;
  pcs_snapshot_cache_root : string;
  pcs_signature_required : bool;
  pcs_merge_mode : string;
}.

Definition catalog_sources_consistent (c : ProviderCatalogSourceConfig) : bool :=
  negb (is_empty (pcs_baseline_root c)) && negb (is_empty (pcs_merge_mode c)).

Record ProviderRuntimeProjectionView := {
  prv_provider_instance_id : string;
  prv_base_url_alias : string;
  prv_snapshot_version : string;
  prv_runtime_tags : list string;
  prv_activation_flag : bool;
}.

Definition runtime_view_consistent (v : ProviderRuntimeProjectionView) : bool :=
  negb (is_empty (prv_provider_instance_id v)) && negb (is_empty (prv_base_url_alias v))
  && negb (is_empty (prv_snapshot_version v)).

Record LLMDegradeConfig := {
  ldc_fallback_chain : list string;
  ldc_allow_model_failover : bool;
  ldc_allow_budget_degrade : bool;
}.

Definition degrade_consistent (c : LLMDegradeConfig) : bool :=
  negb (bool_decide (ldc_fallback_chain c = [])).

Record LLMTimeoutConfig := {
  ltc_timeout_ms : Z;
  ltc_retry_budget : Z;
  ltc_circuit_breaker_threshold : Z;
}.

Definition timeout_consistent (c : LLMTimeoutConfig) : bool :=
  (0 <? ltc_timeout_ms c) && (0 <? ltc_circuit_breaker_threshold c).

Record LLMSubsystemConfig := {
  lsc_profile_id : string;
  lsc_stage_routes : gmap string LLMStageRouteConfig;
  lsc_allowed_prompt_releases : list string;
  lsc_trusted_sources : list string;
  lsc_tool_visibility_rules : list string;
  lsc_prompt_asset_sources : PromptAssetSourceConfig;
  lsc_prompt_selector_overlay : PromptSelectorOverlay;
  lsc_provider_catalog_sources : ProviderCatalogSourceConfig;
  lsc_degrade_policy : LLMDegradeConfig;
  lsc_timeout_policy : LLMTimeoutConfig;
  lsc_worker_threads : Z;
}.

Definition stage_route_for (c : LLMSubsystemConfig) (stage : string)
    : option LLMStageRouteConfig :=
  lsc_stage_routes c !! stage.

Record ProviderDescriptor := {
  pde_provider_id : string;
  pde_adapter_family : string;
  pde_api_family : string;
  pde_base_url : string;
  pde_auth_ref : string;
  pde_header_refs : list string;
  pde_capability_tags : list string;
  pde_source_version : string;
}.

Record LLMAdapterConfig := {
  lac_adapter_id : string;
  lac_adapter_family : string;
  lac_provider_instance_id : string;
  lac_base_url : string;
  lac_base_url_alias : string;
  lac_auth_ref : string;
  lac_header_refs : list string;
  lac_activation_flag : bool;
  lac_snapshot_version : string;
  lac_timeout_ms : Z;
  lac_max_retries : Z;
  lac_capability_tags : list string;
}.

Definition config_clamp_timeout_ms (timeout_ms : Z) : Z :=
  if timeout_ms <=? 0 then 0 else u32 (Z.min timeout_ms (2 ^ 32 - 1)).

Section with_sort.
Context {sorting : StdSort}.

Definition has_unique_values (values : list string) : bool :=
  no_equal_neighbours (std_sort (by_text (fun value => value)) values).

Definition subsystem_config_consistent (c : LLMSubsystemConfig) : bool :=
  if is_empty (lsc_profile_id c) || bool_decide (lsc_stage_routes c = ∅)
     || bool_decide (lsc_allowed_prompt_releases c = [])
     || bool_decide (lsc_trusted_sources c = [])
     || negb (prompt_sources_consistent (lsc_prompt_asset_sources c))
     || negb (catalog_sources_consistent (lsc_provider_catalog_sources c))
     || negb (degrade_consistent (lsc_degrade_policy c))
     || negb (timeout_consistent (lsc_timeout_policy c))
     || (lsc_worker_threads c =? 0)
  then false else
  forallb (fun entry => negb (is_empty entry.1) && stage_route_consistent entry.2)
    (map_to_list (lsc_stage_routes c))
  && has_unique_values (lsc_allowed_prompt_releases c)
  && has_unique_values (lsc_trusted_sources c)
  && has_unique_values (lsc_tool_visibility_rules c).

Definition project_provider_to_adapter_config (config : LLMSubsystemConfig)
    (descriptor : ProviderDescriptor) (runtime_view : ProviderRuntimeProjectionView)
    : option LLMAdapterConfig :=
  if negb (subsystem_config_consistent config) || negb (runtime_view_consistent runtime_view)
     || is_empty (pde_provider_id descriptor) || is_empty (pde_adapter_family descriptor)
     || is_empty (pde_base_url descriptor) || is_empty (pde_auth_ref descriptor)
  then None else
  if negb (is_auth_reference_value (pde_auth_ref descriptor))
     || negb (has_unique_values (pde_header_refs descriptor))
     || negb (forallb is_reference_value (pde_header_refs descriptor))
  then None else
  let timeout_ms := config_clamp_timeout_ms (ltc_timeout_ms (lsc_timeout_policy config)) in
  if timeout_ms =? 0 then None else
  Some {| lac_adapter_id := prv_provider_instance_id runtime_view;
          lac_adapter_family := pde_adapter_family descriptor;
          lac_provider_instance_id := prv_provider_instance_id runtime_view;
          lac_base_url := pde_base_url descriptor;
          lac_base_url_alias := prv_base_url_alias runtime_view;
          lac_auth_ref := pde_auth_ref descriptor;
          lac_header_refs := pde_header_refs descriptor;
          lac_activation_flag := prv_activation_flag runtime_view;
          lac_snapshot_version := prv_snapshot_version runtime_view;
          lac_timeout_ms := timeout_ms;
          lac_max_retries := ltc_retry_budget (lsc_timeout_policy config);
          lac_capability_tags :=
            append_unique_values (pde_capability_tags descriptor)
              (prv_runtime_tags runtime_view) |}.

End with_sort.

(** ** The catalog *)

Record ModelCatalogEntry := {
  mce_provider_id : string;
  mce_model_id : string;
  mce_model_version : string;
  mce_tier_family : string;
  mce_latency_tier : string;
  mce_cost_tier : string;
  mce_reasoning_depth_tier : string;
  mce_context_window : Z;
  mce_default_max_output_tokens : Z;
  mce_max_output_tokens_hard_limit : Z;
  mce_supports_tools : bool;
  mce_supports_reasoning : bool;
  mce_supports_visible_reasoning : bool;
  mce_supports_prompt_cache : bool;
  mce_input_cache_hit_usd_per_1m : spec_float;
  mce_input_cache_miss_usd_per_1m : spec_float;
  mce_output_usd_per_1m : spec_float;
  mce_metadata_source_uri : string;
  mce_metadata_effective_at : string;
  mce_verification_state : string;
}.

Record ProviderRuntimeSettings := {
  prs_display_name : string;
  prs_auth_mode : string;
  prs_trusted_source : string;
  prs_source_layer : string;
  prs_base_url_alias : string;
  prs_tags : list string;
  prs_mutable_overlay_fields : list string;
  prs_activation_flag : bool;
}.

Record ProviderCatalogProvider := {
  pcp_descriptor : ProviderDescriptor;
  pcp_runtime : ProviderRuntimeSettings;
}.

Record ProviderModelMetadata := {
  pmm_summary : ModelCatalogEntry;
  pmm_display_name : string;
  pmm_reasoning_mode : string;
  pmm_source_layer : string;
  pmm_pricing_ref : string;
  pmm_aliases : list string;
  pmm_input_modalities : list string;
  pmm_feature_notes : list string;
  pmm_response_private_fields : list string;
  pmm_verification_states : gmap string string;
  pmm_supports_streaming : bool;
  pmm_supports_json_object : bool;
  pmm_supports_json_schema : bool;
  pmm_supports_native_stream_usage : bool;
}.

Record ProviderCatalogSnapshot := {
  cat_default_source_version : string;
  cat_providers : list ProviderCatalogProvider;
  cat_models : list ProviderModelMetadata;
}.

Definition runtime_settings_consistent (s : ProviderRuntimeSettings) : bool :=
  negb (is_empty (prs_display_name s)) && negb (is_empty (prs_auth_mode s))
  && negb (is_empty (prs_trusted_source s)) && negb (is_empty (prs_source_layer s))
  && negb (is_empty (prs_base_url_alias s)).

Definition provider_consistent (p : ProviderCatalogProvider) : bool :=
  let descriptor := pcp_descriptor p in
  negb (is_empty (pde_provider_id descriptor)) && negb (is_empty (pde_adapter_family descriptor))
  && negb (is_empty (pde_api_family descriptor)) && negb (is_empty (pde_base_url descriptor))
  && negb (is_empty (pde_auth_ref descriptor)) && negb (is_empty (pde_source_version descriptor))
  && runtime_settings_consistent (pcp_runtime p).

Definition model_consistent (m : ProviderModelMetadata) : bool :=
  let summary := pmm_summary m in
  negb (is_empty (mce_provider_id summary)) && negb (is_empty (mce_model_id summary))
  && negb (is_empty (mce_model_version summary)) && (0 <? mce_context_window summary)
  && (0 <? mce_default_max_output_tokens summary)
  && (0 <? mce_max_output_tokens_hard_limit summary)
  && negb (is_empty (mce_metadata_source_uri summary))
  && negb (is_empty (mce_metadata_effective_at summary))
  && negb (is_empty (mce_verification_state summary)) && negb (is_empty (pmm_display_name m))
  && negb (is_empty (pmm_pricing_ref m)) && negb (bool_decide (pmm_aliases m = []))
  && negb (bool_decide (pmm_input_modalities m = []))
  && negb (bool_decide (pmm_verification_states m = ∅)).

Definition verification_state_for (m : ProviderModelMetadata) (capability : string) : string :=
  default "" (pmm_verification_states m !! capability).

Definition catalog_consistent (c : ProviderCatalogSnapshot) : bool :=
  negb (bool_decide (cat_providers c = [])) && negb (bool_decide (cat_models c = []))
  && forallb provider_consistent (cat_providers c) && forallb model_consistent (cat_models c).

Definition find_provider (c : ProviderCatalogSnapshot) (provider_id : string)
    : option ProviderCatalogProvider :=
  List.find (fun p => bool_decide (pde_provider_id (pcp_descriptor p) = provider_id))
    (cat_providers c).

Definition find_model (c : ProviderCatalogSnapshot) (provider_id model_id : string)
    : option ProviderModelMetadata :=
  List.find (fun m => bool_decide (mce_provider_id (pmm_summary m) = provider_id)
                      && bool_decide (mce_model_id (pmm_summary m) = model_id))
    (cat_models c).

(** ** Properties *)

Lemma contains_value_true values needle : contains_value values needle = true <-> needle ∈ values.
Proof. apply bool_decide_eq_true. Qed.

#[export] Hint Rewrite contains_value_true : code.

Lemma append_new_elem values value x : x ∈ append_new values value <-> x ∈ values \/ x = value.
Proof.
  unfold append_new. destruct (contains_value values value) eqn:E.
  - apply contains_value_true in E. split; [by left|]. by intros [?| ->].
  - rewrite elem_of_app, list_elem_of_singleton. done.
Qed.

Lemma append_new_nodup values value : NoDup values -> NoDup (append_new values value).
Proof.
  intros H. unfold append_new. destruct (contains_value values value) eqn:E; [done|].
  apply NoDup_app. split; [done|]. split; [|apply NoDup_singleton].
  intros x Hx ->%list_elem_of_singleton. by apply contains_value_true in Hx; congruence.
Qed.

Lemma append_unique_values_elem source destination x :
  x ∈ append_unique_values destination source <-> x ∈ destination \/ x ∈ source.
Proof.
  unfold append_unique_values. revert destination.
  induction source as [|value source IH]; intros destination; simpl.
  - rewrite elem_of_nil. tauto.
  - rewrite IH, append_new_elem, elem_of_cons. tauto.
Qed.

Lemma append_unique_values_nodup source destination :
  NoDup destination -> NoDup (append_unique_values destination source).
Proof.
  unfold append_unique_values. revert destination.
  induction source as [|value source IH]; intros destination; simpl; [done|].
  intros. apply IH. by apply append_new_nodup.
Qed.

Section with_sort.
Context {sorting : StdSort}.

Lemma no_equal_neighbours_nodup (l : list string) :
  StronglySorted (not_after (by_text (fun value => value))) l ->
  no_equal_neighbours l = true <-> NoDup l.
Proof.
  induction l as [|x l IH]; intros Hs; [split; [constructor|done]|].
  apply StronglySorted_inv in Hs as [Hs Hx]. rewrite NoDup_cons, <-IH by done.
  destruct l as [|y l]; [split; [split; [by apply not_elem_of_nil|done]|done]|].
  cbn [no_equal_neighbours]. rewrite andb_true_iff, negb_true_iff, bool_decide_eq_false.
  split; [|intros [Hn ?]; split; [|done]; intros ->; apply Hn, list_elem_of_here].
  intros [Hn ?]. split; [|done]. rewrite elem_of_cons. intros [->|Hin]; [done|].
  apply StronglySorted_inv in Hs as [_ Hy].
  rewrite Forall_forall in Hx, Hy. specialize (Hx y (list_elem_of_here _ _)). specialize (Hy x Hin).
  unfold not_after, by_text in Hx, Hy. apply Hn. apply String.compare_eq_iff.
  rewrite (String.compare_antisym y x) in Hx.
  destruct (String.compare x y); [done|by destruct Hy|by destruct Hx].
Qed.

(** The test on the sorted copy asks for distinct values. *)
Lemma has_unique_values_iff values : has_unique_values values = true <-> NoDup values.
Proof.
  unfold has_unique_values. rewrite no_equal_neighbours_nodup by apply std_sort_sorted, _.
  by rewrite std_sort_perm by apply _.
Qed.

Lemma consistent_timeout config :
  subsystem_config_consistent config = true -> 0 < ltc_timeout_ms (lsc_timeout_policy config).
Proof.
  unfold subsystem_config_consistent. intros H. split_in H. clear H.
  match goal with E : _ = false |- _ => rename E into H end.
  unfold timeout_consistent in H. reflect_tests. lia.
Qed.

(** A provider gets an adapter exactly when it and the configuration are complete, its
    credentials and headers are references, and no header is named twice. *)
Lemma adapter_config_exact config descriptor runtime_view :
  is_Some (project_provider_to_adapter_config config descriptor runtime_view) <->
  subsystem_config_consistent config = true /\ runtime_view_consistent runtime_view = true /\
  pde_provider_id descriptor <> "" /\ pde_adapter_family descriptor <> "" /\
  pde_base_url descriptor <> "" /\
  is_auth_reference_value (pde_auth_ref descriptor) = true /\
  NoDup (pde_header_refs descriptor) /\
  (forall ref, In ref (pde_header_refs descriptor) -> is_reference_value ref = true).
Proof.
  rewrite <-has_unique_values_iff, <-forallb_forall, <-!is_empty_false.
  unfold project_provider_to_adapter_config.
  destruct (subsystem_config_consistent config) eqn:Ec; cbn; [|by split; [intros [? ?]|intros [? ?]]].
  apply consistent_timeout in Ec. unfold config_clamp_timeout_ms.
  rewrite (proj2 (Z.leb_gt _ _)) by lia. rewrite u32_id by (unfold in_u32; lia).
  rewrite (proj2 (Z.eqb_neq _ _)) by lia.
  assert (is_auth_reference_value (pde_auth_ref descriptor) = true ->
          is_empty (pde_auth_ref descriptor) = false) as Hauth.
  { intros H. apply is_empty_false. intros E. rewrite E in H. by vm_compute in H. }
  repeat match goal with |- context [?f ?x] =>
    match type of (f x) with bool =>
      lazymatch f with runtime_view_consistent => idtac | is_empty => idtac
        | is_auth_reference_value => idtac | has_unique_values => idtac
        | forallb is_reference_value => idtac end;
      destruct (f x) eqn:?; cbn end end;
    split; try (by intros [? ?]); try naive_solver.
Qed.

End with_sort.
