(* ===== verification/ModelRouter.v ===== *)
(** * The choice of a model

    llm/src/route/ModelRouter.cpp: which models of the catalog may answer a request, and in
    which order they are tried. [routes_exact] says both; [resolve_defined] bounds the
    counters up to which the score stays an int. *)

From stdpp Require Import sorting.
From S2P Require Import Prelude Text Ordering Doubles LlmConfig.

(** ** Data *)

Record ModelSelectionHint := {
  msh_stage : string;
  msh_task_type : string;
  msh_complexity_tier : string;
  msh_latency_sla_tier : string;
  msh_budget_tier : string;
  msh_requires_tools : bool;
  msh_requires_reasoning : bool;
  msh_prefers_visible_reasoning : bool;
  msh_estimated_input_tokens : Z;
  msh_target_output_tokens : Z;
  msh_previous_route_failures : Z;
}.

Record ResolvedModelRoute := {
  rmr_stage : string;
  rmr_primary_route : string;
  rmr_fallback_routes : list string;
  rmr_streaming_enabled : bool;
}.

Record ModelRouterHealthState := {
  mhs_provider_id : string;
  mhs_model_id : string;
  mhs_blocked : bool;
  mhs_consecutive_failures : Z;
}.

Abbreviation ModelRouterHealthSnapshot := (list ModelRouterHealthState).

Record ModelRouterAuditEvidence := {
  mae_route_id : string;
  mae_route_preference : string;
  mae_outcome : string;
  mae_reason_codes : list string;
}.

Record ModelRouterResolveResult := {
  mrr_resolved_route : option ResolvedModelRoute;
  mrr_selection_reason_codes : list string;
  mrr_audit_evidence : list ModelRouterAuditEvidence;
}.

Record RoutePreference := {
  rpf_raw_route : string;
  rpf_locality : string;
  rpf_preferred_tier : string;
  rpf_order : Z;
}.

Record ScoredCandidate := {
  scd_route_id : string;
  scd_route_preference : string;
  scd_provider_id : string;
  scd_model_id : string;
  scd_preferred_tier : string;
  scd_actual_tier : string;
  scd_route_order : Z;
  scd_score : Z;
  scd_reason_codes : list string;
}.

Record ModelRouter := {
  mdr_config : option LLMSubsystemConfig;
}.

(** ** Health *)

Definition find_route_state (snapshot : ModelRouterHealthSnapshot) (provider_id model_id : string)
    : option ModelRouterHealthState :=
  List.find (fun state => bool_decide (mhs_provider_id state = provider_id)
                          && bool_decide (mhs_model_id state = model_id)) snapshot.

Definition route_is_blocked (snapshot : ModelRouterHealthSnapshot) (provider_id model_id : string)
    : bool :=
  match find_route_state snapshot provider_id model_id with
  | Some state => mhs_blocked state
  | None => false
  end.

Definition consecutive_failures_for (snapshot : ModelRouterHealthSnapshot)
    (provider_id model_id : string) : Z :=
  match find_route_state snapshot provider_id model_id with
  | Some state => mhs_consecutive_failures state
  | None => 0
  end.

(** ** Names *)

Definition make_route_id (provider_id model_id : string) : string :=
  provider_id +:+ "/" +:+ model_id.

Definition canonical_tier (raw_tier : string) : string :=
  let tier := lowercase_copy raw_tier in
  if bool_decide (tier = "general") then "default" else
  if bool_decide (tier = "small") then "economy" else
  if bool_decide (tier = "tool-first") then "tool_first" else tier.

Definition tier_rank (tier : string) : Z :=
  let canonical := canonical_tier tier in
  if bool_decide (canonical = "economy") then 0 else
  if bool_decide (canonical = "default") || bool_decide (canonical = "tool_first") then 1 else
  if bool_decide (canonical = "reasoning") then 2 else
  if bool_decide (canonical = "premium") then 3 else 1.

(** The text before the first point and the one behind it. *)
Fixpoint split_point (route : string) : option (string * string) :=
  match route with
  | EmptyString => None
  | String ch rest =>
      if bool_decide (ch = "."%char) then Some ("", rest) else
      match split_point rest with
      | Some (before, after) => Some (String ch before, after)
      | None => None
      end
  end.

Definition parse_route_preference (raw_route : string) (order : Z) : RoutePreference :=
  match split_point raw_route with
  | None =>
      {| rpf_raw_route := raw_route; rpf_locality := lowercase_copy raw_route;
         rpf_preferred_tier := canonical_tier raw_route; rpf_order := order |}
  | Some (locality, tier) =>
      {| rpf_raw_route := raw_route; rpf_locality := lowercase_copy locality;
         rpf_preferred_tier := canonical_tier tier; rpf_order := order |}
  end.

Definition state_is_blocked (state : string) : bool :=
  bool_decide (lowercase_copy state = "blocked").

Definition state_is_verified (state : string) : bool :=
  bool_decide (lowercase_copy state = "verified").

Definition state_requires_validation (state : string) : bool :=
  contains_value ["needs_integration_validation"; "declared"; "limited"] (lowercase_copy state).

Definition model_matches_locality (provider : ProviderCatalogProvider) (locality : string)
    : bool :=
  if is_empty locality then true else
  if bool_decide (locality = "builtin_only") then false else
  contains_value (prs_tags (pcp_runtime provider)) locality
  || contains_value (pde_capability_tags (pcp_descriptor provider)) locality.

Definition provider_source_is_trusted (config : LLMSubsystemConfig)
    (provider : ProviderCatalogProvider) : bool :=
  bool_decide (lsc_trusted_sources config = [])
  || contains_value (lsc_trusted_sources config) (prs_trusted_source (pcp_runtime provider)).

Definition is_reasoning_stage (stage task_type : string) : bool :=
  contains_value ["planner"; "replan"; "diagnosis"] (lowercase_copy stage)
  || contains_value ["plan"; "cross_doc_compare"; "root_cause_analysis"]
       (lowercase_copy task_type).

Definition is_interactive_sla (latency_sla_tier : string) : bool :=
  contains_value ["interactive"; "low"; "fast"] (lowercase_copy latency_sla_tier).

Definition is_hard_budget (budget_tier : string) : bool :=
  contains_value ["hard_cap"; "economy"; "low"] (lowercase_copy budget_tier).

Definition is_summary_like_task (task_type : string) : bool :=
  contains_value ["summary"; "summarize"; "extract"; "rewrite"; "format_convert"]
    (lowercase_copy task_type).

(** Three 32-bit numbers, compared in 64 bits. *)
Definition context_window_is_sufficient (model : ProviderModelMetadata)
    (hint : ModelSelectionHint) : bool :=
  let estimated_input_tokens := msh_estimated_input_tokens hint in
  let target_output_tokens := msh_target_output_tokens hint in
  let context_window := mce_context_window (pmm_summary model) in
  if context_window <? estimated_input_tokens then false else
  if target_output_tokens =? 0 then true else
  u64 (estimated_input_tokens + target_output_tokens) <=? context_window.

Definition output_budget_is_sufficient (model : ProviderModelMetadata)
    (hint : ModelSelectionHint) : bool :=
  (msh_target_output_tokens hint =? 0)
  || (msh_target_output_tokens hint <=? mce_max_output_tokens_hard_limit (pmm_summary model)).

(** ** Preferences *)

(** The loop that skips empty routes and repetitions. *)
Definition deduplicated (routes : list string) : list string :=
  foldl (fun kept route => if is_empty route then kept else append_new kept route) [] routes.

Definition build_route_preferences (config : LLMSubsystemConfig) (hint : ModelSelectionHint)
    (stage_route : LLMStageRouteConfig) : list RoutePreference :=
  let degrade_policy := lsc_degrade_policy config in
  let ordered_routes :=
    lsr_route stage_route :: option_list (lsr_fallback_route stage_route)
    ++ (if ldc_allow_model_failover degrade_policy
           || (ldc_allow_budget_degrade degrade_policy && is_hard_budget (msh_budget_tier hint))
        then ldc_fallback_chain degrade_policy else []) in
  imap (fun index route => parse_route_preference route (Z.of_nat index))
    (deduplicated ordered_routes).

(** ** One candidate *)

(** Why a model is no candidate: the first test it fails. *)
Definition rejection (config : LLMSubsystemConfig) (hint : ModelSelectionHint)
    (provider : ProviderCatalogProvider) (model : ProviderModelMetadata)
    (health_snapshot : ModelRouterHealthSnapshot) : option string :=
  let summary := pmm_summary model in
  let tool_state := verification_state_for model "tools" in
  if negb (prs_activation_flag (pcp_runtime provider)) then Some "provider_inactive" else
  if negb (provider_source_is_trusted config provider) then Some "provider_source_untrusted" else
  if state_is_blocked (mce_verification_state summary) then Some "verification_blocked" else
  if route_is_blocked health_snapshot (pde_provider_id (pcp_descriptor provider))
       (mce_model_id summary) then Some "health_blocked" else
  if negb (context_window_is_sufficient model hint) then Some "context_window_insufficient" else
  if negb (output_budget_is_sufficient model hint) then Some "output_limit_exceeded" else
  if msh_requires_tools hint && negb (mce_supports_tools summary)
  then Some "tools_unsupported" else
  if msh_requires_tools hint && negb (state_is_verified tool_state)
  then Some (if state_requires_validation tool_state
             then "tools_unverified" else "tools_unsupported") else
  if msh_requires_reasoning hint && negb (mce_supports_reasoning summary)
  then Some "reasoning_unsupported" else
  None.

(** What the tests of a candidate add to its score, each with the reason it records. *)
Definition adjustments (hint : ModelSelectionHint) (route_preference : RoutePreference)
    (provider : ProviderCatalogProvider) (model : ProviderModelMetadata)
    (health_snapshot : ModelRouterHealthSnapshot) : list (Z * option string) :=
  let summary := pmm_summary model in
  let actual_tier := canonical_tier (mce_tier_family summary) in
  let preferred_tier := rpf_preferred_tier route_preference in
  let order := rpf_order route_preference in
  let interactive := is_interactive_sla (msh_latency_sla_tier hint) in
  let hard_budget := is_hard_budget (msh_budget_tier hint) in
  let latency_tier := lowercase_copy (mce_latency_tier summary) in
  let cost_tier := lowercase_copy (mce_cost_tier summary) in
  let health_failures :=
    consecutive_failures_for health_snapshot (pde_provider_id (pcp_descriptor provider))
      (mce_model_id summary) in
  [(s32 (u64 (1000 - order * 200)),
    Some (if order =? 0 then "selected_primary_route" else "selected_from_fallback_chain"))]
  ++ (if bool_decide (actual_tier = preferred_tier)
         || (bool_decide (preferred_tier = "tool_first") && mce_supports_tools summary)
      then [(250, Some "preferred_tier_match")]
      else if Z.abs (tier_rank actual_tier - tier_rank preferred_tier) =? 1
      then [(120, Some "adjacent_tier_match")] else [])
  ++ (if msh_requires_reasoning hint && mce_supports_reasoning summary
      then [(400, Some "requires_reasoning")]
      else if is_reasoning_stage (msh_stage hint) (msh_task_type hint)
              && mce_supports_reasoning summary
      then [(220, Some "reasoning_task_bias")] else [])
  ++ (if interactive
      then if bool_decide (latency_tier = "low") then [(200, Some "interactive_latency_bias")]
           else if bool_decide (latency_tier = "medium") then [(80, None)] else []
      else [])
  ++ (if hard_budget
      then if bool_decide (cost_tier = "low") then [(180, Some "budget_low_cost")]
           else if bool_decide (cost_tier = "medium") then [(80, None)] else []
      else [])
  ++ (if interactive && hard_budget && negb (msh_requires_reasoning hint)
      then if bool_decide (actual_tier = "default") || bool_decide (actual_tier = "economy")
           then [(220, Some "interactive_hard_cap_downgrade")]
           else if bool_decide (actual_tier = "reasoning") || bool_decide (actual_tier = "premium")
           then [(-220, Some "interactive_hard_cap_penalty")] else []
      else [])
  ++ (if msh_requires_tools hint then [(160, Some "requires_tools")] else [])
  ++ (if msh_prefers_visible_reasoning hint && mce_supports_visible_reasoning summary
         && state_is_verified (verification_state_for model "visible_reasoning")
      then [(90, Some "visible_reasoning_preferred")] else [])
  ++ (if mce_default_max_output_tokens summary <? msh_target_output_tokens hint
      then [(100, Some "large_output_supported")] else [])
  ++ (if (u32 (mce_context_window summary * 3) / 4 <? msh_estimated_input_tokens hint)
         && is_summary_like_task (msh_task_type hint) && negb (mce_supports_reasoning summary)
      then [(100, Some "long_context_summary_bias")] else [])
  ++ (if state_is_verified (mce_verification_state summary)
      then [(40, Some "verification_verified")] else [])
  ++ (if 0 <? health_failures
      then [(- s32 (u32 (health_failures * 60)), Some "health_failure_penalty")] else [])
  ++ (if 0 <? msh_previous_route_failures hint
      then if order =? 0
           then [(- s32 (u32 (msh_previous_route_failures hint * 150)),
                  Some "previous_route_failure_penalty")]
           else [(s32 (u32 (Z.min (msh_previous_route_failures hint) 2 * 45)),
                  Some "fallback_recovery_bias")]
      else []).

(** [score += value] in an int, for each value in turn. *)
Fixpoint sum_int (score : Z) (values : list Z) : option Z :=
  match values with
  | [] => Some score
  | value :: rest =>
      if bool_decide (- 2 ^ 31 <= score + value < 2 ^ 31)
      then sum_int (score + value) rest else None
  end.

Definition append_stage_and_route_reasons (reasons : list string) (stage : string)
    (route_preference : RoutePreference) (actual_tier : string) : list string :=
  let reasons := append_new reasons ("stage:" +:+ stage) in
  let reasons := append_new reasons ("route_preference:" +:+ rpf_raw_route route_preference) in
  let preferred_rank := tier_rank (rpf_preferred_tier route_preference) in
  let actual_rank := tier_rank actual_tier in
  if preferred_rank <? actual_rank then append_new reasons "tier_upgraded" else
  if actual_rank <? preferred_rank then append_new reasons "tier_degraded" else reasons.

(** A candidate that passed the tests; [None] where its score overflows. *)
Definition scored (hint : ModelSelectionHint) (route_preference : RoutePreference)
    (provider : ProviderCatalogProvider) (model : ProviderModelMetadata)
    (health_snapshot : ModelRouterHealthSnapshot) : option ScoredCandidate :=
  let provider_id := pde_provider_id (pcp_descriptor provider) in
  let model_id := mce_model_id (pmm_summary model) in
  let actual_tier := canonical_tier (mce_tier_family (pmm_summary model)) in
  let added := adjustments hint route_preference provider model health_snapshot in
  let? score := sum_int 0 added.*1 else None in
  Some {| scd_route_id := make_route_id provider_id model_id;
          scd_route_preference := rpf_raw_route route_preference;
          scd_provider_id := provider_id;
          scd_model_id := model_id;
          scd_preferred_tier := rpf_preferred_tier route_preference;
          scd_actual_tier := actual_tier;
          scd_route_order := rpf_order route_preference;
          scd_score := score;
          scd_reason_codes :=
            append_stage_and_route_reasons (append_unique_values [] (omap snd added))
              (msh_stage hint) route_preference actual_tier |}.

Definition score_candidate (config : LLMSubsystemConfig) (hint : ModelSelectionHint)
    (route_preference : RoutePreference) (provider : ProviderCatalogProvider)
    (model : ProviderModelMetadata) (health_snapshot : ModelRouterHealthSnapshot)
    : option (result string ScoredCandidate) :=
  match rejection config hint provider model health_snapshot with
  | Some reason => Some (Err reason)
  | None => let? candidate := scored hint route_preference provider model health_snapshot
              else None in Some (Ok candidate)
  end.

Definition candidate_cmp : ScoredCandidate -> ScoredCandidate -> comparison :=
  then_by (descending (by_number scd_score))
    (then_by (by_number scd_route_order) (by_text scd_route_id)).

Definition candidate_is_better (current candidate : ScoredCandidate) : bool :=
  less candidate_cmp candidate current.

(** ** The search *)

Definition append_audit_evidence (audit_evidence : list ModelRouterAuditEvidence)
    (route_id route_preference outcome : string) (reason_codes : list string)
    : list ModelRouterAuditEvidence :=
  if is_empty route_id then audit_evidence else
  audit_evidence ++
    [{| mae_route_id := route_id; mae_route_preference := route_preference;
        mae_outcome := outcome; mae_reason_codes := reason_codes |}].

(** The three collections that the loops fill. *)
Record RouteSearch := {
  rsr_best_candidates : gmap string ScoredCandidate;
  rsr_rejection_reasons : list string;
  rsr_rejected_audit_evidence : list ModelRouterAuditEvidence;
}.

Definition reject_route (search : RouteSearch) (route_id route_preference reason : string)
    : RouteSearch :=
  {| rsr_best_candidates := rsr_best_candidates search;
     rsr_rejection_reasons := append_new (rsr_rejection_reasons search) reason;
     rsr_rejected_audit_evidence :=
       append_audit_evidence (rsr_rejected_audit_evidence search) route_id route_preference
         "rejected_hard_filter" [reason] |}.

Definition keep_better (best : gmap string ScoredCandidate) (candidate : ScoredCandidate)
    : gmap string ScoredCandidate :=
  match best !! scd_route_id candidate with
  | Some existing =>
      if candidate_is_better existing candidate
      then <[scd_route_id candidate := candidate]> best else best
  | None => <[scd_route_id candidate := candidate]> best
  end.

Definition keep_candidate (search : RouteSearch) (candidate : ScoredCandidate) : RouteSearch :=
  {| rsr_best_candidates := keep_better (rsr_best_candidates search) candidate;
     rsr_rejection_reasons := rsr_rejection_reasons search;
     rsr_rejected_audit_evidence := rsr_rejected_audit_evidence search |}.

(** The body of the inner loop. *)
Definition consider (config : LLMSubsystemConfig) (hint : ModelSelectionHint)
    (catalog_snapshot : ProviderCatalogSnapshot) (health_snapshot : ModelRouterHealthSnapshot)
    (search : RouteSearch) (route_preference : RoutePreference) (model : ProviderModelMetadata)
    : option RouteSearch :=
  let provider_id := mce_provider_id (pmm_summary model) in
  let route_id := make_route_id provider_id (mce_model_id (pmm_summary model)) in
  match find_provider catalog_snapshot provider_id with
  | None =>
      Some (reject_route search route_id (rpf_raw_route route_preference) "provider_missing")
  | Some provider =>
      if negb (model_matches_locality provider (rpf_locality route_preference))
      then Some search else
      let? candidate := score_candidate config hint route_preference provider model
                          health_snapshot else None in
      match candidate with
      | Err reason =>
          Some (reject_route search route_id (rpf_raw_route route_preference) reason)
      | Ok candidate => Some (keep_candidate search candidate)
      end
  end.

(** Both loops, over the pairs in their order. *)
Fixpoint consider_all (config : LLMSubsystemConfig) (hint : ModelSelectionHint)
    (catalog_snapshot : ProviderCatalogSnapshot) (health_snapshot : ModelRouterHealthSnapshot)
    (search : RouteSearch) (pairs : list (RoutePreference * ProviderModelMetadata))
    : option RouteSearch :=
  match pairs with
  | [] => Some search
  | (route_preference, model) :: rest =>
      let? search := consider config hint catalog_snapshot health_snapshot search
                       route_preference model else None in
      consider_all config hint catalog_snapshot health_snapshot search rest
  end.

Definition loop_pairs (route_preferences : list RoutePreference)
    (models : list ProviderModelMetadata) : list (RoutePreference * ProviderModelMetadata) :=
  route_preferences ≫= fun route_preference => (pair route_preference) <$> models.

Definition no_route (reasons : list string) (audit_evidence : list ModelRouterAuditEvidence)
    : ModelRouterResolveResult :=
  {| mrr_resolved_route := None; mrr_selection_reason_codes := reasons;
     mrr_audit_evidence := audit_evidence |}.

Definition selected_evidence (has_fallback : bool) (index : nat) (candidate : ScoredCandidate)
    : list ModelRouterAuditEvidence :=
  append_audit_evidence [] (scd_route_id candidate) (scd_route_preference candidate)
    (if Nat.eqb index 0 then "selected_primary" else "selected_fallback")
    (if Nat.eqb index 0 && has_fallback
     then append_new (scd_reason_codes candidate) "fallback_chain_prepared"
     else scd_reason_codes candidate).

Section resolve.
Context {sorting : StdSort} {visiting : UnorderedVisit}.

Definition init (config : LLMSubsystemConfig) (router : ModelRouter) : ModelRouter * bool :=
  if subsystem_config_consistent config
  then ({| mdr_config := Some config |}, true) else (router, false).

(** The answer from what the loops have found. *)
Definition answer_search (hint : ModelSelectionHint) (stage_route : LLMStageRouteConfig)
    (search : RouteSearch) : ModelRouterResolveResult :=
  let rejected := rsr_rejected_audit_evidence search in
  let ordered_candidates :=
    std_sort candidate_cmp (visit_map (rsr_best_candidates search)).*2 in
  match ordered_candidates with
  | [] =>
      let reasons :=
        match rsr_rejection_reasons search with
        | [] => ["no_candidate_available"]
        | reasons => reasons
        end in
      no_route (append_new reasons "no_candidate_after_hard_filter") rejected
  | primary :: fallbacks =>
      let has_fallback := negb (bool_decide (fallbacks = [])) in
      {| mrr_resolved_route :=
           Some {| rmr_stage := msh_stage hint;
                   rmr_primary_route := scd_route_id primary;
                   rmr_fallback_routes := scd_route_id <$> fallbacks;
                   rmr_streaming_enabled := lsr_streaming_enabled stage_route |};
         mrr_selection_reason_codes :=
           if negb (bool_decide (scd_reason_codes primary = [])) && has_fallback
           then append_new (scd_reason_codes primary) "fallback_chain_prepared"
           else scd_reason_codes primary;
         mrr_audit_evidence :=
           mjoin (imap (selected_evidence has_fallback) ordered_candidates) ++ rejected |}
  end.

Definition resolve (router : ModelRouter) (hint : ModelSelectionHint)
    (catalog_snapshot : ProviderCatalogSnapshot) (health_snapshot : ModelRouterHealthSnapshot)
    : option ModelRouterResolveResult :=
  let? config := mdr_config router else Some (no_route ["router_not_initialized"] []) in
  if negb (catalog_consistent catalog_snapshot)
  then Some (no_route ["invalid_provider_catalog"] []) else
  let? stage_route := stage_route_for config (msh_stage hint)
    else Some (no_route ["stage_route_missing"] []) in
  let? search :=
    consider_all config hint catalog_snapshot health_snapshot
      {| rsr_best_candidates := ∅; rsr_rejection_reasons := [];
         rsr_rejected_audit_evidence := [] |}
      (loop_pairs (build_route_preferences config hint stage_route)
         (cat_models catalog_snapshot)) else None in
  Some (answer_search hint stage_route search).

End resolve.

(** ** Which models are candidates *)

(** A model may answer the request: it passes every test. *)
Definition eligible (config : LLMSubsystemConfig) (hint : ModelSelectionHint)
    (health_snapshot : ModelRouterHealthSnapshot) (provider : ProviderCatalogProvider)
    (model : ProviderModelMetadata) : Prop :=
  let summary := pmm_summary model in
  prs_activation_flag (pcp_runtime provider) = true /\
  provider_source_is_trusted config provider = true /\
  state_is_blocked (mce_verification_state summary) = false /\
  route_is_blocked health_snapshot (pde_provider_id (pcp_descriptor provider))
    (mce_model_id summary) = false /\
  msh_estimated_input_tokens hint + msh_target_output_tokens hint <= mce_context_window summary /\
  msh_target_output_tokens hint <= mce_max_output_tokens_hard_limit summary /\
  (msh_requires_tools hint = true ->
    mce_supports_tools summary = true /\
    state_is_verified (verification_state_for model "tools") = true) /\
  (msh_requires_reasoning hint = true -> mce_supports_reasoning summary = true).

(** The numbers of a hint are of 32 bits. *)
Definition hint_in_range (hint : ModelSelectionHint) : Prop :=
  in_u32 (msh_estimated_input_tokens hint) /\ in_u32 (msh_target_output_tokens hint).

Lemma window_sufficient_iff model hint :
  hint_in_range hint ->
  context_window_is_sufficient model hint = true <->
  msh_estimated_input_tokens hint + msh_target_output_tokens hint
    <= mce_context_window (pmm_summary model).
Proof.
  unfold hint_in_range, in_u32, context_window_is_sufficient. intros [H1 H2].
  rewrite u64_id by (unfold in_u64; lia).
  repeat match goal with |- context [if ?b then _ else _] => destruct b eqn:? end;
    reflect_tests; intuition (try discriminate; try lia).
Qed.

Lemma output_sufficient_iff model hint :
  model_consistent model = true -> hint_in_range hint ->
  output_budget_is_sufficient model hint = true <->
  msh_target_output_tokens hint <= mce_max_output_tokens_hard_limit (pmm_summary model).
Proof.
  unfold model_consistent, hint_in_range, in_u32, output_budget_is_sufficient. intros Hm [_ H2].
  reflect_tests. lia.
Qed.

Lemma rejection_none_iff config hint provider model health_snapshot :
  model_consistent model = true -> hint_in_range hint ->
  rejection config hint provider model health_snapshot = None <->
  eligible config hint health_snapshot provider model.
Proof.
  intros Hm Hh. unfold eligible. cbn zeta.
  rewrite <-window_sufficient_iff, <-output_sufficient_iff by done. unfold rejection.
  repeat match goal with |- context [if ?b then _ else _] =>
    lazymatch b with
    | state_requires_validation _ => fail
    | _ => destruct b eqn:?; [split; [done|]|] end end;
    reflect_tests; [intuition congruence..|].
  split; [|done]. intros _. intuition congruence.
Qed.

(** [candidate] is what some preference makes of some model. *)
Definition offer (config : LLMSubsystemConfig) (hint : ModelSelectionHint)
    (catalog_snapshot : ProviderCatalogSnapshot) (health_snapshot : ModelRouterHealthSnapshot)
    (pair : RoutePreference * ProviderModelMetadata) (candidate : ScoredCandidate) : Prop :=
  exists provider,
    find_provider catalog_snapshot (mce_provider_id (pmm_summary pair.2)) = Some provider /\
    model_matches_locality provider (rpf_locality pair.1) = true /\
    rejection config hint provider pair.2 health_snapshot = None /\
    scored hint pair.1 provider pair.2 health_snapshot = Some candidate.

(** ** What the search keeps *)

#[export] Instance candidate_cmp_ordering : Ordering candidate_cmp.
Proof. unfold candidate_cmp. apply _. Qed.

(** The map holds, for each route that was offered, an offer that none of the route beats. *)
Definition best_of (best : gmap string ScoredCandidate) (offers : ScoredCandidate -> Prop) : Prop :=
  (forall id c, best !! id = Some c -> offers c /\ scd_route_id c = id) /\
  (forall c, offers c -> exists kept, best !! scd_route_id c = Some kept /\
                                  not_after candidate_cmp kept c).

Lemma less_false {A} (cmp : A -> A -> comparison) x y :
  less cmp x y = false <-> not_after cmp y x.
Proof. unfold less, not_after. destruct (cmp x y); naive_solver. Qed.

Lemma less_not_after {A} (cmp : A -> A -> comparison) `{!Ordering cmp} x y :
  less cmp x y = true -> not_after cmp x y.
Proof.
  unfold less, not_after. intros H. rewrite (ordering_opp x y). by destruct (cmp x y).
Qed.

Lemma keep_better_best best offers candidate :
  best_of best offers ->
  best_of (keep_better best candidate) (fun c => offers c \/ c = candidate).
Proof.
  intros [H1 H2]. unfold keep_better, candidate_is_better.
  assert (best_of (<[scd_route_id candidate := candidate]> best)
            (fun c => offers c \/ c = candidate) \/
          exists kept, best !! scd_route_id candidate = Some kept /\
            less candidate_cmp candidate kept = false) as Hcases.
  { destruct (best !! scd_route_id candidate) as [kept|] eqn:E;
      [destruct (less candidate_cmp candidate kept) eqn:El; [left|eauto]|left].
    all: split; [intros id c; rewrite lookup_insert; case_decide; naive_solver|].
    all: intros c [Hc| ->]; [|exists candidate; rewrite lookup_insert_eq;
                               split; [done|apply not_after_refl, _]].
    all: destruct (decide (scd_route_id candidate = scd_route_id c)) as [Hid|Hid];
      [|destruct (H2 c Hc) as (kept' & ? & ?); exists kept';
        by rewrite lookup_insert_ne by done].
    all: exists candidate; rewrite Hid, lookup_insert_eq; split; [done|].
    all: destruct (H2 c Hc) as (kept' & Hk & Hna); rewrite <-Hid, E in Hk; try done.
    injection Hk as <-. etrans; [apply less_not_after; [apply _|exact El]|exact Hna]. }
  destruct (best !! scd_route_id candidate) as [kept|] eqn:E.
  - destruct (less candidate_cmp candidate kept) eqn:El; [by destruct Hcases as [?|(? & [= <-] & ?)]; [|congruence]|].
    split; [naive_solver|]. intros c [Hc| ->]; [by apply H2|]. exists kept. split; [done|].
    by apply less_false.
  - by destruct Hcases as [?|(? & ? & _)]; [|congruence].
Qed.

Lemma best_of_ext best (offers offers' : ScoredCandidate -> Prop) :
  (forall c, offers c <-> offers' c) -> best_of best offers -> best_of best offers'.
Proof. unfold best_of. intros H. setoid_rewrite H. done. Qed.

Section search.
Context (config : LLMSubsystemConfig) (hint : ModelSelectionHint)
  (catalog_snapshot : ProviderCatalogSnapshot) (health_snapshot : ModelRouterHealthSnapshot).

Local Abbreviation offer := (offer config hint catalog_snapshot health_snapshot).

(** A pair that makes no offer. *)
Local Ltac skip_offer :=
  intros ?; split; [by left|]; intros [?|(? & ? & ? & ? & ?)]; [done|congruence].

Lemma consider_best search search' offers pair :
  best_of (rsr_best_candidates search) offers ->
  consider config hint catalog_snapshot health_snapshot search pair.1 pair.2 = Some search' ->
  best_of (rsr_best_candidates search') (fun c => offers c \/ offer pair c).
Proof.
  intros Hb. unfold consider, offer.
  destruct (find_provider _ _) as [provider|] eqn:Ef; intros H;
    [|injection H as <-; eapply best_of_ext, Hb; skip_offer].
  destruct (model_matches_locality _ _) eqn:El; cbn in H;
    [|injection H as <-; eapply best_of_ext, Hb; skip_offer].
  unfold score_candidate in H. destruct (rejection _ _ _ _ _) as [reason|] eqn:Er.
  { injection H as <-. eapply best_of_ext, Hb. skip_offer. }
  destruct (scored _ _ _ _ _) as [candidate|] eqn:Es; [|done]. injection H as <-. cbn.
  eapply best_of_ext, keep_better_best, Hb. intros c. split; (intros [?|Hc]; [by left|right]).
  - rewrite Hc. by exists provider.
  - destruct Hc as (? & ? & ? & ? & ?). congruence.
Qed.

Lemma consider_all_best search search' offers pairs :
  best_of (rsr_best_candidates search) offers ->
  consider_all config hint catalog_snapshot health_snapshot search pairs = Some search' ->
  best_of (rsr_best_candidates search')
    (fun c => offers c \/ exists pair, pair ∈ pairs /\ offer pair c).
Proof.
  revert search offers. induction pairs as [|[route_preference model] pairs IH];
    intros search offers Hb H; cbn in H.
  - injection H as <-. eapply best_of_ext, Hb. intros c. setoid_rewrite elem_of_nil. naive_solver.
  - destruct (consider _ _ _ _ _ _ _) as [next|] eqn:E; [|done].
    apply (consider_best _ _ _ (route_preference, model) Hb) in E.
    eapply best_of_ext, IH, H; [|exact E]. intros c. setoid_rewrite elem_of_cons. naive_solver.
Qed.

End search.

Lemma loop_pairs_elem prefs models pair :
  pair ∈ loop_pairs prefs models <-> pair.1 ∈ prefs /\ pair.2 ∈ models.
Proof.
  unfold loop_pairs. rewrite list_elem_of_bind. destruct pair as [p m]. cbn.
  setoid_rewrite list_elem_of_fmap. naive_solver.
Qed.

(** ** The order of the routes *)

(** [candidate] is an offer of a preference of the stage and an eligible model. *)
Definition offered (config : LLMSubsystemConfig) (hint : ModelSelectionHint)
    (stage_route : LLMStageRouteConfig) (catalog_snapshot : ProviderCatalogSnapshot)
    (health_snapshot : ModelRouterHealthSnapshot) (candidate : ScoredCandidate) : Prop :=
  exists route_preference model provider,
    route_preference ∈ build_route_preferences config hint stage_route /\
    model ∈ cat_models catalog_snapshot /\
    find_provider catalog_snapshot (mce_provider_id (pmm_summary model)) = Some provider /\
    model_matches_locality provider (rpf_locality route_preference) = true /\
    eligible config hint health_snapshot provider model /\
    scored hint route_preference provider model health_snapshot = Some candidate.

(** [c1] beats [c2]: by its score, then by the preference it answers, then by its name. *)
Definition beats (c1 c2 : ScoredCandidate) : Prop :=
  scd_score c2 < scd_score c1 \/
  scd_score c1 = scd_score c2 /\
    (scd_route_order c1 < scd_route_order c2 \/
     scd_route_order c1 = scd_route_order c2 /\
       String.compare (scd_route_id c1) (scd_route_id c2) = Lt).

Lemma candidate_cmp_lt c1 c2 : candidate_cmp c1 c2 = Lt <-> beats c1 c2.
Proof.
  unfold candidate_cmp, then_by, descending, by_number, by_text, beats.
  destruct (Z.compare_spec (scd_score c2) (scd_score c1)) as [?|?|?];
    destruct (Z.compare_spec (scd_route_order c1) (scd_route_order c2)) as [?|?|?];
    intuition (try discriminate; try lia).
Qed.

(** The routes are those that are offered, each once, and of two the first has an offer that
    beats all of the second. *)
Definition ranked (offers : ScoredCandidate -> Prop) (ids : list string) : Prop :=
  NoDup ids /\
  (forall id, id ∈ ids <-> exists c, offers c /\ scd_route_id c = id) /\
  (forall before a between b after, ids = before ++ a :: between ++ b :: after ->
    exists ca, offers ca /\ scd_route_id ca = a /\
      forall cb, offers cb -> scd_route_id cb = b -> beats ca cb).

Lemma catalog_model catalog_snapshot model :
  catalog_consistent catalog_snapshot = true -> model ∈ cat_models catalog_snapshot ->
  model_consistent model = true.
Proof.
  unfold catalog_consistent. rewrite !andb_true_iff, !forallb_forall.
  intros [_ H] Hin. by apply H, list_elem_of_In.
Qed.

Lemma offers_offered config hint stage_route catalog_snapshot health_snapshot c :
  catalog_consistent catalog_snapshot = true -> hint_in_range hint ->
  (exists pair, pair ∈ loop_pairs (build_route_preferences config hint stage_route)
                         (cat_models catalog_snapshot) /\
     offer config hint catalog_snapshot health_snapshot pair c) <->
  offered config hint stage_route catalog_snapshot health_snapshot c.
Proof.
  intros Hc Hh. unfold offered, offer. split.
  - intros ([p m] & [Hp Hm]%loop_pairs_elem & provider & Hf & Hl & Hr & Hs). cbn in *.
    exists p, m, provider. split_and!; try done.
    apply rejection_none_iff; [by apply (catalog_model catalog_snapshot)|done|done].
  - intros (p & m & provider & Hp & Hm & Hf & Hl & He & Hs). exists (p, m).
    split; [by apply loop_pairs_elem|]. exists provider. cbn. split_and!; try done.
    apply rejection_none_iff; [by apply (catalog_model catalog_snapshot)|done|done].
Qed.

Lemma candidate_cmp_eq c1 c2 : candidate_cmp c1 c2 = Eq -> scd_route_id c1 = scd_route_id c2.
Proof.
  unfold candidate_cmp, then_by, descending, by_number, by_text.
  intros H. split_in H. by apply String.compare_eq_iff.
Qed.

Lemma not_after_distinct c1 c2 :
  not_after candidate_cmp c1 c2 -> scd_route_id c1 <> scd_route_id c2 ->
  candidate_cmp c1 c2 = Lt.
Proof.
  unfold not_after. intros H Hne. rewrite (ordering_opp c1 c2) in H.
  destruct (candidate_cmp c1 c2) eqn:E; [|done|done]. by apply candidate_cmp_eq in E.
Qed.

Lemma cmp_lt_not_after {A} (cmp : A -> A -> comparison) `{!Ordering cmp} x y z :
  cmp x y = Lt -> not_after cmp y z -> cmp x z = Lt.
Proof.
  unfold not_after. intros Hxy Hyz. rewrite (ordering_opp y z) in Hyz.
  destruct (cmp y z) eqn:E; [|by apply (ordering_lt x y z)|done].
  rewrite (ordering_opp z x).
  assert (cmp z y = Eq) as Ez by by rewrite (ordering_opp y z), E.
  by rewrite (ordering_eq _ _ x Ez), (ordering_opp x y), Hxy.
Qed.

Section resolve.
Context {sorting : StdSort} {visiting : UnorderedVisit}.

Definition ordered (best : gmap string ScoredCandidate) : list ScoredCandidate :=
  std_sort candidate_cmp (visit_map best).*2.

Lemma ordered_elem best c : c ∈ ordered best <-> exists id, best !! id = Some c.
Proof.
  unfold ordered. rewrite std_sort_elem, list_elem_of_fmap by apply _. split.
  - intros ([id ?] & -> & H%visit_map_elem). eauto.
  - intros (id & H%visit_map_elem). by exists (id, c).
Qed.

Lemma ordered_ids best :
  (forall id c, best !! id = Some c -> scd_route_id c = id) ->
  (scd_route_id <$> ordered best) ≡ₚ (visit_map best).*1.
Proof.
  intros H. unfold ordered. rewrite (std_sort_perm candidate_cmp).
  rewrite <-list_fmap_compose. apply reflexive_eq, list_fmap_ext.
  intros i [id c] Hin. cbn. apply H, visit_map_elem. by eapply list_elem_of_lookup_2.
Qed.

Lemma ordered_ranked best offers :
  best_of best offers -> ranked offers (scd_route_id <$> ordered best).
Proof.
  intros [H1 H2]. assert (NoDup (scd_route_id <$> ordered best)) as Hnd.
  { rewrite ordered_ids by naive_solver. apply visit_map_keys. }
  split; [done|]. split.
  - intros id. rewrite list_elem_of_fmap. setoid_rewrite ordered_elem. split.
    + intros (c & -> & i & Hi). exists c. by destruct (H1 _ _ Hi).
    + intros (c & Hc & <-). destruct (H2 c Hc) as (kept & Hk & _). exists kept.
      split; [|eauto]. by destruct (H1 _ _ Hk).
  - intros before a between b after E.
    apply fmap_app_inv in E as (l1 & l2 & -> & E & El). symmetry in E.
    apply fmap_cons_inv in E as (ca & l3 & -> & E & ->). symmetry in E.
    apply fmap_app_inv in E as (l4 & l5 & -> & E & ->). symmetry in E.
    apply fmap_cons_inv in E as (cb & l6 & -> & -> & ->).
    assert (forall c, c ∈ ordered best -> offers c) as Hoff
      by (intros c [i Hi]%ordered_elem; by destruct (H1 _ _ Hi)).
    exists ca. split; [apply Hoff; rewrite El; set_solver|]. split; [done|].
    intros cb' Hcb' Hid. destruct (H2 cb' Hcb') as (kept & Hk & Hna).
    assert (kept = cb) as ->.
    { assert (cb ∈ ordered best) as [i Hi]%ordered_elem by (rewrite El; set_solver).
      destruct (H1 _ _ Hi) as [_ <-]. rewrite Hid in Hk. congruence. }
    apply candidate_cmp_lt. eapply cmp_lt_not_after; [apply _| |exact Hna].
    pose proof (std_sort_sorted candidate_cmp (visit_map best).*2) as Hs.
    fold (ordered best) in Hs. rewrite El in Hs, Hnd.
    apply not_after_distinct.
    + apply StronglySorted_app in Hs as (_ & _ & Hs).
      apply StronglySorted_inv in Hs as [_ Hs]. rewrite Forall_forall in Hs.
      apply Hs. set_solver.
    + rewrite fmap_app, fmap_cons in Hnd. apply NoDup_app in Hnd as (_ & _ & Hnd).
      apply NoDup_cons in Hnd as [Hn _]. intros Heq. apply Hn. rewrite Heq, fmap_app.
      set_solver.
Qed.

End resolve.

(** The orders that were left open do not show in the result. *)
Lemma ordered_unique (sort1 sort2 : StdSort) (visit1 visit2 : UnorderedVisit) best :
  (forall id c, best !! id = Some c -> scd_route_id c = id) ->
  ordered (sorting := sort1) (visiting := visit1) best =
  ordered (sorting := sort2) (visiting := visit2) best.
Proof.
  intros Hid. apply (StronglySorted_unique_strong (not_after candidate_cmp));
    try apply std_sort_sorted, _.
  - intros c1 c2 [i Hi]%ordered_elem [j Hj]%ordered_elem H12 H21.
    unfold not_after in H12, H21. rewrite (ordering_opp c1 c2) in H12.
    destruct (candidate_cmp c1 c2) eqn:E; [|done|done]. apply candidate_cmp_eq in E.
    apply Hid in Hi as Hi'. apply Hid in Hj as Hj'. congruence.
  - unfold ordered. by rewrite !(std_sort_perm candidate_cmp), !visit_map_perm.
Qed.

Definition empty_search : RouteSearch :=
  {| rsr_best_candidates := ∅; rsr_rejection_reasons := []; rsr_rejected_audit_evidence := [] |}.

Lemma search_best config hint stage_route catalog_snapshot health_snapshot search :
  catalog_consistent catalog_snapshot = true -> hint_in_range hint ->
  consider_all config hint catalog_snapshot health_snapshot empty_search
    (loop_pairs (build_route_preferences config hint stage_route) (cat_models catalog_snapshot))
    = Some search ->
  best_of (rsr_best_candidates search)
    (offered config hint stage_route catalog_snapshot health_snapshot).
Proof.
  intros Hc Hh H. eapply best_of_ext, (consider_all_best _ _ _ _ _ _ (fun _ => False)), H.
  - intros c. rewrite <-(offers_offered _ _ _ _ _ c Hc Hh). split; [by intros [[]|?]|by right].
  - split; [intros id c; cbn; by rewrite lookup_empty|done].
Qed.

(** C16. The route that is answered leads through the models that are eligible under some
    preference of the stage, each once, and one comes before another exactly when its best
    offer beats the other's: by score, then by preference, then by name. There is none
    exactly when the catalog is malformed, the stage has no route or no model is eligible. *)
Theorem routes_exact {sorting : StdSort} {visiting : UnorderedVisit} router config hint
    catalog_snapshot health_snapshot result :
  mdr_config router = Some config -> hint_in_range hint ->
  resolve router hint catalog_snapshot health_snapshot = Some result ->
  match mrr_resolved_route result with
  | None =>
      catalog_consistent catalog_snapshot = false \/
      stage_route_for config (msh_stage hint) = None \/
      (exists stage_route, stage_route_for config (msh_stage hint) = Some stage_route /\
        forall c, ~ offered config hint stage_route catalog_snapshot health_snapshot c)
  | Some route =>
      catalog_consistent catalog_snapshot = true /\
      exists stage_route, stage_route_for config (msh_stage hint) = Some stage_route /\
        rmr_stage route = msh_stage hint /\
        rmr_streaming_enabled route = lsr_streaming_enabled stage_route /\
        ranked (offered config hint stage_route catalog_snapshot health_snapshot)
          (rmr_primary_route route :: rmr_fallback_routes route)
  end.
Proof.
  intros Hr Hh. unfold resolve. rewrite Hr.
  destruct (catalog_consistent catalog_snapshot) eqn:Hc; cbn; [|intros [= <-]; by left].
  destruct (stage_route_for config (msh_stage hint)) as [stage_route|] eqn:Hs;
    [|intros [= <-]; right; by left].
  fold empty_search. destruct (consider_all _ _ _ _ _ _) as [search|] eqn:E; [|done].
  intros [= <-]. apply search_best in E as Hbest; [|done|done].
  apply ordered_ranked in Hbest as Hranked. unfold answer_search.
  fold (ordered (rsr_best_candidates search)).
  destruct (ordered (rsr_best_candidates search)) as [|primary fallbacks]; cbn.
  - right. right. exists stage_route. split; [done|]. intros c Hoff.
    destruct Hranked as (_ & Hall & _). specialize (Hall (scd_route_id c)).
    rewrite elem_of_nil in Hall. apply Hall. eauto.
  - split; [done|]. by exists stage_route.
Qed.

(** What the router answers depends neither on the order in which its map is visited nor on
    how the candidates are sorted. *)
Lemma resolve_order_free (sort1 sort2 : StdSort) (visit1 visit2 : UnorderedVisit) router hint
    catalog_snapshot health_snapshot :
  hint_in_range hint ->
  resolve (sorting := sort1) (visiting := visit1) router hint catalog_snapshot health_snapshot =
  resolve (sorting := sort2) (visiting := visit2) router hint catalog_snapshot health_snapshot.
Proof.
  intros Hh. unfold resolve. destruct (mdr_config router) as [config|]; [|done].
  destruct (catalog_consistent catalog_snapshot) eqn:Hc; cbn; [|done].
  destruct (stage_route_for config (msh_stage hint)) as [stage_route|]; [|done].
  fold empty_search. destruct (consider_all _ _ _ _ _ _) as [search|] eqn:E; [|done].
  apply search_best in E as Hbest; [|done|done]. f_equal. unfold answer_search.
  fold (ordered (sorting := sort1) (visiting := visit1) (rsr_best_candidates search)).
  fold (ordered (sorting := sort2) (visiting := visit2) (rsr_best_candidates search)).
  rewrite (ordered_unique sort1 sort2 visit1 visit2); [done|].
  intros id c H. by apply (proj1 Hbest).
Qed.

(** ** The score *)

Lemma sum_int_defined values score :
  - 2 ^ 31 <= score - foldr (fun v acc => Z.abs v + acc) 0 values ->
  score + foldr (fun v acc => Z.abs v + acc) 0 values < 2 ^ 31 ->
  is_Some (sum_int score values).
Proof.
  revert score. induction values as [|v values IH]; intros score H1 H2; cbn; [by eexists|].
  cbn in H1, H2.
  assert (0 <= foldr (fun v acc => Z.abs v + acc) 0 values)
    by (clear; induction values; cbn; lia).
  rewrite bool_decide_true by lia. apply IH; lia.
Qed.

(** The counters of failures and the number of preferences for which no score overflows. *)
Definition counters_small (hint : ModelSelectionHint)
    (health_snapshot : ModelRouterHealthSnapshot) : Prop :=
  0 <= msh_previous_route_failures hint < 5000000 /\
  forall state, state ∈ health_snapshot -> 0 <= mhs_consecutive_failures state < 15000000.

Lemma failures_small hint health_snapshot provider_id model_id :
  counters_small hint health_snapshot ->
  0 <= consecutive_failures_for health_snapshot provider_id model_id < 15000000.
Proof.
  intros [_ H]. unfold consecutive_failures_for, find_route_state.
  destruct (List.find _ _) as [state|] eqn:E; [|lia].
  apply find_some in E as [Hin _]. by apply H, list_elem_of_In.
Qed.

Lemma s32_u64 z : in_s32 z -> s32 (u64 z) = z.
Proof.
  unfold in_s32, s32, u64. intros H. rewrite <-(Z.add_mod_idemp_l (z mod 2 ^ 64)) by lia.
  rewrite Z.mod_mod_divide by (by exists (2 ^ 32)).
  rewrite Z.add_mod_idemp_l by lia. rewrite Z.mod_small; lia.
Qed.

Lemma s32_u32_small z : 0 <= z < 2 ^ 31 -> s32 (u32 z) = z.
Proof. intros H. rewrite u32_id by (unfold in_u32; lia). unfold s32. rewrite Z.mod_small; lia. Qed.

(** What the adjustments can amount to. *)
Definition weight (l : list (Z * option string)) : Z :=
  foldr (fun v acc => Z.abs v + acc) 0 l.*1.

Lemma weight_app_le l1 l2 n1 n2 :
  weight l1 <= n1 -> weight l2 <= n2 -> weight (l1 ++ l2) <= n1 + n2.
Proof.
  unfold weight. revert n1. induction l1 as [|x l1 IH]; intros n1 H1 H2; cbn in *; [lia|].
  specialize (IH (n1 - Z.abs x.1) ltac:(lia) H2). lia.
Qed.

Lemma adjustments_weight hint route_preference provider model health_snapshot :
  counters_small hint health_snapshot -> 0 <= rpf_order route_preference < 1000000 ->
  weight (adjustments hint route_preference provider model health_snapshot) < 2000000000.
Proof.
  intros Hsmall Ho. pose proof (proj1 Hsmall) as Hp.
  apply (failures_small hint health_snapshot (pde_provider_id (pcp_descriptor provider))
           (mce_model_id (pmm_summary model))) in Hsmall as Hf.
  unfold adjustments. set (failures := consecutive_failures_for _ _ _) in *. clearbody failures.
  rewrite s32_u64 by (unfold in_s32; lia). rewrite !s32_u32_small by lia.
  eapply (Z.le_lt_trans _ (200000000 + (250 + (400 + (200 + (180 + (220 + (160 + (90 + (100 +
    (100 + (40 + (900000000 + 750000000))))))))))))); [|lia].
  repeat apply weight_app_le; clear Hsmall;
    repeat match goal with |- context [if ?b then _ else _] => destruct b eqn:? end;
    unfold weight; cbn; reflect_tests; lia.
Qed.

Lemma scored_defined hint route_preference provider model health_snapshot :
  counters_small hint health_snapshot -> 0 <= rpf_order route_preference < 1000000 ->
  is_Some (scored hint route_preference provider model health_snapshot).
Proof.
  intros Hsmall Ho. unfold scored.
  pose proof (adjustments_weight hint route_preference provider model health_snapshot Hsmall Ho)
    as Hw. unfold weight in Hw.
  destruct (sum_int_defined (adjustments hint route_preference provider model
    health_snapshot).*1 0) as [score ->]; [lia|lia|by eexists].
Qed.

Lemma consider_all_defined config hint catalog_snapshot health_snapshot search pairs :
  counters_small hint health_snapshot ->
  (forall pair, pair ∈ pairs -> 0 <= rpf_order pair.1 < 1000000) ->
  is_Some (consider_all config hint catalog_snapshot health_snapshot search pairs).
Proof.
  intros Hsmall. revert search. induction pairs as [|[p m] pairs IH]; intros search Ho;
    cbn [consider_all]; [by eexists|].
  assert (is_Some (consider config hint catalog_snapshot health_snapshot search p m))
    as [next ->]; [|apply IH; intros; apply Ho; by right].
  unfold consider, score_candidate. destruct (find_provider _ _) as [provider|]; [|by eexists].
  destruct (negb _); [by eexists|]. destruct (rejection _ _ _ _ _); [by eexists|].
  destruct (scored_defined hint p provider m health_snapshot Hsmall) as [c ->]; [|by eexists].
  apply (Ho (p, m)). left.
Qed.

Lemma deduplicated_length routes : (length (deduplicated routes) <= length routes)%nat.
Proof.
  unfold deduplicated. change (length routes) with (length (@nil string) + length routes)%nat.
  generalize (@nil string) as kept. induction routes as [|route routes IH]; intros kept; cbn; [lia|].
  etrans; [apply IH|]. destruct (is_empty route); [lia|]. unfold append_new.
  destruct (contains_value kept route); [lia|]. rewrite length_app. cbn. lia.
Qed.

(** With counters of failures below fifteen and five million, and a configuration whose
    chain is shorter than a million, the router answers. *)
Lemma resolve_defined {sorting : StdSort} {visiting : UnorderedVisit} router hint
    catalog_snapshot health_snapshot :
  counters_small hint health_snapshot ->
  (forall config, mdr_config router = Some config ->
    (length (ldc_fallback_chain (lsc_degrade_policy config)) < Z.to_nat 999998)%nat) ->
  is_Some (resolve router hint catalog_snapshot health_snapshot).
Proof.
  intros Hsmall Hlen. unfold resolve. destruct (mdr_config router) as [config|]; [|by eexists].
  specialize (Hlen config eq_refl). destruct (negb _); [by eexists|].
  destruct (stage_route_for _ _) as [stage_route|]; [|by eexists].
  match goal with |- context [consider_all ?c ?h ?cat ?hs ?s ?l] =>
    destruct (consider_all_defined c h cat hs s l Hsmall) as [search ->]; [|by eexists] end.
  intros [p m] [Hp _]%loop_pairs_elem. cbn [fst] in *. unfold build_route_preferences in Hp.
  apply list_elem_of_lookup_1 in Hp as [i Hi]. rewrite list_lookup_imap in Hi.
  apply fmap_Some in Hi as (route & Hroute & ->).
  assert (rpf_order (parse_route_preference route (Z.of_nat i)) = Z.of_nat i) as ->
    by (unfold parse_route_preference; by destruct (split_point route) as [[? ?]|]).
  apply lookup_lt_Some in Hroute as Hi.
  pose proof (Nat.lt_le_trans _ _ _ Hi (deduplicated_length _)) as Hlt. clear Hi Hroute.
  cbn [length] in Hlt. rewrite length_app in Hlt.
  destruct (lsr_fallback_route stage_route), (_ || _); cbn in Hlt; lia.
Qed.

(** ** An example *)

Definition sample_descriptor (provider_id : string) : ProviderDescriptor :=
  {| pde_provider_id := provider_id; pde_adapter_family := "openai_compatible";
     pde_api_family := "chat"; pde_base_url := "https://models.example";
     pde_auth_ref := "secret://llm/providers/" +:+ provider_id; pde_header_refs := [];
     pde_capability_tags := ["tools"]; pde_source_version := "1" |}.

Definition sample_provider (provider_id locality : string) : ProviderCatalogProvider :=
  {| pcp_descriptor := sample_descriptor provider_id;
     pcp_runtime :=
       {| prs_display_name := provider_id; prs_auth_mode := "bearer";
          prs_trusted_source := "official"; prs_source_layer := "baseline";
          prs_base_url_alias := provider_id; prs_tags := [locality];
          prs_mutable_overlay_fields := []; prs_activation_flag := true |} |}.

Definition sample_model (provider_id model_id tier : string) (reasoning : bool)
    : ProviderModelMetadata :=
  {| pmm_summary :=
       {| mce_provider_id := provider_id; mce_model_id := model_id; mce_model_version := "1";
          mce_tier_family := tier; mce_latency_tier := "medium"; mce_cost_tier := "medium";
          mce_reasoning_depth_tier := "standard"; mce_context_window := 65536;
          mce_default_max_output_tokens := 4096; mce_max_output_tokens_hard_limit := 8192;
          mce_supports_tools := true; mce_supports_reasoning := reasoning;
          mce_supports_visible_reasoning := false; mce_supports_prompt_cache := false;
          mce_input_cache_hit_usd_per_1m := double_zero;
          mce_input_cache_miss_usd_per_1m := double_zero;
          mce_output_usd_per_1m := double_zero;
          mce_metadata_source_uri := "https://models.example/doc";
          mce_metadata_effective_at := "2025-01-01"; mce_verification_state := "verified" |};
     pmm_display_name := model_id; pmm_reasoning_mode := "none"; pmm_source_layer := "baseline";
     pmm_pricing_ref := "list"; pmm_aliases := [model_id]; pmm_input_modalities := ["text"];
     pmm_feature_notes := []; pmm_response_private_fields := [];
     pmm_verification_states := {["tools" := "verified"]}; pmm_supports_streaming := true;
     pmm_supports_json_object := true; pmm_supports_json_schema := false;
     pmm_supports_native_stream_usage := false |}.

Definition sample_catalog : ProviderCatalogSnapshot :=
  {| cat_default_source_version := "1";
     cat_providers := [sample_provider "deepseek" "cloud"; sample_provider "ollama" "local"];
     cat_models := [sample_model "ollama" "tiny" "small" false;
                    sample_model "deepseek" "chat" "general" false;
                    sample_model "deepseek" "reasoner" "reasoning" true] |}.

Definition sample_llm_config : LLMSubsystemConfig :=
  {| lsc_profile_id := "desktop";
     lsc_stage_routes :=
       {["planner" := {| lsr_route := "cloud.reasoning"; lsr_fallback_route := Some "local.small";
                         lsr_streaming_enabled := false |}]};
     lsc_allowed_prompt_releases := ["stable"]; lsc_trusted_sources := ["official"];
     lsc_tool_visibility_rules := [];
     lsc_prompt_asset_sources :=
       {| pas_baseline_root := "/prompts"; pas_deployment_root := "";
          pas_snapshot_cache_root := ""; pas_cache_ttl_ms := 0; pas_signature_required := true |};
     lsc_prompt_selector_overlay :=
       {| pso_active_scene := ""; pso_active_persona := ""; pso_default_prompt_bundle := "" |};
     lsc_provider_catalog_sources :=
       {| pcs_baseline_root := "/providers"; pcs_deployment_root := "";
          pcs_snapshot_cache_root := ""; pcs_signature_required := true;
          pcs_merge_mode := "overlay" |};
     lsc_degrade_policy :=
       {| ldc_fallback_chain := ["builtin_only"]; ldc_allow_model_failover := true;
          ldc_allow_budget_degrade := false |};
     lsc_timeout_policy :=
       {| ltc_timeout_ms := 30000; ltc_retry_budget := 1; ltc_circuit_breaker_threshold := 3 |};
     lsc_worker_threads := 2 |}.

Definition sample_hint : ModelSelectionHint :=
  {| msh_stage := "planner"; msh_task_type := "plan"; msh_complexity_tier := "high";
     msh_latency_sla_tier := "batch"; msh_budget_tier := "normal"; msh_requires_tools := false;
     msh_requires_reasoning := false; msh_prefers_visible_reasoning := false;
     msh_estimated_input_tokens := 1000; msh_target_output_tokens := 500;
     msh_previous_route_failures := 0 |}.

Definition sample_router : ModelRouter := {| mdr_config := Some sample_llm_config |}.

Example sample_routes :
  option_map (fun result => option_map (fun route =>
      (rmr_primary_route route, rmr_fallback_routes route)) (mrr_resolved_route result))
    (resolve (sorting := merging_sort) (visiting := listed_order) sample_router sample_hint
       sample_catalog []) =
  Some (Some ("deepseek/reasoner", ["deepseek/chat"; "ollama/tiny"])).
Proof. vm_compute. reflexivity. Qed.

(** Two models whose route ids are equal are one route, which is that of the better. *)
Example route_ids_collide :
  make_route_id "hub" "org/model" = make_route_id "hub/org" "model".
Proof. reflexivity. Qed.

Lemma routes_exact_witness :
  exists result,
    resolve (sorting := merging_sort) (visiting := listed_order) sample_router sample_hint
      sample_catalog [] = Some result /\
    exists route stage_route,
      mrr_resolved_route result = Some route /\
      rmr_fallback_routes route = ["deepseek/chat"; "ollama/tiny"] /\
      ranked (offered sample_llm_config sample_hint stage_route sample_catalog [])
        (rmr_primary_route route :: rmr_fallback_routes route).
Proof.
  destruct (resolve (sorting := merging_sort) (visiting := listed_order) sample_router sample_hint
              sample_catalog []) as [result|] eqn:E; [|vm_compute in E; discriminate E].
  exists result. split; [reflexivity|].
  assert (hint_in_range sample_hint) as Hh
    by (split; split; vm_compute; (reflexivity || discriminate)).
  pose proof (routes_exact (sorting := merging_sort) (visiting := listed_order) sample_router
    sample_llm_config sample_hint sample_catalog [] result eq_refl Hh E) as H.
  destruct (mrr_resolved_route result) as [route|] eqn:Er.
  - destruct H as (_ & stage_route & _ & _ & _ & H). exists route, stage_route.
    split; [reflexivity|]. split; [|exact H].
    vm_compute in E. injection E as <-. injection Er as <-. reflexivity.
  - vm_compute in E. injection E as <-. discriminate Er.
Defined.
