(* ===== verification/AdapterRegistry.v ===== *)
(** * The adapters of the routes

    llm/src/route/AdapterRegistry.cpp: which adapter answers on a route, and whether the
    route is blocked. Each call changes a copy of the snapshot under the lock and publishes
    it; a probe asks the adapter between two such sections. [registry_refines_history] shows
    that, however the calls interleave, the state of a route is a function of what happened
    to it. *)

From stdpp Require Import sorting.
From S2P Require Import Prelude Text Ordering LlmConfig ModelRouter.

(** ** Data *)

Record HealthStatus := {
  hst_ready : bool;
  hst_degraded : bool;
  hst_message : string;
}.

Definition is_healthy (status : HealthStatus) : bool := hst_ready status && negb (hst_degraded status).

Definition infer_deployment_type (capability_tags : list string) : string :=
  match List.find (contains_value capability_tags) ["cloud"; "lan"; "local"] with
  | Some deployment_type => deployment_type
  | None => match capability_tags with tag :: _ => tag | [] => "managed" end
  end.

Definition normalize_health_status (status : HealthStatus) (fallback_message : string)
    : HealthStatus :=
  if is_empty (hst_message status)
  then {| hst_ready := hst_ready status; hst_degraded := hst_degraded status;
          hst_message := fallback_message |}
  else status.

Record AdapterRegistryConfig := {
  arc_blocked_failure_threshold : Z;
}.

Definition registry_config_consistent (config : AdapterRegistryConfig) : bool :=
  0 <? arc_blocked_failure_threshold config.

Definition route_is_blocked_by_failures (consecutive_failures : Z)
    (config : AdapterRegistryConfig) : bool :=
  arc_blocked_failure_threshold config <=? consecutive_failures.

Definition not_initialized : string := "adapter registry has not been initialized".
Definition route_not_found : string := "adapter registry route not found".

(** An adapter is an object of the interface ILLMAdapter, a null pointer [None]. *)
Section registry.
Context {Adapter : Type} {sorting : StdSort}.

Record AdapterRegistration := {
  arn_provider_id : string;
  arn_model_id : string;
  arn_adapter_id : string;
  arn_deployment_type : string;
  arn_capability_tags : list string;
  arn_supports_streaming : bool;
  arn_adapter : option Adapter;
}.

Definition registration_key (registration : AdapterRegistration) : string :=
  make_route_id (arn_provider_id registration) (arn_model_id registration).

Definition registration_consistent (registration : AdapterRegistration) : bool :=
  negb (is_empty (arn_provider_id registration)) && negb (is_empty (arn_model_id registration))
  && negb (is_empty (arn_adapter_id registration))
  && negb (is_empty (arn_deployment_type registration))
  && bool_decide (is_Some (arn_adapter registration)).

(** A route is its registration and its health. *)
Record AdapterRouteState := {
  ars_registration : AdapterRegistration;
  ars_last_health : HealthStatus;
  ars_blocked : bool;
  ars_consecutive_failures : Z;
}.

Definition route_key (route : AdapterRouteState) : string := registration_key (ars_registration route).

Abbreviation AdapterRegistrySnapshot := (list AdapterRouteState).

(** The loop with the set of keys. *)
Fixpoint snapshot_consistent_from (seen : list string) (routes : AdapterRegistrySnapshot) : bool :=
  match routes with
  | [] => true
  | route :: rest =>
      registration_consistent (ars_registration route)
      && negb (contains_value seen (route_key route))
      && snapshot_consistent_from (route_key route :: seen) rest
  end.

Definition snapshot_consistent (routes : AdapterRegistrySnapshot) : bool :=
  snapshot_consistent_from [] routes.

Definition find_route (routes : AdapterRegistrySnapshot) (key : string)
    : option AdapterRouteState :=
  List.find (fun route => bool_decide (route_key route = key)) routes.

Definition route_keys (routes : AdapterRegistrySnapshot) : list string := route_key <$> routes.

Definition to_model_router_health_snapshot (routes : AdapterRegistrySnapshot)
    : ModelRouterHealthSnapshot :=
  (fun route => {| mhs_provider_id := arn_provider_id (ars_registration route);
                   mhs_model_id := arn_model_id (ars_registration route);
                   mhs_blocked := ars_blocked route;
                   mhs_consecutive_failures := ars_consecutive_failures route |}) <$> routes.

Record AdapterRegistry := {
  arg_config : AdapterRegistryConfig;
  arg_snapshot : option AdapterRegistrySnapshot;
  arg_last_error_message : string;
  arg_initialized : bool;
}.

(** ** The parts of the calls *)

Definition registry_failed (registry : AdapterRegistry) (message : string)
    : AdapterRegistry * bool :=
  ({| arg_config := arg_config registry; arg_snapshot := arg_snapshot registry;
      arg_last_error_message := message; arg_initialized := arg_initialized registry |}, false).

Definition published (registry : AdapterRegistry) (routes : AdapterRegistrySnapshot)
    : AdapterRegistry * bool :=
  ({| arg_config := arg_config registry; arg_snapshot := Some routes;
      arg_last_error_message := ""; arg_initialized := arg_initialized registry |}, true).

Definition current_routes (registry : AdapterRegistry) : AdapterRegistrySnapshot :=
  default [] (arg_snapshot registry).

(** The first route of the key is changed in place. *)
Fixpoint change_route (routes : AdapterRegistrySnapshot) (key : string)
    (change : AdapterRouteState -> AdapterRouteState) : AdapterRegistrySnapshot :=
  match routes with
  | [] => []
  | route :: rest =>
      if bool_decide (route_key route = key) then change route :: rest
      else route :: change_route rest key change
  end.

Definition sort_routes (routes : AdapterRegistrySnapshot) : AdapterRegistrySnapshot :=
  std_sort (by_text route_key) routes.

Definition make_route_state (registration : AdapterRegistration)
    (existing_state : option AdapterRouteState) : AdapterRouteState :=
  match existing_state with
  | Some existing =>
      {| ars_registration := registration; ars_last_health := ars_last_health existing;
         ars_blocked := ars_blocked existing;
         ars_consecutive_failures := ars_consecutive_failures existing |}
  | None =>
      {| ars_registration := registration;
         ars_last_health := {| hst_ready := false; hst_degraded := false;
                               hst_message := "adapter registered but not probed" |};
         ars_blocked := false; ars_consecutive_failures := 0 |}
  end.

(** ** The calls *)

(** One step here. The source writes the configuration, the flag and the empty snapshot before
    it takes [write_mutex_], so that this holds of an [init] that no other call of the
    registry overlaps; [LLMManager::init] is its only caller, and only
    while the registry has no snapshot. *)
Definition init (config : AdapterRegistryConfig) (registry : AdapterRegistry)
    : AdapterRegistry * bool :=
  if negb (registry_config_consistent config)
  then registry_failed registry "adapter registry received inconsistent config" else
  ({| arg_config := config; arg_snapshot := Some []; arg_last_error_message := "";
      arg_initialized := true |}, true).

Definition register_adapter (registry : AdapterRegistry) (registration : AdapterRegistration)
    : AdapterRegistry * bool :=
  if negb (arg_initialized registry) then registry_failed registry not_initialized else
  if negb (registration_consistent registration)
  then registry_failed registry "adapter registry received inconsistent registration" else
  let routes := current_routes registry in
  let key := registration_key registration in
  let existing_state := find_route routes key in
  let replacement := make_route_state registration existing_state in
  let next :=
    match existing_state with
    | None => routes ++ [replacement]
    | Some _ => change_route routes key (fun _ => replacement)
    end in
  published registry (sort_routes next).

(** What [adapter->init] answers is an argument. *)
Definition initialize_and_register_provider_route (adapter_init : Adapter -> LLMAdapterConfig -> bool)
    (registry : AdapterRegistry) (descriptor : ProviderDescriptor)
    (runtime_view : ProviderRuntimeProjectionView) (model_id : string) (supports_streaming : bool)
    (config : LLMSubsystemConfig) (adapter : option Adapter) : AdapterRegistry * bool :=
  if negb (arg_initialized registry) then registry_failed registry not_initialized else
  let bad_input :=
    registry_failed registry "adapter registry received inconsistent provider route input" in
  if is_empty model_id then bad_input else
  let? object := adapter else bad_input in
  if negb (subsystem_config_consistent config) then bad_input else
  let? adapter_config := project_provider_to_adapter_config config descriptor runtime_view
    else registry_failed registry
           "adapter registry failed to project provider config into adapter config" in
  if negb (lac_activation_flag adapter_config)
  then registry_failed registry
         "adapter registry refused to register a disabled provider instance" else
  if negb (adapter_init object adapter_config)
  then registry_failed registry
         "adapter registry failed to initialize adapter for provider route" else
  register_adapter registry
    {| arn_provider_id := pde_provider_id descriptor;
       arn_model_id := model_id;
       arn_adapter_id := lac_adapter_id adapter_config;
       arn_deployment_type := infer_deployment_type (lac_capability_tags adapter_config);
       arn_capability_tags := lac_capability_tags adapter_config;
       arn_supports_streaming := supports_streaming;
       arn_adapter := Some object |}.

Definition unregister_adapter (registry : AdapterRegistry) (key : string)
    : AdapterRegistry * bool :=
  if negb (arg_initialized registry) then registry_failed registry not_initialized else
  let routes := current_routes registry in
  let kept := List.filter (fun route => negb (bool_decide (route_key route = key))) routes in
  if Nat.eqb (length kept) (length routes) then registry_failed registry route_not_found else
  published registry kept.

Definition resolve_route (registry : AdapterRegistry) (key : string) : option AdapterRouteState :=
  match arg_snapshot registry with
  | Some routes => find_route routes key
  | None => None
  end.

Definition health_snapshot (registry : AdapterRegistry) : ModelRouterHealthSnapshot :=
  match arg_snapshot registry with
  | Some routes => to_model_router_health_snapshot routes
  | None => []
  end.

(** Under the lock, a call on one route: its change, if the route is there. *)
Definition update_route (registry : AdapterRegistry) (key missing : string)
    (change : AdapterRouteState -> AdapterRouteState) : AdapterRegistry * bool :=
  let routes := current_routes registry in
  match find_route routes key with
  | None => registry_failed registry missing
  | Some _ => published registry (change_route routes key change)
  end.

Definition set_health (blocked : bool) (failures : Z) (health : HealthStatus)
    (route : AdapterRouteState) : AdapterRouteState :=
  {| ars_registration := ars_registration route; ars_last_health := health;
     ars_blocked := blocked; ars_consecutive_failures := failures |}.

Definition probe_message (raw_status : HealthStatus) : string :=
  if hst_ready raw_status
  then if hst_degraded raw_status then "adapter health degraded" else "adapter health ready"
  else "adapter health not ready".

Definition probed (config : AdapterRegistryConfig) (raw_status : HealthStatus)
    (route : AdapterRouteState) : AdapterRouteState :=
  let status := normalize_health_status raw_status (probe_message raw_status) in
  if hst_ready status && negb (hst_degraded status) then set_health false 0 status route else
  let failures := u32 (ars_consecutive_failures route + 1) in
  set_health (negb (hst_ready status) || route_is_blocked_by_failures failures config) failures
    status route.

(** A probe up to the question to the adapter: the adapter it asks. *)
Definition probe_begin (registry : AdapterRegistry) (key : string)
    : AdapterRegistry * option (option Adapter) :=
  if negb (arg_initialized registry)
  then ((registry_failed registry not_initialized).1, None) else
  match arg_snapshot registry with
  | None =>
      ((registry_failed registry "adapter registry snapshot is not available").1, None)
  | Some routes =>
      match find_route routes key with
      | None => ((registry_failed registry route_not_found).1, None)
      | Some route => (registry, Some (arn_adapter (ars_registration route)))
      end
  end.

(** And from its answer on. *)
Definition probe_finish (registry : AdapterRegistry) (key : string) (raw_status : HealthStatus)
    : AdapterRegistry * bool :=
  update_route registry key "adapter registry route disappeared before health update"
    (probed (arg_config registry) raw_status).

Definition probe_health (health_check : Adapter -> HealthStatus) (registry : AdapterRegistry)
    (key : string) : AdapterRegistry * bool :=
  match probe_begin registry key with
  | (registry, Some (Some adapter)) => probe_finish registry key (health_check adapter)
  | (registry, _) => (registry, false)
  end.

(** The loop over the keys of one snapshot. *)
Fixpoint probe_each (health_check : Adapter -> HealthStatus) (registry : AdapterRegistry)
    (keys : list string) : AdapterRegistry * bool :=
  match keys with
  | [] => (registry, true)
  | key :: rest =>
      let '(registry, ok) := probe_health health_check registry key in
      let '(registry, others) := probe_each health_check registry rest in
      (registry, ok && others)
  end.

Definition probe_all_health (health_check : Adapter -> HealthStatus) (registry : AdapterRegistry)
    : AdapterRegistry * bool :=
  if negb (arg_initialized registry) then registry_failed registry not_initialized else
  match arg_snapshot registry with
  | None => registry_failed registry "adapter registry snapshot is not available"
  | Some routes => probe_each health_check registry (route_keys routes)
  end.

Definition after_success (message : string) (route : AdapterRouteState) : AdapterRouteState :=
  set_health false 0
    (normalize_health_status {| hst_ready := true; hst_degraded := false; hst_message := message |}
       "adapter route healthy after successful call") route.

Definition after_failure (config : AdapterRegistryConfig) (message : string)
    (route : AdapterRouteState) : AdapterRouteState :=
  let failures := u32 (ars_consecutive_failures route + 1) in
  let blocked := route_is_blocked_by_failures failures config in
  set_health blocked failures
    (normalize_health_status
       {| hst_ready := negb blocked; hst_degraded := true; hst_message := message |}
       (if blocked then "adapter route blocked after consecutive call failures"
        else "adapter route degraded after call failure")) route.

Definition record_call_success (registry : AdapterRegistry) (key message : string)
    : AdapterRegistry * bool :=
  if negb (arg_initialized registry) then registry_failed registry not_initialized else
  update_route registry key route_not_found (after_success message).

Definition record_call_failure (registry : AdapterRegistry) (key message : string)
    : AdapterRegistry * bool :=
  if negb (arg_initialized registry) then registry_failed registry not_initialized else
  update_route registry key route_not_found (after_failure (arg_config registry) message).

(** ** Routes by their key *)

Lemma find_route_some routes key route :
  find_route routes key = Some route -> route ∈ routes /\ route_key route = key.
Proof.
  intros H. apply find_some in H as [Hin Hk%bool_decide_eq_true].
  split; [by apply list_elem_of_In|done].
Qed.

Lemma find_route_iff routes key route :
  NoDup (route_keys routes) ->
  find_route routes key = Some route <-> route ∈ routes /\ route_key route = key.
Proof.
  intros Hnd. split; [apply find_route_some|]. intros [Hin <-].
  induction routes as [|first routes IH]; [by apply elem_of_nil in Hin|].
  apply NoDup_cons in Hnd as [Hn Hnd]. unfold find_route. cbn.
  apply elem_of_cons in Hin as [->|Hin]; [by rewrite bool_decide_true|].
  rewrite bool_decide_false; [by apply IH|].
  intros E. apply Hn. rewrite E. by apply list_elem_of_fmap_2.
Qed.

Lemma find_route_none routes key : find_route routes key = None <-> key ∉ route_keys routes.
Proof.
  unfold find_route, route_keys. induction routes as [|route routes IH]; cbn.
  - split; [intros _; apply not_elem_of_nil|done].
  - rewrite not_elem_of_cons, <-IH. case_bool_decide; naive_solver.
Qed.

(** Where the keys are distinct, their order does not matter. *)
Lemma find_route_perm routes routes' key :
  routes ≡ₚ routes' -> NoDup (route_keys routes) -> find_route routes key = find_route routes' key.
Proof.
  intros Hp Hnd. assert (NoDup (route_keys routes')) as Hnd'
    by (unfold route_keys; by rewrite <-Hp).
  destruct (find_route routes' key) as [route|] eqn:E.
  - apply find_route_iff in E; [|done]. apply find_route_iff; [done|]. by rewrite Hp.
  - apply find_route_none in E. apply find_route_none. unfold route_keys in *. by rewrite Hp.
Qed.

Lemma change_route_keys routes key change :
  (forall route, route_key route = key -> route_key (change route) = key) ->
  route_keys (change_route routes key change) = route_keys routes.
Proof.
  intros Hk. unfold route_keys. induction routes as [|route routes IH]; cbn; [done|].
  case_bool_decide as E; cbn; [by rewrite Hk, E|by rewrite IH].
Qed.

Lemma find_route_changed routes key change k :
  (forall route, route_key route = key -> route_key (change route) = key) ->
  find_route (change_route routes key change) k =
  if bool_decide (k = key) then change <$> find_route routes key else find_route routes k.
Proof.
  intros Hk. unfold find_route. induction routes as [|route routes IH]; cbn; [by case_bool_decide|].
  destruct (decide (route_key route = key)) as [<-|Hne].
  - rewrite (bool_decide_true (route_key route = route_key route)) by done. cbn. rewrite Hk by done.
    destruct (decide (k = route_key route)) as [->|Hk'];
      [by rewrite !bool_decide_true|by rewrite !bool_decide_false by congruence].
  - rewrite (bool_decide_false (route_key route = key)) by done. cbn. rewrite IH.
    destruct (decide (k = key)) as [->|Hk'];
      [by rewrite (bool_decide_true (key = key)), bool_decide_false by done|].
    by rewrite (bool_decide_false (k = key)).
Qed.

Lemma sort_routes_find routes key :
  NoDup (route_keys routes) -> find_route (sort_routes routes) key = find_route routes key.
Proof.
  intros Hnd. symmetry. apply find_route_perm; [|done].
  symmetry. apply std_sort_perm, _.
Qed.

Lemma filtered_find routes key k :
  find_route (List.filter (fun route => negb (bool_decide (route_key route = key))) routes) k =
  if bool_decide (k = key) then None else find_route routes k.
Proof.
  unfold find_route. induction routes as [|route routes IH]; cbn; [by case_bool_decide|].
  destruct (decide (route_key route = key)) as [<-|Hne].
  - rewrite (bool_decide_true (route_key route = route_key route)) by done. cbn. rewrite IH.
    destruct (decide (k = route_key route)) as [->|Hk];
      [by rewrite bool_decide_true|by rewrite !bool_decide_false by congruence].
  - rewrite (bool_decide_false (route_key route = key)) by done. cbn. rewrite IH.
    destruct (decide (k = key)) as [->|Hk];
      [by rewrite (bool_decide_true (key = key)), (bool_decide_false (route_key route = key)) by done|].
    by rewrite (bool_decide_false (k = key)).
Qed.

(** ** Histories *)

Inductive RouteEvent :=
| Succeeded
| FailedCall
| Probed (ready degraded : bool).

Definition clears (event : RouteEvent) : bool :=
  match event with
  | Succeeded => true
  | FailedCall => false
  | Probed ready degraded => ready && negb degraded
  end.

(** The events of a route since it was last well, the newest first. *)
Fixpoint failing_run (events : list RouteEvent) : Z :=
  match events with
  | [] => 0
  | event :: older => if clears event then 0 else failing_run older + 1
  end.

(** A route is blocked by the run of its failures, or because it was not ready when it was
    asked last, unless a call was recorded since. *)
Definition blocked_after (threshold : Z) (events : list RouteEvent) : bool :=
  match events with
  | [] => false
  | event :: _ =>
      negb (clears event)
      && (match event with Probed ready _ => negb ready | _ => false end
          || (threshold <=? u32 (failing_run events)))
  end.

Definition ready_after (threshold : Z) (events : list RouteEvent) : bool :=
  match events with
  | [] => false
  | Probed ready _ :: _ => ready
  | _ => negb (blocked_after threshold events)
  end.

Record RouteHistory := {
  rhi_registration : AdapterRegistration;
  rhi_events : list RouteEvent;
}.

Abbreviation RegistryHistory := (option (Z * gmap string RouteHistory)).

Inductive RegistryCall :=
| Init (config : AdapterRegistryConfig)
| Register (registration : AdapterRegistration)
| Unregister (key : string)
| ProbeBegin (key : string)
| ProbeFinish (key : string) (status : HealthStatus)
| CallSucceeded (key message : string)
| CallFailed (key message : string).

(** One call, or one of the two parts of a probe. *)
Definition registry_step (registry : AdapterRegistry) (call : RegistryCall)
    : AdapterRegistry * bool :=
  match call with
  | Init config => init config registry
  | Register registration => register_adapter registry registration
  | Unregister key => unregister_adapter registry key
  | ProbeBegin key =>
      ((probe_begin registry key).1, bool_decide (is_Some (probe_begin registry key).2))
  | ProbeFinish key status => probe_finish registry key status
  | CallSucceeded key message => record_call_success registry key message
  | CallFailed key message => record_call_failure registry key message
  end.

Definition registry_run (registry : AdapterRegistry) (calls : list RegistryCall)
    : AdapterRegistry :=
  foldl (fun registry call => (registry_step registry call).1) registry calls.

Definition add_event (histories : gmap string RouteHistory) (key : string) (event : RouteEvent)
    : gmap string RouteHistory :=
  alter (fun history => {| rhi_registration := rhi_registration history;
                           rhi_events := event :: rhi_events history |}) key histories.

(** What the call means for the histories, and whether it is accepted. *)
Definition history_step (history : RegistryHistory) (call : RegistryCall)
    : RegistryHistory * bool :=
  match call, history with
  | Init config, _ =>
      if registry_config_consistent config
      then (Some (arc_blocked_failure_threshold config, ∅), true) else (history, false)
  | _, None => (None, false)
  | Register registration, Some (threshold, histories) =>
      if registration_consistent registration
      then (Some (threshold,
              <[registration_key registration :=
                  {| rhi_registration := registration;
                     rhi_events := match histories !! registration_key registration with
                                   | Some previous => rhi_events previous
                                   | None => []
                                   end |}]> histories), true)
      else (history, false)
  | Unregister key, Some (threshold, histories) =>
      (Some (threshold, delete key histories), bool_decide (is_Some (histories !! key)))
  | ProbeBegin key, Some (_, histories) => (history, bool_decide (is_Some (histories !! key)))
  | ProbeFinish key status, Some (threshold, histories) =>
      (Some (threshold, add_event histories key (Probed (hst_ready status) (hst_degraded status))),
       bool_decide (is_Some (histories !! key)))
  | CallSucceeded key _, Some (threshold, histories) =>
      (Some (threshold, add_event histories key Succeeded), bool_decide (is_Some (histories !! key)))
  | CallFailed key _, Some (threshold, histories) =>
      (Some (threshold, add_event histories key FailedCall), bool_decide (is_Some (histories !! key)))
  end.

Definition history_run (history : RegistryHistory) (calls : list RegistryCall) : RegistryHistory :=
  foldl (fun history call => (history_step history call).1) history calls.

(** ** The registry and the histories *)

(** What a route shows of its history. *)
Definition shows (threshold : Z) (route : AdapterRouteState) (history : RouteHistory) : Prop :=
  ars_registration route = rhi_registration history /\
  ars_consecutive_failures route = u32 (failing_run (rhi_events history)) /\
  ars_blocked route = blocked_after threshold (rhi_events history) /\
  hst_ready (ars_last_health route) = ready_after threshold (rhi_events history).

Definition routes_show (threshold : Z) (routes : AdapterRegistrySnapshot)
    (histories : gmap string RouteHistory) : Prop :=
  NoDup (route_keys routes) /\
  StronglySorted (not_after (by_text route_key)) routes /\
  Forall (fun route => registration_consistent (ars_registration route) = true) routes /\
  forall key, match find_route routes key, histories !! key with
              | Some route, Some history => shows threshold route history
              | None, None => True
              | _, _ => False
              end.

Definition agrees (registry : AdapterRegistry) (history : RegistryHistory) : Prop :=
  match history with
  | None => arg_initialized registry = false /\ arg_snapshot registry = None
  | Some (threshold, histories) =>
      arg_initialized registry = true /\
      arc_blocked_failure_threshold (arg_config registry) = threshold /\
      exists routes, arg_snapshot registry = Some routes /\ routes_show threshold routes histories
  end.

Lemma u32_succ z : u32 (u32 z + 1) = u32 (z + 1).
Proof. unfold u32. by rewrite Z.add_mod_idemp_l. Qed.

Lemma find_route_agrees threshold routes histories key :
  routes_show threshold routes histories ->
  bool_decide (is_Some (find_route routes key)) = bool_decide (is_Some (histories !! key)).
Proof.
  intros (_ & _ & _ & H). specialize (H key).
  destruct (find_route routes key), (histories !! key); try done.
Qed.

(** A change that keeps the registration keeps the order. *)
Lemma change_route_sorted routes key change :
  (forall route, route_key route = key -> route_key (change route) = key) ->
  StronglySorted (not_after (by_text route_key)) routes ->
  StronglySorted (not_after (by_text route_key)) (change_route routes key change).
Proof.
  intros Hk. induction routes as [|route routes IH]; cbn; [done|].
  intros [Hs Hf]%StronglySorted_inv. rewrite Forall_forall in Hf.
  unfold not_after, by_text in *. case_bool_decide as E.
  - constructor; [done|]. apply Forall_forall. intros r Hr. rewrite Hk, <-E by done. by apply Hf.
  - constructor; [by apply IH|]. apply Forall_forall. intros r Hr.
    apply (list_elem_of_fmap_2 route_key) in Hr. fold (route_keys (change_route routes key change)) in Hr.
    rewrite change_route_keys in Hr by done. apply list_elem_of_fmap in Hr as (r' & -> & Hr).
    by apply Hf.
Qed.

Lemma change_route_forall (P : AdapterRouteState -> Prop) routes key change :
  (forall route, route_key route = key -> P route -> P (change route)) -> Forall P routes ->
  Forall P (change_route routes key change).
Proof.
  intros Hc H. induction H as [|route routes Hr H IH]; cbn; [by constructor|].
  case_bool_decide; constructor; auto.
Qed.

(** An event on the route [key]. *)
Lemma changed_shows threshold routes histories key change event :
  (forall route, ars_registration (change route) = ars_registration route) ->
  (forall route history, shows threshold route history ->
     shows threshold (change route)
       {| rhi_registration := rhi_registration history; rhi_events := event :: rhi_events history |}) ->
  routes_show threshold routes histories ->
  routes_show threshold (change_route routes key change) (add_event histories key event).
Proof.
  intros Hreg Hshow (Hnd & Hs & Hc & Hf).
  assert (forall route, route_key route = key -> route_key (change route) = key) as Hk
    by (intros route <-; unfold route_key; by rewrite Hreg).
  split_and!.
  - by rewrite change_route_keys.
  - by apply change_route_sorted.
  - apply change_route_forall; [|done]. intros route _. by rewrite Hreg.
  - intros k. rewrite find_route_changed by done. unfold add_event. specialize (Hf k).
    destruct (decide (k = key)) as [->|Hne].
    + rewrite bool_decide_true, lookup_alter_eq by done.
      destruct (find_route routes key), (histories !! key); cbn; try done. by apply Hshow.
    + rewrite bool_decide_false, lookup_alter_ne by done. done.
Qed.

Lemma add_event_missing histories key event :
  histories !! key = None -> add_event histories key event = histories.
Proof.
  intros H. apply map_eq. intros k. unfold add_event.
  destruct (decide (k = key)) as [->|Hne]; [by rewrite lookup_alter_eq, H|by rewrite lookup_alter_ne by done].
Qed.

Lemma update_agrees registry threshold histories key missing change event :
  agrees registry (Some (threshold, histories)) ->
  (forall route, ars_registration (change route) = ars_registration route) ->
  (forall route history, shows threshold route history ->
     shows threshold (change route)
       {| rhi_registration := rhi_registration history; rhi_events := event :: rhi_events history |}) ->
  agrees (update_route registry key missing change).1
    (Some (threshold, add_event histories key event)) /\
  (update_route registry key missing change).2 = bool_decide (is_Some (histories !! key)).
Proof.
  intros (Hi & Ht & routes & Hs & Hr) Hreg Hshow. unfold update_route.
  assert (current_routes registry = routes) as -> by (unfold current_routes; by rewrite Hs).
  pose proof (find_route_agrees _ _ _ key Hr) as Hfind.
  destruct (find_route routes key) as [route|] eqn:E; cbn.
  - rewrite <-Hfind, bool_decide_true by by eexists.
    split; [|done]. split; [done|]. split; [done|]. eexists. split; [done|]. by apply changed_shows.
  - assert (histories !! key = None) as Hnone.
    { rewrite bool_decide_false in Hfind by by intros [? ?].
      symmetry in Hfind. apply bool_decide_eq_false in Hfind. by apply eq_None_not_Some. }
    rewrite add_event_missing by done. rewrite Hnone, bool_decide_false by by intros [? ?].
    split; [|done]. split; [done|]. split; [done|]. by eexists.
Qed.

Lemma blocked_by_failures threshold failures config :
  arc_blocked_failure_threshold config = threshold ->
  route_is_blocked_by_failures failures config = (threshold <=? failures).
Proof. by intros <-. Qed.

Lemma probed_shows threshold config raw_status route history :
  arc_blocked_failure_threshold config = threshold -> shows threshold route history ->
  shows threshold (probed config raw_status route)
    {| rhi_registration := rhi_registration history;
       rhi_events := Probed (hst_ready raw_status) (hst_degraded raw_status)
                       :: rhi_events history |}.
Proof.
  intros Ht (Hreg & Hf & Hb & Hh). unfold probed.
  set (status := normalize_health_status _ _).
  assert (hst_ready status = hst_ready raw_status /\ hst_degraded status = hst_degraded raw_status)
    as [-> ->] by (unfold status, normalize_health_status; by case_match).
  assert (forall b n s, hst_ready (ars_last_health (set_health b n s route)) = hst_ready s)
    as Hset by done.
  unfold shows. cbn [rhi_registration rhi_events failing_run clears blocked_after ready_after].
  destruct (hst_ready raw_status && negb (hst_degraded raw_status)) eqn:E; cbn; split_and!;
    try done; try (unfold status, normalize_health_status; by case_match).
  - by rewrite Hf, u32_succ.
  - by rewrite Hf, u32_succ, (blocked_by_failures threshold).
Qed.

Lemma success_shows threshold message route history :
  shows threshold route history ->
  shows threshold (after_success message route)
    {| rhi_registration := rhi_registration history;
       rhi_events := Succeeded :: rhi_events history |}.
Proof.
  intros (Hreg & Hf & Hb & Hh). unfold after_success, normalize_health_status.
  case_match; split_and!; done.
Qed.

Lemma failure_shows threshold config message route history :
  arc_blocked_failure_threshold config = threshold -> shows threshold route history ->
  shows threshold (after_failure config message route)
    {| rhi_registration := rhi_registration history;
       rhi_events := FailedCall :: rhi_events history |}.
Proof.
  intros Ht (Hreg & Hf & Hb & Hh). unfold after_failure, normalize_health_status.
  rewrite Hf, u32_succ, (blocked_by_failures threshold) by done.
  case_match; split_and!; done.
Qed.

Lemma find_app {A} (f : A -> bool) l1 l2 :
  List.find f (l1 ++ l2) =
  match List.find f l1 with Some x => Some x | None => List.find f l2 end.
Proof. induction l1 as [|x l1 IH]; cbn; [done|]. by destruct (f x). Qed.

Lemma filter_sublist {A} (f : A -> bool) l : sublist (List.filter f l) l.
Proof. induction l as [|x l IH]; cbn; [constructor|]. destruct (f x); by constructor. Qed.

Lemma StronglySorted_sublist {A} (R : A -> A -> Prop) l1 l2 :
  sublist l1 l2 -> StronglySorted R l2 -> StronglySorted R l1.
Proof.
  induction 1 as [|x l1 l2 Hl IH|x l1 l2 Hl IH]; intros H; [done| |];
    apply StronglySorted_inv in H as [Hs Hx]; [|by apply IH].
  constructor; [by apply IH|]. rewrite Forall_forall in *. intros y Hy.
  apply Hx. by eapply elem_of_sublist.
Qed.

Lemma fresh_shows threshold registration :
  shows threshold (make_route_state registration None)
    {| rhi_registration := registration; rhi_events := [] |}.
Proof. split_and!; done. Qed.

Lemma kept_shows threshold registration route history :
  shows threshold route history ->
  shows threshold (make_route_state registration (Some route))
    {| rhi_registration := registration; rhi_events := rhi_events history |}.
Proof. intros (_ & ? & ? & ?). split_and!; done. Qed.

Lemma sorted_shows threshold routes histories :
  NoDup (route_keys routes) ->
  Forall (fun route => registration_consistent (ars_registration route) = true) routes ->
  (forall key, match find_route routes key, histories !! key with
               | Some route, Some history => shows threshold route history
               | None, None => True
               | _, _ => False
               end) ->
  routes_show threshold (sort_routes routes) histories.
Proof.
  intros Hnd Hc Hf.
  assert (sort_routes routes ≡ₚ routes) as Hp by apply std_sort_perm, _.
  split_and!.
  - unfold route_keys. by rewrite Hp.
  - apply std_sort_sorted, _.
  - by rewrite Hp.
  - intros key. rewrite sort_routes_find by done. apply Hf.
Qed.

Lemma register_agrees registry threshold histories registration :
  agrees registry (Some (threshold, histories)) ->
  agrees (register_adapter registry registration).1
    (history_step (Some (threshold, histories)) (Register registration)).1 /\
  (register_adapter registry registration).2 =
    (history_step (Some (threshold, histories)) (Register registration)).2.
Proof.
  intros (Hi & Ht & routes & Hs & Hr). unfold register_adapter. rewrite Hi.
  assert (current_routes registry = routes) as -> by (unfold current_routes; by rewrite Hs).
  cbn [history_step negb]. destruct (registration_consistent registration) eqn:Hc; cbn [negb];
    [|split; [split; [done|]; split; [done|]; by exists routes|done]].
  split; [|done]. split; [done|]. split; [done|]. eexists. split; [done|].
  destruct Hr as (Hnd & _ & Hall & Hf). pose proof (Hf (registration_key registration)) as Hkey.
  destruct (find_route routes (registration_key registration)) as [existing|] eqn:E,
    (histories !! registration_key registration) as [history|] eqn:Eh; try done.
  - assert (forall route, route_key route = registration_key registration ->
              route_key (make_route_state registration (Some existing)) =
              registration_key registration) as Hk by done.
    apply sorted_shows.
    + by rewrite change_route_keys.
    + by apply change_route_forall.
    + intros k. rewrite find_route_changed, E by done.
      destruct (decide (k = registration_key registration)) as [->|Hne].
      * rewrite bool_decide_true, lookup_insert_eq by done. cbn. by apply kept_shows.
      * rewrite bool_decide_false, lookup_insert_ne by done. apply Hf.
  - assert (route_keys (routes ++ [make_route_state registration None]) =
            route_keys routes ++ [registration_key registration]) as Hkeys
      by (unfold route_keys; by rewrite fmap_app).
    assert (NoDup (route_keys routes ++ [registration_key registration])) as Hnd'.
    { apply find_route_none in E. apply NoDup_app. split; [done|]. split; [|apply NoDup_singleton].
      by intros k Hin ->%list_elem_of_singleton. }
    apply sorted_shows.
    + by rewrite Hkeys.
    + apply Forall_app. split; [done|]. by apply Forall_singleton.
    + intros k. specialize (Hf k). unfold find_route in *. rewrite find_app.
      destruct (decide (k = registration_key registration)) as [->|Hne].
      * rewrite E, lookup_insert_eq. cbn. rewrite bool_decide_true by done. apply fresh_shows.
      * rewrite lookup_insert_ne by done. destruct (List.find _ routes); [done|]. cbn.
        by rewrite bool_decide_false.
Qed.

Lemma filter_length_find routes key :
  Nat.eqb (length (List.filter (fun route => negb (bool_decide (route_key route = key))) routes))
    (length routes) = negb (bool_decide (is_Some (find_route routes key))).
Proof.
  unfold find_route. induction routes as [|route routes IH]; cbn.
  - done.
  - destruct (decide (route_key route = key)) as [E|E].
    2: { rewrite (bool_decide_false (route_key route = key)) by done. exact IH. }
    rewrite (bool_decide_true (route_key route = key)) by done. cbn. apply Nat.eqb_neq.
    pose proof (filter_length_le (fun route => negb (bool_decide (route_key route = key))) routes).
    lia.
Qed.

Lemma unregister_agrees registry threshold histories key :
  agrees registry (Some (threshold, histories)) ->
  agrees (unregister_adapter registry key).1 (Some (threshold, delete key histories)) /\
  (unregister_adapter registry key).2 = bool_decide (is_Some (histories !! key)).
Proof.
  intros (Hi & Ht & routes & Hs & Hr). unfold unregister_adapter. rewrite Hi.
  assert (current_routes registry = routes) as -> by (unfold current_routes; by rewrite Hs).
  cbn [negb]. rewrite filter_length_find, <-(find_route_agrees _ _ _ _ Hr).
  case_bool_decide as E; cbn [negb fst snd registry_failed published].
  - split; [|done]. split; [done|]. split; [done|]. eexists. split; [done|].
    destruct Hr as (Hnd & Hsorted & Hall & Hf). split_and!.
    + unfold route_keys. eapply sublist_NoDup; [exact Hnd|]. apply sublist_fmap, filter_sublist.
    + eapply StronglySorted_sublist, Hsorted. apply filter_sublist.
    + rewrite Forall_forall in *. intros route Hin. apply Hall.
      apply list_elem_of_In, filter_In in Hin as [Hin _]. by apply list_elem_of_In.
    + intros k. rewrite filtered_find. specialize (Hf k).
      destruct (decide (k = key)) as [->|Hne].
      * by rewrite bool_decide_true, lookup_delete_eq.
      * by rewrite bool_decide_false, lookup_delete_ne.
  - split; [|done]. split; [done|]. split; [done|]. exists routes. split; [done|].
    rewrite delete_id; [done|]. destruct Hr as (_ & _ & _ & Hf). specialize (Hf key).
    destruct (find_route routes key); [by destruct E; eexists|]. by destruct (histories !! key).
Qed.

Lemma not_initialized_agrees registry call :
  agrees registry None ->
  agrees (registry_step registry call).1 (history_step None call).1 /\
  (registry_step registry call).2 = (history_step None call).2.
Proof.
  intros [Hi Hs]. destruct call; cbn [registry_step history_step].
  1: { unfold init. destruct (registry_config_consistent config); cbn; [|done].
       split; [|done]. split; [done|]. split; [done|]. exists []. split; [done|].
       split_and!; [constructor|constructor|constructor|]. intros key. by rewrite lookup_empty. }
  all: unfold register_adapter, unregister_adapter, probe_begin, record_call_success,
    record_call_failure, probe_finish, update_route, current_routes;
    rewrite ?Hi, ?Hs; cbn; by rewrite ?Hs.
Qed.

Lemma step_agrees registry history call :
  agrees registry history ->
  agrees (registry_step registry call).1 (history_step history call).1 /\
  (registry_step registry call).2 = (history_step history call).2.
Proof.
  destruct history as [[threshold histories]|]; [|apply not_initialized_agrees].
  intros Ha. pose proof Ha as (Hi & Ht & routes & Hs & Hr).
  destruct call as [config|registration|key|key|key status|key message|key message];
    cbn [registry_step].
  - unfold init. cbn [history_step]. destruct (registry_config_consistent config); cbn; [|done].
    split; [|done]. split; [done|]. split; [done|]. exists []. split; [done|].
    split_and!; [constructor|constructor|constructor|]. intros key. by rewrite lookup_empty.
  - by apply register_agrees.
  - by apply unregister_agrees.
  - cbn [history_step fst snd]. rewrite <-(find_route_agrees _ _ _ key Hr).
    unfold probe_begin. rewrite Hi, Hs. cbn [negb]. by destruct (find_route routes key).
  - apply update_agrees; [done| |].
    + intros route. unfold probed. by case_match.
    + intros. by apply probed_shows.
  - unfold record_call_success. rewrite Hi. cbn [negb]. apply update_agrees; [done|done|].
    intros. by apply success_shows.
  - unfold record_call_failure. rewrite Hi. cbn [negb]. apply update_agrees; [done|done|].
    intros. by apply failure_shows.
Qed.

Definition new_registry : AdapterRegistry :=
  {| arg_config := {| arc_blocked_failure_threshold := 3 |}; arg_snapshot := None;
     arg_last_error_message := ""; arg_initialized := false |}.

Lemma run_agrees calls registry history :
  agrees registry history ->
  agrees (registry_run registry calls) (history_run history calls).
Proof.
  revert registry history. induction calls as [|call calls IH]; intros registry history H; [done|].
  apply IH. by apply step_agrees.
Qed.

(** C22. However the calls and the two halves of the probes interleave, the registry holds the
    registered routes, sorted, each once and with an adapter; a route counts the failures
    since it was last well and is blocked by them, or by a probe that found it not ready;
    and each call is accepted exactly when its route is there. *)
Theorem registry_refines_history calls call :
  agrees (registry_run new_registry calls) (history_run None calls) /\
  (registry_step (registry_run new_registry calls) call).2 =
    (history_step (history_run None calls) call).2.
Proof.
  assert (agrees (registry_run new_registry calls) (history_run None calls)) as H
    by by apply run_agrees.
  split; [done|]. by apply step_agrees.
Qed.

(** ** Open circuits *)

(** A call that can close the circuit of the route. *)
Definition may_close (key : string) (call : RegistryCall) : bool :=
  match call with
  | Init _ => true
  | Unregister k | CallSucceeded k _ => bool_decide (k = key)
  | ProbeFinish k status => bool_decide (k = key) && is_healthy status
  | Register _ | ProbeBegin _ | CallFailed _ _ => false
  end.

Lemma failing_run_nonneg events : 0 <= failing_run events.
Proof. induction events as [|event events IH]; cbn; [lia|]. case_match; lia. Qed.

(** The run of failures of a route is not shorter after such a call. *)
Lemma history_latches history call key threshold histories events :
  may_close key call = false -> history = Some (threshold, histories) ->
  rhi_events <$> histories !! key = Some events ->
  exists histories' events',
    (history_step history call).1 = Some (threshold, histories') /\
    rhi_events <$> histories' !! key = Some events' /\
    (events' = events \/ exists event, clears event = false /\ events' = event :: events).
Proof.
  intros Hcall -> He. destruct (histories !! key) as [h|] eqn:Eh; [|done].
  injection He as <-.
  assert (forall k event, (k = key -> clears event = false) ->
    exists events', rhi_events <$> add_event histories k event !! key = Some events' /\
      (events' = rhi_events h \/
       exists event, clears event = false /\ events' = event :: rhi_events h)) as Hadd.
  { intros k event Hc. unfold add_event. destruct (decide (k = key)) as [->|Hne].
    - rewrite lookup_alter_eq, Eh. cbn. eauto 10.
    - rewrite lookup_alter_ne, Eh by done. cbn. eauto. }
  destruct call as [config|registration|k|k|k status|k message|k message]; cbn in Hcall |- *;
    try done.
  - destruct (registration_consistent registration).
    + do 2 eexists. split; [done|].
      destruct (decide (registration_key registration = key)) as [->|Hne].
      * rewrite lookup_insert_eq, Eh. cbn. eauto.
      * rewrite lookup_insert_ne, Eh by done. cbn. eauto.
    + do 2 eexists. split; [done|]. rewrite Eh. cbn. eauto.
  - apply bool_decide_eq_false in Hcall. do 2 eexists. split; [done|].
    rewrite lookup_delete_ne, Eh by done. cbn. eauto.
  - do 2 eexists. split; [done|]. rewrite Eh. cbn. eauto.
  - destruct (Hadd k (Probed (hst_ready status) (hst_degraded status))) as (events' & ? & ?);
      [|by do 2 eexists].
    intros ->. by rewrite bool_decide_true in Hcall.
  - apply bool_decide_eq_false in Hcall.
    destruct (Hadd k Succeeded) as (events' & ? & ?); [done|by do 2 eexists].
  - destruct (Hadd k FailedCall) as (events' & ? & ?); [done|by do 2 eexists].
Qed.

Lemma run_latches later key threshold histories events :
  Forall (fun call => may_close key call = false) later ->
  rhi_events <$> histories !! key = Some events ->
  exists histories' events',
    history_run (Some (threshold, histories)) later = Some (threshold, histories') /\
    rhi_events <$> histories' !! key = Some events' /\
    failing_run events <= failing_run events' <= failing_run events + Z.of_nat (length later) /\
    (events' = events \/ exists event older, clears event = false /\ events' = event :: older).
Proof.
  revert histories events. induction later as [|call later IH]; intros histories events Hall He.
  - exists histories, events. cbn. split_and!; [done|done|lia|lia|by left].
  - apply Forall_cons in Hall as [Hcall Hall].
    destruct (history_latches _ _ _ threshold histories events Hcall eq_refl He)
      as (next & events1 & Hstep & He1 & Hgrow).
    destruct (IH next events1 Hall He1) as (histories' & events' & Hrun & He' & Hle & Hhead).
    exists histories', events'. cbn [history_run foldl length]. rewrite Hstep.
    split; [exact Hrun|]. split; [done|].
    destruct Hgrow as [->|(event & Hc & ->)].
    + split; [lia|done].
    + cbn [failing_run] in Hle. rewrite Hc in Hle. split; [lia|]. right.
      destruct Hhead as [->|Hhead]; [by exists event, events|done].
Qed.

Lemma u32_grows a b : 0 <= a <= b -> u32 a + (b - a) < 2 ^ 32 -> u32 a <= u32 b.
Proof.
  unfold u32. intros H1 H2. pose proof (Z.mod_pos_bound a (2 ^ 32) ltac:(lia)) as Ha.
  assert (b mod 2 ^ 32 = a mod 2 ^ 32 + (b - a)) as ->; [|lia].
  rewrite <-(Z.mod_small (a mod 2 ^ 32 + (b - a)) (2 ^ 32)) by lia.
  rewrite Z.add_mod_idemp_l by lia. f_equal. lia.
Qed.

(** A route that its failures have blocked stays blocked, whatever is registered, probed
    without success or recorded as failed, until it is removed, or a call or a probe of it
    succeeds. *)
Theorem open_circuit_latches before later key route :
  resolve_route (registry_run new_registry before) key = Some route ->
  arc_blocked_failure_threshold (arg_config (registry_run new_registry before))
    <= ars_consecutive_failures route ->
  ars_blocked route = true ->
  Forall (fun call => may_close key call = false) later ->
  ars_consecutive_failures route + Z.of_nat (length later) < 2 ^ 32 ->
  exists route', resolve_route (registry_run (registry_run new_registry before) later) key
                 = Some route' /\ ars_blocked route' = true.
Proof.
  intros Hroute Hth Hb Hall Hlen.
  assert (agrees (registry_run new_registry before) (history_run None before)) as Ha
    by by apply run_agrees.
  pose proof (run_agrees later _ _ Ha) as Ha'.
  destruct (history_run None before) as [[threshold histories]|] eqn:Ehist;
    [|destruct Ha as [_ Hnone]; unfold resolve_route in Hroute; by rewrite Hnone in Hroute].
  destruct Ha as (_ & Ht & routes & Hs & Hr). unfold resolve_route in Hroute.
  rewrite Hs in Hroute. pose proof (proj2 (proj2 (proj2 Hr)) key) as Hshow. rewrite Hroute in Hshow.
  destruct (histories !! key) as [history|] eqn:Eh; [|done].
  destruct Hshow as (_ & Hf & Hblocked & _).
  destruct (run_latches later key threshold histories (rhi_events history) Hall) as
    (histories' & events' & Hrun & He' & Hle & Hhead); [by rewrite Eh|].
  rewrite Hrun in Ha'. destruct Ha' as (_ & _ & routes' & Hs' & Hr').
  pose proof (proj2 (proj2 (proj2 Hr')) key) as Hshow'.
  destruct (histories' !! key) as [history'|] eqn:Eh'; [|done]. injection He' as <-.
  unfold resolve_route. rewrite Hs'.
  destruct (find_route routes' key) as [route'|]; [|done]. exists route'. split; [done|].
  destruct Hshow' as (_ & _ & -> & _). rewrite Hb in Hblocked.
  destruct Hhead as [->|(event & older & Hc & Hev)]; [done|]. rewrite Hev in Hle |- *.
  cbn [blocked_after]. rewrite Hc. cbn [negb andb]. apply orb_true_iff. right.
  apply Z.leb_le. rewrite Hf, Ht in Hth. rewrite Hf in Hlen. etrans; [exact Hth|].
  pose proof (failing_run_nonneg (rhi_events history)). apply u32_grows; lia.
Qed.

End registry.

(** ** Examples *)

Definition sample_registration : AdapterRegistration (Adapter := string) :=
  {| arn_provider_id := "deepseek"; arn_model_id := "chat"; arn_adapter_id := "main";
     arn_deployment_type := "cloud"; arn_capability_tags := ["cloud"];
     arn_supports_streaming := true; arn_adapter := Some "http" |}.

Definition sample_key : string := "deepseek/chat".

Definition sample_calls (later : list (RegistryCall (Adapter := string)))
    : list (RegistryCall (Adapter := string)) :=
  Init {| arc_blocked_failure_threshold := 3 |} :: Register sample_registration :: later.

Definition sample_run (later : list (RegistryCall (Adapter := string))) : AdapterRegistry :=
  registry_run (sorting := merging_sort) new_registry (sample_calls later).

Definition unready : HealthStatus :=
  {| hst_ready := false; hst_degraded := false; hst_message := "" |}.

(** A route that a probe found not ready is open again after a call on it fails. *)
Example failure_unblocks :
  (ars_blocked <$> resolve_route (sample_run [ProbeFinish sample_key unready]) sample_key,
   ars_blocked <$> resolve_route
     (sample_run [ProbeFinish sample_key unready; CallFailed sample_key "refused"]) sample_key) =
  (Some true, Some false).
Proof. vm_compute. reflexivity. Qed.

(** To register the route again does not close its circuit. *)
Lemma open_circuit_latches_witness :
  let before := sample_calls
    [CallFailed sample_key "1"; CallFailed sample_key "2"; CallFailed sample_key "3"] in
  let later := [Register sample_registration; ProbeFinish sample_key unready] in
  (ars_blocked <$> resolve_route (registry_run (sorting := merging_sort) new_registry before)
     sample_key) = Some true /\
  exists route',
    resolve_route (registry_run (sorting := merging_sort)
      (registry_run (sorting := merging_sort) new_registry before) later) sample_key = Some route' /\
    ars_blocked route' = true.
Proof.
  intros before later. split; [vm_compute; reflexivity|].
  destruct (resolve_route (registry_run (sorting := merging_sort) new_registry before) sample_key)
    as [route|] eqn:E; [|vm_compute in E; discriminate E].
  assert (ars_blocked route = true /\ ars_consecutive_failures route = 3) as [Hb Hf]
    by (vm_compute in E; injection E as <-; split; reflexivity).
  apply (open_circuit_latches (sorting := merging_sort) before later sample_key route E).
  - rewrite Hf. vm_compute. discriminate.
  - exact Hb.
  - repeat constructor.
  - rewrite Hf. vm_compute. reflexivity.
Defined.
