(* ===== verification/LlmContracts.v ===== *)
(** * The contracts of a model call and of a prompt

    contracts/include/llm/{LLMRequest,LLMResponse,LLMBoundaryGuards}.h and
    contracts/include/prompt/PromptComposeRequest.h with its guards. [llm_request_guard],
    [llm_response_guard] and [compose_request_guard] say what the guards let in; guards are
    written as in RecoveryContracts.v.

    contracts/include/prompt/{PromptRelease,PromptComposeResult}.h and llm/include/prompt/:
    what the parts of the prompt pipeline hand to each other, with the consistency tests, and
    the interface of the pipeline, which the manager of model calls is written against. *)

From S2P Require Import Prelude ErrorCodes CheckpointContracts RecoveryContracts ToolContracts MemoryContracts LlmConfig.

(** ** Data *)

Module LLMRequestMode.
Inductive LLMRequestMode := Unspecified | Unary | Streaming | Other (n : Z).
#[global] Instance LLMRequestMode_eq_dec : EqDecision LLMRequestMode.
Proof. solve_decision. Defined.
End LLMRequestMode.
Abbreviation LLMRequestMode := LLMRequestMode.LLMRequestMode.

Definition llm_request_mode_value (mode : LLMRequestMode) : Z :=
  match mode with
  | LLMRequestMode.Unspecified => 0
  | LLMRequestMode.Unary => 1
  | LLMRequestMode.Streaming => 2
  | LLMRequestMode.Other n => unnamed_value 3 n
  end.

Module LLMResponseKind.
Inductive LLMResponseKind :=
| Unspecified | DirectResponse | ToolCallIntent | ClarificationRequest | ReplanSuggestion | Refusal
| Other (n : Z).
#[global] Instance LLMResponseKind_eq_dec : EqDecision LLMResponseKind.
Proof. solve_decision. Defined.
End LLMResponseKind.
Abbreviation LLMResponseKind := LLMResponseKind.LLMResponseKind.

Definition llm_response_kind_value (kind : LLMResponseKind) : Z :=
  match kind with
  | LLMResponseKind.Unspecified => 0
  | LLMResponseKind.DirectResponse => 1
  | LLMResponseKind.ToolCallIntent => 2
  | LLMResponseKind.ClarificationRequest => 3
  | LLMResponseKind.ReplanSuggestion => 4
  | LLMResponseKind.Refusal => 5
  | LLMResponseKind.Other n => unnamed_value 6 n
  end.

Module PromptEvalStatus.
Inductive PromptEvalStatus := Unspecified | Draft | Experiment | Canary | Stable | Deprecated.
#[global] Instance PromptEvalStatus_eq_dec : EqDecision PromptEvalStatus.
Proof. solve_decision. Defined.
End PromptEvalStatus.
Abbreviation PromptEvalStatus := PromptEvalStatus.PromptEvalStatus.

Module CompositionStage.
Inductive CompositionStage :=
| Unspecified | Planning | Execution | Reflection | Response | Perception | Other (n : Z).
#[global] Instance CompositionStage_eq_dec : EqDecision CompositionStage.
Proof. solve_decision. Defined.
End CompositionStage.
Abbreviation CompositionStage := CompositionStage.CompositionStage.

Definition composition_stage_value (stage : CompositionStage) : Z :=
  match stage with
  | CompositionStage.Unspecified => 0
  | CompositionStage.Planning => 1
  | CompositionStage.Execution => 2
  | CompositionStage.Reflection => 3
  | CompositionStage.Response => 4
  | CompositionStage.Perception => 5
  | CompositionStage.Other n => unnamed_value 6 n
  end.

Record LLMRequest := {
  lrq_request_id : option string;
  lrq_llm_call_id : option string;
  lrq_model_route : option string;
  lrq_request_mode : option LLMRequestMode;
  lrq_messages : option (list string);
  lrq_created_at : option Z;
  lrq_prompt_id : option string;
  lrq_prompt_version : option string;
  lrq_output_schema_ref : option string;
  lrq_response_format : option string;
  lrq_runtime_budget : option RuntimeBudget;
  lrq_max_output_tokens : option Z;
  lrq_timeout_ms : option Z;
  lrq_tags : option (list string);
}.

Record LLMResponse := {
  lrs_request_id : option string;
  lrs_llm_call_id : option string;
  lrs_response_kind : option LLMResponseKind;
  lrs_content_payload : option string;
  lrs_completed_at : option Z;
  lrs_model_name : option string;
  lrs_prompt_id : option string;
  lrs_prompt_version : option string;
  lrs_eval_status : option PromptEvalStatus;
  lrs_release_scope : option string;
  lrs_finish_reason : option string;
  lrs_input_tokens : option Z;
  lrs_output_tokens : option Z;
  lrs_total_tokens : option Z;
  lrs_refusal_reason : option string;
  lrs_tags : option (list string);
}.

Record PromptComposeRequest := {
  pcr_request_id : option string;
  pcr_stage : option CompositionStage;
  pcr_context_packet_id : option string;
  pcr_created_at : option Z;
  pcr_task_type : option string;
  pcr_prompt_release_id : option string;
  pcr_visible_tools : option (list string);
  pcr_model_route : option string;
  pcr_output_schema_ref : option string;
  pcr_response_format : option string;
  pcr_tags : option (list string);
}.

(** ** Requests *)

Definition validate_llm_tags (tags : option (list string)) : GuardResult :=
  validate_optional_string_vector tags "tags must contain at least one item when present"
    "tags must not contain empty strings" "tags must not contain duplicate items".

Definition validate_llm_request_required_fields (request : LLMRequest) : GuardResult :=
  if negb (has_non_empty_value (lrq_request_id request))
  then guard_fail "request_id is required and must be non-empty" else
  if negb (has_non_empty_value (lrq_llm_call_id request))
  then guard_fail "llm_call_id is required and must be non-empty" else
  if negb (has_non_empty_value (lrq_model_route request))
  then guard_fail "model_route is required and must be non-empty" else
  if bool_decide (lrq_request_mode request = None)
     || bool_decide (lrq_request_mode request = Some LLMRequestMode.Unspecified)
  then guard_fail "request_mode is required and must not be Unspecified" else
  if bool_decide (default [] (lrq_messages request) = [])
  then guard_fail "messages are required and must contain at least one item" else
  if existsb is_empty (default [] (lrq_messages request))
  then guard_fail "messages must not contain empty-string elements" else
  if missing_or_non_positive (lrq_created_at request)
  then guard_fail "created_at is required and must be a positive timestamp" else
  guard_pass "all required llm request fields present".

Definition ids_layered : string :=
  "llm_call_id must not equal request_id because request identity and llm call identity are layered separately".

Definition validate_llm_request_boundary (request : LLMRequest) : option GuardResult :=
  let required_result := validate_llm_request_required_fields request in
  if negb (gr_ok required_result) then Some required_result else
  let? mode := lrq_request_mode request else None in
  let raw_mode := llm_request_mode_value mode in
  if (raw_mode <? 1) || (2 <? raw_mode)
  then Some (guard_fail "request_mode value is outside the known enum range") else
  let? llm_call_id := lrq_llm_call_id request else None in
  let? request_id := lrq_request_id request else None in
  if bool_decide (llm_call_id = request_id) then Some (guard_fail ids_layered) else
  Some (guard_pass "llm request boundary validation passed").

Definition validate_llm_request_field_rules (request : LLMRequest) : option GuardResult :=
  let? boundary_result := validate_llm_request_boundary request else None in
  if negb (gr_ok boundary_result) then Some boundary_result else
  let prompt_id_present := bool_decide (is_Some (lrq_prompt_id request)) in
  let prompt_version_present := bool_decide (is_Some (lrq_prompt_version request)) in
  if negb (Bool.eqb prompt_id_present prompt_version_present)
  then Some (guard_fail
    "prompt_id and prompt_version must either both be present or both be absent") else
  if present_but_empty (lrq_prompt_id request)
  then Some (guard_fail "prompt_id must be non-empty when present") else
  if present_but_empty (lrq_prompt_version request)
  then Some (guard_fail "prompt_version must be non-empty when present") else
  if present_but_empty (lrq_output_schema_ref request)
  then Some (guard_fail "output_schema_ref must be non-empty when present") else
  if present_but_empty (lrq_response_format request)
  then Some (guard_fail "response_format must be non-empty when present") else
  if present_and_zero (lrq_max_output_tokens request)
  then Some (guard_fail "max_output_tokens must be positive when present") else
  if present_and_zero (lrq_timeout_ms request)
  then Some (guard_fail "timeout_ms must be positive when present") else
  let budget := default empty_runtime_budget (lrq_runtime_budget request) in
  if present_and_zero (rb_max_tokens budget)
  then Some (guard_fail "runtime_budget.max_tokens must be positive when present") else
  if present_and_zero (rb_max_turns budget)
  then Some (guard_fail "runtime_budget.max_turns must be positive when present") else
  if present_and_zero (rb_max_tool_calls budget)
  then Some (guard_fail "runtime_budget.max_tool_calls must be positive when present") else
  if present_and_zero (rb_max_latency_ms budget)
  then Some (guard_fail "runtime_budget.max_latency_ms must be positive when present") else
  if present_and_zero (rb_max_replan_count budget)
  then Some (guard_fail "runtime_budget.max_replan_count must be positive when present") else
  let tags_result := validate_llm_tags (lrq_tags request) in
  if negb (gr_ok tags_result) then Some tags_result else
  Some (guard_pass "llm request field rules validation passed").

(** ** Responses *)

Definition validate_llm_response_required_fields (response : LLMResponse) : GuardResult :=
  if negb (has_non_empty_value (lrs_request_id response))
  then guard_fail "request_id is required and must be non-empty" else
  if negb (has_non_empty_value (lrs_llm_call_id response))
  then guard_fail "llm_call_id is required and must be non-empty" else
  if bool_decide (lrs_response_kind response = None)
     || bool_decide (lrs_response_kind response = Some LLMResponseKind.Unspecified)
  then guard_fail "response_kind is required and must not be Unspecified" else
  if negb (has_non_empty_value (lrs_content_payload response))
  then guard_fail "content_payload is required and must be non-empty" else
  if missing_or_non_positive (lrs_completed_at response)
  then guard_fail "completed_at is required and must be a positive timestamp" else
  guard_pass "all required llm response fields present".

Definition validate_llm_response_boundary (response : LLMResponse) : option GuardResult :=
  let required_result := validate_llm_response_required_fields response in
  if negb (gr_ok required_result) then Some required_result else
  let? kind := lrs_response_kind response else None in
  let raw_kind := llm_response_kind_value kind in
  if (raw_kind <? 1) || (5 <? raw_kind)
  then Some (guard_fail "response_kind value is outside the known enum range") else
  let? llm_call_id := lrs_llm_call_id response else None in
  let? request_id := lrs_request_id response else None in
  if bool_decide (llm_call_id = request_id) then Some (guard_fail ids_layered) else
  Some (guard_pass "llm response boundary validation passed").

(** All of the flags, or none. *)
Definition all_or_none (flags : list bool) : bool :=
  forallb (fun flag => flag) flags || negb (existsb (fun flag => flag) flags).

Definition has_value {A} (value : option A) : bool := bool_decide (is_Some value).

Definition validate_llm_response_field_rules (response : LLMResponse) : option GuardResult :=
  let? boundary_result := validate_llm_response_boundary response else None in
  if negb (gr_ok boundary_result) then Some boundary_result else
  if present_but_empty (lrs_model_name response)
  then Some (guard_fail "model_name must be non-empty when present") else
  if negb (all_or_none [has_value (lrs_prompt_id response); has_value (lrs_prompt_version response);
                        has_value (lrs_eval_status response);
                        has_value (lrs_release_scope response)])
  then Some (guard_fail "prompt_id, prompt_version, eval_status, and release_scope must either all be present or all be absent") else
  if present_but_empty (lrs_prompt_id response)
  then Some (guard_fail "prompt_id must be non-empty when present") else
  if present_but_empty (lrs_prompt_version response)
  then Some (guard_fail "prompt_version must be non-empty when present") else
  if bool_decide (lrs_eval_status response = Some PromptEvalStatus.Unspecified)
  then Some (guard_fail "eval_status must be a concrete PromptEvalStatus when present") else
  if present_but_empty (lrs_release_scope response)
  then Some (guard_fail "release_scope must be non-empty when present") else
  if present_but_empty (lrs_finish_reason response)
  then Some (guard_fail "finish_reason must be non-empty when present") else
  if present_but_empty (lrs_refusal_reason response)
  then Some (guard_fail "refusal_reason must be non-empty when present") else
  let? kind := lrs_response_kind response else None in
  if bool_decide (kind = LLMResponseKind.Refusal) && negb (has_value (lrs_refusal_reason response))
  then Some (guard_fail "refusal_reason is required when response_kind is Refusal") else
  if negb (bool_decide (kind = LLMResponseKind.Refusal)) && has_value (lrs_refusal_reason response)
  then Some (guard_fail "refusal_reason must be absent unless response_kind is Refusal") else
  let usage_result :=
    match lrs_input_tokens response, lrs_output_tokens response, lrs_total_tokens response with
    | None, None, None => guard_pass ""
    | Some input, Some output, Some total =>
        if negb (total =? u32 (input + output))
        then guard_fail "total_tokens must equal input_tokens + output_tokens" else guard_pass ""
    | _, _, _ =>
        guard_fail "input_tokens, output_tokens, and total_tokens must either all be present or all be absent"
    end in
  if negb (gr_ok usage_result) then Some usage_result else
  let tags_result := validate_llm_tags (lrs_tags response) in
  if negb (gr_ok tags_result) then Some tags_result else
  Some (guard_pass "llm response field rules validation passed").

(** ** The request for a prompt *)

Definition validate_prompt_compose_request_required_fields (req : PromptComposeRequest)
    : GuardResult :=
  if negb (has_non_empty_value (pcr_request_id req))
  then guard_fail "request_id is required and must be non-empty" else
  if bool_decide (pcr_stage req = None)
     || bool_decide (pcr_stage req = Some CompositionStage.Unspecified)
  then guard_fail "stage is required and must not be Unspecified" else
  if negb (has_non_empty_value (pcr_context_packet_id req))
  then guard_fail "context_packet_id is required and must be non-empty" else
  if missing_or_non_positive (pcr_created_at req)
  then guard_fail "created_at is required and must be a positive timestamp" else
  guard_pass "all required fields present".

Definition validate_prompt_compose_request_boundary (req : PromptComposeRequest)
    : option GuardResult :=
  let required_result := validate_prompt_compose_request_required_fields req in
  if negb (gr_ok required_result) then Some required_result else
  let? stage := pcr_stage req else None in
  let raw_stage := composition_stage_value stage in
  if (raw_stage <? 1) || (5 <? raw_stage)
  then Some (guard_fail "stage value is outside the known CompositionStage enum range") else
  Some (guard_pass "prompt compose request boundary validation passed").

(** The second loop over a vector, after the one for empty items. *)
Fixpoint has_duplicate (items : list string) : bool :=
  match items with
  | [] => false
  | item :: rest => existsb (fun probe => bool_decide (item = probe)) rest || has_duplicate rest
  end.

Definition validate_prompt_compose_request_field_rules (req : PromptComposeRequest)
    : option GuardResult :=
  let? boundary_result := validate_prompt_compose_request_boundary req else None in
  if negb (gr_ok boundary_result) then Some boundary_result else
  let? request_id := pcr_request_id req else None in
  let? context_packet_id := pcr_context_packet_id req else None in
  if negb (bool_decide (request_id = context_packet_id))
  then Some (guard_fail
    "context_packet_id must equal request_id for the active request context") else
  if present_but_empty (pcr_task_type req)
  then Some (guard_fail "task_type must be non-empty when present") else
  if present_but_empty (pcr_prompt_release_id req)
  then Some (guard_fail "prompt_release_id must be non-empty when present") else
  if present_but_empty (pcr_model_route req)
  then Some (guard_fail "model_route must be non-empty when present") else
  if present_but_empty (pcr_output_schema_ref req)
  then Some (guard_fail "output_schema_ref must be non-empty when present") else
  if present_but_empty (pcr_response_format req)
  then Some (guard_fail "response_format must be non-empty when present") else
  if bool_decide (pcr_visible_tools req = Some [])
  then Some (guard_fail "visible_tools must contain at least one item when present") else
  if existsb is_empty (default [] (pcr_visible_tools req))
  then Some (guard_fail "visible_tools must not contain empty-string elements") else
  if has_duplicate (default [] (pcr_visible_tools req))
  then Some (guard_fail "visible_tools must not contain duplicate tool identifiers") else
  if bool_decide (pcr_tags req = Some [])
  then Some (guard_fail "tags must contain at least one item when present") else
  if existsb is_empty (default [] (pcr_tags req))
  then Some (guard_fail "tags must not contain empty-string elements") else
  Some (guard_pass "prompt compose request field rules validation passed").

(** ** Names of fields *)

Module LLMBoundaryDecision.
Inductive LLMBoundaryDecision :=
| AllowField | RejectContextOwnershipField | RejectPromptAssetField | RejectProviderPrivateField
| RejectRuntimeControlField | RejectPromptContextField | RejectExecutionControlField
| RejectErrorOwnershipField.
#[global] Instance LLMBoundaryDecision_eq_dec : EqDecision LLMBoundaryDecision.
Proof. solve_decision. Defined.
End LLMBoundaryDecision.
Abbreviation LLMBoundaryDecision := LLMBoundaryDecision.LLMBoundaryDecision.

Record LLMFieldBoundaryResult := {
  lfb_allowed : bool;
  lfb_decision : LLMBoundaryDecision;
  lfb_reason : string;
}.

(** The loops over the families of forbidden names. *)
Fixpoint llm_field_boundary (families : list (list string * LLMBoundaryDecision * string))
    (allowed_reason field_name : string) : LLMFieldBoundaryResult :=
  match families with
  | [] =>
      {| lfb_allowed := true; lfb_decision := LLMBoundaryDecision.AllowField;
         lfb_reason := allowed_reason |}
  | (names, decision, reason) :: rest =>
      if existsb (fun name => bool_decide (field_name = name)) names
      then {| lfb_allowed := false; lfb_decision := decision; lfb_reason := reason |}
      else llm_field_boundary rest allowed_reason field_name
  end.

Definition kLLMRequestContextOwnershipForbiddenFields : list string :=
  ["context_packet"; "summary_memory"; "retrieval_candidates"].
Definition kLLMRequestPromptAssetForbiddenFields : list string :=
  ["system_instructions"; "task_template"; "few_shot_refs"; "policy_notes"].
Definition kLLMRequestProviderPrivateForbiddenFields : list string :=
  ["provider_payload"; "model_provider_args"; "vendor_request"].
Definition kLLMRequestRuntimeControlForbiddenFields : list string :=
  ["retry_count"; "checkpoint_ref"; "fsm_state"].

Definition evaluate_llm_request_field_boundary : string -> LLMFieldBoundaryResult :=
  llm_field_boundary
    [(kLLMRequestContextOwnershipForbiddenFields,
      LLMBoundaryDecision.RejectContextOwnershipField,
      "llm request must not own context or memory fields");
     (kLLMRequestPromptAssetForbiddenFields, LLMBoundaryDecision.RejectPromptAssetField,
      "llm request must not contain prompt asset source fields");
     (kLLMRequestProviderPrivateForbiddenFields, LLMBoundaryDecision.RejectProviderPrivateField,
      "llm request must not contain provider-private transport or vendor parameter fields");
     (kLLMRequestRuntimeControlForbiddenFields, LLMBoundaryDecision.RejectRuntimeControlField,
      "llm request must not contain runtime retry or checkpoint control fields")]
    "llm request field is allowed by WP05-T010".

Definition kLLMResponseProviderPrivateForbiddenFields : list string :=
  ["raw_provider_response"; "logprobs"; "reasoning_trace"; "vendor_response"].
Definition kLLMResponsePromptContextForbiddenFields : list string :=
  ["messages"; "system_instructions"; "context_packet"].
Definition kLLMResponseExecutionControlForbiddenFields : list string :=
  ["shell_command"; "tool_request"; "worker_dispatch"; "retry_plan"].
Definition kLLMResponseErrorOwnershipForbiddenFields : list string :=
  ["error_info"; "result_code"; "failure_type"].

Definition evaluate_llm_response_field_boundary : string -> LLMFieldBoundaryResult :=
  llm_field_boundary
    [(kLLMResponseProviderPrivateForbiddenFields, LLMBoundaryDecision.RejectProviderPrivateField,
      "llm response must not contain provider-private payload or diagnostics fields");
     (kLLMResponsePromptContextForbiddenFields, LLMBoundaryDecision.RejectPromptContextField,
      "llm response must not own prompt or context fields");
     (kLLMResponseExecutionControlForbiddenFields,
      LLMBoundaryDecision.RejectExecutionControlField,
      "llm response must not contain executable runtime control fields");
     (kLLMResponseErrorOwnershipForbiddenFields, LLMBoundaryDecision.RejectErrorOwnershipField,
      "llm response must not own cross-cutting error fields")]
    "llm response field is allowed by WP05-T010".

(** ** What the guards admit *)

Lemma existsb_is_empty items :
  existsb is_empty items = false <-> Forall (fun s => s <> "") items.
Proof.
  induction items as [|item items IH]; cbn; [by split; [constructor|]|].
  by rewrite orb_false_iff, is_empty_false, Forall_cons, IH.
Qed.

Definition ids_distinct (request_id llm_call_id : option string) : Prop :=
  has_non_empty_value request_id = true /\ has_non_empty_value llm_call_id = true /\
  llm_call_id <> request_id.

Record llm_request_ok (request : LLMRequest) : Prop := {
  lqo_ids : ids_distinct (lrq_request_id request) (lrq_llm_call_id request);
  lqo_route : has_non_empty_value (lrq_model_route request) = true;
  lqo_mode : lrq_request_mode request = Some LLMRequestMode.Unary \/
             lrq_request_mode request = Some LLMRequestMode.Streaming;
  lqo_messages : exists messages, lrq_messages request = Some messages /\ messages <> [] /\
                   Forall (fun message => message <> "") messages;
  lqo_created_at : positive_time (lrq_created_at request);
  lqo_prompt : is_Some (lrq_prompt_id request) <-> is_Some (lrq_prompt_version request);
  lqo_prompt_id : lrq_prompt_id request <> Some "";
  lqo_prompt_version : lrq_prompt_version request <> Some "";
  lqo_schema : lrq_output_schema_ref request <> Some "";
  lqo_format : lrq_response_format request <> Some "";
  lqo_max_output : lrq_max_output_tokens request <> Some 0;
  lqo_timeout : lrq_timeout_ms request <> Some 0;
  lqo_budget : forall budget, lrq_runtime_budget request = Some budget ->
    rb_max_tokens budget <> Some 0 /\ rb_max_turns budget <> Some 0 /\
    rb_max_tool_calls budget <> Some 0 /\ rb_max_latency_ms budget <> Some 0 /\
    rb_max_replan_count budget <> Some 0;
  lqo_tags : items_distinct (lrq_tags request);
}.

Lemma request_mode_range mode :
  (llm_request_mode_value mode <? 1) || (2 <? llm_request_mode_value mode) = false <->
  mode = LLMRequestMode.Unary \/ mode = LLMRequestMode.Streaming.
Proof.
  destruct mode as [| | |n]; cbn; [naive_solver..|]. unfold unnamed_value.
  destruct (n <? 0) eqn:E; reflect_tests; split; (intuition (try discriminate)); lia.
Qed.

Lemma response_kind_range kind :
  (llm_response_kind_value kind <? 1) || (5 <? llm_response_kind_value kind) = false <->
  kind <> LLMResponseKind.Unspecified /\ forall n, kind <> LLMResponseKind.Other n.
Proof.
  destruct kind as [| | | | | |n]; cbn; [naive_solver..|]. unfold unnamed_value. split.
  - destruct (n <? 0) eqn:E; reflect_tests; lia.
  - intros [_ H]. by destruct (H n).
Qed.

Lemma composition_stage_range stage :
  (composition_stage_value stage <? 1) || (5 <? composition_stage_value stage) = false <->
  stage <> CompositionStage.Unspecified /\ forall n, stage <> CompositionStage.Other n.
Proof.
  destruct stage as [| | | | | |n]; cbn; [naive_solver..|]. unfold unnamed_value. split.
  - destruct (n <? 0) eqn:E; reflect_tests; lia.
  - intros [_ H]. by destruct (H n).
Qed.

Lemma layered_ids request_id llm_call_id reason (g : option GuardResult) :
  has_non_empty_value request_id = true -> has_non_empty_value llm_call_id = true ->
  admitted (let? a := llm_call_id else None in let? b := request_id else None in
            if bool_decide (a = b :> string) then Some (guard_fail reason) else g) <->
  ids_distinct request_id llm_call_id /\ admitted g.
Proof.
  intros Hr Hl. rewrite admitted_ids. unfold ids_distinct. rewrite Hr, Hl.
  apply has_non_empty_value_true in Hr as (? & -> & _), Hl as (? & -> & _).
  split; [naive_solver|]. intros [(_ & _ & ?) ?]. split_and!; eauto.
Qed.

Lemma present_eqb {A B} (a : option A) (b : option B) :
  negb (Bool.eqb (bool_decide (is_Some a)) (bool_decide (is_Some b))) = false <->
  (is_Some a <-> is_Some b).
Proof.
  rewrite negb_false_iff, eqb_true_iff. split; [|apply bool_decide_ext].
  destruct a, b; naive_solver.
Qed.

(** The guard of requests admits exactly the requests that are complete, name the call and
    the request apart, and hold no empty value. *)
Lemma llm_request_guard request :
  admitted (validate_llm_request_field_rules request) <-> llm_request_ok request.
Proof.
  unfold validate_llm_request_field_rules, validate_llm_request_boundary, validate_llm_tags.
  rewrite admitted_inner, admitted_layer. unfold validate_llm_request_required_fields.
  rewrite !guard_test, !negb_false_iff, orb_false_iff, !bool_decide_eq_false,
    missing_or_non_positive_time, existsb_is_empty.
  rewrite !admitted_test, present_eqb, !present_but_empty_false, !present_and_zero_false,
    admitted_layer, string_vector_ok, !admitted_some.
  split.
  - intros [[(Hr & Hl & Hroute & [_ Hmode] & Hm & Hms & Hc & _) Hb]
      (Hp & Hpi & Hpv & Hs & Hf & Ho & Ht & Hb1 & Hb2 & Hb3 & Hb4 & Hb5 & Htags & _)].
    rewrite admitted_deref in Hb. destruct Hb as (mode & Hmode' & Hb).
    rewrite admitted_test, request_mode_range, layered_ids in Hb by done.
    destruct Hb as (Hrange & Hids & _). split; try done.
    + destruct Hrange as [->| ->]; [by left|by right].
    + destruct (lrq_messages request) as [messages|]; [by exists messages|done].
    + intros budget Hbudget. by rewrite Hbudget in *.
  - intros [Hids Hroute Hmode (messages & Hm & Hne & Hms) Hc Hp Hpi Hpv Hs Hf Ho Ht Hb Htags].
    destruct Hids as (Hr & Hl & Hne').
    assert (rb_max_tokens (default empty_runtime_budget (lrq_runtime_budget request)) <> Some 0 /\
            rb_max_turns (default empty_runtime_budget (lrq_runtime_budget request)) <> Some 0 /\
            rb_max_tool_calls (default empty_runtime_budget (lrq_runtime_budget request)) <> Some 0
            /\ rb_max_latency_ms (default empty_runtime_budget (lrq_runtime_budget request)) <> Some 0
            /\ rb_max_replan_count (default empty_runtime_budget (lrq_runtime_budget request))
               <> Some 0) as Hbudget
      by (destruct (lrq_runtime_budget request) as [budget|]; [by apply Hb|by split_and!]).
    split; [|by destruct Hbudget as (? & ? & ? & ? & ?); split_and!].
    split; [rewrite Hm; split_and!; try done; destruct Hmode as [->| ->]; done|].
    rewrite admitted_deref.
    destruct Hmode as [Hmode|Hmode]; rewrite Hmode; eexists; (split; [done|]);
      rewrite admitted_test, request_mode_range, layered_ids by done;
      (split; [by auto|]); (split; [done|]); by rewrite admitted_some.
Qed.

Lemma has_value_true {A} (value : option A) : has_value value = true <-> is_Some value.
Proof. apply bool_decide_eq_true. Qed.

Lemma llm_request_field_rules_total request :
  is_Some (validate_llm_request_field_rules request).
Proof.
  unfold validate_llm_request_field_rules. apply total_deref;
    [|intros; repeat (apply total_test; intros _); by eexists].
  unfold validate_llm_request_boundary. apply total_test. intros H%negb_false_iff.
  unfold validate_llm_request_required_fields in H.
  rewrite !guard_test, !negb_false_iff, orb_false_iff, !bool_decide_eq_false in H.
  destruct H as (Hr & Hl & _ & [Hm _] & _).
  apply total_deref; [by apply not_eq_None_Some|]. intros mode _. apply total_test. intros _.
  apply has_non_empty_value_true in Hr as (? & -> & _), Hl as (? & -> & _).
  apply total_test. by eexists.
Qed.

Record llm_response_ok (response : LLMResponse) : Prop := {
  lpo_ids : ids_distinct (lrs_request_id response) (lrs_llm_call_id response);
  lpo_kind : exists kind, lrs_response_kind response = Some kind /\
    kind <> LLMResponseKind.Unspecified /\ (forall n, kind <> LLMResponseKind.Other n) /\
    (kind = LLMResponseKind.Refusal <-> is_Some (lrs_refusal_reason response));
  lpo_payload : has_non_empty_value (lrs_content_payload response) = true;
  lpo_completed_at : positive_time (lrs_completed_at response);
  lpo_model_name : lrs_model_name response <> Some "";
  lpo_prompt :
    (is_Some (lrs_prompt_id response) /\ is_Some (lrs_prompt_version response) /\
     is_Some (lrs_eval_status response) /\ is_Some (lrs_release_scope response)) \/
    (lrs_prompt_id response = None /\ lrs_prompt_version response = None /\
     lrs_eval_status response = None /\ lrs_release_scope response = None);
  lpo_prompt_id : lrs_prompt_id response <> Some "";
  lpo_prompt_version : lrs_prompt_version response <> Some "";
  lpo_eval_status : lrs_eval_status response <> Some PromptEvalStatus.Unspecified;
  lpo_release_scope : lrs_release_scope response <> Some "";
  lpo_finish : lrs_finish_reason response <> Some "";
  lpo_refusal : lrs_refusal_reason response <> Some "";
  lpo_usage :
    (lrs_input_tokens response = None /\ lrs_output_tokens response = None /\
     lrs_total_tokens response = None) \/
    (exists input output, lrs_input_tokens response = Some input /\
       lrs_output_tokens response = Some output /\
       lrs_total_tokens response = Some (u32 (input + output)));
  lpo_tags : items_distinct (lrs_tags response);
}.

Lemma prompt_all_or_none {A B C D} (a : option A) (b : option B) (c : option C) (d : option D) :
  negb (all_or_none [has_value a; has_value b; has_value c; has_value d]) = false <->
  (is_Some a /\ is_Some b /\ is_Some c /\ is_Some d) \/ (a = None /\ b = None /\ c = None /\ d = None).
Proof.
  unfold all_or_none, has_value.
  destruct a, b, c, d; cbn; split; try done; try (by intros _; left; split_and!; eexists);
    try (by intros _; right);
    intros [(Ha & Hb & Hc & Hd)|(Ha & Hb & Hc & Hd)]; try done;
    repeat match goal with H : is_Some None |- _ => by destruct H end.
Qed.

Lemma usage_ok input output total mismatch partial :
  gr_ok (match input, output, total with
         | None, None, None => guard_pass ""
         | Some input, Some output, Some total =>
             if negb (total =? u32 (input + output)) then guard_fail mismatch else guard_pass ""
         | _, _, _ => guard_fail partial
         end) = true <->
  (input = None /\ output = None /\ total = None) \/
  (exists i o, input = Some i /\ output = Some o /\ total = Some (u32 (i + o))).
Proof.
  destruct input as [i|], output as [o|], total as [t|]; cbn; split; try done;
    try (by intros [(? & ? & ?)|(? & ? & ? & ? & ?)]); try (by intros _; left).
  - rewrite guard_test, negb_false_iff, Z.eqb_eq. intros [-> _]. right. by exists i, o.
  - rewrite guard_test, negb_false_iff, Z.eqb_eq.
    intros [(? & ? & ?)|(i' & o' & [= ->] & [= ->] & [= ->])]; done.
Qed.

Lemma kind_matches_refusal {A} kind (refusal : option A) :
  (bool_decide (kind = LLMResponseKind.Refusal) && negb (has_value refusal) = false /\
   negb (bool_decide (kind = LLMResponseKind.Refusal)) && has_value refusal = false) <->
  (kind = LLMResponseKind.Refusal <-> is_Some refusal).
Proof.
  unfold has_value. destruct refusal; case_bool_decide; cbn; split; naive_solver.
Qed.

(** The guard of responses admits exactly the responses that are complete, whose prompt and
    usage are named in full or not at all, and that give a reason exactly for a refusal. *)
Lemma llm_response_guard response :
  admitted (validate_llm_response_field_rules response) <-> llm_response_ok response.
Proof.
  unfold validate_llm_response_field_rules, validate_llm_response_boundary, validate_llm_tags.
  rewrite admitted_inner, admitted_layer. unfold validate_llm_response_required_fields.
  rewrite !guard_test, !negb_false_iff, orb_false_iff, !bool_decide_eq_false,
    missing_or_non_positive_time.
  rewrite !admitted_test, prompt_all_or_none, !present_but_empty_false, bool_decide_eq_false.
  split.
  - intros [[(Hr & Hl & _ & Hpay & Hc & _) Hb] (Hm & Hp & Hpi & Hpv & He & Hs & Hf & Href & Hk)].
    rewrite admitted_deref in Hb, Hk. destruct Hb as (kind & Hkind & Hb).
    destruct Hk as (kind' & Hkind' & Hk). rewrite Hkind in Hkind'. injection Hkind' as <-.
    rewrite admitted_test, response_kind_range, layered_ids in Hb by done.
    rewrite !admitted_test, !admitted_layer, string_vector_ok, usage_ok in Hk.
    destruct Hk as (Hk1 & Hk2 & Hu & Ht & _), Hb as ([Hb1 Hb2] & Hids & _).
    split; try done. exists kind. split_and!; [done..|]. by apply kind_matches_refusal.
  - intros [Hids (kind & Hkind & Hu & Ho & Hk) Hpay Hc Hm Hp Hpi Hpv He Hs Hf Href Huse Htags].
    pose proof Hids as (Hr & Hl & _). apply kind_matches_refusal in Hk as [Hk1 Hk2].
    rewrite !admitted_deref. split; [split|].
    + rewrite Hkind. split_and!; try done. by intros [= ->].
    + exists kind. split; [done|].
      rewrite admitted_test, response_kind_range, layered_ids, admitted_some by done. done.
    + split_and!; try done. exists kind. split; [done|].
      by rewrite !admitted_test, !admitted_layer, string_vector_ok, usage_ok, admitted_some.
Qed.

Lemma llm_response_field_rules_total response :
  is_Some (validate_llm_response_field_rules response).
Proof.
  unfold validate_llm_response_field_rules, validate_llm_response_boundary.
  destruct (gr_ok (validate_llm_response_required_fields response)) eqn:H; cbn [negb];
    [|rewrite H; by eexists].
  unfold validate_llm_response_required_fields in H.
  rewrite !guard_test, !negb_false_iff, orb_false_iff, !bool_decide_eq_false in H.
  destruct H as (Hr & Hl & [Hk _] & _).
  apply not_eq_None_Some in Hk as [kind ->].
  apply has_non_empty_value_true in Hr as (? & -> & _), Hl as (? & -> & _).
  apply total_deref; [repeat (apply total_test; intros _); by eexists|].
  intros inner _. repeat (apply total_test; intros _). by eexists.
Qed.

Record compose_request_ok (req : PromptComposeRequest) : Prop := {
  cro_request_id : has_non_empty_value (pcr_request_id req) = true;
  cro_context : pcr_context_packet_id req = pcr_request_id req;
  cro_stage : exists stage, pcr_stage req = Some stage /\ stage <> CompositionStage.Unspecified /\
                forall n, stage <> CompositionStage.Other n;
  cro_created_at : positive_time (pcr_created_at req);
  cro_task_type : pcr_task_type req <> Some "";
  cro_release : pcr_prompt_release_id req <> Some "";
  cro_route : pcr_model_route req <> Some "";
  cro_schema : pcr_output_schema_ref req <> Some "";
  cro_format : pcr_response_format req <> Some "";
  cro_tools : items_distinct (pcr_visible_tools req);
  cro_tags : forall tags, pcr_tags req = Some tags -> tags <> [] /\ Forall (fun tag => tag <> "") tags;
}.

Lemma has_duplicate_false items : has_duplicate items = false <-> NoDup items.
Proof.
  induction items as [|item items IH]; cbn; [by split; [constructor|]|].
  by rewrite orb_false_iff, no_equal_item, NoDup_cons, IH.
Qed.

Lemma optional_items (P : list string -> Prop) (values : option (list string)) :
  P [] -> (bool_decide (values = Some []) = false /\ P (default [] values) <->
           forall items, values = Some items -> items <> [] /\ P items).
Proof.
  intros Hnil. rewrite bool_decide_eq_false. destruct values as [items|]; cbn; [|naive_solver].
  split; [intros [Hne ?] ? [= <-]; split; [by intros ->|done]|].
  intros H. destruct (H items eq_refl) as [Hne ?]. split; [by intros [= ->]|done].
Qed.

Lemma compose_request_guard req :
  admitted (validate_prompt_compose_request_field_rules req) <-> compose_request_ok req.
Proof.
  unfold validate_prompt_compose_request_field_rules, validate_prompt_compose_request_boundary.
  rewrite admitted_inner, admitted_layer. unfold validate_prompt_compose_request_required_fields.
  rewrite !guard_test, !negb_false_iff, orb_false_iff, !bool_decide_eq_false,
    missing_or_non_positive_time, !admitted_deref.
  pose proof (optional_items (fun items => Forall (fun s => s <> "") items /\ NoDup items)
                (pcr_visible_tools req) (conj (Forall_nil_2 _) (NoDup_nil_2))) as Htools.
  pose proof (optional_items (Forall (fun s => s <> "")) (pcr_tags req) (Forall_nil_2 _)) as Htags.
  cbn beta in Htools. fold (items_distinct (pcr_visible_tools req)) in Htools.
  split.
  - intros [[(Hr & _ & _ & Hc & _) (stage & Hstage & Hs)]
      (request_id & Hid & (packet & Hpacket & Hrest)%admitted_deref)].
    rewrite admitted_test, composition_stage_range in Hs.
    rewrite !admitted_test, !existsb_is_empty, has_duplicate_false, !present_but_empty_false,
      negb_false_iff, bool_decide_eq_true in Hrest.
    destruct Hrest as (-> & ? & ? & ? & ? & ? & Ht1 & Ht2 & Ht3 & Hg1 & Hg2 & _).
    split; try done; [congruence|by exists stage; destruct Hs|by apply Htools|by apply Htags].
  - intros [Hr Hctx (stage & Hstage & Hs1 & Hs2) Hc ? ? ? ? ? Ht Hg].
    apply Htools in Ht as (Ht1 & Ht2 & Ht3). apply Htags in Hg as [Hg1 Hg2].
    pose proof Hr as (request_id & Hid & Hne)%has_non_empty_value_true.
    split; [split|].
    + rewrite Hctx, Hstage. split_and!; try done. by intros [= ->].
    + exists stage. split; [done|]. by rewrite admitted_test, composition_stage_range, admitted_some.
    + exists request_id. split; [done|]. rewrite admitted_deref. exists request_id.
      split; [congruence|].
      by rewrite !admitted_test, !existsb_is_empty, has_duplicate_false, !present_but_empty_false,
        negb_false_iff, bool_decide_eq_true, admitted_some.
Qed.

Lemma compose_request_total req : is_Some (validate_prompt_compose_request_field_rules req).
Proof.
  unfold validate_prompt_compose_request_field_rules, validate_prompt_compose_request_boundary.
  destruct (gr_ok (validate_prompt_compose_request_required_fields req)) eqn:H; cbn [negb];
    [|rewrite H; by eexists].
  unfold validate_prompt_compose_request_required_fields in H.
  rewrite !guard_test, !negb_false_iff, orb_false_iff, !bool_decide_eq_false in H.
  destruct H as (Hr & [Hs _] & Hp & _). apply not_eq_None_Some in Hs as [stage ->].
  apply has_non_empty_value_true in Hr as (? & -> & _), Hp as (? & -> & _).
  apply total_deref; [apply total_test; by eexists|].
  intros inner _. repeat (apply total_test; intros _). by eexists.
Qed.

(** ** Contract objects *)

Record PromptRelease := {
  prl_prompt_id : option string;
  prl_version : option string;
  prl_stage : option CompositionStage;
  prl_eval_status : option PromptEvalStatus;
  prl_release_scope : option string;
  prl_system_instructions : option string;
  prl_task_template : option string;
  prl_output_schema_ref : option string;
  prl_few_shot_refs : option (list string);
  prl_policy_notes : option (list string);
  prl_rollback_from : option string;
  prl_trusted_source : option string;
  prl_tags : option (list string);
}.

Record PromptComposeResult := {
  pcm_messages : option (list string);
  pcm_selected_prompt_id : option string;
  pcm_selected_version : option string;
  pcm_estimated_tokens : option Z;
  pcm_pruned_sections : option (list string);
  pcm_composition_warnings : option (list string);
}.

(** ** Queries and inputs *)

Record PromptQuery := {
  pqy_stage : string;
  pqy_task_type : string;
  pqy_language : string;
  pqy_model_family : string;
  pqy_prompt_release_id : string;
  pqy_scene_id : string;
  pqy_persona_id : string;
  pqy_profile_id : string;
  pqy_available_tools : list string;
  pqy_trusted_sources : list string;
}.

Record PromptPolicyInput := {
  ppi_profile_id : string;
  ppi_allowed_prompt_releases : list string;
  ppi_trusted_sources : list string;
  ppi_tool_visibility_rules : list string;
  ppi_render_budget_tokens : Z;
  ppi_active_scene : string;
  ppi_active_persona : string;
  ppi_selected_release_scope : string;
  ppi_selected_trusted_source : string;
  ppi_visible_tools : list string;
}.

(** LLMSubsystemConfig::make_prompt_policy_input. *)
Definition make_prompt_policy_input (config : LLMSubsystemConfig) (render_budget_tokens : Z)
    : PromptPolicyInput :=
  {| ppi_profile_id := lsc_profile_id config;
     ppi_allowed_prompt_releases := lsc_allowed_prompt_releases config;
     ppi_trusted_sources := lsc_trusted_sources config;
     ppi_tool_visibility_rules := lsc_tool_visibility_rules config;
     ppi_render_budget_tokens := render_budget_tokens;
     ppi_active_scene := pso_active_scene (lsc_prompt_selector_overlay config);
     ppi_active_persona := pso_active_persona (lsc_prompt_selector_overlay config);
     ppi_selected_release_scope := ""; ppi_selected_trusted_source := "";
     ppi_visible_tools := [] |}.

(** ** Results *)

Module PromptPolicyDisposition.
Inductive PromptPolicyDisposition := Allow | Deny | OverBudget | RequireRecompose.
#[global] Instance PromptPolicyDisposition_eq_dec : EqDecision PromptPolicyDisposition.
Proof. solve_decision. Defined.
End PromptPolicyDisposition.
Abbreviation PromptPolicyDisposition := PromptPolicyDisposition.PromptPolicyDisposition.

Record PromptPolicyDecision := {
  ppd_disposition : PromptPolicyDisposition;
  ppd_governed_messages : list string;
  ppd_redactions : list string;
  ppd_tool_visibility_patch : list string;
  ppd_reason : string;
}.

Definition no_strings (values : list string) : bool :=
  match values with [] => true | _ => false end.

Definition prompt_decision_consistent (decision : PromptPolicyDecision) : bool :=
  if is_empty (ppd_reason decision) then false else
  match ppd_disposition decision with
  | PromptPolicyDisposition.Allow => negb (no_strings (ppd_governed_messages decision))
  | _ => no_strings (ppd_governed_messages decision)
  end.

Record PromptRegistryResult := {
  prr_code : option ResultCode;
  prr_release : option PromptRelease;
  prr_selected_prompt_id : string;
  prr_selected_version : string;
  prr_selection_reason : string;
  prr_trusted_sources_matched : list string;
}.

Definition registry_result_consistent (result : PromptRegistryResult) : bool :=
  let has_prompt_identity :=
    negb (is_empty (prr_selected_prompt_id result)) || negb (is_empty (prr_selected_version result)) in
  if Bool.eqb (has_value (prr_release result)) (has_value (prr_code result)) then false else
  if negb (Bool.eqb (is_empty (prr_selected_prompt_id result)) (is_empty (prr_selected_version result)))
  then false else
  match prr_release result with
  | Some release =>
      has_prompt_identity && negb (is_empty (prr_selection_reason result))
      && bool_decide (prl_prompt_id release = Some (prr_selected_prompt_id result))
      && bool_decide (prl_version release = Some (prr_selected_version result))
  | None => true
  end
  && negb (has_value (prr_code result) && has_prompt_identity)
  && negb (has_value (prr_code result) && negb (no_strings (prr_trusted_sources_matched result))).

Record PromptPipelineResult := {
  ppr_disposition : PromptPolicyDisposition;
  ppr_compose_result : option PromptComposeResult;
  ppr_policy_decision : option PromptPolicyDecision;
  ppr_registry_result : option PromptRegistryResult;
  ppr_reason : string;
}.

Record PromptAssetMetadata := {
  pam_prompt_release_id : string;
  pam_package_id : string;
  pam_content_hash : string;
  pam_source_layer : string;
  pam_source_uri : string;
}.

Definition asset_metadata_consistent (metadata : PromptAssetMetadata) : bool :=
  negb (is_empty (pam_prompt_release_id metadata)) && negb (is_empty (pam_package_id metadata))
  && negb (is_empty (pam_content_hash metadata)) && negb (is_empty (pam_source_layer metadata))
  && negb (is_empty (pam_source_uri metadata)).

(** ** Configuration *)

Record PromptRegistryConfig := {
  prc_asset_sources : PromptAssetSourceConfig;
  prc_trusted_sources : list string;
}.

Record PromptComposerConfig := {
  pcc_template_engine : string;
  pcc_max_few_shot_count : Z;
}.

Record PromptPolicyConfig := {
  ppc_default_allowed_releases : list string;
  ppc_default_trusted_sources : list string;
  ppc_deny_on_missing_allowlist : bool;
}.

Record PromptPipelineConfig := {
  plc_registry_config : PromptRegistryConfig;
  plc_composer_config : PromptComposerConfig;
  plc_policy_config : PromptPolicyConfig;
}.

(** ** The interface IPromptPipeline *)

Class PromptPipelineInterface (Pipeline : Type) := {
  pipeline_init : Pipeline -> PromptPipelineConfig -> Pipeline * bool;
  pipeline_run : Pipeline -> PromptQuery -> PromptComposeRequest -> PromptPolicyInput ->
                 PromptPipelineResult;
  pipeline_lookup : Pipeline -> string -> option PromptAssetMetadata;
}.
