(* ===== verification/StreamSessions.v ===== *)
(** * The sessions of streamed answers

    llm/src/stream/StreamSessionRegistry.cpp. Each call holds the lock throughout.
    [sessions_sound] says what any sequence of calls keeps: the limits, and which states a
    session goes through. *)

From stdpp Require Import sorting.
From S2P Require Import Prelude Text Ordering.

(** ** Data *)

Module StreamSessionState.
Inductive StreamSessionState :=
| Accepted | Active | Completing | Completed | CancelRequested | Cancelled | Failed | Expired.
#[global] Instance StreamSessionState_eq_dec : EqDecision StreamSessionState.
Proof. solve_decision. Defined.
End StreamSessionState.
Abbreviation StreamSessionState := StreamSessionState.StreamSessionState.

Module StreamSessionMutationStatus.
Inductive StreamSessionMutationStatus := Ok | NotFound | CapacityExceeded | InvalidState | Overflow.
#[global] Instance StreamSessionMutationStatus_eq_dec : EqDecision StreamSessionMutationStatus.
Proof. solve_decision. Defined.
End StreamSessionMutationStatus.
Abbreviation StreamSessionMutationStatus := StreamSessionMutationStatus.StreamSessionMutationStatus.

Record StreamSessionRegistryConfig := {
  ssc_max_active_sessions : Z;
  ssc_max_buffered_chars : Z;
  ssc_session_ttl_ms : Z;
}.

Definition default_stream_config : StreamSessionRegistryConfig :=
  {| ssc_max_active_sessions := 8; ssc_max_buffered_chars := 32768; ssc_session_ttl_ms := 60000 |}.

Definition stream_config_consistent (config : StreamSessionRegistryConfig) : bool :=
  (0 <? ssc_max_active_sessions config) && (0 <? ssc_max_buffered_chars config)
  && (0 <? ssc_session_ttl_ms config).

Record StreamSessionSnapshot := {
  sss_session_id : string;
  sss_route_key : string;
  sss_state : StreamSessionState;
  sss_buffered_chars : Z;
  sss_expires_at_ms : Z;
}.

Definition stream_snapshot_consistent (snapshot : StreamSessionSnapshot) : bool :=
  negb (is_empty (sss_session_id snapshot)) && negb (is_empty (sss_route_key snapshot))
  && (0 <? sss_expires_at_ms snapshot).

Record StreamSessionMutationResult := {
  ssm_ok : bool;
  ssm_status : StreamSessionMutationStatus;
  ssm_state : StreamSessionState;
}.

Record StreamSessionRecord := {
  ssr_route_key : string;
  ssr_state : StreamSessionState;
  ssr_buffered_chars : Z;
  ssr_expires_at_ms : Z;
}.

Record StreamSessionRegistry := {
  srg_config : StreamSessionRegistryConfig;
  srg_sessions : gmap string StreamSessionRecord;
  srg_initialized : bool;
}.

Definition new_stream_registry : StreamSessionRegistry :=
  {| srg_config := default_stream_config; srg_sessions := ∅; srg_initialized := false |}.

Definition is_terminal_locked (state : StreamSessionState) : bool :=
  bool_decide (state = StreamSessionState.Completed)
  || bool_decide (state = StreamSessionState.Cancelled)
  || bool_decide (state = StreamSessionState.Failed)
  || bool_decide (state = StreamSessionState.Expired).

Definition to_snapshot (session_id : string) (record : StreamSessionRecord)
    : StreamSessionSnapshot :=
  {| sss_session_id := session_id; sss_route_key := ssr_route_key record;
     sss_state := ssr_state record; sss_buffered_chars := ssr_buffered_chars record;
     sss_expires_at_ms := ssr_expires_at_ms record |}.

Definition make_stream_result (status : StreamSessionMutationStatus) (state : StreamSessionState)
    (ok : bool) : StreamSessionMutationResult :=
  {| ssm_ok := ok; ssm_status := status; ssm_state := state |}.

Definition stream_ok (state : StreamSessionState) : StreamSessionMutationResult :=
  make_stream_result StreamSessionMutationStatus.Ok state true.

Definition stream_invalid (state : StreamSessionState) : StreamSessionMutationResult :=
  make_stream_result StreamSessionMutationStatus.InvalidState state false.

Definition stream_not_found : StreamSessionMutationResult :=
  make_stream_result StreamSessionMutationStatus.NotFound StreamSessionState.Accepted false.

(** ** Calls *)

Definition set_sessions (registry : StreamSessionRegistry)
    (sessions : gmap string StreamSessionRecord) : StreamSessionRegistry :=
  {| srg_config := srg_config registry; srg_sessions := sessions;
     srg_initialized := srg_initialized registry |}.

Definition with_session_state (state : StreamSessionState) (record : StreamSessionRecord)
    : StreamSessionRecord :=
  {| ssr_route_key := ssr_route_key record; ssr_state := state;
     ssr_buffered_chars := ssr_buffered_chars record;
     ssr_expires_at_ms := ssr_expires_at_ms record |}.

Definition init (registry : StreamSessionRegistry) (config : StreamSessionRegistryConfig)
    : StreamSessionRegistry * bool :=
  if negb (stream_config_consistent config) then (registry, false) else
  ({| srg_config := config; srg_sessions := ∅; srg_initialized := true |}, true).

Definition active_sessions (sessions : gmap string StreamSessionRecord) : Z :=
  Z.of_nat (length (filter (fun entry => is_terminal_locked (ssr_state entry.2) = false)
                      (map_to_list sessions))).

Definition accept (registry : StreamSessionRegistry) (session_id route_key : string) (now_ms : Z)
    : StreamSessionRegistry * StreamSessionMutationResult :=
  if negb (srg_initialized registry) || is_empty session_id || is_empty route_key
  then (registry, stream_invalid StreamSessionState.Accepted) else
  match srg_sessions registry !! session_id with
  | Some existing => (registry, stream_invalid (ssr_state existing))
  | None =>
      if ssc_max_active_sessions (srg_config registry) <=? active_sessions (srg_sessions registry)
      then (registry,
            make_stream_result StreamSessionMutationStatus.CapacityExceeded
              StreamSessionState.Accepted false)
      else
        (set_sessions registry
           (<[session_id :=
                {| ssr_route_key := route_key; ssr_state := StreamSessionState.Accepted;
                   ssr_buffered_chars := 0;
                   ssr_expires_at_ms := now_ms + ssc_session_ttl_ms (srg_config registry) |}]>
              (srg_sessions registry)),
         stream_ok StreamSessionState.Accepted)
  end.

(** What a call makes of the record it finds: the state it sets, if any, and its answer. *)
Definition mutate (registry : StreamSessionRegistry) (session_id : string)
    (change : StreamSessionRecord -> StreamSessionRecord * StreamSessionMutationResult)
    : StreamSessionRegistry * StreamSessionMutationResult :=
  match srg_sessions registry !! session_id with
  | None => (registry, stream_not_found)
  | Some record =>
      let '(record, result) := change record in
      (set_sessions registry (<[session_id := record]> (srg_sessions registry)), result)
  end.

(** The state is set and reported. *)
Definition enter (state : StreamSessionState) (record : StreamSessionRecord)
    : StreamSessionRecord * StreamSessionMutationResult :=
  (with_session_state state record, stream_ok state).

Definition leave_as_it_is (record : StreamSessionRecord)
    : StreamSessionRecord * StreamSessionMutationResult :=
  (record, stream_ok (ssr_state record)).

Definition refuse_state (record : StreamSessionRecord)
    : StreamSessionRecord * StreamSessionMutationResult :=
  (record, stream_invalid (ssr_state record)).

Definition activate (record : StreamSessionRecord)
    : StreamSessionRecord * StreamSessionMutationResult :=
  match ssr_state record with
  | StreamSessionState.Accepted | StreamSessionState.Active =>
      enter StreamSessionState.Active record
  | StreamSessionState.CancelRequested => leave_as_it_is record
  | _ => refuse_state record
  end.

Definition mark_active (registry : StreamSessionRegistry) (session_id : string) :=
  mutate registry session_id activate.

Definition append (max_buffered_chars delta_chars : Z) (record : StreamSessionRecord)
    : StreamSessionRecord * StreamSessionMutationResult :=
  let record :=
    if bool_decide (ssr_state record = StreamSessionState.Accepted)
    then with_session_state StreamSessionState.Active record else record in
  if negb (bool_decide (ssr_state record = StreamSessionState.Active)) then refuse_state record else
  if (max_buffered_chars <? delta_chars)
     || (max_buffered_chars - delta_chars <? ssr_buffered_chars record)
  then (with_session_state StreamSessionState.Failed record,
        make_stream_result StreamSessionMutationStatus.Overflow StreamSessionState.Failed false)
  else
    ({| ssr_route_key := ssr_route_key record; ssr_state := ssr_state record;
        ssr_buffered_chars := u32 (ssr_buffered_chars record + delta_chars);
        ssr_expires_at_ms := ssr_expires_at_ms record |},
     stream_ok (ssr_state record)).

Definition append_delta (registry : StreamSessionRegistry) (session_id : string)
    (delta_chars : Z) :=
  mutate registry session_id
    (append (ssc_max_buffered_chars (srg_config registry)) delta_chars).

Definition cancel_session (record : StreamSessionRecord)
    : StreamSessionRecord * StreamSessionMutationResult :=
  if is_terminal_locked (ssr_state record) then leave_as_it_is record
  else enter StreamSessionState.CancelRequested record.

Definition request_cancel (registry : StreamSessionRegistry) (session_id : string) :=
  mutate registry session_id cancel_session.

Definition begin_completing (record : StreamSessionRecord)
    : StreamSessionRecord * StreamSessionMutationResult :=
  match ssr_state record with
  | StreamSessionState.Accepted | StreamSessionState.Active | StreamSessionState.Completing =>
      enter StreamSessionState.Completing record
  | StreamSessionState.CancelRequested => leave_as_it_is record
  | _ => refuse_state record
  end.

Definition mark_completing (registry : StreamSessionRegistry) (session_id : string) :=
  mutate registry session_id begin_completing.

(** mark_completed and mark_failed differ in the state they enter. *)
Definition finish (final : StreamSessionState) (record : StreamSessionRecord)
    : StreamSessionRecord * StreamSessionMutationResult :=
  if bool_decide (ssr_state record = StreamSessionState.CancelRequested)
  then enter StreamSessionState.Cancelled record else
  if is_terminal_locked (ssr_state record) then leave_as_it_is record else
  match ssr_state record with
  | StreamSessionState.Accepted | StreamSessionState.Active | StreamSessionState.Completing =>
      enter final record
  | _ => refuse_state record
  end.

Definition mark_completed (registry : StreamSessionRegistry) (session_id : string) :=
  mutate registry session_id (finish StreamSessionState.Completed).

Definition mark_failed (registry : StreamSessionRegistry) (session_id : string) :=
  mutate registry session_id (finish StreamSessionState.Failed).

Definition expire (record : StreamSessionRecord)
    : StreamSessionRecord * StreamSessionMutationResult :=
  if bool_decide (ssr_state record = StreamSessionState.CancelRequested)
  then enter StreamSessionState.Cancelled record else
  if is_terminal_locked (ssr_state record) then leave_as_it_is record else
  enter StreamSessionState.Expired record.

Definition mark_expired (registry : StreamSessionRegistry) (session_id : string) :=
  mutate registry session_id expire.

Definition cleanup (registry : StreamSessionRegistry) (session_id : string)
    : StreamSessionRegistry * bool :=
  match srg_sessions registry !! session_id with
  | None => (registry, true)
  | Some record =>
      if negb (is_terminal_locked (ssr_state record)) then (registry, false) else
      (set_sessions registry (delete session_id (srg_sessions registry)), true)
  end.

Definition find (registry : StreamSessionRegistry) (session_id : string)
    : option StreamSessionSnapshot :=
  to_snapshot session_id <$> srg_sessions registry !! session_id.

Definition snapshot {sorting : StdSort} {visiting : UnorderedVisit}
    (registry : StreamSessionRegistry) : list StreamSessionSnapshot :=
  std_sort (by_text sss_session_id)
    ((fun entry => to_snapshot entry.1 entry.2) <$> visit_map (srg_sessions registry)).

Definition active_session_count (registry : StreamSessionRegistry) : Z :=
  u32 (active_sessions (srg_sessions registry)).

Definition overdue (now_ms : Z) (record : StreamSessionRecord) : bool :=
  negb (is_terminal_locked (ssr_state record)) && (ssr_expires_at_ms record <=? now_ms).

Definition reap (now_ms : Z) (record : StreamSessionRecord) : StreamSessionRecord :=
  if overdue now_ms record then with_session_state StreamSessionState.Expired record else record.

Definition reap_expired (registry : StreamSessionRegistry) (now_ms : Z)
    : StreamSessionRegistry * bool :=
  (set_sessions registry (reap now_ms <$> srg_sessions registry),
   existsb (fun entry => overdue now_ms entry.2) (map_to_list (srg_sessions registry))).

(** ** Runs *)

Inductive SessionCall :=
| Accept (session_id route_key : string) (now_ms : Z)
| MarkActive (session_id : string)
| AppendDelta (session_id : string) (delta_chars : Z)
| RequestCancel (session_id : string)
| MarkCompleting (session_id : string)
| MarkCompleted (session_id : string)
| MarkFailed (session_id : string)
| MarkExpired (session_id : string)
| Cleanup (session_id : string)
| ReapExpired (now_ms : Z).

Definition session_step (registry : StreamSessionRegistry) (call : SessionCall)
    : StreamSessionRegistry :=
  match call with
  | Accept session_id route_key now_ms => (accept registry session_id route_key now_ms).1
  | MarkActive session_id => (mark_active registry session_id).1
  | AppendDelta session_id delta_chars => (append_delta registry session_id delta_chars).1
  | RequestCancel session_id => (request_cancel registry session_id).1
  | MarkCompleting session_id => (mark_completing registry session_id).1
  | MarkCompleted session_id => (mark_completed registry session_id).1
  | MarkFailed session_id => (mark_failed registry session_id).1
  | MarkExpired session_id => (mark_expired registry session_id).1
  | Cleanup session_id => (cleanup registry session_id).1
  | ReapExpired now_ms => (reap_expired registry now_ms).1
  end.

Definition session_run (registry : StreamSessionRegistry) (calls : list SessionCall)
    : StreamSessionRegistry :=
  foldl session_step registry calls.

(** The states a session may take after [state], in one call. *)
Inductive moves : StreamSessionState -> StreamSessionState -> Prop :=
| moves_stay state : moves state state
| moves_activate : moves StreamSessionState.Accepted StreamSessionState.Active
| moves_completing state :
    state = StreamSessionState.Accepted \/ state = StreamSessionState.Active ->
    moves state StreamSessionState.Completing
| moves_cancel state : is_terminal_locked state = false -> moves state StreamSessionState.CancelRequested
| moves_end state final :
    is_terminal_locked state = false -> state <> StreamSessionState.CancelRequested ->
    final = StreamSessionState.Completed \/ final = StreamSessionState.Failed ->
    moves state final
| moves_cancelled : moves StreamSessionState.CancelRequested StreamSessionState.Cancelled
| moves_expired state : is_terminal_locked state = false -> moves state StreamSessionState.Expired.

(** ** What a call changes *)

Definition changes_well (max_buffered_chars : Z)
    (change : StreamSessionRecord -> StreamSessionRecord * StreamSessionMutationResult) : Prop :=
  forall record, 0 <= ssr_buffered_chars record <= max_buffered_chars ->
    moves (ssr_state record) (ssr_state (change record).1) /\
    0 <= ssr_buffered_chars (change record).1 <= max_buffered_chars /\
    ssr_expires_at_ms (change record).1 = ssr_expires_at_ms record.

(** Case analysis on the state of the record. *)
Ltac by_state :=
  repeat match goal with
  | |- context [match ssr_state ?r with _ => _ end] => destruct (ssr_state r) eqn:?
  | |- context [if ?b then _ else _] => destruct b eqn:?
  end; cbn; reflect_tests.

Ltac solve_moves :=
  repeat match goal with H : ssr_state _ = _ |- _ => rewrite H in * end;
  try done; first [by constructor; auto | econstructor; by auto | by eauto using moves].

Lemma activate_well limit : changes_well limit activate.
Proof.
  intros record Hb. unfold activate. by_state; split_and!; try done; try apply Hb; solve_moves.
Qed.

Lemma cancel_well limit : changes_well limit cancel_session.
Proof.
  intros record Hb. unfold cancel_session. by_state; split_and!; try done; try apply Hb; solve_moves.
Qed.

Lemma completing_well limit : changes_well limit begin_completing.
Proof.
  intros record Hb. unfold begin_completing.
  by_state; split_and!; try done; try apply Hb; solve_moves.
Qed.

Lemma finish_well limit final :
  final = StreamSessionState.Completed \/ final = StreamSessionState.Failed ->
  changes_well limit (finish final).
Proof.
  intros Hf record Hb. unfold finish. by_state; split_and!; try done; try apply Hb; solve_moves.
Qed.

Lemma expire_well limit : changes_well limit expire.
Proof.
  intros record Hb. unfold expire. by_state; split_and!; try done; try apply Hb; solve_moves.
Qed.

Lemma append_well limit delta :
  limit < 2 ^ 32 -> 0 <= delta -> changes_well limit (append limit delta).
Proof.
  intros Hl Hd record Hb. unfold append.
  destruct (decide (ssr_state record = StreamSessionState.Accepted)) as [E|E];
    [rewrite (bool_decide_true (_ = StreamSessionState.Accepted)) by done
    |rewrite (bool_decide_false (_ = StreamSessionState.Accepted)) by done]; cbn;
    repeat match goal with |- context [if ?b then _ else _] => destruct b eqn:? end; cbn;
    reflect_tests; rewrite ?u32_id by (unfold in_u32; lia); split_and!; try done; try lia;
    rewrite ?E; solve_moves.
Qed.

(** ** What a run keeps *)

Definition active_ids (sessions : gmap string StreamSessionRecord) : gset string :=
  dom (filter (fun entry => is_terminal_locked (ssr_state entry.2) = false) sessions).

Lemma active_ids_elem sessions id :
  id ∈ active_ids sessions <->
  exists record, sessions !! id = Some record /\ is_terminal_locked (ssr_state record) = false.
Proof.
  unfold active_ids. rewrite elem_of_dom.
  split.
  - intros [record [H1 H2]%map_lookup_filter_Some]. by exists record.
  - intros (record & H1 & H2). exists record. by apply map_lookup_filter_Some.
Qed.

Lemma active_sessions_size sessions : active_sessions sessions = Z.of_nat (size (active_ids sessions)).
Proof.
  unfold active_sessions, active_ids. f_equal. rewrite size_dom, map_filter_alt.
  rewrite map_size_list_to_map; [done|].
  eapply sublist_NoDup; [apply (NoDup_fst_map_to_list sessions)|].
  apply sublist_fmap, sublist_filter.
Qed.

(** Where every active session was active before, there are no more of them. *)
Lemma active_sessions_le before after :
  (forall id, id ∈ active_ids after -> id ∈ active_ids before) ->
  active_sessions after <= active_sessions before.
Proof.
  intros H. rewrite !active_sessions_size. apply inj_le, subseteq_size. intros id. apply H.
Qed.

Lemma moves_terminal state state' :
  moves state state' -> is_terminal_locked state = true -> state' = state.
Proof.
  intros H Ht. destruct H as [|? |? [->| ->]|? H|? ? H|? |? H]; [done|..|]; try congruence;
    by vm_compute in Ht.
Qed.

Record sessions_ok (registry : StreamSessionRegistry) : Prop := {
  sok_config : 0 < ssc_max_buffered_chars (srg_config registry) < 2 ^ 32;
  sok_active : active_sessions (srg_sessions registry)
                 <= ssc_max_active_sessions (srg_config registry);
  sok_buffered : forall id record, srg_sessions registry !! id = Some record ->
    0 <= ssr_buffered_chars record <= ssc_max_buffered_chars (srg_config registry);
}.

(** What one call does to a session. *)
Definition session_follows (call : SessionCall) (before after : StreamSessionRegistry)
    (id : string) (record : StreamSessionRecord) : Prop :=
  match srg_sessions after !! id with
  | Some record' =>
      moves (ssr_state record) (ssr_state record') /\
      ssr_expires_at_ms record' = ssr_expires_at_ms record
  | None => call = Cleanup id /\ is_terminal_locked (ssr_state record) = true
  end.

(** The counts of a call are of 32 bits. *)
Definition call_in_range (call : SessionCall) : Prop :=
  match call with AppendDelta _ delta_chars => 0 <= delta_chars | _ => True end.

Definition step_sound (registry : StreamSessionRegistry) (call : SessionCall) : Prop :=
  sessions_ok (session_step registry call) /\
  srg_config (session_step registry call) = srg_config registry /\
  forall id record, srg_sessions registry !! id = Some record ->
    session_follows call registry (session_step registry call) id record.

Lemma unchanged_sound registry call :
  sessions_ok registry -> session_step registry call = registry -> step_sound registry call.
Proof.
  intros Hok E. unfold step_sound, session_follows. rewrite E. split; [done|]. split; [done|].
  intros id record ->. split; [constructor|done].
Qed.

Lemma mutate_sound registry call session_id change :
  sessions_ok registry -> session_step registry call = (mutate registry session_id change).1 ->
  changes_well (ssc_max_buffered_chars (srg_config registry)) change ->
  step_sound registry call.
Proof.
  intros Hok E Hwell. unfold mutate in E.
  destruct (srg_sessions registry !! session_id) as [record|] eqn:Hrecord;
    [|by apply unchanged_sound].
  destruct (Hwell record (sok_buffered _ Hok _ _ Hrecord)) as (Hmoves & Hb & Hexp).
  destruct (change record) as [record' result]. cbn in E, Hmoves, Hb, Hexp.
  unfold step_sound, session_follows. rewrite E. cbn. split; [split; cbn|split; [done|]].
  - apply Hok.
  - etrans; [|apply Hok]. apply active_sessions_le. intros id.
    rewrite !active_ids_elem. intros (r & Hr & Ht). rewrite lookup_insert in Hr. case_decide.
    + subst id. injection Hr as ->. exists record. split; [done|].
      destruct (is_terminal_locked (ssr_state record)) eqn:Et; [|done].
      by rewrite (moves_terminal _ _ Hmoves Et) in Ht; congruence.
    + by exists r.
  - intros id r Hr. rewrite lookup_insert in Hr. case_decide; [by injection Hr as <-|].
    by apply Hok in Hr.
  - intros id r Hr. rewrite lookup_insert. case_decide; [|rewrite Hr; split; [constructor|done]].
    subst id. rewrite Hrecord in Hr. by injection Hr as <-.
Qed.

Lemma accept_sound registry session_id route_key now_ms :
  sessions_ok registry -> step_sound registry (Accept session_id route_key now_ms).
Proof.
  intros Hok. pose proof (unchanged_sound registry (Accept session_id route_key now_ms) Hok) as Hsame.
  cbn [session_step] in Hsame. unfold accept in Hsame.
  destruct (negb _ || _ || _) eqn:Einput; [by apply Hsame|].
  destruct (srg_sessions registry !! session_id) eqn:Hnone; [by apply Hsame|].
  destruct (_ <=? active_sessions _) eqn:Efull; [by apply Hsame|]. clear Hsame.
  unfold step_sound, session_follows. cbn [session_step]. unfold accept.
  rewrite Einput, Hnone, Efull. cbn. apply Z.leb_gt in Efull.
  split; [split; cbn|split; [done|]].
  - apply Hok.
  - rewrite active_sessions_size in Efull |- *.
    etrans; [apply inj_le; apply (subseteq_size _ ({[session_id]} ∪ active_ids (srg_sessions registry)))|].
    + intros id. rewrite elem_of_union, elem_of_singleton, !active_ids_elem.
      intros (r & Hr & Ht). rewrite lookup_insert in Hr. case_decide; [by left|right; by exists r].
    + rewrite size_union_alt, size_singleton.
      pose proof (subseteq_size (active_ids (srg_sessions registry) ∖ {[session_id]})
                    (active_ids (srg_sessions registry)) ltac:(set_solver)). lia.
  - intros id r Hr. rewrite lookup_insert in Hr. case_decide; [|by apply Hok in Hr].
    injection Hr as <-. cbn. pose proof (sok_config _ Hok). lia.
  - intros id r Hr. rewrite lookup_insert_ne by congruence. rewrite Hr. split; [constructor|done].
Qed.

Lemma cleanup_sound registry session_id :
  sessions_ok registry -> step_sound registry (Cleanup session_id).
Proof.
  intros Hok. pose proof (unchanged_sound registry (Cleanup session_id) Hok) as Hsame.
  cbn [session_step] in Hsame. unfold cleanup in Hsame.
  destruct (srg_sessions registry !! session_id) as [record|] eqn:Hrecord; [|by apply Hsame].
  destruct (is_terminal_locked (ssr_state record)) eqn:Et; [|by apply Hsame]. clear Hsame.
  unfold step_sound, session_follows. cbn [session_step]. unfold cleanup.
  rewrite Hrecord, Et. cbn. split; [split; cbn|split; [done|]].
  - apply Hok.
  - etrans; [|apply Hok]. apply active_sessions_le. intros id. rewrite !active_ids_elem.
    intros (r & [_ Hr]%lookup_delete_Some & Ht). by exists r.
  - intros id r [_ Hr]%lookup_delete_Some. by apply Hok in Hr.
  - intros id r Hr. rewrite lookup_delete. case_decide.
    + subst id. rewrite Hrecord in Hr. by injection Hr as <-.
    + rewrite Hr. split; [constructor|done].
Qed.

Lemma reap_sound registry now_ms :
  sessions_ok registry -> step_sound registry (ReapExpired now_ms).
Proof.
  intros Hok. unfold step_sound, session_follows. cbn.
  assert (forall record, moves (ssr_state record) (ssr_state (reap now_ms record)) /\
            ssr_buffered_chars (reap now_ms record) = ssr_buffered_chars record /\
            ssr_expires_at_ms (reap now_ms record) = ssr_expires_at_ms record) as Hreap.
  { intros record. unfold reap, overdue. destruct (is_terminal_locked (ssr_state record)) eqn:Et; cbn;
      [split; [constructor|done]|].
    destruct (_ <=? now_ms); cbn; split; try done; by constructor. }
  split; [split; cbn|split; [done|]].
  - apply Hok.
  - etrans; [|apply Hok]. apply active_sessions_le. intros id. rewrite !active_ids_elem.
    intros (r & (record & <- & Hr)%lookup_fmap_Some & Ht). exists record. split; [done|].
    destruct (is_terminal_locked (ssr_state record)) eqn:Et; [|done].
    rewrite (moves_terminal _ _ (proj1 (Hreap record)) Et) in Ht. congruence.
  - intros id r (record & <- & Hr)%lookup_fmap_Some.
    destruct (Hreap record) as (_ & -> & _). by apply Hok in Hr.
  - intros id r Hr. rewrite lookup_fmap, Hr. cbn. split; apply Hreap.
Qed.

Lemma session_step_sound registry call :
  sessions_ok registry -> call_in_range call -> step_sound registry call.
Proof.
  intros Hok Hc. destruct call as [id route now|id|id delta|id|id|id|id|id|id|now].
  - by apply accept_sound.
  - apply (mutate_sound _ _ id activate); [done|done|apply activate_well].
  - apply (mutate_sound _ _ id (append (ssc_max_buffered_chars (srg_config registry)) delta));
      [done|done|].
    apply append_well; [apply Hok|done].
  - apply (mutate_sound _ _ id cancel_session); [done|done|apply cancel_well].
  - apply (mutate_sound _ _ id begin_completing); [done|done|apply completing_well].
  - apply (mutate_sound _ _ id (finish StreamSessionState.Completed)); [done|done|].
    apply finish_well. by left.
  - apply (mutate_sound _ _ id (finish StreamSessionState.Failed)); [done|done|].
    apply finish_well. by right.
  - apply (mutate_sound _ _ id expire); [done|done|apply expire_well].
  - by apply cleanup_sound.
  - by apply reap_sound.
Qed.

Lemma init_ok registry config :
  stream_config_consistent config = true -> ssc_max_buffered_chars config < 2 ^ 32 ->
  sessions_ok (init registry config).1.
Proof.
  intros Hc Hb. unfold init. rewrite Hc. unfold stream_config_consistent in Hc. reflect_tests.
  split; cbn; [lia| |intros id record H; by rewrite lookup_empty in H].
  rewrite active_sessions_size. unfold active_ids. rewrite map_filter_empty, dom_empty_L, size_empty.
  lia.
Qed.

Lemma session_run_ok registry calls :
  sessions_ok registry -> Forall call_in_range calls ->
  sessions_ok (session_run registry calls) /\
  srg_config (session_run registry calls) = srg_config registry.
Proof.
  revert registry. induction calls as [|call calls IH]; intros registry Hok Hall; [done|].
  apply Forall_cons in Hall as [Hc Hall].
  destruct (session_step_sound registry call Hok Hc) as (Hok' & Hcfg & _).
  destruct (IH _ Hok' Hall) as [Hrun Hrun_cfg]. split; [exact Hrun|].
  unfold session_run in *. cbn [foldl]. congruence.
Qed.

(** C31. In every run the sessions under way and the characters each holds stay within the
    limits; a call takes a session only where its state leads; a final state is never left,
    a cancelled session is never completed or failed, and a session disappears by a cleanup
    after its end alone. *)
Theorem sessions_sound registry config calls call :
  stream_config_consistent config = true -> ssc_max_buffered_chars config < 2 ^ 32 ->
  Forall call_in_range (calls ++ [call]) ->
  let before := session_run (init registry config).1 calls in
  let after := session_step before call in
  active_sessions (srg_sessions after) <= ssc_max_active_sessions config /\
  (forall id record, srg_sessions after !! id = Some record ->
     0 <= ssr_buffered_chars record <= ssc_max_buffered_chars config) /\
  (forall id record, srg_sessions before !! id = Some record ->
     session_follows call before after id record).
Proof.
  intros Hc Hb Hboth before after. apply Forall_app in Hboth as [Hall Hcall].
  apply Forall_inv in Hcall.
  destruct (session_run_ok _ _ (init_ok registry config Hc Hb) Hall) as [Hok Hcfg].
  fold before in Hok, Hcfg.
  assert (srg_config (init registry config).1 = config) as Hinit by (unfold init; by rewrite Hc).
  rewrite Hinit in Hcfg.
  destruct (session_step_sound before call Hok Hcall) as ([_ Hactive Hbuf] & Hcfg' & Hfollow).
  fold after in Hactive, Hbuf, Hcfg', Hfollow. rewrite Hcfg', Hcfg in Hactive, Hbuf. done.
Qed.

(** ** Examples *)

Definition sample_stream : StreamSessionRegistry :=
  session_run (init new_stream_registry default_stream_config).1
    [Accept "call-1" "deepseek/chat" 1000; MarkActive "call-1"; AppendDelta "call-1" 5].

(** Whether a session that was to be cancelled ends as cancelled depends on which of the two
    finds it late. *)
Example late_cancellation :
  (ssr_state <$> srg_sessions (session_run sample_stream [RequestCancel "call-1"; MarkExpired "call-1"])
     !! "call-1",
   ssr_state <$> srg_sessions (session_run sample_stream [RequestCancel "call-1"; ReapExpired 70000])
     !! "call-1") =
  (Some StreamSessionState.Cancelled, Some StreamSessionState.Expired).
Proof. vm_compute. reflexivity. Qed.

Lemma sessions_sound_witness :
  let calls := [Accept "call-1" "deepseek/chat" 1000; MarkActive "call-1"; AppendDelta "call-1" 5;
                RequestCancel "call-1"] in
  let before := session_run (init new_stream_registry default_stream_config).1 calls in
  let after := session_step before (MarkCompleted "call-1") in
  (ssr_state <$> srg_sessions before !! "call-1") = Some StreamSessionState.CancelRequested /\
  (ssr_state <$> srg_sessions after !! "call-1") = Some StreamSessionState.Cancelled /\
  active_sessions (srg_sessions after) <= 8.
Proof.
  intros calls before after.
  split; [vm_compute; reflexivity|]. split; [vm_compute; reflexivity|].
  refine (proj1 (sessions_sound new_stream_registry default_stream_config calls
    (MarkCompleted "call-1") _ _ _)).
  - vm_compute. reflexivity.
  - vm_compute. reflexivity.
  - unfold calls. cbn [app]. repeat (apply Forall_cons; split; [cbn; try exact I; lia|]).
    apply Forall_nil. exact I.
Defined.
