(* ===== verification/LlmExecutor.v ===== *)
(** * The execution of a model call

    llm/src/adapters/AdapterCallResult.h and the LLMCallExecutor of llm/src/LLMManager.cpp:
    a call of one route, repeated within its budget. The executor shares the registry of
    adapters and its count of active calls with every other call, so that a call is a
    machine whose steps are its accesses to what is shared. [permits_bounded] and
    [call_outcome_exact] are about any interleaving of the steps of any calls;
    [execute_returns] is about one call among whatever the others do. *)

From S2P Require Import Prelude ErrorCodes Text Ordering RecoveryContracts LlmConfig ModelRouter AdapterRegistry LlmContracts.

(** ** What an adapter answers *)

Record AdapterUsageFragment := {
  auf_prompt_tokens : option Z;
  auf_completion_tokens : option Z;
  auf_total_tokens : option Z;
  auf_prompt_cache_hit_tokens : option Z;
  auf_prompt_cache_miss_tokens : option Z;
}.

Definition usage_consistent (usage : AdapterUsageFragment) : bool :=
  match auf_prompt_tokens usage, auf_completion_tokens usage, auf_total_tokens usage with
  | None, None, None =>
      negb (has_value (auf_prompt_cache_hit_tokens usage)
            || has_value (auf_prompt_cache_miss_tokens usage))
  | Some prompt_tokens, Some completion_tokens, Some total_tokens =>
      (total_tokens =? u32 (prompt_tokens + completion_tokens))
      && match auf_prompt_cache_hit_tokens usage, auf_prompt_cache_miss_tokens usage with
         | Some hit, Some miss => u32 (hit + miss) <=? prompt_tokens
         | _, _ => true
         end
  | _, _, _ => false
  end.

Definition has_token_counts (usage : AdapterUsageFragment) : bool :=
  has_value (auf_prompt_tokens usage) && has_value (auf_completion_tokens usage)
  && has_value (auf_total_tokens usage).

Record AdapterProviderDiagnostics := {
  apd_reasoning_content : string;
  apd_provider_trace_id : string;
  apd_audit_tags : list string;
}.

(** The loop with the set of tags. *)
Fixpoint tags_consistent_from (seen tags : list string) : bool :=
  match tags with
  | [] => true
  | tag :: rest =>
      negb (is_empty tag) && negb (contains_value seen tag)
      && tags_consistent_from (tag :: seen) rest
  end.

Definition diagnostics_consistent (diagnostics : AdapterProviderDiagnostics) : bool :=
  tags_consistent_from [] (apd_audit_tags diagnostics).

Record AdapterCallResult := {
  acr_response : option LLMResponse;
  acr_error : option ErrorInfo;
  acr_result_code : option ResultCode;
  acr_usage : option AdapterUsageFragment;
  acr_provider_diagnostics : AdapterProviderDiagnostics;
}.

Definition no_diagnostics : AdapterProviderDiagnostics :=
  {| apd_reasoning_content := ""; apd_provider_trace_id := ""; apd_audit_tags := [] |}.

Definition adapter_result_consistent (result : AdapterCallResult) : bool :=
  if Bool.eqb (has_value (acr_response result)) (has_value (acr_error result)) then false else
  if negb (Bool.eqb (has_value (acr_error result)) (has_value (acr_result_code result)))
  then false else
  match acr_usage result with
  | Some usage => has_value (acr_response result) && usage_consistent usage
  | None => true
  end && diagnostics_consistent (acr_provider_diagnostics result).

(** ** What the executor answers *)

Module LLMCallExecutionFailureReason.
Inductive LLMCallExecutionFailureReason :=
| NotInitialized | RouteUnavailable | RouteBlocked | ConcurrencyRejected | Timeout
| AdapterFailure.
#[global] Instance LLMCallExecutionFailureReason_eq_dec : EqDecision LLMCallExecutionFailureReason.
Proof. solve_decision. Defined.
End LLMCallExecutionFailureReason.
Abbreviation LLMCallExecutionFailureReason :=
  LLMCallExecutionFailureReason.LLMCallExecutionFailureReason.

Record LLMCallExecutionResult := {
  cer_route_key : string;
  cer_attempts_started : Z;
  cer_adapter_result : option AdapterCallResult;
  cer_error : option ErrorInfo;
  cer_result_code : option ResultCode;
  cer_failure_reason : option LLMCallExecutionFailureReason;
}.

Definition execution_succeeded (result : LLMCallExecutionResult) : bool :=
  match cer_adapter_result result with
  | Some adapter_result => has_value (acr_response adapter_result)
  | None => false
  end.

Definition execution_consistent (result : LLMCallExecutionResult) : bool :=
  if match cer_adapter_result result with
     | Some adapter_result => negb (adapter_result_consistent adapter_result)
     | None => false
     end then false else
  if execution_succeeded result
  then (0 <? cer_attempts_started result) && negb (has_value (cer_error result))
       && negb (has_value (cer_result_code result))
       && negb (has_value (cer_failure_reason result)) && negb (is_empty (cer_route_key result))
  else
  match cer_failure_reason result, cer_error result, cer_result_code result with
  | Some _, Some error, Some result_code =>
      match ei_failure_type error with
      | Some failure_type => bool_decide (classify_result_code result_code = failure_type)
      | None => true
      end
  | _, _, _ => false
  end.

Definition kExecutionStage : string := "llm.manager.execute_unary".

Definition execution_error (result_code : ResultCode) (message : string) (retryable : bool)
    (route_key stage_name : string) : ErrorInfo :=
  {| ei_failure_type := Some (classify_result_code result_code);
     ei_retryable := Some retryable;
     ei_safe_to_replan := Some false;
     ei_details := {| ed_code := Some (result_code_value result_code); ed_message := message;
                      ed_stage := stage_name |};
     ei_source_ref := {| esr_ref_type := "route"; esr_ref_id := route_key |} |}.

Definition adapter_failure_message (adapter_result : AdapterCallResult) (fallback_message : string)
    : string :=
  match acr_error adapter_result with
  | Some error =>
      if is_empty (ed_message (ei_details error)) then fallback_message
      else ed_message (ei_details error)
  | None => fallback_message
  end.

Definition adapter_failure_is_retryable (adapter_result : AdapterCallResult) : bool :=
  match acr_error adapter_result with
  | Some error => default false (ei_retryable error)
  | None => false
  end.

Definition make_success_result (route_key : string) (attempts_started : Z)
    (adapter_result : AdapterCallResult) : LLMCallExecutionResult :=
  {| cer_route_key := route_key; cer_attempts_started := attempts_started;
     cer_adapter_result := Some adapter_result; cer_error := None; cer_result_code := None;
     cer_failure_reason := None |}.

Definition make_timeout_result (route_key message stage_name : string) : AdapterCallResult :=
  {| acr_response := None;
     acr_error := Some (execution_error ResultCode.ProviderTimeout message true route_key stage_name);
     acr_result_code := Some ResultCode.ProviderTimeout; acr_usage := None;
     acr_provider_diagnostics := no_diagnostics |}.

(** ** The time a call has *)

Definition clamp_timeout_ms (timeout_ms : Z) : Z := Z.min timeout_ms (2 ^ 32 - 1).

Definition effective_timeout_ms (timeout_policy : LLMTimeoutConfig) (request : LLMRequest) : Z :=
  let configured_timeout_ms := clamp_timeout_ms (Z.max (ltc_timeout_ms timeout_policy) 1) in
  match lrq_timeout_ms request with
  | None => configured_timeout_ms
  | Some timeout_ms => Z.min configured_timeout_ms timeout_ms
  end.

Definition make_attempt_request (request : LLMRequest) (route_key : string) (timeout_ms : Z)
    (request_mode : LLMRequestMode) : LLMRequest :=
  {| lrq_request_id := lrq_request_id request;
     lrq_llm_call_id := lrq_llm_call_id request;
     lrq_model_route := Some route_key;
     lrq_request_mode := Some request_mode;
     lrq_messages := lrq_messages request;
     lrq_created_at := lrq_created_at request;
     lrq_prompt_id := lrq_prompt_id request;
     lrq_prompt_version := lrq_prompt_version request;
     lrq_output_schema_ref := lrq_output_schema_ref request;
     lrq_response_format := lrq_response_format request;
     lrq_runtime_budget := lrq_runtime_budget request;
     lrq_max_output_tokens := lrq_max_output_tokens request;
     lrq_timeout_ms := Some timeout_ms;
     lrq_tags := lrq_tags request |}.

(** ** What an answer is worth *)

(** What the loop makes of the answer to an attempt. It is recorded in the registry. A
    failure keeps a result of the adapter, if there is one, and the messages and codes it is
    reported with, when the route is blocked by then and when the call ends with it. *)
Inductive Verdict :=
| Good (adapter_result : AdapterCallResult) (recorded : string)
| Bad (recorded : string) (kept : option AdapterCallResult) (when_blocked : string)
    (repeated : bool) (result_code : ResultCode) (message : string) (retryable : bool)
    (reason : LLMCallExecutionFailureReason).

Definition inconsistent_unary : string := "adapter returned inconsistent unary execution result".

Definition unary_verdict (timeout_ms : Z) (route_key : string) (answer : AdapterCallResult * Z)
    : Verdict :=
  let '(adapter_result, elapsed_ms) := answer in
  if negb (adapter_result_consistent adapter_result)
  then Bad inconsistent_unary (Some adapter_result)
         "adapter route blocked after inconsistent execution failures" false
         ResultCode.RuntimeRetryExhausted inconsistent_unary false
         LLMCallExecutionFailureReason.AdapterFailure else
  if timeout_ms <? elapsed_ms
  then let message := "adapter invocation exceeded timeout_policy after " +:+ to_string elapsed_ms
                        +:+ "ms" in
       Bad message (Some (make_timeout_result route_key message kExecutionStage))
         "adapter route blocked after consecutive timeout failures" true
         ResultCode.ProviderTimeout "adapter invocation exceeded timeout_policy" true
         LLMCallExecutionFailureReason.Timeout else
  if has_value (acr_response adapter_result)
  then Good adapter_result "llm unary execution succeeded" else
  let failure_message := adapter_failure_message adapter_result "adapter unary execution failed" in
  Bad failure_message (Some adapter_result)
    "adapter route blocked after consecutive call failures"
    (adapter_failure_is_retryable adapter_result)
    (default ResultCode.RuntimeRetryExhausted (acr_result_code adapter_result)) failure_message
    (adapter_failure_is_retryable adapter_result) LLMCallExecutionFailureReason.AdapterFailure.

(** How a streamed attempt ended: what the observer had captured, and the session the adapter
    named. *)
Record StreamEnd := {
  sed_final_result : option AdapterCallResult;
  sed_final_error : option ErrorInfo;
  sed_final_result_code : option ResultCode;
  sed_session_id : string;
}.

Definition kStreamExecutionStage : string := "llm.manager.execute_stream".

Definition empty_session : string := "adapter returned an empty stream session id".
Definition no_terminal_result : string := "adapter returned no terminal streaming result".

Definition stream_verdict (timeout_ms : Z) (route_key : string) (answer : StreamEnd * Z) : Verdict :=
  let '(stream_end, elapsed_ms) := answer in
  if timeout_ms <? elapsed_ms
  then let message := "adapter streaming invocation exceeded timeout_policy after "
                        +:+ to_string elapsed_ms +:+ "ms" in
       Bad message (Some (make_timeout_result route_key message kStreamExecutionStage))
         "adapter route blocked after consecutive timeout failures" true
         ResultCode.ProviderTimeout "adapter streaming invocation exceeded timeout_policy" true
         LLMCallExecutionFailureReason.Timeout else
  match sed_final_result stream_end with
  | Some final_result => Good final_result "llm streaming execution succeeded"
  | None =>
      if has_value (sed_final_error stream_end) || has_value (sed_final_result_code stream_end)
      then
        let adapter_result :=
          {| acr_response := None; acr_error := sed_final_error stream_end;
             acr_result_code := sed_final_result_code stream_end; acr_usage := None;
             acr_provider_diagnostics := no_diagnostics |} in
        let retryable := adapter_failure_is_retryable adapter_result in
        let failure_message :=
          adapter_failure_message adapter_result "adapter streaming execution failed" in
        Bad failure_message (Some adapter_result)
          "adapter route blocked after consecutive streaming failures" retryable
          (default ResultCode.RuntimeRetryExhausted (acr_result_code adapter_result))
          failure_message retryable LLMCallExecutionFailureReason.AdapterFailure
      else if is_empty (sed_session_id stream_end)
      then Bad empty_session None "adapter route blocked after empty streaming session ids" false
             ResultCode.RuntimeRetryExhausted empty_session false
             LLMCallExecutionFailureReason.AdapterFailure
      else Bad no_terminal_result None
             "adapter route blocked after missing streaming terminal result" false
             ResultCode.RuntimeRetryExhausted no_terminal_result false
             LLMCallExecutionFailureReason.AdapterFailure
  end.

(** ** One call *)

Module CallKind.
Inductive CallKind := Unary | Stream.
#[global] Instance CallKind_eq_dec : EqDecision CallKind.
Proof. solve_decision. Defined.
End CallKind.
Abbreviation CallKind := CallKind.CallKind.

Inductive Answer :=
| UnaryAnswer (adapter_result : AdapterCallResult) (elapsed_ms : Z)
| StreamAnswer (stream_end : StreamEnd) (elapsed_ms : Z).

Definition execution_stage (kind : CallKind) : string :=
  match kind with CallKind.Unary => kExecutionStage | CallKind.Stream => kStreamExecutionStage end.

(** [None] where the answer is not one to a call of the kind. *)
Definition verdict (kind : CallKind) (timeout_ms : Z) (route_key : string) (answer : Answer)
    : option Verdict :=
  match kind, answer with
  | CallKind.Unary, UnaryAnswer adapter_result elapsed_ms =>
      Some (unary_verdict timeout_ms route_key (adapter_result, elapsed_ms))
  | CallKind.Stream, StreamAnswer stream_end elapsed_ms =>
      Some (stream_verdict timeout_ms route_key (stream_end, elapsed_ms))
  | _, _ => None
  end.

Section executor.
Context {Adapter : Type} {sorting : StdSort}.
(** What a string holds after it was moved. *)
Variable moved_from : string -> string.

(** [route_key] is moved into the result before it is copied into the error. *)
Definition make_failure_result (route_key : string) (attempts_started : Z)
    (adapter_result : option AdapterCallResult) (result_code : ResultCode) (message : string)
    (retryable : bool) (failure_reason : LLMCallExecutionFailureReason) (stage_name : string)
    : LLMCallExecutionResult :=
  {| cer_route_key := route_key; cer_attempts_started := attempts_started;
     cer_adapter_result := adapter_result;
     cer_error := Some (execution_error result_code message retryable (moved_from route_key)
                          stage_name);
     cer_result_code := Some result_code; cer_failure_reason := Some failure_reason |}.

(** The executor and the registry that its callers share. *)
Record Executor := {
  exc_config : LLMSubsystemConfig;
  exc_initialized : bool;
  exc_active_call_count : Z;
  exc_registry : @AdapterRegistry Adapter;
}.

Definition executor_init (executor : Executor) (config : LLMSubsystemConfig) : Executor * bool :=
  if negb (subsystem_config_consistent config) then (executor, false) else
  ({| exc_config := config; exc_initialized := true; exc_active_call_count := 0;
      exc_registry := exc_registry executor |}, true).

Definition with_active (executor : Executor) (count : Z) : Executor :=
  {| exc_config := exc_config executor; exc_initialized := exc_initialized executor;
     exc_active_call_count := count; exc_registry := exc_registry executor |}.

Definition with_registry (executor : Executor) (registry : AdapterRegistry) : Executor :=
  {| exc_config := exc_config executor; exc_initialized := exc_initialized executor;
     exc_active_call_count := exc_active_call_count executor; exc_registry := registry |}.

(** Where a call is. With the slot it holds it goes from [Asking] to [Leaving]. *)
Inductive Phase :=
| Entering
| Resolving
| Acquiring (adapter : Adapter)
| Asking (adapter : Adapter)
| Deciding (bad : Verdict)
| Leaving (next : option LLMCallExecutionResult)
| Returned (result : LLMCallExecutionResult).

Record Call := {
  cal_kind : CallKind;
  cal_route_key : string;
  cal_request : LLMRequest;
  cal_attempt : Z;
  cal_attempts_started : Z;
  cal_phase : Phase;
}.

Definition enter_phase (call : Call) (phase : Phase) : Call :=
  {| cal_kind := cal_kind call; cal_route_key := cal_route_key call;
     cal_request := cal_request call; cal_attempt := cal_attempt call;
     cal_attempts_started := cal_attempts_started call; cal_phase := phase |}.

Definition begin_call (kind : CallKind) (route_key : string) (request : LLMRequest) : Call :=
  {| cal_kind := kind; cal_route_key := route_key; cal_request := request;
     cal_attempt := 0; cal_attempts_started := 0; cal_phase := Entering |}.

Definition fail_call (call : Call) (adapter_result : option AdapterCallResult)
    (result_code : ResultCode) (message : string) (retryable : bool)
    (reason : LLMCallExecutionFailureReason) : LLMCallExecutionResult :=
  make_failure_result (cal_route_key call) (cal_attempts_started call) adapter_result result_code
    message retryable reason (execution_stage (cal_kind call)).

(** A failure before the adapter was asked. *)
Definition refuse_call (call : Call) (message : string) (reason : LLMCallExecutionFailureReason)
    : Call :=
  enter_phase call
    (Returned (fail_call call None ResultCode.RuntimeRetryExhausted message false reason)).

Definition call_timeout_ms (executor : Executor) (call : Call) : Z :=
  effective_timeout_ms (lsc_timeout_policy (exc_config executor)) (cal_request call).

(** The request an attempt sends. *)
Definition attempt_request (executor : Executor) (call : Call) : LLMRequest :=
  make_attempt_request (cal_request call) (cal_route_key call) (call_timeout_ms executor call)
    (match cal_kind call with
     | CallKind.Unary => LLMRequestMode.Unary
     | CallKind.Stream => LLMRequestMode.Streaming
     end).

Definition retry_budget (executor : Executor) : Z :=
  ltc_retry_budget (lsc_timeout_policy (exc_config executor)).

Definition resolve_attempt (executor : Executor) (call : Call) : Call :=
  let unregistered :=
    refuse_call call "adapter route is not registered" LLMCallExecutionFailureReason.RouteUnavailable in
  let? route_state := resolve_route (exc_registry executor) (cal_route_key call)
    else unregistered in
  let? adapter := arn_adapter (ars_registration route_state) else unregistered in
  if bool_decide (cal_kind call = CallKind.Stream)
     && negb (arn_supports_streaming (ars_registration route_state))
  then refuse_call call "adapter route does not support streaming"
         LLMCallExecutionFailureReason.RouteUnavailable else
  if ars_blocked route_state
  then refuse_call call "adapter route is blocked by circuit threshold"
         LLMCallExecutionFailureReason.RouteBlocked else
  enter_phase call (Acquiring adapter).

Definition try_acquire_active_call_slot (executor : Executor) (limit : Z) : Executor * bool :=
  if exc_active_call_count executor <? limit
  then (with_active executor (exc_active_call_count executor + 1), true) else (executor, false).

(** What the call ends with, or [None] where it is repeated. *)
Definition decide_attempt (executor : Executor) (call : Call) (bad : Verdict)
    : option LLMCallExecutionResult :=
  match bad with
  | Good adapter_result _ =>
      Some (make_success_result (cal_route_key call) (cal_attempts_started call) adapter_result)
  | Bad _ kept when_blocked repeated result_code message retryable reason =>
      if match resolve_route (exc_registry executor) (cal_route_key call) with
         | Some updated_route => ars_blocked updated_route
         | None => false
         end
      then Some (fail_call call kept ResultCode.RuntimeRetryExhausted when_blocked false
                   LLMCallExecutionFailureReason.RouteBlocked) else
      if repeated && (cal_attempt call <? retry_budget executor) then None else
      Some (fail_call call kept result_code message retryable reason)
  end.

(** The next access of the call to what is shared. *)
Definition advance (executor : Executor) (call : Call) : Executor * Call :=
  match cal_phase call with
  | Entering =>
      (executor,
       if exc_initialized executor then enter_phase call Resolving
       else refuse_call call "llm call executor is not initialized"
              LLMCallExecutionFailureReason.NotInitialized)
  | Resolving => (executor, resolve_attempt executor call)
  | Acquiring adapter =>
      let '(executor, acquired) :=
        try_acquire_active_call_slot executor (lsc_worker_threads (exc_config executor)) in
      (executor,
       if acquired then enter_phase call (Asking adapter)
       else refuse_call call "active llm calls limit reached"
              LLMCallExecutionFailureReason.ConcurrencyRejected)
  | Asking _ | Returned _ => (executor, call)
  | Deciding bad => (executor, enter_phase call (Leaving (decide_attempt executor call bad)))
  | Leaving next =>
      (with_active executor (u32 (exc_active_call_count executor - 1)),
       match next with
       | Some result => enter_phase call (Returned result)
       | None =>
           {| cal_kind := cal_kind call; cal_route_key := cal_route_key call;
              cal_request := cal_request call; cal_attempt := u32 (cal_attempt call + 1);
              cal_attempts_started := cal_attempts_started call; cal_phase := Resolving |}
       end)
  end.

(** The registry call that records the answer. *)
Definition record_of (route_key : string) (verdict : Verdict) : @RegistryCall Adapter :=
  match verdict with
  | Good _ recorded => CallSucceeded route_key recorded
  | Bad recorded _ _ _ _ _ _ _ => CallFailed route_key recorded
  end.

(** The adapter has answered: the answer is recorded. *)
Definition answered (executor : Executor) (call : Call) (answer : Answer) : Executor * Call :=
  match cal_phase call with
  | Asking _ =>
      let? verdict := verdict (cal_kind call) (call_timeout_ms executor call) (cal_route_key call)
                        answer else (executor, call) in
      let call :=
        {| cal_kind := cal_kind call; cal_route_key := cal_route_key call;
           cal_request := cal_request call; cal_attempt := cal_attempt call;
           cal_attempts_started := u32 (cal_attempts_started call + 1);
           cal_phase := cal_phase call |} in
      let executor :=
        with_registry executor
          (registry_step (exc_registry executor) (record_of (cal_route_key call) verdict)).1 in
      (executor,
       enter_phase call
         (match verdict with
          | Good _ _ => Leaving (decide_attempt executor call verdict)
          | Bad _ _ _ _ _ _ _ _ => Deciding verdict
          end))
  | _ => (executor, call)
  end.

(** ** Many calls *)

Record ExecutorRun := {
  xrn_executor : Executor;
  xrn_calls : gmap nat Call;
}.

Inductive ExecutorInput :=
| Begin (id : nat) (kind : CallKind) (route_key : string) (request : LLMRequest)
| Advance (id : nat)
| Answered (id : nat) (answer : Answer)
| OtherCall (call : @RegistryCall Adapter).

Definition executor_step (run : ExecutorRun) (input : ExecutorInput) : ExecutorRun :=
  match input with
  | Begin id kind route_key request =>
      match xrn_calls run !! id with
      | Some _ => run
      | None => {| xrn_executor := xrn_executor run;
                   xrn_calls := <[id := begin_call kind route_key request]> (xrn_calls run) |}
      end
  | Advance id =>
      let? call := xrn_calls run !! id else run in
      let '(executor, call) := advance (xrn_executor run) call in
      {| xrn_executor := executor; xrn_calls := <[id := call]> (xrn_calls run) |}
  | Answered id answer =>
      let? call := xrn_calls run !! id else run in
      let '(executor, call) := answered (xrn_executor run) call answer in
      {| xrn_executor := executor; xrn_calls := <[id := call]> (xrn_calls run) |}
  | OtherCall call =>
      {| xrn_executor :=
           with_registry (xrn_executor run) (registry_step (exc_registry (xrn_executor run)) call).1;
         xrn_calls := xrn_calls run |}
  end.

Definition executor_run (run : ExecutorRun) (inputs : list ExecutorInput) : ExecutorRun :=
  foldl executor_step run inputs.

Definition new_run (executor : Executor) : ExecutorRun :=
  {| xrn_executor := executor; xrn_calls := ∅ |}.

(** ** The slots *)

Definition holds_slot (call : Call) : bool :=
  match cal_phase call with
  | Asking _ | Deciding _ | Leaving _ => true
  | _ => false
  end.

Definition holders (calls : gmap nat Call) : gset nat :=
  dom (filter (fun entry => holds_slot entry.2 = true) calls).

Lemma holders_elem calls id :
  id ∈ holders calls <-> exists call, calls !! id = Some call /\ holds_slot call = true.
Proof.
  unfold holders. rewrite elem_of_dom. split.
  - intros [call [H1 H2]%map_lookup_filter_Some]. by exists call.
  - intros (call & H1 & H2). exists call. by apply map_lookup_filter_Some.
Qed.

Lemma holders_insert calls id call :
  holders (<[id := call]> calls) =
    if holds_slot call then {[id]} ∪ holders calls else holders calls ∖ {[id]}.
Proof.
  apply set_eq. intros id'. rewrite holders_elem. destruct (holds_slot call) eqn:E.
  - rewrite elem_of_union, elem_of_singleton, holders_elem.
    destruct (decide (id' = id)) as [->|Hne].
    + rewrite lookup_insert_eq. naive_solver.
    + rewrite lookup_insert_ne by done. naive_solver.
  - rewrite elem_of_difference, elem_of_singleton, holders_elem.
    destruct (decide (id' = id)) as [->|Hne].
    + rewrite lookup_insert_eq. naive_solver congruence.
    + rewrite lookup_insert_ne by done. naive_solver.
Qed.

(** The count is the number of holders and within the limit. *)
Record slots_sound (run : ExecutorRun) : Prop := {
  sls_count : exc_active_call_count (xrn_executor run) = Z.of_nat (size (holders (xrn_calls run)));
  sls_limit : exc_active_call_count (xrn_executor run)
                <= lsc_worker_threads (exc_config (xrn_executor run));
  sls_range : lsc_worker_threads (exc_config (xrn_executor run)) < 2 ^ 32;
}.

(** A call that keeps its slot, or has none before and after. *)
Lemma slots_kept executor executor' calls id call call' :
  calls !! id = Some call -> holds_slot call' = holds_slot call ->
  exc_active_call_count executor' = exc_active_call_count executor ->
  exc_config executor' = exc_config executor ->
  slots_sound {| xrn_executor := executor; xrn_calls := calls |} ->
  slots_sound {| xrn_executor := executor'; xrn_calls := <[id := call']> calls |}.
Proof.
  intros Hid Hslot Hcount Hcfg [H1 H2 H3]. cbn in *.
  assert (holders (<[id := call']> calls) = holders calls) as E.
  { rewrite holders_insert, Hslot. destruct (holds_slot call) eqn:Eh.
    - apply subseteq_union_1_L, singleton_subseteq_l, holders_elem. eauto.
    - apply difference_disjoint_L, disjoint_singleton_r. rewrite holders_elem. naive_solver congruence. }
  split; cbn; rewrite ?E, ?Hcount, ?Hcfg; done.
Qed.

Lemma slots_taken executor calls id call call' :
  calls !! id = Some call -> holds_slot call = false -> holds_slot call' = true ->
  exc_active_call_count executor < lsc_worker_threads (exc_config executor) ->
  slots_sound {| xrn_executor := executor; xrn_calls := calls |} ->
  slots_sound {| xrn_executor := with_active executor (exc_active_call_count executor + 1);
                 xrn_calls := <[id := call']> calls |}.
Proof.
  intros Hid Hold Hnew Hlt [H1 H2 H3]. cbn in *. split; cbn; [|lia|done].
  rewrite holders_insert, Hnew, size_union, size_singleton, H1; [lia|].
  apply disjoint_singleton_l. rewrite holders_elem. naive_solver congruence.
Qed.

Lemma slots_released executor calls id call call' :
  calls !! id = Some call -> holds_slot call = true -> holds_slot call' = false ->
  slots_sound {| xrn_executor := executor; xrn_calls := calls |} ->
  slots_sound {| xrn_executor := with_active executor (u32 (exc_active_call_count executor - 1));
                 xrn_calls := <[id := call']> calls |}.
Proof.
  intros Hid Hold Hnew [H1 H2 H3]. cbn in *.
  assert (id ∈ holders calls) as Hin by (apply holders_elem; eauto).
  assert (Z.of_nat (size (holders calls)) = Z.of_nat (size (holders (<[id := call']> calls))) + 1) as E.
  { rewrite holders_insert, Hnew.
    assert (size (holders calls) = size ({[id]} ∪ holders calls ∖ {[id]})) as ->.
    { f_equal. apply set_eq. intros x. rewrite elem_of_union, elem_of_difference, elem_of_singleton.
      destruct (decide (x = id)) as [->|]; naive_solver. }
    rewrite size_union by set_solver. rewrite size_singleton. lia. }
  assert (u32 (exc_active_call_count executor - 1) = exc_active_call_count executor - 1) as Hu
    by (apply u32_id; unfold in_u32; lia).
  split; cbn; rewrite ?Hu; lia.
Qed.

Lemma refused_no_slot call message reason : holds_slot (refuse_call call message reason) = false.
Proof. done. Qed.

Lemma resolve_no_slot executor call : holds_slot (resolve_attempt executor call) = false.
Proof. unfold resolve_attempt. cbn zeta. by repeat case_match. Qed.

Lemma slots_step run input : slots_sound run -> slots_sound (executor_step run input).
Proof.
  destruct run as [executor calls]. intros H. destruct input as [id kind key request|id|id answer|call]; cbn.
  - destruct (calls !! id) eqn:E; [done|]. destruct H as [H1 H2 H3]. cbn in *.
    split; cbn; [|done|done]. rewrite holders_insert. cbn. rewrite difference_disjoint_L; [done|].
    apply disjoint_singleton_r. rewrite holders_elem. naive_solver congruence.
  - destruct (calls !! id) as [call|] eqn:E; [|done]. unfold advance.
    destruct (cal_phase call) as [| |adapter|adapter|bad|next|result] eqn:Ep;
      assert (holds_slot call = holds_slot call) as Hs by done;
      unfold holds_slot at 1 in Hs; rewrite Ep in Hs; symmetry in Hs.
    + eapply slots_kept; try done. rewrite Hs. by case_match.
    + eapply slots_kept; try done. by rewrite Hs, resolve_no_slot.
    + unfold try_acquire_active_call_slot.
      destruct (exc_active_call_count executor <? _) eqn:El; reflect_tests.
      * by eapply slots_taken.
      * eapply slots_kept; try done.
    + eapply slots_kept; try done.
    + eapply slots_kept; try done.
    + eapply slots_released; try done. by destruct next.
    + eapply slots_kept; try done.
  - destruct (calls !! id) as [call|] eqn:E; [|done]. unfold answered.
    destruct (cal_phase call) as [| |adapter|adapter|bad|next|result] eqn:Ep;
      try (by eapply slots_kept).
    assert (holds_slot call = true) as Hs by (unfold holds_slot; by rewrite Ep).
    destruct (verdict _ _ _ answer) as [v|]; [|by eapply slots_kept].
    destruct v; cbn; (apply (slots_kept executor _ _ _ call); [done|by rewrite Hs|done..]).
  - destruct H as [H1 H2 H3]. by split.
Qed.

Lemma slots_run inputs : forall run, slots_sound run -> slots_sound (executor_run run inputs).
Proof. induction inputs as [|input inputs IH]; intros run H; [done|]. by apply IH, slots_step. Qed.

Lemma new_run_slots executor config :
  subsystem_config_consistent config = true -> in_u32 (lsc_worker_threads config) ->
  slots_sound (new_run (executor_init executor config).1).
Proof.
  unfold executor_init, in_u32. intros -> Hw. split; cbn; [|lia|lia].
  unfold holders. by rewrite map_filter_empty, dom_empty_L, size_empty.
Qed.

(** ** How a call ends *)

Definition repeats (v : Verdict) : bool :=
  match v with Good _ _ => false | Bad _ _ _ repeated _ _ _ _ => repeated end.

(** What the loop makes of the input, if it is the answer a call waits for. *)
Definition hears (run : ExecutorRun) (input : ExecutorInput) : option (nat * (string * Verdict)) :=
  match input with
  | Answered id answer =>
      let? call := xrn_calls run !! id else None in
      match cal_phase call with
      | Asking _ =>
          let? v := verdict (cal_kind call) (call_timeout_ms (xrn_executor run) call)
                      (cal_route_key call) answer else None in
          Some (id, (cal_route_key call, v))
      | _ => None
      end
  | _ => None
  end.

(** The answers to the attempts of one call. *)
Fixpoint heard (run : ExecutorRun) (id : nat) (inputs : list ExecutorInput) : list Verdict :=
  match inputs with
  | [] => []
  | input :: rest =>
      match hears run input with
      | Some (id', (_, v)) => if bool_decide (id' = id) then [v] else []
      | None => []
      end ++ heard (executor_step run input) id rest
  end.

(** The calls of the registry, by the executor and by others. *)
Fixpoint recorded (run : ExecutorRun) (inputs : list ExecutorInput) : list RegistryCall :=
  match inputs with
  | [] => []
  | input :: rest =>
      match input, hears run input with
      | OtherCall call, _ => [call]
      | _, Some (_, (route_key, v)) => [record_of route_key v]
      | _, None => []
      end ++ recorded (executor_step run input) rest
  end.

(** The end of a call whose attempts were answered with [verdicts]: with the last of them,
    good or bad, or before the next attempt. *)
Inductive ends (budget : Z) (call : Call) (verdicts : list Verdict)
    : LLMCallExecutionResult -> Prop :=
| ends_good earlier adapter_result message :
    verdicts = earlier ++ [Good adapter_result message] ->
    Forall (fun v => repeats v = true) earlier ->
    ends budget call verdicts
      (make_success_result (cal_route_key call) (Z.of_nat (length verdicts)) adapter_result)
| ends_bad earlier message kept when_blocked repeated result_code final_message retryable reason :
    verdicts = earlier ++ [Bad message kept when_blocked repeated result_code final_message
                             retryable reason] ->
    Forall (fun v => repeats v = true) earlier ->
    repeated = false \/ Z.of_nat (length verdicts) = budget + 1 ->
    ends budget call verdicts
      (make_failure_result (cal_route_key call) (Z.of_nat (length verdicts)) kept result_code
         final_message retryable reason (execution_stage (cal_kind call)))
| ends_blocked earlier message kept when_blocked repeated result_code final_message retryable reason :
    verdicts = earlier ++ [Bad message kept when_blocked repeated result_code final_message
                             retryable reason] ->
    Forall (fun v => repeats v = true) earlier ->
    ends budget call verdicts
      (make_failure_result (cal_route_key call) (Z.of_nat (length verdicts)) kept
         ResultCode.RuntimeRetryExhausted when_blocked false
         LLMCallExecutionFailureReason.RouteBlocked (execution_stage (cal_kind call)))
| ends_refused message reason :
    Forall (fun v => repeats v = true) verdicts -> Z.of_nat (length verdicts) <= budget ->
    ends budget call verdicts
      (make_failure_result (cal_route_key call) (Z.of_nat (length verdicts)) None
         ResultCode.RuntimeRetryExhausted message false reason (execution_stage (cal_kind call))).

(** Where a call is after these answers. *)
Definition progress (budget : Z) (call : Call) (verdicts : list Verdict) : Prop :=
  let n := Z.of_nat (length verdicts) in
  cal_attempts_started call = n /\
  match cal_phase call with
  | Entering => verdicts = [] /\ cal_attempt call = 0
  | Resolving | Acquiring _ | Asking _ =>
      Forall (fun v => repeats v = true) verdicts /\ cal_attempt call = n /\ n <= budget
  | Deciding bad =>
      (exists earlier, verdicts = earlier ++ [bad] /\ Forall (fun v => repeats v = true) earlier) /\
      (forall adapter_result message, bad <> Good adapter_result message) /\
      cal_attempt call = n - 1 /\ n <= budget + 1
  | Leaving None =>
      Forall (fun v => repeats v = true) verdicts /\ cal_attempt call = n - 1 /\ 0 < n <= budget
  | Leaving (Some result) | Returned result =>
      ends budget call verdicts result /\ n <= budget + 1
  end.

Lemma ends_same budget call call' verdicts result :
  cal_kind call' = cal_kind call -> cal_route_key call' = cal_route_key call ->
  ends budget call verdicts result -> ends budget call' verdicts result.
Proof.
  intros Hk Hr H. destruct H; rewrite <-?Hk, <-?Hr; [econstructor 1|econstructor 2|econstructor 3|
    econstructor 4]; done.
Qed.

Lemma refused_progress budget call message reason verdicts :
  0 <= budget -> cal_attempts_started call = Z.of_nat (length verdicts) ->
  Forall (fun v => repeats v = true) verdicts -> Z.of_nat (length verdicts) <= budget ->
  progress budget (refuse_call call message reason) verdicts.
Proof.
  intros Hb Hn Hf Hl. split; [done|]. cbn. unfold fail_call. rewrite Hn. split; [|lia].
  apply (ends_same budget call); [done|done|]. by apply ends_refused.
Qed.

Lemma resolve_progress budget executor call verdicts :
  0 <= budget -> cal_phase call = Resolving -> progress budget call verdicts ->
  progress budget (resolve_attempt executor call) verdicts.
Proof.
  intros Hb Hp [Hn H]. rewrite Hp in H. destruct H as (Hf & Ha & Hl).
  unfold resolve_attempt. cbn zeta.
  repeat case_match; try (by apply refused_progress). by split.
Qed.

Lemma decide_progress executor call bad verdicts :
  cal_phase call = Deciding bad -> progress (retry_budget executor) call verdicts ->
  progress (retry_budget executor) (enter_phase call (Leaving (decide_attempt executor call bad)))
    verdicts.
Proof.
  intros Hp [Hn H]. rewrite Hp in H. destruct H as ((earlier & Ev & Hf) & Hbad & Ha & Hl).
  split; [done|]. cbn. destruct bad as [?|recorded kept when_blocked repeated result_code message
    retryable reason]; [by destruct (Hbad adapter_result recorded0)|]. cbn. unfold fail_call. rewrite Hn.
  destruct (match resolve_route _ _ with Some _ => _ | None => _ end) eqn:Eb.
  { split; [|done]. apply (ends_same _ call); [done|done|]. by eapply ends_blocked. }
  destruct (repeated && _) eqn:Er; reflect_tests.
  - destruct Er as [-> Er]. rewrite Ev, length_app in *. cbn in *.
    split; [|lia]. apply Forall_app. by split; [|constructor].
  - split; [|done]. apply (ends_same _ call); [done|done|]. eapply ends_bad; [exact Ev|done|].
    destruct Er as [->|Er]; [by left|]. right. rewrite Ev, length_app in *. cbn in *. lia.
Qed.

Lemma advance_progress executor call verdicts :
  0 <= retry_budget executor < 2 ^ 32 - 1 -> progress (retry_budget executor) call verdicts ->
  progress (retry_budget executor) (advance executor call).2 verdicts.
Proof.
  intros Hb H. unfold advance. destruct (cal_phase call) as [| |adapter|adapter|bad|next|result] eqn:Ep;
    cbn.
  - destruct H as [Hn H]. rewrite Ep in H. destruct H as [-> Ha].
    destruct (exc_initialized executor).
    + split; [done|]. cbn. split; [by constructor|]. split; [done|lia].
    + apply refused_progress; [lia|done|by constructor|cbn; lia].
  - apply resolve_progress; [lia|done|done].
  - destruct H as [Hn H]. rewrite Ep in H. unfold try_acquire_active_call_slot.
    destruct (exc_active_call_count executor <? _); cbn.
    + by split.
    + apply refused_progress; [lia|naive_solver..].
  - done.
  - by apply decide_progress.
  - destruct H as [Hn H]. rewrite Ep in H. destruct next as [result|].
    + split; [done|]. cbn. destruct H as [H Hl]. split; [|done]. by apply (ends_same _ call).
    + destruct H as (Hf & Ha & Hl). split; [done|]. cbn. split; [done|].
      rewrite u32_id by (unfold in_u32; lia). lia.
  - done.
Qed.

Lemma answered_progress executor call answer v verdicts adapter :
  0 <= retry_budget executor < 2 ^ 32 - 1 -> cal_phase call = Asking adapter ->
  verdict (cal_kind call) (call_timeout_ms executor call) (cal_route_key call) answer = Some v ->
  progress (retry_budget executor) call verdicts ->
  progress (retry_budget executor) (answered executor call answer).2 (verdicts ++ [v]).
Proof.
  intros Hb Hp Hv [Hn H]. rewrite Hp in H. destruct H as (Hf & Ha & Hl).
  assert (u32 (cal_attempts_started call + 1) = Z.of_nat (length (verdicts ++ [v]))) as Hs.
  { rewrite length_app, u32_id by (unfold in_u32; lia). cbn. lia. }
  unfold answered. rewrite Hp, Hv. destruct v as [adapter_result message|recorded kept when_blocked
    repeated result_code message retryable reason]; cbn; (split; [done|]); cbn;
    rewrite length_app in *; cbn in *.
  - rewrite Hs. split; [|lia]. apply (ends_same _ call); [done|done|].
    replace (Z.of_nat (length verdicts + 1)) with
      (Z.of_nat (length (verdicts ++ [Good adapter_result message]))) by (rewrite length_app; cbn; lia).
    by eapply ends_good.
  - split; [by exists verdicts|]. split; [done|]. lia.
Qed.

Lemma advance_config executor call :
  exc_config (advance executor call).1 = exc_config executor.
Proof.
  unfold advance, try_acquire_active_call_slot. repeat case_match; by simplify_eq/=.
Qed.

Lemma advance_registry executor call :
  exc_registry (advance executor call).1 = exc_registry executor.
Proof.
  unfold advance, try_acquire_active_call_slot. repeat case_match; by simplify_eq/=.
Qed.

Lemma step_config run input :
  exc_config (xrn_executor (executor_step run input)) = exc_config (xrn_executor run).
Proof.
  destruct input as [id kind key request|id|id answer|call]; cbn; [by case_match|..|done].
  - destruct (xrn_calls run !! id) as [call|]; [|done].
    pose proof (advance_config (xrn_executor run) call) as H.
    by destruct (advance _ call).
  - destruct (xrn_calls run !! id) as [call|]; [|done]. unfold answered.
    destruct (cal_phase call); try done. by destruct (verdict _ _ _ answer) as [[]|].
Qed.

Lemma hears_answered run id answer call adapter :
  xrn_calls run !! id = Some call -> cal_phase call = Asking adapter ->
  hears run (Answered id answer) =
    (let? v := verdict (cal_kind call) (call_timeout_ms (xrn_executor run) call)
                 (cal_route_key call) answer else None in Some (id, (cal_route_key call, v))).
Proof. intros H1 H2. cbn. by rewrite H1, H2. Qed.

Lemma step_registry run input :
  exc_registry (xrn_executor (executor_step run input)) =
  registry_run (exc_registry (xrn_executor run))
    (match input, hears run input with
     | OtherCall call, _ => [call]
     | _, Some (_, (route_key, v)) => [record_of route_key v]
     | _, None => []
     end).
Proof.
  destruct input as [id kind key request|id|id answer|call]; cbn -[hears]; [by case_match|..|done].
  - destruct (xrn_calls run !! id) as [call|]; [|done].
    pose proof (advance_registry (xrn_executor run) call) as H. by destruct (advance _ call).
  - unfold hears. destruct (xrn_calls run !! id) as [call|]; [|done]. unfold answered.
    destruct (cal_phase call); try done. by destruct (verdict _ _ _ answer) as [[]|].
Qed.

Lemma run_records inputs : forall run,
  exc_registry (xrn_executor (executor_run run inputs)) =
  registry_run (exc_registry (xrn_executor run)) (recorded run inputs).
Proof.
  induction inputs as [|input inputs IH]; intros run; [done|].
  cbn [executor_run foldl recorded]. fold (executor_run (executor_step run input) inputs).
  rewrite IH, step_registry. unfold registry_run. by rewrite foldl_app.
Qed.

(** Every call is where its answers have brought it. *)
Definition all_progress (budget : Z) (run : ExecutorRun) (verdicts : nat -> list Verdict) : Prop :=
  forall id, match xrn_calls run !! id with
             | Some call => progress budget call (verdicts id)
             | None => verdicts id = []
             end.

Definition hears_of (run : ExecutorRun) (input : ExecutorInput) (id : nat) : list Verdict :=
  match hears run input with
  | Some (id', (_, v)) => if bool_decide (id' = id) then [v] else []
  | None => []
  end.

Lemma hears_of_other run input id :
  match input with Answered id' _ => id' <> id | _ => True end -> hears_of run input id = [].
Proof.
  unfold hears_of, hears. intros Hne. destruct input as [| |id' answer|]; try done.
  repeat case_match; simplify_eq; try done. by case_bool_decide.
Qed.

Lemma all_progress_step run input verdicts :
  0 <= retry_budget (xrn_executor run) < 2 ^ 32 - 1 ->
  all_progress (retry_budget (xrn_executor run)) run verdicts ->
  all_progress (retry_budget (xrn_executor run)) (executor_step run input)
    (fun id => verdicts id ++ hears_of run input id).
Proof.
  intros Hb H id. pose proof (H id) as Hid.
  destruct input as [id' kind key request|id'|id' answer|call]; cbn -[hears_of].
  - rewrite hears_of_other, app_nil_r by done. destruct (xrn_calls run !! id') eqn:E; cbn; [done|].
    destruct (decide (id = id')) as [->|Hne].
    + rewrite E in Hid. rewrite lookup_insert_eq, Hid. by split.
    + by rewrite lookup_insert_ne by done.
  - rewrite hears_of_other, app_nil_r by done.
    destruct (xrn_calls run !! id') as [call|] eqn:E; [|done].
    destruct (advance _ call) as [executor call'] eqn:Ea. cbn.
    destruct (decide (id = id')) as [->|Hne].
    + rewrite lookup_insert_eq. rewrite E in Hid.
      pose proof (advance_progress _ _ _ Hb Hid) as Hp. by rewrite Ea in Hp.
    + by rewrite lookup_insert_ne by done.
  - destruct (decide (id' = id)) as [->|Hne].
    2: { rewrite hears_of_other, app_nil_r by done.
      destruct (xrn_calls run !! id') as [call|]; [|done].
      destruct (answered _ call answer). cbn. by rewrite lookup_insert_ne by done. }
    destruct (xrn_calls run !! id) as [call|] eqn:E.
    2: { rewrite E. unfold hears_of, hears. rewrite E. by rewrite Hid. }
    destruct (answered _ call answer) as [executor call'] eqn:Ea. cbn -[hears_of].
    rewrite lookup_insert_eq. unfold hears_of.
    destruct (cal_phase call) as [| |adapter|adapter|bad|next|result] eqn:Ep;
      try (unfold answered in Ea; rewrite Ep in Ea; simplify_eq; cbn; by rewrite E, Ep, app_nil_r).
    rewrite (hears_answered _ _ _ _ _ E Ep).
    destruct (verdict _ _ _ answer) as [v|] eqn:Ev.
    + rewrite bool_decide_true by done.
      pose proof (answered_progress _ _ _ _ _ _ Hb Ep Ev Hid) as Hp. by rewrite Ea in Hp.
    + unfold answered in Ea. rewrite Ep, Ev in Ea. simplify_eq. by rewrite app_nil_r.
  - by rewrite hears_of_other, app_nil_r by done.
Qed.

Lemma all_progress_run inputs : forall run verdicts,
  0 <= retry_budget (xrn_executor run) < 2 ^ 32 - 1 ->
  all_progress (retry_budget (xrn_executor run)) run verdicts ->
  all_progress (retry_budget (xrn_executor run)) (executor_run run inputs)
    (fun id => verdicts id ++ heard run id inputs).
Proof.
  induction inputs as [|input inputs IH]; intros run verdicts Hb H.
  { intros id. specialize (H id). cbn. by rewrite app_nil_r. }
  assert (retry_budget (xrn_executor (executor_step run input)) = retry_budget (xrn_executor run)) as Hr
    by (unfold retry_budget; by rewrite step_config).
  pose proof (all_progress_step _ input _ Hb H) as Hstep. rewrite <-Hr in Hb, Hstep.
  intros id. pose proof (IH _ _ Hb Hstep id) as Hid. rewrite Hr in Hid. cbn [executor_run foldl heard].
  fold (executor_run (executor_step run input) inputs). unfold hears_of in Hid.
  destruct (xrn_calls _ !! id); by rewrite app_assoc.
Qed.

(** ** Properties *)

(** The count of active calls is the number of calls that hold a slot, and never more than
    the limit, however the calls interleave. *)
Theorem permits_bounded executor config inputs :
  subsystem_config_consistent config = true -> in_u32 (lsc_worker_threads config) ->
  let run := executor_run (new_run (executor_init executor config).1) inputs in
  exc_active_call_count (xrn_executor run) = Z.of_nat (size (holders (xrn_calls run))) /\
  exc_active_call_count (xrn_executor run) <= lsc_worker_threads (exc_config (xrn_executor run)).
Proof.
  intros Hc Hw run. destruct (slots_run inputs _ (new_run_slots executor config Hc Hw)) as [H1 H2 _].
  by split.
Qed.

(** C18. However the calls interleave, a call asks its adapter again after answers that may be
    repeated alone, and no more often than its budget allows; it ends well exactly with a
    good answer, which is its result, and otherwise with the last bad one, with a blocked
    route, or before it asked again. The registry holds one record for each answer, next to
    what others do. *)
Theorem call_outcome_exact executor config inputs id call result :
  subsystem_config_consistent config = true ->
  0 <= ltc_retry_budget (lsc_timeout_policy config) < 2 ^ 32 - 1 ->
  let start := new_run (executor_init executor config).1 in
  let run := executor_run start inputs in
  exc_registry (xrn_executor run) = registry_run (exc_registry executor) (recorded start inputs) /\
  (xrn_calls run !! id = Some call -> cal_phase call = Returned result ->
   ends (ltc_retry_budget (lsc_timeout_policy config)) call (heard start id inputs) result /\
   Z.of_nat (length (heard start id inputs))
     <= ltc_retry_budget (lsc_timeout_policy config) + 1).
Proof.
  intros Hc Hb start run.
  assert (xrn_executor start = (executor_init executor config).1) as Hs by done.
  assert (exc_config (xrn_executor start) = config /\
          exc_registry (xrn_executor start) = exc_registry executor) as [Hcfg Hreg]
    by (rewrite Hs; unfold executor_init; by rewrite Hc).
  split; [unfold run; by rewrite run_records, Hreg|]. intros Hid Hp.
  assert (retry_budget (xrn_executor start) = ltc_retry_budget (lsc_timeout_policy config)) as Hr
    by (unfold retry_budget; by rewrite Hcfg).
  assert (all_progress (retry_budget (xrn_executor start)) start (fun _ => [])) as H0
    by (intros i; cbn; by rewrite lookup_empty).
  rewrite <-Hr in Hb. pose proof (all_progress_run inputs _ _ Hb H0 id) as H.
  fold run in H. rewrite Hid, app_nil_l, Hr in H. unfold progress in H. destruct H as [_ H].
  rewrite Hp in H. exact H.
Qed.

(** ** One call among the others *)

Section one_call.
Context {World : Type}.
(** What the others do to the registry and to the count before each step of the call. *)
Variable others : World -> Executor -> World * @AdapterRegistry Adapter * Z.
(** What the adapter does: a unary call, and a streamed one. *)
Variable ask_unary : World -> Adapter -> LLMRequest -> World * (AdapterCallResult * Z).
Variable ask_stream : World -> Adapter -> LLMRequest -> World * (StreamEnd * Z).

Definition interfere (w : World) (executor : Executor) : World * Executor :=
  let '(w, registry, count) := others w executor in
  (w, with_active (with_registry executor registry) count).

Definition ask (kind : CallKind) (w : World) (adapter : Adapter) (request : LLMRequest)
    : World * Answer :=
  match kind with
  | CallKind.Unary =>
      let '(w, (adapter_result, elapsed_ms)) := ask_unary w adapter request in
      (w, UnaryAnswer adapter_result elapsed_ms)
  | CallKind.Stream =>
      let '(w, (stream_end, elapsed_ms)) := ask_stream w adapter request in
      (w, StreamAnswer stream_end elapsed_ms)
  end.

Definition call_step (w : World) (executor : Executor) (call : Call) : World * Executor * Call :=
  match cal_phase call with
  | Asking adapter =>
      let '(w, answer) := ask (cal_kind call) w adapter (attempt_request executor call) in
      let '(executor, call) := answered executor call answer in (w, executor, call)
  | _ => let '(executor, call) := advance executor call in (w, executor, call)
  end.

Fixpoint drive (fuel : nat) (w : World) (executor : Executor) (call : Call)
    : option (World * Executor * LLMCallExecutionResult) :=
  match cal_phase call, fuel with
  | Returned result, _ => Some (w, executor, result)
  | _, O => None
  | _, S fuel =>
      let '(w, executor) := interfere w executor in
      let '(w, executor, call) := call_step w executor call in
      drive fuel w executor call
  end.

(** The answers the call hears on its way. *)
Definition step_heard (w : World) (executor : Executor) (call : Call) : list Verdict :=
  match cal_phase call with
  | Asking adapter =>
      option_list (verdict (cal_kind call) (call_timeout_ms executor call) (cal_route_key call)
                     (ask (cal_kind call) w adapter (attempt_request executor call)).2)
  | _ => []
  end.

Fixpoint drive_heard (fuel : nat) (w : World) (executor : Executor) (call : Call) : list Verdict :=
  match cal_phase call, fuel with
  | Returned _, _ | _, O => []
  | _, S fuel =>
      let '(w, executor) := interfere w executor in
      let heard := step_heard w executor call in
      let '(w, executor, call) := call_step w executor call in
      heard ++ drive_heard fuel w executor call
  end.

(** Five steps an attempt, and one before. *)
Definition execution_fuel (executor : Executor) : nat :=
  Z.to_nat (5 * (retry_budget executor + 1) + 1).

Definition execute (kind : CallKind) (w : World) (executor : Executor) (route_key : string)
    (request : LLMRequest) : option (World * Executor * LLMCallExecutionResult) :=
  drive (execution_fuel executor) w executor (begin_call kind route_key request).

Definition execute_unary := execute CallKind.Unary.
Definition execute_stream := execute CallKind.Stream.

(** How many steps are left at most. *)
Definition steps_left (budget : Z) (call : Call) : Z :=
  match cal_phase call with
  | Entering => 5 * (budget + 1) + 1
  | Resolving => 5 * (budget - cal_attempt call) + 5
  | Acquiring _ => 5 * (budget - cal_attempt call) + 4
  | Asking _ => 5 * (budget - cal_attempt call) + 3
  | Deciding _ => 5 * (budget - cal_attempt call) + 2
  | Leaving (Some _) => 1
  | Leaving None => 5 * (budget - cal_attempt call) + 1
  | Returned _ => 0
  end.

Lemma steps_left_pos budget call verdicts :
  0 <= budget -> progress budget call verdicts ->
  match cal_phase call with Returned _ => True | _ => 0 < steps_left budget call end.
Proof.
  intros Hb [_ H]. unfold steps_left. destruct (cal_phase call) as [| | | | |[]|]; try done; lia.
Qed.

Lemma kind_verdict kind w adapter request timeout_ms route_key :
  exists v, verdict kind timeout_ms route_key (ask kind w adapter request).2 = Some v.
Proof.
  destruct kind; cbn.
  - destruct (ask_unary w adapter request) as [w' [adapter_result elapsed_ms]]. cbn. eauto.
  - destruct (ask_stream w adapter request) as [w' [stream_end elapsed_ms]]. cbn. eauto.
Qed.

Lemma call_step_same w executor call w' executor' call' :
  call_step w executor call = (w', executor', call') ->
  cal_kind call' = cal_kind call /\ cal_route_key call' = cal_route_key call.
Proof.
  unfold call_step, advance, answered, resolve_attempt, try_acquire_active_call_slot. cbn zeta.
  intros H. repeat case_match; simplify_eq/=; by repeat case_match.
Qed.

(** A step brings the call nearer to its end. *)
Lemma call_step_nearer w executor call verdicts w' executor' call' :
  0 <= retry_budget executor < 2 ^ 32 - 1 -> progress (retry_budget executor) call verdicts ->
  (forall result, cal_phase call <> Returned result) ->
  call_step w executor call = (w', executor', call') ->
  retry_budget executor' = retry_budget executor /\
  steps_left (retry_budget executor) call' < steps_left (retry_budget executor) call /\
  progress (retry_budget executor) call' (verdicts ++ step_heard w executor call).
Proof.
  intros Hb H Hr E. pose proof (steps_left_pos _ _ _ (proj1 Hb) H) as Hpos.
  unfold call_step in E. unfold step_heard. pose proof (advance_progress executor call verdicts Hb H) as Hadv.
  pose proof (advance_config executor call) as Hcfg.
  destruct (cal_phase call) as [| |adapter|adapter|bad|next|result] eqn:Ep;
    try (destruct (advance executor call) as [executor1 call1] eqn:Ea; injection E as <- <- <-;
      cbn in Hadv, Hcfg; split; [unfold retry_budget; by rewrite Hcfg|];
      split; [|by rewrite app_nil_r];
      unfold advance in Ea; rewrite Ep in Ea; unfold steps_left in Hpos |- *; rewrite Ep in Hpos |- *).
  - injection Ea as <- <-. destruct (exc_initialized executor); cbn; [|lia].
    destruct H as [_ H]. rewrite Ep in H. destruct H as [_ ->]. lia.
  - injection Ea as <- <-. unfold resolve_attempt. cbn zeta. repeat case_match; cbn in *; simplify_eq; lia.
  - unfold try_acquire_active_call_slot in Ea. destruct (_ <? _); injection Ea as <- <-; cbn; lia.
  - destruct (ask (cal_kind call) w adapter (attempt_request executor call)) as [w1 answer] eqn:Eask.
    destruct (kind_verdict (cal_kind call) w adapter (attempt_request executor call)
                (call_timeout_ms executor call) (cal_route_key call)) as [v Hv].
    rewrite Eask in *. cbn in Hv |- *. rewrite Hv.
    pose proof (answered_progress _ _ _ _ _ _ Hb Ep Hv H) as Hans.
    destruct (answered executor call answer) as [executor1 call1] eqn:Ea.
    injection E as <- <- <-. cbn in Hans.
    unfold answered in Ea. rewrite Ep, Hv in Ea. injection Ea as <- <-.
    split; [done|]. split; [|done]. unfold steps_left in Hpos |- *. rewrite Ep in Hpos |- *.
    destruct v; cbn in *; lia.
  - injection Ea as <- <-. destruct (decide_attempt executor call bad); cbn; lia.
  - injection Ea as <- <-. destruct next as [result|]; cbn; [lia|].
    destruct H as [_ H]. rewrite Ep in H. rewrite u32_id by (unfold in_u32; lia). lia.
  - by destruct (Hr result).
Qed.

Lemma drive_returns fuel : forall w executor call verdicts,
  0 <= retry_budget executor < 2 ^ 32 - 1 -> progress (retry_budget executor) call verdicts ->
  steps_left (retry_budget executor) call <= Z.of_nat fuel ->
  exists w' executor' call' result,
    let all := verdicts ++ drive_heard fuel w executor call in
    drive fuel w executor call = Some (w', executor', result) /\
    retry_budget executor' = retry_budget executor /\
    ends (retry_budget executor) call' all result /\
    cal_kind call' = cal_kind call /\ cal_route_key call' = cal_route_key call /\
    Z.of_nat (length all) <= retry_budget executor + 1.
Proof.
  induction fuel as [|fuel IH]; intros w executor call verdicts Hb H Hf.
  - pose proof (steps_left_pos _ _ _ (proj1 Hb) H) as Hpos.
    destruct (cal_phase call) as [| | | | | |result] eqn:Ep; try lia. cbn. rewrite Ep.
    destruct H as [_ H]. rewrite Ep in H. destruct H as [H Hl].
    exists w, executor, call, result. cbn. by rewrite ?Ep, ?app_nil_r.
  - assert ((exists result, cal_phase call = Returned result) \/
            ~ (exists result, cal_phase call = Returned result)) as [[result Ep]|Hr]
      by (destruct (cal_phase call); first [right; by intros [? ?]|left; by eexists]).
    { cbn. rewrite Ep. destruct H as [_ H]. rewrite Ep in H. destruct H as [H Hl].
      exists w, executor, call, result. cbn. by rewrite ?Ep, ?app_nil_r. }
    assert (drive (S fuel) w executor call =
      let '(w, executor) := interfere w executor in
      let '(w, executor, call) := call_step w executor call in drive fuel w executor call) as ->
      by (cbn; destruct (cal_phase call); try done; by destruct Hr; eexists).
    assert (drive_heard (S fuel) w executor call =
      let '(w, executor) := interfere w executor in
      let heard := step_heard w executor call in
      let '(w, executor, call) := call_step w executor call in
      heard ++ drive_heard fuel w executor call) as ->
      by (cbn; destruct (cal_phase call); try done; by destruct Hr; eexists).
    unfold interfere. destruct (others w executor) as [[w0 registry] count].
    set (executor0 := with_active (with_registry executor registry) count).
    assert (retry_budget executor0 = retry_budget executor) as E0 by done. rewrite <-E0 in *.
    destruct (call_step w0 executor0 call) as [[w1 executor1] call1] eqn:Es.
    destruct (call_step_same _ _ _ _ _ _ Es) as [Hk Hkey].
    destruct (call_step_nearer _ _ _ _ _ _ _ Hb H (fun r Er => Hr (ex_intro _ r Er)) Es)
      as (E1 & Hlt & H1).
    rewrite <-E1 in *.
    destruct (IH w1 executor1 call1 _ Hb H1) as (w' & executor' & call' & result & Hd & He & Hends & Hk' & Hkey' & Hl);
      [lia|].
    rewrite <-app_assoc in *. exists w', executor', call', result. by rewrite Hk', Hkey'.
Qed.

(** A call returns, whatever its adapter answers and the others do, and ends as its answers
    make it, after no more of them than its budget allows. *)
Theorem execute_returns kind w executor route_key request :
  0 <= retry_budget executor < 2 ^ 32 - 1 ->
  let call := begin_call kind route_key request in
  let verdicts := drive_heard (execution_fuel executor) w executor call in
  exists w' executor' result,
    execute kind w executor route_key request = Some (w', executor', result) /\
    ends (retry_budget executor) call verdicts result /\
    Z.of_nat (length verdicts) <= retry_budget executor + 1.
Proof.
  intros Hb call verdicts.
  destruct (drive_returns (execution_fuel executor) w executor (begin_call kind route_key request) [])
    as (w' & executor' & call' & result & Hd & _ & He & Hk & Hkey & Hl).
  - done.
  - by split.
  - unfold execution_fuel. cbn. lia.
  - exists w', executor', result. split; [done|]. split; [|done].
    by apply (ends_same _ call').
Qed.

Lemma call_step_request w executor call :
  let '(_, executor', call') := call_step w executor call in
  cal_request call' = cal_request call /\ exc_config executor' = exc_config executor.
Proof.
  unfold call_step, advance, answered, resolve_attempt, try_acquire_active_call_slot. cbn zeta.
  repeat case_match; simplify_eq/=; by repeat case_match.
Qed.

(** A good answer is one that an adapter gave. *)
Definition given (adapter_result : AdapterCallResult) : Prop :=
  (exists w adapter sent, (ask_unary w adapter sent).2.1 = adapter_result) \/
  (exists w adapter sent, sed_final_result (ask_stream w adapter sent).2.1 = Some adapter_result).

Lemma step_heard_given w executor call adapter_result message :
  Good adapter_result message ∈ step_heard w executor call -> given adapter_result.
Proof.
  unfold step_heard. destruct (cal_phase call) as [| | |adapter| | |]; try (by intros ?%not_elem_of_nil).
  unfold ask. destruct (cal_kind call); cbn.
  - destruct (ask_unary w adapter (attempt_request executor call)) as [w' [answer elapsed_ms]] eqn:E.
    cbn. intros H%list_elem_of_singleton. unfold unary_verdict in H.
    repeat case_match; simplify_eq/=. left. exists w, adapter, (attempt_request executor call).
    by rewrite E.
  - destruct (ask_stream w adapter (attempt_request executor call)) as [w' [stream_end elapsed_ms]] eqn:E.
    cbn. intros H%list_elem_of_singleton. unfold stream_verdict in H.
    repeat case_match; simplify_eq/=. right. exists w, adapter, (attempt_request executor call).
    by rewrite E.
Qed.

Lemma drive_heard_given fuel : forall w executor call adapter_result message,
  Good adapter_result message ∈ drive_heard fuel w executor call -> given adapter_result.
Proof.
  induction fuel as [|fuel IH]; intros w executor call adapter_result message; cbn.
  { destruct (cal_phase call); by intros ?%not_elem_of_nil. }
  destruct (interfere w executor) as [w1 executor1].
  destruct (call_step w1 executor1 call) as [[w2 executor2] call2].
  destruct (cal_phase call); try (by intros ?%not_elem_of_nil);
    (intros [H|H]%elem_of_app; [by eapply step_heard_given|by eapply IH]).
Qed.

End one_call.
End executor.

(** ** What an adapter is asked with *)

(** A call asks an adapter with its own request for its own route, and with nothing else:
    two worlds whose adapters answer that alike make the same of it. *)
Section agreement.
Context {Adapter : Type} {sorting : StdSort} {World : Type}.
Variable moved_from : string -> string.
Variable others : World -> @Executor Adapter -> World * @AdapterRegistry Adapter * Z.
Variables ask_unary ask_unary' : World -> Adapter -> LLMRequest -> World * (AdapterCallResult * Z).
Variables ask_stream ask_stream' : World -> Adapter -> LLMRequest -> World * (StreamEnd * Z).

Definition agree_on (sent : LLMRequest) : Prop :=
  forall w adapter, ask_unary w adapter sent = ask_unary' w adapter sent /\
    ask_stream w adapter sent = ask_stream' w adapter sent.

Lemma drive_agrees fuel : forall w executor call,
  (forall timeout_ms, agree_on (make_attempt_request (cal_request call) (cal_route_key call) timeout_ms
     (match cal_kind call with
      | CallKind.Unary => LLMRequestMode.Unary
      | CallKind.Stream => LLMRequestMode.Streaming
      end))) ->
  drive moved_from others ask_unary ask_stream fuel w executor call =
  drive moved_from others ask_unary' ask_stream' fuel w executor call.
Proof.
  induction fuel as [|fuel IH]; intros w executor call H; [done|]. cbn.
  destruct (interfere others w executor) as [w1 executor1].
  assert (call_step moved_from ask_unary ask_stream w1 executor1 call =
          call_step moved_from ask_unary' ask_stream' w1 executor1 call) as E.
  { unfold call_step. destruct (cal_phase call) as [| | |adapter| | |]; try done.
    specialize (H (call_timeout_ms executor1 call) w1 adapter). fold (attempt_request executor1 call) in H.
    unfold ask. destruct (cal_kind call); by rewrite ?(proj1 H), ?(proj2 H). }
  rewrite <-E. pose proof (call_step_request moved_from ask_unary ask_stream w1 executor1 call) as Hreq.
  destruct (call_step moved_from ask_unary ask_stream w1 executor1 call) as [[w2 executor2] call2] eqn:Es.
  destruct (call_step_same _ _ _ _ _ _ _ _ _ Es) as [Hk Hkey]. destruct Hreq as [Hreq _].
  rewrite IH by by rewrite Hreq, Hk, Hkey. done.
Qed.

Lemma execute_agrees kind w executor route_key request :
  (forall timeout_ms, agree_on (make_attempt_request request route_key timeout_ms
     (match kind with
      | CallKind.Unary => LLMRequestMode.Unary
      | CallKind.Stream => LLMRequestMode.Streaming
      end))) ->
  execute moved_from others ask_unary ask_stream kind w executor route_key request =
  execute moved_from others ask_unary' ask_stream' kind w executor route_key request.
Proof. intros H. unfold execute. by apply drive_agrees. Qed.

End agreement.

(** ** Examples *)

Definition sample_executor : Executor (Adapter := string) :=
  (executor_init (sorting := merging_sort)
     {| exc_config := sample_llm_config; exc_initialized := false; exc_active_call_count := 0;
        exc_registry := sample_run [] |} sample_llm_config).1.

Definition sample_llm_request : LLMRequest :=
  {| lrq_request_id := Some "request-1"; lrq_llm_call_id := Some "call-1";
     lrq_model_route := Some "cloud.reasoning"; lrq_request_mode := Some LLMRequestMode.Unary;
     lrq_messages := Some ["hello"]; lrq_created_at := Some 1; lrq_prompt_id := None;
     lrq_prompt_version := None; lrq_output_schema_ref := None; lrq_response_format := None;
     lrq_runtime_budget := None; lrq_max_output_tokens := None; lrq_timeout_ms := None;
     lrq_tags := None |}.

Definition sample_llm_response : LLMResponse :=
  {| lrs_request_id := Some "request-1"; lrs_llm_call_id := Some "call-1";
     lrs_response_kind := Some LLMResponseKind.DirectResponse; lrs_content_payload := Some "hi";
     lrs_completed_at := Some 2; lrs_model_name := None; lrs_prompt_id := None;
     lrs_prompt_version := None; lrs_eval_status := None; lrs_release_scope := None;
     lrs_finish_reason := Some "stop"; lrs_input_tokens := None; lrs_output_tokens := None;
     lrs_total_tokens := None; lrs_refusal_reason := None; lrs_tags := None |}.

Definition sample_answer : AdapterCallResult :=
  {| acr_response := Some sample_llm_response; acr_error := None; acr_result_code := None;
     acr_usage := None; acr_provider_diagnostics := no_diagnostics |}.

(** Up to the question to the adapter. *)
Definition asks (id : nat) : list (ExecutorInput (Adapter := string)) :=
  [Advance id; Advance id; Advance id].

(** A call whose first answer comes too late and whose second is good. *)
Definition late_then_good : list (ExecutorInput (Adapter := string)) :=
  Begin 1 CallKind.Unary sample_key sample_llm_request :: asks 1
  ++ [Answered 1 (UnaryAnswer sample_answer 40000); Advance 1; Advance 1; Advance 1; Advance 1;
      Answered 1 (UnaryAnswer sample_answer 10); Advance 1].

Lemma call_outcome_exact_witness :
  let run := executor_run (sorting := merging_sort) (fun text => text) (new_run sample_executor)
               late_then_good in
  exists call,
    xrn_calls run !! 1%nat = Some call /\
    cal_phase call = Returned (make_success_result sample_key 2 sample_answer) /\
    ends (fun text => text) 1 call
      (heard (sorting := merging_sort) (fun text => text) (new_run sample_executor) 1 late_then_good)
      (make_success_result sample_key 2 sample_answer).
Proof.
  intros run. destruct (xrn_calls run !! 1%nat) as [call|] eqn:E; [|vm_compute in E; discriminate E].
  exists call. assert (cal_phase call = Returned (make_success_result sample_key 2 sample_answer)) as Hp
    by (vm_compute in E; injection E as <-; reflexivity).
  split; [reflexivity|]. split; [exact Hp|].
  refine (proj1 (proj2 (call_outcome_exact (sorting := merging_sort) (fun text => text)
    {| exc_config := sample_llm_config; exc_initialized := false; exc_active_call_count := 0;
       exc_registry := sample_run [] |} sample_llm_config late_then_good 1%nat call _ _ _) E Hp)).
  - vm_compute. reflexivity.
  - split; [discriminate|reflexivity].
Defined.

(** Three calls at once, where two are allowed. *)
Definition three_calls : list (ExecutorInput (Adapter := string)) :=
  [Begin 1 CallKind.Unary sample_key sample_llm_request;
   Begin 2 CallKind.Stream sample_key sample_llm_request;
   Begin 3 CallKind.Unary sample_key sample_llm_request] ++ asks 1 ++ asks 2 ++ asks 3.

Lemma permits_bounded_witness :
  let run := executor_run (sorting := merging_sort) (fun text => text) (new_run sample_executor)
               three_calls in
  exc_active_call_count (xrn_executor run) = 2 /\
  (cal_phase <$> xrn_calls run !! 3%nat) =
    Some (Returned (make_failure_result (fun text => text) sample_key 0 None
                      ResultCode.RuntimeRetryExhausted "active llm calls limit reached" false
                      LLMCallExecutionFailureReason.ConcurrencyRejected kExecutionStage)) /\
  exc_active_call_count (xrn_executor run) = Z.of_nat (size (holders (xrn_calls run))).
Proof.
  intros run. split; [vm_compute; reflexivity|]. split; [vm_compute; reflexivity|].
  refine (proj1 (permits_bounded (sorting := merging_sort) (fun text => text)
    {| exc_config := sample_llm_config; exc_initialized := false; exc_active_call_count := 0;
       exc_registry := sample_run [] |} sample_llm_config three_calls _ _)).
  - vm_compute. reflexivity.
  - split; [discriminate|reflexivity].
Defined.

(** An executor that is initialized again while a call is under way counts below zero when
    the call ends, and takes no call from then on. *)
Example initialized_while_busy :
  let asked := executor_run (sorting := merging_sort) (fun text => text) (new_run sample_executor)
                 (Begin 1 CallKind.Unary sample_key sample_llm_request :: asks 1) in
  let again := {| xrn_executor := (executor_init (sorting := merging_sort) (xrn_executor asked) sample_llm_config).1;
                  xrn_calls := xrn_calls asked |} in
  let run := executor_run (sorting := merging_sort) (fun text => text) again
    ([Answered 1 (UnaryAnswer sample_answer 10); Advance 1;
      Begin 2 CallKind.Unary sample_key sample_llm_request] ++ asks 2) in
  (exc_active_call_count (xrn_executor run),
   match cal_phase <$> xrn_calls run !! 2%nat with
   | Some (Returned result) => cer_failure_reason result
   | _ => None
   end) = (2 ^ 32 - 1, Some LLMCallExecutionFailureReason.ConcurrencyRejected).
Proof. vm_compute. reflexivity. Qed.

(** The adapter of the examples answers late, then well; nobody else is there. *)
Definition sample_ask (w : list (AdapterCallResult * Z)) (adapter : string) (request : LLMRequest)
    : list (AdapterCallResult * Z) * (AdapterCallResult * Z) :=
  match w with
  | answer :: rest => (rest, answer)
  | [] => ([], (sample_answer, 0))
  end.

Definition no_stream (w : list (AdapterCallResult * Z)) (adapter : string) (request : LLMRequest)
    : list (AdapterCallResult * Z) * (StreamEnd * Z) :=
  (w, ({| sed_final_result := None; sed_final_error := None; sed_final_result_code := None;
          sed_session_id := "" |}, 0)).

Definition nobody (w : list (AdapterCallResult * Z)) (executor : Executor (Adapter := string))
    : list (AdapterCallResult * Z) * AdapterRegistry * Z :=
  (w, exc_registry executor, exc_active_call_count executor).

Lemma execute_returns_witness :
  0 <= retry_budget sample_executor < 2 ^ 32 - 1 /\
  exists w' executor' result,
    execute (sorting := merging_sort) (fun text => text) nobody sample_ask no_stream CallKind.Unary
      [(sample_answer, 40000); (sample_answer, 10)] sample_executor sample_key sample_llm_request =
      Some (w', executor', result).
Proof.
  assert (0 <= retry_budget sample_executor < 2 ^ 32 - 1) as H by (vm_compute; split; congruence).
  split; [exact H|].
  destruct (execute_returns (sorting := merging_sort) (fun text => text) nobody sample_ask no_stream
    CallKind.Unary [(sample_answer, 40000); (sample_answer, 10)] sample_executor sample_key
    sample_llm_request H) as (w' & executor' & result & E & _).
  exists w', executor', result. exact E.
Defined.
