(* ===== verification/LlmStream.v ===== *)
(** * The observer of a streamed call

    llm/src/stream/IStreamObserver.h and the CapturingStreamObserver of llm/src/LLMManager.cpp,
    which stands between an adapter and the caller while an attempt streams, keeps the session
    in the registry, and captures how the stream ends. The adapter calls it in any order it
    likes: an attempt is a list of moves. [stream_end_exact] says what is captured,
    [session_private] what becomes of the sessions. *)

From S2P Require Import Prelude ErrorCodes Text Ordering RecoveryContracts LlmContracts LlmExecutor StreamSessions.

(** ** Feedback *)

Record StreamObserverFeedback := {
  sof_proceed : bool;
  sof_result_code : option ResultCode;
  sof_message : string;
  sof_retryable : bool;
}.

Definition feedback_consistent (feedback : StreamObserverFeedback) : bool :=
  if sof_proceed feedback
  then negb (has_value (sof_result_code feedback)) && is_empty (sof_message feedback)
       && negb (sof_retryable feedback)
  else has_value (sof_result_code feedback) && negb (is_empty (sof_message feedback)).

Definition feedback_success : StreamObserverFeedback :=
  {| sof_proceed := true; sof_result_code := None; sof_message := ""; sof_retryable := false |}.

Definition feedback_reject (code : ResultCode) (message : string) : StreamObserverFeedback :=
  {| sof_proceed := false; sof_result_code := Some code; sof_message := message;
     sof_retryable := false |}.

(** What a callback of the caller does: it returns, or throws an exception, with its text
    where it is a std::exception. *)
Inductive Callback (A : Type) :=
| Done (value : A)
| Threw (what : option string).
Arguments Done {A} value.
Arguments Threw {A} what.

(** ** The observer *)

Record CapturingStreamObserver := {
  cso_session_id : string;
  cso_final_result : option AdapterCallResult;
  cso_final_error : option ErrorInfo;
  cso_final_result_code : option ResultCode;
}.

Definition new_observer : CapturingStreamObserver :=
  {| cso_session_id := ""; cso_final_result := None; cso_final_error := None;
     cso_final_result_code := None |}.

Definition with_session_id (observer : CapturingStreamObserver) (session_id : string)
    : CapturingStreamObserver :=
  {| cso_session_id := session_id; cso_final_result := cso_final_result observer;
     cso_final_error := cso_final_error observer;
     cso_final_result_code := cso_final_result_code observer |}.

Definition captured_failure (observer : CapturingStreamObserver) (error : ErrorInfo)
    (result_code : option ResultCode) : CapturingStreamObserver :=
  {| cso_session_id := cso_session_id observer; cso_final_result := None;
     cso_final_error := Some error; cso_final_result_code := result_code |}.

Definition captured_result (observer : CapturingStreamObserver) (result : AdapterCallResult)
    : CapturingStreamObserver :=
  {| cso_session_id := cso_session_id observer; cso_final_result := Some result;
     cso_final_error := None; cso_final_result_code := None |}.

Definition start_rejected (accepted : StreamSessionMutationResult) : string :=
  if bool_decide (ssm_status accepted = StreamSessionMutationStatus.CapacityExceeded)
  then "stream session limit reached" else "stream session registry rejected the session".

Definition delta_rejected (append_result : StreamSessionMutationResult) : string :=
  if bool_decide (ssm_status append_result = StreamSessionMutationStatus.Overflow)
  then "stream delta buffer overflow" else "stream session registry rejected the delta".

(** The text of an exception, behind what failed. *)
Definition threw_message (callback : string) (what : option string) : string :=
  match what with
  | Some what => "downstream stream observer " +:+ callback +:+ " callback threw: " +:+ what
  | None => "downstream stream observer " +:+ callback +:+ " callback threw an unknown exception"
  end.

Definition inconsistent_feedback (callback : string) : string :=
  "downstream stream observer returned inconsistent " +:+ callback +:+ " feedback".

Section observer.
(** The caller's observer and all the others act on [World]. *)
Context {World : Type}.

(** The observer of the caller. *)
Record StreamDownstream := {
  sdw_started : World -> string -> World * Callback StreamObserverFeedback;
  sdw_delta : World -> string -> World * Callback StreamObserverFeedback;
  sdw_completed : World -> AdapterCallResult -> World * Callback unit;
  sdw_failed : World -> ErrorInfo -> option ResultCode -> World * Callback unit;
}.

Variable clock : World -> Z.
(** The calls of others that come before the next call of the observer. *)
Variable meanwhile : World -> World * list SessionCall.
Variable route_key : string.
Variable downstream : option StreamDownstream.

(** A call of the registry, behind what others do to it. *)
Definition touching {A} (w : World) (sessions : StreamSessionRegistry)
    (call : World -> StreamSessionRegistry -> StreamSessionRegistry * A)
    : World * StreamSessionRegistry * A :=
  let '(w, calls) := meanwhile w in
  let '(sessions, result) := call w (session_run sessions calls) in
  (w, sessions, result).

Definition cancel (w : World) (sessions : StreamSessionRegistry) (session_id : string)
    : World * StreamSessionRegistry :=
  (touching w sessions (fun _ sessions => request_cancel sessions session_id)).1.

Definition forward_session_start (w : World) (sessions : StreamSessionRegistry)
    (session_id : string) : World * StreamSessionRegistry * StreamObserverFeedback :=
  match downstream with
  | None => (w, sessions, feedback_success)
  | Some observer =>
      match sdw_started observer w session_id with
      | (w, Threw what) =>
          (cancel w sessions session_id,
           feedback_reject ResultCode.RuntimeRetryExhausted (threw_message "session-start" what))
      | (w, Done feedback) =>
          if negb (feedback_consistent feedback)
          then (w, sessions,
                feedback_reject ResultCode.RuntimeRetryExhausted
                  (inconsistent_feedback "session-start")) else
          if negb (sof_proceed feedback) then (cancel w sessions session_id, feedback)
          else (w, sessions, feedback)
      end
  end.

Definition on_stream_session_started (w : World) (sessions : StreamSessionRegistry)
    (observer : CapturingStreamObserver) (session_id : string)
    : World * StreamSessionRegistry * CapturingStreamObserver * StreamObserverFeedback :=
  let observer := with_session_id observer session_id in
  if is_empty session_id
  then (w, sessions, observer,
        feedback_reject ResultCode.ValidationFieldMissing
          "stream adapter returned an empty session id") else
  let '(w, sessions, accepted) :=
    touching w sessions (fun w sessions => accept sessions session_id route_key (clock w)) in
  if negb (ssm_ok accepted)
  then (w, sessions, observer,
        feedback_reject ResultCode.RuntimeRetryExhausted (start_rejected accepted)) else
  let '(w, sessions, activated) :=
    touching w sessions (fun _ sessions => mark_active sessions session_id) in
  if negb (ssm_ok activated)
  then (w, sessions, observer,
        feedback_reject ResultCode.RuntimeRetryExhausted
          "stream session registry failed to activate the session") else
  let '(w, sessions, feedback) := forward_session_start w sessions session_id in
  (w, sessions, observer, feedback).

Definition forward_delta (w : World) (sessions : StreamSessionRegistry)
    (session_id delta : string) : World * StreamSessionRegistry * StreamObserverFeedback :=
  match downstream with
  | None => (w, sessions, feedback_success)
  | Some observer =>
      match sdw_delta observer w delta with
      | (w, Threw what) =>
          (cancel w sessions session_id,
           feedback_reject ResultCode.RuntimeRetryExhausted (threw_message "delta" what))
      | (w, Done feedback) =>
          if negb (feedback_consistent feedback)
          then (cancel w sessions session_id,
                feedback_reject ResultCode.RuntimeRetryExhausted (inconsistent_feedback "delta"))
          else if negb (sof_proceed feedback) then (cancel w sessions session_id, feedback)
          else (w, sessions, feedback)
      end
  end.

Definition on_stream_delta (w : World) (sessions : StreamSessionRegistry)
    (observer : CapturingStreamObserver) (delta : string)
    : World * StreamSessionRegistry * CapturingStreamObserver * StreamObserverFeedback :=
  let session_id := cso_session_id observer in
  if is_empty session_id
  then (w, sessions, observer,
        feedback_reject ResultCode.RuntimeRetryExhausted
          "stream delta arrived before session start") else
  let '(w, sessions, append_result) :=
    touching w sessions (fun _ sessions =>
      append_delta sessions session_id (u32 (Z.of_nat (String.length delta)))) in
  if negb (ssm_ok append_result)
  then (w, sessions, observer,
        feedback_reject ResultCode.RuntimeRetryExhausted (delta_rejected append_result)) else
  let '(w, sessions, feedback) := forward_delta w sessions session_id delta in
  (w, sessions, observer, feedback).

(** The session fails, where there is one. *)
Definition fail_session (w : World) (sessions : StreamSessionRegistry) (session_id : string)
    : World * StreamSessionRegistry :=
  if is_empty session_id then (w, sessions)
  else (touching w sessions (fun _ sessions => mark_failed sessions session_id)).1.

(** What the callback throws is caught. *)
Definition tell_failed (w : World) (error : ErrorInfo) (result_code : option ResultCode) : World :=
  match downstream with
  | None => w
  | Some observer => (sdw_failed observer w error result_code).1
  end.

Definition finalize_failure (w : World) (sessions : StreamSessionRegistry)
    (observer : CapturingStreamObserver) (message : string) (forward_downstream : bool)
    : World * StreamSessionRegistry * CapturingStreamObserver :=
  let error :=
    execution_error ResultCode.RuntimeRetryExhausted message false route_key kStreamExecutionStage in
  let observer := captured_failure observer error (Some ResultCode.RuntimeRetryExhausted) in
  let '(w, sessions) := fail_session w sessions (cso_session_id observer) in
  (if forward_downstream
   then tell_failed w error (Some ResultCode.RuntimeRetryExhausted) else w, sessions, observer).

Definition on_stream_completed (w : World) (sessions : StreamSessionRegistry)
    (observer : CapturingStreamObserver) (result : AdapterCallResult)
    : World * StreamSessionRegistry * CapturingStreamObserver :=
  if has_value (cso_final_error observer) then (w, sessions, observer) else
  let session_id := cso_session_id observer in
  if is_empty session_id
  then finalize_failure w sessions observer "stream completed before session start callback" false
  else
  let '(w, sessions, completing) :=
    touching w sessions (fun _ sessions => mark_completing sessions session_id) in
  if negb (ssm_ok completing)
  then finalize_failure w sessions observer
         "stream session registry rejected the completing transition" false else
  let '(w, told) :=
    match downstream with
    | None => (w, Done ())
    | Some observer => sdw_completed observer w result
    end in
  match told with
  | Threw what => finalize_failure w sessions observer (threw_message "completion" what) true
  | Done _ =>
      let '(w, sessions, completed) :=
        touching w sessions (fun _ sessions => mark_completed sessions session_id) in
      if negb (ssm_ok completed)
      then finalize_failure w sessions observer
             "stream session registry rejected the completed transition" false
      else (w, sessions, captured_result observer result)
  end.

Definition on_stream_failed (w : World) (sessions : StreamSessionRegistry)
    (observer : CapturingStreamObserver) (error : ErrorInfo) (result_code : option ResultCode)
    : World * StreamSessionRegistry * CapturingStreamObserver :=
  let observer := captured_failure observer error result_code in
  let '(w, sessions) := fail_session w sessions (cso_session_id observer) in
  (tell_failed w error result_code, sessions, observer).

(** The destructor. *)
Definition destroy_observer (w : World) (sessions : StreamSessionRegistry)
    (observer : CapturingStreamObserver) : World * StreamSessionRegistry :=
  let session_id := cso_session_id observer in
  if is_empty session_id then (w, sessions) else
  let '(w, sessions, snapshot) :=
    touching w sessions (fun _ sessions => (sessions, find sessions session_id)) in
  let '(w, sessions) :=
    match snapshot with
    | Some session =>
        if is_terminal_locked (sss_state session) then (w, sessions)
        else (touching w sessions (fun _ sessions => mark_expired sessions session_id)).1
    | None => (w, sessions)
    end in
  (touching w sessions (fun _ sessions => cleanup sessions session_id)).1.

(** ** An attempt *)

Inductive AdapterMove :=
| Started (session_id : string)
| Delta (delta : string)
| Completed (result : AdapterCallResult)
| FailedStream (error : ErrorInfo) (result_code : option ResultCode).

Definition adapter_move (state : World * StreamSessionRegistry * CapturingStreamObserver)
    (move : AdapterMove) : World * StreamSessionRegistry * CapturingStreamObserver :=
  let '(w, sessions, observer) := state in
  match move with
  | Started session_id => (on_stream_session_started w sessions observer session_id).1
  | Delta delta => (on_stream_delta w sessions observer delta).1
  | Completed result => on_stream_completed w sessions observer result
  | FailedStream error result_code => on_stream_failed w sessions observer error result_code
  end.

(** The adapter makes its moves and names the session; the observer is destroyed. *)
Definition stream_attempt (w : World) (sessions : StreamSessionRegistry)
    (moves : list AdapterMove) (named : string) : World * StreamSessionRegistry * StreamEnd :=
  let '(w, sessions, observer) := foldl adapter_move (w, sessions, new_observer) moves in
  let '(w, sessions) := destroy_observer w sessions observer in
  (w, sessions,
   {| sed_final_result := cso_final_result observer; sed_final_error := cso_final_error observer;
      sed_final_result_code := cso_final_result_code observer; sed_session_id := named |}).

(** ** What is captured *)

Definition is_failed (move : AdapterMove) : bool :=
  match move with FailedStream _ _ => true | _ => false end.

Definition ends_stream (move : AdapterMove) : bool :=
  match move with Completed _ | FailedStream _ _ => true | _ => false end.

(** What the observer holds after these moves. *)
Record captures (moves : list AdapterMove) (observer : CapturingStreamObserver) : Prop := {
  cap_session : cso_session_id observer <> "" -> Started (cso_session_id observer) ∈ moves;
  cap_result result : cso_final_result observer = Some result ->
    cso_final_error observer = None /\ cso_final_result_code observer = None /\
    exists pre post, moves = pre ++ Completed result :: post /\
      Forall (fun move => is_failed move = false) pre /\
      Forall (fun move => ends_stream move = false) post /\
      exists session_id, session_id <> "" /\ Started session_id ∈ pre;
  cap_error : cso_final_error observer <> None ->
    cso_final_result observer = None /\ Exists (fun move => ends_stream move = true) moves;
  cap_open : cso_final_result observer = None -> cso_final_error observer = None ->
    cso_final_result_code observer = None /\ Forall (fun move => ends_stream move = false) moves;
  cap_unfailed : cso_final_error observer = None ->
    Forall (fun move => is_failed move = false) moves;
}.

(** The fields of an observer are rewritten in one of three ways. *)
Lemma completed_observer w sessions observer result :
  let observer' := (on_stream_completed w sessions observer result).2 in
  cso_final_error observer <> None /\ observer' = observer \/
  cso_final_error observer = None /\
    ((exists error result_code, observer' = captured_failure observer error result_code) \/
     cso_session_id observer <> "" /\ observer' = captured_result observer result).
Proof.
  unfold on_stream_completed, finalize_failure, has_value. cbn zeta.
  destruct (cso_final_error observer) as [error|] eqn:Ee; [by left|]. right. split; [done|].
  rewrite bool_decide_false by by intros [].
  destruct (is_empty (cso_session_id observer)) eqn:Es; reflect_tests.
  { left. destruct (fail_session _ _ _). cbn. eauto. }
  destruct (touching w sessions _) as [[w1 sessions1] completing].
  destruct (negb (ssm_ok completing)). { left. destruct (fail_session _ _ _). cbn. eauto. }
  destruct (match downstream with Some _ => _ | None => _ end) as [w2 [[]|what]].
  - destruct (touching w2 sessions1 _) as [[w3 sessions2] completed].
    destruct (negb (ssm_ok completed)). { left. destruct (fail_session _ _ _). cbn. eauto. }
    by right.
  - left. destruct (fail_session _ _ _). cbn. eauto.
Qed.

Lemma failed_observer w sessions observer error result_code :
  (on_stream_failed w sessions observer error result_code).2 =
    captured_failure observer error result_code.
Proof. unfold on_stream_failed. by destruct (fail_session _ _ _). Qed.

Lemma started_observer w sessions observer session_id :
  (on_stream_session_started w sessions observer session_id).1.2 = with_session_id observer session_id.
Proof.
  unfold on_stream_session_started. cbn zeta. destruct (is_empty session_id); [done|].
  destruct (touching w sessions _) as [[w1 sessions1] accepted].
  destruct (negb (ssm_ok accepted)); [done|].
  destruct (touching w1 sessions1 _) as [[w2 sessions2] activated].
  destruct (negb (ssm_ok activated)); [done|].
  by destruct (forward_session_start _ _ _) as [[w3 sessions3] feedback].
Qed.

Lemma delta_observer w sessions observer delta :
  (on_stream_delta w sessions observer delta).1.2 = observer.
Proof.
  unfold on_stream_delta. cbn zeta. destruct (is_empty (cso_session_id observer)); [done|].
  destruct (touching w sessions _) as [[w1 sessions1] append_result].
  destruct (negb (ssm_ok append_result)); [done|].
  by destruct (forward_delta _ _ _ _) as [[w3 sessions3] feedback].
Qed.

Lemma move_captures moves w sessions observer move :
  captures moves observer ->
  captures (moves ++ [move]) (adapter_move (w, sessions, observer) move).2.
Proof.
  intros [Hs Hr He Ho Hu].
  assert (forall observer' : CapturingStreamObserver, ends_stream move = false ->
    cso_final_result observer' = cso_final_result observer ->
    cso_final_error observer' = cso_final_error observer ->
    cso_final_result_code observer' = cso_final_result_code observer ->
    (cso_session_id observer' <> "" -> Started (cso_session_id observer') ∈ moves ++ [move]) ->
    captures (moves ++ [move]) observer') as Hquiet.
  { intros observer' Hm E1 E2 E3 Hs'. assert (is_failed move = false) as Hf by by destruct move.
    split; [done|rewrite ?E1, ?E2, ?E3..].
    - intros result Hres. destruct (Hr result Hres) as (? & ? & pre & post & -> & ? & ? & ?).
      split; [done|]. split; [done|]. exists pre, (post ++ [move]). rewrite <-app_assoc.
      split; [done|]. split; [done|]. split; [by apply Forall_app_last|done].
    - intros Herr. destruct (He Herr) as [? Hex]. split; [done|]. apply Exists_app. by left.
    - intros H1 H2. destruct (Ho H1 H2). split; [done|]. by apply Forall_app_last.
    - intros H1. apply Forall_app_last; [by apply Hu|done]. }
  assert (forall error result_code, ends_stream move = true ->
    captures (moves ++ [move]) (captured_failure observer error result_code)) as Hfail.
  { intros error result_code Hm. split; cbn; try done.
    - intros Hid. apply elem_of_app. left. by apply Hs.
    - intros _. split; [done|]. apply Exists_app. right. by apply Exists_cons_hd. }
  destruct move as [session_id|delta|result|error result_code]; cbn [adapter_move].
  - rewrite started_observer. apply Hquiet; try done. cbn. intros _. set_solver.
  - rewrite delta_observer. apply Hquiet; try done. intros H. apply elem_of_app. left. by apply Hs.
  - destruct (completed_observer w sessions observer result)
      as [[Hne ->]|[Hn [(error & code & ->)|[Hid ->]]]]; [|by apply Hfail|].
    + split.
      * intros H. apply elem_of_app. left. by apply Hs.
      * intros r Hres. by destruct (Hr r Hres) as [? _].
      * intros _. destruct (He Hne). split; [done|]. apply Exists_app. by left.
      * done.
      * done.
    + split; cbn; try done.
      * intros H. apply elem_of_app. left. by apply Hs.
      * intros r [= <-]. split; [done|]. split; [done|]. exists moves, [].
        split; [done|]. split; [by apply Hu|]. split; [constructor|]. eauto.
      * intros _. apply Forall_app_last; [by apply Hu|done].
  - rewrite failed_observer. by apply Hfail.
Qed.

Lemma moves_capture moves : forall before w sessions observer,
  captures before observer ->
  captures (before ++ moves) (foldl adapter_move (w, sessions, observer) moves).2.
Proof.
  induction moves as [|move moves IH]; intros before w sessions observer H; [by rewrite app_nil_r|].
  pose proof (move_captures before w sessions observer move H) as Hm. cbn [foldl].
  destruct (adapter_move (w, sessions, observer) move) as [[w' sessions'] observer'].
  rewrite cons_middle, app_assoc. by apply IH.
Qed.

Lemma new_observer_captures : captures [] new_observer.
Proof. split; cbn; try done. Qed.

(** An attempt reports a result only where the stream was started and completed with it,
    failed neither before nor after, and was not completed again; an error only where the
    stream ended; and neither of them exactly where it did not end. *)
Theorem stream_end_exact w sessions moves named w' sessions' stream_end :
  stream_attempt w sessions moves named = (w', sessions', stream_end) ->
  match sed_final_result stream_end, sed_final_error stream_end with
  | Some result, None =>
      exists pre post, moves = pre ++ Completed result :: post /\
        Forall (fun move => is_failed move = false) pre /\
        Forall (fun move => ends_stream move = false) post /\
        exists session_id, session_id <> "" /\ Started session_id ∈ pre
  | None, Some _ => Exists (fun move => ends_stream move = true) moves
  | None, None => Forall (fun move => ends_stream move = false) moves
  | Some _, Some _ => False
  end.
Proof.
  unfold stream_attempt.
  pose proof (moves_capture moves [] w sessions new_observer new_observer_captures) as [_ Hr He Ho _].
  destruct (foldl adapter_move (w, sessions, new_observer) moves) as [[w1 sessions1] observer].
  destruct (destroy_observer w1 sessions1 observer) as [w2 sessions2]. intros [= <- <- <-]. cbn in *.
  destruct (cso_final_result observer) as [result|].
  - by destruct (Hr result eq_refl) as (-> & _ & H).
  - destruct (cso_final_error observer) as [error|]; [by apply He|by apply Ho].
Qed.

(** ** The sessions *)

(** The call is about the session. *)
Definition touches (call : SessionCall) (id : string) : bool :=
  match call with
  | Accept session_id _ _ | MarkActive session_id | AppendDelta session_id _
  | RequestCancel session_id | MarkCompleting session_id | MarkCompleted session_id
  | MarkFailed session_id | MarkExpired session_id | Cleanup session_id =>
      bool_decide (session_id = id)
  | ReapExpired _ => true
  end.

(** The others leave the session alone. *)
Definition others_quiet (id : string) : Prop :=
  forall w, Forall (fun call => touches call id = false) (meanwhile w).2.

(** The others may cancel the session, and nothing else. *)
Definition others_cancel (id : string) : Prop :=
  forall w, Forall (fun call => touches call id = true -> call = RequestCancel id) (meanwhile w).2.

Notation lookup_session sessions id := (srg_sessions sessions !! id).

Lemma mutate_other sessions session_id change id :
  session_id <> id ->
  lookup_session (mutate sessions session_id change).1 id = lookup_session sessions id.
Proof.
  intros Hne. unfold mutate. destruct (lookup_session sessions session_id) as [record|]; [|done].
  destruct (change record). cbn. by rewrite lookup_insert_ne.
Qed.

Lemma accept_other sessions session_id key now_ms id :
  session_id <> id ->
  lookup_session (accept sessions session_id key now_ms).1 id = lookup_session sessions id.
Proof. intros Hne. unfold accept. repeat case_match; try done. cbn. by rewrite lookup_insert_ne. Qed.

Lemma cleanup_other sessions session_id id :
  session_id <> id -> lookup_session (cleanup sessions session_id).1 id = lookup_session sessions id.
Proof. intros Hne. unfold cleanup. repeat case_match; try done. cbn. by rewrite lookup_delete_ne. Qed.

Lemma step_untouched sessions call id :
  touches call id = false ->
  lookup_session (session_step sessions call) id = lookup_session sessions id.
Proof.
  destruct call; cbn; intros H; try done; reflect_tests;
    first [by apply mutate_other|by apply accept_other|by apply cleanup_other].
Qed.

(** A property of one session that no call of the others can break holds behind them. *)
Lemma run_preserves (P : option StreamSessionRecord -> Prop) id (ok : SessionCall -> Prop) calls :
  (forall sessions call, ok call -> P (lookup_session sessions id) ->
    P (lookup_session (session_step sessions call) id)) ->
  Forall ok calls ->
  forall sessions, P (lookup_session sessions id) -> P (lookup_session (session_run sessions calls) id).
Proof.
  intros Hstep. induction 1 as [|call calls Hok _ IH]; intros sessions H; [done|].
  apply IH. by apply Hstep.
Qed.

Lemma touching_preserves {A} (P : option StreamSessionRecord -> Prop) id (ok : SessionCall -> Prop)
    w sessions (call : World -> StreamSessionRegistry -> StreamSessionRegistry * A) :
  (forall sessions call, ok call -> P (lookup_session sessions id) ->
    P (lookup_session (session_step sessions call) id)) ->
  (forall w, Forall ok (meanwhile w).2) ->
  (forall w sessions, P (lookup_session sessions id) -> P (lookup_session (call w sessions).1 id)) ->
  P (lookup_session sessions id) -> P (lookup_session (touching w sessions call).1.2 id).
Proof.
  intros Hstep Hok Hcall H. unfold touching. specialize (Hok w). destruct (meanwhile w) as [w' calls].
  cbn in Hok. pose proof (run_preserves P id ok calls Hstep Hok sessions H) as Hrun.
  specialize (Hcall w' _ Hrun). by destruct (call w' _).
Qed.

(** *** Other sessions *)

Section others.
Variables (id : string) (kept : option StreamSessionRecord).
Hypothesis quiet : others_quiet id.

Lemma touching_other {A} w sessions
    (call : World -> StreamSessionRegistry -> StreamSessionRegistry * A) :
  (forall w sessions, lookup_session (call w sessions).1 id = lookup_session sessions id) ->
  lookup_session sessions id = kept -> lookup_session (touching w sessions call).1.2 id = kept.
Proof.
  intros Hcall H.
  apply (touching_preserves (fun record => record = kept) id (fun call => touches call id = false)).
  - intros s c Hc <-. by apply step_untouched.
  - exact quiet.
  - intros w' s <-. apply Hcall.
  - done.
Qed.

Lemma cancel_other w sessions session_id :
  session_id <> id -> lookup_session sessions id = kept ->
  lookup_session (cancel w sessions session_id).2 id = kept.
Proof.
  intros Hne H. unfold cancel. apply touching_other; [|done].
  intros w' s. by apply mutate_other.
Qed.

Lemma fail_other w sessions session_id :
  session_id <> id -> lookup_session sessions id = kept ->
  lookup_session (fail_session w sessions session_id).2 id = kept.
Proof.
  intros Hne H. unfold fail_session. destruct (is_empty session_id); [done|].
  apply touching_other; [|done]. intros w' s. by apply mutate_other.
Qed.

(** The call of the registry that the goal begins with keeps the session. *)
Ltac touch_other :=
  match goal with
  | H : lookup_session ?sessions id = kept |- context [touching ?w ?sessions ?call] =>
      let E := fresh "E" in
      assert (lookup_session (touching w sessions call).1.2 id = kept) as E
        by (apply touching_other; [intros; cbn|done];
            first [by apply mutate_other|by apply accept_other|by apply cleanup_other|done]);
      let w' := fresh "w" in let s' := fresh "sessions" in let r := fresh "answer" in
      destruct (touching w sessions call) as [[w' s'] r]; cbn [fst snd] in E
  end.

Lemma start_other w sessions observer session_id :
  session_id <> id -> lookup_session sessions id = kept ->
  lookup_session (on_stream_session_started w sessions observer session_id).1.1.2 id = kept.
Proof.
  intros Hne H. unfold on_stream_session_started. destruct (is_empty session_id); [done|].
  touch_other. destruct (negb (ssm_ok answer)); [done|].
  touch_other. destruct (negb (ssm_ok answer0)); [done|].
  unfold forward_session_start. destruct downstream as [other|]; [|done].
  destruct (sdw_started other _ session_id) as [w2 [feedback|what]].
  - destruct (negb (feedback_consistent feedback)); [done|].
    destruct (negb (sof_proceed feedback)); [|done].
    pose proof (cancel_other w2 _ _ Hne E0) as Hc. by destruct (cancel w2 _ session_id).
  - pose proof (cancel_other w2 _ _ Hne E0) as Hc. by destruct (cancel w2 _ session_id).
Qed.

Lemma delta_other w sessions observer delta :
  cso_session_id observer <> id -> lookup_session sessions id = kept ->
  lookup_session (on_stream_delta w sessions observer delta).1.1.2 id = kept.
Proof.
  intros Hne H. unfold on_stream_delta. cbn zeta. destruct (is_empty (cso_session_id observer)); [done|].
  touch_other. destruct (negb (ssm_ok answer)); [done|].
  unfold forward_delta. destruct downstream as [other|]; [|done].
  destruct (sdw_delta other _ delta) as [w2 [feedback|what]].
  - pose proof (cancel_other w2 _ _ Hne E) as Hc.
    destruct (negb (feedback_consistent feedback)); [by destruct (cancel w2 _ _)|].
    destruct (negb (sof_proceed feedback)); [by destruct (cancel w2 _ _)|done].
  - pose proof (cancel_other w2 _ _ Hne E) as Hc. by destruct (cancel w2 _ _).
Qed.

Lemma finalize_other w sessions observer message forward_downstream :
  cso_session_id observer <> id -> lookup_session sessions id = kept ->
  lookup_session (finalize_failure w sessions observer message forward_downstream).1.2 id = kept.
Proof.
  intros Hne H. unfold finalize_failure. cbn zeta. cbn [cso_session_id captured_failure].
  pose proof (fail_other w sessions _ Hne H) as Hf. by destruct (fail_session w sessions _).
Qed.

Lemma completed_other w sessions observer result :
  cso_session_id observer <> id -> lookup_session sessions id = kept ->
  lookup_session (on_stream_completed w sessions observer result).1.2 id = kept.
Proof.
  intros Hne H. unfold on_stream_completed. cbn zeta.
  destruct (has_value (cso_final_error observer)); [done|].
  destruct (is_empty (cso_session_id observer)); [by apply finalize_other|].
  touch_other. destruct (negb (ssm_ok answer)); [by apply finalize_other|].
  destruct (match downstream with Some _ => _ | None => _ end) as [w2 [[]|what]];
    [|by apply finalize_other].
  touch_other. destruct (negb (ssm_ok answer0)); [by apply finalize_other|done].
Qed.

Lemma failed_other w sessions observer error result_code :
  cso_session_id observer <> id -> lookup_session sessions id = kept ->
  lookup_session (on_stream_failed w sessions observer error result_code).1.2 id = kept.
Proof.
  intros Hne H. unfold on_stream_failed. cbn [cso_session_id captured_failure].
  pose proof (fail_other w sessions _ Hne H) as Hf. by destruct (fail_session w sessions _).
Qed.

Lemma destroy_other w sessions observer :
  cso_session_id observer <> id -> lookup_session sessions id = kept ->
  lookup_session (destroy_observer w sessions observer).2 id = kept.
Proof.
  intros Hne H. unfold destroy_observer. cbn zeta. destruct (is_empty (cso_session_id observer)); [done|].
  touch_other. destruct answer as [session|].
  - destruct (is_terminal_locked (sss_state session)).
    + touch_other. done.
    + touch_other. cbn. touch_other. done.
  - touch_other. done.
Qed.

End others.

(** *** The own session *)

Section own.
Variable id : string.
Hypothesis named : id <> "".
Hypothesis cancelled_only : others_cancel id.

(** Where a session that only cancellations can reach is or was: none, or at its end. *)
Lemma cancel_keeps (P : option StreamSessionRecord -> Prop) sessions call :
  (touches call id = true -> call = RequestCancel id) ->
  (forall record, is_terminal_locked (ssr_state record) = false -> P (Some record) ->
    P (Some (with_session_state StreamSessionState.CancelRequested record))) ->
  P (lookup_session sessions id) -> P (lookup_session (session_step sessions call) id).
Proof.
  intros Hc Hcancel H. destruct (touches call id) eqn:Et; [|by rewrite step_untouched].
  rewrite (Hc eq_refl). cbn. unfold request_cancel, mutate, cancel_session.
  destruct (lookup_session sessions id) as [record|] eqn:E; [|cbn; by rewrite E].
  destruct (is_terminal_locked (ssr_state record)) eqn:Er; cbn; rewrite lookup_insert_eq; [done|].
  by apply Hcancel.
Qed.

Lemma touching_own {A} (P : option StreamSessionRecord -> Prop) w sessions
    (call : World -> StreamSessionRegistry -> StreamSessionRegistry * A) :
  (forall record, is_terminal_locked (ssr_state record) = false -> P (Some record) ->
    P (Some (with_session_state StreamSessionState.CancelRequested record))) ->
  P (lookup_session sessions id) ->
  exists before, P (lookup_session before id) /\
    (touching w sessions call).1.2 = (call (meanwhile w).1 before).1 /\
    (touching w sessions call).2 = (call (meanwhile w).1 before).2.
Proof.
  intros Hcancel H. unfold touching. pose proof (cancelled_only w) as Ho.
  destruct (meanwhile w) as [w' calls]. cbn in *. exists (session_run sessions calls). split.
  - eapply (run_preserves P id _ calls); [|exact Ho|exact H].
    intros s c Hc Hs. by apply cancel_keeps.
  - by destruct (call w' _).
Qed.

Definition gone_or_ended (record : option StreamSessionRecord) : Prop :=
  match record with Some record => is_terminal_locked (ssr_state record) = true | None => True end.

Lemma ended_stays record :
  is_terminal_locked (ssr_state record) = false -> gone_or_ended (Some record) ->
  gone_or_ended (Some (with_session_state StreamSessionState.CancelRequested record)).
Proof. cbn. intros H1 H2. congruence. Qed.

(** The destructor removes the session. *)
Lemma destroy_own w sessions observer :
  cso_session_id observer = id -> lookup_session (destroy_observer w sessions observer).2 id = None.
Proof.
  intros Hid. unfold destroy_observer. cbn zeta. rewrite Hid.
  destruct (is_empty id) eqn:Ee; [by apply is_empty_true in Ee|].
  destruct (touching_own (fun _ => True) w sessions
    (fun _ sessions => (sessions, find sessions id))) as (before & _ & E1 & E2); [done|done|].
  destruct (touching w sessions _) as [[w1 sessions1] snapshot]. cbn in E1, E2. subst sessions1 snapshot.
  assert (forall w2 sessions2, gone_or_ended (lookup_session sessions2 id) ->
    lookup_session (touching w2 sessions2 (fun _ sessions => cleanup sessions id)).1.2 id = None) as Hend.
  { intros w2 sessions2 H2.
    destruct (touching_own gone_or_ended w2 sessions2 (fun _ sessions => cleanup sessions id))
      as (b & Hb & -> & _); [apply ended_stays|done|].
    unfold cleanup. destruct (lookup_session b id) as [record|] eqn:E; [|done].
    cbn in Hb. rewrite Hb. cbn. by rewrite lookup_delete_eq. }
  unfold find. destruct (lookup_session before id) as [record|] eqn:E; cbn [fmap option_fmap option_map].
  2: { apply Hend. by rewrite E. }
  cbn [to_snapshot sss_state]. destruct (is_terminal_locked (ssr_state record)) eqn:Et.
  { apply Hend. by rewrite E. }
  destruct (touching_own (fun record => is_Some record) w1 before
    (fun _ sessions => mark_expired sessions id)) as (b & [record' Hb] & E1 & _); [done|by rewrite E|].
  destruct (touching w1 before _) as [[w2 sessions2] answer]. cbn in E1 |- *. subst sessions2.
  apply Hend. unfold mark_expired, mutate, expire. rewrite Hb.
  destruct (bool_decide (ssr_state record' = _)); [cbn; by rewrite lookup_insert_eq|].
  destruct (is_terminal_locked (ssr_state record')) eqn:Et'; cbn; by rewrite lookup_insert_eq.
Qed.

End own.

Definition starts_only (id : string) (move : AdapterMove) : Prop :=
  match move with Started session_id => session_id = id | _ => True end.

(** The observer has the session, or there is none. *)
Definition has_or_none (id : string) (state : World * StreamSessionRegistry * CapturingStreamObserver)
    : Prop :=
  cso_session_id state.2 = id \/ cso_session_id state.2 = "" /\ lookup_session state.1.2 id = None.

Lemma finalize_unnamed w sessions observer message forward_downstream :
  cso_session_id observer = "" ->
  let state := finalize_failure w sessions observer message forward_downstream in
  cso_session_id state.2 = "" /\ state.1.2 = sessions.
Proof.
  intros E. unfold finalize_failure, fail_session. cbn zeta. cbn [cso_session_id captured_failure].
  by rewrite E.
Qed.

Lemma session_id_kept w sessions observer move :
  match move with Started _ => True | _ =>
    cso_session_id (adapter_move (w, sessions, observer) move).2 = cso_session_id observer end.
Proof.
  destruct move as [session_id|delta|result|error result_code]; cbn [adapter_move]; [done|..].
  - by rewrite delta_observer.
  - destruct (completed_observer w sessions observer result)
      as [[_ ->]|[_ [(error & code & ->)|[_ ->]]]]; done.
  - by rewrite failed_observer.
Qed.

Lemma move_has_or_none id state move :
  starts_only id move -> has_or_none id state -> has_or_none id (adapter_move state move).
Proof.
  destruct state as [[w sessions] observer]. unfold has_or_none. cbn [fst snd].
  intros Hm H. pose proof (session_id_kept w sessions observer move) as Hk.
  destruct move as [session_id|delta|result|error result_code].
  { left. cbn [adapter_move]. rewrite started_observer. exact Hm. }
  all: rewrite Hk; destruct H as [H|[He Hn]]; [by left|right; split; [done|]]; cbn [adapter_move].
  - unfold on_stream_delta. cbn zeta. rewrite He. done.
  - unfold on_stream_completed. destruct (has_value _); [done|]. cbn zeta. rewrite He.
    cbn [is_empty]. unfold is_empty. rewrite bool_decide_true by done.
    pose proof (finalize_unnamed w sessions observer
      "stream completed before session start callback" false He) as [_ ->]. done.
  - unfold on_stream_failed, fail_session. cbn [cso_session_id captured_failure]. by rewrite He.
Qed.

Lemma moves_has_or_none id moves : forall state,
  Forall (starts_only id) moves -> has_or_none id state -> has_or_none id (foldl adapter_move state moves).
Proof.
  induction moves as [|move moves IH]; intros state Hm H; [done|].
  apply Forall_cons in Hm as [Hm Hall]. apply IH; [done|]. by apply move_has_or_none.
Qed.

Lemma moves_other id kept own moves : forall state,
  others_quiet id -> own <> id -> id <> "" -> Forall (starts_only own) moves ->
  cso_session_id state.2 <> id -> lookup_session state.1.2 id = kept ->
  let state' := foldl adapter_move state moves in
  cso_session_id state'.2 <> id /\ lookup_session state'.1.2 id = kept.
Proof.
  intros state Hq Hne Hnz. revert state.
  induction moves as [|move moves IH]; intros [[w sessions] observer] Hm Hs H; [done|].
  apply Forall_cons in Hm as [Hm Hall]. cbn [fst snd] in Hs, H.
  pose proof (session_id_kept w sessions observer move) as Hk.
  apply IH; [done|..].
  - destruct move as [session_id| | |]; [|by rewrite Hk..]. cbn [adapter_move].
    rewrite started_observer. cbn. by rewrite Hm.
  - destruct move as [session_id|delta|result|error result_code]; cbn [adapter_move].
    + apply start_other; [done|by rewrite Hm|done].
    + by apply delta_other.
    + by apply completed_other.
    + by apply failed_other.
Qed.

(** An attempt whose adapter names one session, which was not there before, leaves none of
    it, whatever the adapter, the caller's observer and the cancellations of others do; a
    session that nobody else touches is left as it was. *)
Theorem session_private id w sessions moves named w' sessions' stream_end :
  id <> "" -> lookup_session sessions id = None -> Forall (starts_only id) moves ->
  others_cancel id ->
  stream_attempt w sessions moves named = (w', sessions', stream_end) ->
  lookup_session sessions' id = None /\
  forall other, other <> id -> other <> "" -> others_quiet other ->
    lookup_session sessions' other = lookup_session sessions other.
Proof.
  intros Hid Hnone Hm Hc. unfold stream_attempt.
  pose proof (moves_has_or_none id moves (w, sessions, new_observer) Hm
    (or_intror (conj eq_refl Hnone))) as Hown.
  pose proof (fun other kept => moves_other other kept id moves (w, sessions, new_observer)) as Hother.
  destruct (foldl adapter_move (w, sessions, new_observer) moves) as [[w1 sessions1] observer].
  pose proof (destroy_own id Hid Hc w1 sessions1 observer) as Hdestroy.
  pose proof (fun other kept Hq => destroy_other other kept Hq w1 sessions1 observer) as Hdestroy'.
  assert (cso_session_id observer = "" -> destroy_observer w1 sessions1 observer = (w1, sessions1))
    as Hnothing by (unfold destroy_observer; by intros ->).
  destruct (destroy_observer w1 sessions1 observer) as [w2 sessions2]. cbn in *.
  intros [= <- <- <-]. split.
  - destruct Hown as [Hown|[He Hn]]; [by apply Hdestroy|].
    specialize (Hnothing He). by injection Hnothing as <- <-.
  - intros other Hne Hnz Hq.
    destruct (Hother other (lookup_session sessions other) Hq (not_eq_sym Hne) Hnz Hm) as [H1 H2];
      [cbn; congruence|done|]. by apply Hdestroy'.
Qed.

End observer.

(** ** Examples *)

(** The calls of others, one list before each call of the observer. *)
Definition next_others (w : list (list SessionCall)) : list (list SessionCall) * list SessionCall :=
  match w with [] => ([], []) | calls :: rest => (rest, calls) end.

Definition sample_attempt (w : list (list SessionCall)) (sessions : StreamSessionRegistry)
    (moves : list AdapterMove) : list (list SessionCall) * StreamSessionRegistry * StreamEnd :=
  stream_attempt (fun _ => 1000) next_others "deepseek/chat" None w sessions moves "main:call-1".

Definition idle_sessions : StreamSessionRegistry :=
  (init new_stream_registry default_stream_config).1.

Definition sample_moves : list AdapterMove :=
  [Started "main:call-1"; Delta "hi"; Completed sample_answer].

(** A stream that is abandoned behind its last delta is a success. *)
Example abandoned_stream_succeeds :
  sed_final_result
    (sample_attempt [[]; []; []; [RequestCancel "main:call-1"]] idle_sessions sample_moves).2 =
  Some sample_answer.
Proof. vm_compute. reflexivity. Qed.

(** A stream that names the session of another call is refused, and removes that session. *)
Example foreign_session_destroyed :
  let busy := session_run idle_sessions
    [Accept "main:call-1" "deepseek/chat" 900; MarkActive "main:call-1"] in
  let '(_, sessions, stream_end) :=
    sample_attempt [] busy
      [Started "main:call-1"; FailedStream (execution_error ResultCode.RuntimeRetryExhausted
         "rejected" false "deepseek/chat" kStreamExecutionStage) None] in
  (sed_final_result stream_end, srg_sessions busy !! "main:call-1" ≫= fun r => Some (ssr_state r),
   srg_sessions sessions !! "main:call-1") =
  (None, Some StreamSessionState.Active, None).
Proof. vm_compute. reflexivity. Qed.

(** An adapter that starts a second session leaves the first in the registry for good. *)
Example second_start_leaks :
  ssr_state <$> srg_sessions (sample_attempt [] idle_sessions
    [Started "main:call-1"; Started "main:call-2"; Completed sample_answer]).1.2 !! "main:call-1" =
  Some StreamSessionState.Active.
Proof. vm_compute. reflexivity. Qed.

Lemma stream_end_exact_witness :
  exists w' sessions' stream_end,
    sample_attempt [] idle_sessions sample_moves = (w', sessions', stream_end) /\
    sed_final_result stream_end = Some sample_answer /\
    exists pre post, sample_moves = pre ++ Completed sample_answer :: post.
Proof.
  destruct (sample_attempt [] idle_sessions sample_moves) as [[w' sessions'] stream_end] eqn:E.
  exists w', sessions', stream_end. split; [reflexivity|].
  assert (sed_final_result stream_end = Some sample_answer) as Hr
    by (vm_compute in E; injection E as <- <- <-; reflexivity).
  split; [exact Hr|].
  pose proof (stream_end_exact _ _ _ _ _ _ _ _ _ _ _ E) as H. rewrite Hr in H.
  destruct (sed_final_error stream_end); [destruct H|].
  destruct H as (pre & post & H & _). exists pre, post. exact H.
Defined.

Lemma session_private_witness :
  exists w' sessions' stream_end,
    sample_attempt [] idle_sessions sample_moves = (w', sessions', stream_end) /\
    srg_sessions sessions' !! "main:call-1" = None.
Proof.
  destruct (stream_attempt (fun _ => 1000) (fun w => (w, [])) "deepseek/chat" None
              ([] : list (list SessionCall)) idle_sessions sample_moves "main:call-1")
    as [[w' sessions'] stream_end] eqn:E.
  exists w', sessions', stream_end. split; [vm_compute in E |- *; exact E|].
  refine (proj1 (session_private (fun _ => 1000) (fun w => (w, [])) "deepseek/chat" None
    "main:call-1" _ _ _ _ _ _ _ _ _ _ _ E)).
  - discriminate.
  - reflexivity.
  - repeat constructor.
  - intros w. constructor.
Defined.
