(* ===== verification/LlmNormalize.v ===== *)
(** * What an answer becomes

    llm/src/execution/ResponseNormalizer.cpp, which turns the answer of an adapter into a
    response of the contract, and llm/src/UsageAggregator.cpp with the tags that
    llm/src/LLMManager.cpp appends. [normalize_exact] says what is let through and what it
    keeps, [reasoning_stays_private] that the reasoning of a provider does not reach the
    response, [usage_record_exact] how the tokens of a prompt are shared. *)

From S2P Require Import Prelude Text ErrorCodes CheckpointContracts RecoveryContracts MemoryContracts Doubles LlmConfig LlmContracts LlmExecutor.

(** ** The normalizer *)

Record ResponseNormalizerContext := {
  rnc_route_key : string;
  rnc_provider_id : string;
  rnc_model_id : string;
  rnc_model_name : string;
  rnc_prompt_id : string;
  rnc_prompt_version : string;
  rnc_prompt_eval_status : option PromptEvalStatus;
  rnc_prompt_release_scope : string;
  rnc_request_id : option string;
  rnc_llm_call_id : option string;
  rnc_completed_at_ms : Z;
}.

Definition context_consistent (context : ResponseNormalizerContext) : bool :=
  negb (is_empty (rnc_route_key context)) && negb (is_empty (rnc_provider_id context))
  && negb (is_empty (rnc_model_id context)) && (0 <? rnc_completed_at_ms context).

Record ResponseNormalizationResult := {
  rnr_response : option LLMResponse;
  rnr_error : option ErrorInfo;
  rnr_result_code : option ResultCode;
  rnr_usage_fragment : option AdapterUsageFragment;
  rnr_audit_events : list string;
  rnr_provider_trace_id : string;
  rnr_reasoning_content_stripped : bool;
}.

Definition normalization_succeeded (result : ResponseNormalizationResult) : bool :=
  has_value (rnr_response result).

Definition normalization_consistent (result : ResponseNormalizationResult) : bool :=
  if Bool.eqb (has_value (rnr_response result)) (has_value (rnr_error result)) then false else
  if negb (Bool.eqb (has_value (rnr_error result)) (has_value (rnr_result_code result)))
  then false else
  match rnr_usage_fragment result with
  | Some usage => has_value (rnr_response result) && usage_consistent usage
  | None => true
  end.

Definition kNormalizerStage : string := "llm.response_normalizer".

Definition append_unique_audit (audit_events : list string) (event : string) : list string :=
  if is_empty event then audit_events else append_new audit_events event.

Definition make_protocol_error (route_key message : string) : ErrorInfo :=
  {| ei_failure_type := Some (classify_result_code ResultCode.ValidationFieldMissing);
     ei_retryable := Some false; ei_safe_to_replan := Some false;
     ei_details := {| ed_code := Some (result_code_value ResultCode.ValidationFieldMissing);
                      ed_message := message; ed_stage := kNormalizerStage |};
     ei_source_ref := {| esr_ref_type := "route"; esr_ref_id := route_key |} |}.

Definition canonical_finish_reason (finish_reason : string) : string :=
  let normalized := lowercase_copy finish_reason in
  if bool_decide (normalized = "tool_calls") || bool_decide (normalized = "tool_call")
  then "tool_call" else
  if bool_decide (normalized = "max_tokens") || bool_decide (normalized = "length")
  then "length" else
  if bool_decide (normalized = "content_filter") || bool_decide (normalized = "refusal")
  then "refusal" else
  if bool_decide (normalized = "stop") || bool_decide (normalized = "clarification")
     || bool_decide (normalized = "replan")
  then normalized else "unknown".

Definition usage_fragment_from_response (response : LLMResponse) : option AdapterUsageFragment :=
  if negb (has_value (lrs_input_tokens response)) || negb (has_value (lrs_output_tokens response))
     || negb (has_value (lrs_total_tokens response))
  then None else
  Some {| auf_prompt_tokens := lrs_input_tokens response;
          auf_completion_tokens := lrs_output_tokens response;
          auf_total_tokens := lrs_total_tokens response;
          auf_prompt_cache_hit_tokens := None; auf_prompt_cache_miss_tokens := None |}.

Definition make_protocol_failure (route_key : string) (audit_events : list string)
    (reason : string) : ResponseNormalizationResult :=
  {| rnr_response := None;
     rnr_error := Some (make_protocol_error route_key
                          ("response normalizer rejected adapter payload: " +:+ reason));
     rnr_result_code := Some ResultCode.ValidationFieldMissing; rnr_usage_fragment := None;
     rnr_audit_events := append_unique_audit audit_events ("malformed_payload:" +:+ reason);
     rnr_provider_trace_id := ""; rnr_reasoning_content_stripped := false |}.

(** The value, or what stands in for it. *)
Definition or_fallback {A} (value fallback : option A) : option A :=
  match value with Some _ => value | None => fallback end.

(** The text of the context, where the response has none. *)
Definition or_context_text (value : option string) (fallback : string) : option string :=
  if negb (has_non_empty_value value) && negb (is_empty fallback) then Some fallback else value.

(** What the response leaves open is filled from the context. *)
Definition filled_response (response : LLMResponse) (context : ResponseNormalizerContext)
    : LLMResponse :=
  {| lrs_request_id := or_fallback (lrs_request_id response) (rnc_request_id context);
     lrs_llm_call_id := or_fallback (lrs_llm_call_id response) (rnc_llm_call_id context);
     lrs_response_kind := lrs_response_kind response;
     lrs_content_payload := lrs_content_payload response;
     lrs_completed_at :=
       or_fallback (lrs_completed_at response) (Some (rnc_completed_at_ms context));
     lrs_model_name :=
       or_fallback (lrs_model_name response)
         (Some (if is_empty (rnc_model_name context) then rnc_model_id context
                else rnc_model_name context));
     lrs_prompt_id := or_context_text (lrs_prompt_id response) (rnc_prompt_id context);
     lrs_prompt_version :=
       or_context_text (lrs_prompt_version response) (rnc_prompt_version context);
     lrs_eval_status := or_fallback (lrs_eval_status response) (rnc_prompt_eval_status context);
     lrs_release_scope :=
       or_context_text (lrs_release_scope response) (rnc_prompt_release_scope context);
     lrs_finish_reason := lrs_finish_reason response;
     lrs_input_tokens := lrs_input_tokens response;
     lrs_output_tokens := lrs_output_tokens response;
     lrs_total_tokens := lrs_total_tokens response;
     lrs_refusal_reason := lrs_refusal_reason response;
     lrs_tags := lrs_tags response |}.

Definition with_usage (response : LLMResponse) (usage : AdapterUsageFragment) : LLMResponse :=
  {| lrs_request_id := lrs_request_id response; lrs_llm_call_id := lrs_llm_call_id response;
     lrs_response_kind := lrs_response_kind response;
     lrs_content_payload := lrs_content_payload response;
     lrs_completed_at := lrs_completed_at response; lrs_model_name := lrs_model_name response;
     lrs_prompt_id := lrs_prompt_id response; lrs_prompt_version := lrs_prompt_version response;
     lrs_eval_status := lrs_eval_status response;
     lrs_release_scope := lrs_release_scope response;
     lrs_finish_reason := lrs_finish_reason response;
     lrs_input_tokens := auf_prompt_tokens usage;
     lrs_output_tokens := auf_completion_tokens usage;
     lrs_total_tokens := auf_total_tokens usage;
     lrs_refusal_reason := lrs_refusal_reason response; lrs_tags := lrs_tags response |}.

Definition with_finish_reason (response : LLMResponse) (finish_reason : option string)
    : LLMResponse :=
  {| lrs_request_id := lrs_request_id response; lrs_llm_call_id := lrs_llm_call_id response;
     lrs_response_kind := lrs_response_kind response;
     lrs_content_payload := lrs_content_payload response;
     lrs_completed_at := lrs_completed_at response; lrs_model_name := lrs_model_name response;
     lrs_prompt_id := lrs_prompt_id response; lrs_prompt_version := lrs_prompt_version response;
     lrs_eval_status := lrs_eval_status response;
     lrs_release_scope := lrs_release_scope response;
     lrs_finish_reason := finish_reason; lrs_input_tokens := lrs_input_tokens response;
     lrs_output_tokens := lrs_output_tokens response;
     lrs_total_tokens := lrs_total_tokens response;
     lrs_refusal_reason := lrs_refusal_reason response; lrs_tags := lrs_tags response |}.

(** The counts of the usage against those of the response: what the usage is rejected for.
    The counts of the usage are dereferenced where the response has all of its own. *)
Definition usage_rejection (response : LLMResponse) (usage : AdapterUsageFragment)
    : option (option string) :=
  if negb (usage_consistent usage) then Some (Some "usage_fragment_inconsistent") else
  match lrs_input_tokens response, lrs_output_tokens response, lrs_total_tokens response with
  | Some input_tokens, Some output_tokens, Some total_tokens =>
      let? prompt_tokens := auf_prompt_tokens usage else None in
      if negb (input_tokens =? prompt_tokens) then Some (Some "usage_fragment_mismatch") else
      let? completion_tokens := auf_completion_tokens usage else None in
      if negb (output_tokens =? completion_tokens) then Some (Some "usage_fragment_mismatch") else
      let? usage_total := auf_total_tokens usage else None in
      if negb (total_tokens =? usage_total) then Some (Some "usage_fragment_mismatch") else
      Some None
  | _, _, _ => Some None
  end.

(** What the provider is recorded for. *)
Definition audit_events_of (diagnostics : AdapterProviderDiagnostics) (finish_reason : option string)
    : list string :=
  let audit_events :=
    if is_empty (apd_reasoning_content diagnostics) then []
    else append_unique_audit [] "reasoning_content_stripped" in
  let audit_events :=
    foldl (fun events audit_tag => append_unique_audit events ("provider_audit:" +:+ audit_tag))
      audit_events (apd_audit_tags diagnostics) in
  match finish_reason with
  | Some finish_reason =>
      if bool_decide (canonical_finish_reason finish_reason = "unknown")
      then append_unique_audit audit_events ("unknown_finish_reason:" +:+ finish_reason)
      else audit_events
  | None => audit_events
  end.

(** From the usage on. *)
Definition normalize_response (adapter_result : AdapterCallResult)
    (context : ResponseNormalizerContext) (response : LLMResponse)
    : option ResponseNormalizationResult :=
  let diagnostics := acr_provider_diagnostics adapter_result in
  let usage_fragment :=
    or_fallback (acr_usage adapter_result) (usage_fragment_from_response response) in
  let? rejected :=
    match usage_fragment with
    | Some usage => usage_rejection response usage
    | None => Some None
    end else None in
  match rejected with
  | Some reason => Some (make_protocol_failure (rnc_route_key context) [] reason)
  | None =>
      let response :=
        match usage_fragment with Some usage => with_usage response usage | None => response end in
      let audit_events := audit_events_of diagnostics (lrs_finish_reason response) in
      let response :=
        with_finish_reason response (canonical_finish_reason <$> lrs_finish_reason response) in
      let? validation := validate_llm_response_field_rules response else None in
      if negb (gr_ok validation)
      then Some (make_protocol_failure (rnc_route_key context) audit_events (gr_reason validation))
      else
        Some {| rnr_response := Some response; rnr_error := None; rnr_result_code := None;
                rnr_usage_fragment := usage_fragment; rnr_audit_events := audit_events;
                rnr_provider_trace_id := apd_provider_trace_id diagnostics;
                rnr_reasoning_content_stripped :=
                  negb (is_empty (apd_reasoning_content diagnostics)) |}
  end.

Definition normalize (adapter_result : AdapterCallResult) (context : ResponseNormalizerContext)
    : option ResponseNormalizationResult :=
  if negb (context_consistent context)
  then Some (make_protocol_failure (rnc_route_key context) [] "normalizer_context_inconsistent")
  else if negb (adapter_result_consistent adapter_result)
  then Some (make_protocol_failure (rnc_route_key context) [] "adapter_result_inconsistent")
  else if has_value (acr_error adapter_result)
  then Some {| rnr_response := None; rnr_error := acr_error adapter_result;
               rnr_result_code := acr_result_code adapter_result; rnr_usage_fragment := None;
               rnr_audit_events := append_unique_audit [] "adapter_failure_passthrough";
               rnr_provider_trace_id :=
                 apd_provider_trace_id (acr_provider_diagnostics adapter_result);
               rnr_reasoning_content_stripped :=
                 negb (is_empty (apd_reasoning_content (acr_provider_diagnostics adapter_result))) |}
  else
    let? response := acr_response adapter_result
      else Some (make_protocol_failure (rnc_route_key context) [] "response_missing") in
    normalize_response adapter_result context (filled_response response context).

(** ** Usage *)

Record NormalizedUsageRecord := {
  nur_prompt_tokens : Z;
  nur_completion_tokens : Z;
  nur_total_tokens : Z;
  nur_prompt_cache_hit_tokens : Z;
  nur_prompt_cache_miss_tokens : Z;
  nur_estimated_cost_usd : spec_float;
  nur_provider_id : string;
  nur_model_id : string;
  nur_pricing_ref : string;
}.

Definition derive_cache_hit_tokens (usage : AdapterUsageFragment) : Z :=
  match auf_prompt_cache_hit_tokens usage with
  | Some hit => hit
  | None =>
      match auf_prompt_tokens usage, auf_prompt_cache_miss_tokens usage with
      | Some prompt_tokens, Some miss =>
          if miss <=? prompt_tokens then u32 (prompt_tokens - miss) else 0
      | _, _ => 0
      end
  end.

Definition derive_cache_miss_tokens (usage : AdapterUsageFragment) : Z :=
  match auf_prompt_cache_miss_tokens usage with
  | Some miss => miss
  | None =>
      match auf_prompt_tokens usage with
      | Some prompt_tokens =>
          let cache_hit_tokens := derive_cache_hit_tokens usage in
          if cache_hit_tokens <=? prompt_tokens then u32 (prompt_tokens - cache_hit_tokens) else 0
      | None => 0
      end
  end.

Definition million : spec_float := double_of_integer 1000000.

Definition token_cost_usd (tokens : Z) (rate_per_1m_tokens : spec_float) : spec_float :=
  if (tokens =? 0) || SFleb rate_per_1m_tokens double_zero then double_zero else
  double_div (double_mul (double_of_integer tokens) rate_per_1m_tokens) million.

Definition pricing_metadata_available (model_metadata : ProviderModelMetadata) : bool :=
  let summary := pmm_summary model_metadata in
  negb (is_empty (pmm_pricing_ref model_metadata))
  && (double_gtb (mce_input_cache_hit_usd_per_1m summary) double_zero
      || double_gtb (mce_input_cache_miss_usd_per_1m summary) double_zero
      || double_gtb (mce_output_usd_per_1m summary) double_zero).

Definition usage_record (model_metadata : ProviderModelMetadata)
    (prompt_tokens completion_tokens total_tokens hit miss : Z) (cost : spec_float)
    : NormalizedUsageRecord :=
  {| nur_prompt_tokens := prompt_tokens; nur_completion_tokens := completion_tokens;
     nur_total_tokens := total_tokens; nur_prompt_cache_hit_tokens := hit;
     nur_prompt_cache_miss_tokens := miss; nur_estimated_cost_usd := cost;
     nur_provider_id := mce_provider_id (pmm_summary model_metadata);
     nur_model_id := mce_model_id (pmm_summary model_metadata);
     nur_pricing_ref := pmm_pricing_ref model_metadata |}.

Definition aggregate (usage : AdapterUsageFragment) (model_metadata : ProviderModelMetadata)
    : NormalizedUsageRecord :=
  let without_counts := usage_record model_metadata 0 0 0 0 0 double_zero in
  if negb (usage_consistent usage) || negb (has_token_counts usage) then without_counts else
  let? prompt_tokens := auf_prompt_tokens usage else without_counts in
  let? completion_tokens := auf_completion_tokens usage else without_counts in
  let? total_tokens := auf_total_tokens usage else without_counts in
  let hit := Z.min prompt_tokens (derive_cache_hit_tokens usage) in
  let miss := Z.min prompt_tokens (derive_cache_miss_tokens usage) in
  let summary := pmm_summary model_metadata in
  usage_record model_metadata prompt_tokens completion_tokens total_tokens hit miss
    (if negb (pricing_metadata_available model_metadata) then double_zero else
     double_add
       (double_add (token_cost_usd hit (mce_input_cache_hit_usd_per_1m summary))
          (token_cost_usd miss (mce_input_cache_miss_usd_per_1m summary)))
       (token_cost_usd completion_tokens (mce_output_usd_per_1m summary))).

(** ** Tags *)

Definition with_tags (response : LLMResponse) (tags : option (list string)) : LLMResponse :=
  {| lrs_request_id := lrs_request_id response; lrs_llm_call_id := lrs_llm_call_id response;
     lrs_response_kind := lrs_response_kind response;
     lrs_content_payload := lrs_content_payload response;
     lrs_completed_at := lrs_completed_at response; lrs_model_name := lrs_model_name response;
     lrs_prompt_id := lrs_prompt_id response; lrs_prompt_version := lrs_prompt_version response;
     lrs_eval_status := lrs_eval_status response;
     lrs_release_scope := lrs_release_scope response;
     lrs_finish_reason := lrs_finish_reason response;
     lrs_input_tokens := lrs_input_tokens response;
     lrs_output_tokens := lrs_output_tokens response;
     lrs_total_tokens := lrs_total_tokens response;
     lrs_refusal_reason := lrs_refusal_reason response; lrs_tags := tags |}.

Definition append_response_tag (response : LLMResponse) (tag : string) : LLMResponse :=
  if is_empty tag then response else
  with_tags response (Some (append_new (default [] (lrs_tags response)) tag)).

Definition append_response_tags : LLMResponse -> list string -> LLMResponse :=
  foldl append_response_tag.

(** The tags of append_usage_tags in their order. *)
Definition usage_tags (record : NormalizedUsageRecord) : list string :=
  ["usage:provider_id=" +:+ nur_provider_id record;
   "usage:model_id=" +:+ nur_model_id record;
   "usage:prompt_tokens=" +:+ to_string (nur_prompt_tokens record);
   "usage:completion_tokens=" +:+ to_string (nur_completion_tokens record);
   "usage:total_tokens=" +:+ to_string (nur_total_tokens record);
   "usage:prompt_cache_hit_tokens=" +:+ to_string (nur_prompt_cache_hit_tokens record);
   "usage:prompt_cache_miss_tokens=" +:+ to_string (nur_prompt_cache_miss_tokens record)]
  ++ (if is_empty (nur_pricing_ref record) then []
      else ["usage:pricing_ref=" +:+ nur_pricing_ref record])
  ++ ["usage:estimated_cost_usd=" +:+ fixed6 (nur_estimated_cost_usd record)].

Definition append_usage_tags (response : LLMResponse) (record : NormalizedUsageRecord)
    : LLMResponse :=
  append_response_tags response (usage_tags record).

(** ** What the tags leave *)

Lemma append_tag_ok response tag :
  llm_response_ok response -> llm_response_ok (append_response_tag response tag).
Proof.
  intros H. unfold append_response_tag. destruct (is_empty tag) eqn:E; [done|].
  apply is_empty_false in E. pose proof (lpo_tags _ H) as Htags. destruct H. split; try done.
  intros tags [= <-].
  assert (Forall (fun item => item <> "") (default [] (lrs_tags response)) /\
          NoDup (default [] (lrs_tags response))) as [Hf Hd].
  { destruct (lrs_tags response) as [tags|]; [by apply (Htags tags)|]. by split; constructor. }
  split.
  - intros En. assert (tag ∈ append_new (default [] (lrs_tags response)) tag) as Hin
      by (apply append_new_elem; by right). rewrite En in Hin. by apply not_elem_of_nil in Hin.
  - split; [|by apply append_new_nodup]. apply Forall_forall. rewrite Forall_forall in Hf.
    intros x [?| ->]%append_new_elem; [by apply Hf|done].
Qed.

Lemma append_tags_ok tags : forall response,
  llm_response_ok response -> llm_response_ok (append_response_tags response tags).
Proof. induction tags as [|tag tags IH]; intros response H; [done|]. by apply IH, append_tag_ok. Qed.

(** But for the tags the response is as it was. *)
Lemma append_tags_with tags : forall response,
  exists all, append_response_tags response tags = with_tags response all.
Proof.
  induction tags as [|tag tags IH]; intros response.
  - exists (lrs_tags response). by destruct response.
  - destruct (IH (append_response_tag response tag)) as [all E]. exists all.
    change (append_response_tags response (tag :: tags))
      with (append_response_tags (append_response_tag response tag) tags).
    rewrite E. unfold append_response_tag. by destruct (is_empty tag).
Qed.

(** ** What is let through *)

Definition usage_of (adapter_result : AdapterCallResult) (response : LLMResponse)
    : option AdapterUsageFragment :=
  or_fallback (acr_usage adapter_result) (usage_fragment_from_response response).

(** The response as the caller is to see it. *)
Definition completed_response (adapter_result : AdapterCallResult)
    (context : ResponseNormalizerContext) (original : LLMResponse) : LLMResponse :=
  let filled := filled_response original context in
  let counted :=
    match usage_of adapter_result filled with Some usage => with_usage filled usage | None => filled end in
  with_finish_reason counted (canonical_finish_reason <$> lrs_finish_reason original).

(** The response has counts, and the usage has others. *)
Definition counts_differ (response : LLMResponse) (usage : AdapterUsageFragment) : Prop :=
  exists input output total,
    lrs_input_tokens response = Some input /\ lrs_output_tokens response = Some output /\
    lrs_total_tokens response = Some total /\
    (auf_prompt_tokens usage, auf_completion_tokens usage, auf_total_tokens usage) <>
      (Some input, Some output, Some total).

Definition usage_agrees (response : LLMResponse) (usage : option AdapterUsageFragment) : Prop :=
  match usage with
  | Some usage => usage_consistent usage = true /\ ~ counts_differ response usage
  | None => True
  end.

Lemma usage_rejection_none response usage :
  usage_rejection response usage = Some None <->
  usage_consistent usage = true /\ ~ counts_differ response usage.
Proof.
  unfold usage_rejection. destruct (usage_consistent usage) eqn:Hu; cbn; [|naive_solver].
  unfold counts_differ. split.
  - intros H. split; [done|]. intros (i & o & t & Hi & Ho & Ht & Hne). rewrite Hi, Ho, Ht in H.
    repeat (case_match; try done). reflect_tests. by destruct Hne; subst.
  - intros [_ H]. destruct (lrs_input_tokens response) as [i|] eqn:Hi, (lrs_output_tokens response) as [o|] eqn:Ho,
      (lrs_total_tokens response) as [t|] eqn:Ht; try done.
    assert ((auf_prompt_tokens usage, auf_completion_tokens usage, auf_total_tokens usage) =
              (Some i, Some o, Some t)) as E
      by (apply dec_stable; intros Hne; apply H; by exists i, o, t).
    injection E as -> -> ->. by rewrite !Z.eqb_refl.
Qed.

(** The counts that are dereferenced are there, unless the adapter names a usage without
    counts next to a response that has all of them. *)
Lemma usage_rejection_undefined response usage :
  usage_rejection response usage = None <->
  usage_consistent usage = true /\ has_token_counts usage = false /\
  is_Some (lrs_input_tokens response) /\ is_Some (lrs_output_tokens response) /\
  is_Some (lrs_total_tokens response).
Proof.
  unfold usage_rejection, has_token_counts, has_value.
  destruct (usage_consistent usage) eqn:Hu; cbn; [|naive_solver]. unfold usage_consistent in Hu.
  destruct (lrs_input_tokens response), (lrs_output_tokens response), (lrs_total_tokens response);
    try (split; [done|]; intros (_ & _ & H1 & H2 & H3); by (destruct H1 || destruct H2 || destruct H3)).
  destruct (auf_prompt_tokens usage), (auf_completion_tokens usage), (auf_total_tokens usage);
    try done; cbn.
  split; [|naive_solver]. by repeat case_match.
Qed.

(** A usage that the response itself names has its counts. *)
Lemma own_usage_defined response usage :
  usage_fragment_from_response response = Some usage -> usage_rejection response usage <> None.
Proof.
  unfold usage_fragment_from_response, has_value. intros H (_ & Hn & _)%usage_rejection_undefined.
  destruct (lrs_input_tokens response), (lrs_output_tokens response), (lrs_total_tokens response);
    try done. by injection H as <-.
Qed.

(** What the normalizer makes of a successful call: it lets the completed response through
    exactly when that is valid and the usage agrees with it, and says so consistently. *)
Lemma normalize_exact adapter_result context original :
  context_consistent context = true -> adapter_result_consistent adapter_result = true ->
  acr_response adapter_result = Some original ->
  let filled := filled_response original context in
  match normalize adapter_result context with
  | Some result =>
      normalization_consistent result = true /\
      forall response, rnr_response result = Some response <->
        response = completed_response adapter_result context original /\
        usage_agrees filled (usage_of adapter_result filled) /\ llm_response_ok response
  | None => exists named, acr_usage adapter_result = Some named /\ has_token_counts named = false /\
              is_Some (lrs_input_tokens original) /\ is_Some (lrs_output_tokens original) /\
              is_Some (lrs_total_tokens original)
  end.
Proof.
  intros Hc Ha Ho filled. unfold normalize. rewrite Hc, Ha, Ho. cbn.
  assert (acr_error adapter_result = None) as He.
  { unfold adapter_result_consistent in Ha. rewrite Ho in Ha. unfold has_value in Ha.
    by destruct (acr_error adapter_result). }
  rewrite He. cbn. unfold normalize_response. fold filled (usage_of adapter_result filled).
  unfold completed_response. fold filled. set (usage := usage_of adapter_result filled).
  set (counted := match usage with Some usage => with_usage filled usage | None => filled end).
  assert (lrs_finish_reason counted = lrs_finish_reason original) as Hfin
    by (unfold counted; by destruct usage).
  assert (forall validation, validate_llm_response_field_rules
            (with_finish_reason counted (canonical_finish_reason <$> lrs_finish_reason counted)) =
              Some validation ->
          gr_ok validation = true <->
          llm_response_ok (with_finish_reason counted (canonical_finish_reason <$> lrs_finish_reason original)))
    as Hval.
  { intros validation Hv. rewrite <-llm_response_guard. unfold admitted. rewrite <-Hfin, Hv. naive_solver. }
  destruct (match usage with Some usage => usage_rejection filled usage | None => Some None end)
    as [[reason|]|] eqn:Er.
  - split; [done|]. intros response. split; [done|]. intros (_ & Hu & _).
    destruct usage as [named|]; [|done]. apply usage_rejection_none in Hu. by rewrite Hu in Er.
  - destruct (llm_response_field_rules_total
      (with_finish_reason counted (canonical_finish_reason <$> lrs_finish_reason counted))) as [validation Hv].
    rewrite Hv. specialize (Hval _ Hv).
    assert (usage_agrees filled usage) as Hu
      by (destruct usage as [named|]; [by apply usage_rejection_none|done]).
    destruct (gr_ok validation); cbn.
    + split.
      * destruct usage as [named|]; [|done]. by destruct Hu as [-> _].
      * intros response. rewrite Hfin. split; [intros [= <-]; split_and!; by try apply Hval|by intros (-> & _)].
    + split; [done|]. intros response. split; [done|]. intros (-> & _ & Hok). by apply Hval in Hok.
  - destruct usage as [named|] eqn:Eu; [|done].
    unfold usage, usage_of in Eu. destruct (acr_usage adapter_result) as [named'|] eqn:Ea.
    + injection Eu as ->. apply usage_rejection_undefined in Er as (_ & H1 & H2 & H3 & H4).
      by exists named.
    + cbn in Eu. by destruct (own_usage_defined _ _ Eu).
Qed.

(** The tags are those that were there and those that were appended. *)
Lemma append_tags_elem tags x : forall response,
  x ∈ default [] (lrs_tags (append_response_tags response tags)) <->
  x ∈ default [] (lrs_tags response) \/ (x ∈ tags /\ x <> "").
Proof.
  induction tags as [|tag tags IH]; intros response; [cbn; set_solver|].
  change (append_response_tags response (tag :: tags))
    with (append_response_tags (append_response_tag response tag) tags).
  rewrite IH, elem_of_cons. unfold append_response_tag. destruct (is_empty tag) eqn:E; reflect_tests.
  - naive_solver.
  - cbn. rewrite append_new_elem. naive_solver.
Qed.

(** The response has the kind, the content and the refusal of the original. *)
Definition says (original response : LLMResponse) : Prop :=
  lrs_response_kind response = lrs_response_kind original /\
  lrs_content_payload response = lrs_content_payload original /\
  lrs_refusal_reason response = lrs_refusal_reason original.

Lemma completed_says adapter_result context original :
  says original (completed_response adapter_result context original).
Proof. unfold says, completed_response. by destruct (usage_of _ _). Qed.

(** A result without an error becomes a valid response that says what it says, or a protocol
    failure. *)
Lemma normalize_cases adapter_result context result :
  acr_error adapter_result = None -> normalize adapter_result context = Some result ->
  (exists audit_events reason,
    result = make_protocol_failure (rnc_route_key context) audit_events reason) \/
  (normalization_consistent result = true /\
   exists original response, acr_response adapter_result = Some original /\
     rnr_response result = Some response /\ llm_response_ok response /\ says original response).
Proof.
  unfold normalize. intros He.
  destruct (context_consistent context) eqn:Hc; cbn; [|intros [= <-]; left; by eexists _, _].
  destruct (adapter_result_consistent adapter_result) eqn:Ha; cbn;
    [|intros [= <-]; left; by eexists _, _].
  rewrite He. cbn. destruct (acr_response adapter_result) as [original|] eqn:Ho;
    [|intros [= <-]; left; by eexists _, _].
  intros Hn. destruct (rnr_response result) as [response|] eqn:Hr.
  - right. pose proof (normalize_exact _ _ _ Hc Ha Ho) as H.
    assert (normalize adapter_result context = Some result) as E.
    { unfold normalize. rewrite Hc, Ha, He, Ho. done. }
    rewrite E in H. destruct H as [H1 H2]. split; [done|]. exists original, response.
    apply H2 in Hr as (-> & _ & Hok). split_and!; [done..|]. apply completed_says.
  - left. unfold normalize_response in Hn.
    destruct (match or_fallback _ _ with Some usage => _ | None => _ end) as [[reason|]|]; [| |done].
    + injection Hn as <-. by eexists _, _.
    + destruct (validate_llm_response_field_rules _) as [validation|]; [|done].
      destruct (gr_ok validation); cbn in Hn; injection Hn as <-; [done|]. by eexists _, _.
Qed.

(** ** Reasoning *)

Definition with_reasoning (adapter_result : AdapterCallResult) (text : string) : AdapterCallResult :=
  let diagnostics := acr_provider_diagnostics adapter_result in
  {| acr_response := acr_response adapter_result; acr_error := acr_error adapter_result;
     acr_result_code := acr_result_code adapter_result; acr_usage := acr_usage adapter_result;
     acr_provider_diagnostics :=
       {| apd_reasoning_content := text;
          apd_provider_trace_id := apd_provider_trace_id diagnostics;
          apd_audit_tags := apd_audit_tags diagnostics |} |}.

(** Nothing that is handed on depends on the text of the reasoning, but for whether there
    was one. *)
Lemma reasoning_stays_private adapter_result context text1 text2 :
  is_empty text1 = is_empty text2 ->
  normalize (with_reasoning adapter_result text1) context =
  normalize (with_reasoning adapter_result text2) context.
Proof.
  intros E. unfold normalize, normalize_response, audit_events_of. cbn.
  assert (adapter_result_consistent (with_reasoning adapter_result text1) =
          adapter_result_consistent (with_reasoning adapter_result text2)) as -> by done.
  by rewrite E.
Qed.

(** ** The tokens of a prompt *)

Definition counts_in_range (usage : AdapterUsageFragment) : Prop :=
  (forall n, auf_prompt_tokens usage = Some n -> in_u32 n) /\
  (forall n, auf_prompt_cache_hit_tokens usage = Some n -> in_u32 n) /\
  (forall n, auf_prompt_cache_miss_tokens usage = Some n -> in_u32 n).

(** Unless the provider names both the tokens found in its cache and those that were not,
    the two make up the prompt; where it names both, they are what it says, up to the
    prompt, and exceed it together only when their sum wraps. *)
Lemma usage_record_exact usage model_metadata prompt completion total :
  usage_consistent usage = true -> counts_in_range usage ->
  auf_prompt_tokens usage = Some prompt -> auf_completion_tokens usage = Some completion ->
  auf_total_tokens usage = Some total ->
  let record := aggregate usage model_metadata in
  nur_prompt_tokens record = prompt /\ nur_completion_tokens record = completion /\
  nur_total_tokens record = total /\
  0 <= nur_prompt_cache_hit_tokens record <= prompt /\
  0 <= nur_prompt_cache_miss_tokens record <= prompt /\
  match auf_prompt_cache_hit_tokens usage, auf_prompt_cache_miss_tokens usage with
  | Some hit, Some miss =>
      hit + miss < 2 ^ 32 ->
      nur_prompt_cache_hit_tokens record = hit /\ nur_prompt_cache_miss_tokens record = miss /\
      hit + miss <= prompt
  | _, _ => nur_prompt_cache_hit_tokens record + nur_prompt_cache_miss_tokens record = prompt
  end.
Proof.
  intros Hu (Hp & Hh & Hm) Ep Ec Et record. unfold record, aggregate, has_token_counts, has_value.
  rewrite Hu, Ep, Ec, Et. cbn. unfold usage_consistent in Hu. rewrite Ep, Ec, Et in Hu.
  specialize (Hp _ Ep). unfold derive_cache_miss_tokens, derive_cache_hit_tokens. rewrite Ep.
  destruct (auf_prompt_cache_hit_tokens usage) as [hit|], (auf_prompt_cache_miss_tokens usage) as [miss|];
    try specialize (Hh _ eq_refl); try specialize (Hm _ eq_refl); unfold in_u32 in *; reflect_tests.
  - split_and!; try done; try lia. intros Hw. rewrite (u32_id (hit + miss)) in Hu by (unfold in_u32; lia). lia.
  - destruct (hit <=? prompt) eqn:E; reflect_tests; rewrite ?u32_id by (unfold in_u32; lia);
      split_and!; try done; lia.
  - destruct (miss <=? prompt) eqn:E; reflect_tests; rewrite ?u32_id by (unfold in_u32; lia);
      split_and!; try done; lia.
  - rewrite (proj2 (Z.leb_le _ _)) by lia. rewrite ?u32_id by (unfold in_u32; lia).
    split_and!; try done; lia.
Qed.

(** ** Examples *)

Definition sample_normalizer_context : ResponseNormalizerContext :=
  {| rnc_route_key := "deepseek/chat"; rnc_provider_id := "deepseek"; rnc_model_id := "chat";
     rnc_model_name := "DeepSeek Chat"; rnc_prompt_id := ""; rnc_prompt_version := "";
     rnc_prompt_eval_status := None; rnc_prompt_release_scope := "";
     rnc_request_id := Some "request-1"; rnc_llm_call_id := Some "call-1";
     rnc_completed_at_ms := 1000 |}.

Definition counted_response : LLMResponse :=
  with_usage sample_llm_response
    {| auf_prompt_tokens := Some 7; auf_completion_tokens := Some 5; auf_total_tokens := Some 12;
       auf_prompt_cache_hit_tokens := None; auf_prompt_cache_miss_tokens := None |}.

Definition empty_usage : AdapterUsageFragment :=
  {| auf_prompt_tokens := None; auf_completion_tokens := None; auf_total_tokens := None;
     auf_prompt_cache_hit_tokens := None; auf_prompt_cache_miss_tokens := None |}.

(** An adapter that hands on a usage without counts next to counts in the response makes
    the normalizer dereference what is not there. *)
Example empty_usage_dereferenced :
  normalize
    {| acr_response := Some counted_response; acr_error := None; acr_result_code := None;
       acr_usage := Some empty_usage; acr_provider_diagnostics := no_diagnostics |}
    sample_normalizer_context = None.
Proof. vm_compute. reflexivity. Qed.

(** The two parts of a prompt may exceed it when their sum wraps. *)
Example cache_counts_wrap :
  let usage :=
    {| auf_prompt_tokens := Some 10; auf_completion_tokens := Some 0; auf_total_tokens := Some 10;
       auf_prompt_cache_hit_tokens := Some (2 ^ 32 - 1); auf_prompt_cache_miss_tokens := Some 9 |} in
  let model :=
    {| pmm_summary :=
         {| mce_provider_id := "deepseek"; mce_model_id := "chat"; mce_model_version := "1";
            mce_tier_family := ""; mce_latency_tier := ""; mce_cost_tier := "";
            mce_reasoning_depth_tier := ""; mce_context_window := 1;
            mce_default_max_output_tokens := 1; mce_max_output_tokens_hard_limit := 1;
            mce_supports_tools := false; mce_supports_reasoning := false;
            mce_supports_visible_reasoning := false; mce_supports_prompt_cache := false;
            mce_input_cache_hit_usd_per_1m := double_of_integer 1;
            mce_input_cache_miss_usd_per_1m := double_of_integer 2;
            mce_output_usd_per_1m := double_of_integer 3; mce_metadata_source_uri := "";
            mce_metadata_effective_at := ""; mce_verification_state := "" |};
       pmm_display_name := "DeepSeek Chat"; pmm_reasoning_mode := ""; pmm_source_layer := "";
       pmm_pricing_ref := "price"; pmm_aliases := []; pmm_input_modalities := [];
       pmm_feature_notes := []; pmm_response_private_fields := [];
       pmm_verification_states := ∅; pmm_supports_streaming := true;
       pmm_supports_json_object := false; pmm_supports_json_schema := false;
       pmm_supports_native_stream_usage := false |} in
  let record := aggregate usage model in
  (usage_consistent usage, nur_prompt_tokens record, nur_prompt_cache_hit_tokens record,
   nur_prompt_cache_miss_tokens record, fixed6 (nur_estimated_cost_usd record)) =
  (true, 10, 10, 9, "0.000028").
Proof. vm_compute. reflexivity. Qed.
