(* ===== verification/LlmManager.v ===== *)
(** * The manager of model calls

    LLMManager of llm/src/LLMManager.cpp: the way of a request through the prompt pipeline,
    the router, the executor and the normalizer, route by route until one answers. The two
    entries, generate and stream_generate, are one function of the kind of call. The
    pipeline is any instance of [PromptPipelineInterface].

    [routes_tried_in_order] says how a request ends, [only_governed_asked] what an adapter
    is ever asked with, and [generate_returns] that a request ends at all. *)

From S2P Require Import Prelude Text Ordering ErrorCodes CheckpointContracts RecoveryContracts MemoryContracts Doubles LlmConfig ModelRouter AdapterRegistry LlmContracts StreamSessions LlmExecutor LlmStream LlmNormalize.

(** ** Data *)

Module LLMFailureCategory.
Inductive LLMFailureCategory :=
| PromptAsset | PromptGovernance | Routing | AdapterTransport | ProviderProtocol
| FallbackExhausted.
#[global] Instance LLMFailureCategory_eq_dec : EqDecision LLMFailureCategory.
Proof. solve_decision. Defined.
End LLMFailureCategory.
Abbreviation LLMFailureCategory := LLMFailureCategory.LLMFailureCategory.

Record LLMManagerResult := {
  lmr_code : option ResultCode;
  lmr_response : option LLMResponse;
  lmr_error : option ErrorInfo;
  lmr_resolved_route : string;
  lmr_attempted_routes : list string;
  lmr_failure_category : option LLMFailureCategory;
  lmr_governance_disposition : option PromptPolicyDisposition;
  lmr_fallback_used : bool;
}.

Definition at_least_two {A} (items : list A) : bool :=
  match items with _ :: _ :: _ => true | _ => false end.

Definition manager_result_consistent (result : LLMManagerResult) : bool :=
  let has_response := has_value (lmr_response result) in
  let has_failure := has_value (lmr_error result) in
  let governed := has_value (lmr_governance_disposition result) in
  let by_governance :=
    bool_decide (lmr_failure_category result = Some LLMFailureCategory.PromptGovernance) in
  if Bool.eqb has_response has_failure then false else
  if negb (Bool.eqb has_failure (has_value (lmr_code result))) then false else
  if negb (Bool.eqb has_failure (has_value (lmr_failure_category result))) then false else
  if has_response && governed then false else
  if governed && (negb has_failure || negb by_governance) then false else
  if by_governance && negb governed then false else
  if has_response && is_empty (lmr_resolved_route result) then false else
  if match last (lmr_attempted_routes result) with
     | Some last_route =>
         is_empty (lmr_resolved_route result)
         || negb (bool_decide (last_route = lmr_resolved_route result))
     | None => false
     end then false else
  if lmr_fallback_used result && negb (at_least_two (lmr_attempted_routes result)) then false else
  if bool_decide (lmr_failure_category result = Some LLMFailureCategory.FallbackExhausted)
     && negb (at_least_two (lmr_attempted_routes result)) then false else
  if match lmr_error result, lmr_code result with
     | Some error, Some code =>
         match ei_failure_type error with
         | Some failure_type => negb (bool_decide (classify_result_code code = failure_type))
         | None => false
         end
     | _, _ => false
     end then false else
  if match lmr_governance_disposition result, lmr_error result with
     | Some PromptPolicyDisposition.OverBudget, Some error
     | Some PromptPolicyDisposition.RequireRecompose, Some error =>
         negb (default false (ei_safe_to_replan error))
     | _, _ => false
     end then false else
  true.

Record LLMGenerateRequest := {
  lgr_stage : string;
  lgr_task_type : string;
  lgr_request : LLMRequest;
  lgr_prompt_release_id_override : option string;
  lgr_selection_hint : option ModelSelectionHint;
}.

(** ** Requests *)

Definition to_composition_stage (stage : string) : option CompositionStage :=
  let normalized := lowercase_copy stage in
  if bool_decide (normalized = "perception") then Some CompositionStage.Perception else
  if bool_decide (normalized = "planner") || bool_decide (normalized = "planning")
  then Some CompositionStage.Planning else
  if bool_decide (normalized = "execution") || bool_decide (normalized = "execute")
  then Some CompositionStage.Execution else
  if bool_decide (normalized = "reflection") || bool_decide (normalized = "reflect")
  then Some CompositionStage.Reflection else
  if bool_decide (normalized = "response") || bool_decide (normalized = "respond")
  then Some CompositionStage.Response else None.

Definition make_prompt_query (request : LLMGenerateRequest) (config : LLMSubsystemConfig)
    : PromptQuery :=
  {| pqy_stage := lgr_stage request; pqy_task_type := lgr_task_type request;
     pqy_language := "zh-cn"; pqy_model_family := "";
     pqy_prompt_release_id := default "" (lgr_prompt_release_id_override request);
     pqy_scene_id := pso_active_scene (lsc_prompt_selector_overlay config);
     pqy_persona_id := pso_active_persona (lsc_prompt_selector_overlay config);
     pqy_profile_id := lsc_profile_id config; pqy_available_tools := [];
     pqy_trusted_sources := lsc_trusted_sources config |}.

Definition make_prompt_compose_request (request : LLMGenerateRequest) (base_request : LLMRequest)
    : PromptComposeRequest :=
  {| pcr_request_id := lrq_request_id base_request;
     pcr_stage := to_composition_stage (lgr_stage request);
     pcr_context_packet_id := lrq_request_id base_request;
     pcr_created_at := lrq_created_at base_request;
     pcr_task_type :=
       if is_empty (lgr_task_type request) then None else Some (lgr_task_type request);
     pcr_prompt_release_id := None; pcr_visible_tools := None;
     pcr_model_route :=
       if has_non_empty_value (lrq_model_route base_request) then lrq_model_route base_request
       else None;
     pcr_output_schema_ref := lrq_output_schema_ref base_request;
     pcr_response_format := lrq_response_format base_request;
     pcr_tags := lrq_tags base_request |}.

Definition make_selection_hint (request : LLMGenerateRequest) : ModelSelectionHint :=
  match lgr_selection_hint request with
  | Some hint => hint
  | None =>
      {| msh_stage := lgr_stage request; msh_task_type := lgr_task_type request;
         msh_complexity_tier := "balanced"; msh_latency_sla_tier := "balanced";
         msh_budget_tier := "balanced"; msh_requires_tools := false;
         msh_requires_reasoning := false; msh_prefers_visible_reasoning := false;
         msh_estimated_input_tokens := 0;
         msh_target_output_tokens := default 0 (lrq_max_output_tokens (lgr_request request));
         msh_previous_route_failures := 0 |}
  end.

(** The chain of routes, each once. *)
Definition build_route_candidates (route : ResolvedModelRoute) : list string :=
  foldl (fun candidates route_key =>
           if is_empty route_key then candidates else append_new candidates route_key)
    [] (rmr_primary_route route :: rmr_fallback_routes route).

(** The request as it enters the pipeline. *)
Definition base_request (kind : CallKind) (now_ms : Z) (request : LLMRequest) : LLMRequest :=
  {| lrq_request_id := lrq_request_id request; lrq_llm_call_id := lrq_llm_call_id request;
     lrq_model_route := lrq_model_route request;
     lrq_request_mode :=
       match kind with
       | CallKind.Unary => or_fallback (lrq_request_mode request) (Some LLMRequestMode.Unary)
       | CallKind.Stream => Some LLMRequestMode.Streaming
       end;
     lrq_messages := lrq_messages request;
     lrq_created_at := or_fallback (lrq_created_at request) (Some now_ms);
     lrq_prompt_id := lrq_prompt_id request; lrq_prompt_version := lrq_prompt_version request;
     lrq_output_schema_ref := lrq_output_schema_ref request;
     lrq_response_format := lrq_response_format request;
     lrq_runtime_budget := lrq_runtime_budget request;
     lrq_max_output_tokens := lrq_max_output_tokens request;
     lrq_timeout_ms := lrq_timeout_ms request; lrq_tags := lrq_tags request |}.

(** The request with what the pipeline has made of it. *)
Definition governed_request (base : LLMRequest) (messages : list string)
    (prompt_id prompt_version : option string) : LLMRequest :=
  {| lrq_request_id := lrq_request_id base; lrq_llm_call_id := lrq_llm_call_id base;
     lrq_model_route := lrq_model_route base; lrq_request_mode := lrq_request_mode base;
     lrq_messages := Some messages; lrq_created_at := lrq_created_at base;
     lrq_prompt_id := prompt_id; lrq_prompt_version := prompt_version;
     lrq_output_schema_ref := lrq_output_schema_ref base;
     lrq_response_format := lrq_response_format base;
     lrq_runtime_budget := lrq_runtime_budget base;
     lrq_max_output_tokens := lrq_max_output_tokens base;
     lrq_timeout_ms := lrq_timeout_ms base; lrq_tags := lrq_tags base |}.

(** ** Failures *)

Definition make_manager_error (result_code : ResultCode) (message : string)
    (retryable safe_to_replan : bool) (stage_name ref_type ref_id : string) : ErrorInfo :=
  {| ei_failure_type := Some (classify_result_code result_code);
     ei_retryable := Some retryable; ei_safe_to_replan := Some safe_to_replan;
     ei_details := {| ed_code := Some (result_code_value result_code); ed_message := message;
                      ed_stage := stage_name |};
     ei_source_ref := {| esr_ref_type := ref_type; esr_ref_id := ref_id |} |}.

(** The last route that was tried, where none is named. *)
Definition or_last_route (resolved_route : string) (attempted_routes : list string) : string :=
  if is_empty resolved_route then default "" (last attempted_routes) else resolved_route.

Definition failure_with (result_code : ResultCode) (error : ErrorInfo)
    (category : LLMFailureCategory) (attempted_routes : list string) (resolved_route : string)
    (governance_disposition : option PromptPolicyDisposition) : LLMManagerResult :=
  {| lmr_code := Some result_code; lmr_response := None; lmr_error := Some error;
     lmr_resolved_route := or_last_route resolved_route attempted_routes;
     lmr_attempted_routes := attempted_routes; lmr_failure_category := Some category;
     lmr_governance_disposition := governance_disposition; lmr_fallback_used := false |}.

Definition make_manager_failure (result_code : ResultCode) (message : string) (retryable : bool)
    (category : LLMFailureCategory) (stage_name ref_type ref_id : string)
    (attempted_routes : list string) (resolved_route : string)
    (governance_disposition : option PromptPolicyDisposition) (safe_to_replan : bool)
    : LLMManagerResult :=
  failure_with result_code
    (make_manager_error result_code message retryable safe_to_replan stage_name ref_type ref_id)
    category attempted_routes resolved_route governance_disposition.

Definition make_manager_failure_from_error (error : ErrorInfo) (result_code : ResultCode)
    (category : LLMFailureCategory) (attempted_routes : list string) (resolved_route : string)
    : LLMManagerResult :=
  failure_with result_code
    {| ei_failure_type :=
         or_fallback (ei_failure_type error) (Some (classify_result_code result_code));
       ei_retryable := or_fallback (ei_retryable error) (Some false);
       ei_safe_to_replan := or_fallback (ei_safe_to_replan error) (Some false);
       ei_details :=
         {| ed_code :=
              or_fallback (ed_code (ei_details error)) (Some (result_code_value result_code));
            ed_message := ed_message (ei_details error); ed_stage := ed_stage (ei_details error) |};
       ei_source_ref := ei_source_ref error |}
    category attempted_routes resolved_route None.

Definition elevate_to_fallback_exhausted (failure : LLMManagerResult) : LLMManagerResult :=
  if negb (has_value (lmr_code failure)) || negb (has_value (lmr_error failure))
     || negb (at_least_two (lmr_attempted_routes failure))
  then failure else
  {| lmr_code := lmr_code failure; lmr_response := lmr_response failure;
     lmr_error := lmr_error failure;
     lmr_resolved_route := default "" (last (lmr_attempted_routes failure));
     lmr_attempted_routes := lmr_attempted_routes failure;
     lmr_failure_category := Some LLMFailureCategory.FallbackExhausted;
     lmr_governance_disposition := lmr_governance_disposition failure;
     lmr_fallback_used := lmr_fallback_used failure |}.

Definition manager_stage (kind : CallKind) : string :=
  match kind with
  | CallKind.Unary => "llm.manager.generate"
  | CallKind.Stream => "llm.manager.stream_generate"
  end.

(** A refusal before any route was tried. *)
Definition refusal (kind : CallKind) (result_code : ResultCode) (message : string)
    (category : LLMFailureCategory) (ref_type ref_id : string) : LLMManagerResult :=
  make_manager_failure result_code message false category (manager_stage kind) ref_type ref_id
    [] "" None false.

(** A failure of one route, behind those that were tried before. *)
Definition route_failure (kind : CallKind) (result_code : ResultCode) (message : string)
    (category : LLMFailureCategory) (attempted_routes : list string) (route_key : string)
    : LLMManagerResult :=
  make_manager_failure result_code message false category (manager_stage kind) "route" route_key
    attempted_routes route_key None false.

Definition validate_generate_request (kind : CallKind) (request : LLMGenerateRequest)
    (stage_route : option LLMStageRouteConfig) : option LLMManagerResult :=
  if is_empty (lgr_stage request)
  then Some (refusal kind ResultCode.ValidationFieldMissing "llm generate request missing stage"
               LLMFailureCategory.Routing "stage" "missing") else
  if negb (has_non_empty_value (lrq_request_id (lgr_request request)))
  then Some (refusal kind ResultCode.ValidationFieldMissing
               "llm generate request missing request_id" LLMFailureCategory.PromptAsset
               "request" "request_id") else
  if negb (has_non_empty_value (lrq_llm_call_id (lgr_request request)))
  then Some (refusal kind ResultCode.ValidationFieldMissing
               "llm generate request missing llm_call_id" LLMFailureCategory.PromptAsset
               "request" "llm_call_id") else
  if bool_decide (lrq_messages (lgr_request request) = None)
     || bool_decide (lrq_messages (lgr_request request) = Some [])
  then Some (refusal kind ResultCode.ValidationFieldMissing
               "llm generate request missing messages" LLMFailureCategory.PromptAsset
               "request" "messages") else
  if negb (has_non_empty_value (lrq_model_route (lgr_request request)))
  then Some (refusal kind ResultCode.ValidationFieldMissing
               "llm generate request missing pre-route model_route hint"
               LLMFailureCategory.Routing "request" "model_route") else
  if negb (has_value stage_route)
  then Some (refusal kind ResultCode.RuntimeRetryExhausted
               ("no stage route configured for llm stage: " +:+ lgr_stage request)
               LLMFailureCategory.Routing "stage" (lgr_stage request)) else
  None.

Definition make_pipeline_failure (kind : CallKind) (pipeline_result : PromptPipelineResult)
    (stage : string) : LLMManagerResult :=
  let prompt_asset_failure :=
    match ppr_registry_result pipeline_result with
    | Some registry_result => negb (has_value (prr_release registry_result))
    | None => true
    end in
  let message :=
    if is_empty (ppr_reason pipeline_result) then "prompt pipeline failed"
    else ppr_reason pipeline_result in
  if prompt_asset_failure
  then refusal kind ResultCode.ValidationFieldMissing message LLMFailureCategory.PromptAsset
         "stage" stage else
  let safe_to_replan :=
    bool_decide (ppr_disposition pipeline_result = PromptPolicyDisposition.OverBudget)
    || bool_decide (ppr_disposition pipeline_result = PromptPolicyDisposition.RequireRecompose) in
  make_manager_failure ResultCode.PolicyDenied message false LLMFailureCategory.PromptGovernance
    (manager_stage kind) "stage" stage [] "" (Some (ppr_disposition pipeline_result))
    safe_to_replan.

(** ** The manager *)

Section manager.
Context {Adapter : Type} {sorting : StdSort} {visiting : UnorderedVisit}.
Context {Pipeline : Type} {pipeline_ops : PromptPipelineInterface Pipeline}.
Context {World : Type}.
(** What a string holds after it was moved, and the clock. *)
Variable moved_from : string -> string.
Variable clock : World -> Z.
(** The other callers, and the adapters, as in LlmExecutor.v. *)
Variable others : World -> @Executor Adapter -> World * @AdapterRegistry Adapter * Z.
Variable ask_unary : World -> Adapter -> LLMRequest -> World * (AdapterCallResult * Z).
Variable ask_stream : World -> Adapter -> LLMRequest -> World * (StreamEnd * Z).

Record LLMManager := {
  lmg_config : LLMSubsystemConfig;
  lmg_initialized : bool;
  lmg_prompt_pipeline : Pipeline;
  lmg_model_router : ModelRouter;
  lmg_provider_catalog_snapshot : option ProviderCatalogSnapshot;
}.

Definition pipeline_allows (pipeline_result : PromptPipelineResult)
    : option (PromptComposeResult * PromptPolicyDecision) :=
  if negb (bool_decide (ppr_disposition pipeline_result = PromptPolicyDisposition.Allow))
  then None else
  let? compose_result := ppr_compose_result pipeline_result else None in
  let? policy_decision := ppr_policy_decision pipeline_result else None in
  if no_strings (ppd_governed_messages policy_decision) then None else
  Some (compose_result, policy_decision).

(** What the pipeline is asked for a request. *)
Definition run_pipeline (manager : LLMManager) (request : LLMGenerateRequest) (base : LLMRequest)
    : PromptPipelineResult :=
  let config := lmg_config manager in
  pipeline_run (lmg_prompt_pipeline manager) (make_prompt_query request config)
    (make_prompt_compose_request request base)
    (make_prompt_policy_input config
       (match lrq_runtime_budget base with
        | Some budget => default 0 (rb_max_tokens budget)
        | None => 0
        end)).

(** Up to the request for the adapters, or the refusal. *)
Definition prepare_call (kind : CallKind) (manager : LLMManager) (now_ms : Z)
    (request : LLMGenerateRequest)
    : option (result LLMManagerResult (LLMRequest * option PromptRelease)) :=
  let stage := lgr_stage request in
  let config := lmg_config manager in
  if negb (lmg_initialized manager)
  then Some (Err (refusal kind ResultCode.RuntimeRetryExhausted "llm manager is not initialized"
                    LLMFailureCategory.AdapterTransport "manager" "uninitialized")) else
  match validate_generate_request kind request (stage_route_for config stage) with
  | Some invalid_request => Some (Err invalid_request)
  | None =>
      let base := base_request kind now_ms (lgr_request request) in
      let? compose_validation :=
        validate_prompt_compose_request_field_rules (make_prompt_compose_request request base)
        else None in
      if negb (gr_ok compose_validation)
      then Some (Err (refusal kind ResultCode.ValidationFieldMissing
                        ("invalid prompt compose request: " +:+ gr_reason compose_validation)
                        LLMFailureCategory.PromptAsset "stage" stage)) else
      let pipeline_result := run_pipeline manager request base in
      match pipeline_allows pipeline_result with
      | None => Some (Err (make_pipeline_failure kind pipeline_result stage))
      | Some (compose_result, policy_decision) =>
          let call_request :=
            governed_request base (ppd_governed_messages policy_decision)
              (pcm_selected_prompt_id compose_result) (pcm_selected_version compose_result) in
          let? call_validation := validate_llm_request_field_rules call_request else None in
          if negb (gr_ok call_validation)
          then Some (Err (refusal kind ResultCode.ValidationFieldMissing
                            ("invalid llm call request: " +:+ gr_reason call_validation)
                            LLMFailureCategory.PromptGovernance "stage" stage)) else
          Some (Ok (call_request,
                    let? registry_result := ppr_registry_result pipeline_result else None in
                    prr_release registry_result))
      end
  end.

(** The routes for a request, or the refusal. *)
Definition plan_routes (kind : CallKind) (manager : LLMManager) (request : LLMGenerateRequest)
    (health : ModelRouterHealthSnapshot)
    : option (result LLMManagerResult (ProviderCatalogSnapshot * list string * list string)) :=
  let unavailable :=
    Some (Err (refusal kind ResultCode.ValidationFieldMissing
                 "provider catalog snapshot is unavailable" LLMFailureCategory.Routing "catalog"
                 "provider_catalog")) in
  let? catalog_snapshot := lmg_provider_catalog_snapshot manager else unavailable in
  if negb (catalog_consistent catalog_snapshot) then unavailable else
  let? router_result :=
    ModelRouter.resolve (lmg_model_router manager) (make_selection_hint request) catalog_snapshot
      health else None in
  match mrr_resolved_route router_result with
  | None =>
      Some (Err (refusal kind ResultCode.RuntimeRetryExhausted
                   "model router did not resolve a route" LLMFailureCategory.Routing "stage"
                   (lgr_stage request)))
  | Some resolved_route =>
      match build_route_candidates resolved_route with
      | [] =>
          Some (Err (refusal kind ResultCode.RuntimeRetryExhausted
                       "resolved route chain is empty" LLMFailureCategory.Routing "stage"
                       (lgr_stage request)))
      | route_candidates =>
          Some (Ok (catalog_snapshot, mrr_selection_reason_codes router_result, route_candidates))
      end
  end.

Definition make_normalizer_context (request : LLMRequest)
    (route_state : @AdapterRouteState Adapter) (model_metadata : ProviderModelMetadata)
    (selected_release : option PromptRelease) (now_ms : Z) : ResponseNormalizerContext :=
  {| rnc_route_key := AdapterRegistry.route_key route_state;
     rnc_provider_id := arn_provider_id (ars_registration route_state);
     rnc_model_id := arn_model_id (ars_registration route_state);
     rnc_model_name := pmm_display_name model_metadata;
     rnc_prompt_id := default "" (lrq_prompt_id request);
     rnc_prompt_version := default "" (lrq_prompt_version request);
     rnc_prompt_eval_status :=
       (let? release := selected_release else None in prl_eval_status release);
     rnc_prompt_release_scope :=
       default "" (let? release := selected_release else None in prl_release_scope release);
     rnc_request_id := lrq_request_id request;
     rnc_llm_call_id := lrq_llm_call_id request;
     rnc_completed_at_ms := now_ms |}.

(** The tags of a response, before those of its usage. *)
Definition response_tags (route_key : string) (selection_reason_codes : list string)
    (normalization : ResponseNormalizationResult) : list string :=
  ["route=" +:+ route_key]
  ++ ((fun reason_code => "selection_reason=" +:+ reason_code) <$> selection_reason_codes)
  ++ (if is_empty (rnr_provider_trace_id normalization) then []
      else ["provider_trace_id=" +:+ rnr_provider_trace_id normalization])
  ++ ((fun audit_event => "audit=" +:+ audit_event) <$> rnr_audit_events normalization)
  ++ (if rnr_reasoning_content_stripped normalization
      then ["reasoning_content_stripped=true"] else []).

Definition tagged_response (route_key : string) (selection_reason_codes : list string)
    (normalization : ResponseNormalizationResult) (model_metadata : ProviderModelMetadata)
    (response : LLMResponse) : LLMResponse :=
  let response :=
    append_response_tags response (response_tags route_key selection_reason_codes normalization) in
  match rnr_usage_fragment normalization with
  | Some usage => append_usage_tags response (aggregate usage model_metadata)
  | None => response
  end.

Definition kind_text (kind : CallKind) (unary stream : string) : string :=
  match kind with CallKind.Unary => unary | CallKind.Stream => stream end.

(** What the loop makes of the end of an execution: a failure of the route, or the response
    that it is answered with. *)
Definition judge_execution (kind : CallKind) (call_request : LLMRequest)
    (selected_release : option PromptRelease) (catalog_snapshot : ProviderCatalogSnapshot)
    (selection_reason_codes : list string) (registry : @AdapterRegistry Adapter) (now_ms : Z)
    (attempted_routes : list string) (route_key : string)
    (execution_result : LLMCallExecutionResult) : option (result LLMManagerResult LLMResponse) :=
  if negb (execution_consistent execution_result)
  then Some (Err (route_failure kind ResultCode.RuntimeRetryExhausted
                    (kind_text kind "llm call executor returned inconsistent result"
                       "llm call executor returned inconsistent streaming result")
                    LLMFailureCategory.AdapterTransport attempted_routes route_key)) else
  if negb (execution_succeeded execution_result)
  then
    let result_code := default ResultCode.RuntimeRetryExhausted (cer_result_code execution_result) in
    Some (Err (make_manager_failure_from_error
                 (default (make_manager_error result_code
                             (kind_text kind "llm call executor failed without error payload"
                                "llm streaming executor failed without error payload")
                             false false (execution_stage kind) "route" route_key)
                    (cer_error execution_result))
                 result_code LLMFailureCategory.AdapterTransport attempted_routes route_key))
  else
  let? route_state := resolve_route registry route_key
    else Some (Err (route_failure kind ResultCode.RuntimeRetryExhausted
                      "adapter registry lost resolved route state" LLMFailureCategory.Routing
                      attempted_routes route_key)) in
  let? model_metadata :=
    find_model catalog_snapshot (arn_provider_id (ars_registration route_state))
      (arn_model_id (ars_registration route_state))
    else Some (Err (route_failure kind ResultCode.ValidationFieldMissing
                      "provider catalog metadata missing for resolved route"
                      LLMFailureCategory.Routing attempted_routes route_key)) in
  let? adapter_result := cer_adapter_result execution_result else None in
  let? normalization :=
    normalize adapter_result
      (make_normalizer_context call_request route_state model_metadata selected_release now_ms)
    else None in
  if negb (normalization_consistent normalization) || negb (normalization_succeeded normalization)
  then
    let result_code := default ResultCode.ValidationFieldMissing (rnr_result_code normalization) in
    Some (Err (make_manager_failure_from_error
                 (default (make_manager_error result_code
                             "response normalizer failed without error payload" false false
                             (manager_stage kind) "route" route_key)
                    (rnr_error normalization))
                 result_code LLMFailureCategory.ProviderProtocol attempted_routes route_key))
  else
  let? response := rnr_response normalization else None in
  Some (Ok (tagged_response route_key selection_reason_codes normalization model_metadata response)).

(** A response as the result, which is checked. *)
Definition success_result (kind : CallKind) (attempted_routes : list string) (route_key : string)
    (response : LLMResponse) : LLMManagerResult :=
  let success :=
    {| lmr_code := None; lmr_response := Some response; lmr_error := None;
       lmr_resolved_route := route_key; lmr_attempted_routes := attempted_routes;
       lmr_failure_category := None; lmr_governance_disposition := None;
       lmr_fallback_used := at_least_two attempted_routes |} in
  if negb (manager_result_consistent success)
  then route_failure kind ResultCode.RuntimeRetryExhausted
         (kind_text kind "llm manager produced inconsistent success result"
            "llm manager produced inconsistent streaming success result")
         LLMFailureCategory.AdapterTransport attempted_routes route_key
  else success.

(** The answer behind the last route. *)
Definition exhausted (kind : CallKind) (stage : string) (attempted_routes : list string)
    (last_failure : option LLMManagerResult) : LLMManagerResult :=
  let last_route := default "" (last attempted_routes) in
  let or_exhausted category :=
    if at_least_two attempted_routes then LLMFailureCategory.FallbackExhausted else category in
  match last_failure with
  | Some failure =>
      let failure :=
        if at_least_two attempted_routes then elevate_to_fallback_exhausted failure else failure in
      if negb (manager_result_consistent failure)
      then make_manager_failure ResultCode.RuntimeRetryExhausted
             (kind_text kind "llm manager produced inconsistent failure result"
                "llm manager produced inconsistent streaming failure result")
             false (or_exhausted LLMFailureCategory.AdapterTransport) (manager_stage kind)
             "stage" stage attempted_routes last_route None false
      else failure
  | None =>
      make_manager_failure ResultCode.RuntimeRetryExhausted
        (kind_text kind "llm manager exhausted route chain without result"
           "llm manager exhausted streaming route chain without result")
        false (or_exhausted LLMFailureCategory.Routing) (manager_stage kind) "stage" stage
        attempted_routes last_route None false
  end.

(** The loop over the routes. Others may act between the execution and the look at the
    route. *)
Fixpoint try_routes (kind : CallKind) (stage : string) (call_request : LLMRequest)
    (selected_release : option PromptRelease) (catalog_snapshot : ProviderCatalogSnapshot)
    (selection_reason_codes : list string) (w : World) (executor : @Executor Adapter)
    (attempted_routes : list string) (last_failure : option LLMManagerResult)
    (route_candidates : list string) : option (World * @Executor Adapter * LLMManagerResult) :=
  match route_candidates with
  | [] => Some (w, executor, exhausted kind stage attempted_routes last_failure)
  | route_key :: rest =>
      let? executed :=
        execute moved_from others ask_unary ask_stream kind w executor route_key call_request
        else None in
      let '(w, executor, execution_result) := executed in
      let attempted_routes := attempted_routes ++ [route_key] in
      let '(w, executor) := interfere others w executor in
      let? judged :=
        judge_execution kind call_request selected_release catalog_snapshot
          selection_reason_codes (exc_registry executor) (clock w) attempted_routes route_key
          execution_result else None in
      match judged with
      | Err failure =>
          try_routes kind stage call_request selected_release catalog_snapshot
            selection_reason_codes w executor attempted_routes (Some failure) rest
      | Ok response => Some (w, executor, success_result kind attempted_routes route_key response)
      end
  end.

(** generate and stream_generate. *)
Definition generate_call (kind : CallKind) (manager : LLMManager) (w : World)
    (executor : @Executor Adapter) (request : LLMGenerateRequest)
    : option (World * @Executor Adapter * LLMManagerResult) :=
  let? prepared := prepare_call kind manager (clock w) request else None in
  match prepared with
  | Err failure => Some (w, executor, failure)
  | Ok (call_request, selected_release) =>
      let '(w, executor) := interfere others w executor in
      let? planned :=
        plan_routes kind manager request (health_snapshot (exc_registry executor)) else None in
      match planned with
      | Err failure => Some (w, executor, failure)
      | Ok (catalog_snapshot, selection_reason_codes, route_candidates) =>
          try_routes kind (lgr_stage request) call_request selected_release catalog_snapshot
            selection_reason_codes w executor [] None route_candidates
      end
  end.

Definition generate := generate_call CallKind.Unary.

(** HealthStatus of the manager; its parts are never null. *)
Definition manager_health_check (manager : LLMManager) (executor : @Executor Adapter)
    : HealthStatus :=
  if negb (lmg_initialized manager)
  then {| hst_ready := false; hst_degraded := false;
          hst_message := "llm manager is not initialized" |} else
  match lmg_provider_catalog_snapshot manager, arg_snapshot (exc_registry executor) with
  | Some catalog_snapshot, Some routes =>
      let ready := exc_initialized executor in
      let degraded :=
        ready && (bool_decide (length routes = 0%nat)
                  || bool_decide (length (cat_models catalog_snapshot) = 0%nat)) in
      {| hst_ready := ready; hst_degraded := degraded;
         hst_message :=
           if ready
           then (if degraded then "llm manager ready with partial dependencies"
                 else "llm manager ready")
           else "llm manager dependency chain is incomplete" |}
  | _, _ =>
      {| hst_ready := false; hst_degraded := false;
         hst_message := "llm manager dependency chain is incomplete" |}
  end.

(** ** Its set-up *)

Definition make_prompt_pipeline_config (config : LLMSubsystemConfig) : PromptPipelineConfig :=
  {| plc_registry_config :=
       {| prc_asset_sources := lsc_prompt_asset_sources config;
          prc_trusted_sources := lsc_trusted_sources config |};
     plc_composer_config :=
       {| pcc_template_engine := "simple_var"; pcc_max_few_shot_count := 5 |};
     plc_policy_config :=
       {| ppc_default_allowed_releases := lsc_allowed_prompt_releases config;
          ppc_default_trusted_sources := lsc_trusted_sources config;
          ppc_deny_on_missing_allowlist := true |} |}.

(** The limits of the sessions, for a configuration; the doubled timeout may overflow. *)
Definition stream_sessions_config (config : LLMSubsystemConfig)
    : option StreamSessionRegistryConfig :=
  let doubled := ltc_timeout_ms (lsc_timeout_policy config) * 2 in
  if negb (s64_fits doubled) then None else
  Some {| ssc_max_active_sessions := Z.max 1 (lsc_worker_threads config);
          ssc_max_buffered_chars := Z.max 4096 (u32 (lsc_worker_threads config * 8192));
          ssc_session_ttl_ms := Z.max 1000 (clamp_timeout_ms (Z.max doubled 1000)) |}.

Definition with_manager (manager : LLMManager) (initialized : bool) (pipeline : Pipeline)
    (router : ModelRouter) (catalog_snapshot : option ProviderCatalogSnapshot) : LLMManager :=
  {| lmg_config := lmg_config manager; lmg_initialized := initialized;
     lmg_prompt_pipeline := pipeline; lmg_model_router := router;
     lmg_provider_catalog_snapshot := catalog_snapshot |}.

(** What init works on: the manager and the objects it shares. *)
Record ManagerSetup := {
  mst_manager : LLMManager;
  mst_executor : @Executor Adapter;
  mst_sessions : StreamSessionRegistry;
}.

Definition setup_with (setup : ManagerSetup) (manager : LLMManager)
    (executor : @Executor Adapter) : ManagerSetup :=
  {| mst_manager := manager; mst_executor := executor; mst_sessions := mst_sessions setup |}.

(** [load_catalog] is the repository of the catalog: its init, reload and snapshot. *)
Definition manager_init (load_catalog : ProviderCatalogSourceConfig -> option ProviderCatalogSnapshot)
    (setup : ManagerSetup) (config : LLMSubsystemConfig) : option (ManagerSetup * bool) :=
  let manager := mst_manager setup in
  let executor := mst_executor setup in
  let left manager executor := Some (setup_with setup manager executor, false) in
  let manager :=
    with_manager manager false (lmg_prompt_pipeline manager) (lmg_model_router manager)
      (lmg_provider_catalog_snapshot manager) in
  if negb (subsystem_config_consistent config) then left manager executor else
  let '(pipeline, pipeline_ready) :=
    pipeline_init (lmg_prompt_pipeline manager) (make_prompt_pipeline_config config) in
  let manager :=
    with_manager manager false pipeline (lmg_model_router manager)
      (lmg_provider_catalog_snapshot manager) in
  if negb pipeline_ready then left manager executor else
  let '(router, router_ready) := ModelRouter.init config (lmg_model_router manager) in
  let manager :=
    with_manager manager false pipeline router (lmg_provider_catalog_snapshot manager) in
  if negb router_ready then left manager executor else
  let '(executor, executor_ready) := executor_init executor config in
  if negb executor_ready then left manager executor else
  let '(executor, registry_ready) :=
    match arg_snapshot (exc_registry executor) with
    | Some _ => (executor, true)
    | None =>
        let '(registry, ready) :=
          AdapterRegistry.init
            {| arc_blocked_failure_threshold :=
                 ltc_circuit_breaker_threshold (lsc_timeout_policy config) |}
            (exc_registry executor) in
        (with_registry executor registry, ready)
    end in
  if negb registry_ready then left manager executor else
  let loaded :=
    match lmg_provider_catalog_snapshot manager with
    | Some catalog_snapshot => Some catalog_snapshot
    | None => load_catalog (lsc_provider_catalog_sources config)
    end in
  let manager := with_manager manager false pipeline router loaded in
  let? catalog_snapshot := loaded else left manager executor in
  if negb (catalog_consistent catalog_snapshot) then left manager executor else
  let? sessions_config := stream_sessions_config config else None in
  let '(sessions, sessions_ready) := StreamSessions.init (mst_sessions setup) sessions_config in
  if negb sessions_ready then left manager executor else
  Some ({| mst_manager :=
             {| lmg_config := config; lmg_initialized := true; lmg_prompt_pipeline := pipeline;
                lmg_model_router := router; lmg_provider_catalog_snapshot := loaded |};
           mst_executor := executor; mst_sessions := sessions |}, true).

Definition lookup_prompt_asset_metadata (manager : LLMManager) (prompt_release_id : string)
    : option PromptAssetMetadata :=
  if negb (lmg_initialized manager) || is_empty prompt_release_id then None
  else pipeline_lookup (lmg_prompt_pipeline manager) prompt_release_id.

(** ** Properties of the results *)

Lemma last_app_one {A} (l : list A) x : last (l ++ [x]) = Some x.
Proof. by rewrite last_snoc. Qed.

(** A refusal and a failure of a route are consistent, but for a refusal by governance
    without a disposition. *)
Lemma refusal_consistent kind result_code message category ref_type ref_id :
  manager_result_consistent (refusal kind result_code message category ref_type ref_id) =
  match category with
  | LLMFailureCategory.PromptGovernance | LLMFailureCategory.FallbackExhausted => false
  | _ => true
  end.
Proof. by destruct category, result_code. Qed.

Lemma pipeline_failure_consistent kind pipeline_result stage :
  manager_result_consistent (make_pipeline_failure kind pipeline_result stage) = true.
Proof.
  unfold make_pipeline_failure. destruct (match ppr_registry_result pipeline_result with Some _ => _ | None => _ end).
  - apply refusal_consistent.
  - by destruct (ppr_disposition pipeline_result).
Qed.

(** ** How a request ends *)

Lemma build_candidates_sound route :
  NoDup (build_route_candidates route) /\ Forall (fun key => key <> "") (build_route_candidates route).
Proof.
  unfold build_route_candidates. generalize (rmr_primary_route route :: rmr_fallback_routes route).
  assert (NoDup (@nil string) /\ Forall (fun key => key <> "") (@nil string)) as H
    by (split; constructor).
  revert H. generalize (@nil string). intros kept H routes. revert kept H.
  induction routes as [|key routes IH]; intros kept [Hd Hf]; cbn; [done|].
  destruct (is_empty key) eqn:E; [by apply IH|]. apply is_empty_false in E.
  apply IH. split; [by apply append_new_nodup|].
  rewrite Forall_forall in *. intros x [?| ->]%append_new_elem; [by apply Hf|done].
Qed.

(** The failure of the last of these routes. *)
Inductive route_failed (attempted : list string) : LLMManagerResult -> Prop :=
| route_failed_with code error category :
    ei_failure_type error = Some (classify_result_code code) ->
    category = LLMFailureCategory.Routing \/ category = LLMFailureCategory.AdapterTransport \/
      category = LLMFailureCategory.ProviderProtocol ->
    route_failed attempted
      {| lmr_code := Some code; lmr_response := None; lmr_error := Some error;
         lmr_resolved_route := default "" (last attempted); lmr_attempted_routes := attempted;
         lmr_failure_category := Some category; lmr_governance_disposition := None;
         lmr_fallback_used := false |}.

(** A route is tried: its execution ends, and then others act. *)
Definition tried (kind : CallKind) (call_request : LLMRequest) (w : World)
    (executor : @Executor Adapter) (route_key : string) (w' : World)
    (executor' : @Executor Adapter) (execution : LLMCallExecutionResult) : Prop :=
  exists w1 executor1,
    execute moved_from others ask_unary ask_stream kind w executor route_key call_request
      = Some (w1, executor1, execution) /\
    interfere others w1 executor1 = (w', executor').

(** An execution answers: it is consistent and has succeeded, its route and its model are
    still known, and its response can be normalized. *)
Definition answers (call_request : LLMRequest) (selected_release : option PromptRelease)
    (catalog_snapshot : ProviderCatalogSnapshot) (registry : @AdapterRegistry Adapter) (now_ms : Z)
    (route_key : string) (execution : LLMCallExecutionResult) : Prop :=
  execution_consistent execution = true /\ execution_succeeded execution = true /\
  exists route_state model_metadata adapter_result normalization,
    resolve_route registry route_key = Some route_state /\
    find_model catalog_snapshot (arn_provider_id (ars_registration route_state))
      (arn_model_id (ars_registration route_state)) = Some model_metadata /\
    cer_adapter_result execution = Some adapter_result /\
    normalize adapter_result
      (make_normalizer_context call_request route_state model_metadata selected_release now_ms)
      = Some normalization /\
    normalization_consistent normalization = true /\ normalization_succeeded normalization = true.

(** These routes were tried one after the other, and none of them answered. *)
Inductive passed_over (kind : CallKind) (call_request : LLMRequest)
    (selected_release : option PromptRelease) (catalog_snapshot : ProviderCatalogSnapshot)
    : World -> @Executor Adapter -> list string -> World -> @Executor Adapter -> Prop :=
| passed_none w executor :
    passed_over kind call_request selected_release catalog_snapshot w executor [] w executor
| passed_route w executor route_key rest w1 executor1 execution w2 executor2 :
    tried kind call_request w executor route_key w1 executor1 execution ->
    ~ answers call_request selected_release catalog_snapshot (exc_registry executor1) (clock w1)
        route_key execution ->
    passed_over kind call_request selected_release catalog_snapshot w1 executor1 rest w2 executor2 ->
    passed_over kind call_request selected_release catalog_snapshot w executor (route_key :: rest)
      w2 executor2.

Lemma passed_over_snoc kind call_request release catalog w executor routes w1 executor1 route
    w2 executor2 execution :
  passed_over kind call_request release catalog w executor routes w1 executor1 ->
  tried kind call_request w1 executor1 route w2 executor2 execution ->
  ~ answers call_request release catalog (exc_registry executor2) (clock w2) route execution ->
  passed_over kind call_request release catalog w executor (routes ++ [route]) w2 executor2.
Proof.
  induction 1 as [|? ? ? ? ? ? ? ? ? Ht Hno _ IH]; intros Htried Hnot; cbn [app].
  - eapply passed_route; [done..|constructor].
  - eapply passed_route; [done..|]. by apply IH.
Qed.

Definition answered_result (before : list string) (route : string) (response : LLMResponse)
    : LLMManagerResult :=
  {| lmr_code := None; lmr_response := Some response; lmr_error := None;
     lmr_resolved_route := route; lmr_attempted_routes := before ++ [route];
     lmr_failure_category := None; lmr_governance_disposition := None;
     lmr_fallback_used := negb (bool_decide (before = [])) |}.

Definition chain_failure (candidates : list string) (failure : LLMManagerResult)
    : LLMManagerResult :=
  {| lmr_code := lmr_code failure; lmr_response := None; lmr_error := lmr_error failure;
     lmr_resolved_route := lmr_resolved_route failure; lmr_attempted_routes := candidates;
     lmr_failure_category :=
       if at_least_two candidates then Some LLMFailureCategory.FallbackExhausted
       else lmr_failure_category failure;
     lmr_governance_disposition := None; lmr_fallback_used := false |}.

(** The end of a request that came to its routes, from the state it found to the one it
    leaves: the routes before the one that answers were tried in order and did not answer,
    and it ends with the answer; or all were tried, none answered, and the failure of the last
    one is reported, as that of the whole chain if there are several. *)
Inductive call_outcome (kind : CallKind) (call_request : LLMRequest)
    (selected_release : option PromptRelease) (catalog_snapshot : ProviderCatalogSnapshot)
    (w : World) (executor : @Executor Adapter) (candidates : list string) (w' : World)
    (executor' : @Executor Adapter) : LLMManagerResult -> Prop :=
| answered_by before route after response w1 executor1 execution :
    candidates = before ++ route :: after ->
    passed_over kind call_request selected_release catalog_snapshot w executor before w1 executor1 ->
    tried kind call_request w1 executor1 route w' executor' execution ->
    answers call_request selected_release catalog_snapshot (exc_registry executor') (clock w')
      route execution ->
    llm_response_ok response ->
    (exists adapter_result original, cer_adapter_result execution = Some adapter_result /\
       given ask_unary ask_stream adapter_result /\
       acr_response adapter_result = Some original /\ says original response) ->
    (exists tags, lrs_tags response = Some tags /\ ("route=" +:+ route) ∈ tags) ->
    call_outcome kind call_request selected_release catalog_snapshot w executor candidates
      w' executor' (answered_result before route response)
| none_answered failure :
    passed_over kind call_request selected_release catalog_snapshot w executor candidates
      w' executor' ->
    route_failed candidates failure ->
    call_outcome kind call_request selected_release catalog_snapshot w executor candidates
      w' executor' (chain_failure candidates failure).

Lemma at_least_two_snoc {A} (l : list A) x : at_least_two (l ++ [x]) = negb (bool_decide (l = [])).
Proof. by destruct l as [|y [|z l]]. Qed.

Lemma answered_consistent before route response :
  route <> "" -> manager_result_consistent (answered_result before route response) = true.
Proof.
  intros Hr. unfold manager_result_consistent. cbn. rewrite last_snoc, at_least_two_snoc.
  rewrite (proj2 (is_empty_false route)) by done. cbn. rewrite (bool_decide_true (route = route)) by done.
  cbn. by destruct (bool_decide (before = [])).
Qed.

Lemma chain_failure_consistent candidates failure :
  Forall (fun key => key <> "") candidates -> candidates <> [] -> route_failed candidates failure ->
  manager_result_consistent (chain_failure candidates failure) = true.
Proof.
  intros Hf Hne Hfail. destruct Hfail as [code error category He Hcat]. cbn.
  assert (is_Some (last candidates)) as [route Hl] by (apply last_is_Some; done).
  assert (route <> "") as Hr.
  { apply last_Some in Hl as [l ->]. rewrite Forall_app, Forall_singleton in Hf. by destruct Hf. }
  unfold manager_result_consistent. cbn. rewrite Hl. cbn. rewrite He.
  rewrite (proj2 (is_empty_false route)) by done. rewrite (bool_decide_true (route = route)) by done.
  rewrite (bool_decide_true (classify_result_code code = classify_result_code code)) by done. cbn.
  destruct (at_least_two candidates); cbn; [done|]. by destruct Hcat as [-> | [-> | ->]].
Qed.

Lemma call_outcome_consistent kind call_request release catalog w executor candidates w' executor' result :
  Forall (fun key => key <> "") candidates -> candidates <> [] ->
  call_outcome kind call_request release catalog w executor candidates w' executor' result ->
  manager_result_consistent result = true.
Proof.
  intros Hf Hne H. destruct H as [before route after response ? ? ? Hc|failure _ Hfail].
  - apply answered_consistent. rewrite Hc, Forall_app, Forall_cons in Hf. by destruct Hf as (_ & ? & _).
  - by apply chain_failure_consistent.
Qed.

Lemma or_last_nonempty route attempted :
  route <> "" -> or_last_route route (attempted ++ [route]) = default "" (last (attempted ++ [route])).
Proof. intros H. unfold or_last_route. rewrite last_snoc, (proj2 (is_empty_false route)) by done. done. Qed.

Lemma route_failure_failed kind result_code message category attempted route :
  route <> "" ->
  category = LLMFailureCategory.Routing \/ category = LLMFailureCategory.AdapterTransport \/
    category = LLMFailureCategory.ProviderProtocol ->
  route_failed (attempted ++ [route])
    (route_failure kind result_code message category (attempted ++ [route]) route).
Proof.
  intros Hr Hc. unfold route_failure, make_manager_failure, failure_with.
  rewrite or_last_nonempty by done. by apply route_failed_with.
Qed.

Lemma failure_from_error_failed error result_code category attempted route :
  route <> "" ->
  default (classify_result_code result_code) (ei_failure_type error) = classify_result_code result_code ->
  category = LLMFailureCategory.Routing \/ category = LLMFailureCategory.AdapterTransport \/
    category = LLMFailureCategory.ProviderProtocol ->
  route_failed (attempted ++ [route])
    (make_manager_failure_from_error error result_code category (attempted ++ [route]) route).
Proof.
  intros Hr He Hc. unfold make_manager_failure_from_error, failure_with.
  rewrite or_last_nonempty by done. apply route_failed_with; [|done]. cbn.
  by destruct (ei_failure_type error); cbn in *; [f_equal|].
Qed.

Lemma succeeded_response execution :
  execution_consistent execution = true -> execution_succeeded execution = true ->
  exists adapter_result response, cer_adapter_result execution = Some adapter_result /\
    acr_response adapter_result = Some response /\ acr_error adapter_result = None.
Proof.
  unfold execution_consistent, execution_succeeded.
  destruct (cer_adapter_result execution) as [a|]; [|done]. intros Hc Hs.
  destruct (adapter_result_consistent a) eqn:Ha; [|done]. unfold adapter_result_consistent, has_value in *.
  destruct (acr_response a) as [response|] eqn:Hr; [|done]. exists a, response.
  by destruct (acr_error a).
Qed.

Lemma failed_error execution :
  execution_consistent execution = true -> execution_succeeded execution = false ->
  exists error code, cer_error execution = Some error /\ cer_result_code execution = Some code /\
    default (classify_result_code code) (ei_failure_type error) = classify_result_code code.
Proof.
  unfold execution_consistent. intros Hc Hs. rewrite Hs in Hc. clear Hs. revert Hc.
  destruct (cer_adapter_result execution) as [a|]; [destruct (adapter_result_consistent a); [|done]|];
    cbn; (destruct (cer_failure_reason execution), (cer_error execution) as [error|],
      (cer_result_code execution) as [code|]; try done; intros H; exists error, code;
      split_and!; [done..|]; destruct (ei_failure_type error); [|done]; cbn; by reflect_tests).
Qed.

(** A route is judged to have failed, or its response is valid and names it. *)
Lemma judge_exact kind call_request release catalog reasons registry now attempted route execution judged :
  route <> "" ->
  judge_execution kind call_request release catalog reasons registry now (attempted ++ [route]) route
    execution = Some judged ->
  match judged with
  | Err failure => route_failed (attempted ++ [route]) failure
  | Ok response =>
      llm_response_ok response /\
      (exists adapter_result original, cer_adapter_result execution = Some adapter_result /\
         execution_consistent execution = true /\ execution_succeeded execution = true /\
         acr_response adapter_result = Some original /\ says original response) /\
      exists tags, lrs_tags response = Some tags /\ ("route=" +:+ route) ∈ tags
  end.
Proof.
  intros Hr. unfold judge_execution.
  destruct (execution_consistent execution) eqn:Hc; cbn;
    [|intros [= <-]; apply route_failure_failed; [done|by (right; left)]].
  destruct (execution_succeeded execution) eqn:Hs; cbn.
  2: { destruct (failed_error _ Hc Hs) as (error & code & -> & -> & He). cbn. intros [= <-].
       apply failure_from_error_failed; [done..|by (right; left)]. }
  destruct (resolve_route registry route) as [route_state|];
    [|intros [= <-]; apply route_failure_failed; [done|by left]].
  destruct (find_model catalog _ _) as [model|];
    [|intros [= <-]; apply route_failure_failed; [done|by left]].
  destruct (succeeded_response _ Hc Hs) as (a & original & Ha & _ & He). rewrite Ha.
  set (context := make_normalizer_context _ _ _ _ _).
  destruct (normalize a context) as [n|] eqn:En; [|done].
  destruct (normalize_cases _ _ _ He En)
    as [(events & reason & ->)|(Hn & original' & response & Ho & Hresp & Hok & Hsays)].
  - cbn. intros [= <-]. apply failure_from_error_failed; [done..|by (right; right)].
  - unfold normalization_succeeded. rewrite Hn, Hresp. cbn. intros [= <-].
    unfold tagged_response, append_usage_tags.
    set (tagged := append_response_tags response _).
    assert (exists more, (match rnr_usage_fragment n with
              | Some usage => append_response_tags tagged (usage_tags (aggregate usage model))
              | None => tagged end) = append_response_tags tagged more) as [more ->]
      by (destruct (rnr_usage_fragment n); [by eexists|by exists []]).
    split; [by apply append_tags_ok, append_tags_ok|].
    split.
    { exists a, original'. split_and!; [done..|].
      destruct (append_tags_with more tagged) as [all ->]. unfold tagged.
      by destruct (append_tags_with (response_tags route reasons n) response) as [all' ->]. }
    assert (("route=" +:+ route) ∈ default [] (lrs_tags (append_response_tags tagged more))) as Hin.
    { apply append_tags_elem. left. unfold tagged. apply append_tags_elem. right.
      split; [|done]. unfold response_tags. cbn. left. }
    destruct (lrs_tags _) as [tags|]; [by exists tags|]. by apply not_elem_of_nil in Hin.
Qed.

(** The loop goes on exactly where the execution did not answer. *)
Lemma judge_answers kind call_request release catalog reasons registry now attempted route execution judged :
  judge_execution kind call_request release catalog reasons registry now attempted route execution
    = Some judged ->
  match judged with
  | Err _ => ~ answers call_request release catalog registry now route execution
  | Ok _ => answers call_request release catalog registry now route execution
  end.
Proof.
  unfold judge_execution, answers.
  destruct (execution_consistent execution) eqn:Hc; cbn [negb]; [|by intros [= <-] (? & _)].
  destruct (execution_succeeded execution) eqn:Hs; cbn [negb]; [|by intros [= <-] (_ & ? & _)].
  destruct (resolve_route registry route) as [route_state|] eqn:Er;
    [|by intros [= <-] (_ & _ & ? & ? & ? & ? & ? & _)].
  destruct (find_model catalog _ _) as [model|] eqn:Em;
    [|intros [= <-] (_ & _ & ? & ? & ? & ? & ? & ? & _); congruence].
  destruct (cer_adapter_result execution) as [a|] eqn:Ea; [|done].
  destruct (normalize a _) as [n|] eqn:En; [|done].
  destruct (negb (normalization_consistent n) || negb (normalization_succeeded n)) eqn:Eno.
  - intros [= <-] (_ & _ & ? & ? & ? & n' & ? & ? & ? & Hn & H1 & H2).
    assert (n' = n) as -> by congruence. by rewrite H1, H2 in Eno.
  - apply orb_false_iff in Eno as [H1%negb_false_iff H2%negb_false_iff].
    destruct (rnr_response n) as [response|]; [|done]. intros [= <-].
    split; [done|]. split; [done|]. by exists route_state, model, a, n.
Qed.

Lemma success_result_exact kind attempted route response :
  route <> "" ->
  success_result kind (attempted ++ [route]) route response = answered_result attempted route response.
Proof.
  intros Hr. unfold success_result. rewrite at_least_two_snoc. fold (answered_result attempted route response).
  by rewrite answered_consistent.
Qed.

Lemma exhausted_exact kind stage attempted failure :
  Forall (fun key => key <> "") attempted -> attempted <> [] -> route_failed attempted failure ->
  exhausted kind stage attempted (Some failure) = chain_failure attempted failure.
Proof.
  intros Hf Hne Hfail. pose proof (chain_failure_consistent _ _ Hf Hne Hfail) as Hcons.
  unfold exhausted.
  assert ((if at_least_two attempted then elevate_to_fallback_exhausted failure else failure) =
          chain_failure attempted failure) as ->.
  { destruct Hfail. unfold elevate_to_fallback_exhausted, chain_failure. cbn.
    by destruct (at_least_two attempted). }
  by rewrite Hcons.
Qed.

(** An execution that succeeds ends with a good answer. *)
Lemma ends_given budget (call : @Call Adapter) verdicts execution adapter_result :
  ends moved_from budget call verdicts execution -> execution_consistent execution = true ->
  execution_succeeded execution = true -> cer_adapter_result execution = Some adapter_result ->
  exists message, Good adapter_result message ∈ verdicts.
Proof.
  intros Hends Hc Hs Ha. destruct Hends as [earlier good message Hv _| | |].
  - cbn in Ha. injection Ha as <-. exists message. rewrite Hv. apply elem_of_app. right. left.
  - unfold execution_consistent in Hc. rewrite Hs in Hc. cbn in Hc. rewrite !andb_false_r in Hc.
    by destruct (match kept with Some _ => _ | None => _ end).
  - unfold execution_consistent in Hc. rewrite Hs in Hc. cbn in Hc. rewrite !andb_false_r in Hc.
    by destruct (match kept with Some _ => _ | None => _ end).
  - done.
Qed.

(** An execution returns, and what it succeeds with is the answer of an adapter. *)
Lemma execute_given kind w executor route_key request :
  0 <= retry_budget executor < 2 ^ 32 - 1 ->
  exists w' executor' execution,
    execute moved_from others ask_unary ask_stream kind w executor route_key request =
      Some (w', executor', execution) /\
    retry_budget executor' = retry_budget executor /\
    forall adapter_result, execution_consistent execution = true ->
      execution_succeeded execution = true -> cer_adapter_result execution = Some adapter_result ->
      given ask_unary ask_stream adapter_result.
Proof.
  intros Hb.
  destruct (drive_returns moved_from others ask_unary ask_stream (execution_fuel executor) w executor
    (begin_call kind route_key request) [])
    as (w' & executor' & call' & execution & Hd & Hb' & Hends & _);
    [done|by split|unfold execution_fuel; cbn; lia|].
  exists w', executor', execution. split; [done|]. split; [done|]. intros adapter_result Hc Hs Ha.
  destruct (ends_given _ _ _ _ _ Hends Hc Hs Ha) as [message Hin]. by eapply drive_heard_given.
Qed.

(** The loop, from where it is. *)
Lemma try_routes_exact kind stage call_request release catalog reasons w0 executor0 routes :
  forall w executor attempted last_failure w' executor' result,
  0 <= retry_budget executor < 2 ^ 32 - 1 ->
  Forall (fun key => key <> "") (attempted ++ routes) -> attempted ++ routes <> [] ->
  match last_failure with
  | Some failure => route_failed attempted failure
  | None => attempted = []
  end ->
  passed_over kind call_request release catalog w0 executor0 attempted w executor ->
  try_routes kind stage call_request release catalog reasons w executor attempted last_failure routes
    = Some (w', executor', result) ->
  call_outcome kind call_request release catalog w0 executor0 (attempted ++ routes) w' executor' result.
Proof.
  induction routes as [|route routes IH]; intros w executor attempted last_failure w' executor' result
    Hb Hf Hne Hlast Hpassed H; cbn [try_routes] in H.
  - injection H as <- <- <-. rewrite app_nil_r in *.
    destruct last_failure as [failure|]; [|done]. rewrite exhausted_exact by done.
    by apply none_answered.
  - destruct (execute_given kind w executor route call_request Hb)
      as (w1 & executor1 & execution & Ex & Hb1 & Hgiven). rewrite Ex in H.
    destruct (interfere others w1 executor1) as [w2 executor2] eqn:Ei.
    assert (retry_budget executor2 = retry_budget executor) as Hb2.
    { unfold interfere in Ei. destruct (others w1 executor1) as [[? ?] ?]. by injection Ei as _ <-. }
    assert (tried kind call_request w executor route w2 executor2 execution) as Htried
      by (by exists w1, executor1).
    assert (route <> "") as Hr by (rewrite Forall_app, Forall_cons in Hf; by destruct Hf as (_ & ? & _)).
    destruct (judge_execution _ _ _ _ _ _ _ _ _ _) as [judged|] eqn:Ej; [|done].
    pose proof (judge_answers _ _ _ _ _ _ _ _ _ _ _ Ej) as Hans.
    apply judge_exact in Ej; [|done]. destruct judged as [response|failure].
    + injection H as <- <- <-. destruct Ej as (Hok & (a & original & Ha & Hc & Hs & Ho & Hsays) & Htag).
      rewrite success_result_exact by done.
      apply (answered_by _ _ _ _ _ _ _ _ _ attempted route routes response w executor execution); try done.
      exists a, original. split; [done|]. split; [by apply Hgiven|done].
    + assert (attempted ++ route :: routes = (attempted ++ [route]) ++ routes) as E
        by by rewrite <-app_assoc.
      rewrite E in Hf, Hne |- *.
      apply (IH w2 executor2 (attempted ++ [route]) (Some failure) w' executor' result); try done.
      * by rewrite Hb2.
      * by eapply passed_over_snoc.
Qed.

(** Refused before any route was tried. *)
Record refused (result : LLMManagerResult) : Prop := {
  rfs_response : lmr_response result = None;
  rfs_error : is_Some (lmr_error result) /\ is_Some (lmr_code result);
  rfs_routes : lmr_attempted_routes result = [] /\ lmr_fallback_used result = false;
  rfs_consistent : manager_result_consistent result = true \/
    lmr_failure_category result = Some LLMFailureCategory.PromptGovernance /\
    lmr_governance_disposition result = None;
}.

Lemma refusal_refused kind result_code message category ref_type ref_id :
  category <> LLMFailureCategory.FallbackExhausted ->
  refused (refusal kind result_code message category ref_type ref_id).
Proof.
  intros Hc. split; try done. rewrite refusal_consistent.
  destruct category; try (by left). by right.
Qed.

Lemma pipeline_failure_refused kind pipeline_result stage :
  refused (make_pipeline_failure kind pipeline_result stage).
Proof.
  split; [..|left; apply pipeline_failure_consistent]; unfold make_pipeline_failure;
    destruct (match ppr_registry_result pipeline_result with Some _ => _ | None => _ end);
    by repeat split; try eexists.
Qed.

(** A call that is prepared carries what the pipeline has let through, and is valid. *)
Lemma prepare_exact kind manager now_ms request prepared :
  prepare_call kind manager now_ms request = Some prepared ->
  match prepared with
  | Err failure => refused failure
  | Ok (call_request, _) =>
      let base := base_request kind now_ms (lgr_request request) in
      exists compose_result policy_decision,
        pipeline_allows (run_pipeline manager request base) = Some (compose_result, policy_decision) /\
        call_request = governed_request base (ppd_governed_messages policy_decision)
                         (pcm_selected_prompt_id compose_result) (pcm_selected_version compose_result) /\
        llm_request_ok call_request
  end.
Proof.
  unfold prepare_call. cbn zeta. destruct (negb (lmg_initialized manager));
    [intros [= <-]; by apply refusal_refused|].
  destruct (validate_generate_request _ _ _) as [invalid|] eqn:Ev.
  { intros [= <-]. unfold validate_generate_request in Ev.
    repeat (destruct (_ : bool); [injection Ev as <-; by apply refusal_refused|]). done. }
  destruct (validate_prompt_compose_request_field_rules _) as [validation|]; [|done].
  destruct (gr_ok validation); cbn; [|intros [= <-]; by apply refusal_refused].
  destruct (pipeline_allows _) as [[compose_result policy_decision]|] eqn:Ep;
    [|intros [= <-]; apply pipeline_failure_refused].
  destruct (validate_llm_request_field_rules _) as [call_validation|] eqn:Eg; [|done].
  destruct (gr_ok call_validation) eqn:Eo; cbn; intros [= <-]; [|by apply refusal_refused].
  exists compose_result, policy_decision. split; [done|]. split; [done|].
  apply llm_request_guard. by exists call_validation.
Qed.

(** The route that the router answers with. *)
Definition routed (manager : LLMManager) (request : LLMGenerateRequest)
    (health : ModelRouterHealthSnapshot) (route : ResolvedModelRoute) : Prop :=
  exists catalog_snapshot router_result,
    lmg_provider_catalog_snapshot manager = Some catalog_snapshot /\
    ModelRouter.resolve (lmg_model_router manager) (make_selection_hint request) catalog_snapshot health
      = Some router_result /\
    mrr_resolved_route router_result = Some route.

Lemma plan_exact kind manager request health planned :
  plan_routes kind manager request health = Some planned ->
  match planned with
  | Err failure => refused failure
  | Ok (catalog, _, candidates) =>
      candidates <> [] /\ lmg_provider_catalog_snapshot manager = Some catalog /\
      exists route, routed manager request health route /\ candidates = build_route_candidates route
  end.
Proof.
  unfold plan_routes. destruct (lmg_provider_catalog_snapshot manager) as [catalog|] eqn:Ec;
    [|intros [= <-]; by apply refusal_refused].
  destruct (negb (catalog_consistent catalog)); [intros [= <-]; by apply refusal_refused|].
  destruct (ModelRouter.resolve _ _ catalog health) as [router_result|] eqn:Er; [|done].
  destruct (mrr_resolved_route router_result) as [route|] eqn:Eroute;
    [|intros [= <-]; by apply refusal_refused].
  destruct (build_route_candidates route) as [|key candidates] eqn:Eb;
    [intros [= <-]; by apply refusal_refused|]. intros [= <-]. split; [done|]. split; [done|].
  exists route. split; [|done]. by exists catalog, router_result.
Qed.

(** C17. A request is refused before any route was tried, or its routes are tried in the order of
    the router, each at most once: every route before the one that answers was executed, in
    order and in the state the one before it left, and did not answer, and the request ends
    with the first that does, whose answer is valid and names its route; the routes behind it
    are not tried. If none of them answers, all were tried, and the last failure is reported,
    as that of the chain if it has several routes. What is answered is consistent, but for a
    refusal of what the pipeline has let through. *)
Theorem routes_tried_in_order kind manager w executor request w' executor' result :
  0 <= retry_budget executor < 2 ^ 32 - 1 ->
  generate_call kind manager w executor request = Some (w', executor', result) ->
  refused result \/
  exists call_request release catalog route,
    prepare_call kind manager (clock w) request = Some (Ok (call_request, release)) /\
    lmg_provider_catalog_snapshot manager = Some catalog /\
    let started := interfere others w executor in
    routed manager request (health_snapshot (exc_registry started.2)) route /\
    NoDup (build_route_candidates route) /\
    call_outcome kind call_request release catalog started.1 started.2
      (build_route_candidates route) w' executor' result /\
    manager_result_consistent result = true.
Proof.
  intros Hb. unfold generate_call. destruct (prepare_call _ _ _ _) as [prepared|] eqn:Ep; [|done].
  pose proof (prepare_exact _ _ _ _ _ Ep) as Hp. destruct prepared as [[call_request release]|failure];
    [|intros [= <- <- <-]; by left].
  destruct (interfere others w executor) as [w1 executor1] eqn:Ei.
  assert (retry_budget executor1 = retry_budget executor) as Hb1.
  { unfold interfere in Ei. destruct (others w executor) as [[? ?] ?]. by injection Ei as _ <-. }
  rewrite <-Hb1 in Hb.
  destruct (plan_routes _ _ _ _) as [planned|] eqn:El; [|done].
  apply plan_exact in El. destruct planned as [[[catalog reasons] candidates]|failure];
    [|intros [= <- <- <-]; by left].
  destruct El as (Hne & Hcat & route & Hroute & ->). intros H. right.
  exists call_request, release, catalog, route. split; [done|]. split; [done|]. cbn. split; [done|].
  destruct (build_candidates_sound route) as [Hd Hf]. split; [done|].
  apply (try_routes_exact _ _ _ _ _ _ w1 executor1) in H; [|done..|constructor].
  split; [done|]. by eapply call_outcome_consistent.
Qed.

(** ** That it ends *)

Lemma judge_defined kind call_request release catalog reasons registry now attempted route execution :
  (forall adapter_result usage, cer_adapter_result execution = Some adapter_result ->
    execution_succeeded execution = true -> execution_consistent execution = true ->
    acr_usage adapter_result = Some usage -> has_token_counts usage = true) ->
  is_Some (judge_execution kind call_request release catalog reasons registry now attempted route
             execution).
Proof.
  intros Hu. unfold judge_execution.
  destruct (execution_consistent execution) eqn:Hc; cbn; [|by eexists].
  destruct (execution_succeeded execution) eqn:Hs; cbn; [|by eexists].
  destruct (resolve_route registry route) as [route_state|]; [|by eexists].
  destruct (find_model catalog _ _) as [model|]; [|by eexists].
  destruct (succeeded_response _ Hc Hs) as (a & original & Ha & Ho & He). rewrite Ha.
  set (context := make_normalizer_context _ _ _ _ _).
  assert (is_Some (normalize a context)) as [n En].
  { destruct (normalize a context) as [n|] eqn:E; [by eexists|].
    destruct (context_consistent context) eqn:Hctx; [|unfold normalize in E; by rewrite Hctx in E].
    destruct (adapter_result_consistent a) eqn:Hcons;
      [|unfold normalize in E; by rewrite Hctx, Hcons in E].
    pose proof (normalize_exact _ _ _ Hctx Hcons Ho) as H. rewrite E in H.
    destruct H as (usage & Hn & Hnot & _). by rewrite (Hu a usage) in Hnot. }
  rewrite En. destruct (normalize_cases _ _ _ He En) as [(events & reason & ->)|(Hn & original' & response & _ & Hr & _)];
    [by eexists|]. unfold normalization_succeeded. rewrite Hn, Hr. by eexists.
Qed.

(** Every adapter that names a usage counts its tokens. *)
Definition adapters_count : Prop :=
  forall adapter_result usage, given ask_unary ask_stream adapter_result ->
    acr_usage adapter_result = Some usage -> has_token_counts usage = true.

Lemma try_routes_defined kind stage call_request release catalog reasons routes :
  adapters_count -> forall w executor attempted last_failure,
  0 <= retry_budget executor < 2 ^ 32 - 1 ->
  is_Some (try_routes kind stage call_request release catalog reasons w executor attempted last_failure
             routes).
Proof.
  intros Hcount. induction routes as [|route routes IH]; intros w executor attempted last_failure Hb;
    cbn [try_routes]; [by eexists|].
  destruct (execute_given kind w executor route call_request Hb)
    as (w1 & executor1 & execution & -> & Hb1 & Hgiven).
  unfold interfere. destruct (others w1 executor1) as [[w2 registry] count].
  set (executor2 := with_active _ count).
  assert (retry_budget executor2 = retry_budget executor) as E2 by done.
  destruct (judge_defined kind call_request release catalog reasons (exc_registry executor2) (clock w2)
    (attempted ++ [route]) route execution) as [judged Hj].
  { intros adapter_result usage Ha Hs Hc Hu. apply (Hcount adapter_result usage); [by apply Hgiven|done]. }
  rewrite Hj. destruct judged as [response|failure]; [by eexists|]. apply IH. by rewrite E2.
Qed.

(** C23. Every request is answered, after no more than its routes, under four conditions: the
    retry budget of the executor is below 2{^32} - 1, so that the count of attempts does not wrap;
    the counters of failures stay where the score of a route is an int ([counters_small]), as the
    overflow is undefined; the configured fallback chain has fewer than 999998 models, for the
    same reason; and the adapters that name a usage count its tokens, as the normalizer
    dereferences the counts of a usage without a look ([empty_usage_dereferenced] in
    LlmNormalize.v). *)
Theorem generate_returns kind manager w executor request :
  0 <= retry_budget executor < 2 ^ 32 - 1 -> adapters_count ->
  counters_small (make_selection_hint request)
    (health_snapshot (exc_registry (interfere others w executor).2)) ->
  (forall config, mdr_config (lmg_model_router manager) = Some config ->
    (length (ldc_fallback_chain (lsc_degrade_policy config)) < Z.to_nat 999998)%nat) ->
  is_Some (generate_call kind manager w executor request).
Proof.
  intros Hb Hcount Hsmall Hchain. unfold generate_call.
  assert (is_Some (prepare_call kind manager (clock w) request)) as [prepared ->].
  { unfold prepare_call. cbn zeta. destruct (negb _); [by eexists|].
    destruct (validate_generate_request _ _ _); [by eexists|].
    destruct (compose_request_total (make_prompt_compose_request request
      (base_request kind (clock w) (lgr_request request)))) as [validation ->].
    destruct (negb (gr_ok validation)); [by eexists|].
    destruct (pipeline_allows _) as [[compose_result policy_decision]|]; [|by eexists].
    match goal with |- context [validate_llm_request_field_rules ?r] =>
      destruct (llm_request_field_rules_total r) as [call_validation ->] end.
    by destruct (negb (gr_ok call_validation)); eexists. }
  destruct prepared as [[call_request release]|failure]; [|by eexists].
  unfold interfere in *. destruct (others w executor) as [[w1 registry] count]. cbn in Hsmall |- *.
  assert (is_Some (plan_routes kind manager request (health_snapshot registry))) as [planned ->].
  { unfold plan_routes. destruct (lmg_provider_catalog_snapshot manager) as [catalog|]; [|by eexists].
    destruct (negb _); [by eexists|].
    destruct (resolve_defined (lmg_model_router manager) (make_selection_hint request) catalog
      (health_snapshot registry) Hsmall Hchain) as [router_result ->].
    destruct (mrr_resolved_route router_result) as [route|]; [|by eexists].
    by destruct (build_route_candidates route); eexists. }
  destruct planned as [[[catalog reasons] candidates]|failure]; [|by eexists].
  by apply try_routes_defined.
Qed.

(** ** Set-up *)

(** A set-up that fails leaves the manager uninitialized, whatever it was before; one that
    succeeds makes it ready, with a consistent catalog and the sessions to stream into. *)
Lemma manager_init_exact load_catalog setup config setup' ready :
  manager_init load_catalog setup config = Some (setup', ready) ->
  let manager := mst_manager setup' in
  lmg_initialized manager = ready /\
  if ready
  then lmg_config manager = config /\
       hst_ready (manager_health_check manager (mst_executor setup')) = true /\
       (exists catalog, lmg_provider_catalog_snapshot manager = Some catalog /\
          catalog_consistent catalog = true) /\
       srg_initialized (mst_sessions setup') = true
  else mst_sessions setup' = mst_sessions setup /\ lmg_config manager = lmg_config (mst_manager setup).
Proof.
  unfold manager_init. cbn zeta. cbn [lmg_prompt_pipeline lmg_model_router lmg_provider_catalog_snapshot with_manager].
  destruct (negb (subsystem_config_consistent config)) eqn:Ec; [by intros [= <- <-]|].
  destruct (pipeline_init _ _) as [pipeline []]; cbn; [|by intros [= <- <-]].
  destruct (ModelRouter.init config _) as [router []]; cbn; [|by intros [= <- <-]].
  destruct (executor_init _ config) as [executor executor_ready] eqn:Ee.
  destruct executor_ready; cbn; [|by intros [= <- <-]].
  assert (exc_initialized executor = true) as Hinit.
  { unfold executor_init in Ee. rewrite Ec in Ee. by injection Ee as <-. }
  destruct (match arg_snapshot (exc_registry executor) with Some _ => _ | None => _ end)
    as [executor' registry_ready] eqn:Er.
  assert (registry_ready = true -> exc_initialized executor' = true /\
            is_Some (arg_snapshot (exc_registry executor'))) as Hregistry.
  { destruct (arg_snapshot (exc_registry executor)) as [routes|] eqn:Es; [injection Er as <- <-; by rewrite Es|].
    unfold AdapterRegistry.init, registry_failed in Er. destruct (negb _) in Er; cbn in Er; injection Er as <- <-; [done|].
    intros _. split; [done|by eexists]. }
  destruct registry_ready; cbn; [|by intros [= <- <-]].
  destruct (Hregistry eq_refl) as [Hi [routes Hroutes]].
  destruct (match lmg_provider_catalog_snapshot (mst_manager setup) with Some _ => _ | None => _ end)
    as [catalog|]; [|by intros [= <- <-]].
  destruct (catalog_consistent catalog) eqn:Ecat; cbn; [|by intros [= <- <-]].
  destruct (stream_sessions_config config) as [sessions_config|]; [|done].
  destruct (StreamSessions.init _ sessions_config) as [sessions sessions_ready] eqn:Ess.
  destruct sessions_ready; cbn; [|by intros [= <- <-]].
  intros [= <- <-]. cbn. unfold manager_health_check. cbn. rewrite Hroutes. split; [done|].
  split; [done|]. split; [done|]. split; [by exists catalog|].
  unfold StreamSessions.init in Ess. case_match; [done|]. by injection Ess as <-.
Qed.

End manager.

(** ** What the adapters are asked *)

Section asked.
Context {Adapter : Type} {sorting : StdSort} {visiting : UnorderedVisit}.
Context {Pipeline : Type} {pipeline_ops : PromptPipelineInterface Pipeline}.
Context {World : Type}.
Variable moved_from : string -> string.
Variable clock : World -> Z.
Variable others : World -> @Executor Adapter -> World * @AdapterRegistry Adapter * Z.
Variables ask_unary ask_unary' : World -> Adapter -> LLMRequest -> World * (AdapterCallResult * Z).
Variables ask_stream ask_stream' : World -> Adapter -> LLMRequest -> World * (StreamEnd * Z).

(** The request that is sent: the messages and the prompt are those the pipeline has let
    through, the route is one of the router's, the ids are the caller's. *)
Definition governed (kind : CallKind) (manager : LLMManager) (now_ms : Z)
    (request : LLMGenerateRequest) (sent : LLMRequest) : Prop :=
  let base := base_request kind now_ms (lgr_request request) in
  exists compose_result policy_decision health route route_key,
    pipeline_allows (run_pipeline manager request base) = Some (compose_result, policy_decision) /\
    routed manager request health route /\ route_key ∈ build_route_candidates route /\
    lrq_messages sent = Some (ppd_governed_messages policy_decision) /\
    lrq_prompt_id sent = pcm_selected_prompt_id compose_result /\
    lrq_prompt_version sent = pcm_selected_version compose_result /\
    lrq_model_route sent = Some route_key /\
    lrq_request_mode sent = Some (match kind with
                                  | CallKind.Unary => LLMRequestMode.Unary
                                  | CallKind.Stream => LLMRequestMode.Streaming
                                  end) /\
    lrq_request_id sent = lrq_request_id (lgr_request request) /\
    lrq_llm_call_id sent = lrq_llm_call_id (lgr_request request).

Lemma try_routes_agrees kind stage call_request release catalog reasons routes :
  (forall route_key timeout_ms, route_key ∈ routes ->
    agree_on ask_unary ask_unary' ask_stream ask_stream'
      (make_attempt_request call_request route_key timeout_ms
         (match kind with
          | CallKind.Unary => LLMRequestMode.Unary
          | CallKind.Stream => LLMRequestMode.Streaming
          end))) ->
  forall w executor attempted last_failure,
  try_routes moved_from clock others ask_unary ask_stream kind stage call_request release catalog
    reasons w executor attempted last_failure routes =
  try_routes moved_from clock others ask_unary' ask_stream' kind stage call_request release catalog
    reasons w executor attempted last_failure routes.
Proof.
  induction routes as [|route routes IH]; intros H w executor attempted last_failure; [done|].
  cbn [try_routes].
  rewrite (execute_agrees moved_from others ask_unary ask_unary' ask_stream ask_stream')
    by (intros timeout_ms; apply H; left).
  destruct (execute _ _ _ _ _ _ _ _ _) as [[[w1 executor1] execution]|]; [|done].
  destruct (interfere others w1 executor1) as [w2 executor2].
  destruct (judge_execution _ _ _ _ _ _ _ _ _ _) as [[response|failure]|]; [done| |done].
  apply IH. intros route_key timeout_ms Hin. apply H. by right.
Qed.

(** C10. An adapter is asked with nothing but governed requests: what adapters would do with any
    other makes no difference. *)
Theorem only_governed_asked kind manager w executor request :
  (forall sent, governed kind manager (clock w) request sent ->
    agree_on ask_unary ask_unary' ask_stream ask_stream' sent) ->
  generate_call moved_from clock others ask_unary ask_stream kind manager w executor request =
  generate_call moved_from clock others ask_unary' ask_stream' kind manager w executor request.
Proof.
  intros H. unfold generate_call.
  destruct (prepare_call kind manager (clock w) request) as [prepared|] eqn:Ep; [|done].
  apply prepare_exact in Ep. destruct prepared as [[call_request release]|failure]; [|done].
  destruct Ep as (compose_result & policy_decision & Hallow & -> & _).
  destruct (interfere others w executor) as [w1 executor1].
  destruct (plan_routes _ _ _ _) as [planned|] eqn:El; [|done]. apply plan_exact in El.
  destruct planned as [[[catalog reasons] candidates]|failure]; [|done].
  destruct El as (_ & _ & route & Hroute & ->). apply try_routes_agrees.
  intros route_key timeout_ms Hin. apply H.
  by exists compose_result, policy_decision, (health_snapshot (exc_registry executor1)), route, route_key.
Qed.

End asked.

(** ** Streams *)

Section streams.
Context {Adapter : Type} {sorting : StdSort} {visiting : UnorderedVisit}.
Context {Pipeline : Type} {pipeline_ops : PromptPipelineInterface Pipeline}.
Context {World : Type}.
Variable moved_from : string -> string.
Variable clock : World -> Z.
(** The calls of others on the sessions, before each call of the observer. *)
Variable meanwhile : World -> World * list SessionCall.

(** What a streaming adapter does with a request: its moves, the session it names and the
    time it takes. *)
Variable stream_moves : World -> Adapter -> LLMRequest -> list AdapterMove * string * Z.
Variable ask_unary : World -> Adapter -> LLMRequest -> World * (AdapterCallResult * Z).
Variable others : World * StreamSessionRegistry -> @Executor Adapter ->
                  (World * StreamSessionRegistry) * @AdapterRegistry Adapter * Z.

(** An attempt to stream, behind an observer that forwards to the caller's. *)
Definition ask_streaming (observer : option StreamDownstream)
    (state : World * StreamSessionRegistry) (adapter : Adapter) (request : LLMRequest)
    : (World * StreamSessionRegistry) * (StreamEnd * Z) :=
  let '(w, sessions) := state in
  let '(moves, named, elapsed_ms) := stream_moves w adapter request in
  let '(w, sessions, stream_end) :=
    stream_attempt clock meanwhile (default "" (lrq_model_route request)) observer w sessions moves
      named in
  ((w, sessions), (stream_end, elapsed_ms)).

Definition ask_beside (state : World * StreamSessionRegistry) (adapter : Adapter)
    (request : LLMRequest) : (World * StreamSessionRegistry) * (AdapterCallResult * Z) :=
  let '(w, sessions) := state in
  let '(w, answer) := ask_unary w adapter request in ((w, sessions), answer).

Definition stream_generate (observer : option StreamDownstream) (manager : LLMManager)
    (state : World * StreamSessionRegistry) (executor : @Executor Adapter)
    (request : LLMGenerateRequest) :=
  generate_call moved_from (fun state => clock state.1) others ask_beside (ask_streaming observer)
    CallKind.Stream manager state executor request.

(** ** Abandoned calls *)

Definition session_matches_call_id (session_id llm_call_id : string) : bool :=
  if bool_decide (session_id = llm_call_id) then true else
  let suffix_offset := (String.length session_id - String.length llm_call_id)%nat in
  if (String.length session_id <=? String.length llm_call_id)%nat then false else
  bool_decide (String.substring suffix_offset (String.length llm_call_id) session_id = llm_call_id)
  && bool_decide (String.get (suffix_offset - 1) session_id = Some ":"%char).

Definition abandon_call (w : World) (sessions : StreamSessionRegistry) (llm_call_id : string)
    : World * StreamSessionRegistry * bool :=
  if is_empty llm_call_id then (w, sessions, false) else
  let '(w, sessions, direct_cancel) :=
    touching meanwhile w sessions (fun _ sessions => request_cancel sessions llm_call_id) in
  if ssm_ok direct_cancel then (w, sessions, true) else
  let '(w, sessions, snapshots) :=
    touching meanwhile w sessions (fun _ sessions => (sessions, StreamSessions.snapshot sessions)) in
  match List.find (fun session => session_matches_call_id (sss_session_id session) llm_call_id)
          snapshots with
  | Some session =>
      let '(w, sessions, cancelled) :=
        touching meanwhile w sessions
          (fun _ sessions => request_cancel sessions (sss_session_id session)) in
      (w, sessions, ssm_ok cancelled)
  | None => (w, sessions, false)
  end.

(** An abandoned call leaves the sessions alone whose name neither is its id nor ends with
    it behind a colon. *)
Lemma abandon_touches_own w sessions llm_call_id other :
  others_quiet meanwhile other -> session_matches_call_id other llm_call_id = false ->
  let '(_, sessions', _) := abandon_call w sessions llm_call_id in
  srg_sessions sessions' !! other = srg_sessions sessions !! other.
Proof.
  intros Hq Hm.
  assert (llm_call_id <> other) as Hne.
  { intros ->. unfold session_matches_call_id in Hm. by rewrite bool_decide_true in Hm. }
  assert (forall A w sessions (call : World -> StreamSessionRegistry -> StreamSessionRegistry * A),
    (forall w sessions, srg_sessions (call w sessions).1 !! other = srg_sessions sessions !! other) ->
    srg_sessions (touching meanwhile w sessions call).1.2 !! other = srg_sessions sessions !! other)
    as Htouch.
  { intros A w0 sessions0 call Hcall.
    apply (touching_preserves meanwhile (fun record => record = srg_sessions sessions0 !! other) other
             (fun call => touches call other = false)); [|done| |done].
    - intros s c Hc H. by rewrite step_untouched.
    - intros w1 s H. by rewrite Hcall. }
  unfold abandon_call. destruct (is_empty llm_call_id); [done|].
  pose proof (Htouch _ w sessions (fun _ sessions => request_cancel sessions llm_call_id)
    (fun _ s => mutate_other s llm_call_id cancel_session other Hne)) as H1.
  destruct (touching meanwhile w sessions _) as [[w1 sessions1] direct]. cbn in H1.
  destruct (ssm_ok direct); [done|].
  pose proof (Htouch _ w1 sessions1 (fun _ sessions => (sessions, StreamSessions.snapshot sessions))
    (fun _ s => eq_refl)) as H2.
  destruct (touching meanwhile w1 sessions1 _) as [[w2 sessions2] snapshots]. cbn in H2.
  destruct (List.find _ snapshots) as [session|] eqn:Ef; [|by rewrite H2].
  apply find_some in Ef as [_ Hs].
  assert (sss_session_id session <> other) as Hne2 by (intros E; rewrite E in Hs; congruence).
  pose proof (Htouch _ w2 sessions2
    (fun _ sessions => request_cancel sessions (sss_session_id session))
    (fun _ s => mutate_other s (sss_session_id session) cancel_session other Hne2)) as H3.
  destruct (touching meanwhile w2 sessions2 _) as [[w3 sessions3] cancelled]. cbn in H3.
  by rewrite H3, H2.
Qed.

End streams.

(** ** Examples *)

(** A pipeline that lets one message through, whatever it is asked. *)
Definition sample_compose_result : PromptComposeResult :=
  {| pcm_messages := Some ["system: plan"; "user: go"]; pcm_selected_prompt_id := Some "planner";
     pcm_selected_version := Some "1"; pcm_estimated_tokens := Some 4; pcm_pruned_sections := None;
     pcm_composition_warnings := None |}.

Definition sample_policy_decision : PromptPolicyDecision :=
  {| ppd_disposition := PromptPolicyDisposition.Allow;
     ppd_governed_messages := ["system: plan"; "user: go"]; ppd_redactions := [];
     ppd_tool_visibility_patch := []; ppd_reason := "allow" |}.

Definition sample_release : PromptRelease :=
  {| prl_prompt_id := Some "planner"; prl_version := Some "1";
     prl_stage := Some CompositionStage.Planning; prl_eval_status := Some PromptEvalStatus.Stable;
     prl_release_scope := Some "stable"; prl_system_instructions := Some "plan";
     prl_task_template := Some "go"; prl_output_schema_ref := None; prl_few_shot_refs := None;
     prl_policy_notes := None; prl_rollback_from := None; prl_trusted_source := Some "official";
     prl_tags := None |}.

Definition sample_pipeline_result : PromptPipelineResult :=
  {| ppr_disposition := PromptPolicyDisposition.Allow;
     ppr_compose_result := Some sample_compose_result;
     ppr_policy_decision := Some sample_policy_decision;
     ppr_registry_result :=
       Some {| prr_code := None; prr_release := Some sample_release;
               prr_selected_prompt_id := "planner"; prr_selected_version := "1";
               prr_selection_reason := "default_release";
               prr_trusted_sources_matched := ["official"] |};
     ppr_reason := "" |}.

Definition fixed_pipeline : PromptPipelineInterface unit :=
  {| pipeline_init := fun pipeline _ => (pipeline, true);
     pipeline_run := fun _ _ _ _ => sample_pipeline_result;
     pipeline_lookup := fun _ _ => None |}.

Definition sample_manager : LLMManager (Pipeline := unit) :=
  {| lmg_config := sample_llm_config; lmg_initialized := true; lmg_prompt_pipeline := ();
     lmg_model_router := sample_router; lmg_provider_catalog_snapshot := Some sample_catalog |}.

Definition sample_generate_request : LLMGenerateRequest :=
  {| lgr_stage := "planner"; lgr_task_type := "plan"; lgr_request := sample_llm_request;
     lgr_prompt_release_id_override := None; lgr_selection_hint := Some sample_hint |}.

Definition sample_generate (ask_unary : list (AdapterCallResult * Z) -> string -> LLMRequest ->
      list (AdapterCallResult * Z) * (AdapterCallResult * Z)) (request : LLMGenerateRequest) :=
  generate_call (sorting := merging_sort) (visiting := listed_order) (pipeline_ops := fixed_pipeline)
    (fun text => text) (fun _ => 5000) nobody ask_unary no_stream CallKind.Unary sample_manager []
    sample_executor request.

(** The first route of the router has no adapter; the second one answers, under the reasons
    for which the first was chosen. *)
Example second_route_answers :
  (fun end_of_call => let result := end_of_call.2 in
     (lmr_attempted_routes result, lmr_resolved_route result, lmr_fallback_used result,
      lrs_prompt_id <$> lmr_response result, lmr_response result ≫= lrs_tags))
    <$> sample_generate sample_ask sample_generate_request =
  Some (["deepseek/reasoner"; "deepseek/chat"], "deepseek/chat", true, Some (Some "planner"),
        Some ["route=deepseek/chat"; "selection_reason=selected_primary_route";
              "selection_reason=preferred_tier_match"; "selection_reason=reasoning_task_bias";
              "selection_reason=verification_verified"; "selection_reason=stage:planner";
              "selection_reason=route_preference:cloud.reasoning";
              "selection_reason=fallback_chain_prepared"]).
Proof. vm_compute. reflexivity. Qed.

Definition with_call_id (request : LLMRequest) (llm_call_id : option string) : LLMRequest :=
  {| lrq_request_id := lrq_request_id request; lrq_llm_call_id := llm_call_id;
     lrq_model_route := lrq_model_route request; lrq_request_mode := lrq_request_mode request;
     lrq_messages := lrq_messages request; lrq_created_at := lrq_created_at request;
     lrq_prompt_id := lrq_prompt_id request; lrq_prompt_version := lrq_prompt_version request;
     lrq_output_schema_ref := lrq_output_schema_ref request;
     lrq_response_format := lrq_response_format request;
     lrq_runtime_budget := lrq_runtime_budget request;
     lrq_max_output_tokens := lrq_max_output_tokens request;
     lrq_timeout_ms := lrq_timeout_ms request; lrq_tags := lrq_tags request |}.

(** A call whose id is that of its request is refused, with a result that is not consistent:
    a failure of governance without a disposition. *)
Example same_ids_refused_inconsistently :
  (fun end_of_call => let result := end_of_call.2 in
     (lmr_failure_category result, lmr_governance_disposition result,
      manager_result_consistent result))
    <$> sample_generate sample_ask
          {| lgr_stage := "planner"; lgr_task_type := "plan";
             lgr_request := with_call_id sample_llm_request (Some "request-1");
             lgr_prompt_release_id_override := None; lgr_selection_hint := Some sample_hint |} =
  Some (Some LLMFailureCategory.PromptGovernance, None, false).
Proof. vm_compute. reflexivity. Qed.

(** An abandoned call takes the session of another one with it whose id ends like its own. *)
Example foreign_call_abandoned :
  let sessions := session_run idle_sessions
    [Accept "main:agent:7" "deepseek/chat" 900; MarkActive "main:agent:7"] in
  let '(_, sessions, abandoned) :=
    abandon_call (sorting := merging_sort) (visiting := listed_order) (fun _ : unit => ((), [])) ()
      sessions "7" in
  (abandoned, ssr_state <$> srg_sessions sessions !! "main:agent:7") =
  (true, Some StreamSessionState.CancelRequested).
Proof. vm_compute. reflexivity. Qed.

(** The first route was tried and did not answer. *)
Lemma routes_tried_in_order_witness :
  exists w' executor' result,
    sample_generate sample_ask sample_generate_request = Some (w', executor', result) /\
    exists call_request release w1 executor1,
      passed_over (sorting := merging_sort) (fun text => text) (fun _ => 5000) nobody sample_ask no_stream CallKind.Unary
        call_request release sample_catalog [] sample_executor ["deepseek/reasoner"] w1 executor1.
Proof.
  assert (exists response, (fun e => lmr_response e.2) <$> sample_generate sample_ask sample_generate_request
            = Some (Some response)) as [response Er] by (eexists; vm_compute; reflexivity).
  assert ((fun e => lmr_attempted_routes e.2) <$> sample_generate sample_ask sample_generate_request
            = Some ["deepseek/reasoner"; "deepseek/chat"]) as Ea by (vm_compute; reflexivity).
  destruct (sample_generate sample_ask sample_generate_request) as [[[w' executor'] result]|] eqn:E;
    [|discriminate Er].
  exists w', executor', result. split; [reflexivity|]. cbn in Er, Ea. injection Er as Er.
  injection Ea as Ea.
  destruct (routes_tried_in_order (sorting := merging_sort) (visiting := listed_order)
    (pipeline_ops := fixed_pipeline) (fun text => text) (fun _ => 5000) nobody sample_ask no_stream
    CallKind.Unary sample_manager [] sample_executor sample_generate_request w' executor' result
    ltac:(vm_compute; split; congruence) E)
    as [[Hr _ _ _]|(call_request & release & catalog & route & _ & Hc & _ & _ & Hout & _)].
  - rewrite Er in Hr. discriminate Hr.
  - exists call_request, release. injection Hc as <-.
    destruct Hout as [before first after answer w1 executor1 execution _ Hpassed _ _ _ _ _|failure _ _].
    + cbn in Ea. apply (app_inj_tail before ["deepseek/reasoner"]) in Ea as [-> _].
      exists w1, executor1. exact Hpassed.
    + discriminate Er.
Defined.

Lemma generate_returns_witness :
  0 <= retry_budget sample_executor < 2 ^ 32 - 1 /\
  is_Some (sample_generate (fun w _ _ => (w, (sample_answer, 0))) sample_generate_request).
Proof.
  assert (0 <= retry_budget sample_executor < 2 ^ 32 - 1) as H by (vm_compute; split; congruence).
  split; [exact H|].
  refine (generate_returns (sorting := merging_sort) (visiting := listed_order)
    (pipeline_ops := fixed_pipeline) (fun text => text) (fun _ => 5000) nobody
    (fun w _ _ => (w, (sample_answer, 0))) no_stream CallKind.Unary sample_manager [] sample_executor
    sample_generate_request H _ _ _).
  - intros adapter_result usage [(w & adapter & sent & <-)|(w & adapter & sent & Hs)] Hu.
    + discriminate Hu.
    + discriminate Hs.
  - split; [vm_compute; split; congruence|]. intros state Hin. apply list_elem_of_In in Hin.
    vm_compute in Hin. destruct Hin as [<-|[]]. vm_compute. split; congruence.
  - intros config [= <-]. cbn. lia.
Defined.

(** An adapter that is honest about one list of messages only. *)
Definition picky_ask (w : list (AdapterCallResult * Z)) (adapter : string) (request : LLMRequest)
    : list (AdapterCallResult * Z) * (AdapterCallResult * Z) :=
  if bool_decide (lrq_messages request = Some ["system: plan"; "user: go"])
  then sample_ask w adapter request else ([], (sample_answer, 1000000)).

Lemma only_governed_asked_witness :
  picky_ask [] "chat" sample_llm_request <> sample_ask [] "chat" sample_llm_request /\
  sample_generate picky_ask sample_generate_request = sample_generate sample_ask sample_generate_request.
Proof.
  split; [vm_compute; discriminate|].
  apply (only_governed_asked (sorting := merging_sort) (visiting := listed_order)
    (pipeline_ops := fixed_pipeline) (fun text => text) (fun _ => 5000) nobody picky_ask sample_ask
    no_stream no_stream CallKind.Unary sample_manager [] sample_executor sample_generate_request).
  intros sent (compose_result & policy_decision & health & route & route_key & Hp & _ & _ & Hm & _)
    w adapter. split; [|reflexivity].
  vm_compute in Hp. injection Hp as <- <-. unfold picky_ask. rewrite Hm. reflexivity.
Defined.
